(* ===== verification/_CoqProject ===== *)
-Q . S2P
Prelude.v
Strings.v
StdMap.v
InnerEvent.v
IoWaiter.v
EventQueue.v
EventRunner.v
BundleTypes.v
Errors.v
Json.v
InfoJson.v
PackJson.v
Skill.v
InnerBundleInfo.v
Parcel.v
Flow.v
ParcelInfos.v
BundleMgrIpc.v
BundleMgrCalls.v
BundleJson.v
InnerBundleQuery.v
InstallInfo.v
Profile.v
BundleProfile.v
ModuleProfile.v
ZipFile.v
BundleParser.v
BundlePermissionMgr.v
BundleStateStorage.v
BundleDataMgr.v
PreInstall.v
BundleDataQuery.v
Service.v
Resources.v
Sandbox.v
Clones.v
Installer.v
InstallerProps.v
Installers.v
BootScan.v
UserMgr.v
Aging.v
BundleMgrHostImpl.v
BundleRecovery.v
