(* ===== verification/Prelude.v ===== *)
(** * Verification of the OpenHarmony bundle manager framework

    The repository is the application execution framework of OpenHarmony: the
    bundle manager service, which installs bundles (HAP files), keeps what it
    knows about them and answers the queries of clients; the interface through
    which clients call it; and libeventhandler, the event queues and runners on
    which the service and its clients run.  The development models the C++ of
    these parts and proves what they promise.  Paths below are under src/.

    ** Conventions

    A C++ integer is a [Z], with the conversions [u32], [i32], [i64] where the
    code makes them; a [std::map] is a [stdmap] (a list in key order), a
    [std::string] a [string], a struct a record with one field per member.  A
    function that changes an object takes it and gives it back.  A function
    that may throw, and one that follows a null pointer, gives [None] or
    [Throws]; an error code is a value.  A function that holds the lock of its
    object for its whole body is one atomic step; where a lock is given up, the
    function is cut there, and the interleavings are an inductive relation.
    Services that the code only calls - the access token service, installd, the
    key-value store, the IPC parcels, the JSON text format, zlib, std::sort,
    regular expressions, the resource manager - are type classes with the laws
    the code relies on, and each class has a concrete instance for the examples.

    ** The parts

    Shared: this file (widths, tactics, lemmas on lists), Strings.v, StdMap.v,
    Errors.v (appexecfwk_errors.h), BundleTypes.v (the information objects of
    interfaces/inner_api/appexecfwk_base/include).

    Event handling (libs/libeventhandler):
    - InnerEvent.v: inner_event.cpp, events, waiters and the pool of events;
    - IoWaiter.v: none_io_waiter.cpp and epoll_io_waiter.cpp;
    - EventQueue.v: event_queue.cpp, the queues by priority and time, with
      [GetEvent] as the two steps around its blocking;
    - EventRunner.v: event_handler.cpp and event_runner.cpp, a runner's thread
      as a step relation.

    Data of bundles (interfaces/inner_api, services/bundlemgr):
    - Json.v, InfoJson.v, PackJson.v, BundleJson.v: json_util.h and the to_json
      and from_json functions, with the variable [parseResult] of the thread in
      which they report;
    - Parcel.v, ParcelInfos.v: the parcels of remote calls;
    - Skill.v, InnerBundleInfo.v, InnerBundleQuery.v, InstallInfo.v:
      inner_bundle_info.cpp, the state of one bundle, its queries and what the
      installers write into it.

    From the file to the description:
    - ZipFile.v: zip_file.cpp byte by byte, base_extractor.cpp and
      bundle_extractor.cpp;
    - Profile.v, BundleProfile.v, ModuleProfile.v: bundle_profile.cpp
      (config.json) and module_profile.cpp (module.json), which turn a profile
      into an InnerBundleInfo;
    - BundleParser.v: bundle_parser.cpp on top of both, the system capabilities
      (syscap_tool.c), pre_bundle_profile.cpp and
      default_permission_profile.cpp.

    The service (services/bundlemgr):
    - BundlePermissionMgr.v, BundleStateStorage.v, PreInstall.v: the managers of
      the same names;
    - BundleDataMgr.v, BundleDataQuery.v: bundle_data_mgr.cpp on
      bundle_data_storage_database.cpp, its changes and its queries;
    - Flow.v, Service.v: the state of the whole service and the control flow of
      functions with error codes on it;
    - Resources.v, Clones.v, Sandbox.v: configuration files and labels,
      bundle_clone_mgr.cpp, sandbox_app/;
    - Installer.v, InstallerProps.v, Installers.v: base_bundle_installer.cpp,
      what it leaves behind, and the installers of several users, their pool
      and their host;
    - BundleRecovery.v: what a restart makes of the stored bundles;
    - BootScan.v: bundle_mgr_service_event_handler.cpp and bundle_scanner.cpp,
      what a start of the device does with the delivered bundles;
    - UserMgr.v: bundle_user_mgr_host_impl.cpp, the creation and removal of users
      on the host of the installers;
    - Aging.v: aging/, the uninstallation of bundles that are not used.

    The interface:
    - BundleMgrIpc.v, BundleMgrCalls.v: bundle_mgr_proxy.cpp and
      bundle_mgr_host.cpp, and what a client sees through them;
    - BundleMgrHostImpl.v: bundle_mgr_host_impl.cpp, the service behind the
      interface with the permissions it asks.

    The parts meet as in the code: a client's call goes through BundleMgrIpc to
    BundleMgrHostImpl, which queries and changes the data manager inside
    [Service]; the installers run on the same [Service], write through
    BundleDataMgr to the store, and tell the access token service and the
    listeners; a restart reads the store back (BundleRecovery) and then runs the
    installers for what the device delivers (BootScan); users are created and
    removed, and unused bundles uninstalled, by requests to the host of the
    installers (UserMgr, Aging).

    ** What the theorems show

    - Queues: no wake-up of a waiting thread is lost, LOW events are not
      starved, every reachable queue is well formed, a recycled event is clean.
    - Calls: a call through the proxy and the host gives what the service
      gives; a call without the permission changes nothing, and neither does a
      query.
    - Data manager: no two bundles share a uid (the clones apart), uids
      identify user and bundle, a change that succeeds is in the store (for the
      seven operations of [store_step]), install states follow their table, the
      implicit queries find exactly the abilities that match and that the flags
      let in.
    - Stores: what ToJson writes FromJson reads, a restart brings back the
      bundles that were stored, an error of the reader outlives the entry that
      caused it, the state file and the pre-installed bundles survive when the
      store answers.
    - Start: when nothing is new and nothing is gone, a start leaves the whole
      service as it is.
    - Bundles: updating a module, the users of a bundle against their
      specification, the modules a module depends on (with a bound on the
      loop), the views for clients, the matching of wants.
    - Files: an archive of stored entries gives back the files it was made of,
      and no archive ever bytes from outside; an accepted profile gives a
      well-formed bundle, one that lacks a property of [incomplete] an error and
      no change; parsing an archive of stored entries is transforming its
      profile; the system capabilities come out as they went in; an error that
      one profile leaves behind refuses the next config.json that is JSON.
    - Installers: a fresh installation is there after success and gone after
      failure, a lower version is refused, a bundle is never left disabled, an
      uninstallation removes what it says; a sandbox that is
      installed and removed leaves indexes, sandboxes and - when it had an id of
      its own - the ids as they were; each request to the host is answered once; creating or
      removing a user waits for all its bundles, and for nothing else;
      the aging takes the longest unused bundles and stops when enough is free.

    ** Bounds and fuel

    [dependents_fuel] is twice the number of dependencies plus one, and a
    theorem shows that it is enough.  [uids_identify] holds for users up to
    [MAX_SAFE_USERID] (10737), beyond which the product of the user and the
    range of uids leaves the 32 bits.  Sandbox indexes go up to [MAX_APP_INDEX]
    (100), as in the code.  The loops over an archive take the number of its
    entries and the size of the data as fuel, both enough; the loop around
    inflate has a number of rounds as an argument, and [None] says that it was
    not done, because only zlib knows how much it will give out.

    ** Not modelled

    Logging, tracing, event reports and dumps.  The JavaScript bindings,
    bundle_tool and the distributed bundle framework, which only forward calls.
    installd and its client: file system operations.  The free install
    connection: connections to other services.  The zip library of tools/zip.  The signature verification.
    Where std::set puts a PreScanInfo, whose [operator<] is no strict order, is
    an argument of BootScan.v.  The thread collector of event_runner.cpp, and in the interface the proxies of the
    installer, the users and the callbacks. *)

From stdpp Require Export base tactics sets list numbers option strings pretty sorting.
From Stdlib Require Export ZArith Lia.
From Stdlib Require Import Sorting.Sorted.

#[global] Set Default Goal Selector "!".

Declare Scope cpp_scope.
Delimit Scope cpp_scope with cpp.

(** ** Machine integers

    A C++ integer is a [Z]; the functions below are the conversions to a
    given width (two's complement for the signed types), and the constants
    are the limits the sources name. *)

Definition u32 (x : Z) : Z := x mod 2 ^ 32.
Definition u64 (x : Z) : Z := x mod 2 ^ 64.
Definition i32 (x : Z) : Z := (x + 2 ^ 31) mod 2 ^ 32 - 2 ^ 31.
Definition i64 (x : Z) : Z := (x + 2 ^ 63) mod 2 ^ 64 - 2 ^ 63.

Definition INT32_MAX : Z := 2147483647.
Definition INT64_MAX : Z := 9223372036854775807.
Definition UINT32_MAX : Z := 4294967295.

Definition in_u32 (x : Z) : Prop := (0 <= x <= UINT32_MAX)%Z.
Definition in_i32 (x : Z) : Prop := (- INT32_MAX - 1 <= x <= INT32_MAX)%Z.
Definition in_i64 (x : Z) : Prop := (- INT64_MAX - 1 <= x <= INT64_MAX)%Z.

Notation "x '+u32' y" := (u32 (x + y)%Z) (at level 50, left associativity) : cpp_scope.
Notation "x '+i32' y" := (i32 (x + y)%Z) (at level 50, left associativity) : cpp_scope.
Notation "x '*i32' y" := (i32 (x * y)%Z) (at level 40, left associativity) : cpp_scope.

(** Bit tests as the sources write them: [(flags & bit) == bit] and
    [(flags & bit) != 0]. *)
Definition has_flag (flags bit : Z) : bool := (Z.land flags bit =? bit)%Z.
Definition any_flag (flags mask : Z) : bool := negb (Z.land flags mask =? 0)%Z.

Create HintDb cpp.

Lemma u32_id x : in_u32 x → u32 x = x.
Proof. unfold in_u32, u32, UINT32_MAX. intros. apply Z.mod_small. lia. Qed.

Lemma u32_range x : in_u32 (u32 x).
Proof. unfold in_u32, u32, UINT32_MAX. pose proof (Z.mod_pos_bound x (2 ^ 32)). lia. Qed.

Lemma i32_range x : in_i32 (i32 x).
Proof. unfold in_i32, i32, INT32_MAX. pose proof (Z.mod_pos_bound (x + 2 ^ 31) (2 ^ 32) ltac:(done)). lia. Qed.
Lemma i32_id x : in_i32 x → i32 x = x.
Proof. unfold in_i32, i32, INT32_MAX. intros. rewrite Z.mod_small; lia. Qed.

Lemma i64_id x : in_i64 x → i64 x = x.
Proof. unfold in_i64, i64, INT64_MAX. intros. rewrite Z.mod_small; lia. Qed.

#[export] Hint Resolve u32_range : cpp.

(** ** Tactics *)

(** Opens every [if]/[match] on a test and turns boolean comparisons on [Z]
    into inequalities, so that [lia] finishes the arithmetic. *)
Ltac zbool :=
  repeat match goal with
  | H : (_ <? _)%Z = true |- _ => apply Z.ltb_lt in H
  | H : (_ <? _)%Z = false |- _ => apply Z.ltb_ge in H
  | H : (_ <=? _)%Z = true |- _ => apply Z.leb_le in H
  | H : (_ <=? _)%Z = false |- _ => apply Z.leb_gt in H
  | H : (_ =? _)%Z = true |- _ => apply Z.eqb_eq in H
  | H : (_ =? _)%Z = false |- _ => apply Z.eqb_neq in H
  | H : _ && _ = true |- _ => apply andb_true_iff in H as [? ?]
  | H : _ || _ = false |- _ => apply orb_false_iff in H as [? ?]
  | H : negb _ = true |- _ => apply negb_true_iff in H
  | H : negb _ = false |- _ => apply negb_false_iff in H
  end.

Ltac case_bools :=
  repeat (case_match; zbool; simplify_eq/=).

Lemma land_bit x n : (0 <= n)%Z → (if Z.testbit x n then 2 ^ n else 0)%Z = Z.land x (2 ^ n).
Proof.
  intros Hn. apply Z.bits_inj'. intros m Hm. rewrite Z.land_spec, Z.pow2_bits_eqb by lia.
  destruct (n =? m)%Z eqn:E; zbool; subst.
  - destruct (Z.testbit x m) eqn:Ex; rewrite ?Z.pow2_bits_eqb by lia; [by rewrite Z.eqb_refl|by rewrite Z.bits_0].
  - rewrite andb_false_r. destruct (Z.testbit x n); [|apply Z.bits_0].
    rewrite Z.pow2_bits_eqb by lia. by apply Z.eqb_neq.
Qed.

(** Splits nested pairs bound by [let '(_, _) := _ in _]. *)
Ltac split_lets :=
  repeat match goal with
  | |- context [let '(_, _) := ?p in _] => let E := fresh "E" in destruct p eqn:E
  | H : context [let '(_, _) := ?p in _] |- _ => let E := fresh "E" in destruct p eqn:E
  end.

(** ** std::upper_bound and insertion into a std::list

    [std::upper_bound(first, last, v, comp)] returns the first position
    whose element [e] satisfies [comp(v, e)]; the standard requires the
    range to be partitioned by that test, which the queues keep as an
    invariant. *)

Fixpoint upper_bound {A} (comp : A → A → bool) (v : A) (l : list A) : nat :=
  match l with
  | [] => 0
  | e :: l' => if comp v e then 0 else S (upper_bound comp v l')
  end.

Definition insert_at {A} (n : nat) (v : A) (l : list A) : list A :=
  take n l ++ v :: drop n l.

(** The comparator [first->GetX() < second->GetX()] for a numeric key. *)
Definition key_less {A} (key : A → Z) (a b : A) : bool := (key a <? key b)%Z.

Section UpperBound.
Context {A : Type} (key : A → Z).

Definition key_sorted : list A → Prop := StronglySorted (λ a b, (key a <= key b)%Z).

Lemma insert_at_permutation n v (l : list A) : insert_at n v l ≡ₚ v :: l.
Proof.
  unfold insert_at. rewrite <- Permutation_middle. by rewrite take_drop.
Qed.

Lemma upper_bound_cons v e l :
  insert_at (upper_bound (key_less key) v (e :: l)) v (e :: l)
  = if key_less key v e then v :: e :: l else e :: insert_at (upper_bound (key_less key) v l) v l.
Proof. simpl. by destruct (key_less key v e). Qed.

Lemma insert_upper_bound_sorted v l :
  key_sorted l → key_sorted (insert_at (upper_bound (key_less key) v l) v l).
Proof.
  induction 1 as [|e l Hl IH Hall]; [repeat constructor|].
  rewrite upper_bound_cons. destruct (key_less key v e) eqn:E; unfold key_less in E; zbool.
  - constructor; [by constructor|]. constructor; [lia|].
    eapply Forall_impl; [exact Hall|]. simpl. lia.
  - constructor; [exact IH|].
    rewrite insert_at_permutation. constructor; [lia|exact Hall].
Qed.

(** The element goes behind every element that is not later: events with
    the same handle time stay in the order they were sent. *)
Lemma insert_upper_bound_split v l :
  key_sorted l →
  ∃ l1 l2, l = l1 ++ l2 ∧ insert_at (upper_bound (key_less key) v l) v l = l1 ++ v :: l2
    ∧ Forall (λ e, key e <= key v)%Z l1 ∧ Forall (λ e, key v < key e)%Z l2.
Proof.
  induction 1 as [|e l Hl IH Hall].
  { exists [], []. by repeat split. }
  rewrite upper_bound_cons. destruct (key_less key v e) eqn:E; unfold key_less in E; zbool.
  - exists [], (e :: l). repeat split; [constructor|]. constructor; [lia|].
    eapply Forall_impl; [exact Hall|]. simpl. lia.
  - destruct IH as (l1 & l2 & -> & -> & H1 & H2).
    exists (e :: l1), l2. by repeat split; [constructor; [lia|]|].
Qed.

Lemma key_sorted_filter (P : A → Prop) `{∀ x, Decision (P x)} l :
  key_sorted l → key_sorted (filter P l).
Proof.
  induction 1 as [|e l Hl IH Hall]; [constructor|].
  rewrite filter_cons. case_decide; [|done].
  constructor; [done|]. rewrite Forall_forall in Hall |- *.
  intros x [_ Hx]%list_elem_of_filter. auto.
Qed.

Lemma key_sorted_tail e l : key_sorted (e :: l) → key_sorted l.
Proof. by inversion 1. Qed.

Lemma key_sorted_head e l x : key_sorted (e :: l) → x ∈ l → (key e <= key x)%Z.
Proof. inversion 1 as [|?? _ Hall]; subst. rewrite Forall_forall in Hall. auto. Qed.
End UpperBound.

#[export] Hint Resolve insert_upper_bound_sorted key_sorted_tail key_sorted_filter : cpp.

(** ** Record updates

    [r <| f := v |>] is [r] with the field [f] set to [v], the assignment
    [r.f = v] of the sources.  A record type that is updated declares its
    expansion over its projections ([Eta]); the update of each field is then
    found by instance search. *)

Class Eta (R : Type) := eta : R → R.
Class Setter {R T : Type} (proj : R → T) := set_field : (T → T) → R → R.
Arguments set_field {R T} proj {_} f r.

Ltac solve_setter :=
  lazymatch goal with
  | |- @Setter ?R ?T ?p =>
      let f := fresh "f" in let r := fresh "r" in
      intros f r;
      let i := constr:(_ : Eta R) in
      let h := eval cbv beta delta [eta] in (i r) in
      let e := eval hnf in h in
      lazymatch eval pattern (p r) in e with
      | ?F _ => let g := eval cbv beta in (F (f (p r))) in exact g
      end
  end.

#[export] Hint Extern 1 (Setter _) => solve_setter : typeclass_instances.

Notation "r <| p := v |>" := (set_field p (λ _, v) r)
  (at level 1, left associativity, format "r  <| p  :=  v |>").
Notation "r <| p ::= f |>" := (set_field p f r)
  (at level 1, left associativity, format "r  <| p  ::=  f |>").
