(* ===== verification/Strings.v ===== *)
(** * Strings: text and numbers of the C++ library

    Characters of a [std::string], [atoi] and that it reads back what
    [std::to_string] prints. *)

From stdpp Require Import strings pretty.
From Stdlib Require Import Ascii.
From S2P Require Import Prelude.

Open Scope string_scope.
Open Scope list_scope.
Open Scope Z_scope.

Fixpoint str_forall (P : ascii → bool) (s : string) : bool :=
  match s with EmptyString => true | String c s' => P c && str_forall P s' end.

Fixpoint str_drop (n : nat) (s : string) : string :=
  match n, s with S n, String _ s' => str_drop n s' | _, _ => s end.

(** [atoi]: an optional sign, then digits up to the first other character. *)
Definition digit (c : ascii) : option Z :=
  let n := Z.of_N (N_of_ascii c) - 48 in if (0 <=? n) && (n <=? 9) then Some n else None.
Fixpoint digits (acc : Z) (s : string) : Z :=
  match s with
  | EmptyString => acc
  | String c s' => match digit c with Some d => digits (10 * acc + d) s' | None => acc end
  end.
Definition atoi (s : string) : Z :=
  match s with String "-" s' => - digits 0 s' | _ => digits 0 s end.

(** [s.find(sub) == 0] *)
Definition find_at_start (sub s : string) : bool := String.prefix sub s.

Fixpoint str_contains (sub s : string) : bool :=
  String.prefix sub s || match s with EmptyString => false | String _ s' => str_contains sub s' end.

Definition str_empty (s : string) : bool := match s with EmptyString => true | _ => false end.

(** [s.back()] of a non empty string, and [s.substr(0, s.length() - 1)]. *)
Fixpoint str_back (s : string) : option Ascii.ascii :=
  match s with
  | EmptyString => None
  | String a EmptyString => Some a
  | String _ s' => str_back s'
  end.
Fixpoint str_init (s : string) : string :=
  match s with
  | EmptyString => EmptyString
  | String _ EmptyString => EmptyString
  | String a s' => String a (str_init s')
  end.

(** * Properties *)

Lemma str_back_init s c : str_back s = Some c → s = str_init s +:+ String c "".
Proof.
  induction s as [|a s IH]; [done|]. destruct s as [|b s]; [intros; by simplify_eq/=|].
  intros H. change (String a (String b s) = String a (str_init (String b s) +:+ String c "")).
  f_equal. by apply IH.
Qed.

Lemma str_back_app s c : str_back (s +:+ String c "") = Some c.
Proof. induction s as [|a s IH]; [done|]. simpl. rewrite IH. by destruct s. Qed.

Lemma str_init_app s c : str_init (s +:+ String c "") = s.
Proof. induction s as [|a s IH]; [done|]. simpl. rewrite IH. by destruct s. Qed.

Lemma prefix_app sub s : String.prefix sub s = true ↔ ∃ t, s = sub +:+ t.
Proof.
  revert sub. induction s as [|b s IH]; intros [|a sub]; simpl.
  - split; [by exists ""|done].
  - split; [discriminate|intros [t Ht]; discriminate].
  - split; [intros _; by exists (String b s)|done].
  - destruct (Ascii.ascii_dec a b) as [->|Hne].
    + rewrite IH. split; intros [t Ht]; exists t; [by rewrite Ht|by injection Ht].
    + split; [discriminate|]. intros [t Ht]. injection Ht. congruence.
Qed.

Lemma str_empty_spec s : str_empty s = true ↔ s = "".
Proof. by destruct s. Qed.

Lemma string_app_assoc s t u : (s +:+ t) +:+ u = s +:+ (t +:+ u).
Proof. induction s as [|a s IH]; [done|]. exact (f_equal (String a) IH). Qed.

Lemma string_length_app s t : String.length (s +:+ t) = (String.length s + String.length t)%nat.
Proof. induction s as [|c s IH]; [done|]. exact (f_equal S IH). Qed.

Lemma string_app_nil_r s : s +:+ "" = s.
Proof. induction s as [|c s IH]; [done|]. exact (f_equal (String c) IH). Qed.

Lemma str_drop_all s n : (String.length s <= n)%nat → str_drop n s = "".
Proof. revert n. induction s as [|c s IH]; intros [|n]; simpl; try lia; [done|done|]. intros. apply IH. lia. Qed.

Lemma str_drop_app s t : str_drop (String.length s) (s +:+ t) = t.
Proof. induction s as [|c s IH]; [done|exact IH]. Qed.

(** ** Pieces of a string *)

Lemma substring_drop n m s : String.substring n m s = String.substring 0 m (str_drop n s).
Proof. revert n. induction s as [|c s IH]; intros [|n]; [by destruct m..|done|apply IH]. Qed.

Lemma substring_app_drop m s : String.substring 0 m s +:+ str_drop m s = s.
Proof. revert m. induction s as [|c s IH]; intros [|m]; [done..|exact (f_equal (String c) (IH m))]. Qed.

Lemma str_drop_drop n m s : str_drop n (str_drop m s) = str_drop (m + n) s.
Proof. revert m. induction s as [|c s IH]; intros [|m]; [by destruct n..|done|apply IH]. Qed.

Lemma substring_middle a b c : String.substring (String.length a) (String.length b) (a +:+ b +:+ c) = b.
Proof.
  rewrite substring_drop, str_drop_app. induction b as [|x b IH]; [by destruct c|exact (f_equal (String x) IH)].
Qed.

Lemma concat_cons s l : String.concat "" (s :: l) = s +:+ String.concat "" l.
Proof. destruct l; simpl; [by rewrite string_app_nil_r|done]. Qed.

(** ** Numbers *)

Lemma digit_char x : (x < 10)%N → digit (pretty_N_char x) = Some (Z.of_N x).
Proof.
  intros Hx. assert (x = 0 ∨ x = 1 ∨ x = 2 ∨ x = 3 ∨ x = 4 ∨ x = 5 ∨ x = 6 ∨ x = 7 ∨ x = 8 ∨ x = 9)%N as Hc by lia.
  repeat destruct Hc as [->|Hc]; [..|subst]; reflexivity.
Qed.

Lemma digits_go x s : digits 0 (pretty_N_go x s) = digits (Z.of_N x) s.
Proof.
  revert s. induction (N.lt_wf_0 x) as [x _ IH]; intros s.
  destruct (decide (x = 0%N)) as [->|Hx]; [by rewrite pretty_N_go_0|].
  rewrite pretty_N_go_step by lia. rewrite IH by (apply N.div_lt; lia).
  simpl digits. rewrite digit_char by (apply N.mod_lt; lia). f_equal.
  pose proof (N.div_mod x 10 ltac:(lia)). lia.
Qed.

(** Every character of a printed number satisfies [P] when digits and the
    minus sign do. *)
Lemma pretty_N_go_forall P x s :
  (∀ n, (n < 10)%N → P (pretty_N_char n) = true) → str_forall P s = true → str_forall P (pretty_N_go x s) = true.
Proof.
  intros HP. revert s. induction (N.lt_wf_0 x) as [x _ IH]; intros s Hs.
  destruct (decide (x = 0%N)) as [->|Hx]; [by rewrite pretty_N_go_0|].
  rewrite pretty_N_go_step by lia. apply IH; [apply N.div_lt; lia|].
  simpl. rewrite HP by (apply N.mod_lt; lia). done.
Qed.

Lemma pretty_N_go_ne_empty x s : s ≠ "" → pretty_N_go x s ≠ "".
Proof.
  revert s. induction (N.lt_wf_0 x) as [x _ IH]; intros s Hs.
  destruct (decide (x = 0%N)) as [->|Hx]; [by rewrite pretty_N_go_0|].
  rewrite pretty_N_go_step by lia. apply IH; [apply N.div_lt; lia|done].
Qed.

Lemma pretty_pos_go p : pretty (Z.pos p) = pretty_N_go (N.pos p) "".
Proof. done. Qed.

Lemma atoi_pretty (z : Z) : atoi (pretty z) = z.
Proof.
  destruct z as [|p|p]; [done| |].
  - rewrite pretty_pos_go. pose proof (digits_go (N.pos p) "") as Hd.
    pose proof (pretty_N_go_ne_dash (N.pos p) "") as Hne.
    destruct (pretty_N_go (N.pos p) "") as [|c s]; [done|].
    unfold atoi. destruct (decide (c = "-"%char)) as [->|Hc]; [by destruct (Hne s)|].
    assert (atoi (String c s) = digits 0 (String c s)) as Ha.
    { unfold atoi. destruct c as [[] [] [] [] [] [] [] []]; try done. }
    unfold atoi in Ha. rewrite Ha, Hd. done.
  - change (pretty (Z.neg p)) with (String "-"%char (pretty_N_go (N.pos p) "")). simpl atoi.
    by rewrite digits_go.
Qed.

Lemma pretty_Z_forall P (z : Z) :
  (∀ n, (n < 10)%N → P (pretty_N_char n) = true) → P "-"%char = true → str_forall P (pretty z) = true.
Proof.
  intros HP Hm. destruct z as [|p|p].
  - change (P (pretty_N_char 0) && true = true). by rewrite HP by lia.
  - rewrite pretty_pos_go. by apply pretty_N_go_forall.
  - change (P "-"%char && str_forall P (pretty_N_go (N.pos p) "") = true).
    rewrite Hm. by apply pretty_N_go_forall.
Qed.

Lemma pretty_N_go_length k x s :
  (x < 10 ^ N.of_nat k)%N → (String.length (pretty_N_go x s) <= k + String.length s)%nat.
Proof.
  revert x s. induction k as [|k IH]; intros x s Hx.
  - change (10 ^ N.of_nat 0)%N with 1%N in Hx. replace x with 0%N by lia. by rewrite pretty_N_go_0.
  - destruct (decide (x = 0%N)) as [->|Hx0]; [rewrite pretty_N_go_0; lia|].
    rewrite pretty_N_go_step by lia. etrans; [apply IH|simpl; lia].
    rewrite Nat2N.inj_succ, N.pow_succ_r' in Hx. apply N.Div0.div_lt_upper_bound. lia.
Qed.

Lemma pretty_short (n : nat) : Z.of_nat n <= INT32_MAX → (String.length (pretty (Z.of_nat n)) < 16)%nat.
Proof.
  intros Hn. destruct n as [|n]; [vm_compute; lia|]. change (Z.of_nat (S n)) with (Z.pos (Pos.of_succ_nat n)) in *.
  rewrite pretty_pos_go. eapply Nat.le_lt_trans; [apply (pretty_N_go_length 10)|simpl; lia].
  change (10 ^ N.of_nat 10)%N with 10000000000%N. unfold INT32_MAX in Hn. lia.
Qed.

Lemma pretty_char_not_nul x : (x < 10)%N → negb (bool_decide (pretty_N_char x = Ascii.zero)) = true.
Proof.
  intros Hx. assert (x = 0 ∨ x = 1 ∨ x = 2 ∨ x = 3 ∨ x = 4 ∨ x = 5 ∨ x = 6 ∨ x = 7 ∨ x = 8 ∨ x = 9)%N as Hc by lia.
  repeat destruct Hc as [->|Hc]; [..|subst]; reflexivity.
Qed.
