(* ===== verification/StdMap.v ===== *)
(** * std::map

    The ordered associative container of the C++ standard library, as the
    sources use it: [find], [emplace]/[try_emplace] (no overwrite),
    [operator[]] assignment and [insert_or_assign] (overwrite), [erase] by key
    or by iterator, [begin]/[rbegin], and iteration in key order.  A map is the
    list of its pairs in strictly increasing key order ([sm_wf], preserved by
    every operation); two well-formed maps with the same lookups are equal. *)

From stdpp Require Import strings.
From Stdlib Require Import Sorting.Sorted Ascii.
From S2P Require Import Prelude.

(** ** Key orders *)

Class KeyOrder (K : Type) `{EqDecision K} := {
  key_lt : K → K → bool;
  key_lt_irrefl k : key_lt k k = false;
  key_lt_trans a b c : key_lt a b = true → key_lt b c = true → key_lt a c = true;
  key_lt_total a b : key_lt a b = false → key_lt b a = false → a = b;
}.

#[export] Program Instance Z_key_order : KeyOrder Z := {| key_lt := Z.ltb |}.
Next Obligation. intros k. simpl. lia. Qed.
Next Obligation. simpl. intros. lia. Qed.
Next Obligation. simpl. intros. lia. Qed.

(** [std::string::compare] goes through [char_traits<char>], which compares
    characters as unsigned bytes; a proper prefix is smaller. *)
Fixpoint string_lt (s t : string) : bool :=
  match s, t with
  | _, EmptyString => false
  | EmptyString, String _ _ => true
  | String a s', String b t' =>
      if decide (a = b) then string_lt s' t' else (N_of_ascii a <? N_of_ascii b)%N
  end.

Lemma string_lt_irrefl s : string_lt s s = false.
Proof. induction s; simpl; [done|]. by rewrite decide_True. Qed.

Lemma N_of_ascii_inj' a b : N_of_ascii a = N_of_ascii b → a = b.
Proof. intros H. rewrite <- (ascii_N_embedding a), <- (ascii_N_embedding b). by f_equal. Qed.

Lemma string_lt_trans a b c :
  string_lt a b = true → string_lt b c = true → string_lt a c = true.
Proof.
  revert b c. induction a as [|x a IH]; intros [|y b] [|z c]; simpl; try done.
  intros H1 H2. repeat case_decide; subst; try congruence; eauto.
  - rewrite N.ltb_lt in *. lia.
  - rewrite N.ltb_lt in *. lia.
Qed.

Lemma string_lt_total a b : string_lt a b = false → string_lt b a = false → a = b.
Proof.
  revert b. induction a as [|x a IH]; intros [|y b]; simpl; try done.
  intros H1 H2. repeat case_decide; subst; try congruence.
  - by rewrite (IH b).
  - rewrite N.ltb_ge in *. exfalso. assert (x = y); [apply N_of_ascii_inj'; lia|done].
Qed.

#[export] Instance string_key_order : KeyOrder string := {|
  key_lt := string_lt;
  key_lt_irrefl := string_lt_irrefl;
  key_lt_trans := string_lt_trans;
  key_lt_total := string_lt_total;
|}.

(** ** The container *)

Record stdmap (K V : Type) := StdMap { elems : list (K * V) }.
Arguments StdMap {K V} _.
Arguments elems {K V} _.

Fixpoint assoc_find `{EqDecision K} {V} (k : K) (l : list (K * V)) : option V :=
  match l with
  | [] => None
  | (k', v) :: l' => if decide (k = k') then Some v else assoc_find k l'
  end.

Fixpoint assoc_insert `{KeyOrder K} {V} (k : K) (v : V) (l : list (K * V)) : list (K * V) :=
  match l with
  | [] => [(k, v)]
  | (k', v') :: l' =>
      if decide (k = k') then (k, v) :: l'
      else if key_lt k k' then (k, v) :: (k', v') :: l'
      else (k', v') :: assoc_insert k v l'
  end.

#[export] Instance sm_empty {K V} : Empty (stdmap K V) := StdMap [].
#[export] Instance sm_lookup `{EqDecision K} {V} : Lookup K V (stdmap K V) :=
  λ k m, assoc_find k (elems m).
#[export] Instance sm_insert `{KeyOrder K} {V} : Insert K V (stdmap K V) :=
  λ k v m, StdMap (assoc_insert k v (elems m)).
#[export] Instance sm_delete `{EqDecision K} {V} : Delete K (stdmap K V) :=
  λ k m, StdMap (filter (λ p, p.1 ≠ k) (elems m)).

(** [emplace] / [try_emplace]: an existing entry is kept. *)
Definition emplace `{KeyOrder K} {V} (k : K) (v : V) (m : stdmap K V) : stdmap K V :=
  match m !! k with Some _ => m | None => <[k := v]> m end.

(** [for (it = begin; it != end;) if (P) erase(it++) else ++it] *)
Definition erase_if {K V} (P : K → V → bool) (m : stdmap K V) : stdmap K V :=
  StdMap (filter (λ p, P p.1 p.2 = false) (elems m)).

(** [for (auto &item : m) f(item.second)] *)
Definition map_values {K V W} (f : K → V → W) (m : stdmap K V) : stdmap K W :=
  StdMap (map (λ p, (p.1, f p.1 p.2)) (elems m)).

Definition sm_begin {K V} (m : stdmap K V) : option (K * V) := head (elems m).
Definition sm_rbegin {K V} (m : stdmap K V) : option (K * V) := last (elems m).
Definition sm_size {K V} (m : stdmap K V) : nat := length (elems m).
Definition sm_is_empty {K V} (m : stdmap K V) : bool :=
  match elems m with [] => true | _ => false end.
Definition sm_keys {K V} (m : stdmap K V) : list K := (elems m).*1.
Definition sm_vals {K V} (m : stdmap K V) : list V := (elems m).*2.

Definition key_below `{KeyOrder K} {V} (p q : K * V) : Prop := key_lt p.1 q.1 = true.
Definition sm_wf `{KeyOrder K} {V} (m : stdmap K V) : Prop :=
  StronglySorted key_below (elems m).

(** ** Lookup laws *)

Section Laws.
Context `{KeyOrder K} {V : Type}.
Implicit Types (m : stdmap K V) (l : list (K * V)) (k j : K) (v : V).

Lemma sm_lookup_empty k : (∅ : stdmap K V) !! k = None.
Proof. done. Qed.

Lemma assoc_find_insert k v j l :
  assoc_find j (assoc_insert k v l) = if decide (k = j) then Some v else assoc_find j l.
Proof.
  induction l as [|[k' v'] l IH]; simpl.
  - repeat case_decide; congruence.
  - repeat (case_decide || case_match || simpl); subst; try congruence.
Qed.

Lemma sm_lookup_insert k v j m :
  <[k := v]> m !! j = if decide (k = j) then Some v else m !! j.
Proof. apply assoc_find_insert. Qed.

Lemma sm_lookup_insert_eq k v m : <[k := v]> m !! k = Some v.
Proof. rewrite sm_lookup_insert. by rewrite decide_True. Qed.

Lemma sm_lookup_insert_ne k j v m : k ≠ j → <[k := v]> m !! j = m !! j.
Proof. intros. rewrite sm_lookup_insert. by rewrite decide_False. Qed.

Lemma assoc_find_filter (P : K * V → Prop) `{∀ x, Decision (P x)} j l :
  NoDup l.*1 →
  assoc_find j (filter P l)
  = match assoc_find j l with Some v => if decide (P (j, v)) then Some v else None | None => None end.
Proof.
  induction l as [|[k v] l IH]; intros ND; [done|].
  apply NoDup_cons in ND as [Hk ND]. rewrite filter_cons. simpl.
  destruct (decide (j = k)) as [->|Hne].
  - case_decide as HP; simpl.
    + by rewrite decide_True.
    + rewrite (IH ND). destruct (assoc_find k l) eqn:E; [|done].
      exfalso. apply Hk. clear -E. induction l as [|[k' v'] l IH]; simpl in *; [done|].
      case_decide; subst; [by left|right; auto].
  - case_decide; simpl; [rewrite decide_False by done|]; auto.
Qed.

Lemma assoc_find_delete k j l :
  assoc_find j (filter (λ p, p.1 ≠ k) l) = if decide (k = j) then None else assoc_find j l.
Proof.
  induction l as [|[k' v'] l IH]; [by case_decide|].
  rewrite filter_cons. simpl. destruct (decide (k' = k)) as [->|Hne].
  - rewrite decide_False by tauto. rewrite IH. destruct (decide (k = j)); [done|].
    by rewrite (decide_False (P := j = k)) by congruence.
  - rewrite decide_True by done. simpl. rewrite IH.
    destruct (decide (j = k')); [|done]. by rewrite decide_False by congruence.
Qed.

Lemma sm_lookup_delete k j m :
  delete k m !! j = if decide (k = j) then None else m !! j.
Proof. apply assoc_find_delete. Qed.

Lemma sm_lookup_delete_eq k m : delete k m !! k = None.
Proof. rewrite sm_lookup_delete. by rewrite decide_True. Qed.

Lemma sm_lookup_delete_ne k j m : k ≠ j → delete k m !! j = m !! j.
Proof. intros. rewrite sm_lookup_delete. by rewrite decide_False. Qed.

Lemma sm_lookup_emplace k v j m :
  emplace k v m !! j
  = match m !! j with Some w => Some w | None => if decide (k = j) then Some v else None end.
Proof.
  unfold emplace. destruct (m !! k) eqn:E.
  - destruct (m !! j) eqn:Ej; [done|]. rewrite decide_False; [done|]. intros ->. congruence.
  - rewrite sm_lookup_insert. case_decide; [subst; by rewrite E|]. by destruct (m !! j).
Qed.

Lemma sm_lookup_map_values {W} (f : K → V → W) j m :
  map_values f m !! j = f j <$> m !! j.
Proof.
  destruct m as [l]. unfold lookup, sm_lookup, map_values. simpl.
  induction l as [|[k v] l IH]; simpl; [done|]. case_decide; by subst.
Qed.

Lemma sm_lookup_elem k v m : m !! k = Some v → (k, v) ∈ elems m.
Proof.
  destruct m as [l]. unfold lookup, sm_lookup. simpl.
  induction l as [|[k' v'] l IH]; simpl; [done|]. case_decide; intros; simplify_eq.
  - left.
  - right. auto.
Qed.

Lemma sm_lookup_none k m : m !! k = None ↔ k ∉ sm_keys m.
Proof.
  destruct m as [l]. unfold lookup, sm_lookup, sm_keys. simpl.
  induction l as [|[k' v'] l IH]; simpl; [set_solver|]. rewrite not_elem_of_cons.
  case_decide; subst; split; try done; [tauto| |].
  - intros ?%IH. done.
  - intros [_ ?]. by apply IH.
Qed.
End Laws.

Create Rewrite HintDb stdmap.
#[export] Hint Rewrite @sm_lookup_empty @sm_lookup_insert_eq @sm_lookup_delete_eq
  @sm_lookup_map_values : stdmap.
#[export] Hint Rewrite @sm_lookup_insert_ne @sm_lookup_delete_ne using done : stdmap.

(** Rewrites lookups of updated maps, splitting on whether keys coincide. *)
Ltac simplify_sm :=
  repeat first
    [ progress (autorewrite with stdmap in * )
    | progress (simplify_eq/=)
    | rewrite sm_lookup_insert in *; case_decide; simplify_eq/=
    | rewrite sm_lookup_delete in *; case_decide; simplify_eq/=
    | rewrite sm_lookup_emplace in *; case_decide; simplify_eq/= ].

(** ** Well-formedness *)

Section Order.
Context `{KeyOrder K} {V : Type}.
Implicit Types (m : stdmap K V) (l : list (K * V)) (k j : K) (v : V).

Lemma key_lt_ne k j : key_lt k j = true → k ≠ j.
Proof. intros Hlt ->. rewrite key_lt_irrefl in Hlt. done. Qed.

Lemma key_lt_or k j : k ≠ j → key_lt k j = true ∨ key_lt j k = true.
Proof.
  intros Hne. destruct (key_lt k j) eqn:E1; [by left|].
  destruct (key_lt j k) eqn:E2; [by right|]. destruct Hne. by apply key_lt_total.
Qed.

Lemma sm_wf_empty : sm_wf (∅ : stdmap K V).
Proof. constructor. Qed.

Lemma assoc_insert_elem k v p l : p ∈ assoc_insert k v l → p = (k, v) ∨ p ∈ l.
Proof.
  induction l as [|[k' v'] l IH]; simpl; [set_solver|].
  destruct (decide (k = k')) as [->|]; [|destruct (key_lt k k')]; rewrite !elem_of_cons; tauto.
Qed.

Lemma sm_wf_insert k v m : sm_wf m → sm_wf (<[k := v]> m).
Proof.
  destruct m as [l]. unfold sm_wf. simpl.
  induction 1 as [|[k' v'] l Hl IH Hall]; simpl; [repeat constructor|].
  case_decide; [subst; by constructor|].
  destruct (key_lt k k') eqn:E.
  - constructor; [by constructor|]. constructor; [done|].
    eapply Forall_impl; [exact Hall|]. unfold key_below. simpl. eauto using key_lt_trans.
  - constructor; [done|]. rewrite Forall_forall in Hall |- *.
    intros p [->|Hp]%assoc_insert_elem; [|auto].
    unfold key_below. simpl. destruct (key_lt_or k k') as [?|?]; [done|congruence|done].
Qed.

Lemma StronglySorted_filter {A} (R : A → A → Prop) (P : A → Prop) `{∀ x, Decision (P x)} (l : list A) :
  StronglySorted R l → StronglySorted R (filter P l).
Proof.
  induction 1 as [|e l Hl IH Hall]; [constructor|].
  rewrite filter_cons. case_decide; [|done]. constructor; [done|].
  rewrite Forall_forall in Hall |- *. intros x [_ Hx]%list_elem_of_filter. auto.
Qed.

Lemma sm_wf_delete k m : sm_wf m → sm_wf (delete k m).
Proof. apply StronglySorted_filter. Qed.

Lemma sm_wf_erase_if P m : sm_wf m → sm_wf (erase_if P m).
Proof. apply StronglySorted_filter. Qed.

Lemma sm_wf_emplace k v m : sm_wf m → sm_wf (emplace k v m).
Proof. unfold emplace. destruct (m !! k); auto using sm_wf_insert. Qed.

Lemma sm_wf_map_values {W} (f : K → V → W) m : sm_wf m → sm_wf (map_values f m).
Proof.
  unfold sm_wf, map_values. simpl. induction 1 as [|[k v] l Hl IH Hall]; simpl; constructor; [done|].
  rewrite Forall_forall in Hall. rewrite Forall_forall.
  intros p (q & -> & Hq)%list_elem_of_fmap. by apply Hall in Hq.
Qed.

Lemma sm_wf_NoDup m : sm_wf m → NoDup (sm_keys m).
Proof.
  unfold sm_wf, sm_keys. induction 1 as [|[k v] l Hl IH Hall]; simpl; constructor; [|done].
  intros ([k' v'] & -> & Hin)%list_elem_of_fmap. rewrite Forall_forall in Hall.
  apply Hall in Hin. unfold key_below in Hin. simpl in Hin. by rewrite key_lt_irrefl in Hin.
Qed.

Lemma sm_elem_lookup k v m : sm_wf m → (k, v) ∈ elems m → m !! k = Some v.
Proof.
  intros Hwf%sm_wf_NoDup. unfold sm_keys in Hwf. destruct m as [l]. unfold lookup, sm_lookup. simpl in *.
  induction l as [|[k' v'] l IH]; simpl in *; [by rewrite elem_of_nil|].
  apply NoDup_cons in Hwf as [Hk ND]. rewrite elem_of_cons. intros [?|Hin]; simplify_eq.
  - by rewrite decide_True.
  - rewrite decide_False; [auto|]. intros ->. apply Hk. apply list_elem_of_fmap. by exists (k', v).
Qed.

Lemma sm_lookup_erase_if P k m :
  sm_wf m →
  erase_if P m !! k = match m !! k with Some v => if P k v then None else Some v | None => None end.
Proof.
  intros Hwf%sm_wf_NoDup. destruct m as [l]. unfold lookup, sm_lookup, erase_if. simpl.
  rewrite (assoc_find_filter (λ p, P p.1 p.2 = false)) by done.
  destruct (assoc_find k l) as [v|]; [|done]. simpl. destruct (P k v); by case_decide.
Qed.

(** Two ordered maps with the same lookups are the same map. *)
Lemma sm_ext m1 m2 : sm_wf m1 → sm_wf m2 → (∀ k, m1 !! k = m2 !! k) → m1 = m2.
Proof.
  destruct m1 as [l1], m2 as [l2]. unfold sm_wf, lookup, sm_lookup. simpl. intros S1. revert l2.
  induction S1 as [|[k1 v1] l1 S1 IH H1]; intros l2 S2 Heq.
  - destruct l2 as [|[k v] l]; [done|]. specialize (Heq k). simpl in Heq. by rewrite decide_True in Heq.
  - destruct S2 as [|[k2 v2] l2 S2 H2].
    { specialize (Heq k1). simpl in Heq. by rewrite decide_True in Heq. }
    assert (k1 = k2) as ->.
    { destruct (decide (k1 = k2)) as [|Hne]; [done|]. exfalso.
      pose proof (Heq k1) as E1. pose proof (Heq k2) as E2. simpl in E1, E2.
      rewrite decide_True, decide_False in E1 by done.
      rewrite decide_False, decide_True in E2 by done.
      symmetry in E1. rewrite Forall_forall in H1, H2.
      apply (sm_lookup_elem _ _ (StdMap _)) in E1. apply (sm_lookup_elem _ _ (StdMap _)) in E2.
      apply H1 in E2. apply H2 in E1. unfold key_below in *. simpl in *.
      pose proof (key_lt_trans _ _ _ E1 E2) as Ht. by rewrite key_lt_irrefl in Ht. }
    pose proof (Heq k2) as E. simpl in E. rewrite !decide_True in E by done. simplify_eq.
    enough (StdMap l1 = StdMap l2) as [=->] by done. f_equal.
    enough (StdMap l1 = StdMap l2) as [=->] by done. apply IH; [done|].
    intros k. pose proof (Heq k) as Ek. simpl in Ek. case_decide as Hk; [|done]. subst.
    assert (∀ l, Forall (key_below (k2, v2)) l → assoc_find k2 l = None) as Hnone.
    { intros l Hl. destruct (assoc_find k2 l) eqn:Ef; [|done]. exfalso.
      apply (sm_lookup_elem _ _ (StdMap _)) in Ef. rewrite Forall_forall in Hl. apply Hl in Ef.
      unfold key_below in Ef. simpl in Ef. by rewrite key_lt_irrefl in Ef. }
    by rewrite !Hnone.
Qed.

(** Emplacing entries one after the other. *)
Lemma sm_lookup_emplaces l m k :
  foldl (λ r p, emplace p.1 p.2 r) m l !! k = match m !! k with Some v => Some v | None => assoc_find k l end.
Proof.
  revert m. induction l as [|[k' v'] l IH]; intros m; simpl; [by destruct (m !! k)|].
  rewrite IH, sm_lookup_emplace. destruct (m !! k); [done|].
  destruct (decide (k' = k)) as [->|]; [by rewrite decide_True|by rewrite decide_False].
Qed.

Lemma sm_wf_emplaces l m : sm_wf m → sm_wf (foldl (λ r p, emplace p.1 p.2 r) m l).
Proof. revert m. induction l; simpl; auto using sm_wf_emplace. Qed.

Lemma sm_emplaces_id m : sm_wf m → foldl (λ r p, emplace p.1 p.2 r) ∅ (elems m) = m.
Proof. intros Hm. apply sm_ext; [by apply sm_wf_emplaces, sm_wf_empty|done|]. intros k. by rewrite sm_lookup_emplaces. Qed.
End Order.

#[export] Hint Resolve sm_wf_empty sm_wf_insert sm_wf_delete sm_wf_erase_if sm_wf_emplace
  sm_wf_map_values : cpp.
