(* ===== verification/InnerEvent.v ===== *)
(** * InnerEvent: events, their waiters and the event pool

    Models libs/libeventhandler/src/inner_event.cpp and
    interfaces/innerkits/libeventhandler/include/inner_event.h.

    An [InnerEvent::Pointer] is a [std::unique_ptr]: an event has one owner
    at a time, so events are values and a null pointer is [None].  A
    [std::weak_ptr<EventHandler>] is the identity of the handler it was made
    from; [GetOwner] locks it, which succeeds while the handler is alive
    (the [live] argument, the reference counts of the process). *)

From stdpp Require Import strings.
From S2P Require Import Prelude.

Abbreviation HandlerId := Z (only parsing).
Abbreviation WaiterId := Z (only parsing).
Abbreviation ListenerId := Z (only parsing).
Abbreviation TimePoint := Z (only parsing).

(** [InnerEvent::TimePoint::max()]: the largest tick count of a 64 bit
    steady clock, in nanoseconds. *)
Definition TIME_POINT_MAX : TimePoint := INT64_MAX.

(** A [std::function<void()>]: one of the application's, or the lambda that
    EventQueue::HandleFileDescriptorEvent posts, with its captures. *)
Inductive Callback :=
| UserCallback (id : Z)
| FileDescriptorCallback (fileDescriptor events : Z) (listener : ListenerId).

#[export] Instance Callback_eq_dec : EqDecision Callback.
Proof. solve_decision. Defined.

Record InnerEvent := mkInnerEvent {
  ev_owner : option HandlerId;
  ev_handleTime : TimePoint;
  ev_sendTime : TimePoint;
  ev_innerEventId : Z;
  ev_param : Z;
  ev_smartPtrTypeId : Z;
  ev_smartPtr : option Z;
  ev_smartPtrDtor : bool;
  ev_taskCallback : option Callback;
  ev_taskName : string;
  ev_waiter : option WaiterId;
  ev_hiTraceId : option Z;
}.

#[export] Instance InnerEvent_eq_dec : EqDecision InnerEvent.
Proof. solve_decision. Defined.

(** [new InnerEvent]: the default member initialisers. *)
Definition new_InnerEvent : InnerEvent :=
  mkInnerEvent None 0 0 0 0 0 None false None "" None None.

Definition HasTask (e : InnerEvent) : bool :=
  match ev_taskCallback e with Some _ => true | None => false end.

Definition GetOwner (live : HandlerId → bool) (e : InnerEvent) : option HandlerId :=
  match ev_owner e with
  | Some h => if live h then Some h else None
  | None => None
  end.

Definition SetOwner (owner : HandlerId) (e : InnerEvent) : InnerEvent :=
  mkInnerEvent (Some owner) (ev_handleTime e) (ev_sendTime e) (ev_innerEventId e) (ev_param e)
    (ev_smartPtrTypeId e) (ev_smartPtr e) (ev_smartPtrDtor e) (ev_taskCallback e)
    (ev_taskName e) (ev_waiter e) (ev_hiTraceId e).

Definition SetHandleTime (t : TimePoint) (e : InnerEvent) : InnerEvent :=
  mkInnerEvent (ev_owner e) t (ev_sendTime e) (ev_innerEventId e) (ev_param e)
    (ev_smartPtrTypeId e) (ev_smartPtr e) (ev_smartPtrDtor e) (ev_taskCallback e)
    (ev_taskName e) (ev_waiter e) (ev_hiTraceId e).

Definition SetSendTime (t : TimePoint) (e : InnerEvent) : InnerEvent :=
  mkInnerEvent (ev_owner e) (ev_handleTime e) t (ev_innerEventId e) (ev_param e)
    (ev_smartPtrTypeId e) (ev_smartPtr e) (ev_smartPtrDtor e) (ev_taskCallback e)
    (ev_taskName e) (ev_waiter e) (ev_hiTraceId e).

Definition SetIdAndParam (id param : Z) (e : InnerEvent) : InnerEvent :=
  mkInnerEvent (ev_owner e) (ev_handleTime e) (ev_sendTime e) id param
    (ev_smartPtrTypeId e) (ev_smartPtr e) (ev_smartPtrDtor e) (ev_taskCallback e)
    (ev_taskName e) (ev_waiter e) (ev_hiTraceId e).

Definition SetTask (callback : Callback) (name : string) (e : InnerEvent) : InnerEvent :=
  mkInnerEvent (ev_owner e) (ev_handleTime e) (ev_sendTime e) (ev_innerEventId e) (ev_param e)
    (ev_smartPtrTypeId e) (ev_smartPtr e) (ev_smartPtrDtor e) (Some callback)
    name (ev_waiter e) (ev_hiTraceId e).

Definition SetWaiter (w : option WaiterId) (e : InnerEvent) : InnerEvent :=
  mkInnerEvent (ev_owner e) (ev_handleTime e) (ev_sendTime e) (ev_innerEventId e) (ev_param e)
    (ev_smartPtrTypeId e) (ev_smartPtr e) (ev_smartPtrDtor e) (ev_taskCallback e)
    (ev_taskName e) w (ev_hiTraceId e).

Definition SetTraceId (t : option Z) (e : InnerEvent) : InnerEvent :=
  mkInnerEvent (ev_owner e) (ev_handleTime e) (ev_sendTime e) (ev_innerEventId e) (ev_param e)
    (ev_smartPtrTypeId e) (ev_smartPtr e) (ev_smartPtrDtor e) (ev_taskCallback e)
    (ev_taskName e) (ev_waiter e) t.

(** [SaveSharedPtr] / [SaveUniquePtr]: the object, its type id and its
    destructor. *)
Definition SavePtr (typeId object : Z) (e : InnerEvent) : InnerEvent :=
  mkInnerEvent (ev_owner e) (ev_handleTime e) (ev_sendTime e) (ev_innerEventId e) (ev_param e)
    typeId (Some object) true (ev_taskCallback e) (ev_taskName e) (ev_waiter e) (ev_hiTraceId e).

Definition HasWaiter (e : InnerEvent) : bool :=
  match ev_waiter e with Some _ => true | None => false end.

(** [HiTrace] (the tracing library) is outside the repository: [current] is
    the id of the calling thread when it is valid, [span] the span it
    creates. *)
Definition GetOrCreateTraceId (current : option Z) (span : Z) (e : InnerEvent)
  : option Z * InnerEvent :=
  match ev_hiTraceId e with
  | Some t => (Some t, e)
  | None => match current with
            | None => (None, e)
            | Some _ => (Some span, SetTraceId (Some span) e)
            end
  end.

(** The destructor calls of one [ClearEvent]: the waiter to notify and the
    object to release. *)
Record Cleared := mkCleared { cl_notify : option WaiterId; cl_release : option Z }.

Definition ClearEvent (e : InnerEvent) : InnerEvent * Cleared :=
  let notify := ev_waiter e in
  let '(e, release) :=
    if HasTask e then
      (mkInnerEvent (ev_owner e) (ev_handleTime e) (ev_sendTime e) (ev_innerEventId e) (ev_param e)
         (ev_smartPtrTypeId e) (ev_smartPtr e) (ev_smartPtrDtor e) None "" None (ev_hiTraceId e), None)
    else if ev_smartPtrDtor e then
      (mkInnerEvent (ev_owner e) (ev_handleTime e) (ev_sendTime e) (ev_innerEventId e) (ev_param e)
         0 None false (ev_taskCallback e) (ev_taskName e) None (ev_hiTraceId e), ev_smartPtr e)
    else (SetWaiter None e, None) in
  (mkInnerEvent None (ev_handleTime e) (ev_sendTime e) (ev_innerEventId e) (ev_param e)
     (ev_smartPtrTypeId e) (ev_smartPtr e) (ev_smartPtrDtor e) (ev_taskCallback e)
     (ev_taskName e) (ev_waiter e) None,
   mkCleared notify release).

(** ** WaiterImp

    [Wait] blocks while [finished_] is false; [Notify] sets it once and for
    all.  A blocked thread is counted in [waitingCount_]. *)

Record WaiterImp := mkWaiterImp { wt_waitingCount : Z; wt_finished : bool }.

Definition new_WaiterImp : WaiterImp := mkWaiterImp 0 false.

Definition Waiter_Notify (w : WaiterImp) : WaiterImp * bool :=
  (mkWaiterImp (wt_waitingCount w) true, (0 <? wt_waitingCount w)%Z).

(** One evaluation of the loop of [Wait]: [None] when the thread returns,
    otherwise the state with the thread counted as blocked. *)
Definition Waiter_enter (w : WaiterImp) : option WaiterImp :=
  if wt_finished w then None else Some (mkWaiterImp (u32 (wt_waitingCount w + 1)) (wt_finished w)).

(** The blocked thread is woken (notified or spuriously). *)
Definition Waiter_wake (w : WaiterImp) : WaiterImp :=
  mkWaiterImp (u32 (wt_waitingCount w - 1)) (wt_finished w).

(** ** InnerEventPool *)

Definition MAX_BUFFER_POOL_SIZE : Z := 64.

Record InnerEventPool := mkInnerEventPool {
  pool_events : list InnerEvent;
  pool_usingCount : Z;
  pool_nextPeakUsingCount : Z;
}.

Definition new_InnerEventPool : InnerEventPool := mkInnerEventPool [] 0 MAX_BUFFER_POOL_SIZE.

Definition Pool_Get (p : InnerEventPool) : InnerEvent * InnerEventPool :=
  let usingCount := u64 (pool_usingCount p + 1) in
  match rev (pool_events p) with
  | event :: rest => (event, mkInnerEventPool (rev rest) usingCount (pool_nextPeakUsingCount p))
  | [] =>
      let nextPeak :=
        if (pool_nextPeakUsingCount p <=? usingCount)%Z then
          if (MAX_BUFFER_POOL_SIZE <? UINT32_MAX - pool_nextPeakUsingCount p)%Z
          then (pool_nextPeakUsingCount p + MAX_BUFFER_POOL_SIZE)%Z else UINT32_MAX
        else pool_nextPeakUsingCount p in
      (new_InnerEvent, mkInnerEventPool (pool_events p) usingCount nextPeak)
  end.

Definition Pool_Put (event : InnerEvent) (p : InnerEventPool) : InnerEventPool :=
  mkInnerEventPool
    (if (Z.of_nat (length (pool_events p)) <? MAX_BUFFER_POOL_SIZE)%Z
     then pool_events p ++ [event] else pool_events p)
    (u64 (pool_usingCount p - 1)) (pool_nextPeakUsingCount p).

(** The deleter of [InnerEvent::Pointer]. *)
Definition Drop (event : option InnerEvent) (p : InnerEventPool) : InnerEventPool * option Cleared :=
  match event with
  | None => (p, None)
  | Some e => let '(e', cleared) := ClearEvent e in (Pool_Put e' p, Some cleared)
  end.

(** The three [InnerEvent::Get] overloads. *)
Definition Get_empty (p : InnerEventPool) : InnerEvent * InnerEventPool := Pool_Get p.

Definition Get_event (innerEventId param : Z) (p : InnerEventPool) : InnerEvent * InnerEventPool :=
  let '(e, p') := Pool_Get p in (SetIdAndParam innerEventId param e, p').

Definition Get_task (callback : option Callback) (name : string) (p : InnerEventPool)
  : option InnerEvent * InnerEventPool :=
  match callback with
  | None => (None, p)
  | Some c => let '(e, p') := Pool_Get p in (Some (SetTask c name e), p')
  end.

(** [Get(id, object, param)]. *)
Definition Get_object (innerEventId param typeId object : Z) (p : InnerEventPool)
  : InnerEvent * InnerEventPool :=
  let '(e, p') := Get_event innerEventId param p in (SavePtr typeId object e, p').

(** ** Reachable pools

    [out] lists the events handed out and not dropped yet.  An event handed
    out may be changed freely by its holder, except that a task is only ever
    set by [Get_task] and an object only by [Get_object]. *)

Definition event_wf (e : InnerEvent) : Prop :=
  (ev_smartPtrDtor e = false → ev_smartPtr e = None ∧ ev_smartPtrTypeId e = 0%Z)
  ∧ (HasTask e = true → ev_smartPtrDtor e = false)
  ∧ (HasTask e = false → ev_taskName e = "").

(** What a recycled event carries: everything is as in a new event but the
    id, the parameter and the two times. *)
Definition event_clean (e : InnerEvent) : Prop :=
  ev_owner e = None ∧ ev_smartPtrTypeId e = 0%Z ∧ ev_smartPtr e = None ∧ ev_smartPtrDtor e = false
  ∧ ev_taskCallback e = None ∧ ev_taskName e = "" ∧ ev_waiter e = None ∧ ev_hiTraceId e = None.

Inductive pool_step : (InnerEventPool * list InnerEvent) → (InnerEventPool * list InnerEvent) → Prop :=
| step_get_empty p out e p' :
    Get_empty p = (e, p') → pool_step (p, out) (p', e :: out)
| step_get_event p out id param e p' :
    Get_event id param p = (e, p') → pool_step (p, out) (p', e :: out)
| step_get_object p out id param ty obj e p' :
    Get_object id param ty obj p = (e, p') → pool_step (p, out) (p', e :: out)
| step_get_task p out c name e p' :
    Get_task c name p = (Some e, p') → pool_step (p, out) (p', e :: out)
| step_send p o1 e o2 owner t1 t2 :
    pool_step (p, o1 ++ e :: o2)
      (p, o1 ++ SetOwner owner (SetHandleTime t1 (SetSendTime t2 e)) :: o2)
| step_wait p o1 e o2 w :
    pool_step (p, o1 ++ e :: o2) (p, o1 ++ SetWaiter (Some w) e :: o2)
| step_trace p o1 e o2 cur span :
    pool_step (p, o1 ++ e :: o2) (p, o1 ++ (GetOrCreateTraceId cur span e).2 :: o2)
| step_drop p o1 e o2 :
    pool_step (p, o1 ++ e :: o2) ((Drop (Some e) p).1, o1 ++ o2).

Inductive pool_reachable : InnerEventPool * list InnerEvent → Prop :=
| pool_init : pool_reachable (new_InnerEventPool, [])
| pool_more s s' : pool_reachable s → pool_step s s' → (Z.of_nat (length s'.2) <= UINT32_MAX)%Z →
    pool_reachable s'.

Definition pool_inv (s : InnerEventPool * list InnerEvent) : Prop :=
  (Z.of_nat (length (pool_events s.1)) <= MAX_BUFFER_POOL_SIZE)%Z
  ∧ pool_usingCount s.1 = Z.of_nat (length s.2)
  ∧ Forall event_clean (pool_events s.1)
  ∧ Forall event_wf s.2.

(** ** The pool invariant *)

Lemma new_InnerEvent_clean : event_clean new_InnerEvent.
Proof. by repeat split. Qed.

(** Opens a clean event: every field but the id, the parameter and the times
    becomes the initial one. *)
Ltac open_clean :=
  match goal with
  | H : event_clean ?e |- _ =>
      destruct e; unfold event_clean in H; simpl in H; destruct H as (?&?&?&?&?&?&?&?); subst; try done
  end.

Lemma event_clean_wf e : event_clean e → event_wf e.
Proof.
  destruct e. unfold event_clean, event_wf, HasTask. simpl. intros (?&?&?&?&?&?&?&?). subst. done.
Qed.

Lemma ClearEvent_clean e : event_wf e → event_clean (ClearEvent e).1.
Proof.
  destruct e as [o ht st id pa ty sp sd [c|] nm w tr]; unfold ClearEvent, event_wf, event_clean, HasTask; simpl.
  - intros (H1 & H2 & _). rewrite (H2 eq_refl) in *. destruct (H1 eq_refl) as [-> ->]. done.
  - intros (H1 & _ & H3). rewrite (H3 eq_refl). destruct sd; simpl; [done|].
    destruct (H1 eq_refl) as [-> ->]. done.
Qed.

(** [ClearEvent] keeps the id, the parameter and the times. *)
Lemma ClearEvent_keeps e :
  ev_innerEventId (ClearEvent e).1 = ev_innerEventId e ∧ ev_param (ClearEvent e).1 = ev_param e.
Proof. unfold ClearEvent. by destruct (HasTask e), (ev_smartPtrDtor e). Qed.

Lemma Pool_Get_spec p e p' out :
  pool_inv (p, out) → (Z.of_nat (S (length out)) <= UINT32_MAX)%Z → Pool_Get p = (e, p') →
  event_clean e ∧ ∀ e', event_wf e' → pool_inv (p', e' :: out).
Proof.
  unfold pool_inv, UINT32_MAX. simpl. intros (Hlen & Huse & Hcl & Hout) Hmax Hget.
  unfold Pool_Get in Hget. rewrite Huse in Hget.
  assert (u64 (Z.of_nat (length out) + 1) = Z.of_nat (S (length out))) as Hu.
  { unfold u64. rewrite Z.mod_small; lia. }
  rewrite Hu in Hget. destruct (rev (pool_events p)) as [|ev rest] eqn:Hrev; simplify_eq; simpl.
  - split; [apply new_InnerEvent_clean|]. intros e' He'. repeat split; auto.
  - assert (pool_events p = rev rest ++ [e]) as Hp.
    { by rewrite <- (rev_involutive (pool_events p)), Hrev. }
    rewrite Hp in Hcl, Hlen. rewrite length_app in Hlen. simpl in Hlen.
    apply Forall_app in Hcl as [Hrest Hev]. split; [by inversion Hev|].
    intros e' He'. repeat split; auto. lia.
Qed.

Lemma Pool_Put_spec p o1 e o2 :
  pool_inv (p, o1 ++ e :: o2) → (Z.of_nat (length (o1 ++ e :: o2)) <= UINT32_MAX)%Z →
  pool_inv (Pool_Put (ClearEvent e).1 p, o1 ++ o2).
Proof.
  unfold pool_inv, UINT32_MAX. simpl. intros (Hlen & Huse & Hcl & Hout) Hmax.
  rewrite length_app in *. simpl in *. apply Forall_app in Hout as [Ho1 Ho2].
  inversion Ho2 as [|?? He Ho2']; subst. unfold MAX_BUFFER_POOL_SIZE in *. repeat split.
  - case_match; zbool; [rewrite length_app; simpl|]; lia.
  - rewrite Huse. unfold u64. rewrite Z.mod_small; lia.
  - case_match; [|done]. apply Forall_app. split; [done|]. constructor; [|done]. by apply ClearEvent_clean.
  - by apply Forall_app.
Qed.

Lemma pool_inv_change p o1 e e' o2 :
  (event_wf e → event_wf e') → pool_inv (p, o1 ++ e :: o2) → pool_inv (p, o1 ++ e' :: o2).
Proof.
  unfold pool_inv. simpl. intros Hwf (Hlen & Huse & Hcl & Hout).
  rewrite length_app in *. simpl in *. repeat split; [done|done|done|].
  apply Forall_app in Hout as [Ho1 Ho2]. inversion Ho2; subst. apply Forall_app. auto.
Qed.

Lemma pool_step_inv s s' :
  pool_inv s → (Z.of_nat (length s.2) <= UINT32_MAX)%Z → pool_step s s' →
  (Z.of_nat (length s'.2) <= UINT32_MAX)%Z → pool_inv s'.
Proof.
  intros Hinv Hmax Hstep Hmax'. destruct Hstep; simpl in *.
  - unfold Get_empty in *. edestruct Pool_Get_spec as [Hc Hk]; eauto using event_clean_wf.
  - unfold Get_event in *. split_lets. simplify_eq.
    edestruct Pool_Get_spec as [Hc Hk]; eauto. apply Hk. open_clean.
  - unfold Get_object, Get_event in *. split_lets. simplify_eq.
    edestruct Pool_Get_spec as [Hc Hk]; eauto. apply Hk. open_clean.
  - unfold Get_task in *. destruct c; [|done]. split_lets. simplify_eq.
    edestruct Pool_Get_spec as [Hc Hk]; eauto. apply Hk. open_clean.
  - eapply pool_inv_change; [|done]. by destruct e.
  - eapply pool_inv_change; [|done]. by destruct e.
  - eapply pool_inv_change; [|done]. destruct e. unfold GetOrCreateTraceId. simpl.
    repeat case_match; by simplify_eq/=.
  - unfold Drop. destruct (ClearEvent e) eqn:E. simpl.
    pose proof (Pool_Put_spec p o1 e o2 Hinv Hmax) as Hp. by rewrite E in Hp.
Qed.

Lemma pool_reachable_inv s :
  pool_reachable s → pool_inv s ∧ (Z.of_nat (length s.2) <= UINT32_MAX)%Z.
Proof.
  induction 1 as [|s s' _ [IH Hm] Hstep Hmax]; simpl.
  - unfold pool_inv, UINT32_MAX, MAX_BUFFER_POOL_SIZE. simpl.
    split; [split_and!; auto; lia|lia].
  - eauto using pool_step_inv.
Qed.

(** ** Properties *)

(** C22: Whatever was done before with the process-wide pool, an event taken
    from it with an id and a parameter carries nothing of its earlier use but
    the two time stamps; the pool keeps at most 64 events and counts exactly
    the events in use. *)
Theorem recycled_event_clean p out id param e p' :
  pool_reachable (p, out) → (Z.of_nat (length out) < UINT32_MAX)%Z → Get_event id param p = (e, p') →
  e = SetIdAndParam id param (SetHandleTime (ev_handleTime e) (SetSendTime (ev_sendTime e) new_InnerEvent))
  ∧ (Z.of_nat (length (pool_events p')) <= MAX_BUFFER_POOL_SIZE)%Z
  ∧ pool_usingCount p' = Z.of_nat (S (length out)).
Proof.
  intros [Hinv _]%pool_reachable_inv Hmax HG. unfold Get_event in HG. split_lets. simplify_eq.
  destruct (Pool_Get_spec p i p' out Hinv) as [Hc Hk]; [lia|done|].
  destruct (Hk i (event_clean_wf i Hc)) as (H1 & H2 & _). split_and!; [|done..].
  clear Hk. open_clean.
Qed.

(** An event taken with [Get()] may still carry the id and the parameter
    of an earlier event: [ClearEvent] does not reset them. *)
Theorem Get_empty_keeps_old_id :
  ∃ p, pool_reachable (p, []) ∧ ev_innerEventId (Get_empty p).1 = 7%Z ∧ ev_param (Get_empty p).1 = 9%Z.
Proof.
  exists (mkInnerEventPool [SetIdAndParam 7 9 new_InnerEvent] 0 MAX_BUFFER_POOL_SIZE).
  split; [|done]. eapply pool_more; [eapply pool_more; [apply pool_init| |]| |].
  - by apply (step_get_event new_InnerEventPool [] 7 9).
  - simpl. unfold UINT32_MAX. lia.
  - apply (step_drop (Pool_Get new_InnerEventPool).2 [] (SetIdAndParam 7 9 new_InnerEvent) []).
  - simpl. unfold UINT32_MAX. lia.
Qed.

(** Dropping an event that has a waiter wakes the waiter for good: its
    [Wait] returns at once from then on, whether it blocked before or not. *)
Theorem drop_wakes_waiter e p w (h : WaiterId) :
  ev_waiter e = Some h →
  (cl_notify <$> (Drop (Some e) p).2) = Some (Some h)
  ∧ Waiter_enter (Waiter_Notify w).1 = None
  ∧ Waiter_enter (Waiter_wake (Waiter_Notify w).1) = None
  ∧ ((0 < wt_waitingCount w)%Z → (Waiter_Notify w).2 = true).
Proof.
  intros Hw. unfold Drop, ClearEvent. rewrite Hw. split_and!; try done.
  - by destruct (HasTask e), (ev_smartPtrDtor e).
  - intros. by apply Z.ltb_lt.
Qed.

(** ** Witnesses *)

Lemma recycled_event_clean_witness :
  ∃ p, pool_reachable (p, []) ∧ pool_usingCount (Get_event 1 2 p).2 = 1%Z.
Proof.
  exists new_InnerEventPool. split; [apply pool_init|].
  apply (recycled_event_clean new_InnerEventPool [] 1 2 _ _ pool_init eq_refl eq_refl).
Defined.

Lemma drop_wakes_waiter_witness :
  Waiter_enter (Waiter_Notify new_WaiterImp).1 = None
  ∧ (cl_notify <$> (Drop (Some (SetWaiter (Some 3%Z) new_InnerEvent)) new_InnerEventPool).2) = Some (Some 3%Z).
Proof.
  destruct (drop_wakes_waiter (SetWaiter (Some 3%Z) new_InnerEvent) new_InnerEventPool new_WaiterImp 3 eq_refl)
    as (H1 & H2 & _). by split.
Defined.
