(* ===== verification/IoWaiter.v ===== *)
(** * IoWaiter: what a queue's thread blocks on

    Models libs/libeventhandler/src/none_io_waiter.cpp and
    epoll_io_waiter.cpp (the two implementations of the abstract class
    [IoWaiter]) and the time-out conversions of event_handler_utils.h.

    A call of [WaitFor] is two steps, before and after the thread blocks,
    because other threads run in between.  System calls are arguments: their
    results are the kernel's. *)

From S2P Require Import Prelude InnerEvent.

Open Scope Z_scope.

(** ** file_descriptor_listener.h *)

Definition FILE_DESCRIPTOR_INPUT_EVENT : Z := 1.
Definition FILE_DESCRIPTOR_OUTPUT_EVENT : Z := 2.
Definition FILE_DESCRIPTOR_SHUTDOWN_EVENT : Z := 4.
Definition FILE_DESCRIPTOR_EXCEPTION_EVENT : Z := 8.
Definition FILE_DESCRIPTOR_EVENTS_MASK : Z :=
  Z.lor FILE_DESCRIPTOR_INPUT_EVENT FILE_DESCRIPTOR_OUTPUT_EVENT.

(** ** event_handler_utils.h: time-outs *)

Definition NANOSECONDS_PER_ONE_MILLISECOND : Z := 1000000.
Definition INFINITE_TIMEOUT : Z := -1.

Definition TimePointToTimeOut (when now : TimePoint) : Z :=
  if when <=? now then 0 else i64 (when - now).

Definition NanosecondsToTimeout (nanoseconds : Z) : Z :=
  if nanoseconds <? 0 then INFINITE_TIMEOUT
  else
    let milliseconds := Z.quot nanoseconds NANOSECONDS_PER_ONE_MILLISECOND in
    let milliseconds :=
      if 0 <? Z.rem nanoseconds NANOSECONDS_PER_ONE_MILLISECOND then milliseconds + 1
      else milliseconds in
    if INT32_MAX <? milliseconds then INT32_MAX else milliseconds.

(** ** NoneIoWaiter: a condition variable *)

Record NoneIoWaiter := mkNoneIoWaiter { nw_waitingCount : Z }.

Definition new_NoneIoWaiter : NoneIoWaiter := mkNoneIoWaiter 0.

(** One year, in nanoseconds: the longest wait given to the STL. *)
Definition ONE_YEAR : Z := 24 * 365 * 3600 * 1000000000.

(** The duration the thread blocks for ([None]: until notified). *)
Definition None_duration (nanoseconds : Z) : option Z :=
  if nanoseconds <? 0 then None
  else Some (if ONE_YEAR <? nanoseconds then ONE_YEAR else nanoseconds).

Definition None_enter (w : NoneIoWaiter) : NoneIoWaiter :=
  mkNoneIoWaiter (u32 (nw_waitingCount w + 1)).
Definition None_leave (w : NoneIoWaiter) : NoneIoWaiter * bool :=
  (mkNoneIoWaiter (u32 (nw_waitingCount w - 1)), true).
Definition None_Notify (w : NoneIoWaiter) : bool := 0 <? nw_waitingCount w.

(** ** EpollIoWaiter *)

Definition EPOLLIN : Z := 1.
Definition EPOLLOUT : Z := 4.
Definition EPOLLERR : Z := 8.
Definition EPOLLHUP : Z := 16.
Definition EPOLLET : Z := 2147483648.

Inductive EpollOp := EPOLL_CTL_ADD | EPOLL_CTL_DEL.

(** The kernel's answers to the calls of [EpollIoWaiter]. *)
Record Kernel := mkKernel {
  k_epoll_create : Z;
  k_eventfd : Z;
  k_epoll_ctl : Z → EpollOp → Z → Z → Z;
}.

Record EpollIoWaiter := mkEpollIoWaiter {
  ep_epollFd : Z;
  ep_awakenFd : Z;
  ep_callback : bool;
  ep_waitingCount : Z;
}.

Definition new_EpollIoWaiter : EpollIoWaiter := mkEpollIoWaiter (-1) (-1) false 0.

(** [Init]: the state, the result, and the descriptors it closed. *)
Definition Epoll_Init (k : Kernel) (w : EpollIoWaiter) : EpollIoWaiter * bool * list Z :=
  if 0 <=? ep_epollFd w then (w, true, [])
  else
    let epollFd := k_epoll_create k in
    let fail awakenFd :=
      (w, false, (if 0 <=? epollFd then [epollFd] else []) ++ (if 0 <=? awakenFd then [awakenFd] else [])) in
    if epollFd <? 0 then fail (-1)
    else
      let awakenFd := k_eventfd k in
      if awakenFd <? 0 then fail awakenFd
      else if k_epoll_ctl k epollFd EPOLL_CTL_ADD awakenFd (Z.lor EPOLLIN EPOLLET) <? 0 then fail awakenFd
      else (mkEpollIoWaiter epollFd awakenFd (ep_callback w) (ep_waitingCount w), true, []).

(** [~EpollIoWaiter]: the descriptors it closes. *)
Definition Epoll_destroy (w : EpollIoWaiter) : list Z :=
  (if 0 <=? ep_epollFd w then [ep_epollFd w] else [])
  ++ (if 0 <=? ep_awakenFd w then [ep_awakenFd w] else []).

Definition Epoll_enter (w : EpollIoWaiter) : option EpollIoWaiter :=
  if ep_epollFd w <? 0 then None
  else Some (mkEpollIoWaiter (ep_epollFd w) (ep_awakenFd w) (ep_callback w) (u32 (ep_waitingCount w + 1))).

(** The transformation of epoll events into listener events. *)
Definition epoll_to_listener_events (epollEvents : Z) : Z :=
  let events := 0 in
  let events := if any_flag epollEvents EPOLLIN then Z.lor events FILE_DESCRIPTOR_INPUT_EVENT else events in
  let events := if any_flag epollEvents EPOLLOUT then Z.lor events FILE_DESCRIPTOR_OUTPUT_EVENT else events in
  let events := if any_flag epollEvents EPOLLHUP then Z.lor events FILE_DESCRIPTOR_SHUTDOWN_EVENT else events in
  if any_flag epollEvents EPOLLERR then Z.lor events FILE_DESCRIPTOR_EXCEPTION_EVENT else events.

(** After [epoll_wait] returned [retVal] with the ready descriptors: the
    result and the calls of [callback_], in order. *)
Definition Epoll_leave (w : EpollIoWaiter) (retVal : Z) (ready : list (Z * Z))
  : EpollIoWaiter * bool * list (Z * Z) :=
  let w' := mkEpollIoWaiter (ep_epollFd w) (ep_awakenFd w) (ep_callback w) (u32 (ep_waitingCount w - 1)) in
  if retVal <? 0 then (w', false, [])
  else
    let calls := omap (λ r : Z * Z,
      if r.1 =? ep_awakenFd w then None
      else if ep_callback w then Some (r.1, epoll_to_listener_events r.2) else None)
      (take (Z.to_nat retVal) ready) in
    (w', true, calls).

(** [NotifyAll] ([NotifyOne] calls it): whether the event descriptor is
    written. *)
Definition Epoll_Notify (w : EpollIoWaiter) : bool :=
  if ep_awakenFd w <? 0 then false
  else if ep_waitingCount w =? 0 then false else true.

(** The transformation of listener events into epoll events. *)
Definition listener_to_epoll_events (events : Z) : Z :=
  let epollEvents := 0 in
  let epollEvents :=
    if any_flag events FILE_DESCRIPTOR_INPUT_EVENT
    then Z.lor epollEvents (Z.lor EPOLLIN EPOLLET) else epollEvents in
  if any_flag events FILE_DESCRIPTOR_OUTPUT_EVENT
  then Z.lor epollEvents (Z.lor EPOLLOUT EPOLLET) else epollEvents.

Definition Epoll_AddFileDescriptor (k : Kernel) (fileDescriptor events : Z) (w : EpollIoWaiter) : bool :=
  if (fileDescriptor <? 0) || (Z.land events FILE_DESCRIPTOR_EVENTS_MASK =? 0) then false
  else if ep_epollFd w <? 0 then false
  else if k_epoll_ctl k (ep_epollFd w) EPOLL_CTL_ADD fileDescriptor (listener_to_epoll_events events) <? 0
  then false else true.

(** [RemoveFileDescriptor]: the system call it makes, if any. *)
Definition Epoll_RemoveFileDescriptor (fileDescriptor : Z) (w : EpollIoWaiter) : option (Z * EpollOp * Z) :=
  if fileDescriptor <? 0 then None
  else if ep_epollFd w <? 0 then None
  else Some (ep_epollFd w, EPOLL_CTL_DEL, fileDescriptor).

Definition Epoll_SetCallback (w : EpollIoWaiter) : EpollIoWaiter :=
  mkEpollIoWaiter (ep_epollFd w) (ep_awakenFd w) true (ep_waitingCount w).

(** ** The abstract class *)

Inductive IoWaiter := NoneWaiter (w : NoneIoWaiter) | EpollWaiter (w : EpollIoWaiter).

Definition SupportListeningFileDescriptor (w : IoWaiter) : bool :=
  match w with NoneWaiter _ => false | EpollWaiter _ => true end.

Definition SetFileDescriptorEventCallback (w : IoWaiter) : IoWaiter :=
  match w with NoneWaiter _ => w | EpollWaiter e => EpollWaiter (Epoll_SetCallback e) end.

Definition AddFileDescriptor (k : Kernel) (fileDescriptor events : Z) (w : IoWaiter) : bool :=
  match w with NoneWaiter _ => false | EpollWaiter e => Epoll_AddFileDescriptor k fileDescriptor events e end.

Definition RemoveFileDescriptor (fileDescriptor : Z) (w : IoWaiter) : option (Z * EpollOp * Z) :=
  match w with NoneWaiter _ => None | EpollWaiter e => Epoll_RemoveFileDescriptor fileDescriptor e end.

(** [NotifyOne] / [NotifyAll]: whether the blocked threads are woken. *)
Definition Notify (w : IoWaiter) : bool :=
  match w with NoneWaiter n => None_Notify n | EpollWaiter e => Epoll_Notify e end.

Definition waitingCount (w : IoWaiter) : Z :=
  match w with NoneWaiter n => nw_waitingCount n | EpollWaiter e => ep_waitingCount e end.

(** [WaitFor], up to the blocking call ([None]: it returns false at once). *)
Definition WaitFor_enter (w : IoWaiter) : option IoWaiter :=
  match w with
  | NoneWaiter n => Some (NoneWaiter (None_enter n))
  | EpollWaiter e => EpollWaiter <$> Epoll_enter e
  end.

(** [WaitFor], after the blocking call. *)
Definition WaitFor_leave (w : IoWaiter) (retVal : Z) (ready : list (Z * Z))
  : IoWaiter * bool * list (Z * Z) :=
  match w with
  | NoneWaiter n => let '(n', r) := None_leave n in (NoneWaiter n', r, [])
  | EpollWaiter e => let '(e', r, calls) := Epoll_leave e retVal ready in (EpollWaiter e', r, calls)
  end.

(** ** Time-outs never end early *)

Lemma NanosecondsToTimeout_bounds ns :
  0 <= ns →
  in_i32 (NanosecondsToTimeout ns) ∧ 0 <= NanosecondsToTimeout ns
  ∧ (NanosecondsToTimeout ns < INT32_MAX → ns <= NanosecondsToTimeout ns * 1000000 < ns + 1000000).
Proof.
  intros H. unfold NanosecondsToTimeout, in_i32, INT32_MAX, NANOSECONDS_PER_ONE_MILLISECOND.
  destruct (ns <? 0) eqn:E; zbool; [lia|].
  rewrite Z.quot_div_nonneg, Z.rem_mod_nonneg by lia.
  pose proof (Z.div_mod ns 1000000). pose proof (Z.mod_pos_bound ns 1000000).
  repeat case_match; zbool; lia.
Qed.

Lemma TimePointToTimeOut_bounds when now :
  0 <= now → in_i64 when →
  0 <= TimePointToTimeOut when now ∧ (now < when → now + TimePointToTimeOut when now = when).
Proof.
  unfold TimePointToTimeOut, in_i64, INT64_MAX. intros H1 H2.
  case_match; zbool; [lia|]. rewrite i64_id by (unfold in_i64, INT64_MAX; lia). lia.
Qed.

(** A waiter that is blocked on is always notified: for the epoll waiter
    this needs [Init] to have succeeded, which [WaitFor] checks. *)
Definition waiter_ready (w : IoWaiter) : Prop :=
  match w with NoneWaiter _ => True | EpollWaiter e => 0 <= ep_epollFd e ∧ 0 <= ep_awakenFd e end.

Lemma Notify_waiting w : waiter_ready w → 0 < waitingCount w → Notify w = true.
Proof.
  destruct w as [n|e]; simpl; unfold None_Notify, Epoll_Notify; intros.
  - lia.
  - repeat case_match; zbool; lia.
Qed.

Lemma Epoll_Init_ready k w w' closed :
  Epoll_Init k w = (w', true, closed) → (0 <= ep_epollFd w → 0 <= ep_awakenFd w) →
  0 <= ep_epollFd w' ∧ 0 <= ep_awakenFd w' ∧ ep_waitingCount w' = ep_waitingCount w ∧ closed = [].
Proof. unfold Epoll_Init. intros. case_bools; eauto with lia. Qed.

(** ** Properties *)

(** A wait for a time point never ends early on its own account: the
    milliseconds given to [epoll_wait] cover the remaining nanoseconds and
    exceed them by less than one millisecond, unless they are capped at the
    largest [int]; a time point that has passed gives no wait at all. *)
Lemma timeout_covers_wait when now :
  0 <= now → in_i64 when →
  let ms := NanosecondsToTimeout (TimePointToTimeOut when now) in
  0 <= ms <= INT32_MAX
  ∧ (when <= now → ms = 0)
  ∧ (now < when → ms < INT32_MAX → when <= now + ms * 1000000 < when + 1000000).
Proof.
  intros Hnow Hwhen ms. destruct (TimePointToTimeOut_bounds when now Hnow Hwhen) as [H0 Hgt].
  destruct (NanosecondsToTimeout_bounds _ H0) as (Hr & Hp & Hb). fold ms in Hr, Hp, Hb.
  unfold in_i32, INT32_MAX in *. split_and!; [lia..| |lia].
  intros Hle. unfold ms, TimePointToTimeOut. by rewrite (proj2 (Z.leb_le _ _) Hle).
Qed.

(** The events a listener registered for are the events it is told about:
    when the kernel reports exactly the registered conditions, the listener
    gets back the readable and writable bits it asked for, and hang-ups and
    errors, which the kernel reports unasked, add exactly their own bits. *)
Theorem epoll_events_roundtrip events (hup err : bool) :
  epoll_to_listener_events
    (Z.lor (Z.lor (Z.land (listener_to_epoll_events events) (Z.lor EPOLLIN EPOLLOUT))
                  (if hup then EPOLLHUP else 0)) (if err then EPOLLERR else 0))
  = Z.lor (Z.lor (Z.land events FILE_DESCRIPTOR_EVENTS_MASK)
                 (if hup then FILE_DESCRIPTOR_SHUTDOWN_EVENT else 0))
          (if err then FILE_DESCRIPTOR_EXCEPTION_EVENT else 0).
Proof.
  assert (Z.land events FILE_DESCRIPTOR_EVENTS_MASK
    = Z.lor (if any_flag events FILE_DESCRIPTOR_INPUT_EVENT then 1 else 0)
            (if any_flag events FILE_DESCRIPTOR_OUTPUT_EVENT then 2 else 0)) as ->.
  { unfold any_flag, FILE_DESCRIPTOR_INPUT_EVENT, FILE_DESCRIPTOR_OUTPUT_EVENT, FILE_DESCRIPTOR_EVENTS_MASK.
    pose proof (land_bit events 0) as H0. pose proof (land_bit events 1) as H1.
    change (2 ^ 0) with 1 in H0. change (2 ^ 1) with 2 in H1.
    rewrite Z.land_lor_distr_r. unfold FILE_DESCRIPTOR_INPUT_EVENT, FILE_DESCRIPTOR_OUTPUT_EVENT.
    rewrite <- H0, <- H1 by lia.
    by destruct (Z.testbit events 0), (Z.testbit events 1). }
  unfold listener_to_epoll_events.
  by destruct (any_flag events FILE_DESCRIPTOR_INPUT_EVENT), (any_flag events FILE_DESCRIPTOR_OUTPUT_EVENT), hup, err.
Qed.

Lemma timeout_covers_wait_witness :
  NanosecondsToTimeout (TimePointToTimeOut 2500001 1) = 3 ∧ 2500001 <= 1 + 3 * 1000000 < 2500001 + 1000000.
Proof.
  split; [reflexivity|].
  refine (proj2 (proj2 (timeout_covers_wait 2500001 1 _ _)) _ _); unfold in_i64, INT64_MAX; try lia; reflexivity.
Defined.
