(* ===== verification/EventQueue.v ===== *)
(** * EventQueue: prioritised, timed event queues

    Models libs/libeventhandler/src/event_queue.cpp and event_queue.h.  Every
    public operation takes [queueLock_], so an operation is one atomic
    function on the state; [GetEvent], which releases the lock while it
    blocks, is the pair [GetEvent_iteration] / [GetEvent_resume], and the
    interleavings of its thread with the other threads are the step relation
    [sys_step] at the end of the file.

    The clock is an argument of the operations that read it; so is the
    environment [Env] of handlers and listeners, which the queue only knows
    through weak pointers. *)

From stdpp Require Import strings.
From S2P Require Import Prelude StdMap InnerEvent IoWaiter.

Open Scope Z_scope.

Inductive Priority := IMMEDIATE | HIGH | LOW | IDLE | OTHER_PRIORITY (value : Z).

Definition SUB_EVENT_QUEUE_NUM : nat := 3.
Definition DEFAULT_MAX_HANDLED_EVENT_COUNT : Z := 5.

(** [static_cast<uint32_t>(priority)] for the priorities with a sub queue. *)
Definition priority_index (p : Priority) : nat :=
  match p with IMMEDIATE => 0 | HIGH => 1 | LOW => 2 | _ => 3 end%nat.

Record SubEventQueue := mkSubEventQueue {
  sq_queue : list InnerEvent;
  sq_handledEventsCount : Z;
  sq_maxHandledEventsCount : Z;
}.

Definition new_SubEventQueue : SubEventQueue :=
  mkSubEventQueue [] 0 DEFAULT_MAX_HANDLED_EVENT_COUNT.

Record EventQueue := mkEventQueue {
  q_subEventQueues : list SubEventQueue;
  q_idleEvents : list InnerEvent;
  q_wakeUpTime : TimePoint;
  q_idleTimeStamp : TimePoint;
  q_isIdle : bool;
  q_finished : bool;
  q_ioWaiter : IoWaiter;
  q_listeners : stdmap Z (option ListenerId);
}.

(** [EventQueue()] at time [now]. *)
Definition new_EventQueue (now : TimePoint) : EventQueue :=
  mkEventQueue (repeat new_SubEventQueue SUB_EVENT_QUEUE_NUM) [] TIME_POINT_MAX now true true
    (NoneWaiter new_NoneIoWaiter) ∅.

(** [EventQueue(ioWaiter)]. *)
Definition new_EventQueue_waiter (now : TimePoint) (ioWaiter : option IoWaiter) : EventQueue :=
  let w := default (NoneWaiter new_NoneIoWaiter) ioWaiter in
  let w := if SupportListeningFileDescriptor w then SetFileDescriptorEventCallback w else w in
  mkEventQueue (repeat new_SubEventQueue SUB_EVENT_QUEUE_NUM) [] TIME_POINT_MAX now true true w ∅.

Definition set_queues (subs : list SubEventQueue) (idle : list InnerEvent) (q : EventQueue) : EventQueue :=
  mkEventQueue subs idle (q_wakeUpTime q) (q_idleTimeStamp q) (q_isIdle q) (q_finished q)
    (q_ioWaiter q) (q_listeners q).

Definition set_io (w : IoWaiter) (ls : stdmap Z (option ListenerId)) (q : EventQueue) : EventQueue :=
  mkEventQueue (q_subEventQueues q) (q_idleEvents q) (q_wakeUpTime q) (q_idleTimeStamp q)
    (q_isIdle q) (q_finished q) w ls.

Definition set_finished (b : bool) (q : EventQueue) : EventQueue :=
  mkEventQueue (q_subEventQueues q) (q_idleEvents q) (q_wakeUpTime q) (q_idleTimeStamp q)
    (q_isIdle q) b (q_ioWaiter q) (q_listeners q).

Definition set_sub_queue (events : list InnerEvent) (s : SubEventQueue) : SubEventQueue :=
  mkSubEventQueue events (sq_handledEventsCount s) (sq_maxHandledEventsCount s).

(** Handlers alive, and the weak owner of each listener. *)
Record Env := mkEnv {
  env_live : HandlerId → bool;
  env_listener_owner : ListenerId → option HandlerId;
}.

Definition listener_GetOwner (env : Env) (l : ListenerId) : option HandlerId :=
  match env_listener_owner env l with
  | Some h => if env_live env h then Some h else None
  | None => None
  end.

(** ** Insert *)

Definition InsertEventsLocked (events : list InnerEvent) (event : InnerEvent) : list InnerEvent :=
  insert_at (upper_bound (key_less ev_handleTime) event events) event events.

(** The queue and whether the blocked threads are woken. *)
Definition Insert (event : option InnerEvent) (priority : Priority) (q : EventQueue)
  : EventQueue * bool :=
  match event with
  | None => (q, false)
  | Some event =>
      let '(q', needNotify) :=
        match priority with
        | IMMEDIATE | HIGH | LOW =>
            (set_queues (alter (λ s, set_sub_queue (InsertEventsLocked (sq_queue s) event) s)
                           (priority_index priority) (q_subEventQueues q)) (q_idleEvents q) q,
             ev_handleTime event <? q_wakeUpTime q)
        | IDLE => (set_queues (q_subEventQueues q) (InsertEventsLocked (q_idleEvents q) event) q, false)
        | OTHER_PRIORITY _ => (q, false)
        end in
      (q', needNotify && Notify (q_ioWaiter q'))
  end.

(** ** Remove *)

Definition Remove_filter (f : InnerEvent → bool) (q : EventQueue) : EventQueue :=
  set_queues (map (λ s, set_sub_queue (filter (λ e, f e = false) (sq_queue s)) s) (q_subEventQueues q))
    (filter (λ e, f e = false) (q_idleEvents q)) q.

Definition owned_by (env : Env) (owner : HandlerId) (e : InnerEvent) : bool :=
  bool_decide (GetOwner (env_live env) e = Some owner).

Definition Remove_owner (env : Env) (owner : option HandlerId) (q : EventQueue) : EventQueue :=
  match owner with
  | None => q
  | Some o => Remove_filter (owned_by env o) q
  end.

Definition match_event (env : Env) (o : HandlerId) (innerEventId : Z) (e : InnerEvent) : bool :=
  negb (HasTask e) && owned_by env o e && (ev_innerEventId e =? innerEventId).

Definition Remove_event (env : Env) (owner : option HandlerId) (innerEventId : Z) (q : EventQueue)
  : EventQueue :=
  match owner with
  | None => q
  | Some o => Remove_filter (match_event env o innerEventId) q
  end.

Definition match_event_param (env : Env) (o : HandlerId) (innerEventId param : Z) (e : InnerEvent) : bool :=
  negb (HasTask e) && owned_by env o e && (ev_innerEventId e =? innerEventId) && (ev_param e =? param).

Definition Remove_event_param (env : Env) (owner : option HandlerId) (innerEventId param : Z)
  (q : EventQueue) : EventQueue :=
  match owner with
  | None => q
  | Some o => Remove_filter (match_event_param env o innerEventId param) q
  end.

Definition match_task (env : Env) (o : HandlerId) (name : string) (e : InnerEvent) : bool :=
  HasTask e && owned_by env o e && bool_decide (ev_taskName e = name).

Definition Remove_task (env : Env) (owner : option HandlerId) (name : string) (q : EventQueue)
  : EventQueue :=
  match owner with
  | None => q
  | Some o => if bool_decide (name = "") then q else Remove_filter (match_task env o name) q
  end.

(** [RemoveFileDescriptorListenerLocked]: the remaining listeners and the
    descriptors taken out of the IO waiter, in map order. *)
Definition RemoveFileDescriptorListenerLocked (f : option ListenerId → bool)
  (ls : stdmap Z (option ListenerId)) : stdmap Z (option ListenerId) * list Z :=
  (erase_if (λ _ l, f l) ls, (filter (λ p, f p.2 = true) (elems ls)).*1).

Definition orphan (env : Env) (e : InnerEvent) : bool :=
  match GetOwner (env_live env) e with None => true | Some _ => false end.

(** The two halves of [RemoveOrphan], each under the lock. *)
Definition RemoveOrphan_listeners (env : Env) (q : EventQueue) : EventQueue * list Z :=
  let '(ls, fds) := RemoveFileDescriptorListenerLocked
    (λ l, match l with None => true | Some l => negb (bool_decide (is_Some (listener_GetOwner env l))) end)
    (q_listeners q) in
  (set_io (q_ioWaiter q) ls q, fds).

Definition RemoveOrphan (env : Env) (q : EventQueue) : EventQueue * list Z :=
  RemoveOrphan_listeners env (Remove_filter (orphan env) q).

(** ** HasInnerEvent *)

Definition HasInnerEvent_filter (f : InnerEvent → bool) (q : EventQueue) : bool :=
  existsb (λ s, existsb f (sq_queue s)) (q_subEventQueues q) || existsb f (q_idleEvents q).

Definition HasInnerEvent_id (env : Env) (owner : option HandlerId) (innerEventId : Z) (q : EventQueue) : bool :=
  match owner with
  | None => false
  | Some o => HasInnerEvent_filter (match_event env o innerEventId) q
  end.

Definition match_param (env : Env) (o : HandlerId) (param : Z) (e : InnerEvent) : bool :=
  negb (HasTask e) && owned_by env o e && (ev_param e =? param).

Definition HasInnerEvent_param (env : Env) (owner : option HandlerId) (param : Z) (q : EventQueue) : bool :=
  match owner with
  | None => false
  | Some o => HasInnerEvent_filter (match_param env o param) q
  end.

(** ** Picking an event *)

(** The answer and the updated wake up time. *)
Definition CheckEventInListLocked (events : list InnerEvent) (now nextWakeUpTime : TimePoint)
  : bool * TimePoint :=
  match events with
  | e :: _ =>
      let handleTime := ev_handleTime e in
      if handleTime <? nextWakeUpTime then (handleTime <=? now, handleTime) else (false, nextWakeUpTime)
  | [] => (false, nextWakeUpTime)
  end.

Definition count_handled (s : SubEventQueue) : SubEventQueue :=
  mkSubEventQueue (sq_queue s) (u32 (sq_handledEventsCount s + 1)) (sq_maxHandledEventsCount s).
Definition reset_handled (s : SubEventQueue) : SubEventQueue :=
  mkSubEventQueue (sq_queue s) 0 (sq_maxHandledEventsCount s).

(** The first loop of [PickEventLocked], over the indices still to visit:
    the sub queues, the wake up time and [priorityIndex] when it ends. *)
Fixpoint pick_loop (idxs : list nat) (now nextWakeUpTime : TimePoint) (priorityIndex : nat)
  (subs : list SubEventQueue) : list SubEventQueue * TimePoint * nat :=
  match idxs with
  | [] => (subs, nextWakeUpTime, priorityIndex)
  | i :: idxs =>
      let '(due, nextWakeUpTime) :=
        CheckEventInListLocked (default [] (sq_queue <$> subs !! i)) now nextWakeUpTime in
      if negb due then pick_loop idxs now nextWakeUpTime priorityIndex subs
      else
        match (if (priorityIndex <? SUB_EVENT_QUEUE_NUM)%nat then subs !! priorityIndex else None) with
        | Some subQueue =>
            if sq_handledEventsCount subQueue <? sq_maxHandledEventsCount subQueue
            then (alter count_handled priorityIndex subs, nextWakeUpTime, priorityIndex)
            else pick_loop idxs now nextWakeUpTime i subs
        | None => pick_loop idxs now nextWakeUpTime i subs
        end
  end.

(** The event, the sub queues and the wake up time. *)
Definition PickEventLocked (now nextWakeUpTime : TimePoint) (subs : list SubEventQueue)
  : option InnerEvent * list SubEventQueue * TimePoint :=
  let '(subs, nextWakeUpTime, priorityIndex) :=
    pick_loop (seq 0 SUB_EVENT_QUEUE_NUM) now nextWakeUpTime SUB_EVENT_QUEUE_NUM subs in
  if (SUB_EVENT_QUEUE_NUM <=? priorityIndex)%nat then (None, subs, nextWakeUpTime)
  else
    let subs := imap (λ i s, if (i <? priorityIndex)%nat then reset_handled s else s) subs in
    match subs !! priorityIndex with
    | Some s =>
        (head (sq_queue s), <[priorityIndex := set_sub_queue (tail (sq_queue s)) s]> subs, nextWakeUpTime)
    | None => (None, subs, nextWakeUpTime)
    end.

(** [GetExpiredEventLocked]: the event, the queue and the output parameter. *)
Definition GetExpiredEventLocked (now nextExpiredTime : TimePoint) (q : EventQueue)
  : option InnerEvent * EventQueue * TimePoint :=
  let '(event, subs, wakeUpTime) := PickEventLocked now TIME_POINT_MAX (q_subEventQueues q) in
  match event with
  | Some e =>
      (Some e,
       mkEventQueue subs (q_idleEvents q) wakeUpTime (q_idleTimeStamp q) false (q_finished q)
         (q_ioWaiter q) (q_listeners q),
       nextExpiredTime)
  | None =>
      let idleTimeStamp := if q_isIdle q then q_idleTimeStamp q else now in
      let with_idle idle :=
        mkEventQueue subs idle wakeUpTime idleTimeStamp true (q_finished q) (q_ioWaiter q) (q_listeners q) in
      match q_idleEvents q with
      | e :: rest =>
          if (ev_sendTime e <=? idleTimeStamp) && (ev_handleTime e <=? now)
          then (Some e, with_idle rest, nextExpiredTime)
          else (None, with_idle (q_idleEvents q), wakeUpTime)
      | [] => (None, with_idle [], wakeUpTime)
      end
  end.

Definition GetExpiredEvent := GetExpiredEventLocked.

(** ** GetEvent *)

(** One iteration of the loop of [GetEvent] at time [now], up to the
    blocking call of [WaitUntilLocked]. *)
Inductive Iteration :=
| Returns (event : option InnerEvent) (q : EventQueue)
| Blocks (timeout : Z) (until : TimePoint) (q : EventQueue)
| WaitFails (q : EventQueue).

(** The handling of a failed [WaitFor]. *)
Definition reset_IoWaiter (q : EventQueue) : EventQueue :=
  set_io (NoneWaiter new_NoneIoWaiter) ∅ q.

Definition GetEvent_iteration (now : TimePoint) (q : EventQueue) : Iteration :=
  if q_finished q then Returns None q
  else
    let '(event, q, nextWakeUpTime) := GetExpiredEventLocked now TIME_POINT_MAX q in
    match event with
    | Some e => Returns (Some e) q
    | None =>
        match WaitFor_enter (q_ioWaiter q) with
        | None => WaitFails (reset_IoWaiter q)
        | Some w => Blocks (TimePointToTimeOut nextWakeUpTime now) nextWakeUpTime (set_io w (q_listeners q) q)
        end
    end.

(** The rest of [WaitUntilLocked] once the thread runs again; [holder] is
    whether the waiter it blocked on is still the queue's.  The calls of the
    file descriptor callback are returned. *)
Definition GetEvent_resume (holder : bool) (old : IoWaiter) (retVal : Z) (ready : list (Z * Z)) (q : EventQueue)
  : EventQueue * list (Z * Z) :=
  let '(w, ok, calls) := WaitFor_leave (if holder then q_ioWaiter q else old) retVal ready in
  let q := if holder then set_io w (q_listeners q) q else q in
  (if ok then q else reset_IoWaiter q, calls).

(** ** File descriptor listeners *)

Inductive ErrCode :=
| ERR_OK
| EVENT_HANDLER_ERR_INVALID_PARAM
| EVENT_HANDLER_ERR_NO_EVENT_RUNNER
| EVENT_HANDLER_ERR_FD_NOT_SUPPORT
| EVENT_HANDLER_ERR_FD_ALREADY
| EVENT_HANDLER_ERR_FD_FAILED
| EVENT_HANDLER_ERR_RUNNER_NO_PERMIT
| EVENT_HANDLER_ERR_RUNNER_ALREADY.

#[export] Instance ErrCode_eq_dec : EqDecision ErrCode.
Proof. solve_decision. Defined.

(** The queue, the result, and whether the old waiter was notified before
    it was replaced. *)
Definition EnsureIoWaiterSupportListerningFileDescriptorLocked (k : Kernel) (q : EventQueue)
  : EventQueue * bool * bool :=
  if SupportListeningFileDescriptor (q_ioWaiter q) then (q, true, false)
  else
    let '(newIoWaiter, ok, _) := Epoll_Init k new_EpollIoWaiter in
    if negb ok then (q, false, false)
    else
      let newIoWaiter := Epoll_SetCallback newIoWaiter in
      (set_io (EpollWaiter newIoWaiter) (q_listeners q) q, true, Notify (q_ioWaiter q)).

Definition AddFileDescriptorListener (k : Kernel) (fileDescriptor events : Z) (listener : option ListenerId)
  (q : EventQueue) : EventQueue * ErrCode * bool :=
  if (fileDescriptor <? 0) || (Z.land events FILE_DESCRIPTOR_EVENTS_MASK =? 0)
     || bool_decide (listener = None)
  then (q, EVENT_HANDLER_ERR_INVALID_PARAM, false)
  else
    match q_listeners q !! fileDescriptor with
    | Some _ => (q, EVENT_HANDLER_ERR_FD_ALREADY, false)
    | None =>
        let '(q, ok, notified) := EnsureIoWaiterSupportListerningFileDescriptorLocked k q in
        if negb ok then (q, EVENT_HANDLER_ERR_FD_NOT_SUPPORT, notified)
        else if negb (AddFileDescriptor k fileDescriptor events (q_ioWaiter q))
        then (q, EVENT_HANDLER_ERR_FD_FAILED, notified)
        else (set_io (q_ioWaiter q) (emplace fileDescriptor listener (q_listeners q)) q, ERR_OK, notified)
    end.

Definition RemoveFileDescriptorListener_owner (env : Env) (owner : option HandlerId) (q : EventQueue)
  : EventQueue * list Z :=
  match owner with
  | None => (q, [])
  | Some o =>
      let '(ls, fds) := RemoveFileDescriptorListenerLocked
        (λ l, match l with None => false | Some l => bool_decide (listener_GetOwner env l = Some o) end)
        (q_listeners q) in
      (set_io (q_ioWaiter q) ls q, fds)
  end.

Definition RemoveFileDescriptorListener_fd (fileDescriptor : Z) (q : EventQueue) : EventQueue * list Z :=
  if fileDescriptor <? 0 then (q, [])
  else
    match q_listeners q !! fileDescriptor with
    | Some _ => (set_io (q_ioWaiter q) (delete fileDescriptor (q_listeners q)) q, [fileDescriptor])
    | None => (q, [])
    end.

(** [HandleFileDescriptorEvent]: the handler and the task posted to it. *)
Definition HandleFileDescriptorEvent (env : Env) (fileDescriptor events : Z) (q : EventQueue)
  : option (HandlerId * Callback) :=
  match q_listeners q !! fileDescriptor with
  | Some (Some listener) =>
      match listener_GetOwner env listener with
      | Some handler => Some (handler, FileDescriptorCallback fileDescriptor events listener)
      | None => None
      end
  | _ => None
  end.

(** The calls the posted lambda makes on the listener, in order. *)
Inductive ListenerCall := OnReadable (fd : Z) | OnWritable (fd : Z) | OnShutdown (fd : Z) | OnException (fd : Z).

Definition run_fd_callback (listener_live : bool) (fileDescriptor events : Z) : list ListenerCall :=
  if negb listener_live then []
  else
    (if any_flag events FILE_DESCRIPTOR_INPUT_EVENT then [OnReadable fileDescriptor] else [])
    ++ (if any_flag events FILE_DESCRIPTOR_OUTPUT_EVENT then [OnWritable fileDescriptor] else [])
    ++ (if any_flag events FILE_DESCRIPTOR_SHUTDOWN_EVENT then [OnShutdown fileDescriptor] else [])
    ++ (if any_flag events FILE_DESCRIPTOR_EXCEPTION_EVENT then [OnException fileDescriptor] else []).

(** ** Prepare, Finish and queries *)

Definition Prepare (q : EventQueue) : EventQueue := set_finished false q.

Definition Finish (q : EventQueue) : EventQueue * bool := (set_finished true q, Notify (q_ioWaiter q)).

Definition IsIdle (q : EventQueue) : bool := q_isIdle q.

Definition IsQueueEmpty (q : EventQueue) : bool :=
  forallb (λ s, match sq_queue s with [] => true | _ => false end) (q_subEventQueues q)
  && match q_idleEvents q with [] => true | _ => false end.

(** ** Invariant *)

Definition sub_wf (s : SubEventQueue) : Prop :=
  key_sorted ev_handleTime (sq_queue s)
  ∧ 0 <= sq_handledEventsCount s <= DEFAULT_MAX_HANDLED_EVENT_COUNT
  ∧ sq_maxHandledEventsCount s = DEFAULT_MAX_HANDLED_EVENT_COUNT.

Record queue_wf (q : EventQueue) : Prop := {
  qw_subs : length (q_subEventQueues q) = SUB_EVENT_QUEUE_NUM ∧ Forall sub_wf (q_subEventQueues q);
  qw_idle : key_sorted ev_handleTime (q_idleEvents q);
  qw_listeners : sm_wf (q_listeners q) ∧ ∀ fd l, q_listeners q !! fd = Some l → 0 <= fd ∧ is_Some l;
}.

Lemma Forall_alter {A} (P : A → Prop) f i (l : list A) :
  (∀ x, P x → P (f x)) → Forall P l → Forall P (alter f i l).
Proof.
  intros Hf Hl. apply Forall_lookup. intros j x Hj.
  destruct (decide (i = j)) as [->|].
  - rewrite list_lookup_alter_eq in Hj. destruct (l !! j) eqn:E; simplify_eq/=.
    apply Hf. eapply (proj1 (Forall_lookup P l)); eauto.
  - rewrite list_lookup_alter_ne in Hj by done. eapply (proj1 (Forall_lookup P l)); eauto.
Qed.

Lemma sub_wf_set s l : sub_wf s → key_sorted ev_handleTime l → sub_wf (set_sub_queue l s).
Proof. by intros (? & ? & ?). Qed.

Lemma sub_wf_insert e s : sub_wf s → sub_wf (set_sub_queue (InsertEventsLocked (sq_queue s) e) s).
Proof. intros Hs. apply sub_wf_set; [done|]. apply insert_upper_bound_sorted, Hs. Qed.

Lemma sub_wf_count s :
  sub_wf s → (sq_handledEventsCount s <? sq_maxHandledEventsCount s) = true → sub_wf (count_handled s).
Proof.
  intros (? & H & Hm) Hlt. rewrite Hm in Hlt. unfold DEFAULT_MAX_HANDLED_EVENT_COUNT in *. zbool.
  unfold sub_wf, count_handled, DEFAULT_MAX_HANDLED_EVENT_COUNT. simpl.
  rewrite u32_id by (unfold in_u32, UINT32_MAX; lia). split_and!; [done|lia|lia|done].
Qed.

Lemma sub_wf_reset s : sub_wf s → sub_wf (reset_handled s).
Proof. intros (? & ? & ?). unfold sub_wf, reset_handled, DEFAULT_MAX_HANDLED_EVENT_COUNT. simpl. split_and!; try done; lia. Qed.

#[export] Hint Resolve sub_wf_set sub_wf_insert sub_wf_count sub_wf_reset : cpp.

Lemma new_sub_wf : sub_wf new_SubEventQueue.
Proof. split_and!; simpl; [constructor|unfold DEFAULT_MAX_HANDLED_EVENT_COUNT; lia..|done]. Qed.

Lemma new_queue_wf now : queue_wf (new_EventQueue now).
Proof.
  split; simpl.
  - split; [done|]. unfold SUB_EVENT_QUEUE_NUM. simpl.
    repeat (apply Forall_cons; split); [apply new_sub_wf..|by apply Forall_nil].
  - constructor.
  - split; [apply sm_wf_empty|done].
Qed.

Lemma Insert_wf e p q : queue_wf q → queue_wf (Insert e p q).1.
Proof.
  intros [[Hlen Hsubs] Hidle Hls]. destruct e as [e|]; [|by split].
  unfold Insert. destruct p; simpl; split; simpl; auto;
    try (rewrite length_alter; split; [done|]; apply Forall_alter; auto with cpp).
  by apply insert_upper_bound_sorted.
Qed.

Lemma Remove_filter_wf f q : queue_wf q → queue_wf (Remove_filter f q).
Proof.
  intros [[Hlen Hsubs] Hidle Hls]. split; simpl; auto.
  - rewrite length_map. split; [done|]. apply Forall_fmap. eapply Forall_impl; [exact Hsubs|].
    intros s Hs. apply sub_wf_set; [done|]. apply key_sorted_filter, Hs.
  - by apply key_sorted_filter.
Qed.

Lemma set_io_wf w ls q :
  queue_wf q → sm_wf ls → (∀ fd l, ls !! fd = Some l → 0 <= fd ∧ is_Some l) → queue_wf (set_io w ls q).
Proof. by intros []; split; simpl. Qed.

Lemma RemoveFd_listeners_wf f q ls fds :
  queue_wf q → RemoveFileDescriptorListenerLocked f (q_listeners q) = (ls, fds) →
  queue_wf (set_io (q_ioWaiter q) ls q).
Proof.
  intros Hq Heq. unfold RemoveFileDescriptorListenerLocked in Heq. simplify_eq.
  destruct (qw_listeners _ Hq) as [Hwf Hk]. apply set_io_wf; [done|auto with cpp|].
  intros fd l Hl. rewrite sm_lookup_erase_if in Hl by done.
  destruct (q_listeners q !! fd) eqn:E; [|done]. destruct (f o); simplify_eq. eauto.
Qed.

(** ** Picking *)

(** The earliest handle time of the heads, or [w]. *)
Definition min_head (w : TimePoint) (subs : list SubEventQueue) : TimePoint :=
  foldl (λ w s, match sq_queue s with e :: _ => Z.min (ev_handleTime e) w | [] => w end) w subs.

(** Opens a call of [PickEventLocked] on three queues. *)
Ltac open_pick subs :=
  destruct subs as [|[[|?e0 ?l0] ?c0 ?m0] [|[[|?e1 ?l1] ?c1 ?m1] [|[[|?e2 ?l2] ?c2 ?m2] [|]]]]; try discriminate;
  unfold PickEventLocked, CheckEventInListLocked, SUB_EVENT_QUEUE_NUM; simpl;
  intros; simplify_eq/=; case_bools; zbool.

Lemma PickEventLocked_none now w subs subs' w' :
  length subs = SUB_EVENT_QUEUE_NUM → PickEventLocked now w subs = (None, subs', w') →
  subs' = subs ∧ w' = min_head w subs ∧ (w' <= now → w <= now).
Proof. intros Hlen. unfold min_head. open_pick subs; split_and!; try done; lia. Qed.

(** [e] is the event of queue [i] and was due. *)
Definition picked (now : TimePoint) (subs subs' : list SubEventQueue) (e : InnerEvent) (i : nat) : Prop :=
  ∃ s rest, subs !! i = Some s ∧ sq_queue s = e :: rest ∧ ev_handleTime e <= now
    ∧ map sq_queue subs' = <[i := rest]> (map sq_queue subs).

Lemma PickEventLocked_some now w subs e subs' w' :
  length subs = SUB_EVENT_QUEUE_NUM → PickEventLocked now w subs = (Some e, subs', w') →
  ∃ i, picked now subs subs' e i.
Proof.
  intros Hlen. unfold picked. open_pick subs.
  all: first [ exists 0%nat; do 2 eexists; by split_and!
             | exists 1%nat; do 2 eexists; by split_and!
             | exists 2%nat; do 2 eexists; by split_and! ].
Qed.

Lemma PickEventLocked_wf now w subs :
  length subs = SUB_EVENT_QUEUE_NUM → Forall sub_wf subs →
  length (PickEventLocked now w subs).1.2 = SUB_EVENT_QUEUE_NUM
  ∧ Forall sub_wf (PickEventLocked now w subs).1.2.
Proof.
  intros Hlen. open_pick subs. all: split; [done|]. all: decompose_Forall_hyps.
  all: repeat (apply Forall_cons; split; [|]); try apply Forall_nil; auto.
  all: repeat match goal with H : sub_wf _ |- _ => destruct H as (? & ? & ?); simpl in * end.
  all: unfold sub_wf, DEFAULT_MAX_HANDLED_EVENT_COUNT in *; simpl.
  all: rewrite ?u32_id by (unfold in_u32, UINT32_MAX; lia); split_and!; eauto with cpp lia.
Qed.

(** ** GetExpiredEvent *)

Definition events_of (subs : list SubEventQueue) : list InnerEvent := concat (map sq_queue subs).
Definition all_events (q : EventQueue) : list InnerEvent := events_of (q_subEventQueues q) ++ q_idleEvents q.

Lemma concat_insert {A} (ll : list (list A)) i l l' :
  ll !! i = Some l → ∃ l1 l2, concat ll = l1 ++ l ++ l2 ∧ concat (<[i := l']> ll) = l1 ++ l' ++ l2.
Proof.
  intros H. exists (concat (take i ll)), (concat (drop (S i) ll)).
  split.
  - rewrite <- (take_drop_middle ll i l H) at 1. by rewrite concat_app.
  - rewrite insert_take_drop by eauto using lookup_lt_Some. by rewrite concat_app.
Qed.

Lemma picked_permutation now subs subs' e i :
  picked now subs subs' e i → events_of subs ≡ₚ e :: events_of subs'.
Proof.
  intros (s & rest & Hs & Hq & _ & Heq). unfold events_of. rewrite Heq.
  destruct (concat_insert (map sq_queue subs) i (e :: rest) rest) as (l1 & l2 & -> & ->).
  { change (map sq_queue subs) with (sq_queue <$> subs). rewrite list_lookup_fmap, Hs. simpl. by rewrite Hq. }
  simpl. by rewrite <- Permutation_middle.
Qed.

Lemma min_head_le w subs : min_head w subs <= w.
Proof.
  unfold min_head. revert w. induction subs as [|s subs IH]; intros w; simpl; [lia|].
  etrans; [apply IH|]. destruct (sq_queue s); lia.
Qed.

Lemma min_head_spec w subs e :
  Forall sub_wf subs → e ∈ events_of subs → min_head w subs <= ev_handleTime e.
Proof.
  unfold min_head, events_of. intros Hwf. revert w. induction Hwf as [|s subs Hs Hwf IH]; intros w; simpl; [set_solver|].
  intros [Hin|Hin]%elem_of_app; [|by apply IH].
  destruct Hs as [Hs _]. destruct (sq_queue s) as [|e' l]; [set_solver|].
  pose proof (min_head_le (Z.min (ev_handleTime e') w) subs) as Hle. unfold min_head in Hle.
  apply elem_of_cons in Hin as [->|Hin]; [lia|].
  pose proof (key_sorted_head ev_handleTime e' l e Hs Hin). lia.
Qed.

Lemma min_head_attained w subs :
  min_head w subs = w ∨ ∃ e, e ∈ events_of subs ∧ ev_handleTime e = min_head w subs.
Proof.
  unfold min_head, events_of. revert w. induction subs as [|s subs IH]; intros w; simpl; [by left|].
  destruct (sq_queue s) as [|e l] eqn:E; simpl; [apply IH|].
  destruct (IH (Z.min (ev_handleTime e) w)) as [Heq|(e' & Hin & Heq)].
  - rewrite Heq. destruct (Z.le_gt_cases w (ev_handleTime e)); [left; lia|right].
    exists e. split; [left|lia].
  - right. exists e'. split; [|done]. right. apply elem_of_app. by right.
Qed.

Lemma GetExpiredEventLocked_wf now next q :
  queue_wf q → queue_wf (GetExpiredEventLocked now next q).1.2.
Proof.
  intros Hq. pose proof Hq as [[Hlen Hsubs] Hidle Hls].
  pose proof (PickEventLocked_wf now TIME_POINT_MAX _ Hlen Hsubs) as Hp.
  unfold GetExpiredEventLocked. destruct (PickEventLocked _ _ _) as [[[e|] subs] w]; simpl in *.
  - by split.
  - destruct (q_idleEvents q) as [|i rest] eqn:Ei; [by split|].
    case_match; simpl; split; simpl; auto. by eapply key_sorted_tail.
Qed.

(** When no event is returned, nothing is due. *)
Lemma GetExpiredEventLocked_none now next q q' t :
  queue_wf q → GetExpiredEventLocked now next q = (None, q', t) →
  t = min_head TIME_POINT_MAX (q_subEventQueues q)
  ∧ q_wakeUpTime q' = t ∧ q_isIdle q' = true
  ∧ q_subEventQueues q' = q_subEventQueues q ∧ q_idleEvents q' = q_idleEvents q
  ∧ q_finished q' = q_finished q ∧ q_ioWaiter q' = q_ioWaiter q ∧ q_listeners q' = q_listeners q
  ∧ (t <= now → TIME_POINT_MAX <= now).
Proof.
  intros [[Hlen _] _ _]. unfold GetExpiredEventLocked.
  destruct (PickEventLocked _ _ _) as [[[e|] subs] w] eqn:E; [done|].
  apply PickEventLocked_none in E as (-> & -> & Hdue); [|done].
  destruct (q_idleEvents q) as [|i rest] eqn:Ei; intros; case_bools; by split_and!.
Qed.

Lemma GetExpiredEventLocked_some now next q e q' t :
  queue_wf q → GetExpiredEventLocked now next q = (Some e, q', t) →
  ev_handleTime e <= now ∧ all_events q ≡ₚ e :: all_events q'
  ∧ ((∃ i, picked now (q_subEventQueues q) (q_subEventQueues q') e i ∧ q_idleEvents q' = q_idleEvents q
      ∧ q_isIdle q' = false)
     ∨ (q_idleEvents q = e :: q_idleEvents q' ∧ q_subEventQueues q' = q_subEventQueues q
        ∧ ev_sendTime e <= q_idleTimeStamp q' ∧ q_isIdle q' = true
        ∧ (min_head TIME_POINT_MAX (q_subEventQueues q) <= now → TIME_POINT_MAX <= now))).
Proof.
  intros [[Hlen _] _ _]. unfold GetExpiredEventLocked, all_events.
  destruct (PickEventLocked _ _ _) as [[[e'|] subs] w] eqn:E.
  - intros. simplify_eq/=. apply PickEventLocked_some in E as (i & Hp); [|done].
    pose proof Hp as (s & rest & _ & _ & Hdue & _). split_and!; [done| |by left; exists i].
    by rewrite (picked_permutation _ _ _ _ _ Hp).
  - apply PickEventLocked_none in E as (-> & -> & Hdue); [|done].
    destruct (q_idleEvents q) as [|i rest] eqn:Ei; intros; case_bools.
    all: split_and!; [done|by rewrite <- Permutation_middle|]. all: right; by split_and!.
Qed.

(** ** LOW events are not starved

    While the head of the LOW queue is due and every IMMEDIATE and HIGH
    event is later, each call of [GetExpiredEvent] that returns another
    event uses up one of the [maxHandledEventsCount] turns of the queues in
    front of it. *)

Definition low_queue (subs : list SubEventQueue) : list InnerEvent := default [] (sq_queue <$> subs !! 2%nat).

Definition turns_left (subs : list SubEventQueue) : Z :=
  match subs with
  | [s0; s1; _] =>
      (DEFAULT_MAX_HANDLED_EVENT_COUNT - sq_handledEventsCount s1) * (DEFAULT_MAX_HANDLED_EVENT_COUNT + 1)
      + (DEFAULT_MAX_HANDLED_EVENT_COUNT - sq_handledEventsCount s0)
  | _ => 0
  end.

(** Events of the IMMEDIATE and HIGH queues are later than [t]. *)
Definition higher_after (t : TimePoint) (subs : list SubEventQueue) : Prop :=
  ∀ i s, (i < 2)%nat → subs !! i = Some s → Forall (λ e, t < ev_handleTime e) (sq_queue s).

Lemma turns_left_bounds subs :
  length subs = SUB_EVENT_QUEUE_NUM → Forall sub_wf subs → 0 <= turns_left subs <= 35.
Proof.
  intros Hlen Hwf. destruct subs as [|s0 [|s1 [|s2 [|]]]]; try discriminate.
  decompose_Forall_hyps. repeat match goal with H : sub_wf _ |- _ => destruct H as (_ & ? & _) end.
  unfold turns_left, DEFAULT_MAX_HANDLED_EVENT_COUNT in *. lia.
Qed.

Lemma higher_after_0 t s0 s1 s2 :
  higher_after t [s0; s1; s2] ↔
  Forall (λ e, t < ev_handleTime e) (sq_queue s0) ∧ Forall (λ e, t < ev_handleTime e) (sq_queue s1).
Proof.
  split.
  - intros H. split; [by apply (H 0%nat); [lia|]|by apply (H 1%nat); [lia|]].
  - intros [H0 H1] [|[|i]] s ?; simpl; intros; simplify_eq; [done..|lia].
Qed.

Lemma PickEventLocked_low now t subs e rest :
  length subs = SUB_EVENT_QUEUE_NUM → Forall sub_wf subs → low_queue subs = e :: rest →
  ev_handleTime e <= t → t <= now < TIME_POINT_MAX → higher_after t subs →
  ∃ e' subs' w, PickEventLocked now TIME_POINT_MAX subs = (Some e', subs', w) ∧ higher_after t subs'
    ∧ ((e' = e ∧ low_queue subs' = rest) ∨ (low_queue subs' = e :: rest ∧ turns_left subs' < turns_left subs)).
Proof.
  intros Hlen Hwf. unfold low_queue. open_pick subs; decompose_Forall_hyps.
  all: repeat match goal with H : sub_wf _ |- _ => destruct H as (_ & ? & ?); simpl in * end.
  all: repeat match goal with H : higher_after _ _ |- _ => apply higher_after_0 in H as [? ?]; simpl in * end.
  all: decompose_Forall_hyps; try lia.
  all: do 3 eexists; split; [done|]; split; [apply higher_after_0; split; decompose_Forall; auto|].
  all: first [by left|right].
  all: unfold count_handled, DEFAULT_MAX_HANDLED_EVENT_COUNT in *; simpl.
  all: rewrite ?u32_id by (unfold in_u32, UINT32_MAX; lia).
  all: split; [done|unfold DEFAULT_MAX_HANDLED_EVENT_COUNT; lia].
Qed.

(** Operations on a queue by its clients, at given times. *)
Inductive QueueOp :=
| OpInsert (event : InnerEvent) (priority : Priority)
| OpRemove (f : InnerEvent → bool)
| OpGetExpired (now : TimePoint).

Definition run_op (op : QueueOp) (q : EventQueue) : EventQueue * list InnerEvent :=
  match op with
  | OpInsert e p => ((Insert (Some e) p q).1, [])
  | OpRemove f => (Remove_filter f q, [])
  | OpGetExpired now =>
      let '(e, q, _) := GetExpiredEvent now TIME_POINT_MAX q in (q, option_list e)
  end.

Fixpoint run_ops (ops : list QueueOp) (q : EventQueue) : EventQueue * list InnerEvent :=
  match ops with
  | [] => (q, [])
  | op :: ops =>
      let '(q, out) := run_op op q in
      let '(q, outs) := run_ops ops q in (q, out ++ outs)
  end.

(** Time goes on after [e] became due: calls happen while [e] is due, new
    events are later than [e] and [e] is not removed. *)
Definition op_after (e : InnerEvent) (op : QueueOp) : bool :=
  match op with
  | OpInsert e' _ => ev_handleTime e <? ev_handleTime e'
  | OpRemove f => negb (f e)
  | OpGetExpired now => (ev_handleTime e <=? now) && (now <? TIME_POINT_MAX)
  end.

Definition is_get (op : QueueOp) : bool := match op with OpGetExpired _ => true | _ => false end.

Lemma higher_after_map t (f : SubEventQueue → SubEventQueue) subs :
  (∀ s, Forall (λ e, t < ev_handleTime e) (sq_queue s) → Forall (λ e, t < ev_handleTime e) (sq_queue (f s))) →
  higher_after t subs → higher_after t (map f subs).
Proof.
  intros Hf H i s Hi Hs. change (map f subs) with (f <$> subs) in Hs. rewrite list_lookup_fmap in Hs.
  destruct (subs !! i) as [s'|] eqn:E; simplify_eq/=. apply Hf. by apply (H i).
Qed.

Lemma higher_after_alter t (f : SubEventQueue → SubEventQueue) j subs :
  (∀ s, Forall (λ e, t < ev_handleTime e) (sq_queue s) → Forall (λ e, t < ev_handleTime e) (sq_queue (f s))) →
  higher_after t subs → higher_after t (alter f j subs).
Proof.
  intros Hf H i s Hi Hs. rewrite list_lookup_alter in Hs. case_decide; subst; [|by apply (H i)].
  destruct (subs !! i) as [s'|] eqn:E; simplify_eq/=. apply Hf. by apply (H i).
Qed.

Lemma turns_left_map f subs :
  (∀ s, sq_handledEventsCount (f s) = sq_handledEventsCount s) → turns_left (map f subs) = turns_left subs.
Proof. intros Hf. destruct subs as [|s0 [|s1 [|s2 [|]]]]; simpl; by rewrite ?Hf. Qed.

Lemma turns_left_alter f j subs :
  (∀ s, sq_handledEventsCount (f s) = sq_handledEventsCount s) → turns_left (alter f j subs) = turns_left subs.
Proof.
  intros Hf. destruct subs as [|s0 [|s1 [|s2 [|]]]], j as [|[|[|[|j]]]]; simpl; by rewrite ?Hf.
Qed.

(** The waiting event between two operations, with [n] LOW events ahead. *)
Record low_waiting (n : nat) (e : InnerEvent) (q : EventQueue) : Prop := {
  lw_wf : queue_wf q;
  lw_place : ∃ ahead rest, low_queue (q_subEventQueues q) = ahead ++ e :: rest ∧ length ahead = n;
  lw_higher : higher_after (ev_handleTime e) (q_subEventQueues q);
}.

(** The calls that are enough: each event ahead takes all turns once. *)
Definition calls_left (n : nat) (q : EventQueue) : Z := 36 * Z.of_nat n + turns_left (q_subEventQueues q).

Lemma InsertEventsLocked_behind ahead rest e' :
  Forall (λ x, ev_handleTime x < ev_handleTime e') ahead →
  InsertEventsLocked (ahead ++ rest) e' = ahead ++ InsertEventsLocked rest e'.
Proof.
  induction 1 as [|x l Hx _ IH]; [done|]. simpl. unfold InsertEventsLocked in *. rewrite upper_bound_cons. unfold key_less at 1.
  destruct (_ <? _) eqn:E; zbool; [lia|]. cbn. by rewrite IH.
Qed.

Lemma InsertEventsLocked_permutation l e : InsertEventsLocked l e ≡ₚ e :: l.
Proof. apply insert_at_permutation. Qed.

Lemma low_queue_sorted subs : Forall sub_wf subs → key_sorted ev_handleTime (low_queue subs).
Proof.
  intros H. unfold low_queue. destruct (subs !! 2%nat) as [s|] eqn:Hs; [|constructor]. simpl.
  by destruct (proj1 (Forall_lookup _ _) H _ _ Hs).
Qed.

Lemma key_sorted_ahead (l1 l2 : list InnerEvent) e :
  key_sorted ev_handleTime (l1 ++ e :: l2) → Forall (λ x, ev_handleTime x <= ev_handleTime e) l1.
Proof.
  induction l1 as [|x l1 IH]; intros H; constructor.
  - apply (key_sorted_head ev_handleTime x (l1 ++ e :: l2)); [exact H|]. apply elem_of_app. right. left.
  - apply IH. by eapply key_sorted_tail.
Qed.

Lemma run_op_low n e q op q' outs :
  low_waiting n e q → op_after e op = true → run_op op q = (q', outs) →
  e ∈ outs ∨ ∃ n', low_waiting n' e q' ∧ calls_left n' q' + (if is_get op then 1 else 0) <= calls_left n q.
Proof.
  intros [Hwf (ahead & rest & Hlow & Hn) Hhi] Hop Hrun. pose proof Hwf as [[Hlen Hsubs] _ _]. unfold calls_left.
  pose proof (low_queue_sorted _ Hsubs) as Hsort. rewrite Hlow in Hsort. apply key_sorted_ahead in Hsort as Hahead.
  destruct op as [e' p|f|now]; simpl in *; simplify_eq.
  - right. exists (length ahead). zbool. split; [split; [exact (Insert_wf (Some e') p q Hwf)| |]|].
    + destruct p; simpl; try (by exists ahead, rest); unfold low_queue in *; rewrite list_lookup_alter; simpl;
        try (by exists ahead, rest).
      destruct (q_subEventQueues q !! 2%nat) as [s|]; simplify_eq/=; [|by destruct ahead]. rewrite Hlow.
      change (ahead ++ e :: rest) with (ahead ++ [e] ++ rest). rewrite app_assoc, InsertEventsLocked_behind.
      * exists ahead, (InsertEventsLocked rest e'). by rewrite <- app_assoc.
      * apply Forall_app. split; [|by repeat constructor]. eapply Forall_impl; [done|]. simpl. lia.
    + destruct p; simpl; auto; apply higher_after_alter; auto; intros s Hs; simpl;
        rewrite InsertEventsLocked_permutation; by constructor.
    + destruct p; simpl; rewrite ?turns_left_alter; done || lia.
  - right. exists (length (filter (λ x, f x = false) ahead)). split; [split; [by apply Remove_filter_wf| |]|].
    + simpl. unfold low_queue in *. change (map ?g ?l) with (g <$> l). rewrite list_lookup_fmap.
      destruct (q_subEventQueues q !! 2%nat) as [s|]; simplify_eq/=; [|by destruct ahead]. rewrite Hlow.
      rewrite filter_app, filter_cons_True by by apply negb_true_iff in Hop. eauto.
    + apply higher_after_map; [|done]. intros s Hs. simpl. apply Forall_forall. intros x [_ Hx]%list_elem_of_filter. by apply (proj1 (Forall_forall _ _) Hs).
    + simpl. rewrite turns_left_map by done. pose proof (length_filter (λ x, f x = false) ahead). lia.
  - zbool. pose proof (GetExpiredEventLocked_wf now TIME_POINT_MAX q Hwf) as Hwf'.
    destruct (low_queue (q_subEventQueues q)) as [|x low] eqn:Hx; [by destruct ahead|].
    assert (ev_handleTime x <= ev_handleTime e) as Hxe by (destruct ahead; simplify_eq/=; [done|by inversion Hahead]).
    destruct (PickEventLocked_low now (ev_handleTime e) (q_subEventQueues q) x low) as (e' & subs' & w & Hp & Hh & He');
      [done|done|done|lia|lia|done|].
    unfold GetExpiredEvent, GetExpiredEventLocked in *. rewrite Hp in *. simplify_eq/=.
    pose proof (turns_left_bounds _ Hlen Hsubs) as Hb.
    assert (0 <= turns_left subs' <= 35) as Hb' by (destruct Hwf' as [[? ?] _ _]; by apply turns_left_bounds).
    destruct He' as [[-> Hl]|(Hl & Ht)].
    + destruct ahead as [|y ahead]; simplify_eq/=; [left; set_solver|]. right. exists (length ahead).
      split; [split; simpl; eauto|]. simpl. lia.
    + right. exists (length ahead). split; [split; simpl; [done| |done]|simpl; lia].
      exists ahead, rest. by rewrite Hl.
Qed.

Lemma run_ops_low ops : ∀ n e q,
  low_waiting n e q → forallb (op_after e) ops = true →
  calls_left n q < Z.of_nat (length (filter (λ op, is_get op = true) ops)) → e ∈ (run_ops ops q).2.
Proof.
  induction ops as [|op ops IH]; intros n e q Hlow Hops Hn.
  - pose proof Hlow as [[[Hlen Hsubs] _ _] _ _].
    pose proof (turns_left_bounds _ Hlen Hsubs). unfold calls_left in Hn. simpl in Hn. lia.
  - simpl in *. zbool. destruct (run_op op q) as [q1 out] eqn:E1.
    destruct (run_ops ops q1) as [q2 outs] eqn:E2. simpl. apply elem_of_app.
    destruct (run_op_low _ _ _ _ _ _ Hlow H E1) as [?|(n' & Hlow' & Ht)]; [by left|right].
    specialize (IH n' e q1 Hlow' H0). rewrite E2 in IH. apply IH.
    rewrite filter_cons in Hn. destruct (is_get op); case_decide; simpl in *; try done; lia.
Qed.

(** ** The queue's thread and the other threads

    One thread runs [GetEvent] (the runner's); the others call the other
    operations.  While the thread is blocked, [current] says whether the
    waiter it blocked on ([old] at the time it was replaced) is still the
    queue's, and [notified] whether it was woken since. *)

Inductive Thread :=
| ThreadReady
| ThreadBlocked (until : TimePoint) (current : bool) (old : IoWaiter) (notified : bool).

Record Sys := mkSys { sy_queue : EventQueue; sy_thread : Thread }.

Definition notify_thread (notify : bool) (t : Thread) : Thread :=
  match t with
  | ThreadReady => ThreadReady
  | ThreadBlocked until current old notified => ThreadBlocked until current old (notified || (current && notify))
  end.

(** [AddFileDescriptorListener] replaced the waiter [w] by [w']. *)
Definition waiter_replaced (w w' : IoWaiter) (notify : bool) (t : Thread) : Thread :=
  if SupportListeningFileDescriptor w || negb (SupportListeningFileDescriptor w') then t
  else
    match notify_thread notify t with
    | ThreadReady => ThreadReady
    | ThreadBlocked until current old notified =>
        ThreadBlocked until false (if current then w else old) notified
    end.

(** The steps of the other threads; [Finish] is apart because the runner
    decides when to call it. *)
Inductive client_step : Sys → Sys → Prop :=
| sys_insert q t event priority q' n :
    Insert event priority q = (q', n) → client_step (mkSys q t) (mkSys q' (notify_thread n t))
| sys_remove_owner q t env o : client_step (mkSys q t) (mkSys (Remove_owner env o q) t)
| sys_remove_event q t env o id : client_step (mkSys q t) (mkSys (Remove_event env o id q) t)
| sys_remove_event_param q t env o id param :
    client_step (mkSys q t) (mkSys (Remove_event_param env o id param q) t)
| sys_remove_task q t env o name : client_step (mkSys q t) (mkSys (Remove_task env o name q) t)
| sys_remove_orphan_events q t env : client_step (mkSys q t) (mkSys (Remove_filter (orphan env) q) t)
| sys_remove_orphan_listeners q t env : client_step (mkSys q t) (mkSys (RemoveOrphan_listeners env q).1 t)
| sys_add_listener q t k fd events l q' err n :
    AddFileDescriptorListener k fd events l q = (q', err, n) →
    client_step (mkSys q t) (mkSys q' (waiter_replaced (q_ioWaiter q) (q_ioWaiter q') n t))
| sys_remove_listener_owner q t env o :
    client_step (mkSys q t) (mkSys (RemoveFileDescriptorListener_owner env o q).1 t)
| sys_remove_listener_fd q t fd :
    client_step (mkSys q t) (mkSys (RemoveFileDescriptorListener_fd fd q).1 t).

(** [Finish] by any thread. *)
Definition sys_finish (s : Sys) : Sys :=
  let '(q', n) := Finish (sy_queue s) in mkSys q' (notify_thread n (sy_thread s)).

(** One turn of the loop of [GetEvent], and the end of its blocking call:
    the event when the call of [GetEvent] returns. *)
Inductive get_step : Sys → Sys → option (option InnerEvent) → Prop :=
| sys_get_return q now e q' :
    GetEvent_iteration now q = Returns e q' → get_step (mkSys q ThreadReady) (mkSys q' ThreadReady) (Some e)
| sys_get_fail q now q' :
    GetEvent_iteration now q = WaitFails q' → get_step (mkSys q ThreadReady) (mkSys q' ThreadReady) None
| sys_get_block q now timeout until q' :
    GetEvent_iteration now q = Blocks timeout until q' →
    get_step (mkSys q ThreadReady) (mkSys q' (ThreadBlocked until true (q_ioWaiter q') false)) None
| sys_wake q until current old notified retVal ready :
    get_step (mkSys q (ThreadBlocked until current old notified))
      (mkSys (GetEvent_resume current old retVal ready q).1 ThreadReady) None.

Inductive sys_step : Sys → Sys → Prop :=
| sys_client s s' : client_step s s' → sys_step s s'
| sys_finished s : sys_step s (sys_finish s)
| sys_prepare q : sys_step (mkSys q ThreadReady) (mkSys (Prepare q) ThreadReady)
| sys_poll q now e q' w :
    GetExpiredEvent now TIME_POINT_MAX q = (e, q', w) → sys_step (mkSys q ThreadReady) (mkSys q' ThreadReady)
| sys_get s s' r : get_step s s' r → sys_step s s'.

Inductive sys_reachable : Sys → Prop :=
| sys_init now : sys_reachable (mkSys (new_EventQueue now) ThreadReady)
| sys_more s s' : sys_reachable s → sys_step s s' → sys_reachable s'.

(** Sleeping until [until] misses nothing. *)
Definition may_sleep (until : TimePoint) (q : EventQueue) : Prop :=
  q_finished q = false ∧ until = q_wakeUpTime q
  ∧ ∀ e, e ∈ events_of (q_subEventQueues q) → until <= ev_handleTime e.

Record sys_inv (s : Sys) : Prop := {
  si_wf : queue_wf (sy_queue s);
  si_ready : waiter_ready (q_ioWaiter (sy_queue s));
  si_count : waitingCount (q_ioWaiter (sy_queue s))
             = match sy_thread s with ThreadBlocked _ true _ _ => 1 | _ => 0 end;
  si_thread : match sy_thread s with
              | ThreadReady => True
              | ThreadBlocked until current old notified =>
                  notified = false → current = true ∧ may_sleep until (sy_queue s)
              end;
}.

Lemma sys_inv_keep q q' t :
  sys_inv (mkSys q t) → queue_wf q' → q_ioWaiter q' = q_ioWaiter q →
  (∀ until, may_sleep until q → may_sleep until q') → sys_inv (mkSys q' t).
Proof.
  intros [Hwf Hr Hc Ht] Hwf' Hw Hsleep. split; simpl in *; rewrite ?Hw; auto.
  destruct t; [done|]. intros Hn. destruct (Ht Hn). auto.
Qed.

Lemma events_of_filter f q e :
  e ∈ events_of (q_subEventQueues (Remove_filter f q)) → e ∈ events_of (q_subEventQueues q).
Proof.
  unfold events_of. simpl. induction (q_subEventQueues q) as [|s subs IH]; simpl; [done|].
  rewrite !elem_of_app, list_elem_of_filter. tauto.
Qed.

Lemma may_sleep_filter f q until : may_sleep until q → may_sleep until (Remove_filter f q).
Proof. intros (? & ? & H). split_and!; [done..|]. intros e He%events_of_filter. auto. Qed.

Lemma sys_inv_filter f q t : sys_inv (mkSys q t) → sys_inv (mkSys (Remove_filter f q) t).
Proof. intros Hs. eapply sys_inv_keep; eauto using may_sleep_filter. apply Remove_filter_wf, Hs. Qed.

Lemma sys_inv_listeners ls q t :
  sys_inv (mkSys q t) → queue_wf (set_io (q_ioWaiter q) ls q) → sys_inv (mkSys (set_io (q_ioWaiter q) ls q) t).
Proof. intros Hs Hwf. by eapply sys_inv_keep. Qed.

(** A notification reaches the blocked thread. *)
Lemma sys_inv_notify q q' t (n : bool) :
  sys_inv (mkSys q t) → queue_wf q' → q_ioWaiter q' = q_ioWaiter q →
  n = Notify (q_ioWaiter q) ∨ (∀ until, may_sleep until q → may_sleep until q') →
  sys_inv (mkSys q' (notify_thread n t)).
Proof.
  intros Hs Hwf' Hw [->|Hsleep].
  - destruct Hs as [Hwf Hr Hc Ht]. destruct t as [|until cur old notified]; split; simpl in *; rewrite ?Hw; auto.
    intros [Hn Hb]%orb_false_iff. destruct (Ht Hn) as [-> _].
    rewrite Notify_waiting in Hb; [done..|lia].
  - pose proof (sys_inv_keep q q' t Hs Hwf' Hw Hsleep) as [H1 H2 H3 H4].
    destruct t as [|until cur old notified]; split; simpl in *; auto.
    intros [Hn _]%orb_false_iff. auto.
Qed.

Lemma Remove_owner_inv env o q t : sys_inv (mkSys q t) → sys_inv (mkSys (Remove_owner env o q) t).
Proof. destruct o; simpl; auto using sys_inv_filter. Qed.
Lemma Remove_event_inv env o id q t : sys_inv (mkSys q t) → sys_inv (mkSys (Remove_event env o id q) t).
Proof. destruct o; simpl; auto using sys_inv_filter. Qed.
Lemma Remove_event_param_inv env o id p q t :
  sys_inv (mkSys q t) → sys_inv (mkSys (Remove_event_param env o id p q) t).
Proof. destruct o; simpl; auto using sys_inv_filter. Qed.
Lemma Remove_task_inv env o n q t : sys_inv (mkSys q t) → sys_inv (mkSys (Remove_task env o n q) t).
Proof. destruct o; simpl; auto. case_bool_decide; auto using sys_inv_filter. Qed.

Lemma RemoveOrphan_listeners_inv env q t :
  sys_inv (mkSys q t) → sys_inv (mkSys (RemoveOrphan_listeners env q).1 t).
Proof. intros Hs. apply sys_inv_listeners; [done|]. eapply RemoveFd_listeners_wf; [apply Hs|done]. Qed.

Lemma RemoveFileDescriptorListener_owner_inv env o q t :
  sys_inv (mkSys q t) → sys_inv (mkSys (RemoveFileDescriptorListener_owner env o q).1 t).
Proof.
  intros Hs. destruct o as [o|]; [|done].
  apply sys_inv_listeners; [done|]. eapply RemoveFd_listeners_wf; [apply Hs|done].
Qed.

Lemma RemoveFileDescriptorListener_fd_inv fd q t :
  sys_inv (mkSys q t) → sys_inv (mkSys (RemoveFileDescriptorListener_fd fd q).1 t).
Proof.
  intros Hs. unfold RemoveFileDescriptorListener_fd. repeat case_match; try done. simpl.
  pose proof (si_wf _ Hs) as Hwf. simpl in Hwf. destruct (qw_listeners _ Hwf) as [Hm Hk].
  apply sys_inv_listeners; [done|]. apply set_io_wf; [done|auto with cpp|].
  intros fd' l Hl. rewrite sm_lookup_delete in Hl. case_decide; [done|]. eauto.
Qed.

Lemma events_of_insert e i subs e' :
  e' ∈ events_of (alter (λ s, set_sub_queue (InsertEventsLocked (sq_queue s) e) s) i subs) →
  e' = e ∨ e' ∈ events_of subs.
Proof.
  unfold events_of. revert i. induction subs as [|s subs IH]; intros [|i]; simpl; auto.
  - rewrite !elem_of_app, InsertEventsLocked_permutation, elem_of_cons. tauto.
  - rewrite !elem_of_app. intros [?|[?|?]%IH]; auto.
Qed.

Lemma Insert_inv q t event priority q' n :
  Insert event priority q = (q', n) → sys_inv (mkSys q t) → sys_inv (mkSys q' (notify_thread n t)).
Proof.
  intros HI Hs. pose proof (Insert_wf event priority q (si_wf _ Hs)) as Hwf. rewrite HI in Hwf. simpl in Hwf.
  destruct event as [e|]; simpl in HI; [|simplify_eq; eapply sys_inv_notify; eauto].
  apply sys_inv_notify with q; try done; [destruct priority; by simplify_eq|].
  destruct priority; simplify_eq/=; auto.
  all: destruct (ev_handleTime e <? q_wakeUpTime q) eqn:E; zbool; [by left|right].
  all: intros u (Hf & Hu & He); split_and!; try done.
  all: simpl; intros e' [->|Hin]%events_of_insert; [lia|auto].
Qed.

Lemma waiter_replaced_same w n t : waiter_replaced w w n t = t.
Proof. unfold waiter_replaced. by destruct (SupportListeningFileDescriptor w). Qed.

Lemma Ensure_inv k q t q' ok n :
  EnsureIoWaiterSupportListerningFileDescriptorLocked k q = (q', ok, n) → sys_inv (mkSys q t) →
  sys_inv (mkSys q' (waiter_replaced (q_ioWaiter q) (q_ioWaiter q') n t)) ∧ q_listeners q' = q_listeners q.
Proof.
  unfold EnsureIoWaiterSupportListerningFileDescriptorLocked. intros HE Hs.
  destruct (SupportListeningFileDescriptor (q_ioWaiter q)) eqn:Esup.
  { simplify_eq. by rewrite waiter_replaced_same. }
  destruct (Epoll_Init k new_EpollIoWaiter) as [[w ok'] closed] eqn:Einit.
  destruct ok'; simplify_eq/=; [|by rewrite waiter_replaced_same].
  apply Epoll_Init_ready in Einit as (Hw1 & Hw2 & Hcount & _); [simpl in Hcount|simpl; lia].
  destruct Hs as [Hwf Hr Hc Ht]. split; [|done].
  unfold waiter_replaced. rewrite Esup. simpl in *.
  destruct t as [|until cur old notified]; split; simpl in *; auto.
  - apply set_io_wf; [done|..]; apply Hwf.
  - apply set_io_wf; [done|..]; apply Hwf.
  - intros [Hn Hb]%orb_false_iff. destruct (Ht Hn) as [-> _].
    rewrite Notify_waiting in Hb; [done..|lia].
Qed.

Lemma AddFileDescriptorListener_inv q t k fd events l q' err n :
  AddFileDescriptorListener k fd events l q = (q', err, n) → sys_inv (mkSys q t) →
  sys_inv (mkSys q' (waiter_replaced (q_ioWaiter q) (q_ioWaiter q') n t)).
Proof.
  unfold AddFileDescriptorListener. intros HA Hs.
  destruct ((fd <? 0) || _ || _) eqn:Epar; [by simplify_eq; rewrite waiter_replaced_same|]. zbool.
  destruct (q_listeners q !! fd) eqn:Efd; [by simplify_eq; rewrite waiter_replaced_same|].
  destruct (EnsureIoWaiterSupportListerningFileDescriptorLocked k q) as [[q1 ok] n1] eqn:Eens.
  destruct (Ensure_inv _ _ _ _ _ _ Eens Hs) as [Hs1 Hl].
  case_bools; [done..|]. simpl. eapply sys_inv_keep; [exact Hs1| |done|done].
  pose proof (si_wf _ Hs1) as Hwf. destruct (qw_listeners _ Hwf) as [Hm Hk].
  apply set_io_wf; [done|auto with cpp|].
  intros fd' l' Hin. rewrite sm_lookup_emplace in Hin. destruct (q_listeners q1 !! fd') eqn:E'; [simplify_eq; eauto|].
  case_decide; simplify_eq. split; [done|]. destruct l'; [done|]. by apply bool_decide_eq_false in H0.
Qed.

Lemma GetExpiredEventLocked_io now next q : q_ioWaiter (GetExpiredEventLocked now next q).1.2 = q_ioWaiter q.
Proof.
  unfold GetExpiredEventLocked. destruct (PickEventLocked _ _ _) as [[[e|] subs] w]; [done|].
  destruct (q_idleEvents q); repeat case_match; done.
Qed.

Lemma GetEvent_iteration_inv now q :
  sys_inv (mkSys q ThreadReady) →
  match GetEvent_iteration now q with
  | Returns _ q' | WaitFails q' => sys_inv (mkSys q' ThreadReady)
  | Blocks _ until q' => sys_inv (mkSys q' (ThreadBlocked until true (q_ioWaiter q') false))
  end.
Proof.
  intros Hs. pose proof (si_wf _ Hs) as Hwf. simpl in Hwf. unfold GetEvent_iteration.
  destruct (q_finished q) eqn:Ef; [done|].
  pose proof (GetExpiredEventLocked_wf now TIME_POINT_MAX q Hwf) as Hwf'.
  destruct (GetExpiredEventLocked now TIME_POINT_MAX q) as [[[e|] q'] w] eqn:E; simpl in Hwf'.
  all: pose proof (GetExpiredEventLocked_io now TIME_POINT_MAX q) as Hio; rewrite E in Hio; simpl in Hio.
  - destruct Hs as [_ Hr Hc _]. split; simpl in *; rewrite ?Hio; auto.
  - apply GetExpiredEventLocked_none in E as (-> & Hw & _ & Hsub & _ & Hfin & _ & _ & _); [|done].
    destruct Hs as [_ Hr Hc _]. simpl in *. rewrite Hio.
    destruct (q_ioWaiter q) as [nw|ep] eqn:Ew; simpl in *.
    + split; simpl; auto.
      * apply set_io_wf; [done|..]; apply Hwf'.
      * by rewrite Hc.
      * intros _. split; [done|]. unfold may_sleep. simpl. rewrite Hfin, Ef, Hsub, Hw. split_and!; [done..|].
        intros e. apply min_head_spec, Hwf.
    + unfold Epoll_enter. destruct (ep_epollFd ep <? 0) eqn:El; zbool; [lia|]. split; simpl; auto.
      * apply set_io_wf; [done|..]; apply Hwf'.
      * by rewrite Hc.
      * intros _. split; [done|]. unfold may_sleep. simpl. rewrite Hfin, Ef, Hsub, Hw. split_and!; [done..|].
        intros e. apply min_head_spec, Hwf.
Qed.

Lemma WaitFor_leave_ready w retVal ready :
  waiter_ready w → waitingCount w = 1 →
  waiter_ready (WaitFor_leave w retVal ready).1.1 ∧ waitingCount (WaitFor_leave w retVal ready).1.1 = 0.
Proof.
  destruct w as [n|e]; simpl.
  - intros _ ->. by split.
  - intros Hr Hc. unfold Epoll_leave. rewrite Hc. by destruct (retVal <? 0).
Qed.

Lemma reset_IoWaiter_inv q : queue_wf q → sys_inv (mkSys (reset_IoWaiter q) ThreadReady).
Proof. intros Hwf. split; simpl; try done. apply set_io_wf; [done|apply sm_wf_empty|done]. Qed.

Lemma GetEvent_resume_inv q u current old notified retVal ready :
  sys_inv (mkSys q (ThreadBlocked u current old notified)) →
  sys_inv (mkSys (GetEvent_resume current old retVal ready q).1 ThreadReady).
Proof.
  intros [Hwf Hr Hc _]. simpl in *. unfold GetEvent_resume.
  destruct (WaitFor_leave _ _ _) as [[w ok] calls] eqn:E. simpl.
  destruct current.
  - destruct (WaitFor_leave_ready (q_ioWaiter q) retVal ready Hr Hc) as [Hr' Hc']. rewrite E in *. simpl in *.
    assert (queue_wf (set_io w (q_listeners q) q)) as Hwf' by (apply set_io_wf; [done|..]; apply Hwf).
    destruct ok; [|by apply reset_IoWaiter_inv]. by split.
  - destruct ok; [by split|by apply reset_IoWaiter_inv].
Qed.

Lemma client_step_inv s s' : sys_inv s → client_step s s' → sys_inv s'.
Proof.
  intros Hs Hstep. destruct Hstep; simpl in *.
  - by eapply Insert_inv.
  - by apply Remove_owner_inv.
  - by apply Remove_event_inv.
  - by apply Remove_event_param_inv.
  - by apply Remove_task_inv.
  - by apply sys_inv_filter.
  - by apply RemoveOrphan_listeners_inv.
  - by eapply AddFileDescriptorListener_inv.
  - by apply RemoveFileDescriptorListener_owner_inv.
  - by apply RemoveFileDescriptorListener_fd_inv.
Qed.

Lemma sys_finish_inv s : sys_inv s → sys_inv (sys_finish s).
Proof.
  destruct s as [q t]. intros Hs. pose proof (si_wf _ Hs) as Hwf.
  apply sys_inv_notify with q; auto. by destruct Hwf.
Qed.

Lemma sys_prepare_inv q : sys_inv (mkSys q ThreadReady) → sys_inv (mkSys (Prepare q) ThreadReady).
Proof. intros [Hwf Hr Hc _]. split; simpl in *; auto. by destruct Hwf. Qed.

Lemma get_step_inv s s' r : sys_inv s → get_step s s' r → sys_inv s'.
Proof.
  intros Hs Hstep. destruct Hstep; simpl in *.
  - pose proof (GetEvent_iteration_inv now q Hs) as Hi. by rewrite H in Hi.
  - pose proof (GetEvent_iteration_inv now q Hs) as Hi. by rewrite H in Hi.
  - pose proof (GetEvent_iteration_inv now q Hs) as Hi. by rewrite H in Hi.
  - by eapply GetEvent_resume_inv.
Qed.

Lemma sys_step_inv s s' : sys_inv s → sys_step s s' → sys_inv s'.
Proof.
  intros Hs Hstep. pose proof (si_wf _ Hs) as Hwf. destruct Hstep; simpl in *.
  - by eapply client_step_inv.
  - by apply sys_finish_inv.
  - by apply sys_prepare_inv.
  - pose proof (GetExpiredEventLocked_io now TIME_POINT_MAX q) as Hio.
    pose proof (GetExpiredEventLocked_wf now TIME_POINT_MAX q Hwf) as Hwf'.
    unfold GetExpiredEvent in *. rewrite H in *. destruct Hs as [_ Hr Hc _]. split; simpl in *; rewrite ?Hio; auto.
  - by eapply get_step_inv.
Qed.

Lemma sys_reachable_inv s : sys_reachable s → sys_inv s.
Proof.
  induction 1 as [now|s s' _ IH Hstep]; [|by eapply sys_step_inv].
  split; simpl; try done. apply new_queue_wf.
Qed.

Lemma existsb_filter_false {A} (f : A → bool) (l : list A) : existsb f (filter (λ x, f x = false) l) = false.
Proof.
  induction l as [|x l IH]; [done|]. rewrite filter_cons. case_decide as Hx; simpl; [by rewrite Hx|done].
Qed.

Lemma HasInnerEvent_filtered f q : HasInnerEvent_filter f (Remove_filter f q) = false.
Proof.
  unfold HasInnerEvent_filter. simpl. rewrite existsb_filter_false, orb_false_r.
  induction (q_subEventQueues q) as [|s subs IH]; simpl; [done|]. by rewrite existsb_filter_false.
Qed.

Lemma all_events_filter f q : all_events (Remove_filter f q) = filter (λ e, f e = false) (all_events q).
Proof.
  unfold all_events, events_of. simpl. rewrite filter_app. f_equal.
  induction (q_subEventQueues q) as [|s subs IH]; simpl; [done|]. by rewrite filter_app, IH.
Qed.

Lemma Ensure_spec k q q' ok n :
  EnsureIoWaiterSupportListerningFileDescriptorLocked k q = (q', ok, n) →
  all_events q' = all_events q ∧ q_listeners q' = q_listeners q
  ∧ if ok then SupportListeningFileDescriptor (q_ioWaiter q') = true
    else SupportListeningFileDescriptor (q_ioWaiter q) = false ∧ q' = q.
Proof.
  unfold EnsureIoWaiterSupportListerningFileDescriptorLocked. intros HE.
  destruct (SupportListeningFileDescriptor (q_ioWaiter q)) eqn:Es; [by simplify_eq|].
  destruct (Epoll_Init _ _) as [[w ok'] closed]. by destruct ok'; simplify_eq/=.
Qed.

(** ** Properties *)

(** C3: In every reachable state of a queue shared by its thread and its
    clients, the three sub queues and the idle list are ordered by handle
    time, the handled counters stay between 0 and the maximum, registered
    descriptors are non negative with a non null listener, and the waiter
    counts exactly the blocked thread. *)
Theorem reachable_queue_wf (s : Sys) :
  sys_reachable s →
  queue_wf (sy_queue s) ∧ waiter_ready (q_ioWaiter (sy_queue s))
  ∧ waitingCount (q_ioWaiter (sy_queue s)) = match sy_thread s with ThreadBlocked _ true _ _ => 1 | _ => 0 end.
Proof. intros Hs%sys_reachable_inv. split_and!; apply Hs. Qed.

(** C1: No wake-up is lost: while the queue's thread sleeps and has not been
    notified, the queue is not finished and no IMMEDIATE, HIGH or LOW event
    has a handle time before the time the thread sleeps until. *)
Theorem no_lost_wakeup (s : Sys) u current old :
  sys_reachable s → sy_thread s = ThreadBlocked u current old false →
  q_finished (sy_queue s) = false
  ∧ ∀ e, e ∈ events_of (q_subEventQueues (sy_queue s)) → u <= ev_handleTime e.
Proof.
  intros Hs%sys_reachable_inv Ht. pose proof (si_thread _ Hs) as H. rewrite Ht in H.
  destruct (H eq_refl) as (_ & ? & _ & ?). by split.
Qed.

(** [GetExpiredEvent] returns null exactly when no IMMEDIATE, HIGH or LOW
    event is due, and then reports the earliest handle time without changing
    the events; an event it returns is due and is the only one taken out. *)
Lemma GetExpiredEvent_correct now next q r q' t :
  queue_wf q → now < TIME_POINT_MAX → GetExpiredEvent now next q = (r, q', t) →
  match r with
  | None =>
      all_events q' = all_events q
      ∧ (∀ e, e ∈ events_of (q_subEventQueues q) → now < ev_handleTime e ∧ t <= ev_handleTime e)
      ∧ (t = TIME_POINT_MAX ∨ ∃ e, e ∈ events_of (q_subEventQueues q) ∧ ev_handleTime e = t)
  | Some e => ev_handleTime e <= now ∧ all_events q ≡ₚ e :: all_events q'
  end.
Proof.
  intros Hwf Hnow HG. destruct r as [e|].
  - apply GetExpiredEventLocked_some in HG as (? & ? & _); [by split|done].
  - apply GetExpiredEventLocked_none in HG as (-> & _ & _ & Hs & Hi & _ & _ & _ & Hdue); [|done].
    split_and!; [unfold all_events; by rewrite Hs, Hi| |apply min_head_attained].
    intros e He. pose proof (min_head_spec TIME_POINT_MAX _ e (proj2 (qw_subs _ Hwf)) He). split; [|done].
    destruct (Z.le_gt_cases (min_head TIME_POINT_MAX (q_subEventQueues q)) now) as [Hle|]; [|lia].
    apply Hdue in Hle. lia.
Qed.

(** C2: A LOW event that is due and earlier than every IMMEDIATE and HIGH event,
    with [n] LOW events ahead of it, is returned within 36 * (n + 1) calls of
    [GetExpiredEvent], when the events inserted in between are later than it
    and it is not itself removed (others may be). *)
Theorem LOW_event_not_starved n e q ops :
  low_waiting n e q → forallb (op_after e) ops = true →
  (36 * (n + 1) <= length (filter (λ op, is_get op = true) ops))%nat → e ∈ (run_ops ops q).2.
Proof.
  intros Hlow Hops Hn. apply (run_ops_low _ n); [done..|]. destruct Hlow as [[[Hlen Hsubs] _ _] _ _].
  pose proof (turns_left_bounds _ Hlen Hsubs). unfold calls_left. lia.
Qed.

(** [Insert] puts an event of the three main priorities behind every
    event of its queue that is not later and in front of every later one (so
    events with equal handle times keep the order they were sent in), changes
    no other queue, and wakes the thread exactly when the event is earlier
    than the wake-up time and a thread waits on the queue's waiter. *)
Lemma Insert_ordered e p q q' n :
  queue_wf q → (priority_index p < SUB_EVENT_QUEUE_NUM)%nat → Insert (Some e) p q = (q', n) →
  (∃ s l1 l2, q_subEventQueues q !! priority_index p = Some s ∧ sq_queue s = l1 ++ l2
     ∧ q_subEventQueues q' = <[priority_index p := set_sub_queue (l1 ++ e :: l2) s]> (q_subEventQueues q)
     ∧ Forall (λ x, ev_handleTime x <= ev_handleTime e) l1
     ∧ Forall (λ x, ev_handleTime e < ev_handleTime x) l2)
  ∧ q_idleEvents q' = q_idleEvents q
  ∧ n = (ev_handleTime e <? q_wakeUpTime q) && Notify (q_ioWaiter q).
Proof.
  intros [[Hlen Hsubs] _ _] Hp HI.
  destruct (lookup_lt_is_Some_2 (q_subEventQueues q) (priority_index p)) as [s Hs]; [by rewrite Hlen|].
  assert (sub_wf s) as [Hsort _] by (eapply (proj1 (Forall_lookup _ _)); eauto).
  destruct (insert_upper_bound_split ev_handleTime e _ Hsort) as (l1 & l2 & Heq & Hins & H1 & H2).
  assert (alter (λ s, set_sub_queue (InsertEventsLocked (sq_queue s) e) s) (priority_index p) (q_subEventQueues q)
          = <[priority_index p := set_sub_queue (l1 ++ e :: l2) s]> (q_subEventQueues q)) as Halt.
  { apply list_eq. intros i. rewrite list_lookup_alter, list_lookup_insert.
    case_decide as Hi; subst; [|by rewrite decide_False by tauto].
    rewrite decide_True by (split; [done|by eapply lookup_lt_Some]). rewrite Hs. simpl.
    unfold InsertEventsLocked. by rewrite Hins. }
  destruct p; try (unfold SUB_EVENT_QUEUE_NUM in Hp; simpl in Hp; lia).
  all: simpl in *; simplify_eq; simpl; split_and!; [by exists s, l1, l2|done..].
Qed.

(** Of two events that are due, a strictly higher priority one is passed
    over only for a strictly earlier one, and only after some higher priority
    queue has had [maxHandledEventsCount] turns in a row. *)
Lemma priority_respected now subs e subs' w i j s e' rest :
  length subs = SUB_EVENT_QUEUE_NUM → Forall sub_wf subs →
  PickEventLocked now TIME_POINT_MAX subs = (Some e, subs', w) → picked now subs subs' e i →
  (j < i)%nat → subs !! j = Some s → sq_queue s = e' :: rest → ev_handleTime e' <= now →
  now < TIME_POINT_MAX →
  ev_handleTime e < ev_handleTime e'
  ∧ ∃ k sk, (k < i)%nat ∧ subs !! k = Some sk ∧ sq_handledEventsCount sk = DEFAULT_MAX_HANDLED_EVENT_COUNT.
Proof.
  intros Hlen Hwf Hp (si & ri & Hi & Hqi & _ & Heq) Hj Hs Hq Hdue Hnow.
  apply (f_equal (map length)) in Heq. revert Hlen Hwf Hp Hi Heq Hs. open_pick subs.
  all: decompose_Forall_hyps.
  all: repeat match goal with H : sub_wf _ |- _ => destruct H as (_ & ? & ?); simpl in * end; subst.
  all: destruct i as [|[|[|i]]]; simplify_eq/=; try lia.
  all: destruct j as [|[|j]]; simplify_eq/=; try lia.
  all: split; [lia|].
  all: first [ exists 0%nat; eexists; by split_and!; [lia|done|simpl; lia]
             | exists 1%nat; eexists; by split_and!; [lia|done|simpl; lia] ].
Qed.

(** After [Remove] of an owner's events with an id, [HasInnerEvent] finds
    none, and every other event is still queued, in the same order. *)
Lemma Remove_event_correct env o id q :
  HasInnerEvent_id env (Some o) id (Remove_event env (Some o) id q) = false
  ∧ all_events (Remove_event env (Some o) id q)
    = filter (λ e, match_event env o id e = false) (all_events q).
Proof. split; [apply HasInnerEvent_filtered|apply all_events_filter]. Qed.

(** [AddFileDescriptorListener] rejects, in this order, invalid
    parameters, a descriptor that has a listener, a waiter that cannot be
    made to support descriptors, and a refusal of the kernel, always leaving
    the events and the listeners as they were; otherwise exactly this
    listener is added. *)
Theorem AddFileDescriptorListener_correct k fd events l q q' err n :
  AddFileDescriptorListener k fd events l q = (q', err, n) →
  all_events q' = all_events q
  ∧ (err = EVENT_HANDLER_ERR_INVALID_PARAM ↔ fd < 0 ∨ Z.land events FILE_DESCRIPTOR_EVENTS_MASK = 0 ∨ l = None)
  ∧ (err = EVENT_HANDLER_ERR_FD_ALREADY →
     0 <= fd ∧ is_Some (q_listeners q !! fd) ∧ q' = q)
  ∧ (err = EVENT_HANDLER_ERR_FD_NOT_SUPPORT →
     SupportListeningFileDescriptor (q_ioWaiter q) = false ∧ q' = q)
  ∧ (err ≠ ERR_OK → q_listeners q' = q_listeners q)
  ∧ (err = ERR_OK →
     SupportListeningFileDescriptor (q_ioWaiter q') = true ∧ q_listeners q !! fd = None
     ∧ ∀ fd', q_listeners q' !! fd' = if decide (fd = fd') then Some l else q_listeners q !! fd').
Proof.
  unfold AddFileDescriptorListener. intros HA.
  destruct ((fd <? 0) || _ || _) eqn:Epar.
  { simplify_eq. split_and!; try done. split; [intros _|done].
    apply orb_true_iff in Epar as [[?|?]%orb_true_iff|?%bool_decide_eq_true]; zbool; auto. }
  apply orb_false_iff in Epar as [[E1 E2]%orb_false_iff E3%bool_decide_eq_false]. zbool.
  assert (¬ (fd < 0 ∨ Z.land events FILE_DESCRIPTOR_EVENTS_MASK = 0 ∨ l = None)) as Hpar by (intros [?|[?|?]]; [lia|done..]).
  destruct (q_listeners q !! fd) eqn:Efd; [simplify_eq; by split_and!|].
  destruct (EnsureIoWaiterSupportListerningFileDescriptorLocked k q) as [[q1 ok] n1] eqn:Eens.
  apply Ensure_spec in Eens as (Hev & Hl & Hok).
  destruct ok; simpl in HA.
  2: { destruct Hok. simplify_eq. by split_and!. }
  destruct (AddFileDescriptor k fd events (q_ioWaiter q1)); simpl in HA; simplify_eq; split_and!; try done.
  intros _. split_and!; [done..|]. intros fd'. simpl. rewrite sm_lookup_emplace, Hl.
  destruct (q_listeners q !! fd') eqn:E'; case_decide; simplify_eq; congruence.
Qed.

(** An IDLE event that was sent after the queue became idle is never
    returned while the queue stays idle: when nothing else is queued, every
    call returns null and leaves the queue idle with the same events and
    idle time stamp, however late. *)
Theorem idle_event_waits now next q e rest :
  length (q_subEventQueues q) = SUB_EVENT_QUEUE_NUM → events_of (q_subEventQueues q) = [] →
  q_isIdle q = true → q_idleEvents q = e :: rest → q_idleTimeStamp q < ev_sendTime e →
  ∃ q', GetExpiredEvent now next q = (None, q', TIME_POINT_MAX)
    ∧ events_of (q_subEventQueues q') = [] ∧ q_isIdle q' = true ∧ q_idleEvents q' = e :: rest
    ∧ q_idleTimeStamp q' = q_idleTimeStamp q ∧ length (q_subEventQueues q') = SUB_EVENT_QUEUE_NUM.
Proof.
  intros Hlen Hnil Hidle Hev Ht. unfold GetExpiredEvent, GetExpiredEventLocked.
  assert (∀ i s, q_subEventQueues q !! i = Some s → sq_queue s = []) as Hempty.
  { intros i s Hs. apply elem_of_nil_inv. intros x Hx. apply list_elem_of_lookup_2 in Hs.
    enough (x ∈ events_of (q_subEventQueues q)) as H by (rewrite Hnil in H; by apply elem_of_nil in H).
    unfold events_of. apply list_elem_of_In, in_concat. exists (sq_queue s). split; [|by apply list_elem_of_In].
    apply in_map. by apply list_elem_of_In. }
  destruct (PickEventLocked _ _ _) as [[[e'|] subs] w] eqn:E.
  - apply PickEventLocked_some in E as (i & s & r & Hs & Hq & _); [|done].
    rewrite (Hempty _ _ Hs) in Hq. done.
  - apply PickEventLocked_none in E as (-> & -> & _); [|done].
    assert (min_head TIME_POINT_MAX (q_subEventQueues q) = TIME_POINT_MAX) as ->.
    { destruct (min_head_attained TIME_POINT_MAX (q_subEventQueues q)) as [?|(x & Hx & _)]; [done|].
      rewrite Hnil in Hx. by apply elem_of_nil in Hx. }
    rewrite Hev, Hidle. destruct (_ <=? _) eqn:Es; zbool; [lia|]. simpl. eexists. by split_and!.
Qed.

(** ** Witnesses *)

Definition demo_event (id t : Z) : InnerEvent := SetHandleTime t (SetIdAndParam id 0 new_InnerEvent).

(** A prepared queue with a LOW event due at 5. *)
Definition demo_queue : EventQueue :=
  (Insert (Some (demo_event 7 5)) LOW (Prepare (new_EventQueue 0))).1.

Definition demo_blocked : Sys :=
  match GetEvent_iteration 3 demo_queue with
  | Blocks _ u q => mkSys q (ThreadBlocked u true (q_ioWaiter q) false)
  | _ => mkSys demo_queue ThreadReady
  end.

Lemma demo_queue_reachable : sys_reachable (mkSys demo_queue ThreadReady).
Proof.
  eapply sys_more; [eapply sys_more; [apply (sys_init 0)|apply sys_prepare]|].
  apply sys_client. by apply (sys_insert _ ThreadReady (Some (demo_event 7 5)) LOW demo_queue false).
Qed.

Lemma demo_blocked_reachable : sys_reachable demo_blocked.
Proof. eapply sys_more; [apply demo_queue_reachable|].  eapply sys_get. by eapply (sys_get_block _ 3). Qed.

Lemma reachable_queue_wf_witness : sys_reachable demo_blocked ∧ waitingCount (q_ioWaiter (sy_queue demo_blocked)) = 1.
Proof.
  split; [apply demo_blocked_reachable|].
  apply (reachable_queue_wf demo_blocked demo_blocked_reachable).
Defined.

Lemma no_lost_wakeup_witness : sy_thread demo_blocked = ThreadBlocked 5 true (NoneWaiter (mkNoneIoWaiter 1)) false
  ∧ q_finished (sy_queue demo_blocked) = false.
Proof.
  split; [reflexivity|].
  exact (proj1 (no_lost_wakeup demo_blocked 5 true _ demo_blocked_reachable eq_refl)).
Defined.

Lemma demo_queue_wf : queue_wf demo_queue.
Proof. apply (si_wf _ (sys_reachable_inv _ demo_queue_reachable)). Qed.

Lemma GetExpiredEvent_correct_witness :
  (GetExpiredEvent 6 0 demo_queue).1.1 = Some (demo_event 7 5) ∧ 5 <= 6.
Proof.
  split; [reflexivity|].
  pose proof (GetExpiredEvent_correct 6 0 demo_queue _ _ _ demo_queue_wf eq_refl eq_refl) as H. apply H.
Defined.

(** One LOW event is ahead of the one that waits. *)
Definition demo_queue2 : EventQueue := (Insert (Some (demo_event 9 6)) LOW demo_queue).1.

Lemma demo_low_waiting : low_waiting 1 (demo_event 9 6) demo_queue2.
Proof.
  split; [exact (Insert_wf (Some (demo_event 9 6)) LOW demo_queue demo_queue_wf)|by exists [demo_event 7 5], []|].
  intros [|[|i]] s Hi Hs; vm_compute in Hs; simplify_eq/=; [constructor..|lia].
Qed.

Definition demo_ops : list QueueOp :=
  OpInsert (demo_event 1 7) IMMEDIATE :: OpInsert (demo_event 2 7) HIGH :: repeat (OpGetExpired 9) 72.

Lemma LOW_event_not_starved_witness : demo_event 9 6 ∈ (run_ops demo_ops demo_queue2).2.
Proof.
  apply (LOW_event_not_starved 1 (demo_event 9 6) demo_queue2 demo_ops demo_low_waiting eq_refl).
  vm_compute. lia.
Defined.

Lemma Insert_ordered_witness :
  (Insert (Some (demo_event 8 5)) LOW demo_queue).2 = false
  ∧ q_idleEvents (Insert (Some (demo_event 8 5)) LOW demo_queue).1 = [].
Proof.
  split; [reflexivity|].
  refine (proj1 (proj2 (Insert_ordered (demo_event 8 5) LOW demo_queue _ _ demo_queue_wf _ eq_refl))).
  vm_compute. lia.
Defined.

(** HIGH due at 6 behind a LOW event due at 5: HIGH is passed over once its
    turns are used up. *)
Definition demo_subs : list SubEventQueue :=
  [new_SubEventQueue; mkSubEventQueue [demo_event 2 6] 5 5; mkSubEventQueue [demo_event 7 5] 0 5].

Lemma demo_subs_wf : Forall sub_wf demo_subs.
Proof.
  assert (∀ l n, key_sorted ev_handleTime l → 0 <= n <= 5 → sub_wf (mkSubEventQueue l n 5)) as H by done.
  by repeat (apply Forall_cons; split; [apply H; [repeat constructor|lia]|]).
Qed.

Lemma priority_respected_witness :
  (PickEventLocked 9 TIME_POINT_MAX demo_subs).1.1 = Some (demo_event 7 5) ∧ 5 < 6.
Proof.
  split; [reflexivity|].
  refine (proj1 (priority_respected 9 demo_subs (demo_event 7 5) _ _ 2 1 (mkSubEventQueue [demo_event 2 6] 5 5)
    (demo_event 2 6) [] eq_refl demo_subs_wf eq_refl _ _ eq_refl eq_refl _ _)); [|lia|by vm_compute|done].
  by do 2 eexists.
Defined.

Definition demo_kernel : Kernel := mkKernel 3 4 (λ _ _ _ _, 0).

Lemma AddFileDescriptorListener_correct_witness :
  (AddFileDescriptorListener demo_kernel 9 1 (Some 1) demo_queue).1.2 = ERR_OK
  ∧ q_listeners (AddFileDescriptorListener demo_kernel 9 1 (Some 1) demo_queue).1.1 !! 9 = Some (Some 1).
Proof.
  split; [reflexivity|].
  pose proof (AddFileDescriptorListener_correct demo_kernel 9 1 (Some 1) demo_queue _ _ _ eq_refl) as H.
  destruct H as (_ & _ & _ & _ & _ & H). destruct (H eq_refl) as (_ & _ & H'). exact (H' 9).
Defined.

Definition demo_idle_queue : EventQueue := (Insert (Some (SetSendTime 2 (demo_event 7 2))) IDLE (new_EventQueue 0)).1.

Lemma idle_event_waits_witness :
  ∃ q', GetExpiredEvent 1000000 0 demo_idle_queue = (None, q', TIME_POINT_MAX) ∧ q_isIdle q' = true.
Proof.
  destruct (idle_event_waits 1000000 0 demo_idle_queue (SetSendTime 2 (demo_event 7 2)) []
    eq_refl eq_refl eq_refl eq_refl eq_refl) as (q' & H1 & _ & H2 & _). by exists q'.
Defined.
