(* ===== verification/EventRunner.v ===== *)
(** * EventRunner: event handlers and the threads that run their queues

    Models libs/libeventhandler/src/event_handler.cpp and event_runner.cpp.

    The first part is [EventHandler]: the guards and effects of its sending
    and removing operations on the queues of the runners.  The second part is
    the life of one [EventRunner]: its thread goes through [Run] step by step
    ([Pc]), while clients use the queue, stop the runner or release it. *)

From stdpp Require Import strings relations.
From S2P Require Import Prelude StdMap InnerEvent IoWaiter EventQueue.

Open Scope Z_scope.

Abbreviation RunnerId := Z (only parsing).

(** ** EventHandler *)

Record EventHandler := mkEventHandler { eh_id : HandlerId; eh_runner : option RunnerId }.

(** The queues of the runners; a handler's [shared_ptr] keeps its runner
    alive, so the queue of [eh_runner] exists. *)
Abbreviation Queues := (stdmap RunnerId EventQueue) (only parsing).

(** [now + std::chrono::milliseconds(delayTime)] in 64 bit nanoseconds. *)
Definition delayed_time (now delayTime : Z) : TimePoint :=
  if 0 <? delayTime then i64 (now + i64 (delayTime * NANOSECONDS_PER_ONE_MILLISECOND)) else now.

(** The current trace id of the calling thread and the span it would create
    (the tracing library's). *)
Record Trace := mkTrace { tr_current : option Z; tr_span : Z }.

Definition SendEvent (now : TimePoint) (tr : Trace) (h : EventHandler) (event : option InnerEvent)
  (delayTime : Z) (priority : Priority) (w : Queues) : Queues * bool :=
  match event with
  | None => (w, false)
  | Some e =>
      match eh_runner h with
      | None => (w, false)
      | Some r =>
          let e := SetSendTime now e in
          let e := SetHandleTime (delayed_time now delayTime) e in
          let e := SetOwner (eh_id h) e in
          let '(_, e) := GetOrCreateTraceId (tr_current tr) (tr_span tr) e in
          match w !! r with
          | Some q => (<[r := (Insert (Some e) priority q).1]> w, true)
          | None => (w, true)
          end
      end
  end.

Arguments SendEvent : simpl never.

Definition SendTimingEvent (now : TimePoint) (tr : Trace) (h : EventHandler) (event : option InnerEvent)
  (taskTime : Z) (priority : Priority) (w : Queues) : Queues * bool :=
  let nowSysTime := Z.quot now NANOSECONDS_PER_ONE_MILLISECOND in
  let delayTime := i64 (taskTime - nowSysTime) in
  if delayTime <? 0 then SendEvent now tr h event 0 priority w
  else SendEvent now tr h event delayTime priority w.

(** [DistributeEvent]: the code that runs with the handler as the current
    one ([None]: nothing), and the thread's current handler afterwards. *)
Inductive Dispatch := RunTask (c : Callback) | ProcessEvent (e : InnerEvent).

Definition DistributeEvent (live : HandlerId → bool) (h : EventHandler) (event : option InnerEvent)
  (currentEventHandler : option HandlerId) : option (HandlerId * Dispatch) * option HandlerId :=
  match event with
  | None => (None, currentEventHandler)
  | Some e =>
      let oldHandler := currentEventHandler in
      let call := match ev_taskCallback e with Some c => RunTask c | None => ProcessEvent e end in
      (Some (eh_id h, call),
       match oldHandler with Some o => if live o then Some o else None | None => None end)
  end.

Inductive SyncResult :=
| SyncRejected
| SyncDistributed (e : InnerEvent)
| SyncWaits (waiter : WaiterId) (w : Queues).

(** [running r] is [IsRunning()] of a runner, [current] the runner of the
    calling thread, [waiter] the fresh waiter of [CreateWaiter]. *)
Definition SendSyncEvent (running : RunnerId → bool) (current : option RunnerId) (now : TimePoint) (tr : Trace)
  (waiter : WaiterId) (h : EventHandler) (event : option InnerEvent) (priority : Priority) (w : Queues) : SyncResult :=
  match event with
  | None => SyncRejected
  | Some e =>
      match priority with
      | IDLE => SyncRejected
      | _ =>
          match eh_runner h with
          | None => SyncRejected
          | Some r =>
              if negb (running r) then SyncRejected
              else if bool_decide (current = Some r) then SyncDistributed e
              else
                let '(_, e) := GetOrCreateTraceId (tr_current tr) (tr_span tr) e in
                let e := SetWaiter (Some waiter) e in
                let '(w, ok) := SendEvent now tr h (Some e) 0 priority w in
                if negb ok then SyncRejected else SyncWaits waiter w
          end
      end
  end.

Definition on_queue (h : EventHandler) (f : EventQueue → EventQueue) (w : Queues) : Queues :=
  match eh_runner h with
  | None => w
  | Some r => match w !! r with Some q => <[r := f q]> w | None => w end
  end.

Definition RemoveAllEvents (env : Env) (h : EventHandler) : Queues → Queues :=
  on_queue h (Remove_owner env (Some (eh_id h))).
Definition RemoveEvent (env : Env) (h : EventHandler) (innerEventId : Z) : Queues → Queues :=
  on_queue h (Remove_event env (Some (eh_id h)) innerEventId).
Definition RemoveEvent_param (env : Env) (h : EventHandler) (innerEventId param : Z) : Queues → Queues :=
  on_queue h (Remove_event_param env (Some (eh_id h)) innerEventId param).
Definition RemoveTask (env : Env) (h : EventHandler) (name : string) : Queues → Queues :=
  on_queue h (Remove_task env (Some (eh_id h)) name).
Definition RemoveAllFileDescriptorListeners (env : Env) (h : EventHandler) : Queues → Queues :=
  on_queue h (λ q, (RemoveFileDescriptorListener_owner env (Some (eh_id h)) q).1).
Definition RemoveFileDescriptorListener (h : EventHandler) (fd : Z) (w : Queues) : Queues :=
  if fd <? 0 then w else on_queue h (λ q, (RemoveFileDescriptorListener_fd fd q).1) w.

(** [EventHandler::AddFileDescriptorListener]: the queues, the result, and
    whether the listener now has this handler as its owner. *)
Definition Handler_AddFileDescriptorListener (k : Kernel) (h : EventHandler) (fd events : Z)
  (listener : option ListenerId) (w : Queues) : Queues * ErrCode * bool :=
  if (fd <? 0) || (Z.land events FILE_DESCRIPTOR_EVENTS_MASK =? 0) || bool_decide (listener = None)
  then (w, EVENT_HANDLER_ERR_INVALID_PARAM, false)
  else
    match eh_runner h with
    | None => (w, EVENT_HANDLER_ERR_NO_EVENT_RUNNER, false)
    | Some r =>
        match w !! r with
        | Some q =>
            let '(q, err, _) := AddFileDescriptorListener k fd events listener q in (<[r := q]> w, err, true)
        | None => (w, EVENT_HANDLER_ERR_NO_EVENT_RUNNER, true)
        end
    end.

Definition SetEventRunner (env : Env) (runner : option RunnerId) (h : EventHandler) (w : Queues)
  : EventHandler * Queues :=
  if bool_decide (eh_runner h = runner) then (h, w)
  else
    let w := match eh_runner h with
             | Some _ => RemoveAllFileDescriptorListeners env h (RemoveAllEvents env h w)
             | None => w
             end in
    (mkEventHandler (eh_id h) runner, w).

Definition HasInnerEvent_handler (env : Env) (h : EventHandler) (innerEventId : Z) (w : Queues) : bool :=
  match eh_runner h with
  | None => false
  | Some r => match w !! r with
              | Some q => HasInnerEvent_id env (Some (eh_id h)) innerEventId q
              | None => false
              end
  end.

(** ** EventRunner

    [ThreadMain]/[Run] as the steps of one thread.  [AtPrepare] is before
    [queue_->Prepare()], [AtOwnerCheck] before the test of [owner_], [InLoop]
    inside [GetEvent], [Handling] with an event to distribute, [AtExit] after
    the loop. *)

Inductive Pc := NotRunning | AtPrepare | AtOwnerCheck | InLoop | Handling (e : InnerEvent) | AtExit.

Record EventRunner := mkEventRunner {
  er_sys : Sys;
  er_pc : Pc;
  er_deposit : bool;
  er_running : bool;
  er_owner : bool;  (** the [EventRunner] object exists *)
  er_log : list (HandlerId * Dispatch);  (** what was distributed, newest first *)
}.

(** [Create(true)]: a thread of its own; [Create(false)]: the caller runs it. *)
Definition Create (inNewThread : bool) (now : TimePoint) : EventRunner :=
  mkEventRunner (mkSys (new_EventQueue now) ThreadReady) (if inNewThread then AtPrepare else NotRunning)
    inNewThread false true [].

Definition IsRunning (r : EventRunner) : bool := er_deposit r || er_running r.

Definition set_sys (s : Sys) (r : EventRunner) : EventRunner :=
  mkEventRunner s (er_pc r) (er_deposit r) (er_running r) (er_owner r) (er_log r).
Definition set_pc (pc : Pc) (r : EventRunner) : EventRunner :=
  mkEventRunner (er_sys r) pc (er_deposit r) (er_running r) (er_owner r) (er_log r).

(** [EventRunner::Run], up to the event loop. *)
Definition Run_enter (r : EventRunner) : EventRunner * option ErrCode :=
  if er_deposit r then (r, Some EVENT_HANDLER_ERR_RUNNER_NO_PERMIT)
  else if er_running r then (r, Some EVENT_HANDLER_ERR_RUNNER_ALREADY)
  else (mkEventRunner (er_sys r) AtPrepare (er_deposit r) true (er_owner r) (er_log r), None).

(** [EventRunner::Run], after the event loop. *)
Definition Run_leave (r : EventRunner) : EventRunner * ErrCode :=
  (mkEventRunner (er_sys r) NotRunning (er_deposit r) false (er_owner r) (er_log r), ERR_OK).

(** [EventRunnerImpl::Stop]. *)
Definition Inner_Stop (r : EventRunner) : EventRunner := set_sys (sys_finish (er_sys r)) r.

(** [EventRunner::Stop]. *)
Definition Stop (r : EventRunner) : EventRunner * ErrCode :=
  if er_deposit r then (r, EVENT_HANDLER_ERR_RUNNER_NO_PERMIT)
  else if er_running r then (Inner_Stop r, ERR_OK) else (r, ERR_OK).

(** [~EventRunner]. *)
Definition destroy_EventRunner (r : EventRunner) : EventRunner :=
  let r := mkEventRunner (er_sys r) (er_pc r) (er_deposit r) (er_running r) false (er_log r) in
  if er_deposit r then Inner_Stop r else r.

(** The body of the loop of [Run] for one event. *)
Definition handle_event (live : HandlerId → bool) (e : InnerEvent) (r : EventRunner) : EventRunner :=
  match GetOwner live e with
  | Some h =>
      match (DistributeEvent live (mkEventHandler h None) (Some e) None).1 with
      | Some call => mkEventRunner (er_sys r) InLoop (er_deposit r) (er_running r) (er_owner r) (call :: er_log r)
      | None => set_pc InLoop r
      end
  | None => set_pc InLoop r
  end.

Inductive runner_step : EventRunner → EventRunner → Prop :=
| run_client r s' : client_step (er_sys r) s' → runner_step r (set_sys s' r)
| run_enter r r' : Run_enter r = (r', None) → er_owner r = true → runner_step r r'
| run_prepare r q :
    er_pc r = AtPrepare → er_sys r = mkSys q ThreadReady →
    runner_step r (set_pc AtOwnerCheck (set_sys (mkSys (Prepare q) ThreadReady) r))
| run_owner r :
    er_pc r = AtOwnerCheck → runner_step r (set_pc (if er_owner r then InLoop else AtExit) r)
| run_get r s' e :
    er_pc r = InLoop → get_step (er_sys r) s' e →
    runner_step r
      (set_pc match e with None => InLoop | Some None => AtExit | Some (Some e) => Handling e end (set_sys s' r))
| run_handle r e live : er_pc r = Handling e → runner_step r (handle_event live e r)
| run_leave r : er_pc r = AtExit → er_deposit r = false → runner_step r (Run_leave r).1
| run_stop r : runner_step r (Stop r).1
| run_inner_stop r : er_deposit r = true → runner_step r (Inner_Stop r)
| run_destroy r : er_owner r = true → (er_pc r = NotRunning ∨ er_deposit r = true) →
    runner_step r (destroy_EventRunner r).

Inductive runner_reachable : EventRunner → Prop :=
| runner_init b now : runner_reachable (Create b now)
| runner_more r r' : runner_reachable r → runner_step r r' → runner_reachable r'.

(** ** Lemmas *)

Lemma GetExpiredEventLocked_finished now next q : q_finished (GetExpiredEventLocked now next q).1.2 = q_finished q.
Proof.
  unfold GetExpiredEventLocked. destruct (PickEventLocked _ _ _) as [[[e|] subs] w]; [done|].
  destruct (q_idleEvents q); repeat case_match; done.
Qed.

Lemma client_step_keeps s s' :
  client_step s s' →
  q_finished (sy_queue s') = q_finished (sy_queue s) ∧ (sy_thread s = ThreadReady → sy_thread s' = ThreadReady).
Proof.
  destruct 1 as [q t ev p q' n HI|? ? ? o|? ? ? o|? ? ? o|? ? ? o name|?|?|q t k fd ev l q' err n HA|? ? ? o|? ? fd];
    simpl.
  - destruct ev as [e|]; [destruct p|]; simplify_eq/=; (split; [done|]); by intros ->.
  - by destruct o.
  - by destruct o.
  - by destruct o.
  - destruct o; simpl; [|done]. by case_bool_decide.
  - done.
  - done.
  - split.
    + unfold AddFileDescriptorListener, EnsureIoWaiterSupportListerningFileDescriptorLocked in HA.
      repeat (case_match; simplify_eq/=; try done).
    + intros ->. unfold waiter_replaced. by case_match.
  - by destruct o.
  - unfold RemoveFileDescriptorListener_fd. by repeat case_match.
Qed.

Lemma GetEvent_iteration_finished now q :
  match GetEvent_iteration now q with
  | Returns _ q' | WaitFails q' | Blocks _ _ q' => q_finished q' = q_finished q
  end.
Proof.
  unfold GetEvent_iteration. destruct (q_finished q) eqn:Ef; [done|].
  pose proof (GetExpiredEventLocked_finished now TIME_POINT_MAX q) as H.
  destruct (GetExpiredEventLocked now TIME_POINT_MAX q) as [[[e|] q'] w]; simpl in *; [congruence|].
  destruct (WaitFor_enter (q_ioWaiter q')); simpl; congruence.
Qed.

Lemma get_step_keeps s s' r :
  get_step s s' r →
  q_finished (sy_queue s') = q_finished (sy_queue s) ∧ (r ≠ None → sy_thread s' = ThreadReady).
Proof.
  destruct 1 as [q now e q' H|q now q' H|q now tm u q' H|q u cur old nt rv rd]; simpl.
  - pose proof (GetEvent_iteration_finished now q) as Hf. by rewrite H in Hf.
  - pose proof (GetEvent_iteration_finished now q) as Hf. by rewrite H in Hf.
  - pose proof (GetEvent_iteration_finished now q) as Hf. by rewrite H in Hf.
  - split; [|done]. unfold GetEvent_resume. destruct (WaitFor_leave _ _ _) as [[w ok] calls]. by destruct cur, ok.
Qed.

Record runner_inv (r : EventRunner) : Prop := {
  ri_sys : sys_inv (er_sys r);
  ri_thread : er_pc r ≠ InLoop → sy_thread (er_sys r) = ThreadReady;
  ri_running : er_deposit r = false → er_running r = false → er_pc r = NotRunning;
  ri_stop : er_deposit r = true → er_owner r = false →
    er_pc r = AtPrepare ∨ er_pc r = AtOwnerCheck ∨ er_pc r = AtExit
    ∨ q_finished (sy_queue (er_sys r)) = true;
}.

Lemma sys_finish_keeps s :
  q_finished (sy_queue (sys_finish s)) = true
  ∧ (sy_thread s = ThreadReady → sy_thread (sys_finish s) = ThreadReady).
Proof. destruct s as [q t]. unfold sys_finish. simpl. split; [done|]. by intros ->. Qed.

Lemma sys_finish_notified s u c old n :
  sys_inv s → sy_thread (sys_finish s) = ThreadBlocked u c old n → n = true.
Proof.
  intros Hs Ht. destruct n; [done|]. pose proof (si_thread _ (sys_finish_inv _ Hs)) as H. rewrite Ht in H.
  destruct (H eq_refl) as (_ & Hf & _). by rewrite (proj1 (sys_finish_keeps s)) in Hf.
Qed.

Lemma Inner_Stop_inv r : runner_inv r → runner_inv (Inner_Stop r).
Proof.
  intros [Hs Ht Hd Hf]. destruct (sys_finish_keeps (er_sys r)) as [H1 H2].
  split; simpl; auto using sys_finish_inv.
Qed.

Lemma handle_event_cases live e r : ∃ log,
  handle_event live e r = mkEventRunner (er_sys r) InLoop (er_deposit r) (er_running r) (er_owner r) log.
Proof.
  unfold handle_event, DistributeEvent, set_pc. destruct (GetOwner live e); simpl; eauto.
Qed.

(** A runner whose program counter is not [NotRunning] belongs to a thread. *)
Lemma running_pc r pc : runner_inv r → er_pc r = pc → pc ≠ NotRunning → er_deposit r = false → er_running r = true.
Proof. intros [_ _ Hd _] Hpc Hne Hdep. destruct (er_running r) eqn:E; [done|]. destruct Hne. by rewrite <- Hpc, Hd. Qed.

Lemma runner_step_inv r r' : runner_inv r → runner_step r r' → runner_inv r'.
Proof.
  intros Hinv Hstep. pose proof Hinv as [Hs Ht Hd Hf]. destruct Hstep.
  - destruct (client_step_keeps _ _ H) as [H1 H2]. split; simpl; rewrite ?H1; auto. by eapply client_step_inv.
  - unfold Run_enter in H. destruct (er_deposit r) eqn:Ed, (er_running r) eqn:Er; simplify_eq.
    split; simpl; auto; try done. intros _. apply Ht. by rewrite Hd.
  - pose proof (running_pc r _ Hinv H) as Hr.
    destruct r as [s pc d ru o l]; simpl in *; subst. split; simpl in *; auto; [by apply sys_prepare_inv|].
    intros. by rewrite Hr in *.
  - pose proof (running_pc r _ Hinv H) as Hr. split; simpl; auto.
    + intros _. apply Ht. by rewrite H.
    + intros. by rewrite Hr in *.
    + intros Hdep Hown. rewrite Hown. auto.
  - destruct (get_step_keeps _ _ _ H0) as [H1 H2]. pose proof (running_pc r _ Hinv H) as Hr. split; simpl; rewrite ?H1.
    + by eapply get_step_inv.
    + destruct e as [[e|]|]; simpl; auto; done.
    + intros. by rewrite Hr in *.
    + intros Hdep Hown. destruct (Hf Hdep Hown) as [?|[?|[?|?]]]; try congruence. auto.
  - destruct (handle_event_cases live e r) as [log ->]. pose proof (running_pc r _ Hinv H) as Hr.
    split; simpl; auto; try done.
    + intros. by rewrite Hr in *.
    + intros Hdep Hown. destruct (Hf Hdep Hown) as [?|[?|[?|?]]]; try congruence. auto.
  - simpl. split; simpl; auto; try congruence. intros _. apply Ht. by rewrite H.
  - unfold Stop. destruct (er_deposit r), (er_running r); simpl; auto using Inner_Stop_inv.
  - by apply Inner_Stop_inv.
  - unfold destroy_EventRunner. destruct (er_deposit r) eqn:Ed; simpl.
    + destruct (sys_finish_keeps (er_sys r)) as [H1 H2].
      split; simpl; auto using sys_finish_inv.
    + split; simpl; auto; congruence.
Qed.

Lemma runner_reachable_inv r : runner_reachable r → runner_inv r.
Proof.
  induction 1 as [b now|r r' _ IH Hstep]; [|by eapply runner_step_inv].
  split; simpl; try done; [apply sys_reachable_inv, sys_init|by intros ->].
Qed.

(** ** Properties of runners *)

(** Releasing an [EventRunner] that has a thread of its own always ends
    its event loop, at whatever point of its start the thread is: from then
    on the thread never sleeps without having been notified, and its next
    call of [GetEvent] returns null. *)
Lemma destroyed_runner_stops r :
  runner_reachable r → er_deposit r = true → er_owner r = false → er_pc r = InLoop →
  (∀ u current old notified, sy_thread (er_sys r) = ThreadBlocked u current old notified → notified = true)
  ∧ (∀ s' e, sy_thread (er_sys r) = ThreadReady → get_step (er_sys r) s' e → e = Some None).
Proof.
  intros [Hs _ _ Hf]%runner_reachable_inv Hdep Hown Hpc.
  destruct (Hf Hdep Hown) as [?|[?|[?|Hfin]]]; try congruence. split.
  - intros u cur old [|] Ht; [done|]. pose proof (si_thread _ Hs) as H. rewrite Ht in H.
    destruct (H eq_refl) as (_ & Hf' & _). congruence.
  - intros s' e Hready Hg. destruct Hg as [q now e' q' H|q now q' H|q now tm u q' H|]; simpl in *; [|..|done].
    all: unfold GetEvent_iteration in H; rewrite Hfin in H; by simplify_eq.
Qed.

(** The steps of the runner's own thread. *)
Inductive own_step : EventRunner → EventRunner → Prop :=
| own_prepare r q :
    er_pc r = AtPrepare → er_sys r = mkSys q ThreadReady →
    own_step r (set_pc AtOwnerCheck (set_sys (mkSys (Prepare q) ThreadReady) r))
| own_owner r : er_pc r = AtOwnerCheck → own_step r (set_pc (if er_owner r then InLoop else AtExit) r)
| own_get r s' e :
    er_pc r = InLoop → get_step (er_sys r) s' e →
    own_step r
      (set_pc match e with None => InLoop | Some None => AtExit | Some (Some e) => Handling e end (set_sys s' r)).

(** A stop between the start of a runner and the [Prepare] of its thread
    is lost.  [EventRunner::Stop] returns [ERR_OK] after [Run] claimed the
    runner, and [Create] stops a thread it could not deposit, but [Prepare]
    then clears [finished_] and the thread goes to sleep with no wake-up
    time and no notification. *)
Lemma early_stop_is_lost :
  (∃ r r', runner_reachable r ∧ er_deposit r = false ∧ er_running r = true ∧ (Stop r).2 = ERR_OK
     ∧ q_finished (sy_queue (er_sys (Stop r).1)) = true ∧ rtc own_step (Stop r).1 r' ∧ er_pc r' = InLoop
     ∧ ∃ old, sy_thread (er_sys r') = ThreadBlocked TIME_POINT_MAX true old false)
  ∧ (∃ r', rtc own_step (Inner_Stop (Create true 0)) r' ∧ er_owner r' = true ∧ er_pc r' = InLoop
     ∧ ∃ old, sy_thread (er_sys r') = ThreadBlocked TIME_POINT_MAX true old false).
Proof.
  split.
  - exists (Run_enter (Create false 0)).1. eexists. split.
    { eapply runner_more; [apply (runner_init false 0)|]. by apply run_enter. }
    do 4 (split; [done|]). split.
    { eapply rtc_l; [by eapply own_prepare|]. eapply rtc_l; [by eapply own_owner|]. eapply rtc_l; [|apply rtc_refl].
      eapply own_get; [done|]. by eapply (sys_get_block _ 1). }
    by split; [|eexists].
  - eexists. split.
    { eapply rtc_l; [by eapply own_prepare|]. eapply rtc_l; [by eapply own_owner|]. eapply rtc_l; [|apply rtc_refl].
      eapply own_get; [done|]. by eapply (sys_get_block _ 1). }
    split_and!; [done..|]. by eexists.
Qed.

(** [Run] and [Stop] answer by the state of the runner: a runner with a
    thread of its own refuses both, [Run] refuses a runner that is running,
    and a refused call changes nothing; a running runner that is stopped is
    marked finished, and its thread, if it sleeps, is notified. *)
Theorem Run_Stop_results r :
  runner_reachable r →
  ((Run_enter r).2 = Some EVENT_HANDLER_ERR_RUNNER_NO_PERMIT ↔ er_deposit r = true)
  ∧ ((Stop r).2 = EVENT_HANDLER_ERR_RUNNER_NO_PERMIT ↔ er_deposit r = true)
  ∧ ((Run_enter r).2 = Some EVENT_HANDLER_ERR_RUNNER_ALREADY ↔ er_deposit r = false ∧ er_running r = true)
  ∧ ((Run_enter r).2 ≠ None → (Run_enter r).1 = r)
  ∧ (er_deposit r = true ∨ er_running r = false → (Stop r).1 = r)
  ∧ (er_deposit r = false → er_running r = true →
     q_finished (sy_queue (er_sys (Stop r).1)) = true
     ∧ ∀ u c old n, sy_thread (er_sys (Stop r).1) = ThreadBlocked u c old n → n = true).
Proof.
  intros Hr%runner_reachable_inv. unfold Run_enter, Stop.
  destruct (er_deposit r) eqn:Ed, (er_running r) eqn:Er; simpl; split_and!; try done; try (intuition congruence).
  intros _ _. split; [done|]. intros u c old n. apply sys_finish_notified, Hr.
Qed.

(** ** Properties of handlers *)

Definition has_queue (p : Priority) : bool := match p with OTHER_PRIORITY _ => false | _ => true end.

Lemma events_of_alter_insert e i subs :
  (i < length subs)%nat →
  events_of (alter (λ s, set_sub_queue (InsertEventsLocked (sq_queue s) e) s) i subs) ≡ₚ e :: events_of subs.
Proof.
  unfold events_of. revert i. induction subs as [|s subs IH]; intros [|i] Hi; simpl in *; [lia..| |].
  - by rewrite InsertEventsLocked_permutation.
  - etrans; [apply Permutation_app_head, IH; lia|]. by rewrite <- Permutation_middle.
Qed.

Lemma Insert_permutation e p q :
  queue_wf q → has_queue p = true → all_events (Insert (Some e) p q).1 ≡ₚ e :: all_events q.
Proof.
  intros [[Hlen _] _ _] Hp. unfold all_events. destruct p; simpl; try done.
  - by rewrite events_of_alter_insert by (rewrite Hlen; unfold SUB_EVENT_QUEUE_NUM; simpl; lia).
  - by rewrite events_of_alter_insert by (rewrite Hlen; unfold SUB_EVENT_QUEUE_NUM; simpl; lia).
  - by rewrite events_of_alter_insert by (rewrite Hlen; unfold SUB_EVENT_QUEUE_NUM; simpl; lia).
  - rewrite InsertEventsLocked_permutation. by rewrite <- Permutation_middle.
Qed.

Lemma GetOrCreateTraceId_same cur span e t e' :
  GetOrCreateTraceId cur span e = (t, e') → ∃ t', e' = SetTraceId t' e.
Proof.
  unfold GetOrCreateTraceId. destruct e as [o ht st id pa ty sp sd cb nm w tr]. simpl.
  destruct tr as [tr|]; [|destruct cur]; intros; simplify_eq; eexists; done.
Qed.

Lemma SendEvent_spec now tr h e delay p w r q :
  eh_runner h = Some r → w !! r = Some q → queue_wf q → has_queue p = true →
  ∃ q' t', SendEvent now tr h (Some e) delay p w = (<[r := q']> w, true)
    ∧ all_events q'
      ≡ₚ SetTraceId t' (SetOwner (eh_id h) (SetHandleTime (delayed_time now delay) (SetSendTime now e))) :: all_events q.
Proof.
  intros Hr Hq Hwf Hp. unfold SendEvent. rewrite Hr, Hq.
  destruct (GetOrCreateTraceId _ _ _) as [t e'] eqn:E.
  apply GetOrCreateTraceId_same in E as [t' ->]. eexists _, t'. split; [done|]. by apply Insert_permutation.
Qed.

(** [SendEvent] with a runner adds exactly one event to the runner's queue
    and touches no other queue: the event sent, owned by the handler, stamped
    with the time it was sent, and due after the delay (at once for a delay
    that is not positive) as long as the time fits the clock. *)
Lemma SendEvent_correct now tr h e delay p w r q :
  eh_runner h = Some r → w !! r = Some q → queue_wf q → has_queue p = true →
  0 <= now → in_i64 (now + delay * 1000000) →
  ∃ q' e', SendEvent now tr h (Some e) delay p w = (<[r := q']> w, true)
    ∧ all_events q' ≡ₚ e' :: all_events q
    ∧ ev_owner e' = Some (eh_id h) ∧ ev_sendTime e' = now ∧ ev_handleTime e' = now + Z.max 0 delay * 1000000
    ∧ ev_innerEventId e' = ev_innerEventId e ∧ ev_param e' = ev_param e
    ∧ ev_taskCallback e' = ev_taskCallback e ∧ ev_taskName e' = ev_taskName e ∧ ev_waiter e' = ev_waiter e.
Proof.
  intros Hr Hq Hwf Hp Hnow Hfit. destruct (SendEvent_spec now tr h e delay p w r q Hr Hq Hwf Hp) as (q' & t' & HS & HP).
  eexists q', _. split; [exact HS|]. split; [exact HP|]. simpl. split_and!; try done.
  unfold delayed_time, NANOSECONDS_PER_ONE_MILLISECOND. unfold in_i64, INT64_MAX in *.
  destruct (0 <? delay) eqn:E; zbool; [|lia].
  rewrite (i64_id (delay * 1000000)) by (unfold in_i64, INT64_MAX; lia).
  rewrite i64_id by (unfold in_i64, INT64_MAX; lia). lia.
Qed.

(** [SendSyncEvent] rejects exactly when the runner is not running, never
    waits for its own thread (it distributes the event in place), and
    otherwise waits on the very waiter of the event it queued as due now. *)
Lemma SendSyncEvent_correct running current now tr waiter h e p w r q :
  eh_runner h = Some r → w !! r = Some q → queue_wf q → has_queue p = true → p ≠ IDLE →
  match SendSyncEvent running current now tr waiter h (Some e) p w with
  | SyncRejected => running r = false
  | SyncDistributed e' => running r = true ∧ current = Some r ∧ e' = e
  | SyncWaits wt w' =>
      running r = true ∧ current ≠ Some r
      ∧ ∃ q' e', w' = <[r := q']> w ∧ all_events q' ≡ₚ e' :: all_events q
          ∧ ev_waiter e' = Some wt ∧ ev_handleTime e' = now ∧ ev_taskCallback e' = ev_taskCallback e
  end.
Proof.
  intros Hr Hq Hwf Hp Hidle. unfold SendSyncEvent. rewrite Hr.
  destruct (running r) eqn:Erun; simpl; [|by destruct p].
  case_bool_decide as Hcur; [by destruct p|].
  destruct (GetOrCreateTraceId _ _ _) as [t e1] eqn:E. apply GetOrCreateTraceId_same in E as [t1 ->].
  destruct (SendEvent_spec now tr h (SetWaiter (Some waiter) (SetTraceId t1 e)) 0 p w r q Hr Hq Hwf Hp)
    as (q' & t' & HS & HP).
  destruct p; try done; cbv zeta; rewrite HS; simpl; (split_and!; [done..|]); eexists q', _; by split_and!.
Qed.

(** When a handler changes its runner, none of its events and descriptor
    listeners stay behind, everybody else's stay as they are, and other
    queues are untouched. *)
Theorem SetEventRunner_leaves_nothing env h runner w h' w' r q :
  eh_runner h = Some r → runner ≠ Some r → w !! r = Some q → queue_wf q →
  SetEventRunner env runner h w = (h', w') →
  eh_runner h' = runner ∧ eh_id h' = eh_id h
  ∧ (∀ r', r' ≠ r → w' !! r' = w !! r')
  ∧ ∃ q', w' !! r = Some q'
    ∧ all_events q' = filter (λ e, owned_by env (eh_id h) e = false) (all_events q)
    ∧ ∀ fd, q_listeners q' !! fd
        = match q_listeners q !! fd with
          | Some (Some l) => if decide (listener_GetOwner env l = Some (eh_id h)) then None else Some (Some l)
          | other => other
          end.
Proof.
  intros Hr Hne Hq Hwf. unfold SetEventRunner. rewrite Hr. case_bool_decide; [congruence|]. intros. simplify_eq/=.
  unfold RemoveAllFileDescriptorListeners, RemoveAllEvents, on_queue. rewrite Hr, Hq, sm_lookup_insert_eq.
  split_and!; [done..| |].
  { intros r' Hr'. by rewrite !sm_lookup_insert_ne by done. }
  rewrite sm_lookup_insert_eq. eexists. split_and!; [done|apply all_events_filter|].
  intros fd. simpl. rewrite sm_lookup_erase_if by apply Hwf.
  destruct (q_listeners q !! fd) as [[l|]|]; [|done..].
  case_bool_decide; case_decide; done.
Qed.

(** ** Witnesses *)

(** A runner with its own thread, released while the thread is about to
    check its owner. *)
Definition demo_destroyed : EventRunner :=
  set_pc InLoop (set_sys (mkSys (Prepare (new_EventQueue 0)) ThreadReady) (Create true 0)).

Lemma demo_destroyed_reachable :
  runner_reachable (destroy_EventRunner demo_destroyed).
Proof.
  eapply runner_more; [|apply (run_destroy demo_destroyed); auto].
  eapply runner_more; [|by apply (run_owner (set_pc AtOwnerCheck demo_destroyed))].
  eapply runner_more; [apply (runner_init true 0)|]. by apply (run_prepare (Create true 0)).
Qed.

Lemma destroyed_runner_stops_witness :
  ∃ s', get_step (er_sys (destroy_EventRunner demo_destroyed)) s' (Some None)
    ∧ ∀ s'' e, get_step (er_sys (destroy_EventRunner demo_destroyed)) s'' e → e = Some None.
Proof.
  eexists. split; [by apply (sys_get_return _ 1)|]. intros s'' e.
  exact (proj2 (destroyed_runner_stops _ demo_destroyed_reachable eq_refl eq_refl eq_refl) s'' e eq_refl).
Defined.

Lemma Run_Stop_results_witness :
  (Run_enter (Create true 0)).2 = Some EVENT_HANDLER_ERR_RUNNER_NO_PERMIT.
Proof. apply (Run_Stop_results _ (runner_init true 0)). reflexivity. Defined.

Definition demo_handler : EventHandler := mkEventHandler 1 (Some 4).
Definition demo_queues : Queues := <[4 := demo_queue]> ∅.

Lemma SendEvent_correct_witness :
  ∃ q', SendEvent 6 (mkTrace None 0) demo_handler (Some (demo_event 9 0)) 2 HIGH demo_queues
        = (<[4 := q']> demo_queues, true) ∧ length (all_events q') = 2%nat.
Proof.
  destruct (SendEvent_correct 6 (mkTrace None 0) demo_handler (demo_event 9 0) 2 HIGH demo_queues 4 demo_queue)
    as (q' & e' & H1 & H2 & _); [done..|apply demo_queue_wf|done|done|unfold in_i64, INT64_MAX; lia|].
  exists q'. split; [exact H1|]. by rewrite H2.
Defined.

Lemma SendSyncEvent_correct_witness :
  ∃ w', SendSyncEvent (λ _, true) None 6 (mkTrace None 0) 3 demo_handler (Some (demo_event 9 0)) HIGH demo_queues
        = SyncWaits 3 w' ∧ None ≠ Some 4.
Proof.
  pose proof (SendSyncEvent_correct (λ _, true) None 6 (mkTrace None 0) 3 demo_handler (demo_event 9 0) HIGH
    demo_queues 4 demo_queue eq_refl eq_refl demo_queue_wf eq_refl ltac:(discriminate)) as H.
  eexists. split; [reflexivity|]. destruct H as (_ & H & _). exact H.
Defined.

Definition demo_env : Env := mkEnv (λ _, true) (λ _, Some 1).

Lemma SetEventRunner_leaves_nothing_witness :
  ∃ q', (SetEventRunner demo_env None demo_handler demo_queues).2 !! 4 = Some q'
    ∧ all_events q' = [demo_event 7 5].
Proof.
  destruct (SetEventRunner_leaves_nothing demo_env demo_handler None demo_queues _ _ 4 demo_queue
    eq_refl ltac:(discriminate) eq_refl demo_queue_wf eq_refl) as (_ & _ & _ & q' & H1 & H2 & _).
  by exists q'.
Defined.
