(* ===== verification/BundleTypes.v ===== *)
(** * BundleTypes: the information objects of the bundle manager

    The structs of interfaces/inner_api/appexecfwk_base/include, field by
    field in the order of the headers: the name of a field is the C++ one
    behind a prefix of its struct.  A C++ integer is a [Z], a [std::string] a
    [string], a [std::vector] a list, a [std::map] a [stdmap]; [new_X] is a
    default-constructed [X]; for the structs with scalar members that the
    headers leave uninitialised (AbilityInfo, ExtensionAbilityInfo and
    ShortcutInfo) it takes what these members hold. *)

From stdpp Require Import strings.
From S2P Require Import Prelude StdMap.

Open Scope Z_scope.
Open Scope string_scope.

(** ** bundle_constants.h *)

Definition START_USERID : Z := 100.
Definition DEFAULT_USERID : Z := 0.
Definition INVALID_USERID : Z := -1.
Definition UNSPECIFIED_USERID : Z := -2.
Definition ALL_USERID : Z := -3.
Definition ANY_USERID : Z := -4.
Definition NOT_EXIST_USERID : Z := -5.
Definition INVALID_UID : Z := -1.
Definition INVALID_GID : Z := -1.
Definition BASE_APP_UID : Z := 10000.
Definition BASE_USER_RANGE : Z := 200000.
Definition MAX_APP_UID : Z := 65535.
Definition ROOT_UID : Z := 0.
Definition BMS_UID : Z := 1000.
Definition INVALID_BUNDLEID : Z := -1.
Definition INITIAL_APP_INDEX : Z := 0.
Definition MAX_APP_INDEX : Z := 100.
Definition INSTALL_FILE_SUFFIX : string := ".hap".
Definition PATH_SEPARATOR : string := "/".
Definition FILE_UNDERLINE : string := "_".
Definition TMP_SUFFIX : string := "_tmp".
Definition ASSETS_DIR : string := "assets".
Definition RESOURCES_INDEX : string := "resources.index".
Definition BUNDLE_CODE_DIR : string := "/data/app/el1/bundle/public".
Definition BUNDLE_APP_DATA_BASE_DIR : string := "/data/app/".
Definition BASE : string := "/base/".
Definition DATABASE : string := "/database/".
Definition HAPS : string := "/haps/".
Definition BUNDLE_EL : list string := ["el1"; "el2"].
Definition HOS_SYSTEM_APP : string := "hos_system_app".
Definition OHOS_SYSTEM_APP : string := "ohos_system_app".
Definition SYSTEM_APP_INSTALL_PATH : string := "/data/accounts".
Definition THIRD_SYSTEM_APP_INSTALL_PATH : string := "/data/accounts".
Definition THIRD_PARTY_APP_INSTALL_PATH : string := "/data/accounts".

(** ** Query flags *)

Definition GET_BUNDLE_DEFAULT : Z := 0x00000000.
Definition GET_BUNDLE_WITH_ABILITIES : Z := 0x00000001.
Definition GET_BUNDLE_WITH_REQUESTED_PERMISSION : Z := 0x00000010.
Definition GET_BUNDLE_WITH_EXTENSION_INFO : Z := 0x00000020.
Definition GET_BUNDLE_WITH_HASH_VALUE : Z := 0x00000030.
Definition GET_ABILITY_INFO_WITH_PERMISSION : Z := 0x00000002.
Definition GET_ABILITY_INFO_WITH_APPLICATION : Z := 0x00000004.
Definition GET_ABILITY_INFO_WITH_METADATA : Z := 0x00000020.
Definition GET_ABILITY_INFO_SYSTEMAPP_ONLY : Z := 0x00000080.
Definition GET_ABILITY_INFO_WITH_DISABLE : Z := 0x00000100.
Definition GET_BASIC_APPLICATION_INFO : Z := 0x00000000.
Definition GET_APPLICATION_INFO_WITH_PERMISSION : Z := 0x00000008.
Definition GET_APPLICATION_INFO_WITH_METADATA : Z := 0x00000040.
Definition GET_APPLICATION_INFO_WITH_DISABLE : Z := 0x00000200.
Definition GET_APPLICATION_INFO_WITH_CERTIFICATE_FINGERPRINT : Z := 0x00000400.
Definition GET_PACKAGES : Z := 0x00000001.
Definition GET_BUNDLE_SUMMARY : Z := 0x00000002.
Definition GET_MODULE_SUMMARY : Z := 0x00000004.

(** ** The structs *)

Record ModuleInfo := mkModuleInfo {
  mi_moduleName : string;
  mi_moduleSourceDir : string;
}.

#[export] Instance eta_ModuleInfo : Eta ModuleInfo := λ r,
  mkModuleInfo (mi_moduleName r) (mi_moduleSourceDir r).

Definition new_ModuleInfo : ModuleInfo :=
  mkModuleInfo "" "".

Record Metadata := mkMetadata {
  md_name : string;
  md_value : string;
  md_resource : string;
}.

#[export] Instance eta_Metadata : Eta Metadata := λ r,
  mkMetadata (md_name r) (md_value r) (md_resource r).

Definition new_Metadata : Metadata :=
  mkMetadata "" "" "".

Record CustomizeData := mkCustomizeData {
  cd_name : string;
  cd_value : string;
  cd_extra : string;
}.

#[export] Instance eta_CustomizeData : Eta CustomizeData := λ r,
  mkCustomizeData (cd_name r) (cd_value r) (cd_extra r).

Definition new_CustomizeData : CustomizeData :=
  mkCustomizeData "" "" "".

Record MetaData := mkMetaData {
  mdl_customizeData : list CustomizeData;
}.

#[export] Instance eta_MetaData : Eta MetaData := λ r,
  mkMetaData (mdl_customizeData r).

Definition new_MetaData : MetaData :=
  mkMetaData [].

Record ApplicationInfo := mkApplicationInfo {
  app_name : string;
  app_bundleName : string;
  app_versionCode : Z;
  app_versionName : string;
  app_minCompatibleVersionCode : Z;
  app_apiCompatibleVersion : Z;
  app_apiTargetVersion : Z;
  app_iconPath : string;
  app_iconId : Z;
  app_label : string;
  app_labelId : Z;
  app_description : string;
  app_descriptionId : Z;
  app_keepAlive : bool;
  app_removable : bool;
  app_singleton : bool;
  app_userDataClearable : bool;
  app_accessible : bool;
  app_isSystemApp : bool;
  app_isLauncherApp : bool;
  app_isFreeInstallApp : bool;
  app_codePath : string;
  app_dataDir : string;
  app_dataBaseDir : string;
  app_cacheDir : string;
  app_entryDir : string;
  app_apiReleaseType : string;
  app_debug : bool;
  app_deviceId : string;
  app_distributedNotificationEnabled : bool;
  app_entityType : string;
  app_process : string;
  app_supportedModes : Z;
  app_vendor : string;
  app_appPrivilegeLevel : string;
  app_accessTokenId : Z;
  app_enabled : bool;
  app_uid : Z;
  app_nativeLibraryPath : string;
  app_cpuAbi : string;
  app_permissions : list string;
  app_moduleSourceDirs : list string;
  app_moduleInfos : list ModuleInfo;
  app_metaData : stdmap string (list CustomizeData);
  app_metadata : stdmap string (list Metadata);
  app_targetBundleList : list string;
  app_isCloned : bool;
  app_fingerprint : string;
  app_icon : string;
  app_flags : Z;
  app_entryModuleName : string;
  app_isCompressNativeLibs : bool;
  app_signatureKey : string;
}.

#[export] Instance eta_ApplicationInfo : Eta ApplicationInfo := λ r,
  mkApplicationInfo (app_name r) (app_bundleName r) (app_versionCode r) (app_versionName r)
    (app_minCompatibleVersionCode r) (app_apiCompatibleVersion r) (app_apiTargetVersion r) (app_iconPath r)
    (app_iconId r) (app_label r) (app_labelId r) (app_description r) (app_descriptionId r) (app_keepAlive r)
    (app_removable r) (app_singleton r) (app_userDataClearable r) (app_accessible r) (app_isSystemApp r)
    (app_isLauncherApp r) (app_isFreeInstallApp r) (app_codePath r) (app_dataDir r) (app_dataBaseDir r)
    (app_cacheDir r) (app_entryDir r) (app_apiReleaseType r) (app_debug r) (app_deviceId r)
    (app_distributedNotificationEnabled r) (app_entityType r) (app_process r) (app_supportedModes r)
    (app_vendor r) (app_appPrivilegeLevel r) (app_accessTokenId r) (app_enabled r) (app_uid r)
    (app_nativeLibraryPath r) (app_cpuAbi r) (app_permissions r) (app_moduleSourceDirs r) (app_moduleInfos
    r) (app_metaData r) (app_metadata r) (app_targetBundleList r) (app_isCloned r) (app_fingerprint r)
    (app_icon r) (app_flags r) (app_entryModuleName r) (app_isCompressNativeLibs r) (app_signatureKey r).

Definition new_ApplicationInfo : ApplicationInfo :=
  mkApplicationInfo "" "" 0 "" 0 0 0 "" 0 "" 0 "" 0 false true false true false false false false "" "" ""
    "" "" "" false "" true "" "" 0 "" "normal" 0 false (-1) "" "" [] [] [] ∅ ∅ [] false "" "" 0 "" true "".

Inductive AbilityType :=
| AbilityType_UNKNOWN
| AbilityType_PAGE
| AbilityType_SERVICE
| AbilityType_DATA
| AbilityType_FORM
| AbilityType_EXTENSION.

Inductive AbilitySubType :=
| AbilitySubType_UNSPECIFIED
| AbilitySubType_CA.

Inductive DisplayOrientation :=
| DisplayOrientation_UNSPECIFIED
| DisplayOrientation_LANDSCAPE
| DisplayOrientation_PORTRAIT
| DisplayOrientation_FOLLOWRECENT.

Inductive LaunchMode :=
| LaunchMode_SINGLETON
| LaunchMode_STANDARD
| LaunchMode_SINGLETOP
| LaunchMode_SPECIFIED.

Inductive ExtensionAbilityType :=
| ExtensionAbilityType_FORM
| ExtensionAbilityType_WORK_SCHEDULER
| ExtensionAbilityType_INPUTMETHOD
| ExtensionAbilityType_SERVICE
| ExtensionAbilityType_ACCESSIBILITY
| ExtensionAbilityType_DATASHARE
| ExtensionAbilityType_FILESHARE
| ExtensionAbilityType_STATICSUBSCRIBER
| ExtensionAbilityType_WALLPAPER
| ExtensionAbilityType_BACKUP
| ExtensionAbilityType_WINDOW
| ExtensionAbilityType_UNSPECIFIED.
#[export] Instance ExtensionAbilityType_eq_dec : EqDecision ExtensionAbilityType.
Proof. solve_decision. Defined.

Record AbilityInfo := mkAbilityInfo {
  ai_name : string;
  ai_label : string;
  ai_description : string;
  ai_iconPath : string;
  ai_labelId : Z;
  ai_descriptionId : Z;
  ai_iconId : Z;
  ai_theme : string;
  ai_visible : bool;
  ai_kind : string;
  ai_type : AbilityType;
  ai_extensionAbilityType : ExtensionAbilityType;
  ai_orientation : DisplayOrientation;
  ai_launchMode : LaunchMode;
  ai_srcPath : string;
  ai_srcLanguage : string;
  ai_permissions : list string;
  ai_process : string;
  ai_deviceTypes : list string;
  ai_deviceCapabilities : list string;
  ai_uri : string;
  ai_targetAbility : string;
  ai_applicationInfo : ApplicationInfo;
  ai_isLauncherAbility : bool;
  ai_isNativeAbility : bool;
  ai_enabled : bool;
  ai_supportPipMode : bool;
  ai_formEnabled : bool;
  ai_removeMissionAfterTerminate : bool;
  ai_readPermission : string;
  ai_writePermission : string;
  ai_configChanges : list string;
  ai_formEntity : Z;
  ai_minFormHeight : Z;
  ai_defaultFormHeight : Z;
  ai_minFormWidth : Z;
  ai_defaultFormWidth : Z;
  ai_metaData : MetaData;
  ai_backgroundModes : Z;
  ai_package : string;
  ai_bundleName : string;
  ai_moduleName : string;
  ai_applicationName : string;
  ai_codePath : string;
  ai_resourcePath : string;
  ai_srcEntrance : string;
  ai_metadata : list Metadata;
  ai_isModuleJson : bool;
  ai_isStageBasedModel : bool;
  ai_continuable : bool;
  ai_priority : Z;
  ai_startWindowIcon : string;
  ai_startWindowIconId : Z;
  ai_startWindowBackground : string;
  ai_startWindowBackgroundId : Z;
  ai_originalBundleName : string;
  ai_appName : string;
  ai_privacyUrl : string;
  ai_privacyName : string;
  ai_downloadUrl : string;
  ai_versionName : string;
  ai_className : string;
  ai_originalClassName : string;
  ai_uriPermissionMode : string;
  ai_uriPermissionPath : string;
  ai_packageSize : Z;
  ai_multiUserShared : bool;
  ai_grantPermission : bool;
  ai_directLaunch : bool;
  ai_subType : AbilitySubType;
  ai_libPath : string;
  ai_deviceId : string;
}.

#[export] Instance eta_AbilityInfo : Eta AbilityInfo := λ r,
  mkAbilityInfo (ai_name r) (ai_label r) (ai_description r) (ai_iconPath r) (ai_labelId r) (ai_descriptionId
    r) (ai_iconId r) (ai_theme r) (ai_visible r) (ai_kind r) (ai_type r) (ai_extensionAbilityType r)
    (ai_orientation r) (ai_launchMode r) (ai_srcPath r) (ai_srcLanguage r) (ai_permissions r) (ai_process r)
    (ai_deviceTypes r) (ai_deviceCapabilities r) (ai_uri r) (ai_targetAbility r) (ai_applicationInfo r)
    (ai_isLauncherAbility r) (ai_isNativeAbility r) (ai_enabled r) (ai_supportPipMode r) (ai_formEnabled r)
    (ai_removeMissionAfterTerminate r) (ai_readPermission r) (ai_writePermission r) (ai_configChanges r)
    (ai_formEntity r) (ai_minFormHeight r) (ai_defaultFormHeight r) (ai_minFormWidth r) (ai_defaultFormWidth
    r) (ai_metaData r) (ai_backgroundModes r) (ai_package r) (ai_bundleName r) (ai_moduleName r)
    (ai_applicationName r) (ai_codePath r) (ai_resourcePath r) (ai_srcEntrance r) (ai_metadata r)
    (ai_isModuleJson r) (ai_isStageBasedModel r) (ai_continuable r) (ai_priority r) (ai_startWindowIcon r)
    (ai_startWindowIconId r) (ai_startWindowBackground r) (ai_startWindowBackgroundId r)
    (ai_originalBundleName r) (ai_appName r) (ai_privacyUrl r) (ai_privacyName r) (ai_downloadUrl r)
    (ai_versionName r) (ai_className r) (ai_originalClassName r) (ai_uriPermissionMode r)
    (ai_uriPermissionPath r) (ai_packageSize r) (ai_multiUserShared r) (ai_grantPermission r)
    (ai_directLaunch r) (ai_subType r) (ai_libPath r) (ai_deviceId r).

(** A default-constructed AbilityInfo: [u] is what the members without an
    initialiser hold. *)
Definition new_AbilityInfo (u : Z) : AbilityInfo :=
  mkAbilityInfo "" "" "" "" u u u "" false "" AbilityType_UNKNOWN ExtensionAbilityType_UNSPECIFIED
    DisplayOrientation_UNSPECIFIED LaunchMode_SINGLETON "" "js" [] "" [] [] "" "" new_ApplicationInfo
    false false false false false false "" "" [] 0 0 0 0 0 new_MetaData 0 "" "" "" "" "" "" "" [] false
    false false 0 "" u "" u "" "" "" "" "" "" "" "" "" "" 0 false false true AbilitySubType_UNSPECIFIED
    "" "".

Record ExtensionAbilityInfo := mkExtensionAbilityInfo {
  ext_bundleName : string;
  ext_moduleName : string;
  ext_name : string;
  ext_srcEntrance : string;
  ext_icon : string;
  ext_iconId : Z;
  ext_label : string;
  ext_labelId : Z;
  ext_description : string;
  ext_descriptionId : Z;
  ext_priority : Z;
  ext_permissions : list string;
  ext_readPermission : string;
  ext_writePermission : string;
  ext_uri : string;
  ext_type : ExtensionAbilityType;
  ext_visible : bool;
  ext_metadata : list Metadata;
  ext_applicationInfo : ApplicationInfo;
  ext_resourcePath : string;
  ext_enabled : bool;
  ext_process : string;
}.

#[export] Instance eta_ExtensionAbilityInfo : Eta ExtensionAbilityInfo := λ r,
  mkExtensionAbilityInfo (ext_bundleName r) (ext_moduleName r) (ext_name r) (ext_srcEntrance r) (ext_icon r)
    (ext_iconId r) (ext_label r) (ext_labelId r) (ext_description r) (ext_descriptionId r) (ext_priority r)
    (ext_permissions r) (ext_readPermission r) (ext_writePermission r) (ext_uri r) (ext_type r) (ext_visible
    r) (ext_metadata r) (ext_applicationInfo r) (ext_resourcePath r) (ext_enabled r) (ext_process r).

(** As above, [t] being the uninitialised type. *)
Definition new_ExtensionAbilityInfo (t : ExtensionAbilityType) : ExtensionAbilityInfo :=
  mkExtensionAbilityInfo "" "" "" "" "" 0 "" 0 "" 0 0 [] "" "" "" t false [] new_ApplicationInfo "" true
    "".

Inductive ModuleColorMode :=
| ModuleColorMode_AUTO
| ModuleColorMode_DARK
| ModuleColorMode_LIGHT.

Inductive ModuleType :=
| ModuleType_UNKNOWN
| ModuleType_ENTRY
| ModuleType_FEATURE
| ModuleType_HAR.

Record HapModuleInfo := mkHapModuleInfo {
  hm_name : string;
  hm_moduleName : string;
  hm_description : string;
  hm_descriptionId : Z;
  hm_iconPath : string;
  hm_label : string;
  hm_labelId : Z;
  hm_backgroundImg : string;
  hm_mainAbility : string;
  hm_srcPath : string;
  hm_hashValue : string;
  hm_hapPath : string;
  hm_supportedModes : Z;
  hm_reqCapabilities : list string;
  hm_deviceTypes : list string;
  hm_dependencies : list string;
  hm_abilityInfos : list AbilityInfo;
  hm_colorMode : ModuleColorMode;
  hm_bundleName : string;
  hm_mainElementName : string;
  hm_pages : string;
  hm_process : string;
  hm_resourcePath : string;
  hm_srcEntrance : string;
  hm_uiSyntax : string;
  hm_virtualMachine : string;
  hm_deliveryWithInstall : bool;
  hm_installationFree : bool;
  hm_isModuleJson : bool;
  hm_isStageBasedModel : bool;
  hm_isRemovable : stdmap string bool;
  hm_moduleType : ModuleType;
  hm_extensionInfos : list ExtensionAbilityInfo;
  hm_metadata : list Metadata;
  hm_upgradeFlag : Z;
}.

#[export] Instance eta_HapModuleInfo : Eta HapModuleInfo := λ r,
  mkHapModuleInfo (hm_name r) (hm_moduleName r) (hm_description r) (hm_descriptionId r) (hm_iconPath r)
    (hm_label r) (hm_labelId r) (hm_backgroundImg r) (hm_mainAbility r) (hm_srcPath r) (hm_hashValue r)
    (hm_hapPath r) (hm_supportedModes r) (hm_reqCapabilities r) (hm_deviceTypes r) (hm_dependencies r)
    (hm_abilityInfos r) (hm_colorMode r) (hm_bundleName r) (hm_mainElementName r) (hm_pages r) (hm_process
    r) (hm_resourcePath r) (hm_srcEntrance r) (hm_uiSyntax r) (hm_virtualMachine r) (hm_deliveryWithInstall
    r) (hm_installationFree r) (hm_isModuleJson r) (hm_isStageBasedModel r) (hm_isRemovable r)
    (hm_moduleType r) (hm_extensionInfos r) (hm_metadata r) (hm_upgradeFlag r).

Definition new_HapModuleInfo : HapModuleInfo :=
  mkHapModuleInfo "" "" "" 0 "" "" 0 "" "" "" "" "" 0 [] [] [] [] ModuleColorMode_AUTO "" "" "" "" "" "" ""
    "" false false false false ∅ ModuleType_UNKNOWN [] [] 0.

Record RequestPermissionUsedScene := mkRequestPermissionUsedScene {
  rpu_abilities : list string;
  rpu_when : string;
}.

#[export] Instance eta_RequestPermissionUsedScene : Eta RequestPermissionUsedScene := λ r,
  mkRequestPermissionUsedScene (rpu_abilities r) (rpu_when r).

Definition new_RequestPermissionUsedScene : RequestPermissionUsedScene :=
  mkRequestPermissionUsedScene [] "".

Record RequestPermission := mkRequestPermission {
  rp_name : string;
  rp_reason : string;
  rp_reasonId : Z;
  rp_usedScene : RequestPermissionUsedScene;
}.

#[export] Instance eta_RequestPermission : Eta RequestPermission := λ r,
  mkRequestPermission (rp_name r) (rp_reason r) (rp_reasonId r) (rp_usedScene r).

Definition new_RequestPermission : RequestPermission :=
  mkRequestPermission "" "" 0 new_RequestPermissionUsedScene.

Record BundleInfo := mkBundleInfo {
  bi_name : string;
  bi_versionCode : Z;
  bi_versionName : string;
  bi_minCompatibleVersionCode : Z;
  bi_compatibleVersion : Z;
  bi_targetVersion : Z;
  bi_isKeepAlive : bool;
  bi_singleton : bool;
  bi_isPreInstallApp : bool;
  bi_vendor : string;
  bi_releaseType : string;
  bi_isNativeApp : bool;
  bi_mainEntry : string;
  bi_entryModuleName : string;
  bi_entryInstallationFree : bool;
  bi_appId : string;
  bi_uid : Z;
  bi_gid : Z;
  bi_installTime : Z;
  bi_updateTime : Z;
  bi_applicationInfo : ApplicationInfo;
  bi_abilityInfos : list AbilityInfo;
  bi_extensionInfos : list ExtensionAbilityInfo;
  bi_hapModuleInfos : list HapModuleInfo;
  bi_hapModuleNames : list string;
  bi_moduleNames : list string;
  bi_modulePublicDirs : list string;
  bi_moduleDirs : list string;
  bi_moduleResPaths : list string;
  bi_reqPermissions : list string;
  bi_defPermissions : list string;
  bi_reqPermissionStates : list Z;
  bi_reqPermissionDetails : list RequestPermission;
  bi_cpuAbi : string;
  bi_seInfo : string;
  bi_label : string;
  bi_description : string;
  bi_jointUserId : string;
  bi_minSdkVersion : Z;
  bi_maxSdkVersion : Z;
  bi_isDifferentName : bool;
}.

#[export] Instance eta_BundleInfo : Eta BundleInfo := λ r,
  mkBundleInfo (bi_name r) (bi_versionCode r) (bi_versionName r) (bi_minCompatibleVersionCode r)
    (bi_compatibleVersion r) (bi_targetVersion r) (bi_isKeepAlive r) (bi_singleton r) (bi_isPreInstallApp r)
    (bi_vendor r) (bi_releaseType r) (bi_isNativeApp r) (bi_mainEntry r) (bi_entryModuleName r)
    (bi_entryInstallationFree r) (bi_appId r) (bi_uid r) (bi_gid r) (bi_installTime r) (bi_updateTime r)
    (bi_applicationInfo r) (bi_abilityInfos r) (bi_extensionInfos r) (bi_hapModuleInfos r)
    (bi_hapModuleNames r) (bi_moduleNames r) (bi_modulePublicDirs r) (bi_moduleDirs r) (bi_moduleResPaths r)
    (bi_reqPermissions r) (bi_defPermissions r) (bi_reqPermissionStates r) (bi_reqPermissionDetails r)
    (bi_cpuAbi r) (bi_seInfo r) (bi_label r) (bi_description r) (bi_jointUserId r) (bi_minSdkVersion r)
    (bi_maxSdkVersion r) (bi_isDifferentName r).

Definition new_BundleInfo : BundleInfo :=
  mkBundleInfo "" 0 "" 0 0 0 false false false "" "" false "" "" false "" (-1) (-1) 0 0 new_ApplicationInfo
    [] [] [] [] [] [] [] [] [] [] [] [] "" "" "" "" "" (-1) (-1) false.

Record BundleUserInfo := mkBundleUserInfo {
  bu_userId : Z;
  bu_enabled : bool;
  bu_disabledAbilities : list string;
}.

#[export] Instance eta_BundleUserInfo : Eta BundleUserInfo := λ r,
  mkBundleUserInfo (bu_userId r) (bu_enabled r) (bu_disabledAbilities r).

Definition new_BundleUserInfo : BundleUserInfo :=
  mkBundleUserInfo INVALID_USERID true [].

Record CommonEventInfo := mkCommonEventInfo {
  ce_name : string;
  ce_bundleName : string;
  ce_uid : Z;
  ce_permission : string;
  ce_data : list string;
  ce_type : list string;
  ce_events : list string;
}.

#[export] Instance eta_CommonEventInfo : Eta CommonEventInfo := λ r,
  mkCommonEventInfo (ce_name r) (ce_bundleName r) (ce_uid r) (ce_permission r) (ce_data r) (ce_type r)
    (ce_events r).

Definition new_CommonEventInfo : CommonEventInfo :=
  mkCommonEventInfo "" "" (-1) "" [] [] [].

Record ShortcutIntent := mkShortcutIntent {
  si_targetBundle : string;
  si_targetClass : string;
}.

#[export] Instance eta_ShortcutIntent : Eta ShortcutIntent := λ r,
  mkShortcutIntent (si_targetBundle r) (si_targetClass r).

Definition new_ShortcutIntent : ShortcutIntent :=
  mkShortcutIntent "" "".

Record ShortcutInfo := mkShortcutInfo {
  sc_id : string;
  sc_bundleName : string;
  sc_hostAbility : string;
  sc_iconId : Z;
  sc_labelId : Z;
  sc_icon : string;
  sc_label : string;
  sc_disableMessage : string;
  sc_intents : list ShortcutIntent;
  sc_isStatic : bool;
  sc_isHomeShortcut : bool;
  sc_isEnables : bool;
}.

#[export] Instance eta_ShortcutInfo : Eta ShortcutInfo := λ r,
  mkShortcutInfo (sc_id r) (sc_bundleName r) (sc_hostAbility r) (sc_iconId r) (sc_labelId r) (sc_icon r)
    (sc_label r) (sc_disableMessage r) (sc_intents r) (sc_isStatic r) (sc_isHomeShortcut r) (sc_isEnables r).

(** As above, [u] being the uninitialised resource ids. *)
Definition new_ShortcutInfo (u : Z) : ShortcutInfo :=
  mkShortcutInfo "" "" "" u u "" "" "" [] false false false.

Inductive FormType :=
| FormType_JAVA
| FormType_JS.

Inductive FormsColorMode :=
| FormsColorMode_AUTO_MODE
| FormsColorMode_DARK_MODE
| FormsColorMode_LIGHT_MODE.

Record FormWindow := mkFormWindow {
  fw_designWidth : Z;
  fw_autoDesignWidth : bool;
}.

#[export] Instance eta_FormWindow : Eta FormWindow := λ r,
  mkFormWindow (fw_designWidth r) (fw_autoDesignWidth r).

Definition new_FormWindow : FormWindow :=
  mkFormWindow 720 false.

Record FormCustomizeData := mkFormCustomizeData {
  fcd_name : string;
  fcd_value : string;
}.

#[export] Instance eta_FormCustomizeData : Eta FormCustomizeData := λ r,
  mkFormCustomizeData (fcd_name r) (fcd_value r).

Definition new_FormCustomizeData : FormCustomizeData :=
  mkFormCustomizeData "" "".

Record FormInfo := mkFormInfo {
  fi_package : string;
  fi_bundleName : string;
  fi_originalBundleName : string;
  fi_relatedBundleName : string;
  fi_moduleName : string;
  fi_abilityName : string;
  fi_name : string;
  fi_description : string;
  fi_jsComponentName : string;
  fi_deepLink : string;
  fi_formConfigAbility : string;
  fi_scheduledUpdateTime : string;
  fi_src : string;
  fi_window : FormWindow;
  fi_descriptionId : Z;
  fi_updateDuration : Z;
  fi_defaultDimension : Z;
  fi_defaultFlag : bool;
  fi_formVisibleNotify : bool;
  fi_updateEnabled : bool;
  fi_type : FormType;
  fi_supportDimensions : list Z;
  fi_colorMode : FormsColorMode;
  fi_landscapeLayouts : list string;
  fi_portraitLayouts : list string;
  fi_customizeDatas : list FormCustomizeData;
}.

#[export] Instance eta_FormInfo : Eta FormInfo := λ r,
  mkFormInfo (fi_package r) (fi_bundleName r) (fi_originalBundleName r) (fi_relatedBundleName r)
    (fi_moduleName r) (fi_abilityName r) (fi_name r) (fi_description r) (fi_jsComponentName r) (fi_deepLink
    r) (fi_formConfigAbility r) (fi_scheduledUpdateTime r) (fi_src r) (fi_window r) (fi_descriptionId r)
    (fi_updateDuration r) (fi_defaultDimension r) (fi_defaultFlag r) (fi_formVisibleNotify r)
    (fi_updateEnabled r) (fi_type r) (fi_supportDimensions r) (fi_colorMode r) (fi_landscapeLayouts r)
    (fi_portraitLayouts r) (fi_customizeDatas r).

Definition new_FormInfo : FormInfo :=
  mkFormInfo "" "" "" "" "" "" "" "" "" "" "" "" "" new_FormWindow 0 0 0 false false false FormType_JS []
    FormsColorMode_AUTO_MODE [] [] [].

Record Version := mkVersion {
  pv_code : Z;
  pv_name : string;
  pv_minCompatibleVersionCode : Z;
}.

#[export] Instance eta_Version : Eta Version := λ r,
  mkVersion (pv_code r) (pv_name r) (pv_minCompatibleVersionCode r).

Definition new_Version : Version :=
  mkVersion 0 "" 0.

Record PackageApp := mkPackageApp {
  pa_bundleName : string;
  pa_version : Version;
}.

#[export] Instance eta_PackageApp : Eta PackageApp := λ r,
  mkPackageApp (pa_bundleName r) (pa_version r).

Definition new_PackageApp : PackageApp :=
  mkPackageApp "" new_Version.

Record AbilityFormInfo := mkAbilityFormInfo {
  paf_name : string;
  paf_type : string;
  paf_updateEnabled : bool;
  paf_scheduledUpdateTime : string;
  paf_updateDuration : Z;
  paf_supportDimensions : list string;
  paf_defaultDimension : string;
}.

#[export] Instance eta_AbilityFormInfo : Eta AbilityFormInfo := λ r,
  mkAbilityFormInfo (paf_name r) (paf_type r) (paf_updateEnabled r) (paf_scheduledUpdateTime r)
    (paf_updateDuration r) (paf_supportDimensions r) (paf_defaultDimension r).

Definition new_AbilityFormInfo : AbilityFormInfo :=
  mkAbilityFormInfo "" "" false "" 0 [] "".

Record ModuleAbilityInfo := mkModuleAbilityInfo {
  pma_name : string;
  pma_label : string;
  pma_visible : bool;
  pma_forms : list AbilityFormInfo;
}.

#[export] Instance eta_ModuleAbilityInfo : Eta ModuleAbilityInfo := λ r,
  mkModuleAbilityInfo (pma_name r) (pma_label r) (pma_visible r) (pma_forms r).

Definition new_ModuleAbilityInfo : ModuleAbilityInfo :=
  mkModuleAbilityInfo "" "" false [].

Record ModuleDistro := mkModuleDistro {
  pmd_moduleType : string;
  pmd_moduleName : string;
  pmd_installationFree : bool;
  pmd_deliveryWithInstall : bool;
}.

#[export] Instance eta_ModuleDistro : Eta ModuleDistro := λ r,
  mkModuleDistro (pmd_moduleType r) (pmd_moduleName r) (pmd_installationFree r) (pmd_deliveryWithInstall r).

Definition new_ModuleDistro : ModuleDistro :=
  mkModuleDistro "" "" false false.

Record ApiVersion := mkApiVersion {
  pav_compatible : Z;
  pav_releaseType : string;
  pav_target : Z;
}.

#[export] Instance eta_ApiVersion : Eta ApiVersion := λ r,
  mkApiVersion (pav_compatible r) (pav_releaseType r) (pav_target r).

Definition new_ApiVersion : ApiVersion :=
  mkApiVersion 0 "" 0.

Record ExtensionAbilities := mkExtensionAbilities {
  pea_name : string;
  pea_forms : list AbilityFormInfo;
}.

#[export] Instance eta_ExtensionAbilities : Eta ExtensionAbilities := λ r,
  mkExtensionAbilities (pea_name r) (pea_forms r).

Definition new_ExtensionAbilities : ExtensionAbilities :=
  mkExtensionAbilities "" [].

Record PackageModule := mkPackageModule {
  pm_mainAbility : string;
  pm_deviceType : list string;
  pm_abilities : list ModuleAbilityInfo;
  pm_extensionAbilities : list ExtensionAbilities;
  pm_distro : ModuleDistro;
  pm_apiVersion : ApiVersion;
}.

#[export] Instance eta_PackageModule : Eta PackageModule := λ r,
  mkPackageModule (pm_mainAbility r) (pm_deviceType r) (pm_abilities r) (pm_extensionAbilities r) (pm_distro
    r) (pm_apiVersion r).

Definition new_PackageModule : PackageModule :=
  mkPackageModule "" [] [] [] new_ModuleDistro new_ApiVersion.

Record Summary := mkSummary {
  ps_app : PackageApp;
  ps_modules : list PackageModule;
}.

#[export] Instance eta_Summary : Eta Summary := λ r,
  mkSummary (ps_app r) (ps_modules r).

Definition new_Summary : Summary :=
  mkSummary new_PackageApp [].

Record Packages := mkPackages {
  pp_deviceType : list string;
  pp_moduleType : string;
  pp_deliveryWithInstall : bool;
  pp_name : string;
}.

#[export] Instance eta_Packages : Eta Packages := λ r,
  mkPackages (pp_deviceType r) (pp_moduleType r) (pp_deliveryWithInstall r) (pp_name r).

Definition new_Packages : Packages :=
  mkPackages [] "" false "".

Record BundlePackInfo := mkBundlePackInfo {
  bpi_summary : Summary;
  bpi_packages : list Packages;
  bpi_isValid : bool;
}.

#[export] Instance eta_BundlePackInfo : Eta BundlePackInfo := λ r,
  mkBundlePackInfo (bpi_summary r) (bpi_packages r) (bpi_isValid r).

Definition new_BundlePackInfo : BundlePackInfo :=
  mkBundlePackInfo new_Summary [] false.


