(* ===== verification/Errors.v ===== *)
(** * Errors: the codes of the bundle manager

    The enumerations for the framework and the bundle manager of
    interfaces/inner_api/appexecfwk_base/include/appexecfwk_errors.h, with
    their values. *)

From Stdlib Require Import ZArith.

Open Scope Z_scope.

Definition ERR_OK : Z := 0.
Definition ERR_APPEXECFWK_SERVICE_NOT_READY : Z := 8388609.
Definition ERR_APPEXECFWK_SERVICE_NOT_CONNECTED : Z := 8388610.
Definition ERR_APPEXECFWK_INVALID_UID : Z := 8388611.
Definition ERR_APPEXECFWK_INVALID_PID : Z := 8388612.
Definition ERR_APPEXECFWK_PARCEL_ERROR : Z := 8388613.
Definition ERR_APPEXECFWK_FAILED_SERVICE_DIED : Z := 8388614.
Definition ERR_APPEXECFWK_OPERATION_TIME_OUT : Z := 8388615.
Definition ERR_APPEXECFWK_INSTALL_INTERNAL_ERROR : Z := 8519681.
Definition ERR_APPEXECFWK_INSTALL_HOST_INSTALLER_FAILED : Z := 8519682.
Definition ERR_APPEXECFWK_INSTALL_PARSE_FAILED : Z := 8519683.
Definition ERR_APPEXECFWK_INSTALL_VERSION_DOWNGRADE : Z := 8519684.
Definition ERR_APPEXECFWK_INSTALL_VERIFICATION_FAILED : Z := 8519685.
Definition ERR_APPEXECFWK_INSTALL_PARAM_ERROR : Z := 8519686.
Definition ERR_APPEXECFWK_INSTALL_PERMISSION_DENIED : Z := 8519687.
Definition ERR_APPEXECFWK_INSTALL_ENTRY_ALREADY_EXIST : Z := 8519688.
Definition ERR_APPEXECFWK_INSTALL_STATE_ERROR : Z := 8519689.
Definition ERR_APPEXECFWK_INSTALL_FILE_PATH_INVALID : Z := 8519690.
Definition ERR_APPEXECFWK_INSTALL_INVALID_HAP_NAME : Z := 8519691.
Definition ERR_APPEXECFWK_INSTALL_INVALID_BUNDLE_FILE : Z := 8519692.
Definition ERR_APPEXECFWK_INSTALL_INVALID_HAP_SIZE : Z := 8519693.
Definition ERR_APPEXECFWK_INSTALL_GENERATE_UID_ERROR : Z := 8519694.
Definition ERR_APPEXECFWK_INSTALL_INSTALLD_SERVICE_ERROR : Z := 8519695.
Definition ERR_APPEXECFWK_INSTALL_BUNDLE_MGR_SERVICE_ERROR : Z := 8519696.
Definition ERR_APPEXECFWK_INSTALL_ALREADY_EXIST : Z := 8519697.
Definition ERR_APPEXECFWK_INSTALL_BUNDLENAME_NOT_SAME : Z := 8519698.
Definition ERR_APPEXECFWK_INSTALL_VERSIONCODE_NOT_SAME : Z := 8519699.
Definition ERR_APPEXECFWK_INSTALL_VERSIONNAME_NOT_SAME : Z := 8519700.
Definition ERR_APPEXECFWK_INSTALL_MINCOMPATIBLE_VERSIONCODE_NOT_SAME : Z := 8519701.
Definition ERR_APPEXECFWK_INSTALL_VENDOR_NOT_SAME : Z := 8519702.
Definition ERR_APPEXECFWK_INSTALL_RELEASETYPE_TARGET_NOT_SAME : Z := 8519703.
Definition ERR_APPEXECFWK_INSTALL_RELEASETYPE_NOT_SAME : Z := 8519704.
Definition ERR_APPEXECFWK_INSTALL_RELEASETYPE_COMPATIBLE_NOT_SAME : Z := 8519705.
Definition ERR_APPEXECFWK_INSTALL_VERSION_NOT_COMPATIBLE : Z := 8519706.
Definition ERR_APPEXECFWK_INSTALL_INVALID_NUMBER_OF_ENTRY_HAP : Z := 8519707.
Definition ERR_APPEXECFWK_INSTALL_DISK_MEM_INSUFFICIENT : Z := 8519708.
Definition ERR_APPEXECFWK_INSTALL_GRANT_REQUEST_PERMISSIONS_FAILED : Z := 8519709.
Definition ERR_APPEXECFWK_INSTALL_UPDATE_HAP_TOKEN_FAILED : Z := 8519710.
Definition ERR_APPEXECFWK_INSTALL_SINGLETON_NOT_SAME : Z := 8519711.
Definition ERR_APPEXECFWK_INSTALL_ZERO_USER_WITH_NO_SINGLETON : Z := 8519712.
Definition ERR_APPEXECFWK_INSTALL_CHECK_SYSCAP_FAILED : Z := 8519713.
Definition ERR_APPEXECFWK_INSTALL_APPTYPE_NOT_SAME : Z := 8519714.
Definition ERR_APPEXECFWK_INSTALL_URI_DUPLICATE : Z := 8519715.
Definition ERR_APPEXECFWK_INSTALL_TYPE_ERROR : Z := 8519716.
Definition ERR_APPEXECFWK_INSTALL_FAILED_INVALID_SIGNATURE_FILE_PATH : Z := 8519717.
Definition ERR_APPEXECFWK_INSTALL_FAILED_BAD_BUNDLE_SIGNATURE_FILE : Z := 8519718.
Definition ERR_APPEXECFWK_INSTALL_FAILED_NO_BUNDLE_SIGNATURE : Z := 8519719.
Definition ERR_APPEXECFWK_INSTALL_FAILED_VERIFY_APP_PKCS7_FAIL : Z := 8519720.
Definition ERR_APPEXECFWK_INSTALL_FAILED_PROFILE_PARSE_FAIL : Z := 8519721.
Definition ERR_APPEXECFWK_INSTALL_FAILED_APP_SOURCE_NOT_TRUESTED : Z := 8519722.
Definition ERR_APPEXECFWK_INSTALL_FAILED_BAD_DIGEST : Z := 8519723.
Definition ERR_APPEXECFWK_INSTALL_FAILED_BUNDLE_INTEGRITY_VERIFICATION_FAILURE : Z := 8519724.
Definition ERR_APPEXECFWK_INSTALL_FAILED_FILE_SIZE_TOO_LARGE : Z := 8519725.
Definition ERR_APPEXECFWK_INSTALL_FAILED_BAD_PUBLICKEY : Z := 8519726.
Definition ERR_APPEXECFWK_INSTALL_FAILED_BAD_BUNDLE_SIGNATURE : Z := 8519727.
Definition ERR_APPEXECFWK_INSTALL_FAILED_NO_PROFILE_BLOCK_FAIL : Z := 8519728.
Definition ERR_APPEXECFWK_INSTALL_FAILED_BUNDLE_SIGNATURE_VERIFICATION_FAILURE : Z := 8519729.
Definition ERR_APPEXECFWK_INSTALL_FAILED_VERIFY_SOURCE_INIT_FAIL : Z := 8519730.
Definition ERR_APPEXECFWK_INSTALL_FAILED_INCOMPATIBLE_SIGNATURE : Z := 8519731.
Definition ERR_APPEXECFWK_INSTALL_FAILED_INCONSISTENT_SIGNATURE : Z := 8519732.
Definition ERR_APPEXECFWK_INSTALL_FAILED_MODULE_NAME_EMPTY : Z := 8519733.
Definition ERR_APPEXECFWK_INSTALL_FAILED_MODULE_NAME_DUPLICATE : Z := 8519734.
Definition ERR_APPEXECFWK_INSTALL_FAILED_CHECK_HAP_HASH_PARAM : Z := 8519735.
Definition ERR_APPEXECFWK_SANDBOX_INSTALL_INTERNAL_ERROR : Z := 8519800.
Definition ERR_APPEXECFWK_SANDBOX_INSTALL_APP_NOT_EXISTED : Z := 8519801.
Definition ERR_APPEXECFWK_SANDBOX_INSTALL_PARAM_ERROR : Z := 8519802.
Definition ERR_APPEXECFWK_SANDBOX_INSTALL_WRITE_PARCEL_ERROR : Z := 8519803.
Definition ERR_APPEXECFWK_SANDBOX_INSTALL_READ_PARCEL_ERROR : Z := 8519804.
Definition ERR_APPEXECFWK_SANDBOX_INSTALL_SEND_REQUEST_ERROR : Z := 8519805.
Definition ERR_APPEXECFWK_SANDBOX_INSTALL_USER_NOT_EXIST : Z := 8519806.
Definition ERR_APPEXECFWK_SANDBOX_INSTALL_INVALID_APP_INDEX : Z := 8519807.
Definition ERR_APPEXECFWK_SANDBOX_INSTALL_NOT_INSTALLED_AT_SPECIFIED_USERID : Z := 8519808.
Definition ERR_APPEXECFWK_SANDBOX_INSTALL_NO_SANDBOX_APP_INFO : Z := 8519809.
Definition ERR_APPEXECFWK_SANDBOX_INSTALL_UNKNOWN_INSTALL_TYPE : Z := 8519810.
Definition ERR_APPEXECFWK_SANDBOX_INSTALL_DELETE_APP_INDEX_FAILED : Z := 8519811.
Definition ERR_APPEXECFWK_PARSE_UNEXPECTED : Z := 8519880.
Definition ERR_APPEXECFWK_PARSE_MISSING_BUNDLE : Z := 8519881.
Definition ERR_APPEXECFWK_PARSE_MISSING_ABILITY : Z := 8519882.
Definition ERR_APPEXECFWK_PARSE_NO_PROFILE : Z := 8519883.
Definition ERR_APPEXECFWK_PARSE_BAD_PROFILE : Z := 8519884.
Definition ERR_APPEXECFWK_PARSE_PROFILE_PROP_TYPE_ERROR : Z := 8519885.
Definition ERR_APPEXECFWK_PARSE_PROFILE_MISSING_PROP : Z := 8519886.
Definition ERR_APPEXECFWK_PARSE_PERMISSION_ERROR : Z := 8519887.
Definition ERR_APPEXECFWK_PARSE_PROFILE_PROP_CHECK_ERROR : Z := 8519888.
Definition ERR_APPEXECFWK_PARSE_RPCID_FAILED : Z := 8519889.
Definition ERR_APPEXECFWK_INSTALLD_PARAM_ERROR : Z := 8519890.
Definition ERR_APPEXECFWK_INSTALLD_GET_PROXY_ERROR : Z := 8519891.
Definition ERR_APPEXECFWK_INSTALLD_CREATE_DIR_FAILED : Z := 8519892.
Definition ERR_APPEXECFWK_INSTALLD_CREATE_DIR_EXIST : Z := 8519893.
Definition ERR_APPEXECFWK_INSTALLD_CHOWN_FAILED : Z := 8519894.
Definition ERR_APPEXECFWK_INSTALLD_REMOVE_DIR_FAILED : Z := 8519895.
Definition ERR_APPEXECFWK_INSTALLD_EXTRACT_FILES_FAILED : Z := 8519896.
Definition ERR_APPEXECFWK_INSTALLD_RNAME_DIR_FAILED : Z := 8519897.
Definition ERR_APPEXECFWK_INSTALLD_CLEAN_DIR_FAILED : Z := 8519898.
Definition ERR_APPEXECFWK_UNINSTALL_SYSTEM_APP_ERROR : Z := 8519899.
Definition ERR_APPEXECFWK_UNINSTALL_KILLING_APP_ERROR : Z := 8519900.
Definition ERR_APPEXECFWK_UNINSTALL_INVALID_NAME : Z := 8519901.
Definition ERR_APPEXECFWK_UNINSTALL_PARAM_ERROR : Z := 8519902.
Definition ERR_APPEXECFWK_UNINSTALL_PERMISSION_DENIED : Z := 8519903.
Definition ERR_APPEXECFWK_UNINSTALL_BUNDLE_MGR_SERVICE_ERROR : Z := 8519904.
Definition ERR_APPEXECFWK_UNINSTALL_MISSING_INSTALLED_BUNDLE : Z := 8519905.
Definition ERR_APPEXECFWK_UNINSTALL_MISSING_INSTALLED_MODULE : Z := 8519906.
Definition ERR_APPEXECFWK_FAILED_GET_INSTALLER_PROXY : Z := 8519907.
Definition ERR_APPEXECFWK_FAILED_GET_BUNDLE_INFO : Z := 8519908.
Definition ERR_APPEXECFWK_FAILED_GET_ABILITY_INFO : Z := 8519909.
Definition ERR_APPEXECFWK_FAILED_GET_RESOURCEMANAGER : Z := 8519910.
Definition ERR_APPEXECFWK_FAILED_GET_REMOTE_PROXY : Z := 8519911.
Definition ERR_APPEXECFWK_PERMISSION_DENIED : Z := 8519912.
Definition ERR_APPEXECFWK_RECOVER_GET_BUNDLEPATH_ERROR : Z := 8520193.
Definition ERR_APPEXECFWK_RECOVER_INVALID_BUNDLE_NAME : Z := 8520194.
Definition ERR_APPEXECFWK_USER_NOT_EXIST : Z := 8520449.
Definition ERR_APPEXECFWK_USER_CREATE_FALIED : Z := 8520450.
Definition ERR_APPEXECFWK_USER_REMOVE_FALIED : Z := 8520451.
Definition ERR_APPEXECFWK_USER_NOT_INSTALL_HAP : Z := 8520452.
Definition ERR_APPEXECFWK_PARSE_FILE_FAILED : Z := 8520453.
