(* ===== verification/Json.v ===== *)
(** * Json: JSON values and the readers of json_util.h

    nlohmann::json values, the conversions [to_json] and [get<T>] of that
    library for the types the sources use, and GetValueIfFindKey and
    CheckArrayType of
    interfaces/inner_api/appexecfwk_base/include/json_util.h.

    A reader runs on two variables: the thread's [ProfileReader::parseResult]
    and the [parseResult] of the from_json function that is running.  It
    gives [None] when the library throws (which nothing catches), and when a
    number is converted that the C++ type has no value for. *)

From stdpp Require Import strings.
From S2P Require Import Prelude StdMap BundleTypes Errors.

Open Scope string_scope.
Open Scope list_scope.
Open Scope Z_scope.

#[local] Set Warnings "-register-all".

(** ** Values *)

(** An integer is held exactly; of another number only its integral part is
    ever used.  An object is a [std::map]. *)
Inductive json :=
| JNull
| JBool (b : bool)
| JNumber (n : Z)
| JReal (integral : Z)
| JString (s : string)
| JArray (l : list json)
| JObject (m : stdmap string json).

Definition is_boolean (j : json) : bool := match j with JBool _ => true | _ => false end.
Definition is_number (j : json) : bool := match j with JNumber _ | JReal _ => true | _ => false end.
Definition is_object (j : json) : bool := match j with JObject _ => true | _ => false end.
Definition is_array (j : json) : bool := match j with JArray _ => true | _ => false end.
Definition is_string (j : json) : bool := match j with JString _ => true | _ => false end.

(** [find], which only looks into objects. *)
Definition find_key (j : json) (key : string) : option json :=
  match j with JObject m => m !! key | _ => None end.

(** [nlohmann::json { {key, value}, ... }]: of equal keys the first stays. *)
Definition object (l : list (string * json)) : json :=
  JObject (foldl (λ m p, emplace p.1 p.2 m) ∅ l).

(** [jsonObject[key] = value], for an object or a null value. *)
Definition set_key (key : string) (v : json) (j : json) : json :=
  match j with JObject m => JObject (<[key := v]> m) | JNull => JObject (<[key := v]> ∅) | _ => j end.

(** One such assignment after the other. *)
Definition set_keys (j : json) (l : list (string * json)) : json := foldl (λ j p, set_key p.1 p.2 j) j l.

Class ToJson (A : Type) := to_json : A → json.

#[export] Instance string_ToJson : ToJson string := JString.
#[export] Instance bool_ToJson : ToJson bool := JBool.
#[export] Instance Z_ToJson : ToJson Z := JNumber.
#[export] Instance vector_ToJson `{ToJson A} : ToJson (list A) := λ l, JArray (map to_json l).
#[export] Instance map_ToJson `{ToJson A} : ToJson (stdmap string A) := λ m, JObject (map_values (λ _, to_json) m).

(** ** The monad of the readers *)

Record ParseState := mkParseState { profile : Z; local : Z }.

Definition M (A : Type) : Type := ParseState → option (A * ParseState).

#[export] Instance M_ret : MRet M := λ A x s, Some (x, s).
#[export] Instance M_bind : MBind M := λ A B f m s, match m s with None => None | Some (x, s') => f x s' end.
Definition throw {A} : M A := λ _, None.

Inductive Var := PROFILE | LOCAL.

Definition get_var (v : Var) (s : ParseState) : Z := match v with PROFILE => profile s | LOCAL => local s end.
Definition set_var (v : Var) (r : Z) (s : ParseState) : ParseState :=
  match v with PROFILE => mkParseState r (local s) | LOCAL => mkParseState (profile s) r end.

Definition read_var (v : Var) : M Z := λ s, Some (get_var v s, s).
Definition write_var (v : Var) (r : Z) : M () := λ s, Some ((), set_var v r s).

(** A function with a variable [parseResult] of its own: its value and what
    the variable holds at the end. *)
Definition with_local {A} (m : M A) : M (A * Z) := λ s,
  match m (mkParseState (profile s) 0) with
  | None => None
  | Some (x, s') => Some ((x, local s'), mkParseState (profile s') (local s))
  end.

(** ** get<T>() *)

Definition get_string (j : json) : M string := match j with JString s => mret s | _ => throw end.
Definition get_bool (j : json) : M bool := match j with JBool b => mret b | _ => throw end.

(** A number or a boolean as an integer type to which [wrap] converts. *)
Definition get_integer (wrap : Z → Z) (j : json) : M Z :=
  match j with
  | JNumber n => mret (wrap n)
  | JReal n => if wrap n =? n then mret n else throw
  | JBool b => mret (Z.b2z b)
  | _ => throw
  end.
Definition get_int32 : json → M Z := get_integer i32.
Definition get_uint32 : json → M Z := get_integer u32.

(** [int64_t] is the library's own number type: no booleans. *)
Definition get_int64 (j : json) : M Z := if is_number j then get_integer i64 j else throw.

(** An enum with the underlying type [int]. *)
Definition get_enum {E} (of_value : Z → option E) (j : json) : M E :=
  if is_number j then n ← get_int32 j; match of_value n with Some e => mret e | None => throw end else throw.

Fixpoint get_all {A B} (get : A → M B) (l : list A) : M (list B) :=
  match l with
  | [] => mret []
  | a :: l' => b ← get a; bs ← get_all get l'; mret (b :: bs)
  end.

Definition get_vector {A} (get : json → M A) (j : json) : M (list A) :=
  match j with JArray l => get_all get l | _ => throw end.

Definition get_map {A} (get : json → M A) (j : json) : M (stdmap string A) :=
  match j with
  | JObject m =>
      l ← get_all (λ p : string * json, a ← get p.2; mret (p.1, a)) (elems m);
      mret (foldl (λ r p, emplace p.1 p.2 r) ∅ l)
  | _ => throw
  end.

(** A struct: a default-constructed one, filled in by its from_json. *)
Definition get_struct {A} (new : A) (from_json : json → A → M A) (j : json) : M A :=
  r ← with_local (from_json j new); mret r.1.

(** ** json_util.h *)

Inductive JsonType := NULLABLE | BOOLEAN | NUMBER | OBJECT | ARRAY | STRING.
Inductive ArrayType := NUMBERS | OBJECTS | STRINGS | NOT_ARRAY.

Section Fields.
Context {A T : Type}.
Context (v : Var) (j : json) (key : string) (get : json → M T).

(** [data] is the field of [x] that [set] assigns. *)
Definition assign (value : json) (set : T → A → A) (x : A) : M A := t ← get value; mret (set t x).
Definition fail_with (error : Z) (x : A) : M A := λ s, Some (x, set_var v error s).

Definition CheckArrayType (value : json) (arrayType : ArrayType) (set : T → A → A) (x : A) : M A :=
  match value with
  | JArray [] => mret x
  | JArray l =>
      let all (is_type : json → bool) :=
        if forallb is_type l then assign value set x
        else fail_with ERR_APPEXECFWK_PARSE_PROFILE_PROP_TYPE_ERROR x in
      match arrayType with
      | STRINGS => all is_string
      | OBJECTS => all is_object
      | NUMBERS => all is_number
      | NOT_ARRAY => mret x
      end
  | _ => mret x
  end.

Definition GetValueIfFindKey (jsonType : JsonType) (isNecessary : bool) (arrayType : ArrayType)
  (set : T → A → A) (x : A) : M A := λ s,
  if negb (get_var v s =? 0) then Some (x, s)
  else match find_key j key with
       | Some value =>
           let check (is_type : bool) (assign : M A) :=
             if negb is_type then fail_with ERR_APPEXECFWK_PARSE_PROFILE_PROP_TYPE_ERROR x s else assign s in
           match jsonType with
           | BOOLEAN => check (is_boolean value) (assign value set x)
           | NUMBER => check (is_number value) (assign value set x)
           | OBJECT => check (is_object value) (assign value set x)
           | ARRAY => check (is_array value) (CheckArrayType value arrayType set x)
           | STRING => check (is_string value) (assign value set x)
           | NULLABLE => Some (x, s)
           end
       | None =>
           if isNecessary then fail_with ERR_APPEXECFWK_PARSE_PROFILE_MISSING_PROP x s else Some (x, s)
       end.

(** [data = jsonObject.at(key).get<T>()]; a missing key throws. *)
Definition read_at (set : T → A → A) (x : A) : M A :=
  match find_key j key with Some value => assign value set x | None => throw end.
End Fields.

(** What the members that the default constructors leave uninitialised hold. *)
Class Uninit := { uninit : Z; uninit_type : ExtensionAbilityType }.

(** * What a reader makes of a value *)

(** [get] reads [x] from [j], whatever the local [parseResult] is, and leaves
    both variables as they are. *)
Definition decodes {A} (get : json → M A) (j : json) (x : A) : Prop :=
  ∀ l, get j (mkParseState ERR_OK l) = Some (x, mkParseState ERR_OK l).

(** [m] gives [x] when both variables are ERR_OK, and leaves them so. *)
Definition reads {A} (m : M A) (x : A) : Prop :=
  m (mkParseState ERR_OK ERR_OK) = Some (x, mkParseState ERR_OK ERR_OK).

Create HintDb json discriminated.
#[export] Hint Constants Opaque : json.

Lemma decodes_string s : decodes get_string (to_json s) s.
Proof. done. Qed.

Lemma decodes_bool b : decodes get_bool (to_json b) b.
Proof. done. Qed.

Lemma decodes_int32 n : in_i32 n → decodes get_int32 (to_json n) n.
Proof. intros Hn l. cbv [get_int32 get_integer to_json Z_ToJson]. by rewrite i32_id. Qed.

Lemma decodes_uint32 n : in_u32 n → decodes get_uint32 (to_json n) n.
Proof. intros Hn l. cbv [get_uint32 get_integer to_json Z_ToJson]. by rewrite u32_id. Qed.

Lemma decodes_int64 n : in_i64 n → decodes get_int64 (to_json n) n.
Proof. intros Hn l. cbv [get_int64 get_integer is_number to_json Z_ToJson]. by rewrite i64_id. Qed.

Lemma get_all_reads {A B} (get : A → M B) (l : list A) (r : list B) s :
  Forall2 (λ a b, get a s = Some (b, s)) l r → get_all get l s = Some (r, s).
Proof.
  induction 1 as [|a b l r Ha _ IH]; [done|]. cbn [get_all]. unfold mbind, M_bind at 1. rewrite Ha.
  unfold mbind, M_bind. by rewrite IH.
Qed.

Lemma decodes_vector `{ToJson A} (get : json → M A) l :
  Forall (λ x, decodes get (to_json x) x) l → decodes (get_vector get) (to_json l) l.
Proof.
  intros Hl p. unfold to_json, vector_ToJson. cbn. apply get_all_reads. apply Forall2_fmap_l, Forall_Forall2_diag.
  eapply Forall_impl; [exact Hl|]. intros x Hx. apply Hx.
Qed.

Lemma decodes_map `{ToJson A} (get : json → M A) m :
  sm_wf m → Forall (λ x, decodes get (to_json x) x) (sm_vals m) → decodes (get_map get) (to_json m) m.
Proof.
  intros Hm Hl p. unfold to_json, map_ToJson, get_map. unfold mbind, M_bind at 1.
  rewrite (get_all_reads _ _ (elems m)).
  - unfold mret, M_ret. by rewrite sm_emplaces_id.
  - unfold map_values. simpl. apply Forall2_fmap_l, Forall_Forall2_diag. unfold sm_vals in Hl.
    rewrite Forall_fmap in Hl. eapply Forall_impl; [exact Hl|]. intros [k x] Hx. simpl in *.
    unfold mbind, M_bind. by rewrite (Hx p).
Qed.

Lemma decodes_struct {A} (new : A) (from_json : json → A → M A) j x :
  reads (from_json j new) x → decodes (get_struct new from_json) j x.
Proof. intros Hr l. unfold get_struct, with_local, mbind, M_bind. simpl. unfold ERR_OK in *. by rewrite Hr. Qed.

(** ** One field *)

Lemma find_object l key : find_key (object l) key = assoc_find key l.
Proof. unfold find_key, object. by rewrite sm_lookup_emplaces. Qed.

Lemma lookup_inserts (l : list (string * json)) (m : stdmap string json) key :
  foldl (λ m p, <[p.1 := p.2]> m) m l !! key = match assoc_find key (reverse l) with Some v => Some v | None => m !! key end.
Proof.
  induction l as [|[k v] l IH] using rev_ind; [done|]. rewrite foldl_snoc, reverse_snoc, sm_lookup_insert. simpl.
  destruct (decide (k = key)) as [->|]; [by rewrite decide_True|by rewrite decide_False].
Qed.

Lemma find_set_keys l key : find_key (set_keys JNull l) key = assoc_find key (reverse l).
Proof.
  assert (∀ m, set_keys (JObject m) l = JObject (foldl (λ m p, <[p.1 := p.2]> m) m l)) as Hobj.
  { induction l as [|p l IH]; intros m; [done|]. simpl. apply (IH (<[p.1 := p.2]> m)). }
  assert (find_key (set_keys JNull l) key = find_key (set_keys (JObject (∅ : stdmap string json)) l) key) as -> by by destruct l.
  rewrite Hobj. simpl. rewrite lookup_inserts. by destruct (assoc_find key (reverse l)).
Qed.

Definition has_type (jsonType : JsonType) (value : json) : bool :=
  match jsonType with
  | BOOLEAN => is_boolean value | NUMBER => is_number value | OBJECT => is_object value
  | ARRAY => is_array value | STRING => is_string value | NULLABLE => false
  end.

Definition elements_have_type (arrayType : ArrayType) (value : json) : bool :=
  match value with
  | JArray l => match arrayType with
                | STRINGS => forallb is_string l | OBJECTS => forallb is_object l
                | NUMBERS => forallb is_number l | NOT_ARRAY => false
                end
  | _ => false
  end.

Lemma elements_strings (l : list string) : elements_have_type STRINGS (to_json l) = true.
Proof. simpl. by induction l. Qed.

Lemma elements_numbers (l : list Z) : elements_have_type NUMBERS (to_json l) = true.
Proof. simpl. by induction l. Qed.

Lemma elements_objects `{ToJson A} (l : list A) :
  (∀ x : A, is_object (to_json x) = true) → elements_have_type OBJECTS (to_json l) = true.
Proof. intros Ho. simpl. induction l as [|a l IH]; [done|]. simpl. by rewrite Ho. Qed.

Lemma decodes_vector_all `{ToJson A} (get : json → M A) (l : list A) :
  (∀ x, decodes get (to_json x) x) → decodes (get_vector get) (to_json l) l.
Proof. intros Hg. apply decodes_vector, Forall_forall. auto. Qed.

Lemma decodes_vector_of `{ToJson A} (P : A → Prop) (get : json → M A) (l : list A) :
  (∀ x, P x → decodes get (to_json x) x) → Forall P l → decodes (get_vector get) (to_json l) l.
Proof. intros Hg Hl. apply decodes_vector. eapply Forall_impl; eauto. Qed.

Lemma decodes_map_all `{ToJson A} (get : json → M A) (m : stdmap string A) :
  (∀ x, decodes get (to_json x) x) → sm_wf m → decodes (get_map get) (to_json m) m.
Proof. intros Hg Hm. apply decodes_map; [done|]. apply Forall_forall. auto. Qed.

Lemma decodes_map_of `{ToJson A} (P : A → Prop) (get : json → M A) (m : stdmap string A) :
  (∀ x, P x → decodes get (to_json x) x) → sm_wf m → Forall P (sm_vals m) → decodes (get_map get) (to_json m) m.
Proof. intros Hg Hm Hl. apply decodes_map; [done|]. eapply Forall_impl; eauto. Qed.

Lemma decodes_int32_wrap n : decodes get_int32 (to_json n) (i32 n).
Proof. done. Qed.

Lemma u32_of_i32 n : in_u32 n → u32 (i32 n) = n.
Proof. intros Hn. unfold u32, i32. rewrite Zminus_mod_idemp_l. rewrite <- (u32_id n) at 2 by done. unfold u32. f_equal. lia. Qed.

Section Steps.
Context {A B : Type}.
Implicit Types (k : A → M B) (x : A) (y : B).

Lemma reads_value {T} v j key (get : json → M T) jsonType b arrayType (set : T → A → A) x x' k y value t :
  find_key j key = Some value → has_type jsonType value = true → jsonType ≠ ARRAY → decodes get value t →
  set t x = x' → reads (k x') y → reads (GetValueIfFindKey v j key get jsonType b arrayType set x ≫= k) y.
Proof.
  intros Hf Ht Hne Hd <- Hk. unfold reads, mbind, M_bind in *. unfold GetValueIfFindKey.
  assert ((get_var v (mkParseState ERR_OK ERR_OK) =? 0) = true) as -> by by destruct v.
  rewrite Hf. destruct jsonType; simpl in *; rewrite ?Ht; try done;
    unfold assign, mbind, M_bind; rewrite Hd; exact Hk.
Qed.

Lemma reads_absent {T} v j key (get : json → M T) jsonType arrayType (set : T → A → A) x k y :
  find_key j key = None → reads (k x) y → reads (GetValueIfFindKey v j key get jsonType false arrayType set x ≫= k) y.
Proof.
  intros Hf Hk. unfold reads, mbind, M_bind in *. unfold GetValueIfFindKey.
  assert ((get_var v (mkParseState ERR_OK ERR_OK) =? 0) = true) as -> by by destruct v.
  by rewrite Hf.
Qed.

Lemma reads_at {T} j key (get : json → M T) (set : T → A → A) x x' k y value t :
  find_key j key = Some value → decodes get value t → set t x = x' → reads (k x') y →
  reads (read_at j key get set x ≫= k) y.
Proof.
  intros Hf Hd <- Hk. unfold reads, mbind, M_bind, read_at in *. rewrite Hf. unfold assign, mbind, M_bind. rewrite Hd. exact Hk.
Qed.

(** An empty array leaves the field as it is. *)
Lemma reads_vector {E} `{ToJson E} v j key (get : json → M (list E)) b arrayType set x x' k y (t : list E) :
  find_key j key = Some (to_json t) → elements_have_type arrayType (to_json t) = true → decodes get (to_json t) t →
  set [] x = x → set t x = x' → reads (k x') y → reads (GetValueIfFindKey v j key get ARRAY b arrayType set x ≫= k) y.
Proof.
  intros Hf Ht Hd Hempty <- Hk. unfold reads, mbind, M_bind in *. unfold GetValueIfFindKey.
  assert ((get_var v (mkParseState ERR_OK ERR_OK) =? 0) = true) as -> by by destruct v.
  rewrite Hf. unfold to_json, vector_ToJson in *. simpl. unfold CheckArrayType.
  destruct t as [|e t]; [rewrite Hempty in Hk; exact Hk|].
  destruct arrayType; simpl in Ht |- *; try done; rewrite Ht;
    unfold assign, mbind, M_bind; rewrite Hd; exact Hk.
Qed.
End Steps.

Lemma reads_bind {A B} (m : M A) (k : A → M B) x y : reads m x → reads (k x) y → reads (m ≫= k) y.
Proof. unfold reads, mbind, M_bind. by intros ->. Qed.

Lemma reads_with_local {A B} (m : M A) (k : A * Z → M B) x y :
  reads m x → reads (k (x, ERR_OK)) y → reads (with_local m ≫= k) y.
Proof. unfold reads, mbind, M_bind, with_local. simpl. unfold ERR_OK. by intros ->. Qed.

Lemma reads_read_var {B} v (k : Z → M B) y : reads (k ERR_OK) y → reads (read_var v ≫= k) y.
Proof. by destruct v. Qed.

Lemma reads_write_var {B} v (k : () → M B) y : reads (k ()) y → reads (write_var v ERR_OK ≫= k) y.
Proof. by destruct v. Qed.

Lemma reads_ret {A} (x : A) : reads (mret x) x.
Proof. done. Qed.

Lemma decodes_enum {E} (value_of : E → Z) (of_value : Z → option E) e :
  (∀ e, of_value (value_of e) = Some e) → (∀ e, in_i32 (value_of e)) →
  decodes (get_enum of_value) (JNumber (value_of e)) e.
Proof.
  intros Hof Hr l. unfold get_enum. simpl. unfold mbind, M_bind. simpl. unfold mret, M_ret. by rewrite i32_id, Hof.
Qed.

#[export] Hint Resolve decodes_string decodes_bool decodes_int32 decodes_uint32 decodes_int64 : json.
#[export] Hint Resolve elements_strings elements_numbers : json.
#[export] Hint Extern 9 (decodes get_int32 _ _) => apply decodes_int32_wrap : json.
#[export] Hint Extern 1 (elements_have_type OBJECTS _ = true) => (apply elements_objects; reflexivity) : json.
#[export] Hint Extern 1 (decodes (get_vector _) _ _) =>
  first [apply decodes_vector_all; solve [eauto 3 with json]
        | eapply decodes_vector_of; [|eassumption]; solve [eauto 3 with json]] : json.
#[export] Hint Extern 1 (decodes (get_map _) _ _) =>
  first [apply decodes_map_all; [solve [eauto 3 with json]|assumption]
        | eapply decodes_map_of; [|eassumption|eassumption]; solve [eauto 3 with json]] : json.

(** Runs a from_json over what the to_json of the same struct wrote, field
    after field. *)
Ltac find_in j :=
  lazymatch j with
  | object _ => apply find_object
  | set_keys _ _ => apply find_set_keys
  | _ => let j' := eval red in j in find_in j'
  end.
Ltac find_written := lazymatch goal with |- find_key ?j _ = _ => etransitivity; [find_in j|reflexivity] end.
Ltac read_field :=
  lazymatch goal with
  | |- reads (read_at _ _ _ _ _ ≫= _) _ =>
      eapply reads_at; [find_written|solve [eauto 3 with json]|lazy -[u32 i32]; reflexivity|]
  | |- reads (GetValueIfFindKey _ _ _ _ ARRAY _ _ _ _ ≫= _) _ =>
      first
        [ eapply reads_vector;
          [find_written|solve [auto 2 with json]|solve [eauto 3 with json]|reflexivity|lazy -[u32 i32]; reflexivity|]
        | eapply reads_absent; [find_written|] ]
  | |- reads (GetValueIfFindKey _ _ _ _ _ _ _ _ _ ≫= _) _ =>
      first
        [ eapply reads_value;
          [find_written|reflexivity|discriminate|solve [eauto 3 with json]|lazy -[u32 i32]; reflexivity|]
        | eapply reads_absent; [find_written|] ]
  end.
Ltac read_part := repeat read_field; apply reads_ret.
Ltac read_fields x :=
  repeat read_field; destruct x; simpl in *; subst; rewrite ?u32_of_i32 by assumption; apply reads_ret.

(** ** Errors *)

(** A reader that reports no error in the thread's variable. *)
Definition keeps_profile {A} (m : M A) : Prop := ∀ s x s', m s = Some (x, s') → profile s' = profile s.

Lemma kept_ret {A} (x : A) : keeps_profile (mret x).
Proof. intros s y s' H. by injection H as <- <-. Qed.

Lemma keeps_throw {A} : keeps_profile (throw : M A).
Proof. done. Qed.

Lemma kept_bind {A B} (m : M A) (k : A → M B) : keeps_profile m → (∀ x, keeps_profile (k x)) → keeps_profile (m ≫= k).
Proof.
  intros Hm Hk s y s'. unfold mbind, M_bind. destruct (m s) as [[x s1]|] eqn:E; [|done].
  intros Hy. rewrite <- (Hm _ _ _ E). by eapply Hk.
Qed.

Lemma keeps_all {A B} (get : A → M B) l : (∀ a, keeps_profile (get a)) → keeps_profile (get_all get l).
Proof.
  intros Hg. induction l as [|a l IH]; cbn [get_all]; [apply kept_ret|].
  apply kept_bind; [apply Hg|]. intros b. apply kept_bind; [done|]. intros bs. apply kept_ret.
Qed.

Lemma keeps_vector {A} (get : json → M A) j : (∀ j, keeps_profile (get j)) → keeps_profile (get_vector get j).
Proof. intros Hg. destruct j; try apply keeps_throw. by apply keeps_all. Qed.

Lemma keeps_map {A} (get : json → M A) j : (∀ j, keeps_profile (get j)) → keeps_profile (get_map get j).
Proof.
  intros Hg. destruct j; try apply keeps_throw. apply kept_bind; [|intros; apply kept_ret].
  apply keeps_all. intros a. apply kept_bind; [apply Hg|]. intros. apply kept_ret.
Qed.

Lemma keeps_with_local {A} (m : M A) : keeps_profile m → keeps_profile (with_local m).
Proof.
  intros Hm s x s'. unfold with_local. destruct (m _) as [[y s1]|] eqn:E; [|done].
  intros [= <- <-]. simpl. by rewrite (Hm _ _ _ E).
Qed.

Lemma keeps_struct {A} (new : A) (from_json : json → A → M A) j :
  keeps_profile (from_json j new) → keeps_profile (get_struct new from_json j).
Proof. intros Hf. apply kept_bind; [by apply keeps_with_local|]. intros. apply kept_ret. Qed.

Lemma keeps_integer wrap j : keeps_profile (get_integer wrap j).
Proof. destruct j; try apply keeps_throw; try apply kept_ret. simpl. case_match; [apply kept_ret|apply keeps_throw]. Qed.

Lemma keeps_string j : keeps_profile (get_string j).
Proof. destruct j; (apply keeps_throw || apply kept_ret). Qed.

Lemma keeps_bool j : keeps_profile (get_bool j).
Proof. destruct j; (apply keeps_throw || apply kept_ret). Qed.

Lemma keeps_int64 j : keeps_profile (get_int64 j).
Proof. unfold get_int64. destruct (is_number j); [apply keeps_integer|apply keeps_throw]. Qed.

Lemma keeps_assign {A T} (get : json → M T) value set (x : A) : (∀ j, keeps_profile (get j)) → keeps_profile (assign get value set x).
Proof. intros Hg. apply kept_bind; [apply Hg|]. intros. apply kept_ret. Qed.

Lemma kept_fail {A} error (x : A) : keeps_profile (fail_with LOCAL error x).
Proof. intros s y s'. by intros [= <- <-]. Qed.

Lemma keeps_field {A T} j key (get : json → M T) jsonType b arrayType set (x : A) :
  (∀ j, keeps_profile (get j)) → keeps_profile (GetValueIfFindKey LOCAL j key get jsonType b arrayType set x).
Proof.
  intros Hg. pose proof (λ value, keeps_assign get value set x Hg) as Ha.
  pose proof (λ e, kept_fail e x) as Hf. pose proof (kept_ret x) as Hr.
  assert (∀ value, keeps_profile (CheckArrayType LOCAL get value arrayType set x)) as Hc.
  { intros value. unfold CheckArrayType. destruct value as [| | | | |[|]|]; try done. destruct arrayType; try done; by case_match. }
  intros s y s'. unfold GetValueIfFindKey. destruct (negb _); [apply Hr|]. destruct (find_key j key) as [value|].
  - destruct jsonType; try apply Hr; destruct (negb _); (apply Hf || apply Ha || apply Hc).
  - destruct b; [apply Hf|apply Hr].
Qed.

Lemma skipped {A B T} v j key (get : json → M T) jsonType b arrayType set (x : A) (k : A → M B) s :
  get_var v s ≠ ERR_OK → (GetValueIfFindKey v j key get jsonType b arrayType set x ≫= k) s = k x s.
Proof.
  intros Hv. unfold mbind, M_bind, GetValueIfFindKey, ERR_OK in *. by destruct (Z.eqb_spec (get_var v s) 0).
Qed.

(** Proves it of a from_json that reports in its own variable. *)
Ltac keep_profile :=
  repeat (intros; first
    [ apply kept_ret | apply keeps_throw | apply keeps_string | apply keeps_bool | apply keeps_int64
    | apply keeps_integer | apply keeps_vector | apply keeps_map | apply keeps_struct | apply keeps_field | apply kept_bind ]).

Lemma field_ext {A T} v j j' key (get : json → M T) jsonType b arrayType (set : T → A → A) :
  find_key j key = find_key j' key →
  GetValueIfFindKey v j key get jsonType b arrayType set = GetValueIfFindKey v j' key get jsonType b arrayType set.
Proof. intros Hf. unfold GetValueIfFindKey. by rewrite Hf. Qed.

(** Rewrites the reads of [j] into those of [j'], [H] being that they agree. *)
Ltac read_from j j' H :=
  repeat match goal with
  | |- context [GetValueIfFindKey ?v j ?key ?get ?t ?b ?a ?set] =>
      rewrite (field_ext v j j' key get t b a set) by (apply H; discriminate)
  end.

Lemma run_bind {A B} (m : M A) (k : A → M B) s x s' : m s = Some (x, s') → (m ≫= k) s = k x s'.
Proof. unfold mbind, M_bind. by intros ->. Qed.

Lemma run_reads {A B} (m : M A) (k : A → M B) x :
  reads m x → (m ≫= k) (mkParseState ERR_OK ERR_OK) = k x (mkParseState ERR_OK ERR_OK).
Proof. apply run_bind. Qed.

Lemma run_local {A B} (m : M A) (k : A * Z → M B) x p :
  m (mkParseState ERR_OK ERR_OK) = Some (x, mkParseState p ERR_OK) →
  (with_local m ≫= k) (mkParseState ERR_OK ERR_OK) = k (x, ERR_OK) (mkParseState p ERR_OK).
Proof. intros Hm. apply run_bind. unfold with_local. simpl. unfold ERR_OK in *. by rewrite Hm. Qed.
