(* ===== verification/InfoJson.v ===== *)
(** * InfoJson: the JSON of applications, abilities, modules and bundles

    to_json and from_json of the structs of
    interfaces/inner_api/appexecfwk_base/src: module_info.cpp,
    ability_info.cpp, application_info.cpp, extension_ability_info.cpp,
    hap_module_info.cpp, bundle_info.cpp and bundle_user_info.cpp.  The key
    constants of the files are written out, and a from_json with many fields is
    cut into parts that follow each other.  [X_ok] says that the integers of
    an [X] have the width of their C++ type; [X_round_trip] that what to_json
    writes is read back by from_json. *)

From stdpp Require Import strings.
From S2P Require Import Prelude StdMap BundleTypes Errors Json.

Open Scope string_scope.
Open Scope list_scope.
Open Scope Z_scope.

Definition AbilityType_value (e : AbilityType) : Z :=
  match e with
  | AbilityType_UNKNOWN => 0
  | AbilityType_PAGE => 1
  | AbilityType_SERVICE => 2
  | AbilityType_DATA => 3
  | AbilityType_FORM => 4
  | AbilityType_EXTENSION => 5
  end.
Definition AbilityType_of (n : Z) : option AbilityType :=
  List.find (λ e, AbilityType_value e =? n) [AbilityType_UNKNOWN; AbilityType_PAGE; AbilityType_SERVICE;
    AbilityType_DATA; AbilityType_FORM; AbilityType_EXTENSION].
#[export] Instance AbilityType_ToJson : ToJson AbilityType := λ e, JNumber (AbilityType_value e).
Definition get_AbilityType : json → M AbilityType := get_enum AbilityType_of.

Definition DisplayOrientation_value (e : DisplayOrientation) : Z :=
  match e with
  | DisplayOrientation_UNSPECIFIED => 0
  | DisplayOrientation_LANDSCAPE => 1
  | DisplayOrientation_PORTRAIT => 2
  | DisplayOrientation_FOLLOWRECENT => 3
  end.
Definition DisplayOrientation_of (n : Z) : option DisplayOrientation :=
  List.find (λ e, DisplayOrientation_value e =? n) [DisplayOrientation_UNSPECIFIED; DisplayOrientation_LANDSCAPE;
    DisplayOrientation_PORTRAIT; DisplayOrientation_FOLLOWRECENT].
#[export] Instance DisplayOrientation_ToJson : ToJson DisplayOrientation := λ e, JNumber (DisplayOrientation_value e).
Definition get_DisplayOrientation : json → M DisplayOrientation := get_enum DisplayOrientation_of.

Definition LaunchMode_value (e : LaunchMode) : Z :=
  match e with
  | LaunchMode_SINGLETON => 0
  | LaunchMode_STANDARD => 1
  | LaunchMode_SINGLETOP => 2
  | LaunchMode_SPECIFIED => 3
  end.
Definition LaunchMode_of (n : Z) : option LaunchMode :=
  List.find (λ e, LaunchMode_value e =? n) [LaunchMode_SINGLETON; LaunchMode_STANDARD; LaunchMode_SINGLETOP;
    LaunchMode_SPECIFIED].
#[export] Instance LaunchMode_ToJson : ToJson LaunchMode := λ e, JNumber (LaunchMode_value e).
Definition get_LaunchMode : json → M LaunchMode := get_enum LaunchMode_of.

Definition ExtensionAbilityType_value (e : ExtensionAbilityType) : Z :=
  match e with
  | ExtensionAbilityType_FORM => 0
  | ExtensionAbilityType_WORK_SCHEDULER => 1
  | ExtensionAbilityType_INPUTMETHOD => 2
  | ExtensionAbilityType_SERVICE => 3
  | ExtensionAbilityType_ACCESSIBILITY => 4
  | ExtensionAbilityType_DATASHARE => 5
  | ExtensionAbilityType_FILESHARE => 6
  | ExtensionAbilityType_STATICSUBSCRIBER => 7
  | ExtensionAbilityType_WALLPAPER => 8
  | ExtensionAbilityType_BACKUP => 9
  | ExtensionAbilityType_WINDOW => 10
  | ExtensionAbilityType_UNSPECIFIED => 20
  end.
Definition ExtensionAbilityType_of (n : Z) : option ExtensionAbilityType :=
  List.find (λ e, ExtensionAbilityType_value e =? n) [ExtensionAbilityType_FORM; ExtensionAbilityType_WORK_SCHEDULER;
    ExtensionAbilityType_INPUTMETHOD; ExtensionAbilityType_SERVICE; ExtensionAbilityType_ACCESSIBILITY;
      ExtensionAbilityType_DATASHARE; ExtensionAbilityType_FILESHARE; ExtensionAbilityType_STATICSUBSCRIBER;
        ExtensionAbilityType_WALLPAPER; ExtensionAbilityType_BACKUP; ExtensionAbilityType_WINDOW;
          ExtensionAbilityType_UNSPECIFIED].
#[export] Instance ExtensionAbilityType_ToJson : ToJson ExtensionAbilityType := λ e, JNumber (ExtensionAbilityType_value e).
Definition get_ExtensionAbilityType : json → M ExtensionAbilityType := get_enum ExtensionAbilityType_of.

Definition ModuleColorMode_value (e : ModuleColorMode) : Z :=
  match e with
  | ModuleColorMode_AUTO => -1
  | ModuleColorMode_DARK => 0
  | ModuleColorMode_LIGHT => 1
  end.
Definition ModuleColorMode_of (n : Z) : option ModuleColorMode :=
  List.find (λ e, ModuleColorMode_value e =? n) [ModuleColorMode_AUTO; ModuleColorMode_DARK; ModuleColorMode_LIGHT].
#[export] Instance ModuleColorMode_ToJson : ToJson ModuleColorMode := λ e, JNumber (ModuleColorMode_value e).
Definition get_ModuleColorMode : json → M ModuleColorMode := get_enum ModuleColorMode_of.

Definition ModuleType_value (e : ModuleType) : Z :=
  match e with
  | ModuleType_UNKNOWN => 0
  | ModuleType_ENTRY => 1
  | ModuleType_FEATURE => 2
  | ModuleType_HAR => 3
  end.
Definition ModuleType_of (n : Z) : option ModuleType :=
  List.find (λ e, ModuleType_value e =? n) [ModuleType_UNKNOWN; ModuleType_ENTRY; ModuleType_FEATURE; ModuleType_HAR].
#[export] Instance ModuleType_ToJson : ToJson ModuleType := λ e, JNumber (ModuleType_value e).
Definition get_ModuleType : json → M ModuleType := get_enum ModuleType_of.

Definition ModuleInfo_to_json (x : ModuleInfo) : json :=
  object [
    ("moduleName", to_json (mi_moduleName x));
    ("moduleSourceDir", to_json (mi_moduleSourceDir x))
  ].
#[export] Instance ModuleInfo_ToJson : ToJson ModuleInfo := ModuleInfo_to_json.

Definition ModuleInfo_from_json (j : json) (x : ModuleInfo) : M ModuleInfo :=
  x ← GetValueIfFindKey LOCAL j "moduleName" get_string STRING false NOT_ARRAY (λ v x, x <| mi_moduleName := v |>) x;
  x ← GetValueIfFindKey LOCAL j "moduleSourceDir" get_string STRING false NOT_ARRAY
        (λ v x, x <| mi_moduleSourceDir := v |>) x;
  mret x.
Definition get_ModuleInfo : json → M ModuleInfo := get_struct new_ModuleInfo ModuleInfo_from_json.

Definition Metadata_to_json (x : Metadata) : json :=
  object [
    ("name", to_json (md_name x));
    ("value", to_json (md_value x));
    ("resource", to_json (md_resource x))
  ].
#[export] Instance Metadata_ToJson : ToJson Metadata := Metadata_to_json.

Definition Metadata_from_json (j : json) (x : Metadata) : M Metadata :=
  x ← GetValueIfFindKey LOCAL j "name" get_string STRING false NOT_ARRAY (λ v x, x <| md_name := v |>) x;
  x ← GetValueIfFindKey LOCAL j "value" get_string STRING false NOT_ARRAY (λ v x, x <| md_value := v |>) x;
  x ← GetValueIfFindKey LOCAL j "resource" get_string STRING false NOT_ARRAY (λ v x, x <| md_resource := v |>) x;
  mret x.
Definition get_Metadata : json → M Metadata := get_struct new_Metadata Metadata_from_json.

Definition CustomizeData_to_json (x : CustomizeData) : json :=
  object [
    ("name", to_json (cd_name x));
    ("value", to_json (cd_value x));
    ("extra", to_json (cd_extra x))
  ].
#[export] Instance CustomizeData_ToJson : ToJson CustomizeData := CustomizeData_to_json.

Definition CustomizeData_from_json (j : json) (x : CustomizeData) : M CustomizeData :=
  x ← GetValueIfFindKey LOCAL j "name" get_string STRING false NOT_ARRAY (λ v x, x <| cd_name := v |>) x;
  x ← GetValueIfFindKey LOCAL j "value" get_string STRING false NOT_ARRAY (λ v x, x <| cd_value := v |>) x;
  x ← GetValueIfFindKey LOCAL j "extra" get_string STRING false NOT_ARRAY (λ v x, x <| cd_extra := v |>) x;
  mret x.
Definition get_CustomizeData : json → M CustomizeData := get_struct new_CustomizeData CustomizeData_from_json.

Definition MetaData_to_json (x : MetaData) : json :=
  object [
    ("customizeData", to_json (mdl_customizeData x))
  ].
#[export] Instance MetaData_ToJson : ToJson MetaData := MetaData_to_json.

Definition MetaData_from_json (j : json) (x : MetaData) : M MetaData :=
  x ← GetValueIfFindKey LOCAL j "customizeData" (get_vector get_CustomizeData) ARRAY false OBJECTS
        (λ v x, x <| mdl_customizeData := v |>) x;
  mret x.
Definition get_MetaData : json → M MetaData := get_struct new_MetaData MetaData_from_json.

Definition ApplicationInfo_to_json (x : ApplicationInfo) : json :=
  object [
    ("name", to_json (app_name x));
    ("bundleName", to_json (app_bundleName x));
    ("versionCode", to_json (app_versionCode x));
    ("versionName", to_json (app_versionName x));
    ("minCompatibleVersionCode", to_json (app_minCompatibleVersionCode x));
    ("apiCompatibleVersion", to_json (app_apiCompatibleVersion x));
    ("apiTargetVersion", to_json (app_apiTargetVersion x));
    ("iconPath", to_json (app_iconPath x));
    ("iconId", to_json (app_iconId x));
    ("label", to_json (app_label x));
    ("labelId", to_json (app_labelId x));
    ("description", to_json (app_description x));
    ("descriptionId", to_json (app_descriptionId x));
    ("keepAlive", to_json (app_keepAlive x));
    ("removable", to_json (app_removable x));
    ("singleton", to_json (app_singleton x));
    ("userDataClearable", to_json (app_userDataClearable x));
    ("accessible", to_json (app_accessible x));
    ("isSystemApp", to_json (app_isSystemApp x));
    ("isLauncherApp", to_json (app_isLauncherApp x));
    ("isFreeInstallApp", to_json (app_isFreeInstallApp x));
    ("codePath", to_json (app_codePath x));
    ("dataDir", to_json (app_dataDir x));
    ("dataBaseDir", to_json (app_dataBaseDir x));
    ("cacheDir", to_json (app_cacheDir x));
    ("entryDir", to_json (app_entryDir x));
    ("apiReleaseType", to_json (app_apiReleaseType x));
    ("debug", to_json (app_debug x));
    ("deviceId", to_json (app_deviceId x));
    ("distributedNotificationEnabled", to_json (app_distributedNotificationEnabled x));
    ("entityType", to_json (app_entityType x));
    ("process", to_json (app_process x));
    ("supportedModes", to_json (app_supportedModes x));
    ("vendor", to_json (app_vendor x));
    ("appPrivilegeLevel", to_json (app_appPrivilegeLevel x));
    ("accessTokenId", to_json (app_accessTokenId x));
    ("enabled", to_json (app_enabled x));
    ("uid", to_json (app_uid x));
    ("permissions", to_json (app_permissions x));
    ("moduleSourceDirs", to_json (app_moduleSourceDirs x));
    ("moduleInfos", to_json (app_moduleInfos x));
    ("metaData", to_json (app_metaData x));
    ("metadata", to_json (app_metadata x));
    ("isCloned", to_json (app_isCloned x));
    ("fingerprint", to_json (app_fingerprint x));
    ("icon", to_json (app_icon x));
    ("flags", to_json (app_flags x));
    ("entryModuleName", to_json (app_entryModuleName x));
    ("nativeLibraryPath", to_json (app_nativeLibraryPath x));
    ("cpuAbi", to_json (app_cpuAbi x));
    ("isCompressNativeLibs", to_json (app_isCompressNativeLibs x));
    ("signatureKey", to_json (app_signatureKey x));
    ("targetBundleList", to_json (app_targetBundleList x))
  ].
#[export] Instance ApplicationInfo_ToJson : ToJson ApplicationInfo := ApplicationInfo_to_json.

Definition ApplicationInfo_from_json_1 (j : json) (x : ApplicationInfo) : M ApplicationInfo :=
  x ← GetValueIfFindKey LOCAL j "name" get_string STRING false NOT_ARRAY (λ v x, x <| app_name := v |>) x;
  x ← GetValueIfFindKey LOCAL j "bundleName" get_string STRING false NOT_ARRAY (λ v x, x <| app_bundleName := v |>) x;
  x ← GetValueIfFindKey LOCAL j "versionCode" get_uint32 NUMBER false NOT_ARRAY
        (λ v x, x <| app_versionCode := v |>) x;
  x ← GetValueIfFindKey LOCAL j "versionName" get_string STRING false NOT_ARRAY
        (λ v x, x <| app_versionName := v |>) x;
  x ← GetValueIfFindKey LOCAL j "minCompatibleVersionCode" get_int32 NUMBER false NOT_ARRAY
        (λ v x, x <| app_minCompatibleVersionCode := v |>) x;
  x ← GetValueIfFindKey LOCAL j "apiCompatibleVersion" get_int32 NUMBER false NOT_ARRAY
        (λ v x, x <| app_apiCompatibleVersion := u32 v |>) x;
  x ← GetValueIfFindKey LOCAL j "apiTargetVersion" get_int32 NUMBER false NOT_ARRAY
        (λ v x, x <| app_apiTargetVersion := v |>) x;
  x ← GetValueIfFindKey LOCAL j "iconPath" get_string STRING false NOT_ARRAY (λ v x, x <| app_iconPath := v |>) x;
  x ← GetValueIfFindKey LOCAL j "iconId" get_int32 NUMBER false NOT_ARRAY (λ v x, x <| app_iconId := v |>) x;
  x ← GetValueIfFindKey LOCAL j "label" get_string STRING false NOT_ARRAY (λ v x, x <| app_label := v |>) x;
  x ← GetValueIfFindKey LOCAL j "labelId" get_int32 NUMBER false NOT_ARRAY (λ v x, x <| app_labelId := v |>) x;
  x ← GetValueIfFindKey LOCAL j "description" get_string STRING false NOT_ARRAY
        (λ v x, x <| app_description := v |>) x;
  x ← GetValueIfFindKey LOCAL j "descriptionId" get_int32 NUMBER false NOT_ARRAY
        (λ v x, x <| app_descriptionId := v |>) x;
  x ← GetValueIfFindKey LOCAL j "keepAlive" get_bool BOOLEAN false NOT_ARRAY (λ v x, x <| app_keepAlive := v |>) x;
  x ← GetValueIfFindKey LOCAL j "removable" get_bool BOOLEAN false NOT_ARRAY (λ v x, x <| app_removable := v |>) x;
  x ← GetValueIfFindKey LOCAL j "singleton" get_bool BOOLEAN false NOT_ARRAY (λ v x, x <| app_singleton := v |>) x;
  x ← GetValueIfFindKey LOCAL j "userDataClearable" get_bool BOOLEAN false NOT_ARRAY
        (λ v x, x <| app_userDataClearable := v |>) x;
  x ← GetValueIfFindKey LOCAL j "accessible" get_bool BOOLEAN false NOT_ARRAY (λ v x, x <| app_accessible := v |>) x;
  mret x.

Definition ApplicationInfo_from_json_2 (j : json) (x : ApplicationInfo) : M ApplicationInfo :=
  x ← GetValueIfFindKey LOCAL j "isSystemApp" get_bool BOOLEAN false NOT_ARRAY
        (λ v x, x <| app_isSystemApp := v |>) x;
  x ← GetValueIfFindKey LOCAL j "isLauncherApp" get_bool BOOLEAN false NOT_ARRAY
        (λ v x, x <| app_isLauncherApp := v |>) x;
  x ← GetValueIfFindKey LOCAL j "isFreeInstallApp" get_bool BOOLEAN false NOT_ARRAY
        (λ v x, x <| app_isFreeInstallApp := v |>) x;
  x ← GetValueIfFindKey LOCAL j "codePath" get_string STRING false NOT_ARRAY (λ v x, x <| app_codePath := v |>) x;
  x ← GetValueIfFindKey LOCAL j "dataDir" get_string STRING false NOT_ARRAY (λ v x, x <| app_dataDir := v |>) x;
  x ← GetValueIfFindKey LOCAL j "dataBaseDir" get_string STRING false NOT_ARRAY
        (λ v x, x <| app_dataBaseDir := v |>) x;
  x ← GetValueIfFindKey LOCAL j "cacheDir" get_string STRING false NOT_ARRAY (λ v x, x <| app_cacheDir := v |>) x;
  x ← GetValueIfFindKey LOCAL j "entryDir" get_string STRING false NOT_ARRAY (λ v x, x <| app_entryDir := v |>) x;
  x ← GetValueIfFindKey LOCAL j "apiReleaseType" get_string STRING false NOT_ARRAY
        (λ v x, x <| app_apiReleaseType := v |>) x;
  x ← GetValueIfFindKey LOCAL j "debug" get_bool BOOLEAN false NOT_ARRAY (λ v x, x <| app_debug := v |>) x;
  x ← GetValueIfFindKey LOCAL j "deviceId" get_string STRING false NOT_ARRAY (λ v x, x <| app_deviceId := v |>) x;
  x ← GetValueIfFindKey LOCAL j "distributedNotificationEnabled" get_bool BOOLEAN false NOT_ARRAY
        (λ v x, x <| app_distributedNotificationEnabled := v |>) x;
  x ← GetValueIfFindKey LOCAL j "entityType" get_string STRING false NOT_ARRAY (λ v x, x <| app_entityType := v |>) x;
  x ← GetValueIfFindKey LOCAL j "process" get_string STRING false NOT_ARRAY (λ v x, x <| app_process := v |>) x;
  x ← GetValueIfFindKey LOCAL j "supportedModes" get_int32 NUMBER false NOT_ARRAY
        (λ v x, x <| app_supportedModes := v |>) x;
  x ← GetValueIfFindKey LOCAL j "vendor" get_string STRING false NOT_ARRAY (λ v x, x <| app_vendor := v |>) x;
  x ← GetValueIfFindKey LOCAL j "appPrivilegeLevel" get_string STRING false NOT_ARRAY
        (λ v x, x <| app_appPrivilegeLevel := v |>) x;
  x ← GetValueIfFindKey LOCAL j "accessTokenId" get_uint32 NUMBER false NOT_ARRAY
        (λ v x, x <| app_accessTokenId := v |>) x;
  mret x.

Definition ApplicationInfo_from_json_3 (j : json) (x : ApplicationInfo) : M ApplicationInfo :=
  x ← GetValueIfFindKey LOCAL j "enabled" get_bool BOOLEAN false NOT_ARRAY (λ v x, x <| app_enabled := v |>) x;
  x ← GetValueIfFindKey LOCAL j "uid" get_int32 NUMBER false NOT_ARRAY (λ v x, x <| app_uid := v |>) x;
  x ← GetValueIfFindKey LOCAL j "permissions" (get_vector get_string) ARRAY false STRINGS
        (λ v x, x <| app_permissions := v |>) x;
  x ← GetValueIfFindKey LOCAL j "moduleSourceDirs" (get_vector get_string) ARRAY false STRINGS
        (λ v x, x <| app_moduleSourceDirs := v |>) x;
  x ← GetValueIfFindKey LOCAL j "moduleInfos" (get_vector get_ModuleInfo) ARRAY false OBJECTS
        (λ v x, x <| app_moduleInfos := v |>) x;
  x ← GetValueIfFindKey LOCAL j "metaData" (get_map (get_vector get_CustomizeData)) OBJECT false NOT_ARRAY
        (λ v x, x <| app_metaData := v |>) x;
  x ← GetValueIfFindKey LOCAL j "metadata" (get_map (get_vector get_Metadata)) OBJECT false NOT_ARRAY
        (λ v x, x <| app_metadata := v |>) x;
  x ← GetValueIfFindKey LOCAL j "isCloned" get_bool BOOLEAN false NOT_ARRAY (λ v x, x <| app_isCloned := v |>) x;
  x ← GetValueIfFindKey LOCAL j "fingerprint" get_string STRING false NOT_ARRAY
        (λ v x, x <| app_fingerprint := v |>) x;
  x ← GetValueIfFindKey LOCAL j "icon" get_string STRING false NOT_ARRAY (λ v x, x <| app_icon := v |>) x;
  x ← GetValueIfFindKey LOCAL j "flags" get_int32 NUMBER false NOT_ARRAY (λ v x, x <| app_flags := v |>) x;
  x ← GetValueIfFindKey LOCAL j "entryModuleName" get_string STRING false NOT_ARRAY
        (λ v x, x <| app_entryModuleName := v |>) x;
  x ← GetValueIfFindKey LOCAL j "nativeLibraryPath" get_string STRING false NOT_ARRAY
        (λ v x, x <| app_nativeLibraryPath := v |>) x;
  x ← GetValueIfFindKey LOCAL j "cpuAbi" get_string STRING false NOT_ARRAY (λ v x, x <| app_cpuAbi := v |>) x;
  x ← GetValueIfFindKey LOCAL j "isCompressNativeLibs" get_bool BOOLEAN false NOT_ARRAY
        (λ v x, x <| app_isCompressNativeLibs := v |>) x;
  x ← GetValueIfFindKey LOCAL j "signatureKey" get_string STRING false NOT_ARRAY
        (λ v x, x <| app_signatureKey := v |>) x;
  x ← GetValueIfFindKey LOCAL j "targetBundleList" (get_vector get_string) ARRAY false STRINGS
        (λ v x, x <| app_targetBundleList := v |>) x;
  mret x.

Definition ApplicationInfo_from_json (j : json) (x : ApplicationInfo) : M ApplicationInfo :=
  x ← ApplicationInfo_from_json_1 j x; x ← ApplicationInfo_from_json_2 j x; ApplicationInfo_from_json_3 j x.
Definition get_ApplicationInfo : json → M ApplicationInfo := get_struct new_ApplicationInfo ApplicationInfo_from_json.

(** The integers have their widths, the maps are maps. *)
Definition ApplicationInfo_ok (x : ApplicationInfo) : Prop :=
  in_u32 (app_versionCode x)
  ∧ in_i32 (app_minCompatibleVersionCode x)
  ∧ in_u32 (app_apiCompatibleVersion x)
  ∧ in_i32 (app_apiTargetVersion x)
  ∧ in_i32 (app_iconId x)
  ∧ in_i32 (app_labelId x)
  ∧ in_i32 (app_descriptionId x)
  ∧ in_i32 (app_supportedModes x)
  ∧ in_u32 (app_accessTokenId x)
  ∧ in_i32 (app_uid x)
  ∧ sm_wf (app_metaData x)
  ∧ sm_wf (app_metadata x)
  ∧ in_i32 (app_flags x).

Definition AbilityInfo_to_json (x : AbilityInfo) : json :=
  object [
    ("name", to_json (ai_name x));
    ("label", to_json (ai_label x));
    ("description", to_json (ai_description x));
    ("iconPath", to_json (ai_iconPath x));
    ("labelId", to_json (ai_labelId x));
    ("descriptionId", to_json (ai_descriptionId x));
    ("iconId", to_json (ai_iconId x));
    ("theme", to_json (ai_theme x));
    ("visible", to_json (ai_visible x));
    ("kind", to_json (ai_kind x));
    ("type", to_json (ai_type x));
    ("extensionAbilityType", to_json (ai_extensionAbilityType x));
    ("orientation", to_json (ai_orientation x));
    ("launchMode", to_json (ai_launchMode x));
    ("srcPath", to_json (ai_srcPath x));
    ("srcLanguage", to_json (ai_srcLanguage x));
    ("permissions", to_json (ai_permissions x));
    ("process", to_json (ai_process x));
    ("deviceTypes", to_json (ai_deviceTypes x));
    ("deviceCapabilities", to_json (ai_deviceCapabilities x));
    ("uri", to_json (ai_uri x));
    ("targetAbility", to_json (ai_targetAbility x));
    ("applicationInfo", to_json (ai_applicationInfo x));
    ("isLauncherAbility", to_json (ai_isLauncherAbility x));
    ("isNativeAbility", to_json (ai_isNativeAbility x));
    ("enabled", to_json (ai_enabled x));
    ("supportPipMode", to_json (ai_supportPipMode x));
    ("formEnabled", to_json (ai_formEnabled x));
    ("readPermission", to_json (ai_readPermission x));
    ("writePermission", to_json (ai_writePermission x));
    ("configChanges", to_json (ai_configChanges x));
    ("formEntity", to_json (ai_formEntity x));
    ("minFormHeight", to_json (ai_minFormHeight x));
    ("defaultFormHeight", to_json (ai_defaultFormHeight x));
    ("minFormWidth", to_json (ai_minFormWidth x));
    ("defaultFormWidth", to_json (ai_defaultFormWidth x));
    ("metaData", to_json (ai_metaData x));
    ("backgroundModes", to_json (ai_backgroundModes x));
    ("package", to_json (ai_package x));
    ("bundleName", to_json (ai_bundleName x));
    ("moduleName", to_json (ai_moduleName x));
    ("applicationName", to_json (ai_applicationName x));
    ("codePath", to_json (ai_codePath x));
    ("resourcePath", to_json (ai_resourcePath x));
    ("srcEntrance", to_json (ai_srcEntrance x));
    ("metadata", to_json (ai_metadata x));
    ("isModuleJson", to_json (ai_isModuleJson x));
    ("isStageBasedModel", to_json (ai_isStageBasedModel x));
    ("continuable", to_json (ai_continuable x));
    ("priority", to_json (ai_priority x));
    ("startWindowIcon", to_json (ai_startWindowIcon x));
    ("startWindowIconId", to_json (ai_startWindowIconId x));
    ("startWindowBackground", to_json (ai_startWindowBackground x));
    ("startWindowBackgroundId", to_json (ai_startWindowBackgroundId x));
    ("removeMissionAfterTerminate", to_json (ai_removeMissionAfterTerminate x))
  ].
#[export] Instance AbilityInfo_ToJson : ToJson AbilityInfo := AbilityInfo_to_json.

Definition AbilityInfo_from_json_1 (j : json) (x : AbilityInfo) : M AbilityInfo :=
  x ← GetValueIfFindKey LOCAL j "name" get_string STRING false NOT_ARRAY (λ v x, x <| ai_name := v |>) x;
  x ← GetValueIfFindKey LOCAL j "label" get_string STRING false NOT_ARRAY (λ v x, x <| ai_label := v |>) x;
  x ← GetValueIfFindKey LOCAL j "description" get_string STRING false NOT_ARRAY
        (λ v x, x <| ai_description := v |>) x;
  x ← GetValueIfFindKey LOCAL j "iconPath" get_string STRING false NOT_ARRAY (λ v x, x <| ai_iconPath := v |>) x;
  x ← GetValueIfFindKey LOCAL j "labelId" get_int32 NUMBER false NOT_ARRAY (λ v x, x <| ai_labelId := v |>) x;
  x ← GetValueIfFindKey LOCAL j "descriptionId" get_int32 NUMBER false NOT_ARRAY
        (λ v x, x <| ai_descriptionId := v |>) x;
  x ← GetValueIfFindKey LOCAL j "iconId" get_int32 NUMBER false NOT_ARRAY (λ v x, x <| ai_iconId := v |>) x;
  x ← GetValueIfFindKey LOCAL j "theme" get_string STRING false NOT_ARRAY (λ v x, x <| ai_theme := v |>) x;
  x ← GetValueIfFindKey LOCAL j "visible" get_bool BOOLEAN false NOT_ARRAY (λ v x, x <| ai_visible := v |>) x;
  x ← GetValueIfFindKey LOCAL j "kind" get_string STRING false NOT_ARRAY (λ v x, x <| ai_kind := v |>) x;
  x ← GetValueIfFindKey LOCAL j "type" get_AbilityType NUMBER false NOT_ARRAY (λ v x, x <| ai_type := v |>) x;
  x ← GetValueIfFindKey LOCAL j "extensionAbilityType" get_ExtensionAbilityType NUMBER false NOT_ARRAY
        (λ v x, x <| ai_extensionAbilityType := v |>) x;
  x ← GetValueIfFindKey LOCAL j "orientation" get_DisplayOrientation NUMBER false NOT_ARRAY
        (λ v x, x <| ai_orientation := v |>) x;
  x ← GetValueIfFindKey LOCAL j "launchMode" get_LaunchMode NUMBER false NOT_ARRAY
        (λ v x, x <| ai_launchMode := v |>) x;
  x ← GetValueIfFindKey LOCAL j "srcPath" get_string STRING false NOT_ARRAY (λ v x, x <| ai_srcPath := v |>) x;
  x ← GetValueIfFindKey LOCAL j "srcLanguage" get_string STRING false NOT_ARRAY
        (λ v x, x <| ai_srcLanguage := v |>) x;
  x ← GetValueIfFindKey LOCAL j "permissions" (get_vector get_string) ARRAY false STRINGS
        (λ v x, x <| ai_permissions := v |>) x;
  x ← GetValueIfFindKey LOCAL j "process" get_string STRING false NOT_ARRAY (λ v x, x <| ai_process := v |>) x;
  mret x.

Definition AbilityInfo_from_json_2 (j : json) (x : AbilityInfo) : M AbilityInfo :=
  x ← GetValueIfFindKey LOCAL j "deviceTypes" (get_vector get_string) ARRAY false STRINGS
        (λ v x, x <| ai_deviceTypes := v |>) x;
  x ← GetValueIfFindKey LOCAL j "deviceCapabilities" (get_vector get_string) ARRAY false STRINGS
        (λ v x, x <| ai_deviceCapabilities := v |>) x;
  x ← GetValueIfFindKey LOCAL j "uri" get_string STRING false NOT_ARRAY (λ v x, x <| ai_uri := v |>) x;
  x ← GetValueIfFindKey LOCAL j "targetAbility" get_string STRING false NOT_ARRAY
        (λ v x, x <| ai_targetAbility := v |>) x;
  x ← GetValueIfFindKey LOCAL j "applicationInfo" get_ApplicationInfo OBJECT false NOT_ARRAY
        (λ v x, x <| ai_applicationInfo := v |>) x;
  x ← GetValueIfFindKey LOCAL j "isLauncherAbility" get_bool BOOLEAN false NOT_ARRAY
        (λ v x, x <| ai_isLauncherAbility := v |>) x;
  x ← GetValueIfFindKey LOCAL j "isNativeAbility" get_bool BOOLEAN false NOT_ARRAY
        (λ v x, x <| ai_isNativeAbility := v |>) x;
  x ← GetValueIfFindKey LOCAL j "enabled" get_bool BOOLEAN false NOT_ARRAY (λ v x, x <| ai_enabled := v |>) x;
  x ← GetValueIfFindKey LOCAL j "supportPipMode" get_bool BOOLEAN false NOT_ARRAY
        (λ v x, x <| ai_supportPipMode := v |>) x;
  x ← GetValueIfFindKey LOCAL j "formEnabled" get_bool BOOLEAN false NOT_ARRAY (λ v x, x <| ai_formEnabled := v |>) x;
  x ← GetValueIfFindKey LOCAL j "readPermission" get_string STRING false NOT_ARRAY
        (λ v x, x <| ai_readPermission := v |>) x;
  x ← GetValueIfFindKey LOCAL j "writePermission" get_string STRING false NOT_ARRAY
        (λ v x, x <| ai_writePermission := v |>) x;
  x ← GetValueIfFindKey LOCAL j "configChanges" (get_vector get_string) ARRAY false STRINGS
        (λ v x, x <| ai_configChanges := v |>) x;
  x ← GetValueIfFindKey LOCAL j "formEntity" get_uint32 NUMBER false NOT_ARRAY (λ v x, x <| ai_formEntity := v |>) x;
  x ← GetValueIfFindKey LOCAL j "minFormHeight" get_int32 NUMBER false NOT_ARRAY
        (λ v x, x <| ai_minFormHeight := v |>) x;
  x ← GetValueIfFindKey LOCAL j "defaultFormHeight" get_int32 NUMBER false NOT_ARRAY
        (λ v x, x <| ai_defaultFormHeight := v |>) x;
  x ← GetValueIfFindKey LOCAL j "minFormWidth" get_int32 NUMBER false NOT_ARRAY
        (λ v x, x <| ai_minFormWidth := v |>) x;
  x ← GetValueIfFindKey LOCAL j "defaultFormWidth" get_int32 NUMBER false NOT_ARRAY
        (λ v x, x <| ai_defaultFormWidth := v |>) x;
  mret x.

Definition AbilityInfo_from_json_3 (j : json) (x : AbilityInfo) : M AbilityInfo :=
  x ← GetValueIfFindKey LOCAL j "metaData" get_MetaData OBJECT false NOT_ARRAY (λ v x, x <| ai_metaData := v |>) x;
  x ← GetValueIfFindKey LOCAL j "backgroundModes" get_uint32 NUMBER false NOT_ARRAY
        (λ v x, x <| ai_backgroundModes := v |>) x;
  x ← GetValueIfFindKey LOCAL j "package" get_string STRING false NOT_ARRAY (λ v x, x <| ai_package := v |>) x;
  x ← GetValueIfFindKey LOCAL j "bundleName" get_string STRING false NOT_ARRAY (λ v x, x <| ai_bundleName := v |>) x;
  x ← GetValueIfFindKey LOCAL j "moduleName" get_string STRING false NOT_ARRAY (λ v x, x <| ai_moduleName := v |>) x;
  x ← GetValueIfFindKey LOCAL j "applicationName" get_string STRING false NOT_ARRAY
        (λ v x, x <| ai_applicationName := v |>) x;
  x ← GetValueIfFindKey LOCAL j "codePath" get_string STRING false NOT_ARRAY (λ v x, x <| ai_codePath := v |>) x;
  x ← GetValueIfFindKey LOCAL j "resourcePath" get_string STRING false NOT_ARRAY
        (λ v x, x <| ai_resourcePath := v |>) x;
  x ← GetValueIfFindKey LOCAL j "srcEntrance" get_string STRING false NOT_ARRAY
        (λ v x, x <| ai_srcEntrance := v |>) x;
  x ← GetValueIfFindKey LOCAL j "metadata" (get_vector get_Metadata) ARRAY false OBJECTS
        (λ v x, x <| ai_metadata := v |>) x;
  x ← GetValueIfFindKey LOCAL j "isModuleJson" get_bool BOOLEAN false NOT_ARRAY
        (λ v x, x <| ai_isModuleJson := v |>) x;
  x ← GetValueIfFindKey LOCAL j "isStageBasedModel" get_bool BOOLEAN false NOT_ARRAY
        (λ v x, x <| ai_isStageBasedModel := v |>) x;
  x ← GetValueIfFindKey LOCAL j "continuable" get_bool BOOLEAN false NOT_ARRAY (λ v x, x <| ai_continuable := v |>) x;
  x ← GetValueIfFindKey LOCAL j "priority" get_int32 NUMBER false NOT_ARRAY (λ v x, x <| ai_priority := v |>) x;
  x ← GetValueIfFindKey LOCAL j "startWindowIcon" get_string STRING false NOT_ARRAY
        (λ v x, x <| ai_startWindowIcon := v |>) x;
  x ← GetValueIfFindKey LOCAL j "startWindowIconId" get_int32 NUMBER false NOT_ARRAY
        (λ v x, x <| ai_startWindowIconId := v |>) x;
  x ← GetValueIfFindKey LOCAL j "startWindowBackground" get_string STRING false NOT_ARRAY
        (λ v x, x <| ai_startWindowBackground := v |>) x;
  x ← GetValueIfFindKey LOCAL j "startWindowBackgroundId" get_int32 NUMBER false NOT_ARRAY
        (λ v x, x <| ai_startWindowBackgroundId := v |>) x;
  mret x.

Definition AbilityInfo_from_json_4 (j : json) (x : AbilityInfo) : M AbilityInfo :=
  x ← GetValueIfFindKey LOCAL j "removeMissionAfterTerminate" get_bool BOOLEAN false NOT_ARRAY
        (λ v x, x <| ai_removeMissionAfterTerminate := v |>) x;
  mret x.

Definition AbilityInfo_from_json (j : json) (x : AbilityInfo) : M AbilityInfo :=
  x ← AbilityInfo_from_json_1 j x; x ← AbilityInfo_from_json_2 j x; x ← AbilityInfo_from_json_3 j x;
    AbilityInfo_from_json_4 j x.
Definition get_AbilityInfo `{Uninit} : json → M AbilityInfo := get_struct (new_AbilityInfo uninit)
  AbilityInfo_from_json.

(** The integers have their widths, and the fields of the old profile are not set. *)
Definition AbilityInfo_ok (x : AbilityInfo) : Prop :=
  in_i32 (ai_labelId x)
  ∧ in_i32 (ai_descriptionId x)
  ∧ in_i32 (ai_iconId x)
  ∧ ApplicationInfo_ok (ai_applicationInfo x)
  ∧ in_u32 (ai_formEntity x)
  ∧ in_i32 (ai_minFormHeight x)
  ∧ in_i32 (ai_defaultFormHeight x)
  ∧ in_i32 (ai_minFormWidth x)
  ∧ in_i32 (ai_defaultFormWidth x)
  ∧ in_u32 (ai_backgroundModes x)
  ∧ in_i32 (ai_priority x)
  ∧ in_i32 (ai_startWindowIconId x)
  ∧ in_i32 (ai_startWindowBackgroundId x)
  ∧ ai_originalBundleName x = ai_originalBundleName (new_AbilityInfo 0)
  ∧ ai_appName x = ai_appName (new_AbilityInfo 0)
  ∧ ai_privacyUrl x = ai_privacyUrl (new_AbilityInfo 0)
  ∧ ai_privacyName x = ai_privacyName (new_AbilityInfo 0)
  ∧ ai_downloadUrl x = ai_downloadUrl (new_AbilityInfo 0)
  ∧ ai_versionName x = ai_versionName (new_AbilityInfo 0)
  ∧ ai_className x = ai_className (new_AbilityInfo 0)
  ∧ ai_originalClassName x = ai_originalClassName (new_AbilityInfo 0)
  ∧ ai_uriPermissionMode x = ai_uriPermissionMode (new_AbilityInfo 0)
  ∧ ai_uriPermissionPath x = ai_uriPermissionPath (new_AbilityInfo 0)
  ∧ ai_packageSize x = ai_packageSize (new_AbilityInfo 0)
  ∧ ai_multiUserShared x = ai_multiUserShared (new_AbilityInfo 0)
  ∧ ai_grantPermission x = ai_grantPermission (new_AbilityInfo 0)
  ∧ ai_directLaunch x = ai_directLaunch (new_AbilityInfo 0)
  ∧ ai_subType x = ai_subType (new_AbilityInfo 0)
  ∧ ai_libPath x = ai_libPath (new_AbilityInfo 0)
  ∧ ai_deviceId x = ai_deviceId (new_AbilityInfo 0).

Definition ExtensionAbilityInfo_to_json (x : ExtensionAbilityInfo) : json :=
  object [
    ("bundleName", to_json (ext_bundleName x));
    ("moduleName", to_json (ext_moduleName x));
    ("name", to_json (ext_name x));
    ("srcEntrance", to_json (ext_srcEntrance x));
    ("icon", to_json (ext_icon x));
    ("iconId", to_json (ext_iconId x));
    ("label", to_json (ext_label x));
    ("labelId", to_json (ext_labelId x));
    ("description", to_json (ext_description x));
    ("descriptionId", to_json (ext_descriptionId x));
    ("priority", to_json (ext_priority x));
    ("type", to_json (ext_type x));
    ("readPermission", to_json (ext_readPermission x));
    ("writePermission", to_json (ext_writePermission x));
    ("uri", to_json (ext_uri x));
    ("permissions", to_json (ext_permissions x));
    ("visible", to_json (ext_visible x));
    ("metadata", to_json (ext_metadata x));
    ("applicationInfo", to_json (ext_applicationInfo x));
    ("resourcePath", to_json (ext_resourcePath x));
    ("enabled", to_json (ext_enabled x));
    ("process", to_json (ext_process x))
  ].
#[export] Instance ExtensionAbilityInfo_ToJson : ToJson ExtensionAbilityInfo := ExtensionAbilityInfo_to_json.

Definition ExtensionAbilityInfo_from_json (j : json) (x : ExtensionAbilityInfo) : M ExtensionAbilityInfo :=
  x ← GetValueIfFindKey LOCAL j "bundleName" get_string STRING false NOT_ARRAY (λ v x, x <| ext_bundleName := v |>) x;
  x ← GetValueIfFindKey LOCAL j "moduleName" get_string STRING false NOT_ARRAY (λ v x, x <| ext_moduleName := v |>) x;
  x ← GetValueIfFindKey LOCAL j "name" get_string STRING false NOT_ARRAY (λ v x, x <| ext_name := v |>) x;
  x ← GetValueIfFindKey LOCAL j "srcEntrance" get_string STRING false NOT_ARRAY
        (λ v x, x <| ext_srcEntrance := v |>) x;
  x ← GetValueIfFindKey LOCAL j "icon" get_string STRING false NOT_ARRAY (λ v x, x <| ext_icon := v |>) x;
  x ← GetValueIfFindKey LOCAL j "iconId" get_int32 NUMBER false NOT_ARRAY (λ v x, x <| ext_iconId := v |>) x;
  x ← GetValueIfFindKey LOCAL j "label" get_string STRING false NOT_ARRAY (λ v x, x <| ext_label := v |>) x;
  x ← GetValueIfFindKey LOCAL j "labelId" get_int32 NUMBER false NOT_ARRAY (λ v x, x <| ext_labelId := v |>) x;
  x ← GetValueIfFindKey LOCAL j "description" get_string STRING false NOT_ARRAY
        (λ v x, x <| ext_description := v |>) x;
  x ← GetValueIfFindKey LOCAL j "descriptionId" get_int32 NUMBER false NOT_ARRAY
        (λ v x, x <| ext_descriptionId := v |>) x;
  x ← GetValueIfFindKey LOCAL j "priority" get_int32 NUMBER false NOT_ARRAY (λ v x, x <| ext_priority := v |>) x;
  x ← GetValueIfFindKey LOCAL j "type" get_ExtensionAbilityType NUMBER false NOT_ARRAY
        (λ v x, x <| ext_type := v |>) x;
  x ← GetValueIfFindKey LOCAL j "readPermission" get_string STRING false NOT_ARRAY
        (λ v x, x <| ext_readPermission := v |>) x;
  x ← GetValueIfFindKey LOCAL j "writePermission" get_string STRING false NOT_ARRAY
        (λ v x, x <| ext_writePermission := v |>) x;
  x ← GetValueIfFindKey LOCAL j "uri" get_string STRING false NOT_ARRAY (λ v x, x <| ext_uri := v |>) x;
  x ← GetValueIfFindKey LOCAL j "permissions" (get_vector get_string) ARRAY false STRINGS
        (λ v x, x <| ext_permissions := v |>) x;
  x ← GetValueIfFindKey LOCAL j "visible" get_bool BOOLEAN false NOT_ARRAY (λ v x, x <| ext_visible := v |>) x;
  x ← GetValueIfFindKey LOCAL j "metadata" (get_vector get_Metadata) ARRAY false OBJECTS
        (λ v x, x <| ext_metadata := v |>) x;
  x ← GetValueIfFindKey LOCAL j "applicationInfo" get_ApplicationInfo OBJECT false NOT_ARRAY
        (λ v x, x <| ext_applicationInfo := v |>) x;
  x ← GetValueIfFindKey LOCAL j "resourcePath" get_string STRING false NOT_ARRAY
        (λ v x, x <| ext_resourcePath := v |>) x;
  x ← GetValueIfFindKey LOCAL j "enabled" get_bool BOOLEAN false NOT_ARRAY (λ v x, x <| ext_enabled := v |>) x;
  x ← GetValueIfFindKey LOCAL j "process" get_string STRING false NOT_ARRAY (λ v x, x <| ext_process := v |>) x;
  mret x.
Definition get_ExtensionAbilityInfo `{Uninit} : json → M ExtensionAbilityInfo := get_struct (new_ExtensionAbilityInfo
  uninit_type) ExtensionAbilityInfo_from_json.

(** The integers have their widths. *)
Definition ExtensionAbilityInfo_ok (x : ExtensionAbilityInfo) : Prop :=
  in_i32 (ext_iconId x)
  ∧ in_i32 (ext_labelId x)
  ∧ in_i32 (ext_descriptionId x)
  ∧ in_i32 (ext_priority x)
  ∧ ApplicationInfo_ok (ext_applicationInfo x).

Definition HapModuleInfo_to_json (x : HapModuleInfo) : json :=
  object [
    ("name", to_json (hm_name x));
    ("moduleName", to_json (hm_moduleName x));
    ("description", to_json (hm_description x));
    ("descriptionId", to_json (hm_descriptionId x));
    ("iconPath", to_json (hm_iconPath x));
    ("label", to_json (hm_label x));
    ("labelId", to_json (hm_labelId x));
    ("backgroundImg", to_json (hm_backgroundImg x));
    ("mainAbility", to_json (hm_mainAbility x));
    ("srcPath", to_json (hm_srcPath x));
    ("hashValue", to_json (hm_hashValue x));
    ("hapPath", to_json (hm_hapPath x));
    ("supportedModes", to_json (hm_supportedModes x));
    ("reqCapabilities", to_json (hm_reqCapabilities x));
    ("deviceTypes", to_json (hm_deviceTypes x));
    ("abilityInfos", to_json (hm_abilityInfos x));
    ("colorMode", to_json (hm_colorMode x));
    ("bundleName", to_json (hm_bundleName x));
    ("mainElementName", to_json (hm_mainElementName x));
    ("pages", to_json (hm_pages x));
    ("process", to_json (hm_process x));
    ("resourcePath", to_json (hm_resourcePath x));
    ("srcEntrance", to_json (hm_srcEntrance x));
    ("uiSyntax", to_json (hm_uiSyntax x));
    ("virtualMachine", to_json (hm_virtualMachine x));
    ("deliveryWithInstall", to_json (hm_deliveryWithInstall x));
    ("installationFree", to_json (hm_installationFree x));
    ("isModuleJson", to_json (hm_isModuleJson x));
    ("isStageBasedModel", to_json (hm_isStageBasedModel x));
    ("isRemovable", to_json (hm_isRemovable x));
    ("upgradeFlag", to_json (hm_upgradeFlag x));
    ("moduleType", to_json (hm_moduleType x));
    ("extensionInfos", to_json (hm_extensionInfos x));
    ("metadata", to_json (hm_metadata x));
    ("dependencies", to_json (hm_dependencies x))
  ].
#[export] Instance HapModuleInfo_ToJson : ToJson HapModuleInfo := HapModuleInfo_to_json.

Definition HapModuleInfo_from_json_1 `{Uninit} (j : json) (x : HapModuleInfo) : M HapModuleInfo :=
  x ← GetValueIfFindKey LOCAL j "name" get_string STRING false NOT_ARRAY (λ v x, x <| hm_name := v |>) x;
  x ← GetValueIfFindKey LOCAL j "moduleName" get_string STRING false NOT_ARRAY (λ v x, x <| hm_moduleName := v |>) x;
  x ← GetValueIfFindKey LOCAL j "description" get_string STRING false NOT_ARRAY
        (λ v x, x <| hm_description := v |>) x;
  x ← GetValueIfFindKey LOCAL j "descriptionId" get_int32 NUMBER false NOT_ARRAY
        (λ v x, x <| hm_descriptionId := v |>) x;
  x ← GetValueIfFindKey LOCAL j "iconPath" get_string STRING false NOT_ARRAY (λ v x, x <| hm_iconPath := v |>) x;
  x ← GetValueIfFindKey LOCAL j "label" get_string STRING false NOT_ARRAY (λ v x, x <| hm_label := v |>) x;
  x ← GetValueIfFindKey LOCAL j "labelId" get_int32 NUMBER false NOT_ARRAY (λ v x, x <| hm_labelId := v |>) x;
  x ← GetValueIfFindKey LOCAL j "backgroundImg" get_string STRING false NOT_ARRAY
        (λ v x, x <| hm_backgroundImg := v |>) x;
  x ← GetValueIfFindKey LOCAL j "mainAbility" get_string STRING false NOT_ARRAY
        (λ v x, x <| hm_mainAbility := v |>) x;
  x ← GetValueIfFindKey LOCAL j "srcPath" get_string STRING false NOT_ARRAY (λ v x, x <| hm_srcPath := v |>) x;
  x ← GetValueIfFindKey LOCAL j "hashValue" get_string STRING false NOT_ARRAY (λ v x, x <| hm_hashValue := v |>) x;
  x ← GetValueIfFindKey LOCAL j "hapPath" get_string STRING false NOT_ARRAY (λ v x, x <| hm_hapPath := v |>) x;
  x ← GetValueIfFindKey LOCAL j "supportedModes" get_int32 NUMBER false NOT_ARRAY
        (λ v x, x <| hm_supportedModes := v |>) x;
  x ← GetValueIfFindKey LOCAL j "reqCapabilities" (get_vector get_string) ARRAY false STRINGS
        (λ v x, x <| hm_reqCapabilities := v |>) x;
  x ← GetValueIfFindKey LOCAL j "deviceTypes" (get_vector get_string) ARRAY false STRINGS
        (λ v x, x <| hm_deviceTypes := v |>) x;
  x ← GetValueIfFindKey LOCAL j "abilityInfos" (get_vector get_AbilityInfo) ARRAY false OBJECTS
        (λ v x, x <| hm_abilityInfos := v |>) x;
  x ← GetValueIfFindKey LOCAL j "colorMode" get_ModuleColorMode NUMBER false NOT_ARRAY
        (λ v x, x <| hm_colorMode := v |>) x;
  x ← GetValueIfFindKey LOCAL j "bundleName" get_string STRING false NOT_ARRAY (λ v x, x <| hm_bundleName := v |>) x;
  mret x.

Definition HapModuleInfo_from_json_2 `{Uninit} (j : json) (x : HapModuleInfo) : M HapModuleInfo :=
  x ← GetValueIfFindKey LOCAL j "mainElementName" get_string STRING false NOT_ARRAY
        (λ v x, x <| hm_mainElementName := v |>) x;
  x ← GetValueIfFindKey LOCAL j "pages" get_string STRING false NOT_ARRAY (λ v x, x <| hm_pages := v |>) x;
  x ← GetValueIfFindKey LOCAL j "process" get_string STRING false NOT_ARRAY (λ v x, x <| hm_process := v |>) x;
  x ← GetValueIfFindKey LOCAL j "resourcePath" get_string STRING false NOT_ARRAY
        (λ v x, x <| hm_resourcePath := v |>) x;
  x ← GetValueIfFindKey LOCAL j "srcEntrance" get_string STRING false NOT_ARRAY
        (λ v x, x <| hm_srcEntrance := v |>) x;
  x ← GetValueIfFindKey LOCAL j "uiSyntax" get_string STRING false NOT_ARRAY (λ v x, x <| hm_uiSyntax := v |>) x;
  x ← GetValueIfFindKey LOCAL j "virtualMachine" get_string STRING false NOT_ARRAY
        (λ v x, x <| hm_virtualMachine := v |>) x;
  x ← GetValueIfFindKey LOCAL j "deliveryWithInstall" get_bool BOOLEAN false NOT_ARRAY
        (λ v x, x <| hm_deliveryWithInstall := v |>) x;
  x ← GetValueIfFindKey LOCAL j "installationFree" get_bool BOOLEAN false NOT_ARRAY
        (λ v x, x <| hm_installationFree := v |>) x;
  x ← GetValueIfFindKey LOCAL j "isModuleJson" get_bool BOOLEAN false NOT_ARRAY
        (λ v x, x <| hm_isModuleJson := v |>) x;
  x ← GetValueIfFindKey LOCAL j "isStageBasedModel" get_bool BOOLEAN false NOT_ARRAY
        (λ v x, x <| hm_isStageBasedModel := v |>) x;
  x ← GetValueIfFindKey LOCAL j "isRemovable" (get_map get_bool) OBJECT false NOT_ARRAY
        (λ v x, x <| hm_isRemovable := v |>) x;
  x ← GetValueIfFindKey LOCAL j "upgradeFlag" get_int32 NUMBER false NOT_ARRAY (λ v x, x <| hm_upgradeFlag := v |>) x;
  x ← GetValueIfFindKey LOCAL j "moduleType" get_ModuleType NUMBER false NOT_ARRAY
        (λ v x, x <| hm_moduleType := v |>) x;
  x ← GetValueIfFindKey LOCAL j "extensionInfos" (get_vector get_ExtensionAbilityInfo) ARRAY false OBJECTS
        (λ v x, x <| hm_extensionInfos := v |>) x;
  x ← GetValueIfFindKey LOCAL j "metadata" (get_vector get_Metadata) ARRAY false OBJECTS
        (λ v x, x <| hm_metadata := v |>) x;
  x ← GetValueIfFindKey LOCAL j "dependencies" (get_vector get_string) ARRAY false STRINGS
        (λ v x, x <| hm_dependencies := v |>) x;
  mret x.

Definition HapModuleInfo_from_json `{Uninit} (j : json) (x : HapModuleInfo) : M HapModuleInfo :=
  x ← HapModuleInfo_from_json_1 j x; HapModuleInfo_from_json_2 j x.
Definition get_HapModuleInfo `{Uninit} : json → M HapModuleInfo := get_struct new_HapModuleInfo
  HapModuleInfo_from_json.

(** The integers have their widths, the maps are maps. *)
Definition HapModuleInfo_ok (x : HapModuleInfo) : Prop :=
  in_i32 (hm_descriptionId x)
  ∧ in_i32 (hm_labelId x)
  ∧ in_i32 (hm_supportedModes x)
  ∧ Forall AbilityInfo_ok (hm_abilityInfos x)
  ∧ sm_wf (hm_isRemovable x)
  ∧ Forall ExtensionAbilityInfo_ok (hm_extensionInfos x)
  ∧ in_i32 (hm_upgradeFlag x).

Definition RequestPermissionUsedScene_to_json (x : RequestPermissionUsedScene) : json :=
  object [
    ("abilities", to_json (rpu_abilities x));
    ("when", to_json (rpu_when x))
  ].
#[export] Instance RequestPermissionUsedScene_ToJson : ToJson RequestPermissionUsedScene :=
  RequestPermissionUsedScene_to_json.

Definition RequestPermissionUsedScene_from_json (j : json) (x : RequestPermissionUsedScene) : M
  RequestPermissionUsedScene :=
  x ← GetValueIfFindKey LOCAL j "abilities" (get_vector get_string) ARRAY false STRINGS
        (λ v x, x <| rpu_abilities := v |>) x;
  x ← GetValueIfFindKey LOCAL j "ability" (get_vector get_string) ARRAY false STRINGS
        (λ v x, x <| rpu_abilities := v |>) x;
  x ← GetValueIfFindKey LOCAL j "when" get_string STRING false NOT_ARRAY (λ v x, x <| rpu_when := v |>) x;
  mret x.
Definition get_RequestPermissionUsedScene : json → M RequestPermissionUsedScene := get_struct
  new_RequestPermissionUsedScene RequestPermissionUsedScene_from_json.

Definition RequestPermission_to_json (x : RequestPermission) : json :=
  object [
    ("name", to_json (rp_name x));
    ("reason", to_json (rp_reason x));
    ("reasonId", to_json (rp_reasonId x));
    ("usedScene", to_json (rp_usedScene x))
  ].
#[export] Instance RequestPermission_ToJson : ToJson RequestPermission := RequestPermission_to_json.

Definition RequestPermission_from_json (j : json) (x : RequestPermission) : M RequestPermission :=
  x ← GetValueIfFindKey LOCAL j "name" get_string STRING false NOT_ARRAY (λ v x, x <| rp_name := v |>) x;
  x ← GetValueIfFindKey LOCAL j "reason" get_string STRING false NOT_ARRAY (λ v x, x <| rp_reason := v |>) x;
  x ← GetValueIfFindKey LOCAL j "reasonId" get_int32 NUMBER false NOT_ARRAY (λ v x, x <| rp_reasonId := v |>) x;
  x ← GetValueIfFindKey LOCAL j "usedScene" get_RequestPermissionUsedScene OBJECT false NOT_ARRAY
        (λ v x, x <| rp_usedScene := v |>) x;
  mret x.
Definition get_RequestPermission : json → M RequestPermission := get_struct new_RequestPermission
  RequestPermission_from_json.

(** The integers have their widths. *)
Definition RequestPermission_ok (x : RequestPermission) : Prop :=
  in_i32 (rp_reasonId x).

Definition BundleInfo_to_json (x : BundleInfo) : json :=
  object [
    ("name", to_json (bi_name x));
    ("label", to_json (bi_label x));
    ("description", to_json (bi_description x));
    ("vendor", to_json (bi_vendor x));
    ("isKeepAlive", to_json (bi_isKeepAlive x));
    ("isNativeApp", to_json (bi_isNativeApp x));
    ("isPreInstallApp", to_json (bi_isPreInstallApp x));
    ("isDifferentName", to_json (bi_isDifferentName x));
    ("applicationInfo", to_json (bi_applicationInfo x));
    ("abilityInfos", to_json (bi_abilityInfos x));
    ("hapModuleInfos", to_json (bi_hapModuleInfos x));
    ("extensionAbilityInfo", to_json (bi_extensionInfos x));
    ("jointUserId", to_json (bi_jointUserId x));
    ("versionCode", to_json (bi_versionCode x));
    ("minCompatibleVersionCode", to_json (bi_minCompatibleVersionCode x));
    ("versionName", to_json (bi_versionName x));
    ("minSdkVersion", to_json (bi_minSdkVersion x));
    ("maxSdkVersion", to_json (bi_maxSdkVersion x));
    ("mainEntry", to_json (bi_mainEntry x));
    ("cpuAbi", to_json (bi_cpuAbi x));
    ("appId", to_json (bi_appId x));
    ("compatibleVersion", to_json (bi_compatibleVersion x));
    ("targetVersion", to_json (bi_targetVersion x));
    ("releaseType", to_json (bi_releaseType x));
    ("uid", to_json (bi_uid x));
    ("gid", to_json (bi_gid x));
    ("seInfo", to_json (bi_seInfo x));
    ("installTime", to_json (bi_installTime x));
    ("updateTime", to_json (bi_updateTime x));
    ("entryModuleName", to_json (bi_entryModuleName x));
    ("entryInstallationFree", to_json (bi_entryInstallationFree x));
    ("reqPermissions", to_json (bi_reqPermissions x));
    ("reqPermissionStates", to_json (bi_reqPermissionStates x));
    ("reqPermissionDetails", to_json (bi_reqPermissionDetails x));
    ("defPermissions", to_json (bi_defPermissions x));
    ("hapModuleNames", to_json (bi_hapModuleNames x));
    ("moduleNames", to_json (bi_moduleNames x));
    ("modulePublicDirs", to_json (bi_modulePublicDirs x));
    ("moduleDirs", to_json (bi_moduleDirs x));
    ("moduleResPaths", to_json (bi_moduleResPaths x));
    ("singleton", to_json (bi_singleton x))
  ].
#[export] Instance BundleInfo_ToJson : ToJson BundleInfo := BundleInfo_to_json.

Definition BundleInfo_from_json_1 `{Uninit} (j : json) (x : BundleInfo) : M BundleInfo :=
  x ← GetValueIfFindKey LOCAL j "name" get_string STRING false NOT_ARRAY (λ v x, x <| bi_name := v |>) x;
  x ← GetValueIfFindKey LOCAL j "label" get_string STRING false NOT_ARRAY (λ v x, x <| bi_label := v |>) x;
  x ← GetValueIfFindKey LOCAL j "description" get_string STRING false NOT_ARRAY
        (λ v x, x <| bi_description := v |>) x;
  x ← GetValueIfFindKey LOCAL j "vendor" get_string STRING false NOT_ARRAY (λ v x, x <| bi_vendor := v |>) x;
  x ← GetValueIfFindKey LOCAL j "isKeepAlive" get_bool BOOLEAN false NOT_ARRAY (λ v x, x <| bi_isKeepAlive := v |>) x;
  x ← GetValueIfFindKey LOCAL j "isNativeApp" get_bool BOOLEAN false NOT_ARRAY (λ v x, x <| bi_isNativeApp := v |>) x;
  x ← GetValueIfFindKey LOCAL j "isPreInstallApp" get_bool BOOLEAN false NOT_ARRAY
        (λ v x, x <| bi_isPreInstallApp := v |>) x;
  x ← GetValueIfFindKey LOCAL j "isDifferentName" get_bool BOOLEAN false NOT_ARRAY
        (λ v x, x <| bi_isDifferentName := v |>) x;
  x ← GetValueIfFindKey LOCAL j "applicationInfo" get_ApplicationInfo OBJECT false NOT_ARRAY
        (λ v x, x <| bi_applicationInfo := v |>) x;
  x ← GetValueIfFindKey LOCAL j "abilityInfos" (get_vector get_AbilityInfo) ARRAY false OBJECTS
        (λ v x, x <| bi_abilityInfos := v |>) x;
  x ← GetValueIfFindKey LOCAL j "hapModuleInfos" (get_vector get_HapModuleInfo) ARRAY false OBJECTS
        (λ v x, x <| bi_hapModuleInfos := v |>) x;
  x ← GetValueIfFindKey LOCAL j "versionCode" get_uint32 NUMBER false NOT_ARRAY
        (λ v x, x <| bi_versionCode := v |>) x;
  x ← GetValueIfFindKey LOCAL j "minCompatibleVersionCode" get_uint32 NUMBER false NOT_ARRAY
        (λ v x, x <| bi_minCompatibleVersionCode := v |>) x;
  x ← GetValueIfFindKey LOCAL j "versionName" get_string STRING false NOT_ARRAY
        (λ v x, x <| bi_versionName := v |>) x;
  x ← GetValueIfFindKey LOCAL j "jointUserId" get_string STRING false NOT_ARRAY
        (λ v x, x <| bi_jointUserId := v |>) x;
  x ← GetValueIfFindKey LOCAL j "minSdkVersion" get_int32 NUMBER false NOT_ARRAY
        (λ v x, x <| bi_minSdkVersion := v |>) x;
  x ← GetValueIfFindKey LOCAL j "maxSdkVersion" get_int32 NUMBER false NOT_ARRAY
        (λ v x, x <| bi_maxSdkVersion := v |>) x;
  x ← GetValueIfFindKey LOCAL j "mainEntry" get_string STRING false NOT_ARRAY (λ v x, x <| bi_mainEntry := v |>) x;
  mret x.

Definition BundleInfo_from_json_2 (j : json) (x : BundleInfo) : M BundleInfo :=
  x ← GetValueIfFindKey LOCAL j "cpuAbi" get_string STRING false NOT_ARRAY (λ v x, x <| bi_cpuAbi := v |>) x;
  x ← GetValueIfFindKey LOCAL j "appId" get_string STRING false NOT_ARRAY (λ v x, x <| bi_appId := v |>) x;
  x ← GetValueIfFindKey LOCAL j "compatibleVersion" get_int32 NUMBER false NOT_ARRAY
        (λ v x, x <| bi_compatibleVersion := u32 v |>) x;
  x ← GetValueIfFindKey LOCAL j "targetVersion" get_uint32 NUMBER false NOT_ARRAY
        (λ v x, x <| bi_targetVersion := v |>) x;
  x ← GetValueIfFindKey LOCAL j "releaseType" get_string STRING false NOT_ARRAY
        (λ v x, x <| bi_releaseType := v |>) x;
  x ← GetValueIfFindKey LOCAL j "uid" get_int32 NUMBER false NOT_ARRAY (λ v x, x <| bi_uid := v |>) x;
  x ← GetValueIfFindKey LOCAL j "gid" get_int32 NUMBER false NOT_ARRAY (λ v x, x <| bi_gid := v |>) x;
  x ← GetValueIfFindKey LOCAL j "seInfo" get_string STRING false NOT_ARRAY (λ v x, x <| bi_seInfo := v |>) x;
  x ← GetValueIfFindKey LOCAL j "installTime" get_int64 NUMBER false NOT_ARRAY (λ v x, x <| bi_installTime := v |>) x;
  x ← GetValueIfFindKey LOCAL j "updateTime" get_int64 NUMBER false NOT_ARRAY (λ v x, x <| bi_updateTime := v |>) x;
  x ← GetValueIfFindKey LOCAL j "entryModuleName" get_string STRING false NOT_ARRAY
        (λ v x, x <| bi_entryModuleName := v |>) x;
  x ← GetValueIfFindKey LOCAL j "entryInstallationFree" get_bool BOOLEAN false NOT_ARRAY
        (λ v x, x <| bi_entryInstallationFree := v |>) x;
  x ← GetValueIfFindKey LOCAL j "reqPermissions" (get_vector get_string) ARRAY false STRINGS
        (λ v x, x <| bi_reqPermissions := v |>) x;
  x ← GetValueIfFindKey LOCAL j "reqPermissionStates" (get_vector get_int32) ARRAY false NUMBERS
        (λ v x, x <| bi_reqPermissionStates := v |>) x;
  x ← GetValueIfFindKey LOCAL j "reqPermissionDetails" (get_vector get_RequestPermission) ARRAY false OBJECTS
        (λ v x, x <| bi_reqPermissionDetails := v |>) x;
  x ← GetValueIfFindKey LOCAL j "defPermissions" (get_vector get_string) ARRAY false STRINGS
        (λ v x, x <| bi_defPermissions := v |>) x;
  x ← GetValueIfFindKey LOCAL j "hapModuleNames" (get_vector get_string) ARRAY false STRINGS
        (λ v x, x <| bi_hapModuleNames := v |>) x;
  x ← GetValueIfFindKey LOCAL j "moduleNames" (get_vector get_string) ARRAY false STRINGS
        (λ v x, x <| bi_moduleNames := v |>) x;
  mret x.

Definition BundleInfo_from_json_3 `{Uninit} (j : json) (x : BundleInfo) : M BundleInfo :=
  x ← GetValueIfFindKey LOCAL j "modulePublicDirs" (get_vector get_string) ARRAY false STRINGS
        (λ v x, x <| bi_modulePublicDirs := v |>) x;
  x ← GetValueIfFindKey LOCAL j "moduleDirs" (get_vector get_string) ARRAY false STRINGS
        (λ v x, x <| bi_moduleDirs := v |>) x;
  x ← GetValueIfFindKey LOCAL j "moduleResPaths" (get_vector get_string) ARRAY false STRINGS
        (λ v x, x <| bi_moduleResPaths := v |>) x;
  x ← GetValueIfFindKey LOCAL j "singleton" get_bool BOOLEAN false NOT_ARRAY (λ v x, x <| bi_singleton := v |>) x;
  x ← GetValueIfFindKey LOCAL j "extensionAbilityInfo" (get_vector get_ExtensionAbilityInfo) ARRAY false OBJECTS
        (λ v x, x <| bi_extensionInfos := v |>) x;
  mret x.

Definition BundleInfo_from_json `{Uninit} (j : json) (x : BundleInfo) : M BundleInfo :=
  x ← BundleInfo_from_json_1 j x; x ← BundleInfo_from_json_2 j x; BundleInfo_from_json_3 j x.
Definition get_BundleInfo `{Uninit} : json → M BundleInfo := get_struct new_BundleInfo BundleInfo_from_json.

(** The integers have their widths. *)
Definition BundleInfo_ok (x : BundleInfo) : Prop :=
  in_u32 (bi_versionCode x)
  ∧ in_u32 (bi_minCompatibleVersionCode x)
  ∧ in_u32 (bi_compatibleVersion x)
  ∧ in_u32 (bi_targetVersion x)
  ∧ in_i32 (bi_uid x)
  ∧ in_i32 (bi_gid x)
  ∧ in_i64 (bi_installTime x)
  ∧ in_i64 (bi_updateTime x)
  ∧ ApplicationInfo_ok (bi_applicationInfo x)
  ∧ Forall AbilityInfo_ok (bi_abilityInfos x)
  ∧ Forall ExtensionAbilityInfo_ok (bi_extensionInfos x)
  ∧ Forall HapModuleInfo_ok (bi_hapModuleInfos x)
  ∧ Forall in_i32 (bi_reqPermissionStates x)
  ∧ Forall RequestPermission_ok (bi_reqPermissionDetails x)
  ∧ in_i32 (bi_minSdkVersion x)
  ∧ in_i32 (bi_maxSdkVersion x).

Definition BundleUserInfo_to_json (x : BundleUserInfo) : json :=
  object [
    ("userId", to_json (bu_userId x));
    ("enabled", to_json (bu_enabled x));
    ("disabledAbilities", to_json (bu_disabledAbilities x))
  ].
#[export] Instance BundleUserInfo_ToJson : ToJson BundleUserInfo := BundleUserInfo_to_json.

Definition BundleUserInfo_from_json (j : json) (x : BundleUserInfo) : M BundleUserInfo :=
  x ← GetValueIfFindKey LOCAL j "userId" get_int32 NUMBER false NOT_ARRAY (λ v x, x <| bu_userId := v |>) x;
  x ← GetValueIfFindKey LOCAL j "enabled" get_bool BOOLEAN false NOT_ARRAY (λ v x, x <| bu_enabled := v |>) x;
  x ← GetValueIfFindKey LOCAL j "disabledAbilities" (get_vector get_string) ARRAY false STRINGS
        (λ v x, x <| bu_disabledAbilities := v |>) x;
  mret x.
Definition get_BundleUserInfo : json → M BundleUserInfo := get_struct new_BundleUserInfo BundleUserInfo_from_json.

(** The integers have their widths. *)
Definition BundleUserInfo_ok (x : BundleUserInfo) : Prop :=
  in_i32 (bu_userId x).

(** * Reading back what was written *)

Lemma AbilityType_round_trip e : decodes get_AbilityType (to_json e) e.
Proof. apply decodes_enum; by intros []. Qed.
#[export] Hint Resolve AbilityType_round_trip : json.

Lemma DisplayOrientation_round_trip e : decodes get_DisplayOrientation (to_json e) e.
Proof. apply decodes_enum; by intros []. Qed.
#[export] Hint Resolve DisplayOrientation_round_trip : json.

Lemma LaunchMode_round_trip e : decodes get_LaunchMode (to_json e) e.
Proof. apply decodes_enum; by intros []. Qed.
#[export] Hint Resolve LaunchMode_round_trip : json.

Lemma ExtensionAbilityType_round_trip e : decodes get_ExtensionAbilityType (to_json e) e.
Proof. apply decodes_enum; by intros []. Qed.
#[export] Hint Resolve ExtensionAbilityType_round_trip : json.

Lemma ModuleColorMode_round_trip e : decodes get_ModuleColorMode (to_json e) e.
Proof. apply decodes_enum; by intros []. Qed.
#[export] Hint Resolve ModuleColorMode_round_trip : json.

Lemma ModuleType_round_trip e : decodes get_ModuleType (to_json e) e.
Proof. apply decodes_enum; by intros []. Qed.
#[export] Hint Resolve ModuleType_round_trip : json.

Lemma ModuleInfo_round_trip x : decodes get_ModuleInfo (to_json x) x.
Proof.
  apply decodes_struct. unfold ModuleInfo_from_json. read_fields x.
Qed.
#[export] Hint Resolve ModuleInfo_round_trip : json.

Lemma Metadata_round_trip x : decodes get_Metadata (to_json x) x.
Proof.
  apply decodes_struct. unfold Metadata_from_json. read_fields x.
Qed.
#[export] Hint Resolve Metadata_round_trip : json.

Lemma CustomizeData_round_trip x : decodes get_CustomizeData (to_json x) x.
Proof.
  apply decodes_struct. unfold CustomizeData_from_json. read_fields x.
Qed.
#[export] Hint Resolve CustomizeData_round_trip : json.

Lemma MetaData_round_trip x : decodes get_MetaData (to_json x) x.
Proof.
  apply decodes_struct. unfold MetaData_from_json. read_fields x.
Qed.
#[export] Hint Resolve MetaData_round_trip : json.

Lemma ApplicationInfo_round_trip x : ApplicationInfo_ok x → decodes get_ApplicationInfo (to_json x) x.
Proof.
  unfold ApplicationInfo_ok. intros. destruct_and?. apply decodes_struct. unfold ApplicationInfo_from_json.
  eapply reads_bind; [unfold ApplicationInfo_from_json_1; read_part|cbv beta].
  eapply reads_bind; [unfold ApplicationInfo_from_json_2; read_part|cbv beta].
  unfold ApplicationInfo_from_json_3. read_fields x.
Qed.
#[export] Hint Resolve ApplicationInfo_round_trip : json.

Lemma AbilityInfo_round_trip `{Uninit} x : AbilityInfo_ok x → decodes get_AbilityInfo (to_json x) x.
Proof.
  unfold AbilityInfo_ok. intros. destruct_and?. apply decodes_struct. unfold AbilityInfo_from_json.
  eapply reads_bind; [unfold AbilityInfo_from_json_1; read_part|cbv beta].
  eapply reads_bind; [unfold AbilityInfo_from_json_2; read_part|cbv beta].
  eapply reads_bind; [unfold AbilityInfo_from_json_3; read_part|cbv beta].
  unfold AbilityInfo_from_json_4. read_fields x.
Qed.
#[export] Hint Resolve AbilityInfo_round_trip : json.

Lemma ExtensionAbilityInfo_round_trip `{Uninit} x : ExtensionAbilityInfo_ok x → decodes get_ExtensionAbilityInfo (to_json x) x.
Proof.
  unfold ExtensionAbilityInfo_ok. intros. destruct_and?. apply decodes_struct. unfold ExtensionAbilityInfo_from_json. read_fields x.
Qed.
#[export] Hint Resolve ExtensionAbilityInfo_round_trip : json.

Lemma HapModuleInfo_round_trip `{Uninit} x : HapModuleInfo_ok x → decodes get_HapModuleInfo (to_json x) x.
Proof.
  unfold HapModuleInfo_ok. intros. destruct_and?. apply decodes_struct. unfold HapModuleInfo_from_json.
  eapply reads_bind; [unfold HapModuleInfo_from_json_1; read_part|cbv beta].
  unfold HapModuleInfo_from_json_2. read_fields x.
Qed.
#[export] Hint Resolve HapModuleInfo_round_trip : json.

Lemma RequestPermissionUsedScene_round_trip x : decodes get_RequestPermissionUsedScene (to_json x) x.
Proof.
  apply decodes_struct. unfold RequestPermissionUsedScene_from_json. read_fields x.
Qed.
#[export] Hint Resolve RequestPermissionUsedScene_round_trip : json.

Lemma RequestPermission_round_trip x : RequestPermission_ok x → decodes get_RequestPermission (to_json x) x.
Proof.
  unfold RequestPermission_ok. intros. apply decodes_struct. unfold RequestPermission_from_json. read_fields x.
Qed.
#[export] Hint Resolve RequestPermission_round_trip : json.

Lemma BundleInfo_round_trip `{Uninit} x : BundleInfo_ok x → decodes get_BundleInfo (to_json x) x.
Proof.
  unfold BundleInfo_ok. intros. destruct_and?. apply decodes_struct. unfold BundleInfo_from_json.
  eapply reads_bind; [unfold BundleInfo_from_json_1; read_part|cbv beta].
  eapply reads_bind; [unfold BundleInfo_from_json_2; read_part|cbv beta].
  unfold BundleInfo_from_json_3. read_fields x.
Qed.
#[export] Hint Resolve BundleInfo_round_trip : json.

Lemma BundleUserInfo_round_trip x : BundleUserInfo_ok x → decodes get_BundleUserInfo (to_json x) x.
Proof.
  unfold BundleUserInfo_ok. intros. apply decodes_struct. unfold BundleUserInfo_from_json. read_fields x.
Qed.
#[export] Hint Resolve BundleUserInfo_round_trip : json.
