(* ===== verification/PackJson.v ===== *)
(** * PackJson: the JSON of forms, shortcuts, common events and pack infos

    As InfoJson.v, for common_event_info.cpp, shortcut_info.cpp, form_info.cpp
    and bundle_pack_info.cpp of interfaces/inner_api/appexecfwk_base/src.  The
    from_json functions of common events and forms read every key with [at],
    which throws when it is missing. *)

From stdpp Require Import strings.
From S2P Require Import Prelude StdMap BundleTypes Errors Json InfoJson.

Open Scope string_scope.
Open Scope list_scope.
Open Scope Z_scope.

Definition FormType_value (e : FormType) : Z :=
  match e with
  | FormType_JAVA => 0
  | FormType_JS => 1
  end.
Definition FormType_of (n : Z) : option FormType :=
  List.find (λ e, FormType_value e =? n) [FormType_JAVA; FormType_JS].
#[export] Instance FormType_ToJson : ToJson FormType := λ e, JNumber (FormType_value e).
Definition get_FormType : json → M FormType := get_enum FormType_of.

Definition FormsColorMode_value (e : FormsColorMode) : Z :=
  match e with
  | FormsColorMode_AUTO_MODE => -1
  | FormsColorMode_DARK_MODE => 0
  | FormsColorMode_LIGHT_MODE => 1
  end.
Definition FormsColorMode_of (n : Z) : option FormsColorMode :=
  List.find (λ e, FormsColorMode_value e =? n) [FormsColorMode_AUTO_MODE; FormsColorMode_DARK_MODE;
    FormsColorMode_LIGHT_MODE].
#[export] Instance FormsColorMode_ToJson : ToJson FormsColorMode := λ e, JNumber (FormsColorMode_value e).
Definition get_FormsColorMode : json → M FormsColorMode := get_enum FormsColorMode_of.

Definition CommonEventInfo_to_json (x : CommonEventInfo) : json :=
  object [
    ("name", to_json (ce_name x));
    ("bundleName", to_json (ce_bundleName x));
    ("uid", to_json (ce_uid x));
    ("permission", to_json (ce_permission x));
    ("data", to_json (ce_data x));
    ("type", to_json (ce_type x));
    ("events", to_json (ce_events x))
  ].
#[export] Instance CommonEventInfo_ToJson : ToJson CommonEventInfo := CommonEventInfo_to_json.

Definition CommonEventInfo_from_json (j : json) (x : CommonEventInfo) : M CommonEventInfo :=
  x ← read_at j "name" get_string (λ v x, x <| ce_name := v |>) x;
  x ← read_at j "bundleName" get_string (λ v x, x <| ce_bundleName := v |>) x;
  x ← read_at j "uid" get_int32 (λ v x, x <| ce_uid := v |>) x;
  x ← read_at j "permission" get_string (λ v x, x <| ce_permission := v |>) x;
  x ← read_at j "data" (get_vector get_string) (λ v x, x <| ce_data := v |>) x;
  x ← read_at j "type" (get_vector get_string) (λ v x, x <| ce_type := v |>) x;
  x ← read_at j "events" (get_vector get_string) (λ v x, x <| ce_events := v |>) x;
  mret x.
Definition get_CommonEventInfo : json → M CommonEventInfo := get_struct new_CommonEventInfo CommonEventInfo_from_json.

(** The integers have their widths. *)
Definition CommonEventInfo_ok (x : CommonEventInfo) : Prop :=
  in_i32 (ce_uid x).

Definition ShortcutIntent_to_json (x : ShortcutIntent) : json :=
  object [
    ("targetBundle", to_json (si_targetBundle x));
    ("targetClass", to_json (si_targetClass x))
  ].
#[export] Instance ShortcutIntent_ToJson : ToJson ShortcutIntent := ShortcutIntent_to_json.

Definition ShortcutIntent_from_json (j : json) (x : ShortcutIntent) : M ShortcutIntent :=
  x ← GetValueIfFindKey LOCAL j "targetBundle" get_string STRING false NOT_ARRAY
        (λ v x, x <| si_targetBundle := v |>) x;
  x ← GetValueIfFindKey LOCAL j "targetClass" get_string STRING false NOT_ARRAY
        (λ v x, x <| si_targetClass := v |>) x;
  mret x.
Definition get_ShortcutIntent : json → M ShortcutIntent := get_struct new_ShortcutIntent ShortcutIntent_from_json.

Definition ShortcutInfo_to_json (x : ShortcutInfo) : json :=
  object [
    ("id", to_json (sc_id x));
    ("bundleName", to_json (sc_bundleName x));
    ("hostAbility", to_json (sc_hostAbility x));
    ("icon", to_json (sc_icon x));
    ("label", to_json (sc_label x));
    ("disableMessage", to_json (sc_disableMessage x));
    ("isStatic", to_json (sc_isStatic x));
    ("isHomeShortcut", to_json (sc_isHomeShortcut x));
    ("isEnables", to_json (sc_isEnables x));
    ("intents", to_json (sc_intents x));
    ("iconId", to_json (sc_iconId x));
    ("labelId", to_json (sc_labelId x))
  ].
#[export] Instance ShortcutInfo_ToJson : ToJson ShortcutInfo := ShortcutInfo_to_json.

Definition ShortcutInfo_from_json (j : json) (x : ShortcutInfo) : M ShortcutInfo :=
  x ← GetValueIfFindKey LOCAL j "id" get_string STRING false NOT_ARRAY (λ v x, x <| sc_id := v |>) x;
  x ← GetValueIfFindKey LOCAL j "bundleName" get_string STRING false NOT_ARRAY (λ v x, x <| sc_bundleName := v |>) x;
  x ← GetValueIfFindKey LOCAL j "hostAbility" get_string STRING false NOT_ARRAY
        (λ v x, x <| sc_hostAbility := v |>) x;
  x ← GetValueIfFindKey LOCAL j "icon" get_string STRING false NOT_ARRAY (λ v x, x <| sc_icon := v |>) x;
  x ← GetValueIfFindKey LOCAL j "label" get_string STRING false NOT_ARRAY (λ v x, x <| sc_label := v |>) x;
  x ← GetValueIfFindKey LOCAL j "disableMessage" get_string STRING false NOT_ARRAY
        (λ v x, x <| sc_disableMessage := v |>) x;
  x ← GetValueIfFindKey LOCAL j "isStatic" get_bool BOOLEAN false NOT_ARRAY (λ v x, x <| sc_isStatic := v |>) x;
  x ← GetValueIfFindKey LOCAL j "isHomeShortcut" get_bool BOOLEAN false NOT_ARRAY
        (λ v x, x <| sc_isHomeShortcut := v |>) x;
  x ← GetValueIfFindKey LOCAL j "isEnables" get_bool BOOLEAN false NOT_ARRAY (λ v x, x <| sc_isEnables := v |>) x;
  x ← GetValueIfFindKey LOCAL j "intents" (get_vector get_ShortcutIntent) ARRAY false OBJECTS
        (λ v x, x <| sc_intents := v |>) x;
  x ← GetValueIfFindKey LOCAL j "iconId" get_int32 NUMBER false NOT_ARRAY (λ v x, x <| sc_iconId := v |>) x;
  x ← GetValueIfFindKey LOCAL j "labelId" get_int32 NUMBER false NOT_ARRAY (λ v x, x <| sc_labelId := v |>) x;
  mret x.
Definition get_ShortcutInfo `{Uninit} : json → M ShortcutInfo := get_struct (new_ShortcutInfo uninit)
  ShortcutInfo_from_json.

(** The integers have their widths. *)
Definition ShortcutInfo_ok (x : ShortcutInfo) : Prop :=
  in_i32 (sc_iconId x)
  ∧ in_i32 (sc_labelId x).

Definition FormCustomizeData_to_json (x : FormCustomizeData) : json :=
  object [
    ("name", to_json (fcd_name x));
    ("value", to_json (fcd_value x))
  ].
#[export] Instance FormCustomizeData_ToJson : ToJson FormCustomizeData := FormCustomizeData_to_json.

Definition FormCustomizeData_from_json (j : json) (x : FormCustomizeData) : M FormCustomizeData :=
  x ← read_at j "name" get_string (λ v x, x <| fcd_name := v |>) x;
  x ← read_at j "value" get_string (λ v x, x <| fcd_value := v |>) x;
  mret x.
Definition get_FormCustomizeData : json → M FormCustomizeData := get_struct new_FormCustomizeData
  FormCustomizeData_from_json.

Definition FormWindow_to_json (x : FormWindow) (j : json) : json :=
  set_keys j [
    ("designWidth", to_json (fw_designWidth x));
    ("autoDesignWidth", to_json (fw_autoDesignWidth x))
  ].
#[export] Instance FormWindow_ToJson : ToJson FormWindow := λ x, FormWindow_to_json x JNull.

Definition FormWindow_from_json (j : json) (x : FormWindow) : M FormWindow :=
  x ← read_at j "designWidth" get_int32 (λ v x, x <| fw_designWidth := v |>) x;
  x ← read_at j "autoDesignWidth" get_bool (λ v x, x <| fw_autoDesignWidth := v |>) x;
  mret x.
Definition get_FormWindow : json → M FormWindow := get_struct new_FormWindow FormWindow_from_json.

(** The integers have their widths. *)
Definition FormWindow_ok (x : FormWindow) : Prop :=
  in_i32 (fw_designWidth x).

Definition FormInfo_to_json (x : FormInfo) : json :=
  object [
    ("name", to_json (fi_name x));
    ("package", to_json (fi_package x));
    ("bundleName", to_json (fi_bundleName x));
    ("moduleName", to_json (fi_moduleName x));
    ("abilityName", to_json (fi_abilityName x));
    ("description", to_json (fi_description x));
    ("relatedBundleName", to_json (fi_relatedBundleName x));
    ("jsComponentName", to_json (fi_jsComponentName x));
    ("deepLink", to_json (fi_deepLink x));
    ("src", to_json (fi_src x));
    ("formConfigAbility", to_json (fi_formConfigAbility x));
    ("scheduledUpdateTime", to_json (fi_scheduledUpdateTime x));
    ("originalBundleName", to_json (fi_originalBundleName x));
    ("descriptionId", to_json (fi_descriptionId x));
    ("updateDuration", to_json (fi_updateDuration x));
    ("defaultDimension", to_json (fi_defaultDimension x));
    ("defaultFlag", to_json (fi_defaultFlag x));
    ("formVisibleNotify", to_json (fi_formVisibleNotify x));
    ("updateEnabled", to_json (fi_updateEnabled x));
    ("type", to_json (fi_type x));
    ("colorMode", to_json (fi_colorMode x));
    ("supportDimensions", to_json (fi_supportDimensions x));
    ("customizeData", to_json (fi_customizeDatas x));
    ("landscapeLayouts", to_json (fi_landscapeLayouts x));
    ("portraitLayouts", to_json (fi_portraitLayouts x));
    ("window", to_json (fi_window x))
  ].
#[export] Instance FormInfo_ToJson : ToJson FormInfo := FormInfo_to_json.

Definition FormInfo_from_json (j : json) (x : FormInfo) : M FormInfo :=
  x ← read_at j "bundleName" get_string (λ v x, x <| fi_bundleName := v |>) x;
  x ← read_at j "package" get_string (λ v x, x <| fi_package := v |>) x;
  x ← read_at j "moduleName" get_string (λ v x, x <| fi_moduleName := v |>) x;
  x ← read_at j "abilityName" get_string (λ v x, x <| fi_abilityName := v |>) x;
  x ← read_at j "name" get_string (λ v x, x <| fi_name := v |>) x;
  x ← read_at j "description" get_string (λ v x, x <| fi_description := v |>) x;
  x ← read_at j "relatedBundleName" get_string (λ v x, x <| fi_relatedBundleName := v |>) x;
  x ← read_at j "jsComponentName" get_string (λ v x, x <| fi_jsComponentName := v |>) x;
  x ← read_at j "deepLink" get_string (λ v x, x <| fi_deepLink := v |>) x;
  x ← read_at j "formConfigAbility" get_string (λ v x, x <| fi_formConfigAbility := v |>) x;
  x ← read_at j "scheduledUpdateTime" get_string (λ v x, x <| fi_scheduledUpdateTime := v |>) x;
  x ← read_at j "src" get_string (λ v x, x <| fi_src := v |>) x;
  x ← read_at j "originalBundleName" get_string (λ v x, x <| fi_originalBundleName := v |>) x;
  x ← read_at j "descriptionId" get_int32 (λ v x, x <| fi_descriptionId := v |>) x;
  x ← read_at j "updateDuration" get_int32 (λ v x, x <| fi_updateDuration := v |>) x;
  x ← read_at j "defaultDimension" get_int32 (λ v x, x <| fi_defaultDimension := v |>) x;
  x ← read_at j "defaultFlag" get_bool (λ v x, x <| fi_defaultFlag := v |>) x;
  x ← read_at j "formVisibleNotify" get_bool (λ v x, x <| fi_formVisibleNotify := v |>) x;
  x ← read_at j "updateEnabled" get_bool (λ v x, x <| fi_updateEnabled := v |>) x;
  x ← read_at j "type" get_FormType (λ v x, x <| fi_type := v |>) x;
  x ← read_at j "colorMode" get_FormsColorMode (λ v x, x <| fi_colorMode := v |>) x;
  x ← read_at j "supportDimensions" (get_vector get_int32) (λ v x, x <| fi_supportDimensions := v |>) x;
  x ← read_at j "customizeData" (get_vector get_FormCustomizeData) (λ v x, x <| fi_customizeDatas := v |>) x;
  x ← read_at j "landscapeLayouts" (get_vector get_string) (λ v x, x <| fi_landscapeLayouts := v |>) x;
  x ← read_at j "portraitLayouts" (get_vector get_string) (λ v x, x <| fi_portraitLayouts := v |>) x;
  x ← read_at j "window" get_FormWindow (λ v x, x <| fi_window := v |>) x;
  mret x.
Definition get_FormInfo : json → M FormInfo := get_struct new_FormInfo FormInfo_from_json.

(** The integers have their widths. *)
Definition FormInfo_ok (x : FormInfo) : Prop :=
  FormWindow_ok (fi_window x)
  ∧ in_i32 (fi_descriptionId x)
  ∧ in_i32 (fi_updateDuration x)
  ∧ in_i32 (fi_defaultDimension x)
  ∧ Forall in_i32 (fi_supportDimensions x).

Definition Version_to_json (x : Version) : json :=
  object [
    ("code", to_json (pv_code x));
    ("name", to_json (pv_name x));
    ("minCompatibleVersionCode", to_json (pv_minCompatibleVersionCode x))
  ].
#[export] Instance Version_ToJson : ToJson Version := Version_to_json.

Definition Version_from_json (j : json) (x : Version) : M Version :=
  x ← GetValueIfFindKey LOCAL j "code" get_uint32 NUMBER false NOT_ARRAY (λ v x, x <| pv_code := v |>) x;
  x ← GetValueIfFindKey LOCAL j "name" get_string STRING false NOT_ARRAY (λ v x, x <| pv_name := v |>) x;
  x ← GetValueIfFindKey LOCAL j "minCompatibleVersionCode" get_uint32 NUMBER false NOT_ARRAY
        (λ v x, x <| pv_minCompatibleVersionCode := v |>) x;
  mret x.
Definition get_Version : json → M Version := get_struct new_Version Version_from_json.

(** The integers have their widths. *)
Definition Version_ok (x : Version) : Prop :=
  in_u32 (pv_code x)
  ∧ in_u32 (pv_minCompatibleVersionCode x).

Definition PackageApp_to_json (x : PackageApp) : json :=
  object [
    ("bundleName", to_json (pa_bundleName x));
    ("version", to_json (pa_version x))
  ].
#[export] Instance PackageApp_ToJson : ToJson PackageApp := PackageApp_to_json.

Definition PackageApp_from_json (j : json) (x : PackageApp) : M PackageApp :=
  x ← GetValueIfFindKey LOCAL j "bundleName" get_string STRING false NOT_ARRAY (λ v x, x <| pa_bundleName := v |>) x;
  x ← GetValueIfFindKey LOCAL j "version" get_Version OBJECT false NOT_ARRAY (λ v x, x <| pa_version := v |>) x;
  mret x.
Definition get_PackageApp : json → M PackageApp := get_struct new_PackageApp PackageApp_from_json.

(** The integers have their widths. *)
Definition PackageApp_ok (x : PackageApp) : Prop :=
  Version_ok (pa_version x).

Definition AbilityFormInfo_to_json (x : AbilityFormInfo) : json :=
  object [
    ("name", to_json (paf_name x));
    ("type", to_json (paf_type x));
    ("updateEnabled", to_json (paf_updateEnabled x));
    ("scheduledUpdateTime", to_json (paf_scheduledUpdateTime x));
    ("updateDuration", to_json (paf_updateDuration x));
    ("supportDimensions", to_json (paf_supportDimensions x));
    ("defaultDimension", to_json (paf_defaultDimension x))
  ].
#[export] Instance AbilityFormInfo_ToJson : ToJson AbilityFormInfo := AbilityFormInfo_to_json.

Definition AbilityFormInfo_from_json (j : json) (x : AbilityFormInfo) : M AbilityFormInfo :=
  x ← GetValueIfFindKey LOCAL j "name" get_string STRING false NOT_ARRAY (λ v x, x <| paf_name := v |>) x;
  x ← GetValueIfFindKey LOCAL j "type" get_string STRING false NOT_ARRAY (λ v x, x <| paf_type := v |>) x;
  x ← GetValueIfFindKey LOCAL j "updateEnabled" get_bool BOOLEAN false NOT_ARRAY
        (λ v x, x <| paf_updateEnabled := v |>) x;
  x ← GetValueIfFindKey LOCAL j "scheduledUpdateTime" get_string STRING false NOT_ARRAY
        (λ v x, x <| paf_scheduledUpdateTime := v |>) x;
  x ← GetValueIfFindKey LOCAL j "updateDuration" get_uint32 NUMBER false NOT_ARRAY
        (λ v x, x <| paf_updateDuration := v |>) x;
  x ← GetValueIfFindKey LOCAL j "supportDimensions" (get_vector get_string) ARRAY false STRINGS
        (λ v x, x <| paf_supportDimensions := v |>) x;
  x ← GetValueIfFindKey LOCAL j "defaultDimension" get_string STRING false NOT_ARRAY
        (λ v x, x <| paf_defaultDimension := v |>) x;
  mret x.
Definition get_AbilityFormInfo : json → M AbilityFormInfo := get_struct new_AbilityFormInfo AbilityFormInfo_from_json.

(** The integers have their widths. *)
Definition AbilityFormInfo_ok (x : AbilityFormInfo) : Prop :=
  in_u32 (paf_updateDuration x).

Definition ExtensionAbilities_to_json (x : ExtensionAbilities) : json :=
  object [
    ("name", to_json (pea_name x));
    ("forms", to_json (pea_forms x))
  ].
#[export] Instance ExtensionAbilities_ToJson : ToJson ExtensionAbilities := ExtensionAbilities_to_json.

Definition ExtensionAbilities_from_json (j : json) (x : ExtensionAbilities) : M ExtensionAbilities :=
  x ← GetValueIfFindKey LOCAL j "name" get_string STRING false NOT_ARRAY (λ v x, x <| pea_name := v |>) x;
  x ← GetValueIfFindKey LOCAL j "forms" (get_vector get_AbilityFormInfo) ARRAY false OBJECTS
        (λ v x, x <| pea_forms := v |>) x;
  mret x.
Definition get_ExtensionAbilities : json → M ExtensionAbilities := get_struct new_ExtensionAbilities
  ExtensionAbilities_from_json.

(** The integers have their widths. *)
Definition ExtensionAbilities_ok (x : ExtensionAbilities) : Prop :=
  Forall AbilityFormInfo_ok (pea_forms x).

Definition ModuleAbilityInfo_to_json (x : ModuleAbilityInfo) : json :=
  object [
    ("name", to_json (pma_name x));
    ("label", to_json (pma_label x));
    ("visible", to_json (pma_visible x));
    ("forms", to_json (pma_forms x))
  ].
#[export] Instance ModuleAbilityInfo_ToJson : ToJson ModuleAbilityInfo := ModuleAbilityInfo_to_json.

Definition ModuleAbilityInfo_from_json (j : json) (x : ModuleAbilityInfo) : M ModuleAbilityInfo :=
  x ← GetValueIfFindKey LOCAL j "name" get_string STRING false NOT_ARRAY (λ v x, x <| pma_name := v |>) x;
  x ← GetValueIfFindKey LOCAL j "label" get_string STRING false NOT_ARRAY (λ v x, x <| pma_label := v |>) x;
  x ← GetValueIfFindKey LOCAL j "visible" get_bool BOOLEAN false NOT_ARRAY (λ v x, x <| pma_visible := v |>) x;
  x ← GetValueIfFindKey LOCAL j "forms" (get_vector get_AbilityFormInfo) ARRAY false OBJECTS
        (λ v x, x <| pma_forms := v |>) x;
  mret x.
Definition get_ModuleAbilityInfo : json → M ModuleAbilityInfo := get_struct new_ModuleAbilityInfo
  ModuleAbilityInfo_from_json.

(** The integers have their widths. *)
Definition ModuleAbilityInfo_ok (x : ModuleAbilityInfo) : Prop :=
  Forall AbilityFormInfo_ok (pma_forms x).

Definition ModuleDistro_to_json (x : ModuleDistro) : json :=
  object [
    ("moduleType", to_json (pmd_moduleType x));
    ("moduleName", to_json (pmd_moduleName x));
    ("installationFree", to_json (pmd_installationFree x));
    ("deliveryWithInstall", to_json (pmd_deliveryWithInstall x))
  ].
#[export] Instance ModuleDistro_ToJson : ToJson ModuleDistro := ModuleDistro_to_json.

Definition ModuleDistro_from_json (j : json) (x : ModuleDistro) : M ModuleDistro :=
  x ← GetValueIfFindKey LOCAL j "moduleType" get_string STRING false NOT_ARRAY (λ v x, x <| pmd_moduleType := v |>) x;
  x ← GetValueIfFindKey LOCAL j "moduleName" get_string STRING false NOT_ARRAY (λ v x, x <| pmd_moduleName := v |>) x;
  x ← GetValueIfFindKey LOCAL j "installationFree" get_bool BOOLEAN false NOT_ARRAY
        (λ v x, x <| pmd_installationFree := v |>) x;
  x ← GetValueIfFindKey LOCAL j "deliveryWithInstall" get_bool BOOLEAN false NOT_ARRAY
        (λ v x, x <| pmd_deliveryWithInstall := v |>) x;
  mret x.
Definition get_ModuleDistro : json → M ModuleDistro := get_struct new_ModuleDistro ModuleDistro_from_json.

Definition ApiVersion_to_json (x : ApiVersion) : json :=
  object [
    ("compatible", to_json (pav_compatible x));
    ("releaseType", to_json (pav_releaseType x));
    ("target", to_json (pav_target x))
  ].
#[export] Instance ApiVersion_ToJson : ToJson ApiVersion := ApiVersion_to_json.

Definition ApiVersion_from_json (j : json) (x : ApiVersion) : M ApiVersion :=
  x ← GetValueIfFindKey LOCAL j "compatible" get_uint32 NUMBER false NOT_ARRAY (λ v x, x <| pav_compatible := v |>) x;
  x ← GetValueIfFindKey LOCAL j "releaseType" get_string STRING false NOT_ARRAY
        (λ v x, x <| pav_releaseType := v |>) x;
  x ← GetValueIfFindKey LOCAL j "target" get_uint32 NUMBER false NOT_ARRAY (λ v x, x <| pav_target := v |>) x;
  mret x.
Definition get_ApiVersion : json → M ApiVersion := get_struct new_ApiVersion ApiVersion_from_json.

(** The integers have their widths. *)
Definition ApiVersion_ok (x : ApiVersion) : Prop :=
  in_u32 (pav_compatible x)
  ∧ in_u32 (pav_target x).

Definition PackageModule_to_json (x : PackageModule) : json :=
  object [
    ("mainAbility", to_json (pm_mainAbility x));
    ("deviceType", to_json (pm_deviceType x));
    ("abilities", to_json (pm_abilities x));
    ("extensionAbilities", to_json (pm_extensionAbilities x));
    ("distro", to_json (pm_distro x));
    ("apiVersion", to_json (pm_apiVersion x))
  ].
#[export] Instance PackageModule_ToJson : ToJson PackageModule := PackageModule_to_json.

Definition PackageModule_from_json (j : json) (x : PackageModule) : M PackageModule :=
  x ← GetValueIfFindKey LOCAL j "mainAbility" get_string STRING false NOT_ARRAY
        (λ v x, x <| pm_mainAbility := v |>) x;
  x ← GetValueIfFindKey LOCAL j "deviceType" (get_vector get_string) ARRAY false STRINGS
        (λ v x, x <| pm_deviceType := v |>) x;
  x ← GetValueIfFindKey LOCAL j "abilities" (get_vector get_ModuleAbilityInfo) ARRAY false OBJECTS
        (λ v x, x <| pm_abilities := v |>) x;
  x ← GetValueIfFindKey LOCAL j "extensionAbilities" (get_vector get_ExtensionAbilities) ARRAY false OBJECTS
        (λ v x, x <| pm_extensionAbilities := v |>) x;
  x ← GetValueIfFindKey LOCAL j "distro" get_ModuleDistro OBJECT false NOT_ARRAY (λ v x, x <| pm_distro := v |>) x;
  x ← GetValueIfFindKey LOCAL j "apiVersion" get_ApiVersion OBJECT false NOT_ARRAY
        (λ v x, x <| pm_apiVersion := v |>) x;
  mret x.
Definition get_PackageModule : json → M PackageModule := get_struct new_PackageModule PackageModule_from_json.

(** The integers have their widths. *)
Definition PackageModule_ok (x : PackageModule) : Prop :=
  Forall ModuleAbilityInfo_ok (pm_abilities x)
  ∧ Forall ExtensionAbilities_ok (pm_extensionAbilities x)
  ∧ ApiVersion_ok (pm_apiVersion x).

Definition Summary_to_json (x : Summary) : json :=
  object [
    ("app", to_json (ps_app x));
    ("modules", to_json (ps_modules x))
  ].
#[export] Instance Summary_ToJson : ToJson Summary := Summary_to_json.

Definition Summary_from_json (j : json) (x : Summary) : M Summary :=
  x ← GetValueIfFindKey LOCAL j "app" get_PackageApp OBJECT false NOT_ARRAY (λ v x, x <| ps_app := v |>) x;
  x ← GetValueIfFindKey LOCAL j "modules" (get_vector get_PackageModule) ARRAY false OBJECTS
        (λ v x, x <| ps_modules := v |>) x;
  mret x.
Definition get_Summary : json → M Summary := get_struct new_Summary Summary_from_json.

(** The integers have their widths. *)
Definition Summary_ok (x : Summary) : Prop :=
  PackageApp_ok (ps_app x)
  ∧ Forall PackageModule_ok (ps_modules x).

Definition Packages_to_json (x : Packages) : json :=
  object [
    ("deviceType", to_json (pp_deviceType x));
    ("moduleType", to_json (pp_moduleType x));
    ("deliveryWithInstall", to_json (pp_deliveryWithInstall x));
    ("name", to_json (pp_name x))
  ].
#[export] Instance Packages_ToJson : ToJson Packages := Packages_to_json.

Definition Packages_from_json (j : json) (x : Packages) : M Packages :=
  x ← GetValueIfFindKey LOCAL j "deviceType" (get_vector get_string) ARRAY false STRINGS
        (λ v x, x <| pp_deviceType := v |>) x;
  x ← GetValueIfFindKey LOCAL j "moduleType" get_string STRING false NOT_ARRAY (λ v x, x <| pp_moduleType := v |>) x;
  x ← GetValueIfFindKey LOCAL j "deliveryWithInstall" get_bool BOOLEAN false NOT_ARRAY
        (λ v x, x <| pp_deliveryWithInstall := v |>) x;
  x ← GetValueIfFindKey LOCAL j "name" get_string STRING false NOT_ARRAY (λ v x, x <| pp_name := v |>) x;
  mret x.
Definition get_Packages : json → M Packages := get_struct new_Packages Packages_from_json.

Definition BundlePackInfo_to_json (x : BundlePackInfo) : json :=
  object [
    ("summary", to_json (bpi_summary x));
    ("packages", to_json (bpi_packages x))
  ].
#[export] Instance BundlePackInfo_ToJson : ToJson BundlePackInfo := BundlePackInfo_to_json.

Definition BundlePackInfo_from_json (j : json) (x : BundlePackInfo) : M BundlePackInfo :=
  x ← GetValueIfFindKey LOCAL j "summary" get_Summary OBJECT false NOT_ARRAY (λ v x, x <| bpi_summary := v |>) x;
  x ← GetValueIfFindKey LOCAL j "packages" (get_vector get_Packages) ARRAY false OBJECTS
        (λ v x, x <| bpi_packages := v |>) x;
  mret x.
Definition get_BundlePackInfo : json → M BundlePackInfo := get_struct new_BundlePackInfo BundlePackInfo_from_json.

(** The integers have their widths. *)
Definition BundlePackInfo_ok (x : BundlePackInfo) : Prop :=
  Summary_ok (bpi_summary x).

(** * Reading back what was written *)

Lemma FormType_round_trip e : decodes get_FormType (to_json e) e.
Proof. apply decodes_enum; by intros []. Qed.
#[export] Hint Resolve FormType_round_trip : json.

Lemma FormsColorMode_round_trip e : decodes get_FormsColorMode (to_json e) e.
Proof. apply decodes_enum; by intros []. Qed.
#[export] Hint Resolve FormsColorMode_round_trip : json.

Lemma CommonEventInfo_round_trip x : CommonEventInfo_ok x → decodes get_CommonEventInfo (to_json x) x.
Proof.
  unfold CommonEventInfo_ok. intros. apply decodes_struct. unfold CommonEventInfo_from_json. read_fields x.
Qed.
#[export] Hint Resolve CommonEventInfo_round_trip : json.

Lemma ShortcutIntent_round_trip x : decodes get_ShortcutIntent (to_json x) x.
Proof.
  apply decodes_struct. unfold ShortcutIntent_from_json. read_fields x.
Qed.
#[export] Hint Resolve ShortcutIntent_round_trip : json.

Lemma ShortcutInfo_round_trip `{Uninit} x : ShortcutInfo_ok x → decodes get_ShortcutInfo (to_json x) x.
Proof.
  unfold ShortcutInfo_ok. intros. destruct_and?. apply decodes_struct. unfold ShortcutInfo_from_json. read_fields x.
Qed.
#[export] Hint Resolve ShortcutInfo_round_trip : json.

Lemma FormCustomizeData_round_trip x : decodes get_FormCustomizeData (to_json x) x.
Proof.
  apply decodes_struct. unfold FormCustomizeData_from_json. read_fields x.
Qed.
#[export] Hint Resolve FormCustomizeData_round_trip : json.

Lemma FormWindow_round_trip x : FormWindow_ok x → decodes get_FormWindow (to_json x) x.
Proof.
  unfold FormWindow_ok. intros. apply decodes_struct. unfold FormWindow_from_json. read_fields x.
Qed.
#[export] Hint Resolve FormWindow_round_trip : json.

Lemma FormInfo_round_trip x : FormInfo_ok x → decodes get_FormInfo (to_json x) x.
Proof.
  unfold FormInfo_ok. intros. destruct_and?. apply decodes_struct. unfold FormInfo_from_json. read_fields x.
Qed.
#[export] Hint Resolve FormInfo_round_trip : json.

Lemma Version_round_trip x : Version_ok x → decodes get_Version (to_json x) x.
Proof.
  unfold Version_ok. intros. destruct_and?. apply decodes_struct. unfold Version_from_json. read_fields x.
Qed.
#[export] Hint Resolve Version_round_trip : json.

Lemma PackageApp_round_trip x : PackageApp_ok x → decodes get_PackageApp (to_json x) x.
Proof.
  unfold PackageApp_ok. intros. apply decodes_struct. unfold PackageApp_from_json. read_fields x.
Qed.
#[export] Hint Resolve PackageApp_round_trip : json.

Lemma AbilityFormInfo_round_trip x : AbilityFormInfo_ok x → decodes get_AbilityFormInfo (to_json x) x.
Proof.
  unfold AbilityFormInfo_ok. intros. apply decodes_struct. unfold AbilityFormInfo_from_json. read_fields x.
Qed.
#[export] Hint Resolve AbilityFormInfo_round_trip : json.

Lemma ExtensionAbilities_round_trip x : ExtensionAbilities_ok x → decodes get_ExtensionAbilities (to_json x) x.
Proof.
  unfold ExtensionAbilities_ok. intros. apply decodes_struct. unfold ExtensionAbilities_from_json. read_fields x.
Qed.
#[export] Hint Resolve ExtensionAbilities_round_trip : json.

Lemma ModuleAbilityInfo_round_trip x : ModuleAbilityInfo_ok x → decodes get_ModuleAbilityInfo (to_json x) x.
Proof.
  unfold ModuleAbilityInfo_ok. intros. apply decodes_struct. unfold ModuleAbilityInfo_from_json. read_fields x.
Qed.
#[export] Hint Resolve ModuleAbilityInfo_round_trip : json.

Lemma ModuleDistro_round_trip x : decodes get_ModuleDistro (to_json x) x.
Proof.
  apply decodes_struct. unfold ModuleDistro_from_json. read_fields x.
Qed.
#[export] Hint Resolve ModuleDistro_round_trip : json.

Lemma ApiVersion_round_trip x : ApiVersion_ok x → decodes get_ApiVersion (to_json x) x.
Proof.
  unfold ApiVersion_ok. intros. destruct_and?. apply decodes_struct. unfold ApiVersion_from_json. read_fields x.
Qed.
#[export] Hint Resolve ApiVersion_round_trip : json.

Lemma PackageModule_round_trip x : PackageModule_ok x → decodes get_PackageModule (to_json x) x.
Proof.
  unfold PackageModule_ok. intros. destruct_and?. apply decodes_struct. unfold PackageModule_from_json. read_fields x.
Qed.
#[export] Hint Resolve PackageModule_round_trip : json.

Lemma Summary_round_trip x : Summary_ok x → decodes get_Summary (to_json x) x.
Proof.
  unfold Summary_ok. intros. destruct_and?. apply decodes_struct. unfold Summary_from_json. read_fields x.
Qed.
#[export] Hint Resolve Summary_round_trip : json.

Lemma Packages_round_trip x : decodes get_Packages (to_json x) x.
Proof.
  apply decodes_struct. unfold Packages_from_json. read_fields x.
Qed.
#[export] Hint Resolve Packages_round_trip : json.

Lemma BundlePackInfo_round_trip x : BundlePackInfo_ok x → decodes get_BundlePackInfo (to_json x) (x <| bpi_isValid := false |>).
Proof.
  unfold BundlePackInfo_ok. intros. apply decodes_struct. unfold BundlePackInfo_from_json. read_fields x.
Qed.
#[export] Hint Resolve BundlePackInfo_round_trip : json.
