(* ===== verification/Skill.v ===== *)
(** * Skill: matching a Want against the skills of an ability

    Models [Skill] of services/bundlemgr/src/inner_bundle_info.cpp (Match,
    MatchLauncher, MatchAction, MatchEntities, MatchUriAndType, MatchUri and
    MatchType) and states what it decides ([want_matches]).

    [Want] belongs to the ability framework; the record holds the answers of
    the getters the code calls.  [std::regex] is a parameter: [regex p] is
    [None] when constructing the expression throws, and otherwise whether
    [regex_match] accepts a string. *)

From stdpp Require Import strings.
From Stdlib Require Import Ascii.
From S2P Require Import Prelude Strings StdMap BundleTypes.

Open Scope Z_scope.
Open Scope string_scope.

(** ** Want *)

Record Want := mkWant {
  want_action : string;
  want_entities : list string;
  want_uriString : string;
  want_type : string;
  want_bundleName : string;
  want_moduleName : string;
  want_abilityName : string;
}.

#[export] Instance eta_Want : Eta Want := λ r,
  mkWant (want_action r) (want_entities r) (want_uriString r) (want_type r) (want_bundleName r)
    (want_moduleName r) (want_abilityName r).

(** ** Skill *)

Record SkillUri := mkSkillUri {
  su_scheme : string;
  su_host : string;
  su_port : string;
  su_path : string;
  su_pathStartWith : string;
  su_pathRegex : string;
  su_type : string;
}.

#[export] Instance eta_SkillUri : Eta SkillUri := λ r,
  mkSkillUri (su_scheme r) (su_host r) (su_port r) (su_path r) (su_pathStartWith r) (su_pathRegex r)
    (su_type r).
Definition new_SkillUri : SkillUri := mkSkillUri "" "" "" "" "" "" "".

Record Skill := mkSkill {
  sk_actions : list string;
  sk_entities : list string;
  sk_uris : list SkillUri;
}.

#[export] Instance eta_Skill : Eta Skill := λ r,
  mkSkill (sk_actions r) (sk_entities r) (sk_uris r).
Definition new_Skill : Skill := mkSkill [] [] [].

#[export] Instance SkillUri_eq_dec : EqDecision SkillUri.
Proof. solve_decision. Defined.
#[export] Instance Skill_eq_dec : EqDecision Skill.
Proof. solve_decision. Defined.

Definition WILDCARD : Ascii.ascii := "*"%char.
Definition TYPE_WILDCARD : string := "*/*".

Definition string_in (s : string) (l : list string) : bool := bool_decide (s ∈ l).

Section Match.
Context (regex : string → option (string → bool)).

Definition MatchAction (skill : Skill) (action : string) : bool :=
  match sk_actions skill with
  | [] => false
  | actions => if str_empty action then true else string_in action actions
  end.

Definition MatchEntities (skill : Skill) (paramEntities : list string) : bool :=
  match paramEntities with
  | [] => true
  | _ =>
      match sk_entities skill with
      | [] => false
      | entities => forallb (λ e, string_in e entities) paramEntities
      end
  end.

Definition MatchType (type skillUriType : string) : bool :=
  if str_empty skillUriType then false
  else if String.eqb type TYPE_WILDCARD || String.eqb skillUriType TYPE_WILDCARD then true
  else if bool_decide (str_back type = Some WILDCARD) then find_at_start (str_init type) skillUriType
  else if bool_decide (str_back skillUriType = Some WILDCARD) then find_at_start (str_init skillUriType) type
  else String.eqb type skillUriType.

(** [scheme://host[:port]] *)
Definition skill_authority (u : SkillUri) : string :=
  let s := su_scheme u +:+ "://" +:+ su_host u in
  if str_empty (su_port u) then s else s +:+ ":" +:+ su_port u.

Definition MatchUri (uriString : string) (u : SkillUri) : bool :=
  if str_empty (su_scheme u) then str_empty uriString
  else if str_empty (su_host u) then String.eqb uriString (su_scheme u)
  else
    let skillUriString := skill_authority u in
    if str_empty (su_path u) && str_empty (su_pathStartWith u) && str_empty (su_pathRegex u)
    then String.eqb uriString skillUriString
    else
      let skillUriString := skillUriString +:+ "/" in
      (negb (str_empty (su_path u)) && String.eqb uriString (skillUriString +:+ su_path u))
      || (negb (str_empty (su_pathStartWith u)) && find_at_start (skillUriString +:+ su_pathStartWith u) uriString)
      || (negb (str_empty (su_pathRegex u))
          && match regex (skillUriString +:+ su_pathRegex u) with Some matches => matches uriString | None => false end).

Definition MatchUriAndType (skill : Skill) (uriString type : string) : bool :=
  match str_empty uriString, str_empty type with
  | true, true =>
      match sk_uris skill with
      | [] => true
      | uris => existsb (λ u, str_empty (su_scheme u) && str_empty (su_type u)) uris
      end
  | false, true => existsb (λ u, MatchUri uriString u && str_empty (su_type u)) (sk_uris skill)
  | true, false => existsb (λ u, str_empty (su_scheme u) && MatchType type (su_type u)) (sk_uris skill)
  | false, false => existsb (λ u, MatchUri uriString u && MatchType type (su_type u)) (sk_uris skill)
  end.

Definition Match (skill : Skill) (want : Want) : bool :=
  if negb (MatchAction skill (want_action want)) then false
  else if negb (MatchEntities skill (want_entities want)) then false
  else if negb (MatchUriAndType skill (want_uriString want) (want_type want)) then false
  else true.

Definition MatchLauncher (skill : Skill) (want : Want) : bool :=
  if negb (MatchAction skill (want_action want)) then false
  else if negb (MatchEntities skill (want_entities want)) then false
  else true.

(** ** What a match means *)

(** Two MIME types are compatible: equal, or one of them is a pattern [p*]
    whose prefix the other one has. *)
Definition type_matches (type pattern : string) : Prop :=
  pattern ≠ "" ∧
  (type = TYPE_WILDCARD ∨ pattern = TYPE_WILDCARD
   ∨ (∃ p t, type = p +:+ "*" ∧ pattern = p +:+ t)
   ∨ (str_back type ≠ Some WILDCARD ∧ ∃ p t, pattern = p +:+ "*" ∧ type = p +:+ t)
   ∨ (str_back type ≠ Some WILDCARD ∧ str_back pattern ≠ Some WILDCARD ∧ type = pattern)).

(** The URIs a skill URI accepts. *)
Inductive uri_matches (u : SkillUri) : string → Prop :=
| uri_none : su_scheme u = "" → uri_matches u ""
| uri_scheme : su_scheme u ≠ "" → su_host u = "" → uri_matches u (su_scheme u)
| uri_host : su_scheme u ≠ "" → su_host u ≠ "" →
    su_path u = "" → su_pathStartWith u = "" → su_pathRegex u = "" → uri_matches u (skill_authority u)
| uri_path : su_scheme u ≠ "" → su_host u ≠ "" → su_path u ≠ "" →
    uri_matches u (skill_authority u +:+ "/" +:+ su_path u)
| uri_start rest : su_scheme u ≠ "" → su_host u ≠ "" → su_pathStartWith u ≠ "" →
    uri_matches u (skill_authority u +:+ "/" +:+ su_pathStartWith u +:+ rest)
| uri_regex s m : su_scheme u ≠ "" → su_host u ≠ "" → su_pathRegex u ≠ "" →
    regex (skill_authority u +:+ "/" +:+ su_pathRegex u) = Some m → m s = true → uri_matches u s.

(** The skill has an action and the one asked for, has all the entities
    asked for, and one URI entry fits both the URI and the type asked for
    (an entry for no URI, or for no type, when none is asked for). *)
Definition want_matches (skill : Skill) (want : Want) : Prop :=
  sk_actions skill ≠ []
  ∧ (want_action want = "" ∨ want_action want ∈ sk_actions skill)
  ∧ (∀ e, e ∈ want_entities want → e ∈ sk_entities skill)
  ∧ ((want_uriString want = "" ∧ want_type want = "" ∧ sk_uris skill = [])
     ∨ ∃ u, u ∈ sk_uris skill
         ∧ (if decide (want_uriString want = "") then su_scheme u = "" else uri_matches u (want_uriString want))
         ∧ (if decide (want_type want = "") then su_type u = "" else type_matches (want_type want) (su_type u))).

Lemma string_in_spec s l : string_in s l = true ↔ s ∈ l.
Proof. unfold string_in. by rewrite bool_decide_eq_true. Qed.

Lemma MatchEntities_spec skill es :
  MatchEntities skill es = true ↔ ∀ e, e ∈ es → e ∈ sk_entities skill.
Proof.
  unfold MatchEntities. destruct es as [|e es]; [split; [by intros _ e ?%elem_of_nil|done]|].
  destruct (sk_entities skill) as [|e' es'].
  - split; [done|]. intros H. specialize (H e (list_elem_of_here _ _)). by apply elem_of_nil in H.
  - rewrite forallb_forall. setoid_rewrite <- list_elem_of_In. setoid_rewrite string_in_spec. done.
Qed.

Lemma MatchType_spec type pattern : MatchType type pattern = true ↔ type_matches type pattern.
Proof.
  unfold MatchType, type_matches. destruct (str_empty pattern) eqn:Ee.
  { apply str_empty_spec in Ee. subst. by split; [|intros [? _]]. }
  assert (pattern ≠ "") as Hne by (intros ->; done).
  destruct (String.eqb type TYPE_WILDCARD || String.eqb pattern TYPE_WILDCARD) eqn:Ew.
  { apply orb_true_iff in Ew as [Ew|Ew]; apply String.eqb_eq in Ew; subst; naive_solver. }
  apply orb_false_iff in Ew as [Hw1 Hw2]. apply String.eqb_neq in Hw1, Hw2.
  case_bool_decide as Hb.
  { unfold find_at_start. rewrite prefix_app. pose proof (str_back_init _ _ Hb) as Hi. split.
    - intros [t Ht]. split; [done|]. do 2 right. left. by exists (str_init type), t.
    - intros (_ & [?|[?|[(p & t & Hp & Ht)|[[? _]|[? _]]]]]); try done.
      exists t. rewrite Hp, (str_init_app p "*"%char). done. }
  assert (¬ ∃ p t, type = p +:+ "*" ∧ pattern = p +:+ t) as Hno.
  { intros (p & t & -> & _). by rewrite (str_back_app p "*"%char) in Hb. }
  case_bool_decide as Hb2.
  { unfold find_at_start. rewrite prefix_app. pose proof (str_back_init _ _ Hb2) as Hi. split.
    - intros [t Ht]. split; [done|]. do 3 right. left. split; [done|]. by exists (str_init pattern), t.
    - intros (_ & [?|[?|[?|[(_ & p & t & Hp & Ht)|(_ & ? & _)]]]]); try done.
      exists t. rewrite Hp, (str_init_app p "*"%char). done. }
  rewrite String.eqb_eq. split; [naive_solver|].
  intros (_ & [?|[?|[?|[(_ & p & t & -> & _)|(_ & _ & ?)]]]]); try done.
  by rewrite (str_back_app p "*"%char) in Hb2.
Qed.

Lemma MatchUri_spec s u : MatchUri s u = true ↔ uri_matches u s.
Proof.
  unfold MatchUri. destruct (str_empty (su_scheme u)) eqn:E1.
  { apply str_empty_spec in E1. rewrite str_empty_spec. split; [intros ->; by constructor|].
    by inversion 1; subst. }
  assert (su_scheme u ≠ "") as Hs by (intros Hs; by rewrite Hs in E1).
  destruct (str_empty (su_host u)) eqn:E2.
  { apply str_empty_spec in E2. rewrite String.eqb_eq. split; [intros ->; by constructor|].
    by inversion 1; subst. }
  assert (su_host u ≠ "") as Hh by (intros Hh; by rewrite Hh in E2).
  assert (∀ t, negb (str_empty t) = true ↔ t ≠ "") as Hne by (intros []; simpl; naive_solver).
  destruct (str_empty (su_path u) && str_empty (su_pathStartWith u) && str_empty (su_pathRegex u)) eqn:E3.
  { apply andb_true_iff in E3 as [[?%str_empty_spec ?%str_empty_spec]%andb_true_iff ?%str_empty_spec].
    rewrite String.eqb_eq. split; [intros ->; by constructor|]. by inversion 1; subst. }
  rewrite !orb_true_iff, !andb_true_iff, !Hne, String.eqb_eq. unfold find_at_start. rewrite prefix_app.
  rewrite !string_app_assoc. split.
  - intros [[[Hp ->]|[Hp [t ->]]]|[Hp Hr]].
    + by apply uri_path.
    + rewrite !string_app_assoc. by apply uri_start.
    + destruct (regex _) as [m|] eqn:Er; [|done]. by eapply uri_regex.
  - inversion 1; subst; try done.
    + match goal with H1 : su_path u = "", H2 : su_pathStartWith u = "", H3 : su_pathRegex u = "" |- _ =>
        rewrite H1, H2, H3 in E3 end. done.
    + by left; left.
    + left; right. split; [done|]. eexists. by rewrite !string_app_assoc.
    + right. split; [done|]. by match goal with H : regex _ = Some _ |- _ => rewrite H end.
Qed.

Lemma existsb_elem {A} (f : A → bool) l : existsb f l = true ↔ ∃ x, x ∈ l ∧ f x = true.
Proof. rewrite existsb_exists. by setoid_rewrite list_elem_of_In. Qed.

Lemma MatchUriAndType_spec skill uri type :
  MatchUriAndType skill uri type = true ↔
  (uri = "" ∧ type = "" ∧ sk_uris skill = [])
  ∨ ∃ u, u ∈ sk_uris skill
      ∧ (if decide (uri = "") then su_scheme u = "" else uri_matches u uri)
      ∧ (if decide (type = "") then su_type u = "" else type_matches type (su_type u)).
Proof.
  unfold MatchUriAndType.
  destruct (str_empty uri) eqn:E1, (str_empty type) eqn:E2.
  all: rewrite ?str_empty_spec in E1; rewrite ?str_empty_spec in E2.
  all: try (assert (uri ≠ "") by (intros ->; done)); try (assert (type ≠ "") by (intros ->; done)).
  all: repeat case_decide; try done; subst.
  - destruct (sk_uris skill) as [|u us] eqn:Eu; [naive_solver|].
    rewrite existsb_elem. setoid_rewrite andb_true_iff. setoid_rewrite str_empty_spec. naive_solver.
  - rewrite existsb_elem. setoid_rewrite andb_true_iff. setoid_rewrite str_empty_spec.
    setoid_rewrite MatchType_spec. naive_solver.
  - rewrite existsb_elem. setoid_rewrite andb_true_iff. setoid_rewrite str_empty_spec.
    setoid_rewrite MatchUri_spec. naive_solver.
  - rewrite existsb_elem. setoid_rewrite andb_true_iff. setoid_rewrite MatchUri_spec.
    setoid_rewrite MatchType_spec. naive_solver.
Qed.

Lemma MatchAction_spec skill action :
  MatchAction skill action = true ↔ sk_actions skill ≠ [] ∧ (action = "" ∨ action ∈ sk_actions skill).
Proof.
  unfold MatchAction. destruct (sk_actions skill) as [|a l] eqn:Ea; [naive_solver|].
  destruct (str_empty action) eqn:E.
  - apply str_empty_spec in E. naive_solver.
  - rewrite string_in_spec. split; [naive_solver|]. intros [_ [Hw|]]; [by rewrite Hw in E|done].
Qed.

Lemma MatchLauncher_spec skill want :
  MatchLauncher skill want = true ↔
  sk_actions skill ≠ []
  ∧ (want_action want = "" ∨ want_action want ∈ sk_actions skill)
  ∧ ∀ e, e ∈ want_entities want → e ∈ sk_entities skill.
Proof.
  unfold MatchLauncher. rewrite <- MatchEntities_spec, (and_assoc (_ ≠ _)), <- MatchAction_spec.
  destruct (MatchAction _ _), (MatchEntities _ _); simpl; naive_solver.
Qed.

Lemma Match_spec skill want : Match skill want = true ↔ want_matches skill want.
Proof.
  unfold want_matches, Match. rewrite <- MatchUriAndType_spec, <- MatchEntities_spec, (and_assoc (_ ≠ _)), <- MatchAction_spec.
  destruct (MatchAction _ _), (MatchEntities _ _), (MatchUriAndType _ _ _); simpl; naive_solver.
Qed.

(** C27: [Skill::Match] accepts a Want exactly when the skill declares an
    action and the one asked for (any, when none is asked for), all the
    entities asked for, and a URI entry that fits both the URI (scheme alone,
    authority, path, path prefix or path expression) and the MIME type
    (equal, or a wildcard on either side) asked for; [MatchLauncher] accepts
    it exactly when the part about the action and the entities holds,
    whatever the URI and the type. *)
Theorem Match_correct skill want :
  (Match skill want = true ↔ want_matches skill want)
  ∧ (MatchLauncher skill want = true ↔
       sk_actions skill ≠ []
       ∧ (want_action want = "" ∨ want_action want ∈ sk_actions skill)
       ∧ ∀ e, e ∈ want_entities want → e ∈ sk_entities skill).
Proof. split; [apply Match_spec|apply MatchLauncher_spec]. Qed.
End Match.
