(* ===== verification/InnerBundleInfo.v ===== *)
(** * InnerBundleInfo: what the service knows about one bundle

    Models services/bundlemgr/include/inner_bundle_info.h,
    src/inner_bundle_info.cpp and inner_bundle_user_info.h: the record, its
    modules (add, update, remove), its users, the enabled state of the
    application and its abilities, the removable flags and the dependencies
    between modules.  The queries that build the information objects handed
    to clients are in InnerBundleQuery.v. *)

From stdpp Require Import strings relations.
From S2P Require Import Prelude Strings StdMap BundleTypes Skill.

Open Scope string_scope.
Open Scope list_scope.
Open Scope Z_scope.

(** ** The record *)

Record InnerBundleUserInfo := mkInnerBundleUserInfo {
  ibu_bundleUserInfo : BundleUserInfo;
  ibu_uid : Z;
  ibu_gids : list Z;
  ibu_accessTokenId : Z;
  ibu_bundleName : string;
  ibu_installTime : Z;
  ibu_updateTime : Z;
}.

#[export] Instance eta_InnerBundleUserInfo : Eta InnerBundleUserInfo := λ r,
  mkInnerBundleUserInfo (ibu_bundleUserInfo r) (ibu_uid r) (ibu_gids r) (ibu_accessTokenId r)
    (ibu_bundleName r) (ibu_installTime r) (ibu_updateTime r).

Definition new_InnerBundleUserInfo : InnerBundleUserInfo :=
  mkInnerBundleUserInfo new_BundleUserInfo INVALID_UID [] 0 "" 0 0.

Record Distro := mkDistro {
  di_deliveryWithInstall : bool;
  di_moduleName : string;
  di_moduleType : string;
  di_installationFree : bool;
}.

#[export] Instance eta_Distro : Eta Distro := λ r,
  mkDistro (di_deliveryWithInstall r) (di_moduleName r) (di_moduleType r) (di_installationFree r).

Definition new_Distro : Distro :=
  mkDistro false "" "" false.

Record DefinePermission := mkDefinePermission {
  dp_name : string;
  dp_grantMode : string;
  dp_availableLevel : string;
  dp_availableScope : list string;
  dp_provisionEnable : bool;
  dp_distributedSceneEnable : bool;
  dp_label : string;
  dp_labelId : Z;
  dp_description : string;
  dp_descriptionId : Z;
}.

#[export] Instance eta_DefinePermission : Eta DefinePermission := λ r,
  mkDefinePermission (dp_name r) (dp_grantMode r) (dp_availableLevel r) (dp_availableScope r)
    (dp_provisionEnable r) (dp_distributedSceneEnable r) (dp_label r) (dp_labelId r) (dp_description r)
    (dp_descriptionId r).

Definition new_DefinePermission : DefinePermission :=
  mkDefinePermission "" "system_grant" "normal" [] true false "" 0 "" 0.

Record InnerModuleInfo := mkInnerModuleInfo {
  im_modulePackage : string;
  im_moduleName : string;
  im_modulePath : string;
  im_moduleDataDir : string;
  im_moduleResPath : string;
  im_label : string;
  im_hapPath : string;
  im_labelId : Z;
  im_description : string;
  im_descriptionId : Z;
  im_mainAbility : string;
  im_entryAbilityKey : string;
  im_srcPath : string;
  im_hashValue : string;
  im_isEntry : bool;
  im_installationFree : bool;
  im_isRemovable : stdmap string bool;
  im_metaData : MetaData;
  im_colorMode : ModuleColorMode;
  im_distro : Distro;
  im_reqCapabilities : list string;
  im_defPermissions : list DefinePermission;
  im_abilityKeys : list string;
  im_skillKeys : list string;
  im_pages : string;
  im_process : string;
  im_srcEntrance : string;
  im_uiSyntax : string;
  im_virtualMachine : string;
  im_isModuleJson : bool;
  im_isStageBasedModel : bool;
  im_definePermissions : list DefinePermission;
  im_requestPermissions : list RequestPermission;
  im_deviceTypes : list string;
  im_extensionKeys : list string;
  im_extensionSkillKeys : list string;
  im_metadata : list Metadata;
  im_upgradeFlag : Z;
  im_dependencies : list string;
}.

#[export] Instance eta_InnerModuleInfo : Eta InnerModuleInfo := λ r,
  mkInnerModuleInfo (im_modulePackage r) (im_moduleName r) (im_modulePath r) (im_moduleDataDir r)
    (im_moduleResPath r) (im_label r) (im_hapPath r) (im_labelId r) (im_description r) (im_descriptionId r)
    (im_mainAbility r) (im_entryAbilityKey r) (im_srcPath r) (im_hashValue r) (im_isEntry r)
    (im_installationFree r) (im_isRemovable r) (im_metaData r) (im_colorMode r) (im_distro r)
    (im_reqCapabilities r) (im_defPermissions r) (im_abilityKeys r) (im_skillKeys r) (im_pages r)
    (im_process r) (im_srcEntrance r) (im_uiSyntax r) (im_virtualMachine r) (im_isModuleJson r)
    (im_isStageBasedModel r) (im_definePermissions r) (im_requestPermissions r) (im_deviceTypes r)
    (im_extensionKeys r) (im_extensionSkillKeys r) (im_metadata r) (im_upgradeFlag r) (im_dependencies r).

Definition new_InnerModuleInfo : InnerModuleInfo :=
  mkInnerModuleInfo "" "" "" "" "" "" "" 0 "" 0 "" "" "" "" false false ∅ new_MetaData ModuleColorMode_AUTO
    new_Distro [] [] [] [] "" "" "" "" "" false false [] [] [] [] [] [] 0 [].

(** [InstallExceptionStatus]; a mark stores it as an [int32_t]. *)
Definition INSTALL_START_MARK : Z := 1.
Definition INSTALL_FINISH : Z := 2.
Definition UPDATING_EXISTED_START : Z := 3.
Definition UPDATING_NEW_START : Z := 4.
Definition UPDATING_FINISH : Z := 5.
Definition UNINSTALL_BUNDLE_START : Z := 6.
Definition UNINSTALL_PACKAGE_START : Z := 7.
Definition UNKNOWN_STATUS : Z := 8.

Record InstallMark := mkInstallMark {
  mark_bundleName : string;
  mark_packageName : string;
  mark_status : Z;
}.

#[export] Instance eta_InstallMark : Eta InstallMark := λ r,
  mkInstallMark (mark_bundleName r) (mark_packageName r) (mark_status r).

Definition new_InstallMark : InstallMark :=
  mkInstallMark "" "" UNKNOWN_STATUS.

Record SandboxAppPersistentInfo := mkSandboxAppPersistentInfo {
  sap_accessTokenId : Z;
  sap_appIndex : Z;
  sap_userId : Z;
}.

#[export] Instance eta_SandboxAppPersistentInfo : Eta SandboxAppPersistentInfo := λ r,
  mkSandboxAppPersistentInfo (sap_accessTokenId r) (sap_appIndex r) (sap_userId r).

Definition new_SandboxAppPersistentInfo : SandboxAppPersistentInfo :=
  mkSandboxAppPersistentInfo 0 0 INVALID_USERID.

Inductive AppType := AppType_SYSTEM_APP | AppType_THIRD_SYSTEM_APP | AppType_THIRD_PARTY_APP.
Inductive BundleStatus := BundleStatus_ENABLED | BundleStatus_DISABLED.

Record InnerBundleInfo := mkInnerBundleInfo {
  ib_appType : AppType;
  ib_uid : Z;
  ib_gid : Z;
  ib_userId : Z;
  ib_baseDataDir : string;
  ib_bundleStatus : BundleStatus;
  ib_baseApplicationInfo : ApplicationInfo;
  ib_baseBundleInfo : BundleInfo;
  ib_appFeature : string;
  ib_allowedAcls : list string;
  ib_mark : InstallMark;
  ib_appIndex : Z;
  ib_isSandboxApp : bool;
  ib_currentPackage : string;
  ib_newBundleName : string;
  ib_onlyCreateBundleUser : bool;
  ib_innerModuleInfos : stdmap string InnerModuleInfo;
  ib_formInfos : stdmap string (list FormInfo);
  ib_commonEvents : stdmap string CommonEventInfo;
  ib_shortcutInfos : stdmap string ShortcutInfo;
  ib_baseAbilityInfos : stdmap string AbilityInfo;
  ib_skillInfos : stdmap string (list Skill);
  ib_innerBundleUserInfos : stdmap string InnerBundleUserInfo;
  ib_bundlePackInfo : BundlePackInfo;
  ib_isNewVersion : bool;
  ib_upgradeFlag : Z;
  ib_baseExtensionInfos : stdmap string ExtensionAbilityInfo;
  ib_extensionSkillInfos : stdmap string (list Skill);
  ib_sandboxPersistentInfo : list SandboxAppPersistentInfo;
}.

#[export] Instance eta_InnerBundleInfo : Eta InnerBundleInfo := λ r,
  mkInnerBundleInfo (ib_appType r) (ib_uid r) (ib_gid r) (ib_userId r) (ib_baseDataDir r) (ib_bundleStatus
    r) (ib_baseApplicationInfo r) (ib_baseBundleInfo r) (ib_appFeature r) (ib_allowedAcls r) (ib_mark r)
    (ib_appIndex r) (ib_isSandboxApp r) (ib_currentPackage r) (ib_newBundleName r) (ib_onlyCreateBundleUser
    r) (ib_innerModuleInfos r) (ib_formInfos r) (ib_commonEvents r) (ib_shortcutInfos r)
    (ib_baseAbilityInfos r) (ib_skillInfos r) (ib_innerBundleUserInfos r) (ib_bundlePackInfo r)
    (ib_isNewVersion r) (ib_upgradeFlag r) (ib_baseExtensionInfos r) (ib_extensionSkillInfos r)
    (ib_sandboxPersistentInfo r).

Definition new_InnerBundleInfo : InnerBundleInfo :=
  mkInnerBundleInfo AppType_THIRD_PARTY_APP INVALID_UID INVALID_GID DEFAULT_USERID "" BundleStatus_ENABLED
    new_ApplicationInfo new_BundleInfo "" [] new_InstallMark INITIAL_APP_INDEX false "" "" false ∅ ∅ ∅ ∅ ∅ ∅
    ∅ new_BundlePackInfo false 0 ∅ ∅ [].


(** ** Keys *)

Definition NameAndUserIdToKey (bundleName : string) (userId : Z) : string :=
  bundleName +:+ "_" +:+ pretty userId.

Definition GetBundleName (i : InnerBundleInfo) : string := app_bundleName (ib_baseApplicationInfo i).

(** [for (item : other) m.try_emplace(item.first, item.second)] *)
Definition add_all {V} (other m : stdmap string V) : stdmap string V :=
  foldl (λ m p, emplace p.1 p.2 m) m (elems other).

Definition FindModule (modulePackage : string) (i : InnerBundleInfo) : bool :=
  match ib_innerModuleInfos i !! modulePackage with Some _ => true | None => false end.

Definition HasEntry (i : InnerBundleInfo) : bool := existsb (λ p, im_isEntry p.2) (elems (ib_innerModuleInfos i)).

(** ** Modules *)

(** The eight calls of [AddModuleInfo] and [UpdateModuleInfo]. *)
Definition add_module_maps (n i : InnerBundleInfo) : InnerBundleInfo :=
  i <| ib_innerModuleInfos ::= add_all (ib_innerModuleInfos n) |>
    <| ib_baseAbilityInfos ::= add_all (ib_baseAbilityInfos n) |>
    <| ib_skillInfos ::= add_all (ib_skillInfos n) |>
    <| ib_baseExtensionInfos ::= add_all (ib_baseExtensionInfos n) |>
    <| ib_extensionSkillInfos ::= add_all (ib_extensionSkillInfos n) |>
    <| ib_formInfos ::= add_all (ib_formInfos n) |>
    <| ib_shortcutInfos ::= add_all (ib_shortcutInfos n) |>
    <| ib_commonEvents ::= add_all (ib_commonEvents n) |>.

Definition AddModuleInfo (newInfo i : InnerBundleInfo) : InnerBundleInfo * bool :=
  if str_empty (ib_currentPackage newInfo) then (i, false)
  else if FindModule (ib_currentPackage newInfo) i then (i, false)
  else (add_module_maps newInfo i, true).

(** [for (key : keys) m.erase(key)] *)
Definition erase_keys {V} (keys : list string) (m : stdmap string V) : stdmap string V :=
  foldl (λ m k, delete k m) m keys.

(** The removal of the abilities: a form entry goes with its ability. *)
Definition erase_abilities (keys : list string) (abilities : stdmap string AbilityInfo)
  (forms : stdmap string (list FormInfo)) : stdmap string AbilityInfo * stdmap string (list FormInfo) :=
  foldl (λ '(a, f) k, match a !! k with Some _ => (delete k a, delete k f) | None => (a, f) end)
    (abilities, forms) keys.

Definition RemoveModuleInfo (modulePackage : string) (i : InnerBundleInfo) : InnerBundleInfo :=
  match ib_innerModuleInfos i !! modulePackage with
  | None => i
  | Some oldModuleInfo =>
      let i := if im_isEntry oldModuleInfo
               then i <| ib_baseBundleInfo ::= λ b, b <| bi_mainEntry := "" |> <| bi_entryModuleName := "" |> |>
               else i in
      let i := i <| ib_innerModuleInfos ::= delete modulePackage |> in
      let key := "." +:+ modulePackage +:+ "." in
      let i := i <| ib_shortcutInfos ::= erase_if (λ k _, str_contains key k) |> in
      let i := i <| ib_commonEvents ::= erase_if (λ k _, str_contains key k) |> in
      let '(abilities, forms) :=
        erase_abilities (im_abilityKeys oldModuleInfo) (ib_baseAbilityInfos i) (ib_formInfos i) in
      i <| ib_baseAbilityInfos := abilities |> <| ib_formInfos := forms |>
        <| ib_skillInfos ::= erase_keys (im_skillKeys oldModuleInfo) |>
        <| ib_baseExtensionInfos ::= erase_keys (im_extensionKeys oldModuleInfo) |>
        <| ib_extensionSkillInfos ::= erase_keys (im_extensionSkillKeys oldModuleInfo) |>
  end.

Definition UpdateModuleInfo (newInfo i : InnerBundleInfo) : InnerBundleInfo :=
  if str_empty (ib_currentPackage newInfo) then i
  else add_module_maps newInfo (RemoveModuleInfo (ib_currentPackage newInfo) i).

Definition UpdateBaseBundleInfo (bundleInfo : BundleInfo) (isEntry : bool) (i : InnerBundleInfo) : InnerBundleInfo :=
  let b := ib_baseBundleInfo i in
  let b := b <| bi_name := bi_name bundleInfo |>
             <| bi_versionCode := bi_versionCode bundleInfo |>
             <| bi_versionName := bi_versionName bundleInfo |>
             <| bi_minCompatibleVersionCode := bi_minCompatibleVersionCode bundleInfo |>
             <| bi_compatibleVersion := bi_compatibleVersion bundleInfo |>
             <| bi_targetVersion := bi_targetVersion bundleInfo |>
             <| bi_isKeepAlive := bi_isKeepAlive bundleInfo |>
             <| bi_singleton := bi_singleton bundleInfo |>
             <| bi_isPreInstallApp := bi_isPreInstallApp bundleInfo |>
             <| bi_vendor := bi_vendor bundleInfo |>
             <| bi_releaseType := bi_releaseType bundleInfo |> in
  let b := if negb (bi_isNativeApp b) then b <| bi_isNativeApp := bi_isNativeApp bundleInfo |> else b in
  let b := if isEntry then b <| bi_mainEntry := bi_mainEntry bundleInfo |>
                             <| bi_entryModuleName := bi_entryModuleName bundleInfo |> else b in
  i <| ib_baseBundleInfo := b |>.

Definition UpdateBaseApplicationInfo (n : ApplicationInfo) (i : InnerBundleInfo) : InnerBundleInfo :=
  let a := ib_baseApplicationInfo i in
  let a := a <| app_name := app_name n |>
             <| app_bundleName := app_bundleName n |>
             <| app_versionCode := app_versionCode n |>
             <| app_versionName := app_versionName n |>
             <| app_minCompatibleVersionCode := app_minCompatibleVersionCode n |>
             <| app_apiCompatibleVersion := app_apiCompatibleVersion n |>
             <| app_apiTargetVersion := app_apiTargetVersion n |>
             <| app_iconPath := app_iconPath n |>
             <| app_iconId := app_iconId n |>
             <| app_label := app_label n |>
             <| app_labelId := app_labelId n |>
             <| app_description := app_description n |>
             <| app_descriptionId := app_descriptionId n |>
             <| app_keepAlive := app_keepAlive n |>
             <| app_removable := app_removable n |>
             <| app_singleton := app_singleton n |>
             <| app_userDataClearable := app_userDataClearable n |>
             <| app_accessible := app_accessible n |> in
  let a := if negb (app_isSystemApp a) then a <| app_isSystemApp := app_isSystemApp n |> else a in
  let a := if negb (app_isLauncherApp a) then a <| app_isLauncherApp := app_isLauncherApp n |> else a in
  let a := a <| app_apiReleaseType := app_apiReleaseType n |>
             <| app_debug := app_debug n |>
             <| app_deviceId := app_deviceId n |>
             <| app_distributedNotificationEnabled := app_distributedNotificationEnabled n |>
             <| app_entityType := app_entityType n |>
             <| app_process := app_process n |>
             <| app_supportedModes := app_supportedModes n |>
             <| app_vendor := app_vendor n |> in
  let a := if str_empty (app_nativeLibraryPath a)
           then a <| app_nativeLibraryPath := app_nativeLibraryPath n |> <| app_cpuAbi := app_cpuAbi n |>
           else a in
  i <| ib_baseApplicationInfo := a |>.

Definition SetBundleStatus (s : BundleStatus) (i : InnerBundleInfo) : InnerBundleInfo := i <| ib_bundleStatus := s |>.
Definition IsDisabled (i : InnerBundleInfo) : bool :=
  match ib_bundleStatus i with BundleStatus_DISABLED => true | BundleStatus_ENABLED => false end.
Definition SetAppPrivilegeLevel (level : string) (i : InnerBundleInfo) : InnerBundleInfo :=
  if str_empty level then i else i <| ib_baseApplicationInfo ::= λ a, a <| app_appPrivilegeLevel := level |> |>.
Definition SetAllowedAcls (acls : list string) (i : InnerBundleInfo) : InnerBundleInfo := i <| ib_allowedAcls := acls |>.
Definition SetAppType (t : AppType) (i : InnerBundleInfo) : InnerBundleInfo :=
  i <| ib_appType := t |>
    <| ib_baseApplicationInfo ::= λ a,
         a <| app_isSystemApp := match t with AppType_SYSTEM_APP => true | _ => false end |> |>.
Definition SetBundlePackInfo (p : BundlePackInfo) (i : InnerBundleInfo) : InnerBundleInfo := i <| ib_bundlePackInfo := p |>.
Definition IsSystemApp (i : InnerBundleInfo) : bool := app_isSystemApp (ib_baseApplicationInfo i).
Definition IsPreInstallApp (i : InnerBundleInfo) : bool := bi_isPreInstallApp (ib_baseBundleInfo i).
Definition GetDBKeyBundleName (i : InnerBundleInfo) : string :=
  if negb (app_isCloned (ib_baseApplicationInfo i)) then app_bundleName (ib_baseApplicationInfo i)
  else ib_newBundleName i.

Definition IsOnlyModule (modulePackage : string) (i : InnerBundleInfo) : bool :=
  (sm_size (ib_innerModuleInfos i) =? 1)%nat && FindModule modulePackage i.

(** ** Modules found by name

    The maps are keyed by package; these functions look for the first module,
    in package order, whose [moduleName] is the one asked for. *)

Definition has_name (moduleName : string) (p : string * InnerModuleInfo) : bool :=
  bool_decide (im_moduleName p.2 = moduleName).

Definition GetInnerModuleInfoByModuleName (moduleName : string) (i : InnerBundleInfo) : option InnerModuleInfo :=
  snd <$> List.find (has_name moduleName) (elems (ib_innerModuleInfos i)).

Definition GetModuleNames (i : InnerBundleInfo) : list string := map im_moduleName (sm_vals (ib_innerModuleInfos i)).

(** [for (auto &m : innerModuleInfos_) if (m.second.moduleName == name) { f(m.second); return; }] *)
Fixpoint update_first (moduleName : string) (f : InnerModuleInfo → InnerModuleInfo)
  (l : list (string * InnerModuleInfo)) : list (string * InnerModuleInfo) :=
  match l with
  | [] => []
  | p :: l' => if has_name moduleName p then (p.1, f p.2) :: l' else p :: update_first moduleName f l'
  end.

Definition on_first_module (moduleName : string) (f : InnerModuleInfo → InnerModuleInfo)
  (i : InnerBundleInfo) : InnerBundleInfo :=
  i <| ib_innerModuleInfos ::= λ m, StdMap (update_first moduleName f (elems m)) |>.

(** ** Removable modules, by user *)

Definition AddModuleRemovableInfo (stringUserId : string) (isEnable : bool) (m : InnerModuleInfo) : InnerModuleInfo :=
  m <| im_isRemovable ::= insert stringUserId isEnable |>.

Definition SetModuleRemovable (moduleName : string) (isEnable : bool) (userId : Z) (i : InnerBundleInfo) :
  InnerBundleInfo * bool :=
  (on_first_module moduleName (AddModuleRemovableInfo (pretty userId) isEnable) i,
   existsb (has_name moduleName) (elems (ib_innerModuleInfos i))).

Definition DeleteModuleRemovableInfo (stringUserId : string) (m : InnerModuleInfo) : InnerModuleInfo :=
  m <| im_isRemovable ::= delete stringUserId |>.

Definition DeleteModuleRemovable (moduleName : string) (userId : Z) (i : InnerBundleInfo) : InnerBundleInfo :=
  on_first_module moduleName (DeleteModuleRemovableInfo (pretty userId)) i.

Definition IsUserExistModule (moduleName : string) (userId : Z) (i : InnerBundleInfo) : bool :=
  match GetInnerModuleInfoByModuleName moduleName i with
  | None => false
  | Some m => match im_isRemovable m !! pretty userId with None => false | Some _ => true end
  end.

Definition IsModuleRemovable (moduleName : string) (userId : Z) (i : InnerBundleInfo) : bool :=
  match GetInnerModuleInfoByModuleName moduleName i with
  | None => false
  | Some m => match im_isRemovable m !! pretty userId with None => false | Some ret => ret end
  end.

Definition IsBundleRemovable (userId : Z) (i : InnerBundleInfo) : bool :=
  if IsPreInstallApp i then false
  else forallb (λ m, IsModuleRemovable (im_moduleName m) userId i) (sm_vals (ib_innerModuleInfos i)).

(** The flag is kept for the bundle: the module name is not used. *)
Definition SetModuleUpgradeFlag (moduleName : string) (upgradeFlag : Z) (i : InnerBundleInfo) : InnerBundleInfo * bool :=
  (i <| ib_upgradeFlag := upgradeFlag |>, true).
Definition GetModuleUpgradeFlag (moduleName : string) (i : InnerBundleInfo) : Z := ib_upgradeFlag i.

(** ** Users *)

Definition user_key (userId : Z) (i : InnerBundleInfo) : string := NameAndUserIdToKey (GetBundleName i) userId.

Definition ResetUserState (u : InnerBundleUserInfo) : InnerBundleUserInfo :=
  u <| ibu_bundleUserInfo ::= λ b, b <| bu_enabled := true |> <| bu_disabledAbilities := [] |> |>.

(** [it = find(key); if (it == end) return; f(it->second)] *)
Definition on_user (userId : Z) (f : InnerBundleUserInfo → InnerBundleUserInfo) (i : InnerBundleInfo) : InnerBundleInfo :=
  match ib_innerBundleUserInfos i !! user_key userId i with
  | None => i
  | Some u => i <| ib_innerBundleUserInfos ::= insert (user_key userId i) (f u) |>
  end.

Definition ResetBundleState (userId : Z) (i : InnerBundleInfo) : InnerBundleInfo :=
  if userId =? ALL_USERID then i <| ib_innerBundleUserInfos ::= map_values (λ _, ResetUserState) |>
  else on_user userId ResetUserState i.

Definition RemoveInnerBundleUserInfo (userId : Z) (i : InnerBundleInfo) : InnerBundleInfo :=
  match ib_innerBundleUserInfos i !! user_key userId i with
  | None => i
  | Some _ =>
      let i := i <| ib_innerBundleUserInfos ::= delete (user_key userId i) |> in
      foldl (λ i m, DeleteModuleRemovable (im_moduleName m) userId i) i (sm_vals (ib_innerModuleInfos i))
  end.

Definition user_of (u : InnerBundleUserInfo) : Z := bu_userId (ibu_bundleUserInfo u).

Definition AddInnerBundleUserInfo (u : InnerBundleUserInfo) (i : InnerBundleInfo) : InnerBundleInfo :=
  i <| ib_innerBundleUserInfos ::= insert (user_key (user_of u) i) u |>.

(** The out parameter is assigned only when a user is found: the result is
    the answer and the value the caller's variable has afterwards. *)
Definition GetInnerBundleUserInfo (userId : Z) (i : InnerBundleInfo) (out : InnerBundleUserInfo) :
  bool * InnerBundleUserInfo :=
  if userId =? NOT_EXIST_USERID then (true, out)
  else if userId =? ALL_USERID then
    match sm_begin (ib_innerBundleUserInfos i) with None => (false, out) | Some p => (true, p.2) end
  else match ib_innerBundleUserInfos i !! user_key userId i with None => (false, out) | Some u => (true, u) end.

Definition HasInnerBundleUserInfo (userId : Z) (i : InnerBundleInfo) : bool :=
  if userId =? ALL_USERID then negb (sm_is_empty (ib_innerBundleUserInfos i))
  else match ib_innerBundleUserInfos i !! user_key userId i with None => false | Some _ => true end.

Definition SetBundleInstallTime (time userId : Z) (i : InnerBundleInfo) : InnerBundleInfo :=
  on_user userId (λ u, u <| ibu_installTime := time |> <| ibu_updateTime := time |>) i.
Definition SetAccessTokenId (accessToken userId : Z) (i : InnerBundleInfo) : InnerBundleInfo :=
  on_user userId (λ u, u <| ibu_accessTokenId := accessToken |>) i.
Definition SetBundleUpdateTime (time userId : Z) (i : InnerBundleInfo) : InnerBundleInfo :=
  on_user userId (λ u, u <| ibu_updateTime := time |>) i.
Definition SetApplicationEnabled (enabled : bool) (userId : Z) (i : InnerBundleInfo) : InnerBundleInfo :=
  on_user userId (λ u, u <| ibu_bundleUserInfo ::= λ b, b <| bu_enabled := enabled |> |>) i.

Definition GetUid (userId : Z) (i : InnerBundleInfo) : Z :=
  let '(found, u) := GetInnerBundleUserInfo userId i new_InnerBundleUserInfo in
  if negb found then INVALID_UID else ibu_uid u.
Definition GetGid (userId : Z) (i : InnerBundleInfo) : Z :=
  let '(found, u) := GetInnerBundleUserInfo userId i new_InnerBundleUserInfo in
  if negb found then INVALID_GID else match ibu_gids u with [] => INVALID_GID | g :: _ => g end.
Definition GetAccessTokenId (userId : Z) (i : InnerBundleInfo) : Z :=
  let '(found, u) := GetInnerBundleUserInfo userId i new_InnerBundleUserInfo in
  if found then ibu_accessTokenId u else 0.

Definition GetResponseUserId (requestUserId : Z) (i : InnerBundleInfo) : Z :=
  match sm_begin (ib_innerBundleUserInfos i) with
  | None => INVALID_USERID
  | Some (_, u) =>
      if requestUserId =? ANY_USERID then user_of u
      else if HasInnerBundleUserInfo requestUserId i then requestUserId
      else if requestUserId <? START_USERID then INVALID_USERID
      else match List.find (λ u, user_of u <? START_USERID) (sm_vals (ib_innerBundleUserInfos i)) with
           | None => INVALID_USERID
           | Some u => user_of u
           end
  end.

Definition BuildDefaultUserInfo (i : InnerBundleInfo) : InnerBundleInfo :=
  let u := new_InnerBundleUserInfo in
  let u := u <| ibu_bundleUserInfo ::= λ b, b <| bu_userId := ib_userId i |>
                                              <| bu_enabled := app_enabled (ib_baseApplicationInfo i) |> |>
             <| ibu_uid := ib_uid i |>
             <| ibu_gids ::= λ g, app g [ib_gid i] |>
             <| ibu_installTime := bi_installTime (ib_baseBundleInfo i) |>
             <| ibu_updateTime := bi_updateTime (ib_baseBundleInfo i) |>
             <| ibu_bundleName := app_bundleName (ib_baseApplicationInfo i) |> in
  AddInnerBundleUserInfo u i.

(** ** Abilities enabled, by user *)

Definition IsAbilityEnabled (abilityInfo : AbilityInfo) (userId : Z) (i : InnerBundleInfo) : bool :=
  if userId =? NOT_EXIST_USERID then true
  else match ib_innerBundleUserInfos i !! NameAndUserIdToKey (ai_bundleName abilityInfo) userId with
       | None => false
       | Some u => negb (bool_decide (ai_name abilityInfo ∈ bu_disabledAbilities (ibu_bundleUserInfo u)))
       end.

(** [v.erase(std::find(v.begin(), v.end(), x))] *)
Fixpoint erase_first (x : string) (l : list string) : list string :=
  match l with
  | [] => []
  | y :: l' => if decide (x = y) then l' else y :: erase_first x l'
  end.

Definition is_ability (bundleName moduleName abilityName : string) (a : AbilityInfo) : bool :=
  bool_decide (ai_bundleName a = bundleName) && bool_decide (ai_name a = abilityName)
  && (str_empty moduleName || bool_decide (ai_moduleName a = moduleName)).

Definition SetAbilityEnabled (bundleName moduleName abilityName : string) (isEnabled : bool) (userId : Z)
  (i : InnerBundleInfo) : InnerBundleInfo * bool :=
  if existsb (is_ability bundleName moduleName abilityName) (sm_vals (ib_baseAbilityInfos i)) then
    let key := NameAndUserIdToKey bundleName userId in
    match ib_innerBundleUserInfos i !! key with
    | None => (i, false)
    | Some u =>
        let disabled := bu_disabledAbilities (ibu_bundleUserInfo u) in
        let disabled :=
          if decide (abilityName ∈ disabled)
          then if isEnabled then erase_first abilityName disabled else disabled
          else if negb isEnabled then disabled ++ [abilityName] else disabled in
        (i <| ib_innerBundleUserInfos ::=
           insert key (u <| ibu_bundleUserInfo ::= λ b, b <| bu_disabledAbilities := disabled |> |>) |>, true)
    end
  else (i, false).

(** ** Sandbox applications *)

Fixpoint erase_app_index (appIndex : Z) (l : list SandboxAppPersistentInfo) : list SandboxAppPersistentInfo :=
  match l with
  | [] => []
  | s :: l' => if sap_appIndex s =? appIndex then l' else s :: erase_app_index appIndex l'
  end.

Definition AddSandboxPersistentInfo (s : SandboxAppPersistentInfo) (i : InnerBundleInfo) : InnerBundleInfo :=
  i <| ib_sandboxPersistentInfo ::= λ l, erase_app_index (sap_appIndex s) l ++ [s] |>.
Definition RemoveSandboxPersistentInfo (s : SandboxAppPersistentInfo) (i : InnerBundleInfo) : InnerBundleInfo :=
  i <| ib_sandboxPersistentInfo ::= erase_app_index (sap_appIndex s) |>.
Definition ClearSandboxPersistentInfo (i : InnerBundleInfo) : InnerBundleInfo := i <| ib_sandboxPersistentInfo := [] |>.

(** ** Dependencies between modules *)

Definition GetDependentModuleNames (moduleName : string) (i : InnerBundleInfo) : option (list string) :=
  im_dependencies <$> GetInnerModuleInfoByModuleName moduleName i.

(** The [while (!moduleDeque.empty())] loop; [None] is running out of fuel. *)
Fixpoint dependents_loop (fuel : nat) (i : InnerBundleInfo) (moduleDeque dependentModuleNames : list string) :
  option (list string) :=
  match fuel with
  | O => None
  | S fuel =>
      match moduleDeque with
      | [] => Some dependentModuleNames
      | name :: moduleDeque =>
          if decide (name ∈ dependentModuleNames) then dependents_loop fuel i moduleDeque dependentModuleNames
          else dependents_loop fuel i
                 match GetDependentModuleNames name i with
                 | Some tempModuleNames => moduleDeque ++ tempModuleNames
                 | None => moduleDeque
                 end (dependentModuleNames ++ [name])
      end
  end.

Definition dependencies_size (i : InnerBundleInfo) : nat :=
  sum_list (map (λ m, length (im_dependencies m)) (sm_vals (ib_innerModuleInfos i))).

Definition dependents_fuel (i : InnerBundleInfo) : nat := S (2 * dependencies_size i).

(** [None] when no module has the name (the function returns false). *)
Definition GetAllDependentModuleNames (moduleName : string) (i : InnerBundleInfo) : option (list string) :=
  match GetDependentModuleNames moduleName i with
  | None => None
  | Some names => dependents_loop (dependents_fuel i) i names []
  end.
(** * Dependencies *)

(** One module names another in its dependencies. *)
Definition depends_on (i : InnerBundleInfo) (a b : string) : Prop :=
  ∃ names, GetDependentModuleNames a i = Some names ∧ b ∈ names.

Definition weight (seen : list string) (l : list (string * InnerModuleInfo)) : nat :=
  sum_list (map (λ p, if decide (im_moduleName p.2 ∈ seen) then 0%nat else length (im_dependencies p.2)) l).

Lemma weight_le seen seen' l :
  (∀ x, x ∈ seen → x ∈ seen') → (weight seen' l <= weight seen l)%nat.
Proof.
  intros Hsub. induction l as [|p l IH]; [done|]. unfold weight in *. simpl.
  destruct (decide (im_moduleName p.2 ∈ seen')), (decide (im_moduleName p.2 ∈ seen)); try lia. by exfalso; auto.
Qed.

Lemma weight_visit name seen l m :
  name ∉ seen → List.find (has_name name) l = Some m →
  (weight (seen ++ [name]) l + length (im_dependencies m.2) <= weight seen l)%nat.
Proof.
  intros Hns. induction l as [|p l IH]; [done|]. simpl.
  destruct (has_name name p) eqn:Hp; unfold has_name in Hp; [apply bool_decide_eq_true in Hp|];
    unfold weight in *; simpl.
  - intros [= <-]. rewrite Hp.
    rewrite (decide_True (P := name ∈ seen ++ [name])) by set_solver.
    rewrite (decide_False (P := name ∈ seen)) by done.
    pose proof (weight_le seen (seen ++ [name]) l ltac:(set_solver)) as Hle. unfold weight in Hle. lia.
  - intros Hf%IH. destruct (decide (im_moduleName p.2 ∈ seen ++ [name])), (decide (im_moduleName p.2 ∈ seen)); try lia.
    all: exfalso; set_solver.
Qed.

Lemma weight_nil i : weight [] (elems (ib_innerModuleInfos i)) = dependencies_size i.
Proof.
  unfold weight, dependencies_size, sm_vals. rewrite <- list_fmap_compose. f_equal.
Qed.

Lemma dependents_enough fuel i q seen :
  (length q + weight seen (elems (ib_innerModuleInfos i)) < fuel)%nat →
  is_Some (dependents_loop fuel i q seen).
Proof.
  revert q seen. induction fuel as [|fuel IH]; intros q seen Hf; [lia|]. simpl.
  destruct q as [|name q]; [done|]. simpl in Hf. case_decide as Hin; [apply IH; lia|].
  unfold GetDependentModuleNames, GetInnerModuleInfoByModuleName.
  destruct (List.find _ _) as [m|] eqn:E; simpl; apply IH.
  - pose proof (weight_visit _ _ _ _ Hin E). rewrite length_app. lia.
  - pose proof (weight_le seen (seen ++ [name]) (elems (ib_innerModuleInfos i)) ltac:(set_solver)). lia.
Qed.

Lemma first_dependencies_le l name m :
  List.find (has_name name) l = Some m → (length (im_dependencies m.2) <= weight [] l)%nat.
Proof. intros H. pose proof (weight_visit name [] l m ltac:(set_solver) H). lia. Qed.

(** What holds at the head of the loop: no name is listed twice, every name
    listed or queued is reached, and what a listed name depends on is listed
    or queued. *)
Lemma dependents_loop_inv fuel i root q seen res :
  dependents_loop fuel i q seen = Some res →
  NoDup seen →
  (∀ x, x ∈ seen ∨ x ∈ q → tc (depends_on i) root x) →
  (∀ x y, x ∈ seen → depends_on i x y → y ∈ seen ∨ y ∈ q) →
  (∀ y, depends_on i root y → y ∈ seen ∨ y ∈ q) →
  NoDup res ∧ ∀ x, x ∈ res ↔ tc (depends_on i) root x.
Proof.
  revert q seen. induction fuel as [|fuel IH]; intros q seen; [done|]. simpl.
  destruct q as [|name q].
  - intros [= <-] ND Hsound Hclosed Hroot. split; [done|]. intros x. split; [set_solver|].
    revert x. apply tc_ind_r.
    + intros y Hy. destruct (Hroot _ Hy); set_solver.
    + intros y z _ Hyz Hy. destruct (Hclosed _ _ Hy Hyz); set_solver.
  - case_decide as Hin; intros Hres ND Hsound Hclosed Hroot.
    { apply (IH _ _ Hres); [done|..].
      - intros x Hx. apply Hsound. set_solver.
      - intros x y Hx Hy. destruct (Hclosed _ _ Hx Hy); set_solver.
      - intros y Hy. destruct (Hroot _ Hy); set_solver. }
    pose proof (Hsound name ltac:(set_solver)) as Hname.
    apply (IH _ _ Hres); clear IH Hres.
    + apply NoDup_app. repeat split; [done|set_solver|apply NoDup_singleton].
    + intros x Hx. destruct (GetDependentModuleNames name i) as [names|] eqn:E.
      * destruct (decide (x ∈ names)); [|apply Hsound; set_solver].
        eapply tc_r; [exact Hname|]. by exists names.
      * apply Hsound. set_solver.
    + intros x y Hx Hy. apply elem_of_app in Hx as [Hx|Hx].
      * destruct (Hclosed _ _ Hx Hy); destruct (GetDependentModuleNames name i); set_solver.
      * apply list_elem_of_singleton in Hx as ->. destruct Hy as (names & E & Hy). rewrite E. set_solver.
    + intros y Hy. destruct (Hroot _ Hy); destruct (GetDependentModuleNames name i); set_solver.
Qed.

(** The module found by its name, or none has it. *)
Lemma module_by_name moduleName i :
  match GetInnerModuleInfoByModuleName moduleName i with
  | None => ∀ m, m ∈ sm_vals (ib_innerModuleInfos i) → im_moduleName m ≠ moduleName
  | Some m => m ∈ sm_vals (ib_innerModuleInfos i) ∧ im_moduleName m = moduleName
  end.
Proof.
  unfold GetInnerModuleInfoByModuleName. destruct (List.find _ _) as [[key m]|] eqn:E; simpl.
  - apply find_some in E as [Hin Hname]. split; [|by apply bool_decide_eq_true in Hname].
    apply list_elem_of_fmap. exists (key, m). by rewrite list_elem_of_In.
  - intros m ([key m'] & -> & Hin)%list_elem_of_fmap. rewrite list_elem_of_In in Hin.
    apply (find_none _ _ E) in Hin. by apply bool_decide_eq_false in Hin.
Qed.

(** C25: GetAllDependentModuleNames answers for every bundle, dependency
    cycles included: it fails exactly when no module has the name, and
    otherwise lists, each once, exactly the names reached from the module by
    following dependencies. *)
Theorem GetAllDependentModuleNames_correct moduleName i :
  match GetAllDependentModuleNames moduleName i with
  | None => ∀ m, m ∈ sm_vals (ib_innerModuleInfos i) → im_moduleName m ≠ moduleName
  | Some names =>
      (∃ m, m ∈ sm_vals (ib_innerModuleInfos i) ∧ im_moduleName m = moduleName)
      ∧ NoDup names ∧ ∀ x, x ∈ names ↔ tc (depends_on i) moduleName x
  end.
Proof.
  unfold GetAllDependentModuleNames. destruct (GetDependentModuleNames moduleName i) as [names|] eqn:E.
  - assert (∃ m, m ∈ sm_vals (ib_innerModuleInfos i) ∧ im_moduleName m = moduleName) as Hmod.
    { unfold GetDependentModuleNames in E. pose proof (module_by_name moduleName i) as Hm.
      destruct (GetInnerModuleInfoByModuleName moduleName i) as [m|]; [by exists m|done]. }
    assert (length names <= dependencies_size i)%nat as Hlen.
    { unfold GetDependentModuleNames, GetInnerModuleInfoByModuleName in E.
      destruct (List.find _ _) as [m|] eqn:Em; simplify_eq/=.
      rewrite <- weight_nil. by eapply first_dependencies_le. }
    destruct (dependents_enough (dependents_fuel i) i names []) as [res Hres].
    { rewrite weight_nil. unfold dependents_fuel. lia. }
    rewrite Hres. split; [exact Hmod|]. eapply dependents_loop_inv; [exact Hres|constructor|..].
    + intros x [Hx|Hx]; [set_solver|]. apply tc_once. by exists names.
    + set_solver.
    + intros y (names' & E' & Hy). simplify_eq. by right.
  - unfold GetDependentModuleNames in E. pose proof (module_by_name moduleName i) as Hm.
    by destruct (GetInnerModuleInfoByModuleName moduleName i).
Qed.
(** * Modules: add, remove, update *)

Lemma sm_lookup_cons {V} (j k : string) (v : V) l :
  StdMap ((j, v) :: l) !! k = if decide (k = j) then Some v else StdMap l !! k.
Proof. done. Qed.

Lemma sm_lookup_add_all {V} (other m : stdmap string V) k :
  add_all other m !! k = match m !! k with Some v => Some v | None => other !! k end.
Proof.
  destruct other as [l]. unfold add_all. simpl. revert m.
  induction l as [|[j v] l IH]; intros m; simpl.
  - by destruct (m !! k).
  - rewrite IH, sm_lookup_emplace, sm_lookup_cons.
    destruct (m !! k); [done|]. destruct (decide (j = k)), (decide (k = j)); congruence.
Qed.

Lemma sm_wf_add_all {V} (other m : stdmap string V) : sm_wf m → sm_wf (add_all other m).
Proof.
  destruct other as [l]. unfold add_all. simpl. revert m.
  induction l as [|[j v] l IH]; intros m Hm; simpl; auto with cpp.
Qed.

Lemma sm_lookup_erase_keys {V} keys (m : stdmap string V) k :
  erase_keys keys m !! k = if decide (k ∈ keys) then None else m !! k.
Proof.
  unfold erase_keys. revert m. induction keys as [|j keys IH]; intros m; simpl.
  - done.
  - rewrite IH, sm_lookup_delete.
    destruct (decide (j = k)), (decide (k ∈ keys)), (decide (k ∈ j :: keys)); set_solver.
Qed.

Lemma sm_wf_erase_keys {V} keys (m : stdmap string V) : sm_wf m → sm_wf (erase_keys keys m).
Proof. unfold erase_keys. revert m. induction keys as [|j keys IH]; intros m Hm; simpl; auto with cpp. Qed.

Lemma sm_delete_absent {V} k (m : stdmap string V) : m !! k = None → delete k m = m.
Proof.
  destruct m as [l]. rewrite sm_lookup_none. unfold sm_keys, delete, sm_delete. simpl. intros Hk. f_equal.
  induction l as [|[j v] l IH]; [done|]. simpl in Hk. apply not_elem_of_cons in Hk as [Hne Hk].
  rewrite filter_cons, decide_True by (simpl; congruence). by rewrite IH.
Qed.

Lemma erase_abilities_fst keys a f : (erase_abilities keys a f).1 = erase_keys keys a.
Proof.
  unfold erase_abilities, erase_keys. revert a f. induction keys as [|j keys IH]; intros a f; simpl; [done|].
  destruct (a !! j) eqn:E; rewrite IH; [done|]. by rewrite (sm_delete_absent j a).
Qed.

Lemma erase_abilities_snd_wf keys a f : sm_wf f → sm_wf (erase_abilities keys a f).2.
Proof.
  unfold erase_abilities. revert a f. induction keys as [|j keys IH]; intros a f Hf; simpl; [done|].
  destruct (a !! j); auto with cpp.
Qed.

Lemma erase_abilities_snd keys a f k :
  (erase_abilities keys a f).2 !! k
  = if decide (k ∈ keys) then match a !! k with Some _ => None | None => f !! k end else f !! k.
Proof.
  unfold erase_abilities. revert a f. induction keys as [|j keys IH]; intros a f; simpl.
  - done.
  - destruct (a !! j) eqn:E; rewrite IH; rewrite ?sm_lookup_delete.
    all: destruct (decide (k ∈ j :: keys)) as [Hin|Hin]; rewrite elem_of_cons in Hin.
    all: destruct (decide (k ∈ keys)), (decide (j = k)); subst; rewrite ?E; try done; try (exfalso; tauto).
    all: destruct Hin; [congruence|done].
Qed.
Definition module_mark (modulePackage : string) : string := "." +:+ modulePackage +:+ ".".

Record maps_wf (i : InnerBundleInfo) : Prop := {
  wf_modules : sm_wf (ib_innerModuleInfos i);
  wf_abilities : sm_wf (ib_baseAbilityInfos i);
  wf_skills : sm_wf (ib_skillInfos i);
  wf_extensions : sm_wf (ib_baseExtensionInfos i);
  wf_extensionSkills : sm_wf (ib_extensionSkillInfos i);
  wf_forms : sm_wf (ib_formInfos i);
  wf_shortcuts : sm_wf (ib_shortcutInfos i);
  wf_commonEvents : sm_wf (ib_commonEvents i);
}.

Definition same_keys {V} (keys : list string) (m : stdmap string V) : Prop := ∀ k, k ∈ keys ↔ is_Some (m !! k).
Definition no_key {V} (keys : list string) (m : stdmap string V) : Prop := ∀ k, k ∈ keys → m !! k = None.
Definition all_keys {V} (P : string → bool) (b : bool) (m : stdmap string V) : Prop :=
  ∀ k, is_Some (m !! k) → P k = b.

(** What the parser builds from one HAP: one module, whose key lists are the
    keys of the maps. *)
Record one_hap (n : InnerBundleInfo) (p : string) (m : InnerModuleInfo) : Prop := {
  oh_package : ib_currentPackage n = p;
  oh_nonempty : p ≠ "";
  oh_modules : ib_innerModuleInfos n = <[p := m]> ∅;
  oh_abilities : same_keys (im_abilityKeys m) (ib_baseAbilityInfos n);
  oh_skills : same_keys (im_skillKeys m) (ib_skillInfos n);
  oh_extensions : same_keys (im_extensionKeys m) (ib_baseExtensionInfos n);
  oh_extensionSkills : same_keys (im_extensionSkillKeys m) (ib_extensionSkillInfos n);
  oh_forms : ∀ k, is_Some (ib_formInfos n !! k) → k ∈ im_abilityKeys m;
  oh_shortcuts : all_keys (str_contains (module_mark p)) true (ib_shortcutInfos n);
  oh_commonEvents : all_keys (str_contains (module_mark p)) true (ib_commonEvents n);
}.

(** The bundle has nothing under the keys of the new module. *)
Record fresh_module (p : string) (m : InnerModuleInfo) (i : InnerBundleInfo) : Prop := {
  fresh_package : ib_innerModuleInfos i !! p = None;
  fresh_abilities : no_key (im_abilityKeys m) (ib_baseAbilityInfos i);
  fresh_skills : no_key (im_skillKeys m) (ib_skillInfos i);
  fresh_extensions : no_key (im_extensionKeys m) (ib_baseExtensionInfos i);
  fresh_extensionSkills : no_key (im_extensionSkillKeys m) (ib_extensionSkillInfos i);
  fresh_forms : no_key (im_abilityKeys m) (ib_formInfos i);
  fresh_shortcuts : all_keys (str_contains (module_mark p)) false (ib_shortcutInfos i);
  fresh_commonEvents : all_keys (str_contains (module_mark p)) false (ib_commonEvents i);
}.

Lemma erase_add_keys {V} keys (n m : stdmap string V) :
  sm_wf m → same_keys keys n → no_key keys m → erase_keys keys (add_all n m) = m.
Proof.
  intros Hm Hn Hfresh. apply sm_ext; [by auto using sm_wf_erase_keys, sm_wf_add_all|done|].
  intros k. rewrite sm_lookup_erase_keys, sm_lookup_add_all. case_decide as Hk; [by rewrite Hfresh|].
  destruct (m !! k); [done|]. apply eq_None_not_Some. intros Hs. by apply (Hn k) in Hs.
Qed.

Lemma erase_add_marked {V} (P : string → bool) (n m : stdmap string V) :
  sm_wf m → all_keys P true n → all_keys P false m → erase_if (λ k _, P k) (add_all n m) = m.
Proof.
  intros Hm Hn Hfresh. apply sm_ext; [by auto using sm_wf_erase_if, sm_wf_add_all|done|].
  intros k. rewrite sm_lookup_erase_if, sm_lookup_add_all by auto using sm_wf_add_all.
  destruct (m !! k) as [v|] eqn:E; [by rewrite (Hfresh k) by (by rewrite E)|].
  destruct (n !! k) as [v|] eqn:En; [by rewrite (Hn k) by (by rewrite En)|done].
Qed.

Lemma delete_add_module p (m : InnerModuleInfo) (l : stdmap string InnerModuleInfo) :
  sm_wf l → l !! p = None → delete p (add_all (<[p := m]> ∅) l) = l.
Proof.
  intros Hl Hp. apply sm_ext; [by auto using sm_wf_delete, sm_wf_add_all|done|].
  intros k. rewrite sm_lookup_delete, sm_lookup_add_all. case_decide as Hk; [by subst|].
  destruct (l !! k); [done|]. by rewrite sm_lookup_insert_ne.
Qed.

Lemma erase_add_forms p n i m :
  one_hap n p m → fresh_module p m i → maps_wf i →
  (erase_abilities (im_abilityKeys m) (add_all (ib_baseAbilityInfos n) (ib_baseAbilityInfos i))
    (add_all (ib_formInfos n) (ib_formInfos i))).2 = ib_formInfos i.
Proof.
  intros Hn Hf Hw. apply sm_ext; [|apply Hw|].
  { apply erase_abilities_snd_wf, sm_wf_add_all, Hw. }
  intros k. rewrite erase_abilities_snd, !sm_lookup_add_all. case_decide as Hk.
  - rewrite (fresh_abilities _ _ _ Hf) by done.
    apply (oh_abilities _ _ _ Hn) in Hk as Hs. destruct Hs as [a ->].
    symmetry. by apply (fresh_forms _ _ _ Hf).
  - destruct (ib_formInfos i !! k); [done|].
    apply eq_None_not_Some. intros Hs. by apply (oh_forms _ _ _ Hn) in Hs.
Qed.

Lemma FindModule_spec p i : FindModule p i = true ↔ is_Some (ib_innerModuleInfos i !! p).
Proof. unfold FindModule. destruct (_ !! p); split; [eauto|done|done|intros [? ?]; done]. Qed.

Lemma bundle_ext (i j : InnerBundleInfo) :
  ib_appType i = ib_appType j →
  ib_uid i = ib_uid j →
  ib_gid i = ib_gid j →
  ib_userId i = ib_userId j →
  ib_baseDataDir i = ib_baseDataDir j →
  ib_bundleStatus i = ib_bundleStatus j →
  ib_baseApplicationInfo i = ib_baseApplicationInfo j →
  ib_baseBundleInfo i = ib_baseBundleInfo j →
  ib_appFeature i = ib_appFeature j →
  ib_allowedAcls i = ib_allowedAcls j →
  ib_mark i = ib_mark j →
  ib_appIndex i = ib_appIndex j →
  ib_isSandboxApp i = ib_isSandboxApp j →
  ib_currentPackage i = ib_currentPackage j →
  ib_newBundleName i = ib_newBundleName j →
  ib_onlyCreateBundleUser i = ib_onlyCreateBundleUser j →
  ib_innerModuleInfos i = ib_innerModuleInfos j →
  ib_formInfos i = ib_formInfos j →
  ib_commonEvents i = ib_commonEvents j →
  ib_shortcutInfos i = ib_shortcutInfos j →
  ib_baseAbilityInfos i = ib_baseAbilityInfos j →
  ib_skillInfos i = ib_skillInfos j →
  ib_innerBundleUserInfos i = ib_innerBundleUserInfos j →
  ib_bundlePackInfo i = ib_bundlePackInfo j →
  ib_isNewVersion i = ib_isNewVersion j →
  ib_upgradeFlag i = ib_upgradeFlag j →
  ib_baseExtensionInfos i = ib_baseExtensionInfos j →
  ib_extensionSkillInfos i = ib_extensionSkillInfos j →
  ib_sandboxPersistentInfo i = ib_sandboxPersistentInfo j →
  i = j.
Proof. destruct i, j. simpl. intros. by subst. Qed.

(** Installing a module and uninstalling it gives back the bundle as it
    was: AddModuleInfo succeeds for a package the bundle does not have, and
    RemoveModuleInfo then takes out exactly what was added; only the entry
    names of the bundle are cleared when the module is an entry. *)
Theorem module_round_trip n p m i :
  one_hap n p m → fresh_module p m i → maps_wf i →
  (AddModuleInfo n i).2 = true ∧
  RemoveModuleInfo p (AddModuleInfo n i).1
  = if im_isEntry m
    then i <| ib_baseBundleInfo ::= λ b, b <| bi_mainEntry := "" |> <| bi_entryModuleName := "" |> |>
    else i.
Proof.
  intros Hn Hf Hw. unfold AddModuleInfo. rewrite (oh_package _ _ _ Hn).
  destruct (str_empty p) eqn:Ep; [apply str_empty_spec in Ep; by destruct (oh_nonempty _ _ _ Hn)|].
  unfold FindModule. rewrite (fresh_package _ _ _ Hf). simpl. split; [done|].
  unfold RemoveModuleInfo, add_module_maps. simpl. rewrite (oh_modules _ _ _ Hn), sm_lookup_add_all.
  rewrite (fresh_package _ _ _ Hf), sm_lookup_insert_eq.
  pose proof (erase_add_forms _ _ _ _ Hn Hf Hw) as Hforms.
  pose proof (erase_abilities_fst (im_abilityKeys m) (add_all (ib_baseAbilityInfos n) (ib_baseAbilityInfos i))
    (add_all (ib_formInfos n) (ib_formInfos i))) as Habilities.
  pose proof (delete_add_module p m _ (wf_modules _ Hw) (fresh_package _ _ _ Hf)) as Hmodules.
  pose proof (erase_add_marked _ _ _ (wf_shortcuts _ Hw) (oh_shortcuts _ _ _ Hn) (fresh_shortcuts _ _ _ Hf)) as Hs.
  pose proof (erase_add_marked _ _ _ (wf_commonEvents _ Hw) (oh_commonEvents _ _ _ Hn) (fresh_commonEvents _ _ _ Hf)) as Hc.
  pose proof (erase_add_keys _ _ _ (wf_abilities _ Hw) (oh_abilities _ _ _ Hn) (fresh_abilities _ _ _ Hf)) as Ha.
  pose proof (erase_add_keys _ _ _ (wf_skills _ Hw) (oh_skills _ _ _ Hn) (fresh_skills _ _ _ Hf)) as Hk.
  pose proof (erase_add_keys _ _ _ (wf_extensions _ Hw) (oh_extensions _ _ _ Hn) (fresh_extensions _ _ _ Hf)) as He.
  pose proof (erase_add_keys _ _ _ (wf_extensionSkills _ Hw) (oh_extensionSkills _ _ _ Hn) (fresh_extensionSkills _ _ _ Hf)) as Hx.
  unfold module_mark in *.
  destruct (im_isEntry m); cbn -[str_contains erase_abilities] in *;
    destruct (erase_abilities _ _ _) as [a f]; simpl in Hforms, Habilities; subst a f;
    apply bundle_ext; simpl; congruence.
Qed.
Lemma prefix_app_r p s t : String.prefix p s = true → String.prefix p (s +:+ t) = true.
Proof. rewrite !prefix_app. intros [u ->]. exists (u +:+ t). apply string_app_assoc. Qed.

Lemma str_contains_app sub s t : str_contains sub s = true → str_contains sub (s +:+ t) = true.
Proof.
  induction s as [|a s IH]; cbn [str_contains].
  - destruct sub; [|done]. intros _. change ("" +:+ t) with t. by destruct t.
  - rewrite orb_true_iff. intros [H|H].
    + apply (prefix_app_r sub (String a s) t) in H. change (String a s +:+ t) with (String a (s +:+ t)) in *.
      cbn [str_contains]. by rewrite H.
    + change (String a s +:+ t) with (String a (s +:+ t)). cbn [str_contains]. by rewrite IH, orb_true_r.
Qed.

Lemma erase_if_all {V} (P : string → V → bool) (m : stdmap string V) :
  (∀ k, is_Some (m !! k) → ∀ v, P k v = true) → sm_wf m → erase_if P m = ∅.
Proof.
  intros Hall Hm. apply sm_ext; [auto with cpp|constructor|]. intros k.
  rewrite sm_lookup_erase_if by done. destruct (m !! k) eqn:E; [|done].
  rewrite (Hall k); [done|by rewrite E].
Qed.
(** What a keyed map of the bundle holds after its module was replaced: the
    keys of the old version are gone, those of the new version are there. *)
Definition replaced {V} (oldKeys : list string) (n i i' : stdmap string V) : Prop :=
  ∀ k, i' !! k = match (if decide (k ∈ oldKeys) then None else i !! k) with Some v => Some v | None => n !! k end.

Definition replaced_marked {V} (mark : string) (n i i' : stdmap string V) : Prop :=
  ∀ k, i' !! k = match (if str_contains mark k then None else i !! k) with Some v => Some v | None => n !! k end.

Lemma erase_keys_replaced {V} keys (n i : stdmap string V) : replaced keys n i (add_all n (erase_keys keys i)).
Proof. intros k. by rewrite sm_lookup_add_all, sm_lookup_erase_keys. Qed.

Lemma erase_if_replaced {V} mark (n i : stdmap string V) :
  sm_wf i → replaced_marked mark n i (add_all n (erase_if (λ k _, str_contains mark k) i)).
Proof.
  intros Hi k. rewrite sm_lookup_add_all, sm_lookup_erase_if by done.
  destruct (i !! k), (str_contains mark k); done.
Qed.

(** C23: UpdateModuleInfo replaces a module: its package maps to the new
    module and every other package to what it was; in each of the maps of
    abilities, skills, extensions and extension skills the keys of the old
    version are gone, the new entries are in, and an entry kept by another
    module is neither removed nor overwritten; shortcuts and common events
    are replaced by the package mark in their key. *)
Theorem UpdateModuleInfo_correct n p m old i :
  one_hap n p m → maps_wf i → ib_innerModuleInfos i !! p = Some old →
  let i' := UpdateModuleInfo n i in
  (∀ q, ib_innerModuleInfos i' !! q = if decide (q = p) then Some m else ib_innerModuleInfos i !! q)
  ∧ replaced (im_abilityKeys old) (ib_baseAbilityInfos n) (ib_baseAbilityInfos i) (ib_baseAbilityInfos i')
  ∧ replaced (im_skillKeys old) (ib_skillInfos n) (ib_skillInfos i) (ib_skillInfos i')
  ∧ replaced (im_extensionKeys old) (ib_baseExtensionInfos n) (ib_baseExtensionInfos i) (ib_baseExtensionInfos i')
  ∧ replaced (im_extensionSkillKeys old) (ib_extensionSkillInfos n) (ib_extensionSkillInfos i)
      (ib_extensionSkillInfos i')
  ∧ replaced_marked (module_mark p) (ib_shortcutInfos n) (ib_shortcutInfos i) (ib_shortcutInfos i')
  ∧ replaced_marked (module_mark p) (ib_commonEvents n) (ib_commonEvents i) (ib_commonEvents i').
Proof.
  intros Hn Hw Hold. unfold UpdateModuleInfo. rewrite (oh_package _ _ _ Hn).
  destruct (str_empty p) eqn:Ep; [apply str_empty_spec in Ep; by destruct (oh_nonempty _ _ _ Hn)|].
  unfold RemoveModuleInfo, add_module_maps. rewrite Hold, (oh_modules _ _ _ Hn).
  change ("." +:+ p +:+ ".") with (module_mark p).
  pose proof (λ a f, erase_abilities_fst (im_abilityKeys old) a f) as Habilities.
  assert (∀ q, add_all (<[p := m]> ∅) (delete p (ib_innerModuleInfos i)) !! q
    = if decide (q = p) then Some m else ib_innerModuleInfos i !! q) as Hmodules.
  { intros q. rewrite sm_lookup_add_all, sm_lookup_delete, sm_lookup_insert.
    destruct (decide (p = q)), (decide (q = p)); try congruence. by destruct (_ !! q). }
  pose proof (wf_shortcuts _ Hw). pose proof (wf_commonEvents _ Hw).
  destruct (im_isEntry old); cbn -[str_contains erase_abilities module_mark replaced replaced_marked];
    specialize (Habilities (ib_baseAbilityInfos i) (ib_formInfos i));
    destruct (erase_abilities _ _ _) as [a f]; simpl in Habilities; subst a;
    simpl; split_and!; auto using erase_keys_replaced, erase_if_replaced.
Qed.

(** Removing a module by the mark ".package." in the key takes the
    shortcuts of the other modules with it when the name of the bundle
    itself contains the mark: with keys that start with the bundle name, no
    shortcut and no common event of the bundle survives. *)
Theorem RemoveModuleInfo_foreign_keys p m i :
  maps_wf i → ib_innerModuleInfos i !! p = Some m →
  str_contains (module_mark p) (GetBundleName i +:+ ".") = true →
  (∀ k, is_Some (ib_shortcutInfos i !! k) ∨ is_Some (ib_commonEvents i !! k) →
     ∃ rest, k = (GetBundleName i +:+ ".") +:+ rest) →
  ib_shortcutInfos (RemoveModuleInfo p i) = ∅ ∧ ib_commonEvents (RemoveModuleInfo p i) = ∅.
Proof.
  intros Hw Hp Hmark Hkeys.
  assert (∀ k, is_Some (ib_shortcutInfos i !! k) ∨ is_Some (ib_commonEvents i !! k) →
    str_contains (module_mark p) k = true) as Hall.
  { intros k (rest & ->)%Hkeys. by apply str_contains_app. }
  unfold RemoveModuleInfo. rewrite Hp. change ("." +:+ p +:+ ".") with (module_mark p).
  destruct (im_isEntry m); cbn -[str_contains erase_abilities module_mark];
    destruct (erase_abilities _ _ _) as [a f]; simpl;
    split; apply erase_if_all; auto using wf_shortcuts, wf_commonEvents.
Qed.
(** ** A bundle of two modules *)

Definition demo_key (p name : string) : string := "com.demo." +:+ p +:+ "." +:+ name.

Definition demo_module (p : string) (isEntry : bool) (dependencies : list string) : InnerModuleInfo :=
  new_InnerModuleInfo <| im_modulePackage := p |> <| im_moduleName := p |> <| im_isEntry := isEntry |>
    <| im_abilityKeys := [demo_key p "Main"] |> <| im_skillKeys := [demo_key p "Main"] |>
    <| im_dependencies := dependencies |>.

(** What parsing the HAP of package [p] gives: one ability, one shortcut. *)
Definition demo_hap (p : string) (isEntry : bool) (dependencies : list string) : InnerBundleInfo :=
  new_InnerBundleInfo <| ib_currentPackage := p |>
    <| ib_baseApplicationInfo ::= λ a, a <| app_bundleName := "com.demo" |> |>
    <| ib_innerModuleInfos := <[p := demo_module p isEntry dependencies]> ∅ |>
    <| ib_baseAbilityInfos := <[demo_key p "Main" :=
         (new_AbilityInfo 0) <| ai_name := "Main" |> <| ai_bundleName := "com.demo" |> <| ai_moduleName := p |>]> ∅ |>
    <| ib_skillInfos := <[demo_key p "Main" := []]> ∅ |>
    <| ib_shortcutInfos := <[demo_key p "s" := new_ShortcutInfo 0]> ∅ |>.

Lemma sm_lookup_keys {V} k (m : stdmap string V) : is_Some (m !! k) → k ∈ sm_keys m.
Proof. intros [v Hv%sm_lookup_elem]. apply list_elem_of_fmap. by exists (k, v). Qed.

Lemma singleton_keys {V} k (v : V) : same_keys [k] (<[k := v]> ∅ : stdmap string V).
Proof.
  intros j. rewrite list_elem_of_singleton, sm_lookup_insert. case_decide as Hk.
  - split; [eauto|done].
  - split; [intros ->; done|intros [? ?]; done].
Qed.

Lemma empty_keys {V} : same_keys [] (∅ : stdmap string V).
Proof. intros j. split; [set_solver|intros [? ?]; done]. Qed.

Lemma singleton_all {V} P b k (v : V) : P k = b → all_keys P b (<[k := v]> ∅ : stdmap string V).
Proof. intros HP j. rewrite sm_lookup_insert. case_decide; [by subst|intros [? ?]; done]. Qed.

Lemma empty_all {V} P b : all_keys P b (∅ : stdmap string V).
Proof. intros j [? ?]. done. Qed.

Lemma demo_one_hap p e d :
  p ≠ "" → str_contains (module_mark p) (demo_key p "s") = true → one_hap (demo_hap p e d) p (demo_module p e d).
Proof.
  intros Hp Hmark. constructor; try done; try apply singleton_keys; try apply empty_keys; try apply empty_all.
  - intros k [? ?]. done.
  - by apply singleton_all.
Qed.

Lemma demo_maps_wf p e d : maps_wf (demo_hap p e d).
Proof. constructor; repeat constructor. Qed.

Lemma module_round_trip_witness :
  RemoveModuleInfo "feature" (AddModuleInfo (demo_hap "feature" false []) (demo_hap "entry" true [])).1
  = demo_hap "entry" true [].
Proof.
  apply (module_round_trip (demo_hap "feature" false []) "feature" (demo_module "feature" false [])
    (demo_hap "entry" true [])).
  - by apply demo_one_hap.
  - constructor; try done; try (by apply singleton_all); try apply empty_all.
    all: intros k Hk; simpl in Hk; first [by apply list_elem_of_singleton in Hk as -> | by apply not_elem_of_nil in Hk].
  - apply demo_maps_wf.
Defined.

Definition demo_two : InnerBundleInfo :=
  (AddModuleInfo (demo_hap "feature" false ["entry"]) (demo_hap "entry" true ["feature"])).1.

Lemma UpdateModuleInfo_correct_witness :
  ib_innerModuleInfos (UpdateModuleInfo (demo_hap "entry" true []) (demo_hap "entry" true ["feature"])) !! "entry"
  = Some (demo_module "entry" true []).
Proof.
  destruct (UpdateModuleInfo_correct (demo_hap "entry" true []) "entry" (demo_module "entry" true [])
    (demo_module "entry" true ["feature"]) (demo_hap "entry" true ["feature"])) as [Hm _].
  - by apply demo_one_hap.
  - apply demo_maps_wf.
  - reflexivity.
  - rewrite Hm. reflexivity.
Defined.

(** The bundle "com.demo" with a package "demo": its mark is in every key. *)
Definition demo_overlap : InnerBundleInfo :=
  Eval vm_compute in (AddModuleInfo (demo_hap "demo" false []) (demo_hap "entry" true [])).1.

Lemma RemoveModuleInfo_foreign_keys_witness : ib_shortcutInfos (RemoveModuleInfo "demo" demo_overlap) = ∅.
Proof.
  refine (proj1 (RemoveModuleInfo_foreign_keys "demo" (demo_module "demo" false []) demo_overlap _ _ _ _)).
  - constructor; repeat constructor.
  - vm_compute. reflexivity.
  - vm_compute. reflexivity.
  - intros k [Hk|Hk].
    + apply sm_lookup_keys in Hk. change (k ∈ ["com.demo.demo.s"; "com.demo.entry.s"]) in Hk.
      rewrite !elem_of_cons in Hk.
      destruct Hk as [->|[->|Hk]]; [by exists "demo.s"|by exists "entry.s"|by apply not_elem_of_nil in Hk].
    + by destruct Hk.
Defined.

Example demo_dependencies : GetAllDependentModuleNames "entry" demo_two = Some ["feature"; "entry"].
Proof. reflexivity. Qed.
(** * Users

    The operations on the user map, as steps, and the map they keep: user id
    to information. *)

Inductive user_op :=
| UserAdd (u : InnerBundleUserInfo)
| UserRemove (userId : Z)
| UserReset (userId : Z)
| UserInstallTime (time userId : Z)
| UserUpdateTime (time userId : Z)
| UserAccessToken (accessToken userId : Z)
| UserEnable (enabled : bool) (userId : Z).

Definition apply_user_op (o : user_op) (i : InnerBundleInfo) : InnerBundleInfo :=
  match o with
  | UserAdd u => AddInnerBundleUserInfo u i
  | UserRemove userId => RemoveInnerBundleUserInfo userId i
  | UserReset userId => ResetBundleState userId i
  | UserInstallTime time userId => SetBundleInstallTime time userId i
  | UserUpdateTime time userId => SetBundleUpdateTime time userId i
  | UserAccessToken accessToken userId => SetAccessTokenId accessToken userId i
  | UserEnable enabled userId => SetApplicationEnabled enabled userId i
  end.

(** The specification: a function from user ids to what the bundle knows
    about the user. *)
Definition user_spec := Z → option InnerBundleUserInfo.

Definition spec_user_op (o : user_op) (m : user_spec) : user_spec := λ v,
  let on userId f := if decide (v = userId) then f <$> m v else m v in
  match o with
  | UserAdd u => if decide (v = user_of u) then Some u else m v
  | UserRemove userId => if decide (v = userId) then None else m v
  | UserReset userId => if userId =? ALL_USERID then ResetUserState <$> m v else on userId ResetUserState
  | UserInstallTime time userId => on userId (λ u, u <| ibu_installTime := time |> <| ibu_updateTime := time |>)
  | UserUpdateTime time userId => on userId (λ u, u <| ibu_updateTime := time |>)
  | UserAccessToken accessToken userId => on userId (λ u, u <| ibu_accessTokenId := accessToken |>)
  | UserEnable enabled userId => on userId (λ u, u <| ibu_bundleUserInfo ::= λ b, b <| bu_enabled := enabled |> |>)
  end.

Definition user_view (i : InnerBundleInfo) : user_spec := λ v, ib_innerBundleUserInfos i !! user_key v i.

(** Every entry is under the key of its user. *)
Definition users_wf (i : InnerBundleInfo) : Prop :=
  sm_wf (ib_innerBundleUserInfos i)
  ∧ ∀ k u, ib_innerBundleUserInfos i !! k = Some u → k = user_key (user_of u) i.

Lemma string_app_inj s t u : s +:+ t = s +:+ u → t = u.
Proof. induction s as [|a s IH]; [done|]. intros H. injection H. exact IH. Qed.

Lemma user_key_inj b u v : NameAndUserIdToKey b u = NameAndUserIdToKey b v → u = v.
Proof. intros H%string_app_inj%string_app_inj. exact (inj pretty _ _ H). Qed.

Lemma user_key_decide {A} b u v (x y : A) :
  (if decide (NameAndUserIdToKey b u = NameAndUserIdToKey b v) then x else y) = if decide (v = u) then x else y.
Proof. repeat case_decide; subst; try done. by apply user_key_inj in H; subst. Qed.

Lemma on_user_view f userId i v :
  user_view (on_user userId f i) v = if decide (v = userId) then f <$> user_view i v else user_view i v.
Proof.
  unfold on_user, user_view. destruct (ib_innerBundleUserInfos i !! user_key userId i) as [u|] eqn:E.
  - unfold user_key, GetBundleName in *. simpl. rewrite sm_lookup_insert, user_key_decide.
    case_decide; [subst|done]. by rewrite E.
  - case_decide; [subst|done]. by rewrite E.
Qed.

Lemma on_user_wf f userId i :
  (∀ u, user_of (f u) = user_of u) → users_wf i → users_wf (on_user userId f i).
Proof.
  intros Hf [Hwf Hkeys]. unfold on_user.
  destruct (ib_innerBundleUserInfos i !! user_key userId i) as [u|] eqn:E; [|by split].
  split; simpl; [auto with cpp|]. intros k w. rewrite sm_lookup_insert. case_decide; intros Hw.
  - simplify_eq. unfold user_key, GetBundleName in *. simpl. rewrite Hf. by apply Hkeys.
  - by apply Hkeys.
Qed.

Lemma remove_modules_users ms userId i :
  ib_innerBundleUserInfos (foldl (λ i m, DeleteModuleRemovable (im_moduleName m) userId i) i ms)
  = ib_innerBundleUserInfos i
  ∧ ib_baseApplicationInfo (foldl (λ i m, DeleteModuleRemovable (im_moduleName m) userId i) i ms)
  = ib_baseApplicationInfo i.
Proof. revert i. induction ms as [|m ms IH]; intros i; [done|]. simpl. by destruct (IH (DeleteModuleRemovable (im_moduleName m) userId i)) as [-> ->]. Qed.

Lemma user_op_wf o i : users_wf i → users_wf (apply_user_op o i).
Proof.
  intros Hi. pose proof Hi as [Hwf Hkeys]. destruct o as [u|userId|userId| | | |]; simpl; try (by apply on_user_wf).
  - split; simpl; [auto with cpp|]. intros k w. rewrite sm_lookup_insert. case_decide; intros Hw; [by simplify_eq|by apply Hkeys].
  - unfold RemoveInnerBundleUserInfo. destruct (_ !! _); [|done].
    split; rewrite (proj1 (remove_modules_users _ _ _)); simpl; [auto with cpp|].
    intros k w. rewrite sm_lookup_delete. case_decide; [done|]. intros Hw%Hkeys.
    unfold user_key, GetBundleName in *. by rewrite (proj2 (remove_modules_users _ _ _)).
  - unfold ResetBundleState. case_match; [|by apply on_user_wf].
    split; simpl; [auto with cpp|]. intros k w. rewrite sm_lookup_map_values.
    destruct (_ !! k) as [w'|] eqn:Ew; [|done]. intros [= <-]. by apply Hkeys in Ew.
Qed.

Lemma user_op_view o i v : user_view (apply_user_op o i) v = spec_user_op o (user_view i) v.
Proof.
  destruct o as [u|userId|userId| | | |]; simpl; try apply on_user_view.
  - unfold user_view, AddInnerBundleUserInfo, user_key, GetBundleName. simpl.
    by rewrite sm_lookup_insert, user_key_decide.
  - unfold RemoveInnerBundleUserInfo, user_view, user_key, GetBundleName.
    destruct (_ !! NameAndUserIdToKey _ userId) eqn:E.
    + rewrite !(proj1 (remove_modules_users _ _ _)), !(proj2 (remove_modules_users _ _ _)). simpl.
      by rewrite sm_lookup_delete, user_key_decide.
    + case_decide; [by subst|done].
  - unfold ResetBundleState. case_match; [|apply on_user_view].
    unfold user_view, user_key, GetBundleName. simpl. by rewrite sm_lookup_map_values.
Qed.

(** C24: whatever users are added, removed, reset or updated, the user map of
    a bundle stays well formed (each entry under the key of its own user)
    and behaves as a function from user ids to their information: an
    operation on one user changes that user and nobody else. *)
Theorem users_refine os i :
  users_wf i →
  let i' := foldl (λ i o, apply_user_op o i) i os in
  users_wf i' ∧ ∀ v, user_view i' v = foldl (λ m o, spec_user_op o m) (user_view i) os v.
Proof.
  intros Hi. simpl. enough (∀ i m, users_wf i → (∀ v, user_view i v = m v) →
    users_wf (foldl (λ i o, apply_user_op o i) i os) ∧
    ∀ v, user_view (foldl (λ i o, apply_user_op o i) i os) v = foldl (λ m o, spec_user_op o m) m os v) by auto.
  clear. induction os as [|o os IH]; intros i m Hi Hm; [by split|]. simpl.
  apply IH; [by apply user_op_wf|]. intros v. rewrite user_op_view.
  destruct o; simpl; repeat case_decide; rewrite ?Hm; done.
Qed.

(** The user that answers a request for a real user id is the requested
    one when it has the bundle; otherwise, for a requested id from 100 on,
    one below 100 (the shared users) that has it; and -1 exactly when there
    is none. *)
Theorem GetResponseUserId_correct requestUserId i :
  users_wf i → 0 <= requestUserId →
  let r := GetResponseUserId requestUserId i in
  (r = requestUserId ∧ is_Some (user_view i requestUserId))
  ∨ (user_view i requestUserId = None ∧ START_USERID <= requestUserId ∧ r < START_USERID ∧ is_Some (user_view i r))
  ∨ (user_view i requestUserId = None ∧ r = INVALID_USERID
     ∧ (START_USERID <= requestUserId → ∀ v, v < START_USERID → user_view i v = None)).
Proof.
  intros [Hwf Hkeys] Hreq. unfold GetResponseUserId.
  assert (∀ k u, (k, u) ∈ elems (ib_innerBundleUserInfos i) → user_view i (user_of u) = Some u) as Hin.
  { intros k u Hu. apply sm_elem_lookup in Hu; [|done]. unfold user_view. by rewrite <- (Hkeys _ _ Hu). }
  unfold sm_begin. destruct (elems (ib_innerBundleUserInfos i)) as [|[k0 u0] l] eqn:El.
  { right; right. assert (∀ v, user_view i v = None) as Hn.
    { intros v. unfold user_view. apply sm_lookup_none. unfold sm_keys. rewrite El. apply not_elem_of_nil. }
    auto. }
  simpl. destruct (requestUserId =? ANY_USERID) eqn:Ea; [unfold ANY_USERID in Ea; lia|].
  unfold HasInnerBundleUserInfo. destruct (requestUserId =? ALL_USERID) eqn:Eb; [unfold ALL_USERID in Eb; lia|].
  destruct (ib_innerBundleUserInfos i !! user_key requestUserId i) as [u|] eqn:Er.
  { left. split; [done|]. exists u. exact Er. }
  destruct (requestUserId <? START_USERID) eqn:Es; [right; right; repeat split; [done|lia]|].
  unfold sm_vals. rewrite El. destruct (List.find _ _) as [u|] eqn:Ef.
  - apply find_some in Ef as [Hu Hlt]. apply list_elem_of_In, list_elem_of_fmap in Hu as ([k u'] & -> & Hk).
    right; left. split_and!; [done|lia|simpl in *; lia|]. exists u'. by apply (Hin k).
  - right; right. split_and!; [done|done|]. intros _ v Hv. destruct (user_view i v) as [u|] eqn:Ev; [|done].
    exfalso. unfold user_view in Ev. pose proof (Hkeys _ _ Ev) as Hk. apply user_key_inj in Hk.
    apply sm_lookup_elem in Ev. rewrite El in Ev.
    assert (u ∈ ((k0, u0) :: l).*2) as Hu by (apply list_elem_of_fmap; by exists (user_key v i, u)).
    apply list_elem_of_In in Hu. apply (find_none _ _ Ef) in Hu. lia.
Qed.
(** ** Enabled abilities *)

(** No ability is listed twice as disabled. *)
Definition disabled_NoDup (i : InnerBundleInfo) : Prop :=
  ∀ k u, ib_innerBundleUserInfos i !! k = Some u → NoDup (bu_disabledAbilities (ibu_bundleUserInfo u)).

Lemma elem_of_erase_first x y l : NoDup l → y ∈ erase_first x l ↔ y ∈ l ∧ y ≠ x.
Proof.
  induction 1 as [|z l Hz ND IH]; simpl; [set_solver|]. case_decide; set_solver.
Qed.

Lemma NoDup_erase_first x l : NoDup l → NoDup (erase_first x l).
Proof.
  induction 1 as [|z l Hz ND IH]; simpl; [constructor|]. case_decide; [done|].
  constructor; [|done]. rewrite elem_of_erase_first by done. tauto.
Qed.

(** SetAbilityEnabled succeeds exactly when the bundle has such an
    ability and the user; it then enables or disables, for that user, every
    ability of the bundle with that name, whatever its module, and changes no
    other ability and no other user; when it fails nothing changes. *)
Theorem SetAbilityEnabled_correct moduleName abilityName isEnabled userId i :
  disabled_NoDup i →
  let b := GetBundleName i in
  let '(i', ok) := SetAbilityEnabled b moduleName abilityName isEnabled userId i in
  disabled_NoDup i'
  ∧ (ok = true ↔ (∃ k a, (k, a) ∈ elems (ib_baseAbilityInfos i) ∧ is_ability b moduleName abilityName a = true)
       ∧ is_Some (user_view i userId))
  ∧ (ok = false → i' = i)
  ∧ (ok = true → ∀ a v, ai_bundleName a = b → v ≠ NOT_EXIST_USERID →
      IsAbilityEnabled a v i' =
        if decide (ai_name a = abilityName ∧ v = userId) then isEnabled else IsAbilityEnabled a v i).
Proof.
  intros Hnd. simpl. unfold SetAbilityEnabled, user_view, user_key.
  destruct (existsb _ _) eqn:Ex.
  2: { split_and!; [done|split; [done|]|done|done]. intros [(k & a & Ha & Hia) _]. exfalso.
       apply not_true_iff_false in Ex. apply Ex, existsb_exists. exists a. split; [|done].
       apply list_elem_of_In, list_elem_of_fmap. by exists (k, a). }
  assert (∃ k a, (k, a) ∈ elems (ib_baseAbilityInfos i)
    ∧ is_ability (GetBundleName i) moduleName abilityName a = true) as Hab.
  { apply existsb_exists in Ex as (a & Ha & Hia).
    apply list_elem_of_In, list_elem_of_fmap in Ha as ([k a'] & -> & Hk). by exists k, a'. }
  destruct (ib_innerBundleUserInfos i !! _) as [u|] eqn:Eu.
  2: { split_and!; [done|split; [done|]|done|done]. by intros [_ [? ?]]. }
  set (d := bu_disabledAbilities (ibu_bundleUserInfo u)).
  set (d' := if decide (abilityName ∈ d) then _ else _).
  pose proof (Hnd _ _ Eu) as Hd. fold d in Hd.
  assert (NoDup d' ∧ ∀ y, y ∈ d' ↔ if decide (y = abilityName) then isEnabled = false else y ∈ d) as [Hd' Hiff].
  { unfold d'. destruct (decide (abilityName ∈ d)), isEnabled; simpl.
    - split; [by apply NoDup_erase_first|]. intros y. rewrite elem_of_erase_first by done.
      case_decide; [naive_solver|tauto].
    - split; [done|]. intros y. case_decide; by subst.
    - split; [done|]. intros y. case_decide; by subst.
    - split; [apply NoDup_app; repeat split; [done|set_solver|apply NoDup_singleton]|].
      intros y. case_decide; set_solver. }
  split; [|split; [|split; [done|]]].
  - intros k w. simpl. rewrite sm_lookup_insert. case_decide; intros; [by simplify_eq|eauto].
  - split; [|done]. intros _. split; [done|by exists u].
  - intros _ a v Hb Hv. unfold IsAbilityEnabled. destruct (v =? NOT_EXIST_USERID) eqn:E; [lia|]. simpl.
    rewrite Hb, sm_lookup_insert, user_key_decide.
    destruct (decide (v = userId)) as [->|Hne].
    + rewrite Eu. simpl. fold d. specialize (Hiff (ai_name a)).
      destruct (decide (ai_name a = abilityName ∧ userId = userId)) as [[Ha _]|Hn].
      * rewrite decide_True in Hiff by done. destruct isEnabled; [rewrite bool_decide_false|rewrite bool_decide_true]; naive_solver.
      * rewrite decide_False in Hiff by tauto. f_equal. by apply bool_decide_ext.
    + rewrite decide_False by tauto. done.
Qed.

(** ** Removable modules *)

Lemma find_update_first name name' f l :
  (∀ m, im_moduleName (f m) = im_moduleName m) →
  snd <$> List.find (has_name name) (update_first name' f l)
  = if decide (name = name') then f <$> (snd <$> List.find (has_name name) l)
    else snd <$> List.find (has_name name) l.
Proof.
  intros Hf. induction l as [|p l IH]; simpl; [by case_decide|].
  destruct (has_name name' p) eqn:E'; simpl.
  - assert (has_name name (p.1, f p.2) = has_name name p) as -> by (unfold has_name; simpl; by rewrite Hf).
    unfold has_name in E' |- *. apply bool_decide_eq_true in E'.
    case_bool_decide; case_decide; simpl; try done; congruence.
  - destruct (has_name name p) eqn:E; [|done].
    rewrite decide_False; [done|]. intros ->. congruence.
Qed.

Lemma module_on_first name name' f i :
  (∀ m, im_moduleName (f m) = im_moduleName m) →
  GetInnerModuleInfoByModuleName name (on_first_module name' f i)
  = if decide (name = name') then f <$> GetInnerModuleInfoByModuleName name i
    else GetInnerModuleInfoByModuleName name i.
Proof. apply find_update_first. Qed.

Lemma pretty_decide {A} (u v : Z) (x y : A) :
  (if decide (pretty u = pretty v) then x else y) = if decide (u = v) then x else y.
Proof. repeat case_decide; subst; try done. by apply (inj pretty) in H. Qed.

Lemma find_has_name name l :
  is_Some (snd <$> List.find (has_name name) l) ↔ existsb (has_name name) l = true.
Proof.
  induction l as [|p l IH]; simpl; [split; [intros [? ?]; done|done]|].
  destruct (has_name name p); simpl; [split; eauto|done].
Qed.

Lemma DeleteModuleRemovable_exist name name' userId v i :
  IsUserExistModule name v (DeleteModuleRemovable name' userId i)
  = if decide (name = name' ∧ v = userId) then false else IsUserExistModule name v i.
Proof.
  unfold IsUserExistModule, DeleteModuleRemovable. rewrite module_on_first by done.
  destruct (decide (name = name')) as [->|Hne]; [|by rewrite decide_False by tauto].
  destruct (GetInnerModuleInfoByModuleName name' i) as [m|]; simpl; [|by case_decide].
  rewrite sm_lookup_delete, pretty_decide.
  destruct (decide (userId = v)), (decide (name' = name' ∧ v = userId)) as [[]|]; try done; exfalso; naive_solver.
Qed.

Lemma delete_all_exist ms name userId v i :
  IsUserExistModule name v (foldl (λ i m, DeleteModuleRemovable (im_moduleName m) userId i) i ms)
  = if decide (name ∈ map im_moduleName ms ∧ v = userId) then false else IsUserExistModule name v i.
Proof.
  revert i. induction ms as [|m ms IH]; intros i; simpl.
  - done.
  - rewrite IH, DeleteModuleRemovable_exist.
    repeat case_decide; try done; exfalso; set_solver.
Qed.

Lemma exist_has_name name v i :
  IsUserExistModule name v i = true → name ∈ GetModuleNames i.
Proof.
  unfold IsUserExistModule, GetInnerModuleInfoByModuleName, GetModuleNames.
  destruct (List.find _ _) as [p|] eqn:E; simpl; [|done]. intros _.
  apply find_some in E as [Hp Hn]. unfold has_name in Hn. apply bool_decide_eq_true in Hn as <-.
  change (im_moduleName p.2 ∈ im_moduleName <$> sm_vals (ib_innerModuleInfos i)).
  apply list_elem_of_In in Hp. apply list_elem_of_fmap. exists p.2. split; [done|].
  apply list_elem_of_fmap. by exists p.
Qed.

(** The removable mark of a module and a user is what was last set for
    exactly that module and user, setting fails exactly when no module has
    the name, and a user removed from the bundle exists in none of its
    modules while the marks of the other users stay. *)
Theorem module_removable_correct moduleName isEnable userId i :
  let '(i', ok) := SetModuleRemovable moduleName isEnable userId i in
  (ok = true ↔ is_Some (GetInnerModuleInfoByModuleName moduleName i))
  ∧ (∀ name v, IsModuleRemovable name v i'
       = if decide (name = moduleName ∧ v = userId ∧ ok = true) then isEnable else IsModuleRemovable name v i)
  ∧ (∀ name v, is_Some (user_view i userId) →
       IsUserExistModule name v (RemoveInnerBundleUserInfo userId i)
       = if decide (v = userId) then false else IsUserExistModule name v i).
Proof.
  unfold SetModuleRemovable. split_and!.
  - symmetry. apply find_has_name.
  - intros name v. unfold IsModuleRemovable. rewrite module_on_first by done.
    destruct (decide (name = moduleName)) as [->|Hne]; [|by rewrite decide_False by tauto].
    pose proof (find_has_name moduleName (elems (ib_innerModuleInfos i))) as Hok.
    unfold GetInnerModuleInfoByModuleName in *. destruct (snd <$> _) as [m|]; simpl.
    + rewrite sm_lookup_insert, pretty_decide. pose proof (proj1 Hok ltac:(eauto)) as ->.
      destruct (decide (userId = v)), (decide (moduleName = moduleName ∧ v = userId ∧ true = true)) as [[? []]|];
        try done; exfalso; naive_solver.
    + rewrite decide_False; [done|]. intros (_ & _ & H). by apply Hok in H as [? ?].
  - intros name v [u Hu]. unfold RemoveInnerBundleUserInfo. unfold user_view in Hu. rewrite Hu.
    rewrite delete_all_exist. simpl.
    assert (∀ j : InnerBundleInfo, ib_innerModuleInfos j = ib_innerModuleInfos i →
      IsUserExistModule name v j = IsUserExistModule name v i) as Hsame.
    { intros j Hj. unfold IsUserExistModule, GetInnerModuleInfoByModuleName. by rewrite Hj. }
    rewrite Hsame by done. pose proof (exist_has_name name v i) as Hn. unfold GetModuleNames in Hn.
    destruct (decide (v = userId)) as [->|Hne]; [|by rewrite decide_False by tauto].
    destruct (IsUserExistModule name userId i); [rewrite decide_True by auto; done|by case_decide].
Qed.

(** ** A bundle with two users *)

Definition demo_user (userId : Z) : InnerBundleUserInfo :=
  new_InnerBundleUserInfo <| ibu_bundleUserInfo ::= λ b, b <| bu_userId := userId |> |> <| ibu_uid := 10000 |>.

Definition demo_ops : list user_op := [UserAdd (demo_user 0); UserAdd (demo_user 101); UserEnable false 101].

Lemma demo_users_wf : users_wf (demo_hap "entry" true []).
Proof. split; [apply sm_wf_empty|]. intros k u Hk. done. Qed.

Lemma users_refine_witness :
  users_wf (foldl (λ i o, apply_user_op o i) (demo_hap "entry" true []) demo_ops).
Proof. apply (users_refine demo_ops (demo_hap "entry" true [])). apply demo_users_wf. Defined.

Definition demo_shared : InnerBundleInfo := AddInnerBundleUserInfo (demo_user 0) (demo_hap "entry" true []).

Lemma demo_shared_users : ib_innerBundleUserInfos demo_shared = <["com.demo_0" := demo_user 0]> ∅.
Proof. vm_compute. reflexivity. Qed.

Lemma GetResponseUserId_correct_witness :
  GetResponseUserId 101 demo_shared = 0
  ∧ (GetResponseUserId 101 demo_shared = 101 ∧ is_Some (user_view demo_shared 101)
     ∨ (user_view demo_shared 101 = None ∧ START_USERID <= 101 ∧ GetResponseUserId 101 demo_shared < START_USERID
        ∧ is_Some (user_view demo_shared (GetResponseUserId 101 demo_shared)))
     ∨ (user_view demo_shared 101 = None ∧ GetResponseUserId 101 demo_shared = INVALID_USERID
        ∧ (START_USERID <= 101 → ∀ v, v < START_USERID → user_view demo_shared v = None))).
Proof.
  split; [vm_compute; reflexivity|]. apply (GetResponseUserId_correct 101 demo_shared); [|lia].
  exact (user_op_wf (UserAdd (demo_user 0)) _ demo_users_wf).
Defined.

Lemma SetAbilityEnabled_correct_witness :
  (SetAbilityEnabled "com.demo" "entry" "Main" false 0 demo_shared).2 = true
  ∧ disabled_NoDup (SetAbilityEnabled "com.demo" "entry" "Main" false 0 demo_shared).1.
Proof.
  split; [vm_compute; reflexivity|].
  pose proof (SetAbilityEnabled_correct "entry" "Main" false 0 demo_shared) as H.
  change (GetBundleName demo_shared) with "com.demo" in H. cbv zeta in H.
  destruct (SetAbilityEnabled _ _ _ _ _ _) as [i' ok]. apply H.
  intros k u. rewrite demo_shared_users, sm_lookup_insert. case_decide; [|done]. intros [= <-]. constructor.
Defined.

Lemma module_removable_correct_witness :
  IsUserExistModule "entry" 0 (RemoveInnerBundleUserInfo 0 (SetModuleRemovable "entry" true 0 demo_shared).1) = false.
Proof.
  pose proof (module_removable_correct "entry" true 0 (SetModuleRemovable "entry" true 0 demo_shared).1) as H.
  destruct (SetModuleRemovable "entry" true 0 (SetModuleRemovable "entry" true 0 demo_shared).1) as [i' ok].
  destruct H as (_ & _ & H). apply (H "entry" 0). vm_compute. eauto.
Defined.
