(* ===== verification/Parcel.v ===== *)
(** * Parcel: values in the parcels of remote calls

    The Parcel of the IPC library as a class, the macros of
    interfaces/inner_api/appexecfwk_base/include/parcel_macro.h, and the two
    forms that Marshalling and ReadFromParcel take in appexecfwk_base/src:
    member by member, and as the text of the JSON value.

    A function that runs on a parcel gives a value, returns false (or a null
    pointer), or is left by an exception of the JSON library. *)

From stdpp Require Import strings.
From S2P Require Import Prelude Strings StdMap BundleTypes Errors Json.

Open Scope string_scope.
Open Scope list_scope.
Open Scope Z_scope.

(** ** Results *)

Inductive result (A : Type) :=
| Ok (a : A)
| Fail (code : Z)
| Throws.
Arguments Ok {A} a.
Arguments Fail {A} code.
Arguments Throws {A}.

(** The code of a function that only returns false. *)
Definition FALSE : Z := 0.

(** Functions on a parcel, or on any other state. *)
Definition On (P A : Type) : Type := P → result A * P.

#[export] Instance On_ret P : MRet (On P) := λ A x p, (Ok x, p).
#[export] Instance On_bind P : MBind (On P) := λ A B f m p,
  match m p with
  | (Ok x, p) => f x p
  | (Fail code, p) => (Fail code, p)
  | (Throws, p) => (Throws, p)
  end.

Definition fail {P A} (code : Z) : On P A := λ p, (Fail code, p).
Definition throws {P A} : On P A := λ p, (Throws, p).

(** [for (auto &x : l) { m(x); }], leaving with the first failure. *)
Fixpoint for_each {P A} (m : A → On P ()) (l : list A) : On P () :=
  match l with
  | [] => mret ()
  | x :: l' => m x ;; for_each m l'
  end.

(** [for (i = 0; i < n; i++) { l.emplace_back(m()); }] *)
Fixpoint repeat_read {P A} (n : nat) (m : On P A) : On P (list A) :=
  match n with
  | O => mret []
  | S n => x ← m; l ← repeat_read n m; mret (x :: l)
  end.

(** ** The parcel *)

(** What a write puts into a parcel.  [U] are the strings of 16 bit
    characters and [O] the remote objects. *)
Inductive item (U O : Type) :=
| IInt32 (n : Z)
| IUint32 (n : Z)
| IInt64 (n : Z)
| IBool (b : bool)
| IString (s : string)
| IString16 (u : U)
| IStringVector (l : list string)
| IInt32Vector (l : list Z)
| IRawData (bytes : string)
| IAshmem (bytes : string)
| IObject (o : O)
| IInterfaceToken (u : U)
| IParcelable.
Arguments IInt32 {U O} n.
Arguments IUint32 {U O} n.
Arguments IInt64 {U O} n.
Arguments IBool {U O} b.
Arguments IString {U O} s.
Arguments IString16 {U O} u.
Arguments IStringVector {U O} l.
Arguments IInt32Vector {U O} l.
Arguments IRawData {U O} bytes.
Arguments IAshmem {U O} bytes.
Arguments IObject {U O} o.
Arguments IInterfaceToken {U O} u.
Arguments IParcelable {U O}.

(** [read] takes an item written as [i x] and gives [x]; an exhausted parcel
    gives false. *)
Definition takes {P U O A} (unread : P → list (item U O)) (i : A → item U O) (read : On P A) : Prop :=
  (∀ p x l, unread p = i x :: l → ∃ p', read p = (Ok x, p') ∧ unread p' = l)
  ∧ ∀ p, unread p = [] → ∃ p', read p = (Fail FALSE, p') ∧ unread p' = [].

(** The parcel of the IPC library: it gives back what was written in the
    order it was written, each value to the read of its own type; a write may
    fail.  A parcelable object is a mark and what its Marshalling writes. *)
Class Parcel (P U O : Type) := {
  new_parcel : P;
  unread : P → list (item U O);
  Write : item U O → On P ();
  ReadInt32_ : On P Z;
  ReadUint32_ : On P Z;
  ReadInt64_ : On P Z;
  ReadBool_ : On P bool;
  ReadString_ : On P string;
  ReadString16_ : On P U;
  ReadStringVector : On P (list string);
  ReadInt32Vector : On P (list Z);
  ReadRawData : Z → On P string;
  ReadAshmem : On P string;
  ReadObject : On P O;
  ReadInterfaceToken_ : On P U;
  ReadParcelable_ : On P ();
  Str8ToStr16 : string → U;
  Str16ToStr8 : U → string;
  utf8 : string → Prop;
  empty16 : U;

  unread_new : unread new_parcel = [];
  Write_result i p : (∃ p', Write i p = (Ok (), p') ∧ unread p' = unread p ++ [i]) ∨ ∃ p', Write i p = (Fail FALSE, p');
  takes_Int32 : takes unread IInt32 ReadInt32_;
  takes_Uint32 : takes unread IUint32 ReadUint32_;
  takes_Int64 : takes unread IInt64 ReadInt64_;
  takes_Bool : takes unread IBool ReadBool_;
  takes_String : takes unread IString ReadString_;
  takes_String16 : takes unread IString16 ReadString16_;
  takes_StringVector : takes unread IStringVector ReadStringVector;
  takes_Int32Vector : takes unread IInt32Vector ReadInt32Vector;
  takes_RawData p s l : unread p = IRawData s :: l →
    ∃ p', ReadRawData (Z.of_nat (String.length s)) p = (Ok s, p') ∧ unread p' = l;
  takes_Ashmem : takes unread IAshmem ReadAshmem;
  takes_Object : takes unread IObject ReadObject;
  takes_InterfaceToken : takes unread IInterfaceToken ReadInterfaceToken_;
  takes_Parcelable : takes unread (λ _ : (), IParcelable) ReadParcelable_;
  Str16ToStr8_Str8ToStr16 s : utf8 s → Str16ToStr8 (Str8ToStr16 s) = s;
}.

(** The text of a JSON value: [dump] throws when a string is not UTF-8 and
    writes some text without NUL characters, [parse] gives [None] for a discarded value. *)
Class JsonText := {
  dump : json → option string;
  parse : string → option json;
  parse_dump j str : dump j = Some str → parse str = Some j;
  dump_not_empty j : dump j ≠ Some "";
  dump_no_nul j str : dump j = Some str → str_forall (λ c, negb (bool_decide (c = Ascii.zero))) str = true;
}.

(** ** Reading and writing values *)

Section Values.
Context {P U O : Type} `{HP : Parcel P U O}.
#[local] Abbreviation PM := (On P).

(** The reads that give a default value when they fail. *)
Definition or_default {A} (d : A) (m : PM A) : PM A := λ p,
  match m p with (Fail _, p) => (Ok d, p) | r => r end.

Definition ReadInt32 : PM Z := or_default 0 ReadInt32_.
Definition ReadUint32 : PM Z := or_default 0 ReadUint32_.
Definition ReadInt64 : PM Z := or_default 0 ReadInt64_.
Definition ReadBool : PM bool := or_default false ReadBool_.
Definition ReadString : PM string := or_default "" ReadString_.
Definition ReadString16 : PM U := or_default empty16 ReadString16_.
Definition ReadInterfaceToken : PM U := or_default empty16 ReadInterfaceToken_.

(** [Str16ToStr8(parcel.ReadString16())] and its counterpart. *)
Definition ReadStr : PM string := u ← ReadString16; mret (Str16ToStr8 u).
Definition WriteStr (s : string) : PM () := Write (IString16 (Str8ToStr16 s)).

Definition WriteInt32 (n : Z) : PM () := Write (IInt32 n).
Definition WriteUint32 (n : Z) : PM () := Write (IUint32 n).
Definition WriteInt64 (n : Z) : PM () := Write (IInt64 n).
Definition WriteBool (b : bool) : PM () := Write (IBool b).
Definition WriteString (s : string) : PM () := Write (IString s).
Definition WriteStringVector (l : list string) : PM () := Write (IStringVector l).
Definition WriteInt32Vector (l : list Z) : PM () := Write (IInt32Vector l).
Definition WriteRawData (bytes : string) : PM () := Write (IRawData bytes).
Definition WriteObject (o : O) : PM () := Write (IObject o).
Definition WriteInterfaceToken (u : U) : PM () := Write (IInterfaceToken u).

(** A size written as an [int32_t], the elements, and the loop that reads
    them. *)
Definition write_list {A} (write : A → PM ()) (l : list A) : PM () :=
  WriteInt32 (i32 (Z.of_nat (length l))) ;; for_each write l.
Definition read_list {A} (read : PM A) : PM (list A) :=
  size ← ReadInt32_; repeat_read (Z.to_nat size) read.

(** An enum from the [int32_t] it was cast to: a number that no enumerator
    has is left without a result. *)
Definition enum_cast {E} (of_value : Z → option E) (n : Z) : PM E :=
  match of_value n with Some e => mret e | None => throws end.

(** [WriteParcelable(&x)] and [ReadParcelable<T>()], a null pointer being a
    failure. *)
Definition WriteParcelable (marshalling : PM ()) : PM () := Write IParcelable ;; marshalling.
Definition ReadParcelable {A} (unmarshalling : PM A) : PM A := ReadParcelable_ ;; unmarshalling.

(** The text up to the first NUL character. *)
Fixpoint c_str (s : string) : string :=
  match s with
  | EmptyString => ""
  | String c s' => if decide (c = Ascii.zero) then "" else String c (c_str s')
  end.

Definition NUL : string := String Ascii.zero "".

(** Marshalling and ReadFromParcel through JSON. *)
Definition WriteJson `{JsonText} (j : json) : PM () :=
  match dump j with
  | None => throws
  | Some str => WriteUint32 (u32 (Z.of_nat (String.length str) + 1)) ;; WriteRawData (str +:+ NUL)
  end.

Definition ReadJson {A} `{JsonText} (get : json → M A) : PM A :=
  length ← ReadUint32;
  if length =? 0 then fail FALSE
  else
    data ← ReadRawData length;
    match parse (c_str data) with
    | None => fail FALSE
    | Some jsonObject =>
        match get jsonObject (mkParseState ERR_OK ERR_OK) with
        | None => throws
        | Some (x, _) => mret x
        end
    end.
End Values.

(** * What is written is read *)

Section Laws.
Context {P U O : Type} `{HP : Parcel P U O}.
#[local] Abbreviation PM := (On P).
#[local] Abbreviation items := (list (item U O)).

(** [m] writes [w] whenever it succeeds; [r] reads [x] from [w]. *)
Definition writes (m : PM ()) (w : items) : Prop :=
  ∀ p p', m p = (Ok (), p') → unread p' = unread p ++ w.
Definition reads_items {A} (r : PM A) (w : items) (x : A) : Prop :=
  ∀ p l, unread p = w ++ l → ∃ p', r p = (Ok x, p') ∧ unread p' = l.

(** [r] reads [x] from what [m] writes. *)
Definition sends {A} (m : PM ()) (r : PM A) (x : A) : Prop := ∃ w, writes m w ∧ reads_items r w x.

(** A parcel with room for everything. *)
Definition roomy : Prop := ∀ i p, ∃ p', Write i p = (Ok (), p').
Definition succeeds (m : PM ()) : Prop := ∀ p, ∃ p', m p = (Ok (), p').

Lemma sends_ret {A} (x : A) : sends (mret ()) (mret x) x.
Proof. exists []. split; [intros p p' [= <-]; by rewrite app_nil_r|intros p l Hl; by exists p]. Qed.

Lemma sends_bind {A B} (m1 m2 : PM ()) (r : PM A) (k : A → PM B) x y :
  sends m1 r x → sends m2 (k x) y → sends (m1 ;; m2) (r ≫= k) y.
Proof.
  intros (w1 & Hm1 & Hr) (w2 & Hm2 & Hk). exists (w1 ++ w2). split.
  - intros p p'. unfold mbind, On_bind. destruct (m1 p) as [[[]| |] p1] eqn:E; try done. intros Hp'.
    rewrite (Hm2 _ _ Hp'), (Hm1 _ _ E). by rewrite app_assoc.
  - intros p l Hl. rewrite <- app_assoc in Hl. destruct (Hr _ _ Hl) as (p1 & E & Hl1).
    unfold mbind, On_bind. rewrite E. by apply Hk.
Qed.

(** The last write of a function has nothing behind it. *)
Lemma sends_last {A B} (m : PM ()) (r : PM A) (k : A → PM B) x y :
  sends m r x → sends (mret ()) (k x) y → sends m (r ≫= k) y.
Proof.
  intros Hm Hk. destruct (sends_bind _ _ _ _ _ _ Hm Hk) as (w & Hw & Hr). exists w. split; [|done].
  intros p p' Hp. apply Hw. unfold mbind, On_bind. by rewrite Hp.
Qed.

Lemma sends_item {A} (i : A → item U O) (read : PM A) x : takes unread i read → sends (Write (i x)) read x.
Proof.
  intros [Hread _]. exists [i x]. split.
  - intros p p' Hp. destruct (Write_result (i x) p) as [(p1 & E & Hu)|(p1 & E)]; [|congruence].
    rewrite E in Hp. by injection Hp as <-.
  - intros p l Hl. by apply Hread.
Qed.

Lemma sends_default {A} (d : A) m (r : PM A) x : sends m r x → sends m (or_default d r) x.
Proof.
  intros (w & Hw & Hr). exists w. split; [done|]. intros p l Hl. destruct (Hr p l Hl) as (p' & E & Hl').
  exists p'. unfold or_default. by rewrite E.
Qed.

Lemma sends_Int32_ n : sends (WriteInt32 n) ReadInt32_ n.
Proof. apply (sends_item IInt32), takes_Int32. Qed.
Lemma sends_Uint32_ n : sends (WriteUint32 n) ReadUint32_ n.
Proof. apply (sends_item IUint32), takes_Uint32. Qed.
Lemma sends_Bool_ b : sends (WriteBool b) ReadBool_ b.
Proof. apply (sends_item IBool), takes_Bool. Qed.
Lemma sends_Int32 n : sends (WriteInt32 n) ReadInt32 n.
Proof. apply sends_default, sends_Int32_. Qed.
Lemma sends_Uint32 n : sends (WriteUint32 n) ReadUint32 n.
Proof. apply sends_default, sends_Uint32_. Qed.
Lemma sends_Int64 n : sends (WriteInt64 n) ReadInt64 n.
Proof. apply sends_default, (sends_item IInt64), takes_Int64. Qed.
Lemma sends_Bool b : sends (WriteBool b) ReadBool b.
Proof. apply sends_default, sends_Bool_. Qed.
Lemma sends_String s : sends (WriteString s) ReadString s.
Proof. apply sends_default, (sends_item IString), takes_String. Qed.
Lemma sends_StringVector l : sends (WriteStringVector l) ReadStringVector l.
Proof. apply (sends_item IStringVector), takes_StringVector. Qed.
Lemma sends_Int32Vector l : sends (WriteInt32Vector l) ReadInt32Vector l.
Proof. apply (sends_item IInt32Vector), takes_Int32Vector. Qed.
Lemma sends_Object o : sends (WriteObject o) ReadObject o.
Proof. apply (sends_item IObject), takes_Object. Qed.
Lemma sends_InterfaceToken u : sends (WriteInterfaceToken u) ReadInterfaceToken u.
Proof. apply sends_default, (sends_item IInterfaceToken), takes_InterfaceToken. Qed.

Lemma sends_Str s : utf8 s → sends (WriteStr s) ReadStr s.
Proof.
  intros Hs. unfold ReadStr. eapply sends_last; [apply sends_default, (sends_item IString16), takes_String16|].
  rewrite Str16ToStr8_Str8ToStr16 by done. apply sends_ret.
Qed.

Lemma sends_each {A} (write : A → PM ()) (read : PM A) l :
  Forall (λ x, sends (write x) read x) l → sends (for_each write l) (repeat_read (length l) read) l.
Proof.
  induction 1 as [|x l Hx _ IH]; [apply sends_ret|]. simpl. eapply sends_bind; [exact Hx|].
  eapply sends_last; [exact IH|]. apply sends_ret.
Qed.

Lemma sends_list {A} (write : A → PM ()) (read : PM A) l :
  Z.of_nat (length l) <= INT32_MAX → Forall (λ x, sends (write x) read x) l → sends (write_list write l) (read_list read) l.
Proof.
  intros Hn Hl. unfold write_list, read_list. eapply sends_bind; [apply sends_Int32_|].
  rewrite i32_id by (unfold in_i32; lia). rewrite Nat2Z.id. by apply sends_each.
Qed.

Lemma sends_enum {E B} (value_of : E → Z) of_value e (k : E → PM B) m y :
  of_value (value_of e) = Some e → sends m (k e) y → sends m (enum_cast of_value (value_of e) ≫= k) y.
Proof.
  intros He (w & Hw & Hr). exists w. split; [done|]. intros p l Hl. unfold enum_cast. rewrite He. by apply Hr.
Qed.

Lemma sends_Parcelable {A} m (r : PM A) x : sends m r x → sends (WriteParcelable m) (ReadParcelable r) x.
Proof.
  intros Hm. unfold WriteParcelable, ReadParcelable. eapply sends_bind; [|exact Hm].
  apply (sends_item (λ _ : (), IParcelable) _ ()), takes_Parcelable.
Qed.

Lemma c_str_no_nul s : str_forall (λ c, negb (bool_decide (c = Ascii.zero))) s = true → c_str s = s.
Proof.
  induction s as [|c s IH]; [done|]. cbn [str_forall c_str]. intros [Hc Hs]%andb_prop. rewrite IH by done.
  rewrite decide_False; [done|]. intros ->. done.
Qed.

Lemma c_str_before_nul s t : str_forall (λ c, negb (bool_decide (c = Ascii.zero))) s = true → c_str (s +:+ NUL +:+ t) = s.
Proof.
  induction s as [|c s IH]; [done|]. cbn [str_forall]. intros [Hc Hs]%andb_prop.
  change (c_str (String c (s +:+ NUL +:+ t)) = String c s). cbn [c_str]. rewrite IH by done.
  rewrite decide_False; [done|]. intros ->. done.
Qed.

(** A value goes through JSON when its from_json reads back what its to_json
    writes. *)
Lemma sends_Json {A} `{JsonText} (get : json → M A) j x str :
  decodes get j x → dump j = Some str → Z.of_nat (String.length str) < UINT32_MAX →
  sends (WriteJson j) (ReadJson get) x.
Proof.
  intros Hd Hp Hlen. pose proof (dump_no_nul j str Hp) as Hnul. unfold WriteJson, ReadJson.
  rewrite Hp, u32_id by (unfold in_u32; lia). eapply sends_bind; [apply sends_Uint32|].
  destruct (Z.eqb_spec (Z.of_nat (String.length str) + 1) 0); [lia|].
  exists [IRawData (str +:+ NUL)]. split.
  - intros p p' Hw. unfold WriteRawData in Hw.
    destruct (Write_result (IRawData (str +:+ NUL)) p) as [(p1 & E & Hu)|(p1 & E)]; [|congruence].
    rewrite E in Hw. by injection Hw as <-.
  - intros p l Hl. destruct (takes_RawData _ _ _ Hl) as (p' & E & Hl'). exists p'. split; [|done].
    unfold mbind, On_bind. rewrite string_length_app in E. simpl in E.
    replace (Z.of_nat (String.length str) + 1) with (Z.of_nat (String.length str + 1)) by lia. rewrite E.
    change (str +:+ NUL) with (str +:+ NUL +:+ ""). by rewrite c_str_before_nul, (parse_dump j), Hd.
Qed.

(** With room, writing does not fail. *)
Lemma succeeds_bind m1 m2 : succeeds m1 → succeeds m2 → succeeds (m1 ;; m2).
Proof. intros H1 H2 p. unfold mbind, On_bind. destruct (H1 p) as [p1 ->]. apply H2. Qed.

Lemma succeeds_each {A} (write : A → PM ()) l : Forall (λ x, succeeds (write x)) l → succeeds (for_each write l).
Proof. induction 1 as [|x l Hx _ IH]; [intros p; by eexists|]. simpl. by apply succeeds_bind. Qed.

Lemma succeeds_list {A} (write : A → PM ()) l : roomy → Forall (λ x, succeeds (write x)) l → succeeds (write_list write l).
Proof. intros Hroom Hw. apply succeeds_bind; [intros p; apply Hroom|by apply succeeds_each]. Qed.

Lemma succeeds_Json `{JsonText} j : roomy → is_Some (dump j) → succeeds (WriteJson j).
Proof. intros Hroom [str Hj]. unfold WriteJson. rewrite Hj. apply succeeds_bind; intros p; apply Hroom. Qed.

Lemma succeeds_Parcelable m : roomy → succeeds m → succeeds (WriteParcelable m).
Proof. intros Hroom Hm. apply succeeds_bind; [intros p; apply Hroom|done]. Qed.
End Laws.

Create HintDb parcel.
#[export] Hint Resolve sends_Int32_ sends_Uint32_ sends_Bool_ sends_Int32 sends_Uint32 sends_Int64 sends_Bool sends_String
  sends_StringVector sends_Int32Vector sends_Object sends_InterfaceToken sends_Str sends_Parcelable : parcel.

(** ** Members *)

Section Members.
Context {P U O : Type} `{HP : Parcel P U O}.
#[local] Abbreviation PM := (On P).

(** [member = read()]; [set] assigns the member, or appends to it. *)
Definition read {A T} (r : PM T) (set : T → A → A) (x : A) : PM A := v ← r; mret (set v x).
Definition read_enum {A E} (r : PM Z) (of_value : Z → option E) (set : E → A → A) (x : A) : PM A :=
  n ← r; e ← enum_cast of_value n; mret (set e x).

Lemma sends_read {A B T} m1 m2 (r : PM T) (set : T → A → A) x x' (k : A → PM B) v y :
  sends m1 r v → set v x = x' → sends m2 (k x') y → sends (m1 ;; m2) (read r set x ≫= k) y.
Proof.
  intros H1 <- H2. eapply sends_bind; [|exact H2]. unfold read. eapply sends_last; [exact H1|]. apply sends_ret.
Qed.

Lemma sends_read_last {A B T} m1 (r : PM T) (set : T → A → A) x x' (k : A → PM B) v y :
  sends m1 r v → set v x = x' → sends (mret ()) (k x') y → sends m1 (read r set x ≫= k) y.
Proof.
  intros H1 <- H2. eapply sends_last; [|exact H2]. unfold read. eapply sends_last; [exact H1|]. apply sends_ret.
Qed.

Lemma sends_read_enum {A B E} m2 (value_of : E → Z) of_value (set : E → A → A) x x' (k : A → PM B) e y :
  of_value (value_of e) = Some e → set e x = x' → sends m2 (k x') y →
  sends (WriteInt32 (value_of e) ;; m2) (read_enum ReadInt32_ of_value set x ≫= k) y.
Proof.
  intros He <- H2. eapply sends_bind; [|exact H2]. unfold read_enum. eapply sends_last; [apply sends_Int32_|].
  apply (sends_enum value_of); [done|apply sends_ret].
Qed.

Definition small {A} (l : list A) : Prop := Z.of_nat (length l) <= INT32_MAX.

Lemma sends_strings l : small l → Forall utf8 l → sends (write_list WriteStr l) (read_list ReadStr) l.
Proof. intros Hn Hl. apply sends_list; [done|]. eapply Forall_impl; [exact Hl|]. apply sends_Str. Qed.

Lemma sends_numbers l : small l → sends (write_list WriteInt32 l) (read_list ReadInt32) l.
Proof. intros Hn. apply sends_list; [done|]. apply Forall_forall. intros. apply sends_Int32. Qed.

(** What a type promises the functions that send its values. *)
Class Parcelable (T : Type) := {
  Marshalling : T → PM ();
  Unmarshalling : PM T;
  sendable : T → Prop;
  Marshalling_sends x : sendable x → sends (Marshalling x) Unmarshalling x;
  Marshalling_succeeds x : roomy → sendable x → succeeds (Marshalling x);
}.
End Members.

#[export] Hint Resolve sends_strings sends_numbers : parcel.
#[export] Hint Resolve succeeds_bind succeeds_each succeeds_list succeeds_Json succeeds_Parcelable : parcel.

(** Runs a ReadFromParcel over what the Marshalling of the same struct wrote,
    member after member. *)
Ltac send_member :=
  first
    [ eapply sends_read; [solve [eauto 4 with parcel]|reflexivity|]
    | eapply sends_read_enum; [by destruct_one_enum|reflexivity|]
    | eapply sends_read_last; [solve [eauto 4 with parcel]|reflexivity|] ]
with destruct_one_enum := match goal with |- ?f (?g ?e) = _ => destruct e; reflexivity end.
