(* ===== verification/Flow.v ===== *)
(** * Flow: control flow of functions that answer error codes

    The functions of the installers answer an [ErrCode]; they are programs
    [On S A] (Parcel.v) on the state of the service: ERR_OK is [Ok], another
    code is [Fail], an exception is [Throws].  This file has the forms of
    control flow they are written with - early returns, codes that are looked
    at or ignored, and the guards of services/bundlemgr/include/scope_guard.h -
    and the rules to reason about them: a weakest precondition, and relations
    between the first and the last state that every part of a program keeps. *)

From S2P Require Import Prelude Parcel.

(** ** Forms *)

Section Forms.
Context {S : Type}.

Definition gets {A} (f : S → A) : On S A := λ s, (Ok (f s), s).
Definition modify (f : S → S) : On S () := λ s, (Ok (), f s).
Definition run {A} (f : S → S * A) : On S A := λ s, let '(s, x) := f s in (Ok x, s).

(** [if (!b) return code;] *)
Definition check (b : bool) (code : Z) : On S () := if b then mret () else fail code.

(** [if (b) m;] *)
Definition when (b : bool) (m : On S ()) : On S () := if b then m else mret ().

(** [auto result = m();] *)
Definition attempt {A} (m : On S A) : On S (result A) := λ s,
  match m s with
  | (Throws, s) => (Throws, s)
  | (r, s) => (Ok r, s)
  end.
(** [return result;] *)
Definition answer {A} (r : result A) : On S A := λ s, (r, s).
(** [m();] *)
Definition ignore {A} (m : On S A) : On S () := _ ← attempt m; mret ().

(** [ScopeGuard guard(cleanup); m; guard.Dismiss();] *)
Definition on_error {A} (cleanup : On S ()) (m : On S A) : On S A := λ s,
  match m s with
  | (Ok x, s) => (Ok x, s)
  | (r, s) => match cleanup s with (Throws, s) => (Throws, s) | (_, s) => (r, s) end
  end.
(** A guard that is not dismissed. *)
Definition finally {A} (cleanup : On S ()) (m : On S A) : On S A := λ s,
  let '(r, s) := m s in match cleanup s with (Throws, s) => (Throws, s) | (_, s) => (r, s) end.

(** A guard that [m] dismissed when it answers true. *)
Definition dismissible (cleanup : On S ()) (m : On S bool) : On S bool := λ s,
  match m s with
  | (Ok true, s) => (Ok true, s)
  | (r, s) => match cleanup s with (Throws, s) => (Throws, s) | (_, s) => (r, s) end
  end.

(** A program on a part of the state. *)
Definition within {T A} (get : S → T) (set : T → S → S) (m : On T A) : On S A := λ s,
  let '(r, t) := m (get s) in (r, set t s).

(** A program that may be left by an exception, as [option]. *)
Definition run_opt {A} (f : S → option (S * A)) : On S A := λ s,
  match f s with None => (Throws, s) | Some (s, x) => (Ok x, s) end.
End Forms.

(** ** Rules *)

Section Rules.
Context {S : Type}.

Definition wp {A} (m : On S A) (Q : result A → S → Prop) (s : S) : Prop := Q (m s).1 (m s).2.

Lemma wp_ret {A} (x : A) (Q : result A → S → Prop) s : Q (Ok x) s → wp (mret x) Q s.
Proof. done. Qed.
Lemma wp_fail {A} code (Q : result A → S → Prop) s : Q (Fail code) s → wp (fail code) Q s.
Proof. done. Qed.

Lemma wp_mono {A} (m : On S A) (Q Q' : result A → S → Prop) s : (∀ r s', Q r s' → Q' r s') → wp m Q s → wp m Q' s.
Proof. unfold wp. auto. Qed.

(** What comes after [m]. *)
Definition next {A B} (k : A → On S B) (Q : result B → S → Prop) (r : result A) (s : S) : Prop :=
  match r with Ok x => wp (k x) Q s | Fail code => Q (Fail code) s | Throws => Q Throws s end.

Lemma next_ok {A B} (k : A → On S B) Q x s : wp (k x) Q s → next k Q (Ok x) s.
Proof. done. Qed.
Lemma next_fail {A B} (k : A → On S B) (Q : result B → S → Prop) code s : Q (Fail code) s → next k Q (Fail code) s.
Proof. done. Qed.
Lemma next_throws {A B} (k : A → On S B) (Q : result B → S → Prop) s : Q Throws s → next k Q Throws s.
Proof. done. Qed.

Lemma wp_bind {A B} (m : On S A) (k : A → On S B) Q s : wp m (next k Q) s → wp (m ≫= k) Q s.
Proof. unfold wp, next, mbind, On_bind. by destruct (m s) as [[] s']. Qed.

Lemma wp_attempt {A} (m : On S A) Q s :
  wp m (λ r s, match r with Throws => Q Throws s | r => Q (Ok r) s end) s → wp (attempt m) Q s.
Proof. unfold wp, attempt. by destruct (m s) as [[] s']. Qed.

(** [cleanup] after an outcome [r]. *)
Definition cleaned {A} (cleanup : On S ()) (Q : result A → S → Prop) (r : result A) : S → Prop :=
  wp cleanup (λ c s, match c with Throws => Q Throws s | _ => Q r s end).

Lemma wp_on_error {A} cleanup (m : On S A) Q s :
  wp m (λ r s, match r with Ok x => Q (Ok x) s | r => cleaned cleanup Q r s end) s → wp (on_error cleanup m) Q s.
Proof.
  unfold cleaned, wp, on_error. destruct (m s) as [[] s']; simpl; [done| |]; by destruct (cleanup s') as [[] s''].
Qed.

Lemma wp_finally {A} cleanup (m : On S A) Q s : wp m (cleaned cleanup Q) s → wp (finally cleanup m) Q s.
Proof. unfold cleaned, wp, finally. destruct (m s) as [r s']. simpl. by destruct (cleanup s') as [[] s'']. Qed.

Lemma wp_dismissible cleanup m (Q : result bool → S → Prop) s :
  wp m (λ r s, match r with Ok true => Q (Ok true) s | r => cleaned cleanup Q r s end) s → wp (dismissible cleanup m) Q s.
Proof.
  unfold cleaned, wp, dismissible. destruct (m s) as [[[]| |] s']; simpl; [done|..]; by destruct (cleanup s') as [[] s''].
Qed.

Lemma wp_check b code (Q : result () → S → Prop) s :
  (b = true → Q (Ok ()) s) → (b = false → Q (Fail code) s) → wp (check b code) Q s.
Proof. destruct b; unfold wp; simpl; auto. Qed.
Lemma wp_when b m (Q : result () → S → Prop) s : (b = true → wp m Q s) → (b = false → Q (Ok ()) s) → wp (when b m) Q s.
Proof. destruct b; unfold wp; simpl; auto. Qed.
Lemma wp_gets {A} (f : S → A) (Q : result A → S → Prop) s : Q (Ok (f s)) s → wp (gets f) Q s.
Proof. done. Qed.
Lemma wp_modify f (Q : result () → S → Prop) s : Q (Ok ()) (f s) → wp (modify f) Q s.
Proof. done. Qed.
Lemma wp_answer {A} (r : result A) (Q : result A → S → Prop) s : Q r s → wp (answer r) Q s.
Proof. done. Qed.

Lemma wp_ignore {A} (m : On S A) Q s :
  wp m (λ r s, match r with Throws => Q Throws s | _ => Q (Ok ()) s end) s → wp (ignore m) Q s.
Proof. unfold wp, ignore, attempt, mbind, On_bind. by destruct (m s) as [[] s']. Qed.

Lemma wp_conj {A} (m : On S A) (Q1 Q2 : result A → S → Prop) s :
  wp m Q1 s → wp m Q2 s → wp m (λ r s, Q1 r s ∧ Q2 r s) s.
Proof. done. Qed.

Lemma wp_within {T A} (get : S → T) set (m : On T A) Q s :
  (let '(r, t) := m (get s) in Q r (set t s)) → wp (within get set m) Q s.
Proof. unfold wp, within. by destruct (m (get s)). Qed.
End Rules.

#[global] Arguments wp : simpl never.

(** ** Relations that a program keeps *)

Create HintDb keeps discriminated.

Section Keeps.
Context {S : Type} (R : relation S).

Definition keeps {A} (m : On S A) : Prop := ∀ s, R s (m s).2.

Context `{HR : !PreOrder R}.

Lemma keeps_ret {A} (x : A) : keeps (mret x).
Proof. intros s. by simpl. Qed.
Lemma keeps_fail {A} code : keeps (fail (A := A) code).
Proof. intros s. by simpl. Qed.
Lemma keeps_throws {A} : keeps (throws (A := A)).
Proof. intros s. by simpl. Qed.
Lemma keeps_answer {A} (r : result A) : keeps (answer r).
Proof. intros s. by simpl. Qed.
Lemma keeps_gets {A} (f : S → A) : keeps (gets f).
Proof. intros s. by simpl. Qed.
Lemma keeps_check b code : keeps (check b code).
Proof. destruct b; [apply keeps_ret|apply keeps_fail]. Qed.
Lemma keeps_when b m : keeps m → keeps (when b m).
Proof. destruct b; [done|intros _; apply keeps_ret]. Qed.
Lemma keeps_modify f : (∀ s, R s (f s)) → keeps (modify f).
Proof. intros Hf s. apply Hf. Qed.
Lemma keeps_run {A} (f : S → S * A) : (∀ s, R s (f s).1) → keeps (run f).
Proof. intros Hf s. unfold run. specialize (Hf s). by destruct (f s). Qed.

Lemma keeps_bind {A B} (m : On S A) (k : A → On S B) : keeps m → (∀ x, keeps (k x)) → keeps (m ≫= k).
Proof.
  intros Hm Hk s. unfold mbind, On_bind. specialize (Hm s). destruct (m s) as [[x| |] s']; simpl in *; [|done..].
  etrans; [exact Hm|apply Hk].
Qed.

Lemma keeps_attempt {A} (m : On S A) : keeps m → keeps (attempt m).
Proof. intros Hm s. unfold attempt. specialize (Hm s). by destruct (m s) as [[] s']. Qed.
Lemma keeps_ignore {A} (m : On S A) : keeps m → keeps (ignore m).
Proof. intros Hm. apply keeps_bind; [by apply keeps_attempt|intros _; apply keeps_ret]. Qed.

Lemma keeps_on_error {A} cleanup (m : On S A) : keeps cleanup → keeps m → keeps (on_error cleanup m).
Proof.
  intros Hc Hm s. unfold on_error. specialize (Hm s). destruct (m s) as [[x| |] s']; simpl in *; [done|..];
    specialize (Hc s'); destruct (cleanup s') as [[] s'']; simpl in *; by etrans.
Qed.

Lemma keeps_finally {A} cleanup (m : On S A) : keeps cleanup → keeps m → keeps (finally cleanup m).
Proof.
  intros Hc Hm s. unfold finally. specialize (Hm s). destruct (m s) as [r s']. simpl in *.
  specialize (Hc s'). destruct (cleanup s') as [[] s'']; simpl in *; by etrans.
Qed.

Lemma keeps_dismissible cleanup (m : On S bool) : keeps cleanup → keeps m → keeps (dismissible cleanup m).
Proof.
  intros Hc Hm s. unfold dismissible. specialize (Hm s). destruct (m s) as [[[]| |] s']; simpl in *; [done|..];
    specialize (Hc s'); destruct (cleanup s') as [[] s'']; simpl in *; by etrans.
Qed.

Lemma keeps_for_each {A} (m : A → On S ()) l : (∀ x, keeps (m x)) → keeps (for_each m l).
Proof. intros Hm. induction l as [|x l IH]; [apply keeps_ret|]. apply keeps_bind; [apply Hm|by intros _]. Qed.

Lemma keeps_within {T A} (get : S → T) set (m : On T A) :
  (∀ s, R s (set (m (get s)).2 s)) → keeps (within get set m).
Proof. intros Hm s. unfold within. specialize (Hm s). by destruct (m (get s)). Qed.
End Keeps.

#[export] Hint Resolve keeps_ret keeps_fail keeps_throws keeps_answer keeps_gets keeps_check : keeps.

(** Goes through the forms of a program; what is left are its calls. *)
Ltac keeps_step :=
  match goal with
  | |- keeps ?R (_ ≫= _) => apply (keeps_bind R); [|intros ?]
  | |- keeps ?R (when _ _) => apply (keeps_when R)
  | |- keeps ?R (attempt _) => apply (keeps_attempt R)
  | |- keeps ?R (ignore _) => apply (keeps_ignore R)
  | |- keeps ?R (on_error _ _) => apply (keeps_on_error R)
  | |- keeps ?R (finally _ _) => apply (keeps_finally R)
  | |- keeps ?R (dismissible _ _) => apply (keeps_dismissible R)
  | |- keeps ?R (for_each _ _) => apply (keeps_for_each R); intros ?
  | |- keeps _ (let '_ := ?x in _) => destruct x
  | |- keeps _ (match ?x with _ => _ end) => destruct x
  | |- keeps _ (if ?x then _ else _) => destruct x
  | |- keeps _ _ => solve [eauto 3 with keeps typeclass_instances]
  end.
Ltac keeps_auto := repeat keeps_step.
