(* ===== verification/ParcelInfos.v ===== *)
(** * ParcelInfos: the information objects in parcels

    Marshalling, ReadFromParcel and Unmarshalling of the structures of
    interfaces/inner_api/appexecfwk_base, and that what one writes the other
    reads: an instance of [Parcelable] for each type that remote calls carry.
    Strings must be UTF-8, lists must have a size that an [int32_t] holds. *)

From stdpp Require Import strings.
From S2P Require Import Prelude Strings StdMap BundleTypes Errors Json InfoJson PackJson Parcel.

Open Scope string_scope.
Open Scope list_scope.
Open Scope Z_scope.

(** ** Structures that only parcels carry *)

Inductive InstallFlag := InstallFlag_NORMAL | InstallFlag_REPLACE_EXISTING | InstallFlag_FREE_INSTALL.
Definition InstallFlag_value (e : InstallFlag) : Z :=
  match e with InstallFlag_NORMAL => 0 | InstallFlag_REPLACE_EXISTING => 1 | InstallFlag_FREE_INSTALL => 16 end.
Definition InstallFlag_of (n : Z) : option InstallFlag :=
  List.find (λ e, InstallFlag_value e =? n) [InstallFlag_NORMAL; InstallFlag_REPLACE_EXISTING; InstallFlag_FREE_INSTALL].

Inductive InstallLocation := InstallLocation_INTERNAL_ONLY | InstallLocation_PREFER_EXTERNAL.
Definition InstallLocation_value (e : InstallLocation) : Z :=
  match e with InstallLocation_INTERNAL_ONLY => 1 | InstallLocation_PREFER_EXTERNAL => 2 end.
Definition InstallLocation_of (n : Z) : option InstallLocation :=
  List.find (λ e, InstallLocation_value e =? n) [InstallLocation_INTERNAL_ONLY; InstallLocation_PREFER_EXTERNAL].

Record PermissionDef := mkPermissionDef {
  pd_permissionName : string;
  pd_bundleName : string;
  pd_grantMode : Z;
  pd_availableLevel : Z;
  pd_availableScope : Z;
  pd_provisionEnable : bool;
  pd_distributedSceneEnable : bool;
  pd_label : string;
  pd_labelId : Z;
  pd_description : string;
  pd_descriptionId : Z;
}.

#[export] Instance eta_PermissionDef : Eta PermissionDef := λ r, mkPermissionDef (pd_permissionName r)
    (pd_bundleName r) (pd_grantMode r) (pd_availableLevel r) (pd_availableScope r) (pd_provisionEnable r)
    (pd_distributedSceneEnable r) (pd_label r) (pd_labelId r) (pd_description r) (pd_descriptionId r).

Definition new_PermissionDef : PermissionDef := mkPermissionDef "" "" 0 1 0 true false "" 0 "" 0.

Record InstallParam := mkInstallParam {
  ip_installFlag : InstallFlag;
  ip_installLocation : InstallLocation;
  ip_userId : Z;
  ip_isKeepData : bool;
  ip_needSavePreInstallInfo : bool;
  ip_isPreInstallApp : bool;
  ip_forceExecuted : bool;
  ip_noSkipsKill : bool;
  ip_needSendEvent : bool;
  ip_streamInstallMode : bool;
  ip_hashParams : stdmap string string;
}.

#[export] Instance eta_InstallParam : Eta InstallParam := λ r, mkInstallParam (ip_installFlag r)
    (ip_installLocation r) (ip_userId r) (ip_isKeepData r) (ip_needSavePreInstallInfo r) (ip_isPreInstallApp r)
    (ip_forceExecuted r) (ip_noSkipsKill r) (ip_needSendEvent r) (ip_streamInstallMode r) (ip_hashParams r).

Definition new_InstallParam : InstallParam := mkInstallParam InstallFlag_NORMAL InstallLocation_INTERNAL_ONLY
    UNSPECIFIED_USERID false false false false true true false ∅.

Record ModuleUsageRecord := mkModuleUsageRecord {
  mur_bundleName : string;
  mur_appLabelId : Z;
  mur_name : string;
  mur_labelId : Z;
  mur_descriptionId : Z;
  mur_abilityName : string;
  mur_abilityLabelId : Z;
  mur_abilityDescriptionId : Z;
  mur_abilityIconId : Z;
  mur_launchedCount : Z;
  mur_lastLaunchTime : Z;
  mur_removed : bool;
  mur_installationFreeSupported : bool;
}.

#[export] Instance eta_ModuleUsageRecord : Eta ModuleUsageRecord := λ r, mkModuleUsageRecord (mur_bundleName r)
    (mur_appLabelId r) (mur_name r) (mur_labelId r) (mur_descriptionId r) (mur_abilityName r)
    (mur_abilityLabelId r) (mur_abilityDescriptionId r) (mur_abilityIconId r) (mur_launchedCount r)
    (mur_lastLaunchTime r) (mur_removed r) (mur_installationFreeSupported r).

Definition new_ModuleUsageRecord : ModuleUsageRecord := mkModuleUsageRecord "" 0 "" 0 0 "" 0 0 0 0 0 false true.

Record DistributedAbilityInfo := mkDistributedAbilityInfo {
  dai_abilityName : string;
  dai_permissions : list string;
  dai_type : AbilityType;
  dai_enabled : bool;
}.

#[export] Instance eta_DistributedAbilityInfo : Eta DistributedAbilityInfo := λ r, mkDistributedAbilityInfo
    (dai_abilityName r) (dai_permissions r) (dai_type r) (dai_enabled r).

Definition new_DistributedAbilityInfo (type : AbilityType) : DistributedAbilityInfo := mkDistributedAbilityInfo
    "" [] type true.

Record DistributedModuleInfo := mkDistributedModuleInfo {
  dmi_moduleName : string;
  dmi_abilities : list DistributedAbilityInfo;
}.

#[export] Instance eta_DistributedModuleInfo : Eta DistributedModuleInfo := λ r, mkDistributedModuleInfo
    (dmi_moduleName r) (dmi_abilities r).

Definition new_DistributedModuleInfo : DistributedModuleInfo := mkDistributedModuleInfo "" [].

Record DistributedBundleInfo := mkDistributedBundleInfo {
  dbi_version : Z;
  dbi_bundleName : string;
  dbi_versionCode : Z;
  dbi_versionName : string;
  dbi_minCompatibleVersion : Z;
  dbi_targetVersionCode : Z;
  dbi_compatibleVersionCode : Z;
  dbi_appId : string;
  dbi_moduleInfos : list DistributedModuleInfo;
}.

#[export] Instance eta_DistributedBundleInfo : Eta DistributedBundleInfo := λ r, mkDistributedBundleInfo
    (dbi_version r) (dbi_bundleName r) (dbi_versionCode r) (dbi_versionName r) (dbi_minCompatibleVersion r)
    (dbi_targetVersionCode r) (dbi_compatibleVersionCode r) (dbi_appId r) (dbi_moduleInfos r).

Definition new_DistributedBundleInfo : DistributedBundleInfo := mkDistributedBundleInfo 1 "" 0 "" 0 0 0 "" [].

(** ** Distributed information as JSON *)

Definition DistributedAbilityInfo_to_json (x : DistributedAbilityInfo) : json :=
  object [
    ("abilityName", to_json (dai_abilityName x));
    ("permissions", to_json (dai_permissions x));
    ("type", to_json (dai_type x));
    ("enabled", to_json (dai_enabled x))
  ].
#[export] Instance DistributedAbilityInfo_ToJson : ToJson DistributedAbilityInfo := DistributedAbilityInfo_to_json.

Definition DistributedAbilityInfo_from_json (j : json) (x : DistributedAbilityInfo) : M DistributedAbilityInfo :=
  x ← GetValueIfFindKey LOCAL j "abilityName" get_string STRING false NOT_ARRAY (λ v x, x <| dai_abilityName := v |>) x;
  x ← GetValueIfFindKey LOCAL j "permissions" (get_vector get_string) ARRAY false STRINGS
        (λ v x, x <| dai_permissions := v |>) x;
  x ← GetValueIfFindKey LOCAL j "type" get_AbilityType NUMBER false NOT_ARRAY (λ v x, x <| dai_type := v |>) x;
  x ← GetValueIfFindKey LOCAL j "enabled" get_bool BOOLEAN false NOT_ARRAY (λ v x, x <| dai_enabled := v |>) x;
  mret x.

(** [type] is not initialised by the constructor. *)
Class UninitAbilityType := uninit_ability_type : AbilityType.

Definition get_DistributedAbilityInfo `{UninitAbilityType} : json → M DistributedAbilityInfo :=
  get_struct (new_DistributedAbilityInfo uninit_ability_type) DistributedAbilityInfo_from_json.

Definition DistributedModuleInfo_to_json (x : DistributedModuleInfo) : json :=
  object [
    ("moduleName", to_json (dmi_moduleName x));
    ("abilities", to_json (dmi_abilities x))
  ].
#[export] Instance DistributedModuleInfo_ToJson : ToJson DistributedModuleInfo := DistributedModuleInfo_to_json.

Definition DistributedModuleInfo_from_json `{UninitAbilityType} (j : json) (x : DistributedModuleInfo) :
  M DistributedModuleInfo :=
  x ← GetValueIfFindKey LOCAL j "moduleName" get_string STRING false NOT_ARRAY (λ v x, x <| dmi_moduleName := v |>) x;
  x ← GetValueIfFindKey LOCAL j "abilities" (get_vector get_DistributedAbilityInfo) ARRAY false OBJECTS
        (λ v x, x <| dmi_abilities := v |>) x;
  mret x.
Definition get_DistributedModuleInfo `{UninitAbilityType} : json → M DistributedModuleInfo :=
  get_struct new_DistributedModuleInfo DistributedModuleInfo_from_json.

Lemma DistributedAbilityInfo_round_trip `{UninitAbilityType} x : decodes get_DistributedAbilityInfo (to_json x) x.
Proof. apply decodes_struct. unfold DistributedAbilityInfo_from_json. read_fields x. Qed.
#[export] Hint Resolve DistributedAbilityInfo_round_trip : json.

Lemma DistributedModuleInfo_round_trip `{UninitAbilityType} x : decodes get_DistributedModuleInfo (to_json x) x.
Proof. apply decodes_struct. unfold DistributedModuleInfo_from_json. read_fields x. Qed.
#[export] Hint Resolve DistributedModuleInfo_round_trip : json.

(** ** Codecs *)

Section Codecs.
Context {P U O : Type} `{HP : Parcel P U O} `{HT : JsonText} `{HU : Uninit} `{HA : UninitAbilityType}.
#[local] Abbreviation PM := (On P).

(** Lists whose size is a [uint32_t]. *)
Definition write_list_u32 {A} (write : A → PM ()) (l : list A) : PM () :=
  WriteUint32 (u32 (Z.of_nat (length l))) ;; for_each write l.
Definition read_list_u32 {A} (read : PM A) : PM (list A) :=
  size ← ReadUint32_; repeat_read (Z.to_nat size) read.

Definition ApplicationInfo_Marshalling (x : ApplicationInfo) : PM () := WriteJson (to_json x).
Definition ApplicationInfo_Unmarshalling : PM ApplicationInfo := ReadJson get_ApplicationInfo.

Definition AbilityInfo_Marshalling (x : AbilityInfo) : PM () := WriteJson (to_json x).
Definition AbilityInfo_Unmarshalling : PM AbilityInfo := ReadJson get_AbilityInfo.

Definition ExtensionAbilityInfo_Marshalling (x : ExtensionAbilityInfo) : PM () := WriteJson (to_json x).
Definition ExtensionAbilityInfo_Unmarshalling : PM ExtensionAbilityInfo := ReadJson get_ExtensionAbilityInfo.

Definition HapModuleInfo_Marshalling (x : HapModuleInfo) : PM () := WriteJson (to_json x).
Definition HapModuleInfo_Unmarshalling : PM HapModuleInfo := ReadJson get_HapModuleInfo.

Definition BundleInfo_Marshalling (x : BundleInfo) : PM () := WriteJson (to_json x).
Definition BundleInfo_Unmarshalling : PM BundleInfo := ReadJson get_BundleInfo.

Definition BundlePackInfo_Marshalling (x : BundlePackInfo) : PM () := WriteJson (to_json x).
Definition BundlePackInfo_Unmarshalling : PM BundlePackInfo := ReadJson get_BundlePackInfo.

Definition DistributedModuleInfo_Marshalling (x : DistributedModuleInfo) : PM () := WriteJson (to_json x).
Definition DistributedModuleInfo_Unmarshalling : PM DistributedModuleInfo := ReadJson get_DistributedModuleInfo.

Definition Metadata_Marshalling (x : Metadata) : PM () :=
  WriteStr (md_name x) ;;
  WriteStr (md_value x) ;;
  WriteStr (md_resource x).

Definition Metadata_ReadFromParcel (x : Metadata) : PM Metadata :=
  x ← read ReadStr (λ v x, x <| md_name := v |>) x;
  x ← read ReadStr (λ v x, x <| md_value := v |>) x;
  x ← read ReadStr (λ v x, x <| md_resource := v |>) x;
  mret x.
Definition Metadata_Unmarshalling : PM Metadata := Metadata_ReadFromParcel new_Metadata.

Definition CustomizeData_Marshalling (x : CustomizeData) : PM () :=
  WriteStr (cd_name x) ;;
  WriteStr (cd_value x) ;;
  WriteStr (cd_extra x).

Definition CustomizeData_ReadFromParcel (x : CustomizeData) : PM CustomizeData :=
  x ← read ReadStr (λ v x, x <| cd_name := v |>) x;
  x ← read ReadStr (λ v x, x <| cd_value := v |>) x;
  x ← read ReadStr (λ v x, x <| cd_extra := v |>) x;
  mret x.
Definition CustomizeData_Unmarshalling : PM CustomizeData := CustomizeData_ReadFromParcel new_CustomizeData.

Definition ModuleInfo_Marshalling (x : ModuleInfo) : PM () :=
  WriteStr (mi_moduleName x) ;;
  WriteStr (mi_moduleSourceDir x).

Definition ModuleInfo_ReadFromParcel (x : ModuleInfo) : PM ModuleInfo :=
  x ← read ReadStr (λ v x, x <| mi_moduleName := v |>) x;
  x ← read ReadStr (λ v x, x <| mi_moduleSourceDir := v |>) x;
  mret x.
Definition ModuleInfo_Unmarshalling : PM ModuleInfo := ModuleInfo_ReadFromParcel new_ModuleInfo.

Definition RequestPermissionUsedScene_Marshalling (x : RequestPermissionUsedScene) : PM () :=
  write_list WriteStr (rpu_abilities x) ;;
  WriteStr (rpu_when x).

Definition RequestPermissionUsedScene_ReadFromParcel (x : RequestPermissionUsedScene) : PM RequestPermissionUsedScene :=
  x ← read (read_list ReadStr) (λ v x, x <| rpu_abilities ::= λ w, w ++ v |>) x;
  x ← read ReadStr (λ v x, x <| rpu_when := v |>) x;
  mret x.
Definition RequestPermissionUsedScene_Unmarshalling : PM RequestPermissionUsedScene :=
    RequestPermissionUsedScene_ReadFromParcel new_RequestPermissionUsedScene.

Definition RequestPermission_Marshalling (x : RequestPermission) : PM () :=
  WriteStr (rp_name x) ;;
  WriteStr (rp_reason x) ;;
  WriteInt32 (rp_reasonId x) ;;
  WriteParcelable (RequestPermissionUsedScene_Marshalling (rp_usedScene x)).

Definition RequestPermission_ReadFromParcel (x : RequestPermission) : PM RequestPermission :=
  x ← read ReadStr (λ v x, x <| rp_name := v |>) x;
  x ← read ReadStr (λ v x, x <| rp_reason := v |>) x;
  x ← read ReadInt32 (λ v x, x <| rp_reasonId := v |>) x;
  x ← read (ReadParcelable RequestPermissionUsedScene_Unmarshalling) (λ v x, x <| rp_usedScene := v |>) x;
  mret x.
Definition RequestPermission_Unmarshalling : PM RequestPermission := RequestPermission_ReadFromParcel
    new_RequestPermission.

Definition BundleUserInfo_Marshalling (x : BundleUserInfo) : PM () :=
  WriteInt32 (bu_userId x) ;;
  WriteBool (bu_enabled x) ;;
  write_list WriteStr (bu_disabledAbilities x).

Definition BundleUserInfo_ReadFromParcel (x : BundleUserInfo) : PM BundleUserInfo :=
  x ← read ReadInt32 (λ v x, x <| bu_userId := v |>) x;
  x ← read ReadBool (λ v x, x <| bu_enabled := v |>) x;
  x ← read (read_list ReadStr) (λ v x, x <| bu_disabledAbilities ::= λ w, w ++ v |>) x;
  mret x.
Definition BundleUserInfo_Unmarshalling : PM BundleUserInfo := BundleUserInfo_ReadFromParcel new_BundleUserInfo.

Definition CommonEventInfo_Marshalling (x : CommonEventInfo) : PM () :=
  WriteStr (ce_name x) ;;
  WriteStr (ce_bundleName x) ;;
  WriteInt32 (ce_uid x) ;;
  WriteStr (ce_permission x) ;;
  write_list WriteStr (ce_data x) ;;
  write_list WriteStr (ce_type x) ;;
  write_list WriteStr (ce_events x).

Definition CommonEventInfo_ReadFromParcel (x : CommonEventInfo) : PM CommonEventInfo :=
  x ← read ReadStr (λ v x, x <| ce_name := v |>) x;
  x ← read ReadStr (λ v x, x <| ce_bundleName := v |>) x;
  x ← read ReadInt32 (λ v x, x <| ce_uid := v |>) x;
  x ← read ReadStr (λ v x, x <| ce_permission := v |>) x;
  x ← read (read_list ReadStr) (λ v x, x <| ce_data ::= λ w, w ++ v |>) x;
  x ← read (read_list ReadStr) (λ v x, x <| ce_type ::= λ w, w ++ v |>) x;
  x ← read (read_list ReadStr) (λ v x, x <| ce_events ::= λ w, w ++ v |>) x;
  mret x.
Definition CommonEventInfo_Unmarshalling : PM CommonEventInfo := CommonEventInfo_ReadFromParcel
    new_CommonEventInfo.

Definition ShortcutInfo_Marshalling (x : ShortcutInfo) : PM () :=
  WriteStr (sc_id x) ;;
  WriteStr (sc_bundleName x) ;;
  WriteStr (sc_hostAbility x) ;;
  WriteStr (sc_icon x) ;;
  WriteStr (sc_label x) ;;
  WriteInt32 (sc_iconId x) ;;
  WriteInt32 (sc_labelId x) ;;
  WriteStr (sc_disableMessage x) ;;
  WriteBool (sc_isStatic x) ;;
  WriteBool (sc_isHomeShortcut x) ;;
  WriteBool (sc_isEnables x) ;;
  write_list (λ e, WriteStr (si_targetBundle e) ;; WriteStr (si_targetClass e)) (sc_intents x).

Definition ShortcutInfo_ReadFromParcel (x : ShortcutInfo) : PM ShortcutInfo :=
  x ← read ReadStr (λ v x, x <| sc_id := v |>) x;
  x ← read ReadStr (λ v x, x <| sc_bundleName := v |>) x;
  x ← read ReadStr (λ v x, x <| sc_hostAbility := v |>) x;
  x ← read ReadStr (λ v x, x <| sc_icon := v |>) x;
  x ← read ReadStr (λ v x, x <| sc_label := v |>) x;
  x ← read ReadInt32 (λ v x, x <| sc_iconId := v |>) x;
  x ← read ReadInt32 (λ v x, x <| sc_labelId := v |>) x;
  x ← read ReadStr (λ v x, x <| sc_disableMessage := v |>) x;
  x ← read ReadBool (λ v x, x <| sc_isStatic := v |>) x;
  x ← read ReadBool (λ v x, x <| sc_isHomeShortcut := v |>) x;
  x ← read ReadBool (λ v x, x <| sc_isEnables := v |>) x;
  x ← read (read_list (bundle ← ReadStr; class ← ReadStr; mret (mkShortcutIntent bundle class))) (λ v x, x <|
        sc_intents ::= λ w, w ++ v |>) x;
  mret x.
Definition ShortcutInfo_Unmarshalling : PM ShortcutInfo := ShortcutInfo_ReadFromParcel
    (new_ShortcutInfo uninit).

Definition FormInfo_Marshalling (x : FormInfo) : PM () :=
  WriteStr (fi_name x) ;;
  WriteStr (fi_package x) ;;
  WriteStr (fi_bundleName x) ;;
  WriteStr (fi_moduleName x) ;;
  WriteStr (fi_abilityName x) ;;
  WriteStr (fi_description x) ;;
  WriteStr (fi_formConfigAbility x) ;;
  WriteStr (fi_scheduledUpdateTime x) ;;
  WriteStr (fi_jsComponentName x) ;;
  WriteStr (fi_relatedBundleName x) ;;
  WriteStr (fi_originalBundleName x) ;;
  WriteStr (fi_deepLink x) ;;
  WriteStr (fi_src x) ;;
  WriteBool (fi_updateEnabled x) ;;
  WriteBool (fi_defaultFlag x) ;;
  WriteBool (fi_formVisibleNotify x) ;;
  WriteInt32 (fi_defaultDimension x) ;;
  WriteInt32 (fi_descriptionId x) ;;
  WriteInt32 (fi_updateDuration x) ;;
  WriteInt32 (FormType_value (fi_type x)) ;;
  WriteInt32 (FormsColorMode_value (fi_colorMode x)) ;;
  write_list WriteInt32 (fi_supportDimensions x) ;;
  write_list WriteStr (fi_landscapeLayouts x) ;;
  write_list WriteStr (fi_portraitLayouts x) ;;
  write_list (λ e, WriteStr (fcd_name e) ;; WriteStr (fcd_value e)) (fi_customizeDatas x) ;;
  WriteInt32 (fw_designWidth (fi_window x)) ;;
  WriteBool (fw_autoDesignWidth (fi_window x)).

Definition FormInfo_ReadCustomizeData (x : FormInfo) : PM FormInfo :=
  x ← read (read_list (name ← ReadStr; value ← ReadStr; mret (mkFormCustomizeData name value))) (λ v x, x <|
        fi_customizeDatas ::= λ w, w ++ v |>) x;
  mret x.

Definition FormInfo_ReadFromParcel (x : FormInfo) : PM FormInfo :=
  x ← read ReadStr (λ v x, x <| fi_name := v |>) x;
  x ← read ReadStr (λ v x, x <| fi_package := v |>) x;
  x ← read ReadStr (λ v x, x <| fi_bundleName := v |>) x;
  x ← read ReadStr (λ v x, x <| fi_moduleName := v |>) x;
  x ← read ReadStr (λ v x, x <| fi_abilityName := v |>) x;
  x ← read ReadStr (λ v x, x <| fi_description := v |>) x;
  x ← read ReadStr (λ v x, x <| fi_formConfigAbility := v |>) x;
  x ← read ReadStr (λ v x, x <| fi_scheduledUpdateTime := v |>) x;
  x ← read ReadStr (λ v x, x <| fi_jsComponentName := v |>) x;
  x ← read ReadStr (λ v x, x <| fi_relatedBundleName := v |>) x;
  x ← read ReadStr (λ v x, x <| fi_originalBundleName := v |>) x;
  x ← read ReadStr (λ v x, x <| fi_deepLink := v |>) x;
  x ← read ReadStr (λ v x, x <| fi_src := v |>) x;
  x ← read ReadBool (λ v x, x <| fi_updateEnabled := v |>) x;
  x ← read ReadBool (λ v x, x <| fi_defaultFlag := v |>) x;
  x ← read ReadBool (λ v x, x <| fi_formVisibleNotify := v |>) x;
  x ← read ReadInt32 (λ v x, x <| fi_defaultDimension := v |>) x;
  x ← read ReadInt32 (λ v x, x <| fi_descriptionId := v |>) x;
  x ← read ReadInt32 (λ v x, x <| fi_updateDuration := v |>) x;
  x ← read_enum ReadInt32_ FormType_of (λ v x, x <| fi_type := v |>) x;
  x ← read_enum ReadInt32_ FormsColorMode_of (λ v x, x <| fi_colorMode := v |>) x;
  x ← read (read_list ReadInt32) (λ v x, x <| fi_supportDimensions ::= λ w, w ++ v |>) x;
  x ← read (read_list ReadStr) (λ v x, x <| fi_landscapeLayouts ::= λ w, w ++ v |>) x;
  x ← read (read_list ReadStr) (λ v x, x <| fi_portraitLayouts ::= λ w, w ++ v |>) x;
  x ← FormInfo_ReadCustomizeData x;
  x ← read ReadInt32 (λ v x, x <| fi_window ::= λ w, w <| fw_designWidth := v |> |>) x;
  x ← read ReadBool (λ v x, x <| fi_window ::= λ w, w <| fw_autoDesignWidth := v |> |>) x;
  mret x.
Definition FormInfo_Unmarshalling : PM FormInfo := FormInfo_ReadFromParcel new_FormInfo.

Definition PermissionDef_Marshalling (x : PermissionDef) : PM () :=
  WriteStr (pd_permissionName x) ;;
  WriteStr (pd_bundleName x) ;;
  WriteStr (pd_label x) ;;
  WriteStr (pd_description x) ;;
  WriteInt32 (pd_availableLevel x) ;;
  WriteInt32 (pd_availableScope x) ;;
  WriteBool (pd_provisionEnable x) ;;
  WriteBool (pd_distributedSceneEnable x) ;;
  WriteInt32 (pd_grantMode x) ;;
  WriteInt32 (pd_labelId x) ;;
  WriteInt32 (pd_descriptionId x).

Definition PermissionDef_ReadFromParcel (x : PermissionDef) : PM PermissionDef :=
  x ← read ReadStr (λ v x, x <| pd_permissionName := v |>) x;
  x ← read ReadStr (λ v x, x <| pd_bundleName := v |>) x;
  x ← read ReadStr (λ v x, x <| pd_label := v |>) x;
  x ← read ReadStr (λ v x, x <| pd_description := v |>) x;
  x ← read ReadInt32_ (λ v x, x <| pd_availableLevel := v |>) x;
  x ← read ReadInt32_ (λ v x, x <| pd_availableScope := v |>) x;
  x ← read ReadBool_ (λ v x, x <| pd_provisionEnable := v |>) x;
  x ← read ReadBool_ (λ v x, x <| pd_distributedSceneEnable := v |>) x;
  x ← read ReadInt32_ (λ v x, x <| pd_grantMode := v |>) x;
  x ← read ReadInt32_ (λ v x, x <| pd_labelId := v |>) x;
  x ← read ReadInt32_ (λ v x, x <| pd_descriptionId := v |>) x;
  mret x.
Definition PermissionDef_Unmarshalling : PM PermissionDef := PermissionDef_ReadFromParcel new_PermissionDef.

Definition InstallParam_Marshalling (x : InstallParam) : PM () :=
  WriteInt32 (InstallFlag_value (ip_installFlag x)) ;;
  WriteInt32 (InstallLocation_value (ip_installLocation x)) ;;
  WriteInt32 (ip_userId x) ;;
  WriteBool (ip_isKeepData x) ;;
  write_list (λ e, WriteStr e.1 ;; WriteStr e.2) (elems (ip_hashParams x)).

Definition InstallParam_ReadFromParcel (x : InstallParam) : PM InstallParam :=
  x ← read_enum ReadInt32_ InstallFlag_of (λ v x, x <| ip_installFlag := v |>) x;
  x ← read_enum ReadInt32_ InstallLocation_of (λ v x, x <| ip_installLocation := v |>) x;
  x ← read ReadInt32 (λ v x, x <| ip_userId := v |>) x;
  x ← read ReadBool (λ v x, x <| ip_isKeepData := v |>) x;
  x ← read (read_list (moduleName ← ReadStr; hashValue ← ReadStr; mret (moduleName, hashValue))) (λ v x, x <|
        ip_hashParams ::= λ w, foldl (λ m p, emplace p.1 p.2 m) w v |>) x;
  mret x.
Definition InstallParam_Unmarshalling : PM InstallParam := InstallParam_ReadFromParcel new_InstallParam.

Definition ModuleUsageRecord_Marshalling (x : ModuleUsageRecord) : PM () :=
  WriteStr (mur_name x) ;;
  WriteStr (mur_bundleName x) ;;
  WriteStr (mur_abilityName x) ;;
  WriteInt32 (i32 (mur_appLabelId x)) ;;
  WriteInt32 (i32 (mur_labelId x)) ;;
  WriteInt32 (i32 (mur_descriptionId x)) ;;
  WriteInt32 (i32 (mur_abilityLabelId x)) ;;
  WriteInt32 (i32 (mur_abilityDescriptionId x)) ;;
  WriteInt32 (i32 (mur_abilityIconId x)) ;;
  WriteInt32 (i32 (mur_launchedCount x)) ;;
  WriteInt64 (mur_lastLaunchTime x) ;;
  WriteBool (mur_removed x) ;;
  WriteBool (mur_installationFreeSupported x).

Definition ModuleUsageRecord_ReadFromParcel (x : ModuleUsageRecord) : PM ModuleUsageRecord :=
  x ← read ReadStr (λ v x, x <| mur_name := v |>) x;
  x ← read ReadStr (λ v x, x <| mur_bundleName := v |>) x;
  x ← read ReadStr (λ v x, x <| mur_abilityName := v |>) x;
  x ← read ReadInt32 (λ v x, x <| mur_appLabelId := u32 v |>) x;
  x ← read ReadInt32 (λ v x, x <| mur_labelId := u32 v |>) x;
  x ← read ReadInt32 (λ v x, x <| mur_descriptionId := u32 v |>) x;
  x ← read ReadInt32 (λ v x, x <| mur_abilityLabelId := u32 v |>) x;
  x ← read ReadInt32 (λ v x, x <| mur_abilityDescriptionId := u32 v |>) x;
  x ← read ReadInt32 (λ v x, x <| mur_abilityIconId := u32 v |>) x;
  x ← read ReadInt32 (λ v x, x <| mur_launchedCount := u32 v |>) x;
  x ← read ReadInt64 (λ v x, x <| mur_lastLaunchTime := v |>) x;
  x ← read ReadBool (λ v x, x <| mur_removed := v |>) x;
  x ← read ReadBool (λ v x, x <| mur_installationFreeSupported := v |>) x;
  mret x.
Definition ModuleUsageRecord_Unmarshalling : PM ModuleUsageRecord := ModuleUsageRecord_ReadFromParcel
    new_ModuleUsageRecord.

Definition DistributedBundleInfo_Marshalling (x : DistributedBundleInfo) : PM () :=
  WriteUint32 (dbi_version x) ;;
  WriteUint32 (dbi_versionCode x) ;;
  WriteUint32 (dbi_compatibleVersionCode x) ;;
  WriteUint32 (dbi_minCompatibleVersion x) ;;
  WriteUint32 (dbi_targetVersionCode x) ;;
  WriteStr (dbi_bundleName x) ;;
  WriteStr (dbi_versionName x) ;;
  WriteStr (dbi_appId x) ;;
  write_list_u32 (λ e, WriteParcelable (DistributedModuleInfo_Marshalling e)) (dbi_moduleInfos x).

Definition DistributedBundleInfo_ReadFromParcel (x : DistributedBundleInfo) : PM DistributedBundleInfo :=
  x ← read ReadUint32 (λ v x, x <| dbi_version := v |>) x;
  x ← read ReadUint32 (λ v x, x <| dbi_versionCode := v |>) x;
  x ← read ReadUint32 (λ v x, x <| dbi_compatibleVersionCode := v |>) x;
  x ← read ReadUint32 (λ v x, x <| dbi_minCompatibleVersion := v |>) x;
  x ← read ReadUint32 (λ v x, x <| dbi_targetVersionCode := v |>) x;
  x ← read ReadStr (λ v x, x <| dbi_bundleName := v |>) x;
  x ← read ReadStr (λ v x, x <| dbi_versionName := v |>) x;
  x ← read ReadStr (λ v x, x <| dbi_appId := v |>) x;
  x ← read (read_list_u32 (ReadParcelable DistributedModuleInfo_Unmarshalling)) (λ v x, x <| dbi_moduleInfos ::= λ
        w, w ++ v |>) x;
  mret x.
Definition DistributedBundleInfo_Unmarshalling : PM DistributedBundleInfo :=
    DistributedBundleInfo_ReadFromParcel new_DistributedBundleInfo.

(** ** What goes through *)

Definition text_ok (j : json) : Prop := ∃ str, dump j = Some str ∧ Z.of_nat (String.length str) < UINT32_MAX.

Definition Metadata_sendable (x : Metadata) : Prop :=
  utf8 (md_name x)
  ∧ utf8 (md_value x)
  ∧ utf8 (md_resource x).

Definition CustomizeData_sendable (x : CustomizeData) : Prop :=
  utf8 (cd_name x)
  ∧ utf8 (cd_value x)
  ∧ utf8 (cd_extra x).

Definition ModuleInfo_sendable (x : ModuleInfo) : Prop :=
  utf8 (mi_moduleName x)
  ∧ utf8 (mi_moduleSourceDir x).

Definition RequestPermissionUsedScene_sendable (x : RequestPermissionUsedScene) : Prop :=
  small (rpu_abilities x)
  ∧ Forall utf8 (rpu_abilities x)
  ∧ utf8 (rpu_when x).

Definition RequestPermission_sendable (x : RequestPermission) : Prop :=
  utf8 (rp_name x)
  ∧ utf8 (rp_reason x)
  ∧ RequestPermissionUsedScene_sendable (rp_usedScene x).

Definition BundleUserInfo_sendable (x : BundleUserInfo) : Prop :=
  small (bu_disabledAbilities x)
  ∧ Forall utf8 (bu_disabledAbilities x).

Definition CommonEventInfo_sendable (x : CommonEventInfo) : Prop :=
  utf8 (ce_name x)
  ∧ utf8 (ce_bundleName x)
  ∧ utf8 (ce_permission x)
  ∧ small (ce_data x)
  ∧ Forall utf8 (ce_data x)
  ∧ small (ce_type x)
  ∧ Forall utf8 (ce_type x)
  ∧ small (ce_events x)
  ∧ Forall utf8 (ce_events x).

Definition ShortcutInfo_sendable (x : ShortcutInfo) : Prop :=
  utf8 (sc_id x)
  ∧ utf8 (sc_bundleName x)
  ∧ utf8 (sc_hostAbility x)
  ∧ utf8 (sc_icon x)
  ∧ utf8 (sc_label x)
  ∧ utf8 (sc_disableMessage x)
  ∧ small (sc_intents x)
  ∧ Forall (λ e, utf8 (si_targetBundle e) ∧ utf8 (si_targetClass e)) (sc_intents x).

Definition FormInfo_sendable (x : FormInfo) : Prop :=
  utf8 (fi_package x)
  ∧ utf8 (fi_bundleName x)
  ∧ utf8 (fi_originalBundleName x)
  ∧ utf8 (fi_relatedBundleName x)
  ∧ utf8 (fi_moduleName x)
  ∧ utf8 (fi_abilityName x)
  ∧ utf8 (fi_name x)
  ∧ utf8 (fi_description x)
  ∧ utf8 (fi_jsComponentName x)
  ∧ utf8 (fi_deepLink x)
  ∧ utf8 (fi_formConfigAbility x)
  ∧ utf8 (fi_scheduledUpdateTime x)
  ∧ utf8 (fi_src x)
  ∧ small (fi_supportDimensions x)
  ∧ small (fi_landscapeLayouts x)
  ∧ Forall utf8 (fi_landscapeLayouts x)
  ∧ small (fi_portraitLayouts x)
  ∧ Forall utf8 (fi_portraitLayouts x)
  ∧ small (fi_customizeDatas x)
  ∧ Forall (λ e, utf8 (fcd_name e) ∧ utf8 (fcd_value e)) (fi_customizeDatas x).

Definition PermissionDef_sendable (x : PermissionDef) : Prop :=
  utf8 (pd_permissionName x)
  ∧ utf8 (pd_bundleName x)
  ∧ utf8 (pd_label x)
  ∧ utf8 (pd_description x).

Definition InstallParam_sendable (x : InstallParam) : Prop :=
  sm_wf (ip_hashParams x) ∧ small (elems (ip_hashParams x))
  ∧ Forall (λ p, utf8 p.1 ∧ utf8 p.2) (elems (ip_hashParams x)).

Definition ModuleUsageRecord_sendable (x : ModuleUsageRecord) : Prop :=
  in_u32 (mur_appLabelId x) ∧ in_u32 (mur_labelId x) ∧ in_u32 (mur_descriptionId x) ∧ in_u32 (mur_abilityLabelId x)
  ∧ in_u32 (mur_abilityDescriptionId x) ∧ in_u32 (mur_abilityIconId x) ∧ in_u32 (mur_launchedCount x)
  ∧   utf8 (mur_bundleName x)
  ∧ utf8 (mur_name x)
  ∧ utf8 (mur_abilityName x).

Definition DistributedBundleInfo_sendable (x : DistributedBundleInfo) : Prop :=
  utf8 (dbi_bundleName x)
  ∧ utf8 (dbi_versionName x)
  ∧ utf8 (dbi_appId x)
  ∧ small (dbi_moduleInfos x)
  ∧ Forall (λ e, text_ok (to_json e)) (dbi_moduleInfos x).
End Codecs.

(** * What one end writes the other reads *)

Section RoundTrips.
Context {P U O : Type} `{HP : Parcel P U O} `{HT : JsonText} `{HU : Uninit} `{HA : UninitAbilityType}.
#[local] Abbreviation PM := (On P).

(** All members one after the other. *)
Ltac receive x := intros; destruct_and?; repeat send_member; destruct x; apply sends_ret.

Lemma Metadata_sends x :
  Metadata_sendable x → sends (Metadata_Marshalling x) Metadata_Unmarshalling x.
Proof.
  unfold Metadata_sendable, Metadata_Marshalling, Metadata_Unmarshalling,
    Metadata_ReadFromParcel. receive x.
Qed.
#[local] Hint Resolve Metadata_sends : parcel.

Lemma CustomizeData_sends x :
  CustomizeData_sendable x → sends (CustomizeData_Marshalling x) CustomizeData_Unmarshalling x.
Proof.
  unfold CustomizeData_sendable, CustomizeData_Marshalling, CustomizeData_Unmarshalling,
    CustomizeData_ReadFromParcel. receive x.
Qed.
#[local] Hint Resolve CustomizeData_sends : parcel.

Lemma ModuleInfo_sends x :
  ModuleInfo_sendable x → sends (ModuleInfo_Marshalling x) ModuleInfo_Unmarshalling x.
Proof.
  unfold ModuleInfo_sendable, ModuleInfo_Marshalling, ModuleInfo_Unmarshalling,
    ModuleInfo_ReadFromParcel. receive x.
Qed.
#[local] Hint Resolve ModuleInfo_sends : parcel.

Lemma RequestPermissionUsedScene_sends x :
  RequestPermissionUsedScene_sendable x → sends (RequestPermissionUsedScene_Marshalling x) RequestPermissionUsedScene_Unmarshalling x.
Proof.
  unfold RequestPermissionUsedScene_sendable, RequestPermissionUsedScene_Marshalling, RequestPermissionUsedScene_Unmarshalling,
    RequestPermissionUsedScene_ReadFromParcel. receive x.
Qed.
#[local] Hint Resolve RequestPermissionUsedScene_sends : parcel.

Lemma RequestPermission_sends x :
  RequestPermission_sendable x → sends (RequestPermission_Marshalling x) RequestPermission_Unmarshalling x.
Proof.
  unfold RequestPermission_sendable, RequestPermission_Marshalling, RequestPermission_Unmarshalling,
    RequestPermission_ReadFromParcel. receive x.
Qed.
#[local] Hint Resolve RequestPermission_sends : parcel.

Lemma BundleUserInfo_sends x :
  BundleUserInfo_sendable x → sends (BundleUserInfo_Marshalling x) BundleUserInfo_Unmarshalling x.
Proof.
  unfold BundleUserInfo_sendable, BundleUserInfo_Marshalling, BundleUserInfo_Unmarshalling,
    BundleUserInfo_ReadFromParcel. receive x.
Qed.
#[local] Hint Resolve BundleUserInfo_sends : parcel.

Lemma CommonEventInfo_sends x :
  CommonEventInfo_sendable x → sends (CommonEventInfo_Marshalling x) CommonEventInfo_Unmarshalling x.
Proof.
  unfold CommonEventInfo_sendable, CommonEventInfo_Marshalling, CommonEventInfo_Unmarshalling,
    CommonEventInfo_ReadFromParcel. receive x.
Qed.
#[local] Hint Resolve CommonEventInfo_sends : parcel.

Lemma PermissionDef_sends x :
  PermissionDef_sendable x → sends (PermissionDef_Marshalling x) PermissionDef_Unmarshalling x.
Proof.
  unfold PermissionDef_sendable, PermissionDef_Marshalling, PermissionDef_Unmarshalling,
    PermissionDef_ReadFromParcel. receive x.
Qed.
#[local] Hint Resolve PermissionDef_sends : parcel.

Lemma sends_pairs {A} (f g : A → string) (mk : string → string → A) l :
  (∀ e, mk (f e) (g e) = e) → small l → Forall (λ e, utf8 (f e) ∧ utf8 (g e)) l →
  sends (write_list (λ e, WriteStr (f e) ;; WriteStr (g e)) l)
        (read_list (a ← ReadStr; b ← ReadStr; mret (mk a b))) l.
Proof.
  intros Hmk Hn Hl. apply sends_list; [done|]. eapply Forall_impl; [exact Hl|]. intros e [Hf Hg].
  eapply sends_bind; [by apply sends_Str|]. eapply sends_last; [by apply sends_Str|]. rewrite Hmk. apply sends_ret.
Qed.

Lemma ShortcutInfo_sends x : ShortcutInfo_sendable x → sends (ShortcutInfo_Marshalling x) ShortcutInfo_Unmarshalling x.
Proof.
  unfold ShortcutInfo_sendable, ShortcutInfo_Marshalling, ShortcutInfo_Unmarshalling, ShortcutInfo_ReadFromParcel.
  intros. destruct_and?. do 11 send_member.
  eapply sends_read_last; [apply (sends_pairs si_targetBundle si_targetClass mkShortcutIntent); [by intros []|done..]|reflexivity|].
  destruct x. apply sends_ret.
Qed.

Lemma FormInfo_sends x : FormInfo_sendable x → sends (FormInfo_Marshalling x) FormInfo_Unmarshalling x.
Proof.
  unfold FormInfo_sendable, FormInfo_Marshalling, FormInfo_Unmarshalling, FormInfo_ReadFromParcel, FormInfo_ReadCustomizeData.
  intros. destruct_and?. do 24 send_member. eapply sends_bind.
  { eapply sends_read_last; [apply (sends_pairs fcd_name fcd_value mkFormCustomizeData); [by intros []|done..]|reflexivity|].
    apply sends_ret. }
  cbv beta. repeat send_member. destruct x as [????????????? [] ????????????]. apply sends_ret.
Qed.

(** The members that the installer sets itself are not sent. *)
Definition InstallParam_received (x : InstallParam) : InstallParam :=
  new_InstallParam <| ip_installFlag := ip_installFlag x |> <| ip_installLocation := ip_installLocation x |>
    <| ip_userId := ip_userId x |> <| ip_isKeepData := ip_isKeepData x |> <| ip_hashParams := ip_hashParams x |>.

Lemma InstallParam_sends x :
  InstallParam_sendable x → sends (InstallParam_Marshalling x) InstallParam_Unmarshalling (InstallParam_received x).
Proof.
  unfold InstallParam_sendable, InstallParam_Marshalling, InstallParam_Unmarshalling, InstallParam_ReadFromParcel.
  intros. destruct_and?. do 4 send_member.
  eapply sends_read_last; [apply (sends_pairs fst snd pair); [by intros []|done..]|reflexivity|].
  cbv beta. simpl. unfold set_field. simpl. rewrite sm_emplaces_id by done. apply sends_ret.
Qed.

Lemma ModuleUsageRecord_sends x :
  ModuleUsageRecord_sendable x → sends (ModuleUsageRecord_Marshalling x) ModuleUsageRecord_Unmarshalling x.
Proof.
  unfold ModuleUsageRecord_sendable, ModuleUsageRecord_Marshalling, ModuleUsageRecord_Unmarshalling,
    ModuleUsageRecord_ReadFromParcel.
  intros. destruct_and?. repeat send_member. cbn -[u32 i32]. destruct x. simpl in *.
  rewrite !u32_of_i32 by done. apply sends_ret.
Qed.

(** The types that go through JSON. *)
Lemma sends_text {A} `{ToJson A} (get : json → M A) x :
  decodes get (to_json x) x → text_ok (to_json x) → sends (WriteJson (to_json x)) (ReadJson get) x.
Proof. intros Hd (str & Hp & Hl). by eapply sends_Json. Qed.

Lemma succeeds_text j : roomy → text_ok j → succeeds (WriteJson j).
Proof. intros Hroom (str & Hp & _). apply succeeds_Json; [done|by exists str]. Qed.

Lemma DistributedBundleInfo_sends x :
  DistributedBundleInfo_sendable x → sends (DistributedBundleInfo_Marshalling x) DistributedBundleInfo_Unmarshalling x.
Proof.
  unfold DistributedBundleInfo_sendable, DistributedBundleInfo_Marshalling, DistributedBundleInfo_Unmarshalling,
    DistributedBundleInfo_ReadFromParcel.
  intros (H1 & H2 & H3 & Hsmall & Hl). do 8 send_member.
  assert (sends (write_list_u32 (λ e, WriteParcelable (DistributedModuleInfo_Marshalling e)) (dbi_moduleInfos x))
    (read_list_u32 (ReadParcelable DistributedModuleInfo_Unmarshalling)) (dbi_moduleInfos x)) as Hlist.
  { unfold write_list_u32, read_list_u32, small, INT32_MAX in *.
    rewrite u32_id by (unfold in_u32, UINT32_MAX; lia). eapply sends_bind; [apply sends_Uint32_|]. rewrite Nat2Z.id.
    apply sends_each. eapply Forall_impl; [exact Hl|]. intros e He. apply sends_Parcelable, sends_text; [|done].
    apply DistributedModuleInfo_round_trip. }
  eapply sends_read_last; [exact Hlist|reflexivity|]. destruct x. apply sends_ret.
Qed.

(** ** Instances *)

Lemma write_list_u32_succeeds {A} (write : A → PM ()) l : roomy → Forall (λ x, succeeds (write x)) l → succeeds (write_list_u32 write l).
Proof. intros Hroom Hw. apply succeeds_bind; [intros p; apply Hroom|by apply succeeds_each]. Qed.

Ltac with_room := unfold write_list_u32; repeat (intros; first
  [ apply succeeds_bind | apply succeeds_list; [assumption|] | apply succeeds_Parcelable; [assumption|]
  | apply succeeds_each | (apply Forall_forall; intros) | (let p := fresh in intros p; match goal with H : roomy |- _ => apply H end) ]).

#[global, refine] Instance Metadata_Parcelable : Parcelable Metadata := {|
  Marshalling := Metadata_Marshalling; Unmarshalling := Metadata_Unmarshalling; sendable := Metadata_sendable;
  Marshalling_sends := Metadata_sends |}.
Proof. unfold Metadata_Marshalling. with_room. Defined.

#[global, refine] Instance CustomizeData_Parcelable : Parcelable CustomizeData := {|
  Marshalling := CustomizeData_Marshalling; Unmarshalling := CustomizeData_Unmarshalling; sendable := CustomizeData_sendable;
  Marshalling_sends := CustomizeData_sends |}.
Proof. unfold CustomizeData_Marshalling. with_room. Defined.

#[global, refine] Instance ModuleInfo_Parcelable : Parcelable ModuleInfo := {|
  Marshalling := ModuleInfo_Marshalling; Unmarshalling := ModuleInfo_Unmarshalling; sendable := ModuleInfo_sendable;
  Marshalling_sends := ModuleInfo_sends |}.
Proof. unfold ModuleInfo_Marshalling. with_room. Defined.

#[global, refine] Instance RequestPermissionUsedScene_Parcelable : Parcelable RequestPermissionUsedScene := {|
  Marshalling := RequestPermissionUsedScene_Marshalling; Unmarshalling := RequestPermissionUsedScene_Unmarshalling; sendable := RequestPermissionUsedScene_sendable;
  Marshalling_sends := RequestPermissionUsedScene_sends |}.
Proof. unfold RequestPermissionUsedScene_Marshalling. with_room. Defined.

#[global, refine] Instance RequestPermission_Parcelable : Parcelable RequestPermission := {|
  Marshalling := RequestPermission_Marshalling; Unmarshalling := RequestPermission_Unmarshalling; sendable := RequestPermission_sendable;
  Marshalling_sends := RequestPermission_sends |}.
Proof. unfold RequestPermission_Marshalling. unfold RequestPermissionUsedScene_Marshalling. with_room. Defined.

#[global, refine] Instance BundleUserInfo_Parcelable : Parcelable BundleUserInfo := {|
  Marshalling := BundleUserInfo_Marshalling; Unmarshalling := BundleUserInfo_Unmarshalling; sendable := BundleUserInfo_sendable;
  Marshalling_sends := BundleUserInfo_sends |}.
Proof. unfold BundleUserInfo_Marshalling. with_room. Defined.

#[global, refine] Instance CommonEventInfo_Parcelable : Parcelable CommonEventInfo := {|
  Marshalling := CommonEventInfo_Marshalling; Unmarshalling := CommonEventInfo_Unmarshalling; sendable := CommonEventInfo_sendable;
  Marshalling_sends := CommonEventInfo_sends |}.
Proof. unfold CommonEventInfo_Marshalling. with_room. Defined.

#[global, refine] Instance PermissionDef_Parcelable : Parcelable PermissionDef := {|
  Marshalling := PermissionDef_Marshalling; Unmarshalling := PermissionDef_Unmarshalling; sendable := PermissionDef_sendable;
  Marshalling_sends := PermissionDef_sends |}.
Proof. unfold PermissionDef_Marshalling. with_room. Defined.

#[global, refine] Instance ShortcutInfo_Parcelable : Parcelable ShortcutInfo := {|
  Marshalling := ShortcutInfo_Marshalling; Unmarshalling := ShortcutInfo_Unmarshalling; sendable := ShortcutInfo_sendable;
  Marshalling_sends := ShortcutInfo_sends |}.
Proof. unfold ShortcutInfo_Marshalling. with_room. Defined.

#[global, refine] Instance FormInfo_Parcelable : Parcelable FormInfo := {|
  Marshalling := FormInfo_Marshalling; Unmarshalling := FormInfo_Unmarshalling; sendable := FormInfo_sendable;
  Marshalling_sends := FormInfo_sends |}.
Proof. unfold FormInfo_Marshalling. with_room. Defined.

#[global, refine] Instance ModuleUsageRecord_Parcelable : Parcelable ModuleUsageRecord := {|
  Marshalling := ModuleUsageRecord_Marshalling; Unmarshalling := ModuleUsageRecord_Unmarshalling; sendable := ModuleUsageRecord_sendable;
  Marshalling_sends := ModuleUsageRecord_sends |}.
Proof. unfold ModuleUsageRecord_Marshalling. with_room. Defined.

#[global, refine] Instance ApplicationInfo_Parcelable : Parcelable ApplicationInfo := {|
  Marshalling := ApplicationInfo_Marshalling; Unmarshalling := ApplicationInfo_Unmarshalling; sendable x := ApplicationInfo_ok x ∧ text_ok (to_json x) |}.
Proof.
  - intros x [Hx Ht]. apply sends_text; [by apply ApplicationInfo_round_trip|done].
  - intros x Hroom Hx. apply succeeds_text; [done|]. apply Hx.
Defined.

#[global, refine] Instance AbilityInfo_Parcelable : Parcelable AbilityInfo := {|
  Marshalling := AbilityInfo_Marshalling; Unmarshalling := AbilityInfo_Unmarshalling; sendable x := AbilityInfo_ok x ∧ text_ok (to_json x) |}.
Proof.
  - intros x [Hx Ht]. apply sends_text; [by apply AbilityInfo_round_trip|done].
  - intros x Hroom Hx. apply succeeds_text; [done|]. apply Hx.
Defined.

#[global, refine] Instance ExtensionAbilityInfo_Parcelable : Parcelable ExtensionAbilityInfo := {|
  Marshalling := ExtensionAbilityInfo_Marshalling; Unmarshalling := ExtensionAbilityInfo_Unmarshalling; sendable x := ExtensionAbilityInfo_ok x ∧ text_ok (to_json x) |}.
Proof.
  - intros x [Hx Ht]. apply sends_text; [by apply ExtensionAbilityInfo_round_trip|done].
  - intros x Hroom Hx. apply succeeds_text; [done|]. apply Hx.
Defined.

#[global, refine] Instance HapModuleInfo_Parcelable : Parcelable HapModuleInfo := {|
  Marshalling := HapModuleInfo_Marshalling; Unmarshalling := HapModuleInfo_Unmarshalling; sendable x := HapModuleInfo_ok x ∧ text_ok (to_json x) |}.
Proof.
  - intros x [Hx Ht]. apply sends_text; [by apply HapModuleInfo_round_trip|done].
  - intros x Hroom Hx. apply succeeds_text; [done|]. apply Hx.
Defined.

#[global, refine] Instance BundleInfo_Parcelable : Parcelable BundleInfo := {|
  Marshalling := BundleInfo_Marshalling; Unmarshalling := BundleInfo_Unmarshalling; sendable x := BundleInfo_ok x ∧ text_ok (to_json x) |}.
Proof.
  - intros x [Hx Ht]. apply sends_text; [by apply BundleInfo_round_trip|done].
  - intros x Hroom Hx. apply succeeds_text; [done|]. apply Hx.
Defined.

#[global, refine] Instance BundlePackInfo_Parcelable : Parcelable BundlePackInfo := {|
  Marshalling := BundlePackInfo_Marshalling; Unmarshalling := BundlePackInfo_Unmarshalling; sendable x := (BundlePackInfo_ok x ∧ bpi_isValid x = false) ∧ text_ok (to_json x) |}.
Proof.
  - intros x [[Hx Hv] Ht]. apply sends_text; [|done]. pose proof (BundlePackInfo_round_trip x Hx) as Hr.
    replace (x <| bpi_isValid := false |>) with x in Hr; [done|]. destruct x. simpl in *. by subst.
  - intros x Hroom Hx. apply succeeds_text; [done|]. apply Hx.
Defined.

#[global, refine] Instance DistributedModuleInfo_Parcelable : Parcelable DistributedModuleInfo := {|
  Marshalling := DistributedModuleInfo_Marshalling; Unmarshalling := DistributedModuleInfo_Unmarshalling; sendable x := text_ok (to_json x) |}.
Proof.
  - intros x Ht. apply sends_text; [apply DistributedModuleInfo_round_trip|done].
  - intros x Hroom Hx. apply succeeds_text; [done|]. apply Hx.
Defined.

#[global, refine] Instance DistributedBundleInfo_Parcelable : Parcelable DistributedBundleInfo := {|
  Marshalling := DistributedBundleInfo_Marshalling; Unmarshalling := DistributedBundleInfo_Unmarshalling;
  sendable := DistributedBundleInfo_sendable; Marshalling_sends := DistributedBundleInfo_sends |}.
Proof.
  intros x Hroom (_ & _ & _ & _ & Hl). unfold DistributedBundleInfo_Marshalling.
  do 8 (apply succeeds_bind; [intros p; apply Hroom|]).
  apply write_list_u32_succeeds; [done|]. eapply Forall_impl; [exact Hl|]. intros e He.
  apply succeeds_Parcelable; [done|]. by apply succeeds_text.
Defined.

End RoundTrips.
