(* ===== verification/BundleMgrIpc.v ===== *)
(** * BundleMgrIpc: the bundle manager behind remote calls

    Models interfaces/inner_api/appexecfwk_core/src/bundlemgr: the functions
    of bundle_mgr_proxy.cpp that a client calls, and the handlers of
    bundle_mgr_host.cpp that serve them.

    A member function of IBundleMgr is a [Call], an implementation of the
    interface gives each call its result.  A function that returns false with
    output parameters is a function to an [option]: what it leaves in the
    parameters when it returns false is not looked at, and the caller's
    vectors and strings start empty.  The state [S] is that of the service.

    The proxy's GetModuleUsageRecords and NotifyAbilityLifeStatus, which only
    return false, are left out. *)

From stdpp Require Import strings pretty.
From S2P Require Import Prelude Strings StdMap BundleTypes Errors Json InfoJson PackJson Parcel ParcelInfos.

Open Scope string_scope.
Open Scope list_scope.
Open Scope Z_scope.

(** ** Codes *)

Inductive Message :=
  | GET_APPLICATION_INFO | GET_APPLICATION_INFOS | GET_BUNDLE_INFO | GET_BUNDLE_PACK_INFO |
  GET_BUNDLE_INFOS | GET_UID_BY_BUNDLE_NAME | GET_APPID_BY_BUNDLE_NAME | GET_BUNDLE_NAME_FOR_UID |
  GET_BUNDLES_FOR_UID | GET_NAME_FOR_UID | GET_BUNDLE_GIDS | GET_BUNDLE_GIDS_BY_UID | GET_APP_TYPE |
  CHECK_IS_SYSTEM_APP_BY_UID | GET_BUNDLE_INFOS_BY_METADATA | QUERY_ABILITY_INFO | QUERY_ABILITY_INFOS |
  QUERY_ABILITY_INFOS_FOR_CLONE | QUERY_ABILITY_INFO_BY_URI | QUERY_ABILITY_INFOS_BY_URI |
  QUERY_KEEPALIVE_BUNDLE_INFOS | GET_ABILITY_LABEL | GET_ABILITY_LABEL_WITH_MODULE_NAME |
  GET_BUNDLE_ARCHIVE_INFO | GET_HAP_MODULE_INFO | GET_LAUNCH_WANT_FOR_BUNDLE | CHECK_PUBLICKEYS |
  GET_PERMISSION_DEF | HAS_SYSTEM_CAPABILITY | GET_SYSTEM_AVAILABLE_CAPABILITIES | IS_SAFE_MODE |
  CLEAN_BUNDLE_CACHE_FILES | CLEAN_BUNDLE_DATA_FILES | REGISTER_BUNDLE_STATUS_CALLBACK |
  CLEAR_BUNDLE_STATUS_CALLBACK | UNREGISTER_BUNDLE_STATUS_CALLBACK | DUMP_INFOS | IS_APPLICATION_ENABLED |
  SET_APPLICATION_ENABLED | IS_ABILITY_ENABLED | SET_ABILITY_ENABLED | GET_ABILITY_INFO |
  GET_ABILITY_INFO_WITH_MODULE_NAME | GET_ABILITY_PIXELMAP_ICON | GET_ABILITY_PIXELMAP_ICON_WITH_MODULE_NAME |
  GET_ALL_FORMS_INFO | GET_FORMS_INFO_BY_APP | GET_FORMS_INFO_BY_MODULE | GET_SHORTCUT_INFO |
  GET_ALL_COMMON_EVENT_INFO | GET_BUNDLE_INSTALLER | REMOVE_CLONED_BUNDLE | BUNDLE_CLONE |
  CHECK_BUNDLE_NAME_IN_ALLOWLIST | QUERY_ABILITY_INFO_MUTI_PARAM | QUERY_ABILITY_INFOS_MUTI_PARAM |
  QUERY_ALL_ABILITY_INFOS | GET_APPLICATION_INFO_WITH_INT_FLAGS | GET_APPLICATION_INFOS_WITH_INT_FLAGS |
  GET_BUNDLE_INFO_WITH_INT_FLAGS | GET_BUNDLE_PACK_INFO_WITH_INT_FLAGS | GET_BUNDLE_INFOS_WITH_INT_FLAGS |
  GET_BUNDLE_ARCHIVE_INFO_WITH_INT_FLAGS | GET_BUNDLE_USER_MGR | GET_DISTRIBUTE_BUNDLE_INFO |
  QUERY_ABILITY_INFO_BY_URI_FOR_USERID | GET_APPLICATION_PRIVILEGE_LEVEL | QUERY_EXTENSION_INFO_WITHOUT_TYPE |
  QUERY_EXTENSION_INFO | QUERY_EXTENSION_INFO_BY_TYPE | VERIFY_CALLING_PERMISSION | GET_ACCESSIBLE_APP_CODE_PATH
  | QUERY_EXTENSION_ABILITY_INFO_BY_URI | IS_MODULE_REMOVABLE | SET_MODULE_REMOVABLE |
  QUERY_ABILITY_INFO_WITH_CALLBACK | UPGRADE_ATOMIC_SERVICE | IS_MODULE_NEED_UPDATE | SET_MODULE_NEED_UPDATE |
  GET_HAP_MODULE_INFO_WITH_USERID | IMPLICIT_QUERY_INFO_BY_PRIORITY | GET_ALL_DEPENDENT_MODULE_NAMES |
  GET_SANDBOX_APP_BUNDLE_INFO.

Definition SIGNATURE_UNKNOWN_BUNDLE : Z := 2.
Definition LIMIT_PARCEL_SIZE : nat := 1024.
Definition ASHMEM_LEN : Z := 16.

Definition found {A} (r : option A) : bool := match r with Some _ => true | None => false end.

Definition error_code {A} (r : Z + A) : Z := match r with inl code => code | inr _ => ERR_OK end.

(** SplitString: pieces of 1024 characters. *)
Definition SplitString (source : string) : list string :=
  let size := String.length source in
  let splitSize := (size / LIMIT_PARCEL_SIZE + if decide (size mod LIMIT_PARCEL_SIZE = 0) then 0 else 1)%nat in
  map (λ i, String.substring (LIMIT_PARCEL_SIZE * i) LIMIT_PARCEL_SIZE source) (seq 0 splitSize).

(** Shared memory: whether a block of the size can be made and mapped, and
    the bytes from the start of a C string on. *)
Class Ashmem := {
  CreateAshmem : Z → bool;
  memory_at : string → nat → string;
  memory_at_length s n : String.length (memory_at s n) = n;
  memory_at_text s n : (String.length s < n)%nat → ∃ rest, memory_at s n = s +:+ NUL +:+ rest;
}.

Section Calls.
Context (O Want PixelMap : Type).

Inductive Call : Type → Type :=
| GetApplicationInfo (appName : string) (flag userId : Z) : Call (option ApplicationInfo)
| GetApplicationInfoWithIntFlags (appName : string) (flags userId : Z) : Call (option ApplicationInfo)
| GetApplicationInfos (flag userId : Z) : Call (option (list ApplicationInfo))
| GetApplicationInfosWithIntFlags (flags userId : Z) : Call (option (list ApplicationInfo))
| GetBundleInfo (bundleName : string) (flag userId : Z) : Call (option BundleInfo)
| GetBundleInfoWithIntFlags (bundleName : string) (flags userId : Z) : Call (option BundleInfo)
| GetBundlePackInfo (bundleName : string) (flag : Z) : Call (option BundlePackInfo)
| GetBundlePackInfoWithIntFlags (bundleName : string) (flags : Z) : Call (option BundlePackInfo)
| GetBundleInfos (flag userId : Z) : Call (option (list BundleInfo))
| GetBundleInfosWithIntFlags (flags userId : Z) : Call (option (list BundleInfo))
| GetUidByBundleName (bundleName : string) (userId : Z) : Call Z
| GetAppIdByBundleName (bundleName : string) (userId : Z) : Call string
| GetBundleNameForUid (uid : Z) : Call (option string)
| GetBundlesForUid (uid : Z) : Call (option (list string))
| GetNameForUid (uid : Z) : Call (option string)
| GetBundleGids (bundleName : string) : Call (option (list Z))
| GetBundleGidsByUid (bundleName : string) (uid : Z) : Call (option (list Z))
| GetAppType (bundleName : string) : Call string
| CheckIsSystemAppByUid (uid : Z) : Call bool
| GetBundleInfosByMetaData (metaData : string) : Call (option (list BundleInfo))
| QueryAbilityInfo (want : Want) : Call (option AbilityInfo)
| QueryAbilityInfoWithCallback (want : Want) (flags userId : Z) (callBack : option O) : Call (option AbilityInfo)
| UpgradeAtomicService (want : Want) (userId : Z) : Call ()
| QueryAbilityInfoMutiparam (want : Want) (flags userId : Z) : Call (option AbilityInfo)
| QueryAbilityInfos (want : Want) : Call (option (list AbilityInfo))
| QueryAbilityInfosMutiparam (want : Want) (flags userId : Z) : Call (option (list AbilityInfo))
| QueryAllAbilityInfos (want : Want) (userId : Z) : Call (option (list AbilityInfo))
| QueryAbilityInfosForClone (want : Want) : Call (option (list AbilityInfo))
| QueryAbilityInfoByUri (abilityUri : string) : Call (option AbilityInfo)
| QueryAbilityInfosByUri (abilityUri : string) : Call (option (list AbilityInfo))
| QueryAbilityInfoByUriForUserId (abilityUri : string) (userId : Z) : Call (option AbilityInfo)
| QueryKeepAliveBundleInfos : Call (option (list BundleInfo))
| GetAbilityLabel (bundleName abilityName : string) : Call string
| GetAbilityLabelWithModuleName (bundleName moduleName abilityName : string) : Call string
| GetBundleArchiveInfo (hapFilePath : string) (flag : Z) : Call (option BundleInfo)
| GetBundleArchiveInfoWithIntFlags (hapFilePath : string) (flags : Z) : Call (option BundleInfo)
| GetHapModuleInfo (abilityInfo : AbilityInfo) : Call (option HapModuleInfo)
| GetHapModuleInfoWithUserId (abilityInfo : AbilityInfo) (userId : Z) : Call (option HapModuleInfo)
| GetLaunchWantForBundle (bundleName : string) : Call (option Want)
| CheckPublicKeys (firstBundleName secondBundleName : string) : Call Z
| GetPermissionDef (permissionName : string) : Call (option PermissionDef)
| HasSystemCapability (capName : string) : Call bool
| GetSystemAvailableCapabilities : Call (option (list string))
| IsSafeMode : Call bool
| CleanBundleCacheFiles (bundleName : string) (cleanCacheCallback : option O) (userId : Z) : Call bool
| CleanBundleDataFiles (bundleName : string) (userId : Z) : Call bool
| RegisterBundleStatusCallback (bundleStatusCallback : option (O * string)) : Call bool
| ClearBundleStatusCallback (bundleStatusCallback : option O) : Call bool
| UnregisterBundleStatusCallback : Call bool
| DumpInfos (flag : Z) (bundleName : string) (userId : Z) : Call (option string)
| IsApplicationEnabled (bundleName : string) : Call bool
| IsModuleRemovable (bundleName moduleName : string) : Call bool
| SetModuleRemovable (bundleName moduleName : string) (isEnable : bool) : Call bool
| GetModuleUpgradeFlag (bundleName moduleName : string) : Call bool
| SetModuleUpgradeFlag (bundleName moduleName : string) (upgradeFlag : Z) : Call bool
| SetApplicationEnabled (bundleName : string) (isEnable : bool) (userId : Z) : Call bool
| IsAbilityEnabled (abilityInfo : AbilityInfo) : Call bool
| SetAbilityEnabled (abilityInfo : AbilityInfo) (isEnabled : bool) (userId : Z) : Call bool
| GetAbilityInfo (bundleName abilityName : string) : Call (option AbilityInfo)
| GetAbilityInfoWithModuleName (bundleName moduleName abilityName : string) : Call (option AbilityInfo)
| GetAbilityPixelMapIcon (bundleName abilityName : string) : Call (option PixelMap)
| GetAbilityPixelMapIconWithModuleName (bundleName moduleName abilityName : string) : Call (option PixelMap)
| GetBundleInstaller : Call (option O)
| GetBundleUserMgr : Call (option O)
| GetAllFormsInfo : Call (option (list FormInfo))
| GetFormsInfoByApp (bundleName : string) : Call (option (list FormInfo))
| GetFormsInfoByModule (bundleName moduleName : string) : Call (option (list FormInfo))
| GetShortcutInfos (bundleName : string) : Call (option (list ShortcutInfo))
| GetAllCommonEventInfo (eventKey : string) : Call (option (list CommonEventInfo))
| CheckBundleNameInAllowList (bundleName : string) : Call bool
| BundleClone (bundleName : string) : Call bool
| RemoveClonedBundle (bundleName : string) (uid : Z) : Call bool
| GetDistributedBundleInfo (networkId bundleName : string) : Call (option DistributedBundleInfo)
| GetAppPrivilegeLevel (bundleName : string) (userId : Z) : Call string
| QueryExtAbilityInfosWithoutType (want : Want) (flag userId : Z) : Call (option (list ExtensionAbilityInfo))
| QueryExtAbilityInfos (want : Want) (extensionType : ExtensionAbilityType) (flag userId : Z) : Call (option (list ExtensionAbilityInfo))
| QueryExtAbilityInfosByType (extensionType : ExtensionAbilityType) (userId : Z) : Call (option (list ExtensionAbilityInfo))
| VerifyCallingPermission (permission : string) : Call bool
| GetAccessibleAppCodePaths (userId : Z) : Call (list string)
| QueryExtensionAbilityInfoByUri (uri : string) (userId : Z) : Call (option ExtensionAbilityInfo)
| ImplicitQueryInfoByPriority (want : Want) (flags userId : Z) : Call (option (AbilityInfo * ExtensionAbilityInfo))
| GetSandboxBundleInfo (bundleName : string) (appIndex userId : Z) : Call (Z + BundleInfo)
| GetAllDependentModuleNames (bundleName moduleName : string) : Call (option (list string)).
End Calls.
Arguments GetApplicationInfo {O Want PixelMap} _ _ _.
Arguments GetApplicationInfoWithIntFlags {O Want PixelMap} _ _ _.
Arguments GetApplicationInfos {O Want PixelMap} _ _.
Arguments GetApplicationInfosWithIntFlags {O Want PixelMap} _ _.
Arguments GetBundleInfo {O Want PixelMap} _ _ _.
Arguments GetBundleInfoWithIntFlags {O Want PixelMap} _ _ _.
Arguments GetBundlePackInfo {O Want PixelMap} _ _.
Arguments GetBundlePackInfoWithIntFlags {O Want PixelMap} _ _.
Arguments GetBundleInfos {O Want PixelMap} _ _.
Arguments GetBundleInfosWithIntFlags {O Want PixelMap} _ _.
Arguments GetUidByBundleName {O Want PixelMap} _ _.
Arguments GetAppIdByBundleName {O Want PixelMap} _ _.
Arguments GetBundleNameForUid {O Want PixelMap} _.
Arguments GetBundlesForUid {O Want PixelMap} _.
Arguments GetNameForUid {O Want PixelMap} _.
Arguments GetBundleGids {O Want PixelMap} _.
Arguments GetBundleGidsByUid {O Want PixelMap} _ _.
Arguments GetAppType {O Want PixelMap} _.
Arguments CheckIsSystemAppByUid {O Want PixelMap} _.
Arguments GetBundleInfosByMetaData {O Want PixelMap} _.
Arguments QueryAbilityInfo {O Want PixelMap} _.
Arguments QueryAbilityInfoWithCallback {O Want PixelMap} _ _ _ _.
Arguments UpgradeAtomicService {O Want PixelMap} _ _.
Arguments QueryAbilityInfoMutiparam {O Want PixelMap} _ _ _.
Arguments QueryAbilityInfos {O Want PixelMap} _.
Arguments QueryAbilityInfosMutiparam {O Want PixelMap} _ _ _.
Arguments QueryAllAbilityInfos {O Want PixelMap} _ _.
Arguments QueryAbilityInfosForClone {O Want PixelMap} _.
Arguments QueryAbilityInfoByUri {O Want PixelMap} _.
Arguments QueryAbilityInfosByUri {O Want PixelMap} _.
Arguments QueryAbilityInfoByUriForUserId {O Want PixelMap} _ _.
Arguments QueryKeepAliveBundleInfos {O Want PixelMap}.
Arguments GetAbilityLabel {O Want PixelMap} _ _.
Arguments GetAbilityLabelWithModuleName {O Want PixelMap} _ _ _.
Arguments GetBundleArchiveInfo {O Want PixelMap} _ _.
Arguments GetBundleArchiveInfoWithIntFlags {O Want PixelMap} _ _.
Arguments GetHapModuleInfo {O Want PixelMap} _.
Arguments GetHapModuleInfoWithUserId {O Want PixelMap} _ _.
Arguments GetLaunchWantForBundle {O Want PixelMap} _.
Arguments CheckPublicKeys {O Want PixelMap} _ _.
Arguments GetPermissionDef {O Want PixelMap} _.
Arguments HasSystemCapability {O Want PixelMap} _.
Arguments GetSystemAvailableCapabilities {O Want PixelMap}.
Arguments IsSafeMode {O Want PixelMap}.
Arguments CleanBundleCacheFiles {O Want PixelMap} _ _ _.
Arguments CleanBundleDataFiles {O Want PixelMap} _ _.
Arguments RegisterBundleStatusCallback {O Want PixelMap} _.
Arguments ClearBundleStatusCallback {O Want PixelMap} _.
Arguments UnregisterBundleStatusCallback {O Want PixelMap}.
Arguments DumpInfos {O Want PixelMap} _ _ _.
Arguments IsApplicationEnabled {O Want PixelMap} _.
Arguments IsModuleRemovable {O Want PixelMap} _ _.
Arguments SetModuleRemovable {O Want PixelMap} _ _ _.
Arguments GetModuleUpgradeFlag {O Want PixelMap} _ _.
Arguments SetModuleUpgradeFlag {O Want PixelMap} _ _ _.
Arguments SetApplicationEnabled {O Want PixelMap} _ _ _.
Arguments IsAbilityEnabled {O Want PixelMap} _.
Arguments SetAbilityEnabled {O Want PixelMap} _ _ _.
Arguments GetAbilityInfo {O Want PixelMap} _ _.
Arguments GetAbilityInfoWithModuleName {O Want PixelMap} _ _ _.
Arguments GetAbilityPixelMapIcon {O Want PixelMap} _ _.
Arguments GetAbilityPixelMapIconWithModuleName {O Want PixelMap} _ _ _.
Arguments GetBundleInstaller {O Want PixelMap}.
Arguments GetBundleUserMgr {O Want PixelMap}.
Arguments GetAllFormsInfo {O Want PixelMap}.
Arguments GetFormsInfoByApp {O Want PixelMap} _.
Arguments GetFormsInfoByModule {O Want PixelMap} _ _.
Arguments GetShortcutInfos {O Want PixelMap} _.
Arguments GetAllCommonEventInfo {O Want PixelMap} _.
Arguments CheckBundleNameInAllowList {O Want PixelMap} _.
Arguments BundleClone {O Want PixelMap} _.
Arguments RemoveClonedBundle {O Want PixelMap} _ _.
Arguments GetDistributedBundleInfo {O Want PixelMap} _ _.
Arguments GetAppPrivilegeLevel {O Want PixelMap} _ _.
Arguments QueryExtAbilityInfosWithoutType {O Want PixelMap} _ _ _.
Arguments QueryExtAbilityInfos {O Want PixelMap} _ _ _ _.
Arguments QueryExtAbilityInfosByType {O Want PixelMap} _ _.
Arguments VerifyCallingPermission {O Want PixelMap} _.
Arguments GetAccessibleAppCodePaths {O Want PixelMap} _.
Arguments QueryExtensionAbilityInfoByUri {O Want PixelMap} _ _.
Arguments ImplicitQueryInfoByPriority {O Want PixelMap} _ _ _.
Arguments GetSandboxBundleInfo {O Want PixelMap} _ _ _.
Arguments GetAllDependentModuleNames {O Want PixelMap} _ _.

(** ** The remote object *)

Section Ipc.
Context {P U O : Type} `{HP : Parcel P U O} `{HT : JsonText} `{HU : Uninit} `{HA : UninitAbilityType} `{HM : Ashmem}.
Context {Want PixelMap : Type} `{HW : !Parcelable Want} `{HX : !Parcelable PixelMap}.
Context {S : Type} (GetDescriptor : U) `{HD : EqDecision U}.
#[local] Abbreviation PM := (On P).
#[local] Abbreviation ICall := (Call O Want PixelMap).

(** An implementation of IBundleMgr. *)
Definition Service : Type := ∀ R, ICall R → S → R * S.

(** What a handler works on. *)
Record HostState := mkHostState { hs_data : P; hs_reply : P; hs_service : S }.
#[local] Abbreviation H := (On HostState).

Definition from_data {A} (m : PM A) : H A := λ h,
  let '(r, data) := m (hs_data h) in (r, mkHostState data (hs_reply h) (hs_service h)).

Definition with_code {St A} (code : Z) (m : On St A) : On St A := λ st,
  match m st with (Fail _, st) => (Fail code, st) | r => r end.
Definition from_data_or {A} (code : Z) (m : PM A) : H A := with_code code (from_data m).

Definition to_reply (code : Z) (m : PM ()) : H () := with_code code (λ h,
  let '(r, reply) := m (hs_reply h) in (r, mkHostState (hs_data h) reply (hs_service h))).
Definition put : PM () → H () := to_reply ERR_APPEXECFWK_PARCEL_ERROR.

(** [if (ret) { ... }] *)
Definition on_found {A} (r : option A) (k : A → H ()) : H () := match r with Some x => k x | None => mret () end.

(** A null pointer. *)
Definition or_null {St A} (m : On St A) : On St (option A) := or_default None (x ← m; mret (Some x)).

Definition WriteParcelableVector {T} `{!Parcelable T} (parcelableVector : list T) : PM () :=
  WriteInt32 (i32 (Z.of_nat (length parcelableVector))) ;;
  for_each (λ parcelable, WriteParcelable (Marshalling parcelable)) parcelableVector.

(** The texts of the values; an exception of the JSON library leaves. *)
Fixpoint dump_all (l : list json) : option (list string) :=
  match l with
  | [] => Some []
  | j :: l => match dump j, dump_all l with Some s, Some ss => Some (s :: ss) | _, _ => None end
  end.

(** One value in the shared memory: its length in sixteen bytes, its text. *)
Definition ashmem_entry (infoStr : string) : string :=
  memory_at (pretty (Z.of_nat (String.length infoStr))) (Z.to_nat ASHMEM_LEN) +:+ infoStr.

Definition WriteParcelableVectorIntoAshmem {T} `{ToJson T} (parcelableVector : list T) : PM () :=
  WriteInt32 (i32 (Z.of_nat (length parcelableVector))) ;;
  match dump_all (map to_json parcelableVector) with
  | None => throws
  | Some infoStrs =>
      let totalSize := foldl (λ n str, i32 (i32 (n + ASHMEM_LEN) + Z.of_nat (String.length str))) 0 infoStrs in
      if bool_decide (infoStrs = []) || (totalSize <=? 0) then fail FALSE
      else if negb (CreateAshmem totalSize) then fail FALSE
      else Write (IAshmem (String.concat "" (map ashmem_entry infoStrs)))
  end.

Section Host.
Context (impl : Service).

Definition serve {R} (c : ICall R) : H R := λ h,
  let '(r, s) := impl R c (hs_service h) in (Ok r, mkHostState (hs_data h) (hs_reply h) s).

(** ** BundleMgrHost *)

Definition HandleGetApplicationInfo : H () :=
  name ← from_data ReadString;
  flag ← from_data ReadInt32;
  userId ← from_data ReadInt32;
  ret ← serve (GetApplicationInfo name flag userId);
  put (WriteBool (found ret)) ;;
  on_found ret (λ info, put (WriteParcelable (Marshalling info))).

Definition HandleGetApplicationInfoWithIntFlags : H () :=
  name ← from_data ReadString;
  flags ← from_data ReadInt32;
  userId ← from_data ReadInt32;
  ret ← serve (GetApplicationInfoWithIntFlags name flags userId);
  put (WriteBool (found ret)) ;;
  on_found ret (λ info, put (WriteParcelable (Marshalling info))).

Definition HandleGetApplicationInfos : H () :=
  flag ← from_data ReadInt32;
  userId ← from_data ReadInt32;
  ret ← serve (GetApplicationInfos flag userId);
  put (WriteBool (found ret)) ;;
  on_found ret (λ infos, put (WriteParcelableVector infos)).

Definition HandleGetApplicationInfosWithIntFlags : H () :=
  flags ← from_data ReadInt32;
  userId ← from_data ReadInt32;
  ret ← serve (GetApplicationInfosWithIntFlags flags userId);
  put (WriteBool (found ret)) ;;
  on_found ret (λ infos, put (WriteParcelableVector infos)).

Definition HandleGetBundleInfo : H () :=
  name ← from_data ReadString;
  flag ← from_data ReadInt32;
  userId ← from_data ReadInt32;
  ret ← serve (GetBundleInfo name flag userId);
  put (WriteBool (found ret)) ;;
  on_found ret (λ info, put (WriteParcelable (Marshalling info))).

Definition HandleGetBundleInfoWithIntFlags : H () :=
  name ← from_data ReadString;
  flags ← from_data ReadInt32;
  userId ← from_data ReadInt32;
  ret ← serve (GetBundleInfoWithIntFlags name flags userId);
  put (WriteBool (found ret)) ;;
  on_found ret (λ info, put (WriteParcelable (Marshalling info))).

Definition HandleGetBundlePackInfo : H () :=
  name ← from_data ReadString;
  flag ← from_data ReadInt32;
  ret ← serve (GetBundlePackInfo name flag);
  put (WriteBool (found ret)) ;;
  on_found ret (λ info, put (WriteParcelable (Marshalling info))).

Definition HandleGetBundlePackInfoWithIntFlags : H () :=
  name ← from_data ReadString;
  flags ← from_data ReadInt32;
  ret ← serve (GetBundlePackInfoWithIntFlags name flags);
  put (WriteBool (found ret)) ;;
  on_found ret (λ info, put (WriteParcelable (Marshalling info))).

Definition HandleGetBundleInfos : H () :=
  flag ← from_data ReadInt32;
  userId ← from_data ReadInt32;
  ret ← serve (GetBundleInfos flag userId);
  put (WriteBool (found ret)) ;;
  on_found ret (λ infos, put (WriteParcelableVectorIntoAshmem infos)).

Definition HandleGetBundleInfosWithIntFlags : H () :=
  flags ← from_data ReadInt32;
  userId ← from_data ReadInt32;
  ret ← serve (GetBundleInfosWithIntFlags flags userId);
  put (WriteBool (found ret)) ;;
  on_found ret (λ infos, put (WriteParcelableVectorIntoAshmem infos)).

Definition HandleGetBundleNameForUid : H () :=
  uid ← from_data ReadInt32;
  ret ← serve (GetBundleNameForUid uid);
  put (WriteBool (found ret)) ;;
  on_found ret (λ name, put (WriteString name)).

Definition HandleGetBundlesForUid : H () :=
  uid ← from_data ReadInt32;
  ret ← serve (GetBundlesForUid uid);
  put (WriteBool (found ret)) ;;
  on_found ret (λ names, put (WriteStringVector names)).

Definition HandleGetNameForUid : H () :=
  uid ← from_data ReadInt32;
  ret ← serve (GetNameForUid uid);
  put (WriteBool (found ret)) ;;
  on_found ret (λ name, put (WriteString name)).

Definition HandleGetBundleGids : H () :=
  name ← from_data ReadString;
  ret ← serve (GetBundleGids name);
  put (WriteBool (found ret)) ;;
  on_found ret (λ gids, put (WriteInt32Vector gids)).

Definition HandleGetBundleGidsByUid : H () :=
  name ← from_data ReadString;
  uid ← from_data ReadInt32;
  ret ← serve (GetBundleGidsByUid name uid);
  put (WriteBool (found ret)) ;;
  on_found ret (λ gids, put (WriteInt32Vector gids)).

Definition HandleGetBundleInfosByMetaData : H () :=
  metaData ← from_data ReadString;
  ret ← serve (GetBundleInfosByMetaData metaData);
  put (WriteBool (found ret)) ;;
  on_found ret (λ infos, put (WriteParcelableVector infos)).

Definition HandleQueryAbilityInfo : H () :=
  want ← from_data_or ERR_APPEXECFWK_PARCEL_ERROR (ReadParcelable Unmarshalling);
  ret ← serve (QueryAbilityInfo want);
  put (WriteBool (found ret)) ;;
  on_found ret (λ info, put (WriteParcelable (Marshalling info))).

Definition HandleQueryAbilityInfoMutiparam : H () :=
  want ← from_data_or ERR_APPEXECFWK_PARCEL_ERROR (ReadParcelable Unmarshalling);
  flags ← from_data ReadInt32;
  userId ← from_data ReadInt32;
  ret ← serve (QueryAbilityInfoMutiparam want flags userId);
  put (WriteBool (found ret)) ;;
  on_found ret (λ info, put (WriteParcelable (Marshalling info))).

Definition HandleQueryAbilityInfos : H () :=
  want ← from_data_or ERR_APPEXECFWK_PARCEL_ERROR (ReadParcelable Unmarshalling);
  ret ← serve (QueryAbilityInfos want);
  put (WriteBool (found ret)) ;;
  on_found ret (λ abilityInfos, put (WriteParcelableVector abilityInfos)).

Definition HandleQueryAbilityInfosMutiparam : H () :=
  want ← from_data_or ERR_APPEXECFWK_PARCEL_ERROR (ReadParcelable Unmarshalling);
  flags ← from_data ReadInt32;
  userId ← from_data ReadInt32;
  ret ← serve (QueryAbilityInfosMutiparam want flags userId);
  put (WriteBool (found ret)) ;;
  on_found ret (λ abilityInfos, put (WriteParcelableVector abilityInfos)).

Definition HandleQueryAllAbilityInfos : H () :=
  want ← from_data_or ERR_APPEXECFWK_PARCEL_ERROR (ReadParcelable Unmarshalling);
  userId ← from_data ReadInt32;
  ret ← serve (QueryAllAbilityInfos want userId);
  put (WriteBool (found ret)) ;;
  on_found ret (λ abilityInfos, put (WriteParcelableVector abilityInfos)).

Definition HandleQueryAbilityInfosForClone : H () :=
  want ← from_data_or ERR_APPEXECFWK_PARCEL_ERROR (ReadParcelable Unmarshalling);
  ret ← serve (QueryAbilityInfosForClone want);
  put (WriteBool (found ret)) ;;
  on_found ret (λ abilityInfos, put (WriteParcelableVector abilityInfos)).

Definition HandleQueryAbilityInfoByUri : H () :=
  abilityUri ← from_data ReadString;
  ret ← serve (QueryAbilityInfoByUri abilityUri);
  put (WriteBool (found ret)) ;;
  on_found ret (λ info, put (WriteParcelable (Marshalling info))).

Definition HandleQueryAbilityInfosByUri : H () :=
  abilityUri ← from_data ReadString;
  ret ← serve (QueryAbilityInfosByUri abilityUri);
  put (WriteBool (found ret)) ;;
  on_found ret (λ abilityInfos, put (WriteParcelableVector abilityInfos)).

Definition HandleQueryAbilityInfoByUriForUserId : H () :=
  abilityUri ← from_data ReadString;
  userId ← from_data ReadInt32;
  ret ← serve (QueryAbilityInfoByUriForUserId abilityUri userId);
  put (WriteBool (found ret)) ;;
  on_found ret (λ info, put (WriteParcelable (Marshalling info))).

Definition HandleQueryKeepAliveBundleInfos : H () :=
  ret ← serve QueryKeepAliveBundleInfos;
  put (WriteBool (found ret)) ;;
  on_found ret (λ infos, put (WriteParcelableVector infos)).

Definition HandleGetAbilityLabel : H () :=
  bundleName ← from_data ReadString;
  abilityName ← from_data ReadString;
  label ← serve (GetAbilityLabel bundleName abilityName);
  put (WriteString label).

Definition HandleGetAbilityLabelWithModuleName : H () :=
  bundleName ← from_data ReadString;
  moduleName ← from_data ReadString;
  abilityName ← from_data ReadString;
  label ← serve (GetAbilityLabelWithModuleName bundleName moduleName abilityName);
  put (WriteString label).

Definition HandleCheckIsSystemAppByUid : H () :=
  uid ← from_data ReadInt32;
  ret ← serve (CheckIsSystemAppByUid uid);
  put (WriteBool ret).

Definition HandleGetBundleArchiveInfo : H () :=
  hapFilePath ← from_data ReadString;
  flag ← from_data ReadInt32;
  ret ← serve (GetBundleArchiveInfo hapFilePath flag);
  put (WriteBool (found ret)) ;;
  on_found ret (λ info, put (WriteParcelable (Marshalling info))).

Definition HandleGetBundleArchiveInfoWithIntFlags : H () :=
  hapFilePath ← from_data ReadString;
  flags ← from_data ReadInt32;
  ret ← serve (GetBundleArchiveInfoWithIntFlags hapFilePath flags);
  put (WriteBool (found ret)) ;;
  on_found ret (λ info, put (WriteParcelable (Marshalling info))).

Definition HandleGetHapModuleInfo : H () :=
  abilityInfo ← from_data_or ERR_APPEXECFWK_PARCEL_ERROR (ReadParcelable Unmarshalling);
  ret ← serve (GetHapModuleInfo abilityInfo);
  put (WriteBool (found ret)) ;;
  on_found ret (λ info, put (WriteParcelable (Marshalling info))).

Definition HandleGetHapModuleInfoWithUserId : H () :=
  abilityInfo ← from_data_or ERR_APPEXECFWK_PARCEL_ERROR (ReadParcelable Unmarshalling);
  userId ← from_data ReadInt32;
  ret ← serve (GetHapModuleInfoWithUserId abilityInfo userId);
  put (WriteBool (found ret)) ;;
  on_found ret (λ info, put (WriteParcelable (Marshalling info))).

Definition HandleGetLaunchWantForBundle : H () :=
  bundleName ← from_data ReadString;
  ret ← serve (GetLaunchWantForBundle bundleName);
  put (WriteBool (found ret)) ;;
  on_found ret (λ want, put (WriteParcelable (Marshalling want))).

Definition HandleCheckPublicKeys : H () :=
  firstBundleName ← from_data ReadString;
  secondBundleName ← from_data ReadString;
  ret ← serve (CheckPublicKeys firstBundleName secondBundleName);
  put (WriteInt32 ret).

Definition HandleGetPermissionDef : H () :=
  permissionName ← from_data ReadString;
  ret ← serve (GetPermissionDef permissionName);
  put (WriteBool (found ret)) ;;
  on_found ret (λ permissionDef, put (WriteParcelable (Marshalling permissionDef))).

Definition HandleHasSystemCapability : H () :=
  capName ← from_data ReadString;
  ret ← serve (HasSystemCapability capName);
  put (WriteBool ret).

Definition HandleGetSystemAvailableCapabilities : H () :=
  ret ← serve GetSystemAvailableCapabilities;
  put (WriteBool (found ret)) ;;
  on_found ret (λ caps, put (WriteStringVector caps)).

Definition HandleIsSafeMode : H () :=
  ret ← serve IsSafeMode;
  put (WriteBool ret).

Definition HandleCleanBundleCacheFiles : H () :=
  bundleName ← from_data ReadString;
  object ← from_data_or ERR_APPEXECFWK_PARCEL_ERROR ReadObject;
  userId ← from_data ReadInt32;
  ret ← serve (CleanBundleCacheFiles bundleName (Some object) userId);
  put (WriteBool ret).

Definition HandleCleanBundleDataFiles : H () :=
  bundleName ← from_data ReadString;
  userId ← from_data ReadInt32;
  ret ← serve (CleanBundleDataFiles bundleName userId);
  put (WriteBool ret).

Definition HandleRegisterBundleStatusCallback : H () :=
  bundleName ← from_data ReadString;
  object ← from_data_or ERR_APPEXECFWK_PARCEL_ERROR ReadObject;
  ret ← (if str_empty bundleName then mret false else serve (RegisterBundleStatusCallback (Some (object, bundleName))));
  put (WriteBool ret).

Definition HandleClearBundleStatusCallback : H () :=
  object ← from_data_or ERR_APPEXECFWK_PARCEL_ERROR ReadObject;
  ret ← serve (ClearBundleStatusCallback (Some object));
  put (WriteBool ret).

Definition HandleUnregisterBundleStatusCallback : H () :=
  ret ← serve UnregisterBundleStatusCallback;
  put (WriteBool ret).

Definition HandleDumpInfos : H () :=
  flag ← from_data ReadInt32;
  bundleName ← from_data ReadString;
  userId ← from_data ReadInt32;
  ret ← serve (DumpInfos flag bundleName userId);
  put (WriteBool (found ret)) ;;
  on_found ret (λ result, put (WriteStringVector (SplitString result))).

Definition HandleIsApplicationEnabled : H () :=
  bundleName ← from_data ReadString;
  ret ← serve (IsApplicationEnabled bundleName);
  put (WriteBool ret).

Definition HandleSetApplicationEnabled : H () :=
  bundleName ← from_data ReadString;
  isEnable ← from_data ReadBool;
  userId ← from_data ReadInt32;
  ret ← serve (SetApplicationEnabled bundleName isEnable userId);
  put (WriteBool ret).

Definition HandleIsAbilityEnabled : H () :=
  abilityInfo ← from_data_or ERR_APPEXECFWK_PARCEL_ERROR (ReadParcelable Unmarshalling);
  ret ← serve (IsAbilityEnabled abilityInfo);
  put (WriteBool ret).

Definition HandleSetAbilityEnabled : H () :=
  abilityInfo ← from_data_or ERR_APPEXECFWK_PARCEL_ERROR (ReadParcelable Unmarshalling);
  isEnabled ← from_data ReadBool;
  userId ← from_data ReadInt32;
  ret ← serve (SetAbilityEnabled abilityInfo isEnabled userId);
  put (WriteBool ret).

Definition HandleGetAbilityInfo : H () :=
  bundleName ← from_data ReadString;
  abilityName ← from_data ReadString;
  ret ← serve (GetAbilityInfo bundleName abilityName);
  put (WriteBool (found ret)) ;;
  on_found ret (λ info, put (WriteParcelable (Marshalling info))).

Definition HandleGetAbilityInfoWithModuleName : H () :=
  bundleName ← from_data ReadString;
  moduleName ← from_data ReadString;
  abilityName ← from_data ReadString;
  ret ← serve (GetAbilityInfoWithModuleName bundleName moduleName abilityName);
  put (WriteBool (found ret)) ;;
  on_found ret (λ info, put (WriteParcelable (Marshalling info))).

Definition HandleGetAbilityPixelMapIcon : H () :=
  bundleName ← from_data ReadString;
  abilityName ← from_data ReadString;
  pixelMap ← serve (GetAbilityPixelMapIcon bundleName abilityName);
  match pixelMap with
  | None => fail ERR_APPEXECFWK_PARCEL_ERROR
  | Some icon => put (WriteBool true) ;; put (WriteParcelable (Marshalling icon))
  end.

Definition HandleGetAbilityPixelMapIconWithModuleName : H () :=
  bundleName ← from_data ReadString;
  moduleName ← from_data ReadString;
  abilityName ← from_data ReadString;
  pixelMap ← serve (GetAbilityPixelMapIconWithModuleName bundleName moduleName abilityName);
  match pixelMap with
  | None => fail ERR_APPEXECFWK_PARCEL_ERROR
  | Some icon => put (WriteBool true) ;; put (WriteParcelable (Marshalling icon))
  end.

Definition HandleGetBundleInstaller : H () :=
  installer ← serve GetBundleInstaller;
  match installer with
  | None => fail ERR_APPEXECFWK_INSTALL_HOST_INSTALLER_FAILED
  | Some installer => put (WriteObject installer)
  end.

Definition HandleGetBundleUserMgr : H () :=
  bundleUserMgr ← serve GetBundleUserMgr;
  match bundleUserMgr with
  | None => fail ERR_APPEXECFWK_INSTALL_HOST_INSTALLER_FAILED
  | Some bundleUserMgr => put (WriteObject bundleUserMgr)
  end.

Definition HandleGetAllFormsInfo : H () :=
  ret ← serve GetAllFormsInfo;
  put (WriteBool (found ret)) ;;
  on_found ret (λ infos, put (WriteParcelableVector infos)).

Definition HandleGetFormsInfoByApp : H () :=
  bundlename ← from_data ReadString;
  ret ← serve (GetFormsInfoByApp bundlename);
  put (WriteBool (found ret)) ;;
  on_found ret (λ infos, put (WriteParcelableVector infos)).

Definition HandleGetFormsInfoByModule : H () :=
  bundlename ← from_data ReadString;
  modulename ← from_data ReadString;
  ret ← serve (GetFormsInfoByModule bundlename modulename);
  put (WriteBool (found ret)) ;;
  on_found ret (λ infos, put (WriteParcelableVector infos)).

Definition HandleGetShortcutInfos : H () :=
  bundlename ← from_data ReadString;
  ret ← serve (GetShortcutInfos bundlename);
  put (WriteBool (found ret)) ;;
  on_found ret (λ infos, put (WriteParcelableVector infos)).

Definition HandleGetAllCommonEventInfo : H () :=
  eventKey ← from_data ReadString;
  ret ← serve (GetAllCommonEventInfo eventKey);
  put (WriteBool (found ret)) ;;
  on_found ret (λ infos, put (WriteParcelableVector infos)).

Definition HandleCheckBundleNameInAllowList : H () :=
  bundleName ← from_data ReadString;
  ret ← serve (CheckBundleNameInAllowList bundleName);
  put (WriteBool ret).

Definition HandleBundleClone : H () :=
  bundleName ← from_data ReadString;
  ret ← serve (BundleClone bundleName);
  put (WriteBool ret).

Definition HandleRemoveClonedBundle : H () :=
  bundleName ← from_data ReadString;
  uid ← from_data ReadInt32;
  ret ← serve (RemoveClonedBundle bundleName uid);
  put (WriteBool ret).

Definition HandleGetDistributedBundleInfo : H () :=
  networkId ← from_data ReadString;
  bundleName ← from_data ReadString;
  ret ← serve (GetDistributedBundleInfo networkId bundleName);
  put (WriteBool (found ret)) ;;
  on_found ret (λ distributedBundleInfo, put (WriteParcelable (Marshalling distributedBundleInfo))).

Definition HandleGetAppPrivilegeLevel : H () :=
  bundleName ← from_data ReadString;
  userId ← from_data ReadInt32;
  ret ← serve (GetAppPrivilegeLevel bundleName userId);
  put (WriteString ret).

Definition HandleQueryExtAbilityInfosWithoutType : H () :=
  want ← from_data_or ERR_APPEXECFWK_PARCEL_ERROR (ReadParcelable Unmarshalling);
  flag ← from_data ReadInt32;
  userId ← from_data ReadInt32;
  ret ← serve (QueryExtAbilityInfosWithoutType want flag userId);
  put (WriteBool (found ret)) ;;
  on_found ret (λ infos, put (WriteParcelableVector infos)).

Definition HandleQueryExtAbilityInfos : H () :=
  want ← from_data_or ERR_APPEXECFWK_PARCEL_ERROR (ReadParcelable Unmarshalling);
  type ← from_data (n ← ReadInt32; enum_cast ExtensionAbilityType_of n);
  flag ← from_data ReadInt32;
  userId ← from_data ReadInt32;
  ret ← serve (QueryExtAbilityInfos want type flag userId);
  put (WriteBool (found ret)) ;;
  on_found ret (λ infos, put (WriteParcelableVector infos)).

Definition HandleQueryExtAbilityInfosByType : H () :=
  type ← from_data (n ← ReadInt32; enum_cast ExtensionAbilityType_of n);
  userId ← from_data ReadInt32;
  ret ← serve (QueryExtAbilityInfosByType type userId);
  put (WriteBool (found ret)) ;;
  on_found ret (λ infos, put (WriteParcelableVector infos)).

Definition HandleVerifyCallingPermission : H () :=
  permission ← from_data ReadString;
  ret ← serve (VerifyCallingPermission permission);
  put (WriteBool ret).

Definition HandleGetAccessibleAppCodePaths : H () :=
  userId ← from_data ReadInt32;
  vec ← serve (GetAccessibleAppCodePaths userId);
  put (WriteBool (negb (bool_decide (vec = [])))) ;;
  match vec with [] => mret () | _ => put (WriteStringVector vec) end.

Definition HandleQueryExtensionAbilityInfoByUri : H () :=
  uri ← from_data ReadString;
  userId ← from_data ReadInt32;
  ret ← serve (QueryExtensionAbilityInfoByUri uri userId);
  put (WriteBool (found ret)) ;;
  on_found ret (λ extensionAbilityInfo, put (WriteParcelable (Marshalling extensionAbilityInfo))).

Definition HandleGetAppIdByBundleName : H () :=
  bundleName ← from_data ReadString;
  userId ← from_data ReadInt32;
  appId ← serve (GetAppIdByBundleName bundleName userId);
  put (WriteString appId).

Definition HandleGetAppType : H () :=
  bundleName ← from_data ReadString;
  appType ← serve (GetAppType bundleName);
  put (WriteString appType).

Definition HandleGetUidByBundleName : H () :=
  bundleName ← from_data ReadString;
  userId ← from_data ReadInt32;
  uid ← serve (GetUidByBundleName bundleName userId);
  put (WriteInt32 uid).

Definition HandleIsModuleRemovable : H () :=
  bundleName ← from_data ReadString;
  moduleName ← from_data ReadString;
  ret ← serve (IsModuleRemovable bundleName moduleName);
  put (WriteBool ret).

Definition HandleSetModuleRemovable : H () :=
  bundleName ← from_data ReadString;
  moduleName ← from_data ReadString;
  isEnable ← from_data ReadBool;
  ret ← serve (SetModuleRemovable bundleName moduleName isEnable);
  put (WriteBool ret).

Definition HandleGetModuleUpgradeFlag : H () :=
  bundleName ← from_data ReadString;
  moduleName ← from_data ReadString;
  ret ← serve (GetModuleUpgradeFlag bundleName moduleName);
  put (WriteBool ret).

Definition HandleSetModuleUpgradeFlag : H () :=
  bundleName ← from_data ReadString;
  moduleName ← from_data ReadString;
  upgradeFlag ← from_data ReadInt32;
  ret ← serve (SetModuleUpgradeFlag bundleName moduleName upgradeFlag);
  put (WriteBool ret).

Definition HandleImplicitQueryInfoByPriority : H () :=
  want ← from_data_or ERR_APPEXECFWK_PARCEL_ERROR (ReadParcelable Unmarshalling);
  flags ← from_data ReadInt32;
  userId ← from_data ReadInt32;
  ret ← serve (ImplicitQueryInfoByPriority want flags userId);
  put (WriteBool (found ret)) ;;
  on_found ret (λ infos, put (WriteParcelable (Marshalling infos.1)) ;; put (WriteParcelable (Marshalling infos.2))).

Definition HandleGetAllDependentModuleNames : H () :=
  bundleName ← from_data ReadString;
  moduleName ← from_data ReadString;
  ret ← serve (GetAllDependentModuleNames bundleName moduleName);
  put (WriteBool (found ret)) ;;
  on_found ret (λ dependentModuleNames, put (WriteStringVector dependentModuleNames)).

Definition HandleGetSandboxBundleInfo : H () :=
  bundleName ← from_data ReadString;
  appIndex ← from_data ReadInt32;
  userId ← from_data ReadInt32;
  res ← serve (GetSandboxBundleInfo bundleName appIndex userId);
  to_reply ERR_APPEXECFWK_SANDBOX_INSTALL_WRITE_PARCEL_ERROR (WriteInt32 (error_code res)) ;;
  match res with
  | inr info => to_reply ERR_APPEXECFWK_SANDBOX_INSTALL_WRITE_PARCEL_ERROR (WriteParcelable (Marshalling info))
  | inl _ => mret ()
  end.

Definition HandleQueryAbilityInfoWithCallback : H () :=
  want ← from_data_or ERR_APPEXECFWK_PARCEL_ERROR (ReadParcelable Unmarshalling);
  flags ← from_data ReadInt32;
  userId ← from_data ReadInt32;
  object ← from_data (or_null ReadObject);
  ret ← serve (QueryAbilityInfoWithCallback want flags userId object);
  put (WriteBool (found ret)) ;;
  on_found ret (λ info, put (WriteParcelable (Marshalling info))).

Definition HandleUpgradeAtomicService : H () :=
  want ← from_data_or ERR_APPEXECFWK_PARCEL_ERROR (ReadParcelable Unmarshalling);
  userId ← from_data ReadInt32;
  serve (UpgradeAtomicService want userId).

Definition funcMap (code : Message) : H () :=
  match code with
  | GET_APPLICATION_INFO => HandleGetApplicationInfo
  | GET_APPLICATION_INFOS => HandleGetApplicationInfos
  | GET_BUNDLE_INFO => HandleGetBundleInfo
  | GET_BUNDLE_PACK_INFO => HandleGetBundlePackInfo
  | GET_BUNDLE_INFOS => HandleGetBundleInfos
  | GET_UID_BY_BUNDLE_NAME => HandleGetUidByBundleName
  | GET_APPID_BY_BUNDLE_NAME => HandleGetAppIdByBundleName
  | GET_BUNDLE_NAME_FOR_UID => HandleGetBundleNameForUid
  | GET_BUNDLES_FOR_UID => HandleGetBundlesForUid
  | GET_NAME_FOR_UID => HandleGetNameForUid
  | GET_BUNDLE_GIDS => HandleGetBundleGids
  | GET_BUNDLE_GIDS_BY_UID => HandleGetBundleGidsByUid
  | GET_APP_TYPE => HandleGetAppType
  | CHECK_IS_SYSTEM_APP_BY_UID => HandleCheckIsSystemAppByUid
  | GET_BUNDLE_INFOS_BY_METADATA => HandleGetBundleInfosByMetaData
  | QUERY_ABILITY_INFO => HandleQueryAbilityInfo
  | QUERY_ABILITY_INFOS => HandleQueryAbilityInfos
  | QUERY_ABILITY_INFOS_FOR_CLONE => HandleQueryAbilityInfosForClone
  | QUERY_ABILITY_INFO_BY_URI => HandleQueryAbilityInfoByUri
  | QUERY_ABILITY_INFOS_BY_URI => HandleQueryAbilityInfosByUri
  | QUERY_KEEPALIVE_BUNDLE_INFOS => HandleQueryKeepAliveBundleInfos
  | GET_ABILITY_LABEL => HandleGetAbilityLabel
  | GET_ABILITY_LABEL_WITH_MODULE_NAME => HandleGetAbilityLabelWithModuleName
  | GET_BUNDLE_ARCHIVE_INFO => HandleGetBundleArchiveInfo
  | GET_HAP_MODULE_INFO => HandleGetHapModuleInfo
  | GET_LAUNCH_WANT_FOR_BUNDLE => HandleGetLaunchWantForBundle
  | CHECK_PUBLICKEYS => HandleCheckPublicKeys
  | GET_PERMISSION_DEF => HandleGetAbilityLabel
  | HAS_SYSTEM_CAPABILITY => HandleHasSystemCapability
  | GET_SYSTEM_AVAILABLE_CAPABILITIES => HandleGetSystemAvailableCapabilities
  | IS_SAFE_MODE => HandleIsSafeMode
  | CLEAN_BUNDLE_CACHE_FILES => HandleCleanBundleCacheFiles
  | CLEAN_BUNDLE_DATA_FILES => HandleCleanBundleDataFiles
  | REGISTER_BUNDLE_STATUS_CALLBACK => HandleRegisterBundleStatusCallback
  | CLEAR_BUNDLE_STATUS_CALLBACK => HandleClearBundleStatusCallback
  | UNREGISTER_BUNDLE_STATUS_CALLBACK => HandleUnregisterBundleStatusCallback
  | DUMP_INFOS => HandleDumpInfos
  | IS_APPLICATION_ENABLED => HandleIsApplicationEnabled
  | SET_APPLICATION_ENABLED => HandleSetApplicationEnabled
  | IS_ABILITY_ENABLED => HandleIsAbilityEnabled
  | SET_ABILITY_ENABLED => HandleSetAbilityEnabled
  | GET_ABILITY_INFO => HandleGetAbilityInfo
  | GET_ABILITY_INFO_WITH_MODULE_NAME => HandleGetAbilityInfoWithModuleName
  | GET_ABILITY_PIXELMAP_ICON => HandleGetAbilityPixelMapIcon
  | GET_ABILITY_PIXELMAP_ICON_WITH_MODULE_NAME => HandleGetAbilityPixelMapIconWithModuleName
  | GET_ALL_FORMS_INFO => HandleGetAllFormsInfo
  | GET_FORMS_INFO_BY_APP => HandleGetFormsInfoByApp
  | GET_FORMS_INFO_BY_MODULE => HandleGetFormsInfoByModule
  | GET_SHORTCUT_INFO => HandleGetShortcutInfos
  | GET_ALL_COMMON_EVENT_INFO => HandleGetAllCommonEventInfo
  | GET_BUNDLE_INSTALLER => HandleGetBundleInstaller
  | REMOVE_CLONED_BUNDLE => HandleRemoveClonedBundle
  | BUNDLE_CLONE => HandleBundleClone
  | CHECK_BUNDLE_NAME_IN_ALLOWLIST => HandleCheckBundleNameInAllowList
  | QUERY_ABILITY_INFO_MUTI_PARAM => HandleQueryAbilityInfoMutiparam
  | QUERY_ABILITY_INFOS_MUTI_PARAM => HandleQueryAbilityInfosMutiparam
  | QUERY_ALL_ABILITY_INFOS => HandleQueryAllAbilityInfos
  | GET_APPLICATION_INFO_WITH_INT_FLAGS => HandleGetApplicationInfoWithIntFlags
  | GET_APPLICATION_INFOS_WITH_INT_FLAGS => HandleGetApplicationInfosWithIntFlags
  | GET_BUNDLE_INFO_WITH_INT_FLAGS => HandleGetBundleInfoWithIntFlags
  | GET_BUNDLE_PACK_INFO_WITH_INT_FLAGS => HandleGetBundlePackInfoWithIntFlags
  | GET_BUNDLE_INFOS_WITH_INT_FLAGS => HandleGetBundleInfosWithIntFlags
  | GET_BUNDLE_ARCHIVE_INFO_WITH_INT_FLAGS => HandleGetBundleArchiveInfoWithIntFlags
  | GET_BUNDLE_USER_MGR => HandleGetBundleUserMgr
  | GET_DISTRIBUTE_BUNDLE_INFO => HandleGetDistributedBundleInfo
  | QUERY_ABILITY_INFO_BY_URI_FOR_USERID => HandleQueryAbilityInfoByUriForUserId
  | GET_APPLICATION_PRIVILEGE_LEVEL => HandleGetAppPrivilegeLevel
  | QUERY_EXTENSION_INFO_WITHOUT_TYPE => HandleQueryExtAbilityInfosWithoutType
  | QUERY_EXTENSION_INFO => HandleQueryExtAbilityInfos
  | QUERY_EXTENSION_INFO_BY_TYPE => HandleQueryExtAbilityInfosByType
  | VERIFY_CALLING_PERMISSION => HandleVerifyCallingPermission
  | GET_ACCESSIBLE_APP_CODE_PATH => HandleGetAccessibleAppCodePaths
  | QUERY_EXTENSION_ABILITY_INFO_BY_URI => HandleQueryExtensionAbilityInfoByUri
  | IS_MODULE_REMOVABLE => HandleIsModuleRemovable
  | SET_MODULE_REMOVABLE => HandleSetModuleRemovable
  | QUERY_ABILITY_INFO_WITH_CALLBACK => HandleQueryAbilityInfoWithCallback
  | UPGRADE_ATOMIC_SERVICE => HandleUpgradeAtomicService
  | IS_MODULE_NEED_UPDATE => HandleGetModuleUpgradeFlag
  | SET_MODULE_NEED_UPDATE => HandleSetModuleUpgradeFlag
  | GET_HAP_MODULE_INFO_WITH_USERID => HandleGetHapModuleInfoWithUserId
  | IMPLICIT_QUERY_INFO_BY_PRIORITY => HandleImplicitQueryInfoByPriority
  | GET_ALL_DEPENDENT_MODULE_NAMES => HandleGetAllDependentModuleNames
  | GET_SANDBOX_APP_BUNDLE_INFO => HandleGetSandboxBundleInfo
  end.

Definition NO_ERROR : Z := 0.
Definition UNKNOWN_ERROR : Z := -1.
Definition OBJECT_NULL : Z := -2.

(** The answer to a request: the reply and the result; an exception ends the
    service. *)
Definition OnRemoteRequest (code : Message) (data : P) : On S (P * Z) := λ s,
  match ReadInterfaceToken data with
  | (Throws, _) => (Throws, s)
  | (Fail _, _) => (Ok (new_parcel, OBJECT_NULL), s)
  | (Ok remoteDescripter, data) =>
      if decide (remoteDescripter = GetDescriptor) then
        match funcMap code (mkHostState data new_parcel s) with
        | (Throws, h) => (Throws, hs_service h)
        | (Ok _, h) => (Ok (hs_reply h, NO_ERROR), hs_service h)
        | (Fail errCode, h) =>
            (Ok (hs_reply h, if errCode =? ERR_OK then NO_ERROR else UNKNOWN_ERROR), hs_service h)
        end
      else (Ok (new_parcel, OBJECT_NULL), s)
  end.
End Host.

(** ** BundleMgrProxy *)

Section Proxy.
Context (remote : option (Message → P → On S (P * Z))).

(** Writing a request into a new parcel. *)
Definition request (m : PM ()) : On S P := λ s,
  match m new_parcel with
  | (Ok _, data) => (Ok data, s)
  | (Fail code, _) => (Fail code, s)
  | (Throws, _) => (Throws, s)
  end.

Definition SendTransactCmd (code : Message) (data : P) : On S P :=
  match remote with
  | None => fail FALSE
  | Some SendRequest => λ s,
      match SendRequest code data s with
      | (Ok (reply, result), s) => if result =? NO_ERROR then (Ok reply, s) else (Fail FALSE, s)
      | (_, s) => (Fail FALSE, s)
      end
  end.

Definition parse_reply {A} (m : PM A) (reply : P) : On S A := λ s, ((m reply).1, s).

(** Writes the request, sends it and reads the reply; [d] is returned when
    one of these fails. *)
Definition transact {A} (d : A) (code : Message) (m : PM ()) (read : PM A) : On S A :=
  or_default d (data ← request m; reply ← SendTransactCmd code data; parse_reply read reply).

(** GetParcelableInfo and the functions like it: a flag, then the value. *)
Definition reply_found {A} (m : PM A) : PM (option A) :=
  ret ← ReadBool; if negb ret then mret None else (x ← m; mret (Some x)).

(** GetParcelableInfos *)
Definition read_infos {T} `{!Parcelable T} : PM (list T) :=
  infoSize ← ReadInt32; repeat_read (Z.to_nat infoSize) (ReadParcelable Unmarshalling).

Definition GetParcelableInfoWithErrCode {T} `{!Parcelable T} : PM (Z + T) :=
  res ← ReadInt32; if res =? ERR_OK then (info ← ReadParcelable Unmarshalling; mret (inr info)) else mret (inl res).

(** [strncpy_s] stops at a NUL character. *)
Definition ParseStr (buf : string) (itemLen : Z) (index : nat) : option string :=
  if itemLen <=? 0 then None else Some (c_str (String.substring index (Z.to_nat itemLen) buf)).

Fixpoint read_ashmem {T} (get : json → M T) (dataStr : string) (infoSize : nat) (offset : nat) : result (list T) :=
  match infoSize with
  | Datatypes.O => Ok []
  | Datatypes.S infoSize =>
      match ParseStr dataStr ASHMEM_LEN offset with
      | None => Fail FALSE
      | Some lenStr =>
          let strLen := atoi lenStr in
          let offset := (offset + Z.to_nat ASHMEM_LEN)%nat in
          match ParseStr dataStr strLen offset with
          | None => Fail FALSE
          | Some infoStr =>
              match parse infoStr with
              | None => Fail FALSE
              | Some jsonObject =>
                  match get jsonObject (mkParseState ERR_OK ERR_OK) with
                  | None => Throws
                  | Some (info, _) =>
                      match read_ashmem get dataStr infoSize (offset + Z.to_nat strLen)%nat with
                      | Ok infos => Ok (info :: infos)
                      | r => r
                      end
                  end
              end
          end
      end
  end.

Definition of_result {A} (r : result A) : PM A := λ p, (r, p).

Definition GetParcelableInfosFromAshmem {T} (get : json → M T) : PM (list T) :=
  infoSize ← ReadInt32;
  dataStr ← ReadAshmem;
  of_result (read_ashmem get dataStr (Z.to_nat infoSize) 0).

Definition Proxy_GetApplicationInfo (appName : string) (flag userId : Z) : On S (option ApplicationInfo) :=
  if str_empty appName then mret None
  else
    transact None GET_APPLICATION_INFO
      (WriteInterfaceToken GetDescriptor ;; WriteString appName ;; WriteInt32 flag ;; WriteInt32 userId)
      (reply_found (ReadParcelable Unmarshalling)).

Definition Proxy_GetApplicationInfoWithIntFlags (appName : string) (flags userId : Z) : On S (option
    ApplicationInfo) :=
  if str_empty appName then mret None
  else
    transact None GET_APPLICATION_INFO_WITH_INT_FLAGS
      (WriteInterfaceToken GetDescriptor ;; WriteString appName ;; WriteInt32 flags ;; WriteInt32 userId)
      (reply_found (ReadParcelable Unmarshalling)).

Definition Proxy_GetApplicationInfos (flag userId : Z) : On S (option (list ApplicationInfo)) :=
  transact None GET_APPLICATION_INFOS
    (WriteInterfaceToken GetDescriptor ;; WriteInt32 flag ;; WriteInt32 userId)
    (reply_found read_infos).

Definition Proxy_GetApplicationInfosWithIntFlags (flags userId : Z) : On S (option (list ApplicationInfo)) :=
  transact None GET_APPLICATION_INFOS_WITH_INT_FLAGS
    (WriteInterfaceToken GetDescriptor ;; WriteInt32 flags ;; WriteInt32 userId)
    (reply_found read_infos).

Definition Proxy_GetBundleInfo (bundleName : string) (flag userId : Z) : On S (option BundleInfo) :=
  if str_empty bundleName then mret None
  else
    transact None GET_BUNDLE_INFO
      (WriteInterfaceToken GetDescriptor ;; WriteString bundleName ;; WriteInt32 flag ;; WriteInt32 userId)
      (reply_found (ReadParcelable Unmarshalling)).

Definition Proxy_GetBundleInfoWithIntFlags (bundleName : string) (flags userId : Z) : On S (option BundleInfo)
    :=
  if str_empty bundleName then mret None
  else
    transact None GET_BUNDLE_INFO_WITH_INT_FLAGS
      (WriteInterfaceToken GetDescriptor ;; WriteString bundleName ;; WriteInt32 flags ;; WriteInt32 userId)
      (reply_found (ReadParcelable Unmarshalling)).

Definition Proxy_GetBundlePackInfo (bundleName : string) (flag : Z) : On S (option BundlePackInfo) :=
  if str_empty bundleName then mret None
  else
    transact None GET_BUNDLE_PACK_INFO
      (WriteInterfaceToken GetDescriptor ;; WriteString bundleName ;; WriteInt32 flag)
      (reply_found (ReadParcelable Unmarshalling)).

Definition Proxy_GetBundlePackInfoWithIntFlags (bundleName : string) (flags : Z) : On S (option BundlePackInfo)
    :=
  if str_empty bundleName then mret None
  else
    transact None GET_BUNDLE_PACK_INFO_WITH_INT_FLAGS
      (WriteInterfaceToken GetDescriptor ;; WriteString bundleName ;; WriteInt32 flags)
      (reply_found (ReadParcelable Unmarshalling)).

Definition Proxy_GetBundleInfos (flag userId : Z) : On S (option (list BundleInfo)) :=
  transact None GET_BUNDLE_INFOS
    (WriteInterfaceToken GetDescriptor ;; WriteInt32 flag ;; WriteInt32 userId)
    (reply_found (GetParcelableInfosFromAshmem get_BundleInfo)).

Definition Proxy_GetBundleInfosWithIntFlags (flags userId : Z) : On S (option (list BundleInfo)) :=
  transact None GET_BUNDLE_INFOS_WITH_INT_FLAGS
    (WriteInterfaceToken GetDescriptor ;; WriteInt32 flags ;; WriteInt32 userId)
    (reply_found (GetParcelableInfosFromAshmem get_BundleInfo)).

Definition Proxy_GetUidByBundleName (bundleName : string) (userId : Z) : On S Z :=
  if str_empty bundleName then mret INVALID_UID
  else
    transact INVALID_UID GET_UID_BY_BUNDLE_NAME
      (WriteInterfaceToken GetDescriptor ;; WriteString bundleName ;; WriteInt32 userId)
      ReadInt32.

Definition Proxy_GetAppIdByBundleName (bundleName : string) (userId : Z) : On S string :=
  if str_empty bundleName then mret ""
  else
    transact "" GET_APPID_BY_BUNDLE_NAME
      (WriteInterfaceToken GetDescriptor ;; WriteString bundleName ;; WriteInt32 userId)
      ReadString.

Definition Proxy_GetBundleNameForUid (uid : Z) : On S (option string) :=
  transact None GET_BUNDLE_NAME_FOR_UID
    (WriteInterfaceToken GetDescriptor ;; WriteInt32 uid)
    (reply_found ReadString).

Definition Proxy_GetBundlesForUid (uid : Z) : On S (option (list string)) :=
  transact None GET_BUNDLES_FOR_UID
    (WriteInterfaceToken GetDescriptor ;; WriteInt32 uid)
    (reply_found ReadStringVector).

Definition Proxy_GetNameForUid (uid : Z) : On S (option string) :=
  transact None GET_NAME_FOR_UID (WriteInterfaceToken GetDescriptor ;; WriteInt32 uid) (reply_found ReadString).

Definition Proxy_GetBundleGids (bundleName : string) : On S (option (list Z)) :=
  transact None GET_BUNDLE_GIDS
    (WriteInterfaceToken GetDescriptor ;; WriteString bundleName)
    (reply_found ReadInt32Vector).

Definition Proxy_GetBundleGidsByUid (bundleName : string) (uid : Z) : On S (option (list Z)) :=
  transact None GET_BUNDLE_GIDS_BY_UID
    (WriteInterfaceToken GetDescriptor ;; WriteString bundleName ;; WriteInt32 uid)
    (reply_found ReadInt32Vector).

Definition Proxy_GetAppType (bundleName : string) : On S string :=
  if str_empty bundleName then mret ""
  else
    transact "" GET_APP_TYPE (WriteInterfaceToken GetDescriptor ;; WriteString bundleName) ReadString.

Definition Proxy_CheckIsSystemAppByUid (uid : Z) : On S bool :=
  transact false CHECK_IS_SYSTEM_APP_BY_UID (WriteInterfaceToken GetDescriptor ;; WriteInt32 uid) ReadBool.

Definition Proxy_GetBundleInfosByMetaData (metaData : string) : On S (option (list BundleInfo)) :=
  if str_empty metaData then mret None
  else
    transact None GET_BUNDLE_INFOS_BY_METADATA
      (WriteInterfaceToken GetDescriptor ;; WriteString metaData)
      (reply_found read_infos).

Definition Proxy_QueryAbilityInfo (want : Want) : On S (option AbilityInfo) :=
  transact None QUERY_ABILITY_INFO
    (WriteInterfaceToken GetDescriptor ;; WriteParcelable (Marshalling want))
    (reply_found (ReadParcelable Unmarshalling)).

Definition Proxy_QueryAbilityInfoWithCallback (want : Want) (flags userId : Z) (callBack : option O) :
  On S (option AbilityInfo) :=
  transact None QUERY_ABILITY_INFO_WITH_CALLBACK
    (WriteInterfaceToken GetDescriptor ;; WriteParcelable (Marshalling want) ;; WriteInt32 flags ;; WriteInt32 userId ;;
     match callBack with Some object => WriteObject object | None => fail FALSE end)
    (reply_found (ReadParcelable Unmarshalling)).

Definition Proxy_UpgradeAtomicService (want : Want) (userId : Z) : On S () :=
  _ ← or_null (request (WriteInterfaceToken GetDescriptor ;; WriteParcelable (Marshalling want) ;; WriteInt32 userId));
  mret ().

Definition Proxy_QueryAbilityInfoMutiparam (want : Want) (flags userId : Z) : On S (option AbilityInfo) :=
  transact None QUERY_ABILITY_INFO_MUTI_PARAM
    (WriteInterfaceToken GetDescriptor ;;
     WriteParcelable (Marshalling want) ;;
     WriteInt32 flags ;;
     WriteInt32 userId)
    (reply_found (ReadParcelable Unmarshalling)).

Definition Proxy_QueryAbilityInfos (want : Want) : On S (option (list AbilityInfo)) :=
  transact None QUERY_ABILITY_INFOS
    (WriteInterfaceToken GetDescriptor ;; WriteParcelable (Marshalling want))
    (reply_found read_infos).

Definition Proxy_QueryAbilityInfosMutiparam (want : Want) (flags userId : Z) : On S (option (list AbilityInfo))
    :=
  transact None QUERY_ABILITY_INFOS_MUTI_PARAM
    (WriteInterfaceToken GetDescriptor ;;
     WriteParcelable (Marshalling want) ;;
     WriteInt32 flags ;;
     WriteInt32 userId)
    (reply_found read_infos).

Definition Proxy_QueryAllAbilityInfos (want : Want) (userId : Z) : On S (option (list AbilityInfo)) :=
  transact None QUERY_ALL_ABILITY_INFOS
    (WriteInterfaceToken GetDescriptor ;; WriteParcelable (Marshalling want) ;; WriteInt32 userId)
    (reply_found read_infos).

Definition Proxy_QueryAbilityInfosForClone (want : Want) : On S (option (list AbilityInfo)) :=
  transact None QUERY_ABILITY_INFOS_FOR_CLONE
    (WriteInterfaceToken GetDescriptor ;; WriteParcelable (Marshalling want))
    (reply_found read_infos).

Definition Proxy_QueryAbilityInfoByUri (abilityUri : string) : On S (option AbilityInfo) :=
  transact None QUERY_ABILITY_INFO_BY_URI
    (WriteInterfaceToken GetDescriptor ;; WriteString abilityUri)
    (reply_found (ReadParcelable Unmarshalling)).

Definition Proxy_QueryAbilityInfosByUri (abilityUri : string) : On S (option (list AbilityInfo)) :=
  transact None QUERY_ABILITY_INFOS_BY_URI
    (WriteInterfaceToken GetDescriptor ;; WriteString abilityUri)
    (reply_found read_infos).

Definition Proxy_QueryAbilityInfoByUriForUserId (abilityUri : string) (userId : Z) : On S (option AbilityInfo)
    :=
  transact None QUERY_ABILITY_INFO_BY_URI_FOR_USERID
    (WriteInterfaceToken GetDescriptor ;; WriteString abilityUri ;; WriteInt32 userId)
    (reply_found (ReadParcelable Unmarshalling)).

Definition Proxy_QueryKeepAliveBundleInfos : On S (option (list BundleInfo)) :=
  transact None QUERY_KEEPALIVE_BUNDLE_INFOS (WriteInterfaceToken GetDescriptor) (reply_found read_infos).

Definition Proxy_GetAbilityLabel (bundleName abilityName : string) : On S string :=
  if str_empty bundleName || str_empty abilityName then mret ""
  else
    transact "" GET_ABILITY_LABEL
      (WriteInterfaceToken GetDescriptor ;; WriteString bundleName ;; WriteString abilityName)
      ReadString.

Definition Proxy_GetAbilityLabelWithModuleName (bundleName moduleName abilityName : string) : On S string :=
  if str_empty bundleName || str_empty moduleName || str_empty abilityName then mret ""
  else
    transact "" GET_ABILITY_LABEL_WITH_MODULE_NAME
      (WriteInterfaceToken GetDescriptor ;;
       WriteString bundleName ;;
       WriteString moduleName ;;
       WriteString abilityName)
      ReadString.

Definition Proxy_GetBundleArchiveInfo (hapFilePath : string) (flag : Z) : On S (option BundleInfo) :=
  if str_empty hapFilePath then mret None
  else
    transact None GET_BUNDLE_ARCHIVE_INFO
      (WriteInterfaceToken GetDescriptor ;; WriteString hapFilePath ;; WriteInt32 flag)
      (reply_found (ReadParcelable Unmarshalling)).

Definition Proxy_GetBundleArchiveInfoWithIntFlags (hapFilePath : string) (flags : Z) : On S (option BundleInfo)
    :=
  if str_empty hapFilePath then mret None
  else
    transact None GET_BUNDLE_ARCHIVE_INFO_WITH_INT_FLAGS
      (WriteInterfaceToken GetDescriptor ;; WriteString hapFilePath ;; WriteInt32 flags)
      (reply_found (ReadParcelable Unmarshalling)).

Definition Proxy_GetHapModuleInfo (abilityInfo : AbilityInfo) : On S (option HapModuleInfo) :=
  if str_empty (ai_bundleName abilityInfo) || str_empty (ai_package abilityInfo) then mret None
  else
    transact None GET_HAP_MODULE_INFO
      (WriteInterfaceToken GetDescriptor ;; WriteParcelable (Marshalling abilityInfo))
      (reply_found (ReadParcelable Unmarshalling)).

Definition Proxy_GetHapModuleInfoWithUserId (abilityInfo : AbilityInfo) (userId : Z) : On S (option
    HapModuleInfo) :=
  if str_empty (ai_bundleName abilityInfo) || str_empty (ai_package abilityInfo) then mret None
  else
    transact None GET_HAP_MODULE_INFO_WITH_USERID
      (WriteInterfaceToken GetDescriptor ;; WriteParcelable (Marshalling abilityInfo) ;; WriteInt32 userId)
      (reply_found (ReadParcelable Unmarshalling)).

Definition Proxy_GetLaunchWantForBundle (bundleName : string) : On S (option Want) :=
  if str_empty bundleName then mret None
  else
    transact None GET_LAUNCH_WANT_FOR_BUNDLE
      (WriteInterfaceToken GetDescriptor ;; WriteString bundleName)
      (reply_found (ReadParcelable Unmarshalling)).

Definition Proxy_CheckPublicKeys (firstBundleName secondBundleName : string) : On S Z :=
  if str_empty firstBundleName || str_empty secondBundleName then mret SIGNATURE_UNKNOWN_BUNDLE
  else
    transact SIGNATURE_UNKNOWN_BUNDLE CHECK_PUBLICKEYS
      (WriteInterfaceToken GetDescriptor ;; WriteString firstBundleName ;; WriteString secondBundleName)
      ReadInt32.

Definition Proxy_GetPermissionDef (permissionName : string) : On S (option PermissionDef) :=
  if str_empty permissionName then mret None
  else
    transact None GET_PERMISSION_DEF
      (WriteInterfaceToken GetDescriptor ;; WriteString permissionName)
      (reply_found (ReadParcelable Unmarshalling)).

Definition Proxy_HasSystemCapability (capName : string) : On S bool :=
  if str_empty capName then mret false
  else
    transact false HAS_SYSTEM_CAPABILITY (WriteInterfaceToken GetDescriptor ;; WriteString capName) ReadBool.

Definition Proxy_GetSystemAvailableCapabilities : On S (option (list string)) :=
  transact None GET_SYSTEM_AVAILABLE_CAPABILITIES
    (WriteInterfaceToken GetDescriptor)
    (x ← ReadStringVector; mret (Some x)).

Definition Proxy_IsSafeMode : On S bool :=
  transact false IS_SAFE_MODE (WriteInterfaceToken GetDescriptor) ReadBool.

Definition Proxy_CleanBundleCacheFiles (bundleName : string) (cleanCacheCallback : option O) (userId : Z) :
  On S bool :=
  if str_empty bundleName then mret false
  else
    match cleanCacheCallback with
    | None => mret false
    | Some cleanCacheCallback =>
        transact false CLEAN_BUNDLE_CACHE_FILES
          (WriteInterfaceToken GetDescriptor ;; WriteString bundleName ;; WriteObject cleanCacheCallback ;; WriteInt32 userId)
          ReadBool
    end.

Definition Proxy_CleanBundleDataFiles (bundleName : string) (userId : Z) : On S bool :=
  if str_empty bundleName then mret false
  else
    transact false CLEAN_BUNDLE_DATA_FILES
      (WriteInterfaceToken GetDescriptor ;; WriteString bundleName ;; WriteInt32 userId)
      ReadBool.

Definition Proxy_RegisterBundleStatusCallback (bundleStatusCallback : option (O * string)) : On S bool :=
  match bundleStatusCallback with
  | None => mret false
  | Some (object, bundleName) =>
      if str_empty bundleName then mret false
      else
        transact false REGISTER_BUNDLE_STATUS_CALLBACK
          (WriteInterfaceToken GetDescriptor ;; WriteString bundleName ;; WriteObject object) ReadBool
  end.

Definition Proxy_ClearBundleStatusCallback (bundleStatusCallback : option O) : On S bool :=
  match bundleStatusCallback with
  | None => mret false
  | Some object =>
      transact false CLEAR_BUNDLE_STATUS_CALLBACK (WriteInterfaceToken GetDescriptor ;; WriteObject object) ReadBool
  end.

Definition Proxy_UnregisterBundleStatusCallback : On S bool :=
  transact false UNREGISTER_BUNDLE_STATUS_CALLBACK (WriteInterfaceToken GetDescriptor) ReadBool.

Definition Proxy_DumpInfos (flag : Z) (bundleName : string) (userId : Z) : On S (option string) :=
  transact None DUMP_INFOS
    (WriteInterfaceToken GetDescriptor ;; WriteInt32 flag ;; WriteString bundleName ;; WriteInt32 userId)
    (dumpInfos ← reply_found ReadStringVector; mret (String.concat "" <$> dumpInfos)).

Definition Proxy_IsApplicationEnabled (bundleName : string) : On S bool :=
  if str_empty bundleName then mret false
  else
    transact false IS_APPLICATION_ENABLED (WriteInterfaceToken GetDescriptor ;; WriteString bundleName) ReadBool.

Definition Proxy_IsModuleRemovable (bundleName moduleName : string) : On S bool :=
  if str_empty bundleName || str_empty moduleName then mret false
  else
    transact false IS_MODULE_REMOVABLE
      (WriteInterfaceToken GetDescriptor ;; WriteString bundleName ;; WriteString moduleName)
      ReadBool.

Definition Proxy_SetModuleRemovable (bundleName moduleName : string) (isEnable : bool) : On S bool :=
  if str_empty bundleName || str_empty moduleName then mret false
  else
    transact false SET_MODULE_REMOVABLE
      (WriteInterfaceToken GetDescriptor ;; WriteString bundleName ;; WriteString moduleName ;; WriteBool isEnable)
      ReadBool.

Definition Proxy_GetModuleUpgradeFlag (bundleName moduleName : string) : On S bool :=
  if str_empty bundleName || str_empty moduleName then mret false
  else
    transact false IS_MODULE_NEED_UPDATE
      (WriteInterfaceToken GetDescriptor ;; WriteString bundleName ;; WriteString moduleName)
      ReadBool.

Definition Proxy_SetModuleUpgradeFlag (bundleName moduleName : string) (upgradeFlag : Z) : On S bool :=
  if str_empty bundleName || str_empty moduleName then mret false
  else
    transact false SET_MODULE_NEED_UPDATE
      (WriteInterfaceToken GetDescriptor ;;
       WriteString bundleName ;;
       WriteString moduleName ;;
       WriteInt32 upgradeFlag)
      ReadBool.

Definition Proxy_SetApplicationEnabled (bundleName : string) (isEnable : bool) (userId : Z) : On S bool :=
  if str_empty bundleName then mret false
  else
    transact false SET_APPLICATION_ENABLED
      (WriteInterfaceToken GetDescriptor ;; WriteString bundleName ;; WriteBool isEnable ;; WriteInt32 userId)
      ReadBool.

Definition Proxy_IsAbilityEnabled (abilityInfo : AbilityInfo) : On S bool :=
  if str_empty (ai_name abilityInfo) then mret false
  else
    transact false IS_ABILITY_ENABLED
      (WriteInterfaceToken GetDescriptor ;; WriteParcelable (Marshalling abilityInfo))
      ReadBool.

Definition Proxy_SetAbilityEnabled (abilityInfo : AbilityInfo) (isEnabled : bool) (userId : Z) : On S bool :=
  if str_empty (ai_name abilityInfo) then mret false
  else
    transact false SET_ABILITY_ENABLED
      (WriteInterfaceToken GetDescriptor ;;
       WriteParcelable (Marshalling abilityInfo) ;;
       WriteBool isEnabled ;;
       WriteInt32 userId)
      ReadBool.

Definition Proxy_GetAbilityInfo (bundleName abilityName : string) : On S (option AbilityInfo) :=
  if str_empty bundleName || str_empty abilityName then mret None
  else
    transact None GET_ABILITY_INFO
      (WriteInterfaceToken GetDescriptor ;; WriteString bundleName ;; WriteString abilityName)
      (reply_found (ReadParcelable Unmarshalling)).

Definition Proxy_GetAbilityInfoWithModuleName (bundleName moduleName abilityName : string) : On S (option
    AbilityInfo) :=
  if str_empty bundleName || str_empty moduleName || str_empty abilityName then mret None
  else
    transact None GET_ABILITY_INFO_WITH_MODULE_NAME
      (WriteInterfaceToken GetDescriptor ;;
       WriteString bundleName ;;
       WriteString moduleName ;;
       WriteString abilityName)
      (reply_found (ReadParcelable Unmarshalling)).

Definition Proxy_GetAbilityPixelMapIcon (bundleName abilityName : string) : On S (option PixelMap) :=
  if str_empty bundleName || str_empty abilityName then mret None
  else
    transact None GET_ABILITY_PIXELMAP_ICON
      (WriteInterfaceToken GetDescriptor ;; WriteString bundleName ;; WriteString abilityName)
      (reply_found (ReadParcelable Unmarshalling)).

Definition Proxy_GetAbilityPixelMapIconWithModuleName (bundleName moduleName abilityName : string) : On S
    (option PixelMap) :=
  if str_empty bundleName || str_empty moduleName || str_empty abilityName then mret None
  else
    transact None GET_ABILITY_PIXELMAP_ICON_WITH_MODULE_NAME
      (WriteInterfaceToken GetDescriptor ;;
       WriteString bundleName ;;
       WriteString moduleName ;;
       WriteString abilityName)
      (reply_found (ReadParcelable Unmarshalling)).

Definition Proxy_GetBundleInstaller : On S (option O) :=
  transact None GET_BUNDLE_INSTALLER (WriteInterfaceToken GetDescriptor) (or_null ReadObject).

Definition Proxy_GetBundleUserMgr : On S (option O) :=
  transact None GET_BUNDLE_USER_MGR (WriteInterfaceToken GetDescriptor) (or_null ReadObject).

Definition Proxy_GetAllFormsInfo : On S (option (list FormInfo)) :=
  transact None GET_ALL_FORMS_INFO (WriteInterfaceToken GetDescriptor) (reply_found read_infos).

Definition Proxy_GetFormsInfoByApp (bundleName : string) : On S (option (list FormInfo)) :=
  if str_empty bundleName then mret None
  else
    transact None GET_FORMS_INFO_BY_APP
      (WriteInterfaceToken GetDescriptor ;; WriteString bundleName)
      (reply_found read_infos).

Definition Proxy_GetFormsInfoByModule (bundleName moduleName : string) : On S (option (list FormInfo)) :=
  if str_empty bundleName || str_empty moduleName then mret None
  else
    transact None GET_FORMS_INFO_BY_MODULE
      (WriteInterfaceToken GetDescriptor ;; WriteString bundleName ;; WriteString moduleName)
      (reply_found read_infos).

Definition Proxy_GetShortcutInfos (bundleName : string) : On S (option (list ShortcutInfo)) :=
  if str_empty bundleName then mret None
  else
    transact None GET_SHORTCUT_INFO
      (WriteInterfaceToken GetDescriptor ;; WriteString bundleName)
      (reply_found read_infos).

Definition Proxy_GetAllCommonEventInfo (eventKey : string) : On S (option (list CommonEventInfo)) :=
  if str_empty eventKey then mret None
  else
    transact None GET_ALL_COMMON_EVENT_INFO
      (WriteInterfaceToken GetDescriptor ;; WriteString eventKey)
      (reply_found read_infos).

Definition Proxy_CheckBundleNameInAllowList (bundleName : string) : On S bool :=
  if str_empty bundleName then mret false
  else
    transact false BUNDLE_CLONE (WriteInterfaceToken GetDescriptor ;; WriteString bundleName) ReadBool.

Definition Proxy_BundleClone (bundleName : string) : On S bool :=
  if str_empty bundleName then mret false
  else
    transact false BUNDLE_CLONE (WriteInterfaceToken GetDescriptor ;; WriteString bundleName) ReadBool.

Definition Proxy_RemoveClonedBundle (bundleName : string) (uid : Z) : On S bool :=
  if str_empty bundleName then mret false
  else
    transact false REMOVE_CLONED_BUNDLE
      (WriteInterfaceToken GetDescriptor ;; WriteString bundleName ;; WriteInt32 uid)
      ReadBool.

Definition Proxy_GetDistributedBundleInfo (networkId bundleName : string) : On S (option DistributedBundleInfo)
    :=
  if str_empty networkId || str_empty bundleName then mret None
  else
    transact None GET_DISTRIBUTE_BUNDLE_INFO
      (WriteInterfaceToken GetDescriptor ;; WriteString networkId ;; WriteString bundleName)
      (reply_found (ReadParcelable Unmarshalling)).

Definition Proxy_GetAppPrivilegeLevel (bundleName : string) (userId : Z) : On S string :=
  if str_empty bundleName then mret ""
  else
    transact "" GET_APPLICATION_PRIVILEGE_LEVEL
      (WriteInterfaceToken GetDescriptor ;; WriteString bundleName ;; WriteInt32 userId)
      ReadString.

Definition Proxy_QueryExtAbilityInfosWithoutType (want : Want) (flag userId : Z) : On S (option (list
    ExtensionAbilityInfo)) :=
  transact None QUERY_EXTENSION_INFO_WITHOUT_TYPE
    (WriteInterfaceToken GetDescriptor ;;
     WriteParcelable (Marshalling want) ;;
     WriteInt32 flag ;;
     WriteInt32 userId)
    (reply_found read_infos).

Definition Proxy_QueryExtAbilityInfos (want : Want) (extensionType : ExtensionAbilityType) (flag userId : Z) :
    On S (option (list ExtensionAbilityInfo)) :=
  transact None QUERY_EXTENSION_INFO
    (WriteInterfaceToken GetDescriptor ;;
     WriteParcelable (Marshalling want) ;;
     WriteInt32 (ExtensionAbilityType_value extensionType) ;;
     WriteInt32 flag ;;
     WriteInt32 userId)
    (reply_found read_infos).

Definition Proxy_QueryExtAbilityInfosByType (extensionType : ExtensionAbilityType) (userId : Z) : On S (option
    (list ExtensionAbilityInfo)) :=
  transact None QUERY_EXTENSION_INFO_BY_TYPE
    (WriteInterfaceToken GetDescriptor ;;
     WriteInt32 (ExtensionAbilityType_value extensionType) ;;
     WriteInt32 userId)
    (reply_found read_infos).

Definition Proxy_VerifyCallingPermission (permission : string) : On S bool :=
  transact false VERIFY_CALLING_PERMISSION (WriteInterfaceToken GetDescriptor ;; WriteString permission) ReadBool.

Definition Proxy_GetAccessibleAppCodePaths (userId : Z) : On S (list string) :=
  transact [] GET_ACCESSIBLE_APP_CODE_PATH
    (WriteInterfaceToken GetDescriptor ;; WriteInt32 userId)
    (found ← reply_found ReadStringVector; mret (default [] found)).

Definition Proxy_QueryExtensionAbilityInfoByUri (uri : string) (userId : Z) : On S (option ExtensionAbilityInfo)
    :=
  if str_empty uri then mret None
  else
    transact None QUERY_EXTENSION_ABILITY_INFO_BY_URI
      (WriteInterfaceToken GetDescriptor ;; WriteString uri ;; WriteInt32 userId)
      (reply_found (ReadParcelable Unmarshalling)).

Definition Proxy_ImplicitQueryInfoByPriority (want : Want) (flags userId : Z) : On S (option (AbilityInfo *
    ExtensionAbilityInfo)) :=
  transact None IMPLICIT_QUERY_INFO_BY_PRIORITY
    (WriteInterfaceToken GetDescriptor ;;
     WriteParcelable (Marshalling want) ;;
     WriteInt32 flags ;;
     WriteInt32 userId)
    (reply_found (ability ← ReadParcelable Unmarshalling; extension ← ReadParcelable Unmarshalling; mret (ability, extension))).

Definition Proxy_GetSandboxBundleInfo (bundleName : string) (appIndex userId : Z) : On S (Z + BundleInfo) :=
  if str_empty bundleName || (appIndex <=? INITIAL_APP_INDEX) then mret (inl ERR_APPEXECFWK_SANDBOX_INSTALL_PARAM_ERROR)
  else
    data ← or_null (request (WriteInterfaceToken GetDescriptor ;; WriteString bundleName ;;
                                              WriteInt32 appIndex ;; WriteInt32 userId));
    match data with
    | None => mret (inl ERR_APPEXECFWK_SANDBOX_INSTALL_WRITE_PARCEL_ERROR)
    | Some data =>
        or_default (inl ERR_APPEXECFWK_PARCEL_ERROR)
          (reply ← SendTransactCmd GET_SANDBOX_APP_BUNDLE_INFO data; parse_reply GetParcelableInfoWithErrCode reply)
    end.

Definition Proxy_GetAllDependentModuleNames (bundleName moduleName : string) : On S (option (list string)) :=
  if str_empty bundleName || str_empty moduleName then mret None
  else
    transact None GET_ALL_DEPENDENT_MODULE_NAMES
      (WriteInterfaceToken GetDescriptor ;; WriteString bundleName ;; WriteString moduleName)
      (reply_found ReadStringVector).

Definition BundleMgrProxy {R} (c : ICall R) : On S R :=
  match c with
  | GetApplicationInfo appName flag userId => Proxy_GetApplicationInfo appName flag userId
  | GetApplicationInfoWithIntFlags appName flags userId => Proxy_GetApplicationInfoWithIntFlags appName flags userId
  | GetApplicationInfos flag userId => Proxy_GetApplicationInfos flag userId
  | GetApplicationInfosWithIntFlags flags userId => Proxy_GetApplicationInfosWithIntFlags flags userId
  | GetBundleInfo bundleName flag userId => Proxy_GetBundleInfo bundleName flag userId
  | GetBundleInfoWithIntFlags bundleName flags userId => Proxy_GetBundleInfoWithIntFlags bundleName flags userId
  | GetBundlePackInfo bundleName flag => Proxy_GetBundlePackInfo bundleName flag
  | GetBundlePackInfoWithIntFlags bundleName flags => Proxy_GetBundlePackInfoWithIntFlags bundleName flags
  | GetBundleInfos flag userId => Proxy_GetBundleInfos flag userId
  | GetBundleInfosWithIntFlags flags userId => Proxy_GetBundleInfosWithIntFlags flags userId
  | GetUidByBundleName bundleName userId => Proxy_GetUidByBundleName bundleName userId
  | GetAppIdByBundleName bundleName userId => Proxy_GetAppIdByBundleName bundleName userId
  | GetBundleNameForUid uid => Proxy_GetBundleNameForUid uid
  | GetBundlesForUid uid => Proxy_GetBundlesForUid uid
  | GetNameForUid uid => Proxy_GetNameForUid uid
  | GetBundleGids bundleName => Proxy_GetBundleGids bundleName
  | GetBundleGidsByUid bundleName uid => Proxy_GetBundleGidsByUid bundleName uid
  | GetAppType bundleName => Proxy_GetAppType bundleName
  | CheckIsSystemAppByUid uid => Proxy_CheckIsSystemAppByUid uid
  | GetBundleInfosByMetaData metaData => Proxy_GetBundleInfosByMetaData metaData
  | QueryAbilityInfo want => Proxy_QueryAbilityInfo want
  | QueryAbilityInfoWithCallback want flags userId callBack => Proxy_QueryAbilityInfoWithCallback want flags userId callBack
  | UpgradeAtomicService want userId => Proxy_UpgradeAtomicService want userId
  | QueryAbilityInfoMutiparam want flags userId => Proxy_QueryAbilityInfoMutiparam want flags userId
  | QueryAbilityInfos want => Proxy_QueryAbilityInfos want
  | QueryAbilityInfosMutiparam want flags userId => Proxy_QueryAbilityInfosMutiparam want flags userId
  | QueryAllAbilityInfos want userId => Proxy_QueryAllAbilityInfos want userId
  | QueryAbilityInfosForClone want => Proxy_QueryAbilityInfosForClone want
  | QueryAbilityInfoByUri abilityUri => Proxy_QueryAbilityInfoByUri abilityUri
  | QueryAbilityInfosByUri abilityUri => Proxy_QueryAbilityInfosByUri abilityUri
  | QueryAbilityInfoByUriForUserId abilityUri userId => Proxy_QueryAbilityInfoByUriForUserId abilityUri userId
  | QueryKeepAliveBundleInfos => Proxy_QueryKeepAliveBundleInfos
  | GetAbilityLabel bundleName abilityName => Proxy_GetAbilityLabel bundleName abilityName
  | GetAbilityLabelWithModuleName bundleName moduleName abilityName => Proxy_GetAbilityLabelWithModuleName bundleName moduleName abilityName
  | GetBundleArchiveInfo hapFilePath flag => Proxy_GetBundleArchiveInfo hapFilePath flag
  | GetBundleArchiveInfoWithIntFlags hapFilePath flags => Proxy_GetBundleArchiveInfoWithIntFlags hapFilePath flags
  | GetHapModuleInfo abilityInfo => Proxy_GetHapModuleInfo abilityInfo
  | GetHapModuleInfoWithUserId abilityInfo userId => Proxy_GetHapModuleInfoWithUserId abilityInfo userId
  | GetLaunchWantForBundle bundleName => Proxy_GetLaunchWantForBundle bundleName
  | CheckPublicKeys firstBundleName secondBundleName => Proxy_CheckPublicKeys firstBundleName secondBundleName
  | GetPermissionDef permissionName => Proxy_GetPermissionDef permissionName
  | HasSystemCapability capName => Proxy_HasSystemCapability capName
  | GetSystemAvailableCapabilities => Proxy_GetSystemAvailableCapabilities
  | IsSafeMode => Proxy_IsSafeMode
  | CleanBundleCacheFiles bundleName cleanCacheCallback userId => Proxy_CleanBundleCacheFiles bundleName cleanCacheCallback userId
  | CleanBundleDataFiles bundleName userId => Proxy_CleanBundleDataFiles bundleName userId
  | RegisterBundleStatusCallback bundleStatusCallback => Proxy_RegisterBundleStatusCallback bundleStatusCallback
  | ClearBundleStatusCallback bundleStatusCallback => Proxy_ClearBundleStatusCallback bundleStatusCallback
  | UnregisterBundleStatusCallback => Proxy_UnregisterBundleStatusCallback
  | DumpInfos flag bundleName userId => Proxy_DumpInfos flag bundleName userId
  | IsApplicationEnabled bundleName => Proxy_IsApplicationEnabled bundleName
  | IsModuleRemovable bundleName moduleName => Proxy_IsModuleRemovable bundleName moduleName
  | SetModuleRemovable bundleName moduleName isEnable => Proxy_SetModuleRemovable bundleName moduleName isEnable
  | GetModuleUpgradeFlag bundleName moduleName => Proxy_GetModuleUpgradeFlag bundleName moduleName
  | SetModuleUpgradeFlag bundleName moduleName upgradeFlag => Proxy_SetModuleUpgradeFlag bundleName moduleName upgradeFlag
  | SetApplicationEnabled bundleName isEnable userId => Proxy_SetApplicationEnabled bundleName isEnable userId
  | IsAbilityEnabled abilityInfo => Proxy_IsAbilityEnabled abilityInfo
  | SetAbilityEnabled abilityInfo isEnabled userId => Proxy_SetAbilityEnabled abilityInfo isEnabled userId
  | GetAbilityInfo bundleName abilityName => Proxy_GetAbilityInfo bundleName abilityName
  | GetAbilityInfoWithModuleName bundleName moduleName abilityName => Proxy_GetAbilityInfoWithModuleName bundleName moduleName abilityName
  | GetAbilityPixelMapIcon bundleName abilityName => Proxy_GetAbilityPixelMapIcon bundleName abilityName
  | GetAbilityPixelMapIconWithModuleName bundleName moduleName abilityName => Proxy_GetAbilityPixelMapIconWithModuleName bundleName moduleName abilityName
  | GetBundleInstaller => Proxy_GetBundleInstaller
  | GetBundleUserMgr => Proxy_GetBundleUserMgr
  | GetAllFormsInfo => Proxy_GetAllFormsInfo
  | GetFormsInfoByApp bundleName => Proxy_GetFormsInfoByApp bundleName
  | GetFormsInfoByModule bundleName moduleName => Proxy_GetFormsInfoByModule bundleName moduleName
  | GetShortcutInfos bundleName => Proxy_GetShortcutInfos bundleName
  | GetAllCommonEventInfo eventKey => Proxy_GetAllCommonEventInfo eventKey
  | CheckBundleNameInAllowList bundleName => Proxy_CheckBundleNameInAllowList bundleName
  | BundleClone bundleName => Proxy_BundleClone bundleName
  | RemoveClonedBundle bundleName uid => Proxy_RemoveClonedBundle bundleName uid
  | GetDistributedBundleInfo networkId bundleName => Proxy_GetDistributedBundleInfo networkId bundleName
  | GetAppPrivilegeLevel bundleName userId => Proxy_GetAppPrivilegeLevel bundleName userId
  | QueryExtAbilityInfosWithoutType want flag userId => Proxy_QueryExtAbilityInfosWithoutType want flag userId
  | QueryExtAbilityInfos want extensionType flag userId => Proxy_QueryExtAbilityInfos want extensionType flag userId
  | QueryExtAbilityInfosByType extensionType userId => Proxy_QueryExtAbilityInfosByType extensionType userId
  | VerifyCallingPermission permission => Proxy_VerifyCallingPermission permission
  | GetAccessibleAppCodePaths userId => Proxy_GetAccessibleAppCodePaths userId
  | QueryExtensionAbilityInfoByUri uri userId => Proxy_QueryExtensionAbilityInfoByUri uri userId
  | ImplicitQueryInfoByPriority want flags userId => Proxy_ImplicitQueryInfoByPriority want flags userId
  | GetSandboxBundleInfo bundleName appIndex userId => Proxy_GetSandboxBundleInfo bundleName appIndex userId
  | GetAllDependentModuleNames bundleName moduleName => Proxy_GetAllDependentModuleNames bundleName moduleName
  end.
End Proxy.
End Ipc.
