(* ===== verification/BundleMgrCalls.v ===== *)
(** * BundleMgrCalls: what a client sees of the bundle manager

    The specification of the remote interface of BundleMgrIpc: a call through
    the proxy and the host gives what the service gives.  A request is carried
    from the function that writes it, through the handler that reads it, to
    the reply; the rules of [carries] follow both functions line by line. *)

From stdpp Require Import strings pretty.
From S2P Require Import Prelude Strings StdMap BundleTypes Errors Json InfoJson PackJson Parcel ParcelInfos BundleMgrIpc.

Open Scope string_scope.
Open Scope list_scope.
Open Scope Z_scope.

(** ** The pieces of a dump *)

Lemma concat_pieces s n i :
  (String.length s <= LIMIT_PARCEL_SIZE * (i + n))%nat →
  String.concat "" (map (λ i, String.substring (LIMIT_PARCEL_SIZE * i) LIMIT_PARCEL_SIZE s) (seq i n))
  = str_drop (LIMIT_PARCEL_SIZE * i) s.
Proof.
  revert i. induction n as [|n IH]; intros i Hlen.
  - rewrite Nat.add_0_r in Hlen. by rewrite str_drop_all.
  - rewrite <- cons_seq, map_cons, concat_cons, IH, substring_drop by lia.
    replace (LIMIT_PARCEL_SIZE * S i)%nat with (LIMIT_PARCEL_SIZE * i + LIMIT_PARCEL_SIZE)%nat by lia.
    rewrite <- str_drop_drop. apply substring_app_drop.
Qed.

Lemma concat_SplitString s : String.concat "" (SplitString s) = s.
Proof.
  unfold SplitString. rewrite concat_pieces; [by rewrite Nat.mul_0_r|].
  pose proof (Nat.div_mod (String.length s) LIMIT_PARCEL_SIZE ltac:(done)).
  pose proof (Nat.mod_upper_bound (String.length s) LIMIT_PARCEL_SIZE ltac:(done)).
  rewrite Nat.add_0_l. case_decide; unfold LIMIT_PARCEL_SIZE in *; lia.
Qed.

(** ** A request on its way *)

Section Carried.
Context {P U O : Type} `{HP : Parcel P U O} `{HT : JsonText} `{HU : Uninit} `{HA : UninitAbilityType} `{HM : Ashmem}.
Context {Want PixelMap : Type} `{HW : !Parcelable Want} `{HX : !Parcelable PixelMap}.
Context {S : Type} (GetDescriptor : U) `{HD : EqDecision U}.
#[local] Abbreviation PM := (On P).
#[local] Abbreviation ICall := (Call O Want PixelMap).
#[local] Abbreviation Host := (HostState (P := P) (S := S)).
Context (impl : Service (O := O) (Want := Want) (PixelMap := PixelMap) (S := S)).

(** What a handler leaves: the reply it has written, or an error. *)
Definition served (h : On Host ()) (host : Host) (rep : option (PM ())) (s' : S) : Prop :=
  match rep with
  | Some m => ∃ data' reply', m (hs_reply host) = (Ok (), reply') ∧ h host = (Ok (), mkHostState data' reply' s')
  | None => ∃ code host', code ≠ ERR_OK ∧ h host = (Fail code, host') ∧ hs_service host' = s'
  end.

(** A request written by [m], served by [h] in the state [s]. *)
Definition carries (m : PM ()) (h : On Host ()) (s : S) (rep : option (PM ())) (s' : S) : Prop :=
  ∃ w, writes m w ∧ ∀ data reply, unread data = w → served h (mkHostState data reply s) rep s'.

(** [r], a read of the host, gives [v] from what [m] writes. *)
Definition delivers {A} (m : PM ()) (r : On Host A) (v : A) : Prop :=
  ∃ w, writes m w ∧ ∀ data l reply s, unread data = w ++ l →
    ∃ data', r (mkHostState data reply s) = (Ok v, mkHostState data' reply s) ∧ unread data' = l.

Lemma delivers_from_data {A} m (r : PM A) v : sends m r v → delivers m (from_data r) v.
Proof.
  intros (w & Hw & Hr). exists w. split; [done|]. intros data l reply s Hdata.
  destruct (Hr data l Hdata) as (data' & E & Hl). exists data'. split; [|done]. unfold from_data. simpl. by rewrite E.
Qed.

Lemma delivers_or {A} code m (r : PM A) v : sends m r v → delivers m (from_data_or code r) v.
Proof.
  intros (w & Hw & Hr)%delivers_from_data. exists w. split; [done|]. intros data l reply s Hdata.
  destruct (Hr data l reply s Hdata) as (data' & E & Hl). exists data'. split; [|done].
  unfold from_data_or, with_code. by rewrite E.
Qed.

(** The host reads what the proxy wrote. *)
Lemma carries_read {A} m1 m2 (r : On Host A) v (k : A → On Host ()) s rep s' :
  delivers m1 r v → carries m2 (k v) s rep s' → carries (m1 ;; m2) (r ≫= k) s rep s'.
Proof.
  intros (w1 & Hm1 & Hr) (w2 & Hm2 & Hk). exists (w1 ++ w2). split.
  - intros p p'. unfold mbind, On_bind. destruct (m1 p) as [[[]| |] p1] eqn:E; try done. intros Hp'.
    rewrite (Hm2 _ _ Hp'), (Hm1 _ _ E). by rewrite app_assoc.
  - intros data reply Hdata. destruct (Hr data w2 reply s Hdata) as (data' & E & Hdata').
    specialize (Hk data' reply Hdata'). unfold served, mbind, On_bind in *. simpl in *. by rewrite E.
Qed.

Lemma carries_last {A} m (r : On Host A) v (k : A → On Host ()) s rep s' :
  delivers m r v → carries (mret ()) (k v) s rep s' → carries m (r ≫= k) s rep s'.
Proof.
  intros Hm Hk. destruct (carries_read _ _ _ _ _ _ _ _ Hm Hk) as (w & Hw & Hr). exists w. split; [|done].
  intros p p' Hp. apply Hw. unfold mbind, On_bind. by rewrite Hp.
Qed.

(** The service is asked. *)
Lemma carries_call {R} m (c : ICall R) (k : R → On Host ()) s rep s' :
  carries m (k (impl R c s).1) (impl R c s).2 rep s' → carries m (serve impl c ≫= k) s rep s'.
Proof.
  intros (w & Hm & Hk). exists w. split; [done|]. intros data reply Hdata. specialize (Hk data reply Hdata).
  unfold served, serve, mbind, On_bind in *. simpl in *. by destruct (impl R c s).
Qed.

(** The reply is written. *)
Lemma carries_put m code m1 (h : On Host ()) s rep s' :
  succeeds m1 → carries m h s (Some rep) s' → carries m (to_reply code m1 ;; h) s (Some (m1 ;; rep)) s'.
Proof.
  intros Hm1 (w & Hm & Hk). exists w. split; [done|]. intros data reply Hdata. destruct (Hm1 reply) as [reply1 E].
  destruct (Hk data reply1 Hdata) as (data' & reply' & Hrep & Hh). exists data', reply'.
  unfold to_reply, with_code, mbind, On_bind. simpl in *. by rewrite E.
Qed.

Lemma carries_put_last code m1 s : succeeds m1 → carries (mret ()) (to_reply code m1) s (Some m1) s.
Proof.
  intros Hm1. exists []. split; [intros p p' [= <-]; by rewrite app_nil_r|]. intros data reply _.
  destruct (Hm1 reply) as [reply1 E]. exists data, reply1. unfold to_reply, with_code. simpl. by rewrite E.
Qed.

Lemma carries_done s : carries (mret ()) (mret ()) s (Some (mret ())) s.
Proof. exists []. split; [intros p p' [= <-]; by rewrite app_nil_r|]. intros data reply _. by exists data, reply. Qed.

Lemma carries_fail code s : code ≠ ERR_OK → carries (mret ()) (fail code) s None s.
Proof.
  intros Hcode. exists []. split; [intros p p' [= <-]; by rewrite app_nil_r|]. intros data reply _. by eexists code, _.
Qed.

(** ** The whole call *)

Abbreviation remote := (Some (OnRemoteRequest GetDescriptor impl)).

(** What comes back for a request. *)
Definition answers (code : Message) (data : P) (s : S) (rep : option (PM ())) (s' : S) : Prop :=
  match rep with
  | Some m => ∃ reply, m new_parcel = (Ok (), reply) ∧ SendTransactCmd remote code data s = (Ok reply, s')
  | None => SendTransactCmd remote code data s = (Fail FALSE, s')
  end.

Lemma token_answers code data w s rep s' :
  (∀ data reply, unread data = w → served (funcMap impl code) (mkHostState data reply s) rep s') →
  unread data = IInterfaceToken GetDescriptor :: w → answers code data s rep s'.
Proof.
  intros Hh Hdata. destruct (proj1 takes_InterfaceToken _ _ _ Hdata) as (data1 & E & Hdata1).
  specialize (Hh data1 new_parcel Hdata1). unfold answers, SendTransactCmd, OnRemoteRequest, ReadInterfaceToken, or_default.
  rewrite E, decide_True by done. destruct rep as [m|].
  - destruct Hh as (data' & reply & Hm & Hh). simpl in *. rewrite Hh. by exists reply.
  - destruct Hh as (errCode & host' & Hcode & Hh & Hs). rewrite Hh, <- Hs.
    by destruct (Z.eqb_spec errCode ERR_OK).
Qed.

(** The whole of a request: it is written, and answered. *)
Definition asks (m : PM ()) (code : Message) (s : S) (rep : option (PM ())) (s' : S) : Prop :=
  ∃ data, m new_parcel = (Ok (), data) ∧ answers code data s rep s'.

Lemma asks_data code m s rep s' :
  roomy → succeeds m → carries m (funcMap impl code) s rep s' → asks (WriteInterfaceToken GetDescriptor ;; m) code s rep s'.
Proof.
  intros Hroom Hm (w & Hw & Hh). destruct (Hroom (IInterfaceToken GetDescriptor) new_parcel) as [p1 E1].
  destruct (Hm p1) as [p2 E2]. exists p2. unfold WriteInterfaceToken, mbind, On_bind. rewrite E1. split; [done|].
  eapply token_answers; [exact Hh|]. rewrite (Hw _ _ E2).
  destruct (Write_result (IInterfaceToken GetDescriptor) new_parcel) as [(p & E & Hu)|(p & E)]; rewrite E1 in E; [|done].
  injection E as <-. by rewrite Hu, unread_new.
Qed.

Lemma asks_nothing code s rep s' :
  roomy → carries (mret ()) (funcMap impl code) s rep s' → asks (WriteInterfaceToken GetDescriptor) code s rep s'.
Proof.
  intros Hroom Hh. destruct (asks_data code _ s rep s' Hroom ltac:(by eexists) Hh) as (data & E & Ha).
  exists data. split; [|done]. revert E. unfold mbind, On_bind.
  by destruct (WriteInterfaceToken _ _) as [[[]| |] p].
Qed.

Lemma call_replied {A} (d : A) code m (read : PM A) rep s s' x :
  asks m code s (Some rep) s' → sends rep read x → transact remote d code m read s = (Ok x, s').
Proof.
  intros (data & Hm & reply & Hrep & Hs) (w & Hw & Hr). unfold transact, or_default, mbind, On_bind, request, parse_reply.
  rewrite Hm, Hs. destruct (Hr reply []) as (p' & -> & _); [|done]. by rewrite (Hw _ _ Hrep), unread_new, app_nil_r.
Qed.

Lemma call_failed {A} (d : A) code m (read : PM A) s s' :
  asks m code s None s' → transact remote d code m read s = (Ok d, s').
Proof.
  intros (data & Hm & Hs). unfold transact, or_default, mbind, On_bind, request. by rewrite Hm, Hs.
Qed.

(** ** Replies *)

Definition if_found {A} (Q : A → Prop) (r : option A) : Prop := match r with Some x => Q x | None => True end.

(** [reply.WriteBool(ret)], and the value if there is one. *)
Definition write_found {A} (w : A → PM ()) (r : option A) : PM () :=
  WriteBool (found r) ;; match r with Some x => w x | None => mret () end.

Lemma carries_found {A} (w : A → PM ()) (r : option A) s :
  roomy → if_found (λ x, succeeds (w x)) r →
  carries (mret ()) (put (WriteBool (found r)) ;; on_found r (λ x, put (w x))) s (Some (write_found w r)) s.
Proof.
  intros Hroom Hr. apply carries_put; [intros p; apply Hroom|].
  destruct r; [by apply carries_put_last|apply carries_done].
Qed.

Lemma sends_found {A} (w : A → PM ()) (read : PM A) (r : option A) :
  if_found (λ x, sends (w x) read x) r → sends (write_found w r) (reply_found read) r.
Proof.
  intros Hr. eapply sends_bind; [apply sends_Bool|]. destruct r as [x|]; [|apply sends_ret].
  eapply sends_last; [exact Hr|apply sends_ret].
Qed.

Definition all_sendable {T} `{!Parcelable T} (l : list T) : Prop := small l ∧ Forall sendable l.

Lemma sends_infos {T} `{!Parcelable T} (l : list T) : all_sendable l → sends (WriteParcelableVector l) read_infos l.
Proof.
  intros [Hn Hl]. unfold WriteParcelableVector, read_infos. eapply sends_bind; [apply sends_Int32|].
  rewrite i32_id by (unfold in_i32, small in *; lia). rewrite Nat2Z.id. apply sends_each.
  eapply Forall_impl; [exact Hl|]. intros x Hx. by apply sends_Parcelable, Marshalling_sends.
Qed.

Lemma succeeds_infos {T} `{!Parcelable T} (l : list T) : roomy → all_sendable l → succeeds (WriteParcelableVector l).
Proof.
  intros Hroom [_ Hl]. apply succeeds_bind; [intros p; apply Hroom|]. apply succeeds_each.
  eapply Forall_impl; [exact Hl|]. intros x Hx. by apply succeeds_Parcelable, Marshalling_succeeds.
Qed.

Lemma sends_or_null {A} m (r : PM A) x : sends m r x → sends m (or_null r) (Some x).
Proof. intros Hm. apply sends_default. eapply sends_last; [exact Hm|apply sends_ret]. Qed.

Lemma sends_enum_value {E} (value_of : E → Z) of_value e :
  of_value (value_of e) = Some e → sends (WriteInt32 (value_of e)) (n ← ReadInt32; enum_cast of_value n) e.
Proof.
  intros He. eapply sends_last; [apply sends_Int32|]. unfold enum_cast. rewrite He. apply sends_ret.
Qed.

(** ** Values in shared memory *)

(** The bytes an entry takes. *)
Definition entry_size (str : string) : nat := (16 + String.length str)%nat.

Lemma memory_at_number (n : nat) :
  Z.of_nat n <= INT32_MAX → c_str (memory_at (pretty (Z.of_nat n)) 16) = pretty (Z.of_nat n).
Proof.
  intros Hn. destruct (memory_at_text (pretty (Z.of_nat n)) 16) as [rest ->]; [by apply pretty_short|].
  apply c_str_before_nul, pretty_Z_forall; [|done]. intros x Hx. by apply pretty_char_not_nul.
Qed.

Lemma total_size strs n :
  Z.of_nat n + Z.of_nat (list_sum (map entry_size strs)) <= INT32_MAX →
  foldl (λ n str, i32 (i32 (n + ASHMEM_LEN) + Z.of_nat (String.length str))) (Z.of_nat n) strs
  = Z.of_nat (n + list_sum (map entry_size strs)).
Proof.
  revert n. induction strs as [|str strs IH]; intros n Hn; [by rewrite Nat.add_0_r|]. cbn [foldl map].
  cbn [map] in Hn.
  change (list_sum (entry_size str :: map entry_size strs)) with (entry_size str + list_sum (map entry_size strs))%nat in *.
  assert (entry_size str = 16 + String.length str)%nat as Hsize by done.
  rewrite (i32_id (_ + ASHMEM_LEN)), i32_id by (unfold in_i32, ASHMEM_LEN, INT32_MAX in *; lia).
  replace (Z.of_nat n + ASHMEM_LEN + Z.of_nat (String.length str)) with (Z.of_nat (n + entry_size str))
    by (unfold ASHMEM_LEN; lia).
  rewrite IH by lia. lia.
Qed.

Definition all_dumped (l : list json) (strs : list string) : Prop := Forall2 (λ j str, dump j = Some str) l strs.

Lemma dump_all_spec l strs : dump_all l = Some strs ↔ all_dumped l strs.
Proof.
  revert strs. induction l as [|j l IH]; intros strs; simpl.
  - split; [by intros [= <-]; constructor|]. by inversion 1.
  - split.
    + destruct (dump j) eqn:Ej; [|done]. destruct (dump_all l); [|done]. intros [= <-]. constructor; [done|by apply IH].
    + inversion 1 as [|? str ? strs' Ej Hl]; subst. by rewrite Ej, (proj2 (IH _) Hl).
Qed.

Lemma read_entry (str pre rest : string) :
  str ≠ "" → str_forall (λ c, negb (bool_decide (c = Ascii.zero))) str = true → Z.of_nat (String.length str) <= INT32_MAX →
  let dataStr := pre +:+ ashmem_entry str +:+ rest in
  ParseStr dataStr ASHMEM_LEN (String.length pre) = Some (pretty (Z.of_nat (String.length str)))
  ∧ ParseStr dataStr (Z.of_nat (String.length str)) (String.length pre + 16) = Some str.
Proof.
  intros Hne Hnul Hlen. unfold ashmem_entry. cbv zeta. set (m := memory_at _ _).
  assert (String.length m = 16%nat) as Hm by apply memory_at_length. rewrite string_app_assoc. unfold ParseStr. split.
  - change (ASHMEM_LEN <=? 0) with false. change (Z.to_nat ASHMEM_LEN) with 16%nat. rewrite <- Hm, substring_middle.
    f_equal. by apply memory_at_number.
  - destruct (Z.leb_spec (Z.of_nat (String.length str)) 0) as [Hz|_]; [by destruct str|].
    rewrite Nat2Z.id, <- Hm, <- string_length_app, <- string_app_assoc, substring_middle. f_equal. by apply c_str_no_nul.
Qed.

Lemma entries_cons str strs n :
  Z.of_nat (list_sum (map entry_size (str :: strs))) <= n →
  Z.of_nat (String.length str) <= n ∧ Z.of_nat (list_sum (map entry_size strs)) <= n.
Proof.
  change (list_sum (map entry_size (str :: strs))) with (16 + String.length str + list_sum (map entry_size strs))%nat. lia.
Qed.

Lemma read_entries {T} `{ToJson T} (get : json → M T) l strs pre :
  Forall (λ x, decodes get (to_json x) x) l → all_dumped (map to_json l) strs →
  Z.of_nat (list_sum (map entry_size strs)) <= INT32_MAX →
  read_ashmem get (pre +:+ String.concat "" (map ashmem_entry strs)) (length l) (String.length pre) = Ok l.
Proof.
  intros Hl. revert strs pre. induction Hl as [|x l Hx _ IH]; intros strs pre Hstrs Hlen; [done|].
  simpl in Hstrs. inversion Hstrs as [|? str ? strs' Ej Hs]; subst. apply entries_cons in Hlen as [Hlen Hrest].
  rewrite map_cons, concat_cons. simpl length. cbn [read_ashmem].
  destruct (read_entry str pre (String.concat "" (map ashmem_entry strs'))) as [E1 E2];
    [by intros ->; eapply dump_not_empty|by eapply dump_no_nul|done|].
  rewrite E1, atoi_pretty. change (Z.to_nat ASHMEM_LEN) with 16%nat. rewrite E2, (parse_dump _ _ Ej), Hx, Nat2Z.id.
  specialize (IH strs' (pre +:+ ashmem_entry str) Hs Hrest). rewrite string_app_assoc in IH.
  replace (String.length (pre +:+ ashmem_entry str)) with (String.length pre + 16 + String.length str)%nat in IH;
    [by rewrite IH|].
  rewrite string_length_app. unfold ashmem_entry. rewrite string_length_app, memory_at_length. change (Z.to_nat ASHMEM_LEN) with 16%nat. lia.
Qed.

(** The values have texts, that fit into a block of shared memory. *)
Definition in_ashmem {T} `{ToJson T} (get : json → M T) (l : list T) : Prop :=
  l ≠ [] ∧ Forall (λ x, decodes get (to_json x) x) l ∧
  ∃ strs, all_dumped (map to_json l) strs
    ∧ Z.of_nat (list_sum (map entry_size strs)) <= INT32_MAX
    ∧ CreateAshmem (Z.of_nat (list_sum (map entry_size strs))) = true.

Lemma entries_count strs : (16 * length strs <= list_sum (map entry_size strs))%nat.
Proof.
  induction strs as [|str strs IH]; [done|].
  change (list_sum (map entry_size (str :: strs))) with (16 + String.length str + list_sum (map entry_size strs))%nat.
  simpl length. lia.
Qed.

Lemma in_ashmem_small {T} `{ToJson T} (get : json → M T) (l : list T) : in_ashmem get l → small l.
Proof.
  intros (_ & _ & strs & Hs & Hn & _). apply Forall2_length in Hs. rewrite length_map in Hs. unfold small.
  pose proof (entries_count strs). lia.
Qed.

Lemma ashmem_written {T} `{ToJson T} (get : json → M T) (l : list T) :
  in_ashmem get l → ∃ strs, all_dumped (map to_json l) strs ∧ Z.of_nat (list_sum (map entry_size strs)) <= INT32_MAX
    ∧ WriteParcelableVectorIntoAshmem l
      = (WriteInt32 (i32 (Z.of_nat (length l))) ;; Write (IAshmem (String.concat "" (map ashmem_entry strs)))).
Proof.
  intros (Hl & _ & strs & Hs & Hn & Hc). exists strs. split_and!; [done|done|].
  unfold WriteParcelableVectorIntoAshmem. rewrite (proj2 (dump_all_spec _ _) Hs).
  pose proof (total_size strs 0 Hn) as Ht. change (Z.of_nat 0) with 0 in Ht. rewrite Ht, Nat.add_0_l, Hc.
  destruct strs as [|str strs]; [apply Forall2_length in Hs; by destruct l|].
  rewrite bool_decide_eq_false_2 by done. pose proof (entries_count (str :: strs)) as Hpos. simpl length in Hpos.
  destruct (Z.leb_spec (Z.of_nat (list_sum (map entry_size (str :: strs)))) 0); [lia|done].
Qed.

Lemma sends_ashmem {T} `{ToJson T} (get : json → M T) (l : list T) :
  in_ashmem get l → sends (WriteParcelableVectorIntoAshmem l) (GetParcelableInfosFromAshmem get) l.
Proof.
  intros Hl. pose proof (in_ashmem_small get l Hl) as Hn. destruct (ashmem_written get l Hl) as (strs & Hs & Hsize & ->).
  unfold GetParcelableInfosFromAshmem. eapply sends_bind; [apply sends_Int32|].
  eapply sends_last; [apply (sends_item IAshmem), takes_Ashmem|].
  rewrite i32_id by (unfold in_i32, small in *; lia). rewrite Nat2Z.id. unfold of_result.
  pose proof (read_entries get l strs "" (proj1 (proj2 Hl)) Hs Hsize) as Hr.
  change (read_ashmem get (String.concat "" (map ashmem_entry strs)) (length l) 0 = Ok l) in Hr.
  rewrite Hr. apply sends_ret.
Qed.

Lemma succeeds_ashmem {T} `{ToJson T} (get : json → M T) (l : list T) :
  roomy → in_ashmem get l → succeeds (WriteParcelableVectorIntoAshmem l).
Proof.
  intros Hroom Hl. destruct (ashmem_written get l Hl) as (strs & _ & _ & ->). apply succeeds_bind; intros p; apply Hroom.
Qed.
(** ** The calls *)

(** The calls the proxy sends. *)
Definition accepted {R} (c : ICall R) : bool :=
  match c with
  | GetApplicationInfo appName _ _ => negb (str_empty appName)
  | GetApplicationInfoWithIntFlags appName _ _ => negb (str_empty appName)
  | GetBundleInfo bundleName _ _ => negb (str_empty bundleName)
  | GetBundleInfoWithIntFlags bundleName _ _ => negb (str_empty bundleName)
  | GetBundlePackInfo bundleName _ => negb (str_empty bundleName)
  | GetBundlePackInfoWithIntFlags bundleName _ => negb (str_empty bundleName)
  | GetUidByBundleName bundleName _ => negb (str_empty bundleName)
  | GetAppIdByBundleName bundleName _ => negb (str_empty bundleName)
  | GetAppType bundleName => negb (str_empty bundleName)
  | GetBundleInfosByMetaData metaData => negb (str_empty metaData)
  | GetAbilityLabel bundleName abilityName => negb (str_empty bundleName || str_empty abilityName)
  | GetAbilityLabelWithModuleName bundleName moduleName abilityName =>
      negb (str_empty bundleName || str_empty moduleName || str_empty abilityName)
  | GetBundleArchiveInfo hapFilePath _ => negb (str_empty hapFilePath)
  | GetBundleArchiveInfoWithIntFlags hapFilePath _ => negb (str_empty hapFilePath)
  | GetHapModuleInfo abilityInfo => negb (str_empty (ai_bundleName abilityInfo) || str_empty (ai_package abilityInfo))
  | GetHapModuleInfoWithUserId abilityInfo _ =>
      negb (str_empty (ai_bundleName abilityInfo) || str_empty (ai_package abilityInfo))
  | GetLaunchWantForBundle bundleName => negb (str_empty bundleName)
  | CheckPublicKeys firstBundleName secondBundleName => negb (str_empty firstBundleName || str_empty secondBundleName)
  | GetPermissionDef permissionName => negb (str_empty permissionName)
  | HasSystemCapability capName => negb (str_empty capName)
  | CleanBundleDataFiles bundleName _ => negb (str_empty bundleName)
  | IsApplicationEnabled bundleName => negb (str_empty bundleName)
  | IsModuleRemovable bundleName moduleName => negb (str_empty bundleName || str_empty moduleName)
  | SetModuleRemovable bundleName moduleName _ => negb (str_empty bundleName || str_empty moduleName)
  | GetModuleUpgradeFlag bundleName moduleName => negb (str_empty bundleName || str_empty moduleName)
  | SetModuleUpgradeFlag bundleName moduleName _ => negb (str_empty bundleName || str_empty moduleName)
  | SetApplicationEnabled bundleName _ _ => negb (str_empty bundleName)
  | IsAbilityEnabled abilityInfo => negb (str_empty (ai_name abilityInfo))
  | SetAbilityEnabled abilityInfo _ _ => negb (str_empty (ai_name abilityInfo))
  | GetAbilityInfo bundleName abilityName => negb (str_empty bundleName || str_empty abilityName)
  | GetAbilityInfoWithModuleName bundleName moduleName abilityName =>
      negb (str_empty bundleName || str_empty moduleName || str_empty abilityName)
  | GetAbilityPixelMapIcon bundleName abilityName => negb (str_empty bundleName || str_empty abilityName)
  | GetAbilityPixelMapIconWithModuleName bundleName moduleName abilityName =>
      negb (str_empty bundleName || str_empty moduleName || str_empty abilityName)
  | GetFormsInfoByApp bundleName => negb (str_empty bundleName)
  | GetFormsInfoByModule bundleName moduleName => negb (str_empty bundleName || str_empty moduleName)
  | GetShortcutInfos bundleName => negb (str_empty bundleName)
  | GetAllCommonEventInfo eventKey => negb (str_empty eventKey)
  | CheckBundleNameInAllowList bundleName => negb (str_empty bundleName)
  | BundleClone bundleName => negb (str_empty bundleName)
  | RemoveClonedBundle bundleName _ => negb (str_empty bundleName)
  | GetDistributedBundleInfo networkId bundleName => negb (str_empty networkId || str_empty bundleName)
  | GetAppPrivilegeLevel bundleName _ => negb (str_empty bundleName)
  | QueryExtensionAbilityInfoByUri uri _ => negb (str_empty uri)
  | GetAllDependentModuleNames bundleName moduleName => negb (str_empty bundleName || str_empty moduleName)
  | CleanBundleCacheFiles bundleName cleanCacheCallback _ => negb (str_empty bundleName) && found cleanCacheCallback
  | RegisterBundleStatusCallback (Some (_, bundleName)) => negb (str_empty bundleName)
  | RegisterBundleStatusCallback None | ClearBundleStatusCallback None => false
  | GetSandboxBundleInfo bundleName appIndex _ => negb (str_empty bundleName || (appIndex <=? INITIAL_APP_INDEX))
  | _ => true
  end.

(** What it returns for the others. *)
Definition refusal {R} (c : ICall R) : R :=
  match c with
  | GetApplicationInfo _ _ _ | GetApplicationInfoWithIntFlags _ _ _ => None
  | GetApplicationInfos _ _ | GetApplicationInfosWithIntFlags _ _ => None
  | GetBundleInfo _ _ _ | GetBundleInfoWithIntFlags _ _ _ | GetBundleArchiveInfo _ _ |
    GetBundleArchiveInfoWithIntFlags _ _ => None
  | GetBundlePackInfo _ _ | GetBundlePackInfoWithIntFlags _ _ => None
  | GetBundleInfos _ _ | GetBundleInfosWithIntFlags _ _ | GetBundleInfosByMetaData _ | QueryKeepAliveBundleInfos 
   => None
  | GetUidByBundleName _ _ => INVALID_UID
  | GetAppIdByBundleName _ _ | GetAppType _ | GetAbilityLabel _ _ | GetAbilityLabelWithModuleName _ _ _ |
    GetAppPrivilegeLevel _ _ => ""
  | GetBundleNameForUid _ | GetNameForUid _ | DumpInfos _ _ _ => None
  | GetBundlesForUid _ | GetSystemAvailableCapabilities | GetAllDependentModuleNames _ _ => None
  | GetBundleGids _ | GetBundleGidsByUid _ _ => None
  | CheckIsSystemAppByUid _ | HasSystemCapability _ | IsSafeMode | CleanBundleCacheFiles _ _ _ |
    CleanBundleDataFiles _ _ | RegisterBundleStatusCallback _ | ClearBundleStatusCallback _ |
    UnregisterBundleStatusCallback | IsApplicationEnabled _ | IsModuleRemovable _ _ | SetModuleRemovable _ _ _ |
    GetModuleUpgradeFlag _ _ | SetModuleUpgradeFlag _ _ _ | SetApplicationEnabled _ _ _ | IsAbilityEnabled _ |
    SetAbilityEnabled _ _ _ | CheckBundleNameInAllowList _ | BundleClone _ | RemoveClonedBundle _ _ |
    VerifyCallingPermission _ => false
  | QueryAbilityInfo _ | QueryAbilityInfoWithCallback _ _ _ _ | QueryAbilityInfoMutiparam _ _ _ |
    QueryAbilityInfoByUri _ | QueryAbilityInfoByUriForUserId _ _ | GetAbilityInfo _ _ |
    GetAbilityInfoWithModuleName _ _ _ => None
  | UpgradeAtomicService _ _ => ()
  | QueryAbilityInfos _ | QueryAbilityInfosMutiparam _ _ _ | QueryAllAbilityInfos _ _ | QueryAbilityInfosForClone
    _ | QueryAbilityInfosByUri _ => None
  | GetHapModuleInfo _ | GetHapModuleInfoWithUserId _ _ => None
  | GetLaunchWantForBundle _ => None
  | CheckPublicKeys _ _ => SIGNATURE_UNKNOWN_BUNDLE
  | GetPermissionDef _ => None
  | GetAbilityPixelMapIcon _ _ | GetAbilityPixelMapIconWithModuleName _ _ _ => None
  | GetBundleInstaller | GetBundleUserMgr => None
  | GetAllFormsInfo | GetFormsInfoByApp _ | GetFormsInfoByModule _ _ => None
  | GetShortcutInfos _ => None
  | GetAllCommonEventInfo _ => None
  | GetDistributedBundleInfo _ _ => None
  | QueryExtAbilityInfosWithoutType _ _ _ | QueryExtAbilityInfos _ _ _ _ | QueryExtAbilityInfosByType _ _ => None
  | GetAccessibleAppCodePaths _ => []
  | QueryExtensionAbilityInfoByUri _ _ => None
  | ImplicitQueryInfoByPriority _ _ _ => None
  | GetSandboxBundleInfo _ _ _ => inl ERR_APPEXECFWK_SANDBOX_INSTALL_PARAM_ERROR
  end.

(** The parameters that are objects get through. *)
Definition sent {R} (c : ICall R) : Prop :=
  match c with
  | QueryAbilityInfo want | QueryAbilityInfoWithCallback want _ _ _ | UpgradeAtomicService want _ |
    QueryAbilityInfoMutiparam want _ _ | QueryAbilityInfos want | QueryAbilityInfosMutiparam want _ _ |
    QueryAllAbilityInfos want _ | QueryAbilityInfosForClone want | QueryExtAbilityInfosWithoutType want _ _ |
    QueryExtAbilityInfos want _ _ _ | ImplicitQueryInfoByPriority want _ _ => sendable want
  | GetHapModuleInfo abilityInfo | GetHapModuleInfoWithUserId abilityInfo _ | IsAbilityEnabled abilityInfo |
    SetAbilityEnabled abilityInfo _ _ => sendable abilityInfo
  | _ => True
  end.

(** The result gets through. *)
Definition answered {R} (c : ICall R) : R → Prop :=
  match c in Call _ _ _ R return R → Prop with
  | GetApplicationInfo _ _ _ | GetApplicationInfoWithIntFlags _ _ _ => λ r, if_found sendable r
  | GetApplicationInfos _ _ | GetApplicationInfosWithIntFlags _ _ => λ r, if_found all_sendable r
  | GetBundleInfo _ _ _ | GetBundleInfoWithIntFlags _ _ _ | GetBundleArchiveInfo _ _ |
    GetBundleArchiveInfoWithIntFlags _ _ => λ r, if_found sendable r
  | GetBundlePackInfo _ _ | GetBundlePackInfoWithIntFlags _ _ => λ r, if_found sendable r
  | GetBundleInfos _ _ | GetBundleInfosWithIntFlags _ _ => λ r, if_found (in_ashmem get_BundleInfo) r
  | GetBundleInfosByMetaData _ | QueryKeepAliveBundleInfos => λ r, if_found all_sendable r
  | QueryAbilityInfo _ | QueryAbilityInfoWithCallback _ _ _ _ | QueryAbilityInfoMutiparam _ _ _ |
    QueryAbilityInfoByUri _ | QueryAbilityInfoByUriForUserId _ _ | GetAbilityInfo _ _ |
    GetAbilityInfoWithModuleName _ _ _ => λ r, if_found sendable r
  | QueryAbilityInfos _ | QueryAbilityInfosMutiparam _ _ _ | QueryAllAbilityInfos _ _ | QueryAbilityInfosForClone
    _ | QueryAbilityInfosByUri _ => λ r, if_found all_sendable r
  | GetHapModuleInfo _ | GetHapModuleInfoWithUserId _ _ => λ r, if_found sendable r
  | GetLaunchWantForBundle _ => λ r, if_found sendable r
  | GetPermissionDef _ => λ r, if_found sendable r
  | DumpInfos _ _ _ => λ r, if_found (λ result, Z.of_nat (String.length result) <= INT32_MAX) r
  | GetAbilityPixelMapIcon _ _ | GetAbilityPixelMapIconWithModuleName _ _ _ => λ r, if_found sendable r
  | GetAllFormsInfo | GetFormsInfoByApp _ | GetFormsInfoByModule _ _ => λ r, if_found all_sendable r
  | GetShortcutInfos _ => λ r, if_found all_sendable r
  | GetAllCommonEventInfo _ => λ r, if_found all_sendable r
  | GetDistributedBundleInfo _ _ => λ r, if_found sendable r
  | QueryExtAbilityInfosWithoutType _ _ _ | QueryExtAbilityInfos _ _ _ _ | QueryExtAbilityInfosByType _ _ =>
      λ r, if_found all_sendable r
  | QueryExtensionAbilityInfoByUri _ _ => λ r, if_found sendable r
  | ImplicitQueryInfoByPriority _ _ _ => λ r, if_found (λ p, sendable p.1 ∧ sendable p.2) r
  | GetSandboxBundleInfo _ _ _ => λ r, match r with inr info => sendable info | inl code => code ≠ ERR_OK end
  | _ => λ _, True
  end.

(** The calls that reach their function of the service. *)
Definition routed {R} (c : ICall R) : bool :=
  match c with
  | GetPermissionDef _ | CheckBundleNameInAllowList _ | UpgradeAtomicService _ _ | GetSystemAvailableCapabilities |
    QueryAbilityInfoWithCallback _ _ _ None => false
  | _ => true
  end.

(** ** The proxy and the service *)

#[local] Ltac head t := lazymatch t with ?f _ => head f | _ => t end.
#[local] Ltac unfold_proxy := cbn [BundleMgrProxy]; lazymatch goal with |- ?t = _ => let f := head t in unfold f end.

(** A call with parameters that its proxy function does not accept is
    answered by the client alone. *)
Lemma refused_locally {R} (c : ICall R) (r : option (Message → P → On S (P * Z))) (s : S) :
  accepted c = false → BundleMgrProxy GetDescriptor r c s = (Ok (refusal c), s).
Proof using Type.
  destruct c; cbn [accepted]; try done; intros Hc; try (apply negb_false_iff in Hc; unfold_proxy; by rewrite Hc).
  - unfold_proxy. destruct (str_empty bundleName); [done|]. by destruct cleanCacheCallback.
  - unfold_proxy. destruct bundleStatusCallback as [[object bundleName]|]; [|done].
    apply negb_false_iff in Hc. by rewrite Hc.
  - unfold_proxy. by destruct bundleStatusCallback.
Qed.

#[local] Hint Resolve Marshalling_sends sends_infos sends_ashmem sends_or_null sends_enum_value : parcel.
#[local] Hint Resolve delivers_from_data delivers_or : parcel.

#[local] Ltac follow := repeat first
  [ eapply carries_read; [solve [eauto 5 with parcel]|]
  | eapply carries_last; [solve [eauto 5 with parcel]|]
  | apply carries_call ].
#[local] Ltac succeed Hroom := repeat first
  [ solve [eauto using succeeds_infos, succeeds_ashmem, succeeds_Parcelable, Marshalling_succeeds]
  | intros ?; apply Hroom
  | apply succeeds_bind ].
#[local] Ltac if_any Hr := destruct (impl _ _ _).1; [cbn [if_found] in Hr |- *|exact I].
#[local] Ltac serve_found Hroom Hr := apply carries_found; [exact Hroom|if_any Hr; succeed Hroom].
#[local] Ltac handle := cbn [funcMap]; lazymatch goal with |- carries _ ?h _ _ _ => let f := head h in unfold f end; follow.
#[local] Ltac ask Hroom := first [eapply asks_data; [exact Hroom|solve [succeed Hroom]|] | eapply asks_nothing; [exact Hroom|]];
  handle.
#[local] Ltac found_call Hroom Hr :=
  eapply call_replied; [ask Hroom; serve_found Hroom Hr|apply sends_found; if_any Hr; solve [eauto 5 with parcel]].
#[local] Ltac plain_call Hroom :=
  eapply call_replied; [ask Hroom; apply carries_put_last; intros ?; apply Hroom|solve [eauto 5 with parcel]].

(** Calls with another reply. *)
Lemma sends_dump (r : option string) :
  sends (write_found (λ result, WriteStringVector (SplitString result)) r)
    (dumpInfos ← reply_found ReadStringVector; mret (String.concat "" <$> dumpInfos)) r.
Proof.
  eapply sends_last.
  - instantiate (1 := SplitString <$> r). destruct r as [result|]; [|apply (sends_found WriteStringVector _ None I)].
    apply (sends_found WriteStringVector _ (Some _)), sends_StringVector.
  - destruct r as [result|]; [|apply sends_ret]. simpl. rewrite concat_SplitString. apply sends_ret.
Qed.

Lemma sends_extensionType e :
  sends (WriteInt32 (ExtensionAbilityType_value e)) (n ← ReadInt32; enum_cast ExtensionAbilityType_of n) e.
Proof. apply sends_enum_value. by destruct e. Qed.

(** An empty list of paths is sent as not found. *)
Definition write_paths (vec : list string) : PM () :=
  WriteBool (negb (bool_decide (vec = []))) ;; match vec with [] => mret () | _ => WriteStringVector vec end.

Lemma sends_paths vec : sends (write_paths vec) (found ← reply_found ReadStringVector; mret (default [] found)) vec.
Proof.
  destruct vec as [|path vec]; eapply sends_last;
    [apply (sends_found WriteStringVector _ None I)|apply sends_ret
    |apply (sends_found WriteStringVector _ (Some _)), sends_StringVector|apply sends_ret].
Qed.

Definition write_pair {A B} `{!Parcelable A, !Parcelable B} (infos : A * B) : PM () :=
  WriteParcelable (Marshalling infos.1) ;; WriteParcelable (Marshalling infos.2).

Lemma sends_pair {A B} `{!Parcelable A, !Parcelable B} (infos : A * B) :
  sendable infos.1 → sendable infos.2 →
  sends (write_pair infos) (x ← ReadParcelable Unmarshalling; y ← ReadParcelable Unmarshalling; mret (x, y)) infos.
Proof.
  destruct infos as [x y]. intros Hx Hy. eapply sends_bind; [by apply sends_Parcelable, Marshalling_sends|].
  eapply sends_last; [by apply sends_Parcelable, Marshalling_sends|apply sends_ret].
Qed.

(** An error code, or the value behind it. *)
Definition write_with_code {T} `{!Parcelable T} (res : Z + T) : PM () :=
  WriteInt32 (error_code res) ;; match res with inr info => WriteParcelable (Marshalling info) | inl _ => mret () end.

Lemma sends_with_code {T} `{!Parcelable T} (res : Z + T) :
  match res with inr info => sendable info | inl code => code ≠ ERR_OK end →
  sends (write_with_code res) GetParcelableInfoWithErrCode res.
Proof.
  intros Hr. eapply sends_bind; [apply sends_Int32|]. destruct res as [code|info]; simpl.
  - destruct (Z.eqb_spec code ERR_OK); [done|apply sends_ret].
  - eapply sends_last; [by apply sends_Parcelable, Marshalling_sends|apply sends_ret].
Qed.

Lemma sandbox_call {A} (e1 e2 x : A) m rep (read : PM A) s s' :
  asks m GET_SANDBOX_APP_BUNDLE_INFO s (Some rep) s' → sends rep read x →
  (data ← or_null (request m);
   match data with
   | None => mret e1
   | Some data =>
       or_default e2 (reply ← SendTransactCmd remote GET_SANDBOX_APP_BUNDLE_INFO data; parse_reply read reply)
   end) s = (Ok x, s').
Proof.
  intros (data & Hm & reply & Hrep & Hs) (w & Hw & Hr). unfold or_null, or_default, mbind, On_bind, request, parse_reply.
  rewrite Hm. unfold mret, On_ret. rewrite Hs.
  destruct (Hr reply []) as (p' & -> & _); [|done]. by rewrite (Hw _ _ Hrep), unread_new, app_nil_r.
Qed.

Lemma icon_call m code (c : ICall (option PixelMap)) s :
  roomy → succeeds m → if_found sendable (impl _ c s).1 →
  carries m (funcMap impl code) s
    (match (impl _ c s).1 with
     | Some icon => Some (WriteBool true ;; WriteParcelable (Marshalling icon))
     | None => None
     end) (impl _ c s).2 →
  transact remote None code (WriteInterfaceToken GetDescriptor ;; m) (reply_found (ReadParcelable Unmarshalling)) s
  = (Ok (impl _ c s).1, (impl _ c s).2).
Proof.
  intros Hroom Hm Hr Hc. destruct (impl _ c s).1 as [icon|]; cbn [if_found] in Hr.
  - eapply call_replied; [eapply asks_data; [done|done|exact Hc]|].
    apply (sends_found (λ icon, WriteParcelable (Marshalling icon)) _ (Some icon)). by apply sends_Parcelable, Marshalling_sends.
  - eapply call_failed. by eapply asks_data.
Qed.

Lemma object_call code (c : ICall (option O)) s :
  roomy → carries (mret ()) (funcMap impl code) s (WriteObject <$> (impl _ c s).1) (impl _ c s).2 →
  transact remote None code (WriteInterfaceToken GetDescriptor) (or_null ReadObject) s = (Ok (impl _ c s).1, (impl _ c s).2).
Proof.
  intros Hroom Hc. destruct (impl _ c s).1 as [object|].
  - eapply call_replied; [by eapply asks_nothing|]. apply sends_or_null, sends_Object.
  - eapply call_failed. by eapply asks_nothing.
Qed.

#[local] Hint Resolve sends_extensionType : parcel.
#[local] Ltac icon_answer Hroom :=
  apply icon_call; [done|succeed Hroom|done|]; handle; destruct (impl _ _ _).1;
    [apply carries_put; [intros ?; apply Hroom|apply carries_put_last; succeed Hroom]|by apply carries_fail].
#[local] Ltac object_answer Hroom :=
  apply object_call; [done|]; handle; destruct (impl _ _ _).1;
    [apply carries_put_last; intros ?; apply Hroom|by apply carries_fail].

(** C4: A call through the proxy and the host is the call of the service: when
    the parcels have room, and the parameters and the result are values that
    parcels carry, the client gets the result the service gives in its state,
    and the service is left in the state that it left itself in.  This holds
    for every function of the interface that reaches the service ([routed]),
    also where the service finds nothing or returns an error code. *)
Theorem proxy_transparent {R} (c : ICall R) (s : S) :
  roomy → accepted c = true → routed c = true → sent c → answered c (impl R c s).1 →
  BundleMgrProxy GetDescriptor remote c s = (Ok (impl R c s).1, (impl R c s).2).
Proof.
  intros Hroom. destruct c; cbn [accepted routed sent answered]; intros Hacc Hroute Hsent Hr; try done; unfold_proxy;
    try (apply negb_true_iff in Hacc; rewrite Hacc).
  all: try solve [found_call Hroom Hr | plain_call Hroom].
  - destruct callBack; [|done]. found_call Hroom Hr.
  - apply andb_prop in Hacc as [Hname Hcb]. apply negb_true_iff in Hname. rewrite Hname. destruct cleanCacheCallback; [|done].
    plain_call Hroom.
  - destruct bundleStatusCallback as [[object bundleName]|]; [|done]. apply negb_true_iff in Hacc. rewrite Hacc.
    eapply call_replied; [ask Hroom|solve [eauto with parcel]]. cbv beta. rewrite Hacc. follow.
    apply carries_put_last; intros ?; apply Hroom.
  - destruct bundleStatusCallback; [|done]. plain_call Hroom.
  - eapply call_replied; [ask Hroom; serve_found Hroom Hr|apply sends_dump].
  - icon_answer Hroom.
  - icon_answer Hroom.
  - object_answer Hroom.
  - object_answer Hroom.
  - eapply call_replied; [|apply sends_paths]. ask Hroom. unfold write_paths.
    apply carries_put; [intros ?; apply Hroom|].
    destruct (impl _ _ _).1; [apply carries_done|apply carries_put_last; intros ?; apply Hroom].
  - eapply call_replied; [|apply (sends_found write_pair); if_any Hr; destruct Hr; by apply sends_pair]. ask Hroom.
    apply carries_put; [intros ?; apply Hroom|]. destruct (impl _ _ _).1; [destruct Hr|apply carries_done].
    apply carries_put; [succeed Hroom|]. apply carries_put_last; succeed Hroom.
  - eapply sandbox_call; [eapply asks_data; [done|succeed Hroom|]; handle|by apply sends_with_code].
    apply carries_put; [intros ?; apply Hroom|].
    destruct (impl _ _ _).1; [apply carries_done|apply carries_put_last; succeed Hroom].
Qed.

(** ** Calls that go astray *)

(** A read from a request that has been read to its end. *)
Lemma carries_exhausted {A} (r : PM A) v (k : A → On Host ()) s rep s' :
  (∀ p, unread p = [] → ∃ p', r p = (Ok v, p') ∧ unread p' = []) →
  carries (mret ()) (k v) s rep s' → carries (mret ()) (from_data r ≫= k) s rep s'.
Proof.
  intros Hr (w & Hm & Hk). exists w. split; [done|]. intros data reply Hdata.
  assert (w = []) as ->.
  { specialize (Hm data data eq_refl). rewrite <- (app_nil_r (unread data)) in Hm at 1. by apply app_inv_head in Hm. }
  destruct (Hr data Hdata) as (data' & E & Hdata'). specialize (Hk data' reply Hdata').
  unfold served, from_data, mbind, On_bind in *. simpl in *. by rewrite E.
Qed.

Lemma exhausted_String p : unread p = [] → ∃ p', ReadString p = (Ok "", p') ∧ unread p' = [].
Proof.
  intros Hp. destruct (proj2 takes_String p Hp) as (p' & E & Hp'). exists p'. split; [|done].
  unfold ReadString, or_default. by rewrite E.
Qed.

Lemma carries_put_fail m code m1 (h : On Host ()) s s' :
  succeeds m1 → carries m h s None s' → carries m (to_reply code m1 ;; h) s None s'.
Proof.
  intros Hm1 (w & Hm & Hk). exists w. split; [done|]. intros data reply Hdata. destruct (Hm1 reply) as [reply1 E].
  destruct (Hk data reply1 Hdata) as (errCode & host' & Hcode & Hh & Hs). exists errCode, host'.
  unfold to_reply, with_code, mbind, On_bind. simpl in *. by rewrite E.
Qed.

Lemma call_state {A} (d : A) code m (read : PM A) s rep s' :
  asks m code s rep s' → (transact remote d code m read s).2 = s'.
Proof.
  intros (data & Hm & Ha). unfold transact, or_default, mbind, On_bind, request, parse_reply. rewrite Hm.
  destruct rep as [rep|]; [destruct Ha as (reply & _ & Hs)|rename Ha into Hs]; rewrite Hs; [|done].
  by destruct (read reply).1.
Qed.

(** Three functions of the proxy do not reach the service's function of
    the same name.  CheckBundleNameInAllowList clones the bundle: it sends the
    code of BundleClone and returns what that call returns.  GetPermissionDef
    asks for the label of an ability with an empty name, since the handler of
    its code is HandleGetAbilityLabel.  UpgradeAtomicService writes a request
    and does not send it. *)
Lemma misrouted_calls bundleName permissionName want userId s :
  roomy → str_empty bundleName = false → str_empty permissionName = false → sendable want →
  BundleMgrProxy GetDescriptor remote (CheckBundleNameInAllowList bundleName) s
    = (Ok (impl _ (BundleClone bundleName) s).1, (impl _ (BundleClone bundleName) s).2)
  ∧ (BundleMgrProxy GetDescriptor remote (GetPermissionDef permissionName) s).2
    = (impl _ (GetAbilityLabel permissionName "") s).2
  ∧ BundleMgrProxy GetDescriptor remote (UpgradeAtomicService want userId) s = (Ok (), s).
Proof.
  intros Hroom Hb Hp Hw. cbn [BundleMgrProxy]. split_and!.
  - unfold_proxy. rewrite Hb. plain_call Hroom.
  - unfold Proxy_GetPermissionDef. rewrite Hp. eapply call_state. ask Hroom.
    apply (carries_exhausted _ ""); [apply exhausted_String|]. follow. apply carries_put_last; intros ?; apply Hroom.
  - unfold Proxy_UpgradeAtomicService, or_null, or_default, mbind, On_bind, request.
    assert (succeeds (WriteInterfaceToken GetDescriptor ;; WriteParcelable (Marshalling want) ;; WriteInt32 userId)) as Hm
      by succeed Hroom.
    destruct (Hm new_parcel) as [p E]. unfold mbind, On_bind in E. by rewrite E.
Qed.

Lemma ashmem_nothing {T} `{ToJson T} p : roomy → ∃ p', WriteParcelableVectorIntoAshmem ([] : list T) p = (Fail FALSE, p').
Proof.
  intros Hroom. destruct (Hroom (IInt32 (i32 (Z.of_nat (length ([] : list T))))) p) as [p' E]. exists p'.
  unfold WriteParcelableVectorIntoAshmem, WriteInt32, mbind, On_bind. by rewrite E.
Qed.

(** When the service knows no bundle, GetBundleInfos of the proxy returns
    false although the service found the empty list: the host makes no shared
    memory for it. *)
Lemma no_bundles_fail flag userId s :
  roomy → (impl _ (GetBundleInfos flag userId) s).1 = Some [] →
  BundleMgrProxy GetDescriptor remote (GetBundleInfos flag userId) s = (Ok None, (impl _ (GetBundleInfos flag userId) s).2).
Proof.
  intros Hroom Hr. unfold_proxy. eapply call_failed. ask Hroom. rewrite Hr. simpl.
  apply carries_put_fail; [intros ?; apply Hroom|]. exists []. split; [intros p p' [= <-]; by rewrite app_nil_r|].
  intros data reply _. destruct (ashmem_nothing (T := BundleInfo) reply Hroom) as [p1 E].
  eexists ERR_APPEXECFWK_PARCEL_ERROR, _. unfold put, to_reply, with_code. simpl. rewrite E. done.
Qed.
End Carried.

(** ** Example: a parcel that is the list of its items *)

Section Demo.
#[local] Abbreviation DP := (list (item string nat)).

Definition pop {A} (get : item string nat → option A) : On DP A := λ p,
  match p with
  | [] => (Fail FALSE, [])
  | i :: p' => match get i with Some x => (Ok x, p') | None => (Fail FALSE, p) end
  end.

Lemma takes_pop {A} (i : A → item string nat) get : (∀ x, get (i x) = Some x) → takes (λ p : DP, p) i (pop get).
Proof.
  intros Hi. split; [|intros p ->; by exists []]. intros p x l ->. exists l. unfold pop. by rewrite Hi.
Qed.

#[local, refine] Instance list_parcel : Parcel DP string nat := {|
  new_parcel := [];
  unread p := p;
  Write i := λ p, (Ok (), p ++ [i]);
  ReadInt32_ := pop (λ i, match i with IInt32 n => Some n | _ => None end);
  ReadUint32_ := pop (λ i, match i with IUint32 n => Some n | _ => None end);
  ReadInt64_ := pop (λ i, match i with IInt64 n => Some n | _ => None end);
  ReadBool_ := pop (λ i, match i with IBool n => Some n | _ => None end);
  ReadString_ := pop (λ i, match i with IString n => Some n | _ => None end);
  ReadString16_ := pop (λ i, match i with IString16 n => Some n | _ => None end);
  ReadStringVector := pop (λ i, match i with IStringVector n => Some n | _ => None end);
  ReadInt32Vector := pop (λ i, match i with IInt32Vector n => Some n | _ => None end);
  ReadRawData _ := pop (λ i, match i with IRawData n => Some n | _ => None end);
  ReadAshmem := pop (λ i, match i with IAshmem n => Some n | _ => None end);
  ReadObject := pop (λ i, match i with IObject n => Some n | _ => None end);
  ReadInterfaceToken_ := pop (λ i, match i with IInterfaceToken n => Some n | _ => None end);
  ReadParcelable_ := pop (λ i, match i with IParcelable => Some () | _ => None end);
  Str8ToStr16 s := s;
  Str16ToStr8 s := s;
  utf8 _ := True;
  empty16 := "";
|}.
Proof.
  all: try (apply takes_pop; by intros []); try (by apply takes_pop); try done.
  intros i p. left. by exists (p ++ [i]).
Defined.

#[local, refine] Instance null_text : JsonText := {|
  dump j := match j with JNull => Some "null" | _ => None end;
  parse s := if decide (s = "null") then Some JNull else None;
|}.
Proof. all: by intros []; try intros str; intros; simplify_eq/=. Defined.

Fixpoint nuls (n : nat) : string := match n with O => "" | S n => String Ascii.zero (nuls n) end.

Lemma substring_nuls n m : (n <= m)%nat → String.substring 0 n (nuls m) = nuls n.
Proof. revert m. induction n as [|n IH]; intros [|m] Hm; simpl; try done; [lia|]. by rewrite IH by lia. Qed.

Lemma nuls_length n : String.length (nuls n) = n.
Proof. induction n as [|n IH]; [done|]. simpl. by rewrite IH. Qed.

Lemma substring_padded s n m :
  (String.length s <= n)%nat → (n <= m)%nat → String.substring 0 n (s +:+ nuls m) = s +:+ nuls (n - String.length s).
Proof.
  revert n m. induction s as [|c s IH]; intros n m Hs Hm; [by rewrite Nat.sub_0_r; apply substring_nuls|].
  destruct n as [|n]; [simpl in Hs; lia|]. simpl in Hs. change (String c (String.substring 0 n (s +:+ nuls m)) = String c (s +:+ nuls (n - String.length s))).
  f_equal. apply IH; lia.
Qed.

Lemma substring_length n s : (n <= String.length s)%nat → String.length (String.substring 0 n s) = n.
Proof.
  revert n. induction s as [|c s IH]; intros [|n] Hn; simpl in *; try done; [lia|]. f_equal. apply IH. lia.
Qed.

#[local, refine] Instance padded_memory : Ashmem := {|
  CreateAshmem _ := true;
  memory_at s n := String.substring 0 n (s +:+ nuls n);
|}.
Proof.
  - intros s n. apply substring_length. rewrite string_length_app, nuls_length. lia.
  - intros s n Hn. exists (nuls (n - String.length s - 1)). rewrite substring_padded by lia.
    by replace (n - String.length s)%nat with (S (n - String.length s - 1)) at 1 by lia.
Defined.

#[local, refine] Instance text_want : Parcelable (P := DP) (U := string) (O := nat) string := {|
  Marshalling := WriteString; Unmarshalling := ReadString; sendable _ := True |}.
Proof.
  - intros x _. apply sends_String.
  - intros x _ _ p. by eexists.
Defined.

#[local] Instance no_values : Uninit := {| uninit := 0; uninit_type := ExtensionAbilityType_FORM |}.
#[local] Instance no_type : UninitAbilityType := AbilityType_UNKNOWN.

(** A service that counts its calls. *)
Definition demo_event (key : string) : CommonEventInfo := mkCommonEventInfo "Receiver" "com.demo" 20010 "" [] [] [key].
Definition demo_service : Service (O := nat) (Want := string) (PixelMap := string) (S := nat) := λ R c n,
  (match c in Call _ _ _ R return R with
   | GetAllCommonEventInfo key => Some [demo_event key]
   | BundleClone _ => true
   | GetBundleInfos _ _ => Some []
   | c => refusal c
   end, S n).

Lemma demo_roomy : roomy (P := DP).
Proof. intros i p. by eexists. Qed.

Lemma proxy_transparent_witness :
  accepted (GetAllCommonEventInfo (O := nat) (Want := string) (PixelMap := string) "boot") = true
  ∧ BundleMgrProxy "ohos.appexecfwk.BundleMgr" (Some (OnRemoteRequest "ohos.appexecfwk.BundleMgr" demo_service))
      (GetAllCommonEventInfo "boot") 4%nat = (Ok (Some [demo_event "boot"]), 5%nat).
Proof.
  split; [reflexivity|].
  apply (proxy_transparent "ohos.appexecfwk.BundleMgr" demo_service (GetAllCommonEventInfo "boot") 4%nat);
    [exact demo_roomy|reflexivity|reflexivity|exact I|].
  simpl. split; [by vm_compute|]. apply Forall_singleton. split_and!; done || by repeat constructor.
Defined.

Lemma refused_locally_witness :
  BundleMgrProxy (Want := string) (PixelMap := string) (S := nat) "ohos.appexecfwk.BundleMgr" None (GetBundleInfo "" 0 100) 4%nat
  = (Ok None, 4%nat).
Proof. apply (refused_locally _ (GetBundleInfo "" 0 100)). reflexivity. Defined.

Lemma misrouted_calls_witness :
  BundleMgrProxy "ohos.appexecfwk.BundleMgr" (Some (OnRemoteRequest "ohos.appexecfwk.BundleMgr" demo_service))
    (CheckBundleNameInAllowList "com.demo") 4%nat = (Ok true, 5%nat).
Proof.
  apply (misrouted_calls "ohos.appexecfwk.BundleMgr" demo_service "com.demo" "ohos.permission.DEMO" "" 100 4%nat);
    [exact demo_roomy|reflexivity|reflexivity|exact I].
Defined.

Lemma no_bundles_fail_witness :
  BundleMgrProxy "ohos.appexecfwk.BundleMgr" (Some (OnRemoteRequest "ohos.appexecfwk.BundleMgr" demo_service))
    (GetBundleInfos 0 100) 4%nat = (Ok None, 5%nat).
Proof. apply (no_bundles_fail "ohos.appexecfwk.BundleMgr" demo_service); [exact demo_roomy|reflexivity]. Defined.
End Demo.
