(* ===== verification/BundleJson.v ===== *)
(** * BundleJson: a bundle as JSON

    ToJson and FromJson of services/bundlemgr/src/inner_bundle_info.cpp with
    the structs it declares, and inner_bundle_user_info.cpp.  FromJson reports
    its errors in [ProfileReader::parseResult], a variable of the thread that
    it sets back only half way; the from_json functions of the nested structs
    use that variable or one of their own as the source does. *)

From stdpp Require Import strings.
From S2P Require Import Prelude StdMap BundleTypes Errors Json InfoJson PackJson Skill InnerBundleInfo.

Open Scope string_scope.
Open Scope list_scope.
Open Scope Z_scope.

Definition AppType_value (e : AppType) : Z :=
  match e with
  | AppType_SYSTEM_APP => 0
  | AppType_THIRD_SYSTEM_APP => 1
  | AppType_THIRD_PARTY_APP => 2
  end.
Definition AppType_of (n : Z) : option AppType :=
  List.find (λ e, AppType_value e =? n) [AppType_SYSTEM_APP; AppType_THIRD_SYSTEM_APP; AppType_THIRD_PARTY_APP].
#[export] Instance AppType_ToJson : ToJson AppType := λ e, JNumber (AppType_value e).
Definition get_AppType : json → M AppType := get_enum AppType_of.

Definition BundleStatus_value (e : BundleStatus) : Z :=
  match e with
  | BundleStatus_ENABLED => 1
  | BundleStatus_DISABLED => 2
  end.
Definition BundleStatus_of (n : Z) : option BundleStatus :=
  List.find (λ e, BundleStatus_value e =? n) [BundleStatus_ENABLED; BundleStatus_DISABLED].
#[export] Instance BundleStatus_ToJson : ToJson BundleStatus := λ e, JNumber (BundleStatus_value e).
Definition get_BundleStatus : json → M BundleStatus := get_enum BundleStatus_of.

Definition Distro_to_json (x : Distro) : json :=
  object [
    ("deliveryWithInstall", to_json (di_deliveryWithInstall x));
    ("moduleName", to_json (di_moduleName x));
    ("moduleType", to_json (di_moduleType x));
    ("installationFree", to_json (di_installationFree x))
  ].
#[export] Instance Distro_ToJson : ToJson Distro := Distro_to_json.

Definition Distro_from_json (j : json) (x : Distro) : M Distro :=
  x ← GetValueIfFindKey PROFILE j "deliveryWithInstall" get_bool BOOLEAN true NOT_ARRAY
        (λ v x, x <| di_deliveryWithInstall := v |>) x;
  x ← GetValueIfFindKey PROFILE j "moduleName" get_string STRING true NOT_ARRAY (λ v x, x <| di_moduleName := v |>) x;
  x ← GetValueIfFindKey PROFILE j "moduleType" get_string STRING true NOT_ARRAY (λ v x, x <| di_moduleType := v |>) x;
  x ← GetValueIfFindKey PROFILE j "installationFree" get_bool BOOLEAN false NOT_ARRAY
        (λ v x, x <| di_installationFree := v |>) x;
  mret x.
Definition get_Distro : json → M Distro := get_struct new_Distro Distro_from_json.

Definition DefinePermission_to_json (x : DefinePermission) : json :=
  object [
    ("name", to_json (dp_name x));
    ("grantMode", to_json (dp_grantMode x));
    ("availableLevel", to_json (dp_availableLevel x));
    ("availableScope", to_json (dp_availableScope x));
    ("provisionEnable", to_json (dp_provisionEnable x));
    ("distributedSceneEnable", to_json (dp_distributedSceneEnable x));
    ("label", to_json (dp_label x));
    ("labelId", to_json (dp_labelId x));
    ("description", to_json (dp_description x));
    ("descriptionId", to_json (dp_descriptionId x))
  ].
#[export] Instance DefinePermission_ToJson : ToJson DefinePermission := DefinePermission_to_json.

Definition DefinePermission_from_json (j : json) (x : DefinePermission) : M DefinePermission :=
  x ← GetValueIfFindKey LOCAL j "name" get_string STRING false NOT_ARRAY (λ v x, x <| dp_name := v |>) x;
  x ← GetValueIfFindKey LOCAL j "grantMode" get_string STRING false NOT_ARRAY (λ v x, x <| dp_grantMode := v |>) x;
  x ← GetValueIfFindKey LOCAL j "availableLevel" get_string STRING false NOT_ARRAY
        (λ v x, x <| dp_availableLevel := v |>) x;
  x ← GetValueIfFindKey PROFILE j "availableScope" (get_vector get_string) ARRAY false STRINGS
        (λ v x, x <| dp_availableScope := v |>) x;
  x ← GetValueIfFindKey LOCAL j "provisionEnable" get_bool BOOLEAN false NOT_ARRAY
        (λ v x, x <| dp_provisionEnable := v |>) x;
  x ← GetValueIfFindKey LOCAL j "distributedSceneEnable" get_bool BOOLEAN false NOT_ARRAY
        (λ v x, x <| dp_distributedSceneEnable := v |>) x;
  x ← GetValueIfFindKey LOCAL j "label" get_string STRING false NOT_ARRAY (λ v x, x <| dp_label := v |>) x;
  x ← GetValueIfFindKey LOCAL j "labelId" get_int32 NUMBER false NOT_ARRAY (λ v x, x <| dp_labelId := v |>) x;
  x ← GetValueIfFindKey LOCAL j "description" get_string STRING false NOT_ARRAY
        (λ v x, x <| dp_description := v |>) x;
  x ← GetValueIfFindKey LOCAL j "descriptionId" get_int32 NUMBER false NOT_ARRAY
        (λ v x, x <| dp_descriptionId := v |>) x;
  mret x.
Definition get_DefinePermission : json → M DefinePermission := get_struct new_DefinePermission
  DefinePermission_from_json.

(** The integers have their widths. *)
Definition DefinePermission_ok (x : DefinePermission) : Prop :=
  in_i32 (dp_labelId x)
  ∧ in_i32 (dp_descriptionId x).

Definition InnerModuleInfo_to_json (x : InnerModuleInfo) : json :=
  object [
    ("modulePackage", to_json (im_modulePackage x));
    ("moduleName", to_json (im_moduleName x));
    ("modulePath", to_json (im_modulePath x));
    ("moduleDataDir", to_json (im_moduleDataDir x));
    ("moduleResPath", to_json (im_moduleResPath x));
    ("isEntry", to_json (im_isEntry x));
    ("metaData", to_json (im_metaData x));
    ("colorMode", to_json (im_colorMode x));
    ("distro", to_json (im_distro x));
    ("description", to_json (im_description x));
    ("descriptionId", to_json (im_descriptionId x));
    ("label", to_json (im_label x));
    ("labelId", to_json (im_labelId x));
    ("installationFree", to_json (im_installationFree x));
    ("isRemovable", to_json (im_isRemovable x));
    ("upgradeFlag", to_json (im_upgradeFlag x));
    ("reqCapabilities", to_json (im_reqCapabilities x));
    ("abilityKeys", to_json (im_abilityKeys x));
    ("skillKeys", to_json (im_skillKeys x));
    ("mainAbility", to_json (im_mainAbility x));
    ("entryAbilityKey", to_json (im_entryAbilityKey x));
    ("srcPath", to_json (im_srcPath x));
    ("hashValue", to_json (im_hashValue x));
    ("process", to_json (im_process x));
    ("srcEntrance", to_json (im_srcEntrance x));
    ("deviceTypes", to_json (im_deviceTypes x));
    ("virtualMachine", to_json (im_virtualMachine x));
    ("uiSyntax", to_json (im_uiSyntax x));
    ("pages", to_json (im_pages x));
    ("metadata", to_json (im_metadata x));
    ("requestPermissions", to_json (im_requestPermissions x));
    ("definePermissions", to_json (im_definePermissions x));
    ("defPermissions", to_json (im_defPermissions x));
    ("extensionKeys", to_json (im_extensionKeys x));
    ("extensionSkillKeys", to_json (im_extensionSkillKeys x));
    ("isModuleJson", to_json (im_isModuleJson x));
    ("isStageBasedModel", to_json (im_isStageBasedModel x));
    ("dependencies", to_json (im_dependencies x));
    ("hapPath", to_json (im_hapPath x))
  ].
#[export] Instance InnerModuleInfo_ToJson : ToJson InnerModuleInfo := InnerModuleInfo_to_json.

Definition InnerModuleInfo_from_json_1 (j : json) (x : InnerModuleInfo) : M InnerModuleInfo :=
  x ← GetValueIfFindKey PROFILE j "modulePackage" get_string STRING false NOT_ARRAY
        (λ v x, x <| im_modulePackage := v |>) x;
  x ← GetValueIfFindKey PROFILE j "moduleName" get_string STRING false NOT_ARRAY
        (λ v x, x <| im_moduleName := v |>) x;
  x ← GetValueIfFindKey PROFILE j "modulePath" get_string STRING false NOT_ARRAY
        (λ v x, x <| im_modulePath := v |>) x;
  x ← GetValueIfFindKey PROFILE j "moduleDataDir" get_string STRING false NOT_ARRAY
        (λ v x, x <| im_moduleDataDir := v |>) x;
  x ← GetValueIfFindKey PROFILE j "hapPath" get_string STRING false NOT_ARRAY (λ v x, x <| im_hapPath := v |>) x;
  x ← GetValueIfFindKey PROFILE j "moduleResPath" get_string STRING false NOT_ARRAY
        (λ v x, x <| im_moduleResPath := v |>) x;
  x ← GetValueIfFindKey PROFILE j "isEntry" get_bool BOOLEAN false NOT_ARRAY (λ v x, x <| im_isEntry := v |>) x;
  x ← GetValueIfFindKey PROFILE j "metaData" get_MetaData OBJECT false NOT_ARRAY (λ v x, x <| im_metaData := v |>) x;
  x ← GetValueIfFindKey PROFILE j "colorMode" get_ModuleColorMode NUMBER false NOT_ARRAY
        (λ v x, x <| im_colorMode := v |>) x;
  x ← GetValueIfFindKey PROFILE j "distro" get_Distro OBJECT false NOT_ARRAY (λ v x, x <| im_distro := v |>) x;
  x ← GetValueIfFindKey PROFILE j "description" get_string STRING false NOT_ARRAY
        (λ v x, x <| im_description := v |>) x;
  x ← GetValueIfFindKey PROFILE j "descriptionId" get_int32 NUMBER false NOT_ARRAY
        (λ v x, x <| im_descriptionId := v |>) x;
  x ← GetValueIfFindKey PROFILE j "label" get_string STRING false NOT_ARRAY (λ v x, x <| im_label := v |>) x;
  x ← GetValueIfFindKey PROFILE j "labelId" get_int32 NUMBER false NOT_ARRAY (λ v x, x <| im_labelId := v |>) x;
  x ← GetValueIfFindKey PROFILE j "mainAbility" get_string STRING false NOT_ARRAY
        (λ v x, x <| im_mainAbility := v |>) x;
  x ← GetValueIfFindKey PROFILE j "entryAbilityKey" get_string STRING false NOT_ARRAY
        (λ v x, x <| im_entryAbilityKey := v |>) x;
  x ← GetValueIfFindKey PROFILE j "srcPath" get_string STRING false NOT_ARRAY (λ v x, x <| im_srcPath := v |>) x;
  x ← GetValueIfFindKey PROFILE j "hashValue" get_string STRING false NOT_ARRAY (λ v x, x <| im_hashValue := v |>) x;
  mret x.

Definition InnerModuleInfo_from_json_2 (j : json) (x : InnerModuleInfo) : M InnerModuleInfo :=
  x ← GetValueIfFindKey PROFILE j "installationFree" get_bool BOOLEAN false NOT_ARRAY
        (λ v x, x <| im_installationFree := v |>) x;
  x ← GetValueIfFindKey PROFILE j "isRemovable" (get_map get_bool) OBJECT false NOT_ARRAY
        (λ v x, x <| im_isRemovable := v |>) x;
  x ← GetValueIfFindKey PROFILE j "upgradeFlag" get_int32 NUMBER false NOT_ARRAY
        (λ v x, x <| im_upgradeFlag := v |>) x;
  x ← GetValueIfFindKey PROFILE j "reqCapabilities" (get_vector get_string) ARRAY false STRINGS
        (λ v x, x <| im_reqCapabilities := v |>) x;
  x ← GetValueIfFindKey PROFILE j "abilityKeys" (get_vector get_string) ARRAY false STRINGS
        (λ v x, x <| im_abilityKeys := v |>) x;
  x ← GetValueIfFindKey PROFILE j "skillKeys" (get_vector get_string) ARRAY false STRINGS
        (λ v x, x <| im_skillKeys := v |>) x;
  x ← GetValueIfFindKey LOCAL j "process" get_string STRING false NOT_ARRAY (λ v x, x <| im_process := v |>) x;
  x ← GetValueIfFindKey LOCAL j "srcEntrance" get_string STRING false NOT_ARRAY
        (λ v x, x <| im_srcEntrance := v |>) x;
  x ← GetValueIfFindKey LOCAL j "deviceTypes" (get_vector get_string) ARRAY false STRINGS
        (λ v x, x <| im_deviceTypes := v |>) x;
  x ← GetValueIfFindKey LOCAL j "virtualMachine" get_string STRING false NOT_ARRAY
        (λ v x, x <| im_virtualMachine := v |>) x;
  x ← GetValueIfFindKey LOCAL j "uiSyntax" get_string STRING false NOT_ARRAY (λ v x, x <| im_uiSyntax := v |>) x;
  x ← GetValueIfFindKey LOCAL j "pages" get_string STRING false NOT_ARRAY (λ v x, x <| im_pages := v |>) x;
  x ← GetValueIfFindKey LOCAL j "metadata" (get_vector get_Metadata) ARRAY false OBJECTS
        (λ v x, x <| im_metadata := v |>) x;
  x ← GetValueIfFindKey LOCAL j "requestPermissions" (get_vector get_RequestPermission) ARRAY false OBJECTS
        (λ v x, x <| im_requestPermissions := v |>) x;
  x ← GetValueIfFindKey LOCAL j "definePermissions" (get_vector get_DefinePermission) ARRAY false OBJECTS
        (λ v x, x <| im_definePermissions := v |>) x;
  x ← GetValueIfFindKey PROFILE j "defPermissions" (get_vector get_DefinePermission) ARRAY false OBJECTS
        (λ v x, x <| im_defPermissions := v |>) x;
  x ← GetValueIfFindKey LOCAL j "extensionKeys" (get_vector get_string) ARRAY false STRINGS
        (λ v x, x <| im_extensionKeys := v |>) x;
  x ← GetValueIfFindKey LOCAL j "extensionSkillKeys" (get_vector get_string) ARRAY false STRINGS
        (λ v x, x <| im_extensionSkillKeys := v |>) x;
  mret x.

Definition InnerModuleInfo_from_json_3 (j : json) (x : InnerModuleInfo) : M InnerModuleInfo :=
  x ← GetValueIfFindKey LOCAL j "isModuleJson" get_bool BOOLEAN false NOT_ARRAY
        (λ v x, x <| im_isModuleJson := v |>) x;
  x ← GetValueIfFindKey LOCAL j "isStageBasedModel" get_bool BOOLEAN false NOT_ARRAY
        (λ v x, x <| im_isStageBasedModel := v |>) x;
  x ← GetValueIfFindKey PROFILE j "dependencies" (get_vector get_string) ARRAY false STRINGS
        (λ v x, x <| im_dependencies := v |>) x;
  mret x.

Definition InnerModuleInfo_from_json (j : json) (x : InnerModuleInfo) : M InnerModuleInfo :=
  x ← InnerModuleInfo_from_json_1 j x; x ← InnerModuleInfo_from_json_2 j x; InnerModuleInfo_from_json_3 j x.
Definition get_InnerModuleInfo : json → M InnerModuleInfo := get_struct new_InnerModuleInfo InnerModuleInfo_from_json.

(** The integers have their widths, the maps are maps. *)
Definition InnerModuleInfo_ok (x : InnerModuleInfo) : Prop :=
  in_i32 (im_labelId x)
  ∧ in_i32 (im_descriptionId x)
  ∧ sm_wf (im_isRemovable x)
  ∧ Forall DefinePermission_ok (im_defPermissions x)
  ∧ Forall DefinePermission_ok (im_definePermissions x)
  ∧ Forall RequestPermission_ok (im_requestPermissions x)
  ∧ in_i32 (im_upgradeFlag x).

Definition SkillUri_to_json (x : SkillUri) : json :=
  object [
    ("scheme", to_json (su_scheme x));
    ("host", to_json (su_host x));
    ("port", to_json (su_port x));
    ("path", to_json (su_path x));
    ("pathStartWith", to_json (su_pathStartWith x));
    ("pathRegex", to_json (su_pathRegex x));
    ("type", to_json (su_type x))
  ].
#[export] Instance SkillUri_ToJson : ToJson SkillUri := SkillUri_to_json.

Definition SkillUri_from_json (j : json) (x : SkillUri) : M SkillUri :=
  x ← GetValueIfFindKey PROFILE j "scheme" get_string STRING false NOT_ARRAY (λ v x, x <| su_scheme := v |>) x;
  x ← GetValueIfFindKey PROFILE j "host" get_string STRING false NOT_ARRAY (λ v x, x <| su_host := v |>) x;
  x ← GetValueIfFindKey PROFILE j "port" get_string STRING false NOT_ARRAY (λ v x, x <| su_port := v |>) x;
  x ← GetValueIfFindKey PROFILE j "path" get_string STRING false NOT_ARRAY (λ v x, x <| su_path := v |>) x;
  x ← GetValueIfFindKey PROFILE j "pathStartWith" get_string STRING false NOT_ARRAY
        (λ v x, x <| su_pathStartWith := v |>) x;
  x ← GetValueIfFindKey PROFILE j "pathRegx" get_string STRING false NOT_ARRAY (λ v x, x <| su_pathRegex := v |>) x;
  x ← GetValueIfFindKey PROFILE j "pathRegex" get_string STRING false NOT_ARRAY (λ v x, x <| su_pathRegex := v |>) x;
  x ← GetValueIfFindKey PROFILE j "type" get_string STRING false NOT_ARRAY (λ v x, x <| su_type := v |>) x;
  mret x.
Definition get_SkillUri : json → M SkillUri := get_struct new_SkillUri SkillUri_from_json.

Definition Skill_to_json (x : Skill) : json :=
  object [
    ("actions", to_json (sk_actions x));
    ("entities", to_json (sk_entities x));
    ("uris", to_json (sk_uris x))
  ].
#[export] Instance Skill_ToJson : ToJson Skill := Skill_to_json.

Definition Skill_from_json (j : json) (x : Skill) : M Skill :=
  x ← GetValueIfFindKey PROFILE j "actions" (get_vector get_string) ARRAY false STRINGS
        (λ v x, x <| sk_actions := v |>) x;
  x ← GetValueIfFindKey PROFILE j "entities" (get_vector get_string) ARRAY false STRINGS
        (λ v x, x <| sk_entities := v |>) x;
  x ← GetValueIfFindKey PROFILE j "uris" (get_vector get_SkillUri) ARRAY false OBJECTS
        (λ v x, x <| sk_uris := v |>) x;
  mret x.
Definition get_Skill : json → M Skill := get_struct new_Skill Skill_from_json.

Definition InstallMark_to_json (x : InstallMark) : json :=
  object [
    ("installMarkBundle", to_json (mark_bundleName x));
    ("installMarkPackage", to_json (mark_packageName x));
    ("installMarkStatus", to_json (mark_status x))
  ].
#[export] Instance InstallMark_ToJson : ToJson InstallMark := InstallMark_to_json.

Definition InstallMark_from_json (j : json) (x : InstallMark) : M InstallMark :=
  x ← GetValueIfFindKey PROFILE j "installMarkBundle" get_string STRING false NOT_ARRAY
        (λ v x, x <| mark_bundleName := v |>) x;
  x ← GetValueIfFindKey PROFILE j "installMarkPackage" get_string STRING false NOT_ARRAY
        (λ v x, x <| mark_packageName := v |>) x;
  x ← GetValueIfFindKey PROFILE j "installMarkStatus" get_int32 NUMBER false NOT_ARRAY
        (λ v x, x <| mark_status := v |>) x;
  mret x.
Definition get_InstallMark : json → M InstallMark := get_struct new_InstallMark InstallMark_from_json.

(** The integers have their widths. *)
Definition InstallMark_ok (x : InstallMark) : Prop :=
  in_i32 (mark_status x).

Definition SandboxAppPersistentInfo_to_json (x : SandboxAppPersistentInfo) : json :=
  object [
    ("accessTokenId", to_json (sap_accessTokenId x));
    ("appIndex", to_json (sap_appIndex x));
    ("userId", to_json (sap_userId x))
  ].
#[export] Instance SandboxAppPersistentInfo_ToJson : ToJson SandboxAppPersistentInfo :=
  SandboxAppPersistentInfo_to_json.

Definition SandboxAppPersistentInfo_from_json (j : json) (x : SandboxAppPersistentInfo) : M SandboxAppPersistentInfo
  :=
  x ← GetValueIfFindKey PROFILE j "accessTokenId" get_uint32 NUMBER false NOT_ARRAY
        (λ v x, x <| sap_accessTokenId := v |>) x;
  x ← GetValueIfFindKey PROFILE j "appIndex" get_int32 NUMBER false NOT_ARRAY (λ v x, x <| sap_appIndex := v |>) x;
  x ← GetValueIfFindKey PROFILE j "userId" get_int32 NUMBER false NOT_ARRAY (λ v x, x <| sap_userId := v |>) x;
  mret x.
Definition get_SandboxAppPersistentInfo : json → M SandboxAppPersistentInfo := get_struct
  new_SandboxAppPersistentInfo SandboxAppPersistentInfo_from_json.

(** The integers have their widths. *)
Definition SandboxAppPersistentInfo_ok (x : SandboxAppPersistentInfo) : Prop :=
  in_u32 (sap_accessTokenId x)
  ∧ in_i32 (sap_appIndex x)
  ∧ in_i32 (sap_userId x).

Definition InnerBundleUserInfo_to_json (x : InnerBundleUserInfo) : json :=
  object [
    ("uid", to_json (ibu_uid x));
    ("gids", to_json (ibu_gids x));
    ("accessTokenId", to_json (ibu_accessTokenId x));
    ("bundleName", to_json (ibu_bundleName x));
    ("installTime", to_json (ibu_installTime x));
    ("updateTime", to_json (ibu_updateTime x));
    ("bundleUserInfo", to_json (ibu_bundleUserInfo x))
  ].
#[export] Instance InnerBundleUserInfo_ToJson : ToJson InnerBundleUserInfo := InnerBundleUserInfo_to_json.

Definition InnerBundleUserInfo_from_json (j : json) (x : InnerBundleUserInfo) : M InnerBundleUserInfo :=
  x ← GetValueIfFindKey LOCAL j "uid" get_int32 NUMBER false NOT_ARRAY (λ v x, x <| ibu_uid := v |>) x;
  x ← GetValueIfFindKey LOCAL j "gids" (get_vector get_int32) ARRAY false NUMBERS (λ v x, x <| ibu_gids := v |>) x;
  x ← GetValueIfFindKey LOCAL j "accessTokenId" get_uint32 NUMBER false NOT_ARRAY
        (λ v x, x <| ibu_accessTokenId := v |>) x;
  x ← GetValueIfFindKey LOCAL j "bundleName" get_string STRING false NOT_ARRAY (λ v x, x <| ibu_bundleName := v |>) x;
  x ← GetValueIfFindKey LOCAL j "installTime" get_int64 NUMBER false NOT_ARRAY
        (λ v x, x <| ibu_installTime := v |>) x;
  x ← GetValueIfFindKey LOCAL j "updateTime" get_int64 NUMBER false NOT_ARRAY (λ v x, x <| ibu_updateTime := v |>) x;
  x ← GetValueIfFindKey LOCAL j "bundleUserInfo" get_BundleUserInfo OBJECT false NOT_ARRAY
        (λ v x, x <| ibu_bundleUserInfo := v |>) x;
  mret x.
Definition get_InnerBundleUserInfo : json → M InnerBundleUserInfo := get_struct new_InnerBundleUserInfo
  InnerBundleUserInfo_from_json.

(** The integers have their widths. *)
Definition InnerBundleUserInfo_ok (x : InnerBundleUserInfo) : Prop :=
  BundleUserInfo_ok (ibu_bundleUserInfo x)
  ∧ in_i32 (ibu_uid x)
  ∧ Forall in_i32 (ibu_gids x)
  ∧ in_u32 (ibu_accessTokenId x)
  ∧ in_i64 (ibu_installTime x)
  ∧ in_i64 (ibu_updateTime x).

(** ** InnerBundleInfo *)

Definition InnerBundleInfo_ToJson (x : InnerBundleInfo) (j : json) : json :=
  set_keys j [
    ("appType", to_json (ib_appType x));
    ("baseDataDir", to_json (ib_baseDataDir x));
    ("bundleStatus", to_json (ib_bundleStatus x));
    ("allowedAcls", to_json (ib_allowedAcls x));
    ("baseApplicationInfo", to_json (ib_baseApplicationInfo x));
    ("baseBundleInfo", to_json (ib_baseBundleInfo x));
    ("baseAbilityInfos", to_json (ib_baseAbilityInfos x));
    ("innerModuleInfos", to_json (ib_innerModuleInfos x));
    ("skillInfos", to_json (ib_skillInfos x));
    ("userId_", to_json (ib_userId x));
    ("appFeature", to_json (ib_appFeature x));
    ("formInfos", to_json (ib_formInfos x));
    ("shortcutInfos", to_json (ib_shortcutInfos x));
    ("newBundleName", to_json (ib_newBundleName x));
    ("commonEvents", to_json (ib_commonEvents x));
    ("installMark", to_json (ib_mark x));
    ("innerBundleUserInfos", to_json (ib_innerBundleUserInfos x));
    ("isNewVersion", to_json (ib_isNewVersion x));
    ("upgradeFlag", to_json (ib_upgradeFlag x));
    ("baseExtensionInfos", to_json (ib_baseExtensionInfos x));
    ("extensionSkillInfos", to_json (ib_extensionSkillInfos x));
    ("bundlePackInfo", to_json (ib_bundlePackInfo x));
    ("appIndex", to_json (ib_appIndex x));
    ("isSandboxApp", to_json (ib_isSandboxApp x));
    ("sandboxPersistentInfo", to_json (ib_sandboxPersistentInfo x))
  ].

Definition FromJson_bundle `{Uninit} (j : json) (x : InnerBundleInfo) : M InnerBundleInfo :=
  x ← GetValueIfFindKey PROFILE j "appType" get_AppType NUMBER true NOT_ARRAY (λ v x, x <| ib_appType := v |>) x;
  x ← GetValueIfFindKey PROFILE j "uid" get_int32 NUMBER false NOT_ARRAY (λ v x, x <| ib_uid := v |>) x;
  x ← GetValueIfFindKey PROFILE j "gid" get_int32 NUMBER false NOT_ARRAY (λ v x, x <| ib_gid := v |>) x;
  x ← GetValueIfFindKey PROFILE j "allowedAcls" (get_vector get_string) ARRAY false STRINGS
        (λ v x, x <| ib_allowedAcls := v |>) x;
  x ← GetValueIfFindKey PROFILE j "baseDataDir" get_string STRING true NOT_ARRAY
        (λ v x, x <| ib_baseDataDir := v |>) x;
  x ← GetValueIfFindKey PROFILE j "bundleStatus" get_BundleStatus NUMBER true NOT_ARRAY
        (λ v x, x <| ib_bundleStatus := v |>) x;
  x ← GetValueIfFindKey PROFILE j "baseBundleInfo" get_BundleInfo OBJECT true NOT_ARRAY
        (λ v x, x <| ib_baseBundleInfo := v |>) x;
  x ← GetValueIfFindKey PROFILE j "baseApplicationInfo" get_ApplicationInfo OBJECT true NOT_ARRAY
        (λ v x, x <| ib_baseApplicationInfo := v |>) x;
  x ← GetValueIfFindKey PROFILE j "baseAbilityInfos" (get_map get_AbilityInfo) OBJECT true NOT_ARRAY
        (λ v x, x <| ib_baseAbilityInfos := v |>) x;
  x ← GetValueIfFindKey PROFILE j "innerModuleInfos" (get_map get_InnerModuleInfo) OBJECT true NOT_ARRAY
        (λ v x, x <| ib_innerModuleInfos := v |>) x;
  x ← GetValueIfFindKey PROFILE j "skillInfos" (get_map (get_vector get_Skill)) OBJECT true NOT_ARRAY
        (λ v x, x <| ib_skillInfos := v |>) x;
  x ← GetValueIfFindKey PROFILE j "userId_" get_int32 NUMBER true NOT_ARRAY (λ v x, x <| ib_userId := v |>) x;
  x ← GetValueIfFindKey PROFILE j "appFeature" get_string STRING true NOT_ARRAY (λ v x, x <| ib_appFeature := v |>) x;
  x ← GetValueIfFindKey PROFILE j "formInfos" (get_map (get_vector get_FormInfo)) OBJECT true NOT_ARRAY
        (λ v x, x <| ib_formInfos := v |>) x;
  x ← GetValueIfFindKey PROFILE j "shortcutInfos" (get_map get_ShortcutInfo) OBJECT true NOT_ARRAY
        (λ v x, x <| ib_shortcutInfos := v |>) x;
  x ← GetValueIfFindKey PROFILE j "commonEvents" (get_map get_CommonEventInfo) OBJECT true NOT_ARRAY
        (λ v x, x <| ib_commonEvents := v |>) x;
  x ← GetValueIfFindKey PROFILE j "newBundleName" get_string STRING true NOT_ARRAY
        (λ v x, x <| ib_newBundleName := v |>) x;
  x ← GetValueIfFindKey PROFILE j "installMark" get_InstallMark OBJECT false NOT_ARRAY
        (λ v x, x <| ib_mark := v |>) x;
  mret x.

Definition FromJson_users `{Uninit} (j : json) (x : InnerBundleInfo) : M InnerBundleInfo :=
  x ← GetValueIfFindKey LOCAL j "innerBundleUserInfos" (get_map get_InnerBundleUserInfo) OBJECT true NOT_ARRAY
        (λ v x, x <| ib_innerBundleUserInfos := v |>) x;
  mret x.

Definition FromJson_new_version `{Uninit} (j : json) (x : InnerBundleInfo) : M InnerBundleInfo :=
  x ← GetValueIfFindKey LOCAL j "isNewVersion" get_bool BOOLEAN false NOT_ARRAY
        (λ v x, x <| ib_isNewVersion := v |>) x;
  x ← GetValueIfFindKey LOCAL j "upgradeFlag" get_int32 NUMBER false NOT_ARRAY (λ v x, x <| ib_upgradeFlag := v |>) x;
  x ← GetValueIfFindKey LOCAL j "baseExtensionInfos" (get_map get_ExtensionAbilityInfo) OBJECT false NOT_ARRAY
        (λ v x, x <| ib_baseExtensionInfos := v |>) x;
  x ← GetValueIfFindKey LOCAL j "extensionSkillInfos" (get_map (get_vector get_Skill)) OBJECT false NOT_ARRAY
        (λ v x, x <| ib_extensionSkillInfos := v |>) x;
  x ← GetValueIfFindKey LOCAL j "bundlePackInfo" get_BundlePackInfo OBJECT false NOT_ARRAY
        (λ v x, x <| ib_bundlePackInfo := v |>) x;
  mret x.

Definition FromJson_sandbox (j : json) (x : InnerBundleInfo) : M InnerBundleInfo :=
  x ← GetValueIfFindKey PROFILE j "appIndex" get_int32 NUMBER false NOT_ARRAY (λ v x, x <| ib_appIndex := v |>) x;
  x ← GetValueIfFindKey PROFILE j "isSandboxApp" get_bool BOOLEAN false NOT_ARRAY
        (λ v x, x <| ib_isSandboxApp := v |>) x;
  x ← GetValueIfFindKey PROFILE j "sandboxPersistentInfo" (get_vector get_SandboxAppPersistentInfo) ARRAY false OBJECTS
        (λ v x, x <| ib_sandboxPersistentInfo := v |>) x;
  mret x.

(** The value returned is the error code. *)
Definition InnerBundleInfo_FromJson `{Uninit} (j : json) (x : InnerBundleInfo) : M (InnerBundleInfo * Z) :=
  x ← FromJson_bundle j x;
  r ← with_local (FromJson_users j x);
  let '(x, isOldVersion) := r in
  ret ← read_var PROFILE;
  write_var PROFILE ERR_OK ;;
  let x := if (ret =? ERR_OK) && (isOldVersion =? ERR_APPEXECFWK_PARSE_PROFILE_MISSING_PROP)
           then BuildDefaultUserInfo x else x in
  r ← with_local (x ← FromJson_new_version j x; FromJson_sandbox j x);
  let '(x, parseResult) := r in
  mret (x, if negb (parseResult =? ERR_OK) then parseResult else ret).

(** The integers have their widths, the maps are maps. *)
Definition InnerBundleInfo_ok (x : InnerBundleInfo) : Prop :=
  in_i32 (ib_userId x)
  ∧ ApplicationInfo_ok (ib_baseApplicationInfo x)
  ∧ BundleInfo_ok (ib_baseBundleInfo x)
  ∧ InstallMark_ok (ib_mark x)
  ∧ in_i32 (ib_appIndex x)
  ∧ sm_wf (ib_innerModuleInfos x) ∧ Forall InnerModuleInfo_ok (sm_vals (ib_innerModuleInfos x))
  ∧ sm_wf (ib_formInfos x) ∧ Forall (λ x, Forall FormInfo_ok x) (sm_vals (ib_formInfos x))
  ∧ sm_wf (ib_commonEvents x) ∧ Forall CommonEventInfo_ok (sm_vals (ib_commonEvents x))
  ∧ sm_wf (ib_shortcutInfos x) ∧ Forall ShortcutInfo_ok (sm_vals (ib_shortcutInfos x))
  ∧ sm_wf (ib_baseAbilityInfos x) ∧ Forall AbilityInfo_ok (sm_vals (ib_baseAbilityInfos x))
  ∧ sm_wf (ib_skillInfos x)
  ∧ sm_wf (ib_innerBundleUserInfos x) ∧ Forall InnerBundleUserInfo_ok (sm_vals (ib_innerBundleUserInfos x))
  ∧ BundlePackInfo_ok (ib_bundlePackInfo x)
  ∧ in_i32 (ib_upgradeFlag x)
  ∧ sm_wf (ib_baseExtensionInfos x) ∧ Forall ExtensionAbilityInfo_ok (sm_vals (ib_baseExtensionInfos x))
  ∧ sm_wf (ib_extensionSkillInfos x)
  ∧ Forall SandboxAppPersistentInfo_ok (ib_sandboxPersistentInfo x).

(** What is kept of a bundle: the members for the time of an installation
    and the validity of the pack info are not written. *)
Definition stored (x : InnerBundleInfo) : InnerBundleInfo :=
  x <| ib_uid := INVALID_UID |> <| ib_gid := INVALID_GID |> <| ib_currentPackage := "" |>
    <| ib_onlyCreateBundleUser := false |> <| ib_bundlePackInfo ::= λ p, p <| bpi_isValid := false |> |>.

(** * Reading back what was written *)

Lemma AppType_round_trip e : decodes get_AppType (to_json e) e.
Proof. apply decodes_enum; by intros []. Qed.
#[export] Hint Resolve AppType_round_trip : json.

Lemma BundleStatus_round_trip e : decodes get_BundleStatus (to_json e) e.
Proof. apply decodes_enum; by intros []. Qed.
#[export] Hint Resolve BundleStatus_round_trip : json.

Lemma Distro_round_trip x : decodes get_Distro (to_json x) x.
Proof.
  apply decodes_struct. unfold Distro_from_json. read_fields x.
Qed.
#[export] Hint Resolve Distro_round_trip : json.

Lemma DefinePermission_round_trip x : DefinePermission_ok x → decodes get_DefinePermission (to_json x) x.
Proof.
  unfold DefinePermission_ok. intros. destruct_and?. apply decodes_struct. unfold DefinePermission_from_json. read_fields x.
Qed.
#[export] Hint Resolve DefinePermission_round_trip : json.

Lemma InnerModuleInfo_round_trip x : InnerModuleInfo_ok x → decodes get_InnerModuleInfo (to_json x) x.
Proof.
  unfold InnerModuleInfo_ok. intros. destruct_and?. apply decodes_struct. unfold InnerModuleInfo_from_json.
  eapply reads_bind; [unfold InnerModuleInfo_from_json_1; read_part|cbv beta].
  eapply reads_bind; [unfold InnerModuleInfo_from_json_2; read_part|cbv beta].
  unfold InnerModuleInfo_from_json_3. read_fields x.
Qed.
#[export] Hint Resolve InnerModuleInfo_round_trip : json.

Lemma SkillUri_round_trip x : decodes get_SkillUri (to_json x) x.
Proof.
  apply decodes_struct. unfold SkillUri_from_json. read_fields x.
Qed.
#[export] Hint Resolve SkillUri_round_trip : json.

Lemma Skill_round_trip x : decodes get_Skill (to_json x) x.
Proof.
  apply decodes_struct. unfold Skill_from_json. read_fields x.
Qed.
#[export] Hint Resolve Skill_round_trip : json.

Lemma InstallMark_round_trip x : InstallMark_ok x → decodes get_InstallMark (to_json x) x.
Proof.
  unfold InstallMark_ok. intros. apply decodes_struct. unfold InstallMark_from_json. read_fields x.
Qed.
#[export] Hint Resolve InstallMark_round_trip : json.

Lemma SandboxAppPersistentInfo_round_trip x : SandboxAppPersistentInfo_ok x → decodes get_SandboxAppPersistentInfo (to_json x) x.
Proof.
  unfold SandboxAppPersistentInfo_ok. intros. destruct_and?. apply decodes_struct. unfold SandboxAppPersistentInfo_from_json. read_fields x.
Qed.
#[export] Hint Resolve SandboxAppPersistentInfo_round_trip : json.

Lemma InnerBundleUserInfo_round_trip x : InnerBundleUserInfo_ok x → decodes get_InnerBundleUserInfo (to_json x) x.
Proof.
  unfold InnerBundleUserInfo_ok. intros. destruct_and?. apply decodes_struct. unfold InnerBundleUserInfo_from_json. read_fields x.
Qed.
#[export] Hint Resolve InnerBundleUserInfo_round_trip : json.

Lemma InnerBundleInfo_reads `{Uninit} x :
  InnerBundleInfo_ok x →
  InnerBundleInfo_FromJson (InnerBundleInfo_ToJson x JNull) new_InnerBundleInfo (mkParseState ERR_OK ERR_OK)
  = Some ((stored x, ERR_OK), mkParseState ERR_OK ERR_OK).
Proof.
  unfold InnerBundleInfo_ok. intros. destruct_and?.
  change (reads (InnerBundleInfo_FromJson (InnerBundleInfo_ToJson x JNull) new_InnerBundleInfo) (stored x, ERR_OK)).
  unfold InnerBundleInfo_FromJson.
  eapply reads_bind; [unfold FromJson_bundle; read_part|cbv beta].
  eapply reads_with_local; [unfold FromJson_users; read_part|cbv beta iota].
  eapply reads_read_var, reads_write_var. simpl.
  eapply reads_with_local.
  { eapply reads_bind; [unfold FromJson_new_version; read_part|cbv beta]. unfold FromJson_sandbox. read_part. }
  destruct x. apply reads_ret.
Qed.

(** C8: a stored bundle is read back.  FromJson applied to what ToJson wrote
    of a bundle gives the same bundle, except for the uid and gid members,
    the current package, the onlyCreateBundleUser flag and the validity of the
    pack info, and it succeeds. *)
Theorem InnerBundleInfo_round_trip `{Uninit} x :
  InnerBundleInfo_ok x →
  InnerBundleInfo_FromJson (InnerBundleInfo_ToJson x JNull) new_InnerBundleInfo (mkParseState ERR_OK ERR_OK)
  = Some ((stored x, ERR_OK), mkParseState ERR_OK ERR_OK).
Proof. exact (InnerBundleInfo_reads x). Qed.
