(* ===== verification/InnerBundleQuery.v ===== *)
(** * InnerBundleQuery: the information objects built from one bundle

    Models the const queries of services/bundlemgr/src/inner_bundle_info.cpp
    (GetApplicationInfo, GetBundleInfo, FindHapModuleInfo, Find*, GetForms*,
    GetCommonEvents, the permission lists) and
    BundlePermissionMgr::GetRequestPermissionStates.

    [std::sort] is the class [StdSort]: any function that permutes and sorts;
    it is not stable, so the theorems hold for every order of equivalent
    elements.  The access token service is the parameter [GetReqPermissions]
    of the queries that use it. *)

From stdpp Require Import strings sorting.
From Stdlib Require Import Sorting.Sorted.
From S2P Require Import Prelude Strings StdMap BundleTypes Skill InnerBundleInfo.

Open Scope string_scope.
Open Scope list_scope.
Open Scope Z_scope.

(** ** std::sort and std::unique *)

(** The comparators of the sources compare a key of the elements. *)
Class StdSort := {
  std_sort : ∀ {A}, (A → string) → list A → list A;
  std_sort_permutation : ∀ A (key : A → string) l, std_sort key l ≡ₚ l;
  std_sort_sorted : ∀ A (key : A → string) l,
    StronglySorted (λ a b, string_lt (key b) (key a) = false) (std_sort key l);
}.

(** [std::unique]: of each run of elements with equal keys the first. *)
Fixpoint unique_from {A} (key : A → string) (last : A) (l : list A) : list A :=
  match l with
  | [] => []
  | a :: l' => if decide (key last = key a) then unique_from key last l' else a :: unique_from key a l'
  end.
Definition std_unique {A} (key : A → string) (l : list A) : list A :=
  match l with [] => [] | a :: l' => a :: unique_from key a l' end.

(** ** Access tokens *)

(** [AccessToken::PermissionStateFull]: the name and, by device, the grant
    status (the parallel vectors resDeviceID and grantStatus). *)
Record PermissionStateFull := mkPermissionStateFull {
  psf_permissionName : string;
  psf_isGeneral : bool;
  psf_grantStatus : list (string * Z);
  psf_grantFlags : list Z;
}.

Definition PERMISSION_NOT_GRANTED : Z := -1.

Section Queries.
Context `{StdSort}.
Context (GetReqPermissions : Z → bool → option (list PermissionStateFull)).

Definition GetAllReqPermissionStateFull (tokenId : Z) : option (list PermissionStateFull) :=
  match GetReqPermissions tokenId false with
  | None => None
  | Some userGrantReqPermList =>
      match GetReqPermissions tokenId true with
      | None => None
      | Some systemGrantReqPermList => Some (userGrantReqPermList ++ systemGrantReqPermList)
      end
  end.

(** What one requested permission appends to [reqPermissionStates]. *)
Definition permission_state (allPermissionState : list PermissionStateFull) (deviceId req : string) : list Z :=
  match List.find (λ p, bool_decide (psf_permissionName p = req)) allPermissionState with
  | Some p => match List.find (λ d, bool_decide (d.1 = deviceId)) (psf_grantStatus p) with
              | Some d => [d.2]
              | None => []
              end
  | None => [PERMISSION_NOT_GRANTED]
  end.

Definition GetRequestPermissionStates (b : BundleInfo) : BundleInfo * bool :=
  match bi_reqPermissions b with
  | [] => (b, true)
  | reqs =>
      match GetAllReqPermissionStateFull (app_accessTokenId (bi_applicationInfo b)) with
      | None => (b, false)
      | Some states =>
          (b <| bi_reqPermissionStates ::= λ l,
               l ++ concat (map (permission_state states (app_deviceId (bi_applicationInfo b))) reqs) |>, true)
      end
  end.

(** ** Permissions *)

Definition RemoveDuplicateName (names : list string) : list string := std_unique id (std_sort id names).

Definition GetAllDefinePermissions (i : InnerBundleInfo) : list DefinePermission :=
  std_unique dp_name (std_sort dp_name (concat (map im_definePermissions (sm_vals (ib_innerModuleInfos i))))).

Definition GetAllRequestPermissions (i : InnerBundleInfo) : list RequestPermission :=
  std_unique rp_name (std_sort rp_name (concat (map im_requestPermissions (sm_vals (ib_innerModuleInfos i))))).

(** ** Application *)

(** One pass of the module loop of [GetApplicationInfo]. *)
Definition application_module (flags : Z) (appInfo : ApplicationInfo) (info : InnerModuleInfo) : ApplicationInfo :=
  let a := appInfo <| app_moduleInfos ::= λ l, l ++ [mkModuleInfo (im_moduleName info) (im_modulePath info)] |>
                   <| app_moduleSourceDirs ::= λ l, l ++ [im_modulePath info] |> in
  let a := if im_isEntry info then a <| app_entryDir := im_modulePath info |> else a in
  let a := if has_flag (u32 flags) GET_APPLICATION_INFO_WITH_PERMISSION
           then a <| app_permissions ::= λ l, l ++ map rp_name (im_requestPermissions info) |> else a in
  let a := if has_flag (u32 flags) GET_APPLICATION_INFO_WITH_METADATA then
             let a := if negb (im_isModuleJson info) && (0 <? length (mdl_customizeData (im_metaData info)))%nat
                      then a <| app_metaData ::= insert (im_moduleName info) (mdl_customizeData (im_metaData info)) |>
                      else a in
             if im_isModuleJson info && (0 <? length (im_metadata info))%nat
             then a <| app_metadata ::= insert (im_moduleName info) (im_metadata info) |>
             else a
           else a in
  if negb (has_flag (u32 flags) GET_APPLICATION_INFO_WITH_CERTIFICATE_FINGERPRINT)
  then a <| app_fingerprint := "" |> else a.

(** [appInfo] is the caller's variable: it keeps its value when the user does
    not have the bundle. *)
Definition GetApplicationInfo (flags userId : Z) (i : InnerBundleInfo) (appInfo : ApplicationInfo) : ApplicationInfo :=
  let '(found, u) := GetInnerBundleUserInfo userId i new_InnerBundleUserInfo in
  if negb found then appInfo
  else
    let a := (ib_baseApplicationInfo i) <| app_accessTokenId := ibu_accessTokenId u |>
               <| app_enabled := bu_enabled (ibu_bundleUserInfo u) |>
               <| app_uid := ibu_uid u |> in
    let a := foldl (application_module flags) a (sm_vals (ib_innerModuleInfos i)) in
    match app_permissions a with
    | [] => a
    | _ => a <| app_permissions ::= RemoveDuplicateName |>
    end.

(** ** Modules *)

Definition module_type (moduleType : string) : ModuleType :=
  if decide (moduleType = "entry") then ModuleType_ENTRY
  else if decide (moduleType = "feature") then ModuleType_FEATURE
  else if decide (moduleType = "har") then ModuleType_HAR
  else ModuleType_UNKNOWN.

(** The ability loop of [FindHapModuleInfo]; [first] is its local flag. *)
Fixpoint hap_abilities (key : string) (i : InnerBundleInfo) (userId : Z) (first : bool) (hapInfo : HapModuleInfo)
  (abilities : list (string * AbilityInfo)) : HapModuleInfo :=
  match abilities with
  | [] => hapInfo
  | (k, ability) :: abilities' =>
      if str_contains key k then
        let hapInfo := if negb first
                       then hapInfo <| hm_iconPath := ai_iconPath ability |> <| hm_deviceTypes := ai_deviceTypes ability |>
                       else hapInfo in
        let abilityInfo := ability <| ai_applicationInfo ::=
                             GetApplicationInfo GET_APPLICATION_INFO_WITH_PERMISSION userId i |> in
        hap_abilities key i userId true (hapInfo <| hm_abilityInfos ::= λ l, l ++ [abilityInfo] |>) abilities'
      else hap_abilities key i userId first hapInfo abilities'
  end.

Definition FindHapModuleInfo (modulePackage : string) (userId : Z) (i : InnerBundleInfo) : option HapModuleInfo :=
  match ib_innerModuleInfos i !! modulePackage with
  | None => None
  | Some it =>
      let h := new_HapModuleInfo in
      let h := h <| hm_name := im_modulePackage it |>
                 <| hm_moduleName := im_moduleName it |>
                 <| hm_description := im_description it |>
                 <| hm_descriptionId := im_descriptionId it |>
                 <| hm_label := im_label it |>
                 <| hm_labelId := im_labelId it |>
                 <| hm_mainAbility := im_mainAbility it |>
                 <| hm_srcPath := im_srcPath it |>
                 <| hm_hapPath := im_hapPath it |>
                 <| hm_supportedModes := app_supportedModes (ib_baseApplicationInfo i) |>
                 <| hm_reqCapabilities := im_reqCapabilities it |>
                 <| hm_colorMode := im_colorMode it |>
                 <| hm_isRemovable := im_isRemovable it |>
                 <| hm_upgradeFlag := im_upgradeFlag it |> in
      let h := h <| hm_bundleName := app_bundleName (ib_baseApplicationInfo i) |>
                 <| hm_mainElementName := im_mainAbility it |>
                 <| hm_pages := im_pages it |>
                 <| hm_process := im_process it |>
                 <| hm_resourcePath := im_moduleResPath it |>
                 <| hm_srcEntrance := im_srcEntrance it |>
                 <| hm_uiSyntax := im_uiSyntax it |>
                 <| hm_virtualMachine := im_virtualMachine it |>
                 <| hm_deliveryWithInstall := di_deliveryWithInstall (im_distro it) |>
                 <| hm_installationFree := di_installationFree (im_distro it) |>
                 <| hm_isModuleJson := im_isModuleJson it |>
                 <| hm_isStageBasedModel := im_isStageBasedModel it |>
                 <| hm_moduleType := module_type (di_moduleType (im_distro it)) |> in
      let key := "." +:+ modulePackage +:+ "." in
      let h := h <| hm_extensionInfos :=
                   map snd (filter (λ p, str_contains key p.1 = true) (elems (ib_baseExtensionInfos i))) |>
                 <| hm_metadata := im_metadata it |> in
      let h := hap_abilities key i userId false h (elems (ib_baseAbilityInfos i)) in
      Some (h <| hm_dependencies := im_dependencies it |>)
  end.

Definition GetModuleWithHashValue (flags : Z) (modulePackage : string) (i : InnerBundleInfo) (h : HapModuleInfo) :
  HapModuleInfo :=
  if negb (any_flag (u32 flags) GET_BUNDLE_WITH_HASH_VALUE) then h
  else match ib_innerModuleInfos i !! modulePackage with
       | None => h
       | Some it => h <| hm_hashValue := im_hashValue it |>
       end.

(** ** Abilities and extensions *)

Definition with_application (userId : Z) (i : InnerBundleInfo) (a : AbilityInfo) : AbilityInfo :=
  a <| ai_applicationInfo ::= GetApplicationInfo GET_APPLICATION_INFO_WITH_PERMISSION userId i |>.

Definition FindAbilityInfo (bundleName moduleName abilityName : string) (userId : Z) (i : InnerBundleInfo) :
  option AbilityInfo :=
  with_application userId i <$>
    List.find (is_ability bundleName moduleName abilityName) (sm_vals (ib_baseAbilityInfos i)).

Definition FindAbilityInfos (bundleName : string) (userId : Z) (i : InnerBundleInfo) : option (list AbilityInfo) :=
  if str_empty bundleName then None
  else match filter (λ a, ai_bundleName a = bundleName) (sm_vals (ib_baseAbilityInfos i)) with
       | [] => None
       | abilitys => Some (map (with_application userId i) abilitys)
       end.

Definition FindAbilityInfosForClone (bundleName abilityName : string) (userId : Z) (i : InnerBundleInfo)
  (abilitys : list AbilityInfo) : list AbilityInfo :=
  if str_empty bundleName then abilitys
  else abilitys ++ map (with_application userId i)
         (filter (λ a, ai_bundleName a = bundleName ∧ ai_name a = abilityName) (sm_vals (ib_baseAbilityInfos i))).

Definition is_extension (bundleName moduleName extensionName : string) (e : ExtensionAbilityInfo) : bool :=
  bool_decide (ext_bundleName e = bundleName) && bool_decide (ext_name e = extensionName)
  && (str_empty moduleName || bool_decide (ext_moduleName e = moduleName)).

Definition FindExtensionInfo (bundleName moduleName extensionName : string) (i : InnerBundleInfo) :
  option ExtensionAbilityInfo :=
  List.find (is_extension bundleName moduleName extensionName) (sm_vals (ib_baseExtensionInfos i)).

Definition FindExtensionInfos (bundleName : string) (i : InnerBundleInfo) : option (list ExtensionAbilityInfo) :=
  if str_empty bundleName then None
  else match filter (λ e, ext_bundleName e = bundleName) (sm_vals (ib_baseExtensionInfos i)) with
       | [] => None
       | extensions => Some extensions
       end.

Definition DATA_ABILITY_URI_PREFIX : string := "dataability://".

(** [uri.substr(prefix.size())], when the uri is long enough. *)
Definition config_uri (uri : string) : option string :=
  let n := String.length DATA_ABILITY_URI_PREFIX in
  if (String.length uri <? n)%nat then None else Some (String.substring n (String.length uri - n) uri).

Definition has_config_uri (abilityUri : string) (a : AbilityInfo) : bool :=
  bool_decide (config_uri (ai_uri a) = Some abilityUri).

Definition FindAbilityInfoByUri (abilityUri : string) (i : InnerBundleInfo) : option AbilityInfo :=
  List.find (has_config_uri abilityUri) (sm_vals (ib_baseAbilityInfos i)).

Definition FindExtensionAbilityInfoByUri (uri : string) (i : InnerBundleInfo) : option ExtensionAbilityInfo :=
  List.find (λ e, bool_decide (uri = ext_uri e)) (sm_vals (ib_baseExtensionInfos i)).

Definition FindAbilityInfosByUri (abilityUri : string) (userId : Z) (i : InnerBundleInfo)
  (abilityInfos : list AbilityInfo) : list AbilityInfo :=
  abilityInfos ++ map (with_application userId i)
    (filter (λ a, has_config_uri abilityUri a = true) (sm_vals (ib_baseAbilityInfos i))).

(** The loop of [GetMainAbilityInfo] over the modules. *)
Fixpoint main_ability (abilities : stdmap string AbilityInfo) (abilityInfo : AbilityInfo) (ms : list InnerModuleInfo) :
  AbilityInfo :=
  match ms with
  | [] => abilityInfo
  | m :: ms' =>
      let key := im_entryAbilityKey m in
      if str_empty key then main_ability abilities abilityInfo ms'
      else match abilities !! key with
           | None => main_ability abilities abilityInfo ms'
           | Some a => if im_isEntry m then a else main_ability abilities a ms'
           end
  end.

Definition GetMainAbilityInfo (i : InnerBundleInfo) (abilityInfo : AbilityInfo) : AbilityInfo :=
  main_ability (ib_baseAbilityInfos i) abilityInfo (sm_vals (ib_innerModuleInfos i)).

(** ** Bundle *)

Definition GetBundleWithAbilities (flags : Z) (i : InnerBundleInfo) (userId : Z) (b : BundleInfo) : BundleInfo :=
  if any_flag (u32 flags) GET_BUNDLE_WITH_ABILITIES then
    foldl (λ b ability,
      let isEnabled := IsAbilityEnabled ability userId i in
      if negb (any_flag (u32 flags) GET_ABILITY_INFO_WITH_DISABLE) && negb isEnabled then b
      else b <| bi_abilityInfos ::= λ l, l ++ [ability <| ai_enabled := isEnabled |>] |>)
      b (sm_vals (ib_baseAbilityInfos i))
  else b.

Definition GetBundeleWithExtension (flags : Z) (i : InnerBundleInfo) (b : BundleInfo) : BundleInfo :=
  if has_flag (u32 flags) GET_BUNDLE_WITH_EXTENSION_INFO then
    b <| bi_extensionInfos ::= λ l, l ++ filter (λ e, ext_enabled e = true) (sm_vals (ib_baseExtensionInfos i)) |>
  else b.

(** One pass of the module loop of [GetBundleInfo]. *)
Definition bundle_module (flags : Z) (i : InnerBundleInfo) (userId : Z) (b : BundleInfo) (info : InnerModuleInfo) :
  BundleInfo :=
  let b := if has_flag (u32 flags) GET_BUNDLE_WITH_REQUESTED_PERMISSION
           then b <| bi_reqPermissions ::= λ l, l ++ map rp_name (im_requestPermissions info) |>
                  <| bi_defPermissions ::= λ l, l ++ map dp_name (im_definePermissions info)
                                                  ++ map dp_name (im_defPermissions info) |>
           else b in
  let b := b <| bi_hapModuleNames ::= λ l, l ++ [im_modulePackage info] |> in
  match FindHapModuleInfo (im_modulePackage info) userId i with
  | None => b
  | Some hapmoduleinfo =>
      b <| bi_hapModuleInfos ::= λ l, l ++ [GetModuleWithHashValue flags (im_modulePackage info) i hapmoduleinfo] |>
        <| bi_moduleNames ::= λ l, l ++ [im_moduleName info] |>
        <| bi_moduleDirs ::= λ l, l ++ [im_modulePath info] |>
        <| bi_modulePublicDirs ::= λ l, l ++ [im_moduleDataDir info] |>
        <| bi_moduleResPaths ::= λ l, l ++ [im_moduleResPath info] |>
  end.

Definition GetBundleInfo (flags : Z) (userId : Z) (i : InnerBundleInfo) (bundleInfo : BundleInfo) : BundleInfo :=
  let '(found, u) := GetInnerBundleUserInfo userId i new_InnerBundleUserInfo in
  if negb found then bundleInfo
  else
    let b := ib_baseBundleInfo i in
    let b := b <| bi_uid := ibu_uid u |> in
    let b := match ibu_gids u with [] => b | g :: _ => b <| bi_gid := g |> end in
    let b := b <| bi_installTime := ibu_installTime u |> <| bi_updateTime := ibu_updateTime u |> in
    let b := b <| bi_applicationInfo ::= GetApplicationInfo GET_BASIC_APPLICATION_INFO userId i |> in
    let b := foldl (bundle_module flags i userId) b (sm_vals (ib_innerModuleInfos i)) in
    let b := if has_flag (u32 flags) GET_BUNDLE_WITH_REQUESTED_PERMISSION then
               let b := match bi_reqPermissions b with [] => b | _ => b <| bi_reqPermissions ::= RemoveDuplicateName |> end in
               let b := match bi_defPermissions b with [] => b | _ => b <| bi_defPermissions ::= RemoveDuplicateName |> end in
               let b := (GetRequestPermissionStates b).1 in
               b <| bi_reqPermissionDetails := GetAllRequestPermissions i |>
             else b in
    GetBundeleWithExtension flags i (GetBundleWithAbilities flags i userId b).

(** ** Other queries *)

Definition CheckSpecialMetaData (metaData : string) (i : InnerBundleInfo) : bool :=
  if ib_isNewVersion i
  then existsb (λ m, existsb (λ d, bool_decide (metaData = md_name d)) (im_metadata m)) (sm_vals (ib_innerModuleInfos i))
  else existsb (λ m, existsb (λ d, bool_decide (metaData = cd_name d)) (mdl_customizeData (im_metaData m)))
         (sm_vals (ib_innerModuleInfos i)).

Definition GetFormsInfoByModule (moduleName : string) (i : InnerBundleInfo) (formInfos : list FormInfo) : list FormInfo :=
  formInfos ++ filter (λ f, fi_moduleName f = moduleName) (concat (sm_vals (ib_formInfos i))).

Definition GetFormsInfoByApp (i : InnerBundleInfo) (formInfos : list FormInfo) : list FormInfo :=
  formInfos ++ concat (sm_vals (ib_formInfos i)).

Definition GetCommonEvents (eventKey : string) (i : InnerBundleInfo) (commonEvents : list CommonEventInfo) :
  list CommonEventInfo :=
  commonEvents ++ map (λ e, e <| ce_uid := GetUid (ib_userId i) i |>)
    (filter (λ e, eventKey ∈ ce_events e) (sm_vals (ib_commonEvents i))).
End Queries.

(** * Sorted lists without duplicates *)

Section SortUnique.
Context {A : Type} (key : A → string).

Let below (a b : A) : Prop := string_lt (key a) (key b) = true.
Let not_above (a b : A) : Prop := string_lt (key b) (key a) = false.

Lemma string_le_cases a b : string_lt b a = false → a = b ∨ string_lt a b = true.
Proof.
  intros H. destruct (string_lt a b) eqn:E; [by right|]. left. by apply string_lt_total.
Qed.

Lemma below_trans a b c : not_above a b → below b c → below a c.
Proof.
  unfold below, not_above. intros [->|H]%string_le_cases Hbc; [done|]. by eapply string_lt_trans.
Qed.

Lemma unique_from_spec last l :
  StronglySorted not_above (last :: l) →
  StronglySorted below (last :: unique_from key last l)
  ∧ (∀ a, a ∈ unique_from key last l → a ∈ l)
  ∧ ∀ a, a ∈ l → ∃ b, b ∈ last :: unique_from key last l ∧ key b = key a.
Proof.
  revert last. induction l as [|a l IH]; intros last Hs; simpl.
  { split_and!; [repeat constructor|done|]. intros a Ha. by apply not_elem_of_nil in Ha. }
  apply StronglySorted_inv in Hs as [Hs Hall]. pose proof Hs as Hs'.
  apply StronglySorted_inv in Hs' as [Hl Hal].
  rewrite Forall_cons in Hall. destruct Hall as [Hla Hll].
  case_decide as Hk.
  - assert (StronglySorted not_above (last :: l)) as Hlast by (by constructor).
    destruct (IH _ Hlast) as (H1 & H2 & H3). split_and!; [done|set_solver|].
    intros x [->|Hx]%elem_of_cons; [exists last; set_solver|auto].
  - destruct (IH _ Hs) as (H1 & H2 & H3).
    apply string_le_cases in Hla as [?|Hla]; [done|].
    split_and!.
    + constructor; [done|]. constructor; [done|].
      apply StronglySorted_inv in H1 as [_ H1]. eapply Forall_impl; [exact H1|].
      intros x Hx. by eapply string_lt_trans.
    + set_solver.
    + intros x [->|Hx]%elem_of_cons; [exists a; set_solver|]. destruct (H3 _ Hx) as (b & Hb & ?). exists b. set_solver.
Qed.

Lemma sort_unique_spec `{StdSort} l :
  let r := std_unique key (std_sort key l) in
  StronglySorted below r ∧ (∀ a, a ∈ r → a ∈ l) ∧ ∀ a, a ∈ l → ∃ b, b ∈ r ∧ key b = key a.
Proof.
  simpl. pose proof (std_sort_sorted _ key l) as Hs. pose proof (std_sort_permutation _ key l) as Hp.
  assert (∀ a, a ∈ l ↔ a ∈ std_sort key l) as Hin by (intros a; by rewrite Hp).
  destruct (std_sort key l) as [|a s]; simpl.
  { split_and!; [apply SSorted_nil|set_solver|]. intros a Ha. apply Hin in Ha. by apply not_elem_of_nil in Ha. }
  destruct (unique_from_spec a s Hs) as (H1 & H2 & H3). split_and!; [done| |].
  - intros x Hx. apply Hin. set_solver.
  - intros x Hx%Hin. apply elem_of_cons in Hx as [->|Hx]; [exists a; set_solver|auto].
Qed.

Lemma below_NoDup l : StronglySorted below l → NoDup (map key l).
Proof.
  induction 1 as [|a l Hl IH Hall]; simpl; constructor; [|done].
  change (map key l) with (key <$> l). intros (b & Hb & Hin)%list_elem_of_fmap.
  rewrite Forall_forall in Hall. apply Hall in Hin. unfold below in Hin. by rewrite Hb, string_lt_irrefl in Hin.
Qed.
End SortUnique.

Lemma elem_of_concat_map {A B} (f : A → list B) l x : x ∈ concat (map f l) ↔ ∃ a, a ∈ l ∧ x ∈ f a.
Proof.
  induction l as [|a l IH]; simpl; [set_solver|]. rewrite elem_of_app, IH. set_solver.
Qed.

(** The permissions requested by a bundle are listed without
    duplicates in increasing order of their names: every listed permission is
    requested by a module, and every name requested by a module is listed
    exactly once, whatever order std::sort gives permissions of the same
    name. *)
Theorem GetAllRequestPermissions_correct `{StdSort} i :
  let r := GetAllRequestPermissions i in
  let requested p := ∃ m, m ∈ sm_vals (ib_innerModuleInfos i) ∧ p ∈ im_requestPermissions m in
  StronglySorted (λ p q, string_lt (rp_name p) (rp_name q) = true) r
  ∧ NoDup (map rp_name r)
  ∧ (∀ p, p ∈ r → requested p)
  ∧ ∀ p, requested p → ∃ q, q ∈ r ∧ rp_name q = rp_name p.
Proof.
  unfold GetAllRequestPermissions.
  destruct (sort_unique_spec rp_name (concat (map im_requestPermissions (sm_vals (ib_innerModuleInfos i)))))
    as (Hs & H1 & H2).
  split_and!; [done|by apply below_NoDup| |].
  - intros p Hp%H1. by apply elem_of_concat_map.
  - intros p Hp. apply H2. by apply elem_of_concat_map.
Qed.

(** * Application information *)

Lemma RemoveDuplicateName_spec `{StdSort} l :
  NoDup (RemoveDuplicateName l) ∧ ∀ x, x ∈ RemoveDuplicateName l ↔ x ∈ l.
Proof.
  destruct (sort_unique_spec id l) as (Hs & H1 & H2). unfold RemoveDuplicateName. split.
  - apply below_NoDup in Hs. by rewrite map_id in Hs.
  - intros x. split; [apply H1|]. intros Hx%H2. destruct Hx as (b & Hb & He). unfold id in He. by subst.
Qed.

Definition module_infos (ms : list InnerModuleInfo) : list ModuleInfo :=
  map (λ m, mkModuleInfo (im_moduleName m) (im_modulePath m)) ms.

Lemma application_modules_spec flags ms a :
  let r := foldl (application_module flags) a ms in
  app_accessTokenId r = app_accessTokenId a ∧ app_uid r = app_uid a ∧ app_enabled r = app_enabled a
  ∧ app_bundleName r = app_bundleName a
  ∧ app_moduleInfos r = app_moduleInfos a ++ module_infos ms
  ∧ app_moduleSourceDirs r = app_moduleSourceDirs a ++ map im_modulePath ms
  ∧ app_permissions r = app_permissions a
      ++ (if has_flag (u32 flags) GET_APPLICATION_INFO_WITH_PERMISSION
          then concat (map (λ m, map rp_name (im_requestPermissions m)) ms) else [])
  ∧ app_fingerprint r
      = (if has_flag (u32 flags) GET_APPLICATION_INFO_WITH_CERTIFICATE_FINGERPRINT || bool_decide (ms = [])
         then app_fingerprint a else "").
Proof.
  revert a. induction ms as [|m ms IH]; intros a; simpl.
  { rewrite orb_true_r, !app_nil_r. by destruct (has_flag _ _); rewrite ?app_nil_r. }
  destruct (IH (application_module flags a m)) as (-> & -> & -> & -> & -> & -> & -> & ->).
  unfold application_module, module_infos.
  destruct (has_flag (u32 flags) GET_APPLICATION_INFO_WITH_PERMISSION),
    (has_flag (u32 flags) GET_APPLICATION_INFO_WITH_METADATA),
    (has_flag (u32 flags) GET_APPLICATION_INFO_WITH_CERTIFICATE_FINGERPRINT),
    (im_isEntry m), (im_isModuleJson m), (0 <? length (mdl_customizeData (im_metaData m)))%nat,
    (0 <? length (im_metadata m))%nat; simpl; rewrite <- ?app_assoc; split_and!; try done; by destruct ms.
Qed.

(** The application information of a user is the stored one with the
    user's token, uid and enabled state, the modules in package order, and,
    when asked for, the permissions requested by the modules without
    duplicates; the fingerprint is given only when asked for or when the
    bundle has no module; for a user who does not have the bundle the
    caller's object is left as it is. *)
Lemma GetApplicationInfo_correct `{StdSort} flags userId i out :
  app_permissions (ib_baseApplicationInfo i) = [] →
  let '(found, u) := GetInnerBundleUserInfo userId i new_InnerBundleUserInfo in
  let a := GetApplicationInfo flags userId i out in
  let ms := sm_vals (ib_innerModuleInfos i) in
  let base := ib_baseApplicationInfo i in
  (found = false → a = out)
  ∧ (found = true →
      app_accessTokenId a = ibu_accessTokenId u ∧ app_uid a = ibu_uid u
      ∧ app_enabled a = bu_enabled (ibu_bundleUserInfo u) ∧ app_bundleName a = app_bundleName base
      ∧ app_moduleInfos a = app_moduleInfos base ++ module_infos ms
      ∧ NoDup (app_permissions a)
      ∧ (∀ p, p ∈ app_permissions a ↔
           has_flag (u32 flags) GET_APPLICATION_INFO_WITH_PERMISSION = true
           ∧ ∃ m, m ∈ ms ∧ p ∈ map rp_name (im_requestPermissions m))
      ∧ app_fingerprint a
          = (if has_flag (u32 flags) GET_APPLICATION_INFO_WITH_CERTIFICATE_FINGERPRINT || bool_decide (ms = [])
             then app_fingerprint base else "")).
Proof.
  intros Hbase. unfold GetApplicationInfo.
  destruct (GetInnerBundleUserInfo userId i new_InnerBundleUserInfo) as [found u] eqn:E.
  split; intros ->; [done|]. simpl negb. cbv iota.
  set (a0 := (ib_baseApplicationInfo i) <| app_accessTokenId := ibu_accessTokenId u |>
    <| app_enabled := bu_enabled (ibu_bundleUserInfo u) |> <| app_uid := ibu_uid u |>).
  destruct (application_modules_spec flags (sm_vals (ib_innerModuleInfos i)) a0)
    as (H1 & H2 & H3 & H4 & H5 & _ & H6 & H7).
  set (a := foldl _ _ _) in *.
  assert (app_permissions a0 = []) as Hp0 by done. rewrite Hp0 in H6. simpl in H6.
  assert (∀ p, p ∈ app_permissions a ↔ has_flag (u32 flags) GET_APPLICATION_INFO_WITH_PERMISSION = true
    ∧ ∃ m, m ∈ sm_vals (ib_innerModuleInfos i) ∧ p ∈ map rp_name (im_requestPermissions m)) as Hiff.
  { intros p. rewrite H6. destruct (has_flag _ _); [rewrite elem_of_concat_map; naive_solver|set_solver]. }
  destruct (app_permissions a) as [|p ps] eqn:Ep.
  - rewrite Ep. split_and!; try done. constructor.
  - destruct (RemoveDuplicateName_spec (p :: ps)) as [ND Hin]. simpl. rewrite Ep.
    split_and!; try done. intros q. by rewrite Hin.
Qed.

(** * Bundle information *)

Lemma FindHapModuleInfo_some `{StdSort} p userId i :
  is_Some (FindHapModuleInfo p userId i) ↔ FindModule p i = true.
Proof.
  rewrite FindModule_spec. unfold FindHapModuleInfo. destruct (_ !! p); [|done].
  split; intros _; eauto.
Qed.

(** Every module is in the map under its own package. *)
Definition packages_wf (i : InnerBundleInfo) : Prop :=
  ∀ k m, (k, m) ∈ elems (ib_innerModuleInfos i) → im_modulePackage m = k.

Section BundleInfo.
Context `{StdSort}.
Context (GetReqPermissions : Z → bool → option (list PermissionStateFull)).

(** The information objects of the modules, in package order. *)
Definition hap_infos (flags userId : Z) (i : InnerBundleInfo) (ms : list InnerModuleInfo) : list HapModuleInfo :=
  omap (λ m, GetModuleWithHashValue flags (im_modulePackage m) i <$> FindHapModuleInfo (im_modulePackage m) userId i) ms.

Lemma bundle_modules_spec flags i userId ms b :
  Forall (λ m, is_Some (FindHapModuleInfo (im_modulePackage m) userId i)) ms →
  let r := foldl (bundle_module flags i userId) b ms in
  bi_uid r = bi_uid b ∧ bi_abilityInfos r = bi_abilityInfos b ∧ bi_extensionInfos r = bi_extensionInfos b
  ∧ bi_applicationInfo r = bi_applicationInfo b
  ∧ bi_hapModuleNames r = bi_hapModuleNames b ++ map im_modulePackage ms
  ∧ bi_hapModuleInfos r = bi_hapModuleInfos b ++ hap_infos flags userId i ms
  ∧ bi_moduleNames r = bi_moduleNames b ++ map im_moduleName ms
  ∧ bi_moduleDirs r = bi_moduleDirs b ++ map im_modulePath ms.
Proof.
  revert b. induction ms as [|m ms IH]; intros b; simpl; [by rewrite !app_nil_r|].
  rewrite Forall_cons. intros [[h Hh] Hms].
  destruct (IH (bundle_module flags i userId b m) Hms) as (-> & -> & -> & -> & -> & -> & -> & ->).
  unfold bundle_module. rewrite Hh. simpl.
  destruct (has_flag _ _); simpl; by rewrite <- !app_assoc.
Qed.

Lemma enabled_abilities_spec flags i userId l b :
  let skip a := negb (any_flag (u32 flags) GET_ABILITY_INFO_WITH_DISABLE) && negb (IsAbilityEnabled a userId i) in
  let r := foldl (λ b ability,
      let isEnabled := IsAbilityEnabled ability userId i in
      if negb (any_flag (u32 flags) GET_ABILITY_INFO_WITH_DISABLE) && negb isEnabled then b
      else b <| bi_abilityInfos ::= λ l, l ++ [ability <| ai_enabled := isEnabled |>] |>) b l in
  bi_abilityInfos r = bi_abilityInfos b
    ++ map (λ a, a <| ai_enabled := IsAbilityEnabled a userId i |>) (filter (λ a, skip a = false) l)
  ∧ r = b <| bi_abilityInfos := bi_abilityInfos r |>.
Proof.
  simpl. revert b. induction l as [|a l IH]; intros b; simpl; [rewrite app_nil_r; split; [done|by destruct b]|].
  rewrite filter_cons. destruct (_ && _) eqn:E.
  - destruct (IH b) as [-> H2]. rewrite decide_False by done. split; [done|]. exact H2.
  - destruct (IH (b <| bi_abilityInfos ::= λ l, l ++ [a <| ai_enabled := IsAbilityEnabled a userId i |>] |>)) as [H1 H2].
    split; [rewrite H1, decide_True by done; simpl; by rewrite <- app_assoc|]. rewrite H2 at 1. done.
Qed.
End BundleInfo.

Lemma packages_found `{StdSort} userId i :
  sm_wf (ib_innerModuleInfos i) → packages_wf i →
  Forall (λ m, is_Some (FindHapModuleInfo (im_modulePackage m) userId i)) (sm_vals (ib_innerModuleInfos i)).
Proof.
  intros Hwf Hp. apply Forall_forall. intros m ([k m'] & -> & Hk)%list_elem_of_fmap.
  apply FindHapModuleInfo_some, FindModule_spec. simpl. rewrite (Hp _ _ Hk). exists m'.
  by apply sm_elem_lookup.
Qed.

Lemma GetRequestPermissionStates_keeps P b :
  let r := (GetRequestPermissionStates P b).1 in
  r = b <| bi_reqPermissionStates := bi_reqPermissionStates r |>.
Proof.
  unfold GetRequestPermissionStates. destruct (bi_reqPermissions b); simpl; [by destruct b|].
  destruct (GetAllReqPermissionStateFull _ _); simpl; [done|by destruct b].
Qed.

(** C26: the bundle information of a user who has the bundle lists every
    module of the bundle, in package order, with its HAP information; the
    abilities, when asked for, are those enabled for the user, or all of them
    when disabled ones are asked for too, each with the user's enabled state;
    the extensions, when asked for, are the enabled ones; the uid is the
    user's.  For a user who does not have the bundle the caller's object is
    left as it is. *)
Theorem GetBundleInfo_correct `{StdSort} P flags userId i out :
  sm_wf (ib_innerModuleInfos i) → packages_wf i →
  bi_abilityInfos (ib_baseBundleInfo i) = [] → bi_extensionInfos (ib_baseBundleInfo i) = [] →
  bi_hapModuleInfos (ib_baseBundleInfo i) = [] → bi_moduleNames (ib_baseBundleInfo i) = [] →
  let '(found, u) := GetInnerBundleUserInfo userId i new_InnerBundleUserInfo in
  let b := GetBundleInfo P flags userId i out in
  let ms := sm_vals (ib_innerModuleInfos i) in
  let shown a := any_flag (u32 flags) GET_ABILITY_INFO_WITH_DISABLE || IsAbilityEnabled a userId i in
  (found = false → b = out)
  ∧ (found = true →
      bi_uid b = ibu_uid u
      ∧ bi_moduleNames b = map im_moduleName ms
      ∧ bi_hapModuleInfos b = hap_infos flags userId i ms
      ∧ bi_abilityInfos b
        = (if any_flag (u32 flags) GET_BUNDLE_WITH_ABILITIES
           then map (λ a, a <| ai_enabled := IsAbilityEnabled a userId i |>)
                  (filter (λ a, shown a = true) (sm_vals (ib_baseAbilityInfos i)))
           else [])
      ∧ bi_extensionInfos b
        = (if has_flag (u32 flags) GET_BUNDLE_WITH_EXTENSION_INFO
           then filter (λ e, ext_enabled e = true) (sm_vals (ib_baseExtensionInfos i)) else [])).
Proof.
  intros Hwf Hp Ha He Hm Hn. unfold GetBundleInfo.
  destruct (GetInnerBundleUserInfo userId i new_InnerBundleUserInfo) as [found u] eqn:E.
  split; intros ->; [done|]. simpl negb. cbv iota.
  match goal with |- context [foldl (bundle_module flags i userId) ?b _] => set (b0 := b) end.
  assert (bi_uid b0 = ibu_uid u ∧ bi_abilityInfos b0 = [] ∧ bi_extensionInfos b0 = [] ∧ bi_hapModuleInfos b0 = []
    ∧ bi_moduleNames b0 = []) as (Hu & Ha0 & He0 & Hm0 & Hn0) by (unfold b0; destruct (ibu_gids u); done).
  destruct (bundle_modules_spec flags i userId _ b0 (packages_found userId i Hwf Hp))
    as (H1 & H2 & H3 & _ & _ & H6 & H7 & _).
  set (b1 := foldl _ b0 _) in *. clearbody b1. rewrite Hu in H1. rewrite Ha0 in H2. rewrite He0 in H3.
  rewrite Hm0 in H6. rewrite Hn0 in H7. clearbody b0. simpl in H6, H7.
  match goal with |- context [GetBundleWithAbilities flags i userId ?b] => set (b2 := b) end.
  assert (bi_uid b2 = bi_uid b1 ∧ bi_abilityInfos b2 = bi_abilityInfos b1 ∧ bi_extensionInfos b2 = bi_extensionInfos b1
    ∧ bi_hapModuleInfos b2 = bi_hapModuleInfos b1 ∧ bi_moduleNames b2 = bi_moduleNames b1) as (G1 & G2 & G3 & G4 & G5).
  { unfold b2. destruct (has_flag (u32 flags) GET_BUNDLE_WITH_REQUESTED_PERMISSION); [|done].
    match goal with |- context [GetRequestPermissionStates P ?b] => pose proof (GetRequestPermissionStates_keeps P b) as -> end.
    destruct (bi_reqPermissions b1); simpl; destruct (bi_defPermissions b1); done. }
  clearbody b2. unfold GetBundeleWithExtension, GetBundleWithAbilities.
  destruct (enabled_abilities_spec flags i userId (sm_vals (ib_baseAbilityInfos i)) b2) as [K1 K2].
  assert (filter (λ a, negb (any_flag (u32 flags) GET_ABILITY_INFO_WITH_DISABLE) && negb (IsAbilityEnabled a userId i) = false)
      (sm_vals (ib_baseAbilityInfos i))
    = filter (λ a, any_flag (u32 flags) GET_ABILITY_INFO_WITH_DISABLE || IsAbilityEnabled a userId i = true)
      (sm_vals (ib_baseAbilityInfos i))) as HF.
  { apply list_filter_iff. intros a. destruct (any_flag _ _), (IsAbilityEnabled _ _ _); simpl; intuition congruence. }
  rewrite HF in K1. destruct (any_flag (u32 flags) GET_BUNDLE_WITH_ABILITIES).
  - set (b3 := foldl _ b2 _) in *. clearbody b3. rewrite K2.
    destruct (has_flag (u32 flags) GET_BUNDLE_WITH_EXTENSION_INFO); simpl; rewrite ?K1, ?G1, ?G2, ?G3, ?G4, ?G5, ?H1, ?H2, ?H3; done.
  - destruct (has_flag (u32 flags) GET_BUNDLE_WITH_EXTENSION_INFO); simpl; rewrite ?G1, ?G2, ?G3, ?G4, ?G5, ?H1, ?H2, ?H3; done.
Qed.

(** The hash value of a module is handed out whenever one of the bits of
    GET_BUNDLE_WITH_HASH_VALUE is set: asking for the requested permissions
    or for the extensions alone is enough, although each of those two is a
    flag of its own and the hash flag is their union. *)
Theorem hash_value_disclosed flags p i h m :
  ib_innerModuleInfos i !! p = Some m → 0 <= flags < 2 ^ 31 →
  hm_hashValue (GetModuleWithHashValue flags p i h)
  = if has_flag flags GET_BUNDLE_WITH_REQUESTED_PERMISSION || has_flag flags GET_BUNDLE_WITH_EXTENSION_INFO
    then im_hashValue m else hm_hashValue h.
Proof.
  intros Hm Hf. unfold GetModuleWithHashValue. rewrite u32_id by (unfold in_u32, UINT32_MAX; lia).
  assert (any_flag flags GET_BUNDLE_WITH_HASH_VALUE
    = has_flag flags GET_BUNDLE_WITH_REQUESTED_PERMISSION || has_flag flags GET_BUNDLE_WITH_EXTENSION_INFO) as ->.
  { change GET_BUNDLE_WITH_HASH_VALUE with (Z.lor (2 ^ 4) (2 ^ 5)).
    change GET_BUNDLE_WITH_REQUESTED_PERMISSION with (2 ^ 4). change GET_BUNDLE_WITH_EXTENSION_INFO with (2 ^ 5).
    unfold any_flag, has_flag. rewrite Z.land_lor_distr_r, <- !land_bit by lia.
    by destruct (Z.testbit flags 4), (Z.testbit flags 5). }
  destruct (_ || _); simpl; [by rewrite Hm|done].
Qed.

(** * Permission states *)

Lemma permission_state_length states deviceId req :
  (length (permission_state states deviceId req) <= 1)%nat.
Proof.
  unfold permission_state. destruct (List.find _ states); [|simpl; lia].
  destruct (List.find _ _); simpl; lia.
Qed.

Lemma concat_singletons {A B} (f : A → list B) l :
  (∀ a, length (f a) <= 1)%nat →
  (length (concat (map f l)) = length l ↔ ∀ a, a ∈ l → length (f a) = 1%nat)
  ∧ (length (concat (map f l)) <= length l)%nat.
Proof.
  intros Hf. induction l as [|a l [IH1 IH2]]; simpl; [split; [split; [set_solver|done]|lia]|].
  rewrite length_app. pose proof (Hf a). split; [|lia]. split.
  - intros Hl x [->|Hx]%elem_of_cons; [lia|]. apply IH1; [lia|done].
  - intros Hx. rewrite (Hx a) by set_solver. f_equal. apply IH1. set_solver.
Qed.

(** The permission states answered for a bundle are the states of its
    requested permissions one for one exactly when every requested
    permission that the token knows has a status for the device of the
    application; a permission without one is skipped, and the states of the
    permissions after it move up. *)
Theorem permission_states_aligned P b states :
  GetAllReqPermissionStateFull P (app_accessTokenId (bi_applicationInfo b)) = Some states →
  bi_reqPermissionStates b = [] →
  let device := app_deviceId (bi_applicationInfo b) in
  let '(b', ok) := GetRequestPermissionStates P b in
  ok = true
  ∧ (length (bi_reqPermissionStates b') <= length (bi_reqPermissions b))%nat
  ∧ (length (bi_reqPermissionStates b') = length (bi_reqPermissions b) ↔
       ∀ req, req ∈ bi_reqPermissions b →
         match List.find (λ p, bool_decide (psf_permissionName p = req)) states with
         | Some p => existsb (λ d, bool_decide (d.1 = device)) (psf_grantStatus p) = true
         | None => True
         end).
Proof.
  intros Hstates Hempty. simpl. unfold GetRequestPermissionStates.
  destruct (concat_singletons (permission_state states (app_deviceId (bi_applicationInfo b))) (bi_reqPermissions b)
    (permission_state_length _ _)) as [Hiff Hle].
  assert (∀ req, length (permission_state states (app_deviceId (bi_applicationInfo b)) req) = 1%nat ↔
    match List.find (λ p, bool_decide (psf_permissionName p = req)) states with
    | Some p => existsb (λ d, bool_decide (d.1 = app_deviceId (bi_applicationInfo b))) (psf_grantStatus p) = true
    | None => True
    end) as Hone.
  { intros req. unfold permission_state. destruct (List.find _ states) as [p|]; [|done].
    destruct (List.find _ (psf_grantStatus p)) as [d|] eqn:Ed; simpl.
    - apply find_some in Ed as [Hd Hb]. split; [|done]. intros _. apply existsb_exists. by exists d.
    - split; [done|]. intros (d & Hd & Hb)%existsb_exists. by rewrite (find_none _ _ Ed _ Hd) in Hb. }
  destruct (bi_reqPermissions b) as [|r rs] eqn:Er.
  - rewrite Hempty. simpl. split_and!; [done|lia|]. split; [intros _ req Hr; by apply not_elem_of_nil in Hr|done].
  - rewrite Hstates. cbn -[permission_state map concat]. rewrite Hempty, app_nil_l.
    split_and!; [done|done|]. rewrite Hiff. by setoid_rewrite Hone.
Qed.

(** ** A sort, and an example of each query *)

Definition key_not_above {A} (key : A → string) (a b : A) : Prop := string_lt (key b) (key a) = false.

#[export] Instance key_not_above_dec {A} (key : A → string) : RelDecision (key_not_above key).
Proof. intros a b. unfold key_not_above. apply _. Defined.

Program Definition merge_std_sort : StdSort := {|
  std_sort A key l := merge_sort (key_not_above key) l;
|}.
Next Obligation. intros A key l. apply merge_sort_Permutation. Qed.
Next Obligation.
  intros A key l. apply StronglySorted_merge_sort.
  - intros a b c [H1|H1]%string_le_cases [H2|H2]%string_le_cases.
    + rewrite H1, H2. apply string_lt_irrefl.
    + rewrite H1. destruct (string_lt (key c) (key b)) eqn:E; [|done].
      pose proof (string_lt_trans _ _ _ E H2) as H. by rewrite string_lt_irrefl in H.
    + rewrite <- H2. destruct (string_lt (key b) (key a)) eqn:E; [|done].
      pose proof (string_lt_trans _ _ _ E H1) as H. by rewrite string_lt_irrefl in H.
    + pose proof (string_lt_trans _ _ _ H1 H2) as H12. destruct (string_lt (key c) (key a)) eqn:E; [|done].
      pose proof (string_lt_trans _ _ _ E H12) as H. by rewrite string_lt_irrefl in H.
  - intros a b. destruct (string_lt (key b) (key a)) eqn:E; [|by left]. right.
    destruct (string_lt (key a) (key b)) eqn:E'; [|done].
    pose proof (string_lt_trans _ _ _ E E') as H. by rewrite string_lt_irrefl in H.
Qed.

Definition demo_requests : InnerBundleInfo :=
  Eval vm_compute in
  (on_first_module "entry" (λ m, m <| im_requestPermissions := [mkRequestPermission "ohos.B" "" 0 new_RequestPermissionUsedScene;
     mkRequestPermission "ohos.A" "" 0 new_RequestPermissionUsedScene; mkRequestPermission "ohos.B" "" 0 new_RequestPermissionUsedScene] |>) demo_shared).

Example demo_request_names :
  map rp_name (@GetAllRequestPermissions merge_std_sort demo_requests) = ["ohos.A"; "ohos.B"].
Proof. vm_compute. reflexivity. Qed.

Lemma GetApplicationInfo_correct_witness :
  app_uid (@GetApplicationInfo merge_std_sort GET_APPLICATION_INFO_WITH_PERMISSION 0 demo_requests new_ApplicationInfo)
  = 10000.
Proof.
  pose proof (@GetApplicationInfo_correct merge_std_sort GET_APPLICATION_INFO_WITH_PERMISSION 0 demo_requests
    new_ApplicationInfo eq_refl) as H.
  change (GetInnerBundleUserInfo 0 demo_requests new_InnerBundleUserInfo) with (true, demo_user 0) in H.
  destruct H as [_ H]. destruct (H eq_refl) as (_ & Hu & _). rewrite Hu. reflexivity.
Defined.

Lemma demo_packages_wf : packages_wf demo_requests.
Proof.
  intros k m Hk. change (elems (ib_innerModuleInfos demo_requests))
    with [("entry", default new_InnerModuleInfo (ib_innerModuleInfos demo_requests !! "entry"))] in Hk.
  apply list_elem_of_singleton in Hk. injection Hk as -> ->. reflexivity.
Qed.

Lemma GetBundleInfo_correct_witness :
  bi_moduleNames (@GetBundleInfo merge_std_sort (λ _ _, None) 0 0 demo_requests new_BundleInfo) = ["entry"].
Proof.
  pose proof (@GetBundleInfo_correct merge_std_sort (λ _ _, None) 0 0 demo_requests new_BundleInfo
    ltac:(repeat constructor) demo_packages_wf eq_refl eq_refl eq_refl eq_refl) as H.
  change (GetInnerBundleUserInfo 0 demo_requests new_InnerBundleUserInfo) with (true, demo_user 0) in H.
  destruct H as [_ H]. destruct (H eq_refl) as (_ & Hn & _). rewrite Hn. reflexivity.
Defined.

Definition demo_hash : InnerBundleInfo :=
  new_InnerBundleInfo <| ib_innerModuleInfos := <["entry" := new_InnerModuleInfo <| im_hashValue := "5e" |>]> ∅ |>.

(** Asking for the extensions gives the hash value. *)
Lemma hash_value_disclosed_witness :
  hm_hashValue (GetModuleWithHashValue GET_BUNDLE_WITH_EXTENSION_INFO "entry" demo_hash new_HapModuleInfo) = "5e".
Proof.
  rewrite (hash_value_disclosed GET_BUNDLE_WITH_EXTENSION_INFO "entry" demo_hash new_HapModuleInfo
    (new_InnerModuleInfo <| im_hashValue := "5e" |>)); [reflexivity|reflexivity|unfold GET_BUNDLE_WITH_EXTENSION_INFO; lia].
Defined.

(** A token that knows "ohos.A" for no device and "ohos.B" for this one. *)
Definition demo_token (tokenId : Z) (isSystemGrant : bool) : option (list PermissionStateFull) :=
  Some (if isSystemGrant then [] else [mkPermissionStateFull "ohos.A" true [] []; mkPermissionStateFull "ohos.B" true [("", 0)] [0]]).

Lemma permission_states_aligned_witness :
  bi_reqPermissionStates
    (GetRequestPermissionStates demo_token (new_BundleInfo <| bi_reqPermissions := ["ohos.A"; "ohos.B"] |>)).1 = [0]
  ∧ (GetRequestPermissionStates demo_token (new_BundleInfo <| bi_reqPermissions := ["ohos.A"; "ohos.B"] |>)).2 = true.
Proof.
  split; [reflexivity|].
  pose proof (permission_states_aligned demo_token (new_BundleInfo <| bi_reqPermissions := ["ohos.A"; "ohos.B"] |>)
    [mkPermissionStateFull "ohos.A" true [] []; mkPermissionStateFull "ohos.B" true [("", 0)] [0]] eq_refl eq_refl) as H.
  cbv zeta in H. destruct (GetRequestPermissionStates _ _) as [b ok]. apply H.
Defined.
