(* ===== verification/InstallInfo.v ===== *)
(** * InstallInfo: what the installers ask of a bundle and write into it

    The accessors of services/bundlemgr/include/inner_bundle_info.h that the
    installers use: version and vendor of the bundle, the paths of the current
    module (the one an installed HAP holds), the install mark. *)

From stdpp Require Import strings list.
From S2P Require Import Prelude Strings StdMap BundleTypes InnerBundleInfo InnerBundleQuery.

Open Scope string_scope.
Open Scope list_scope.
Open Scope Z_scope.

Implicit Types (i : InnerBundleInfo).

(** ** The bundle *)

Definition GetApplicationName i : string := app_name (ib_baseApplicationInfo i).
Definition GetVersionCode i : Z := bi_versionCode (ib_baseBundleInfo i).
Definition GetVersionName i : string := bi_versionName (ib_baseBundleInfo i).
Definition GetVendor i : string := bi_vendor (ib_baseBundleInfo i).
Definition GetCompatibleVersion i : Z := bi_compatibleVersion (ib_baseBundleInfo i).
Definition GetTargetVersion i : Z := bi_targetVersion (ib_baseBundleInfo i).
Definition GetReleaseType i : string := bi_releaseType (ib_baseBundleInfo i).
Definition GetMinCompatibleVersionCode i : Z := bi_minCompatibleVersionCode (ib_baseBundleInfo i).
Definition GetEntryInstallationFree i : bool := bi_entryInstallationFree (ib_baseBundleInfo i).
Definition IsSingleton i : bool := app_singleton (ib_baseApplicationInfo i).
Definition IsRemovable i : bool := app_removable (ib_baseApplicationInfo i).
(** A member of an [AbilityInfo] has no default; the name has. *)
Definition GetMainAbility i : string := ai_name (GetMainAbilityInfo i (new_AbilityInfo 0)).
Definition GetModuleNameVec i : list string := sm_keys (ib_innerModuleInfos i).

Definition SetInstallMark (bundleName packageName : string) (status : Z) i : InnerBundleInfo :=
  i <| ib_mark := mkInstallMark bundleName packageName status |>.
Definition SetEntryInstallationFree (installationFree : bool) i : InnerBundleInfo :=
  i <| ib_baseBundleInfo ::= λ b, b <| bi_entryInstallationFree := installationFree |> |>.
Definition SetProvisionId (provisionId : string) i : InnerBundleInfo :=
  i <| ib_baseBundleInfo ::= λ b, b <| bi_appId := bi_name b +:+ FILE_UNDERLINE +:+ provisionId |> |>.
Definition SetAppFeature (appFeature : string) i : InnerBundleInfo := i <| ib_appFeature := appFeature |>.
Definition SetCertificateFingerprint (fingerprint : string) i : InnerBundleInfo :=
  i <| ib_baseApplicationInfo ::= λ a, a <| app_fingerprint := fingerprint |> |>.
Definition SetIsFreeInstallApp (isFreeInstall : bool) i : InnerBundleInfo :=
  i <| ib_baseApplicationInfo ::= λ a, a <| app_isFreeInstallApp := isFreeInstall |> |>.
Definition SetIsPreInstallApp (isPreInstallApp : bool) i : InnerBundleInfo :=
  i <| ib_baseBundleInfo ::= λ b, b <| bi_isPreInstallApp := isPreInstallApp |> |>.
Definition SetUserId (userId : Z) i : InnerBundleInfo := i <| ib_userId := userId |>.
Definition SetOnlyCreateBundleUser (b : bool) i : InnerBundleInfo := i <| ib_onlyCreateBundleUser := b |>.
Definition SetAppIndex (appIndex : Z) i : InnerBundleInfo := i <| ib_appIndex := appIndex |>.
Definition SetIsSandbox (isSandbox : bool) i : InnerBundleInfo := i <| ib_isSandboxApp := isSandbox |>.
Definition CleanInnerBundleUserInfos i : InnerBundleInfo := i <| ib_innerBundleUserInfos := ∅ |>.

(** ** Paths *)

Definition GetAppCodePath i : string := app_codePath (ib_baseApplicationInfo i).
Definition SetAppCodePath (codePath : string) i : InnerBundleInfo :=
  i <| ib_baseApplicationInfo ::= λ a, a <| app_codePath := codePath |> |>.
Definition SetAppDataBaseDir (dataBaseDir : string) i : InnerBundleInfo :=
  i <| ib_baseApplicationInfo ::= λ a, a <| app_dataBaseDir := dataBaseDir |> |>.

(** A member of a module, "" when the bundle has not got it. *)
Definition module_string (f : InnerModuleInfo → string) (modulePackage : string) i : string :=
  match ib_innerModuleInfos i !! modulePackage with None => "" | Some m => f m end.
Definition GetModuleName : string → InnerBundleInfo → string := module_string im_moduleName.
Definition GetModuleDir : string → InnerBundleInfo → string := module_string im_modulePath.
Definition GetModuleDataDir : string → InnerBundleInfo → string := module_string im_moduleDataDir.

(** ** The current module *)

Definition SetCurrentModulePackage (modulePackage : string) i : InnerBundleInfo := i <| ib_currentPackage := modulePackage |>.

(** [if (innerModuleInfos_.count(currentPackage_) == 1) f(innerModuleInfos_.at(currentPackage_))] *)
Definition on_current (f : InnerModuleInfo → InnerModuleInfo) i : InnerBundleInfo :=
  match ib_innerModuleInfos i !! ib_currentPackage i with
  | None => i
  | Some m => i <| ib_innerModuleInfos ::= insert (ib_currentPackage i) (f m) |>
  end.

Definition AddModuleSrcDir (moduleSrcDir : string) : InnerBundleInfo → InnerBundleInfo :=
  on_current (λ m, m <| im_modulePath := moduleSrcDir |>).
Definition SetModuleHapPath (hapPath : string) : InnerBundleInfo → InnerBundleInfo :=
  on_current (λ m, m <| im_hapPath := hapPath |>).
Definition SetModuleHashValue (hashValue : string) : InnerBundleInfo → InnerBundleInfo :=
  on_current (λ m, m <| im_hashValue := hashValue |>).

Definition AddModuleResPath (moduleSrcDir : string) i : InnerBundleInfo :=
  match ib_innerModuleInfos i !! ib_currentPackage i with
  | None => i
  | Some m =>
      let moduleResPath :=
        if ib_isNewVersion i then moduleSrcDir +:+ PATH_SEPARATOR +:+ RESOURCES_INDEX
        else moduleSrcDir +:+ PATH_SEPARATOR +:+ ASSETS_DIR +:+ PATH_SEPARATOR
             +:+ di_moduleName (im_distro m) +:+ PATH_SEPARATOR +:+ RESOURCES_INDEX in
      i <| ib_innerModuleInfos ::= insert (ib_currentPackage i) (m <| im_moduleResPath := moduleResPath |>) |>
        <| ib_baseAbilityInfos ::= map_values (λ _ a, a <| ai_resourcePath := moduleResPath |>) |>
        <| ib_baseExtensionInfos ::= map_values (λ _ e, e <| ext_resourcePath := moduleResPath |>) |>
  end.

(** [SetUid] and [SetGid] do nothing. *)
Definition RestoreFromOldInfo (oldInfo i : InnerBundleInfo) : InnerBundleInfo :=
  (SetAppCodePath (GetAppCodePath oldInfo) i) <| ib_baseDataDir := ib_baseDataDir oldInfo |>.

(** [at] throws when the new bundle has no module of that name. *)
Definition RestoreModuleInfo (oldInfo i : InnerBundleInfo) : option InnerBundleInfo :=
  if FindModule (ib_currentPackage i) oldInfo then
    match ib_innerModuleInfos i !! ib_currentPackage i with
    | None => None
    | Some m => Some (i <| ib_innerModuleInfos ::=
                        insert (ib_currentPackage i) (m <| im_moduleDataDir := GetModuleDataDir (ib_currentPackage i) oldInfo |>) |>)
    end
  else Some i.
