(* ===== verification/Profile.v ===== *)
(** * Profile: what the two profile formats have in common

    services/bundlemgr/src/bundle_profile.cpp reads the config.json of a HAP
    file, services/bundlemgr/src/module_profile.cpp the module.json that
    replaced it, with the keys of include/common_profile.h.  Each has a
    variable [parseResult] of the thread, shared by all its from_json
    functions: the [profile] and the [local] component of [Json.ParseState].
    The checks and conversions that both files write out are here: the name
    of a bundle, the background modes, and the choice of the ABI. *)

From stdpp Require Import strings.
From S2P Require Import Prelude Strings StdMap BundleTypes Errors Json InfoJson Skill InnerBundleInfo Parcel BundleJson.
From Stdlib Require Import Ascii.

Open Scope string_scope.
Open Scope list_scope.
Open Scope Z_scope.

(** ** What is outside the repository *)

(** The parameters of the device (parameter.h of the init library) and
    SplitStr of string_ex.h. *)
Class DeviceParameters := {
  GetAbiList : string;
  GetDeviceType : string;
  SplitStr : string → string → bool → bool → list string;
}.

(** ** Reading *)

(** A struct whose from_json reports in the variable of its caller. *)
Definition get_part {A} (new : A) (from_json : json → A → M A) (j : json) : M A := from_json j new.

(** [jsonObject.find(key) != jsonObject.end()] *)
Definition has_key (j : json) (key : string) : bool := match find_key j key with Some _ => true | None => false end.

(** ** The name of a bundle *)

Definition MIN_BUNDLE_NAME : nat := 7.
Definition MAX_BUNDLE_NAME : nat := 255.

Definition char_lt (a b : ascii) : bool := (N_of_ascii a <? N_of_ascii b)%N.

(** ** Background modes *)

Definition BACKGROUND_MODES_MAP : list (string * Z) := [
  ("dataTransfer", 1); ("audioPlayback", 2); ("audioRecording", 4); ("location", 8); ("bluetoothInteraction", 16);
  ("multiDeviceConnection", 32); ("wifiInteraction", 64); ("voip", 128); ("taskKeeping", 256);
  ("pictureInPicture", 512); ("screenFetch", 1024)].

(** [for (item : items) if (m.find(item) != m.end()) flags |= m.at(item)] *)
Definition flags_of (m : list (string * Z)) (items : list string) : Z :=
  foldl (λ flags item, match assoc_find item m with Some b => Z.lor flags b | None => flags end) 0 items.

(** ** The ABI *)

Definition ABI_DEFAULT : string := "default".
Definition ABI_SEPARATOR : string := ",".
Definition ARM_EABI : string := "armeabi".
Definition ARM_EABI_V7A : string := "armeabi-v7a".
Definition LIBS : string := "libs/".
Definition LIBS_ARM_EABI_V7A : string := "libs/armeabi-v7a/".
Definition ARM : string := "arm".

(** In the order of the map. *)
Definition ABI_MAP : list (string * string) := [
  ("arm64-v8a", "arm64"); ("armeabi", "arm"); ("armeabi-v7a", "arm"); ("x86", "x86"); ("x86_64", "x86_64")].

Definition set_native (nativeLibraryPath cpuAbi : string) (a : ApplicationInfo) : ApplicationInfo :=
  a <| app_nativeLibraryPath := nativeLibraryPath |> <| app_cpuAbi := cpuAbi |>.

(** The first ABI of the list that is known and has libraries. *)
Fixpoint pick_abi (IsDirExist : string → bool) (abiList : list string) : option (string * string) :=
  match abiList with
  | [] => None
  | abi :: abiList' =>
      match assoc_find abi ABI_MAP with
      | Some lib => if IsDirExist (LIBS +:+ abi +:+ PATH_SEPARATOR) then Some (abi, lib) else pick_abi IsDirExist abiList'
      | None => pick_abi IsDirExist abiList'
      end
  end.

(** "handle native so", the same block in both files. *)
Definition handle_native_so `{DeviceParameters} (IsDirExist : string → bool) (a : ApplicationInfo) : ApplicationInfo :=
  let abis := GetAbiList in
  let isDefault := bool_decide (abis = ABI_DEFAULT) in
  if negb (IsDirExist LIBS) then
    set_native "" (if isDefault then ARM_EABI_V7A
                   else match List.find (λ item, find_at_start item.1 abis) ABI_MAP with
                        | Some item => item.1
                        | None => ARM_EABI_V7A
                        end) a
  else
    let targetAbi := if IsDirExist LIBS_ARM_EABI_V7A then ARM_EABI_V7A else ARM_EABI in
    let '(targetAbi, targetLibName) :=
      if isDefault then (targetAbi, ARM)
      else default (targetAbi, ARM) (pick_abi IsDirExist (SplitStr abis ABI_SEPARATOR false false)) in
    set_native (LIBS +:+ targetLibName) targetAbi a.

(** ** Building a bundle *)

(** [bundleName.module.name] *)
Definition profile_key (bundleName modulePackage name : string) : string :=
  bundleName +:+ "." +:+ modulePackage +:+ "." +:+ name.

Definition InsertAbilitiesInfo key (v : AbilityInfo) i : InnerBundleInfo := i <| ib_baseAbilityInfos ::= emplace key v |>.
Definition InsertExtensionInfo key (v : ExtensionAbilityInfo) i : InnerBundleInfo := i <| ib_baseExtensionInfos ::= emplace key v |>.
Definition InsertSkillInfo key v i : InnerBundleInfo := i <| ib_skillInfos ::= emplace key v |>.
Definition InsertExtensionSkillInfo key v i : InnerBundleInfo := i <| ib_extensionSkillInfos ::= emplace key v |>.
Definition InsertFormInfos key (v : list FormInfo) i : InnerBundleInfo := i <| ib_formInfos ::= emplace key v |>.
Definition InsertCommonEvents key (v : CommonEventInfo) i : InnerBundleInfo := i <| ib_commonEvents ::= emplace key v |>.
Definition InsertShortcutInfos key (v : ShortcutInfo) i : InnerBundleInfo := i <| ib_shortcutInfos ::= emplace key v |>.
Definition InsertInnerModuleInfo modulePackage (v : InnerModuleInfo) i : InnerBundleInfo :=
  i <| ib_innerModuleInfos ::= emplace modulePackage v |>.
Definition SetBaseApplicationInfo (a : ApplicationInfo) i : InnerBundleInfo := i <| ib_baseApplicationInfo := a |>.
Definition SetBaseBundleInfo (b : BundleInfo) i : InnerBundleInfo := i <| ib_baseBundleInfo := b |>.

(** The loop variables of ToInnerBundleInfo: the bundle, its new module, the
    application, and whether the entry ability was found. *)
Record Building := mkBuilding {
  bd_info : InnerBundleInfo;
  bd_module : InnerModuleInfo;
  bd_app : ApplicationInfo;
  bd_find : bool;
}.
#[export] Instance eta_Building : Eta Building := λ r, mkBuilding (bd_info r) (bd_module r) (bd_app r) (bd_find r).

Definition INTENT_ACTION_HOME : string := "action.system.home".
Definition INTENT_ENTITY_HOME : string := "entity.system.home".
Definition FLAG_HOME_INTENT_FROM_SYSTEM : string := "flag.home.intent.from.system".
Definition has (s : string) (l : list string) : bool := bool_decide (s ∈ l).

(** * Properties of the readers *)

(** No number of [j] has a fraction or an exponent: the conversions to the
    integer types are then all defined. *)
Fixpoint whole (j : json) : bool :=
  match j with
  | JReal _ => false
  | JArray l => forallb whole l
  | JObject m => forallb (λ p, whole p.2) (elems m)
  | _ => true
  end.

Definition read_errors : list Z := [ERR_APPEXECFWK_PARSE_PROFILE_PROP_TYPE_ERROR; ERR_APPEXECFWK_PARSE_PROFILE_MISSING_PROP].

(** A variable that holds an error keeps it. *)
Definition evolves (a b : Z) : Prop := b = a ∨ (a = ERR_OK ∧ b ∈ read_errors).

(** How a reader may change the variables: one that reports in
    [ProfileReader::parseResult], one that reports in [Profile::parseResult],
    one that has a [parseResult] of its own. *)
Inductive Mode := MProfile | MLocal | MNested.
Definition evolve (d : Mode) (s s' : ParseState) : Prop :=
  match d with
  | MProfile => evolves (profile s) (profile s') ∧ local s' = local s
  | MLocal => evolves (local s) (local s')
  | MNested => evolves (profile s) (profile s')
  end.
Definition reports (d : Mode) (v : Var) : bool :=
  match d, v with MProfile, PROFILE | MLocal, LOCAL | MNested, _ => true | _, _ => false end.

#[export] Instance evolve_preorder d : PreOrder (evolve d).
Proof.
  split.
  - intros s. destruct d; simpl; [split; [by left|done]|by left|by left].
  - assert (∀ a b c, evolves a b → evolves b c → evolves a c) as Ht.
    { intros a b c [->|[-> Hb]] [->|[? Hc]]; subst; unfold evolves; auto. }
    intros s1 s2 s3. destruct d; simpl; [|by apply Ht..]. intros [??] [??]. split; [by eapply Ht|congruence].
Qed.

(** [m] gives a result, whatever the variables are. *)
Definition runs {A} (d : Mode) (m : M A) : Prop := ∀ s, ∃ x s', m s = Some (x, s') ∧ evolve d s s'.

Create HintDb runs discriminated.

Lemma runs_ret {A} d (x : A) : runs d (mret x).
Proof. intros s. by exists x, s. Qed.

Lemma runs_bind {A B} d (m : M A) (k : A → M B) : runs d m → (∀ x, runs d (k x)) → runs d (m ≫= k).
Proof.
  intros Hm Hk s. destruct (Hm s) as (x & s1 & Hs1 & He1), (Hk x s1) as (y & s2 & Hs2 & He2).
  exists y, s2. unfold mbind, M_bind. rewrite Hs1. split; [done|by etransitivity].
Qed.

Lemma runs_get_all {A B} d (get : A → M B) l : Forall (λ a, runs d (get a)) l → runs d (get_all get l).
Proof.
  induction 1 as [|a l Ha _ IH]; [apply runs_ret|]. simpl. apply runs_bind; [done|]. intros b.
  apply runs_bind; [done|]. intros bs. apply runs_ret.
Qed.

Lemma whole_find j key value : whole j = true → find_key j key = Some value → whole value = true.
Proof.
  destruct j as [| | | | |l|m]; try done. simpl. intros Hw Hf. rewrite forallb_forall in Hw.
  apply sm_lookup_elem in Hf. apply (Hw (key, value)). by apply list_elem_of_In.
Qed.

Lemma whole_element j key l a : whole j = true → find_key j key = Some (JArray l) → a ∈ l → whole a = true.
Proof.
  intros Hj Hf Hin. pose proof (whole_find _ _ _ Hj Hf) as Hw. simpl in Hw. rewrite forallb_forall in Hw.
  by apply Hw, list_elem_of_In.
Qed.

(** [get] works on the whole values that a field of this type lets through. *)
Definition accepts {A} (d : Mode) (jsonType : JsonType) (arrayType : ArrayType) (get : json → M A) : Prop :=
  ∀ value, whole value = true → has_type jsonType value = true →
    (jsonType = ARRAY → elements_have_type arrayType value = true) → runs d (get value).

Lemma evolve_fail {A} d v error (x : A) s :
  reports d v = true → get_var v s = 0 → error ∈ read_errors →
  ∃ y s', fail_with v error x s = Some (y, s') ∧ evolve d s s'.
Proof.
  intros Hr Hv He. exists x, (set_var v error s). split; [done|].
  destruct d, v; try done; simpl in *; unfold evolves, ERR_OK; auto.
Qed.

Lemma runs_field {A T} d v j key (get : json → M T) jsonType isNecessary arrayType (set : T → A → A) x :
  reports d v = true → whole j = true → accepts d jsonType arrayType get →
  runs d (GetValueIfFindKey v j key get jsonType isNecessary arrayType set x).
Proof.
  intros Hr Hj Hg s. unfold GetValueIfFindKey.
  destruct (Z.eqb_spec (get_var v s) 0) as [Hv|]; simpl; [|by exists x, s].
  assert (TYPE : ERR_APPEXECFWK_PARSE_PROFILE_PROP_TYPE_ERROR ∈ read_errors) by by left.
  assert (MISSING : ERR_APPEXECFWK_PARSE_PROFILE_MISSING_PROP ∈ read_errors) by by right; left.
  destruct (find_key j key) as [value|] eqn:Hf.
  - apply whole_find in Hf; [|done].
    assert (Ha : ∀ value', value' = value → has_type jsonType value' = true →
      (jsonType = ARRAY → elements_have_type arrayType value' = true) → runs d (assign get value' set x)).
    { intros ? -> Ht Ha. apply runs_bind; [by apply Hg|]. intros t. apply runs_ret. }
    destruct jsonType; [by exists x, s|..];
      destruct value as [| | | | |l|m]; simpl; try (by apply evolve_fail); try (by apply Ha); [].
    destruct l as [|a l]; [by exists x, s|].
    destruct arrayType; try (by exists x, s); cbv zeta;
      match goal with |- context [forallb ?p ?q] => destruct (forallb p q) eqn:Hl end;
      solve [by apply evolve_fail | apply Ha; [done|done|intros _; exact Hl]].
  - destruct isNecessary; [by apply evolve_fail|by exists x, s].
Qed.

Lemma accepts_string d at_ : accepts d STRING at_ get_string.
Proof. intros [] _ Ht _; try done. apply runs_ret. Qed.

Lemma accepts_bool d at_ : accepts d BOOLEAN at_ get_bool.
Proof. intros [] _ Ht _; try done. apply runs_ret. Qed.

Lemma accepts_int32 d at_ : accepts d NUMBER at_ get_int32.
Proof. intros [] Hw Ht _; try done. apply runs_ret. Qed.

Lemma accepts_uint32 d at_ : accepts d NUMBER at_ get_uint32.
Proof. intros [] Hw Ht _; try done. apply runs_ret. Qed.

Lemma accepts_strings d : accepts d ARRAY STRINGS (get_vector get_string).
Proof.
  intros [| | | | |l|] _ Ht Hl; try done. specialize (Hl eq_refl). simpl in Hl. apply runs_get_all.
  apply Forall_forall. intros value Hin. rewrite forallb_forall in Hl.
  assert (is_string value = true) as Hs by by apply Hl, list_elem_of_In. destruct value; try done. apply runs_ret.
Qed.

Lemma accepts_objects {A} d (get : json → M A) : accepts d OBJECT NOT_ARRAY get → accepts d ARRAY OBJECTS (get_vector get).
Proof.
  intros Hg [| | | | |l|] Hw Ht Hl; try done. specialize (Hl eq_refl). simpl in Hw, Hl. apply runs_get_all.
  apply Forall_forall. intros value Hin. rewrite forallb_forall in Hl. rewrite forallb_forall in Hw.
  apply Hg; [by apply Hw, list_elem_of_In|by apply Hl, list_elem_of_In|done].
Qed.

Lemma accepts_part {A} d (new : A) from_json :
  (∀ j x, whole j = true → runs d (from_json j x)) → accepts d OBJECT NOT_ARRAY (get_part new from_json).
Proof. intros Hr value Hw _ _. by apply Hr. Qed.

Lemma accepts_struct {A} d (new : A) from_json :
  (∀ j x, whole j = true → runs MNested (from_json j x)) → accepts d OBJECT NOT_ARRAY (get_struct new from_json).
Proof.
  intros Hr value Hw _ _ s. destruct (Hr value new Hw (mkParseState (profile s) 0)) as (x & s' & Hs & He).
  exists x, (mkParseState (profile s') (local s)). unfold get_struct, with_local, mbind, M_bind. rewrite Hs. split; [done|].
  destruct d; simpl in *; [by split|by left|done].
Qed.

#[export] Hint Resolve accepts_string accepts_bool accepts_int32 accepts_uint32 accepts_strings accepts_objects : runs.

Ltac run_fields :=
  repeat lazymatch goal with
  | |- runs _ (mret _) => apply runs_ret
  | |- runs _ (_ ≫= _) => apply runs_bind; [|intros ?; cbv beta]
  | |- runs _ (GetValueIfFindKey _ _ _ _ _ _ _ _ _) => apply runs_field; [reflexivity|assumption|eauto 3 with runs]
  | |- runs _ (if has_key _ _ then _ else _) => destruct has_key
  end.

(** ** The structs that both formats read with their own functions *)

Lemma accepts_SkillUri d : accepts d OBJECT NOT_ARRAY get_SkillUri.
Proof. apply accepts_struct. intros j x Hj. unfold SkillUri_from_json. run_fields. Qed.
#[export] Hint Resolve accepts_SkillUri : runs.

Lemma accepts_Skill d : accepts d OBJECT NOT_ARRAY get_Skill.
Proof. apply accepts_struct. intros j x Hj. unfold Skill_from_json. run_fields. Qed.

Lemma accepts_Distro d : accepts d OBJECT NOT_ARRAY get_Distro.
Proof. apply accepts_struct. intros j x Hj. unfold Distro_from_json. run_fields. Qed.

Lemma accepts_DefinePermission d : accepts d OBJECT NOT_ARRAY get_DefinePermission.
Proof. apply accepts_struct. intros j x Hj. unfold DefinePermission_from_json. run_fields. Qed.

Lemma accepts_RequestPermissionUsedScene d : accepts d OBJECT NOT_ARRAY get_RequestPermissionUsedScene.
Proof. apply accepts_struct. intros j x Hj. unfold RequestPermissionUsedScene_from_json. run_fields. Qed.
#[export] Hint Resolve accepts_RequestPermissionUsedScene : runs.

Lemma accepts_RequestPermission d : accepts d OBJECT NOT_ARRAY get_RequestPermission.
Proof. apply accepts_struct. intros j x Hj. unfold RequestPermission_from_json. run_fields. Qed.
#[export] Hint Resolve accepts_Skill accepts_Distro accepts_DefinePermission accepts_RequestPermission : runs.

(** ** A field that is missing *)

(** [m] reports an error in the variable of its mode. *)
Definition mode_var (d : Mode) (s : ParseState) : Z := match d with MLocal => local s | _ => profile s end.
Definition fails {A} (d : Mode) (m : M A) : Prop :=
  ∀ s, ∃ x s', m s = Some (x, s') ∧ evolve d s s' ∧ mode_var d s' ≠ ERR_OK.

(** One of the keys is not there (as when [j] is not an object). *)
Definition lacks (keys : list string) (j : json) : Prop := Exists (λ key, find_key j key = None) keys.

Lemma evolve_keeps_error d s s' : evolve d s s' → mode_var d s ≠ ERR_OK → mode_var d s' ≠ ERR_OK.
Proof. assert (∀ a b, evolves a b → a ≠ ERR_OK → b ≠ ERR_OK) as Hk by (intros a b [->|[-> _]]; done). destruct d; simpl; naive_solver. Qed.

Lemma fails_runs {A} d (m : M A) : fails d m → runs d m.
Proof. intros Hm s. destruct (Hm s) as (x & s' & Hs & He & _). eauto. Qed.

Lemma fails_left {A B} d (m : M A) (k : A → M B) : fails d m → (∀ x, runs d (k x)) → fails d (m ≫= k).
Proof.
  intros Hm Hk s. destruct (Hm s) as (x & s1 & Hs1 & He1 & Hn), (Hk x s1) as (y & s2 & Hs2 & He2).
  exists y, s2. unfold mbind, M_bind. rewrite Hs1. split; [done|]. split; [by etransitivity|by eapply evolve_keeps_error].
Qed.

Lemma fails_right {A B} d (m : M A) (k : A → M B) : runs d m → (∀ x, fails d (k x)) → fails d (m ≫= k).
Proof.
  intros Hm Hk s. destruct (Hm s) as (x & s1 & Hs1 & He1), (Hk x s1) as (y & s2 & Hs2 & He2 & Hn).
  exists y, s2. unfold mbind, M_bind. rewrite Hs1. split; [done|]. split; [by etransitivity|done].
Qed.

Lemma fails_get_all {A B} d (get : A → M B) l :
  Forall (λ a, runs d (get a)) l → Exists (λ a, fails d (get a)) l → fails d (get_all get l).
Proof.
  intros Hr He. induction He as [a l Ha|a l _ IH]; inversion_clear Hr; simpl.
  - apply fails_left; [done|]. intros b. apply runs_bind; [by apply runs_get_all|]. intros ?; apply runs_ret.
  - apply fails_right; [done|]. intros b. apply fails_left; [by apply IH|]. intros ?; apply runs_ret.
Qed.

(** The variable that a mode is about. *)
Definition mode_owns (d : Mode) (v : Var) : bool :=
  match d, v with MProfile, PROFILE | MLocal, LOCAL | MNested, PROFILE => true | _, _ => false end.

Lemma mode_var_owned d v s : mode_owns d v = true → mode_var d s = get_var v s.
Proof. by destruct d, v. Qed.

Lemma fails_once {A} d v error (x : A) s : mode_owns d v = true → error ∈ read_errors → get_var v s = ERR_OK →
  ∃ y s', fail_with v error x s = Some (y, s') ∧ evolve d s s' ∧ mode_var d s' ≠ ERR_OK.
Proof.
  intros Hv He Hs. exists x, (set_var v error s). split; [done|].
  assert (error ≠ ERR_OK) by (unfold read_errors in He; set_solver).
  destruct d, v; try done; simpl in *; unfold evolves; auto.
Qed.

Section FailingField.
Context {A T : Type} (d : Mode) (v : Var) (j : json) (key : string) (get : json → M T) (set : T → A → A) (x : A).
Context (Hv : mode_owns d v = true).

Lemma fails_missing jsonType arrayType :
  find_key j key = None → fails d (GetValueIfFindKey v j key get jsonType true arrayType set x).
Proof.
  intros Hf s. unfold GetValueIfFindKey. destruct (Z.eqb_spec (get_var v s) 0) as [Hs|Hs]; simpl.
  - rewrite Hf. apply fails_once; [done|by right; left|done].
  - exists x, s. by rewrite (mode_var_owned _ _ _ Hv).
Qed.

Lemma fails_object value b arrayType :
  find_key j key = Some value → (is_object value = true → fails d (get value)) →
  fails d (GetValueIfFindKey v j key get OBJECT b arrayType set x).
Proof.
  intros Hf Hg s. unfold GetValueIfFindKey. destruct (Z.eqb_spec (get_var v s) 0) as [Hs|Hs]; simpl.
  - rewrite Hf. destruct (is_object value); simpl; [|apply fails_once; [done|by left|done]].
    apply fails_left; [by apply Hg|]. intros t. apply runs_ret.
  - exists x, s. by rewrite (mode_var_owned _ _ _ Hv).
Qed.
End FailingField.

Lemma fails_objects {A T} d v j key (get : json → M T) b (set : list T → A → A) x l a :
  mode_owns d v = true → whole j = true → accepts d OBJECT NOT_ARRAY get →
  find_key j key = Some (JArray l) → a ∈ l → (is_object a = true → fails d (get a)) →
  fails d (GetValueIfFindKey v j key (get_vector get) ARRAY b OBJECTS set x).
Proof.
  intros Hv Hj Hg Hf Hin Ha s. unfold GetValueIfFindKey. destruct (Z.eqb_spec (get_var v s) 0) as [Hs|Hs]; simpl.
  2:{ exists x, s. by rewrite (mode_var_owned _ _ _ Hv). }
  rewrite Hf. simpl. destruct l as [|a' l']; [by apply not_elem_of_nil in Hin|]. remember (a' :: l') as l0.
  destruct (forallb is_object l0) eqn:Ho; [|apply fails_once; [done|by left|done]].
  apply fails_left; [|intros t; apply runs_ret].
  rewrite forallb_forall in Ho. pose proof (whole_find _ _ _ Hj Hf) as Hw. simpl in Hw. rewrite forallb_forall in Hw.
  apply fails_get_all.
  - apply Forall_forall. intros e He%list_elem_of_In. apply Hg; [by apply Hw|by apply Ho|done].
  - apply Exists_exists. exists a. split; [done|]. apply Ha, Ho. by apply list_elem_of_In.
Qed.

(** Runs over the fields of a struct to the one that is missing. *)
Ltac fail_fields :=
  repeat (first
    [ apply fails_left; [solve [apply fails_missing; [reflexivity|assumption]]|intros ?; cbv beta; solve [run_fields]]
    | apply fails_right; [solve [run_fields]|intros ?; cbv beta] ]).

Ltac missing_key H :=
  unfold lacks in H; rewrite ?Exists_cons, ?Exists_nil in H;
  repeat (destruct H as [H|H]); first [contradiction|solve [fail_fields]].

(** ** What the readers give *)

(** Every result of [m] has [P]. *)
Definition gives {A} (P : A → Prop) (m : M A) : Prop := ∀ s x s', m s = Some (x, s') → P x.

Lemma gives_ret {A} (P : A → Prop) x : P x → gives P (mret x).
Proof. intros Hx s y s' [= <- _]. done. Qed.

Lemma gives_bind {A B} (P : A → Prop) (Q : B → Prop) (m : M A) (k : A → M B) :
  gives P m → (∀ x, P x → gives Q (k x)) → gives Q (m ≫= k).
Proof.
  intros Hm Hk s y s'. unfold mbind, M_bind. destruct (m s) as [[x s1]|] eqn:E; [|done]. apply Hk. by eapply Hm.
Qed.

Lemma gives_field {A T} (P : A → Prop) (Q : T → Prop) v j key (get : json → M T) jsonType b arrayType (set : T → A → A) x :
  P x → (∀ value, gives Q (get value)) → (∀ t y, Q t → P y → P (set t y)) →
  gives P (GetValueIfFindKey v j key get jsonType b arrayType set x).
Proof.
  intros Hx Hg Hs s y s'. unfold GetValueIfFindKey.
  assert (Hassign : ∀ value, gives P (assign get value set x)).
  { intros value. apply (gives_bind Q); [apply Hg|]. intros t Ht. apply gives_ret. by apply Hs. }
  assert (Hfail : ∀ e, gives P (fail_with v e x)) by (intros e s0 z s0' [= <- _]; done).
  assert (Hkeep : ∀ s0, Some (x, s0) = Some (y, s') → P y) by (intros s0 [= <- _]; done).
  destruct (get_var v s =? 0); simpl; [|apply Hkeep].
  destruct (find_key j key) as [value|]; [|by destruct b; [apply Hfail|apply Hkeep]].
  destruct jsonType; [apply Hkeep|..]; destruct value as [| | | | |l|m]; simpl; try apply Hfail; try apply Hassign.
  destruct l as [|e l]; [apply Hkeep|]. destruct arrayType; try apply Hkeep;
    cbv zeta; match goal with |- context [forallb ?p ?q] => destruct (forallb p q) end; solve [apply Hassign|apply Hfail].
Qed.

Lemma gives_any {A} (m : M A) : gives (λ _, True) m.
Proof. done. Qed.

Lemma gives_int32 value : gives in_i32 (get_int32 value).
Proof.
  intros s x s'. destruct value as [|b|n|n|s0|l|m]; try done; simpl.
  - intros [= <- _]. destruct b; done.
  - intros [= <- _]. apply i32_range.
  - destruct (i32 n =? n) eqn:E; [|done]. intros [= <- _]. apply Z.eqb_eq in E. rewrite <- E. apply i32_range.
Qed.

(** Runs over the fields of a struct; [special] is tried first on each. *)
Ltac give_fields P special :=
  repeat lazymatch goal with
  | |- gives _ (mret _) => apply gives_ret; assumption
  | |- gives _ ((if has_key _ _ then _ else _) ≫= _) => apply (gives_bind P); [destruct (has_key _ _)|intros ? ?; cbv beta]
  | |- gives _ (_ ≫= _) => apply (gives_bind P); [|intros ? ?; cbv beta]
  | |- gives _ (GetValueIfFindKey _ _ _ _ _ _ _ _ _) =>
      first [ solve [special]
            | apply (gives_field P (λ _, True)); [assumption|intros ?; apply gives_any|intros ? ? _ Hy; exact Hy] ]
  end.

(** * What a profile turns into *)

(** A letter, then letters, digits, underscores and dots; 7 to 255 of them. *)
Definition between (a b c : ascii) : bool := ((N_of_ascii a <=? N_of_ascii c) && (N_of_ascii c <=? N_of_ascii b))%N.
Definition letter (c : ascii) : bool := between "A" "Z" c || between "a" "z" c.
Definition name_char (c : ascii) : bool :=
  letter c || between "0" "9" c || bool_decide (c = "_"%char) || bool_decide (c = "."%char).
Definition valid_bundle_name (name : string) : Prop :=
  (MIN_BUNDLE_NAME <= String.length name <= MAX_BUNDLE_NAME)%nat ∧
  (∃ head rest, name = String head rest ∧ letter head = true) ∧ str_forall name_char name = true.

Lemma head_check c : char_lt c "A" || (char_lt "Z" c && char_lt c "a") || char_lt "z" c = negb (letter c).
Proof. by destruct c as [[] [] [] [] [] [] [] []]. Qed.

Lemma char_check c :
  char_lt c "." || bool_decide (c = "/"%char) || (char_lt "9" c && char_lt c "A")
    || (char_lt "Z" c && char_lt c "_") || bool_decide (c = "`"%char) || char_lt "z" c = negb (name_char c).
Proof. by destruct c as [[] [] [] [] [] [] [] []]. Qed.

Lemma str_forall_ext P Q s : (∀ c, P c = Q c) → str_forall P s = str_forall Q s.
Proof. intros He. induction s as [|c s IH]; simpl; [done|]. by rewrite He, IH. Qed.

(** The body of CheckBundleNameIsValid, which both files have. *)
Lemma name_check_iff bundleName :
  match bundleName with
  | EmptyString => false
  | String head _ =>
      if (String.length bundleName <? MIN_BUNDLE_NAME)%nat || (MAX_BUNDLE_NAME <? String.length bundleName)%nat then false
      else if char_lt head "A" || (char_lt "Z" head && char_lt head "a") || char_lt "z" head then false
      else str_forall (λ c,
             negb (char_lt c "." || bool_decide (c = "/"%char) || (char_lt "9" c && char_lt c "A")
                   || (char_lt "Z" c && char_lt c "_") || bool_decide (c = "`"%char) || char_lt "z" c)) bundleName
  end = true ↔ valid_bundle_name bundleName.
Proof.
  unfold valid_bundle_name. destruct bundleName as [|head rest]; [split; [done|intros [[Hm _] _]; by inversion Hm]|].
  rewrite head_check, (str_forall_ext _ name_char) by (intros c; by rewrite char_check, negb_involutive).
  destruct (Nat.ltb_spec (String.length (String head rest)) MIN_BUNDLE_NAME);
    destruct (Nat.ltb_spec MAX_BUNDLE_NAME (String.length (String head rest))); cbn [orb];
    try (split; [done|intros [? _]; lia]).
  destruct (letter head) eqn:Hl; cbn [negb].
  - split; [intros ?; split_and!; eauto|naive_solver].
  - split; [done|]. intros (_ & (c & r & [= <- <-] & ?) & _). congruence.
Qed.

(** No data of an earlier module. *)
Definition fresh (i : InnerBundleInfo) : Prop :=
  ib_innerModuleInfos i = ∅ ∧ ib_baseAbilityInfos i = ∅ ∧ ib_skillInfos i = ∅ ∧ ib_formInfos i = ∅
  ∧ ib_baseExtensionInfos i = ∅ ∧ ib_extensionSkillInfos i = ∅.

Definition keys_are {V} (keys : list string) (m : stdmap string V) : Prop := ∀ k, k ∈ keys ↔ is_Some (m !! k).

(** The module names the abilities that the bundle has, each is under the key
    made of its own names, and its skills are under the same key. *)
Record keyed (name package : string) (m : InnerModuleInfo) (i : InnerBundleInfo) : Prop := mkKeyed {
  kd_package : im_modulePackage m = package;
  kd_abilities : keys_are (im_abilityKeys m) (ib_baseAbilityInfos i);
  kd_ability : ∀ k a, ib_baseAbilityInfos i !! k = Some a →
    k = profile_key name package (ai_name a) ∧ ai_bundleName a = name ∧ ai_package a = package ∧ ai_enabled a = true;
  kd_skillKeys : im_skillKeys m = im_abilityKeys m;
  kd_skills : keys_are (im_skillKeys m) (ib_skillInfos i);
  kd_forms : ∀ k, is_Some (ib_formInfos i !! k) → k ∈ im_abilityKeys m;
  kd_extensions : keys_are (im_extensionKeys m) (ib_baseExtensionInfos i);
  kd_extension : ∀ k e, ib_baseExtensionInfos i !! k = Some e →
    k = profile_key name package (ext_name e) ∧ ext_bundleName e = name ∧ ext_moduleName e = package;
  kd_extensionSkillKeys : im_extensionSkillKeys m = im_extensionKeys m;
  kd_extensionSkills : keys_are (im_extensionSkillKeys m) (ib_extensionSkillInfos i);
}.

(** A bundle of one module, as the installer takes it from the parser. *)
Record profile_wf (name package : string) (m : InnerModuleInfo) (i : InnerBundleInfo) : Prop := mkProfileWf {
  wf_name : valid_bundle_name name;
  wf_application : app_bundleName (ib_baseApplicationInfo i) = name ∧ app_name (ib_baseApplicationInfo i) = name
    ∧ app_enabled (ib_baseApplicationInfo i) = true;
  wf_bundle : bi_name (ib_baseBundleInfo i) = name
    ∧ bi_versionCode (ib_baseBundleInfo i) = app_versionCode (ib_baseApplicationInfo i);
  wf_module : ib_currentPackage i = package ∧ ib_innerModuleInfos i = <[package := m]> ∅;
  wf_keyed : keyed name package m i;
  wf_main : bi_mainEntry (ib_baseBundleInfo i) = if im_isEntry m then package else "";
}.

(** A skill that makes its ability the entry of the module. *)
Definition home_skill (skill : Skill) : bool := has INTENT_ACTION_HOME (sk_actions skill) && has INTENT_ENTITY_HOME (sk_entities skill).

Lemma keys_are_emplace {V} keys key (v : V) m : keys_are keys m → keys_are (keys ++ [key]) (emplace key v m).
Proof.
  intros Hk k. rewrite sm_lookup_emplace, elem_of_app, list_elem_of_singleton, (Hk k).
  destruct (m !! k) eqn:E; [naive_solver|]. destruct (decide (key = k)); naive_solver.
Qed.

Lemma emplace_cases {V} key (v w : V) m k : emplace key v m !! k = Some w → m !! k = Some w ∨ k = key ∧ w = v.
Proof. rewrite sm_lookup_emplace. destruct (m !! k); [by left|]. destruct (decide (key = k)); naive_solver. Qed.

(** An ability and its skills go under one key, its forms may. *)
Lemma keyed_ability name package m i a skills (forms : option (list FormInfo)) i' m' :
  keyed name package m i → ai_bundleName a = name → ai_package a = package → ai_enabled a = true →
  ib_baseAbilityInfos i' = emplace (profile_key name package (ai_name a)) a (ib_baseAbilityInfos i) →
  ib_skillInfos i' = emplace (profile_key name package (ai_name a)) skills (ib_skillInfos i) →
  ib_formInfos i' = match forms with Some f => emplace (profile_key name package (ai_name a)) f (ib_formInfos i)
                    | None => ib_formInfos i end →
  ib_baseExtensionInfos i' = ib_baseExtensionInfos i → ib_extensionSkillInfos i' = ib_extensionSkillInfos i →
  im_abilityKeys m' = im_abilityKeys m ++ [profile_key name package (ai_name a)] →
  im_skillKeys m' = im_skillKeys m ++ [profile_key name package (ai_name a)] →
  im_modulePackage m' = im_modulePackage m → im_extensionKeys m' = im_extensionKeys m →
  im_extensionSkillKeys m' = im_extensionSkillKeys m →
  keyed name package m' i'.
Proof.
  intros [] Hb Hp He Ha Hs Hf Hx Hy Hak Hsk Hmp Hxk Hyk.
  split; rewrite ?Ha, ?Hs, ?Hx, ?Hy, ?Hak, ?Hsk, ?Hmp, ?Hxk, ?Hyk; try done.
  - by apply keys_are_emplace.
  - intros k b [?|[-> ->]]%emplace_cases; auto.
  - by rewrite kd_skillKeys0.
  - by apply keys_are_emplace.
  - intros k [f Hk]. rewrite Hf in Hk. rewrite elem_of_app, list_elem_of_singleton.
    destruct forms as [f'|]; [apply emplace_cases in Hk as [?|[-> _]]; eauto|eauto].
Qed.

Lemma keyed_extension name package m i e skills i' m' :
  keyed name package m i → ext_bundleName e = name → ext_moduleName e = package →
  ib_baseExtensionInfos i' = emplace (profile_key name package (ext_name e)) e (ib_baseExtensionInfos i) →
  ib_extensionSkillInfos i' = emplace (profile_key name package (ext_name e)) skills (ib_extensionSkillInfos i) →
  ib_baseAbilityInfos i' = ib_baseAbilityInfos i → ib_skillInfos i' = ib_skillInfos i → ib_formInfos i' = ib_formInfos i →
  im_extensionKeys m' = im_extensionKeys m ++ [profile_key name package (ext_name e)] →
  im_extensionSkillKeys m' = im_extensionSkillKeys m ++ [profile_key name package (ext_name e)] →
  im_modulePackage m' = im_modulePackage m → im_abilityKeys m' = im_abilityKeys m → im_skillKeys m' = im_skillKeys m →
  keyed name package m' i'.
Proof.
  intros [] Hb Hp Hx Hy Ha Hs Hf Hxk Hyk Hmp Hak Hsk.
  split; rewrite ?Ha, ?Hs, ?Hf, ?Hx, ?Hy, ?Hak, ?Hsk, ?Hmp, ?Hxk, ?Hyk; try done.
  - by apply keys_are_emplace.
  - intros k b [?|[-> ->]]%emplace_cases; auto.
  - by rewrite kd_extensionSkillKeys0.
  - by apply keys_are_emplace.
Qed.

Lemma keyed_fresh name package m i :
  fresh i → im_modulePackage m = package → im_abilityKeys m = [] → im_skillKeys m = [] → im_extensionKeys m = [] →
  im_extensionSkillKeys m = [] → keyed name package m i.
Proof.
  intros (_ & Ha & Hs & Hf & Hx & Hy) Hm Hak Hsk Hxk Hyk.
  assert (∀ V k (v : V), (∅ : stdmap string V) !! k = Some v → False) as Hnone by (intros V k v; by rewrite sm_lookup_empty).
  split; rewrite ?Ha, ?Hs, ?Hf, ?Hx, ?Hy, ?Hak, ?Hsk, ?Hxk, ?Hyk; try done;
    try (intros k; rewrite sm_lookup_empty; split; [by intros ?%not_elem_of_nil|by intros []]);
    intros k; try (intros a Hk; by apply Hnone in Hk); rewrite sm_lookup_empty; by intros [].
Qed.

Lemma keyed_same name package m m' i i' :
  keyed name package m i → im_modulePackage m' = im_modulePackage m → im_abilityKeys m' = im_abilityKeys m →
  im_skillKeys m' = im_skillKeys m → im_extensionKeys m' = im_extensionKeys m →
  im_extensionSkillKeys m' = im_extensionSkillKeys m → ib_baseAbilityInfos i' = ib_baseAbilityInfos i →
  ib_skillInfos i' = ib_skillInfos i → ib_formInfos i' = ib_formInfos i →
  ib_baseExtensionInfos i' = ib_baseExtensionInfos i → ib_extensionSkillInfos i' = ib_extensionSkillInfos i →
  keyed name package m' i'.
Proof.
  intros [] Hm Hak Hsk Hxk Hyk Ha Hs Hf Hx Hy. by split; rewrite ?Hm, ?Hak, ?Hsk, ?Hxk, ?Hyk, ?Ha, ?Hs, ?Hf, ?Hx, ?Hy.
Qed.

(** What the loops of ToInnerBundleInfo keep. *)
Record building (name package : string) (versionCode : Z) (isEntry : bool) (b : Building) : Prop := mkBuildingOk {
  bg_keyed : keyed name package (bd_module b) (bd_info b);
  bg_modules : ib_innerModuleInfos (bd_info b) = ∅;
  bg_app : app_bundleName (bd_app b) = name ∧ app_name (bd_app b) = name ∧ app_enabled (bd_app b) = true
    ∧ app_versionCode (bd_app b) = versionCode;
  bg_entry : im_isEntry (bd_module b) = isEntry;
}.

Lemma handle_native_so_eq `{DeviceParameters} dirs a : ∃ path abi, handle_native_so dirs a = set_native path abi a.
Proof. unfold handle_native_so. repeat case_match; eauto. Qed.

(** Documents for examples: [parse] knows these texts. *)
#[refine] Definition these_texts (docs : list (string * json)) : JsonText := {|
  dump := λ _, None;
  parse := λ s, assoc_find s docs;
|}.
Proof. all: done. Defined.

(** A device without parameters, and some memory. *)
Definition plain_device : DeviceParameters := {| GetAbiList := ""; GetDeviceType := "default"; SplitStr := λ s _ _ _, [s] |}.
Definition zero_memory : Uninit := {| uninit := 0; uninit_type := ExtensionAbilityType_UNSPECIFIED |}.

(** Profiles for examples: a bundle of one ability, with what an ability may
    add to its object. *)
Definition sample_config (ability : list (string * json)) : json := object [
  ("app", object [("bundleName", JString "com.example"); ("version", object [("code", JNumber 1); ("name", JString "1.0")]);
                  ("apiVersion", object [("compatible", JNumber 8)])]);
  ("deviceConfig", object []);
  ("module", object [("package", JString "entry"); ("deviceType", JArray [JString "phone"]);
                     ("distro", object [("deliveryWithInstall", JBool true); ("moduleName", JString "entry"); ("moduleType", JString "entry")]);
                     ("abilities", JArray [object (("name", JString "Main") :: ("type", JString "page") :: ability)])])].
Definition sample_module (ability : list (string * json)) : json := object [
  ("app", object [("bundleName", JString "com.example"); ("icon", JString "$icon"); ("label", JString "$label");
                  ("versionCode", JNumber 1); ("versionName", JString "1.0"); ("minAPIVersion", JNumber 8);
                  ("targetAPIVersion", JNumber 8)]);
  ("module", object [("name", JString "entry"); ("type", JString "entry"); ("mainElement", JString "Main");
                     ("deviceTypes", JArray [JString "phone"]); ("deliveryWithInstall", JBool true); ("pages", JString "$pages");
                     ("abilities", JArray [object (("name", JString "Main") :: ("srcEntrance", JString "Main.ts") :: ability)])])].
