(* ===== verification/BundleProfile.v ===== *)
(** * BundleProfile: config.json

    services/bundlemgr/src/bundle_profile.cpp: the structs of config.json with
    their from_json functions (namespace ProfileReader, names kept), and how a
    ConfigJson becomes an InnerBundleInfo.  [uninit] is what the members
    without an initialiser hold. *)

From stdpp Require Import strings.
From S2P Require Import Prelude Strings StdMap BundleTypes Errors Json InfoJson PackJson Skill InnerBundleInfo Parcel BundleJson InstallInfo Profile.
From Stdlib Require Import Ascii.

Open Scope string_scope.
Open Scope list_scope.
Open Scope Z_scope.

#[local] Instance AppType_eq_dec : EqDecision AppType.
Proof. solve_decision. Defined.
#[local] Instance AbilityType_eq_dec : EqDecision AbilityType.
Proof. solve_decision. Defined.

(** ** The structs *)

Record Version := mkVersion {
  cver_code : Z;
  cver_name : string;
  cver_minCompatibleVersionCode : Z;
}.
#[export] Instance eta_Version : Eta Version := λ r, mkVersion (cver_code r) (cver_name r)
  (cver_minCompatibleVersionCode r).
Definition new_Version : Version := mkVersion 0 "" (-1).

Record ApiVersion := mkApiVersion {
  capi_compatible : Z;
  capi_target : Z;
  capi_releaseType : string;
}.
#[export] Instance eta_ApiVersion : Eta ApiVersion := λ r, mkApiVersion (capi_compatible r) (capi_target r)
  (capi_releaseType r).
Definition new_ApiVersion : ApiVersion := mkApiVersion 0 0 "Release".

Record App := mkApp {
  capp_bundleName : string;
  capp_originalName : string;
  capp_vendor : string;
  capp_removable : bool * bool;
  capp_version : Version;
  capp_apiVersion : ApiVersion;
  capp_singleton : bool;
  capp_iconId : Z;
  capp_labelId : Z;
  capp_userDataClearable : bool;
  capp_targetBundleList : list string;
}.
#[export] Instance eta_App : Eta App := λ r, mkApp (capp_bundleName r) (capp_originalName r) (capp_vendor r)
  (capp_removable r) (capp_version r) (capp_apiVersion r) (capp_singleton r) (capp_iconId r) (capp_labelId r)
  (capp_userDataClearable r) (capp_targetBundleList r).
Definition new_App : App := mkApp "" "" "" (false, true) new_Version new_ApiVersion false 0 0 true [].

Record ReqVersion := mkReqVersion {
  creq_compatible : Z;
  creq_target : Z;
}.
#[export] Instance eta_ReqVersion : Eta ReqVersion := λ r, mkReqVersion (creq_compatible r) (creq_target r).
Definition new_ReqVersion : ReqVersion := mkReqVersion 0 0.

Record Ark := mkArk {
  cark_reqVersion : ReqVersion;
  cark_flag : string;
}.
#[export] Instance eta_Ark : Eta Ark := λ r, mkArk (cark_reqVersion r) (cark_flag r).
Definition new_Ark : Ark := mkArk new_ReqVersion "".

Record Domain := mkDomain {
  cdom_subDomains : bool;
  cdom_name : string;
}.
#[export] Instance eta_Domain : Eta Domain := λ r, mkDomain (cdom_subDomains r) (cdom_name r).
Definition new_Domain : Domain := mkDomain false "".

Record DomainSetting := mkDomainSetting {
  cds_cleartextPermitted : bool;
  cds_domains : list Domain;
}.
#[export] Instance eta_DomainSetting : Eta DomainSetting := λ r, mkDomainSetting (cds_cleartextPermitted r)
  (cds_domains r).
Definition new_DomainSetting : DomainSetting := mkDomainSetting false [].

Record SecurityConfig := mkSecurityConfig {
  csec_domainSetting : DomainSetting;
}.
#[export] Instance eta_SecurityConfig : Eta SecurityConfig := λ r, mkSecurityConfig (csec_domainSetting r).
Definition new_SecurityConfig : SecurityConfig := mkSecurityConfig new_DomainSetting.

Record Network := mkNetwork {
  cnet_usesCleartext : bool;
  cnet_securityConfig : SecurityConfig;
}.
#[export] Instance eta_Network : Eta Network := λ r, mkNetwork (cnet_usesCleartext r) (cnet_securityConfig r).
Definition new_Network : Network := mkNetwork false new_SecurityConfig.

Record Device := mkDevice {
  cdev_jointUserId : string;
  cdev_process : string;
  cdev_keepAlive : bool;
  cdev_ark : Ark;
  cdev_directLaunch : bool;
  cdev_supportBackup : bool;
  cdev_compressNativeLibs : bool;
  cdev_network : Network;
  cdev_debug : bool;
}.
#[export] Instance eta_Device : Eta Device := λ r, mkDevice (cdev_jointUserId r) (cdev_process r) (cdev_keepAlive r)
  (cdev_ark r) (cdev_directLaunch r) (cdev_supportBackup r) (cdev_compressNativeLibs r) (cdev_network r)
  (cdev_debug r).
Definition new_Device : Device := mkDevice "" "" false new_Ark false false true new_Network false.

Record DeviceConfig := mkDeviceConfig {
  cdc_defaultDevice : Device;
  cdc_phone : Device;
  cdc_tablet : Device;
  cdc_tv : Device;
  cdc_car : Device;
  cdc_wearable : Device;
  cdc_liteWearable : Device;
  cdc_smartVision : Device;
}.
#[export] Instance eta_DeviceConfig : Eta DeviceConfig := λ r, mkDeviceConfig (cdc_defaultDevice r) (cdc_phone r)
  (cdc_tablet r) (cdc_tv r) (cdc_car r) (cdc_wearable r) (cdc_liteWearable r) (cdc_smartVision r).
Definition new_DeviceConfig : DeviceConfig := mkDeviceConfig new_Device new_Device new_Device new_Device new_Device
  new_Device new_Device new_Device.

Record Form := mkForm {
  cfm_formEntity : list string;
  cfm_minHeight : Z;
  cfm_defaultHeight : Z;
  cfm_minWidth : Z;
  cfm_defaultWidth : Z;
}.
#[export] Instance eta_Form : Eta Form := λ r, mkForm (cfm_formEntity r) (cfm_minHeight r) (cfm_defaultHeight r)
  (cfm_minWidth r) (cfm_defaultWidth r).
Definition new_Form : Form := mkForm [] 0 0 0 0.

Record FormsCustomizeData := mkFormsCustomizeData {
  cfcd_name : string;
  cfcd_value : string;
}.
#[export] Instance eta_FormsCustomizeData : Eta FormsCustomizeData := λ r, mkFormsCustomizeData (cfcd_name r)
  (cfcd_value r).
Definition new_FormsCustomizeData : FormsCustomizeData := mkFormsCustomizeData "" "".

Record FormsMetaData := mkFormsMetaData {
  cfmd_customizeData : list FormsCustomizeData;
}.
#[export] Instance eta_FormsMetaData : Eta FormsMetaData := λ r, mkFormsMetaData (cfmd_customizeData r).
Definition new_FormsMetaData : FormsMetaData := mkFormsMetaData [].

Record Window := mkWindow {
  cwin_designWidth : Z;
  cwin_autoDesignWidth : bool;
}.
#[export] Instance eta_Window : Eta Window := λ r, mkWindow (cwin_designWidth r) (cwin_autoDesignWidth r).
Definition new_Window : Window := mkWindow 720 false.

Record Forms := mkForms {
  cfs_name : string;
  cfs_description : string;
  cfs_descriptionId : Z;
  cfs_isDefault : bool;
  cfs_type : string;
  cfs_src : string;
  cfs_window : Window;
  cfs_colorMode : string;
  cfs_supportDimensions : list string;
  cfs_defaultDimension : string;
  cfs_landscapeLayouts : list string;
  cfs_portraitLayouts : list string;
  cfs_updateEnabled : bool;
  cfs_scheduledUpdateTime : string;
  cfs_updateDuration : Z;
  cfs_deepLink : string;
  cfs_formConfigAbility : string;
  cfs_formVisibleNotify : bool;
  cfs_jsComponentName : string;
  cfs_metaData : FormsMetaData;
}.
#[export] Instance eta_Forms : Eta Forms := λ r, mkForms (cfs_name r) (cfs_description r) (cfs_descriptionId r)
  (cfs_isDefault r) (cfs_type r) (cfs_src r) (cfs_window r) (cfs_colorMode r) (cfs_supportDimensions r)
  (cfs_defaultDimension r) (cfs_landscapeLayouts r) (cfs_portraitLayouts r) (cfs_updateEnabled r)
  (cfs_scheduledUpdateTime r) (cfs_updateDuration r) (cfs_deepLink r) (cfs_formConfigAbility r)
  (cfs_formVisibleNotify r) (cfs_jsComponentName r) (cfs_metaData r).
Definition new_Forms : Forms := mkForms "" "" 0 false "" "" new_Window "auto" [] "" [] [] false "" 0 "" "" false ""
  new_FormsMetaData.

Record CustomizeData := mkCustomizeData {
  ccd_name : string;
  ccd_value : string;
  ccd_extra : string;
}.
#[export] Instance eta_CustomizeData : Eta CustomizeData := λ r, mkCustomizeData (ccd_name r) (ccd_value r)
  (ccd_extra r).
Definition new_CustomizeData : CustomizeData := mkCustomizeData "" "" "".

Record MetaData := mkMetaData {
  cmd_customizeData : list CustomizeData;
}.
#[export] Instance eta_MetaData : Eta MetaData := λ r, mkMetaData (cmd_customizeData r).
Definition new_MetaData : MetaData := mkMetaData [].

Record UriPermission := mkUriPermission {
  cup_mode : string;
  cup_path : string;
}.
#[export] Instance eta_UriPermission : Eta UriPermission := λ r, mkUriPermission (cup_mode r) (cup_path r).
Definition new_UriPermission : UriPermission := mkUriPermission "" "".

Record Ability := mkAbility {
  cab_name : string;
  cab_originalName : string;
  cab_description : string;
  cab_descriptionId : Z;
  cab_icon : string;
  cab_iconId : Z;
  cab_label : string;
  cab_labelId : Z;
  cab_priority : Z;
  cab_uri : string;
  cab_process : string;
  cab_launchType : string;
  cab_theme : string;
  cab_visible : bool;
  cab_continuable : bool;
  cab_permissions : list string;
  cab_skills : list Skill;
  cab_deviceCapability : list string;
  cab_metaData : MetaData;
  cab_type : string;
  cab_srcPath : string;
  cab_srcLanguage : string;
  cab_formEnabled : bool;
  cab_form : Form;
  cab_orientation : string;
  cab_backgroundModes : list string;
  cab_grantPermission : bool;
  cab_uriPermission : UriPermission;
  cab_readPermission : string;
  cab_writePermission : string;
  cab_directLaunch : bool;
  cab_configChanges : list string;
  cab_mission : string;
  cab_targetAbility : string;
  cab_multiUserShared : bool;
  cab_supportPipMode : bool;
  cab_formsEnabled : bool;
  cab_formses : list Forms;
  cab_startWindowIcon : string;
  cab_startWindowIconId : Z;
  cab_startWindowBackground : string;
  cab_startWindowBackgroundId : Z;
  cab_removeMissionAfterTerminate : bool;
}.
#[export] Instance eta_Ability : Eta Ability := λ r, mkAbility (cab_name r) (cab_originalName r) (cab_description r)
  (cab_descriptionId r) (cab_icon r) (cab_iconId r) (cab_label r) (cab_labelId r) (cab_priority r) (cab_uri r)
  (cab_process r) (cab_launchType r) (cab_theme r) (cab_visible r) (cab_continuable r) (cab_permissions r)
  (cab_skills r) (cab_deviceCapability r) (cab_metaData r) (cab_type r) (cab_srcPath r) (cab_srcLanguage r)
  (cab_formEnabled r) (cab_form r) (cab_orientation r) (cab_backgroundModes r) (cab_grantPermission r)
  (cab_uriPermission r) (cab_readPermission r) (cab_writePermission r) (cab_directLaunch r) (cab_configChanges r)
  (cab_mission r) (cab_targetAbility r) (cab_multiUserShared r) (cab_supportPipMode r) (cab_formsEnabled r)
  (cab_formses r) (cab_startWindowIcon r) (cab_startWindowIconId r) (cab_startWindowBackground r)
  (cab_startWindowBackgroundId r) (cab_removeMissionAfterTerminate r).
Definition new_Ability `{Uninit} : Ability := mkAbility "" "" "" 0 "" 0 "" 0 0 "" "" "singleton" "" false false []
  [] [] new_MetaData "" "" "js" false new_Form "unspecified" [] (negb (uninit =? 0)) new_UriPermission "" "" false
  [] "" "" false false false [] "" 0 "" 0 false.

Record Js := mkJs {
  cjs_name : string;
  cjs_pages : list string;
  cjs_window : Window;
  cjs_type : string;
}.
#[export] Instance eta_Js : Eta Js := λ r, mkJs (cjs_name r) (cjs_pages r) (cjs_window r) (cjs_type r).
Definition new_Js : Js := mkJs "default" [] new_Window "normal".

Record Intent := mkIntent {
  cin_targetClass : string;
  cin_targetBundle : string;
}.
#[export] Instance eta_Intent : Eta Intent := λ r, mkIntent (cin_targetClass r) (cin_targetBundle r).
Definition new_Intent : Intent := mkIntent "" "".

Record CommonEvent := mkCommonEvent {
  cce_name : string;
  cce_permission : string;
  cce_data : list string;
  cce_type : list string;
  cce_events : list string;
}.
#[export] Instance eta_CommonEvent : Eta CommonEvent := λ r, mkCommonEvent (cce_name r) (cce_permission r)
  (cce_data r) (cce_type r) (cce_events r).
Definition new_CommonEvent : CommonEvent := mkCommonEvent "" "" [] [] [].

Record Shortcut := mkShortcut {
  csc_shortcutId : string;
  csc_label : string;
  csc_icon : string;
  csc_iconId : Z;
  csc_labelId : Z;
  csc_intents : list Intent;
}.
#[export] Instance eta_Shortcut : Eta Shortcut := λ r, mkShortcut (csc_shortcutId r) (csc_label r) (csc_icon r)
  (csc_iconId r) (csc_labelId r) (csc_intents r).
Definition new_Shortcut `{Uninit} : Shortcut := mkShortcut "" "" "" uninit uninit [].

Record Module_ := mkModule_ {
  cmod_package : string;
  cmod_name : string;
  cmod_description : string;
  cmod_descriptionId : Z;
  cmod_colorMode : string;
  cmod_supportedModes : list string;
  cmod_reqCapabilities : list string;
  cmod_deviceType : list string;
  cmod_dependencies : list string;
  cmod_distro : Distro;
  cmod_metaData : MetaData;
  cmod_abilities : list Ability;
  cmod_jses : list Js;
  cmod_commonEvents : list CommonEvent;
  cmod_shortcuts : list Shortcut;
  cmod_defPermissions : list DefinePermission;
  cmod_requestPermissions : list RequestPermission;
  cmod_definePermissions : list DefinePermission;
  cmod_mainAbility : string;
  cmod_srcPath : string;
}.
#[export] Instance eta_Module_ : Eta Module_ := λ r, mkModule_ (cmod_package r) (cmod_name r) (cmod_description r)
  (cmod_descriptionId r) (cmod_colorMode r) (cmod_supportedModes r) (cmod_reqCapabilities r) (cmod_deviceType r)
  (cmod_dependencies r) (cmod_distro r) (cmod_metaData r) (cmod_abilities r) (cmod_jses r) (cmod_commonEvents r)
  (cmod_shortcuts r) (cmod_defPermissions r) (cmod_requestPermissions r) (cmod_definePermissions r)
  (cmod_mainAbility r) (cmod_srcPath r).
Definition new_Module_ : Module_ := mkModule_ "" "" "" 0 "auto" [] [] [] [] new_Distro new_MetaData [] [] [] [] []
  [] [] "" "".

Record ConfigJson := mkConfigJson {
  ccj_app : App;
  ccj_deveicConfig : DeviceConfig;
  ccj_module : Module_;
}.
#[export] Instance eta_ConfigJson : Eta ConfigJson := λ r, mkConfigJson (ccj_app r) (ccj_deveicConfig r)
  (ccj_module r).
Definition new_ConfigJson : ConfigJson := mkConfigJson new_App new_DeviceConfig new_Module_.

(** ** from_json *)

Definition Version_from_json (j : json) (x : Version) : M Version :=
  x ← GetValueIfFindKey PROFILE j "code" get_int32 NUMBER true NOT_ARRAY (λ v x, x <| cver_code := v |>) x;
  x ← GetValueIfFindKey PROFILE j "name" get_string STRING true NOT_ARRAY (λ v x, x <| cver_name := v |>) x;
  x ← GetValueIfFindKey PROFILE j "minCompatibleVersionCode" get_int32 NUMBER false NOT_ARRAY (λ v x, x <|
        cver_minCompatibleVersionCode := v |>) x;
  mret x.
Definition get_Version : json → M Version := get_part new_Version Version_from_json.

Definition ApiVersion_from_json (j : json) (x : ApiVersion) : M ApiVersion :=
  x ← GetValueIfFindKey PROFILE j "compatible" get_uint32 NUMBER true NOT_ARRAY (λ v x, x <| capi_compatible := v
        |>) x;
  x ← GetValueIfFindKey PROFILE j "target" get_uint32 NUMBER false NOT_ARRAY (λ v x, x <| capi_target := v |>) x;
  x ← GetValueIfFindKey PROFILE j "releaseType" get_string STRING false NOT_ARRAY (λ v x, x <| capi_releaseType := v
        |>) x;
  mret x.
Definition get_ApiVersion : json → M ApiVersion := get_part new_ApiVersion ApiVersion_from_json.

Definition App_from_json (j : json) (x : App) : M App :=
  x ← GetValueIfFindKey PROFILE j "bundleName" get_string STRING true NOT_ARRAY (λ v x, x <| capp_bundleName := v
        |>) x;
  x ← GetValueIfFindKey PROFILE j "originalName" get_string STRING false NOT_ARRAY (λ v x, x <| capp_originalName :=
        v |>) x;
  x ← GetValueIfFindKey PROFILE j "version" get_Version OBJECT true NOT_ARRAY (λ v x, x <| capp_version := v |>) x;
  x ← GetValueIfFindKey PROFILE j "apiVersion" get_ApiVersion OBJECT true NOT_ARRAY (λ v x, x <| capp_apiVersion :=
        v |>) x;
  x ← GetValueIfFindKey PROFILE j "vendor" get_string STRING false NOT_ARRAY (λ v x, x <| capp_vendor := v |>) x;
  x ← GetValueIfFindKey PROFILE j "singleton" get_bool BOOLEAN false NOT_ARRAY (λ v x, x <| capp_singleton := v |>) x;
  x ← GetValueIfFindKey PROFILE j "iconId" get_int32 NUMBER false NOT_ARRAY (λ v x, x <| capp_iconId := v |>) x;
  x ← GetValueIfFindKey PROFILE j "labelId" get_int32 NUMBER false NOT_ARRAY (λ v x, x <| capp_labelId := v |>) x;
  x ← (if has_key j "removable" then GetValueIfFindKey PROFILE j "removable" get_bool BOOLEAN false NOT_ARRAY (λ v
        x, x <| capp_removable ::= λ q, (q.1, v) |>) (x <| capp_removable ::= λ q, (true, q.2) |>) else mret x);
  x ← GetValueIfFindKey PROFILE j "userDataClearable" get_bool BOOLEAN false NOT_ARRAY (λ v x, x <|
        capp_userDataClearable := v |>) x;
  x ← GetValueIfFindKey PROFILE j "targetBundleList" (get_vector get_string) ARRAY false STRINGS (λ v x, x <|
        capp_targetBundleList := v |>) x;
  mret x.
Definition get_App : json → M App := get_part new_App App_from_json.

Definition ReqVersion_from_json (j : json) (x : ReqVersion) : M ReqVersion :=
  x ← GetValueIfFindKey PROFILE j "compatible" get_uint32 NUMBER true NOT_ARRAY (λ v x, x <| creq_compatible := v
        |>) x;
  x ← GetValueIfFindKey PROFILE j "target" get_uint32 NUMBER false NOT_ARRAY (λ v x, x <| creq_target := v |>) x;
  mret x.
Definition get_ReqVersion : json → M ReqVersion := get_part new_ReqVersion ReqVersion_from_json.

Definition Ark_from_json (j : json) (x : Ark) : M Ark :=
  x ← GetValueIfFindKey PROFILE j "reqVersion" get_ReqVersion OBJECT false NOT_ARRAY (λ v x, x <| cark_reqVersion :=
        v |>) x;
  x ← GetValueIfFindKey PROFILE j "flag" get_string STRING false NOT_ARRAY (λ v x, x <| cark_flag := v |>) x;
  mret x.
Definition get_Ark : json → M Ark := get_part new_Ark Ark_from_json.

Definition Domain_from_json (j : json) (x : Domain) : M Domain :=
  x ← GetValueIfFindKey PROFILE j "subDomains" get_bool BOOLEAN true NOT_ARRAY (λ v x, x <| cdom_subDomains := v |>)
        x;
  x ← GetValueIfFindKey PROFILE j "name" get_string STRING true NOT_ARRAY (λ v x, x <| cdom_name := v |>) x;
  mret x.
Definition get_Domain : json → M Domain := get_part new_Domain Domain_from_json.

Definition DomainSetting_from_json (j : json) (x : DomainSetting) : M DomainSetting :=
  x ← GetValueIfFindKey PROFILE j "cleartextPermitted" get_bool BOOLEAN true NOT_ARRAY (λ v x, x <|
        cds_cleartextPermitted := v |>) x;
  x ← GetValueIfFindKey PROFILE j "domains" (get_vector get_Domain) ARRAY true OBJECTS (λ v x, x <| cds_domains := v
        |>) x;
  mret x.
Definition get_DomainSetting : json → M DomainSetting := get_part new_DomainSetting DomainSetting_from_json.

Definition SecurityConfig_from_json (j : json) (x : SecurityConfig) : M SecurityConfig :=
  x ← GetValueIfFindKey PROFILE j "domainSettings" get_DomainSetting OBJECT false NOT_ARRAY (λ v x, x <|
        csec_domainSetting := v |>) x;
  mret x.
Definition get_SecurityConfig : json → M SecurityConfig := get_part new_SecurityConfig SecurityConfig_from_json.

Definition Network_from_json (j : json) (x : Network) : M Network :=
  x ← GetValueIfFindKey PROFILE j "usesCleartext" get_bool BOOLEAN false NOT_ARRAY (λ v x, x <| cnet_usesCleartext
        := v |>) x;
  x ← GetValueIfFindKey PROFILE j "securityConfig" get_SecurityConfig OBJECT false NOT_ARRAY (λ v x, x <|
        cnet_securityConfig := v |>) x;
  mret x.
Definition get_Network : json → M Network := get_part new_Network Network_from_json.

Definition Device_from_json (j : json) (x : Device) : M Device :=
  x ← GetValueIfFindKey PROFILE j "jointUserId" get_string STRING false NOT_ARRAY (λ v x, x <| cdev_jointUserId := v
        |>) x;
  x ← GetValueIfFindKey PROFILE j "process" get_string STRING false NOT_ARRAY (λ v x, x <| cdev_process := v |>) x;
  x ← GetValueIfFindKey PROFILE j "keepAlive" get_bool BOOLEAN false NOT_ARRAY (λ v x, x <| cdev_keepAlive := v |>) x;
  x ← GetValueIfFindKey PROFILE j "ark" get_Ark OBJECT false NOT_ARRAY (λ v x, x <| cdev_ark := v |>) x;
  x ← GetValueIfFindKey PROFILE j "directLaunch" get_bool BOOLEAN false NOT_ARRAY (λ v x, x <| cdev_directLaunch :=
        v |>) x;
  x ← GetValueIfFindKey PROFILE j "supportBackup" get_bool BOOLEAN false NOT_ARRAY (λ v x, x <| cdev_supportBackup
        := v |>) x;
  x ← GetValueIfFindKey PROFILE j "debug" get_bool BOOLEAN false NOT_ARRAY (λ v x, x <| cdev_debug := v |>) x;
  x ← GetValueIfFindKey PROFILE j "compressNativeLibs" get_bool BOOLEAN false NOT_ARRAY (λ v x, x <|
        cdev_compressNativeLibs := v |>) x;
  x ← GetValueIfFindKey PROFILE j "network" get_Network OBJECT false NOT_ARRAY (λ v x, x <| cdev_network := v |>) x;
  mret x.
Definition get_Device : json → M Device := get_part new_Device Device_from_json.

Definition DeviceConfig_from_json (j : json) (x : DeviceConfig) : M DeviceConfig :=
  x ← GetValueIfFindKey PROFILE j "default" get_Device OBJECT false NOT_ARRAY (λ v x, x <| cdc_defaultDevice := v
        |>) x;
  x ← GetValueIfFindKey PROFILE j "phone" get_Device OBJECT false NOT_ARRAY (λ v x, x <| cdc_phone := v |>) x;
  x ← GetValueIfFindKey PROFILE j "tablet" get_Device OBJECT false NOT_ARRAY (λ v x, x <| cdc_tablet := v |>) x;
  x ← GetValueIfFindKey PROFILE j "tv" get_Device OBJECT false NOT_ARRAY (λ v x, x <| cdc_tv := v |>) x;
  x ← GetValueIfFindKey PROFILE j "car" get_Device OBJECT false NOT_ARRAY (λ v x, x <| cdc_car := v |>) x;
  x ← GetValueIfFindKey PROFILE j "wearable" get_Device OBJECT false NOT_ARRAY (λ v x, x <| cdc_wearable := v |>) x;
  x ← GetValueIfFindKey PROFILE j "liteWearable" get_Device OBJECT false NOT_ARRAY (λ v x, x <| cdc_liteWearable :=
        v |>) x;
  x ← GetValueIfFindKey PROFILE j "smartVision" get_Device OBJECT false NOT_ARRAY (λ v x, x <| cdc_smartVision := v
        |>) x;
  mret x.
Definition get_DeviceConfig : json → M DeviceConfig := get_part new_DeviceConfig DeviceConfig_from_json.

Definition Form_from_json (j : json) (x : Form) : M Form :=
  x ← GetValueIfFindKey PROFILE j "formEntity" (get_vector get_string) ARRAY false STRINGS (λ v x, x <|
        cfm_formEntity := v |>) x;
  x ← GetValueIfFindKey PROFILE j "minHeight" get_int32 NUMBER false NOT_ARRAY (λ v x, x <| cfm_minHeight := v |>) x;
  x ← GetValueIfFindKey PROFILE j "defaultHeight" get_int32 NUMBER false NOT_ARRAY (λ v x, x <| cfm_defaultHeight :=
        v |>) x;
  x ← GetValueIfFindKey PROFILE j "minWidth" get_int32 NUMBER false NOT_ARRAY (λ v x, x <| cfm_minWidth := v |>) x;
  x ← GetValueIfFindKey PROFILE j "defaultWidth" get_int32 NUMBER false NOT_ARRAY (λ v x, x <| cfm_defaultWidth := v
        |>) x;
  mret x.
Definition get_Form : json → M Form := get_part new_Form Form_from_json.

Definition CustomizeData_from_json (j : json) (x : CustomizeData) : M CustomizeData :=
  x ← GetValueIfFindKey PROFILE j "name" get_string STRING false NOT_ARRAY (λ v x, x <| ccd_name := v |>) x;
  x ← GetValueIfFindKey PROFILE j "extra" get_string STRING false NOT_ARRAY (λ v x, x <| ccd_extra := v |>) x;
  x ← GetValueIfFindKey PROFILE j "value" get_string STRING false NOT_ARRAY (λ v x, x <| ccd_value := v |>) x;
  mret x.
Definition get_CustomizeData : json → M CustomizeData := get_part new_CustomizeData CustomizeData_from_json.

Definition MetaData_from_json (j : json) (x : MetaData) : M MetaData :=
  x ← GetValueIfFindKey PROFILE j "customizeData" (get_vector get_CustomizeData) ARRAY false OBJECTS (λ v x, x <|
        cmd_customizeData := v |>) x;
  mret x.
Definition get_MetaData : json → M MetaData := get_part new_MetaData MetaData_from_json.

Definition FormsCustomizeData_from_json (j : json) (x : FormsCustomizeData) : M FormsCustomizeData :=
  x ← GetValueIfFindKey PROFILE j "name" get_string STRING false NOT_ARRAY (λ v x, x <| cfcd_name := v |>) x;
  x ← GetValueIfFindKey PROFILE j "value" get_string STRING false NOT_ARRAY (λ v x, x <| cfcd_value := v |>) x;
  mret x.
Definition get_FormsCustomizeData : json → M FormsCustomizeData := get_part new_FormsCustomizeData FormsCustomizeData_from_json.

Definition FormsMetaData_from_json (j : json) (x : FormsMetaData) : M FormsMetaData :=
  x ← GetValueIfFindKey PROFILE j "customizeData" (get_vector get_FormsCustomizeData) ARRAY false OBJECTS (λ v x, x
        <| cfmd_customizeData := v |>) x;
  mret x.
Definition get_FormsMetaData : json → M FormsMetaData := get_part new_FormsMetaData FormsMetaData_from_json.

Definition Window_from_json (j : json) (x : Window) : M Window :=
  x ← GetValueIfFindKey PROFILE j "designWidth" get_int32 NUMBER false NOT_ARRAY (λ v x, x <| cwin_designWidth := v
        |>) x;
  x ← GetValueIfFindKey PROFILE j "autoDesignWidth" get_bool BOOLEAN false NOT_ARRAY (λ v x, x <|
        cwin_autoDesignWidth := v |>) x;
  mret x.
Definition get_Window : json → M Window := get_part new_Window Window_from_json.

Definition Forms_from_json_1 (j : json) (x : Forms) : M Forms :=
  x ← GetValueIfFindKey PROFILE j "name" get_string STRING true NOT_ARRAY (λ v x, x <| cfs_name := v |>) x;
  x ← GetValueIfFindKey PROFILE j "isDefault" get_bool BOOLEAN true NOT_ARRAY (λ v x, x <| cfs_isDefault := v |>) x;
  x ← GetValueIfFindKey PROFILE j "type" get_string STRING true NOT_ARRAY (λ v x, x <| cfs_type := v |>) x;
  x ← GetValueIfFindKey PROFILE j "src" get_string STRING false NOT_ARRAY (λ v x, x <| cfs_src := v |>) x;
  x ← GetValueIfFindKey PROFILE j "window" get_Window OBJECT false NOT_ARRAY (λ v x, x <| cfs_window := v |>) x;
  x ← GetValueIfFindKey PROFILE j "supportDimensions" (get_vector get_string) ARRAY true STRINGS (λ v x, x <|
        cfs_supportDimensions := v |>) x;
  x ← GetValueIfFindKey PROFILE j "defaultDimension" get_string STRING true NOT_ARRAY (λ v x, x <|
        cfs_defaultDimension := v |>) x;
  x ← GetValueIfFindKey PROFILE j "landscapeLayouts" (get_vector get_string) ARRAY false STRINGS (λ v x, x <|
        cfs_landscapeLayouts := v |>) x;
  x ← GetValueIfFindKey PROFILE j "portraitLayouts" (get_vector get_string) ARRAY false STRINGS (λ v x, x <|
        cfs_portraitLayouts := v |>) x;
  x ← GetValueIfFindKey PROFILE j "updateEnabled" get_bool BOOLEAN true NOT_ARRAY (λ v x, x <| cfs_updateEnabled :=
        v |>) x;
  x ← GetValueIfFindKey PROFILE j "jsComponentName" get_string STRING true NOT_ARRAY (λ v x, x <|
        cfs_jsComponentName := v |>) x;
  x ← GetValueIfFindKey PROFILE j "description" get_string STRING false NOT_ARRAY (λ v x, x <| cfs_description := v
        |>) x;
  x ← GetValueIfFindKey PROFILE j "descriptionId" get_int32 NUMBER false NOT_ARRAY (λ v x, x <| cfs_descriptionId :=
        v |>) x;
  x ← GetValueIfFindKey PROFILE j "colorMode" get_string STRING false NOT_ARRAY (λ v x, x <| cfs_colorMode := v |>) x;
  x ← GetValueIfFindKey PROFILE j "scheduledUpdateTime" get_string STRING false NOT_ARRAY (λ v x, x <|
        cfs_scheduledUpdateTime := v |>) x;
  x ← GetValueIfFindKey PROFILE j "updateDuration" get_int32 NUMBER false NOT_ARRAY (λ v x, x <| cfs_updateDuration
        := v |>) x;
  x ← GetValueIfFindKey PROFILE j "deepLink" get_string STRING false NOT_ARRAY (λ v x, x <| cfs_deepLink := v |>) x;
  mret x.
Definition Forms_from_json_2 (j : json) (x : Forms) : M Forms :=
  x ← GetValueIfFindKey PROFILE j "formConfigAbility" get_string STRING false NOT_ARRAY (λ v x, x <|
        cfs_formConfigAbility := v |>) x;
  x ← GetValueIfFindKey PROFILE j "formVisibleNotify" get_bool BOOLEAN false NOT_ARRAY (λ v x, x <|
        cfs_formVisibleNotify := v |>) x;
  x ← GetValueIfFindKey PROFILE j "metaData" get_FormsMetaData OBJECT false NOT_ARRAY (λ v x, x <| cfs_metaData := v
        |>) x;
  mret x.
Definition Forms_from_json (j : json) (x : Forms) : M Forms :=
  x ← Forms_from_json_1 j x; Forms_from_json_2 j x.
Definition get_Forms : json → M Forms := get_part new_Forms Forms_from_json.

Definition UriPermission_from_json (j : json) (x : UriPermission) : M UriPermission :=
  x ← GetValueIfFindKey PROFILE j "mode" get_string STRING false NOT_ARRAY (λ v x, x <| cup_mode := v |>) x;
  x ← GetValueIfFindKey PROFILE j "path" get_string STRING false NOT_ARRAY (λ v x, x <| cup_path := v |>) x;
  mret x.
Definition get_UriPermission : json → M UriPermission := get_part new_UriPermission UriPermission_from_json.

Definition Ability_from_json_1 `{Uninit} (j : json) (x : Ability) : M Ability :=
  x ← GetValueIfFindKey PROFILE j "name" get_string STRING true NOT_ARRAY (λ v x, x <| cab_name := v |>) x;
  x ← GetValueIfFindKey PROFILE j "originalName" get_string STRING false NOT_ARRAY (λ v x, x <| cab_originalName :=
        v |>) x;
  x ← GetValueIfFindKey PROFILE j "type" get_string STRING true NOT_ARRAY (λ v x, x <| cab_type := v |>) x;
  x ← GetValueIfFindKey PROFILE j "srcPath" get_string STRING false NOT_ARRAY (λ v x, x <| cab_srcPath := v |>) x;
  x ← GetValueIfFindKey PROFILE j "srcLanguage" get_string STRING false NOT_ARRAY (λ v x, x <| cab_srcLanguage := v
        |>) x;
  x ← GetValueIfFindKey PROFILE j "description" get_string STRING false NOT_ARRAY (λ v x, x <| cab_description := v
        |>) x;
  x ← GetValueIfFindKey PROFILE j "descriptionId" get_int32 NUMBER false NOT_ARRAY (λ v x, x <| cab_descriptionId :=
        v |>) x;
  x ← GetValueIfFindKey PROFILE j "icon" get_string STRING false NOT_ARRAY (λ v x, x <| cab_icon := v |>) x;
  x ← GetValueIfFindKey PROFILE j "iconId" get_int32 NUMBER false NOT_ARRAY (λ v x, x <| cab_iconId := v |>) x;
  x ← GetValueIfFindKey PROFILE j "process" get_string STRING false NOT_ARRAY (λ v x, x <| cab_process := v |>) x;
  x ← GetValueIfFindKey PROFILE j "label" get_string STRING false NOT_ARRAY (λ v x, x <| cab_label := v |>) x;
  x ← GetValueIfFindKey PROFILE j "labelId" get_int32 NUMBER false NOT_ARRAY (λ v x, x <| cab_labelId := v |>) x;
  x ← GetValueIfFindKey PROFILE j "priority" get_int32 NUMBER false NOT_ARRAY (λ v x, x <| cab_priority := v |>) x;
  x ← GetValueIfFindKey PROFILE j "uri" get_string STRING false NOT_ARRAY (λ v x, x <| cab_uri := v |>) x;
  x ← GetValueIfFindKey PROFILE j "launchType" get_string STRING false NOT_ARRAY (λ v x, x <| cab_launchType := v
        |>) x;
  x ← GetValueIfFindKey PROFILE j "theme" get_string STRING false NOT_ARRAY (λ v x, x <| cab_theme := v |>) x;
  x ← GetValueIfFindKey PROFILE j "visible" get_bool BOOLEAN false NOT_ARRAY (λ v x, x <| cab_visible := v |>) x;
  mret x.
Definition Ability_from_json_2 `{Uninit} (j : json) (x : Ability) : M Ability :=
  x ← GetValueIfFindKey PROFILE j "continuable" get_bool BOOLEAN false NOT_ARRAY (λ v x, x <| cab_continuable := v
        |>) x;
  x ← GetValueIfFindKey PROFILE j "permissions" (get_vector get_string) ARRAY false STRINGS (λ v x, x <|
        cab_permissions := v |>) x;
  x ← GetValueIfFindKey PROFILE j "skills" (get_vector get_Skill) ARRAY false OBJECTS (λ v x, x <| cab_skills := v
        |>) x;
  x ← GetValueIfFindKey PROFILE j "deviceCapability" (get_vector get_string) ARRAY false STRINGS (λ v x, x <|
        cab_deviceCapability := v |>) x;
  x ← GetValueIfFindKey PROFILE j "metaData" get_MetaData OBJECT false NOT_ARRAY (λ v x, x <| cab_metaData := v |>) x;
  x ← GetValueIfFindKey PROFILE j "formEnabled" get_bool BOOLEAN false NOT_ARRAY (λ v x, x <| cab_formEnabled := v
        |>) x;
  x ← GetValueIfFindKey PROFILE j "form" get_Form OBJECT false NOT_ARRAY (λ v x, x <| cab_form := v |>) x;
  x ← GetValueIfFindKey PROFILE j "orientation" get_string STRING false NOT_ARRAY (λ v x, x <| cab_orientation := v
        |>) x;
  x ← GetValueIfFindKey PROFILE j "backgroundModes" (get_vector get_string) ARRAY false STRINGS (λ v x, x <|
        cab_backgroundModes := v |>) x;
  x ← GetValueIfFindKey PROFILE j "grantPermission" get_bool BOOLEAN false NOT_ARRAY (λ v x, x <|
        cab_grantPermission := v |>) x;
  x ← GetValueIfFindKey PROFILE j "uriPermission" get_UriPermission OBJECT false NOT_ARRAY (λ v x, x <|
        cab_uriPermission := v |>) x;
  x ← GetValueIfFindKey PROFILE j "readPermission" get_string STRING false NOT_ARRAY (λ v x, x <| cab_readPermission
        := v |>) x;
  x ← GetValueIfFindKey PROFILE j "writePermission" get_string STRING false NOT_ARRAY (λ v x, x <|
        cab_writePermission := v |>) x;
  x ← GetValueIfFindKey PROFILE j "directLaunch" get_bool BOOLEAN false NOT_ARRAY (λ v x, x <| cab_directLaunch := v
        |>) x;
  x ← GetValueIfFindKey PROFILE j "configChanges" (get_vector get_string) ARRAY false STRINGS (λ v x, x <|
        cab_configChanges := v |>) x;
  x ← GetValueIfFindKey PROFILE j "mission" get_string STRING false NOT_ARRAY (λ v x, x <| cab_mission := v |>) x;
  x ← GetValueIfFindKey PROFILE j "targetAbility" get_string STRING false NOT_ARRAY (λ v x, x <| cab_targetAbility
        := v |>) x;
  mret x.
Definition Ability_from_json_3 `{Uninit} (j : json) (x : Ability) : M Ability :=
  x ← GetValueIfFindKey PROFILE j "multiUserShared" get_bool BOOLEAN false NOT_ARRAY (λ v x, x <|
        cab_multiUserShared := v |>) x;
  x ← GetValueIfFindKey PROFILE j "supportPipMode" get_bool BOOLEAN false NOT_ARRAY (λ v x, x <| cab_supportPipMode
        := v |>) x;
  x ← GetValueIfFindKey PROFILE j "formsEnabled" get_bool BOOLEAN false NOT_ARRAY (λ v x, x <| cab_formsEnabled := v
        |>) x;
  x ← GetValueIfFindKey PROFILE j "forms" (get_vector get_Forms) ARRAY false OBJECTS (λ v x, x <| cab_formses := v
        |>) x;
  x ← GetValueIfFindKey PROFILE j "startWindowIcon" get_string STRING false NOT_ARRAY (λ v x, x <|
        cab_startWindowIcon := v |>) x;
  x ← GetValueIfFindKey PROFILE j "startWindowIconId" get_int32 NUMBER false NOT_ARRAY (λ v x, x <|
        cab_startWindowIconId := v |>) x;
  x ← GetValueIfFindKey PROFILE j "startWindowBackground" get_string STRING false NOT_ARRAY (λ v x, x <|
        cab_startWindowBackground := v |>) x;
  x ← GetValueIfFindKey PROFILE j "startWindowBackgroundId" get_int32 NUMBER false NOT_ARRAY (λ v x, x <|
        cab_startWindowBackgroundId := v |>) x;
  x ← GetValueIfFindKey PROFILE j "removeMissionAfterTerminate" get_bool BOOLEAN false NOT_ARRAY (λ v x, x <|
        cab_removeMissionAfterTerminate := v |>) x;
  mret x.
Definition Ability_from_json `{Uninit} (j : json) (x : Ability) : M Ability :=
  x ← Ability_from_json_1 j x; x ← Ability_from_json_2 j x; Ability_from_json_3 j x.
Definition get_Ability `{Uninit} : json → M Ability := get_part new_Ability Ability_from_json.

Definition Js_from_json (j : json) (x : Js) : M Js :=
  x ← GetValueIfFindKey PROFILE j "name" get_string STRING true NOT_ARRAY (λ v x, x <| cjs_name := v |>) x;
  x ← GetValueIfFindKey PROFILE j "pages" (get_vector get_string) ARRAY true STRINGS (λ v x, x <| cjs_pages := v |>)
        x;
  x ← GetValueIfFindKey PROFILE j "window" get_Window OBJECT false NOT_ARRAY (λ v x, x <| cjs_window := v |>) x;
  x ← GetValueIfFindKey PROFILE j "type" get_string STRING false NOT_ARRAY (λ v x, x <| cjs_type := v |>) x;
  mret x.
Definition get_Js : json → M Js := get_part new_Js Js_from_json.

Definition Intent_from_json (j : json) (x : Intent) : M Intent :=
  x ← GetValueIfFindKey PROFILE j "targetClass" get_string STRING false NOT_ARRAY (λ v x, x <| cin_targetClass := v
        |>) x;
  x ← GetValueIfFindKey PROFILE j "targetBundle" get_string STRING false NOT_ARRAY (λ v x, x <| cin_targetBundle :=
        v |>) x;
  mret x.
Definition get_Intent : json → M Intent := get_part new_Intent Intent_from_json.

Definition CommonEvent_from_json (j : json) (x : CommonEvent) : M CommonEvent :=
  x ← GetValueIfFindKey PROFILE j "name" get_string STRING true NOT_ARRAY (λ v x, x <| cce_name := v |>) x;
  x ← GetValueIfFindKey PROFILE j "events" (get_vector get_string) ARRAY true STRINGS (λ v x, x <| cce_events := v
        |>) x;
  x ← GetValueIfFindKey PROFILE j "permission" get_string STRING false NOT_ARRAY (λ v x, x <| cce_permission := v
        |>) x;
  x ← GetValueIfFindKey PROFILE j "data" (get_vector get_string) ARRAY false STRINGS (λ v x, x <| cce_data := v |>) x;
  x ← GetValueIfFindKey PROFILE j "type" (get_vector get_string) ARRAY false STRINGS (λ v x, x <| cce_type := v |>) x;
  mret x.
Definition get_CommonEvent : json → M CommonEvent := get_part new_CommonEvent CommonEvent_from_json.

Definition Shortcut_from_json `{Uninit} (j : json) (x : Shortcut) : M Shortcut :=
  x ← GetValueIfFindKey PROFILE j "shortcutId" get_string STRING true NOT_ARRAY (λ v x, x <| csc_shortcutId := v |>)
        x;
  x ← GetValueIfFindKey PROFILE j "label" get_string STRING false NOT_ARRAY (λ v x, x <| csc_label := v |>) x;
  x ← GetValueIfFindKey PROFILE j "icon" get_string STRING false NOT_ARRAY (λ v x, x <| csc_icon := v |>) x;
  x ← GetValueIfFindKey PROFILE j "intents" (get_vector get_Intent) ARRAY false OBJECTS (λ v x, x <| csc_intents :=
        v |>) x;
  x ← GetValueIfFindKey PROFILE j "labelId" get_int32 NUMBER false NOT_ARRAY (λ v x, x <| csc_labelId := v |>) x;
  x ← GetValueIfFindKey PROFILE j "iconId" get_int32 NUMBER false NOT_ARRAY (λ v x, x <| csc_iconId := v |>) x;
  mret x.
Definition get_Shortcut `{Uninit} : json → M Shortcut := get_part new_Shortcut Shortcut_from_json.

Definition Module__from_json_1 `{Uninit} (j : json) (x : Module_) : M Module_ :=
  x ← GetValueIfFindKey PROFILE j "package" get_string STRING false NOT_ARRAY (λ v x, x <| cmod_package := v |>) x;
  x ← GetValueIfFindKey PROFILE j "name" get_string STRING false NOT_ARRAY (λ v x, x <| cmod_name := v |>) x;
  x ← GetValueIfFindKey PROFILE j "deviceType" (get_vector get_string) ARRAY true STRINGS (λ v x, x <|
        cmod_deviceType := v |>) x;
  x ← GetValueIfFindKey PROFILE j "colorMode" get_string STRING false NOT_ARRAY (λ v x, x <| cmod_colorMode := v |>)
        x;
  x ← GetValueIfFindKey PROFILE j "distro" get_Distro OBJECT false NOT_ARRAY (λ v x, x <| cmod_distro := v |>) x;
  x ← GetValueIfFindKey PROFILE j "description" get_string STRING false NOT_ARRAY (λ v x, x <| cmod_description := v
        |>) x;
  x ← GetValueIfFindKey PROFILE j "descriptionId" get_int32 NUMBER false NOT_ARRAY (λ v x, x <| cmod_descriptionId
        := v |>) x;
  x ← GetValueIfFindKey PROFILE j "supportedModes" (get_vector get_string) ARRAY false STRINGS (λ v x, x <|
        cmod_supportedModes := v |>) x;
  x ← GetValueIfFindKey PROFILE j "reqCapabilities" (get_vector get_string) ARRAY false STRINGS (λ v x, x <|
        cmod_reqCapabilities := v |>) x;
  x ← GetValueIfFindKey PROFILE j "metaData" get_MetaData OBJECT false NOT_ARRAY (λ v x, x <| cmod_metaData := v |>)
        x;
  x ← GetValueIfFindKey PROFILE j "abilities" (get_vector get_Ability) ARRAY false OBJECTS (λ v x, x <|
        cmod_abilities := v |>) x;
  x ← GetValueIfFindKey PROFILE j "js" (get_vector get_Js) ARRAY false OBJECTS (λ v x, x <| cmod_jses := v |>) x;
  x ← GetValueIfFindKey PROFILE j "commonEvents" (get_vector get_CommonEvent) ARRAY false OBJECTS (λ v x, x <|
        cmod_commonEvents := v |>) x;
  x ← GetValueIfFindKey PROFILE j "shortcuts" (get_vector get_Shortcut) ARRAY false OBJECTS (λ v x, x <|
        cmod_shortcuts := v |>) x;
  x ← GetValueIfFindKey PROFILE j "defPermissions" (get_vector get_DefinePermission) ARRAY false OBJECTS (λ v x, x
        <| cmod_defPermissions := v |>) x;
  x ← GetValueIfFindKey PROFILE j "reqPermissions" (get_vector get_RequestPermission) ARRAY false OBJECTS (λ v x, x
        <| cmod_requestPermissions := v |>) x;
  x ← GetValueIfFindKey PROFILE j "definePermissions" (get_vector get_DefinePermission) ARRAY false OBJECTS (λ v x,
        x <| cmod_definePermissions := v |>) x;
  mret x.
Definition Module__from_json_2 `{Uninit} (j : json) (x : Module_) : M Module_ :=
  x ← GetValueIfFindKey PROFILE j "mainAbility" get_string STRING false NOT_ARRAY (λ v x, x <| cmod_mainAbility := v
        |>) x;
  x ← GetValueIfFindKey PROFILE j "srcPath" get_string STRING false NOT_ARRAY (λ v x, x <| cmod_srcPath := v |>) x;
  x ← GetValueIfFindKey PROFILE j "dependencies" (get_vector get_string) ARRAY false STRINGS (λ v x, x <|
        cmod_dependencies := v |>) x;
  mret x.
Definition Module__from_json `{Uninit} (j : json) (x : Module_) : M Module_ :=
  x ← Module__from_json_1 j x; Module__from_json_2 j x.
Definition get_Module_ `{Uninit} : json → M Module_ := get_part new_Module_ Module__from_json.

Definition ConfigJson_from_json `{Uninit} (j : json) (x : ConfigJson) : M ConfigJson :=
  x ← GetValueIfFindKey PROFILE j "app" get_App OBJECT true NOT_ARRAY (λ v x, x <| ccj_app := v |>) x;
  x ← GetValueIfFindKey PROFILE j "deviceConfig" get_DeviceConfig OBJECT true NOT_ARRAY (λ v x, x <|
        ccj_deveicConfig := v |>) x;
  x ← GetValueIfFindKey PROFILE j "module" get_Module_ OBJECT true NOT_ARRAY (λ v x, x <| ccj_module := v |>) x;
  mret x.
Definition get_ConfigJson `{Uninit} : json → M ConfigJson := get_part new_ConfigJson ConfigJson_from_json.

(** ** The checks *)

Definition CheckBundleNameIsValid (bundleName : string) : bool :=
  match bundleName with
  | EmptyString => false
  | String head _ =>
      if (String.length bundleName <? MIN_BUNDLE_NAME)%nat || (MAX_BUNDLE_NAME <? String.length bundleName)%nat then false
      else if char_lt head "A" || (char_lt "Z" head && char_lt head "a") || char_lt "z" head then false
      else str_forall (λ c,
             negb (char_lt c "." || bool_decide (c = "/"%char) || (char_lt "9" c && char_lt c "A")
                   || (char_lt "Z" c && char_lt c "_") || bool_decide (c = "`"%char) || char_lt "z" c)) bundleName
  end.

(** The check, and the profile in which the package of a lite device may have
    been filled in. *)
Definition CheckModuleInfosIsValid (configJson : ConfigJson) : bool * ConfigJson :=
  let module := ccj_module configJson in
  if bool_decide (cmod_deviceType module = []) then (false, configJson)
  else if existsb (λ ability, str_empty (cab_name ability) || str_empty (cab_type ability)) (cmod_abilities module)
  then (false, configJson)
  else if cver_code (capp_version (ccj_app configJson)) <=? 0 then (false, configJson)
  else if existsb (λ d, bool_decide (d = "liteWearable") || bool_decide (d = "smartVision")) (cmod_deviceType module) then
    if str_empty (cmod_package module)
    then (true, configJson <| ccj_module ::= λ m, m <| cmod_package := capp_bundleName (ccj_app configJson) |> |>)
    else (true, configJson)
  else if str_empty (cmod_package module) then (false, configJson)
  else if str_empty (di_moduleName (cmod_distro module)) then (false, configJson)
  else (true, configJson).

(** ** The conversions *)

Definition ABILITY_TYPE_MAP : list (string * AbilityType) := [
  ("page", AbilityType_PAGE); ("service", AbilityType_SERVICE); ("data", AbilityType_DATA); ("form", AbilityType_FORM)].
Definition DISPLAY_ORIENTATION_MAP : list (string * DisplayOrientation) := [
  ("unspecified", DisplayOrientation_UNSPECIFIED); ("landscape", DisplayOrientation_LANDSCAPE);
  ("portrait", DisplayOrientation_PORTRAIT); ("followrecent", DisplayOrientation_FOLLOWRECENT)].
Definition LAUNCH_MODE_MAP : list (string * LaunchMode) := [
  ("singleton", LaunchMode_SINGLETON); ("singletop", LaunchMode_SINGLETOP); ("standard", LaunchMode_STANDARD);
  ("specified", LaunchMode_SPECIFIED)].
Definition dimensionMap : list (string * Z) := [("1*2", 1); ("2*2", 2); ("2*4", 3); ("4*4", 4)].
Definition formTypeMap : list (string * FormType) := [("JS", FormType_JS); ("Java", FormType_JAVA)].
Definition moduleColorMode : list (string * ModuleColorMode) := [
  ("auto", ModuleColorMode_AUTO); ("dark", ModuleColorMode_DARK); ("light", ModuleColorMode_LIGHT)].
Definition formColorModeMap : list (string * FormsColorMode) := [
  ("auto", FormsColorMode_AUTO_MODE); ("dark", FormsColorMode_DARK_MODE); ("light", FormsColorMode_LIGHT_MODE)].
Definition formEntityMap : list (string * Z) := [("homeScreen", 1); ("searchbox", 2)].
Definition MODULE_TYPE_SET : list string := ["entry"; "feature"; "har"].

Definition GetFormEntity (formEntity : list string) : Z := flags_of formEntityMap formEntity.
Definition GetBackgroundModes (backgroundModes : list string) : Z := flags_of BACKGROUND_MODES_MAP backgroundModes.

Definition ConvertFormInfo (form : Forms) (formInfo : FormInfo) : FormInfo :=
  let f := formInfo <| fi_name := cfs_name form |> <| fi_description := cfs_description form |>
                    <| fi_descriptionId := cfs_descriptionId form |>
                    <| fi_formConfigAbility := cfs_formConfigAbility form |>
                    <| fi_formVisibleNotify := cfs_formVisibleNotify form |>
                    <| fi_deepLink := cfs_deepLink form |> <| fi_defaultFlag := cfs_isDefault form |> in
  let f := match assoc_find (cfs_type form) formTypeMap with Some type => f <| fi_type := type |> | None => f end in
  let f := match assoc_find (cfs_colorMode form) formColorModeMap with
           | Some colorMode => f <| fi_colorMode := colorMode |> | None => f end in
  let f := f <| fi_updateEnabled := cfs_updateEnabled form |>
             <| fi_scheduledUpdateTime := cfs_scheduledUpdateTime form |>
             <| fi_updateDuration := cfs_updateDuration form |> <| fi_jsComponentName := cfs_jsComponentName form |>
             <| fi_customizeDatas ::= λ l,
                  l ++ map (λ d, mkFormCustomizeData (cfcd_name d) (cfcd_value d)) (cfmd_customizeData (cfs_metaData form)) |>
             <| fi_supportDimensions ::= λ l, l ++ omap (λ d, assoc_find d dimensionMap) (cfs_supportDimensions form) |> in
  let f := match assoc_find (cfs_defaultDimension form) dimensionMap with
           | Some dimension => f <| fi_defaultDimension := dimension |> | None => f end in
  f <| fi_landscapeLayouts := cfs_landscapeLayouts form |> <| fi_portraitLayouts := cfs_portraitLayouts form |>
    <| fi_src := cfs_src form |>
    <| fi_window := mkFormWindow (cwin_designWidth (cfs_window form)) (cwin_autoDesignWidth (cfs_window form)) |>.

Definition CURRENT_DEVICE_ID : string := "PHONE-001".

Definition ToApplicationInfo `{DeviceParameters} (configJson : ConfigJson) (isPreInstallApp : bool) (IsDirExist : string → bool)
  (applicationInfo : ApplicationInfo) : ApplicationInfo :=
  let app := ccj_app configJson in
  let device := cdc_defaultDevice (ccj_deveicConfig configJson) in
  let a := applicationInfo <| app_name := capp_bundleName app |> <| app_bundleName := capp_bundleName app |>
             <| app_versionCode := u32 (cver_code (capp_version app)) |>
             <| app_versionName := cver_name (capp_version app) |> in
  let a := a <| app_minCompatibleVersionCode :=
                 (if cver_minCompatibleVersionCode (capp_version app) =? -1 then i32 (app_versionCode a)
                  else cver_minCompatibleVersionCode (capp_version app)) |>
             <| app_apiCompatibleVersion := capi_compatible (capp_apiVersion app) |>
             <| app_apiTargetVersion := i32 (capi_target (capp_apiVersion app)) |>
             <| app_apiReleaseType := capi_releaseType (capp_apiVersion app) |> in
  let a := if app_isSystemApp a && isPreInstallApp
           then a <| app_keepAlive := cdev_keepAlive device |> <| app_singleton := capp_singleton app |>
                  <| app_userDataClearable := capp_userDataClearable app |>
                  <| app_removable := (if (capp_removable app).1 then (capp_removable app).2 else false) |>
           else a in
  let a := a <| app_debug := cdev_debug device |> <| app_deviceId := CURRENT_DEVICE_ID |>
             <| app_distributedNotificationEnabled := true |> <| app_entityType := "unspecified" |>
             <| app_process := cdev_process device |>
             <| app_supportedModes := (if has "drive" (cmod_supportedModes (ccj_module configJson)) then 1 else 0) |>
             <| app_vendor := capp_vendor app |> in
  let a := handle_native_so IsDirExist a in
  a <| app_iconId := capp_iconId app |> <| app_labelId := capp_labelId app |> <| app_enabled := true |>
    <| app_targetBundleList ::= λ l, l ++ capp_targetBundleList app |>.

Definition ToBundleInfo (configJson : ConfigJson) (a : ApplicationInfo) (m : InnerModuleInfo) (isPreInstallApp : bool)
  (bundleInfo : BundleInfo) : BundleInfo :=
  let b := bundleInfo <| bi_name := app_bundleName a |> <| bi_versionCode := app_versionCode a |>
             <| bi_versionName := app_versionName a |>
             <| bi_minCompatibleVersionCode := u32 (app_minCompatibleVersionCode a) |>
             <| bi_compatibleVersion := app_apiCompatibleVersion a |>
             <| bi_targetVersion := u32 (app_apiTargetVersion a) |>
             <| bi_isKeepAlive := app_keepAlive a |> <| bi_singleton := app_singleton a |>
             <| bi_isPreInstallApp := isPreInstallApp |>
             <| bi_vendor := app_vendor a |> <| bi_releaseType := app_apiReleaseType a |> in
  let b := if bool_decide (cmod_jses (ccj_module configJson) = []) then b <| bi_isNativeApp := true |> else b in
  if im_isEntry m
  then b <| bi_mainEntry := im_modulePackage m |> <| bi_entryModuleName := im_moduleName m |> else b.

Definition GetMetaData (profileMetaData : MetaData) (metaData : BundleTypes.MetaData) : BundleTypes.MetaData :=
  metaData <| mdl_customizeData ::= λ l,
    l ++ map (λ item, BundleTypes.mkCustomizeData (ccd_name item) (ccd_value item) (ccd_extra item)) (cmd_customizeData profileMetaData) |>.

(** [name.substr(0, 1) == "."]: then the package goes before it. *)
Definition absolute (package name : string) : string := if String.prefix "." name then package +:+ name else name.

Definition ToInnerModuleInfo (configJson : ConfigJson) (innerModuleInfo : InnerModuleInfo) : InnerModuleInfo :=
  let module := ccj_module configJson in
  let m := innerModuleInfo <| im_modulePackage := cmod_package module |>
             <| im_moduleName := di_moduleName (cmod_distro module) |>
             <| im_installationFree := di_installationFree (cmod_distro module) |>
             <| im_description := cmod_description module |> <| im_descriptionId := cmod_descriptionId module |> in
  let m := match assoc_find (cmod_colorMode module) moduleColorMode with
           | Some colorMode => m <| im_colorMode := colorMode |> | None => m end in
  let m := m <| im_metaData ::= GetMetaData (cmod_metaData module) |> <| im_distro := cmod_distro module |>
             <| im_reqCapabilities := cmod_reqCapabilities module |>
             <| im_requestPermissions := cmod_requestPermissions module |>
             <| im_definePermissions := cmod_definePermissions module |>
             <| im_defPermissions := cmod_defPermissions module |>
             <| im_mainAbility := absolute (cmod_package module) (cmod_mainAbility module) |>
             <| im_srcPath := cmod_srcPath module |> in
  let m := if has (di_moduleType (im_distro m)) MODULE_TYPE_SET
           then if bool_decide (di_moduleType (im_distro m) = "entry") then m <| im_isEntry := true |> else m
           else m in
  m <| im_dependencies := cmod_dependencies module |> <| im_isModuleJson := false |>.

(** [::tolower] on every character. *)
Definition tolower (c : ascii) : ascii :=
  if negb (char_lt c "A") && negb (char_lt "Z" c) then ascii_of_N (N_of_ascii c + 32) else c.
Fixpoint lower (s : string) : string :=
  match s with EmptyString => EmptyString | String c s' => String (tolower c) (lower s') end.

Definition DATA_ABILITY_URI_PREFIX : string := "dataability://".

(** The name of an ability, as ToAbilityInfo and the form loop spell it. *)
Definition ability_name (package : string) (ability : Ability) : string :=
  if negb (bool_decide (cab_srcLanguage ability = "c++")) then absolute package (cab_name ability) else cab_name ability.

Definition ToAbilityInfo (configJson : ConfigJson) (ability : Ability) (isSystemApp isPreInstallApp : bool)
  (abilityInfo : AbilityInfo) : option AbilityInfo :=
  let module := ccj_module configJson in
  let a := abilityInfo <| ai_name := ability_name (cmod_package module) ability |>
             <| ai_label := cab_label ability |> <| ai_description := cab_description ability |>
             <| ai_iconPath := cab_icon ability |> <| ai_labelId := cab_labelId ability |>
             <| ai_descriptionId := cab_descriptionId ability |> <| ai_iconId := cab_iconId ability |>
             <| ai_visible := cab_visible ability |> <| ai_continuable := cab_continuable ability |>
             <| ai_kind := cab_type ability |> <| ai_srcPath := cab_srcPath ability |>
             <| ai_srcLanguage := cab_srcLanguage ability |> in
  let a := if isSystemApp && isPreInstallApp then a <| ai_priority := cab_priority ability |> else a in
  let a := a <| ai_srcLanguage ::= lower |> in
  let a := if negb (bool_decide (ai_srcLanguage a = "js")) && negb (bool_decide (ai_srcLanguage a = "ets"))
           then a <| ai_isNativeAbility := true |> else a in
  match assoc_find (cab_type ability) ABILITY_TYPE_MAP with
  | None => None
  | Some type =>
      let a := a <| ai_type := type |> in
      let a := match assoc_find (cab_orientation ability) DISPLAY_ORIENTATION_MAP with
               | Some orientation => a <| ai_orientation := orientation |> | None => a end in
      let a := match assoc_find (cab_launchType ability) LAUNCH_MODE_MAP with
               | Some launch => a <| ai_launchMode := launch |> | None => a end in
      let a := a <| ai_permissions ::= λ l, l ++ cab_permissions ability |>
                 <| ai_process := (if str_empty (cab_process ability)
                                   then cdev_process (cdc_defaultDevice (ccj_deveicConfig configJson))
                                   else cab_process ability) |>
                 <| ai_theme := cab_theme ability |> <| ai_deviceTypes := cmod_deviceType module |>
                 <| ai_deviceCapabilities := cab_deviceCapability ability |> in
      if bool_decide (type = AbilityType_DATA) && negb (str_contains DATA_ABILITY_URI_PREFIX (cab_uri ability)) then None
      else
        let a := a <| ai_uri := cab_uri ability |> <| ai_package := cmod_package module |>
                   <| ai_bundleName := capp_bundleName (ccj_app configJson) |>
                   <| ai_moduleName := di_moduleName (cmod_distro module) |>
                   <| ai_applicationName := capp_bundleName (ccj_app configJson) |>
                   <| ai_targetAbility := cab_targetAbility ability |> <| ai_enabled := true |>
                   <| ai_supportPipMode := cab_supportPipMode ability |>
                   <| ai_readPermission := cab_readPermission ability |>
                   <| ai_writePermission := cab_writePermission ability |>
                   <| ai_configChanges := cab_configChanges ability |> in
        let a := a <| ai_formEntity := GetFormEntity (cfm_formEntity (cab_form ability)) |>
                   <| ai_minFormHeight := cfm_minHeight (cab_form ability) |>
                   <| ai_defaultFormHeight := cfm_defaultHeight (cab_form ability) |>
                   <| ai_minFormWidth := cfm_minWidth (cab_form ability) |>
                   <| ai_defaultFormWidth := cfm_defaultWidth (cab_form ability) |>
                   <| ai_metaData ::= GetMetaData (cab_metaData ability) |>
                   <| ai_formEnabled := cab_formsEnabled ability |>
                   <| ai_backgroundModes := GetBackgroundModes (cab_backgroundModes ability) |>
                   <| ai_isModuleJson := false |> in
        Some (a <| ai_startWindowIcon := cab_startWindowIcon ability |>
                <| ai_startWindowIconId := cab_startWindowIconId ability |>
                <| ai_startWindowBackground := cab_startWindowBackground ability |>
                <| ai_startWindowBackgroundId := cab_startWindowBackgroundId ability |>
                <| ai_removeMissionAfterTerminate := cab_removeMissionAfterTerminate ability |>)
  end.

Section ToInnerBundleInfo.
Context `{HD : DeviceParameters} `{HU : Uninit}.

Definition to_shortcut (configJson : ConfigJson) (info : Shortcut) : ShortcutInfo :=
  (new_ShortcutInfo uninit) <| sc_id := csc_shortcutId info |>
    <| sc_bundleName := capp_bundleName (ccj_app configJson) |> <| sc_icon := csc_icon info |>
    <| sc_label := csc_label info |> <| sc_iconId := csc_iconId info |> <| sc_labelId := csc_labelId info |>
    <| sc_intents := map (λ intent, mkShortcutIntent (cin_targetBundle intent) (cin_targetClass intent)) (csc_intents info) |>.

Definition to_common_event (configJson : ConfigJson) (info : CommonEvent) : CommonEventInfo :=
  new_CommonEventInfo <| ce_name := cce_name info |> <| ce_bundleName := capp_bundleName (ccj_app configJson) |>
    <| ce_permission := cce_permission info |> <| ce_data := cce_data info |> <| ce_type := cce_type info |>
    <| ce_events := cce_events info |>.

Definition to_form (configJson : ConfigJson) (ability : Ability) (form : Forms) : FormInfo :=
  let module := ccj_module configJson in
  (ConvertFormInfo form new_FormInfo) <| fi_abilityName := ability_name (cmod_package module) ability |>
    <| fi_bundleName := capp_bundleName (ccj_app configJson) |>
    <| fi_moduleName := di_moduleName (cmod_distro module) |> <| fi_package := cmod_package module |>
    <| fi_originalBundleName := capp_originalName (ccj_app configJson) |>.

Definition mark_entry (keyName : string) (ability : Ability) (innerModuleInfo : InnerModuleInfo) : InnerModuleInfo :=
  let m := innerModuleInfo <| im_entryAbilityKey := keyName |> in
  if str_empty (im_label m)
  then m <| im_label := cab_label ability |> <| im_labelId := cab_labelId ability |> else m.

(** One skill of an ability: the first with the home action and entity makes
    it the entry ability. *)
Definition look_for_entry (keyName : string) (ability : Ability) (isPreInstallApp : bool) (s : Building * AbilityInfo)
  (skill : Skill) : Building * AbilityInfo :=
  let '(b, abilityInfo) := s in
  let b := if has INTENT_ACTION_HOME (sk_actions skill) && has INTENT_ENTITY_HOME (sk_entities skill) && negb (bd_find b)
           then b <| bd_module ::= mark_entry keyName ability |>
                  <| bd_app ::= λ a, a <| app_label := cab_label ability |> <| app_labelId := cab_labelId ability |>
                       <| app_iconPath := cab_icon ability |> <| app_iconId := cab_iconId ability |>
                       <| app_description := cab_description ability |>
                       <| app_descriptionId := cab_descriptionId ability |> |>
                  <| bd_find := true |>
           else b in
  if has FLAG_HOME_INTENT_FROM_SYSTEM (sk_entities skill) && isPreInstallApp
  then (b <| bd_app ::= λ a, a <| app_isLauncherApp := true |> |>, abilityInfo <| ai_isLauncherAbility := true |>)
  else (b, abilityInfo).

(** The body of the loop over the abilities; it fails with the bundle as it
    is then. *)
Definition add_ability (configJson : ConfigJson) (isPreInstallApp : bool) (b : Building) (ability : Ability) : bool * Building :=
  let module := ccj_module configJson in
  match ToAbilityInfo configJson ability (app_isSystemApp (bd_app b)) isPreInstallApp (new_AbilityInfo uninit) with
  | None => (false, b)
  | Some abilityInfo =>
      let keyName := profile_key (capp_bundleName (ccj_app configJson)) (cmod_package module) (ai_name abilityInfo) in
      let b := b <| bd_module ::= λ m, m <| im_abilityKeys ::= λ l, l ++ [keyName] |>
                                         <| im_skillKeys ::= λ l, l ++ [keyName] |> |>
                 <| bd_info ::= InsertSkillInfo keyName (cab_skills ability) |>
                 <| bd_info ::= InsertFormInfos keyName (map (to_form configJson ability) (cab_formses ability)) |> in
      let '(b, abilityInfo) :=
        if negb (bd_find b)
        then foldl (look_for_entry keyName ability isPreInstallApp) (b, abilityInfo) (cab_skills ability)
        else (b, abilityInfo) in
      (true, b <| bd_info ::= InsertAbilitiesInfo keyName abilityInfo |>)
  end.

Fixpoint add_abilities (configJson : ConfigJson) (isPreInstallApp : bool) (l : list Ability) (b : Building) : bool * Building :=
  match l with
  | [] => (true, b)
  | ability :: l' =>
      let '(ok, b) := add_ability configJson isPreInstallApp b ability in
      if negb ok then (false, b) else add_abilities configJson isPreInstallApp l' b
  end.

Definition add_shortcuts (configJson : ConfigJson) (i : InnerBundleInfo) : InnerBundleInfo :=
  foldl (λ i info, InsertShortcutInfos
    (profile_key (capp_bundleName (ccj_app configJson)) (cmod_package (ccj_module configJson)) (csc_shortcutId info))
    (to_shortcut configJson info) i) i (cmod_shortcuts (ccj_module configJson)).

Definition add_common_events (configJson : ConfigJson) (i : InnerBundleInfo) : InnerBundleInfo :=
  foldl (λ i info, InsertCommonEvents
    (profile_key (capp_bundleName (ccj_app configJson)) (cmod_package (ccj_module configJson)) (cce_name info))
    (to_common_event configJson info) i) i (cmod_commonEvents (ccj_module configJson)).

Definition ToInnerBundleInfo (configJson : ConfigJson) (IsDirExist : string → bool) (innerBundleInfo : InnerBundleInfo)
  : bool * InnerBundleInfo :=
  if negb (CheckBundleNameIsValid (capp_bundleName (ccj_app configJson))) then (false, innerBundleInfo)
  else
    let '(valid, configJson) := CheckModuleInfosIsValid configJson in
    if negb valid then (false, innerBundleInfo)
    else
      let isPreInstallApp := IsPreInstallApp innerBundleInfo in
      let isSystemApp := bool_decide (ib_appType innerBundleInfo = AppType_SYSTEM_APP) in
      let applicationInfo := ToApplicationInfo configJson isPreInstallApp IsDirExist
                               (new_ApplicationInfo <| app_isSystemApp := isSystemApp |>) in
      let innerModuleInfo := ToInnerModuleInfo configJson new_InnerModuleInfo in
      let bundleInfo := ToBundleInfo configJson applicationInfo innerModuleInfo isPreInstallApp new_BundleInfo in
      let i := add_shortcuts configJson innerBundleInfo in
      let i := if isSystemApp then add_common_events configJson i else i in
      let '(ok, b) := add_abilities configJson isPreInstallApp (cmod_abilities (ccj_module configJson))
                        (mkBuilding i innerModuleInfo applicationInfo false) in
      if negb ok then (false, bd_info b)
      else
        let package := cmod_package (ccj_module configJson) in
        let i := SetCurrentModulePackage package (bd_info b) in
        let i := SetBaseApplicationInfo (bd_app b) i in
        let i := SetBaseBundleInfo bundleInfo i in
        (true, InsertInnerModuleInfo package (bd_module b) i).
End ToInnerBundleInfo.

(** ** BundleProfile *)

Section TransformTo.
Context `{HX : JsonText} `{HD : DeviceParameters} `{HU : Uninit}.

Definition TransformTo (source : string) (IsDirExist : string → bool) (innerBundleInfo : InnerBundleInfo)
  : M (Z * InnerBundleInfo) :=
  match parse source with
  | None => mret (ERR_APPEXECFWK_PARSE_BAD_PROFILE, innerBundleInfo)
  | Some jsonObject =>
      configJson ← get_ConfigJson jsonObject;
      parseResult ← read_var PROFILE;
      if negb (parseResult =? ERR_OK) then
        _ ← write_var PROFILE ERR_OK;
        mret (parseResult, innerBundleInfo)
      else
        let '(ok, i) := ToInnerBundleInfo configJson IsDirExist innerBundleInfo in
        mret (if negb ok then ERR_APPEXECFWK_PARSE_PROFILE_PROP_CHECK_ERROR else ERR_OK, i)
  end.

(** The overload for pack.info. *)
Definition TransformTo_pack (source : string) (bundlePackInfo : BundlePackInfo) : M (Z * BundlePackInfo) :=
  match parse source with
  | None => mret (ERR_APPEXECFWK_PARSE_BAD_PROFILE, bundlePackInfo)
  | Some jsonObject => p ← get_BundlePackInfo jsonObject; mret (ERR_OK, p)
  end.
End TransformTo.

(** * The readers always give a result *)

Lemma accepts_Version : accepts MProfile OBJECT NOT_ARRAY get_Version.
Proof. apply accepts_part. intros j x Hj. unfold Version_from_json. run_fields. Qed.
#[export] Hint Resolve accepts_Version : runs.
Lemma accepts_ApiVersion : accepts MProfile OBJECT NOT_ARRAY get_ApiVersion.
Proof. apply accepts_part. intros j x Hj. unfold ApiVersion_from_json. run_fields. Qed.
#[export] Hint Resolve accepts_ApiVersion : runs.
Lemma accepts_App : accepts MProfile OBJECT NOT_ARRAY get_App.
Proof. apply accepts_part. intros j x Hj. unfold App_from_json. run_fields. Qed.
#[export] Hint Resolve accepts_App : runs.
Lemma accepts_ReqVersion : accepts MProfile OBJECT NOT_ARRAY get_ReqVersion.
Proof. apply accepts_part. intros j x Hj. unfold ReqVersion_from_json. run_fields. Qed.
#[export] Hint Resolve accepts_ReqVersion : runs.
Lemma accepts_Ark : accepts MProfile OBJECT NOT_ARRAY get_Ark.
Proof. apply accepts_part. intros j x Hj. unfold Ark_from_json. run_fields. Qed.
#[export] Hint Resolve accepts_Ark : runs.
Lemma accepts_Domain : accepts MProfile OBJECT NOT_ARRAY get_Domain.
Proof. apply accepts_part. intros j x Hj. unfold Domain_from_json. run_fields. Qed.
#[export] Hint Resolve accepts_Domain : runs.
Lemma accepts_DomainSetting : accepts MProfile OBJECT NOT_ARRAY get_DomainSetting.
Proof. apply accepts_part. intros j x Hj. unfold DomainSetting_from_json. run_fields. Qed.
#[export] Hint Resolve accepts_DomainSetting : runs.
Lemma accepts_SecurityConfig : accepts MProfile OBJECT NOT_ARRAY get_SecurityConfig.
Proof. apply accepts_part. intros j x Hj. unfold SecurityConfig_from_json. run_fields. Qed.
#[export] Hint Resolve accepts_SecurityConfig : runs.
Lemma accepts_Network : accepts MProfile OBJECT NOT_ARRAY get_Network.
Proof. apply accepts_part. intros j x Hj. unfold Network_from_json. run_fields. Qed.
#[export] Hint Resolve accepts_Network : runs.
Lemma accepts_Device : accepts MProfile OBJECT NOT_ARRAY get_Device.
Proof. apply accepts_part. intros j x Hj. unfold Device_from_json. run_fields. Qed.
#[export] Hint Resolve accepts_Device : runs.
Lemma accepts_DeviceConfig : accepts MProfile OBJECT NOT_ARRAY get_DeviceConfig.
Proof. apply accepts_part. intros j x Hj. unfold DeviceConfig_from_json. run_fields. Qed.
#[export] Hint Resolve accepts_DeviceConfig : runs.
Lemma accepts_Form : accepts MProfile OBJECT NOT_ARRAY get_Form.
Proof. apply accepts_part. intros j x Hj. unfold Form_from_json. run_fields. Qed.
#[export] Hint Resolve accepts_Form : runs.
Lemma accepts_CustomizeData : accepts MProfile OBJECT NOT_ARRAY get_CustomizeData.
Proof. apply accepts_part. intros j x Hj. unfold CustomizeData_from_json. run_fields. Qed.
#[export] Hint Resolve accepts_CustomizeData : runs.
Lemma accepts_MetaData : accepts MProfile OBJECT NOT_ARRAY get_MetaData.
Proof. apply accepts_part. intros j x Hj. unfold MetaData_from_json. run_fields. Qed.
#[export] Hint Resolve accepts_MetaData : runs.
Lemma accepts_FormsCustomizeData : accepts MProfile OBJECT NOT_ARRAY get_FormsCustomizeData.
Proof. apply accepts_part. intros j x Hj. unfold FormsCustomizeData_from_json. run_fields. Qed.
#[export] Hint Resolve accepts_FormsCustomizeData : runs.
Lemma accepts_FormsMetaData : accepts MProfile OBJECT NOT_ARRAY get_FormsMetaData.
Proof. apply accepts_part. intros j x Hj. unfold FormsMetaData_from_json. run_fields. Qed.
#[export] Hint Resolve accepts_FormsMetaData : runs.
Lemma accepts_Window : accepts MProfile OBJECT NOT_ARRAY get_Window.
Proof. apply accepts_part. intros j x Hj. unfold Window_from_json. run_fields. Qed.
#[export] Hint Resolve accepts_Window : runs.
Lemma accepts_Forms : accepts MProfile OBJECT NOT_ARRAY get_Forms.
Proof. apply accepts_part. intros j x Hj. unfold Forms_from_json, Forms_from_json_1, Forms_from_json_2. run_fields. Qed.
#[export] Hint Resolve accepts_Forms : runs.
Lemma accepts_UriPermission : accepts MProfile OBJECT NOT_ARRAY get_UriPermission.
Proof. apply accepts_part. intros j x Hj. unfold UriPermission_from_json. run_fields. Qed.
#[export] Hint Resolve accepts_UriPermission : runs.
Lemma accepts_Ability `{Uninit} : accepts MProfile OBJECT NOT_ARRAY get_Ability.
Proof. apply accepts_part. intros j x Hj. unfold Ability_from_json, Ability_from_json_1, Ability_from_json_2, Ability_from_json_3. run_fields. Qed.
#[export] Hint Resolve accepts_Ability : runs.
Lemma accepts_Js : accepts MProfile OBJECT NOT_ARRAY get_Js.
Proof. apply accepts_part. intros j x Hj. unfold Js_from_json. run_fields. Qed.
#[export] Hint Resolve accepts_Js : runs.
Lemma accepts_Intent : accepts MProfile OBJECT NOT_ARRAY get_Intent.
Proof. apply accepts_part. intros j x Hj. unfold Intent_from_json. run_fields. Qed.
#[export] Hint Resolve accepts_Intent : runs.
Lemma accepts_CommonEvent : accepts MProfile OBJECT NOT_ARRAY get_CommonEvent.
Proof. apply accepts_part. intros j x Hj. unfold CommonEvent_from_json. run_fields. Qed.
#[export] Hint Resolve accepts_CommonEvent : runs.
Lemma accepts_Shortcut `{Uninit} : accepts MProfile OBJECT NOT_ARRAY get_Shortcut.
Proof. apply accepts_part. intros j x Hj. unfold Shortcut_from_json. run_fields. Qed.
#[export] Hint Resolve accepts_Shortcut : runs.
Lemma accepts_Module_ `{Uninit} : accepts MProfile OBJECT NOT_ARRAY get_Module_.
Proof. apply accepts_part. intros j x Hj. unfold Module__from_json, Module__from_json_1, Module__from_json_2. run_fields. Qed.
#[export] Hint Resolve accepts_Module_ : runs.
Lemma accepts_ConfigJson `{Uninit} : accepts MProfile OBJECT NOT_ARRAY get_ConfigJson.
Proof. apply accepts_part. intros j x Hj. unfold ConfigJson_from_json. run_fields. Qed.
#[export] Hint Resolve accepts_ConfigJson : runs.

(** * What a config.json turns into *)

Lemma CheckBundleNameIsValid_iff name : CheckBundleNameIsValid name = true ↔ valid_bundle_name name.
Proof. apply name_check_iff. Qed.

Lemma ToAbilityInfo_names configJson ability s p a0 :
  match ToAbilityInfo configJson ability s p a0 with
  | Some a => ai_bundleName a = capp_bundleName (ccj_app configJson)
              ∧ ai_package a = cmod_package (ccj_module configJson) ∧ ai_enabled a = true
              ∧ ai_name a = ability_name (cmod_package (ccj_module configJson)) ability
  | None => True
  end.
Proof.
  unfold ToAbilityInfo. destruct (assoc_find _ ABILITY_TYPE_MAP) as [type|]; [|done].
  match goal with |- context [if ?c && negb ?d then None else _] => destruct (c && negb d) end; [done|].
  destruct (assoc_find _ DISPLAY_ORIENTATION_MAP), (assoc_find _ LAUNCH_MODE_MAP), (s && p), (negb (bool_decide _) && negb _);
    split_and!; reflexivity.
Qed.

Lemma mark_entry_same key ability m :
  let m' := mark_entry key ability m in
  im_modulePackage m' = im_modulePackage m ∧ im_abilityKeys m' = im_abilityKeys m ∧ im_skillKeys m' = im_skillKeys m
  ∧ im_extensionKeys m' = im_extensionKeys m ∧ im_extensionSkillKeys m' = im_extensionSkillKeys m
  ∧ im_isEntry m' = im_isEntry m ∧ im_entryAbilityKey m' = key.
Proof. cbv zeta. unfold mark_entry. cbv zeta. by destruct (str_empty _). Qed.

(** The loop over the skills changes the entry, the label and the flag of the
    launcher. *)
Record same_but_entry (b b' : Building) : Prop := mkSame {
  sb_info : bd_info b' = bd_info b;
  sb_abilityKeys : im_abilityKeys (bd_module b') = im_abilityKeys (bd_module b);
  sb_skillKeys : im_skillKeys (bd_module b') = im_skillKeys (bd_module b);
  sb_extensionKeys : im_extensionKeys (bd_module b') = im_extensionKeys (bd_module b);
  sb_extensionSkillKeys : im_extensionSkillKeys (bd_module b') = im_extensionSkillKeys (bd_module b);
  sb_package : im_modulePackage (bd_module b') = im_modulePackage (bd_module b);
  sb_isEntry : im_isEntry (bd_module b') = im_isEntry (bd_module b);
  sb_app : app_bundleName (bd_app b') = app_bundleName (bd_app b) ∧ app_name (bd_app b') = app_name (bd_app b)
    ∧ app_enabled (bd_app b') = app_enabled (bd_app b) ∧ app_versionCode (bd_app b') = app_versionCode (bd_app b)
    ∧ app_isSystemApp (bd_app b') = app_isSystemApp (bd_app b);
}.

Lemma look_for_entry_keeps key ability p b a skill :
  let '(b', a') := look_for_entry key ability p (b, a) skill in
  same_but_entry b b' ∧ a' = a <| ai_isLauncherAbility := ai_isLauncherAbility a' |>
  ∧ (bd_find b', im_entryAbilityKey (bd_module b')) =
    (if bd_find b then (true, im_entryAbilityKey (bd_module b))
     else if home_skill skill then (true, key) else (false, im_entryAbilityKey (bd_module b))).
Proof.
  unfold look_for_entry, home_skill. pose proof (mark_entry_same key ability (bd_module b)) as Hm. cbv zeta in Hm.
  destruct Hm as (H1 & H2 & H3 & H4 & H5 & H6 & H7).
  assert (a = a <| ai_isLauncherAbility := ai_isLauncherAbility a |>) as Hself by by destruct a.
  destruct (has INTENT_ACTION_HOME _ && has INTENT_ENTITY_HOME _), (bd_find b) eqn:Hb, (_ && p); cbn [andb negb];
    (split; [by split|]); (split; [done|]); simpl; congruence.
Qed.

Lemma same_but_entry_trans b1 b2 b3 : same_but_entry b1 b2 → same_but_entry b2 b3 → same_but_entry b1 b3.
Proof. intros [] []. destruct_and!. split; [congruence..|]. split_and!; congruence. Qed.

Lemma skills_keep key ability p skills b a :
  let '(b', a') := foldl (look_for_entry key ability p) (b, a) skills in
  same_but_entry b b' ∧ a' = a <| ai_isLauncherAbility := ai_isLauncherAbility a' |>
  ∧ (bd_find b', im_entryAbilityKey (bd_module b')) =
    (if bd_find b then (true, im_entryAbilityKey (bd_module b))
     else if existsb home_skill skills then (true, key) else (false, im_entryAbilityKey (bd_module b))).
Proof.
  revert b a. induction skills as [|skill skills IH]; intros b a; cbn [foldl existsb].
  - split; [by split|]. split; [by destruct a|]. by destruct (bd_find b).
  - pose proof (look_for_entry_keeps key ability p b a skill) as Hl.
    destruct (look_for_entry key ability p (b, a) skill) as [b1 a1]. destruct Hl as (Hs1 & Ha1 & He1).
    specialize (IH b1 a1). destruct (foldl _ _ _) as [b2 a2]. destruct IH as (Hs2 & Ha2 & He2).
    split; [by eapply same_but_entry_trans|]. split.
    + rewrite Ha2, Ha1. by destruct a.
    + rewrite He2. destruct (bd_find b); [|destruct (home_skill skill)]; injection He1 as -> ->; reflexivity.
Qed.

Section Wf.
Context `{HD : DeviceParameters} `{HU : Uninit}.

(** The key of the first ability with a home skill. *)
Definition entry_of (configJson : ConfigJson) (l : list Ability) : string :=
  match List.find (λ ability, existsb home_skill (cab_skills ability)) l with
  | Some ability => profile_key (capp_bundleName (ccj_app configJson)) (cmod_package (ccj_module configJson))
                      (ability_name (cmod_package (ccj_module configJson)) ability)
  | None => ""
  end.

Lemma add_ability_wf configJson p vc e b ability b' :
  let name := capp_bundleName (ccj_app configJson) in
  let package := cmod_package (ccj_module configJson) in
  add_ability configJson p b ability = (true, b') → building name package vc e b →
  building name package vc e b' ∧
  (bd_find b', im_entryAbilityKey (bd_module b')) =
    (if bd_find b then (true, im_entryAbilityKey (bd_module b))
     else if existsb home_skill (cab_skills ability) then (true, profile_key name package (ability_name package ability))
     else (false, im_entryAbilityKey (bd_module b))).
Proof.
  intros name package Hadd [Hk Hm Ha He]. unfold add_ability in Hadd.
  pose proof (ToAbilityInfo_names configJson ability (app_isSystemApp (bd_app b)) p (new_AbilityInfo uninit)) as Hn.
  destruct (ToAbilityInfo _ _ _ _ _) as [a|]; [|done]. destruct Hn as (Hb & Hp & Hen & Hname).
  fold name package in Hadd, Hb, Hp, Hname. cbv zeta in Hadd. rewrite Hname in Hadd.
  set (key := profile_key name package (ability_name package ability)) in *.
  set (b1 := b <| bd_module ::= _ |> <| bd_info ::= _ |> <| bd_info ::= _ |>) in Hadd.
  assert (Hb1 : bd_find b1 = bd_find b) by done. rewrite Hb1 in Hadd.
  assert (∃ b2 a2, b' = b2 <| bd_info ::= InsertAbilitiesInfo key a2 |> ∧ same_but_entry b1 b2
    ∧ a2 = a <| ai_isLauncherAbility := ai_isLauncherAbility a2 |>
    ∧ (bd_find b2, im_entryAbilityKey (bd_module b2)) =
      (if bd_find b then (true, im_entryAbilityKey (bd_module b))
       else if existsb home_skill (cab_skills ability) then (true, key) else (false, im_entryAbilityKey (bd_module b)))) as Hloop.
  { pose proof (skills_keep key ability p (cab_skills ability) b1 a) as Hs. rewrite Hb1 in Hs.
    destruct (bd_find b); simpl in Hadd.
    - injection Hadd as <-. exists b1, a. split_and!; first [done|by split|by destruct a|by rewrite Hb1].
    - destruct (foldl _ _ _) as [b2 a2]. injection Hadd as <-. exists b2, a2. destruct Hs as (? & ? & ?). done. }
  destruct Hloop as (b2 & a2 & -> & Hs & Ha2 & Hentry). split; [|exact Hentry].
  destruct Hs as [Hi Hak Hsk Hxk Hyk Hmp Hie (Hbn & Hna & Hae & Hvc & _)].
  assert (ai_name a2 = ability_name package ability ∧ ai_bundleName a2 = name ∧ ai_package a2 = package ∧ ai_enabled a2 = true)
    as (Hna2 & Hbn2 & Hp2 & He2) by (rewrite Ha2; done).
  assert (Hkey : key = profile_key name package (ai_name a2)) by by rewrite Hna2.
  split.
  - eapply (keyed_ability name package (bd_module b) (bd_info b) a2 (cab_skills ability)
      (Some (map (to_form configJson ability) (cab_formses ability)))); try done; rewrite <- ?Hkey;
      simpl; rewrite ?Hi, ?Hak, ?Hsk, ?Hxk, ?Hyk, ?Hmp; reflexivity.
  - simpl. by rewrite Hi.
  - simpl. rewrite Hbn, Hna, Hae, Hvc. exact Ha.
  - simpl. by rewrite Hie.
Qed.

Lemma add_abilities_wf configJson p vc e l : ∀ b b',
  add_abilities configJson p l b = (true, b') →
  building (capp_bundleName (ccj_app configJson)) (cmod_package (ccj_module configJson)) vc e b →
  building (capp_bundleName (ccj_app configJson)) (cmod_package (ccj_module configJson)) vc e b' ∧
  (bd_find b = true → im_entryAbilityKey (bd_module b') = im_entryAbilityKey (bd_module b)) ∧
  (bd_find b = false → im_entryAbilityKey (bd_module b) = "" →
   im_entryAbilityKey (bd_module b') = entry_of configJson l).
Proof.
  induction l as [|ability l IH]; intros b b' Hadd Hb; cbn [add_abilities] in Hadd; [by injection Hadd as <-|].
  destruct (add_ability configJson p b ability) as [[] b1] eqn:H1; [|done]. simpl in Hadd.
  apply (add_ability_wf _ _ vc e) in H1 as [Hb1 He1]; [|done]. apply IH in Hadd as (Hb' & Ht & Hf); [|done].
  split; [done|]. unfold entry_of in *. cbn [List.find].
  destruct (bd_find b) eqn:Hfind; [|destruct (existsb home_skill (cab_skills ability))]; injection He1 as Hf1 Hk1;
    (split; intros Hfb; [|intros Hkey]); try done; rewrite ?Ht, ?Hf by congruence; congruence.
Qed.

Lemma CheckModuleInfosIsValid_spec configJson c' :
  capp_bundleName (ccj_app configJson) ≠ "" → CheckModuleInfosIsValid configJson = (true, c') →
  ccj_app c' = ccj_app configJson ∧ 0 < cver_code (capp_version (ccj_app configJson)) ∧ cmod_package (ccj_module c') ≠ "".
Proof.
  intros Hname. unfold CheckModuleInfosIsValid. cbv zeta. intros Hc.
  destruct (bool_decide (cmod_deviceType _ = [])); [done|]. destruct (existsb (λ ability, _) _); [done|].
  destruct (Z.leb_spec (cver_code (capp_version (ccj_app configJson))) 0); [done|].
  assert (∀ s, str_empty s = false → s ≠ "") as Hs by by intros [].
  destruct (existsb _ _); destruct (str_empty (cmod_package _)) eqn:Hp; try done;
    [|by injection Hc as <-; auto|by destruct (str_empty (di_moduleName _)); [done|]; injection Hc as <-; auto].
  injection Hc as <-. done.
Qed.

Lemma ToApplicationInfo_names configJson p dirs s :
  let a := ToApplicationInfo configJson p dirs (new_ApplicationInfo <| app_isSystemApp := s |>) in
  app_bundleName a = capp_bundleName (ccj_app configJson) ∧ app_name a = capp_bundleName (ccj_app configJson)
  ∧ app_enabled a = true ∧ app_versionCode a = u32 (cver_code (capp_version (ccj_app configJson))).
Proof.
  cbv zeta. unfold ToApplicationInfo. cbv zeta.
  match goal with |- context [handle_native_so dirs ?a] => destruct (handle_native_so_eq dirs a) as (path & abi & ->) end.
  match goal with |- context [if ?c && p then _ else _] => destruct (c && p) end; split_and!; reflexivity.
Qed.

Lemma ToInnerModuleInfo_empty configJson :
  let m := ToInnerModuleInfo configJson new_InnerModuleInfo in
  im_modulePackage m = cmod_package (ccj_module configJson) ∧ im_abilityKeys m = [] ∧ im_skillKeys m = []
  ∧ im_extensionKeys m = [] ∧ im_extensionSkillKeys m = [] ∧ im_entryAbilityKey m = "".
Proof.
  cbv zeta. unfold ToInnerModuleInfo. cbv zeta. destruct (assoc_find _ moduleColorMode), (has _ _);
    try destruct (bool_decide (di_moduleType _ = _)); split_and!; reflexivity.
Qed.

Lemma ToBundleInfo_names configJson a m p :
  let b := ToBundleInfo configJson a m p new_BundleInfo in
  bi_name b = app_bundleName a ∧ bi_versionCode b = app_versionCode a
  ∧ bi_mainEntry b = (if im_isEntry m then im_modulePackage m else "").
Proof. cbv zeta. unfold ToBundleInfo. destruct (bool_decide (cmod_jses _ = [])), (im_isEntry m); split_and!; reflexivity. Qed.

(** The shortcuts and the common events go elsewhere. *)
Lemma add_shortcuts_fresh configJson i : fresh i → fresh (add_shortcuts configJson i).
Proof. unfold add_shortcuts. generalize (cmod_shortcuts (ccj_module configJson)). intros l. revert i. by induction l as [|x l IH]; intros i Hi; [|apply IH]. Qed.

Lemma add_common_events_fresh configJson i : fresh i → fresh (add_common_events configJson i).
Proof. unfold add_common_events. generalize (cmod_commonEvents (ccj_module configJson)). intros l. revert i. by induction l as [|x l IH]; intros i Hi; [|apply IH]. Qed.

Lemma ToInnerBundleInfo_wf configJson dirs i i' :
  fresh i → in_i32 (cver_code (capp_version (ccj_app configJson))) → ToInnerBundleInfo configJson dirs i = (true, i') →
  ∃ c' m, CheckModuleInfosIsValid configJson = (true, c')
    ∧ profile_wf (capp_bundleName (ccj_app configJson)) (cmod_package (ccj_module c')) m i'
    ∧ cmod_package (ccj_module c') ≠ "" ∧ 0 < bi_versionCode (ib_baseBundleInfo i') <= INT32_MAX
    ∧ im_entryAbilityKey m = entry_of c' (cmod_abilities (ccj_module c')).
Proof.
  intros Hi Hr. unfold ToInnerBundleInfo. destruct (CheckBundleNameIsValid _) eqn:Hname; [|done]. cbn [negb].
  apply CheckBundleNameIsValid_iff in Hname.
  destruct (CheckModuleInfosIsValid configJson) as [[] c'] eqn:Hc; [|done]. cbn [negb]. intros Hto. exists c'.
  assert (capp_bundleName (ccj_app configJson) ≠ "") as Hne by (destruct Hname as (_ & (? & ? & -> & _) & _); done).
  pose proof (CheckModuleInfosIsValid_spec _ _ Hne Hc) as (Happ & Hcode & Hpkg). rewrite <- Happ in Hname, Hcode, Hr.
  cbv zeta in Hto. set (p := IsPreInstallApp i) in *. set (sys := bool_decide _) in *.
  pose proof (ToApplicationInfo_names c' p dirs sys) as Ha. cbv zeta in Ha.
  set (a := ToApplicationInfo _ _ _ _) in *. pose proof (ToInnerModuleInfo_empty c') as Hm. cbv zeta in Hm.
  set (m0 := ToInnerModuleInfo _ _) in *. set (i1 := if sys then _ else _) in Hto.
  assert (Hi1 : fresh i1) by (subst i1; destruct sys; [apply add_common_events_fresh|]; by apply add_shortcuts_fresh).
  pose proof (ToBundleInfo_names c' a m0 p) as Hb. cbv zeta in Hb. set (bi := ToBundleInfo _ _ _ _ _) in *.
  clearbody a m0 i1 bi sys.
  destruct (add_abilities _ _ _ _) as [ok b] eqn:Hadd. destruct ok; [|discriminate]. cbn [negb] in Hto.
  apply (f_equal snd) in Hto. cbn [snd] in Hto. subst i'.
  apply (add_abilities_wf _ _ (u32 (cver_code (capp_version (ccj_app c')))) (im_isEntry m0)) in Hadd
    as ([Hk Hmods (Hbn & Hna & Hen & Hvc) He] & _ & Hentry).
  2:{ split; cbn [bd_module bd_info bd_app]; [apply keyed_fresh; naive_solver|apply Hi1|exact Ha|done]. }
  destruct Ha as (Ha1 & Ha2 & Ha3 & Ha4).
  assert (u32 (cver_code (capp_version (ccj_app c'))) = cver_code (capp_version (ccj_app c'))) as Hu.
  { apply u32_id. unfold in_i32, in_u32, INT32_MAX, UINT32_MAX in *. lia. }
  exists (bd_module b). rewrite <- Happ. split; [done|]. split; [|split; [done|split]].
  - split; [done|..]; simpl.
    + done.
    + split; [naive_solver congruence|]. rewrite Hvc. naive_solver congruence.
    + rewrite Hmods. done.
    + eapply keyed_same; [exact Hk|reflexivity..].
    + rewrite He. destruct Hb as (_ & _ & ->). destruct (im_isEntry m0); [|done]. naive_solver.
  - simpl. destruct Hb as (_ & -> & _). rewrite Ha4, Hu. unfold in_i32, INT32_MAX in *. lia.
  - apply Hentry; [done|naive_solver].
Qed.

(** ** The version code that is read has its width *)

Definition version_ok (x : Version) : Prop := in_i32 (cver_code x).

Lemma Version_code_gives j x : version_ok x → gives version_ok (Version_from_json j x).
Proof.
  intros Hx. unfold Version_from_json.
  give_fields version_ok ltac:(apply (gives_field version_ok in_i32); [assumption|apply gives_int32|intros ? ? Ht _; exact Ht]).
Qed.

Definition code_ok (x : App) : Prop := version_ok (capp_version x).

Lemma App_code_gives j x : code_ok x → gives code_ok (App_from_json j x).
Proof.
  intros Hx. unfold App_from_json.
  give_fields code_ok ltac:(apply (gives_field code_ok version_ok);
    [assumption|intros ?; by apply Version_code_gives|intros ? ? Ht _; exact Ht]).
Qed.

Definition config_ok (c : ConfigJson) : Prop := code_ok (ccj_app c).

Lemma ConfigJson_code_gives j : gives config_ok (get_ConfigJson j).
Proof.
  unfold get_ConfigJson, get_part, ConfigJson_from_json. assert (H0 : config_ok new_ConfigJson) by done.
  give_fields config_ok ltac:(apply (gives_field config_ok code_ok);
    [assumption|intros ?; by apply App_code_gives|intros ? ? Ht _; exact Ht]).
Qed.
End Wf.

(** ** A config.json with something missing *)

(** A property that the readers insist on is not there: one of the three
    sections, one of the names and versions of the application, the device
    types of the module, or the name or type of an ability. *)
Inductive incomplete (j : json) : Prop :=
| no_section : lacks ["app"; "deviceConfig"; "module"] j → incomplete j
| no_app a : find_key j "app" = Some a → lacks ["bundleName"; "version"; "apiVersion"] a → incomplete j
| no_version a v : find_key j "app" = Some a → find_key a "version" = Some v → lacks ["code"; "name"] v → incomplete j
| no_api a v : find_key j "app" = Some a → find_key a "apiVersion" = Some v → lacks ["compatible"] v → incomplete j
| no_deviceType m : find_key j "module" = Some m → lacks ["deviceType"] m → incomplete j
| no_ability m l a : find_key j "module" = Some m → find_key m "abilities" = Some (JArray l) → a ∈ l →
    lacks ["name"; "type"] a → incomplete j.

Section Incomplete.
Context `{HU : Uninit}.

Lemma Version_fails j x : whole j = true → lacks ["code"; "name"] j → fails MProfile (Version_from_json j x).
Proof. intros Hj Hl. unfold Version_from_json. missing_key Hl. Qed.

Lemma ApiVersion_fails j x : whole j = true → lacks ["compatible"] j → fails MProfile (ApiVersion_from_json j x).
Proof. intros Hj Hl. unfold ApiVersion_from_json. missing_key Hl. Qed.

Lemma App_fails j x : whole j = true → lacks ["bundleName"; "version"; "apiVersion"] j → fails MProfile (App_from_json j x).
Proof. intros Hj Hl. unfold App_from_json. missing_key Hl. Qed.

Lemma Ability_fails j x : whole j = true → lacks ["name"; "type"] j → fails MProfile (Ability_from_json j x).
Proof.
  intros Hj Hl. unfold Ability_from_json. apply fails_left; [unfold Ability_from_json_1; missing_key Hl|].
  intros ?. unfold Ability_from_json_2, Ability_from_json_3. run_fields.
Qed.

Lemma Module_fails j x : whole j = true → lacks ["deviceType"] j → fails MProfile (Module__from_json j x).
Proof.
  intros Hj Hl. unfold Module__from_json. apply fails_left; [unfold Module__from_json_1; missing_key Hl|].
  intros ?. unfold Module__from_json_2. run_fields.
Qed.
End Incomplete.

Section Outcome.
Context `{HX : JsonText} `{HD : DeviceParameters} `{HU : Uninit}.

Lemma ConfigJson_fails j : whole j = true → incomplete j → fails MProfile (get_ConfigJson j).
Proof.
  intros Hj Hi. unfold get_ConfigJson, get_part, ConfigJson_from_json.
  assert (Happ : ∀ a, find_key j "app" = Some a → whole a = true) by (intros a; by apply whole_find).
  assert (Hmod : ∀ m, find_key j "module" = Some m → whole m = true) by (intros a; by apply whole_find).
  destruct Hi as [Hl|a Ha Hl|a v Ha Hv Hl|a v Ha Hv Hl|m Hm Hl|m l a Hm Hf Hin Hl].
  - missing_key Hl.
  - apply fails_left; [|intros ?; run_fields]. eapply (fails_object); [reflexivity|eassumption|]. intros _. apply App_fails; auto.
  - apply fails_left; [|intros ?; run_fields]. eapply (fails_object); [reflexivity|eassumption|]. intros _.
    specialize (Happ a Ha). pose proof (whole_find _ _ _ Happ Hv) as Hwv. unfold get_App, get_part, App_from_json.
    do 2 (apply fails_right; [run_fields|intros ?; cbv beta]). apply fails_left; [|intros ?; run_fields].
    eapply (fails_object); [reflexivity|eassumption|]. intros _. by apply Version_fails.
  - apply fails_left; [|intros ?; run_fields]. eapply (fails_object); [reflexivity|eassumption|]. intros _.
    specialize (Happ a Ha). pose proof (whole_find _ _ _ Happ Hv) as Hwv. unfold get_App, get_part, App_from_json.
    do 3 (apply fails_right; [run_fields|intros ?; cbv beta]). apply fails_left; [|intros ?; run_fields].
    eapply (fails_object); [reflexivity|eassumption|]. intros _. by apply ApiVersion_fails.
  - do 2 (apply fails_right; [run_fields|intros ?; cbv beta]). apply fails_left; [|intros ?; run_fields].
    eapply (fails_object); [reflexivity|eassumption|]. intros _. apply Module_fails; auto.
  - do 2 (apply fails_right; [run_fields|intros ?; cbv beta]). apply fails_left; [|intros ?; run_fields].
    eapply (fails_object); [reflexivity|eassumption|]. intros _. specialize (Hmod m Hm).
    unfold get_Module_, get_part, Module__from_json, Module__from_json_1. apply fails_left.
    2:{ intros ?. unfold Module__from_json_2. run_fields. }
    do 10 (apply fails_right; [run_fields|intros ?; cbv beta]). apply fails_left; [|intros ?; run_fields].
    eapply fails_objects; [done|done|apply accepts_Ability|exact Hf|exact Hin|]. intros _.
    apply Ability_fails; [|done]. by eapply whole_element.
Qed.

Lemma runs_ConfigJson j : whole j = true → runs MProfile (get_ConfigJson j).
Proof. intros Hj. unfold get_ConfigJson, get_part, ConfigJson_from_json. run_fields. Qed.

(** C16: The outcome of reading a config.json, for any text without real
    numbers where it is JSON, any bundle, and a thread whose parseResult is
    without an error.  There is always a result, and the variable of the
    thread is left without an error for the next file.  The code is
    BAD_PROFILE exactly when the text is not JSON; it is a type error or a
    missing property whenever the file lacks one of app, deviceConfig and
    module, the application's bundleName, version or apiVersion, the
    version's code or name, the compatible API version, the module's
    deviceType, or the name or type of an ability of the module's list; the
    bundle is changed by none of these.  Any other code is success or a
    failed check of the values. *)
Theorem TransformTo_outcome source dirs i s :
  (∀ j, parse source = Some j → whole j = true) → profile s = ERR_OK →
  ∃ code i', TransformTo source dirs i s = Some ((code, i'), s)
    ∧ (code = ERR_APPEXECFWK_PARSE_BAD_PROFILE ↔ parse source = None)
    ∧ (∀ j, parse source = Some j → incomplete j → code ∈ read_errors)
    ∧ (code ∈ ERR_APPEXECFWK_PARSE_BAD_PROFILE :: read_errors → i' = i)
    ∧ code ∈ [ERR_OK; ERR_APPEXECFWK_PARSE_BAD_PROFILE; ERR_APPEXECFWK_PARSE_PROFILE_PROP_CHECK_ERROR] ++ read_errors.
Proof.
  intros Hwhole Hs. assert (s = mkParseState ERR_OK (local s)) as Es by (destruct s; simpl in *; by subst).
  unfold TransformTo. destruct (parse source) as [j|] eqn:Hp.
  2:{ exists ERR_APPEXECFWK_PARSE_BAD_PROFILE, i. split_and!; try done. by right; left. }
  specialize (Hwhole j eq_refl).
  assert (ERR_APPEXECFWK_PARSE_BAD_PROFILE ∉ read_errors) as Hbad by (unfold read_errors; set_solver).
  destruct (runs_ConfigJson j Hwhole s) as (c & s1 & Hc & [He Hl]).
  assert (Hinc : incomplete j → profile s1 ≠ ERR_OK).
  { intros Hi. destruct (ConfigJson_fails j Hwhole Hi s) as (c' & s1' & Hc' & _ & Hne). rewrite Hc in Hc'. by simplify_eq. }
  unfold mbind, M_bind. rewrite Hc. unfold read_var. simpl. destruct (Z.eqb_spec (profile s1) ERR_OK) as [H0|H0]; simpl.
  - destruct (ToInnerBundleInfo c dirs i) as [ok i'] eqn:Hto.
    exists (if negb ok then ERR_APPEXECFWK_PARSE_PROFILE_PROP_CHECK_ERROR else ERR_OK), i'.
    assert (s1 = s) as -> by (destruct s, s1; simpl in *; congruence).
    split; [done|]. destruct ok; simpl; (split; [done|]); (split; [by intros ? [= <-] Hi%Hinc|]);
      (split; [unfold read_errors; set_solver|]); set_solver.
  - exists (profile s1), i. unfold write_var, set_var, mret, M_ret. simpl. rewrite Hl, <- Es.
    destruct He as [He|[_ He]]; [congruence|]. split; [done|]. split; [split; [by intros Hb; rewrite Hb in He|done]|].
    split; [done|]. split; [done|]. by do 3 right.
Qed.

(** C14: An accepted config.json gives a bundle of one module under a valid
    name: the application and the bundle carry the name and a positive version
    code, the module is the current one, its ability keys are exactly the keys
    of the abilities and of the skills, and each ability is under
    [bundleName.package.name] of its own fields. *)
Theorem accepted_config_wf source dirs i s i' s' :
  fresh i → profile s = ERR_OK → TransformTo source dirs i s = Some ((ERR_OK, i'), s') →
  ∃ name package m, profile_wf name package m i' ∧ package ≠ "" ∧ 0 < bi_versionCode (ib_baseBundleInfo i') <= INT32_MAX.
Proof.
  intros Hi Hs. unfold TransformTo. destruct (parse source) as [j|]; [|done]. unfold mbind, M_bind.
  destruct (get_ConfigJson j s) as [[c s1]|] eqn:Hc; [|done]. apply ConfigJson_code_gives in Hc. unfold read_var. simpl.
  destruct (Z.eqb_spec (profile s1) ERR_OK) as [H0|H0]; simpl; [|by intros [= ? _ _]].
  destruct (ToInnerBundleInfo c dirs i) as [ok i1] eqn:Hto. destruct ok; [|done]. intros [= -> _].
  destruct (ToInnerBundleInfo_wf c dirs i i') as (c' & m & _ & Hwf & Hne & Hv & _); [done|exact Hc|done|].
  by eexists _, _, m.
Qed.
End Outcome.

Lemma TransformTo_outcome_witness :
  let docs := these_texts [("profile", sample_config [("skills", JNumber 1)])] in
  let s := mkParseState ERR_OK ERR_OK in
  ∃ code i' s', @TransformTo docs plain_device zero_memory "profile" (λ _, false) new_InnerBundleInfo s = Some ((code, i'), s')
    ∧ (code = ERR_APPEXECFWK_PARSE_BAD_PROFILE ↔ @parse docs "profile" = None).
Proof.
  cbv zeta. pose proof (@TransformTo_outcome (these_texts [("profile", sample_config [("skills", JNumber 1)])]) plain_device zero_memory
    "profile" (λ _, false) new_InnerBundleInfo (mkParseState ERR_OK ERR_OK)) as H.
  destruct H as (code & i' & Ht & Hbad & _); [by intros j [= <-]|done|]. by exists code, i', (mkParseState ERR_OK ERR_OK).
Defined.

Lemma accepted_config_wf_witness :
  match @TransformTo (these_texts [("profile", sample_config [])]) plain_device zero_memory "profile" (λ _, false) new_InnerBundleInfo
          (mkParseState ERR_OK ERR_OK) with
  | Some ((code, i'), _) => code = ERR_OK ∧ ∃ name package m, profile_wf name package m i'
  | None => False
  end.
Proof.
  pose proof (@accepted_config_wf (these_texts [("profile", sample_config [])]) plain_device zero_memory "profile" (λ _, false) new_InnerBundleInfo
    (mkParseState ERR_OK ERR_OK)) as H.
  destruct (@TransformTo _ _ _ _ _ _ _) as [[[code i'] s']|] eqn:E; [|by vm_compute in E].
  assert (code = ERR_OK) as -> by (apply (f_equal (λ r, from_option (λ x, x.1.1) ERR_OK r)) in E; by vm_compute in E).
  split; [done|]. destruct (H i' s') as (name & package & m & Hwf & _); [by split_and!|done|done|]. by exists name, package, m.
Defined.
