(* ===== verification/ModuleProfile.v ===== *)
(** * ModuleProfile: module.json

    services/bundlemgr/src/module_profile.cpp: the structs of module.json with
    their from_json functions (namespace Profile, names kept), and how a
    ModuleJson becomes an InnerBundleInfo.  Skill and DefinePermission are
    read by functions of other files, some of which report in
    [ProfileReader::parseResult], which nothing here looks at. *)

From stdpp Require Import strings.
From S2P Require Import Prelude Strings StdMap BundleTypes Errors Json InfoJson Skill InnerBundleInfo Parcel BundleJson InstallInfo Profile.
From Stdlib Require Import Ascii.

Open Scope string_scope.
Open Scope list_scope.
Open Scope Z_scope.

#[local] Instance AppType_eq_dec : EqDecision AppType.
Proof. solve_decision. Defined.

(** ** The structs *)

Record DeviceConfig := mkDeviceConfig {
  mdc_minAPIVersion : bool * Z;
  mdc_distributedNotificationEnabled : bool * bool;
  mdc_keepAlive : bool * bool;
  mdc_removable : bool * bool;
  mdc_singleton : bool * bool;
  mdc_userDataClearable : bool * bool;
  mdc_accessible : bool * bool;
}.
#[export] Instance eta_DeviceConfig : Eta DeviceConfig := λ r, mkDeviceConfig (mdc_minAPIVersion r)
  (mdc_distributedNotificationEnabled r) (mdc_keepAlive r) (mdc_removable r) (mdc_singleton r)
  (mdc_userDataClearable r) (mdc_accessible r).
Definition new_DeviceConfig : DeviceConfig := mkDeviceConfig (false, 0) (false, false) (false, false) (false, true)
  (false, false) (false, true) (false, true).

Record Metadata := mkMetadata {
  mmd_name : string;
  mmd_value : string;
  mmd_resource : string;
}.
#[export] Instance eta_Metadata : Eta Metadata := λ r, mkMetadata (mmd_name r) (mmd_value r) (mmd_resource r).
Definition new_Metadata : Metadata := mkMetadata "" "" "".

Record Ability := mkAbility {
  mab_name : string;
  mab_srcEntrance : string;
  mab_launchType : string;
  mab_description : string;
  mab_descriptionId : Z;
  mab_icon : string;
  mab_iconId : Z;
  mab_label : string;
  mab_labelId : Z;
  mab_priority : Z;
  mab_permissions : list string;
  mab_metadata : list Metadata;
  mab_visible : bool;
  mab_continuable : bool;
  mab_skills : list Skill;
  mab_backgroundModes : list string;
  mab_startWindowIcon : string;
  mab_startWindowIconId : Z;
  mab_startWindowBackground : string;
  mab_startWindowBackgroundId : Z;
  mab_removeMissionAfterTerminate : bool;
}.
#[export] Instance eta_Ability : Eta Ability := λ r, mkAbility (mab_name r) (mab_srcEntrance r) (mab_launchType r)
  (mab_description r) (mab_descriptionId r) (mab_icon r) (mab_iconId r) (mab_label r) (mab_labelId r)
  (mab_priority r) (mab_permissions r) (mab_metadata r) (mab_visible r) (mab_continuable r) (mab_skills r)
  (mab_backgroundModes r) (mab_startWindowIcon r) (mab_startWindowIconId r) (mab_startWindowBackground r)
  (mab_startWindowBackgroundId r) (mab_removeMissionAfterTerminate r).
Definition new_Ability : Ability := mkAbility "" "" "singleton" "" 0 "" 0 "" 0 0 [] [] false false [] [] "" 0 "" 0
  false.

Record Extension := mkExtension {
  mex_name : string;
  mex_srcEntrance : string;
  mex_icon : string;
  mex_iconId : Z;
  mex_label : string;
  mex_labelId : Z;
  mex_description : string;
  mex_descriptionId : Z;
  mex_priority : Z;
  mex_type : string;
  mex_readPermission : string;
  mex_writePermission : string;
  mex_uri : string;
  mex_permissions : list string;
  mex_visible : bool;
  mex_skills : list Skill;
  mex_metadata : list Metadata;
}.
#[export] Instance eta_Extension : Eta Extension := λ r, mkExtension (mex_name r) (mex_srcEntrance r) (mex_icon r)
  (mex_iconId r) (mex_label r) (mex_labelId r) (mex_description r) (mex_descriptionId r) (mex_priority r)
  (mex_type r) (mex_readPermission r) (mex_writePermission r) (mex_uri r) (mex_permissions r) (mex_visible r)
  (mex_skills r) (mex_metadata r).
Definition new_Extension : Extension := mkExtension "" "" "" 0 "" 0 "" 0 0 "" "" "" "" [] false [] [].

Record App := mkApp {
  mapp_bundleName : string;
  mapp_debug : bool;
  mapp_icon : string;
  mapp_iconId : Z;
  mapp_label : string;
  mapp_labelId : Z;
  mapp_description : string;
  mapp_descriptionId : Z;
  mapp_vendor : string;
  mapp_versionCode : Z;
  mapp_versionName : string;
  mapp_minCompatibleVersionCode : Z;
  mapp_minAPIVersion : Z;
  mapp_targetAPIVersion : Z;
  mapp_apiReleaseType : string;
  mapp_distributedNotificationEnabled : bool;
  mapp_entityType : string;
  mapp_keepAlive : bool;
  mapp_removable : bool * bool;
  mapp_singleton : bool;
  mapp_userDataClearable : bool;
  mapp_accessible : bool;
  mapp_targetBundleList : list string;
  mapp_deviceConfigs : stdmap string DeviceConfig;
}.
#[export] Instance eta_App : Eta App := λ r, mkApp (mapp_bundleName r) (mapp_debug r) (mapp_icon r) (mapp_iconId r)
  (mapp_label r) (mapp_labelId r) (mapp_description r) (mapp_descriptionId r) (mapp_vendor r) (mapp_versionCode r)
  (mapp_versionName r) (mapp_minCompatibleVersionCode r) (mapp_minAPIVersion r) (mapp_targetAPIVersion r)
  (mapp_apiReleaseType r) (mapp_distributedNotificationEnabled r) (mapp_entityType r) (mapp_keepAlive r)
  (mapp_removable r) (mapp_singleton r) (mapp_userDataClearable r) (mapp_accessible r) (mapp_targetBundleList r)
  (mapp_deviceConfigs r).
Definition new_App : App := mkApp "" false "" 0 "" 0 "" 0 "" 0 "" (-1) 0 0 "Release" true "unspecified" false
  (false, true) false true false [] ∅.

Record Module_ := mkModule_ {
  mmod_name : string;
  mmod_type : string;
  mmod_srcEntrance : string;
  mmod_description : string;
  mmod_descriptionId : Z;
  mmod_process : string;
  mmod_mainElement : string;
  mmod_deviceTypes : list string;
  mmod_deliveryWithInstall : bool;
  mmod_installationFree : bool;
  mmod_virtualMachine : string;
  mmod_uiSyntax : string;
  mmod_pages : string;
  mmod_metadata : list Metadata;
  mmod_abilities : list Ability;
  mmod_extensionAbilities : list Extension;
  mmod_requestPermissions : list RequestPermission;
  mmod_definePermissions : list DefinePermission;
  mmod_dependencies : list string;
}.
#[export] Instance eta_Module_ : Eta Module_ := λ r, mkModule_ (mmod_name r) (mmod_type r) (mmod_srcEntrance r)
  (mmod_description r) (mmod_descriptionId r) (mmod_process r) (mmod_mainElement r) (mmod_deviceTypes r)
  (mmod_deliveryWithInstall r) (mmod_installationFree r) (mmod_virtualMachine r) (mmod_uiSyntax r) (mmod_pages r)
  (mmod_metadata r) (mmod_abilities r) (mmod_extensionAbilities r) (mmod_requestPermissions r)
  (mmod_definePermissions r) (mmod_dependencies r).
Definition new_Module_ : Module_ := mkModule_ "" "" "" "" 0 "" "" [] false false "default" "hml" "" [] [] [] [] [] [].

Record ModuleJson := mkModuleJson {
  mmj_app : App;
  mmj_module : Module_;
}.
#[export] Instance eta_ModuleJson : Eta ModuleJson := λ r, mkModuleJson (mmj_app r) (mmj_module r).
Definition new_ModuleJson : ModuleJson := mkModuleJson new_App new_Module_.

(** ** from_json *)

Definition Metadata_from_json (j : json) (x : Metadata) : M Metadata :=
  x ← GetValueIfFindKey LOCAL j "name" get_string STRING false NOT_ARRAY (λ v x, x <| mmd_name := v |>) x;
  x ← GetValueIfFindKey LOCAL j "value" get_string STRING false NOT_ARRAY (λ v x, x <| mmd_value := v |>) x;
  x ← GetValueIfFindKey LOCAL j "resource" get_string STRING false NOT_ARRAY (λ v x, x <| mmd_resource := v |>) x;
  mret x.
Definition get_Metadata : json → M Metadata := get_part new_Metadata Metadata_from_json.

Definition Ability_from_json_1 (j : json) (x : Ability) : M Ability :=
  x ← GetValueIfFindKey LOCAL j "name" get_string STRING true NOT_ARRAY (λ v x, x <| mab_name := v |>) x;
  x ← GetValueIfFindKey LOCAL j "srcEntrance" get_string STRING true NOT_ARRAY (λ v x, x <| mab_srcEntrance := v |>)
        x;
  x ← GetValueIfFindKey LOCAL j "launchType" get_string STRING false NOT_ARRAY (λ v x, x <| mab_launchType := v |>) x;
  x ← GetValueIfFindKey LOCAL j "description" get_string STRING false NOT_ARRAY (λ v x, x <| mab_description := v
        |>) x;
  x ← GetValueIfFindKey LOCAL j "descriptionId" get_int32 NUMBER false NOT_ARRAY (λ v x, x <| mab_descriptionId := v
        |>) x;
  x ← GetValueIfFindKey LOCAL j "icon" get_string STRING false NOT_ARRAY (λ v x, x <| mab_icon := v |>) x;
  x ← GetValueIfFindKey LOCAL j "iconId" get_int32 NUMBER false NOT_ARRAY (λ v x, x <| mab_iconId := v |>) x;
  x ← GetValueIfFindKey LOCAL j "label" get_string STRING false NOT_ARRAY (λ v x, x <| mab_label := v |>) x;
  x ← GetValueIfFindKey LOCAL j "labelId" get_int32 NUMBER false NOT_ARRAY (λ v x, x <| mab_labelId := v |>) x;
  x ← GetValueIfFindKey LOCAL j "priority" get_int32 NUMBER false NOT_ARRAY (λ v x, x <| mab_priority := v |>) x;
  x ← GetValueIfFindKey LOCAL j "permissions" (get_vector get_string) ARRAY false STRINGS (λ v x, x <|
        mab_permissions := v |>) x;
  x ← GetValueIfFindKey LOCAL j "metadata" (get_vector get_Metadata) ARRAY false OBJECTS (λ v x, x <| mab_metadata
        := v |>) x;
  x ← GetValueIfFindKey LOCAL j "visible" get_bool BOOLEAN false NOT_ARRAY (λ v x, x <| mab_visible := v |>) x;
  x ← GetValueIfFindKey LOCAL j "continuable" get_bool BOOLEAN false NOT_ARRAY (λ v x, x <| mab_continuable := v |>)
        x;
  x ← GetValueIfFindKey LOCAL j "skills" (get_vector get_Skill) ARRAY false OBJECTS (λ v x, x <| mab_skills := v |>)
        x;
  x ← GetValueIfFindKey LOCAL j "backgroundModes" (get_vector get_string) ARRAY false STRINGS (λ v x, x <|
        mab_backgroundModes := v |>) x;
  x ← GetValueIfFindKey LOCAL j "startWindowIcon" get_string STRING false NOT_ARRAY (λ v x, x <| mab_startWindowIcon
        := v |>) x;
  mret x.
Definition Ability_from_json_2 (j : json) (x : Ability) : M Ability :=
  x ← GetValueIfFindKey LOCAL j "startWindowIconId" get_int32 NUMBER false NOT_ARRAY (λ v x, x <|
        mab_startWindowIconId := v |>) x;
  x ← GetValueIfFindKey LOCAL j "startWindowBackground" get_string STRING false NOT_ARRAY (λ v x, x <|
        mab_startWindowBackground := v |>) x;
  x ← GetValueIfFindKey LOCAL j "startWindowBackgroundId" get_int32 NUMBER false NOT_ARRAY (λ v x, x <|
        mab_startWindowBackgroundId := v |>) x;
  x ← GetValueIfFindKey LOCAL j "removeMissionAfterTerminate" get_bool BOOLEAN false NOT_ARRAY (λ v x, x <|
        mab_removeMissionAfterTerminate := v |>) x;
  mret x.
Definition Ability_from_json (j : json) (x : Ability) : M Ability :=
  x ← Ability_from_json_1 j x; Ability_from_json_2 j x.
Definition get_Ability : json → M Ability := get_part new_Ability Ability_from_json.

Definition Extension_from_json (j : json) (x : Extension) : M Extension :=
  x ← GetValueIfFindKey LOCAL j "name" get_string STRING true NOT_ARRAY (λ v x, x <| mex_name := v |>) x;
  x ← GetValueIfFindKey LOCAL j "srcEntrance" get_string STRING true NOT_ARRAY (λ v x, x <| mex_srcEntrance := v |>)
        x;
  x ← GetValueIfFindKey LOCAL j "icon" get_string STRING false NOT_ARRAY (λ v x, x <| mex_icon := v |>) x;
  x ← GetValueIfFindKey LOCAL j "iconId" get_int32 NUMBER false NOT_ARRAY (λ v x, x <| mex_iconId := v |>) x;
  x ← GetValueIfFindKey LOCAL j "label" get_string STRING false NOT_ARRAY (λ v x, x <| mex_label := v |>) x;
  x ← GetValueIfFindKey LOCAL j "labelId" get_int32 NUMBER false NOT_ARRAY (λ v x, x <| mex_labelId := v |>) x;
  x ← GetValueIfFindKey LOCAL j "description" get_string STRING false NOT_ARRAY (λ v x, x <| mex_description := v
        |>) x;
  x ← GetValueIfFindKey LOCAL j "descriptionId" get_int32 NUMBER false NOT_ARRAY (λ v x, x <| mex_descriptionId := v
        |>) x;
  x ← GetValueIfFindKey LOCAL j "priority" get_int32 NUMBER false NOT_ARRAY (λ v x, x <| mex_priority := v |>) x;
  x ← GetValueIfFindKey LOCAL j "type" get_string STRING true NOT_ARRAY (λ v x, x <| mex_type := v |>) x;
  x ← GetValueIfFindKey LOCAL j "readPermission" get_string STRING false NOT_ARRAY (λ v x, x <| mex_readPermission
        := v |>) x;
  x ← GetValueIfFindKey LOCAL j "writePermission" get_string STRING false NOT_ARRAY (λ v x, x <| mex_writePermission
        := v |>) x;
  x ← GetValueIfFindKey LOCAL j "uri" get_string STRING false NOT_ARRAY (λ v x, x <| mex_uri := v |>) x;
  x ← GetValueIfFindKey LOCAL j "permissions" (get_vector get_string) ARRAY false STRINGS (λ v x, x <|
        mex_permissions := v |>) x;
  x ← GetValueIfFindKey LOCAL j "visible" get_bool BOOLEAN false NOT_ARRAY (λ v x, x <| mex_visible := v |>) x;
  x ← GetValueIfFindKey LOCAL j "skills" (get_vector get_Skill) ARRAY false OBJECTS (λ v x, x <| mex_skills := v |>)
        x;
  x ← GetValueIfFindKey LOCAL j "metadata" (get_vector get_Metadata) ARRAY false OBJECTS (λ v x, x <| mex_metadata
        := v |>) x;
  mret x.
Definition get_Extension : json → M Extension := get_part new_Extension Extension_from_json.

Definition DeviceConfig_from_json (j : json) (x : DeviceConfig) : M DeviceConfig :=
  x ← (if has_key j "minAPIVersion" then GetValueIfFindKey LOCAL j "minAPIVersion" get_int32 NUMBER false NOT_ARRAY
        (λ v x, x <| mdc_minAPIVersion ::= λ q, (q.1, v) |>) (x <| mdc_minAPIVersion ::= λ q, (true, q.2) |>) else
        mret x);
  x ← (if has_key j "distributedNotificationEnabled" then GetValueIfFindKey LOCAL j "distributedNotificationEnabled"
        get_bool BOOLEAN false NOT_ARRAY (λ v x, x <| mdc_distributedNotificationEnabled ::= λ q, (q.1, v) |>) (x <|
        mdc_distributedNotificationEnabled ::= λ q, (true, q.2) |>) else mret x);
  x ← (if has_key j "keepAlive" then GetValueIfFindKey LOCAL j "keepAlive" get_bool BOOLEAN false NOT_ARRAY (λ v x,
        x <| mdc_keepAlive ::= λ q, (q.1, v) |>) (x <| mdc_keepAlive ::= λ q, (true, q.2) |>) else mret x);
  x ← (if has_key j "removable" then GetValueIfFindKey LOCAL j "removable" get_bool BOOLEAN false NOT_ARRAY (λ v x,
        x <| mdc_removable ::= λ q, (q.1, v) |>) (x <| mdc_removable ::= λ q, (true, q.2) |>) else mret x);
  x ← (if has_key j "singleton" then GetValueIfFindKey LOCAL j "singleton" get_bool BOOLEAN false NOT_ARRAY (λ v x,
        x <| mdc_singleton ::= λ q, (q.1, v) |>) (x <| mdc_singleton ::= λ q, (true, q.2) |>) else mret x);
  x ← (if has_key j "userDataClearable" then GetValueIfFindKey LOCAL j "userDataClearable" get_bool BOOLEAN false
        NOT_ARRAY (λ v x, x <| mdc_userDataClearable ::= λ q, (q.1, v) |>) (x <| mdc_userDataClearable ::= λ q,
        (true, q.2) |>) else mret x);
  x ← (if has_key j "accessible" then GetValueIfFindKey LOCAL j "accessible" get_bool BOOLEAN false NOT_ARRAY (λ v
        x, x <| mdc_accessible ::= λ q, (q.1, v) |>) (x <| mdc_accessible ::= λ q, (true, q.2) |>) else mret x);
  mret x.
Definition get_DeviceConfig : json → M DeviceConfig := get_part new_DeviceConfig DeviceConfig_from_json.

(** One of the eight device blocks: what is under the key, in the map. *)
Definition read_device_config (j : json) (key : string) (x : App) : M App :=
  if has_key j key then
    d ← GetValueIfFindKey LOCAL j key get_DeviceConfig OBJECT false NOT_ARRAY (λ v _, v) new_DeviceConfig;
    mret (x <| mapp_deviceConfigs ::= insert key d |>)
  else mret x.


Definition App_from_json_1 (j : json) (x : App) : M App :=
  x ← GetValueIfFindKey LOCAL j "bundleName" get_string STRING true NOT_ARRAY (λ v x, x <| mapp_bundleName := v |>) x;
  x ← GetValueIfFindKey LOCAL j "debug" get_bool BOOLEAN false NOT_ARRAY (λ v x, x <| mapp_debug := v |>) x;
  x ← GetValueIfFindKey LOCAL j "icon" get_string STRING true NOT_ARRAY (λ v x, x <| mapp_icon := v |>) x;
  x ← GetValueIfFindKey LOCAL j "iconId" get_int32 NUMBER false NOT_ARRAY (λ v x, x <| mapp_iconId := v |>) x;
  x ← GetValueIfFindKey LOCAL j "label" get_string STRING true NOT_ARRAY (λ v x, x <| mapp_label := v |>) x;
  x ← GetValueIfFindKey LOCAL j "labelId" get_int32 NUMBER false NOT_ARRAY (λ v x, x <| mapp_labelId := v |>) x;
  x ← GetValueIfFindKey LOCAL j "description" get_string STRING false NOT_ARRAY (λ v x, x <| mapp_description := v
        |>) x;
  x ← GetValueIfFindKey LOCAL j "descriptionId" get_int32 NUMBER false NOT_ARRAY (λ v x, x <| mapp_descriptionId :=
        v |>) x;
  x ← GetValueIfFindKey LOCAL j "vendor" get_string STRING false NOT_ARRAY (λ v x, x <| mapp_vendor := v |>) x;
  x ← GetValueIfFindKey LOCAL j "versionCode" get_int32 NUMBER true NOT_ARRAY (λ v x, x <| mapp_versionCode := v |>)
        x;
  x ← GetValueIfFindKey LOCAL j "versionName" get_string STRING true NOT_ARRAY (λ v x, x <| mapp_versionName := v
        |>) x;
  x ← GetValueIfFindKey LOCAL j "minCompatibleVersionCode" get_int32 NUMBER false NOT_ARRAY (λ v x, x <|
        mapp_minCompatibleVersionCode := v |>) x;
  x ← GetValueIfFindKey LOCAL j "minAPIVersion" get_int32 NUMBER true NOT_ARRAY (λ v x, x <| mapp_minAPIVersion := v
        |>) x;
  x ← GetValueIfFindKey LOCAL j "targetAPIVersion" get_int32 NUMBER true NOT_ARRAY (λ v x, x <|
        mapp_targetAPIVersion := v |>) x;
  x ← GetValueIfFindKey LOCAL j "apiReleaseType" get_string STRING false NOT_ARRAY (λ v x, x <| mapp_apiReleaseType
        := v |>) x;
  x ← GetValueIfFindKey LOCAL j "distributedNotificationEnabled" get_bool BOOLEAN false NOT_ARRAY (λ v x, x <|
        mapp_distributedNotificationEnabled := v |>) x;
  x ← GetValueIfFindKey LOCAL j "entityType" get_string STRING false NOT_ARRAY (λ v x, x <| mapp_entityType := v |>)
        x;
  mret x.
Definition App_from_json_2 (j : json) (x : App) : M App :=
  x ← GetValueIfFindKey LOCAL j "keepAlive" get_bool BOOLEAN false NOT_ARRAY (λ v x, x <| mapp_keepAlive := v |>) x;
  x ← GetValueIfFindKey LOCAL j "targetBundleList" (get_vector get_string) ARRAY false STRINGS (λ v x, x <|
        mapp_targetBundleList := v |>) x;
  x ← (if has_key j "removable" then GetValueIfFindKey LOCAL j "removable" get_bool BOOLEAN false NOT_ARRAY (λ v x,
        x <| mapp_removable ::= λ q, (q.1, v) |>) (x <| mapp_removable ::= λ q, (true, q.2) |>) else mret x);
  x ← GetValueIfFindKey LOCAL j "singleton" get_bool BOOLEAN false NOT_ARRAY (λ v x, x <| mapp_singleton := v |>) x;
  x ← GetValueIfFindKey LOCAL j "userDataClearable" get_bool BOOLEAN false NOT_ARRAY (λ v x, x <|
        mapp_userDataClearable := v |>) x;
  x ← GetValueIfFindKey LOCAL j "accessible" get_bool BOOLEAN false NOT_ARRAY (λ v x, x <| mapp_accessible := v |>) x;
  x ← read_device_config j "phone" x;
  x ← read_device_config j "tablet" x;
  x ← read_device_config j "tv" x;
  x ← read_device_config j "wearable" x;
  x ← read_device_config j "liteWearable" x;
  x ← read_device_config j "car" x;
  x ← read_device_config j "smartVision" x;
  x ← read_device_config j "router" x;
  mret x.
Definition App_from_json (j : json) (x : App) : M App :=
  x ← App_from_json_1 j x; App_from_json_2 j x.
Definition get_App : json → M App := get_part new_App App_from_json.

Definition Module__from_json_1 (j : json) (x : Module_) : M Module_ :=
  x ← GetValueIfFindKey LOCAL j "name" get_string STRING true NOT_ARRAY (λ v x, x <| mmod_name := v |>) x;
  x ← GetValueIfFindKey LOCAL j "type" get_string STRING true NOT_ARRAY (λ v x, x <| mmod_type := v |>) x;
  x ← GetValueIfFindKey LOCAL j "srcEntrance" get_string STRING false NOT_ARRAY (λ v x, x <| mmod_srcEntrance := v
        |>) x;
  x ← GetValueIfFindKey LOCAL j "description" get_string STRING false NOT_ARRAY (λ v x, x <| mmod_description := v
        |>) x;
  x ← GetValueIfFindKey LOCAL j "descriptionId" get_int32 NUMBER false NOT_ARRAY (λ v x, x <| mmod_descriptionId :=
        v |>) x;
  x ← GetValueIfFindKey LOCAL j "process" get_string STRING false NOT_ARRAY (λ v x, x <| mmod_process := v |>) x;
  x ← GetValueIfFindKey LOCAL j "mainElement" get_string STRING true NOT_ARRAY (λ v x, x <| mmod_mainElement := v
        |>) x;
  x ← GetValueIfFindKey LOCAL j "deviceTypes" (get_vector get_string) ARRAY true STRINGS (λ v x, x <|
        mmod_deviceTypes := v |>) x;
  x ← GetValueIfFindKey LOCAL j "deliveryWithInstall" get_bool BOOLEAN true NOT_ARRAY (λ v x, x <|
        mmod_deliveryWithInstall := v |>) x;
  x ← GetValueIfFindKey LOCAL j "installationFree" get_bool BOOLEAN false NOT_ARRAY (λ v x, x <|
        mmod_installationFree := v |>) x;
  x ← GetValueIfFindKey LOCAL j "virtualMachine" get_string STRING false NOT_ARRAY (λ v x, x <| mmod_virtualMachine
        := v |>) x;
  x ← GetValueIfFindKey LOCAL j "uiSyntax" get_string STRING false NOT_ARRAY (λ v x, x <| mmod_uiSyntax := v |>) x;
  x ← GetValueIfFindKey LOCAL j "pages" get_string STRING true NOT_ARRAY (λ v x, x <| mmod_pages := v |>) x;
  x ← GetValueIfFindKey LOCAL j "metadata" (get_vector get_Metadata) ARRAY false OBJECTS (λ v x, x <| mmod_metadata
        := v |>) x;
  x ← GetValueIfFindKey LOCAL j "abilities" (get_vector get_Ability) ARRAY false OBJECTS (λ v x, x <| mmod_abilities
        := v |>) x;
  x ← GetValueIfFindKey LOCAL j "extensionAbilities" (get_vector get_Extension) ARRAY false OBJECTS (λ v x, x <|
        mmod_extensionAbilities := v |>) x;
  x ← GetValueIfFindKey LOCAL j "requestPermissions" (get_vector get_RequestPermission) ARRAY false OBJECTS (λ v x,
        x <| mmod_requestPermissions := v |>) x;
  mret x.
Definition Module__from_json_2 (j : json) (x : Module_) : M Module_ :=
  x ← GetValueIfFindKey LOCAL j "definePermissions" (get_vector get_DefinePermission) ARRAY false OBJECTS (λ v x, x
        <| mmod_definePermissions := v |>) x;
  x ← GetValueIfFindKey LOCAL j "dependencies" (get_vector get_string) ARRAY false STRINGS (λ v x, x <|
        mmod_dependencies := v |>) x;
  mret x.
Definition Module__from_json (j : json) (x : Module_) : M Module_ :=
  x ← Module__from_json_1 j x; Module__from_json_2 j x.
Definition get_Module_ : json → M Module_ := get_part new_Module_ Module__from_json.

Definition ModuleJson_from_json (j : json) (x : ModuleJson) : M ModuleJson :=
  x ← GetValueIfFindKey LOCAL j "app" get_App OBJECT true NOT_ARRAY (λ v x, x <| mmj_app := v |>) x;
  x ← GetValueIfFindKey LOCAL j "module" get_Module_ OBJECT true NOT_ARRAY (λ v x, x <| mmj_module := v |>) x;
  mret x.
Definition get_ModuleJson : json → M ModuleJson := get_part new_ModuleJson ModuleJson_from_json.

(** ** The conversions *)

Definition MODULE_TYPE_SET : list string := ["entry"; "feature"; "har"].
Definition DEVICE_TYPE_SET : list string :=
  ["phone"; "tablet"; "tv"; "wearable"; "liteWearable"; "car"; "smartVision"; "router"].
Definition VIRTUAL_MACHINE_SET : list string := ["ark"; "default"].
Definition UI_SYNTAX_SET : list string := ["hml"; "ets"].
Definition EXTENSION_TYPE_SET : list string :=
  ["form"; "workScheduler"; "inputMethod"; "service"; "accessibility"; "dataShare"; "fileShare"; "staticSubscriber";
   "wallpaper"; "backup"; "window"].
Definition ENTITY_TYPE_SET : list string :=
  ["game"; "media"; "communication"; "news"; "travel"; "utility"; "shopping"; "education"; "kids"; "business";
   "photography"; "unspecified"].
Definition GRANT_MODE_SET : list string := ["system_grant"; "user_grant"].
Definition AVAILABLE_LEVEL_SET : list string := ["system_core"; "system_basic"; "normal"].
Definition LAUNCH_MODE_MAP : list (string * LaunchMode) := [
  ("singleton", LaunchMode_SINGLETON); ("standard", LaunchMode_STANDARD); ("specified", LaunchMode_SPECIFIED)].

Definition GetMetadata (profileMetadata : list Metadata) (metadata : list BundleTypes.Metadata) : list BundleTypes.Metadata :=
  metadata ++ map (λ item, BundleTypes.mkMetadata (mmd_name item) (mmd_value item) (mmd_resource item)) profileMetadata.

Definition CheckBundleNameIsValid (bundleName : string) : bool :=
  match bundleName with
  | EmptyString => false
  | String head _ =>
      if (String.length bundleName <? MIN_BUNDLE_NAME)%nat || (MAX_BUNDLE_NAME <? String.length bundleName)%nat then false
      else if char_lt head "A" || (char_lt "Z" head && char_lt head "a") || char_lt "z" head then false
      else str_forall (λ c,
             negb (char_lt c "." || bool_decide (c = "/"%char) || (char_lt "9" c && char_lt c "A")
                   || (char_lt "Z" c && char_lt c "_") || bool_decide (c = "`"%char) || char_lt "z" c)) bundleName
  end.

(** The values of a device block that are there. *)
Definition given {A} (p : bool * A) (old : A) : A := if p.1 then p.2 else old.

(** "device adapt" *)
Definition adapt_device (deviceConfig : DeviceConfig) (isPreInstallApp : bool) (a : ApplicationInfo) : ApplicationInfo :=
  let a := if (mdc_minAPIVersion deviceConfig).1
           then a <| app_apiCompatibleVersion := u32 (mdc_minAPIVersion deviceConfig).2 |> else a in
  let a := a <| app_distributedNotificationEnabled ::= given (mdc_distributedNotificationEnabled deviceConfig) |> in
  if app_isSystemApp a && isPreInstallApp
  then a <| app_keepAlive ::= given (mdc_keepAlive deviceConfig) |>
         <| app_singleton ::= given (mdc_singleton deviceConfig) |>
         <| app_userDataClearable ::= given (mdc_userDataClearable deviceConfig) |>
         <| app_removable ::= given (mdc_removable deviceConfig) |>
         <| app_accessible ::= given (mdc_accessible deviceConfig) |>
  else a.

Definition CURRENT_DEVICE_ID : string := "PHONE-001".
Definition APP_ENTITY_TYPE_DEFAULT_VALUE : string := "unspecified".

Definition ToApplicationInfo `{DeviceParameters} (app : App) (isPreInstallApp : bool) (IsDirExist : string → bool)
  (applicationInfo : ApplicationInfo) : ApplicationInfo :=
  let a := applicationInfo <| app_name := mapp_bundleName app |> <| app_bundleName := mapp_bundleName app |>
             <| app_versionCode := u32 (mapp_versionCode app) |> <| app_versionName := mapp_versionName app |> in
  let a := a <| app_minCompatibleVersionCode :=
                 (if mapp_minCompatibleVersionCode app =? -1 then i32 (app_versionCode a)
                  else mapp_minCompatibleVersionCode app) |>
             <| app_apiCompatibleVersion := u32 (mapp_minAPIVersion app) |>
             <| app_apiTargetVersion := mapp_targetAPIVersion app |>
             <| app_iconPath := mapp_icon app |> <| app_iconId := mapp_iconId app |>
             <| app_label := mapp_label app |> <| app_labelId := mapp_labelId app |>
             <| app_description := mapp_description app |> <| app_descriptionId := mapp_descriptionId app |>
             <| app_targetBundleList := mapp_targetBundleList app |> in
  let a := if app_isSystemApp a && isPreInstallApp
           then a <| app_keepAlive := mapp_keepAlive app |> <| app_singleton := mapp_singleton app |>
                  <| app_userDataClearable := mapp_userDataClearable app |>
                  <| app_removable := (if (mapp_removable app).1 then (mapp_removable app).2 else false) |>
                  <| app_accessible := mapp_accessible app |>
           else a in
  let a := a <| app_apiReleaseType := mapp_apiReleaseType app |> <| app_debug := mapp_debug app |>
             <| app_deviceId := CURRENT_DEVICE_ID |>
             <| app_distributedNotificationEnabled := mapp_distributedNotificationEnabled app |>
             <| app_entityType := (if has (mapp_entityType app) ENTITY_TYPE_SET then mapp_entityType app
                                   else APP_ENTITY_TYPE_DEFAULT_VALUE) |>
             <| app_vendor := mapp_vendor app |> in
  let a := match mapp_deviceConfigs app !! GetDeviceType with
           | Some deviceConfig => adapt_device deviceConfig isPreInstallApp a | None => a end in
  (handle_native_so IsDirExist a) <| app_enabled := true |>.

Definition ToBundleInfo (a : ApplicationInfo) (m : InnerModuleInfo) (isPreInstallApp : bool) (bundleInfo : BundleInfo) : BundleInfo :=
  let b := bundleInfo <| bi_name := app_bundleName a |> <| bi_versionCode := app_versionCode a |>
             <| bi_versionName := app_versionName a |>
             <| bi_minCompatibleVersionCode := u32 (app_minCompatibleVersionCode a) |>
             <| bi_compatibleVersion := app_apiCompatibleVersion a |>
             <| bi_targetVersion := u32 (app_apiTargetVersion a) |>
             <| bi_isKeepAlive := app_keepAlive a |> <| bi_singleton := app_singleton a |>
             <| bi_isPreInstallApp := isPreInstallApp |>
             <| bi_vendor := app_vendor a |> <| bi_releaseType := app_apiReleaseType a |>
             <| bi_isNativeApp := false |> in
  if im_isEntry m
  then b <| bi_mainEntry := im_moduleName m |> <| bi_entryModuleName := im_moduleName m |> else b.

Definition GetBackgroundModes (backgroundModes : list string) : Z := flags_of BACKGROUND_MODES_MAP backgroundModes.

(** The device types that are known. *)
Definition known_devices (deviceTypes : list string) : list string := filter (λ d, d ∈ DEVICE_TYPE_SET) deviceTypes.

Definition ToAbilityInfo (moduleJson : ModuleJson) (ability : Ability) (isSystemApp isPreInstallApp : bool)
  (abilityInfo : AbilityInfo) : AbilityInfo :=
  let module := mmj_module moduleJson in
  let a := abilityInfo <| ai_name := mab_name ability |> <| ai_srcEntrance := mab_srcEntrance ability |>
             <| ai_description := mab_description ability |> <| ai_descriptionId := mab_descriptionId ability |>
             <| ai_iconPath := mab_icon ability |> <| ai_iconId := mab_iconId ability |>
             <| ai_label := mab_label ability |> <| ai_labelId := mab_labelId ability |> in
  let a := if isSystemApp && isPreInstallApp then a <| ai_priority := mab_priority ability |> else a in
  let a := a <| ai_permissions := mab_permissions ability |> <| ai_visible := mab_visible ability |>
             <| ai_continuable := mab_continuable ability |>
             <| ai_backgroundModes := GetBackgroundModes (mab_backgroundModes ability) |>
             <| ai_metadata ::= GetMetadata (mab_metadata ability) |>
             <| ai_package := mmod_name module |> <| ai_bundleName := mapp_bundleName (mmj_app moduleJson) |>
             <| ai_moduleName := mmod_name module |>
             <| ai_applicationName := mapp_bundleName (mmj_app moduleJson) |> in
  let a := match assoc_find (mab_launchType ability) LAUNCH_MODE_MAP with
           | Some launch => a <| ai_launchMode := launch |> | None => a end in
  a <| ai_enabled := true |> <| ai_isModuleJson := true |> <| ai_isStageBasedModel := true |>
    <| ai_type := AbilityType_PAGE |>
    <| ai_deviceTypes ::= λ l, l ++ known_devices (mmod_deviceTypes module) |>
    <| ai_startWindowIcon := mab_startWindowIcon ability |> <| ai_startWindowIconId := mab_startWindowIconId ability |>
    <| ai_startWindowBackground := mab_startWindowBackground ability |>
    <| ai_startWindowBackgroundId := mab_startWindowBackgroundId ability |>
    <| ai_removeMissionAfterTerminate := mab_removeMissionAfterTerminate ability |>.

(** The enumerators in the order of their values. *)
Definition extension_types : list ExtensionAbilityType :=
  [ExtensionAbilityType_FORM; ExtensionAbilityType_WORK_SCHEDULER; ExtensionAbilityType_INPUTMETHOD;
   ExtensionAbilityType_SERVICE; ExtensionAbilityType_ACCESSIBILITY; ExtensionAbilityType_DATASHARE;
   ExtensionAbilityType_FILESHARE; ExtensionAbilityType_STATICSUBSCRIBER; ExtensionAbilityType_WALLPAPER;
   ExtensionAbilityType_BACKUP; ExtensionAbilityType_WINDOW].
Definition ConvertToExtensionAbilityType (type : string) : ExtensionAbilityType :=
  default ExtensionAbilityType_UNSPECIFIED (assoc_find type (zip EXTENSION_TYPE_SET extension_types)).

Definition ToExtensionInfo (moduleJson : ModuleJson) (extension : Extension) (isSystemApp isPreInstallApp : bool)
  (extensionInfo : ExtensionAbilityInfo) : ExtensionAbilityInfo :=
  let e := extensionInfo <| ext_name := mex_name extension |> <| ext_srcEntrance := mex_srcEntrance extension |>
             <| ext_icon := mex_icon extension |> <| ext_iconId := mex_iconId extension |>
             <| ext_label := mex_label extension |> <| ext_labelId := mex_labelId extension |>
             <| ext_description := mex_description extension |> <| ext_descriptionId := mex_descriptionId extension |>
             <| ext_type := ConvertToExtensionAbilityType (mex_type extension) |> in
  let e := if isSystemApp && isPreInstallApp
           then e <| ext_priority := mex_priority extension |> <| ext_readPermission := mex_readPermission extension |>
                  <| ext_writePermission := mex_writePermission extension |>
           else e in
  let e := e <| ext_uri := mex_uri extension |> <| ext_permissions := mex_permissions extension |>
             <| ext_visible := mex_visible extension |> <| ext_metadata ::= GetMetadata (mex_metadata extension) |>
             <| ext_bundleName := mapp_bundleName (mmj_app moduleJson) |>
             <| ext_moduleName := mmod_name (mmj_module moduleJson) |> in
  if negb (bool_decide (ext_type e = ExtensionAbilityType_SERVICE)) && negb (bool_decide (ext_type e = ExtensionAbilityType_DATASHARE))
  then e <| ext_process := ext_bundleName e +:+ "." +:+ ext_moduleName e +:+ ":" +:+ ext_name e |>
  else e.

Definition GetPermissions (moduleJson : ModuleJson) (isSystemApp isPreInstallApp : bool) (m : InnerModuleInfo) : InnerModuleInfo :=
  let module := mmj_module moduleJson in
  let m := if isSystemApp && isPreInstallApp
           then m <| im_definePermissions ::= λ l, l ++
                  List.filter (λ d, negb (str_empty (dp_name d)) && has (dp_grantMode d) GRANT_MODE_SET
                                    && has (dp_availableLevel d) AVAILABLE_LEVEL_SET) (mmod_definePermissions module) |>
           else m in
  m <| im_requestPermissions ::= λ l, l ++ List.filter (λ r, negb (str_empty (rp_name r))) (mmod_requestPermissions module) |>.

Definition ToInnerModuleInfo (moduleJson : ModuleJson) (isSystemApp isPreInstallApp : bool) (innerModuleInfo : InnerModuleInfo)
  : InnerModuleInfo :=
  let module := mmj_module moduleJson in
  let m := innerModuleInfo <| im_modulePackage := mmod_name module |> <| im_moduleName := mmod_name module |>
             <| im_description := mmod_description module |> <| im_descriptionId := mmod_descriptionId module |>
             <| im_metadata ::= GetMetadata (mmod_metadata module) |>
             <| im_distro ::= λ d, d <| di_deliveryWithInstall := mmod_deliveryWithInstall module |>
                  <| di_installationFree := mmod_installationFree module |> <| di_moduleName := mmod_name module |> |>
             <| im_installationFree := mmod_installationFree module |> in
  let m := if has (mmod_type module) MODULE_TYPE_SET
           then let m := m <| im_distro ::= λ d, d <| di_moduleType := mmod_type module |> |> in
                if bool_decide (mmod_type module = "entry") then m <| im_isEntry := true |> else m
           else m in
  let m := m <| im_mainAbility := mmod_mainElement module |> <| im_srcEntrance := mmod_srcEntrance module |>
             <| im_process := (if negb (str_empty (mmod_process module)) then mmod_process module
                               else mapp_bundleName (mmj_app moduleJson)) |>
             <| im_deviceTypes ::= λ l, l ++ known_devices (mmod_deviceTypes module) |> in
  let m := if has (mmod_virtualMachine module) VIRTUAL_MACHINE_SET
           then m <| im_virtualMachine := mmod_virtualMachine module |> else m in
  let m := if has (mmod_uiSyntax module) UI_SYNTAX_SET then m <| im_uiSyntax := mmod_uiSyntax module |> else m in
  let m := m <| im_pages := mmod_pages module |> in
  let m := GetPermissions moduleJson isSystemApp isPreInstallApp m in
  m <| im_dependencies := mmod_dependencies module |> <| im_isModuleJson := true |> <| im_isStageBasedModel := true |>.

Section ToInnerBundleInfo.
Context `{HD : DeviceParameters} `{HU : Uninit}.

(** The first skill with the home action and entity, whose ability is the
    entry ability; [isLauncherAbility] is then set in the local abilityInfo,
    which was inserted before. *)
Fixpoint look_for_entry (key : string) (ability : Ability) (isPreInstallApp : bool) (skills : list Skill) (b : Building) : Building :=
  match skills with
  | [] => b
  | skill :: skills' =>
      if has INTENT_ACTION_HOME (sk_actions skill) && has INTENT_ENTITY_HOME (sk_entities skill) then
        let b := b <| bd_module ::= λ m, m <| im_entryAbilityKey := key |> <| im_label := mab_label ability |>
                                          <| im_labelId := mab_labelId ability |> |> in
        let b := if has FLAG_HOME_INTENT_FROM_SYSTEM (sk_entities skill) && isPreInstallApp
                 then b <| bd_app ::= λ a, a <| app_isLauncherApp := true |> |> else b in
        b <| bd_find := true |>
      else look_for_entry key ability isPreInstallApp skills' b
  end.

(** The body of the loop over the abilities. *)
Definition add_ability (moduleJson : ModuleJson) (isPreInstallApp : bool) (b : Building) (ability : Ability) : Building :=
  let abilityInfo := ToAbilityInfo moduleJson ability (app_isSystemApp (bd_app b)) isPreInstallApp (new_AbilityInfo uninit) in
  let key := profile_key (mapp_bundleName (mmj_app moduleJson)) (mmod_name (mmj_module moduleJson)) (ai_name abilityInfo) in
  let b := b <| bd_module ::= λ m, m <| im_abilityKeys ::= λ l, l ++ [key] |> <| im_skillKeys ::= λ l, l ++ [key] |> |>
             <| bd_info ::= InsertSkillInfo key (mab_skills ability) |>
             <| bd_info ::= InsertAbilitiesInfo key abilityInfo |> in
  if bd_find b then b else look_for_entry key ability isPreInstallApp (mab_skills ability) b.

(** The body of the loop over the extension abilities. *)
Definition add_extension (moduleJson : ModuleJson) (isPreInstallApp : bool) (b : Building) (extension : Extension) : Building :=
  let extensionInfo := ToExtensionInfo moduleJson extension (app_isSystemApp (bd_app b)) isPreInstallApp
                         (new_ExtensionAbilityInfo uninit_type) in
  let key := profile_key (mapp_bundleName (mmj_app moduleJson)) (mmod_name (mmj_module moduleJson)) (mex_name extension) in
  b <| bd_module ::= λ m, m <| im_extensionKeys ::= λ l, l ++ [key] |> <| im_extensionSkillKeys ::= λ l, l ++ [key] |> |>
    <| bd_info ::= InsertExtensionSkillInfo key (mex_skills extension) |>
    <| bd_info ::= InsertExtensionInfo key extensionInfo |>.

Definition ToInnerBundleInfo (moduleJson : ModuleJson) (IsDirExist : string → bool) (innerBundleInfo : InnerBundleInfo)
  : bool * InnerBundleInfo :=
  if negb (CheckBundleNameIsValid (mapp_bundleName (mmj_app moduleJson))) then (false, innerBundleInfo)
  else
    let isPreInstallApp := IsPreInstallApp innerBundleInfo in
    let isSystemApp := bool_decide (ib_appType innerBundleInfo = AppType_SYSTEM_APP) in
    let applicationInfo := ToApplicationInfo (mmj_app moduleJson) isPreInstallApp IsDirExist
                             (new_ApplicationInfo <| app_isSystemApp := isSystemApp |>) in
    let innerModuleInfo := ToInnerModuleInfo moduleJson isSystemApp isPreInstallApp new_InnerModuleInfo in
    let bundleInfo := ToBundleInfo applicationInfo innerModuleInfo isPreInstallApp new_BundleInfo in
    let b := foldl (add_ability moduleJson isPreInstallApp) (mkBuilding innerBundleInfo innerModuleInfo applicationInfo false)
               (mmod_abilities (mmj_module moduleJson)) in
    let b := foldl (add_extension moduleJson isPreInstallApp) b (mmod_extensionAbilities (mmj_module moduleJson)) in
    let name := mmod_name (mmj_module moduleJson) in
    let i := SetCurrentModulePackage name (bd_info b) in
    let i := SetBaseApplicationInfo (bd_app b) i in
    let i := SetBaseBundleInfo bundleInfo i in
    (true, InsertInnerModuleInfo name (bd_module b) i).
End ToInnerBundleInfo.

(** ** ModuleProfile *)

Section TransformTo.
Context `{HX : JsonText} `{HD : DeviceParameters} `{HU : Uninit}.

(** [Profile::parseResult] is the [LOCAL] variable. *)
Definition TransformTo (source : string) (IsDirExist : string → bool) (innerBundleInfo : InnerBundleInfo)
  : M (Z * InnerBundleInfo) :=
  match parse source with
  | None => mret (ERR_APPEXECFWK_PARSE_BAD_PROFILE, innerBundleInfo)
  | Some jsonObject =>
      moduleJson ← get_ModuleJson jsonObject;
      parseResult ← read_var LOCAL;
      if negb (parseResult =? ERR_OK) then
        _ ← write_var LOCAL ERR_OK;
        mret (parseResult, innerBundleInfo)
      else
        let '(ok, i) := ToInnerBundleInfo moduleJson IsDirExist innerBundleInfo in
        mret (if negb ok then ERR_APPEXECFWK_PARSE_PROFILE_PROP_CHECK_ERROR else ERR_OK, i)
  end.
End TransformTo.

(** * The readers always give a result *)

Lemma accepts_Metadata : accepts MLocal OBJECT NOT_ARRAY get_Metadata.
Proof. apply accepts_part. intros j x Hj. unfold Metadata_from_json. run_fields. Qed.
#[export] Hint Resolve accepts_Metadata : runs.
Lemma accepts_Ability_ : accepts MLocal OBJECT NOT_ARRAY get_Ability.
Proof. apply accepts_part. intros j x Hj. unfold Ability_from_json, Ability_from_json_1, Ability_from_json_2. run_fields. Qed.
#[export] Hint Resolve accepts_Ability_ : runs.
Lemma accepts_Extension : accepts MLocal OBJECT NOT_ARRAY get_Extension.
Proof. apply accepts_part. intros j x Hj. unfold Extension_from_json. run_fields. Qed.
#[export] Hint Resolve accepts_Extension : runs.
Lemma accepts_DeviceConfig_ : accepts MLocal OBJECT NOT_ARRAY get_DeviceConfig.
Proof. apply accepts_part. intros j x Hj. unfold DeviceConfig_from_json. run_fields. Qed.
#[export] Hint Resolve accepts_DeviceConfig_ : runs.
Lemma accepts_App_ : accepts MLocal OBJECT NOT_ARRAY get_App.
Proof. apply accepts_part. intros j x Hj. unfold App_from_json, App_from_json_1, App_from_json_2, read_device_config. run_fields. Qed.
#[export] Hint Resolve accepts_App_ : runs.
Lemma accepts_Module__ : accepts MLocal OBJECT NOT_ARRAY get_Module_.
Proof. apply accepts_part. intros j x Hj. unfold Module__from_json, Module__from_json_1, Module__from_json_2. run_fields. Qed.
#[export] Hint Resolve accepts_Module__ : runs.
Lemma accepts_ModuleJson : accepts MLocal OBJECT NOT_ARRAY get_ModuleJson.
Proof. apply accepts_part. intros j x Hj. unfold ModuleJson_from_json. run_fields. Qed.
#[export] Hint Resolve accepts_ModuleJson : runs.

(** * What a module.json turns into *)

Lemma module_CheckBundleNameIsValid_iff name : CheckBundleNameIsValid name = true ↔ valid_bundle_name name.
Proof. apply name_check_iff. Qed.

Lemma module_ToAbilityInfo_names moduleJson ability s p u :
  let a := ToAbilityInfo moduleJson ability s p (new_AbilityInfo u) in
  ai_bundleName a = mapp_bundleName (mmj_app moduleJson) ∧ ai_package a = mmod_name (mmj_module moduleJson)
  ∧ ai_enabled a = true ∧ ai_isLauncherAbility a = false ∧ ai_name a = mab_name ability.
Proof.
  cbv zeta. unfold ToAbilityInfo. cbv zeta. destruct (assoc_find _ LAUNCH_MODE_MAP), (s && p); split_and!; reflexivity.
Qed.

Lemma ToExtensionInfo_names moduleJson extension s p t :
  let e := ToExtensionInfo moduleJson extension s p (new_ExtensionAbilityInfo t) in
  ext_bundleName e = mapp_bundleName (mmj_app moduleJson) ∧ ext_moduleName e = mmod_name (mmj_module moduleJson)
  ∧ ext_name e = mex_name extension.
Proof.
  cbv zeta. unfold ToExtensionInfo. cbv zeta.
  destruct (s && p), (negb (bool_decide (_ = ExtensionAbilityType_SERVICE)) && negb _); split_and!; reflexivity.
Qed.

Section Wf.
Context `{HD : DeviceParameters} `{HU : Uninit}.

(** No ability is a launcher ability. *)
Definition no_launcher (i : InnerBundleInfo) : Prop :=
  ∀ k a, ib_baseAbilityInfos i !! k = Some a → ai_isLauncherAbility a = false.

(** The key of the first ability with a home skill. *)
Definition entry_of (moduleJson : ModuleJson) (l : list Ability) : string :=
  match List.find (λ ability, existsb home_skill (mab_skills ability)) l with
  | Some ability => profile_key (mapp_bundleName (mmj_app moduleJson)) (mmod_name (mmj_module moduleJson)) (mab_name ability)
  | None => ""
  end.

(** The loop over the skills changes the entry, the label and the flag of the
    launcher application. *)
Lemma module_look_for_entry_keeps key ability p skills name package vc e b :
  building name package vc e b →
  let b' := look_for_entry key ability p skills b in
  building name package vc e b' ∧ bd_info b' = bd_info b ∧
  (bd_find b', im_entryAbilityKey (bd_module b')) =
    (if existsb home_skill skills then (true, key) else (bd_find b, im_entryAbilityKey (bd_module b))).
Proof.
  intros Hb. cbv zeta. induction skills as [|skill skills IH]; [done|]. cbn [look_for_entry existsb].
  change (has INTENT_ACTION_HOME (sk_actions skill) && has INTENT_ENTITY_HOME (sk_entities skill)) with (home_skill skill).
  destruct (home_skill skill); [|exact IH]. cbn [orb]. destruct Hb as [Hk Hm Ha He].
  destruct (_ && p); (split; [|done]); (split; [by eapply keyed_same|done..]).
Qed.

Lemma module_add_ability_wf moduleJson p vc e b ability :
  let name := mapp_bundleName (mmj_app moduleJson) in
  let package := mmod_name (mmj_module moduleJson) in
  let b' := add_ability moduleJson p b ability in
  building name package vc e b → no_launcher (bd_info b) →
  building name package vc e b' ∧ no_launcher (bd_info b') ∧
  (bd_find b', im_entryAbilityKey (bd_module b')) =
    (if bd_find b then (true, im_entryAbilityKey (bd_module b))
     else if existsb home_skill (mab_skills ability) then (true, profile_key name package (mab_name ability))
     else (false, im_entryAbilityKey (bd_module b))).
Proof.
  intros name package b' [Hk Hm Ha He] Hno. subst b'. unfold add_ability. cbv zeta.
  pose proof (module_ToAbilityInfo_names moduleJson ability (app_isSystemApp (bd_app b)) p uninit) as Hn. cbv zeta in Hn.
  set (a := ToAbilityInfo _ _ _ _ _) in *. clearbody a. destruct Hn as (Hb & Hp & Hen & Hl & Hname).
  fold name package in Hb, Hp |- *. set (key := profile_key name package (ai_name a)).
  set (b1 := b <| bd_module ::= _ |> <| bd_info ::= _ |> <| bd_info ::= _ |>).
  assert (Hb1 : building name package vc e b1).
  { split; [|done..]. by apply (keyed_ability name package (bd_module b) (bd_info b) a (mab_skills ability) None). }
  assert (Hno1 : no_launcher (bd_info b1)) by (intros k a' [?|[_ ->]]%emplace_cases; [by eapply Hno|done]).
  change (bd_find b1) with (bd_find b).
  destruct (bd_find b) eqn:Hf; [split_and!; [done|done|by change (bd_find b1) with (bd_find b); rewrite Hf]|].
  pose proof (module_look_for_entry_keeps key ability p (mab_skills ability) _ _ _ _ b1 Hb1) as Hlook. cbv zeta in Hlook.
  destruct Hlook as (Hb2 & Hi2 & Hentry). split; [done|]. split; [by rewrite Hi2|]. rewrite Hentry.
  change (bd_find b1) with (bd_find b). rewrite Hf. subst key. by rewrite Hname.
Qed.

Lemma module_add_abilities_wf moduleJson p vc e l : ∀ b,
  let name := mapp_bundleName (mmj_app moduleJson) in
  let package := mmod_name (mmj_module moduleJson) in
  let b' := foldl (add_ability moduleJson p) b l in
  building name package vc e b → no_launcher (bd_info b) →
  building name package vc e b' ∧ no_launcher (bd_info b') ∧
  (bd_find b = true → im_entryAbilityKey (bd_module b') = im_entryAbilityKey (bd_module b)) ∧
  (bd_find b = false → im_entryAbilityKey (bd_module b) = "" → im_entryAbilityKey (bd_module b') = entry_of moduleJson l).
Proof.
  cbv zeta. induction l as [|ability l IH]; intros b Hb Hno; cbn [foldl]; [done|].
  pose proof (module_add_ability_wf moduleJson p vc e b ability Hb Hno) as H1. cbv zeta in H1. destruct H1 as (Hb1 & Hno1 & He1).
  destruct (IH _ Hb1 Hno1) as (Hb' & Hno' & Ht & Hf). split; [done|]. split; [done|]. unfold entry_of in *. cbn [List.find].
  destruct (bd_find b) eqn:Hfind; [|destruct (existsb home_skill (mab_skills ability))]; injection He1 as Hf1 Hk1;
    (split; intros Hfb; [|intros Hkey]); try done; rewrite ?Ht, ?Hf by congruence; congruence.
Qed.

Lemma add_extensions_wf moduleJson p vc e l : ∀ b,
  let name := mapp_bundleName (mmj_app moduleJson) in
  let package := mmod_name (mmj_module moduleJson) in
  let b' := foldl (add_extension moduleJson p) b l in
  building name package vc e b →
  building name package vc e b' ∧ ib_baseAbilityInfos (bd_info b') = ib_baseAbilityInfos (bd_info b)
  ∧ im_entryAbilityKey (bd_module b') = im_entryAbilityKey (bd_module b).
Proof.
  cbv zeta. induction l as [|extension l IH]; intros b Hb; cbn [foldl]; [done|]. set (b1 := add_extension _ _ _ _).
  assert (Hb1 : building (mapp_bundleName (mmj_app moduleJson)) (mmod_name (mmj_module moduleJson)) vc e b1).
  { destruct Hb as [Hk Hm Ha He].
    pose proof (ToExtensionInfo_names moduleJson extension (app_isSystemApp (bd_app b)) p uninit_type) as (Hb & Hp & Hname).
    subst b1. unfold add_extension. cbv zeta. rewrite <- Hname. set (x := ToExtensionInfo _ _ _ _ _) in *. clearbody x.
    split; [|done..]. by eapply (keyed_extension _ _ (bd_module b) (bd_info b) x (mex_skills extension)). }
  destruct (IH b1 Hb1) as (Hb' & Ha' & He'). by rewrite Ha', He'.
Qed.

Lemma adapt_device_keeps d p a :
  let a' := adapt_device d p a in
  app_bundleName a' = app_bundleName a ∧ app_name a' = app_name a ∧ app_enabled a' = app_enabled a
  ∧ app_versionCode a' = app_versionCode a.
Proof.
  cbv zeta. unfold adapt_device. cbv zeta. destruct (mdc_minAPIVersion d).1;
    match goal with |- context [if ?c && p then _ else _] => destruct (c && p) end; split_and!; reflexivity.
Qed.

Lemma module_ToApplicationInfo_names app p dirs s :
  let a := ToApplicationInfo app p dirs (new_ApplicationInfo <| app_isSystemApp := s |>) in
  app_bundleName a = mapp_bundleName app ∧ app_name a = mapp_bundleName app
  ∧ app_enabled a = true ∧ app_versionCode a = u32 (mapp_versionCode app).
Proof.
  cbv zeta. unfold ToApplicationInfo. cbv zeta.
  match goal with |- context [handle_native_so dirs ?a] => destruct (handle_native_so_eq dirs a) as (path & abi & ->) end.
  unfold set_native. destruct (mapp_deviceConfigs app !! GetDeviceType) as [d|].
  - match goal with |- context [adapt_device d p ?a] => pose proof (adapt_device_keeps d p a) as (H1 & H2 & H3 & H4); set (a0 := a) in * end.
    simpl. rewrite H1, H2, H4. subst a0. match goal with |- context [if ?c && p then _ else _] => destruct (c && p) end; split_and!; reflexivity.
  - match goal with |- context [if ?c && p then _ else _] => destruct (c && p) end; split_and!; reflexivity.
Qed.

Lemma module_ToInnerModuleInfo_empty moduleJson s p :
  let m := ToInnerModuleInfo moduleJson s p new_InnerModuleInfo in
  im_modulePackage m = mmod_name (mmj_module moduleJson) ∧ im_moduleName m = mmod_name (mmj_module moduleJson)
  ∧ im_abilityKeys m = [] ∧ im_skillKeys m = []
  ∧ im_extensionKeys m = [] ∧ im_extensionSkillKeys m = [] ∧ im_entryAbilityKey m = "".
Proof.
  cbv zeta. unfold ToInnerModuleInfo, GetPermissions. cbv zeta.
  destruct (has _ MODULE_TYPE_SET), (has _ VIRTUAL_MACHINE_SET), (has _ UI_SYNTAX_SET), (s && p);
    try destruct (bool_decide (mmod_type _ = _)); split_and!; reflexivity.
Qed.

Lemma module_ToBundleInfo_names a m p :
  let b := ToBundleInfo a m p new_BundleInfo in
  bi_name b = app_bundleName a ∧ bi_versionCode b = app_versionCode a
  ∧ bi_mainEntry b = (if im_isEntry m then im_moduleName m else "").
Proof. cbv zeta. unfold ToBundleInfo. destruct (im_isEntry m); split_and!; reflexivity. Qed.

Lemma module_ToInnerBundleInfo_wf moduleJson dirs i i' :
  fresh i → ToInnerBundleInfo moduleJson dirs i = (true, i') →
  ∃ m, profile_wf (mapp_bundleName (mmj_app moduleJson)) (mmod_name (mmj_module moduleJson)) m i'
    ∧ bi_versionCode (ib_baseBundleInfo i') = u32 (mapp_versionCode (mmj_app moduleJson))
    ∧ no_launcher i' ∧ im_entryAbilityKey m = entry_of moduleJson (mmod_abilities (mmj_module moduleJson)).
Proof.
  intros Hi. unfold ToInnerBundleInfo. destruct (CheckBundleNameIsValid _) eqn:Hname; [|discriminate]. cbn [negb].
  apply module_CheckBundleNameIsValid_iff in Hname. intros Hto. cbv zeta in Hto.
  set (p := IsPreInstallApp i) in *. set (sys := bool_decide _) in *.
  pose proof (module_ToApplicationInfo_names (mmj_app moduleJson) p dirs sys) as Ha. cbv zeta in Ha.
  set (a := ToApplicationInfo _ _ _ _) in *. pose proof (module_ToInnerModuleInfo_empty moduleJson sys p) as Hm. cbv zeta in Hm.
  set (m0 := ToInnerModuleInfo _ _ _ _) in *. pose proof (module_ToBundleInfo_names a m0 p) as Hb. cbv zeta in Hb.
  set (bi := ToBundleInfo _ _ _ _) in *. clearbody a m0 bi sys p. destruct Ha as (Ha1 & Ha2 & Ha3 & Ha4).
  destruct Hm as (Hm1 & Hm2 & Hm3 & Hm4 & Hm5 & Hm6 & Hm7).
  set (b0 := mkBuilding i m0 a false) in *.
  assert (Hb0 : building (mapp_bundleName (mmj_app moduleJson)) (mmod_name (mmj_module moduleJson))
                  (u32 (mapp_versionCode (mmj_app moduleJson))) (im_isEntry m0) b0).
  { split; cbn [bd_module bd_info bd_app b0]; [by apply keyed_fresh|apply Hi|done|done]. }
  assert (Hno0 : no_launcher (bd_info b0)).
  { destruct Hi as (_ & He & _). intros k x. simpl. by rewrite He, sm_lookup_empty. }
  destruct (module_add_abilities_wf _ p _ _ (mmod_abilities (mmj_module moduleJson)) b0 Hb0 Hno0) as (Hb1 & Hno1 & _ & Hentry).
  destruct (add_extensions_wf _ p _ _ (mmod_extensionAbilities (mmj_module moduleJson)) _ Hb1) as (Hb2 & Habil & He2).
  set (b2 := foldl (add_extension _ _) _ _) in *. rewrite Hentry in He2 by done. clearbody b2.
  apply (f_equal snd) in Hto. cbn [snd] in Hto. subst i'. destruct Hb2 as [Hk Hmods (Hbn & Hna & Hen & Hvc) He].
  destruct Hb as (Hbi1 & Hbi2 & Hbi3).
  exists (bd_module b2). split; [|split; [|split]].
  - split; [done|..]; simpl.
    + done.
    + split; congruence.
    + by rewrite Hmods.
    + eapply keyed_same; [exact Hk|reflexivity..].
    + rewrite He, Hbi3. destruct (im_isEntry m0); congruence.
  - simpl. congruence.
  - intros k x. simpl. rewrite Habil. apply Hno1.
  - exact He2.
Qed.
End Wf.

(** ** A module.json with something missing *)

Inductive incomplete (j : json) : Prop :=
| no_section : lacks ["app"; "module"] j → incomplete j
| no_app a : find_key j "app" = Some a →
    lacks ["bundleName"; "icon"; "label"; "versionCode"; "versionName"; "minAPIVersion"; "targetAPIVersion"] a → incomplete j
| no_module m : find_key j "module" = Some m →
    lacks ["name"; "type"; "mainElement"; "deviceTypes"; "deliveryWithInstall"; "pages"] m → incomplete j
| no_ability m l a : find_key j "module" = Some m → find_key m "abilities" = Some (JArray l) → a ∈ l →
    lacks ["name"; "srcEntrance"] a → incomplete j
| no_extension m l e : find_key j "module" = Some m → find_key m "extensionAbilities" = Some (JArray l) → e ∈ l →
    lacks ["name"; "srcEntrance"; "type"] e → incomplete j.

Lemma runs_read_device_config j key x : whole j = true → runs MLocal (read_device_config j key x).
Proof. intros Hj. unfold read_device_config. run_fields. Qed.

Lemma module_App_fails j x : whole j = true →
  lacks ["bundleName"; "icon"; "label"; "versionCode"; "versionName"; "minAPIVersion"; "targetAPIVersion"] j →
  fails MLocal (App_from_json j x).
Proof.
  intros Hj Hl. unfold App_from_json. apply fails_left; [unfold App_from_json_1; missing_key Hl|].
  intros ?. unfold App_from_json_2, read_device_config. run_fields.
Qed.

Lemma module_Ability_fails j x : whole j = true → lacks ["name"; "srcEntrance"] j → fails MLocal (Ability_from_json j x).
Proof.
  intros Hj Hl. unfold Ability_from_json. apply fails_left; [unfold Ability_from_json_1; missing_key Hl|].
  intros ?. unfold Ability_from_json_2. run_fields.
Qed.

Lemma Extension_fails j x : whole j = true → lacks ["name"; "srcEntrance"; "type"] j → fails MLocal (Extension_from_json j x).
Proof. intros Hj Hl. unfold Extension_from_json. missing_key Hl. Qed.

Lemma module_Module_fails j x : whole j = true →
  lacks ["name"; "type"; "mainElement"; "deviceTypes"; "deliveryWithInstall"; "pages"] j → fails MLocal (Module__from_json j x).
Proof.
  intros Hj Hl. unfold Module__from_json. apply fails_left; [unfold Module__from_json_1; missing_key Hl|].
  intros ?. unfold Module__from_json_2. run_fields.
Qed.

Lemma runs_ModuleJson j : whole j = true → runs MLocal (get_ModuleJson j).
Proof. intros Hj. unfold get_ModuleJson, get_part, ModuleJson_from_json. run_fields. Qed.

Lemma ModuleJson_fails j : whole j = true → incomplete j → fails MLocal (get_ModuleJson j).
Proof.
  intros Hj Hi. unfold get_ModuleJson, get_part, ModuleJson_from_json.
  assert (Hsub : ∀ k a, find_key j k = Some a → whole a = true) by (intros ? ?; by apply whole_find).
  destruct Hi as [Hl|a Ha Hl|m Hm Hl|m l a Hm Hf Hin Hl|m l a Hm Hf Hin Hl].
  - missing_key Hl.
  - apply fails_left; [|intros ?; run_fields]. eapply fails_object; [reflexivity|eassumption|]. intros _. apply module_App_fails; eauto.
  - apply fails_right; [run_fields|intros ?; cbv beta]. apply fails_left; [|intros ?; run_fields].
    eapply fails_object; [reflexivity|eassumption|]. intros _. apply module_Module_fails; eauto.
  - apply fails_right; [run_fields|intros ?; cbv beta]. apply fails_left; [|intros ?; run_fields].
    eapply fails_object; [reflexivity|eassumption|]. intros _. specialize (Hsub _ _ Hm).
    unfold get_Module_, get_part, Module__from_json, Module__from_json_1. apply fails_left.
    2:{ intros ?. unfold Module__from_json_2. run_fields. }
    do 14 (apply fails_right; [run_fields|intros ?; cbv beta]). apply fails_left; [|intros ?; run_fields].
    eapply fails_objects; [done|done|apply accepts_Ability_|exact Hf|exact Hin|]. intros _.
    apply module_Ability_fails; [|done]. by eapply whole_element.
  - apply fails_right; [run_fields|intros ?; cbv beta]. apply fails_left; [|intros ?; run_fields].
    eapply fails_object; [reflexivity|eassumption|]. intros _. specialize (Hsub _ _ Hm).
    unfold get_Module_, get_part, Module__from_json, Module__from_json_1. apply fails_left.
    2:{ intros ?. unfold Module__from_json_2. run_fields. }
    do 15 (apply fails_right; [run_fields|intros ?; cbv beta]). apply fails_left; [|intros ?; run_fields].
    eapply fails_objects; [done|done|apply accepts_Extension|exact Hf|exact Hin|]. intros _.
    apply Extension_fails; [|done]. by eapply whole_element.
Qed.

Section Outcome.
Context `{HX : JsonText} `{HD : DeviceParameters} `{HU : Uninit}.

(** C0: Whatever the file and the bundle are, reading a module.json gives a
    result, and leaves [Profile::parseResult] without an error for the next
    file.  The code is BAD_PROFILE exactly when the text is not JSON; it is a
    type error or a missing property whenever a required property is missing;
    the bundle is changed by none of these. *)
Theorem module_outcome source dirs i s :
  (∀ j, parse source = Some j → whole j = true) → local s = ERR_OK →
  ∃ code i' s', TransformTo source dirs i s = Some ((code, i'), s') ∧ local s' = ERR_OK
    ∧ (code = ERR_APPEXECFWK_PARSE_BAD_PROFILE ↔ parse source = None)
    ∧ (∀ j, parse source = Some j → incomplete j → code ∈ read_errors)
    ∧ (code ∈ ERR_APPEXECFWK_PARSE_BAD_PROFILE :: read_errors → i' = i)
    ∧ code ∈ [ERR_OK; ERR_APPEXECFWK_PARSE_BAD_PROFILE; ERR_APPEXECFWK_PARSE_PROFILE_PROP_CHECK_ERROR] ++ read_errors.
Proof.
  intros Hwhole Hs. unfold TransformTo. destruct (parse source) as [j|] eqn:Hp.
  2:{ exists ERR_APPEXECFWK_PARSE_BAD_PROFILE, i, s. split_and!; try done. by right; left. }
  specialize (Hwhole j eq_refl).
  assert (ERR_APPEXECFWK_PARSE_BAD_PROFILE ∉ read_errors) as Hbad by (unfold read_errors; set_solver).
  destruct (runs_ModuleJson j Hwhole s) as (c & s1 & Hc & He).
  assert (Hinc : incomplete j → local s1 ≠ ERR_OK).
  { intros Hi. destruct (ModuleJson_fails j Hwhole Hi s) as (c' & s1' & Hc' & _ & Hne). rewrite Hc in Hc'. by simplify_eq. }
  unfold mbind, M_bind. rewrite Hc. unfold read_var. simpl. destruct (Z.eqb_spec (local s1) ERR_OK) as [H0|H0]; simpl.
  - destruct (ToInnerBundleInfo c dirs i) as [ok i'] eqn:Hto.
    exists (if negb ok then ERR_APPEXECFWK_PARSE_PROFILE_PROP_CHECK_ERROR else ERR_OK), i', s1.
    split; [done|]. split; [done|]. destruct ok; simpl; (split; [done|]); (split; [by intros ? [= <-] Hi%Hinc|]);
      (split; [unfold read_errors; set_solver|]); set_solver.
  - exists (local s1), i, (set_var LOCAL ERR_OK s1). split; [done|]. split; [done|].
    destruct He as [He|[_ He]]; [congruence|]. split; [split; [by intros Hb; rewrite Hb in He|done]|].
    split; [done|]. split; [done|]. by do 3 right.
Qed.

(** C17: An accepted module.json gives a bundle of one module under a valid
    name: the application and the bundle carry the name and the version code,
    the module is the current one, its keys are exactly those of the abilities
    and extension abilities and of their skills, each is under
    [bundleName.module.name] of its own fields; and no ability is a launcher
    ability, whatever its skills are. *)
Theorem accepted_module_wf source dirs i s i' s' :
  fresh i → local s = ERR_OK → TransformTo source dirs i s = Some ((ERR_OK, i'), s') →
  ∃ name package m, profile_wf name package m i' ∧ no_launcher i'.
Proof.
  intros Hi Hs. unfold TransformTo. destruct (parse source) as [j|]; [|done]. unfold mbind, M_bind.
  destruct (get_ModuleJson j s) as [[c s1]|] eqn:Hc; [|done]. unfold read_var. simpl.
  destruct (Z.eqb_spec (local s1) ERR_OK) as [H0|H0]; simpl; [|by intros [= ? _ _]].
  destruct (ToInnerBundleInfo c dirs i) as [ok i1] eqn:Hto. destruct ok; [|done]. intros [= -> _].
  destruct (module_ToInnerBundleInfo_wf c dirs i i') as (m & Hwf & _ & Hno & _); [done|done|]. by eexists _, _, m.
Qed.
End Outcome.

Lemma module_outcome_witness :
  let docs := these_texts [("profile", sample_module [("skills", JNumber 1)])] in
  let s := mkParseState ERR_OK ERR_OK in
  ∃ code i' s', @TransformTo docs plain_device zero_memory "profile" (λ _, false) new_InnerBundleInfo s = Some ((code, i'), s')
    ∧ (code = ERR_APPEXECFWK_PARSE_BAD_PROFILE ↔ @parse docs "profile" = None).
Proof.
  cbv zeta. pose proof (@module_outcome (these_texts [("profile", sample_module [("skills", JNumber 1)])]) plain_device zero_memory
    "profile" (λ _, false) new_InnerBundleInfo (mkParseState ERR_OK ERR_OK)) as H.
  destruct H as (code & i' & s' & Ht & _ & Hbad & _); [by intros j [= <-]|done|]. by exists code, i', s'.
Defined.

Lemma accepted_module_wf_witness :
  match @TransformTo (these_texts [("profile", sample_module [])]) plain_device zero_memory "profile" (λ _, false) new_InnerBundleInfo
          (mkParseState ERR_OK ERR_OK) with
  | Some ((code, i'), _) => code = ERR_OK ∧ ∃ name package m, profile_wf name package m i'
  | None => False
  end.
Proof.
  pose proof (@accepted_module_wf (these_texts [("profile", sample_module [])]) plain_device zero_memory "profile" (λ _, false) new_InnerBundleInfo
    (mkParseState ERR_OK ERR_OK)) as H.
  destruct (@TransformTo _ _ _ _ _ _ _) as [[[code i'] s']|] eqn:E; [|by vm_compute in E].
  assert (code = ERR_OK) as -> by (apply (f_equal (λ r, from_option (λ x, x.1.1) ERR_OK r)) in E; by vm_compute in E).
  split; [done|]. destruct (H i' s') as (name & package & m & Hwf & _); [by split_and!|done|done|]. by exists name, package, m.
Defined.
