(* ===== verification/ZipFile.v ===== *)
(** * ZipFile: reading archives

    services/bundlemgr/src/zip_file.cpp with the headers of include/zip_file.h,
    byte by byte, and services/bundlemgr/src/base_extractor.cpp and
    bundle_extractor.cpp on top of it.  The file under a path is a list of
    bytes that does not change while it is open; inflate of zlib is an
    argument. *)

From stdpp Require Import strings list.
From S2P Require Import Prelude Strings StdMap Profile.
From Stdlib Require Import Ascii.

Open Scope string_scope.
Open Scope list_scope.
Open Scope Z_scope.

(** ** Bytes *)

Abbreviation bytes := (list ascii).

(** An unsigned number, lowest byte first (the structs are read as they lie
    in the file). *)
Fixpoint le (b : bytes) : Z := match b with [] => 0 | c :: b' => Z.of_N (N_of_ascii c) + 256 * le b' end.

(** The number of [size] bytes at [offset]. *)
Definition number (offset size : nat) (b : bytes) : Z := le (take size (drop offset b)).

(** ** zip_file.h *)

Definition sizeof_LocalHeader : Z := 30.
Record LocalHeader := mkLocalHeader {
  lh_signature : Z;
  lh_flags : Z;
  lh_compressionMethod : Z;
  lh_crc : Z;
  lh_compressedSize : Z;
  lh_uncompressedSize : Z;
  lh_nameSize : Z;
  lh_extraSize : Z;
}.
Definition read_LocalHeader (b : bytes) : LocalHeader :=
  mkLocalHeader (number 0 4 b) (number 6 2 b) (number 8 2 b) (number 14 4 b) (number 18 4 b) (number 22 4 b)
    (number 26 2 b) (number 28 2 b).

Definition sizeof_CentralDirEntry : Z := 46.
Record CentralDirEntry := mkCentralDirEntry {
  cde_signature : Z;
  cde_flags : Z;
  cde_compressionMethod : Z;
  cde_crc : Z;
  cde_compressedSize : Z;
  cde_uncompressedSize : Z;
  cde_nameSize : Z;
  cde_extraSize : Z;
  cde_commentSize : Z;
  cde_localHeaderOffset : Z;
}.
Definition read_CentralDirEntry (b : bytes) : CentralDirEntry :=
  mkCentralDirEntry (number 0 4 b) (number 8 2 b) (number 10 2 b) (number 16 4 b) (number 20 4 b) (number 24 4 b)
    (number 28 2 b) (number 30 2 b) (number 32 2 b) (number 42 4 b).

Definition sizeof_EndDir : Z := 22.
Record EndDir := mkEndDir {
  ed_signature : Z;
  ed_numDisk : Z;
  ed_startDiskOfCentralDir : Z;
  ed_totalEntriesInThisDisk : Z;
  ed_totalEntries : Z;
  ed_sizeOfCentralDir : Z;
  ed_offset : Z;
  ed_commentLen : Z;
}.
Definition new_EndDir : EndDir := mkEndDir 0 0 0 0 0 0 0 0.
Definition read_EndDir (b : bytes) : EndDir :=
  mkEndDir (number 0 4 b) (number 4 2 b) (number 6 2 b) (number 8 2 b) (number 10 2 b) (number 12 4 b) (number 16 4 b)
    (number 20 2 b).

Definition sizeof_DataDesc : Z := 16.
Record DataDesc := mkDataDesc {
  dd_signature : Z;
  dd_crc : Z;
  dd_compressedSize : Z;
  dd_uncompressedSize : Z;
}.
Definition read_DataDesc (b : bytes) : DataDesc :=
  mkDataDesc (number 0 4 b) (number 4 4 b) (number 8 4 b) (number 12 4 b).

Record ZipEntry := mkZipEntry {
  ze_compressionMethod : Z;
  ze_uncompressedSize : Z;
  ze_compressedSize : Z;
  ze_localHeaderOffset : Z;
  ze_crc : Z;
  ze_flags : Z;
  ze_fileName : string;
}.
Definition new_ZipEntry (centralEntry : CentralDirEntry) (fileName : string) : ZipEntry :=
  mkZipEntry (cde_compressionMethod centralEntry) (cde_uncompressedSize centralEntry) (cde_compressedSize centralEntry)
    (cde_localHeaderOffset centralEntry) (cde_crc centralEntry) (cde_flags centralEntry) fileName.

(** [file_] is the content while a FILE is there. *)
Record ZipFile := mkZipFile {
  zf_pathName : string;
  zf_file : option bytes;
  zf_endDir : EndDir;
  zf_entriesMap : stdmap string ZipEntry;
  zf_centralDirPos : Z;
  zf_fileStartPos : Z;
  zf_fileLength : Z;
  zf_isOpen : bool;
}.
#[export] Instance eta_ZipFile : Eta ZipFile := λ r,
  mkZipFile (zf_pathName r) (zf_file r) (zf_endDir r) (zf_entriesMap r) (zf_centralDirPos r) (zf_fileStartPos r)
    (zf_fileLength r) (zf_isOpen r).
Definition new_ZipFile (pathName : string) : ZipFile := mkZipFile pathName None new_EndDir ∅ 0 0 0 false.

Definition MAX_FILE_NAME : Z := 256.
Definition UNZIP_BUF_IN_LEN : Z := 163840.
Definition UNZIP_BUF_OUT_LEN : Z := 327680.
Definition LOCAL_HEADER_SIGNATURE : Z := 0x04034b50.
Definition CENTRAL_SIGNATURE : Z := 0x02014b50.
Definition EOCD_SIGNATURE : Z := 0x06054b50.
Definition DATA_DESC_SIGNATURE : Z := 0x08074b50.
Definition FLAG_DATA_DESC : Z := 0x8.
Definition INFLATE_ERROR_TIMES : Z := 5.
Definition Z_DEFLATED : Z := 8.
Definition PATH_MAX : Z := 4096.

(** ** stdio *)

Definition size_of (b : bytes) : Z := Z.of_nat (length b).

(** [fseek(file_, pos, SEEK_SET) != 0]: the position is taken as a [long]. *)
Definition fseek_fails (pos : Z) : bool := 2 ^ 63 <=? pos.

(** [fread(buffer, 1, n, file_)] at [pos]: the bytes up to the end. *)
Definition fread (b : bytes) (pos n : Z) : bytes := take (Z.to_nat n) (drop (Z.to_nat pos) b).

(** [fread(buffer, n, 1, file_) == 1]; an object of no bytes is never read. *)
Definition fread_object (b : bytes) (pos n : Z) : option bytes :=
  let r := fread b pos n in if (0 <? n) && (size_of r =? n) then Some r else None.

(** A seek and a read of an object. *)
Definition read_object (b : bytes) (pos n : Z) : option bytes :=
  if fseek_fails pos then None else fread_object b pos n.

(** ** Opening *)

Definition CheckEndDir (z : ZipFile) (endDir : EndDir) : bool :=
  negb (negb (ed_numDisk endDir =? 0) || negb (ed_signature endDir =? EOCD_SIGNATURE)
        || negb (ed_startDiskOfCentralDir endDir =? 0) || (zf_fileLength z <=? ed_offset endDir)
        || negb (ed_totalEntriesInThisDisk endDir =? ed_totalEntries endDir) || negb (ed_commentLen endDir =? 0)
        || (zf_fileLength z <? u64 (u32 (ed_offset endDir + ed_sizeOfCentralDir endDir) + sizeof_EndDir))).

Definition ParseEndDirectory (b : bytes) (z : ZipFile) : bool * ZipFile :=
  let endFilePos := u64 (zf_fileStartPos z + zf_fileLength z) in
  if zf_fileLength z <=? sizeof_EndDir then (false, z)
  else match read_object b (u64 (endFilePos - sizeof_EndDir)) sizeof_EndDir with
       | None => (false, z)
       | Some r =>
           let z := z <| zf_endDir := read_EndDir r |> in
           let z := z <| zf_centralDirPos := u64 (ed_offset (zf_endDir z) + zf_fileStartPos z) |> in
           (CheckEndDir z (zf_endDir z), z)
       end.

Definition name_length (nameSize : Z) : Z := if MAX_FILE_NAME <=? nameSize then MAX_FILE_NAME - 1 else nameSize.

(** The rounds that are left. *)
Fixpoint parse_entries (b : bytes) (rounds : nat) (currentPos : Z) (z : ZipFile) : bool * ZipFile :=
  match rounds with
  | O => (true, z)
  | S rounds =>
      match read_object b currentPos sizeof_CentralDirEntry with
      | None => (false, z)
      | Some r =>
          let directoryEntry := read_CentralDirEntry r in
          if negb (cde_signature directoryEntry =? CENTRAL_SIGNATURE) then (false, z)
          else match fread_object b (currentPos + sizeof_CentralDirEntry) (name_length (cde_nameSize directoryEntry)) with
               | None => (false, z)
               | Some name =>
                   let fileName := String.string_of_list_ascii name in
                   parse_entries b rounds
                     (u64 (currentPos + sizeof_CentralDirEntry + cde_nameSize directoryEntry
                           + cde_extraSize directoryEntry + cde_commentSize directoryEntry))
                     (z <| zf_entriesMap ::= insert fileName (new_ZipEntry directoryEntry fileName) |>)
               end
      end
  end.

Definition ParseAllEntries (b : bytes) (z : ZipFile) : bool * ZipFile :=
  parse_entries b (Z.to_nat (ed_totalEntries (zf_endDir z))) (zf_centralDirPos z) z.

(** [content] is what the path leads to, [None] when it cannot be opened. *)
Definition Open (content : string → option bytes) (z : ZipFile) : bool * ZipFile :=
  if zf_isOpen z then (true, z)
  else if PATH_MAX <? Z.of_nat (String.length (zf_pathName z)) then (false, z)
  else match content (zf_pathName z) with
       | None => (false, z)
       | Some b =>
           let opened (z : ZipFile) :=
             let z := z <| zf_file := Some b |> in
             let '(result, z) := ParseEndDirectory b z in
             let '(result, z) := if result then ParseAllEntries b z else (result, z) in
             (result, z <| zf_isOpen := true |>) in
           if zf_fileLength z =? 0 then
             let z := z <| zf_fileLength := size_of b |> in
             if zf_fileLength z <=? zf_fileStartPos z then (false, z)
             else opened (z <| zf_fileLength := zf_fileLength z - zf_fileStartPos z |>)
           else opened z
       end.

Definition SetContentLocation (start length : Z) (z : ZipFile) : ZipFile :=
  z <| zf_fileStartPos := start |> <| zf_fileLength := length |>.

Definition Close (z : ZipFile) : ZipFile :=
  match zf_isOpen z, zf_file z with
  | true, Some _ => z <| zf_entriesMap := ∅ |> <| zf_pathName := "" |> <| zf_isOpen := false |> <| zf_file := None |>
  | _, _ => z
  end.

(** ** Entries *)

Definition GetAllEntries (z : ZipFile) : stdmap string ZipEntry := zf_entriesMap z.
Definition GetEntry (entryName : string) (z : ZipFile) : option ZipEntry := zf_entriesMap z !! entryName.
Definition ZipFile_HasEntry (entryName : string) (z : ZipFile) : bool :=
  match zf_entriesMap z !! entryName with Some _ => true | None => false end.
Definition ZipFile_IsDirExist (dir : string) (z : ZipFile) : bool :=
  existsb (λ item, find_at_start dir item.1) (elems (zf_entriesMap z)).

Definition GetLocalHeaderSize (nameSize extraSize : Z) : Z := sizeof_LocalHeader + nameSize + extraSize.

Definition CheckDataDesc (b : bytes) (z : ZipFile) (zipEntry : ZipEntry) (localHeader : LocalHeader) : bool :=
  let check crcLocal compressedLocal uncompressedLocal :=
    negb (negb (ze_crc zipEntry =? crcLocal) || negb (ze_compressedSize zipEntry =? compressedLocal)
          || negb (ze_uncompressedSize zipEntry =? uncompressedLocal)) in
  if negb (Z.land (lh_flags localHeader) FLAG_DATA_DESC =? 0) then
    let descPos := u64 (ze_localHeaderOffset zipEntry + GetLocalHeaderSize (lh_nameSize localHeader) (lh_extraSize localHeader)) in
    let descPos := u64 (descPos + zf_fileStartPos z + ze_compressedSize zipEntry) in
    match read_object b descPos sizeof_DataDesc with
    | None => false
    | Some r =>
        let dataDesc := read_DataDesc r in
        if negb (dd_signature dataDesc =? DATA_DESC_SIGNATURE) then false
        else check (dd_crc dataDesc) (dd_compressedSize dataDesc) (dd_uncompressedSize dataDesc)
    end
  else check (lh_crc localHeader) (lh_compressedSize localHeader) (lh_uncompressedSize localHeader).

(** The size of the extra field of a local header that agrees with the
    central directory. *)
Definition CheckCoherencyLocalHeader (b : bytes) (z : ZipFile) (zipEntry : ZipEntry) : option Z :=
  if zf_fileLength z <=? ze_localHeaderOffset zipEntry then None
  else
    let pos := u64 (zf_fileStartPos z + ze_localHeaderOffset zipEntry) in
    match read_object b pos sizeof_LocalHeader with
    | None => None
    | Some r =>
        let localHeader := read_LocalHeader r in
        if negb (lh_signature localHeader =? LOCAL_HEADER_SIGNATURE)
           || negb (ze_compressionMethod zipEntry =? lh_compressionMethod localHeader) then None
        else if negb (ze_compressionMethod zipEntry =? Z_DEFLATED) && negb (ze_compressionMethod zipEntry =? 0) then None
        else
          let fileLength := name_length (lh_nameSize localHeader) in
          if negb (fileLength =? Z.of_nat (String.length (ze_fileName zipEntry))) then None
          else match fread_object b (pos + sizeof_LocalHeader) fileLength with
               | None => None
               | Some name =>
                   if negb (bool_decide (ze_fileName zipEntry = String.string_of_list_ascii name)) then None
                   else if negb (CheckDataDesc b z zipEntry localHeader) then None
                   else Some (lh_extraSize localHeader)
               end
    end.

(** The position that is sought, if any. *)
Definition SeekToEntryStart (z : ZipFile) (zipEntry : ZipEntry) (extraSize : Z) : option Z :=
  let startOffset := u64 (ze_localHeaderOffset zipEntry
                          + GetLocalHeaderSize (Z.of_nat (String.length (ze_fileName zipEntry))) extraSize) in
  if zf_fileLength z <? u64 (startOffset + ze_compressedSize zipEntry) then None
  else
    let startOffset := u64 (startOffset + zf_fileStartPos z) in
    if fseek_fails startOffset then None else Some startOffset.

(** ** Unpacking *)

(** The rounds of the loop, of at least one byte each: [remainSize] of them
    are enough.  [dest] is what has been written. *)
Fixpoint store_loop (b : bytes) (rounds : nat) (pos remainSize : Z) (dest : bytes) : bool * bytes :=
  match rounds with
  | O => (true, dest)
  | S rounds =>
      if negb (0 <? remainSize) then (true, dest)
      else
        let readLen := if UNZIP_BUF_OUT_LEN <? remainSize then UNZIP_BUF_OUT_LEN else remainSize in
        let r := fread b pos readLen in
        if size_of r =? 0 then (false, dest)
        else store_loop b rounds (pos + size_of r) (u32 (remainSize - size_of r)) (dest ++ r)
  end.

Definition UnzipWithStore (b : bytes) (z : ZipFile) (zipEntry : ZipEntry) (extraSize : Z) (dest : bytes) : bool * bytes :=
  match SeekToEntryStart z zipEntry extraSize with
  | None => (false, dest)
  | Some pos => store_loop b (Z.to_nat (ze_compressedSize zipEntry)) pos (ze_compressedSize zipEntry) dest
  end.

(** zlib: [inflate] on the input that is there and a buffer of
    UNZIP_BUF_OUT_LEN gives its code, whether [msg] is set, how much of the
    input is left and the output; the inits and the end may fail. *)
Class Zlib := {
  zstream : Type;
  init_zstream : option zstream;
  inflate : zstream → bytes → zstream * Z * bool * bytes * bytes;
  inflateEnd : zstream → Z;
}.

Section Inflate.
Context `{HZ : Zlib}.

(** [InitZStream]: memset_s, inflateInit2 and the two buffers. *)
Definition InitZStream : option zstream := init_zstream.

(** The input for the next round, the position and what remains. *)
Definition ReadZStream (b : bytes) (avail_in : bytes) (pos remainCompressedSize : Z) : option (bytes * Z * Z) :=
  match avail_in with
  | [] =>
      let remainBytes := if UNZIP_BUF_IN_LEN <? remainCompressedSize then UNZIP_BUF_IN_LEN else remainCompressedSize in
      let r := fread b pos remainBytes in
      if size_of r =? 0 then None else Some (r, pos + size_of r, u32 (remainCompressedSize - size_of r))
  | _ => Some (avail_in, pos, remainCompressedSize)
  end.

(** [None]: not done after these rounds. *)
Fixpoint inflate_loop (b : bytes) (rounds : nat) (zs : zstream) (avail_in : bytes) (pos remain errorTimes : Z) (dest : bytes)
  : option (bool * zstream * bytes) :=
  if negb ((0 <? remain) || negb (bool_decide (avail_in = []))) then Some (true, zs, dest)
  else
    match rounds with
    | O => None
    | S rounds =>
        match ReadZStream b avail_in pos remain with
        | None => Some (false, zs, dest)
        | Some (avail_in, pos, remain) =>
            let '(zs, zlibErr, msg, avail_in, out) := inflate zs avail_in in
            if (0 <=? zlibErr) && msg then Some (false, zs, dest)
            else
              let '(dest, errorTimes) :=
                if 0 <? size_of out then (dest ++ out, 0) else (dest, (errorTimes + 1) mod 256) in
              if INFLATE_ERROR_TIMES <=? errorTimes then Some (false, zs, dest)
              else inflate_loop b rounds zs avail_in pos remain errorTimes dest
        end
    end.

Definition UnzipWithInflated (b : bytes) (rounds : nat) (z : ZipFile) (zipEntry : ZipEntry) (extraSize : Z) (dest : bytes)
  : option (bool * bytes) :=
  match SeekToEntryStart z zipEntry extraSize, InitZStream with
  | Some pos, Some zs =>
      '(ret, zs, dest) ← inflate_loop b rounds zs [] pos (ze_compressedSize zipEntry) 0 dest;
      Some (if negb (inflateEnd zs =? 0) then false else ret, dest)
  | _, _ => Some (false, dest)
  end.

Definition GetEntryDataOffset (z : ZipFile) (zipEntry : ZipEntry) (extraSize : Z) : Z :=
  let offset := u64 (ze_localHeaderOffset zipEntry
                     + GetLocalHeaderSize (Z.of_nat (String.length (ze_fileName zipEntry))) extraSize) in
  u64 (offset + zf_fileStartPos z).

(** Without a file the reads dereference a null pointer, but then there are no
    entries either. *)
Definition the_file (z : ZipFile) : bytes := default [] (zf_file z).

Definition GetDataOffsetRelative (file : string) (z : ZipFile) : option (Z * Z) :=
  match GetEntry file z with
  | None => None
  | Some zipEntry =>
      match CheckCoherencyLocalHeader (the_file z) z zipEntry with
      | None => None
      | Some extraSize => Some (GetEntryDataOffset z zipEntry extraSize, ze_compressedSize zipEntry)
      end
  end.

Definition ZipFile_ExtractFile (rounds : nat) (file : string) (z : ZipFile) (dest : bytes) : option (bool * bytes) :=
  match GetEntry file z with
  | None => Some (false, dest)
  | Some zipEntry =>
      match CheckCoherencyLocalHeader (the_file z) z zipEntry with
      | None => Some (false, dest)
      | Some extraSize =>
          if ze_compressionMethod zipEntry =? 0
          then Some (UnzipWithStore (the_file z) z zipEntry extraSize dest)
          else UnzipWithInflated (the_file z) rounds z zipEntry extraSize dest
      end
  end.
End Inflate.

(** ** base_extractor.cpp and bundle_extractor.cpp *)

Definition MODULE_PROFILE_NAME : string := "module.json".
Definition BUNDLE_PROFILE_NAME : string := "config.json".
Definition BUNDLE_PACKFILE_NAME : string := "pack.info".

Record BundleExtractor := mkBundleExtractor {
  be_sourceFile : string;
  be_zipFile : ZipFile;
  be_initial : bool;
  be_isNewVersion : bool;
}.
#[export] Instance eta_BundleExtractor : Eta BundleExtractor := λ r,
  mkBundleExtractor (be_sourceFile r) (be_zipFile r) (be_initial r) (be_isNewVersion r).
Definition new_BundleExtractor (source : string) : BundleExtractor := mkBundleExtractor source (new_ZipFile source) false false.

Definition Init (content : string → option bytes) (e : BundleExtractor) : bool * BundleExtractor :=
  let '(opened, z) := Open content (be_zipFile e) in
  let e := e <| be_zipFile := z |> in
  if negb opened then (false, e)
  else (true, e <| be_isNewVersion := match GetEntry MODULE_PROFILE_NAME z with Some _ => true | None => false end |>
                <| be_initial := true |>).

Definition HasEntry (fileName : string) (e : BundleExtractor) : bool :=
  if negb (be_initial e) then false else ZipFile_HasEntry fileName (be_zipFile e).

Definition IsDirExist (e : BundleExtractor) (dir : string) : bool :=
  if negb (be_initial e) then false else if str_empty dir then false else ZipFile_IsDirExist dir (be_zipFile e).

Section Extractor.
Context `{HZ : Zlib} `{HD : DeviceParameters}.

Definition ExtractByName (rounds : nat) (fileName : string) (e : BundleExtractor) (dest : bytes) : option (bool * bytes) :=
  if negb (be_initial e) then Some (false, dest) else ZipFile_ExtractFile rounds fileName (be_zipFile e) dest.

(** [can_open] and [good]: what the std::ofstream of the target says.  The
    file that is there afterwards, when it was opened at all. *)
Definition ExtractFile (rounds : nat) (can_open good : bool) (fileName : string) (e : BundleExtractor)
  : option (bool * option bytes) :=
  if negb can_open then Some (false, None)
  else
    '(ret, dest) ← ExtractByName rounds fileName e [];
    Some (if negb ret || negb good then (false, None) else (true, Some dest)).

Definition GetZipFileNames (e : BundleExtractor) (fileNames : list string) : list string :=
  fileNames ++ sm_keys (GetAllEntries (be_zipFile e)).

Definition IsStageBasedModel (e : BundleExtractor) (abilityName : string) : bool :=
  let splitStrs := SplitStr abilityName "." false true in
  let name := default abilityName (last splitStrs) in
  let entry := "assets/js/" +:+ name +:+ "/" +:+ name +:+ ".js" in
  match GetAllEntries (be_zipFile e) !! entry with Some _ => true | None => false end.

Definition IsNewVersion (e : BundleExtractor) : bool := be_isNewVersion e.

Definition ExtractProfile (rounds : nat) (e : BundleExtractor) (dest : bytes) : option (bool * bytes) :=
  if IsNewVersion e then ExtractByName rounds MODULE_PROFILE_NAME e dest
  else ExtractByName rounds BUNDLE_PROFILE_NAME e dest.

Definition ExtractPackFile (rounds : nat) (e : BundleExtractor) (dest : bytes) : option (bool * bytes) :=
  ExtractByName rounds BUNDLE_PACKFILE_NAME e dest.
End Extractor.

(** * What is read back *)

(** ** Numbers *)

Fixpoint le_bytes (n : nat) (v : Z) : bytes :=
  match n with O => [] | S n => ascii_of_N (Z.to_N (v mod 256)) :: le_bytes n (v / 256) end.

Lemma length_le_bytes n v : length (le_bytes n v) = n.
Proof. revert v. induction n as [|n IH]; intros v; simpl; [done|]. by rewrite IH. Qed.

Lemma le_le_bytes n v : 0 <= v < 256 ^ Z.of_nat n → le (le_bytes n v) = v.
Proof.
  revert v. induction n as [|n IH]; intros v Hv; simpl; [simpl in Hv; lia|].
  assert (0 <= v mod 256 < 256) by (apply Z.mod_pos_bound; lia).
  rewrite N_ascii_embedding by lia. rewrite Z2N.id by lia. rewrite IH.
  - pose proof (Z_div_mod_eq_full v 256). lia.
  - rewrite Nat2Z.inj_succ, Z.pow_succ_r in Hv by lia. split; [apply Z.div_pos; lia|apply Z.div_lt_upper_bound; lia].
Qed.

Lemma le_range b : 0 <= le b < 256 ^ size_of b.
Proof.
  unfold size_of. induction b as [|c b IH]; [done|]. cbn [le length]. rewrite Nat2Z.inj_succ, Z.pow_succ_r by lia.
  pose proof (N_ascii_bounded c). lia.
Qed.

Lemma number_range offset size b : 0 <= number offset size b < 256 ^ Z.of_nat size.
Proof.
  unfold number. pose proof (le_range (take size (drop offset b))) as Hr. split; [lia|].
  eapply Z.lt_le_trans; [apply Hr|]. apply Z.pow_le_mono_r; [lia|]. unfold size_of. rewrite length_take. lia.
Qed.

(** ** Reading *)

Lemma fread_app pre r post n : Z.of_nat (length r) = n → fread (pre ++ r ++ post) (size_of pre) n = r.
Proof. intros <-. unfold fread, size_of. rewrite !Nat2Z.id, drop_app_length, take_app_length. done. Qed.

Lemma fread_object_app pre r post n :
  0 < n → size_of r = n → fread_object (pre ++ r ++ post) (size_of pre) n = Some r.
Proof.
  intros Hn Hr. unfold fread_object. rewrite fread_app by exact Hr. rewrite Hr, Z.eqb_refl.
  by destruct (Z.ltb_spec 0 n); [|lia].
Qed.

Lemma read_object_app pre r post n :
  0 < n → size_of r = n → size_of pre < 2 ^ 63 → read_object (pre ++ r ++ post) (size_of pre) n = Some r.
Proof.
  intros Hn Hr Hp. unfold read_object, fseek_fails. destruct (Z.leb_spec (2 ^ 63) (size_of pre)); [lia|].
  by apply fread_object_app.
Qed.

Lemma size_of_app a b : size_of (a ++ b) = size_of a + size_of b.
Proof. unfold size_of. rewrite length_app. lia. Qed.

Lemma size_of_nonneg b : 0 <= size_of b.
Proof. unfold size_of. lia. Qed.

Lemma fread_split b pos m n :
  0 <= pos → 0 <= m <= n → pos + n <= size_of b → fread b pos n = fread b pos m ++ fread b (pos + m) (n - m).
Proof.
  intros Hp Hm Hn. unfold fread. replace (Z.to_nat n) with (Z.to_nat m + Z.to_nat (n - m))%nat by lia.
  rewrite <- take_take_drop, drop_drop. do 2 f_equal. f_equal. lia.
Qed.

Lemma size_of_fread b pos n : 0 <= pos → 0 <= n → pos + n <= size_of b → size_of (fread b pos n) = n.
Proof. unfold fread, size_of. intros. rewrite length_take, length_drop. lia. Qed.

Lemma store_loop_all b rounds : ∀ pos remain dest,
  0 <= pos → 0 <= remain <= UINT32_MAX → remain <= Z.of_nat rounds → pos + remain <= size_of b →
  store_loop b rounds pos remain dest = (true, dest ++ fread b pos remain).
Proof.
  induction rounds as [|rounds IH]; intros pos remain dest Hpos Hr Hrounds Hsize; simpl.
  - assert (remain = 0) as -> by lia. unfold fread. simpl. by rewrite app_nil_r.
  - destruct (Z.ltb_spec 0 remain) as [Hlt|]; simpl.
    2:{ assert (remain = 0) as -> by lia. unfold fread. simpl. by rewrite app_nil_r. }
    set (len := if UNZIP_BUF_OUT_LEN <? remain then _ else _).
    assert (0 < len <= remain) as Hlen.
    { subst len. unfold UNZIP_BUF_OUT_LEN. destruct (Z.ltb_spec 327680 remain); lia. }
    assert (Hs : size_of (fread b pos len) = len) by (apply size_of_fread; lia). rewrite Hs.
    destruct (Z.eqb_spec len 0); [lia|]. rewrite u32_id by (unfold in_u32, UINT32_MAX in *; lia).
    rewrite IH by lia. rewrite <- app_assoc. do 2 f_equal. rewrite (fread_split b pos len remain) by lia. done.
Qed.

(** ** Archives of stored files *)

(** One file of an archive, stored without compression (APPNOTE 4.3). *)
Record Member := mkMember { mb_name : string; mb_data : bytes; mb_crc : Z }.

Definition name_bytes (m : Member) : bytes := String.list_ascii_of_string (mb_name m).

Definition local_header (m : Member) : bytes :=
  le_bytes 4 LOCAL_HEADER_SIGNATURE ++ le_bytes 2 20 ++ le_bytes 2 0 ++ le_bytes 2 0 ++ le_bytes 2 0 ++ le_bytes 2 0
  ++ le_bytes 4 (mb_crc m) ++ le_bytes 4 (size_of (mb_data m)) ++ le_bytes 4 (size_of (mb_data m))
  ++ le_bytes 2 (size_of (name_bytes m)) ++ le_bytes 2 0.
Definition local_file (m : Member) : bytes := local_header m ++ name_bytes m ++ mb_data m.

Definition central_header (offset : Z) (m : Member) : bytes :=
  le_bytes 4 CENTRAL_SIGNATURE ++ le_bytes 2 20 ++ le_bytes 2 20 ++ le_bytes 2 0 ++ le_bytes 2 0 ++ le_bytes 2 0
  ++ le_bytes 2 0 ++ le_bytes 4 (mb_crc m) ++ le_bytes 4 (size_of (mb_data m)) ++ le_bytes 4 (size_of (mb_data m))
  ++ le_bytes 2 (size_of (name_bytes m)) ++ le_bytes 2 0 ++ le_bytes 2 0 ++ le_bytes 2 0 ++ le_bytes 2 0 ++ le_bytes 4 0
  ++ le_bytes 4 offset.

Definition locals (ms : list Member) : bytes := concat (map local_file ms).
Fixpoint centrals (offset : Z) (ms : list Member) : bytes :=
  match ms with
  | [] => []
  | m :: ms => central_header offset m ++ name_bytes m ++ centrals (offset + size_of (local_file m)) ms
  end.

Definition end_directory (count size offset : Z) : bytes :=
  le_bytes 4 EOCD_SIGNATURE ++ le_bytes 2 0 ++ le_bytes 2 0 ++ le_bytes 2 count ++ le_bytes 2 count ++ le_bytes 4 size
  ++ le_bytes 4 offset ++ le_bytes 2 0.

Definition archive (ms : list Member) : bytes :=
  locals ms ++ centrals 0 ms
  ++ end_directory (Z.of_nat (length ms)) (size_of (centrals 0 ms)) (size_of (locals ms)).

(** What the fields of the format can hold, names that are not cut, and at
    least one file. *)
Definition archive_ok (ms : list Member) : Prop :=
  ms ≠ [] ∧ NoDup (map mb_name ms) ∧ Z.of_nat (length ms) < 65536 ∧ size_of (archive ms) <= UINT32_MAX
  ∧ Forall (λ m, 0 < size_of (name_bytes m) < MAX_FILE_NAME ∧ in_u32 (mb_crc m)) ms.

(** ** Headers *)

Definition local_of (m : Member) : LocalHeader :=
  mkLocalHeader LOCAL_HEADER_SIGNATURE 0 0 (mb_crc m) (size_of (mb_data m)) (size_of (mb_data m)) (size_of (name_bytes m)) 0.
Definition central_of (offset : Z) (m : Member) : CentralDirEntry :=
  mkCentralDirEntry CENTRAL_SIGNATURE 0 0 (mb_crc m) (size_of (mb_data m)) (size_of (mb_data m)) (size_of (name_bytes m)) 0 0 offset.

Lemma read_local_header m :
  in_u32 (mb_crc m) → size_of (mb_data m) <= UINT32_MAX → size_of (name_bytes m) < MAX_FILE_NAME →
  read_LocalHeader (local_header m) = local_of m.
Proof.
  unfold in_u32, UINT32_MAX, MAX_FILE_NAME. intros Hc Hd Hn. pose proof (size_of_nonneg (mb_data m)). pose proof (size_of_nonneg (name_bytes m)).
  transitivity (mkLocalHeader (le (le_bytes 4 LOCAL_HEADER_SIGNATURE)) (le (le_bytes 2 0)) (le (le_bytes 2 0))
    (le (le_bytes 4 (mb_crc m))) (le (le_bytes 4 (size_of (mb_data m)))) (le (le_bytes 4 (size_of (mb_data m))))
    (le (le_bytes 2 (size_of (name_bytes m)))) (le (le_bytes 2 0))).
  { reflexivity. }
  rewrite !le_le_bytes by (simpl; unfold LOCAL_HEADER_SIGNATURE; lia). reflexivity.
Qed.

Lemma read_central_header offset m :
  in_u32 (mb_crc m) → size_of (mb_data m) <= UINT32_MAX → size_of (name_bytes m) < MAX_FILE_NAME → in_u32 offset →
  read_CentralDirEntry (central_header offset m) = central_of offset m.
Proof.
  unfold in_u32, UINT32_MAX, MAX_FILE_NAME. intros Hc Hd Hn Ho. pose proof (size_of_nonneg (mb_data m)). pose proof (size_of_nonneg (name_bytes m)).
  transitivity (mkCentralDirEntry (le (le_bytes 4 CENTRAL_SIGNATURE)) (le (le_bytes 2 0)) (le (le_bytes 2 0))
    (le (le_bytes 4 (mb_crc m))) (le (le_bytes 4 (size_of (mb_data m)))) (le (le_bytes 4 (size_of (mb_data m))))
    (le (le_bytes 2 (size_of (name_bytes m)))) (le (le_bytes 2 0)) (le (le_bytes 2 0)) (le (le_bytes 4 offset))).
  { reflexivity. }
  rewrite !le_le_bytes by (simpl; unfold CENTRAL_SIGNATURE; lia). reflexivity.
Qed.

Lemma read_end_directory count size offset :
  0 <= count < 65536 → in_u32 size → in_u32 offset →
  read_EndDir (end_directory count size offset) = mkEndDir EOCD_SIGNATURE 0 0 count count size offset 0.
Proof.
  unfold in_u32, UINT32_MAX. intros Hc Hs Ho.
  transitivity (mkEndDir (le (le_bytes 4 EOCD_SIGNATURE)) (le (le_bytes 2 0)) (le (le_bytes 2 0)) (le (le_bytes 2 count))
    (le (le_bytes 2 count)) (le (le_bytes 4 size)) (le (le_bytes 4 offset)) (le (le_bytes 2 0))).
  { reflexivity. }
  rewrite !le_le_bytes by (simpl; unfold EOCD_SIGNATURE; lia). reflexivity.
Qed.

(** ** The central directory *)

Definition member_entry (offset : Z) (m : Member) : ZipEntry := new_ZipEntry (central_of offset m) (mb_name m).

Fixpoint entries (offset : Z) (ms : list Member) : list (string * ZipEntry) :=
  match ms with
  | [] => []
  | m :: ms => (mb_name m, member_entry offset m) :: entries (offset + size_of (local_file m)) ms
  end.

Definition member_ok (m : Member) : Prop := 0 < size_of (name_bytes m) < MAX_FILE_NAME ∧ in_u32 (mb_crc m).

Lemma size_local_file m : size_of (local_file m) = sizeof_LocalHeader + size_of (name_bytes m) + size_of (mb_data m).
Proof. unfold local_file. rewrite !size_of_app. unfold sizeof_LocalHeader. change (size_of (local_header m)) with 30. lia. Qed.

Lemma locals_cons m ms : locals (m :: ms) = local_file m ++ locals ms.
Proof. done. Qed.

Lemma name_of_bytes m : String.string_of_list_ascii (name_bytes m) = mb_name m.
Proof. apply String.string_of_list_ascii_of_string. Qed.

Lemma size_of_name m : size_of (name_bytes m) = Z.of_nat (String.length (mb_name m)).
Proof. unfold size_of, name_bytes. f_equal. generalize (mb_name m). intros s. induction s as [|c s IH]; simpl; congruence. Qed.

Lemma name_length_small n : n < MAX_FILE_NAME → name_length n = n.
Proof. unfold name_length. intros. destruct (Z.leb_spec MAX_FILE_NAME n); lia. Qed.

Lemma u64_small n : 0 <= n < 2 ^ 64 → u64 n = n.
Proof. intros Hn. unfold u64. by apply Z.mod_small. Qed.

Lemma parse_centrals b ms : ∀ offset pre post z,
  b = pre ++ centrals offset ms ++ post → size_of b <= UINT32_MAX →
  0 <= offset → offset + size_of (locals ms) <= UINT32_MAX → Forall member_ok ms →
  parse_entries b (length ms) (size_of pre) z =
    (true, z <| zf_entriesMap ::= λ e, foldl (λ e p, <[p.1 := p.2]> e) e (entries offset ms) |>).
Proof.
  induction ms as [|m ms IH]; intros offset pre post z Hb Hsize Ho Hoff Hok; [by destruct z|].
  apply Forall_cons in Hok as [[Hn Hc] Hok]. rewrite locals_cons, size_of_app, size_local_file in Hoff.
  pose proof (size_of_nonneg (locals ms)) as Hl0. pose proof (size_of_nonneg (mb_data m)) as Hd0.
  pose proof (size_of_nonneg pre) as Hp0. pose proof (size_of_nonneg post) as Hq0.
  cbn [centrals] in Hb. set (rest := centrals (offset + size_of (local_file m)) ms) in *.
  pose proof (size_of_nonneg rest) as Hr0.
  assert (Hsz : size_of pre + 46 + size_of (name_bytes m) + size_of rest + size_of post <= UINT32_MAX).
  { rewrite Hb, !size_of_app in Hsize. change (size_of (central_header offset m)) with 46 in Hsize. lia. }
  unfold UINT32_MAX, sizeof_LocalHeader in *. cbn [length parse_entries].
  rewrite Hb at 1. rewrite <- !app_assoc. rewrite read_object_app by (done || lia).
  rewrite read_central_header by (unfold in_u32, UINT32_MAX in *; lia). cbn [cde_signature central_of Z.eqb negb].
  rewrite Z.eqb_refl. cbn [negb cde_nameSize central_of cde_extraSize cde_commentSize].
  rewrite name_length_small by lia.
  assert (Hpos : size_of pre + sizeof_CentralDirEntry = size_of (pre ++ central_header offset m)).
  { rewrite size_of_app. done. }
  rewrite Hpos. replace b with ((pre ++ central_header offset m) ++ name_bytes m ++ rest ++ post) at 1
    by (rewrite Hb, <- !app_assoc; done).
  rewrite fread_object_app by lia. rewrite name_of_bytes, !Z.add_0_r.
  replace (u64 _) with (size_of ((pre ++ central_header offset m) ++ name_bytes m)).
  2:{ rewrite size_of_app, u64_small; [done|]. rewrite size_of_app. change (size_of (central_header offset m)) with 46. lia. }
  rewrite (IH (offset + size_of (local_file m)) _ post); [by destruct z|..|done].
  - rewrite Hb. subst rest. by rewrite <- !app_assoc.
  - unfold UINT32_MAX. done.
  - rewrite size_local_file. unfold sizeof_LocalHeader. lia.
  - rewrite size_local_file. unfold sizeof_LocalHeader, UINT32_MAX. lia.
Qed.

Lemma map_inserts {V} (l : list (string * V)) (e : stdmap string V) k :
  NoDup l.*1 →
  foldl (λ e p, <[p.1 := p.2]> e) e l !! k = match assoc_find k l with Some v => Some v | None => e !! k end.
Proof.
  revert e. induction l as [|[k0 v] l IH]; intros e; cbn [foldl assoc_find]; [done|]. intros [Hk0 Hl]%NoDup_cons.
  rewrite (IH _ Hl), sm_lookup_insert. cbn [fst snd]. destruct (decide (k = k0)) as [->|Hne].
  - rewrite decide_True by done. assert (assoc_find k0 l = None) as ->; [|done].
    clear -Hk0. induction l as [|[k v'] l IH]; [done|]. cbn [fmap list_fmap fst] in Hk0. cbn [assoc_find].
    apply not_elem_of_cons in Hk0 as [Hn Hk0]. rewrite decide_False by congruence. by apply IH.
  - by rewrite decide_False by congruence.
Qed.

Lemma assoc_find_elem {V} k (v : V) (l : list (string * V)) : assoc_find k l = Some v → k ∈ l.*1.
Proof. induction l as [|[k' w] l IH]; [done|]. cbn [assoc_find]. destruct (decide (k = k')) as [->|]; [left|right; auto]. Qed.

Lemma assoc_find_none {V} k (l : list (string * V)) : assoc_find k l = None → k ∉ l.*1.
Proof.
  induction l as [|[k' w] l IH]; cbn [assoc_find]; [intros _; apply not_elem_of_nil|].
  destruct (decide (k = k')) as [->|Hne]; [done|]. intros H%IH. by apply not_elem_of_cons.
Qed.

Lemma entries_names offset ms : (entries offset ms).*1 = map mb_name ms.
Proof. revert offset. induction ms as [|m ms IH]; intros offset; simpl; [done|]. by rewrite IH. Qed.

(** Where a member is. *)
Lemma entries_member ms m : ∀ offset, NoDup (map mb_name ms) → m ∈ ms →
  ∃ pre post, locals ms = pre ++ local_file m ++ post
    ∧ assoc_find (mb_name m) (entries offset ms) = Some (member_entry (offset + size_of pre) m).
Proof.
  induction ms as [|m0 ms IH]; intros offset Hd Hin; [by apply not_elem_of_nil in Hin|].
  cbn [map] in Hd. apply NoDup_cons in Hd as [Hn Hd]. cbn [entries assoc_find].
  destruct (decide (mb_name m = mb_name m0)) as [Heq|Hne].
  - assert (m = m0) as ->.
    { apply elem_of_cons in Hin as [?|Hin]; [done|]. exfalso. apply Hn. rewrite <- Heq. by apply list_elem_of_fmap_2. }
    exists [], (locals ms). split; [done|]. by rewrite Z.add_0_r.
  - apply elem_of_cons in Hin as [->|Hin]; [done|].
    destruct (IH (offset + size_of (local_file m0)) Hd Hin) as (pre & post & Hl & Hf).
    exists (local_file m0 ++ pre), post. split; [by rewrite locals_cons, Hl, <- app_assoc|].
    rewrite Hf, size_of_app. do 2 f_equal. lia.
Qed.

(** ** One file *)

Lemma extract_member `{Zlib} rounds b z m pre post dest :
  zf_file z = Some b → zf_fileStartPos z = 0 → zf_fileLength z = size_of b → size_of b <= UINT32_MAX →
  b = pre ++ local_file m ++ post → member_ok m → GetEntry (mb_name m) z = Some (member_entry (size_of pre) m) →
  ZipFile_ExtractFile rounds (mb_name m) z dest = Some (true, dest ++ mb_data m).
Proof.
  intros Hf Hs Hlen Hsize Hb [Hn Hc] Hg. unfold ZipFile_ExtractFile. rewrite Hg. unfold the_file. rewrite Hf. cbn [from_option id].
  pose proof (size_of_nonneg pre) as Hp0. pose proof (size_of_nonneg post) as Hq0. pose proof (size_of_nonneg (mb_data m)) as Hd0.
  assert (Hsz : size_of b = size_of pre + 30 + size_of (name_bytes m) + size_of (mb_data m) + size_of post).
  { rewrite Hb, !size_of_app, size_local_file. unfold sizeof_LocalHeader. lia. }
  unfold UINT32_MAX in *.
  assert (Hcheck : CheckCoherencyLocalHeader b z (member_entry (size_of pre) m) = Some 0).
  { unfold CheckCoherencyLocalHeader. cbn [ze_localHeaderOffset member_entry new_ZipEntry cde_localHeaderOffset central_of].
    destruct (Z.leb_spec (zf_fileLength z) (size_of pre)); [lia|]. rewrite Hs, Z.add_0_l, u64_small by lia.
    unfold local_file in Hb. rewrite Hb at 1. rewrite <- !app_assoc, read_object_app by (done || lia).
    rewrite read_local_header by (unfold in_u32, UINT32_MAX in *; lia). cbn [local_of lh_signature lh_compressionMethod lh_nameSize].
    rewrite Z.eqb_refl. cbn [negb orb ze_compressionMethod new_ZipEntry cde_compressionMethod Z.eqb andb].
    rewrite name_length_small by lia. cbn [ze_fileName]. rewrite size_of_name, Z.eqb_refl. cbn [negb].
    assert (Hpos : size_of pre + sizeof_LocalHeader = size_of (pre ++ local_header m)) by by rewrite size_of_app.
    rewrite Hpos. replace b with ((pre ++ local_header m) ++ name_bytes m ++ mb_data m ++ post) at 1
      by (rewrite Hb, <- !app_assoc; done).
    rewrite fread_object_app by (rewrite <- ?size_of_name; lia). rewrite name_of_bytes, bool_decide_true by done. cbn [negb].
    unfold CheckDataDesc. cbn [local_of lh_flags lh_crc lh_compressedSize lh_uncompressedSize lh_extraSize Z.land Z.eqb negb
      ze_crc ze_compressedSize ze_uncompressedSize cde_crc cde_compressedSize cde_uncompressedSize].
    by rewrite !Z.eqb_refl. }
  rewrite Hcheck. cbn [ze_compressionMethod member_entry new_ZipEntry cde_compressionMethod central_of Z.eqb].
  unfold UnzipWithStore, SeekToEntryStart. cbn [member_entry new_ZipEntry ze_localHeaderOffset cde_localHeaderOffset central_of ze_fileName ze_compressedSize cde_compressedSize].
  unfold GetLocalHeaderSize, sizeof_LocalHeader. rewrite <- size_of_name, Hs, !Z.add_0_r.
  rewrite !(u64_small (size_of pre + (30 + size_of (name_bytes m)))), u64_small by lia.
  destruct (Z.ltb_spec (zf_fileLength z) (size_of pre + (30 + size_of (name_bytes m)) + size_of (mb_data m))); [lia|].
  unfold fseek_fails. destruct (Z.leb_spec (2 ^ 63) (size_of pre + (30 + size_of (name_bytes m)))); [lia|].
  rewrite store_loop_all by (unfold UINT32_MAX; lia). do 3 f_equal.
  replace (size_of pre + (30 + size_of (name_bytes m))) with (size_of (pre ++ local_header m ++ name_bytes m)).
  2:{ rewrite !size_of_app. change (size_of (local_header m)) with 30. lia. }
  replace b with ((pre ++ local_header m ++ name_bytes m) ++ mb_data m ++ post)
    by (rewrite Hb; unfold local_file; rewrite <- !app_assoc; done).
  by apply fread_app.
Qed.

(** ** The whole archive *)

Lemma locals_pos ms : ms ≠ [] → 0 < size_of (locals ms).
Proof.
  destruct ms as [|m ms']; [done|]. intros _. rewrite locals_cons, size_of_app, size_local_file.
  pose proof (size_of_nonneg (name_bytes m)). pose proof (size_of_nonneg (mb_data m)). pose proof (size_of_nonneg (locals ms')).
  unfold sizeof_LocalHeader. lia.
Qed.

Lemma size_archive ms : size_of (archive ms) = size_of (locals ms) + size_of (centrals 0 ms) + 22.
Proof. unfold archive. rewrite !size_of_app. change (size_of (end_directory _ _ _)) with 22. lia. Qed.

Definition archive_end (ms : list Member) : EndDir :=
  mkEndDir EOCD_SIGNATURE 0 0 (Z.of_nat (length ms)) (Z.of_nat (length ms)) (size_of (centrals 0 ms)) (size_of (locals ms)) 0.

Lemma ParseEndDirectory_archive ms z :
  archive_ok ms → zf_fileStartPos z = 0 → zf_fileLength z = size_of (archive ms) →
  ParseEndDirectory (archive ms) z =
    (true, z <| zf_endDir := archive_end ms |> <| zf_centralDirPos := size_of (locals ms) |>).
Proof.
  intros (Hne & _ & Hcount & Hsize & _) Hs Hlen. pose proof (size_archive ms) as Hsz. pose proof (locals_pos ms Hne) as Hpos.
  pose proof (size_of_nonneg (centrals 0 ms)) as Hc0. unfold UINT32_MAX in *.
  unfold ParseEndDirectory. rewrite Hs, Hlen, Z.add_0_l. unfold sizeof_EndDir.
  destruct (Z.leb_spec (size_of (archive ms)) 22); [lia|].
  rewrite (u64_small (size_of (archive ms))), u64_small by lia.
  assert (Hr : read_object (archive ms) (size_of (archive ms) - 22) 22 =
    Some (end_directory (Z.of_nat (length ms)) (size_of (centrals 0 ms)) (size_of (locals ms)))).
  { replace (size_of (archive ms) - 22) with (size_of (locals ms ++ centrals 0 ms)) by (rewrite size_of_app; lia).
    unfold archive. rewrite (app_assoc (locals ms)), <- (app_nil_r (end_directory _ _ _)).
    apply read_object_app; [done|done|]. rewrite size_of_app. lia. }
  rewrite Hr, read_end_directory by (unfold in_u32, UINT32_MAX; lia). fold (archive_end ms). cbv zeta.
  change (ed_offset (zf_endDir (z <| zf_endDir := archive_end ms |>))) with (size_of (locals ms)).
  change (zf_fileStartPos (z <| zf_endDir := archive_end ms |>)) with (zf_fileStartPos z).
  rewrite Hs, Z.add_0_r, u64_small by lia. f_equal. unfold CheckEndDir.
  simpl. rewrite Hlen.
  destruct (Z.leb_spec (size_of (archive ms)) (size_of (locals ms))); [lia|]. rewrite !Z.eqb_refl.
  rewrite u32_id by (unfold in_u32, UINT32_MAX; lia). unfold sizeof_EndDir. rewrite u64_small by lia.
  by destruct (Z.ltb_spec (size_of (archive ms)) (size_of (locals ms) + size_of (centrals 0 ms) + 22)); [lia|].
Qed.

Lemma Open_archive content path ms :
  archive_ok ms → content path = Some (archive ms) → Z.of_nat (String.length path) <= PATH_MAX →
  ∃ z, Open content (new_ZipFile path) = (true, z) ∧ zf_file z = Some (archive ms) ∧ zf_fileStartPos z = 0
    ∧ zf_fileLength z = size_of (archive ms)
    ∧ zf_entriesMap z = foldl (λ e p, <[p.1 := p.2]> e) ∅ (entries 0 ms).
Proof.
  intros Hok Hc Hpath. unfold Open. cbn [zf_isOpen new_ZipFile zf_pathName].
  destruct (Z.ltb_spec PATH_MAX (Z.of_nat (String.length path))); [lia|]. rewrite Hc. cbn [zf_fileLength Z.eqb].
  pose proof (size_archive ms) as Hsz. pose proof (locals_pos ms (proj1 Hok)) as Hpos. pose proof (size_of_nonneg (centrals 0 ms)) as Hc0.
  set (z1 := (new_ZipFile path) <| zf_fileLength := _ |>). cbv zeta. change (zf_fileLength z1) with (size_of (archive ms)).
  change (zf_fileStartPos z1) with 0. destruct (Z.leb_spec (size_of (archive ms)) 0); [lia|]. rewrite Z.sub_0_r.
  set (z2 := z1 <| zf_fileLength := _ |>  <| zf_file := _ |>). rewrite (ParseEndDirectory_archive ms z2 Hok) by done.
  destruct Hok as (Hne & _ & Hcount & Hsize & Hms). unfold ParseAllEntries.
  set (z3 := z2 <| zf_endDir := _ |> <| zf_centralDirPos := _ |>).
  change (ed_totalEntries (zf_endDir z3)) with (Z.of_nat (length ms)). rewrite Nat2Z.id.
  change (zf_centralDirPos z3) with (size_of (locals ms)).
  erewrite (parse_centrals (archive ms) ms 0 (locals ms) (end_directory _ _ _)); [|done|done|lia|unfold UINT32_MAX in *; lia|done].
  eexists. split; [reflexivity|]. done.
Qed.

(** Opening an archive and everything that is asked of it. *)
Lemma Open_reads `{Zlib} content path ms :
  archive_ok ms → content path = Some (archive ms) → Z.of_nat (String.length path) <= PATH_MAX →
  ∃ z, Open content (new_ZipFile path) = (true, z)
    ∧ (∀ name, ZipFile_HasEntry name z = true ↔ name ∈ map mb_name ms)
    ∧ (∀ dir, ZipFile_IsDirExist dir z = true ↔ ∃ name, name ∈ map mb_name ms ∧ find_at_start dir name = true)
    ∧ ∀ m rounds dest, m ∈ ms → ZipFile_ExtractFile rounds (mb_name m) z dest = Some (true, dest ++ mb_data m).
Proof.
  intros Hok Hc Hp. destruct (Open_archive content path ms Hok Hc Hp) as (z & Ho & Hf & Hs & Hl & He).
  destruct Hok as (Hne & Hd & Hcount & Hsize & Hms). exists z. split; [done|].
  assert (Hlook : ∀ k, zf_entriesMap z !! k = assoc_find k (entries 0 ms)).
  { intros k. rewrite He, map_inserts by by rewrite entries_names. rewrite sm_lookup_empty. by destruct (assoc_find _ _). }
  assert (Hhas : ∀ name, ZipFile_HasEntry name z = true ↔ name ∈ map mb_name ms).
  { intros name. unfold ZipFile_HasEntry. rewrite Hlook. rewrite <- (entries_names 0 ms).
    destruct (assoc_find name (entries 0 ms)) as [e|] eqn:E.
    - split; [intros _|done]. by eapply assoc_find_elem.
    - split; [done|]. intros Hin. by apply assoc_find_none in E. }
  split; [done|]. split.
  - intros dir. unfold ZipFile_IsDirExist. rewrite existsb_exists. split.
    + intros ([k e] & Hin%list_elem_of_In & Hd'). exists k. split; [|done]. apply Hhas. unfold ZipFile_HasEntry.
      destruct (zf_entriesMap z !! k) eqn:E; [done|]. apply assoc_find_none in E. destruct E.
      apply list_elem_of_fmap. by exists (k, e).
    + intros (name & Hin & Hd'). apply Hhas in Hin. unfold ZipFile_HasEntry in Hin.
      destruct (zf_entriesMap z !! name) as [e|] eqn:E; [|done]. exists (name, e). split; [|done].
      apply list_elem_of_In. by apply sm_lookup_elem.
  - intros m rounds dest Hin. destruct (entries_member ms m 0 Hd Hin) as (pre & post & Hloc & Hent).
    rewrite Forall_forall in Hms.
    eapply (extract_member rounds (archive ms) z m pre); [done..| |by apply Hms|].
    + unfold archive. rewrite Hloc, <- !app_assoc. done.
    + unfold GetEntry. by rewrite Hlook, Hent.
Qed.

(** C18: What an archive of stored files holds is what is read from it.  For
    at least one and less than 65536 files, with distinct names of 1 to 255
    bytes, checksums of 32 bits and an archive of less than 4 GiB, written
    without compression, comments or extra fields and opened under a path of at most PATH_MAX
    bytes, opening it succeeds, its entries are the names of the files, and
    extracting one appends its data, all of it and nothing else. *)
Theorem archive_round_trip `{Zlib} content path ms :
  archive_ok ms → content path = Some (archive ms) → Z.of_nat (String.length path) <= PATH_MAX →
  ∃ z, Open content (new_ZipFile path) = (true, z)
    ∧ (∀ name, ZipFile_HasEntry name z = true ↔ name ∈ map mb_name ms)
    ∧ ∀ m rounds dest, m ∈ ms → ZipFile_ExtractFile rounds (mb_name m) z dest = Some (true, dest ++ mb_data m).
Proof.
  intros Hok Hc Hp. destruct (Open_reads content path ms Hok Hc Hp) as (z & Ho & Hhas & _ & Hx). by exists z.
Qed.

(** ** Whatever the file holds *)

Definition entry_ok (e : ZipEntry) : Prop :=
  in_u32 (ze_localHeaderOffset e) ∧ in_u32 (ze_compressedSize e) ∧ Z.of_nat (String.length (ze_fileName e)) < MAX_FILE_NAME.
Definition entries_ok (m : stdmap string ZipEntry) : Prop := ∀ k e, m !! k = Some e → entry_ok e.

Lemma number_u32 offset b : in_u32 (number offset 4 b).
Proof. unfold in_u32, UINT32_MAX. pose proof (number_range offset 4 b) as Hr. simpl in Hr. lia. Qed.

Lemma name_length_range n : 0 <= n → 0 <= name_length n < MAX_FILE_NAME.
Proof. unfold name_length, MAX_FILE_NAME. intros. destruct (Z.leb_spec 256 n); lia. Qed.

Lemma fread_object_size b pos n r : fread_object b pos n = Some r → size_of r = n.
Proof. unfold fread_object. destruct (_ && _) eqn:E; [|done]. intros [= <-]. by apply andb_prop in E as [_ ->%Z.eqb_eq]. Qed.

Lemma length_string_of_bytes r : Z.of_nat (String.length (String.string_of_list_ascii r)) = size_of r.
Proof. unfold size_of. f_equal. induction r as [|c r IH]; simpl; congruence. Qed.

Lemma parse_entries_ok b rounds : ∀ pos z, entries_ok (zf_entriesMap z) →
  let z' := (parse_entries b rounds pos z).2 in
  entries_ok (zf_entriesMap z') ∧ zf_file z' = zf_file z ∧ zf_fileStartPos z' = zf_fileStartPos z
  ∧ zf_fileLength z' = zf_fileLength z.
Proof.
  cbv zeta. induction rounds as [|rounds IH]; intros pos z Hz; [done|]. cbn [parse_entries].
  destruct (read_object b pos sizeof_CentralDirEntry) as [r|]; [|done]. destruct (negb _); [done|].
  destruct (fread_object _ _ _) as [name|] eqn:Hname; [|done].
  match goal with |- context [parse_entries b rounds ?q ?w] => cut (entries_ok (zf_entriesMap w)); [exact (IH q w)|] end.
  intros k e. simpl. rewrite sm_lookup_insert.
  case_decide; [|apply Hz]. intros [= <-]. split_and!; [apply number_u32..|]. simpl.
  rewrite length_string_of_bytes, (fread_object_size _ _ _ _ Hname). apply name_length_range. apply number_range.
Qed.

Lemma Open_any content path :
  let '(_, z) := Open content (new_ZipFile path) in
  entries_ok (zf_entriesMap z) ∧ zf_fileStartPos z = 0 ∧
  (zf_entriesMap z = ∅ ∨ ∃ b, content path = Some b ∧ zf_file z = Some b ∧ zf_fileLength z = size_of b).
Proof.
  assert (Hnone : ∀ z, zf_entriesMap z = ∅ → zf_fileStartPos z = 0 →
    entries_ok (zf_entriesMap z) ∧ zf_fileStartPos z = 0 ∧
    (zf_entriesMap z = ∅ ∨ ∃ b, content path = Some b ∧ zf_file z = Some b ∧ zf_fileLength z = size_of b)).
  { intros z -> ->. split; [intros k e; by rewrite sm_lookup_empty|]. split; [done|by left]. }
  unfold Open. cbn [zf_isOpen new_ZipFile zf_pathName]. destruct (PATH_MAX <? _); [by apply Hnone|].
  destruct (content path) as [b|]; [|by apply Hnone]. cbv zeta. cbn [zf_fileLength Z.eqb].
  set (z1 := (new_ZipFile path) <| zf_fileLength := _ |>). destruct (_ <=? _); [by apply Hnone|].
  set (z2 := z1 <| zf_fileLength := _ |> <| zf_file := _ |>).
  assert (Hz2 : zf_entriesMap z2 = ∅ ∧ zf_file z2 = Some b ∧ zf_fileStartPos z2 = 0 ∧ zf_fileLength z2 = size_of b).
  { split_and!; try done. simpl. lia. }
  clearbody z2. destruct (ParseEndDirectory b z2) as [ok z3] eqn:HP.
  assert (Hz3 : zf_entriesMap z3 = ∅ ∧ zf_file z3 = Some b ∧ zf_fileStartPos z3 = 0 ∧ zf_fileLength z3 = size_of b).
  { unfold ParseEndDirectory in HP. destruct (_ <=? _); [by injection HP as _ <-|].
    destruct (read_object _ _ _); injection HP as _ <-; done. }
  destruct Hz3 as (He & Hf & Hs & Hl). destruct ok; [|by apply Hnone].
  pose proof (parse_entries_ok b (Z.to_nat (ed_totalEntries (zf_endDir z3))) (zf_centralDirPos z3) z3) as Hp. cbv zeta in Hp.
  unfold ParseAllEntries. destruct (parse_entries _ _ _ _) as [ok z4]. simpl in Hp |- *.
  destruct Hp as (Hok & Hf4 & Hs4 & Hl4); [rewrite He; intros k e; by rewrite sm_lookup_empty|]. split; [done|]. split; [congruence|]. right. exists b. split_and!; congruence.
Qed.

Lemma CheckCoherency_extra b z e extra : CheckCoherencyLocalHeader b z e = Some extra → 0 <= extra < 65536.
Proof.
  unfold CheckCoherencyLocalHeader. destruct (_ <=? _); [done|]. destruct (read_object _ _ _) as [r|]; [|done].
  repeat (match goal with |- (if ?c then None else _) = _ → _ => destruct c; [done|] end).
  destruct (fread_object _ _ _); [|done].
  repeat (match goal with |- (if ?c then None else _) = _ → _ => destruct c; [done|] end).
  intros [= <-]. apply (number_range 28 2 r).
Qed.

(** C19: Whatever bytes a file holds, extracting a stored entry copies one
    piece of that file: as many bytes as the entry says, from behind the local
    header to at most the end of the file. *)
Theorem extracted_within `{Zlib} content path b name rounds dest dest' z e :
  content path = Some b → size_of b < 2 ^ 62 → (Open content (new_ZipFile path)).2 = z →
  GetEntry name z = Some e → ze_compressionMethod e = 0 →
  ZipFile_ExtractFile rounds name z dest = Some (true, dest') →
  ∃ pos, dest' = dest ++ fread b pos (ze_compressedSize e)
    ∧ size_of (fread b pos (ze_compressedSize e)) = ze_compressedSize e
    ∧ ze_localHeaderOffset e + sizeof_LocalHeader <= pos ∧ pos + ze_compressedSize e <= size_of b.
Proof.
  intros Hc Hb Ho Hg Hm. pose proof (Open_any content path) as Hany. destruct (Open content (new_ZipFile path)) as [r z'].
  simpl in Ho. subst z'. destruct Hany as (Hok & Hs & [He|(b' & Hb' & Hf & Hl)]).
  { unfold GetEntry in Hg. by rewrite He, sm_lookup_empty in Hg. }
  rewrite Hc in Hb'. injection Hb' as <-. destruct (Hok _ _ Hg) as (Hoff & Hcs & Hname).
  unfold ZipFile_ExtractFile. rewrite Hg. unfold the_file. rewrite Hf. cbn [from_option id].
  destruct (CheckCoherencyLocalHeader b z e) as [extra|] eqn:Hx; [|done]. apply CheckCoherency_extra in Hx.
  rewrite Hm. cbn [Z.eqb]. unfold UnzipWithStore, SeekToEntryStart, GetLocalHeaderSize, in_u32, UINT32_MAX, MAX_FILE_NAME, sizeof_LocalHeader in *.
  set (pos := ze_localHeaderOffset e + _). assert (Hpos : 30 <= pos < 2 ^ 40) by (subst pos; lia).
  rewrite !(u64_small pos), Hs, Z.add_0_r, !(u64_small pos), u64_small by lia. rewrite Hl.
  destruct (Z.ltb_spec (size_of b) (pos + ze_compressedSize e)); [done|].
  unfold fseek_fails. destruct (Z.leb_spec (2 ^ 63) pos); [done|].
  rewrite store_loop_all by (unfold UINT32_MAX; lia). intros [= <-]. exists pos.
  split; [done|]. rewrite size_of_fread by lia. subst pos. lia.
Qed.

(** ** An example *)

Definition no_zlib : Zlib :=
  {| zstream := (); init_zstream := None; inflate := λ _ _, ((), 0, false, [], []); inflateEnd := λ _, 0 |}.

(** Stored files with these names and texts, whose checksums nothing looks at. *)
Definition stored (files : list (string * string)) : list Member :=
  map (λ f, mkMember f.1 (String.list_ascii_of_string f.2) 0) files.
Definition one_path (path : string) (b : bytes) : string → option bytes := λ p, if decide (p = path) then Some b else None.

(** A check of [archive_ok] that computes. *)
Definition archive_check (ms : list Member) : bool :=
  bool_decide (ms ≠ []) && bool_decide (NoDup (map mb_name ms)) && (Z.of_nat (length ms) <? 65536)
  && (size_of (archive ms) <=? UINT32_MAX)
  && forallb (λ m, (0 <? size_of (name_bytes m)) && (size_of (name_bytes m) <? MAX_FILE_NAME)
                   && (0 <=? mb_crc m) && (mb_crc m <=? UINT32_MAX)) ms.

Lemma archive_check_ok ms : archive_check ms = true → archive_ok ms.
Proof.
  unfold archive_check, archive_ok. intros ((((H1%bool_decide_eq_true & H2%bool_decide_eq_true)%andb_prop & H3%Z.ltb_lt)%andb_prop
    & H4%Z.leb_le)%andb_prop & H5)%andb_prop. split_and!; [done..|]. apply Forall_forall. intros m Hm%list_elem_of_In.
  rewrite forallb_forall in H5. apply H5 in Hm. unfold in_u32. rewrite !andb_true_iff, !Z.leb_le, !Z.ltb_lt in Hm. tauto.
Qed.

Lemma archive_round_trip_witness :
  let ms := stored [("module.json", "{}"); ("ets/Main.abc", "code")] in
  ∃ z, Open (one_path "/a.hap" (archive ms)) (new_ZipFile "/a.hap") = (true, z)
    ∧ @ZipFile_ExtractFile no_zlib 0 "ets/Main.abc" z [] = Some (true, String.list_ascii_of_string "code").
Proof.
  cbv zeta. set (ms := stored _).
  destruct (@archive_round_trip no_zlib (one_path "/a.hap" (archive ms)) "/a.hap" ms) as (z & Ho & _ & Hx);
    [by apply archive_check_ok; vm_compute|by unfold one_path; rewrite decide_True|by vm_compute|].
  exists z. split; [done|]. apply (Hx (mkMember "ets/Main.abc" (String.list_ascii_of_string "code") 0) 0%nat []).
  right. left.
Defined.

Lemma extracted_within_witness :
  let b := archive (stored [("module.json", "{}")]) in
  let z := (Open (one_path "/a.hap" b) (new_ZipFile "/a.hap")).2 in
  match GetEntry "module.json" z with
  | Some e => ∃ pos, String.list_ascii_of_string "{}" = fread b pos (ze_compressedSize e) ∧ pos + ze_compressedSize e <= size_of b
  | None => False
  end.
Proof.
  cbv zeta. set (b := archive _). set (z := (Open _ _).2). destruct (GetEntry "module.json" z) as [e|] eqn:He; [|by vm_compute in He].
  assert (ze_compressionMethod e = 0) as Hm.
  { apply (f_equal (λ o, default 0 (ze_compressionMethod <$> o))) in He. by vm_compute in He. }
  destruct (@extracted_within no_zlib (one_path "/a.hap" b) "/a.hap" b "module.json" 0%nat [] (String.list_ascii_of_string "{}") z e)
    as (pos & Hd & _ & _ & Hend); [by unfold one_path; rewrite decide_True|by vm_compute|done|done|done|by vm_compute|].
  by exists pos.
Defined.
