(* ===== verification/BundleParser.v ===== *)
(** * BundleParser: from the file of a bundle to its description

    services/bundlemgr/src/bundle_parser.cpp, with the decoder of the system
    capabilities (src/rpcid_decode/syscap_tool.c), the lists of the
    pre-installed bundles (src/pre_bundle_profile.cpp) and the default
    permissions (src/default_permission_profile.cpp).  The std::set of
    PreScanInfo is left out: its [operator<] is no strict order, and what a
    std::set makes of that is not defined. *)

From stdpp Require Import strings list.
From S2P Require Import Prelude Strings StdMap BundleTypes Errors Json InfoJson PackJson Skill InnerBundleInfo Parcel InstallInfo Profile.
From S2P Require Import BundleProfile ModuleProfile.
From S2P Require Import ZipFile.
From Stdlib Require Import Ascii.

Open Scope string_scope.
Open Scope list_scope.
Open Scope Z_scope.

(** ** syscap_tool.c *)

Definition API_VERSION_TYPE : Z := 1.
Definition APP_SYSCAP_TYPE : Z := 2.
Definition SYSCAP_PREFIX_NAME : string := "SystemCapability.".
Definition sizeof_RPCIDHead : Z := 2.
Definition SINGLE_FEAT_LENGTH : Z := 256.
Definition SINGLE_SYSCAP_LENGTH : Z := SINGLE_FEAT_LENGTH + 17.

(** [ntohs] of the two bytes at [offset]. *)
Definition ntohs_at (offset : nat) (b : bytes) : Z := le (reverse (take 2 (drop offset b))).

(** A C string: the bytes in front of the first NUL. *)
Fixpoint c_string (b : bytes) : bytes :=
  match b with
  | [] => []
  | c :: b' => if decide (c = Ascii.zero) then [] else c :: c_string b'
  end.

(** A buffer of [n] bytes, zero behind [b]. *)
Definition zero_filled (n : Z) (b : bytes) : bytes := b ++ replicate (Z.to_nat n - length b) Ascii.zero.

(** The loop over the features: the prefix and the feature, SINGLE_SYSCAP_LENGTH
    bytes for each.  [None] is ERROR. *)
Fixpoint decode_features (count : nat) (sysCapArray : bytes) : option bytes :=
  match count with
  | O => Some []
  | S count =>
      let feature := fread sysCapArray 0 SINGLE_FEAT_LENGTH in
      if negb (bool_decide (last feature = Some Ascii.zero)) then None
      else
        rest ← decode_features count (drop (Z.to_nat SINGLE_FEAT_LENGTH) sysCapArray);
        Some (zero_filled SINGLE_SYSCAP_LENGTH (String.list_ascii_of_string SYSCAP_PREFIX_NAME ++ c_string feature) ++ rest)
  end.

(** The buffer and its length; [None] is ERROR.  [apiVersionType] is the
    highest of the 16 bits of the head, which is read as it lies in memory. *)
Definition RPCIDStreamDecodeToBuffer (contextBuffer : bytes) : option (bytes * Z) :=
  let bufferLen := size_of contextBuffer in
  let sysCapArrayOff := sizeof_RPCIDHead + APP_SYSCAP_TYPE * 2 in
  if bufferLen <=? sysCapArrayOff then None
  else if negb (number 0 2 contextBuffer / 2 ^ 15 =? API_VERSION_TYPE) then None
  else
    let sysCaptype := ntohs_at 2 contextBuffer in
    if negb (sysCaptype =? APP_SYSCAP_TYPE) then None
    else
      let sysCapLength := ntohs_at 4 contextBuffer in
      if bufferLen <? sysCapArrayOff + sysCapLength then None
      else if negb (sysCapLength mod SINGLE_FEAT_LENGTH =? 0) then None
      else
        let syscapBufLen := sysCapLength / SINGLE_FEAT_LENGTH * SINGLE_SYSCAP_LENGTH in
        syscapBuf ← decode_features (Z.to_nat (sysCapLength / SINGLE_FEAT_LENGTH)) (drop (Z.to_nat sysCapArrayOff) contextBuffer);
        Some (syscapBuf, syscapBufLen).

(** ** bundle_parser.cpp *)

(** What a C++ string makes of the bytes of a stream. *)
Definition text (b : bytes) : string := String.string_of_list_ascii b.

(** The loop of [ParseStr]: strncpy_s fails when there is no NUL in the
    [itemLen] bytes. *)
Fixpoint parse_items (rounds : nat) (buf : bytes) (itemLen totalLen : Z) (sysCaps : list string) : bool * list string :=
  match rounds with
  | O => (true, sysCaps)
  | S rounds =>
      if totalLen <? itemLen then (true, sysCaps)
      else
        let item := c_string (fread buf 0 itemLen) in
        if size_of item =? itemLen then (false, sysCaps)
        else parse_items rounds (drop (Z.to_nat itemLen) buf) itemLen (totalLen - itemLen) (sysCaps ++ [text item])
  end.

Definition ParseStr (buf : bytes) (itemLen totalLen : Z) (sysCaps : list string) : bool * list string :=
  if (itemLen <=? 0) || (totalLen <=? 0) then (false, sysCaps)
  else parse_items (Z.to_nat totalLen) buf itemLen totalLen sysCaps.

Definition SYSCAP_NAME : string := "rpcid.sc".
Definition INSTALL_LIST_PERMISSIONS_FILE_PATH : string := "/system/etc/permission/install_list_permissions.json".

(** The files: [content] is what is under a path that can be opened. *)
Section Files.
Context `{HX : JsonText} `{HZ : Zlib} `{HD : DeviceParameters} `{HU : Uninit}.
Context (content : string → option bytes) (rounds : nat).

Definition ReadFileIntoJson (filePath : string) : option json :=
  match content filePath with
  | None => None
  | Some b => if size_of b <=? 0 then None else parse (text b)
  end.

(** The loop of [Parse] over the abilities of a config.json. *)
Definition mark_stage_model (stage_based : string → bool) (i : InnerBundleInfo) : InnerBundleInfo :=
  let marked := map_values (λ _ info, info <| ai_isStageBasedModel := stage_based (ai_name info) |>)
                  (ib_baseAbilityInfos i) in
  i <| ib_baseAbilityInfos := marked |>
    <| ib_innerModuleInfos ::= λ modules, foldl (λ modules info,
         match modules !! ai_package info with
         | Some m => <[ai_package info := m <| im_isStageBasedModel := ai_isStageBasedModel info |>]> modules
         | None => modules
         end) modules (sm_vals marked) |>.

(** [None] also when the inflating is not done after [rounds] rounds. *)
Definition lift {A} (o : option A) : M A := λ s, match o with Some x => Some (x, s) | None => None end.

Definition Parse (pathName : string) (innerBundleInfo : InnerBundleInfo) : M (Z * InnerBundleInfo) :=
  let '(ok, bundleExtractor) := Init content (new_BundleExtractor pathName) in
  if negb ok then mret (ERR_APPEXECFWK_PARSE_UNEXPECTED, innerBundleInfo)
  else
    extracted ← lift (ExtractProfile rounds bundleExtractor []);
    let '(ok, outStream) := extracted in
    if negb ok then mret (ERR_APPEXECFWK_PARSE_NO_PROFILE, innerBundleInfo)
    else if IsNewVersion bundleExtractor then
      ModuleProfile.TransformTo (text outStream) (IsDirExist bundleExtractor) (innerBundleInfo <| ib_isNewVersion := true |>)
    else
      transformed ← BundleProfile.TransformTo (text outStream) (IsDirExist bundleExtractor)
                      (innerBundleInfo <| ib_isNewVersion := false |>);
      let '(ret, i) := transformed in
      mret (if negb (ret =? ERR_OK) then (ret, i) else (ERR_OK, mark_stage_model (IsStageBasedModel bundleExtractor) i)).

Definition ParsePackInfo (pathName : string) (bundlePackInfo : BundlePackInfo) : M (Z * BundlePackInfo) :=
  let '(ok, bundleExtractor) := Init content (new_BundleExtractor pathName) in
  if negb ok then mret (ERR_APPEXECFWK_PARSE_UNEXPECTED, bundlePackInfo)
  else if negb (HasEntry BUNDLE_PACKFILE_NAME bundleExtractor) then mret (ERR_OK, bundlePackInfo)
  else
    extracted ← lift (ExtractPackFile rounds bundleExtractor []);
    let '(ok, outStream) := extracted in
    if negb ok then mret (ERR_APPEXECFWK_PARSE_NO_PROFILE, bundlePackInfo)
    else BundleProfile.TransformTo_pack (text outStream) bundlePackInfo.

(** The code and the capabilities.  [tellp] is an [int32_t]. *)
Definition ParseSysCap (pathName : string) (sysCaps : list string) : option (Z * list string) :=
  let '(ok, bundleExtractor) := Init content (new_BundleExtractor pathName) in
  if negb ok then Some (ERR_APPEXECFWK_PARSE_UNEXPECTED, sysCaps)
  else if negb (HasEntry SYSCAP_NAME bundleExtractor) then Some (ERR_OK, sysCaps)
  else
    '(ok, rpcidStream) ← ExtractByName rounds SYSCAP_NAME bundleExtractor [];
    if negb ok then Some (ERR_APPEXECFWK_PARSE_RPCID_FAILED, sysCaps)
    else
      let rpcidLen := i32 (size_of rpcidStream) in
      if rpcidLen <? 0 then Some (ERR_APPEXECFWK_PARSE_UNEXPECTED, sysCaps)
      else
        match RPCIDStreamDecodeToBuffer (fread rpcidStream 0 rpcidLen) with
        | None => Some (ERR_APPEXECFWK_PARSE_RPCID_FAILED, sysCaps)
        | Some (outBuffer, outLen) =>
            let '(ok, sysCaps) := ParseStr outBuffer SINGLE_SYSCAP_LENGTH outLen sysCaps in
            Some (if negb ok then ERR_APPEXECFWK_PARSE_RPCID_FAILED else ERR_OK, sysCaps)
        end.
End Files.

(** ** pre_bundle_profile.cpp *)

Record PreBundleConfigInfo := mkPreBundleConfigInfo {
  pbc_bundleName : string;
  pbc_systemapi : bool;
  pbc_keepAlive : bool;
  pbc_singleton : bool;
  pbc_userDataClearable : bool;
  pbc_multiProcess : bool;
  pbc_bootable : bool;
  pbc_notification : bool;
  pbc_hideDesktopIcon : bool;
  pbc_queryPriority : bool;
  pbc_startStaticBroadcast : bool;
  pbc_startGuiAbilityBackground : bool;
}.
#[export] Instance eta_PreBundleConfigInfo : Eta PreBundleConfigInfo := λ r,
  mkPreBundleConfigInfo (pbc_bundleName r) (pbc_systemapi r) (pbc_keepAlive r) (pbc_singleton r) (pbc_userDataClearable r)
    (pbc_multiProcess r) (pbc_bootable r) (pbc_notification r) (pbc_hideDesktopIcon r) (pbc_queryPriority r)
    (pbc_startStaticBroadcast r) (pbc_startGuiAbilityBackground r).

(** [Reset], and the default member values. *)
Definition new_PreBundleConfigInfo : PreBundleConfigInfo :=
  mkPreBundleConfigInfo "" false false false false false false false false false false false.

(** The twelve fields of one element, with a [parseResult] of its own. *)
Definition PreBundleConfigInfo_fields (array : json) : PreBundleConfigInfo → M PreBundleConfigInfo := λ x,
  let flag key (set : bool → PreBundleConfigInfo → PreBundleConfigInfo) :=
    GetValueIfFindKey LOCAL array key get_bool BOOLEAN false NOT_ARRAY set in
  x ← GetValueIfFindKey LOCAL array "bundleName" get_string STRING true NOT_ARRAY (λ t x, x <| pbc_bundleName := t |>) x;
  x ← flag "systemapi" (λ t x, x <| pbc_systemapi := t |>) x;
  x ← flag "keepAlive" (λ t x, x <| pbc_keepAlive := t |>) x;
  x ← flag "singleton" (λ t x, x <| pbc_singleton := t |>) x;
  x ← flag "userDataClearable" (λ t x, x <| pbc_userDataClearable := t |>) x;
  x ← flag "multiProcess" (λ t x, x <| pbc_multiProcess := t |>) x;
  x ← flag "bootable" (λ t x, x <| pbc_bootable := t |>) x;
  x ← flag "notification" (λ t x, x <| pbc_notification := t |>) x;
  x ← flag "hideDesktopIcon" (λ t x, x <| pbc_hideDesktopIcon := t |>) x;
  x ← flag "queryPriority" (λ t x, x <| pbc_queryPriority := t |>) x;
  x ← flag "startStaticBroadcast" (λ t x, x <| pbc_startStaticBroadcast := t |>) x;
  flag "startGuiAbilityBackground" (λ t x, x <| pbc_startGuiAbilityBackground := t |>) x.

(** The set of the configurations; they are ordered by their bundle names. *)
Abbreviation ConfigSet := (stdmap string PreBundleConfigInfo).

Fixpoint config_loop (arrays : list json) (preBundleConfigInfos : ConfigSet) : M (Z * ConfigSet) :=
  match arrays with
  | [] => mret (ERR_OK, preBundleConfigInfos)
  | array :: arrays' =>
      if negb (is_object array) then mret (ERR_APPEXECFWK_PARSE_PROFILE_PROP_TYPE_ERROR, preBundleConfigInfos)
      else
        read ← with_local (PreBundleConfigInfo_fields array new_PreBundleConfigInfo);
        let '(preBundleConfigInfo, parseResult) := read in
        if parseResult =? ERR_APPEXECFWK_PARSE_PROFILE_MISSING_PROP then config_loop arrays' preBundleConfigInfos
        else if negb (parseResult =? ERR_OK) then mret (parseResult, preBundleConfigInfos)
        else config_loop arrays' (emplace (pbc_bundleName preBundleConfigInfo) preBundleConfigInfo preBundleConfigInfos)
  end.

Definition TransformTo_configs (jsonBuf : json) (preBundleConfigInfos : ConfigSet) : M (Z * ConfigSet) :=
  match jsonBuf with
  | JArray [] => mret (ERR_APPEXECFWK_PARSE_PROFILE_PROP_TYPE_ERROR, preBundleConfigInfos)
  | JArray arrays => config_loop arrays preBundleConfigInfos
  | _ => mret (ERR_APPEXECFWK_PARSE_PROFILE_PROP_TYPE_ERROR, preBundleConfigInfos)
  end.

Definition TransformTo_names (jsonBuf : json) (bundleNames : stdmap string ()) : M (Z * stdmap string ()) :=
  read ← with_local (GetValueIfFindKey LOCAL jsonBuf "uninstall_list" (get_vector get_string) ARRAY false STRINGS (λ t _, t) []);
  let '(names, parseResult) := read in
  mret (parseResult, foldl (λ set name, emplace name () set) bundleNames names).

(** ** default_permission_profile.cpp *)

Record PermissionInfo := mkPermissionInfo { pi_name : string; pi_userCancellable : bool }.
#[export] Instance eta_PermissionInfo : Eta PermissionInfo := λ r, mkPermissionInfo (pi_name r) (pi_userCancellable r).
Record DefaultPermission := mkDefaultPermission { dp_bundleName : string; dp_grantPermission : list PermissionInfo }.
#[export] Instance eta_DefaultPermission : Eta DefaultPermission := λ r,
  mkDefaultPermission (dp_bundleName r) (dp_grantPermission r).

(** The thread's [parseResult] of this file is the [LOCAL] variable.  The flag
    is a boolean of the file that goes through a [uint32_t]. *)
Definition PermissionInfo_from_json (jsonObject : json) (x : PermissionInfo) : M PermissionInfo :=
  x ← GetValueIfFindKey LOCAL jsonObject "name" get_string STRING true NOT_ARRAY (λ t x, x <| pi_name := t |>) x;
  GetValueIfFindKey LOCAL jsonObject "userCancellable" get_uint32 BOOLEAN true NOT_ARRAY
    (λ t x, x <| pi_userCancellable := negb (t =? 0) |>) x.
Definition get_PermissionInfo : json → M PermissionInfo := get_part (mkPermissionInfo "" false) PermissionInfo_from_json.

Fixpoint permission_loop (objects : list json) (defaultPermissions : list DefaultPermission) : M (Z * list DefaultPermission) :=
  match objects with
  | [] => mret (ERR_OK, defaultPermissions)
  | object :: objects' =>
      if negb (is_object object) then mret (ERR_APPEXECFWK_PARSE_PROFILE_PROP_TYPE_ERROR, defaultPermissions)
      else
        x ← GetValueIfFindKey LOCAL object "bundleName" get_string STRING true NOT_ARRAY
              (λ t x, x <| dp_bundleName := t |>) (mkDefaultPermission "" []);
        x ← GetValueIfFindKey LOCAL object "permissions" (get_vector get_PermissionInfo) ARRAY false OBJECTS
              (λ t x, x <| dp_grantPermission := t |>) x;
        parseResult ← read_var LOCAL;
        if negb (parseResult =? ERR_OK) then
          _ ← write_var LOCAL ERR_OK;
          mret (parseResult, defaultPermissions)
        else permission_loop objects' (defaultPermissions ++ [x])
  end.

Definition TransformTo_permissions (jsonObject : json) (defaultPermissions : list DefaultPermission)
  : M (Z * list DefaultPermission) :=
  match jsonObject with
  | JArray objects => permission_loop objects defaultPermissions
  | _ => mret (ERR_OK, defaultPermissions)
  end.

(** ** The configuration files in bundle_parser.cpp *)

Section ConfigFiles.
Context `{HX : JsonText}.
Context (content : string → option bytes).

Definition ParsePreUnInstallConfig (configFile : string) (bundleNames : stdmap string ()) : M (Z * stdmap string ()) :=
  match ReadFileIntoJson content configFile with
  | None => mret (ERR_APPEXECFWK_PARSE_FILE_FAILED, bundleNames)
  | Some jsonBuf => TransformTo_names jsonBuf bundleNames
  end.

Definition ParsePreInstallAbilityConfig (configFile : string) (preBundleConfigInfos : ConfigSet) : M (Z * ConfigSet) :=
  match ReadFileIntoJson content configFile with
  | None => mret (ERR_APPEXECFWK_PARSE_FILE_FAILED, preBundleConfigInfos)
  | Some jsonBuf => TransformTo_configs jsonBuf preBundleConfigInfos
  end.

Definition ParseDefaultPermission (defaultPermissions : list DefaultPermission) : M (Z * list DefaultPermission) :=
  match ReadFileIntoJson content INSTALL_LIST_PERMISSIONS_FILE_PATH with
  | None => mret (ERR_APPEXECFWK_PARSE_FILE_FAILED, defaultPermissions)
  | Some jsonBuf => TransformTo_permissions jsonBuf defaultPermissions
  end.
End ConfigFiles.

(** * The system capabilities of a file *)

(** What rpcid.sc looks like for some capabilities: the head with an API
    version, the type and the length with the high byte first, and 256 bytes
    for each. *)
Definition be16 (v : Z) : bytes := reverse (le_bytes 2 v).
Definition feature_bytes (cap : string) : bytes := zero_filled SINGLE_FEAT_LENGTH (String.list_ascii_of_string cap).
Definition rpcid (apiVersion : Z) (caps : list string) : bytes :=
  le_bytes 2 (2 ^ 15 + apiVersion) ++ be16 APP_SYSCAP_TYPE ++ be16 (256 * Z.of_nat (length caps))
  ++ concat (map feature_bytes caps).

(** A name that fits with its NUL. *)
Definition cap_ok (cap : string) : Prop :=
  Z.of_nat (String.length cap) < SINGLE_FEAT_LENGTH ∧ str_forall (λ c, negb (bool_decide (c = Ascii.zero))) cap = true.

Lemma c_string_zeros s n : str_forall (λ c, negb (bool_decide (c = Ascii.zero))) s = true →
  c_string (String.list_ascii_of_string s ++ replicate n Ascii.zero) = String.list_ascii_of_string s.
Proof.
  induction s as [|c s IH]; simpl; [by destruct n|]. intros [Hc Hs]%andb_prop. apply negb_true_iff, bool_decide_eq_false in Hc.
  rewrite decide_False by done. f_equal. by apply IH.
Qed.

Lemma length_ascii s : length (String.list_ascii_of_string s) = String.length s.
Proof. induction s; simpl; congruence. Qed.

Lemma text_of_string s : text (String.list_ascii_of_string s) = s.
Proof. apply String.string_of_list_ascii_of_string. Qed.

Lemma length_zero_filled n b : Z.of_nat (length b) <= n → size_of (zero_filled n b) = n.
Proof. intros Hn. unfold size_of, zero_filled. rewrite length_app, length_replicate. lia. Qed.

Lemma last_zero_filled (n : Z) (b : bytes) : Z.of_nat (length b) < n → last (zero_filled n b) = Some Ascii.zero.
Proof.
  intros Hn. unfold zero_filled. replace (Z.to_nat n - length b)%nat with (S (Z.to_nat n - length b - 1)) by lia.
  rewrite replicate_S_end, app_assoc. apply last_snoc.
Qed.

(** One item of the buffer is read back, and the rest of the buffer follows. *)
Lemma fread_head b rest n : size_of b = n → fread (b ++ rest) 0 n = b ∧ drop (Z.to_nat n) (b ++ rest) = rest.
Proof.
  intros <-. unfold fread, size_of. rewrite Nat2Z.id. change (drop (Z.to_nat 0) (b ++ rest)) with (b ++ rest).
  by rewrite take_app_length, drop_app_length.
Qed.

Definition syscap_item (cap : string) : bytes :=
  zero_filled SINGLE_SYSCAP_LENGTH (String.list_ascii_of_string (SYSCAP_PREFIX_NAME +:+ cap)).

Lemma list_ascii_append s t : String.list_ascii_of_string (s +:+ t) = String.list_ascii_of_string s ++ String.list_ascii_of_string t.
Proof. induction s as [|c s IH]; [done|]. simpl. by f_equal. Qed.

Lemma decode_features_ok caps : Forall cap_ok caps →
  decode_features (length caps) (concat (map feature_bytes caps)) = Some (concat (map syscap_item caps)).
Proof.
  induction 1 as [|cap caps [Hlen Hnul] Hcaps IH]; [done|]. cbn [length map concat decode_features].
  pose proof (length_ascii cap) as Hl.
  destruct (fread_head (feature_bytes cap) (concat (map feature_bytes caps)) SINGLE_FEAT_LENGTH) as [-> ->].
  { apply length_zero_filled. lia. }
  assert (last (feature_bytes cap) = Some Ascii.zero) as -> by (apply last_zero_filled; lia).
  rewrite bool_decide_true by done. cbn [negb]. rewrite IH. cbn [mbind option_bind].
  assert (c_string (feature_bytes cap) = String.list_ascii_of_string cap) as -> by (by apply c_string_zeros).
  unfold syscap_item. by rewrite list_ascii_append.
Qed.

Lemma str_forall_append P s t : str_forall P (s +:+ t) = str_forall P s && str_forall P t.
Proof. induction s as [|c s IH]; simpl; [done|]. by rewrite IH, andb_assoc. Qed.

Lemma length_append s t : String.length (s +:+ t) = (String.length s + String.length t)%nat.
Proof. induction s as [|c s IH]; [done|]. simpl. by f_equal. Qed.

Lemma size_syscap_item cap : cap_ok cap → size_of (syscap_item cap) = SINGLE_SYSCAP_LENGTH.
Proof.
  intros [Hlen _]. apply length_zero_filled. rewrite length_ascii, length_append. unfold SINGLE_SYSCAP_LENGTH, SINGLE_FEAT_LENGTH in *.
  change (String.length SYSCAP_PREFIX_NAME) with 17%nat. lia.
Qed.

Lemma parse_items_ok caps : Forall cap_ok caps → ∀ rounds sysCaps, (length caps <= rounds)%nat →
  parse_items rounds (concat (map syscap_item caps)) SINGLE_SYSCAP_LENGTH (Z.of_nat (length caps) * SINGLE_SYSCAP_LENGTH) sysCaps
  = (true, sysCaps ++ map (λ cap, SYSCAP_PREFIX_NAME +:+ cap) caps).
Proof.
  induction 1 as [|cap caps Hcap Hcaps IH]; intros rounds sysCaps Hr.
  { destruct rounds; simpl; by rewrite app_nil_r. }
  destruct rounds as [|rounds]; [simpl in Hr; lia|]. cbn [length map concat parse_items].
  destruct (Z.ltb_spec (Z.of_nat (S (length caps)) * SINGLE_SYSCAP_LENGTH) SINGLE_SYSCAP_LENGTH) as [Hlt|_].
  { unfold SINGLE_SYSCAP_LENGTH, SINGLE_FEAT_LENGTH in Hlt. lia. }
  destruct (fread_head (syscap_item cap) (concat (map syscap_item caps)) SINGLE_SYSCAP_LENGTH) as [-> ->]; [by apply size_syscap_item|].
  destruct Hcap as [Hlen Hnul].
  assert (c_string (syscap_item cap) = String.list_ascii_of_string (SYSCAP_PREFIX_NAME +:+ cap)) as ->.
  { apply c_string_zeros. rewrite str_forall_append. apply andb_true_intro. split; [done|exact Hnul]. }
  destruct (Z.eqb_spec (size_of (String.list_ascii_of_string (SYSCAP_PREFIX_NAME +:+ cap))) SINGLE_SYSCAP_LENGTH) as [He|_].
  { unfold size_of in He. rewrite length_ascii, length_append in He. change (String.length SYSCAP_PREFIX_NAME) with 17%nat in He.
    unfold SINGLE_SYSCAP_LENGTH, SINGLE_FEAT_LENGTH in *. lia. }
  rewrite text_of_string.
  replace (Z.of_nat (S (length caps)) * SINGLE_SYSCAP_LENGTH - SINGLE_SYSCAP_LENGTH)
    with (Z.of_nat (length caps) * SINGLE_SYSCAP_LENGTH) by lia.
  rewrite IH by (simpl in Hr; lia). by rewrite <- app_assoc.
Qed.

Lemma size_features caps : Forall cap_ok caps → size_of (concat (map feature_bytes caps)) = 256 * Z.of_nat (length caps).
Proof.
  induction 1 as [|cap caps [Hlen _] _ IH]; [done|]. cbn [map concat length]. rewrite size_of_app, IH.
  unfold feature_bytes. rewrite length_zero_filled by (rewrite length_ascii; lia). unfold SINGLE_FEAT_LENGTH. lia.
Qed.

Lemma ntohs_be16 pre v post n : length pre = n → 0 <= v < 65536 → ntohs_at n (pre ++ be16 v ++ post) = v.
Proof.
  intros <- Hv. unfold ntohs_at, be16. rewrite drop_app_length.
  replace (take 2 (reverse (le_bytes 2 v) ++ post)) with (reverse (le_bytes 2 v)).
  - rewrite reverse_involutive. apply le_le_bytes. simpl. lia.
  - symmetry. apply take_app_length'. by rewrite length_reverse, length_le_bytes.
Qed.

Lemma size_rpcid apiVersion caps : Forall cap_ok caps → size_of (rpcid apiVersion caps) = 6 + 256 * Z.of_nat (length caps).
Proof.
  intros Hcaps. unfold rpcid. rewrite !size_of_app, size_features by done. unfold be16, size_of.
  rewrite !length_reverse, !length_le_bytes. lia.
Qed.

Lemma decode_rpcid apiVersion caps : 0 <= apiVersion < 2 ^ 15 → caps ≠ [] → (length caps < 256)%nat → Forall cap_ok caps →
  RPCIDStreamDecodeToBuffer (rpcid apiVersion caps)
  = Some (concat (map syscap_item caps), Z.of_nat (length caps) * SINGLE_SYSCAP_LENGTH).
Proof.
  intros Hv Hne Hlen Hcaps. pose proof (size_rpcid apiVersion caps Hcaps) as Hall. unfold RPCIDStreamDecodeToBuffer.
  assert (0 < length caps)%nat by (destruct caps; simpl; [done|lia]).
  rewrite Hall. unfold sizeof_RPCIDHead, APP_SYSCAP_TYPE at 1 2 3 4.
  destruct (Z.leb_spec (6 + 256 * Z.of_nat (length caps)) (2 + 2 * 2)); [lia|].
  assert (number 0 2 (rpcid apiVersion caps) = 2 ^ 15 + apiVersion) as ->.
  { unfold number, rpcid. rewrite drop_0, take_app_length' by by rewrite length_le_bytes. apply le_le_bytes. simpl. lia. }
  assert ((2 ^ 15 + apiVersion) / 2 ^ 15 = 1) as ->.
  { change (2 ^ 15) with (1 * 2 ^ 15) at 1. rewrite Z.div_add_l by lia. rewrite Z.div_small by lia. lia. }
  cbn [negb Z.eqb API_VERSION_TYPE Pos.eqb].
  assert (ntohs_at 2 (rpcid apiVersion caps) = 2) as -> by (apply ntohs_be16; [apply length_le_bytes|unfold APP_SYSCAP_TYPE; lia]).
  assert (ntohs_at 4 (rpcid apiVersion caps) = 256 * Z.of_nat (length caps)) as ->.
  { unfold rpcid. rewrite app_assoc. apply ntohs_be16; [|lia].
    unfold be16. by rewrite length_app, length_reverse, !length_le_bytes. }
  cbn [negb Z.eqb Pos.eqb]. destruct (Z.ltb_spec (6 + 256 * Z.of_nat (length caps)) (2 + 2 * 2 + 256 * Z.of_nat (length caps))); [lia|].
  unfold SINGLE_FEAT_LENGTH. rewrite (Z.mul_comm 256), Z_mod_mult, Z_div_mult by lia. cbn [negb Z.eqb]. rewrite Nat2Z.id.
  assert (drop (Z.to_nat (2 + 2 * 2)) (rpcid apiVersion caps) = concat (map feature_bytes caps)) as ->.
  { unfold rpcid. rewrite !app_assoc. apply drop_app_length'. unfold be16.
    by rewrite !length_app, !length_reverse, !length_le_bytes. }
  by rewrite decode_features_ok.
Qed.

(** * What is in the archive is what is parsed *)

Section Archive.
Context `{HX : JsonText} `{HZ : Zlib} `{HD : DeviceParameters} `{HU : Uninit}.

Lemma not_elem_HasEntry (ms : list Member) name (b : bool) :
  (b = true ↔ name ∈ map mb_name ms) → name ∉ map mb_name ms → b = false.
Proof. intros Hb Hn. destruct b; [|done]. by destruct Hn; apply Hb. Qed.

Lemma HasEntry_eq name z : ZipFile_HasEntry name z = match GetEntry name z with Some _ => true | None => false end.
Proof. done. Qed.

(** The extractor of an archive. *)
Lemma Init_archive content path ms :
  archive_ok ms → content path = Some (archive ms) → Z.of_nat (String.length path) <= PATH_MAX →
  ∃ e, Init content (new_BundleExtractor path) = (true, e)
    ∧ (∀ name, HasEntry name e = true ↔ name ∈ map mb_name ms)
    ∧ (IsNewVersion e = true ↔ MODULE_PROFILE_NAME ∈ map mb_name ms)
    ∧ (∀ dir, IsDirExist e dir = true ↔ dir ≠ "" ∧ ∃ name, name ∈ map mb_name ms ∧ find_at_start dir name = true)
    ∧ (∀ name, IsStageBasedModel e name = true ↔
         let last_part := default name (last (SplitStr name "." false true)) in
         ("assets/js/" +:+ last_part +:+ "/" +:+ last_part +:+ ".js") ∈ map mb_name ms)
    ∧ (∀ m rounds dest, m ∈ ms → ExtractByName rounds (mb_name m) e dest = Some (true, dest ++ mb_data m))
    ∧ (∀ name rounds dest, name ∉ map mb_name ms → ExtractByName rounds name e dest = Some (false, dest)).
Proof.
  intros Hok Hc Hp. destruct (Open_reads content path ms Hok Hc Hp) as (z & Ho & Hhas & Hdir & Hx).
  unfold Init. simpl be_zipFile. rewrite Ho. simpl negb. eexists. split; [reflexivity|].
  split; [exact Hhas|]. split; [apply Hhas|]. split.
  { intros dir. unfold IsDirExist. cbn -[ZipFile_IsDirExist]. destruct dir as [|c dir]; simpl str_empty; cbv iota; [naive_solver|].
    rewrite Hdir. naive_solver. }
  split; [intros name; apply Hhas|]. split; [intros m rounds dest; apply Hx|].
  intros name rounds dest Hn. apply (not_elem_HasEntry _ _ _ (Hhas name)) in Hn. rewrite HasEntry_eq in Hn.
  change (ZipFile_ExtractFile rounds name z dest = Some (false, dest)). unfold ZipFile_ExtractFile.
  by destruct (GetEntry name z).
Qed.

(** Parsing an archive, by the profile it has. *)
Lemma Parse_archive content rounds path ms i s :
  archive_ok ms → content path = Some (archive ms) → Z.of_nat (String.length path) <= PATH_MAX →
  ∃ dirs stage_based,
    (∀ dir, dirs dir = true ↔ dir ≠ "" ∧ ∃ name, name ∈ map mb_name ms ∧ find_at_start dir name = true)
    ∧ (∀ name, stage_based name = true ↔
         let last_part := default name (last (SplitStr name "." false true)) in
         ("assets/js/" +:+ last_part +:+ "/" +:+ last_part +:+ ".js") ∈ map mb_name ms)
    ∧ (∀ m, m ∈ ms → mb_name m = MODULE_PROFILE_NAME →
         Parse content rounds path i s
         = ModuleProfile.TransformTo (text (mb_data m)) dirs (i <| ib_isNewVersion := true |>) s)
    ∧ (∀ m, m ∈ ms → mb_name m = BUNDLE_PROFILE_NAME → MODULE_PROFILE_NAME ∉ map mb_name ms →
         Parse content rounds path i s
         = '(r, s') ← BundleProfile.TransformTo (text (mb_data m)) dirs (i <| ib_isNewVersion := false |>) s;
           Some ((r.1, if r.1 =? ERR_OK then mark_stage_model stage_based r.2 else r.2), s'))
    ∧ (MODULE_PROFILE_NAME ∉ map mb_name ms → BUNDLE_PROFILE_NAME ∉ map mb_name ms →
         Parse content rounds path i s = Some ((ERR_APPEXECFWK_PARSE_NO_PROFILE, i), s)).
Proof.
  intros Hok Hc Hp. destruct (Init_archive content path ms Hok Hc Hp) as (e & He & _ & Hnew & Hdir & Hstage & Hx & Hnx).
  exists (IsDirExist e), (IsStageBasedModel e). split; [done|]. split; [done|]. unfold Parse. rewrite He. cbn [negb].
  unfold ExtractProfile. split; [|split].
  - intros m Hin Hm. assert (IsNewVersion e = true) as -> by (apply Hnew, list_elem_of_fmap; by exists m).
    rewrite <- Hm, (Hx m rounds [] Hin). reflexivity.
  - intros m Hin Hm Hno. apply (not_elem_HasEntry _ _ _ Hnew) in Hno. rewrite Hno, <- Hm, (Hx m rounds [] Hin).
    unfold mbind, M_bind, option_bind, lift, mret, M_ret. cbv beta iota. cbn [negb app].
    destruct (BundleProfile.TransformTo _ _ _ s) as [[[ret i'] s']|]; [|done]. cbn [fst snd]. by destruct (Z.eqb_spec ret ERR_OK) as [->|].
  - intros Hno Hno'. apply (not_elem_HasEntry _ _ _ Hnew) in Hno.
    rewrite Hno, (Hnx BUNDLE_PROFILE_NAME rounds [] Hno'). reflexivity.
Qed.

(** C15: Parsing an archive is transforming the text of its profile.  The
    archive is one of stored entries, as [archive] writes it from its files
    (no compression, comments or extra fields, at least one file and less
    than 65536, distinct names of 1 to 255 bytes, sizes and checksums that
    fit the fields of the format), under a path of at most PATH_MAX bytes.  The profile is
    module.json when the archive has it, else config.json, whatever other
    files there are; the directories that the transformation asks for are
    those of the archive's names, and after a config.json each ability is of
    the stage model when the archive has its script.  Without either the
    bundle is left alone and the code is PARSE_NO_PROFILE. *)
Theorem Parse_transforms content rounds path ms i s :
  archive_ok ms → content path = Some (archive ms) → Z.of_nat (String.length path) <= PATH_MAX →
  ∃ dirs stage_based,
    (∀ dir, dirs dir = true ↔ dir ≠ "" ∧ ∃ name, name ∈ map mb_name ms ∧ find_at_start dir name = true)
    ∧ (∀ name, stage_based name = true ↔
         let last_part := default name (last (SplitStr name "." false true)) in
         ("assets/js/" +:+ last_part +:+ "/" +:+ last_part +:+ ".js") ∈ map mb_name ms)
    ∧ (∀ m, m ∈ ms → mb_name m = MODULE_PROFILE_NAME →
         Parse content rounds path i s
         = ModuleProfile.TransformTo (text (mb_data m)) dirs (i <| ib_isNewVersion := true |>) s)
    ∧ (∀ m, m ∈ ms → mb_name m = BUNDLE_PROFILE_NAME → MODULE_PROFILE_NAME ∉ map mb_name ms →
         Parse content rounds path i s
         = '(r, s') ← BundleProfile.TransformTo (text (mb_data m)) dirs (i <| ib_isNewVersion := false |>) s;
           Some ((r.1, if r.1 =? ERR_OK then mark_stage_model stage_based r.2 else r.2), s'))
    ∧ (MODULE_PROFILE_NAME ∉ map mb_name ms → BUNDLE_PROFILE_NAME ∉ map mb_name ms →
         Parse content rounds path i s = Some ((ERR_APPEXECFWK_PARSE_NO_PROFILE, i), s)).
Proof. apply Parse_archive. Qed.

(** C21: The capabilities that rpcid.sc lists come out of the archive one for
    one, in their order and with the prefix: for one to 255 names of less than
    256 characters each, without NUL, and an API version of less than 2^15.
    An empty list is refused.  The archive is one of stored entries, as
    [archive] writes it from its files (no compression, comments or extra
    fields, distinct names of 1 to 255 bytes; the number of files, the sizes
    and the checksums fit the fields of the format), under a path of at most
    PATH_MAX bytes. *)
Theorem ParseSysCap_round_trip content rounds path ms apiVersion caps crc sysCaps :
  archive_ok ms → content path = Some (archive ms) → Z.of_nat (String.length path) <= PATH_MAX →
  mkMember SYSCAP_NAME (rpcid apiVersion caps) crc ∈ ms →
  0 <= apiVersion < 2 ^ 15 → (length caps < 256)%nat → Forall cap_ok caps →
  ParseSysCap content rounds path sysCaps
  = Some (if bool_decide (caps = []) then (ERR_APPEXECFWK_PARSE_RPCID_FAILED, sysCaps)
          else (ERR_OK, sysCaps ++ map (λ cap, SYSCAP_PREFIX_NAME +:+ cap) caps)).
Proof.
  intros Hok Hc Hp Hin Hv Hlen Hcaps. destruct (Init_archive content path ms Hok Hc Hp) as (e & He & Hhas & _ & _ & _ & Hx & _).
  unfold ParseSysCap. rewrite He. cbn [negb].
  assert (HasEntry SYSCAP_NAME e = true) as -> by (apply Hhas, list_elem_of_fmap; eexists; split; [|exact Hin]; done).
  cbn [negb]. rewrite (Hx _ rounds [] Hin : ExtractByName rounds SYSCAP_NAME e [] = _). cbn [mb_data mbind option_bind app negb].
  assert (Hall : size_of (rpcid apiVersion caps) = 6 + 256 * Z.of_nat (length caps)) by by apply size_rpcid.
  rewrite Hall, i32_id by (unfold in_i32, INT32_MAX; lia).
  destruct (Z.ltb_spec (6 + 256 * Z.of_nat (length caps)) 0); [lia|].
  assert (fread (rpcid apiVersion caps) 0 (6 + 256 * Z.of_nat (length caps)) = rpcid apiVersion caps) as ->.
  { rewrite <- Hall. destruct (fread_head (rpcid apiVersion caps) [] _ eq_refl) as [Hf _]. by rewrite app_nil_r in Hf. }
  case_bool_decide as Hne; [subst; unfold RPCIDStreamDecodeToBuffer; by rewrite Hall|]. rewrite decode_rpcid by done.
  assert (0 < length caps)%nat by (destruct caps; simpl; [done|lia]).
  unfold ParseStr. replace ((SINGLE_SYSCAP_LENGTH <=? 0) || (Z.of_nat (length caps) * SINGLE_SYSCAP_LENGTH <=? 0)) with false.
  - rewrite parse_items_ok; [done..|]. unfold SINGLE_SYSCAP_LENGTH, SINGLE_FEAT_LENGTH. lia.
  - symmetry. apply orb_false_intro; apply Z.leb_gt; unfold SINGLE_SYSCAP_LENGTH, SINGLE_FEAT_LENGTH; lia.
Qed.
End Archive.

(** * An error that is left behind *)

Section Stale.
Context `{HX : JsonText} `{HZ : Zlib} `{HD : DeviceParameters} `{HU : Uninit}.

Lemma TransformTo_stale source dirs i s j :
  parse source = Some j → whole j = true → profile s ≠ ERR_OK →
  BundleProfile.TransformTo source dirs i s = Some ((profile s, i), mkParseState ERR_OK (local s)).
Proof.
  intros Hp Hj Hs. unfold BundleProfile.TransformTo. rewrite Hp. unfold mbind, M_bind.
  destruct (BundleProfile.runs_ConfigJson j Hj s) as (c & s1 & -> & [[He|[He _]] Hl]); [|done].
  unfold read_var. simpl. rewrite He. destruct (Z.eqb_spec (profile s) ERR_OK); [done|]. simpl.
  unfold write_var, set_var, mret, M_ret. by rewrite Hl.
Qed.

(** C20: BundleProfile::TransformTo resets [ProfileReader::parseResult] after
    its own errors only, and it reads into what is there.  When an earlier
    parse on the thread has left an error, the next archive of stored entries
    (as [archive] writes it from files with distinct names of 1 to 255 bytes
    that the format can express, under a path of at most PATH_MAX bytes)
    without module.json, and with a config.json that is JSON without real
    numbers, is refused with that error, whatever else the JSON says; of its description only the
    mark of the kind of profile is written, and the one after it is read from
    a clean variable. *)
Theorem stale_error_refuses_next content rounds path ms m i s j :
  archive_ok ms → content path = Some (archive ms) → Z.of_nat (String.length path) <= PATH_MAX →
  m ∈ ms → mb_name m = BUNDLE_PROFILE_NAME → MODULE_PROFILE_NAME ∉ map mb_name ms →
  parse (text (mb_data m)) = Some j → whole j = true → profile s ≠ ERR_OK →
  Parse content rounds path i s
  = Some ((profile s, i <| ib_isNewVersion := false |>), mkParseState ERR_OK (local s)).
Proof.
  intros Hok Hc Hp Hin Hm Hno Hj Hw Hs.
  destruct (Parse_archive content rounds path ms i s Hok Hc Hp) as (dirs & stage & _ & _ & _ & Ht & _).
  rewrite (Ht m Hin Hm Hno), (TransformTo_stale _ _ _ _ j Hj Hw Hs). cbn [mbind option_bind fst snd].
  by destruct (Z.eqb_spec (profile s) ERR_OK).
Qed.
End Stale.

(** ** Examples *)

Definition sample_docs : JsonText := these_texts [
  ("config", sample_config []); ("module", sample_module []);
  ("mistyped skill", sample_module [("skills", JArray [object [("actions", JNumber 1)]])])].

(** A bundle with a module.json and a config.json, and one with the latter. *)
Definition both_profiles : list Member := stored [("module.json", "module"); ("config.json", "config")].
Definition old_profile : list Member := stored [("config.json", "config"); ("assets/js/Main/Main.js", "")].

Lemma Parse_transforms_witness :
  let s := mkParseState ERR_OK ERR_OK in
  ∃ dirs, @Parse sample_docs no_zlib plain_device zero_memory (one_path "/a.hap" (archive both_profiles)) 0 "/a.hap" new_InnerBundleInfo s
  = @ModuleProfile.TransformTo sample_docs plain_device zero_memory "module" dirs (new_InnerBundleInfo <| ib_isNewVersion := true |>) s.
Proof.
  cbv zeta.
  destruct (@Parse_transforms sample_docs no_zlib plain_device zero_memory (one_path "/a.hap" (archive both_profiles)) 0%nat "/a.hap"
    both_profiles new_InnerBundleInfo (mkParseState ERR_OK ERR_OK)) as (dirs & stage & _ & _ & Hm & _);
    [by apply archive_check_ok; vm_compute|by unfold one_path; rewrite decide_True|by vm_compute|].
  exists dirs. apply (Hm (mkMember "module.json" (String.list_ascii_of_string "module") 0)); [by left|done].
Defined.

Lemma ParseSysCap_round_trip_witness :
  let ms := [mkMember SYSCAP_NAME (rpcid 8 ["Web.Webview"; "Ability"]) 0] in
  @ParseSysCap no_zlib (one_path "/a.hap" (archive ms)) 0 "/a.hap" []
  = Some (ERR_OK, ["SystemCapability.Web.Webview"; "SystemCapability.Ability"]).
Proof.
  cbv zeta. set (ms := [_]).
  apply (@ParseSysCap_round_trip no_zlib plain_device (one_path "/a.hap" (archive ms)) 0%nat "/a.hap" ms 8 ["Web.Webview"; "Ability"] 0 []);
    [by apply archive_check_ok; vm_compute|by unfold one_path; rewrite decide_True|by vm_compute|by left|lia|by vm_compute; lia|].
  repeat constructor.
Defined.

(** A bundle whose module.json has a mistyped action in a skill is accepted;
    the good config.json that the thread reads next is not. *)
Lemma stale_error_refuses_next_witness :
  let parsed files path := @Parse sample_docs no_zlib plain_device zero_memory (one_path path (archive files)) 0 path new_InnerBundleInfo in
  match parsed (stored [("module.json", "mistyped skill")]) "/a.hap" (mkParseState ERR_OK ERR_OK) with
  | Some ((code, _), s) =>
      code = ERR_OK ∧
      parsed old_profile "/b.hap" s
      = Some ((ERR_APPEXECFWK_PARSE_PROFILE_PROP_TYPE_ERROR, new_InnerBundleInfo), mkParseState ERR_OK ERR_OK)
  | None => False
  end.
Proof.
  cbv zeta. match goal with |- match ?x with _ => _ end => destruct x as [[[code i'] s]|] eqn:E; [|by vm_compute in E] end.
  assert ((code, s) = (ERR_OK, mkParseState ERR_APPEXECFWK_PARSE_PROFILE_PROP_TYPE_ERROR ERR_OK)) as [= -> ->].
  { apply (f_equal (λ r, from_option (λ x, (x.1.1, x.2)) (1, mkParseState 0 0) r)) in E. vm_compute in E. by symmetry. }
  split; [done|].
  apply (@stale_error_refuses_next sample_docs no_zlib plain_device zero_memory (one_path "/b.hap" (archive old_profile)) 0%nat "/b.hap"
    old_profile (mkMember "config.json" (String.list_ascii_of_string "config") 0) new_InnerBundleInfo
    (mkParseState ERR_APPEXECFWK_PARSE_PROFILE_PROP_TYPE_ERROR ERR_OK) (sample_config []));
    [by apply archive_check_ok; vm_compute|by unfold one_path; rewrite decide_True|by vm_compute|by left|done| |done|done|done].
  apply (bool_decide_unpack _). by vm_compute.
Defined.
