(* ===== verification/BundlePermissionMgr.v ===== *)
(** * BundlePermissionMgr: the permissions of bundles

    Models services/bundlemgr/src/bundle_permission_mgr.cpp: what the access
    token service is told when a bundle is installed or updated, and which
    permissions are granted.

    The access token kit is a library: its state [T] and its calls are a
    class.  A call that fails is [None] or [false]; the lists it would fill
    are then not used. *)

From stdpp Require Import strings list.
From S2P Require Import Prelude Strings StdMap BundleTypes InnerBundleInfo InnerBundleQuery ParcelInfos.

Open Scope string_scope.
Open Scope list_scope.
Open Scope Z_scope.

(** ** The access token kit *)

Inductive ATokenAplEnum := APL_INVALID | APL_NORMAL | APL_SYSTEM_BASIC | APL_SYSTEM_CORE.
#[export] Instance ATokenAplEnum_eq_dec : EqDecision ATokenAplEnum.
Proof. solve_decision. Defined.

Inductive GrantMode := USER_GRANT | SYSTEM_GRANT.
#[export] Instance GrantMode_eq_dec : EqDecision GrantMode.
Proof. solve_decision. Defined.

Inductive PermissionFlag := PERMISSION_DEFAULT_FLAG | PERMISSION_SYSTEM_FIXED.
#[export] Instance PermissionFlag_eq_dec : EqDecision PermissionFlag.
Proof. solve_decision. Defined.

Definition PERMISSION_DENIED : Z := -1.
Definition DEFAULT_FLAG : Z := 0.

(** [AccessToken::PermissionDef] *)
Record TokenPermissionDef := mkTokenPermissionDef {
  tpd_permissionName : string;
  tpd_bundleName : string;
  tpd_grantMode : GrantMode;
  tpd_availableLevel : ATokenAplEnum;
  tpd_provisionEnable : bool;
  tpd_distributedSceneEnable : bool;
  tpd_label : string;
  tpd_labelId : Z;
  tpd_description : string;
  tpd_descriptionId : Z;
}.

Record HapInfoParams := mkHapInfoParams {
  hi_userID : Z;
  hi_bundleName : string;
  hi_instIndex : Z;
  hi_appIDDesc : string;
  hi_dlpType : Z;
}.

Record HapPolicyParams := mkHapPolicyParams {
  hp_apl : ATokenAplEnum;
  hp_domain : string;
  hp_permList : list TokenPermissionDef;
  hp_permStateList : list PermissionStateFull;
}.

Class AccessTokenKit (T : Type) := {
  AllocHapToken : HapInfoParams → HapPolicyParams → T → T * Z;
  UpdateHapToken : Z → string → HapPolicyParams → T → T * bool;
  DeleteToken : Z → T → T * bool;
  KitGrantPermission : Z → string → PermissionFlag → T → T * bool;
  KitClearUserGrantedPermissionState : Z → T → T * bool;
  GetDefPermission : string → T → option TokenPermissionDef;
  GetDefPermissions : Z → T → option (list TokenPermissionDef);
  GetReqPermissions : T → Z → bool → option (list PermissionStateFull);
  IsNativeToken : Z → T → bool;
  GetHapTokenID : Z → string → Z → T → Z;
  VerifyAccessToken : Z → string → T → Z;
  apl_value : ATokenAplEnum → Z;
  grantMode_value : GrantMode → Z;
}.

(** ** Levels and definitions *)

Definition AVAILABLELEVEL_SYSTEM_BASIC : string := "system_basic".
Definition AVAILABLELEVEL_SYSTEM_CORE : string := "system_core".

Definition GetTokenApl (apl : string) : ATokenAplEnum :=
  if decide (apl = AVAILABLELEVEL_SYSTEM_CORE) then APL_SYSTEM_CORE
  else if decide (apl = AVAILABLELEVEL_SYSTEM_BASIC) then APL_SYSTEM_BASIC
  else APL_NORMAL.

(** From the struct that the profile was parsed to. *)
Definition ConvertPermissionDef (bundleName : string) (d : DefinePermission) : TokenPermissionDef := {|
  tpd_permissionName := dp_name d;
  tpd_bundleName := bundleName;
  tpd_grantMode := if decide (dp_grantMode d = "system_grant") then SYSTEM_GRANT else USER_GRANT;
  tpd_availableLevel := GetTokenApl (dp_availableLevel d);
  tpd_provisionEnable := dp_provisionEnable d;
  tpd_distributedSceneEnable := dp_distributedSceneEnable d;
  tpd_label := dp_label d;
  tpd_labelId := dp_labelId d;
  tpd_description := dp_description d;
  tpd_descriptionId := dp_descriptionId d;
|}.

Definition CheckGrantPermission (permDef : TokenPermissionDef) (apl : string) (acls : list string) : bool :=
  match tpd_availableLevel permDef with
  | APL_NORMAL => true
  | APL_SYSTEM_BASIC => bool_decide (apl = AVAILABLELEVEL_SYSTEM_BASIC) || bool_decide (apl = AVAILABLELEVEL_SYSTEM_CORE)
  | APL_SYSTEM_CORE => bool_decide (apl = AVAILABLELEVEL_SYSTEM_CORE)
  | APL_INVALID => false
  end
  || (tpd_provisionEnable permDef && bool_decide (tpd_permissionName permDef ∈ acls)).

(** The permissions granted to a pre-installed bundle by default, and whether
    the user can take them back. *)
Definition DefaultPermissions : Type := stdmap string (stdmap string bool).

Definition default_table (permissions : list (string * list (string * bool))) : DefaultPermissions :=
  foldl (λ all p, emplace p.1 (foldl (λ infos info, emplace info.1 info.2 infos) ∅ p.2) all) ∅ permissions.

(** The argument is what the parser of the profile answers. *)
Definition Init (parsed : option (list (string * list (string * bool)))) (defaultPermissions : DefaultPermissions) : DefaultPermissions * bool :=
  match parsed with
  | None => (defaultPermissions, false)
  | Some permissions => (default_table permissions, true)
  end.

Definition UnInit : DefaultPermissions := ∅.

Definition CheckPermissionInDefaultPermissions (defaultPermissions : DefaultPermissions) (bundleName permissionName : string) :
    option bool :=
  match defaultPermissions !! bundleName with
  | None => None
  | Some info => info !! permissionName
  end.

Section Permissions.
Context {T : Type} `{HT : AccessTokenKit T} `{StdSort}.
Context (defaultPermissions : DefaultPermissions).

(** From the kit's definition to the one given to clients. *)
Definition ConvertTokenPermissionDef (d : TokenPermissionDef) : PermissionDef := {|
  pd_permissionName := tpd_permissionName d;
  pd_bundleName := tpd_bundleName d;
  pd_grantMode := grantMode_value (tpd_grantMode d);
  pd_availableLevel := apl_value (tpd_availableLevel d);
  pd_availableScope := 0;
  pd_provisionEnable := tpd_provisionEnable d;
  pd_distributedSceneEnable := tpd_distributedSceneEnable d;
  pd_label := tpd_label d;
  pd_labelId := tpd_labelId d;
  pd_description := tpd_description d;
  pd_descriptionId := tpd_descriptionId d;
|}.

Definition GetPermissionDefList (i : InnerBundleInfo) : list TokenPermissionDef :=
  map (ConvertPermissionDef (GetBundleName i)) (GetAllDefinePermissions i).

Definition GetPermissionStateFullList (i : InnerBundleInfo) : list PermissionStateFull :=
  map (λ req, mkPermissionStateFull (rp_name req) true
                [(app_deviceId (ib_baseApplicationInfo i), PERMISSION_DENIED)] [DEFAULT_FLAG]) (GetAllRequestPermissions i).

Definition GetAppPrivilegeLevel (i : InnerBundleInfo) : string := app_appPrivilegeLevel (ib_baseApplicationInfo i).
Definition GetAppId (i : InnerBundleInfo) : string := bi_appId (ib_baseBundleInfo i).

Definition policy (apl : string) (permList : list TokenPermissionDef) (permStateList : list PermissionStateFull) : HapPolicyParams :=
  mkHapPolicyParams (GetTokenApl apl) "domain" permList permStateList.

Definition CreateHapPolicyParam (i : InnerBundleInfo) : HapPolicyParams :=
  policy (GetAppPrivilegeLevel i) (GetPermissionDefList i) (GetPermissionStateFullList i).

Definition CreateAccessTokenId (i : InnerBundleInfo) (bundleName : string) (userId dlpType : Z) (t : T) : T * Z :=
  AllocHapToken (mkHapInfoParams userId bundleName (ib_appIndex i) (GetAppId i) dlpType) (CreateHapPolicyParam i) t.

Definition DeleteAccessTokenId (tokenId : Z) (t : T) : T * bool := DeleteToken tokenId t.
Definition ClearUserGrantedPermissionState (tokenId : Z) (t : T) : T * bool := KitClearUserGrantedPermissionState tokenId t.

(** ** Updating the token *)

Definition named_in {A B} (name_a : A → string) (name_b : B → string) (l : list B) (x : A) : bool :=
  existsb (λ y, bool_decide (name_b y = name_a x)) l.

(** [l.erase(iter)] for the first element with the name. *)
Fixpoint erase_first {A} (name_of : A → string) (name : string) (l : list A) : list A :=
  match l with
  | [] => []
  | x :: l => if decide (name_of x = name) then l else x :: erase_first name_of name l
  end.

Definition GetNeedDeleteDefinePermissionName (oldInfo newInfo : InnerBundleInfo) : list string :=
  map dp_name (List.filter (λ d, negb (named_in dp_name dp_name (GetAllDefinePermissions newInfo) d)) (GetAllDefinePermissions oldInfo)).

Definition GetNeedDeleteRequestPermissionName (oldInfo newInfo : InnerBundleInfo) : list string :=
  map rp_name (List.filter (λ r, negb (named_in rp_name rp_name (GetAllRequestPermissions newInfo) r)) (GetAllRequestPermissions oldInfo)).

(** [for (perm : add) if (not found in l) l.emplace_back(perm)], with the names
    of those added. *)
Definition add_new {A} (name_of : A → string) (l add : list A) : list A * list string :=
  foldl (λ '(l, names) x, if named_in name_of name_of l x then (l, names) else (l ++ [x], names ++ [name_of x])) (l, []) add.

Definition GetNewPermissionDefList (tokenId : Z) (permissionDef : list TokenPermissionDef) (t : T) : option (list TokenPermissionDef) :=
  match GetDefPermissions tokenId t with
  | None => None
  | Some l => Some (add_new tpd_permissionName l permissionDef).1
  end.

Definition GetNewPermissionStateFull (tokenId : Z) (permissionState : list PermissionStateFull) (t : T) :
    option (list PermissionStateFull * list string) :=
  match GetAllReqPermissionStateFull (GetReqPermissions t) tokenId with
  | None => None
  | Some l => Some (add_new psf_permissionName l permissionState)
  end.

(** The answer: the names of the permissions that the token did not have. *)
Definition UpdateDefineAndRequestPermissions (tokenId : Z) (oldInfo newInfo : InnerBundleInfo) (t : T) : T * option (list string) :=
  match GetNewPermissionDefList tokenId (GetPermissionDefList newInfo) t with
  | None => (t, None)
  | Some newDefPermList =>
      match GetNewPermissionStateFull tokenId (GetPermissionStateFullList newInfo) t with
      | None => (t, None)
      | Some (newPermissionStateList, newRequestPermName) =>
          let newDefPermList := foldl (λ l name, erase_first tpd_permissionName name l) newDefPermList
                                  (GetNeedDeleteDefinePermissionName oldInfo newInfo) in
          let newPermissionStateList := foldl (λ l name, erase_first psf_permissionName name l) newPermissionStateList
                                          (GetNeedDeleteRequestPermissionName oldInfo newInfo) in
          let '(t, ok) := UpdateHapToken tokenId (GetAppId newInfo)
                            (policy (GetAppPrivilegeLevel newInfo) newDefPermList newPermissionStateList) t in
          (t, if ok then Some newRequestPermName else None)
      end
  end.

Definition AddDefineAndRequestPermissions (tokenId : Z) (i : InnerBundleInfo) (t : T) : T * option (list string) :=
  match GetNewPermissionDefList tokenId (GetPermissionDefList i) t with
  | None => (t, None)
  | Some newDefPermList =>
      match GetNewPermissionStateFull tokenId (GetPermissionStateFullList i) t with
      | None => (t, None)
      | Some (newPermissionStateList, newRequestPermName) =>
          let '(t, ok) := UpdateHapToken tokenId (GetAppId i)
                            (policy (GetAppPrivilegeLevel i) newDefPermList newPermissionStateList) t in
          (t, if ok then Some newRequestPermName else None)
      end
  end.

(** ** Granting *)

Definition GrantPermission (tokenId : Z) (permissionName : string) (flag : PermissionFlag) (t : T) : T * bool :=
  KitGrantPermission tokenId permissionName flag t.

(** The first loop of InnerGrantRequestPermissions: the permissions to grant,
    by the grant mode, or none when the bundle may not have one of them. *)
Fixpoint sort_requests (apl : string) (acls : list string) (reqPermissions : list RequestPermission) (t : T) :
    option (list string * list string) :=
  match reqPermissions with
  | [] => Some ([], [])
  | req :: reqs =>
      match GetDefPermission (rp_name req) t with
      | None => sort_requests apl acls reqs t
      | Some permDef =>
          if CheckGrantPermission permDef apl acls then
            '(systemGrantPermList, userGrantPermList) ← sort_requests apl acls reqs t;
            if decide (tpd_grantMode permDef = SYSTEM_GRANT) then Some (rp_name req :: systemGrantPermList, userGrantPermList)
            else Some (systemGrantPermList, rp_name req :: userGrantPermList)
          else None
      end
  end.

(** Grants one after the other up to the first that fails. *)
Fixpoint grant_all (tokenId : Z) (grants : list (string * PermissionFlag)) (t : T) : T * bool :=
  match grants with
  | [] => (t, true)
  | (name, flag) :: grants =>
      let '(t, ok) := GrantPermission tokenId name flag t in if ok then grant_all tokenId grants t else (t, false)
  end.

Definition default_grants (bundleName : string) (userGrantPermList : list string) : list (string * PermissionFlag) :=
  omap (λ perm, match CheckPermissionInDefaultPermissions defaultPermissions bundleName perm with
                | None => None
                | Some userCancellable =>
                    Some (perm, if userCancellable then PERMISSION_DEFAULT_FLAG else PERMISSION_SYSTEM_FIXED)
                end) userGrantPermList.

Definition InnerGrantRequestPermissions (tokenId : Z) (reqPermissions : list RequestPermission) (i : InnerBundleInfo) (t : T) : T * bool :=
  match sort_requests (GetAppPrivilegeLevel i) (ib_allowedAcls i) reqPermissions t with
  | None => (t, false)
  | Some (systemGrantPermList, userGrantPermList) =>
      let '(t, ok) := grant_all tokenId (map (λ perm, (perm, PERMISSION_SYSTEM_FIXED)) systemGrantPermList) t in
      if negb ok then (t, false)
      else if IsPreInstallApp i then grant_all tokenId (default_grants (GetBundleName i) userGrantPermList) t
      else (t, true)
  end.

Definition GrantRequestPermissions (i : InnerBundleInfo) (tokenId : Z) (t : T) : T * bool :=
  InnerGrantRequestPermissions tokenId (GetAllRequestPermissions i) i t.

(** The overload for some of the requested permissions. *)
Definition GrantNewRequestPermissions (i : InnerBundleInfo) (requestPermName : list string) (tokenId : Z) (t : T) : T * bool :=
  InnerGrantRequestPermissions tokenId
    (omap (λ name, List.find (λ req, bool_decide (name = rp_name req)) (GetAllRequestPermissions i)) requestPermName) i t.

(** ** Asking *)

Definition VerifyCallingPermission (callerToken : Z) (permissionName : string) (t : T) : bool :=
  IsNativeToken callerToken t || negb (VerifyAccessToken callerToken permissionName t =? PERMISSION_DENIED).

Definition VerifyPermission (bundleName permissionName : string) (userId : Z) (t : T) : Z :=
  VerifyAccessToken (GetHapTokenID userId bundleName 0 t) permissionName t.

Definition GetPermissionDef (permissionName : string) (t : T) : option PermissionDef :=
  ConvertTokenPermissionDef <$> GetDefPermission permissionName t.
End Permissions.

(** * Properties *)

(** ** Which permissions a bundle may have *)

Definition apl_rank (a : ATokenAplEnum) : Z :=
  match a with APL_INVALID => 3 | APL_NORMAL => 0 | APL_SYSTEM_BASIC => 1 | APL_SYSTEM_CORE => 2 end.

(** A bundle may have a permission when its privilege level is at least
    the level of the permission, or when the permission can be provisioned and
    the bundle's provision lists it. *)
Theorem CheckGrantPermission_correct permDef apl acls :
  CheckGrantPermission permDef apl acls = true
  ↔ apl_rank (tpd_availableLevel permDef) <= apl_rank (GetTokenApl apl)
    ∨ (tpd_provisionEnable permDef = true ∧ tpd_permissionName permDef ∈ acls).
Proof.
  unfold CheckGrantPermission. rewrite orb_true_iff, andb_true_iff, bool_decide_eq_true.
  apply or_iff_compat_r. unfold GetTokenApl.
  destruct (tpd_availableLevel permDef); simpl; repeat case_decide; simpl;
    rewrite ?orb_true_iff, ?bool_decide_eq_true; (split; [|lia || tauto]); try (intros; lia); try tauto; intuition congruence.
Qed.

Section Grants.
Context {T : Type} `{HT : AccessTokenKit T} `{StdSort}.
Context (defaultPermissions : DefaultPermissions).

Lemma grant_all_app tokenId grants1 grants2 (t : T) :
  grant_all tokenId (grants1 ++ grants2) t
  = let '(t, ok) := grant_all tokenId grants1 t in if ok then grant_all tokenId grants2 t else (t, false).
Proof.
  revert t. induction grants1 as [|[name flag] grants IH]; intros t; [done|]. simpl.
  destruct (GrantPermission tokenId name flag t) as [t' []]; [apply IH|done].
Qed.

(** A requested permission that is defined, and its definition. *)
Definition requests (reqs : list RequestPermission) (t : T) (name : string) (d : TokenPermissionDef) : Prop :=
  (∃ req, req ∈ reqs ∧ rp_name req = name) ∧ GetDefPermission name t = Some d.

(** The level of the permission is one that the bundle's privilege level
    covers, or it can be provisioned and the bundle's provision lists it. *)
Definition may_have (apl : string) (acls : list string) (d : TokenPermissionDef) : Prop :=
  tpd_availableLevel d = APL_NORMAL
  ∨ (tpd_availableLevel d = APL_SYSTEM_BASIC ∧ (apl = "system_basic" ∨ apl = "system_core"))
  ∨ (tpd_availableLevel d = APL_SYSTEM_CORE ∧ apl = "system_core")
  ∨ (tpd_provisionEnable d = true ∧ tpd_permissionName d ∈ acls).

Lemma CheckGrantPermission_spec d apl acls : CheckGrantPermission d apl acls = true ↔ may_have apl acls d.
Proof.
  unfold CheckGrantPermission, may_have. rewrite orb_true_iff, andb_true_iff, bool_decide_eq_true.
  unfold AVAILABLELEVEL_SYSTEM_BASIC, AVAILABLELEVEL_SYSTEM_CORE.
  destruct (tpd_availableLevel d); rewrite ?orb_true_iff, ?bool_decide_eq_true; naive_solver.
Qed.

Lemma CheckGrantPermission_false d apl acls : CheckGrantPermission d apl acls = false ↔ ¬ may_have apl acls d.
Proof. rewrite <- CheckGrantPermission_spec. symmetry. apply not_true_iff_false. Qed.

(** One of the requested permissions that are defined is beyond the bundle. *)
Definition refused (apl : string) (acls : list string) (reqs : list RequestPermission) (t : T) : Prop :=
  ∃ name d, requests reqs t name d ∧ ¬ may_have apl acls d.

Lemma requests_cons req reqs t name d :
  requests (req :: reqs) t name d ↔ (rp_name req = name ∧ GetDefPermission name t = Some d) ∨ requests reqs t name d.
Proof.
  unfold requests. split.
  - intros [(r & [->|Hr]%elem_of_cons & Hn) Hd]; [by left|]. right. split; [by exists r|done].
  - intros [[Hn Hd]|[(r & Hr & Hn) Hd]]; (split; [|done]); [exists req|exists r]; (split; [|done]); set_solver.
Qed.

Lemma refused_cons apl acls req reqs t :
  refused apl acls (req :: reqs) t
  ↔ (∃ d, GetDefPermission (rp_name req) t = Some d ∧ ¬ may_have apl acls d) ∨ refused apl acls reqs t.
Proof.
  unfold refused. setoid_rewrite requests_cons. split.
  - intros (name & d & [[<- Hd]|Hr] & Hc); [left; by exists d|right; by exists name, d].
  - intros [(d & Hd & Hc)|(name & d & Hr & Hc)]; [exists (rp_name req), d; tauto|exists name, d; tauto].
Qed.

Definition of_mode (reqs : list RequestPermission) (t : T) (mode : GrantMode) (name : string) : Prop :=
  ∃ d, requests reqs t name d ∧ tpd_grantMode d = mode.

Lemma of_mode_cons req reqs t mode name :
  of_mode (req :: reqs) t mode name
  ↔ match GetDefPermission (rp_name req) t with
    | Some d => (name = rp_name req ∧ tpd_grantMode d = mode) ∨ of_mode reqs t mode name
    | None => of_mode reqs t mode name
    end.
Proof.
  unfold of_mode. split.
  - intros (d & [[<- Hd]|Hr]%requests_cons & Hm).
    + rewrite Hd. by left.
    + destruct (GetDefPermission (rp_name req) t); [right|]; by exists d.
  - destruct (GetDefPermission (rp_name req) t) as [d|] eqn:Ed.
    + intros [[-> Hm]|(d' & Hr & Hm)]; [exists d|exists d']; rewrite requests_cons; tauto.
    + intros (d' & Hr & Hm). exists d'. rewrite requests_cons. tauto.
Qed.

Lemma sort_requests_spec apl acls reqs (t : T) :
  match sort_requests apl acls reqs t with
  | None => refused apl acls reqs t
  | Some (systems, users) =>
      ¬ refused apl acls reqs t
      ∧ (∀ name, name ∈ systems ↔ of_mode reqs t SYSTEM_GRANT name) ∧ (∀ name, name ∈ users ↔ of_mode reqs t USER_GRANT name)
  end.
Proof.
  induction reqs as [|req reqs IH]; simpl.
  - split_and!; [intros (? & ? & [(? & ?%elem_of_nil & _) _] & _); done| |];
      (intros name; split; [by intros ?%elem_of_nil|intros (? & [(? & ?%elem_of_nil & _) _] & _); done]).
  - destruct (GetDefPermission (rp_name req) t) as [d|] eqn:Ed.
    2: { destruct (sort_requests apl acls reqs t) as [[sys usr]|]; [|apply refused_cons; by right].
         destruct IH as (Hn & Hs & Hu). rewrite refused_cons.
         split_and!; [naive_solver|..]; intros name; rewrite of_mode_cons, Ed; [apply Hs|apply Hu]. }
    destruct (CheckGrantPermission d apl acls) eqn:Ec.
    2: { apply refused_cons; left. exists d. by rewrite <- CheckGrantPermission_false. }
    apply CheckGrantPermission_spec in Ec.
    destruct (sort_requests apl acls reqs t) as [[sys usr]|]; [|apply refused_cons; by right].
    destruct IH as (Hn & Hs & Hu). simpl.
    case_decide as Em; rewrite refused_cons;
      (split_and!; [intros [(d' & Hd' & Hc')|?]; [congruence|done]|..]); intros name;
      rewrite of_mode_cons, Ed, ?elem_of_cons, ?Hs, ?Hu; destruct (tpd_grantMode d); intuition congruence.
Qed.

(** The permission [name] is to be granted to the bundle with [flag]. *)
Definition entitled (reqs : list RequestPermission) (i : InnerBundleInfo) (t : T) (grant : string * PermissionFlag) : Prop :=
  (of_mode reqs t SYSTEM_GRANT grant.1 ∧ grant.2 = PERMISSION_SYSTEM_FIXED)
  ∨ (of_mode reqs t USER_GRANT grant.1 ∧ IsPreInstallApp i = true
     ∧ ∃ info userCancellable,
         defaultPermissions !! GetBundleName i = Some info ∧ info !! grant.1 = Some userCancellable
         ∧ grant.2 = if userCancellable : bool then PERMISSION_DEFAULT_FLAG else PERMISSION_SYSTEM_FIXED).

(** The kit is asked to grant one after the other, up to the first that it
    does not grant. *)
Inductive granting (tokenId : Z) : list (string * PermissionFlag) → T → T → bool → Prop :=
| granting_none t : granting tokenId [] t t true
| granting_next name flag grants t t1 t2 ok :
    KitGrantPermission tokenId name flag t = (t1, true) → granting tokenId grants t1 t2 ok →
    granting tokenId ((name, flag) :: grants) t t2 ok
| granting_stop name flag grants t t1 :
    KitGrantPermission tokenId name flag t = (t1, false) → granting tokenId ((name, flag) :: grants) t t1 false.

Lemma grant_all_granting tokenId grants (t : T) :
  granting tokenId grants t (grant_all tokenId grants t).1 (grant_all tokenId grants t).2.
Proof.
  revert t. induction grants as [|[name flag] grants IH]; intros t; simpl; [constructor|].
  unfold GrantPermission. destruct (KitGrantPermission tokenId name flag t) as [t1 []] eqn:E; by econstructor.
Qed.

(** C28: The requested permissions that the kit knows are granted or refused
    together.  The bundle may have a permission whose level is normal, or is
    system_basic or system_core and covered by the privilege level of the
    bundle, or which can be provisioned and is listed in the bundle's
    provision.  When it may not have one of those it requests (a level that
    is not covered, and not listed or not open to provision), nothing is
    granted and the result is false.  Otherwise exactly the permissions it is entitled to are
    granted, one after the other up to the first that the kit does not grant:
    those the system grants, fixed; and those the user grants only to a
    pre-installed bundle that the table of default permissions gives them
    to, fixed unless the table lets the user cancel them. *)
Theorem GrantRequestPermissions_correct tokenId reqs i (t : T) :
  let apl := GetAppPrivilegeLevel i in
  let r := InnerGrantRequestPermissions defaultPermissions tokenId reqs i t in
  (refused apl (ib_allowedAcls i) reqs t ∧ r = (t, false))
  ∨ (¬ refused apl (ib_allowedAcls i) reqs t
     ∧ ∃ grants, (∀ grant, grant ∈ grants ↔ entitled reqs i t grant) ∧ granting tokenId grants t r.1 r.2).
Proof.
  cbv zeta. unfold InnerGrantRequestPermissions.
  pose proof (sort_requests_spec (GetAppPrivilegeLevel i) (ib_allowedAcls i) reqs t) as Hsort.
  destruct (sort_requests _ _ _ _) as [[sys usr]|]; [right|by left]. destruct Hsort as (Hn & Hs & Hu). split; [done|].
  exists (map (λ perm, (perm, PERMISSION_SYSTEM_FIXED)) sys
          ++ if IsPreInstallApp i then default_grants defaultPermissions (GetBundleName i) usr else []). split.
  - intros [name flag]. unfold entitled, default_grants. simpl. rewrite elem_of_app.
    rewrite (list_elem_of_fmap (λ perm, (perm, PERMISSION_SYSTEM_FIXED)) sys (name, flag)). setoid_rewrite <- Hs. setoid_rewrite <- Hu. clear.
    destruct (IsPreInstallApp i); rewrite ?list_elem_of_omap.
    + apply Morphisms_Prop.or_iff_morphism; [naive_solver|]. unfold CheckPermissionInDefaultPermissions. split.
      * intros (perm & Hin & Hd). destruct (defaultPermissions !! _) as [info|]; [|done].
        destruct (info !! perm) eqn:E; simplify_eq. naive_solver.
      * intros (Hin & _ & info & c & Hi & Hc & ->). exists name. by rewrite Hi, Hc.
    + split; [|naive_solver]. intros [Hin|Hin]; [naive_solver|by apply elem_of_nil in Hin].
  - match goal with |- granting _ ?l _ _ _ => pose proof (grant_all_granting tokenId l t) as Hg end. revert Hg.
    rewrite grant_all_app. destruct (grant_all tokenId _ t) as [t' []]; simpl; [|done]. by destruct (IsPreInstallApp i).
Qed.
End Grants.

(** ** Updating a token *)

Section Lists.
Context {A : Type} (name_of : A → string).

Lemma named_in_spec {B} (name_b : B → string) (l : list B) (x : A) :
  named_in name_of name_b l x = true ↔ name_of x ∈ map name_b l.
Proof.
  unfold named_in. rewrite existsb_exists. setoid_rewrite bool_decide_eq_true. rewrite list_elem_of_In, in_map_iff.
  split; intros (y & Hy & Hn); exists y; by rewrite ?Hy in *.
Qed.

Lemma named_in_dec {B} (name_b : B → string) (l : list B) (x : A) :
  named_in name_of name_b l x = bool_decide (name_of x ∈ map name_b l).
Proof.
  apply eq_true_iff_eq. by rewrite named_in_spec, bool_decide_eq_true.
Qed.

Lemma erase_first_names name (l : list A) :
  NoDup (map name_of l) →
  NoDup (map name_of (erase_first name_of name l))
  ∧ ∀ n, n ∈ map name_of (erase_first name_of name l) ↔ n ∈ map name_of l ∧ n ≠ name.
Proof.
  induction l as [|x l IH]; simpl.
  - intros _. split; [constructor|]. intros n. split; [by intros ?%elem_of_nil|by intros [?%elem_of_nil _]].
  - intros [Hx Hl]%NoDup_cons. destruct (IH Hl) as [Hd Hin]. case_decide as Hn; simpl.
    + split; [done|]. intros n. rewrite elem_of_cons. split; [|naive_solver]. intros ?. split; [by right|congruence].
    + split.
      * constructor; [|done]. rewrite Hin. tauto.
      * intros n. rewrite !elem_of_cons, Hin. naive_solver.
Qed.

Lemma erase_all_names names (l : list A) :
  NoDup (map name_of l) →
  ∀ n, n ∈ map name_of (foldl (λ l name, erase_first name_of name l) l names) ↔ n ∈ map name_of l ∧ n ∉ names.
Proof.
  revert l. induction names as [|name names IH]; intros l Hl n; simpl.
  - split; [intros; split; [done|apply not_elem_of_nil]|tauto].
  - destruct (erase_first_names name l Hl) as [Hd Hin]. rewrite IH by done. rewrite Hin, not_elem_of_cons. tauto.
Qed.

Lemma add_new_names (add l : list A) :
  NoDup (map name_of l) → NoDup (map name_of add) →
  let r := add_new name_of l add in
  NoDup (map name_of r.1)
  ∧ (∀ n, n ∈ map name_of r.1 ↔ n ∈ map name_of l ∨ n ∈ map name_of add)
  ∧ ∀ n, n ∈ r.2 ↔ n ∈ map name_of add ∧ n ∉ map name_of l.
Proof.
  intros Hl Hadd. unfold add_new. cut (∀ names,
    let r := foldl (λ '(l, names) x, if named_in name_of name_of l x then (l, names) else (l ++ [x], names ++ [name_of x])) (l, names) add in
    NoDup (map name_of r.1) ∧ (∀ n, n ∈ map name_of r.1 ↔ n ∈ map name_of l ∨ n ∈ map name_of add)
    ∧ ∀ n, n ∈ r.2 ↔ n ∈ names ∨ (n ∈ map name_of add ∧ n ∉ map name_of l)).
  { intros Hr. destruct (Hr []) as (H1 & H2 & H3). split_and!; [done..|]. intros n. rewrite H3.
    split; [intros [?%elem_of_nil|?]; done|by right]. }
  revert l Hl Hadd. induction add as [|x add IH]; intros l Hl Hadd names; cbn [foldl].
  - simpl. split_and!; [done|..]; intros n; split; try tauto; intros [?|?]; try done.
    + by apply elem_of_nil in H.
    + by destruct H as [?%elem_of_nil _].
  - simpl in Hadd. apply NoDup_cons in Hadd as [Hx Hadd]. rewrite named_in_dec. case_bool_decide as Hin.
    + destruct (IH l Hl Hadd names) as (H1 & H2 & H3). split_and!; [done|..]; intros n; [rewrite H2|rewrite H3];
        simpl; rewrite elem_of_cons; naive_solver.
    + destruct (IH (l ++ [x])) with (names := names ++ [name_of x]) as (H1 & H2 & H3); [|done|].
      { rewrite map_app. apply NoDup_app. split_and!; [done| |apply NoDup_singleton].
        intros n Hn ->%list_elem_of_singleton. done. }
      split_and!; [done|..]; intros n; [rewrite H2|rewrite H3]; rewrite map_app; simpl;
        rewrite ?elem_of_app, ?list_elem_of_singleton, ?elem_of_cons; [tauto|].
      destruct (decide (n = name_of x)) as [->|?]; tauto.
Qed.
End Lists.

Section Update.
Context {T : Type} `{HT : AccessTokenKit T} `{StdSort}.

Definition defined_names (i : InnerBundleInfo) : list string := map dp_name (GetAllDefinePermissions i).
Definition requested_names (i : InnerBundleInfo) : list string := map rp_name (GetAllRequestPermissions i).

Lemma PermissionDefList_names i : map tpd_permissionName (GetPermissionDefList i) = defined_names i.
Proof. unfold GetPermissionDefList, defined_names. by rewrite map_map. Qed.

Lemma PermissionStateFullList_names i : map psf_permissionName (GetPermissionStateFullList i) = requested_names i.
Proof. unfold GetPermissionStateFullList, requested_names. by rewrite map_map. Qed.

Lemma elem_of_List_filter {A} (f : A → bool) l x : x ∈ List.filter f l ↔ x ∈ l ∧ f x = true.
Proof. rewrite !list_elem_of_In. apply filter_In. Qed.

Lemma dropped_names {A} (name_of : A → string) (old new : list A) n :
  n ∈ (name_of <$> List.filter (λ x, negb (named_in name_of name_of new x)) old) ↔ n ∈ (name_of <$> old) ∧ n ∉ map name_of new.
Proof.
  rewrite (list_elem_of_fmap name_of (List.filter _ _)), (list_elem_of_fmap name_of old). split.
  - intros (x & -> & [Hx Hn]%elem_of_List_filter). split; [by exists x|]. rewrite named_in_dec in Hn.
    by apply negb_true_iff, bool_decide_eq_false in Hn.
  - intros [(x & -> & Hx) Hn]. exists x. split; [done|]. apply elem_of_List_filter. split; [done|].
    rewrite named_in_dec. by apply negb_true_iff, bool_decide_eq_false.
Qed.

(** C29: When a bundle is updated, its token is told to hold exactly these
    permissions: the ones the new bundle requests or defines, and of those it
    held before all but the ones that the old bundle had and the new one has
    no more.  The answer names those requested permissions that the token did
    not hold, which are the ones that are then granted. *)
Theorem UpdateDefineAndRequestPermissions_correct tokenId oldInfo newInfo (t : T) heldDefs heldReqs :
  GetDefPermissions tokenId t = Some heldDefs →
  GetAllReqPermissionStateFull (GetReqPermissions t) tokenId = Some heldReqs →
  NoDup (map tpd_permissionName heldDefs) → NoDup (map psf_permissionName heldReqs) →
  NoDup (defined_names newInfo) → NoDup (requested_names newInfo) →
  ∃ defs reqs names,
    (UpdateDefineAndRequestPermissions tokenId oldInfo newInfo t
     = let '(t', ok) := UpdateHapToken tokenId (GetAppId newInfo) (policy (GetAppPrivilegeLevel newInfo) defs reqs) t in
       (t', if ok then Some names else None))
    ∧ (∀ n, n ∈ map tpd_permissionName defs
         ↔ n ∈ defined_names newInfo ∨ (n ∈ map tpd_permissionName heldDefs ∧ n ∉ defined_names oldInfo))
    ∧ (∀ n, n ∈ map psf_permissionName reqs
         ↔ n ∈ requested_names newInfo ∨ (n ∈ map psf_permissionName heldReqs ∧ n ∉ requested_names oldInfo))
    ∧ ∀ n, n ∈ names ↔ n ∈ requested_names newInfo ∧ n ∉ map psf_permissionName heldReqs.
Proof.
  intros Hd Hr Hheld1 Hheld2 Hnew1 Hnew2. unfold UpdateDefineAndRequestPermissions, GetNewPermissionDefList, GetNewPermissionStateFull.
  rewrite Hd, Hr. rewrite <- PermissionDefList_names in Hnew1. rewrite <- PermissionStateFullList_names in Hnew2.
  destruct (add_new_names tpd_permissionName _ _ Hheld1 Hnew1) as (H1 & H2 & _).
  destruct (add_new_names psf_permissionName _ _ Hheld2 Hnew2) as (H3 & H4 & H5).
  destruct (add_new psf_permissionName heldReqs _) as [reqs names]. simpl in H3, H4, H5.
  eexists _, _, names. split_and!; [done|..]; intros n.
  - rewrite erase_all_names, H2 by done. rewrite PermissionDefList_names. unfold GetNeedDeleteDefinePermissionName.
    rewrite (dropped_names dp_name). fold (defined_names oldInfo) (defined_names newInfo).
    destruct (decide (n ∈ defined_names newInfo)), (decide (n ∈ defined_names oldInfo)); tauto.
  - rewrite erase_all_names, H4 by done. rewrite PermissionStateFullList_names. unfold GetNeedDeleteRequestPermissionName.
    rewrite (dropped_names rp_name). fold (requested_names oldInfo) (requested_names newInfo).
    destruct (decide (n ∈ requested_names newInfo)), (decide (n ∈ requested_names oldInfo)); tauto.
  - rewrite H5. by rewrite PermissionStateFullList_names.
Qed.
End Update.

(** ** Examples *)

Section Demo.
#[local] Existing Instance merge_std_sort.

Definition demo_def (name : string) (mode : GrantMode) (level : ATokenAplEnum) : TokenPermissionDef :=
  mkTokenPermissionDef name "ohos" mode level true true "" 0 "" 0.
Definition demo_state (name : string) : PermissionStateFull := mkPermissionStateFull name true [] [].

(** A service that keeps the grants and the last policy it was given. *)
#[local] Instance demo_kit : AccessTokenKit (list (Z * string) * option HapPolicyParams) := {|
  AllocHapToken _ p t := ((t.1, Some p), 1);
  UpdateHapToken _ _ p t := ((t.1, Some p), true);
  DeleteToken _ t := (t, true);
  KitGrantPermission tokenId name _ t := ((t.1 ++ [(tokenId, name)], t.2), true);
  KitClearUserGrantedPermissionState _ t := (t, true);
  GetDefPermission name _ :=
    if decide (name = "ohos.A") then Some (demo_def name SYSTEM_GRANT APL_NORMAL)
    else if decide (name = "ohos.B") then Some (demo_def name SYSTEM_GRANT APL_SYSTEM_CORE) else None;
  GetDefPermissions _ _ := Some [];
  GetReqPermissions _ _ system := Some (if system then [demo_state "ohos.C"] else [demo_state "ohos.A"]);
  IsNativeToken _ _ := false;
  GetHapTokenID _ _ _ _ := 1;
  VerifyAccessToken _ _ _ := 0;
  apl_value a := apl_rank a + 1;
  grantMode_value m := match m with USER_GRANT => 0 | SYSTEM_GRANT => 1 end;
|}.

Example one_refused : GrantRequestPermissions ∅ demo_requests 7 ([], None) = (([], None), false).
Proof. vm_compute. reflexivity. Qed.

Example core_granted :
  (GrantRequestPermissions ∅ (SetAppPrivilegeLevel AVAILABLELEVEL_SYSTEM_CORE demo_requests) 7 ([], None)).1.1
  = [(7, "ohos.A"); (7, "ohos.B")].
Proof. vm_compute. reflexivity. Qed.

Lemma UpdateDefineAndRequestPermissions_correct_witness :
  let t0 := ([], None) in
  ∃ defs reqs names,
    UpdateDefineAndRequestPermissions 7 demo_requests demo_requests t0
    = (([], Some (policy (GetAppPrivilegeLevel demo_requests) defs reqs)), Some names)
    ∧ ∀ n, n ∈ names ↔ n ∈ requested_names demo_requests ∧ n ∉ ["ohos.A"; "ohos.C"].
Proof.
  destruct (UpdateDefineAndRequestPermissions_correct 7 demo_requests demo_requests ([], None) []
              [demo_state "ohos.A"; demo_state "ohos.C"]) as (defs & reqs & names & E & _ & _ & Hn);
    [reflexivity|reflexivity| | | | |].
  1-4: by apply (bool_decide_unpack _); vm_compute.
  exists defs, reqs, names. split; [exact E|exact Hn].
Defined.
End Demo.
