(* ===== verification/BundleStateStorage.v ===== *)
(** * BundleStateStorage: the file that keeps what users disabled

    Models services/bundlemgr/src/bundle_state_storage.cpp: the enabled state
    of each application and user in a JSON file, written in place.  The file
    is its content, or [None] when it cannot be opened; an operation that
    lets an exception of the JSON library escape gives [None].

    The JSON library is the class [Json]: its text of an object, the non
    strict [operator>>], which reads one value and leaves the rest, and the
    strict [json::parse].  [SplitStr] of the utils library is a parameter. *)

From stdpp Require Import strings pretty countable.
From Stdlib Require Import Ascii.
From S2P Require Import Prelude Strings StdMap BundleTypes Skill InnerBundleInfo.

Open Scope string_scope.
Open Scope list_scope.
Open Scope Z_scope.

(** ** Text *)

(** The white space of JSON texts. *)
Definition is_blank (c : ascii) : bool :=
  bool_decide (c ∈ [" "%char; "009"%char; "010"%char; "013"%char]).
Definition blank : string → bool := str_forall is_blank.
Definition endl : string := String "010"%char "".

(** [f.seekp(0, std::ios::beg); f << text]: the file is not truncated. *)
Definition overwrite (text content : string) : string := text +:+ str_drop (String.length text) content.

(** ** JSON *)

Class Json := {
  json_dump : stdmap string BundleUserInfo → string;
  json_read : string → option (stdmap string BundleUserInfo * string);
  json_parse : string → option (stdmap string BundleUserInfo);
  json_dump_last m : ∃ s, json_dump m = s +:+ "}";
  json_read_dump m rest : json_read (json_dump m +:+ rest) = Some (m, rest);
  json_parse_dump m rest : json_parse (json_dump m +:+ rest) = if blank rest then Some m else None;
}.

Section Storage.
Context `{Json}.
Context (SplitStr : string → string → list string).

(** The key of a user of a bundle is [NameAndUserIdToKey] of InnerBundleInfo.v. *)
Definition KeyToNameAndUserId (key : string) : option (string * Z) :=
  match SplitStr key "_" with
  | [bundleName; userId] => Some (bundleName, atoi userId)
  | _ => None
  end.

Abbreviation state_map := (stdmap string (stdmap Z BundleUserInfo)).

Definition add_bundle_state (infos : state_map) (item : string * BundleUserInfo) : state_map :=
  match KeyToNameAndUserId item.1 with
  | None => infos
  | Some (bundleName, userId) =>
      match infos !! bundleName with
      | None => <[bundleName := <[userId := item.2]> ∅]> infos
      | Some users => <[bundleName := <[userId := item.2]> users]> infos
      end
  end.

Definition LoadAllBundleStateDataFromJson (jParse : option (stdmap string BundleUserInfo)) (infos : state_map) :
  state_map * bool :=
  match jParse with
  | None => (infos, false)
  | Some items =>
      let infos := foldl add_bundle_state infos (elems items) in
      (infos, negb (sm_is_empty infos))
  end.

Definition LoadAllBundleStateData (file : option string) (infos : state_map) : state_map * bool :=
  match file with
  | None => (infos, false)
  | Some content => if str_empty content then (infos, false) else LoadAllBundleStateDataFromJson (json_parse content) infos
  end.

Definition SaveBundleStateStorage (bundleName : string) (userId : Z) (bundleUserInfo : BundleUserInfo)
  (file : option string) : option (option string * bool) :=
  if str_empty bundleName || (userId <? 0) then Some (file, false)
  else
    let appName := NameAndUserIdToKey bundleName userId in
    match file with
    | None => Some (None, false)
    | Some content =>
        if str_empty content
        then Some (Some (overwrite (json_dump (<[appName := bundleUserInfo]> ∅) +:+ endl) content), true)
        else match json_read content with
             | None => None
             | Some (jsonFile, _) =>
                 Some (Some (overwrite (json_dump (<[appName := bundleUserInfo]> jsonFile) +:+ endl) content), true)
             end
    end.

Definition DeleteBundleState (bundleName : string) (userId : Z) (file : option string) : option (option string * bool) :=
  if str_empty bundleName || (userId <? 0) then Some (file, false)
  else
    let appName := NameAndUserIdToKey bundleName userId in
    match file with
    | None => Some (None, false)
    | Some content =>
        if str_empty content then Some (file, true)
        else match json_read content with
             | None => None
             | Some (jParse, _) =>
                 match jParse !! appName with
                 | None => Some (file, true)
                 | Some _ =>
                     let jParse := delete appName jParse in
                     Some (Some (if negb (sm_is_empty jParse) then json_dump jParse else ""), true)
                 end
             end
    end.
End Storage.

(** * Properties *)


(** ** Keys *)

(** A piece of a name: not empty, without separator and without blank. *)
Definition piece_char (c : ascii) : bool := negb (bool_decide (c = "_"%char)) && negb (is_blank c).
Definition piece (s : string) : Prop := s ≠ "" ∧ str_forall piece_char s = true.

Fixpoint joined (ps : list string) : string :=
  match ps with
  | [] => ""
  | [p] => p
  | p :: ps' => p +:+ "_" +:+ joined ps'
  end.

Lemma joined_snoc ps p : ps ≠ [] → joined (ps ++ [p]) = joined ps +:+ "_" +:+ p.
Proof.
  induction ps as [|q ps IH]; [done|]. intros _. destruct ps as [|r ps]; [done|].
  change (q +:+ "_" +:+ joined ((r :: ps) ++ [p]) = (q +:+ "_" +:+ joined (r :: ps)) +:+ "_" +:+ p).
  rewrite IH by done. by rewrite !string_app_assoc.
Qed.

Lemma pretty_piece (z : Z) : piece (pretty z).
Proof.
  split.
  { destruct z as [|p|p]; [done| |done]. rewrite pretty_pos_go, pretty_N_go_step by lia.
    by apply pretty_N_go_ne_empty. }
  apply pretty_Z_forall; [|done]. intros n Hn.
  assert (n = 0 ∨ n = 1 ∨ n = 2 ∨ n = 3 ∨ n = 4 ∨ n = 5 ∨ n = 6 ∨ n = 7 ∨ n = 8 ∨ n = 9)%N as Hc by lia.
  repeat destruct Hc as [->|Hc]; [..|subst]; reflexivity.
Qed.

(** ** The text of the file *)

Lemma str_drop_app_le n s t : (n <= String.length s)%nat → str_drop n (s +:+ t) = str_drop n s +:+ t.
Proof.
  revert n. induction s as [|c s IH]; intros [|n] Hn; simpl in Hn; try lia; [done|done|].
  change (str_drop n (s +:+ t) = str_drop n s +:+ t). apply IH. lia.
Qed.

Lemma str_forall_app P s t : str_forall P (s +:+ t) = str_forall P s && str_forall P t.
Proof.
  induction s as [|c s IH]; [done|].
  change (P c && str_forall P (s +:+ t) = P c && str_forall P s && str_forall P t). by rewrite IH, andb_assoc.
Qed.

Section Properties.
Context `{Json}.
Context (SplitStr : string → string → list string).

(** SplitStr gives back the pieces that were joined with the separator. *)
Definition splits_joined : Prop :=
  ∀ ps, ps ≠ [] → Forall piece ps → SplitStr (joined ps) "_" = ps.

(** The file holds the object [m], and nothing after it but white space. *)
Definition file_holds (m : stdmap string BundleUserInfo) (content : string) : Prop :=
  (content = "" ∧ m = ∅) ∨ ∃ rest, content = json_dump m +:+ rest ∧ blank rest = true.

Lemma dump_not_empty m : str_empty (json_dump m +:+ endl) = false.
Proof.
  destruct (json_dump_last m) as [s ->]. rewrite string_app_assoc. by destruct s.
Qed.

Lemma save_content b u info m content :
  b ≠ "" → 0 <= u → file_holds m content →
  SaveBundleStateStorage b u info (Some content)
  = Some (Some (overwrite (json_dump (<[NameAndUserIdToKey b u := info]> m) +:+ endl) content), true).
Proof.
  intros Hb Hu Hf. unfold SaveBundleStateStorage.
  destruct (str_empty b) eqn:Eb; [by apply str_empty_spec in Eb|]. simpl.
  destruct (u <? 0) eqn:Eu; [lia|].
  destruct Hf as [[-> ->]|(rest & -> & Hrest)]; [done|].
  rewrite json_read_dump. destruct (json_dump_last m) as [s Hs]. rewrite Hs at 1.
  rewrite string_app_assoc. by destruct s.
Qed.

(** Saving a state that is shorter than what the file holds destroys the
    file: the end of the old text stays behind the new one, and loading,
    which parses strictly, then fails, so that the states of all bundles and
    users are lost at the next start. *)
Lemma shorter_state_corrupts b u info m infos :
  b ≠ "" → 0 <= u →
  (String.length (json_dump (<[NameAndUserIdToKey b u := info]> m)) + 2 <= String.length (json_dump m))%nat →
  ∃ content,
    SaveBundleStateStorage b u info (Some (json_dump m +:+ endl)) = Some (Some content, true)
    ∧ LoadAllBundleStateData SplitStr (Some content) infos = (infos, false).
Proof.
  intros Hb Hu Hlen. set (m' := <[NameAndUserIdToKey b u := info]> m) in *.
  exists (overwrite (json_dump m' +:+ endl) (json_dump m +:+ endl)). split.
  { apply save_content; [done|done|]. right. by exists endl. }
  destruct (json_dump_last m) as [s Hs]. rewrite Hs, string_length_app in Hlen. simpl in Hlen.
  unfold overwrite. rewrite string_app_assoc.
  unfold LoadAllBundleStateData. rewrite json_parse_dump.
  assert (str_empty (json_dump m' +:+ endl +:+
    str_drop (String.length (json_dump m' +:+ endl)) (json_dump m +:+ endl)) = false) as ->.
  { destruct (json_dump_last m') as [s' ->]. rewrite !string_app_assoc. by destruct s'. }
  rewrite Hs, (string_app_assoc s). rewrite str_drop_app_le by (rewrite string_length_app; simpl; lia).
  unfold blank. rewrite !str_forall_app. simpl str_forall. rewrite !andb_false_r. done.
Qed.

Lemma key_parse ps u :
  splits_joined → ps ≠ [] → Forall piece ps →
  KeyToNameAndUserId SplitStr (NameAndUserIdToKey (joined ps) u)
  = match ps with [b] => Some (b, u) | _ => None end.
Proof.
  intros Hsplit Hne Hps. unfold KeyToNameAndUserId, NameAndUserIdToKey.
  rewrite <- joined_snoc by done. rewrite Hsplit.
  - destruct ps as [|p [|q ps]]; simpl; [done| |by destruct ps].
    by rewrite atoi_pretty.
  - by destruct ps.
  - apply Forall_app. split; [done|]. apply Forall_singleton, pretty_piece.
Qed.

(** The key of a user's state is read back as the bundle name and the user
    exactly when the bundle name has no underscore: the stored state of a
    bundle whose name has one is ignored at every start. *)
Theorem state_key_round_trip ps u :
  splits_joined → ps ≠ [] → Forall piece ps →
  KeyToNameAndUserId SplitStr (NameAndUserIdToKey (joined ps) u)
  = if (length ps =? 1)%nat then Some (joined ps, u) else None.
Proof.
  intros Hsplit Hne Hps. rewrite key_parse by done. by destruct ps as [|p [|q ps]].
Qed.

(** Every key of the object was written for some user of some bundle. *)
Definition keys_written (m : stdmap string BundleUserInfo) : Prop :=
  ∀ k, k ∈ sm_keys m → ∃ ps u, ps ≠ [] ∧ Forall piece ps ∧ k = NameAndUserIdToKey (joined ps) u.

Definition state_of (infos : stdmap string (stdmap Z BundleUserInfo)) (b : string) (u : Z) : option BundleUserInfo :=
  match infos !! b with Some users => users !! u | None => None end.

Lemma add_state_view infos k info ps v b u :
  splits_joined → ps ≠ [] → Forall piece ps → k = NameAndUserIdToKey (joined ps) v →
  state_of (add_bundle_state SplitStr infos (k, info)) b u
  = if decide (ps = [b] ∧ v = u) then Some info else state_of infos b u.
Proof.
  intros Hsplit Hne Hps ->. unfold add_bundle_state. simpl. rewrite key_parse by done.
  destruct ps as [|p [|q ps]]; [done| |by rewrite decide_False by naive_solver].
  unfold state_of. destruct (infos !! p) as [users|] eqn:E.
  all: simpl; rewrite sm_lookup_insert.
  all: destruct (decide (p = b)) as [->|Hpb]; [|by rewrite decide_False by naive_solver].
  all: rewrite ?E; simpl; rewrite sm_lookup_insert.
  all: destruct (decide (v = u)) as [->|Hvu]; [by rewrite decide_True|by rewrite decide_False by naive_solver].
Qed.

Lemma load_states_view l infos b u info :
  splits_joined → NoDup l.*1 → piece b →
  (∀ k, k ∈ l.*1 → ∃ ps v, ps ≠ [] ∧ Forall piece ps ∧ k = NameAndUserIdToKey (joined ps) v) →
  (NameAndUserIdToKey b u, info) ∈ l ∨ (state_of infos b u = Some info ∧ NameAndUserIdToKey b u ∉ l.*1) →
  state_of (foldl (add_bundle_state SplitStr) infos l) b u = Some info.
Proof.
  intros Hsplit ND Hb. revert infos. induction l as [|[k i] l IH]; intros infos Hkeys Hcase; simpl.
  { destruct Hcase as [Hin|[Hs _]]; [by apply not_elem_of_nil in Hin|done]. }
  simpl in ND. apply NoDup_cons in ND as [Hk ND].
  destruct (Hkeys k ltac:(left)) as (ps & v & Hne & Hps & ->).
  apply IH; [done|intros k Hin; apply Hkeys; by right|].
  rewrite (add_state_view infos _ i ps v b u) by done.
  destruct (decide (ps = [b] ∧ v = u)) as [[-> ->]|Hd].
  - simpl in *. right. split; [|done]. destruct Hcase as [Hin|[_ Hnot]]; [|exfalso; apply Hnot; left].
    apply elem_of_cons in Hin as [Heq|Hin]; [by simplify_eq|].
    exfalso. apply Hk. apply list_elem_of_fmap. by exists (NameAndUserIdToKey b u, info).
  - destruct Hcase as [Hin|[Hs Hnot]]; [|right; split; [done|set_solver]].
    left. apply elem_of_cons in Hin as [Heq|Hin]; [|done]. exfalso. apply Hd.
    injection Heq as Hkey _. assert (Forall piece [b]) as Hbs by (by apply Forall_singleton).
    pose proof (key_parse [b] u Hsplit ltac:(done) Hbs) as H1.
    change (joined [b]) with b in H1. rewrite Hkey, key_parse in H1 by done.
    destruct ps as [|p [|q ps]]; [done| |done]. by simplify_eq.
Qed.

(** What was saved for a user of a bundle is loaded at the next start,
    when the bundle name has no underscore and the new text is at least as
    long as the file. *)
Lemma save_then_load b u info m content :
  splits_joined → piece b → 0 <= u → sm_wf m → keys_written m → file_holds m content →
  let m' := <[NameAndUserIdToKey b u := info]> m in
  (String.length content <= String.length (json_dump m' +:+ endl))%nat →
  ∃ content',
    SaveBundleStateStorage b u info (Some content) = Some (Some content', true)
    ∧ file_holds m' content' ∧ keys_written m'
    ∧ let '(infos, ok) := LoadAllBundleStateData SplitStr (Some content') ∅ in
      ok = true ∧ state_of infos b u = Some info.
Proof.
  intros Hsplit Hb Hu Hm Hkeys Hf m' Hlen. exists (json_dump m' +:+ endl).
  assert (overwrite (json_dump m' +:+ endl) content = json_dump m' +:+ endl) as Hover.
  { unfold overwrite. by rewrite str_drop_all, string_app_nil_r. }
  assert (sm_wf m') as Hm' by (unfold m'; auto with cpp).
  assert (keys_written m') as Hkeys'.
  { intros k Hk. destruct (m !! k) as [v|] eqn:Ek.
    - apply Hkeys. apply sm_lookup_elem in Ek. apply list_elem_of_fmap. by exists (k, v).
    - apply list_elem_of_fmap in Hk as ([k' v] & -> & Hk). apply sm_elem_lookup in Hk; [|done].
      unfold m' in Hk. rewrite sm_lookup_insert in Hk. simpl in *. case_decide; [subst|congruence].
      exists [b], u. split_and!; [done|by apply Forall_singleton|done]. }
  split_and!; [rewrite <- Hover; apply save_content; [apply Hb|done|done]|right; by exists endl|done|].
  unfold LoadAllBundleStateData. rewrite dump_not_empty, json_parse_dump. simpl.
  assert (state_of (foldl (add_bundle_state SplitStr) ∅ (elems m')) b u = Some info) as Hload.
  { apply load_states_view; [done|by apply sm_wf_NoDup|done|exact Hkeys'|]. left. apply sm_lookup_elem.
    unfold m'. by rewrite sm_lookup_insert_eq. }
  split; [|exact Hload]. unfold sm_is_empty. unfold state_of in Hload.
  destruct (foldl _ _ _) as [[|p l]]; done.
Qed.
End Properties.

(** ** A serialisation that satisfies the laws *)

Definition user_info_tuple (u : BundleUserInfo) : Z * bool * list string :=
  (bu_userId u, bu_enabled u, bu_disabledAbilities u).
Definition tuple_user_info (t : Z * bool * list string) : BundleUserInfo :=
  mkBundleUserInfo t.1.1 t.1.2 t.2.

Fixpoint bits (p : positive) : string :=
  match p with
  | xH => "}"
  | xO p => String "0"%char (bits p)
  | xI p => String "1"%char (bits p)
  end.
Fixpoint unbits (s : string) : option (positive * string) :=
  match s with
  | String "}"%char rest => Some (xH, rest)
  | String "0"%char s' => prod_map xO id <$> unbits s'
  | String "1"%char s' => prod_map xI id <$> unbits s'
  | _ => None
  end.

Lemma unbits_bits p rest : unbits (bits p +:+ rest) = Some (p, rest).
Proof.
  induction p as [p IH|p IH|]; [..|done].
  - change (prod_map xI id <$> unbits (bits p +:+ rest) = Some (p~1, rest)%positive). by rewrite IH.
  - change (prod_map xO id <$> unbits (bits p +:+ rest) = Some (p~0, rest)%positive). by rewrite IH.
Qed.

Lemma bits_last p : ∃ s, bits p = s +:+ "}".
Proof.
  induction p as [p [s IH]|p [s IH]|]; [exists (String "1" s)|exists (String "0" s)|by exists ""].
  all: simpl; by rewrite IH.
Qed.

Definition bits_dump (m : stdmap string BundleUserInfo) : string :=
  bits (encode (map (λ p, (p.1, user_info_tuple p.2)) (elems m))).
Definition bits_read (s : string) : option (stdmap string BundleUserInfo * string) :=
  match unbits s with
  | None => None
  | Some (p, rest) =>
      match decode p with
      | None => None
      | Some l => Some (StdMap (map (λ p : string * (Z * bool * list string), (p.1, tuple_user_info p.2)) l), rest)
      end
  end.

Lemma bits_read_dump m rest : bits_read (bits_dump m +:+ rest) = Some (m, rest).
Proof.
  unfold bits_read, bits_dump. rewrite unbits_bits, decode_encode. destruct m as [l].
  do 3 f_equal. simpl. rewrite map_map. rewrite <- (map_id l) at 2. apply map_ext. by intros [k []].
Qed.

Program Definition bits_json : Json := {|
  json_dump := bits_dump;
  json_read := bits_read;
  json_parse s := match bits_read s with Some (m, rest) => if blank rest then Some m else None | None => None end;
|}.
Next Obligation. intros m. apply bits_last. Qed.
Next Obligation. intros m rest. apply bits_read_dump. Qed.
Next Obligation. intros m rest. simpl. by rewrite bits_read_dump. Qed.

(** A splitter: cuts at every underscore. *)
Fixpoint split_underscore (acc s : string) : list string :=
  match s with
  | EmptyString => [acc]
  | String c s' => if decide (c = "_"%char) then acc :: split_underscore "" s'
                   else split_underscore (acc +:+ String c "") s'
  end.
Definition demo_split (s sep : string) : list string := split_underscore "" s.

Lemma split_piece acc p rest :
  str_forall piece_char p = true → split_underscore acc (p +:+ "_" +:+ rest) = (acc +:+ p) :: split_underscore "" rest.
Proof.
  revert acc. induction p as [|c p IH]; intros acc Hp; [by rewrite string_app_nil_r|].
  change (String c p +:+ "_" +:+ rest) with (String c (p +:+ "_" +:+ rest)).
  change (piece_char c && str_forall piece_char p = true) in Hp. apply andb_true_iff in Hp as [Hc Hp].
  cbn [split_underscore]. rewrite decide_False.
  - rewrite IH by done. by rewrite string_app_assoc.
  - intros ->. done.
Qed.

Lemma split_last acc p : str_forall piece_char p = true → split_underscore acc p = [acc +:+ p].
Proof.
  revert acc. induction p as [|c p IH]; intros acc Hp; [by rewrite string_app_nil_r|].
  change (piece_char c && str_forall piece_char p = true) in Hp. apply andb_true_iff in Hp as [Hc Hp].
  cbn [split_underscore]. rewrite decide_False.
  - rewrite IH by done. by rewrite string_app_assoc.
  - intros ->. done.
Qed.

Lemma demo_splits : splits_joined demo_split.
Proof.
  intros ps Hne Hps. unfold demo_split. induction Hps as [|p ps [_ Hp] Hps IH]; [done|].
  destruct ps as [|q ps]; [by apply split_last|].
  change (joined (p :: q :: ps)) with (p +:+ "_" +:+ joined (q :: ps)). rewrite split_piece by done.
  by rewrite IH.
Qed.

Definition demo_disabled : BundleUserInfo := mkBundleUserInfo 100 true ["Main"].
Definition demo_states : stdmap string BundleUserInfo := <["com.demo_100" := demo_disabled]> ∅.

(** Enabling the one disabled ability again, with the application disabled. *)
Lemma shorter_state_corrupts_witness :
  ∃ content,
    @SaveBundleStateStorage bits_json "com.demo" 100 (mkBundleUserInfo 100 false [])
      (Some (@json_dump bits_json demo_states +:+ endl)) = Some (Some content, true)
    ∧ @LoadAllBundleStateData bits_json demo_split (Some content) ∅ = (∅, false).
Proof.
  apply (@shorter_state_corrupts bits_json demo_split "com.demo" 100 (mkBundleUserInfo 100 false []) demo_states ∅).
  - discriminate.
  - lia.
  - apply Nat.leb_le. vm_compute. reflexivity.
Defined.

Lemma state_key_round_trip_witness :
  KeyToNameAndUserId demo_split (NameAndUserIdToKey "com.my_app" 100) = None.
Proof.
  apply (state_key_round_trip demo_split ["com.my"; "app"] 100); [exact demo_splits|discriminate|].
  repeat constructor; discriminate.
Defined.

Lemma save_then_load_witness :
  ∃ content',
    @SaveBundleStateStorage bits_json "com.demo" 100 demo_disabled (Some "") = Some (Some content', true)
    ∧ @file_holds bits_json (<["com.demo_100" := demo_disabled]> ∅) content' ∧ keys_written (<["com.demo_100" := demo_disabled]> ∅)
    ∧ let '(infos, ok) := @LoadAllBundleStateData bits_json demo_split (Some content') ∅ in
      ok = true ∧ state_of infos "com.demo" 100 = Some demo_disabled.
Proof.
  apply (@save_then_load bits_json demo_split "com.demo" 100 demo_disabled ∅ "").
  - exact demo_splits.
  - split; [discriminate|reflexivity].
  - lia.
  - apply sm_wf_empty.
  - intros k Hk. by apply not_elem_of_nil in Hk.
  - by left.
  - simpl. lia.
Defined.
