(* ===== verification/BundleDataMgr.v ===== *)
(** * BundleDataMgr: the bundles of the device

    Models services/bundlemgr/src/bundle_data_mgr.cpp: the installed bundles,
    their install states, the ids behind the uids, the users, and the
    operations of the installer and of the clients on them, with
    bundle_data_storage_database.cpp below.  Each public operation takes the
    manager's lock for its whole body, so an operation is one step; a result
    is the new manager and the answer, and an operation that lets an
    exception of the JSON library escape gives [None].

    The key-value store is the class [KvStore]; a stored bundle is the
    [InnerBundleInfo] itself (its JSON text is not modelled).  The uid of the
    caller of the binder call is the parameter [callingUid]. *)

From Stdlib Require Import Sorting.Sorted.
From stdpp Require Import strings gmap.
From S2P Require Import Prelude Strings StdMap BundleTypes Skill InnerBundleInfo InnerBundleQuery BundleStateStorage.

Open Scope string_scope.
Open Scope list_scope.
Open Scope Z_scope.

(** ** The store of the bundles *)

Inductive Status := SUCCESS | IPC_ERROR | OTHER_ERROR.
#[export] Instance Status_eq_dec : EqDecision Status.
Proof. solve_decision. Defined.

Class KvStore (K : Type) := {
  kv_Check : K → K * bool;
  kv_Put : string → InnerBundleInfo → K → K * Status;
  kv_Delete : string → K → K * Status;
  kv_entries : K → stdmap string InnerBundleInfo;
  kv_Check_entries k : kv_entries (kv_Check k).1 = kv_entries k;
  kv_Put_entries key i k :
    kv_entries (kv_Put key i k).1
    = match (kv_Put key i k).2 with SUCCESS => <[key := i]> (kv_entries k) | _ => kv_entries k end;
  kv_Delete_entries key k :
    kv_entries (kv_Delete key k).1
    = match (kv_Delete key k).2 with SUCCESS => delete key (kv_entries k) | _ => kv_entries k end;
}.

(** BundleDataStorageDatabase *)
Definition SaveStorageBundleInfo `{KvStore K} (i : InnerBundleInfo) (k : K) : K * bool :=
  let '(k, ready) := kv_Check k in
  if negb ready then (k, false)
  else
    let '(k, status) := kv_Put (GetBundleName i) i k in
    let '(k, status) := if decide (status = IPC_ERROR) then kv_Put (GetBundleName i) i k else (k, status) in
    (k, bool_decide (status = SUCCESS)).

Definition DeleteStorageBundleInfo `{KvStore K} (i : InnerBundleInfo) (k : K) : K * bool :=
  let '(k, ready) := kv_Check k in
  if negb ready then (k, false)
  else
    let '(k, status) := kv_Delete (GetBundleName i) k in
    let '(k, status) := if decide (status = IPC_ERROR) then kv_Delete (GetBundleName i) k else (k, status) in
    (k, bool_decide (status = SUCCESS)).

(** ** The manager *)

Inductive InstallState :=
| INSTALL_START | INSTALL_SUCCESS | INSTALL_FAIL
| UNINSTALL_START | UNINSTALL_SUCCESS | UNINSTALL_FAIL
| UPDATING_START | UPDATING_SUCCESS | UPDATING_FAIL
| ROLL_BACK | USER_CHANGE.
#[export] Instance InstallState_eq_dec : EqDecision InstallState.
Proof. solve_decision. Defined.

(** The configuration directories the manager makes and removes for the
    distributed file system, in order. *)
Inductive hmdfs_call := MakeHmdfsConfig (bundleName : string) (bundleId : Z) | RemoveHmdfsConfig (bundleName : string).

Record BundleDataMgr {K : Type} := mkBundleDataMgr {
  dm_bundleInfos : stdmap string InnerBundleInfo;
  dm_installStates : stdmap string InstallState;
  dm_bundleIdMap : stdmap Z string;
  dm_multiUserIdsSet : gset Z;
  dm_dataStorage : K;
  dm_stateFile : option string;
  dm_hmdfs : list hmdfs_call;
}.
Arguments BundleDataMgr K : clear implicits.

#[export] Instance eta_BundleDataMgr K : Eta (BundleDataMgr K) := λ r,
  mkBundleDataMgr K (dm_bundleInfos r) (dm_installStates r) (dm_bundleIdMap r) (dm_multiUserIdsSet r)
    (dm_dataStorage r) (dm_stateFile r) (dm_hmdfs r).

(** ** Users *)

Definition GetUserIdByUid (uid : Z) : Z :=
  if uid <=? INVALID_UID then INVALID_USERID else Z.quot uid BASE_USER_RANGE.

Section Manager.
Context `{KvStore K}.
#[local] Abbreviation mgr := (BundleDataMgr K).
Implicit Types (m : mgr).

Definition HasUserId (userId : Z) (m : mgr) : bool := bool_decide (userId ∈ dm_multiUserIdsSet m).
Definition AddUserId (userId : Z) (m : mgr) : mgr := m <| dm_multiUserIdsSet ::= λ s, {[userId]} ∪ s |>.
Definition RemoveUserId (userId : Z) (m : mgr) : mgr := m <| dm_multiUserIdsSet ::= λ s, s ∖ {[userId]} |>.

Definition GetUserId (callingUid userId : Z) (m : mgr) : Z :=
  if (userId =? ANY_USERID) || (userId =? ALL_USERID) then userId
  else
    let userId := if userId =? UNSPECIFIED_USERID then GetUserIdByUid callingUid else userId in
    if negb (HasUserId userId m) then INVALID_USERID else userId.

(** ** Bundle ids *)

(** [for (i = BASE_APP_UID; i < rbegin()->first; ++i)] from [i], [n] numbers long. *)
Fixpoint first_free (n : nat) (i : Z) (ids : stdmap Z string) : option Z :=
  match n with
  | O => None
  | S n => match ids !! i with None => Some i | Some _ => first_free n (i + 1) ids end
  end.

Definition GenerateBundleId (bundleName : string) (m : mgr) : mgr * option Z :=
  let ids := dm_bundleIdMap m in
  match sm_rbegin ids with
  | None => (m <| dm_bundleIdMap ::= emplace BASE_APP_UID bundleName |>, Some BASE_APP_UID)
  | Some (maxId, _) =>
      match List.find (λ p, bool_decide (p.2 = bundleName)) (elems ids) with
      | Some (bundleId, _) => (m, Some bundleId)
      | None =>
          match first_free (Z.to_nat (maxId - BASE_APP_UID)) BASE_APP_UID ids with
          | Some bundleId =>
              (m <| dm_bundleIdMap ::= emplace bundleId bundleName |>
                 <| dm_hmdfs ::= λ l, l ++ [MakeHmdfsConfig bundleName bundleId] |>, Some bundleId)
          | None =>
              if maxId =? MAX_APP_UID then (m, None)
              else (m <| dm_bundleIdMap ::= emplace (maxId + 1) bundleName |>
                      <| dm_hmdfs ::= λ l, l ++ [MakeHmdfsConfig bundleName (maxId + 1)] |>, Some (maxId + 1))
          end
      end
  end.

(** The uid of a user's copy of a bundle; [int32_t] arithmetic. *)
Definition bundle_uid (userId bundleId : Z) : Z :=
  i32 (i32 (userId * BASE_USER_RANGE) + Z.rem bundleId BASE_USER_RANGE).

Definition GenerateUidAndGid (u : InnerBundleUserInfo) (m : mgr) : mgr * InnerBundleUserInfo * bool :=
  if str_empty (ibu_bundleName u) then (m, u, false)
  else match GenerateBundleId (ibu_bundleName u) m with
       | (m, None) => (m, u, false)
       | (m, Some bundleId) =>
           let uid := bundle_uid (user_of u) bundleId in
           (m, u <| ibu_uid := uid |> <| ibu_gids ::= λ g, g ++ [uid] |>, true)
       end.

(** The id behind the uid of a user's copy. *)
Definition id_of (u : InnerBundleUserInfo) : Z := i32 (ibu_uid u - i32 (user_of u * BASE_USER_RANGE)).

Definition RecycleUidAndGid (i : InnerBundleInfo) (m : mgr) : mgr :=
  match sm_begin (ib_innerBundleUserInfos i) with
  | None => m
  | Some (_, u) =>
      match dm_bundleIdMap m !! id_of u with
      | None => m
      | Some _ => m <| dm_bundleIdMap ::= delete (id_of u) |>
                    <| dm_hmdfs ::= λ l, l ++ [RemoveHmdfsConfig (ibu_bundleName u)] |>
      end
  end.

(** One bundle of [RestoreUidAndGid]: every user is added, the first one gives the id. *)
Definition restore_bundle (m : mgr) (i : InnerBundleInfo) : mgr :=
  let users := sm_vals (ib_innerBundleUserInfos i) in
  let m := foldl (λ m u, AddUserId (user_of u) m) m users in
  match users with
  | [] => m
  | u :: _ => m <| dm_bundleIdMap ::= insert (id_of u) (ibu_bundleName u) |>
                <| dm_hmdfs ::= λ l, l ++ [MakeHmdfsConfig (ibu_bundleName u) (id_of u)] |>
  end.

Definition RestoreUidAndGid (m : mgr) : mgr := foldl restore_bundle m (sm_vals (dm_bundleInfos m)).

(** ** Install states *)

(** The pairs (state, previous state) of [transferStates_]. *)
Definition transferStates : list (InstallState * InstallState) :=
  [ (INSTALL_SUCCESS, INSTALL_START); (INSTALL_FAIL, INSTALL_START);
    (UNINSTALL_START, INSTALL_SUCCESS); (UNINSTALL_START, INSTALL_START); (UNINSTALL_START, UPDATING_SUCCESS);
    (UNINSTALL_FAIL, UNINSTALL_START); (UNINSTALL_SUCCESS, UNINSTALL_START);
    (UPDATING_START, INSTALL_SUCCESS); (UPDATING_SUCCESS, UPDATING_START);
    (UPDATING_FAIL, UPDATING_START); (UPDATING_FAIL, INSTALL_START);
    (UPDATING_START, INSTALL_START); (INSTALL_SUCCESS, UPDATING_START); (INSTALL_SUCCESS, UPDATING_SUCCESS);
    (INSTALL_SUCCESS, UNINSTALL_START); (UPDATING_START, UPDATING_SUCCESS);
    (ROLL_BACK, UPDATING_START); (ROLL_BACK, UPDATING_SUCCESS); (INSTALL_SUCCESS, ROLL_BACK);
    (UNINSTALL_START, USER_CHANGE); (UPDATING_START, USER_CHANGE); (INSTALL_SUCCESS, USER_CHANGE);
    (UPDATING_SUCCESS, USER_CHANGE); (USER_CHANGE, INSTALL_SUCCESS); (USER_CHANGE, UPDATING_SUCCESS);
    (USER_CHANGE, UPDATING_START) ].

Definition IsDeleteDataState (s : InstallState) : bool :=
  match s with INSTALL_FAIL | UNINSTALL_FAIL | UNINSTALL_SUCCESS | UPDATING_FAIL => true | _ => false end.

Definition DeleteBundleInfo (bundleName : string) (s : InstallState) (m : mgr) : mgr :=
  if decide (s = INSTALL_FAIL) then m
  else match dm_bundleInfos m !! bundleName with
       | None => m
       | Some i =>
           let m := RecycleUidAndGid i m in
           m <| dm_dataStorage ::= λ k, (DeleteStorageBundleInfo i k).1 |> <| dm_bundleInfos ::= delete bundleName |>
       end.

Definition can_transfer (s previous : InstallState) : bool := bool_decide ((s, previous) ∈ transferStates).

Definition UpdateBundleInstallState (bundleName : string) (s : InstallState) (m : mgr) : mgr * bool :=
  if str_empty bundleName then (m, false)
  else match dm_installStates m !! bundleName with
       | None => if decide (s = INSTALL_START) then (m <| dm_installStates ::= emplace bundleName s |>, true)
                 else (m, false)
       | Some current =>
           if can_transfer s current then
             if IsDeleteDataState s
             then (DeleteBundleInfo bundleName s (m <| dm_installStates ::= delete bundleName |>), true)
             else (m <| dm_installStates ::= insert bundleName s |>, true)
           else (m, false)
       end.

Definition IsAppOrAbilityInstalled (bundleName : string) (m : mgr) : bool :=
  if str_empty bundleName then false
  else match dm_installStates m !! bundleName with
       | None => false
       | Some s => bool_decide (s = INSTALL_SUCCESS)
       end.

(** ** Installing, updating, removing *)

(** [dataStorage_->SaveStorageBundleInfo(info)] *)
Definition save (i : InnerBundleInfo) (m : mgr) : mgr * bool :=
  let '(k, ok) := SaveStorageBundleInfo i (dm_dataStorage m) in (m <| dm_dataStorage := k |>, ok).

Definition AddInnerBundleInfo (bundleName : string) (info : InnerBundleInfo) (m : mgr) : mgr * bool :=
  if str_empty bundleName then (m, false)
  else match dm_bundleInfos m !! bundleName with
       | Some _ => (m, false)
       | None =>
           match dm_installStates m !! bundleName with
           | None => (m, false)
           | Some s =>
               if decide (s = INSTALL_START) then
                 let '(m, ok) := save info m in
                 if ok then (m <| dm_bundleInfos ::= emplace bundleName info |>, true) else (m, false)
               else (m, false)
           end
       end.

(** The clone of a bundle; [time] is the clock, [info] is in and out. *)
Definition SaveNewInfoToDB (time : Z) (bundleName : string) (info : InnerBundleInfo) (m : mgr) :
  mgr * InnerBundleInfo * bool :=
  let Newbundlename := GetDBKeyBundleName info in
  if str_empty bundleName then (m, info, false)
  else match dm_bundleInfos m !! Newbundlename with
       | Some _ => (m, info, false)
       | None =>
           let info := SetBundleInstallTime time UNSPECIFIED_USERID info in
           let '(m, ok) := save info m in
           if ok then (m <| dm_bundleInfos ::= emplace Newbundlename info |>, info, true) else (m, info, false)
       end.

(** [oldInfo] is the caller's copy of the bundle, changed in place. *)
Definition AddNewModuleInfo (bundleName : string) (newInfo oldInfo : InnerBundleInfo) (m : mgr) :
  mgr * InnerBundleInfo * bool :=
  match dm_bundleInfos m !! bundleName with
  | None => (m, oldInfo, false)
  | Some _ =>
      match dm_installStates m !! bundleName with
      | None => (m, oldInfo, false)
      | Some s =>
          if decide (s = UPDATING_SUCCESS) then
            let oldInfo :=
              if negb (HasEntry oldInfo) || bi_entryInstallationFree (ib_baseBundleInfo oldInfo) then
                SetAllowedAcls (ib_allowedAcls newInfo)
                  (SetAppPrivilegeLevel (app_appPrivilegeLevel (ib_baseApplicationInfo newInfo))
                    (UpdateBaseApplicationInfo (ib_baseApplicationInfo newInfo)
                      (UpdateBaseBundleInfo (ib_baseBundleInfo newInfo) (HasEntry newInfo) oldInfo)))
              else oldInfo in
            let oldInfo := SetBundlePackInfo (ib_bundlePackInfo newInfo) oldInfo in
            let oldInfo := (AddModuleInfo newInfo oldInfo).1 in
            let oldInfo := SetBundleStatus BundleStatus_ENABLED oldInfo in
            let '(m, ok) := save oldInfo m in
            if ok then (m <| dm_bundleInfos ::= insert bundleName oldInfo |>, oldInfo, true) else (m, oldInfo, false)
          else (m, oldInfo, false)
      end
  end.

Definition RemoveModuleInfo (bundleName modulePackage : string) (oldInfo : InnerBundleInfo) (m : mgr) :
  mgr * InnerBundleInfo * bool :=
  match dm_bundleInfos m !! bundleName with
  | None => (m, oldInfo, false)
  | Some _ =>
      match dm_installStates m !! bundleName with
      | None => (m, oldInfo, false)
      | Some s =>
          if decide (s = UNINSTALL_START ∨ s = ROLL_BACK) then
            let oldInfo := SetBundleStatus BundleStatus_ENABLED (InnerBundleInfo.RemoveModuleInfo modulePackage oldInfo) in
            let '(m, ok) := save oldInfo m in
            if ok then (m <| dm_bundleInfos ::= insert bundleName oldInfo |>, oldInfo, true) else (m, oldInfo, true)
          else (m, oldInfo, true)
      end
  end.

Definition AddInnerBundleUserInfo (bundleName : string) (newUserInfo : InnerBundleUserInfo) (m : mgr) : mgr * bool :=
  match dm_bundleInfos m !! bundleName with
  | None => (m, false)
  | Some info =>
      let info := SetBundleStatus BundleStatus_ENABLED (InnerBundleInfo.AddInnerBundleUserInfo newUserInfo info) in
      save info (m <| dm_bundleInfos ::= insert bundleName info |>)
  end.

Definition RemoveInnerBundleUserInfo `{Json} (bundleName : string) (userId : Z) (m : mgr) : option (mgr * bool) :=
  match dm_bundleInfos m !! bundleName with
  | None => Some (m, false)
  | Some info =>
      let info := SetBundleStatus BundleStatus_ENABLED (InnerBundleInfo.RemoveInnerBundleUserInfo userId info) in
      let '(m, ok) := save info (m <| dm_bundleInfos ::= insert bundleName info |>) in
      if negb ok then Some (m, false)
      else match DeleteBundleState bundleName userId (dm_stateFile m) with
           | None => None
           | Some (file, _) => Some (m <| dm_stateFile := file |>, true)
           end
  end.

Definition UpdateInnerBundleInfo (bundleName : string) (newInfo oldInfo : InnerBundleInfo) (m : mgr) :
  mgr * InnerBundleInfo * bool :=
  match dm_bundleInfos m !! bundleName with
  | None => (m, oldInfo, false)
  | Some _ =>
      match dm_installStates m !! bundleName with
      | None => (m, oldInfo, false)
      | Some s =>
          if decide (s = UPDATING_SUCCESS ∨ s = ROLL_BACK ∨ s = USER_CHANGE) then
            let oldInfo :=
              if HasEntry newInfo || negb (HasEntry oldInfo) || bi_entryInstallationFree (ib_baseBundleInfo oldInfo) then
                let i := UpdateBaseBundleInfo (ib_baseBundleInfo newInfo) (HasEntry newInfo) oldInfo in
                let i := UpdateBaseApplicationInfo (ib_baseApplicationInfo newInfo) i in
                let i := SetAppType (ib_appType newInfo) i in
                let i := i <| ib_appFeature := ib_appFeature newInfo |> in
                let i := SetAppPrivilegeLevel (app_appPrivilegeLevel (ib_baseApplicationInfo newInfo)) i in
                SetAllowedAcls (ib_allowedAcls newInfo) i
              else oldInfo in
            let oldInfo := SetBundlePackInfo (ib_bundlePackInfo newInfo) oldInfo in
            let oldInfo := UpdateModuleInfo newInfo oldInfo in
            let oldInfo := SetBundleStatus BundleStatus_ENABLED oldInfo in
            let '(m, ok) := save oldInfo m in
            if negb ok then (m, oldInfo, false)
            else (m <| dm_bundleInfos ::= insert bundleName oldInfo |>, oldInfo, true)
          else (m, oldInfo, false)
      end
  end.

Definition RemoveClonedBundleInfo (bundleName : string) (m : mgr) : mgr * bool :=
  match dm_bundleInfos m !! bundleName with
  | None => (m, true)
  | Some i =>
      let m := RecycleUidAndGid i m in
      let '(k, ok) := DeleteStorageBundleInfo i (dm_dataStorage m) in
      let m := m <| dm_dataStorage := k |> in
      if negb ok then (m, false) else (m <| dm_bundleInfos ::= delete bundleName |>, true)
  end.

(** ** Disabling *)

Definition set_status (s : BundleStatus) (bundleName : string) (m : mgr) : mgr * option InnerBundleInfo :=
  if str_empty bundleName then (m, None)
  else match dm_bundleInfos m !! bundleName with
       | None => (m, None)
       | Some i => let i := SetBundleStatus s i in (m <| dm_bundleInfos ::= insert bundleName i |>, Some i)
       end.

(** The installer's access: the bundle is disabled until it is saved back. *)
Definition GetInnerBundleInfo (bundleName : string) (m : mgr) : mgr * option InnerBundleInfo :=
  set_status BundleStatus_DISABLED bundleName m.
Definition DisableBundle (bundleName : string) (m : mgr) : mgr * bool :=
  let '(m, i) := set_status BundleStatus_DISABLED bundleName m in (m, bool_decide (is_Some i)).
Definition EnableBundle (bundleName : string) (m : mgr) : mgr * bool :=
  let '(m, i) := set_status BundleStatus_ENABLED bundleName m in (m, bool_decide (is_Some i)).

Definition GetApplicationEnabled (userId : Z) (i : InnerBundleInfo) : bool :=
  let '(found, u) := GetInnerBundleUserInfo userId i new_InnerBundleUserInfo in
  if negb found then false else bu_enabled (ibu_bundleUserInfo u).

Definition IsInitialState (b : BundleUserInfo) : bool :=
  bu_enabled b && match bu_disabledAbilities b with [] => true | _ => false end.

(** Writes the state of a user of a bundle back to its file. *)
Definition store_state `{Json} (bundleName : string) (userId : Z) (u : InnerBundleUserInfo) (m : mgr) : option mgr :=
  let result :=
    if IsInitialState (ibu_bundleUserInfo u) then DeleteBundleState bundleName userId (dm_stateFile m)
    else SaveBundleStateStorage bundleName userId (ibu_bundleUserInfo u) (dm_stateFile m) in
  match result with None => None | Some (file, _) => Some (m <| dm_stateFile := file |>) end.

Definition IsApplicationEnabled (callingUid : Z) (bundleName : string) (m : mgr) : bool :=
  if str_empty bundleName then false
  else match dm_bundleInfos m !! bundleName with
       | None => false
       | Some i => GetApplicationEnabled (GetResponseUserId (GetUserId callingUid UNSPECIFIED_USERID m) i) i
       end.

Definition SetApplicationEnabled `{Json} (callingUid : Z) (bundleName : string) (isEnable : bool) (userId : Z) (m : mgr) :
  option (mgr * bool) :=
  if str_empty bundleName then Some (m, false)
  else
    let requestUserId := GetUserId callingUid userId m in
    if requestUserId =? INVALID_USERID then Some (m, false)
    else match dm_bundleInfos m !! bundleName with
         | None => Some (m, false)
         | Some i =>
             let i := InnerBundleInfo.SetApplicationEnabled isEnable requestUserId i in
             let m := m <| dm_bundleInfos ::= insert bundleName i |> in
             let '(found, u) := GetInnerBundleUserInfo requestUserId i new_InnerBundleUserInfo in
             if negb found then Some (m, false)
             else (λ m, (m, true)) <$> store_state bundleName requestUserId u m
         end.

Definition SetAbilityEnabled `{Json} (callingUid : Z) (abilityInfo : AbilityInfo) (isEnabled : bool) (userId : Z) (m : mgr) :
  option (mgr * bool) :=
  let requestUserId := GetUserId callingUid userId m in
  if requestUserId =? INVALID_USERID then Some (m, false)
  else match dm_bundleInfos m !! ai_bundleName abilityInfo with
       | None => Some (m, false)
       | Some i =>
           let '(i, ok) := InnerBundleInfo.SetAbilityEnabled (ai_bundleName abilityInfo) (ai_moduleName abilityInfo)
                             (ai_name abilityInfo) isEnabled requestUserId i in
           let m := m <| dm_bundleInfos ::= insert (ai_bundleName abilityInfo) i |> in
           if negb ok then Some (m, false)
           else
             let '(found, u) := GetInnerBundleUserInfo requestUserId i new_InnerBundleUserInfo in
             if negb found then Some (m, false)
             else (λ m, (m, true)) <$> store_state (ai_bundleName abilityInfo) requestUserId u m
       end.

(** ** Modules *)

(** [userId] is the active user of the account service.  The request to the
    ageing manager of free-installed bundles that the code then posts is not
    modelled. *)
Definition SetModuleRemovable (userId : Z) (bundleName moduleName : string) (isEnable : bool) (m : mgr) : mgr * bool :=
  if str_empty bundleName || str_empty moduleName then (m, false)
  else if userId =? INVALID_USERID then (m, false)
  else match dm_bundleInfos m !! bundleName with
       | None => (m, false)
       | Some i =>
           let '(newInfo, ret) := InnerBundleInfo.SetModuleRemovable moduleName isEnable userId i in
           if ret then
             let '(m, ok) := save newInfo m in
             if ok then (m <| dm_bundleInfos ::= insert bundleName newInfo |>, true) else (m, false)
           else (m, false)
       end.

Definition IsModuleRemovable (userId : Z) (bundleName moduleName : string) (m : mgr) : bool :=
  if str_empty bundleName || str_empty moduleName then false
  else if userId =? INVALID_USERID then false
  else match dm_bundleInfos m !! bundleName with
       | None => false
       | Some i => InnerBundleInfo.IsModuleRemovable moduleName userId i
       end.

Definition SetModuleUpgradeFlag (bundleName moduleName : string) (upgradeFlag : Z) (m : mgr) : mgr * bool :=
  match dm_bundleInfos m !! bundleName with
  | None => (m, false)
  | Some i =>
      let newInfo := (InnerBundleInfo.SetModuleUpgradeFlag moduleName upgradeFlag i).1 in
      let '(m, ok) := save newInfo m in
      if ok then (m <| dm_bundleInfos ::= insert bundleName newInfo |>, true) else (m, false)
  end.

(** [return false] is 0 in a function that returns a number. *)
Definition GetModuleUpgradeFlag (bundleName moduleName : string) (m : mgr) : Z :=
  if str_empty bundleName || str_empty moduleName then 0
  else match dm_bundleInfos m !! bundleName with
       | None => 0
       | Some i => InnerBundleInfo.GetModuleUpgradeFlag moduleName i
       end.

Definition StoreSandboxPersistentInfo (bundleName : string) (s : SandboxAppPersistentInfo) (m : mgr) : mgr :=
  if str_empty bundleName then m
  else match dm_bundleInfos m !! bundleName with
       | None => m
       | Some i => let i := AddSandboxPersistentInfo s i in (save i (m <| dm_bundleInfos ::= insert bundleName i |>)).1
       end.

Definition DeleteSandboxPersistentInfo (bundleName : string) (s : SandboxAppPersistentInfo) (m : mgr) : mgr :=
  if str_empty bundleName then m
  else match dm_bundleInfos m !! bundleName with
       | None => m
       | Some i => let i := RemoveSandboxPersistentInfo s i in (save i (m <| dm_bundleInfos ::= insert bundleName i |>)).1
       end.
End Manager.

(** * Bundle ids *)

(** Ids are in the range of application uids and no bundle has two. *)
Definition ids_wf (ids : stdmap Z string) : Prop :=
  sm_wf ids
  ∧ (∀ i n, ids !! i = Some n → BASE_APP_UID <= i <= MAX_APP_UID)
  ∧ (∀ i j n, ids !! i = Some n → ids !! j = Some n → i = j).

Lemma rbegin_max (ids : stdmap Z string) maxId n :
  sm_wf ids → sm_rbegin ids = Some (maxId, n) → ids !! maxId = Some n ∧ ∀ i, is_Some (ids !! i) → i <= maxId.
Proof.
  intros Hwf Hr. unfold sm_rbegin in Hr. split.
  - apply sm_elem_lookup; [done|]. by apply last_Some_elem_of in Hr.
  - intros i [v Hv%sm_lookup_elem]. unfold sm_wf in Hwf. destruct ids as [l]. simpl in *.
    apply last_Some in Hr as [l' ->]. apply elem_of_app in Hv as [Hv|Hv].
    + apply StronglySorted_app in Hwf as (Hb & _ & _).
      specialize (Hb (i, v) (maxId, n) Hv ltac:(by apply list_elem_of_singleton)).
      unfold key_below in Hb. simpl in Hb. lia.
    + apply list_elem_of_singleton in Hv as [= -> _]. lia.
Qed.

Lemma first_free_spec n i ids :
  match first_free n i ids with
  | Some j => i <= j < i + Z.of_nat n ∧ ids !! j = None ∧ ∀ k, i <= k < j → is_Some (ids !! k)
  | None => ∀ k, i <= k < i + Z.of_nat n → is_Some (ids !! k)
  end.
Proof.
  revert i. induction n as [|n IH]; intros i; simpl; [lia|].
  destruct (ids !! i) as [v|] eqn:E.
  - specialize (IH (i + 1)). destruct (first_free n (i + 1) ids) as [j|].
    + destruct IH as (H1 & H2 & H3). split_and!; [lia|lia|done|]. intros k Hk.
      destruct (decide (k = i)) as [->|]; [by rewrite E|apply H3; lia].
    + intros k Hk. destruct (decide (k = i)) as [->|]; [by rewrite E|apply IH; lia].
  - split_and!; [lia|lia|done|lia].
Qed.

Lemma find_name ids name :
  sm_wf ids →
  match List.find (λ p : Z * string, bool_decide (p.2 = name)) (elems ids) with
  | Some (i, _) => ids !! i = Some name
  | None => ∀ i, ids !! i ≠ Some name
  end.
Proof.
  intros Hwf. destruct (List.find _ _) as [[i v]|] eqn:E.
  - apply find_some in E as [Hin Hb]. apply bool_decide_eq_true in Hb. simpl in Hb. subst.
    apply sm_elem_lookup; [done|]. by apply list_elem_of_In.
  - intros i Hi%sm_lookup_elem. apply list_elem_of_In in Hi. apply (find_none _ _ E) in Hi.
    simpl in Hi. by rewrite bool_decide_eq_false in Hi.
Qed.

(** The smallest id the range has free, if any. *)
Definition smallest_free (ids : stdmap Z string) (bundleId : Z) : Prop :=
  BASE_APP_UID <= bundleId <= MAX_APP_UID ∧ ids !! bundleId = None
  ∧ ∀ j, BASE_APP_UID <= j < bundleId → is_Some (ids !! j).

Section Ids.
Context `{KvStore K}.
#[local] Abbreviation mgr := (BundleDataMgr K).
Implicit Types (m : mgr).

Lemma GenerateBundleId_cases bundleName m :
  ids_wf (dm_bundleIdMap m) →
  match (GenerateBundleId bundleName m).2 with
  | Some bundleId =>
      (dm_bundleIdMap m !! bundleId = Some bundleName ∧ (GenerateBundleId bundleName m).1 = m)
      ∨ (smallest_free (dm_bundleIdMap m) bundleId ∧ (∀ j, dm_bundleIdMap m !! j ≠ Some bundleName)
         ∧ dm_bundleIdMap (GenerateBundleId bundleName m).1 = emplace bundleId bundleName (dm_bundleIdMap m))
  | None =>
      (GenerateBundleId bundleName m).1 = m ∧ (∀ j, dm_bundleIdMap m !! j ≠ Some bundleName)
      ∧ ∀ j, BASE_APP_UID <= j <= MAX_APP_UID → is_Some (dm_bundleIdMap m !! j)
  end.
Proof.
  intros (Hwf & Hrange & Hinj). unfold GenerateBundleId.
  destruct (sm_rbegin (dm_bundleIdMap m)) as [[maxId n]|] eqn:Er; simpl.
  2: { unfold sm_rbegin in Er. apply last_None in Er. right. unfold smallest_free.
       assert (∀ j, dm_bundleIdMap m !! j = None) as Hn.
       { intros j. apply sm_lookup_none. unfold sm_keys. rewrite Er. apply not_elem_of_nil. }
       split_and!; try done; unfold BASE_APP_UID, MAX_APP_UID; try lia.
       intros j Hj. by rewrite Hn in Hj. }
  destruct (rbegin_max _ _ _ Hwf Er) as [Hmax Hle]. pose proof (find_name _ bundleName Hwf) as Hf.
  destruct (List.find _ _) as [[i v]|]; [by left|].
  pose proof (first_free_spec (Z.to_nat (maxId - BASE_APP_UID)) BASE_APP_UID (dm_bundleIdMap m)) as Hff.
  pose proof (Hrange _ _ Hmax) as Hm.
  destruct (first_free _ _ _) as [j|]; simpl.
  - destruct Hff as (H1 & H2 & H3). right. unfold smallest_free. split_and!; try done; lia.
  - assert (∀ j, BASE_APP_UID <= j <= maxId → is_Some (dm_bundleIdMap m !! j)) as Hall.
    { intros j Hj. destruct (decide (j = maxId)) as [->|]; [by rewrite Hmax|apply Hff; lia]. }
    destruct (maxId =? MAX_APP_UID) eqn:Em; simpl.
    + split_and!; [done|done|]. intros j Hj. apply Hall. lia.
    + right. unfold smallest_free. split_and!; try done; try lia.
      * destruct (dm_bundleIdMap m !! (maxId + 1)) as [x|] eqn:E; [|done].
        assert (maxId + 1 <= maxId) by (apply Hle; by rewrite E). lia.
      * intros j Hj. apply Hall. lia.
Qed.

Lemma GenerateBundleId_infos bundleName m :
  dm_bundleInfos (GenerateBundleId bundleName m).1 = dm_bundleInfos m.
Proof. unfold GenerateBundleId. by repeat case_match. Qed.

Lemma GenerateBundleId_wf bundleName m :
  ids_wf (dm_bundleIdMap m) → ids_wf (dm_bundleIdMap (GenerateBundleId bundleName m).1).
Proof.
  intros Hids. pose proof (GenerateBundleId_cases bundleName m Hids) as Hc.
  destruct (GenerateBundleId bundleName m) as [m' [bundleId|]]; simpl in *; [|by destruct Hc as (-> & _)].
  destruct Hc as [[_ ->]|(Hfree & Hnone & ->)]; [done|].
  destruct Hids as (Hwf & Hrange & Hinj). destruct Hfree as (Hr & Hf & Hs).
  split_and!; [auto with cpp| |].
  - intros i n. rewrite sm_lookup_emplace. destruct (_ !! i) eqn:E; [intros; simplify_eq; eauto|].
    case_decide; [by subst|done].
  - intros i j n. rewrite !sm_lookup_emplace.
    destruct (dm_bundleIdMap m !! i) eqn:Ei, (dm_bundleIdMap m !! j) eqn:Ej; repeat case_decide; subst; try done;
      intros; simplify_eq; eauto; by exfalso; eapply Hnone.
Qed.

(** GenerateBundleId gives a bundle the id it already has, or else the
    smallest free id of the range, and fails exactly when the range is full;
    the other ids stay, and it remains true that no two bundles share an id
    and no bundle has two. *)
Lemma GenerateBundleId_correct bundleName m :
  ids_wf (dm_bundleIdMap m) →
  let '(m', result) := GenerateBundleId bundleName m in
  ids_wf (dm_bundleIdMap m')
  ∧ match result with
    | Some bundleId =>
        dm_bundleIdMap m' !! bundleId = Some bundleName
        ∧ (∀ j, j ≠ bundleId → dm_bundleIdMap m' !! j = dm_bundleIdMap m !! j)
        ∧ (dm_bundleIdMap m !! bundleId = Some bundleName ∨ smallest_free (dm_bundleIdMap m) bundleId)
    | None =>
        m' = m ∧ (∀ j, dm_bundleIdMap m !! j ≠ Some bundleName)
        ∧ ∀ j, BASE_APP_UID <= j <= MAX_APP_UID → is_Some (dm_bundleIdMap m !! j)
    end.
Proof.
  intros Hids. pose proof (GenerateBundleId_cases bundleName m Hids) as Hc.
  destruct (GenerateBundleId bundleName m) as [m' [bundleId|]] eqn:Hgen; simpl in Hc.
  2: { destruct Hc as (-> & H1 & H2). done. }
  destruct Hc as [[Hi ->]|(Hfree & Hnone & Hmap)]; [split; [done|split_and!; [done|done|by left]]|].
  split; [by pose proof (GenerateBundleId_wf bundleName m Hids) as Hw; rewrite Hgen in Hw|].
  destruct Hfree as (Hr & Hf & Hs). split_and!.
  - rewrite Hmap, sm_lookup_emplace, Hf. by rewrite decide_True.
  - intros j Hj. rewrite Hmap, sm_lookup_emplace. destruct (_ !! j); [done|]. by rewrite decide_False.
  - by right.
Qed.

(** The user ids for which every uid of the range fits an [int32_t]. *)
Definition MAX_SAFE_USERID : Z := 10737.

Lemma bundle_uid_exact userId bundleId :
  0 <= userId <= MAX_SAFE_USERID → BASE_APP_UID <= bundleId <= MAX_APP_UID →
  bundle_uid userId bundleId = userId * BASE_USER_RANGE + bundleId.
Proof.
  unfold MAX_SAFE_USERID, BASE_APP_UID, MAX_APP_UID, bundle_uid, BASE_USER_RANGE. intros Hu Hi.
  rewrite (i32_id (userId * 200000)) by (unfold in_i32, INT32_MAX; lia).
  rewrite Z.rem_small by lia. apply i32_id. unfold in_i32, INT32_MAX. lia.
Qed.

Lemma uid_owner u v i j a b m :
  ids_wf (dm_bundleIdMap m) → dm_bundleIdMap m !! i = Some a → dm_bundleIdMap m !! j = Some b →
  0 <= u <= MAX_SAFE_USERID → 0 <= v <= MAX_SAFE_USERID →
  in_i32 (bundle_uid u i) ∧ GetUserIdByUid (bundle_uid u i) = u
  ∧ id_of (new_InnerBundleUserInfo <| ibu_bundleUserInfo ::= λ x, x <| bu_userId := u |> |>
            <| ibu_uid := bundle_uid u i |>) = i
  ∧ (bundle_uid u i = bundle_uid v j → u = v ∧ a = b).
Proof.
  intros (_ & Hrange & _) Ha Hb Hu Hv. pose proof (Hrange _ _ Ha) as Hi. pose proof (Hrange _ _ Hb) as Hj.
  rewrite !bundle_uid_exact by done. unfold id_of. simpl. unfold user_of. simpl.
  unfold MAX_SAFE_USERID, BASE_APP_UID, MAX_APP_UID, GetUserIdByUid, BASE_USER_RANGE, INVALID_UID, in_i32, INT32_MAX in *.
  split_and!; try lia.
  - destruct (u * 200000 + i <=? -1) eqn:E; [lia|]. rewrite Z.quot_div_nonneg by lia.
    symmetry. apply Z.div_unique with (r := i); lia.
  - rewrite (i32_id (u * 200000)) by (unfold in_i32, INT32_MAX; lia).
    rewrite i32_id by (unfold in_i32, INT32_MAX; lia). lia.
  - intros Heq. assert (u = v) as -> by lia. assert (i = j) as -> by lia. split; [done|congruence].
Qed.

Lemma GenerateBundleId_holds bundleName m m1 bundleId :
  ids_wf (dm_bundleIdMap m) → GenerateBundleId bundleName m = (m1, Some bundleId) →
  ids_wf (dm_bundleIdMap m1) ∧ dm_bundleIdMap m1 !! bundleId = Some bundleName
  ∧ ∀ j b, dm_bundleIdMap m !! j = Some b → dm_bundleIdMap m1 !! j = Some b.
Proof.
  intros Hids Hg. pose proof (GenerateBundleId_wf bundleName m Hids) as Hwf.
  pose proof (GenerateBundleId_cases bundleName m Hids) as Hc. rewrite Hg in Hwf, Hc. simpl in Hwf, Hc.
  split; [done|]. destruct Hc as [[Hi ->]|((_ & Hf & _) & _ & ->)]; [done|]. split.
  - by rewrite sm_lookup_emplace, Hf, decide_True.
  - intros j b Hj. by rewrite sm_lookup_emplace, Hj.
Qed.

(** What GenerateUidAndGid answers, from the id that is found for the bundle. *)
Lemma GenerateUidAndGid_spec u m :
  ids_wf (dm_bundleIdMap m) → 0 <= user_of u <= MAX_SAFE_USERID →
  let '(m1, u1, ok) := GenerateUidAndGid u m in
  if ok then ∃ bundleId, GenerateBundleId (ibu_bundleName u) m = (m1, Some bundleId)
    ∧ BASE_APP_UID <= bundleId <= MAX_APP_UID
    ∧ u1 = u <| ibu_uid := user_of u * 200000 + bundleId |> <| ibu_gids ::= λ g, g ++ [user_of u * 200000 + bundleId] |>
  else m1 = m ∧ u1 = u ∧ (str_empty (ibu_bundleName u) = true ∨
    ((∀ j, dm_bundleIdMap m !! j ≠ Some (ibu_bundleName u))
     ∧ ∀ j, BASE_APP_UID <= j <= MAX_APP_UID → is_Some (dm_bundleIdMap m !! j))).
Proof.
  intros Hids Hu. unfold GenerateUidAndGid. destruct (str_empty _); [auto|].
  destruct (GenerateBundleId _ m) as [m1 [bundleId|]] eqn:Hg.
  - destruct (GenerateBundleId_holds _ m m1 bundleId Hids Hg) as ((_ & Hrange & _) & Hb & _).
    apply Hrange in Hb as Hr. exists bundleId. by rewrite bundle_uid_exact.
  - pose proof (GenerateBundleId_cases (ibu_bundleName u) m Hids) as Hc. rewrite Hg in Hc.
    simpl in Hc. destruct Hc as (-> & H1 & H2). auto.
Qed.

Lemma id_of_uid u bundleId :
  0 <= user_of u <= MAX_SAFE_USERID → BASE_APP_UID <= bundleId <= MAX_APP_UID →
  ibu_uid u = user_of u * 200000 + bundleId →
  in_i32 (ibu_uid u) ∧ GetUserIdByUid (ibu_uid u) = user_of u ∧ id_of u = bundleId.
Proof.
  intros Hu Hb Euid. unfold id_of. rewrite Euid. generalize dependent (user_of u). intros v Hu _.
  unfold MAX_SAFE_USERID, BASE_APP_UID, MAX_APP_UID, GetUserIdByUid, BASE_USER_RANGE, INVALID_UID, in_i32, INT32_MAX in *.
  split_and!; try lia.
  - destruct (Z.leb_spec (v * 200000 + bundleId) (-1)); [lia|].
    rewrite Z.quot_div_nonneg by lia. symmetry. apply Z.div_unique with (r := bundleId); lia.
  - rewrite (i32_id (_ * 200000)) by (unfold in_i32, INT32_MAX; lia).
    rewrite i32_id by (unfold in_i32, INT32_MAX; lia). lia.
Qed.

(** C12: the uids GenerateUidAndGid gives identify the bundle and the user.
    For the users 0 to 10737 and a bundle id map without shared ids, a call
    fails only for an empty name or when every id is taken by other bundles,
    and then changes nothing.  One that succeeds gives the copy the uid
    200000 * user + id, where id is the bundle's id of the map; it is
    also the new last gid, and nothing else of the copy changes; it fits an
    int32_t, and the user and the id are read back from it.  As long as the
    ids handed out are not freed, the uids of two calls are equal exactly
    when the user and the bundle are. *)
Theorem uids_identify u v m m2 :
  ids_wf (dm_bundleIdMap m) → ids_wf (dm_bundleIdMap m2) →
  0 <= user_of u <= MAX_SAFE_USERID → 0 <= user_of v <= MAX_SAFE_USERID →
  let '(m1, u1, ok) := GenerateUidAndGid u m in
  (∀ j b, dm_bundleIdMap m1 !! j = Some b → dm_bundleIdMap m2 !! j = Some b) →
  let '(m3, v1, ok') := GenerateUidAndGid v m2 in
  (if ok then
     dm_bundleIdMap m1 !! id_of u1 = Some (ibu_bundleName u)
     ∧ u1 = u <| ibu_uid := 200000 * user_of u + id_of u1 |> <| ibu_gids ::= λ g, g ++ [ibu_uid u1] |>
     ∧ in_i32 (ibu_uid u1) ∧ GetUserIdByUid (ibu_uid u1) = user_of u
   else m1 = m ∧ u1 = u ∧ (str_empty (ibu_bundleName u) = true ∨
     ((∀ j, dm_bundleIdMap m !! j ≠ Some (ibu_bundleName u))
      ∧ ∀ j, BASE_APP_UID <= j <= MAX_APP_UID → is_Some (dm_bundleIdMap m !! j))))
  ∧ (ok = true → ok' = true →
     (ibu_uid u1 = ibu_uid v1 ↔ user_of u = user_of v ∧ ibu_bundleName u = ibu_bundleName v)).
Proof.
  intros Hids Hids2 Hu Hv. pose proof (GenerateUidAndGid_spec u m Hids Hu) as Hcu.
  destruct (GenerateUidAndGid u m) as [[m1 u1] ok]. intros Hkeep.
  pose proof (GenerateUidAndGid_spec v m2 Hids2 Hv) as Hcv. destruct (GenerateUidAndGid v m2) as [[m3 v1] ok'].
  destruct ok; [|done]. destruct Hcu as (i & Hi & Hri & Eu).
  destruct (GenerateBundleId_holds _ _ _ _ Hids Hi) as (_ & Hli & _).
  assert (user_of u1 = user_of u) as Eu1 by (by rewrite Eu).
  destruct (id_of_uid u1 i ltac:(by rewrite Eu1) Hri ltac:(by rewrite Eu)) as (H1 & H2 & H3). rewrite Eu1 in H2. rewrite H3. split.
  - split_and!; [done| |done|done]. rewrite Eu. simpl. by rewrite (Z.mul_comm 200000).
  - intros _ ->. destruct Hcv as (j & Hj & Hrj & Ev).
    destruct (GenerateBundleId_holds _ _ _ _ Hids2 Hj) as ((_ & _ & Hinj) & Hlj & Hkeep3).
    apply Hkeep, Hkeep3 in Hli. rewrite Eu, Ev. simpl.
    unfold BASE_APP_UID, MAX_APP_UID in *. split.
    + intros Heq. assert (i = j) as -> by lia. rewrite Hli in Hlj. injection Hlj as ->. split; [lia|done].
    + intros [-> En]. rewrite <- En in Hlj. by rewrite (Hinj i j _ Hli Hlj).
Qed.

(** Freeing an id keeps the others, and keeps the map well formed. *)
Lemma RecycleUidAndGid_wf i m : ids_wf (dm_bundleIdMap m) → ids_wf (dm_bundleIdMap (RecycleUidAndGid i m)).
Proof.
  intros (Hwf & Hrange & Hinj). unfold RecycleUidAndGid. destruct (sm_begin _) as [[k u]|]; [|done].
  destruct (_ !! id_of u); [|done]. simpl. split_and!; [auto with cpp| |].
  - intros x n. rewrite sm_lookup_delete. case_decide; [done|eauto].
  - intros x y n. rewrite !sm_lookup_delete. repeat case_decide; try done. eauto.
Qed.
End Ids.

(** * Installed bundles never share a uid *)

Section Safety.
Context `{HK : KvStore K} `{HJ : Json}.
#[local] Abbreviation mgr := (BundleDataMgr K).
Implicit Types (m : mgr) (i : InnerBundleInfo) (u : InnerBundleUserInfo).

(** The uid of the user's copy comes from an id held by the bundle. *)
Definition owned_user (ids : stdmap Z string) (b : string) (u : InnerBundleUserInfo) : Prop :=
  ∃ bundleId, ids !! bundleId = Some b ∧ 0 <= user_of u <= MAX_SAFE_USERID
    ∧ ibu_uid u = bundle_uid (user_of u) bundleId.

Definition owned_info (ids : stdmap Z string) (b : string) (i : InnerBundleInfo) : Prop :=
  GetBundleName i = b
  ∧ ∀ k u, ib_innerBundleUserInfos i !! k = Some u → k = NameAndUserIdToKey b (user_of u) ∧ owned_user ids b u.

(** The installer changes its own copy of the bundle: the same users. *)
Definition copy_of (m : mgr) (b : string) (o : InnerBundleInfo) : Prop :=
  ∃ i, dm_bundleInfos m !! b = Some i ∧ GetBundleName o = b ∧ ib_innerBundleUserInfos o = ib_innerBundleUserInfos i.

(** The steps of the installer and of the clients, in any order; uids come
    from [GenerateUidAndGid].  The clones ([SaveNewInfoToDB],
    [RemoveClonedBundleInfo]) share the uid of their original and are not
    steps. *)
Inductive mgr_step : mgr → mgr → Prop :=
| step_generate bundleName m : mgr_step m (GenerateBundleId bundleName m).1
| step_state b s m : mgr_step m (UpdateBundleInstallState b s m).1
| step_install b i m : owned_info (dm_bundleIdMap m) b i → mgr_step m (AddInnerBundleInfo b i m).1
| step_new_module b n o m :
    copy_of m b o → GetBundleName n = b → mgr_step m (AddNewModuleInfo b n o m).1.1
| step_remove_module b p o m : copy_of m b o → mgr_step m (RemoveModuleInfo b p o m).1.1
| step_update b n o m :
    copy_of m b o → GetBundleName n = b → mgr_step m (UpdateInnerBundleInfo b n o m).1.1
| step_add_user b u m : owned_user (dm_bundleIdMap m) b u → mgr_step m (AddInnerBundleUserInfo b u m).1
| step_remove_user b v m m' r : RemoveInnerBundleUserInfo b v m = Some (m', r) → mgr_step m m'
| step_get b m : mgr_step m (GetInnerBundleInfo b m).1
| step_disable b m : mgr_step m (DisableBundle b m).1
| step_enable b m : mgr_step m (EnableBundle b m).1
| step_enable_app callingUid b e v m m' r : SetApplicationEnabled callingUid b e v m = Some (m', r) → mgr_step m m'
| step_enable_ability callingUid a e v m m' r : SetAbilityEnabled callingUid a e v m = Some (m', r) → mgr_step m m'
| step_removable v b name e m : mgr_step m (SetModuleRemovable v b name e m).1
| step_upgrade b name f m : mgr_step m (SetModuleUpgradeFlag b name f m).1
| step_sandbox b s m : mgr_step m (StoreSandboxPersistentInfo b s m)
| step_no_sandbox b s m : mgr_step m (DeleteSandboxPersistentInfo b s m)
| step_add_id v m : mgr_step m (AddUserId v m)
| step_remove_id v m : mgr_step m (RemoveUserId v m).

Definition mgr_inv (m : mgr) : Prop :=
  ids_wf (dm_bundleIdMap m)
  ∧ ∀ b i, dm_bundleInfos m !! b = Some i → owned_info (dm_bundleIdMap m) b i.

Lemma inv_same m m' :
  mgr_inv m → dm_bundleIdMap m' = dm_bundleIdMap m → dm_bundleInfos m' = dm_bundleInfos m → mgr_inv m'.
Proof. intros [? ?] E1 E2. unfold mgr_inv. by rewrite E1, E2. Qed.

Lemma inv_put m m' b i :
  mgr_inv m → owned_info (dm_bundleIdMap m) b i →
  dm_bundleIdMap m' = dm_bundleIdMap m → dm_bundleInfos m' = <[b := i]> (dm_bundleInfos m) → mgr_inv m'.
Proof.
  intros [Hids Hinfos] Hi E1 E2. split; rewrite E1; [done|]. intros c j. rewrite E2, sm_lookup_insert.
  case_decide; [intros; by simplify_eq|eauto].
Qed.

Lemma owned_same ids b i j :
  GetBundleName j = GetBundleName i ∧ ib_innerBundleUserInfos j = ib_innerBundleUserInfos i →
  owned_info ids b i → owned_info ids b j.
Proof. intros [E1 E2] [Hn Hu]. split; [congruence|]. by rewrite E2. Qed.

Lemma owned_on_user ids b f v i :
  (∀ u, user_of (f u) = user_of u ∧ ibu_uid (f u) = ibu_uid u) →
  owned_info ids b i → owned_info ids b (on_user v f i).
Proof.
  intros Hf [Hn Hu]. unfold on_user. destruct (_ !! user_key v i) as [u|] eqn:E; [|done].
  split; [done|]. intros k w. simpl. rewrite sm_lookup_insert. case_decide; [|eauto].
  intros [= <-]. destruct (Hu _ _ E) as (Hk & bundleId & H1 & H2 & H3). subst k. destruct (Hf u) as [E1 E2].
  rewrite E1. split; [done|]. exists bundleId. by rewrite E1, E2.
Qed.

Lemma copy_owned m b o : mgr_inv m → copy_of m b o → owned_info (dm_bundleIdMap m) b o.
Proof.
  intros [_ Hinfos] (i & Hi & Hn & Hu). destruct (Hinfos _ _ Hi) as [Hn' Hu']. split; [done|]. by rewrite Hu.
Qed.

Lemma save_same i m :
  dm_bundleIdMap (save i m).1 = dm_bundleIdMap m ∧ dm_bundleInfos (save i m).1 = dm_bundleInfos m
  ∧ dm_installStates (save i m).1 = dm_installStates m ∧ dm_stateFile (save i m).1 = dm_stateFile m.
Proof. unfold save. by destruct (SaveStorageBundleInfo i (dm_dataStorage m)). Qed.

Lemma store_state_same b v u m m' :
  store_state b v u m = Some m' →
  dm_bundleIdMap m' = dm_bundleIdMap m ∧ dm_bundleInfos m' = dm_bundleInfos m
  ∧ dm_dataStorage m' = dm_dataStorage m ∧ dm_installStates m' = dm_installStates m.
Proof.
  unfold store_state. intros Hs. case_match; [|done]. destruct p. by simplify_eq.
Qed.

(** What keeps the name and the users of a bundle. *)
Definition same_owner (i j : InnerBundleInfo) : Prop :=
  GetBundleName i = GetBundleName j ∧ ib_innerBundleUserInfos i = ib_innerBundleUserInfos j.

Lemma same_owner_trans i j k : same_owner i j → same_owner j k → same_owner i k.
Proof. unfold same_owner. intros [] []. split; congruence. Qed.

Lemma SetBundleStatus_owner s i : same_owner (SetBundleStatus s i) i.
Proof. done. Qed.
Lemma SetBundlePackInfo_owner p i : same_owner (SetBundlePackInfo p i) i.
Proof. done. Qed.
Lemma SetAllowedAcls_owner a i : same_owner (SetAllowedAcls a i) i.
Proof. done. Qed.
Lemma SetAppType_owner t i : same_owner (SetAppType t i) i.
Proof. done. Qed.
Lemma set_appFeature_owner f i : same_owner (i <| ib_appFeature := f |>) i.
Proof. done. Qed.
Lemma SetAppPrivilegeLevel_owner l i : same_owner (SetAppPrivilegeLevel l i) i.
Proof. unfold SetAppPrivilegeLevel. by destruct (str_empty l). Qed.
Lemma UpdateBaseBundleInfo_owner b e i : same_owner (UpdateBaseBundleInfo b e i) i.
Proof. done. Qed.
Lemma UpdateBaseApplicationInfo_owner n i :
  GetBundleName n = GetBundleName i → same_owner (UpdateBaseApplicationInfo (ib_baseApplicationInfo n) i) i.
Proof.
  intros Hn. split; [rewrite <- Hn|]; unfold UpdateBaseApplicationInfo, GetBundleName; simpl; by repeat case_match.
Qed.

Lemma RemoveModuleInfo_owner p i : same_owner (InnerBundleInfo.RemoveModuleInfo p i) i.
Proof.
  unfold InnerBundleInfo.RemoveModuleInfo. destruct (_ !! p) as [m|]; [|done].
  destruct (im_isEntry m); cbn -[erase_abilities str_contains]; by destruct (erase_abilities _ _ _).
Qed.

Lemma AddModuleInfo_owner n i : same_owner (AddModuleInfo n i).1 i.
Proof. unfold AddModuleInfo. by repeat case_match. Qed.

Lemma UpdateModuleInfo_owner n i : same_owner (UpdateModuleInfo n i) i.
Proof.
  unfold UpdateModuleInfo. destruct (str_empty (ib_currentPackage n)); [done|].
  apply (RemoveModuleInfo_owner (ib_currentPackage n)).
Qed.

Lemma SetAbilityEnabled_owned ids b mod_ name e v i :
  owned_info ids b i → owned_info ids b (InnerBundleInfo.SetAbilityEnabled b mod_ name e v i).1.
Proof.
  intros [Hn Hu]. unfold InnerBundleInfo.SetAbilityEnabled. destruct (existsb _ _); [|done].
  destruct (_ !! _) as [u|] eqn:E; [|done]. split; [done|]. intros k w. simpl. rewrite sm_lookup_insert.
  case_decide; [|eauto]. intros [= <-]. destruct (Hu _ _ E) as (Hk & bundleId & H1 & H2 & H3). subst k.
  split; [done|]. by exists bundleId.
Qed.

Lemma RemoveUser_owned ids b v i :
  owned_info ids b i → owned_info ids b (InnerBundleInfo.RemoveInnerBundleUserInfo v i).
Proof.
  intros [Hn Hu]. unfold InnerBundleInfo.RemoveInnerBundleUserInfo. destruct (_ !! _); [|done].
  destruct (remove_modules_users (sm_vals (ib_innerModuleInfos i)) v
    (i <| ib_innerBundleUserInfos ::= delete (user_key v i) |>)) as [E1 E2].
  simpl in *. split; [unfold GetBundleName in *; by rewrite E2|]. intros k w. rewrite E1.
  simpl. rewrite sm_lookup_delete. case_decide; [done|eauto].
Qed.

Lemma begin_lookup {V} (l : stdmap string V) k v : sm_begin l = Some (k, v) → l !! k = Some v.
Proof.
  unfold sm_begin, lookup, sm_lookup. destruct (elems l) as [|p l']; [done|]. intros [= ->]. simpl.
  by rewrite decide_True.
Qed.

Lemma DeleteBundleInfo_inv b s m : mgr_inv m → mgr_inv (DeleteBundleInfo b s m).
Proof.
  intros Hm. pose proof Hm as [Hids Hinfos]. unfold DeleteBundleInfo. case_decide; [done|].
  destruct (dm_bundleInfos m !! b) as [i|] eqn:Ei; [|done].
  assert (dm_bundleInfos (RecycleUidAndGid i m) = dm_bundleInfos m) as E.
  { unfold RecycleUidAndGid. by repeat case_match. }
  split; simpl; [by apply RecycleUidAndGid_wf|]. intros c j. rewrite E, sm_lookup_delete.
  case_decide as Hcb; [done|]. intros Hj. destruct (Hinfos _ _ Hj) as [Hn Hu]. split; [done|].
  intros k w Hw. destruct (Hu _ _ Hw) as (Hkey & idw & Hidw & Hr & Huid). split; [done|]. exists idw. split; [|done].
  unfold RecycleUidAndGid. destruct (sm_begin (ib_innerBundleUserInfos i)) as [[k' u]|] eqn:Eb; [|done].
  destruct (dm_bundleIdMap m !! id_of u) eqn:Eid; [|done]. simpl. rewrite sm_lookup_delete_ne; [done|].
  intros Heq. destruct (Hinfos _ _ Ei) as [_ Hui].
  pose proof (begin_lookup _ _ _ Eb) as Ek'.
  destruct (Hui _ _ Ek') as (_ & idu & Hidu & Hru & Huidu).
  assert (id_of u = idu) as Hid.
  { destruct (uid_owner (user_of u) (user_of u) idu idu b b m Hids Hidu Hidu Hru Hru) as (_ & _ & Hback & _).
    unfold id_of in *. rewrite Huidu. exact Hback. }
  assert (idw = idu) as -> by congruence. congruence.
Qed.

Lemma set_status_inv st b m : mgr_inv m → mgr_inv (set_status st b m).1.
Proof.
  intros Hm. unfold set_status. destruct (str_empty b); [done|].
  destruct (dm_bundleInfos m !! b) as [i|] eqn:E; [|done].
  apply (inv_put m _ b (SetBundleStatus st i)); [done| |done|done].
  apply (owned_same _ _ i); [done|by apply Hm].
Qed.

(** Saving an owned bundle, before or after it is put in memory. *)
Lemma put_save_inv b i m :
  mgr_inv m → owned_info (dm_bundleIdMap m) b i →
  mgr_inv (save i m).1 ∧ mgr_inv ((save i m).1 <| dm_bundleInfos ::= insert b i |>)
  ∧ mgr_inv (save i (m <| dm_bundleInfos ::= insert b i |>)).1.
Proof.
  intros Hm Hi. destruct (save_same i m) as (E1 & E2 & _).
  destruct (save_same i (m <| dm_bundleInfos ::= insert b i |>)) as (F1 & F2 & _). split_and!.
  - by apply (inv_same m).
  - apply (inv_put m _ b i); simpl; by rewrite ?E1, ?E2.
  - by apply (inv_put m _ b i).
Qed.

Lemma AddInnerBundleInfo_inv b i m :
  mgr_inv m → owned_info (dm_bundleIdMap m) b i → mgr_inv (AddInnerBundleInfo b i m).1.
Proof.
  intros Hm Hi. unfold AddInnerBundleInfo. destruct (str_empty b); [done|].
  destruct (dm_bundleInfos m !! b) eqn:E; [done|]. destruct (dm_installStates m !! b); [|done].
  case_decide; [|done]. destruct (put_save_inv b i m Hm Hi) as (H1 & H2 & _).
  destruct (save_same i m) as (E1 & E2 & _). destruct (save i m) as [m1 []]; simpl in *; [|done].
  apply (inv_put m _ b i); simpl; [done|done|done|]. unfold emplace. by rewrite E2, E.
Qed.

(** The operations on a copy change no id, and put the copy in memory or
    leave it as it was. *)
Definition copy_frame (b : string) (m : mgr) (r : mgr * InnerBundleInfo * bool) : Prop :=
  dm_bundleIdMap r.1.1 = dm_bundleIdMap m
  ∧ (dm_bundleInfos r.1.1 = dm_bundleInfos m ∨ dm_bundleInfos r.1.1 = <[b := r.1.2]> (dm_bundleInfos m)).

Ltac solve_copy_frame :=
  unfold copy_frame; repeat ((case_match; [|by auto|..]) || (case_match; try by auto));
  match goal with E : save ?o ?m = (?m1, _) |- _ =>
    let E1 := fresh in let E2 := fresh in
    destruct (save_same o m) as (E1 & E2 & _); rewrite E in E1, E2; simpl in *; rewrite ?E1, ?E2; auto
  end.

Lemma AddNewModuleInfo_frame b n o m : copy_frame b m (AddNewModuleInfo b n o m).
Proof. unfold AddNewModuleInfo. solve_copy_frame. Qed.
Lemma RemoveModuleInfo_frame b p o m : copy_frame b m (RemoveModuleInfo b p o m).
Proof. unfold RemoveModuleInfo. solve_copy_frame. Qed.
Lemma UpdateInnerBundleInfo_frame b n o m : copy_frame b m (UpdateInnerBundleInfo b n o m).
Proof. unfold UpdateInnerBundleInfo. solve_copy_frame. Qed.

Lemma copy_frame_inv b m r :
  mgr_inv m → copy_frame b m r → owned_info (dm_bundleIdMap m) b r.1.2 → mgr_inv r.1.1.
Proof.
  intros Hm [Hid [Hinfo|Hinfo]] Ho; [by apply (inv_same m)|by apply (inv_put m _ b r.1.2)].
Qed.

Lemma AddNewModuleInfo_owner b n o m :
  GetBundleName n = GetBundleName o → same_owner (AddNewModuleInfo b n o m).1.2 o.
Proof.
  intros Hn. unfold AddNewModuleInfo. repeat (case_match; try done); simpl; subst; simplify_eq.
  all: eapply same_owner_trans; [apply SetBundleStatus_owner|].
  all: eapply same_owner_trans; [apply AddModuleInfo_owner|].
  all: eapply same_owner_trans; [apply SetBundlePackInfo_owner|].
  all: try done.
  all: eapply same_owner_trans; [apply SetAllowedAcls_owner|].
  all: eapply same_owner_trans; [apply SetAppPrivilegeLevel_owner|].
  all: eapply same_owner_trans; [by apply UpdateBaseApplicationInfo_owner|].
  all: apply UpdateBaseBundleInfo_owner.
Qed.

Lemma UpdateInnerBundleInfo_owner b n o m :
  GetBundleName n = GetBundleName o → same_owner (UpdateInnerBundleInfo b n o m).1.2 o.
Proof.
  intros Hn. unfold UpdateInnerBundleInfo. repeat (case_match; try done); simpl; subst; simplify_eq.
  all: eapply same_owner_trans; [apply SetBundleStatus_owner|].
  all: eapply same_owner_trans; [apply UpdateModuleInfo_owner|].
  all: eapply same_owner_trans; [apply SetBundlePackInfo_owner|].
  all: try done.
  all: eapply same_owner_trans; [apply SetAllowedAcls_owner|].
  all: eapply same_owner_trans; [apply SetAppPrivilegeLevel_owner|].
  all: eapply same_owner_trans; [apply set_appFeature_owner|].
  all: eapply same_owner_trans; [apply SetAppType_owner|].
  all: eapply same_owner_trans; [by apply UpdateBaseApplicationInfo_owner|].
  all: apply UpdateBaseBundleInfo_owner.
Qed.

Lemma UpdateBundleInstallState_inv b s m : mgr_inv m → mgr_inv (UpdateBundleInstallState b s m).1.
Proof.
  intros Hm. unfold UpdateBundleInstallState. destruct (str_empty b); [done|].
  destruct (dm_installStates m !! b) as [c|]; [|by case_decide].
  destruct (can_transfer s c); [|done]. destruct (IsDeleteDataState s); simpl; [|by apply (inv_same m)].
  apply DeleteBundleInfo_inv. by apply (inv_same m).
Qed.

Lemma GenerateBundleId_inv name m : mgr_inv m → mgr_inv (GenerateBundleId name m).1.
Proof.
  intros [Hids Hinfos]. pose proof (GenerateBundleId_cases name m Hids) as Hc.
  pose proof (GenerateBundleId_wf name m Hids) as Hwf. split; [done|].
  intros b i Hi. rewrite GenerateBundleId_infos in Hi. destruct (Hinfos _ _ Hi) as [Hn Hu]. split; [done|].
  intros k u Hk. destruct (Hu _ _ Hk) as (Hkey & bundleId & Hid & Hr).
  split; [done|]. exists bundleId. split; [|done].
  destruct (GenerateBundleId name m) as [m' [x|]]; simpl in *; [|destruct Hc as [-> _]; done].
  destruct Hc as [[_ ->]|(_ & _ & ->)]; [done|]. by rewrite sm_lookup_emplace, Hid.
Qed.

Lemma RemoveModuleInfo_copy_owner b p o m : same_owner (RemoveModuleInfo b p o m).1.2 o.
Proof.
  unfold RemoveModuleInfo. repeat (case_match; try done); simpl; subst; simplify_eq.
  all: eapply same_owner_trans; [apply SetBundleStatus_owner|apply RemoveModuleInfo_owner].
Qed.

(** Putting back a bundle of the manager, changed but with the same owner. *)
Lemma update_inv b i j m :
  mgr_inv m → dm_bundleInfos m !! b = Some i → owned_info (dm_bundleIdMap m) b j →
  mgr_inv (save j m).1 ∧ mgr_inv ((save j m).1 <| dm_bundleInfos ::= insert b j |>)
  ∧ mgr_inv (save j (m <| dm_bundleInfos ::= insert b j |>)).1
  ∧ mgr_inv (m <| dm_bundleInfos ::= insert b j |>).
Proof.
  intros Hm Hi Hj. destruct (put_save_inv b j m Hm Hj) as (? & ? & ?). split_and!; try done.
  by apply (inv_put m _ b j).
Qed.

Lemma AddInnerBundleUserInfo_inv b u m :
  mgr_inv m → owned_user (dm_bundleIdMap m) b u → mgr_inv (AddInnerBundleUserInfo b u m).1.
Proof.
  intros Hm Hu. unfold AddInnerBundleUserInfo. destruct (dm_bundleInfos m !! b) as [i|] eqn:E; [|done].
  apply (update_inv b i); [done|done|]. destruct (proj2 Hm _ _ E) as [Hn Hus].
  split; [done|]. intros k w. simpl. rewrite sm_lookup_insert. case_decide; [subst k|eauto]. intros [= <-].
  split; [|done]. unfold user_key. by rewrite Hn.
Qed.

Lemma RemoveInnerBundleUserInfo_inv b v m m' r :
  mgr_inv m → RemoveInnerBundleUserInfo b v m = Some (m', r) → mgr_inv m'.
Proof.
  intros Hm. unfold RemoveInnerBundleUserInfo. destruct (dm_bundleInfos m !! b) as [i|] eqn:E; [|by intros [= <- <-]].
  set (j := SetBundleStatus _ _).
  assert (owned_info (dm_bundleIdMap m) b j) as Hj.
  { apply (owned_same _ _ (InnerBundleInfo.RemoveInnerBundleUserInfo v i)); [done|].
    apply RemoveUser_owned. by apply Hm. }
  destruct (update_inv b i j m Hm E Hj) as (_ & _ & Hs & _).
  destruct (save j _) as [m1 []]; simpl in *; [|by intros [= <- <-]].
  destruct (DeleteBundleState _ _ _) as [[file x]|]; [|done]. intros [= <- <-]. by apply (inv_same m1).
Qed.

Lemma SetApplicationEnabled_inv callingUid b e v m m' r :
  mgr_inv m → SetApplicationEnabled callingUid b e v m = Some (m', r) → mgr_inv m'.
Proof.
  intros Hm. unfold SetApplicationEnabled. destruct (str_empty b); [by intros [= <- <-]|].
  destruct (_ =? INVALID_USERID); [by intros [= <- <-]|].
  destruct (dm_bundleInfos m !! b) as [i|] eqn:E; [|by intros [= <- <-]].
  set (j := InnerBundleInfo.SetApplicationEnabled _ _ _).
  assert (owned_info (dm_bundleIdMap m) b j) as Hj by (apply owned_on_user; [done|by apply Hm]).
  destruct (update_inv b i j m Hm E Hj) as (_ & _ & _ & Hp).
  destruct (GetInnerBundleUserInfo _ j _) as [[] u]; simpl; [|by intros [= <- <-]].
  destruct (store_state _ _ _ _) as [m1|] eqn:Es; [|done]. intros [= <- <-].
  destruct (store_state_same _ _ _ _ _ Es) as (E1 & E2 & _).
  by apply (inv_same (m <| dm_bundleInfos ::= insert b j |>)).
Qed.

Lemma SetAbilityEnabled_inv callingUid a e v m m' r :
  mgr_inv m → SetAbilityEnabled callingUid a e v m = Some (m', r) → mgr_inv m'.
Proof.
  intros Hm. unfold SetAbilityEnabled. destruct (_ =? INVALID_USERID); [by intros [= <- <-]|].
  destruct (dm_bundleInfos m !! ai_bundleName a) as [i|] eqn:E; [|by intros [= <- <-]].
  pose proof (SetAbilityEnabled_owned (dm_bundleIdMap m) (ai_bundleName a) (ai_moduleName a) (ai_name a) e
    (GetUserId callingUid v m) i (proj2 Hm _ _ E)) as Hj.
  destruct (InnerBundleInfo.SetAbilityEnabled _ _ _ _ _ _) as [j ok]. simpl in Hj.
  destruct (update_inv (ai_bundleName a) i j m Hm E Hj) as (_ & _ & _ & Hp).
  destruct ok; simpl; [|by intros [= <- <-]].
  destruct (GetInnerBundleUserInfo _ j _) as [[] u]; simpl; [|by intros [= <- <-]].
  destruct (store_state _ _ _ _) as [m1|] eqn:Es; [|done]. intros [= <- <-].
  destruct (store_state_same _ _ _ _ _ Es) as (E1 & E2 & _).
  by apply (inv_same (m <| dm_bundleInfos ::= insert (ai_bundleName a) j |>)).
Qed.

Lemma SetModuleRemovable_inv v b name e m : mgr_inv m → mgr_inv (SetModuleRemovable v b name e m).1.
Proof.
  intros Hm. unfold SetModuleRemovable. destruct (_ || _); [done|]. destruct (v =? _); [done|].
  destruct (dm_bundleInfos m !! b) as [i|] eqn:E; [|done]. simpl. destruct (existsb _ _); [|done].
  set (j := on_first_module _ _ _). assert (owned_info (dm_bundleIdMap m) b j) as Hj.
  { apply (owned_same _ _ i); [done|by apply Hm]. }
  destruct (update_inv b i j m Hm E Hj) as (H1 & H2 & _). by destruct (save j m) as [m1 []].
Qed.

Lemma SetModuleUpgradeFlag_inv b name f m : mgr_inv m → mgr_inv (SetModuleUpgradeFlag b name f m).1.
Proof.
  intros Hm. unfold SetModuleUpgradeFlag. destruct (dm_bundleInfos m !! b) as [i|] eqn:E; [|done]. simpl.
  set (j := i <| ib_upgradeFlag := f |>). assert (owned_info (dm_bundleIdMap m) b j) as Hj.
  { apply (owned_same _ _ i); [done|by apply Hm]. }
  destruct (update_inv b i j m Hm E Hj) as (H1 & H2 & _). by destruct (save j m) as [m1 []].
Qed.

Lemma sandbox_inv b m (f : InnerBundleInfo → InnerBundleInfo) :
  (∀ i, same_owner (f i) i) → mgr_inv m →
  mgr_inv (match dm_bundleInfos m !! b with
           | None => m
           | Some i => (save (f i) (m <| dm_bundleInfos ::= insert b (f i) |>)).1
           end).
Proof.
  intros Hf Hm. destruct (dm_bundleInfos m !! b) as [i|] eqn:E; [|done].
  apply (update_inv b i); [done|done|]. apply (owned_same _ _ i); [apply Hf|by apply Hm].
Qed.

Lemma mgr_step_inv m m' : mgr_step m m' → mgr_inv m → mgr_inv m'.
Proof.
  intros Hstep Hm. destruct Hstep as
    [|b s m|b i m Hi|b n o m Ho Hn|b p o m Ho|b n o m Ho Hn|b u m Hu| | | | | | | | |b s m|b s m|v m|v m].
  - by apply GenerateBundleId_inv.
  - by apply UpdateBundleInstallState_inv.
  - by apply AddInnerBundleInfo_inv.
  - apply (copy_frame_inv b m _ Hm (AddNewModuleInfo_frame b n o m)).
    apply (owned_same _ _ o); [|by apply copy_owned]. apply AddNewModuleInfo_owner.
    destruct Ho as (? & _ & -> & _). done.
  - apply (copy_frame_inv b m _ Hm (RemoveModuleInfo_frame b p o m)).
    apply (owned_same _ _ o); [apply RemoveModuleInfo_copy_owner|by apply copy_owned].
  - apply (copy_frame_inv b m _ Hm (UpdateInnerBundleInfo_frame b n o m)).
    apply (owned_same _ _ o); [|by apply copy_owned]. apply UpdateInnerBundleInfo_owner.
    destruct Ho as (? & _ & -> & _). done.
  - by apply AddInnerBundleUserInfo_inv.
  - by eapply RemoveInnerBundleUserInfo_inv.
  - by apply set_status_inv.
  - unfold DisableBundle. pose proof (set_status_inv BundleStatus_DISABLED b m Hm). by destruct (set_status _ b m).
  - unfold EnableBundle. pose proof (set_status_inv BundleStatus_ENABLED b m Hm). by destruct (set_status _ b m).
  - by eapply SetApplicationEnabled_inv.
  - by eapply SetAbilityEnabled_inv.
  - by apply SetModuleRemovable_inv.
  - by apply SetModuleUpgradeFlag_inv.
  - unfold StoreSandboxPersistentInfo. destruct (str_empty b); [done|]. by apply sandbox_inv.
  - unfold DeleteSandboxPersistentInfo. destruct (str_empty b); [done|]. by apply sandbox_inv.
  - by apply (inv_same m).
  - by apply (inv_same m).
Qed.

(** A manager that has started on an empty device. *)
Definition new_BundleDataMgr (k : K) (file : option string) : mgr := mkBundleDataMgr K ∅ ∅ ∅ ∅ k file [].

Lemma reachable_inv k file m : rtc mgr_step (new_BundleDataMgr k file) m → mgr_inv m.
Proof.
  intros Hsteps. assert (mgr_inv (new_BundleDataMgr k file)) as Hinit.
  { split; [|done]. split_and!; [apply sm_wf_empty|done|done]. }
  induction Hsteps; eauto using mgr_step_inv.
Qed.

End Safety.

(** * What a successful operation leaves in the store *)

Section Saved.
Context `{HK : KvStore K} `{HJ : Json}.
#[local] Abbreviation mgr := (BundleDataMgr K).
Implicit Types (m : mgr) (i : InnerBundleInfo) (u : InnerBundleUserInfo).

Abbreviation entries m := (kv_entries (dm_dataStorage m)).

Lemma save_entries i m :
  entries (save i m).1 = (if (save i m).2 then <[GetBundleName i := i]> (entries m) else entries m).
Proof.
  unfold save, SaveStorageBundleInfo. pose proof (kv_Check_entries (dm_dataStorage m)) as Hc.
  destruct (kv_Check (dm_dataStorage m)) as [k ready]. destruct ready; simpl in *; [|done].
  pose proof (kv_Put_entries (GetBundleName i) i k) as Hp. destruct (kv_Put (GetBundleName i) i k) as [k1 s1].
  pose proof (kv_Put_entries (GetBundleName i) i k1) as Hp1. simpl in *. rewrite Hc in Hp.
  destruct s1; simpl; try done. destruct (kv_Put (GetBundleName i) i k1) as [k2 []]; simpl in *; congruence.
Qed.

Lemma DeleteStorage_entries i (k : K) :
  kv_entries (DeleteStorageBundleInfo i k).1
  = (if (DeleteStorageBundleInfo i k).2 then delete (GetBundleName i) (kv_entries k) else kv_entries k).
Proof.
  unfold DeleteStorageBundleInfo. pose proof (kv_Check_entries k) as Hc.
  destruct (kv_Check k) as [k0 ready]. destruct ready; simpl in *; [|done].
  pose proof (kv_Delete_entries (GetBundleName i) k0) as Hp. destruct (kv_Delete (GetBundleName i) k0) as [k1 s1].
  pose proof (kv_Delete_entries (GetBundleName i) k1) as Hp1. simpl in *. rewrite Hc in Hp.
  destruct s1; simpl; try done. destruct (kv_Delete (GetBundleName i) k1) as [k2 []]; simpl in *; congruence.
Qed.

(** The operations that report a change of the bundle [b] to their caller,
    with the answer. *)
Inductive store_step (b : string) : mgr → mgr → bool → Prop :=
| store_install i m : GetBundleName i = b → store_step b m (AddInnerBundleInfo b i m).1 (AddInnerBundleInfo b i m).2
| store_new_module n o m :
    GetBundleName o = b → GetBundleName n = b →
    store_step b m (AddNewModuleInfo b n o m).1.1 (AddNewModuleInfo b n o m).2
| store_update n o m :
    GetBundleName o = b → GetBundleName n = b →
    store_step b m (UpdateInnerBundleInfo b n o m).1.1 (UpdateInnerBundleInfo b n o m).2
| store_add_user u m : store_step b m (AddInnerBundleUserInfo b u m).1 (AddInnerBundleUserInfo b u m).2
| store_remove_user v m m' r : RemoveInnerBundleUserInfo b v m = Some (m', r) → store_step b m m' r
| store_removable v name e m : store_step b m (SetModuleRemovable v b name e m).1 (SetModuleRemovable v b name e m).2
| store_upgrade name f m : store_step b m (SetModuleUpgradeFlag b name f m).1 (SetModuleUpgradeFlag b name f m).2.

(** Saved: what is in memory for [b] is what is in the store; the other
    bundles stay where they were in both. *)
Definition saved (b : string) (m m' : mgr) : Prop :=
  (∃ i, dm_bundleInfos m' = <[b := i]> (dm_bundleInfos m) ∧ entries m' = <[b := i]> (entries m)).

Lemma save_then_put b i m :
  GetBundleName i = b → (save i m).2 = true → saved b m ((save i m).1 <| dm_bundleInfos ::= insert b i |>).
Proof.
  intros Hn Hok. exists i. simpl. destruct (save_same i m) as (_ & -> & _). split; [done|].
  rewrite save_entries, Hok. by rewrite Hn.
Qed.

Lemma put_then_save b i m :
  GetBundleName i = b → (save i (m <| dm_bundleInfos ::= insert b i |>)).2 = true →
  saved b m (save i (m <| dm_bundleInfos ::= insert b i |>)).1.
Proof.
  intros Hn Hok. exists i. destruct (save_same i (m <| dm_bundleInfos ::= insert b i |>)) as (_ & -> & _).
  split; [done|]. rewrite save_entries, Hok. by rewrite Hn.
Qed.

(** What the answer says of the store. *)
Definition answered (b : string) (m m' : mgr) (r : bool) : Prop :=
  if r then saved b m m' else entries m' = entries m.

Lemma answered_refl b m : answered b m m false.
Proof. reflexivity. Qed.
#[local] Hint Resolve answered_refl : core.

Lemma RemoveUser_name v i : GetBundleName (InnerBundleInfo.RemoveInnerBundleUserInfo v i) = GetBundleName i.
Proof.
  unfold InnerBundleInfo.RemoveInnerBundleUserInfo. destruct (_ !! _); [|done].
  destruct (remove_modules_users (sm_vals (ib_innerModuleInfos i)) v
    (i <| ib_innerBundleUserInfos ::= delete (user_key v i) |>)) as [E1 E2].
  simpl in *. unfold GetBundleName in *. by rewrite E2.
Qed.

(** The two ways to keep a bundle: saved after it is put in memory, or before. *)
Lemma put_first b i m :
  GetBundleName i = b →
  answered b m (save i (m <| dm_bundleInfos ::= insert b i |>)).1 (save i (m <| dm_bundleInfos ::= insert b i |>)).2.
Proof.
  intros Hn. unfold answered. pose proof (put_then_save b i m Hn) as Hp.
  pose proof (save_entries i (m <| dm_bundleInfos ::= insert b i |>)) as He.
  destruct (save i _) as [m1 []]; simpl in *; auto.
Qed.

Lemma save_first b i m :
  GetBundleName i = b →
  let '(m1, ok) := save i m in answered b m (if ok then m1 <| dm_bundleInfos ::= insert b i |> else m1) ok.
Proof.
  intros Hn. unfold answered. pose proof (save_then_put b i m Hn) as Hp. pose proof (save_entries i m) as He.
  destruct (save i m) as [m1 []]; simpl in *; auto.
Qed.

Lemma saved_ext b m m1 m2 :
  dm_bundleInfos m2 = dm_bundleInfos m1 → dm_dataStorage m2 = dm_dataStorage m1 → saved b m m1 → saved b m m2.
Proof. unfold saved. by intros -> ->. Qed.

Lemma owner_name i j b : same_owner i j → GetBundleName j = b → GetBundleName i = b.
Proof. by intros [-> _]. Qed.

End Saved.
(** * Install states *)

Section States.
Context `{HK : KvStore K} `{HJ : Json}.
#[local] Abbreviation mgr := (BundleDataMgr K).
Implicit Types (m : mgr) (i : InnerBundleInfo) (u : InnerBundleUserInfo).

Definition states_inv (m : mgr) : Prop :=
  ∀ b s, dm_installStates m !! b = Some s → str_empty b = false ∧ IsDeleteDataState s = false.

Lemma RecycleUidAndGid_frame i m :
  dm_installStates (RecycleUidAndGid i m) = dm_installStates m
  ∧ dm_bundleInfos (RecycleUidAndGid i m) = dm_bundleInfos m
  ∧ dm_dataStorage (RecycleUidAndGid i m) = dm_dataStorage m.
Proof. unfold RecycleUidAndGid. by repeat case_match. Qed.

Lemma DeleteBundleInfo_states b s m : dm_installStates (DeleteBundleInfo b s m) = dm_installStates m.
Proof.
  unfold DeleteBundleInfo. case_decide; [done|]. destruct (dm_bundleInfos m !! b) as [i|]; [|done].
  simpl. apply RecycleUidAndGid_frame.
Qed.

Lemma DeleteBundleInfo_infos b s m :
  dm_bundleInfos (DeleteBundleInfo b s m)
  = (if decide (s = INSTALL_FAIL) then dm_bundleInfos m else delete b (dm_bundleInfos m)).
Proof.
  unfold DeleteBundleInfo. case_decide; [done|]. destruct (dm_bundleInfos m !! b) as [i|] eqn:E; simpl.
  - by destruct (RecycleUidAndGid_frame i m) as (_ & -> & _).
  - by rewrite sm_delete_absent.
Qed.

(** Only [UpdateBundleInstallState] changes an install state. *)
Lemma save_states i m : dm_installStates (save i m).1 = dm_installStates m.
Proof. apply save_same. Qed.

Ltac solve_states :=
  repeat match goal with
    | |- context [save ?i ?m] => let E := fresh in pose proof (save_states i m) as E; destruct (save i m)
    | H : context [save ?i ?m] |- _ =>
        lazymatch type of H with dm_installStates _ = _ => fail | _ =>
          let E := fresh in pose proof (save_states i m) as E; destruct (save i m) end
    | _ => case_match; simplify_eq
    | _ => progress simpl in *
  end; try done; try congruence.

Lemma mgr_step_states m m' :
  mgr_step m m' → dm_installStates m' = dm_installStates m ∨ ∃ b s, m' = (UpdateBundleInstallState b s m).1.
Proof.
  intros Hstep. destruct Hstep as
    [|b s m|b i m Hi|b n o m Ho Hn|b p o m Ho|b n o m Ho Hn|b u m Hu| | | | | | | | |b s m|b s m|v m|v m];
    try by (right; eauto).
  all: left.
  all: try (unfold GenerateBundleId, AddInnerBundleInfo, AddNewModuleInfo, RemoveModuleInfo, UpdateInnerBundleInfo,
    AddInnerBundleUserInfo, SetModuleRemovable, SetModuleUpgradeFlag, StoreSandboxPersistentInfo,
    DeleteSandboxPersistentInfo, GetInnerBundleInfo, DisableBundle, EnableBundle, set_status; solve_states; fail).
  all: match goal with Hr : _ = Some _ |- _ =>
    unfold RemoveInnerBundleUserInfo, SetApplicationEnabled, SetAbilityEnabled, store_state in Hr end.
  all: solve_states; by simplify_eq.
Qed.

Lemma UpdateBundleInstallState_frame b s m :
  (∀ b', b' ≠ b →
     dm_installStates (UpdateBundleInstallState b s m).1 !! b' = dm_installStates m !! b'
     ∧ dm_bundleInfos (UpdateBundleInstallState b s m).1 !! b' = dm_bundleInfos m !! b')
  ∧ ((UpdateBundleInstallState b s m).2 = false → (UpdateBundleInstallState b s m).1 = m).
Proof.
  unfold UpdateBundleInstallState. destruct (str_empty b); [done|].
  destruct (dm_installStates m !! b) as [c|] eqn:E; [destruct (can_transfer s c); [destruct (IsDeleteDataState s)|]|case_decide];
    simpl; split; try done; intros b' Hb'; rewrite ?DeleteBundleInfo_states, ?DeleteBundleInfo_infos; simpl.
  - rewrite sm_lookup_delete_ne by done. split; [done|]. case_decide; [done|]. by rewrite sm_lookup_delete_ne.
  - by rewrite sm_lookup_insert_ne.
  - rewrite sm_lookup_emplace. destruct (_ !! b'); [done|]. by rewrite decide_False.
Qed.

Lemma mgr_step_states_inv m m' : mgr_step m m' → states_inv m → states_inv m'.
Proof.
  intros [Heq|(b & s & ->)]%mgr_step_states Hm; [unfold states_inv; by rewrite Heq|].
  intros b' s' Hs'. destruct (UpdateBundleInstallState_frame b s m) as [Hframe _].
  destruct (decide (b' = b)) as [->|Hne]; [|destruct (Hframe b' Hne) as [E _]; rewrite E in Hs'; by apply Hm].
  revert Hs'. unfold UpdateBundleInstallState. destruct (str_empty b) eqn:Eb; [simpl; intros Hx%Hm; by rewrite Eb in Hx|].
  destruct (dm_installStates m !! b) as [c|] eqn:E.
  - destruct (can_transfer s c); [|simpl; rewrite E; intros [= <-]; split; [done|by eapply Hm]]. destruct (IsDeleteDataState s) eqn:Ed; simpl.
    + rewrite DeleteBundleInfo_states. simpl. by rewrite sm_lookup_delete_eq.
    + rewrite sm_lookup_insert_eq. by intros [= <-].
  - case_decide; simpl; [|by rewrite E]. rewrite sm_lookup_emplace, E, decide_True by done.
    intros [= <-]. by subst.
Qed.

(** A sequence of updates of one bundle, and whether all were accepted. *)
Definition update_all (b : string) (l : list InstallState) (m : mgr) : mgr * bool :=
  foldl (λ r s, let '(m, ok) := UpdateBundleInstallState b s r.1 in (m, r.2 && ok)) (m, true) l.

Lemma update_accepted b s c m :
  str_empty b = false → dm_installStates m !! b = Some c → can_transfer s c = true → IsDeleteDataState s = false →
  UpdateBundleInstallState b s m = (m <| dm_installStates ::= insert b s |>, true).
Proof. intros H1 H2 H3 H4. unfold UpdateBundleInstallState. by rewrite H1, H2, H3, H4. Qed.

(** The removal of a bundle whose state is [UNINSTALL_START]. *)
Lemma update_removed b m :
  str_empty b = false → dm_installStates m !! b = Some UNINSTALL_START →
  let '(m', ok) := UpdateBundleInstallState b UNINSTALL_SUCCESS m in
  ok = true ∧ dm_installStates m' !! b = None ∧ dm_bundleInfos m' !! b = None.
Proof.
  intros H1 H2. unfold UpdateBundleInstallState. rewrite H1, H2. simpl. split; [done|].
  rewrite DeleteBundleInfo_states, DeleteBundleInfo_infos. simpl. by rewrite !sm_lookup_delete_eq.
Qed.

(** The way from an install state to the removal. *)
Definition removal (s : InstallState) : list InstallState :=
  match s with
  | UNINSTALL_START => []
  | UPDATING_START | ROLL_BACK => [INSTALL_SUCCESS; UNINSTALL_START]
  | _ => [UNINSTALL_START]
  end.

Lemma update_all_cons b s l m m' :
  UpdateBundleInstallState b s m = (m', true) → update_all b (s :: l) m = update_all b l m'.
Proof. unfold update_all. simpl. by intros ->. Qed.

Lemma removal_works b s m :
  str_empty b = false → dm_installStates m !! b = Some s → IsDeleteDataState s = false →
  (update_all b (removal s) m).2 = true ∧ dm_installStates (update_all b (removal s) m).1 !! b = Some UNINSTALL_START.
Proof.
  intros Hb Hs Hd.
  assert (∀ c n l, dm_installStates n !! b = Some c → can_transfer UNINSTALL_START c = true → l = [UNINSTALL_START] →
    (update_all b l n).2 = true ∧ dm_installStates (update_all b l n).1 !! b = Some UNINSTALL_START) as Hgo.
  { intros c n l Hc Ht ->. rewrite (update_all_cons _ _ _ _ _ (update_accepted b _ c n Hb Hc Ht eq_refl)). simpl.
    by rewrite sm_lookup_insert_eq. }
  destruct s; try done; unfold removal; eauto.
  all: rewrite (update_all_cons _ _ _ _ _ (update_accepted b INSTALL_SUCCESS _ m Hb Hs eq_refl eq_refl)).
  all: apply (Hgo INSTALL_SUCCESS); [simpl; by rewrite sm_lookup_insert_eq|done|done].
Qed.

(** C11: the install states in any history of the manager's operations, those
    of the clones apart ([mgr_step]).  A bundle is never
    left in a state that means its data is gone; whatever an operation was
    doing can be put back to INSTALL_SUCCESS in one step; a bundle can always
    be removed, which erases its state and the bundle; in the states
    UPDATING_START, UNINSTALL_START and ROLL_BACK no install, update or
    removal can start, but in UPDATING_SUCCESS, which the installer enters
    before it stores the updated bundle, an update or a removal can, and only
    an install cannot; and an update of one bundle's state touches no other
    bundle. *)
Theorem install_states_correct k file m b s :
  rtc mgr_step (new_BundleDataMgr k file) m → dm_installStates m !! b = Some s →
  IsDeleteDataState s = false
  ∧ (s ≠ INSTALL_SUCCESS →
     UpdateBundleInstallState b INSTALL_SUCCESS m = (m <| dm_installStates ::= insert b INSTALL_SUCCESS |>, true))
  ∧ (let '(m', accepted) := update_all b (removal s ++ [UNINSTALL_SUCCESS]) m in
     accepted = true ∧ dm_installStates m' !! b = None ∧ dm_bundleInfos m' !! b = None)
  ∧ (s ∈ [UPDATING_START; UNINSTALL_START; ROLL_BACK] →
     ∀ start, start ∈ [INSTALL_START; UPDATING_START; UNINSTALL_START] → UpdateBundleInstallState b start m = (m, false))
  ∧ (s = UPDATING_SUCCESS →
     UpdateBundleInstallState b INSTALL_START m = (m, false)
     ∧ ∀ start, start ∈ [UPDATING_START; UNINSTALL_START] →
         UpdateBundleInstallState b start m = (m <| dm_installStates ::= insert b start |>, true))
  ∧ ∀ s' b', b' ≠ b →
     dm_installStates (UpdateBundleInstallState b s' m).1 !! b' = dm_installStates m !! b'
     ∧ dm_bundleInfos (UpdateBundleInstallState b s' m).1 !! b' = dm_bundleInfos m !! b'.
Proof.
  intros Hsteps Hs. assert (states_inv m) as Hm.
  { assert (states_inv (new_BundleDataMgr k file)) as Hinit by done.
    clear -Hsteps Hinit. induction Hsteps; eauto using mgr_step_states_inv. }
  destruct (Hm _ _ Hs) as [Hb Hd]. split_and!.
  - done.
  - intros Hne. apply (update_accepted b _ s); [done|done|by destruct s|done].
  - destruct (removal_works b s m Hb Hs Hd) as [H1 H2]. unfold update_all in *. rewrite foldl_app. simpl.
    pose proof (update_removed b _ Hb H2) as Hr. destruct (UpdateBundleInstallState _ _ _) as [m' ok].
    simpl in *. rewrite H1. by destruct Hr as (-> & ? & ?).
  - intros Hbusy start Hstart. unfold UpdateBundleInstallState. rewrite Hb, Hs.
    assert (can_transfer start s = false) as ->; [|done].
    repeat (apply elem_of_cons in Hbusy as [->|Hbusy]; [|try by apply not_elem_of_nil in Hbusy]).
    all: repeat (apply elem_of_cons in Hstart as [->|Hstart]; [by vm_compute|]); by apply not_elem_of_nil in Hstart.
  - intros ->. split; [unfold UpdateBundleInstallState; by rewrite Hb, Hs|].
    intros start [->|[->|[]%not_elem_of_nil]%elem_of_cons]%elem_of_cons; by apply (update_accepted b _ UPDATING_SUCCESS).
  - intros s' b' Hne. by apply UpdateBundleInstallState_frame.
Qed.
End States.
Section Infos.
Context `{HK : KvStore K} `{HJ : Json}.
#[local] Abbreviation mgr := (BundleDataMgr K).
Implicit Types (m : mgr).

Lemma save_infos i m : dm_bundleInfos (save i m).1 = dm_bundleInfos m.
Proof. apply save_same. Qed.

Lemma DeleteBundleInfo_infos_wf b s m : sm_wf (dm_bundleInfos m) → sm_wf (dm_bundleInfos (DeleteBundleInfo b s m)).
Proof. rewrite DeleteBundleInfo_infos. case_decide; auto with cpp. Qed.

(** The table of the bundles stays a well-formed map. *)
Lemma mgr_step_infos_wf m m' : mgr_step m m' → sm_wf (dm_bundleInfos m) → sm_wf (dm_bundleInfos m').
Proof.
  intros Hstep Hwf. destruct Hstep as
    [|b s m|b i m Hi|b n o m Ho Hn|b p o m Ho|b n o m Ho Hn|b u m Hu| | | | | | | | |b s m|b s m|v m|v m];
  try match goal with Hr : _ = Some (_, _) |- _ =>
    unfold RemoveInnerBundleUserInfo, SetApplicationEnabled, SetAbilityEnabled, store_state in Hr end;
  try (unfold GenerateBundleId, AddInnerBundleInfo, AddNewModuleInfo, RemoveModuleInfo, UpdateInnerBundleInfo,
    AddInnerBundleUserInfo, SetModuleRemovable, SetModuleUpgradeFlag, StoreSandboxPersistentInfo,
    DeleteSandboxPersistentInfo, GetInnerBundleInfo, DisableBundle, EnableBundle, set_status, UpdateBundleInstallState,
    AddUserId, RemoveUserId).
  all: repeat match goal with
    | |- context [save ?i ?m] => let E := fresh in pose proof (save_infos i m) as E; destruct (save i m)
    | H : context [save ?i ?m] |- _ =>
        lazymatch type of H with dm_bundleInfos _ = _ => fail | _ =>
          let E := fresh in pose proof (save_infos i m) as E; destruct (save i m) end
    | _ => case_match; simplify_eq
    | _ => progress simpl in *
  end; simplify_eq; simpl in *; try match goal with H : dm_bundleInfos _ = _ |- _ => rewrite ?H end;
    auto using DeleteBundleInfo_infos_wf with cpp.
Qed.

Lemma reachable_infos_wf k file m : rtc mgr_step (new_BundleDataMgr k file) m → sm_wf (dm_bundleInfos m).
Proof.
  intros Hsteps. assert (sm_wf (dm_bundleInfos (new_BundleDataMgr k file))) as Hinit by apply sm_wf_empty.
  clear -Hsteps Hinit. induction Hsteps; eauto using mgr_step_infos_wf.
Qed.
End Infos.

(** * A clone and its original *)

Section Clones.
Context `{HK : KvStore K}.
#[local] Abbreviation mgr := (BundleDataMgr K).
Implicit Types (m : mgr) (i : InnerBundleInfo) (u : InnerBundleUserInfo).

Lemma owned_id ids b u m : dm_bundleIdMap m = ids → ids_wf ids → owned_user ids b u → ids !! id_of u = Some b.
Proof.
  intros <- Hids (i & Hi & Hr & Hu).
  destruct (uid_owner (user_of u) (user_of u) i i b b m Hids Hi Hi Hr Hr) as (_ & _ & Hback & _).
  assert (id_of u = i) as ->; [|done]. unfold id_of in *. rewrite Hu. exact Hback.
Qed.

Lemma no_unspecified_user f ids b i : owned_info ids b i → on_user UNSPECIFIED_USERID f i = i.
Proof.
  intros [Hn Hu]. unfold on_user. destruct (_ !! user_key UNSPECIFIED_USERID i) as [u|] eqn:E; [|done].
  destruct (Hu _ _ E) as (Hk & _ & _ & Hr & _). rewrite <- Hn in Hk. apply user_key_inj in Hk.
  rewrite <- Hk in Hr. unfold UNSPECIFIED_USERID in Hr. lia.
Qed.

(** A clone shares the stored entry and the id of its original.  Saving
    the clone [c] of the bundle [b] writes it over the original's entry of the
    store, since entries are filed under the bundle's name; removing it again
    erases that entry and frees the id of the original, which stays in memory
    with its uid. *)
Lemma clone_takes_from_original time b i c k u m m1 c' m2 :
  mgr_inv m → dm_bundleInfos m !! b = Some i → sm_begin (ib_innerBundleUserInfos i) = Some (k, u) →
  same_owner c i → app_isCloned (ib_baseApplicationInfo c) = true → ib_newBundleName c ≠ b →
  SaveNewInfoToDB time b c m = (m1, c', true) →
  kv_entries (dm_dataStorage m1) !! b = Some c'
  ∧ (RemoveClonedBundleInfo (ib_newBundleName c) m1 = (m2, true) →
     dm_bundleInfos m2 !! b = Some i
     ∧ kv_entries (dm_dataStorage m2) !! b = None
     ∧ dm_bundleIdMap m !! id_of u = Some b ∧ dm_bundleIdMap m2 !! id_of u = None).
Proof.
  intros Hm Hi Hbegin [Hname Husers] Hcloned Hne Hsave. pose proof (proj2 Hm _ _ Hi) as Hown.
  pose proof (proj2 Hown k u (begin_lookup _ _ _ Hbegin)) as [_ Hu]. pose proof (owned_id _ b u m eq_refl (proj1 Hm) Hu) as Hid.
  assert (GetBundleName c = b) as Hc by (rewrite Hname; apply Hown).
  assert (owned_info (dm_bundleIdMap m) b c) as Hownc by (split; [done|rewrite Husers; apply Hown]).
  unfold SaveNewInfoToDB, SetBundleInstallTime in Hsave. rewrite (no_unspecified_user _ _ b c Hownc) in Hsave.
  unfold GetDBKeyBundleName in Hsave. rewrite Hcloned in Hsave. simpl in Hsave.
  destruct (str_empty b); [done|]. destruct (dm_bundleInfos m !! ib_newBundleName c) eqn:Ec; [done|].
  pose proof (save_entries c m) as Hent. destruct (save_same c m) as (Eids & Einfos & _).
  destruct (save c m) as [m0 []]; simpl in *; [|done]. injection Hsave as <- <-.
  split; [simpl; by rewrite Hent, Hc, sm_lookup_insert_eq|].
  unfold RemoveClonedBundleInfo. simpl. rewrite sm_lookup_emplace, Einfos, Ec, decide_True by done.
  unfold RecycleUidAndGid. rewrite Husers, Hbegin. simpl. rewrite Eids, Hid. simpl.
  pose proof (DeleteStorage_entries c (dm_dataStorage m0)) as Hdel.
  destruct (DeleteStorageBundleInfo c (dm_dataStorage m0)) as [k' []]; simpl in *; [|done].
  intros [= <-]. simpl. split_and!.
  - rewrite sm_lookup_delete_ne by done. by rewrite sm_lookup_emplace, Einfos, Hi.
  - by rewrite Hdel, Hc, sm_lookup_delete_eq.
  - done.
  - by rewrite sm_lookup_delete_eq.
Qed.
End Clones.

(** * Concrete runs *)

(** A store that always answers. *)
#[export] Instance map_store : KvStore (stdmap string InnerBundleInfo).
Proof.
  refine {| kv_Check k := (k, true); kv_Put key i k := (<[key := i]> k, SUCCESS);
            kv_Delete key k := (delete key k, SUCCESS); kv_entries k := k |}; done.
Defined.

Abbreviation demo_mgr := (BundleDataMgr (stdmap string InnerBundleInfo)).

Definition demo_ids : demo_mgr := (new_BundleDataMgr ∅ None) <| dm_bundleIdMap := <[10000 := "com.demo"]> (<[10002 := "com.other"]> ∅) |>.

Definition demo_uid_user (userId : Z) : InnerBundleUserInfo :=
  (GenerateUidAndGid ((demo_user userId) <| ibu_bundleName := "com.demo" |>) demo_ids).1.2.

Definition demo_installed : InnerBundleInfo := InnerBundleInfo.AddInnerBundleUserInfo (demo_uid_user 0) (demo_hap "entry" true []).

Lemma demo_ids_wf : ids_wf (dm_bundleIdMap demo_ids).
Proof.
  assert (∀ i n, dm_bundleIdMap demo_ids !! i = Some n → (i, n) = (10000, "com.demo") ∨ (i, n) = (10002, "com.other")) as Hd.
  { intros i n Hi%sm_lookup_elem. change (elems _) with [(10000, "com.demo"); (10002, "com.other")] in Hi.
    set_solver. }
  split_and!.
  - apply (sm_wf_insert 10000 "com.demo"), (sm_wf_insert 10002 "com.other"), sm_wf_empty.
  - intros i n Hi. unfold BASE_APP_UID, MAX_APP_UID. apply Hd in Hi as [[= -> _]|[= -> _]]; lia.
  - intros i j n Hi%Hd Hj%Hd. destruct Hi, Hj; congruence.
Qed.

Lemma GenerateBundleId_correct_witness :
  GenerateBundleId "com.new" demo_ids = (demo_ids <| dm_bundleIdMap ::= emplace 10001 "com.new" |>
    <| dm_hmdfs := [MakeHmdfsConfig "com.new" 10001] |>, Some 10001)
  ∧ ids_wf (dm_bundleIdMap (GenerateBundleId "com.new" demo_ids).1).
Proof.
  split; [reflexivity|].
  pose proof (GenerateBundleId_correct "com.new" demo_ids demo_ids_wf) as H.
  destruct (GenerateBundleId "com.new" demo_ids) as [m r]. exact (proj1 H).
Defined.

(** Users 100 of a bundle with an id, and 0 of a new one that gets the free id 10001. *)
Lemma uids_identify_witness :
  let u := (demo_user 100) <| ibu_bundleName := "com.demo" |> in
  let v := (demo_user 0) <| ibu_bundleName := "com.new" |> in
  let u1 := (GenerateUidAndGid u demo_ids).1.2 in let v1 := (GenerateUidAndGid v demo_ids).1.2 in
  (dm_bundleIdMap demo_ids !! id_of u1 = Some "com.demo" ∧ GetUserIdByUid (ibu_uid u1) = 100)
  ∧ ibu_uid u1 ≠ ibu_uid v1 ∧ ibu_uid u1 = 20010000 ∧ ibu_uid v1 = 10001.
Proof.
  intros u v u1 v1.
  pose proof (uids_identify u v demo_ids demo_ids demo_ids_wf demo_ids_wf
    ltac:(vm_compute; split; discriminate) ltac:(vm_compute; split; discriminate)) as H.
  assert (GenerateUidAndGid u demo_ids = (demo_ids, u1, true)) as Eu by (vm_compute; reflexivity).
  assert (∃ m3, GenerateUidAndGid v demo_ids = (m3, v1, true)) as [m3 Ev] by (eexists; vm_compute; reflexivity).
  rewrite Eu in H. specialize (H (λ j b Hj, Hj)). rewrite Ev in H. destruct H as ((H1 & _ & _ & H2) & H3).
  split; [split; [exact H1|exact H2]|]. split; [|split; reflexivity].
  intros Heq. apply (proj1 (H3 eq_refl eq_refl)) in Heq as [Hd _]. discriminate Hd.
Defined.

Definition demo_run1 : demo_mgr := (GenerateBundleId "com.demo" (new_BundleDataMgr ∅ None)).1.
Definition demo_run2 : demo_mgr := (UpdateBundleInstallState "com.demo" INSTALL_START demo_run1).1.
Definition demo_run3 : demo_mgr := (AddInnerBundleInfo "com.demo" demo_installed demo_run2).1.
Definition demo_run4 : demo_mgr := (AddInnerBundleUserInfo "com.demo" (demo_uid_user 100) demo_run3).1.

Lemma demo_run_installed : rtc (@mgr_step _ map_store bits_json) (new_BundleDataMgr ∅ None) demo_run3.
Proof.
  eapply rtc_l; [apply (step_generate "com.demo")|].
  eapply rtc_l; [apply (step_state "com.demo" INSTALL_START)|].
  eapply rtc_l; [apply (step_install "com.demo" demo_installed)|].
  { split; [reflexivity|]. intros k u Hu%sm_lookup_elem.
    change (elems _) with [("com.demo_0", demo_uid_user 0)] in Hu. apply list_elem_of_singleton in Hu as [= -> ->].
    split; [reflexivity|]. exists 10000. split_and!; [reflexivity|done|done|reflexivity]. }
  apply rtc_refl.
Qed.

Lemma demo_run : rtc (@mgr_step _ map_store bits_json) (new_BundleDataMgr ∅ None) demo_run4.
Proof.
  eapply rtc_r; [apply demo_run_installed|apply (step_add_user "com.demo" (demo_uid_user 100))].
  exists 10000. split_and!; [reflexivity|done|done|reflexivity].
Qed.



Lemma install_states_correct_witness :
  (update_all "com.demo" [UNINSTALL_START; UNINSTALL_SUCCESS] demo_run4).2 = true
  ∧ dm_bundleInfos (update_all "com.demo" [UNINSTALL_START; UNINSTALL_SUCCESS] demo_run4).1 !! "com.demo" = None.
Proof.
  destruct (@install_states_correct _ map_store bits_json ∅ None demo_run4 "com.demo" INSTALL_START demo_run eq_refl)
    as (_ & _ & H & _).
  change (removal INSTALL_START ++ [UNINSTALL_SUCCESS]) with [UNINSTALL_START; UNINSTALL_SUCCESS] in H.
  destruct (update_all "com.demo" [UNINSTALL_START; UNINSTALL_SUCCESS] demo_run4) as [m ok].
  split; apply H.
Defined.

Definition demo_clone : InnerBundleInfo :=
  demo_installed <| ib_baseApplicationInfo ::= λ a, a <| app_isCloned := true |> |> <| ib_newBundleName := "com.demo#-1" |>.

Definition demo_run5 : demo_mgr := (SaveNewInfoToDB 7 "com.demo" demo_clone demo_run3).1.1.

Lemma demo_same_owner : same_owner demo_clone demo_installed.
Proof. split; vm_compute; reflexivity. Qed.

Lemma demo_cloned : SaveNewInfoToDB 7 "com.demo" demo_clone demo_run3 = (demo_run5, demo_clone, true).
Proof. vm_compute. reflexivity. Qed.

Lemma demo_id : id_of (demo_uid_user 0) = 10000.
Proof. vm_compute. reflexivity. Qed.

Lemma demo_found : dm_bundleInfos demo_run3 !! "com.demo" = Some demo_installed.
Proof. vm_compute. reflexivity. Qed.

Lemma demo_begin : sm_begin (ib_innerBundleUserInfos demo_installed) = Some ("com.demo_0", demo_uid_user 0).
Proof. vm_compute. reflexivity. Qed.

Lemma demo_uncloned :
  RemoveClonedBundleInfo (ib_newBundleName demo_clone) demo_run5
  = ((RemoveClonedBundleInfo (ib_newBundleName demo_clone) demo_run5).1, true).
Proof. vm_compute. reflexivity. Qed.

Lemma demo_inv : mgr_inv demo_run3.
Proof. apply (@reachable_inv _ map_store bits_json ∅ None). exact demo_run_installed. Qed.

Lemma demo_new_name : ib_newBundleName demo_clone ≠ "com.demo".
Proof. vm_compute. discriminate. Qed.

Lemma clone_takes_from_original_witness :
  dm_bundleIdMap demo_run3 !! 10000 = Some "com.demo"
  ∧ dm_bundleIdMap (RemoveClonedBundleInfo (ib_newBundleName demo_clone) demo_run5).1 !! 10000 = None.
Proof.
  destruct (clone_takes_from_original 7 "com.demo" demo_installed demo_clone "com.demo_0" (demo_uid_user 0) demo_run3
    demo_run5 demo_clone (RemoveClonedBundleInfo (ib_newBundleName demo_clone) demo_run5).1
    demo_inv demo_found demo_begin demo_same_owner eq_refl demo_new_name demo_cloned) as [_ H].
  destruct (H demo_uncloned) as (_ & _ & H1 & H2). rewrite demo_id in H1, H2. exact (conj H1 H2).
Defined.
