(* ===== verification/PreInstall.v ===== *)
(** * PreInstall: the bundles a device is delivered with

    Models services/bundlemgr/src/pre_install_bundle_info.cpp and
    preinstall_data_storage.cpp, and the functions of bundle_data_mgr.cpp that
    keep the vector of pre-installed bundles and its store in step.

    The key-value store is a class: its entries are texts.  The connection to
    the store (CheckKvStore) is a call that may fail. *)

From stdpp Require Import strings list gmap.
From S2P Require Import Prelude Strings StdMap BundleTypes Errors Json InnerBundleInfo InfoJson Parcel BundleJson BundleDataMgr.

Open Scope string_scope.
Open Scope list_scope.
Open Scope Z_scope.

(** ** PreInstallBundleInfo *)

Record PreInstallBundleInfo := mkPreInstallBundleInfo {
  pib_bundleName : string;
  pib_versionCode : Z;
  pib_bundlePaths : list string;
  pib_appType : AppType;
}.
#[export] Instance eta_PreInstallBundleInfo : Eta PreInstallBundleInfo := λ r,
  mkPreInstallBundleInfo (pib_bundleName r) (pib_versionCode r) (pib_bundlePaths r) (pib_appType r).

(** The version code has no default. *)
Definition new_PreInstallBundleInfo `{Uninit} : PreInstallBundleInfo :=
  mkPreInstallBundleInfo "" uninit [] AppType_SYSTEM_APP.

Definition AddBundlePath (bundlePath : string) (i : PreInstallBundleInfo) : PreInstallBundleInfo :=
  if bool_decide (bundlePath ∈ pib_bundlePaths i) then i else i <| pib_bundlePaths ::= λ l, l ++ [bundlePath] |>.

(** Erases the first occurrence. *)
Fixpoint erase_path (bundlePath : string) (l : list string) : list string :=
  match l with
  | [] => []
  | p :: l => if decide (p = bundlePath) then l else p :: erase_path bundlePath l
  end.
Definition DeleteBundlePath (bundlePath : string) (i : PreInstallBundleInfo) : PreInstallBundleInfo :=
  i <| pib_bundlePaths ::= erase_path bundlePath |>.

Definition HasBundlePath (bundlePath : string) (i : PreInstallBundleInfo) : bool := bool_decide (bundlePath ∈ pib_bundlePaths i).

Definition PreInstallBundleInfo_ToJson (i : PreInstallBundleInfo) : json :=
  object [
    ("bundleName", to_json (pib_bundleName i));
    ("versionCode", to_json (pib_versionCode i));
    ("bundlePaths", to_json (pib_bundlePaths i));
    ("appType", to_json (pib_appType i))
  ].

(** The members, and the result, which is taken from the profile reader's
    variable and leaves it ERR_OK. *)
Definition PreInstallBundleInfo_FromJson (j : json) (x : PreInstallBundleInfo) : M (PreInstallBundleInfo * Z) :=
  x ← GetValueIfFindKey PROFILE j "bundleName" get_string STRING true NOT_ARRAY (λ v x, x <| pib_bundleName := v |>) x;
  x ← GetValueIfFindKey PROFILE j "versionCode" get_uint32 NUMBER true NOT_ARRAY (λ v x, x <| pib_versionCode := v |>) x;
  x ← GetValueIfFindKey PROFILE j "bundlePaths" (get_vector get_string) ARRAY true STRINGS (λ v x, x <| pib_bundlePaths := v |>) x;
  x ← GetValueIfFindKey PROFILE j "appType" get_AppType NUMBER false NOT_ARRAY (λ v x, x <| pib_appType := v |>) x;
  ret ← read_var PROFILE;
  write_var PROFILE ERR_OK ;;
  mret (x, ret).

(** [dump] throws when a string is not UTF-8. *)
Definition PreInstallBundleInfo_ToString `{JsonText} (i : PreInstallBundleInfo) : option string := dump (PreInstallBundleInfo_ToJson i).

(** ** PreInstallDataStorage *)

(** The store, with the entries it holds; a call that does not succeed leaves
    them. *)
Class TextStore (P : Type) := {
  ts_Check : P → P * bool;
  ts_Put : string → string → P → P * Status;
  ts_Delete : string → P → P * Status;
  ts_GetEntries : P → P * Status * list (string * string);
  ts_entries : P → gmap string string;
  ts_Check_entries p : ts_entries (ts_Check p).1 = ts_entries p;
  ts_Put_entries key value p :
    ts_entries (ts_Put key value p).1
    = match (ts_Put key value p).2 with SUCCESS => <[key := value]> (ts_entries p) | _ => ts_entries p end;
  ts_Delete_entries key p :
    ts_entries (ts_Delete key p).1 = match (ts_Delete key p).2 with SUCCESS => delete key (ts_entries p) | _ => ts_entries p end;
  ts_GetEntries_entries p :
    ts_entries (ts_GetEntries p).1.1 = ts_entries p
    ∧ ((ts_GetEntries p).1.2 = SUCCESS → (ts_GetEntries p).2 ≡ₚ map_to_list (ts_entries p));
}.

Section PreInstall.
Context {P : Type} `{HP : TextStore P} `{HT : JsonText} `{HU : Uninit}.

(** A call, and a second one when the first fails with IPC_ERROR. *)
Definition try_twice {A} (call : P → P * Status * A) (p : P) : P * Status * A :=
  match call p with
  | (p, IPC_ERROR, _) => call p
  | r => r
  end.

Definition SavePreInstallStorageBundleInfo (i : PreInstallBundleInfo) (p : P) : option (P * bool) :=
  let '(p, ok) := ts_Check p in
  if negb ok then Some (p, false)
  else match PreInstallBundleInfo_ToString i with
       | None => None
       | Some value =>
           let '(p, status, _) := try_twice (λ p, (ts_Put (pib_bundleName i) value p, ())) p in
           Some (p, bool_decide (status = SUCCESS))
       end.

Definition DeletePreInstallStorageBundleInfo (i : PreInstallBundleInfo) (p : P) : P * bool :=
  let '(p, ok) := ts_Check p in
  if negb ok then (p, false)
  else let '(p, status, _) := try_twice (λ p, (ts_Delete (pib_bundleName i) p, ())) p in (p, bool_decide (status = SUCCESS)).

Definition DeleteOldBundleInfo (oldKey : string) (p : P) : P :=
  let '(p, ok) := ts_Check p in
  if negb ok then p else (try_twice (λ p, (ts_Delete oldKey p, ())) p).1.1.

Definition UpdateDataBase (infos : stdmap string PreInstallBundleInfo) (p : P) : option P :=
  foldl (λ p item, match p with
                   | None => None
                   | Some p => match SavePreInstallStorageBundleInfo item.2 p with
                               | None => None
                               | Some (p, ok) => Some (if ok then DeleteOldBundleInfo item.1 p else p)
                               end
                   end) (Some p) (elems infos).

(** The loop over the entries: a text that is not JSON, or lacks a member, is
    deleted; one filed under another key than its name is to be moved. *)
Fixpoint load_entries (allEntries : list (string * string)) (infos : list PreInstallBundleInfo)
    (updateInfos : stdmap string PreInstallBundleInfo) (p : P) : M (list PreInstallBundleInfo * stdmap string PreInstallBundleInfo * P) :=
  match allEntries with
  | [] => mret (infos, updateInfos, p)
  | (key, value) :: allEntries =>
      match parse value with
      | None => load_entries allEntries infos updateInfos (ts_Delete key p).1
      | Some jsonObject =>
          r ← PreInstallBundleInfo_FromJson jsonObject new_PreInstallBundleInfo;
          let '(i, ret) := r in
          if negb (ret =? ERR_OK) then load_entries allEntries infos updateInfos (ts_Delete key p).1
          else load_entries allEntries (infos ++ [i])
                 (if decide (key = pib_bundleName i) then updateInfos else emplace key i updateInfos) p
      end
  end.

(** The infos and the result; an exception leaves. *)
Definition LoadAllPreInstallBundleInfos (infos : list PreInstallBundleInfo) (p : P) : option (P * list PreInstallBundleInfo * bool) :=
  let '(p, ok) := ts_Check p in
  if negb ok then Some (p, infos, false)
  else match try_twice ts_GetEntries p with
       | (p, SUCCESS, allEntries) =>
           match load_entries allEntries infos ∅ p (mkParseState ERR_OK ERR_OK) with
           | None => None
           | Some ((infos, updateInfos, p), _) =>
               if bool_decide (elems updateInfos = []) then Some (p, infos, true)
               else match UpdateDataBase updateInfos p with None => None | Some p => Some (p, infos, true) end
           end
       | (p, _, _) => Some (p, infos, false)
       end.

(** ** The vector of the data manager *)

Definition has_bundleName (bundleName : string) (i : PreInstallBundleInfo) : bool := bool_decide (pib_bundleName i = bundleName).

(** [*std::find_if(...) = i], or [emplace_back(i)] *)
Fixpoint replace_or_append (i : PreInstallBundleInfo) (l : list PreInstallBundleInfo) : list PreInstallBundleInfo :=
  match l with
  | [] => [i]
  | x :: l => if has_bundleName (pib_bundleName i) x then i :: l else x :: replace_or_append i l
  end.
Fixpoint erase_info (bundleName : string) (l : list PreInstallBundleInfo) : list PreInstallBundleInfo :=
  match l with
  | [] => []
  | x :: l => if has_bundleName bundleName x then l else x :: erase_info bundleName l
  end.

Record PreInstalled := mkPreInstalled { pi_infos : list PreInstallBundleInfo; pi_store : P }.

Definition SavePreInstallBundleInfo (i : PreInstallBundleInfo) (s : PreInstalled) : option (PreInstalled * bool) :=
  match SavePreInstallStorageBundleInfo i (pi_store s) with
  | None => None
  | Some (p, ok) =>
      if ok then Some (mkPreInstalled (replace_or_append i (pi_infos s)) p, true) else Some (mkPreInstalled (pi_infos s) p, false)
  end.

Definition DeletePreInstallBundleInfo (i : PreInstallBundleInfo) (s : PreInstalled) : PreInstalled * bool :=
  let '(p, ok) := DeletePreInstallStorageBundleInfo i (pi_store s) in
  if ok then (mkPreInstalled (erase_info (pib_bundleName i) (pi_infos s)) p, true) else (mkPreInstalled (pi_infos s) p, false).

(** [info] is in and out. *)
Definition GetPreInstallBundleInfo (bundleName : string) (info : PreInstallBundleInfo) (s : PreInstalled) : PreInstallBundleInfo * bool :=
  if str_empty bundleName then (info, false)
  else match List.find (has_bundleName bundleName) (pi_infos s) with
       | Some i => (i, true)
       | None => (info <| pib_bundleName := bundleName |>, false)
       end.
End PreInstall.
Arguments PreInstalled P : clear implicits.

(** * Properties *)

Section Laws.
Context {P : Type} `{HP : TextStore P} `{HT : JsonText} `{HU : Uninit}.

Definition PreInstallBundleInfo_ok (i : PreInstallBundleInfo) : Prop := in_u32 (pib_versionCode i).

Lemma PreInstallBundleInfo_reads i :
  PreInstallBundleInfo_ok i → reads (PreInstallBundleInfo_FromJson (PreInstallBundleInfo_ToJson i) new_PreInstallBundleInfo) (i, ERR_OK).
Proof.
  intros Hi. unfold PreInstallBundleInfo_ok in Hi. unfold PreInstallBundleInfo_FromJson. repeat read_field. by destruct i.
Qed.

Lemma try_twice_put key value (p p' : P) status u :
  try_twice (λ p, (ts_Put key value p, ())) p = (p', status, u) →
  ts_entries p' = match status with SUCCESS => <[key := value]> (ts_entries p) | _ => ts_entries p end.
Proof.
  unfold try_twice. pose proof (ts_Put_entries key value p) as H1. destruct (ts_Put key value p) as [p1 []]; simpl in H1.
  - intros [= <- <- _]. done.
  - pose proof (ts_Put_entries key value p1) as H2. destruct (ts_Put key value p1) as [p2 s2]. simpl in H2.
    intros [= <- <- _]. by rewrite H2, H1.
  - intros [= <- <- _]. done.
Qed.

Lemma try_twice_delete key (p p' : P) status u :
  try_twice (λ p, (ts_Delete key p, ())) p = (p', status, u) →
  ts_entries p' = match status with SUCCESS => delete key (ts_entries p) | _ => ts_entries p end.
Proof.
  unfold try_twice. pose proof (ts_Delete_entries key p) as H1. destruct (ts_Delete key p) as [p1 []]; simpl in H1.
  - intros [= <- <- _]. done.
  - pose proof (ts_Delete_entries key p1) as H2. destruct (ts_Delete key p1) as [p2 s2]. simpl in H2.
    intros [= <- <- _]. by rewrite H2, H1.
  - intros [= <- <- _]. done.
Qed.

Lemma try_twice_entries (p p' : P) status l :
  try_twice ts_GetEntries p = (p', status, l) →
  ts_entries p' = ts_entries p ∧ (status = SUCCESS → l ≡ₚ map_to_list (ts_entries p)).
Proof.
  unfold try_twice. pose proof (ts_GetEntries_entries p) as [H1 H2].
  destruct (ts_GetEntries p) as [[p1 []] l1]; simpl in *; try (intros [= <- <- <-]; done).
  pose proof (ts_GetEntries_entries p1) as [H3 H4]. intros E. rewrite E in *. simpl in *. by rewrite <- H1.
Qed.

(** The vector and the store hold the same bundles. *)
Definition in_step (s : PreInstalled P) : Prop :=
  NoDup (map pib_bundleName (pi_infos s))
  ∧ (∀ i, i ∈ pi_infos s → is_Some (PreInstallBundleInfo_ToString i))
  ∧ ∀ key value, ts_entries (pi_store s) !! key = Some value
      ↔ ∃ i, i ∈ pi_infos s ∧ pib_bundleName i = key ∧ PreInstallBundleInfo_ToString i = Some value.

Lemma same_name l i j :
  NoDup (map pib_bundleName l) → i ∈ l → j ∈ l → pib_bundleName i = pib_bundleName j → i = j.
Proof.
  induction l as [|x l IH]; [by intros _ ?%elem_of_nil|]. simpl. intros [Hx Hl]%NoDup_cons.
  intros [->|Hi]%elem_of_cons [->|Hj]%elem_of_cons Hn; [done| | |by apply IH].
  - destruct Hx. rewrite Hn. by apply list_elem_of_fmap_2.
  - destruct Hx. rewrite <- Hn. by apply list_elem_of_fmap_2.
Qed.

Lemma has_bundleName_spec b i : has_bundleName b i = true ↔ pib_bundleName i = b.
Proof. apply bool_decide_eq_true. Qed.

Lemma elem_of_replace i l :
  NoDup (map pib_bundleName l) →
  NoDup (map pib_bundleName (replace_or_append i l))
  ∧ ∀ j, j ∈ replace_or_append i l ↔ j = i ∨ (j ∈ l ∧ pib_bundleName j ≠ pib_bundleName i).
Proof.
  induction l as [|x l IH]; simpl.
  - intros _. split; [apply NoDup_singleton|]. intros j. rewrite list_elem_of_singleton, elem_of_nil. tauto.
  - intros [Hx Hl]%NoDup_cons. destruct (IH Hl) as [Hd Hin]. destruct (has_bundleName _ x) eqn:E.
    + apply has_bundleName_spec in E. split; [simpl; rewrite <- E; by constructor|].
      intros j. rewrite !elem_of_cons. split; [|naive_solver]. intros [->|Hj]; [by left|]. right. split; [by right|].
      intros Hn. apply Hx. rewrite E, <- Hn. by apply list_elem_of_fmap_2.
    + apply bool_decide_eq_false in E. split.
      * simpl. constructor; [|done]. rewrite (list_elem_of_fmap pib_bundleName). intros (j & Hn & [->|[Hj _]]%Hin); [done|].
        apply Hx. rewrite Hn. by apply list_elem_of_fmap_2.
      * intros j. rewrite !elem_of_cons, Hin. naive_solver.
Qed.

Lemma elem_of_erase b l :
  NoDup (map pib_bundleName l) →
  NoDup (map pib_bundleName (erase_info b l)) ∧ ∀ j, j ∈ erase_info b l ↔ j ∈ l ∧ pib_bundleName j ≠ b.
Proof.
  induction l as [|x l IH]; simpl.
  - intros _. split; [constructor|]. intros j. rewrite elem_of_nil. tauto.
  - intros [Hx Hl]%NoDup_cons. destruct (IH Hl) as [Hd Hin]. destruct (has_bundleName b x) eqn:E.
    + apply has_bundleName_spec in E. split; [done|]. intros j. rewrite elem_of_cons. split; [|naive_solver].
      intros Hj. split; [by right|]. intros Hn. apply Hx. rewrite E, <- Hn. by apply list_elem_of_fmap_2.
    + apply bool_decide_eq_false in E. split.
      * simpl. constructor; [|done]. rewrite (list_elem_of_fmap pib_bundleName). intros (j & Hn & [Hj _]%Hin).
        apply Hx. rewrite Hn. by apply list_elem_of_fmap_2.
      * intros j. rewrite !elem_of_cons, Hin. naive_solver.
Qed.

(** Saving and deleting a pre-installed bundle keep the vector of the data
    manager and the store in step, also when the store refuses; when they
    return true, the bundle is in the vector, or no bundle of its name is. *)
Theorem preinstalled_in_step i s s' r :
  in_step s →
  (SavePreInstallBundleInfo i s = Some (s', r) → in_step s' ∧ (r = true → i ∈ pi_infos s') ∧ (r = false → pi_infos s' = pi_infos s))
  ∧ (DeletePreInstallBundleInfo i s = (s', r) →
     in_step s' ∧ (r = true → ∀ j, j ∈ pi_infos s' → pib_bundleName j ≠ pib_bundleName i) ∧ (r = false → pi_infos s' = pi_infos s)).
Proof.
  intros (Hd & Hsome & Hin). split.
  - unfold SavePreInstallBundleInfo, SavePreInstallStorageBundleInfo. pose proof (ts_Check_entries (pi_store s)) as Hc.
    destruct (ts_Check (pi_store s)) as [p ok]. simpl in Hc.
    destruct ok; simpl; [|intros [= <- <-]; split_and!; [split_and!; [done..|]; simpl; by rewrite Hc|done..]].
    destruct (PreInstallBundleInfo_ToString i) as [value|] eqn:Ei; [|done].
    destruct (try_twice _ p) as [[p1 status] u] eqn:Et. apply try_twice_put in Et. rewrite Hc in Et.
    case_bool_decide as Hs; intros [= <- <-]; simpl.
    + subst status. destruct (elem_of_replace i _ Hd) as [Hd' Hin']. split_and!; [split_and!; [done| |]|..]; [| |intros _; apply Hin'; by left|done].
      { intros j [->|[Hj _]]%Hin'; [by eexists|by apply Hsome]. }
      intros key v. simpl. rewrite Et. setoid_rewrite Hin'. destruct (decide (pib_bundleName i = key)) as [<-|Hne].
      * rewrite lookup_insert. case_decide; [|done]. naive_solver.
      * rewrite lookup_insert_ne by done. rewrite Hin. naive_solver.
    + split_and!; [split_and!; [done..|]|done..]. simpl. rewrite Et. by destruct status.
  - unfold DeletePreInstallBundleInfo, DeletePreInstallStorageBundleInfo. pose proof (ts_Check_entries (pi_store s)) as Hc.
    destruct (ts_Check (pi_store s)) as [p ok]. simpl in Hc.
    destruct ok; simpl; [|intros [= <- <-]; split_and!; [split_and!; [done..|]; simpl; by rewrite Hc|done..]].
    destruct (try_twice _ p) as [[p1 status] u] eqn:Et. apply try_twice_delete in Et. rewrite Hc in Et.
    case_bool_decide as Hs; intros [= <- <-]; simpl.
    + subst status. destruct (elem_of_erase (pib_bundleName i) _ Hd) as [Hd' Hin'].
      split_and!; [split_and!; [done| |]|..]; [| |intros _ j Hj; by apply Hin' in Hj as [_ Hj]|done].
      { intros j [Hj _]%Hin'. by apply Hsome. }
      intros key v. simpl. rewrite Et. setoid_rewrite Hin'. destruct (decide (pib_bundleName i = key)) as [<-|Hne].
      * rewrite lookup_delete. case_decide; [|done]. naive_solver.
      * rewrite lookup_delete_ne by done. rewrite Hin. naive_solver.
    + split_and!; [split_and!; [done..|]|done..]. simpl. rewrite Et. by destruct status.
Qed.

(** An entry of the store that is a bundle's. *)
Definition entry_of (e : string * string) (i : PreInstallBundleInfo) : Prop :=
  e.1 = pib_bundleName i ∧ PreInstallBundleInfo_ToString i = Some e.2 ∧ PreInstallBundleInfo_ok i.

Lemma load_entries_all es l infos (p : P) :
  Forall2 entry_of es l → reads (load_entries es infos ∅ p) (infos ++ l, ∅, p).
Proof.
  intros Hall. revert infos. induction Hall as [|[key value] i es l (Hk & Hv & Hi) Hall IH]; intros infos; simpl in *.
  - by rewrite app_nil_r.
  - unfold PreInstallBundleInfo_ToString in Hv. rewrite (parse_dump _ _ Hv). unfold reads.
    rewrite (run_reads _ _ _ (PreInstallBundleInfo_reads i Hi)). rewrite decide_True by done. simpl.
    rewrite IH. by rewrite <- app_assoc.
Qed.

(** The entries of the store, read back, are the vector's bundles. *)
Lemma entries_infos s es :
  in_step s → Forall PreInstallBundleInfo_ok (pi_infos s) → es ≡ₚ map_to_list (ts_entries (pi_store s)) →
  ∃ l, Forall2 entry_of es l ∧ l ≡ₚ pi_infos s.
Proof.
  intros (Hd & Hsome & Hin) Hok Hes.
  assert (∃ l, Forall2 entry_of es l ∧ ∀ i, i ∈ l → i ∈ pi_infos s) as (l & Hall & Hsub).
  { assert (∀ e, e ∈ es → ∃ i, i ∈ pi_infos s ∧ entry_of e i) as Hex.
    { intros [key value] He. rewrite Hes, elem_of_map_to_list, Hin in He. destruct He as (i & Hi & Hk & Hv).
      exists i. split; [done|]. split_and!; [done..|]. by eapply Forall_forall in Hok. }
    clear Hes. induction es as [|e es IH]; [exists []; split; [constructor|by intros i ?%elem_of_nil]|].
    destruct (Hex e) as (i & Hi & He); [by left|]. destruct IH as (l & Hall & Hsub); [intros; apply Hex; by right|].
    exists (i :: l). split; [by constructor|]. intros j [->|Hj]%elem_of_cons; [done|by apply Hsub]. }
  assert (map pib_bundleName l = map fst es) as Hnames.
  { clear -Hall. induction Hall as [|e i es l (Hk & _) Hall IH]; [done|]. simpl. by rewrite IH, Hk. }
  exists l. split; [done|]. apply NoDup_Permutation.
  - apply (NoDup_fmap_1 pib_bundleName). change (pib_bundleName <$> l) with (map pib_bundleName l). rewrite Hnames.
    change (NoDup (fst <$> es)). rewrite Hes. apply NoDup_fst_map_to_list.
  - by apply (NoDup_fmap_1 pib_bundleName).
  - intros i. split; [apply Hsub|]. intros Hi. destruct (Hsome i Hi) as [value Hv].
    assert ((pib_bundleName i, value) ∈ es) as He by (rewrite Hes, elem_of_map_to_list, Hin; by exists i).
    destruct (list_elem_of_lookup_1 _ _ He) as [n Hn]. destruct (Forall2_lookup_l _ _ _ _ _ Hall Hn) as (j & Hj & Hk & _).
    assert (j ∈ l) as Hjl by (by eapply list_elem_of_lookup_2).
    by rewrite (same_name (pi_infos s) i j) by (done || by apply Hsub).
Qed.

(** The store answers a load: it is there, and hands out its entries at the
    first call, or at the second when the first ends with IPC_ERROR. *)
Definition store_answers (p : P) : Prop :=
  let '(p1, there) := ts_Check p in
  let '(p2, status, _) := ts_GetEntries p1 in
  there = true ∧ (status = SUCCESS ∨ (status = IPC_ERROR ∧ (ts_GetEntries p2).1.2 = SUCCESS)).

Lemma try_twice_success (p1 p2 : P) status es :
  try_twice ts_GetEntries p1 = (p2, status, es) →
  status = SUCCESS ↔
  (ts_GetEntries p1).1.2 = SUCCESS
  ∨ ((ts_GetEntries p1).1.2 = IPC_ERROR ∧ (ts_GetEntries (ts_GetEntries p1).1.1).1.2 = SUCCESS).
Proof.
  unfold try_twice. destruct (ts_GetEntries p1) as [[q []] l]; simpl.
  - intros [= <- <- <-]. naive_solver.
  - intros ->. simpl. naive_solver.
  - intros [= <- <- <-]. naive_solver.
Qed.

(** C30: After a restart the vector of the data manager is loaded from the
    store.  When the vector and the store were in step, the load succeeds
    exactly when the store answers: it is there and hands out its entries, at
    the first call or at the second after an IPC_ERROR.  Then the loaded
    vector has exactly the bundles of the old one; otherwise it is empty.
    Nothing in the store changes. *)
Theorem preinstalled_survive_restart s :
  in_step s → Forall PreInstallBundleInfo_ok (pi_infos s) →
  ∃ p infos ok, LoadAllPreInstallBundleInfos [] (pi_store s) = Some (p, infos, ok)
    ∧ (ok = true ↔ store_answers (pi_store s))
    ∧ (if ok then infos ≡ₚ pi_infos s else infos = [])
    ∧ ts_entries p = ts_entries (pi_store s).
Proof.
  intros Hs Hok. unfold LoadAllPreInstallBundleInfos, store_answers. pose proof (ts_Check_entries (pi_store s)) as Hc.
  destruct (ts_Check (pi_store s)) as [p1 there]. simpl in Hc.
  destruct there; simpl; [|eexists _, _, _; split_and!; [done| |done..]; repeat case_match; naive_solver].
  destruct (try_twice ts_GetEntries p1) as [[p2 status] es] eqn:Et. pose proof (try_twice_success _ _ _ _ Et) as Hst.
  apply try_twice_entries in Et as [Hp2 Hes]. rewrite Hc in *.
  destruct (ts_GetEntries p1) as [[q st] l0]. simpl in Hst.
  destruct status; [|eexists _, _, _; split_and!; [done|naive_solver|done..]..].
  destruct (entries_infos s es Hs Hok (Hes eq_refl)) as (l & Hall & Hperm).
  rewrite (load_entries_all es l [] p2 Hall). simpl. eexists _, _, _. split_and!; [done|naive_solver|done|by rewrite Hp2].
Qed.
End Laws.

(** ** Examples *)

Section Demo.

#[local, refine] Instance map_store : TextStore (gmap string string) := {|
  ts_Check p := (p, true);
  ts_Put key value p := (<[key := value]> p, SUCCESS);
  ts_Delete key p := (delete key p, SUCCESS);
  ts_GetEntries p := (p, SUCCESS, map_to_list p);
  ts_entries p := p;
|}.
Proof. all: done. Defined.

Definition demo_preinstalled : PreInstallBundleInfo := mkPreInstallBundleInfo "com.demo" 7 ["/system/app/demo.hap"] AppType_SYSTEM_APP.

(** Texts of one bundle. *)
Definition demo_dump (j : json) : option string :=
  match j with
  | JObject m =>
      match elems m with
      | [(k1, JNumber t); (k2, JString n); (k3, JArray [JString p]); (k4, JNumber v)] =>
          if decide ((k1, k2, k3, k4) = ("appType", "bundleName", "bundlePaths", "versionCode")
                     ∧ (t, n, p, v) = (AppType_value AppType_SYSTEM_APP, "com.demo", "/system/app/demo.hap", 7))
          then Some "demo" else None
      | _ => None
      end
  | _ => None
  end.

Lemma demo_dump_some j str : demo_dump j = Some str → str = "demo" ∧ j = PreInstallBundleInfo_ToJson demo_preinstalled.
Proof.
  unfold demo_dump. destruct j as [| | | | | |[l]]; try done. simpl.
  repeat (case_match; simplify_eq; try done). intros [= <-]. split; [done|]. 
  match goal with H : decide _ = _ |- _ => clear H end. destruct a as [Hk Hv]. injection Hk as -> -> -> ->.
  by injection Hv as -> -> -> ->.
Qed.

#[local, refine] Instance demo_text : JsonText := {|
  dump := demo_dump;
  parse s := if decide (s = "demo") then Some (PreInstallBundleInfo_ToJson demo_preinstalled) else None;
|}.
Proof.
  - by intros j str [-> ->]%demo_dump_some.
  - by intros j [? _]%demo_dump_some.
  - by intros j str [-> _]%demo_dump_some.
Defined.

#[local] Instance no_version : Uninit := {| uninit := 0; uninit_type := ExtensionAbilityType_FORM |}.

Definition demo_saved : PreInstalled (gmap string string) := mkPreInstalled [demo_preinstalled] {[ "com.demo" := "demo" ]}.

Lemma demo_in_step : in_step demo_saved.
Proof.
  split_and!.
  - apply NoDup_singleton.
  - intros i ->%list_elem_of_singleton. by eexists.
  - intros key value. unfold demo_saved. simpl. rewrite lookup_singleton_Some. split.
    + intros [<- <-]. exists demo_preinstalled. split_and!; [by left|done|done].
    + by intros (i & ->%list_elem_of_singleton & <- & [= <-]).
Qed.

Lemma preinstalled_in_step_witness :
  (DeletePreInstallBundleInfo demo_preinstalled demo_saved).2 = true
  ∧ in_step (DeletePreInstallBundleInfo demo_preinstalled demo_saved).1.
Proof.
  split; [reflexivity|].
  apply (preinstalled_in_step demo_preinstalled demo_saved (DeletePreInstallBundleInfo demo_preinstalled demo_saved).1 true);
    [exact demo_in_step|reflexivity].
Defined.

Lemma preinstalled_survive_restart_witness :
  ∃ p infos, LoadAllPreInstallBundleInfos [] (pi_store demo_saved) = Some (p, infos, true)
    ∧ infos ≡ₚ [demo_preinstalled] ∧ ts_entries p = {[ "com.demo" := "demo" ]}.
Proof.
  destruct (preinstalled_survive_restart demo_saved demo_in_step) as (p & infos & ok & Hload & Hok & Hinfos & Hp).
  { apply Forall_singleton. vm_compute. split; discriminate. }
  assert (ok = true) as -> by (apply Hok; split; [reflexivity|left; reflexivity]).
  exists p, infos. split; [exact Hload|]. split; [exact Hinfos|exact Hp].
Defined.
End Demo.
