(* ===== verification/BundleDataQuery.v ===== *)
(** * BundleDataQuery: what the manager tells its clients

    Models the const operations of
    services/bundlemgr/src/bundle_data_mgr.cpp: finding the abilities and
    extensions for a Want, and the bundles, applications, modules, forms and
    users.  A query that assigns its out parameter only when it succeeds
    gives an option; one that appends to a vector takes the vector and gives
    it back with the answer.  The queries over all applications and bundles,
    whose callers pass an empty vector, give what they append.

    [callingUid] is the uid of the caller of the binder call, [regex] is
    [std::regex] and [GetReqPermissions] the access token service; none of
    the queries changes the manager.  The queries that read resources, disk
    usage or the distributed data service are not modelled. *)

From stdpp Require Import strings gmap sorting.
From Stdlib Require Import Sorting.Sorted.
From S2P Require Import Prelude Strings StdMap BundleTypes Skill InnerBundleInfo InnerBundleQuery BundleStateStorage BundleDataMgr.

Open Scope string_scope.
Open Scope list_scope.
Open Scope Z_scope.

(** ** std::stable_sort, descending *)

Fixpoint insert_by {A} (key : A → Z) (a : A) (l : list A) : list A :=
  match l with
  | [] => [a]
  | b :: l' => if key a <? key b then b :: insert_by key a l' else a :: b :: l'
  end.
Definition stable_sort {A} (key : A → Z) (l : list A) : list A := foldr (insert_by key) [] l.

(** ** std::string *)

(** [s.substr(0, s.find(sub, from))], the whole string when there is none. *)
Definition cut_at (sub : string) (from : nat) (s : string) : string :=
  match String.index from sub s with None => s | Some pos => String.substring 0 pos s end.

Definition URI_SEPARATOR : string := "://".
Definition PARAM_URI_SEPARATOR : string := ":///".
Definition SEPARATOR : string := "/".

Section Query.
Context {K : Type} `{StdSort}.
Context (regex : string → option (string → bool)).
Context (GetReqPermissions : Z → bool → option (list PermissionStateFull)).
Context (callingUid : Z).
#[local] Abbreviation mgr := (BundleDataMgr K).
#[local] Abbreviation GetUserId := (BundleDataMgr.GetUserId callingUid).
Implicit Types (m : mgr).

Definition GetUserIdByCallingUid : Z := GetUserIdByUid callingUid.

(** The copy of a bundle a query works on, for a user. *)
Definition GetInnerBundleInfoWithFlags (bundleName : string) (flags userId : Z) (m : mgr) : option InnerBundleInfo :=
  let requestUserId := GetUserId userId m in
  if requestUserId =? INVALID_USERID then None
  else if sm_is_empty (dm_bundleInfos m) then None
  else match dm_bundleInfos m !! bundleName with
       | None => None
       | Some i =>
           if IsDisabled i then None
           else
             let responseUserId := GetResponseUserId requestUserId i in
             if negb (any_flag (u32 flags) GET_APPLICATION_INFO_WITH_DISABLE) && negb (GetApplicationEnabled responseUserId i)
             then None else Some i
       end.

(** ** Abilities *)

(** The fields that are only given when asked for. *)
Definition trim_ability (flags : Z) (a : AbilityInfo) : AbilityInfo :=
  let a := if negb (has_flag (u32 flags) GET_ABILITY_INFO_WITH_PERMISSION) then a <| ai_permissions := [] |> else a in
  if negb (has_flag (u32 flags) GET_ABILITY_INFO_WITH_METADATA)
  then a <| ai_metaData ::= λ d, d <| mdl_customizeData := [] |> |> <| ai_metadata := [] |> else a.

Definition basic_application (flags userId : Z) (i : InnerBundleInfo) (a : AbilityInfo) : AbilityInfo :=
  if has_flag (u32 flags) GET_ABILITY_INFO_WITH_APPLICATION
  then a <| ai_applicationInfo ::= InnerBundleQuery.GetApplicationInfo GET_BASIC_APPLICATION_INFO userId i |> else a.

Definition ExplicitQueryAbilityInfo (bundleName moduleName abilityName : string) (flags userId : Z) (m : mgr) :
  option AbilityInfo :=
  let requestUserId := GetUserId userId m in
  if requestUserId =? INVALID_USERID then None
  else match GetInnerBundleInfoWithFlags bundleName flags requestUserId m with
       | None => None
       | Some i =>
           let responseUserId := GetResponseUserId requestUserId i in
           match FindAbilityInfo bundleName moduleName abilityName responseUserId i with
           | None => None
           | Some ability =>
               if has_flag (u32 flags) GET_ABILITY_INFO_SYSTEMAPP_ONLY && negb (IsSystemApp i) then None
               else if negb (any_flag (u32 flags) GET_ABILITY_INFO_WITH_DISABLE)
                       && negb (InnerBundleInfo.IsAbilityEnabled ability responseUserId i) then None
               else Some (basic_application flags responseUserId i (trim_ability flags ability))
           end
       end.

Definition FilterAbilityInfosByModuleName (moduleName : string) (abilityInfos : list AbilityInfo) : list AbilityInfo :=
  if str_empty moduleName then abilityInfos else filter (λ a, ai_moduleName a = moduleName) abilityInfos.

(** The loop over the skills of one ability: what it appends. *)
Fixpoint match_ability (want : Want) (flags userId : Z) (i : InnerBundleInfo) (m : mgr) (ability : AbilityInfo)
  (skills : list Skill) : list AbilityInfo :=
  match skills with
  | [] => []
  | skill :: skills' =>
      if Match regex skill want then
        if negb (any_flag (u32 flags) GET_ABILITY_INFO_WITH_DISABLE)
           && negb (InnerBundleInfo.IsAbilityEnabled ability (GetUserId userId m) i)
        then match_ability want flags userId i m ability skills'
        else [trim_ability flags (basic_application flags userId i ability)]
      else match_ability want flags userId i m ability skills'
  end.

Definition GetMatchAbilityInfos (want : Want) (flags : Z) (i : InnerBundleInfo) (userId : Z) (m : mgr)
  (abilityInfos : list AbilityInfo) : list AbilityInfo :=
  if has_flag (u32 flags) GET_ABILITY_INFO_SYSTEMAPP_ONLY && negb (IsSystemApp i) then abilityInfos
  else foldl (λ abilityInfos p,
         match ib_skillInfos i !! p.1 with
         | None => abilityInfos
         | Some skills => abilityInfos ++ match_ability want flags userId i m p.2 skills
         end) abilityInfos (elems (ib_baseAbilityInfos i)).

(** [want.GetAction().empty() && want.GetEntities().empty() && ...] *)
Definition nothing_asked (want : Want) : bool :=
  str_empty (want_action want) && match want_entities want with [] => true | _ => false end
  && str_empty (want_uriString want) && str_empty (want_type want).

Definition sort_by_priority {A} (priority : A → Z) (l : list A) : list A :=
  if (1 <? length l)%nat then stable_sort priority l else l.

Definition ImplicitQueryAbilityInfos (want : Want) (flags userId : Z) (m : mgr) (abilityInfos : list AbilityInfo) :
  list AbilityInfo * bool :=
  let requestUserId := GetUserId userId m in
  if requestUserId =? INVALID_USERID then (abilityInfos, false)
  else if nothing_asked want then (abilityInfos, false)
  else if sm_is_empty (dm_bundleInfos m) then (abilityInfos, false)
  else
    let bundleName := want_bundleName want in
    let query_bundle bundleName abilityInfos :=
      match GetInnerBundleInfoWithFlags bundleName flags requestUserId m with
      | None => None
      | Some i => Some (GetMatchAbilityInfos want flags i (GetResponseUserId requestUserId i) m abilityInfos)
      end in
    if negb (str_empty bundleName) then
      match query_bundle bundleName abilityInfos with
      | None => (abilityInfos, false)
      | Some abilityInfos =>
          (sort_by_priority ai_priority (FilterAbilityInfosByModuleName (want_moduleName want) abilityInfos), true)
      end
    else
      (sort_by_priority ai_priority
         (foldl (λ abilityInfos item, default abilityInfos (query_bundle item.1 abilityInfos))
            abilityInfos (elems (dm_bundleInfos m))), true).

Definition is_explicit (want : Want) : bool :=
  negb (str_empty (want_bundleName want)) && negb (str_empty (want_abilityName want)).

Definition QueryAbilityInfo (want : Want) (flags userId : Z) (m : mgr) : option AbilityInfo :=
  let requestUserId := GetUserId userId m in
  if requestUserId =? INVALID_USERID then None
  else if is_explicit want then
    ExplicitQueryAbilityInfo (want_bundleName want) (want_moduleName want) (want_abilityName want) flags requestUserId m
  else
    let '(abilityInfos, ret) := ImplicitQueryAbilityInfos want flags requestUserId m [] in
    if negb ret then None else head abilityInfos.

Definition QueryAbilityInfos (want : Want) (flags userId : Z) (m : mgr) (abilityInfos : list AbilityInfo) :
  list AbilityInfo * bool :=
  let requestUserId := GetUserId userId m in
  if requestUserId =? INVALID_USERID then (abilityInfos, false)
  else if is_explicit want then
    match ExplicitQueryAbilityInfo (want_bundleName want) (want_moduleName want) (want_abilityName want) flags
            requestUserId m with
    | None => (abilityInfos, false)
    | Some abilityInfo => (abilityInfos ++ [abilityInfo], true)
    end
  else
    let '(abilityInfos, ret) := ImplicitQueryAbilityInfos want flags requestUserId m abilityInfos in
    if negb ret then (abilityInfos, false)
    else if (length abilityInfos =? 0)%nat then (abilityInfos, false) else (abilityInfos, true).

Definition IsAbilityEnabled (abilityInfo : AbilityInfo) (m : mgr) : bool :=
  bool_decide (is_Some (ExplicitQueryAbilityInfo (ai_bundleName abilityInfo) (ai_moduleName abilityInfo)
                          (ai_name abilityInfo) 0 (GetUserId UNSPECIFIED_USERID m) m)).

(** ** Launchers *)

Fixpoint match_launcher (want : Want) (responseUserId : Z) (i : InnerBundleInfo) (ability : AbilityInfo)
  (skills : list Skill) : list AbilityInfo :=
  match skills with
  | [] => []
  | skill :: skills' =>
      if MatchLauncher skill want
      then [ability <| ai_applicationInfo ::=
              InnerBundleQuery.GetApplicationInfo GET_BASIC_APPLICATION_INFO responseUserId i |>]
      else match_launcher want responseUserId i ability skills'
  end.

Definition GetMatchLauncherAbilityInfos (want : Want) (i : InnerBundleInfo) (userId : Z) (m : mgr)
  (abilityInfos : list AbilityInfo) : list AbilityInfo :=
  let requestUserId := GetUserId userId m in
  if requestUserId =? INVALID_USERID then abilityInfos
  else
    let responseUserId := GetResponseUserId requestUserId i in
    foldl (λ abilityInfos p,
      match ib_skillInfos i !! p.1 with
      | None => abilityInfos
      | Some skills => abilityInfos ++ match_launcher want responseUserId i p.2 skills
      end) abilityInfos (elems (ib_baseAbilityInfos i)).

Definition QueryLauncherAbilityInfos (want : Want) (userId : Z) (m : mgr) (abilityInfos : list AbilityInfo) :
  list AbilityInfo * bool :=
  let requestUserId := GetUserId (i32 userId) m in
  if requestUserId =? INVALID_USERID then (abilityInfos, false)
  else if sm_is_empty (dm_bundleInfos m) then (abilityInfos, false)
  else if str_empty (want_bundleName want) then
    (foldl (λ abilityInfos item,
       if IsDisabled item.2 then abilityInfos
       else GetMatchLauncherAbilityInfos want item.2 requestUserId m abilityInfos)
       abilityInfos (elems (dm_bundleInfos m)), true)
  else match dm_bundleInfos m !! want_bundleName want with
       | None => (abilityInfos, false)
       | Some i =>
           (FilterAbilityInfosByModuleName (want_moduleName want)
              (GetMatchLauncherAbilityInfos want i requestUserId m abilityInfos), true)
       end.

(** ** Abilities by URI *)

(** The authority of [dataability://device/authority/path], for a URI that
    has the prefix somewhere. *)
Definition ability_authority (abilityUri : string) : option string :=
  let n := String.length DATA_ABILITY_URI_PREFIX in
  let noPpefixUri := String.substring n (String.length abilityUri - n) abilityUri in
  match String.index 0 SEPARATOR noPpefixUri with
  | None => None
  | Some posFirstSeparator =>
      let start := S posFirstSeparator in
      match String.index start SEPARATOR noPpefixUri with
      | None => Some (String.substring start (String.length noPpefixUri - start) noPpefixUri)
      | Some posSecondSeparator => Some (String.substring start (posSecondSeparator - start) noPpefixUri)
      end
  end.

(** The first result of the bundles, in order. *)
Fixpoint first_bundle {B} (f : InnerBundleInfo → option B) (l : list (string * InnerBundleInfo)) : option B :=
  match l with
  | [] => None
  | item :: l' => match f item.2 with Some r => Some r | None => first_bundle f l' end
  end.

Definition QueryAbilityInfoByUri (abilityUri : string) (userId : Z) (m : mgr) : option AbilityInfo :=
  let requestUserId := GetUserId userId m in
  if requestUserId =? INVALID_USERID then None
  else if str_empty abilityUri then None
  else if negb (str_contains DATA_ABILITY_URI_PREFIX abilityUri) then None
  else if sm_is_empty (dm_bundleInfos m) then None
  else match ability_authority abilityUri with
       | None => None
       | Some uri =>
           first_bundle (λ i,
             if IsDisabled i then None
             else
               let responseUserId := GetResponseUserId requestUserId i in
               if negb (GetApplicationEnabled responseUserId i) then None
               else (λ a, a <| ai_applicationInfo ::=
                       InnerBundleQuery.GetApplicationInfo GET_BASIC_APPLICATION_INFO responseUserId i |>)
                    <$> FindAbilityInfoByUri uri i)
             (elems (dm_bundleInfos m))
       end.

Definition QueryAbilityInfosByUri (abilityUri : string) (m : mgr) (abilityInfos : list AbilityInfo) :
  list AbilityInfo * bool :=
  if str_empty abilityUri then (abilityInfos, false)
  else if negb (str_contains DATA_ABILITY_URI_PREFIX abilityUri) then (abilityInfos, false)
  else if sm_is_empty (dm_bundleInfos m) then (abilityInfos, false)
  else match ability_authority abilityUri with
       | None => (abilityInfos, false)
       | Some uri =>
           let abilityInfos :=
             foldl (λ abilityInfos item,
               if IsDisabled item.2 then abilityInfos
               else FindAbilityInfosByUri uri (GetUserId UNSPECIFIED_USERID m) item.2 abilityInfos)
               abilityInfos (elems (dm_bundleInfos m)) in
           (abilityInfos, negb (length abilityInfos =? 0)%nat)
       end.

(** ** Extensions *)

Definition trim_extension (flags : Z) (e : ExtensionAbilityInfo) : ExtensionAbilityInfo :=
  let e := if negb (has_flag (u32 flags) GET_ABILITY_INFO_WITH_PERMISSION) then e <| ext_permissions := [] |> else e in
  if negb (has_flag (u32 flags) GET_ABILITY_INFO_WITH_METADATA) then e <| ext_metadata := [] |> else e.

Definition extension_application (flags userId : Z) (i : InnerBundleInfo) (e : ExtensionAbilityInfo) : ExtensionAbilityInfo :=
  if has_flag (u32 flags) GET_ABILITY_INFO_WITH_APPLICATION
  then e <| ext_applicationInfo ::= InnerBundleQuery.GetApplicationInfo GET_BASIC_APPLICATION_INFO userId i |> else e.

Definition ExplicitQueryExtensionInfo (bundleName moduleName extensionName : string) (flags userId : Z) (m : mgr) :
  option ExtensionAbilityInfo :=
  let requestUserId := GetUserId userId m in
  if requestUserId =? INVALID_USERID then None
  else match GetInnerBundleInfoWithFlags bundleName flags requestUserId m with
       | None => None
       | Some i =>
           match FindExtensionInfo bundleName moduleName extensionName i with
           | None => None
           | Some extension =>
               Some (extension_application flags (GetResponseUserId requestUserId i) i (trim_extension flags extension))
           end
       end.

Definition FilterExtensionAbilityInfosByModuleName (moduleName : string) (extensionInfos : list ExtensionAbilityInfo) :
  list ExtensionAbilityInfo :=
  if str_empty moduleName then extensionInfos else filter (λ e, ext_moduleName e = moduleName) extensionInfos.

Fixpoint match_extension (want : Want) (flags userId : Z) (i : InnerBundleInfo) (key : string) (skills : list Skill) :
  list ExtensionAbilityInfo :=
  match skills with
  | [] => []
  | skill :: skills' =>
      if negb (Match regex skill want) then match_extension want flags userId i key skills'
      else match ib_baseExtensionInfos i !! key with
           | None => []
           | Some e => [trim_extension flags (extension_application flags userId i e)]
           end
  end.

Definition GetMatchExtensionInfos (want : Want) (flags userId : Z) (i : InnerBundleInfo)
  (infos : list ExtensionAbilityInfo) : list ExtensionAbilityInfo :=
  foldl (λ infos p, infos ++ match_extension want flags userId i p.1 p.2) infos (elems (ib_extensionSkillInfos i)).

Definition ImplicitQueryExtensionInfos (want : Want) (flags userId : Z) (m : mgr)
  (extensionInfos : list ExtensionAbilityInfo) : list ExtensionAbilityInfo * bool :=
  if nothing_asked want then (extensionInfos, false)
  else
    let requestUserId := GetUserId userId m in
    if requestUserId =? INVALID_USERID then (extensionInfos, false)
    else
      let bundleName := want_bundleName want in
      let query_bundle bundleName extensionInfos :=
        match GetInnerBundleInfoWithFlags bundleName flags requestUserId m with
        | None => None
        | Some i => Some (GetMatchExtensionInfos want flags (GetResponseUserId requestUserId i) i extensionInfos)
        end in
      if negb (str_empty bundleName) then
        match query_bundle bundleName extensionInfos with
        | None => (extensionInfos, false)
        | Some extensionInfos =>
            (sort_by_priority ext_priority
               (FilterExtensionAbilityInfosByModuleName (want_moduleName want) extensionInfos), true)
        end
      else
        (sort_by_priority ext_priority
           (foldl (λ extensionInfos item, default extensionInfos (query_bundle item.1 extensionInfos))
              extensionInfos (elems (dm_bundleInfos m))), true).

Definition QueryExtensionAbilityInfos (want : Want) (flags userId : Z) (m : mgr)
  (extensionInfos : list ExtensionAbilityInfo) : list ExtensionAbilityInfo * bool :=
  let requestUserId := GetUserId userId m in
  if requestUserId =? INVALID_USERID then (extensionInfos, false)
  else if is_explicit want then
    match ExplicitQueryExtensionInfo (want_bundleName want) (want_moduleName want) (want_abilityName want) flags
            requestUserId m with
    | None => (extensionInfos, false)
    | Some info => (extensionInfos ++ [info], true)
    end
  else
    let '(extensionInfos, ret) := ImplicitQueryExtensionInfos want flags requestUserId m extensionInfos in
    if negb ret then (extensionInfos, false)
    else if (length extensionInfos =? 0)%nat then (extensionInfos, false) else (extensionInfos, true).

(** The overload for an extension type. *)
Definition QueryExtensionAbilityInfosByType (extensionType : ExtensionAbilityType) (userId : Z) (m : mgr)
  (extensionInfos : list ExtensionAbilityInfo) : list ExtensionAbilityInfo * bool :=
  let requestUserId := GetUserId userId m in
  if requestUserId =? INVALID_USERID then (extensionInfos, false)
  else
    (foldl (λ extensionInfos item,
       match GetInnerBundleInfoWithFlags item.1 0 requestUserId m with
       | None => extensionInfos
       | Some i =>
           extensionInfos ++ map (λ e, e <| ext_applicationInfo ::= InnerBundleQuery.GetApplicationInfo
                                     GET_BASIC_APPLICATION_INFO (GetResponseUserId requestUserId i) i |>)
             (filter (λ e, ext_type e = extensionType) (sm_vals (ib_baseExtensionInfos i)))
       end) extensionInfos (elems (dm_bundleInfos m)), true).

(** [scheme:///authority/path] to [scheme://authority]: everything from the
    first separator behind [:///] is cut, then [:///] becomes [://]. *)
Definition convert_uri (uri : string) : option string :=
  match String.index 0 PARAM_URI_SEPARATOR uri with
  | None => None
  | Some schemePos =>
      let convertUri := cut_at SEPARATOR (schemePos + 4) uri in
      Some (String.substring 0 schemePos convertUri +:+ URI_SEPARATOR
            +:+ String.substring (schemePos + 4) (String.length convertUri - (schemePos + 4)) convertUri)
  end.

Definition QueryExtensionAbilityInfoByUri (uri : string) (userId : Z) (m : mgr) : option ExtensionAbilityInfo :=
  let requestUserId := GetUserId userId m in
  if requestUserId =? INVALID_USERID then None
  else if str_empty uri then None
  else match convert_uri uri with
       | None => None
       | Some convertUri =>
           if sm_is_empty (dm_bundleInfos m) then None
           else first_bundle (λ i,
                  if IsDisabled i then None
                  else
                    let responseUserId := GetResponseUserId requestUserId i in
                    if negb (GetApplicationEnabled responseUserId i) then None
                    else (λ e, e <| ext_applicationInfo ::= InnerBundleQuery.GetApplicationInfo
                                 GET_BASIC_APPLICATION_INFO responseUserId i |>)
                         <$> FindExtensionAbilityInfoByUri convertUri i)
                  (elems (dm_bundleInfos m))
       end.

(** The ability or the extension to start: one of the two out parameters is
    assigned. *)
Definition ImplicitQueryInfoByPriority (want : Want) (flags userId : Z) (m : mgr) :
  option (AbilityInfo + ExtensionAbilityInfo) :=
  let requestUserId := GetUserId userId m in
  if requestUserId =? INVALID_USERID then None
  else
    let '(abilityInfos, abilityRet) := ImplicitQueryAbilityInfos want flags requestUserId m [] in
    let '(extensionInfos, extensionRet) := ImplicitQueryExtensionInfos want flags requestUserId m [] in
    match (if abilityRet then head abilityInfos else None), (if extensionRet then head extensionInfos else None) with
    | None, None => None
    | Some a, Some e => if ext_priority e <=? ai_priority a then Some (inl a) else Some (inr e)
    | Some a, None => Some (inl a)
    | None, Some e => Some (inr e)
    end.

(** ** Applications and bundles *)

Definition GetApplicationInfo (appName : string) (flags userId : Z) (m : mgr) (appInfo : ApplicationInfo) :
  option ApplicationInfo :=
  let requestUserId := GetUserId userId m in
  if requestUserId =? INVALID_USERID then None
  else match GetInnerBundleInfoWithFlags appName flags requestUserId m with
       | None => None
       | Some i => Some (InnerBundleQuery.GetApplicationInfo flags (GetResponseUserId requestUserId i) i appInfo)
       end.

Definition GetApplicationInfos (flags userId : Z) (m : mgr) : list ApplicationInfo * bool :=
  let requestUserId := GetUserId userId m in
  if requestUserId =? INVALID_USERID then ([], false)
  else if sm_is_empty (dm_bundleInfos m) then ([], false)
  else
    let appInfos := omap (λ item : string * InnerBundleInfo,
      let i := item.2 in
      if IsDisabled i then None
      else
        let responseUserId := GetResponseUserId requestUserId i in
        if negb (any_flag (u32 flags) GET_APPLICATION_INFO_WITH_DISABLE) && negb (GetApplicationEnabled responseUserId i)
        then None
        else Some (InnerBundleQuery.GetApplicationInfo flags responseUserId i new_ApplicationInfo))
      (elems (dm_bundleInfos m)) in
    (appInfos, negb (length appInfos =? 0)%nat).

Definition GetInnerBundleUserInfos (bundleName : string) (m : mgr) : option (list InnerBundleUserInfo) :=
  if str_empty bundleName then None
  else if sm_is_empty (dm_bundleInfos m) then None
  else match dm_bundleInfos m !! bundleName with
       | None => None
       | Some i =>
           if IsDisabled i then None
           else match sm_vals (ib_innerBundleUserInfos i) with [] => None | users => Some users end
       end.

Definition GetInnerBundleUserInfoByUserId (bundleName : string) (userId : Z) (m : mgr) (out : InnerBundleUserInfo) :
  bool * InnerBundleUserInfo :=
  let requestUserId := GetUserId userId m in
  if requestUserId =? INVALID_USERID then (false, out)
  else if str_empty bundleName then (false, out)
  else if sm_is_empty (dm_bundleInfos m) then (false, out)
  else match dm_bundleInfos m !! bundleName with
       | None => (false, out)
       | Some i => if IsDisabled i then (false, out) else GetInnerBundleUserInfo requestUserId i out
       end.

Definition GetBundleInfo (bundleName : string) (flags userId : Z) (m : mgr) (bundleInfo : BundleInfo) : option BundleInfo :=
  let userId :=
    if userId =? ANY_USERID
    then match GetInnerBundleUserInfos bundleName m with Some (u :: _) => Some (user_of u) | _ => None end
    else Some userId in
  match userId with
  | None => None
  | Some userId =>
      let requestUserId := GetUserId userId m in
      if requestUserId =? INVALID_USERID then None
      else match GetInnerBundleInfoWithFlags bundleName flags requestUserId m with
           | None => None
           | Some i =>
               Some (InnerBundleQuery.GetBundleInfo GetReqPermissions flags (GetResponseUserId requestUserId i) i bundleInfo)
           end
  end.

Definition GetBundlePackInfo (bundleName : string) (flags : Z) (m : mgr) (bundlePackInfo : BundlePackInfo) :
  option BundlePackInfo :=
  let requestUserId := GetUserIdByCallingUid in
  if requestUserId =? INVALID_USERID then None
  else match GetInnerBundleInfoWithFlags bundleName flags requestUserId m with
       | None => None
       | Some i =>
           let inner := ib_bundlePackInfo i in
           if any_flag (u32 flags) GET_PACKAGES then Some (bundlePackInfo <| bpi_packages := bpi_packages inner |>)
           else if any_flag (u32 flags) GET_BUNDLE_SUMMARY
           then Some (bundlePackInfo <| bpi_summary ::= λ s, s <| ps_app := ps_app (bpi_summary inner) |> |>)
           else if any_flag (u32 flags) GET_MODULE_SUMMARY
           then Some (bundlePackInfo <| bpi_summary ::= λ s, s <| ps_modules := ps_modules (bpi_summary inner) |> |>)
           else Some inner
       end.

Definition GetBundleInfosByMetaData (metaData : string) (m : mgr) : list BundleInfo * bool :=
  if str_empty metaData then ([], false)
  else if sm_is_empty (dm_bundleInfos m) then ([], false)
  else
    let requestUserId := GetUserId UNSPECIFIED_USERID m in
    let bundleInfos := omap (λ item : string * InnerBundleInfo,
      let i := item.2 in
      if IsDisabled i then None
      else if CheckSpecialMetaData metaData i
      then Some (InnerBundleQuery.GetBundleInfo GetReqPermissions GET_BUNDLE_WITH_ABILITIES
                   (GetResponseUserId requestUserId i) i new_BundleInfo)
      else None) (elems (dm_bundleInfos m)) in
    (bundleInfos, negb (length bundleInfos =? 0)%nat).

Definition GetBundleList (userId : Z) (m : mgr) : list string * bool :=
  let requestUserId := GetUserId userId m in
  if requestUserId =? INVALID_USERID then ([], false)
  else if sm_is_empty (dm_bundleInfos m) then ([], false)
  else
    let bundleNames := omap (λ infoItem : string * InnerBundleInfo,
      match GetInnerBundleInfoWithFlags infoItem.1 GET_BUNDLE_DEFAULT requestUserId m with
      | None => None
      | Some _ => Some infoItem.1
      end) (elems (dm_bundleInfos m)) in
    (bundleNames, negb (length bundleNames =? 0)%nat).

Definition GetAllBundleInfos (flags : Z) (m : mgr) : list BundleInfo * bool :=
  if sm_is_empty (dm_bundleInfos m) then ([], false)
  else
    let bundleInfos := omap (λ item : string * InnerBundleInfo,
      if IsDisabled item.2 then None
      else Some (InnerBundleQuery.GetBundleInfo GetReqPermissions flags ALL_USERID item.2 new_BundleInfo))
      (elems (dm_bundleInfos m)) in
    (bundleInfos, negb (length bundleInfos =? 0)%nat).

Definition GetBundleInfos (flags userId : Z) (m : mgr) : list BundleInfo * bool :=
  if userId =? ALL_USERID then GetAllBundleInfos flags m
  else
    let requestUserId := GetUserId userId m in
    if requestUserId =? INVALID_USERID then ([], false)
    else if sm_is_empty (dm_bundleInfos m) then ([], false)
    else
      let bundleInfos := omap (λ item : string * InnerBundleInfo,
        match GetInnerBundleInfoWithFlags item.1 flags requestUserId m with
        | None => None
        | Some i => Some (InnerBundleQuery.GetBundleInfo GetReqPermissions flags (GetResponseUserId requestUserId i) i
                            new_BundleInfo)
        end) (elems (dm_bundleInfos m)) in
      (bundleInfos, negb (length bundleInfos =? 0)%nat).

Definition QueryKeepAliveBundleInfos (m : mgr) : list BundleInfo * bool :=
  if sm_is_empty (dm_bundleInfos m) then ([], false)
  else
    let requestUserId := GetUserId UNSPECIFIED_USERID m in
    let bundleInfos := omap (λ item : string * InnerBundleInfo,
      let i := item.2 in
      if IsDisabled i then None
      else if bi_isKeepAlive (ib_baseBundleInfo i) then
        let bundleInfo := InnerBundleQuery.GetBundleInfo GetReqPermissions GET_BUNDLE_WITH_ABILITIES
                            (GetResponseUserId requestUserId i) i new_BundleInfo in
        if str_empty (bi_name bundleInfo) then None else Some bundleInfo
      else None) (elems (dm_bundleInfos m)) in
    (bundleInfos, negb (length bundleInfos =? 0)%nat).

(** ** Bundles by uid *)

Definition GetInnerBundleInfoByUid (uid : Z) (m : mgr) : option InnerBundleInfo :=
  let userId := GetUserIdByUid uid in
  if (userId =? UNSPECIFIED_USERID) || (userId =? INVALID_USERID) then None
  else if sm_is_empty (dm_bundleInfos m) then None
  else first_bundle (λ i, if IsDisabled i then None else if GetUid userId i =? uid then Some i else None)
         (elems (dm_bundleInfos m)).

Definition GetBundleNameForUid (uid : Z) (m : mgr) : option string := GetBundleName <$> GetInnerBundleInfoByUid uid m.
Definition GetNameForUid (uid : Z) (m : mgr) : option string := GetBundleName <$> GetInnerBundleInfoByUid uid m.
Definition GetBundlesForUid (uid : Z) (m : mgr) (bundleNames : list string) : list string * bool :=
  match GetInnerBundleInfoByUid uid m with
  | None => (bundleNames, false)
  | Some i => (bundleNames ++ [GetBundleName i], true)
  end.

Definition CheckIsSystemAppByUid (uid : Z) (m : mgr) : bool :=
  if (uid =? ROOT_UID) || (uid =? BMS_UID) then true
  else match GetInnerBundleInfoByUid uid m with None => false | Some i => IsSystemApp i end.

Definition GetBundleGids (bundleName : string) (m : mgr) : option (list Z) :=
  let requestUserId := GetUserId UNSPECIFIED_USERID m in
  let '(found, u) := GetInnerBundleUserInfoByUserId bundleName requestUserId m new_InnerBundleUserInfo in
  if negb found then None else Some (ibu_gids u).

(** ** Other properties of one bundle *)

Definition GetHapModuleInfo (abilityInfo : AbilityInfo) (userId : Z) (m : mgr) : option HapModuleInfo :=
  let requestUserId := GetUserId userId m in
  if requestUserId =? INVALID_USERID then None
  else if sm_is_empty (dm_bundleInfos m) then None
  else match dm_bundleInfos m !! ai_bundleName abilityInfo with
       | None => None
       | Some i =>
           if IsDisabled i then None
           else FindHapModuleInfo (ai_package abilityInfo) (GetResponseUserId requestUserId i) i
       end.

(** The bundle and the ability of the Want that starts a bundle; [u] is what
    the members of a fresh AbilityInfo hold. *)
Definition GetLaunchWantForBundle (u : Z) (bundleName : string) (m : mgr) : option (string * string) :=
  match GetInnerBundleInfoWithFlags bundleName GET_BUNDLE_DEFAULT GetUserIdByCallingUid m with
  | None => None
  | Some i =>
      let mainAbility := ai_name (GetMainAbilityInfo i (new_AbilityInfo u)) in
      if str_empty mainAbility then None else Some (bundleName, mainAbility)
  end.

(** [None] when [substr] throws. *)
Definition ProvisionId (i : InnerBundleInfo) : option string :=
  let appId := bi_appId (ib_baseBundleInfo i) in
  if str_empty appId then Some ""
  else
    let n := S (String.length (bi_name (ib_baseBundleInfo i))) in
    if (String.length appId <? n)%nat then None else Some (String.substring n (String.length appId - n) appId).

Definition GetProvisionId (bundleName : string) (m : mgr) : option (option string) :=
  if str_empty bundleName then Some None
  else match dm_bundleInfos m !! bundleName with
       | None => Some None
       | Some i => Some <$> ProvisionId i
       end.

Definition SIGNATURE_MATCHED : Z := 0.
Definition SIGNATURE_NOT_MATCHED : Z := 1.
Definition SIGNATURE_UNKNOWN_BUNDLE : Z := 2.

Definition CheckPublicKeys (firstBundleName secondBundleName : string) (m : mgr) : option Z :=
  if str_empty firstBundleName || str_empty secondBundleName then Some SIGNATURE_UNKNOWN_BUNDLE
  else match dm_bundleInfos m !! firstBundleName with
       | None => Some SIGNATURE_UNKNOWN_BUNDLE
       | Some first =>
           match dm_bundleInfos m !! secondBundleName with
           | None => Some SIGNATURE_UNKNOWN_BUNDLE
           | Some second =>
               match ProvisionId first with
               | None => None
               | Some firstProvisionId =>
                   match ProvisionId second with
                   | None => None
                   | Some secondProvisionId =>
                       Some (if decide (firstProvisionId = secondProvisionId) then SIGNATURE_MATCHED
                             else SIGNATURE_NOT_MATCHED)
                   end
               end
           end
       end.

Definition GetAppFeature (bundleName : string) (m : mgr) : option string :=
  if str_empty bundleName then None else ib_appFeature <$> (dm_bundleInfos m !! bundleName).

Definition GetAppPrivilegeLevel (bundleName : string) (userId : Z) (m : mgr) : string :=
  match GetInnerBundleInfoWithFlags bundleName 0 userId m with
  | None => ""
  | Some i => app_appPrivilegeLevel (ib_baseApplicationInfo i)
  end.

Definition GetAllDependentModuleNames (bundleName moduleName : string) (m : mgr) : option (list string) :=
  match dm_bundleInfos m !! bundleName with
  | None => None
  | Some i => InnerBundleInfo.GetAllDependentModuleNames moduleName i
  end.

(** ** Forms and events *)

Definition GetAllFormsInfo (m : mgr) (formInfos : list FormInfo) : list FormInfo * bool :=
  if sm_is_empty (dm_bundleInfos m) then (formInfos, false)
  else foldl (λ '(formInfos, result) item,
         if IsDisabled item.2 then (formInfos, result)
         else (InnerBundleQuery.GetFormsInfoByApp item.2 formInfos, true))
         (formInfos, false) (elems (dm_bundleInfos m)).

Definition GetFormsInfoByModule (bundleName moduleName : string) (m : mgr) (formInfos : list FormInfo) :
  list FormInfo * bool :=
  if str_empty bundleName then (formInfos, false)
  else if sm_is_empty (dm_bundleInfos m) then (formInfos, false)
  else match dm_bundleInfos m !! bundleName with
       | None => (formInfos, false)
       | Some i =>
           if IsDisabled i then (formInfos, false)
           else
             let formInfos := InnerBundleQuery.GetFormsInfoByModule moduleName i formInfos in
             (formInfos, negb (length formInfos =? 0)%nat)
       end.

Definition GetFormsInfoByApp (bundleName : string) (m : mgr) (formInfos : list FormInfo) : list FormInfo * bool :=
  if str_empty bundleName then (formInfos, false)
  else if sm_is_empty (dm_bundleInfos m) then (formInfos, false)
  else match dm_bundleInfos m !! bundleName with
       | None => (formInfos, false)
       | Some i => if IsDisabled i then (formInfos, false) else (InnerBundleQuery.GetFormsInfoByApp i formInfos, true)
       end.

Definition GetAllCommonEventInfo (eventKey : string) (m : mgr) (commonEventInfos : list CommonEventInfo) :
  list CommonEventInfo * bool :=
  if str_empty eventKey then (commonEventInfos, false)
  else if sm_is_empty (dm_bundleInfos m) then (commonEventInfos, false)
  else
    let commonEventInfos := foldl (λ commonEventInfos item,
      if IsDisabled item.2 then commonEventInfos else GetCommonEvents eventKey item.2 commonEventInfos)
      commonEventInfos (elems (dm_bundleInfos m)) in
    (commonEventInfos, negb (length commonEventInfos =? 0)%nat).

(** ** Clones, code paths, URI prefixes *)

(** The first key with the name and [#] in it. *)
Definition find_clone (bundleName : string) (m : mgr) : option string :=
  fst <$> List.find (λ item, str_contains (bundleName +:+ "#") item.1) (elems (dm_bundleInfos m)).

Definition GetClonedBundleName (bundleName : string) (m : mgr) : option string := find_clone bundleName m.

Definition QueryAbilityInfosForClone (want : Want) (m : mgr) (abilityInfo : list AbilityInfo) : list AbilityInfo * bool :=
  let abilityName := want_abilityName want in
  let bundleName := want_bundleName want in
  if str_empty bundleName then (abilityInfo, false)
  else if sm_is_empty (dm_bundleInfos m) then (abilityInfo, false)
  else
    let find_abilities i :=
      FindAbilityInfosForClone bundleName abilityName (GetResponseUserId (GetUserId UNSPECIFIED_USERID m) i) i in
    let cloneBundleName := default bundleName (find_clone bundleName m) in
    let with_clone :=
      if decide (cloneBundleName = bundleName) then Some abilityInfo
      else match dm_bundleInfos m !! cloneBundleName with
           | None => None
           | Some infoClone => if IsDisabled infoClone then None else Some (find_abilities infoClone abilityInfo)
           end in
    match with_clone with
    | None => (abilityInfo, false)
    | Some abilityInfo =>
        match dm_bundleInfos m !! bundleName with
        | None => (abilityInfo, false)
        | Some info =>
            let abilityInfo := find_abilities info abilityInfo in
            (abilityInfo, negb (length abilityInfo =? 0)%nat)
        end
    end.

Definition GetAccessibleAppCodePaths (userId : Z) (m : mgr) : list string :=
  concat (map (λ item : string * InnerBundleInfo,
    concat (map (λ u,
      if ((user_of u =? 0) || (user_of u =? userId)) && app_accessible (ib_baseApplicationInfo item.2)
      then [app_codePath (ib_baseApplicationInfo item.2)] else []) (sm_vals (ib_innerBundleUserInfos item.2))))
    (elems (dm_bundleInfos m))).

(** [InnerBundleInfo::GetUriPrefixList], without and with the user. *)
Definition uri_prefix (uri : string) : list string :=
  match String.index 0 URI_SEPARATOR uri with
  | None => []
  | Some schemePos => [cut_at SEPARATOR (schemePos + 3) uri]
  end.

Definition module_uris {V} (uri_of : V → string) (excludeModule : string) (l : list (string * V)) : list string :=
  omap (λ p, let uri := uri_of p.2 in
             if str_empty uri then None
             else if negb (str_empty excludeModule) && find_at_start excludeModule p.1 then None else Some uri) l.

Definition GetUriPrefixList (excludeModule : string) (i : InnerBundleInfo) : list string :=
  concat (map uri_prefix (module_uris ai_uri excludeModule (elems (ib_baseAbilityInfos i))
                          ++ module_uris ext_uri excludeModule (elems (ib_baseExtensionInfos i)))).

Definition GetUriPrefixListForUser (userId : Z) (excludeModule : string) (i : InnerBundleInfo) : list string :=
  match ib_innerBundleUserInfos i !! user_key userId i with None => [] | Some _ => GetUriPrefixList excludeModule i end.

Definition GetAllUriPrefix (userId : Z) (excludeModule : string) (m : mgr) : list string :=
  concat (map (λ item, GetUriPrefixListForUser userId excludeModule item.2
                       ++ GetUriPrefixListForUser DEFAULT_USERID excludeModule item.2) (elems (dm_bundleInfos m))).

(** [userId] is the active user of the account service. *)
Definition GetRemovableBundleNameVec (userId : Z) (m : mgr) (bundlenameAndUids : stdmap string Z) : stdmap string Z :=
  foldl (λ r it,
    if negb (HasInnerBundleUserInfo userId it.2) then r
    else if IsBundleRemovable userId it.2 then emplace it.1 (GetUid (ib_userId it.2) it.2) r else r)
    bundlenameAndUids (elems (dm_bundleInfos m)).
End Query.


(** * Sorting by priority *)

Section Sort.
Context {A : Type} (key : A → Z).

Lemma insert_by_permutation a l : insert_by key a l ≡ₚ a :: l.
Proof. induction l as [|b l IH]; simpl; [done|]. case_match; [|done]. rewrite IH. apply perm_swap. Qed.

Lemma stable_sort_permutation l : stable_sort key l ≡ₚ l.
Proof. induction l as [|a l IH]; [done|]. simpl. by rewrite insert_by_permutation, IH. Qed.

Lemma insert_by_sorted a l :
  StronglySorted (λ x y, key y <= key x) l → StronglySorted (λ x y, key y <= key x) (insert_by key a l).
Proof.
  induction 1 as [|b l Hl IH Hb]; simpl; [repeat constructor|].
  destruct (key a <? key b) eqn:E.
  - constructor; [done|]. rewrite insert_by_permutation, Forall_cons. split; [lia|done].
  - constructor; [by constructor|]. rewrite Forall_cons. split; [lia|]. eapply Forall_impl; [done|]. simpl. lia.
Qed.

Lemma stable_sort_sorted l : StronglySorted (λ x y, key y <= key x) (stable_sort key l).
Proof. induction l as [|a l IH]; [constructor|]. by apply insert_by_sorted. Qed.

(** Elements of equal priority keep their order. *)
Lemma stable_sort_stable p l :
  filter (λ a, key a = p) (stable_sort key l) = filter (λ a, key a = p) l.
Proof.
  assert (∀ a l, filter (λ a, key a = p) (insert_by key a l) = filter (λ a, key a = p) (a :: l)) as Hins.
  { intros a l'. induction l' as [|b l' IH]; [done|]. simpl insert_by. destruct (key a <? key b) eqn:E; [|done].
    rewrite filter_cons, IH, !filter_cons. repeat case_decide; try done. lia. }
  induction l as [|a l IH]; [done|]. simpl. by rewrite Hins, !filter_cons, IH.
Qed.

Lemma sort_by_priority_sorted l : StronglySorted (λ x y, key y <= key x) (sort_by_priority key l).
Proof.
  unfold sort_by_priority. destruct (1 <? length l)%nat eqn:E; [apply stable_sort_sorted|].
  destruct l as [|a [|b l]]; [constructor|repeat constructor|done].
Qed.

Lemma sort_by_priority_permutation l : sort_by_priority key l ≡ₚ l.
Proof. unfold sort_by_priority. case_match; [apply stable_sort_permutation|done]. Qed.

Lemma sorted_head a l : StronglySorted (λ x y, key y <= key x) l → head l = Some a → ∀ b, b ∈ l → key b <= key a.
Proof.
  intros Hs Hh b Hb. destruct l as [|x l]; [done|]. injection Hh as ->. apply StronglySorted_inv in Hs as [_ Hs].
  apply elem_of_cons in Hb as [->|Hb]; [lia|]. rewrite Forall_forall in Hs. by apply Hs.
Qed.
End Sort.

Lemma foldl_append {A B} (f : B → list A) (g : list A → B → list A) l acc :
  (∀ acc b, g acc b = acc ++ f b) → foldl g acc l = acc ++ concat (map f l).
Proof.
  intros Hg. revert acc. induction l as [|b l IH]; intros acc; simpl; [by rewrite app_nil_r|].
  by rewrite IH, Hg, app_assoc.
Qed.

(** * Answers to a Want *)

Section Answers.
Context {K : Type} `{StdSort}.
Context (regex : string → option (string → bool)).
Context (callingUid : Z).
#[local] Abbreviation mgr := (BundleDataMgr K).
#[local] Abbreviation GetUserId := (BundleDataMgr.GetUserId callingUid).
Implicit Types (m : mgr) (i : InnerBundleInfo).

Lemma GetUserId_idem userId m :
  GetUserId userId m ≠ INVALID_USERID → GetUserId (GetUserId userId m) m = GetUserId userId m.
Proof.
  unfold BundleDataMgr.GetUserId, INVALID_USERID, GetUserIdByUid. intros Hv.
  destruct ((userId =? ANY_USERID) || (userId =? ALL_USERID)) eqn:E1; [by rewrite E1|].
  set (u := if userId =? UNSPECIFIED_USERID then _ else _) in *.
  destruct (negb (HasUserId u m)) eqn:E2; [done|].
  assert (u ≠ UNSPECIFIED_USERID) as Hu.
  { unfold u, INVALID_UID, INVALID_USERID, UNSPECIFIED_USERID, BASE_USER_RANGE. destruct (userId =? -2) eqn:E3; [|lia].
    destruct (callingUid <=? -1) eqn:E4; [done|]. pose proof (Z.quot_pos callingUid 200000 ltac:(lia) ltac:(lia)); lia. }
  destruct ((u =? ANY_USERID) || (u =? ALL_USERID)); [done|].
  destruct (u =? UNSPECIFIED_USERID) eqn:E3; [lia|]. by rewrite E2.
Qed.

(** What a query for a user may see: bundles that are not disabled and whose
    application is enabled for the user, unless disabled ones are asked for. *)
Definition visible (flags requestUserId : Z) (m : mgr) (b : string) (i : InnerBundleInfo) : Prop :=
  dm_bundleInfos m !! b = Some i ∧ IsDisabled i = false
  ∧ (any_flag (u32 flags) GET_APPLICATION_INFO_WITH_DISABLE = true
     ∨ GetApplicationEnabled (GetResponseUserId requestUserId i) i = true).

Lemma with_flags_visible b flags requestUserId m i :
  requestUserId ≠ INVALID_USERID → GetUserId requestUserId m = requestUserId →
  GetInnerBundleInfoWithFlags callingUid b flags requestUserId m = Some i ↔ visible flags requestUserId m b i.
Proof.
  intros Hv Hid. unfold GetInnerBundleInfoWithFlags, visible. rewrite Hid.
  destruct (requestUserId =? INVALID_USERID) eqn:E; [lia|].
  destruct (sm_is_empty (dm_bundleInfos m)) eqn:Ee.
  { split; [done|]. intros (Hl & _). apply sm_lookup_elem in Hl. unfold sm_is_empty in Ee.
    destruct (elems (dm_bundleInfos m)); [by apply not_elem_of_nil in Hl|done]. }
  destruct (dm_bundleInfos m !! b) as [j|]; [|naive_solver].
  destruct (IsDisabled j) eqn:Ed; [naive_solver (congruence)|].
  destruct (any_flag _ _); simpl; [naive_solver|].
  destruct (GetApplicationEnabled (GetResponseUserId requestUserId j) j) eqn:Ea; simpl; naive_solver (congruence).
Qed.

(** What one ability of a visible bundle answers: it has a skill that
    matches the Want and is enabled, or disabled ones are asked for. *)
Definition answers (want : Want) (flags responseUserId : Z) (i : InnerBundleInfo) (m : mgr) (key : string)
  (ability : AbilityInfo) : Prop :=
  (∃ skills skill, ib_skillInfos i !! key = Some skills ∧ skill ∈ skills ∧ want_matches regex skill want)
  ∧ (any_flag (u32 flags) GET_ABILITY_INFO_WITH_DISABLE = true
     ∨ InnerBundleInfo.IsAbilityEnabled ability (GetUserId responseUserId m) i = true).

(** The form in which it is handed out. *)
Definition handed_out (flags responseUserId : Z) (i : InnerBundleInfo) (ability : AbilityInfo) : AbilityInfo :=
  trim_ability flags (basic_application flags responseUserId i ability).

Lemma match_ability_spec want flags userId i m ability skills a :
  a ∈ match_ability regex callingUid want flags userId i m ability skills
  ↔ (∃ skill, skill ∈ skills ∧ want_matches regex skill want)
    ∧ (any_flag (u32 flags) GET_ABILITY_INFO_WITH_DISABLE = true
       ∨ InnerBundleInfo.IsAbilityEnabled ability (GetUserId userId m) i = true)
    ∧ a = handed_out flags userId i ability.
Proof.
  induction skills as [|skill skills IH]; simpl.
  { split; [by intros ?%not_elem_of_nil|]. intros ((s & Hs & _) & _). by apply not_elem_of_nil in Hs. }
  pose proof (Match_spec regex skill want) as Hm. setoid_rewrite elem_of_cons.
  destruct (Match regex skill want).
  - destruct (any_flag (u32 flags) GET_ABILITY_INFO_WITH_DISABLE),
      (InnerBundleInfo.IsAbilityEnabled ability (GetUserId userId m) i); simpl;
      rewrite ?list_elem_of_singleton, ?IH; naive_solver.
  - rewrite IH. naive_solver.
Qed.

Lemma GetMatchAbilityInfos_app want flags i userId m l :
  GetMatchAbilityInfos regex callingUid want flags i userId m l
  = l ++ GetMatchAbilityInfos regex callingUid want flags i userId m [].
Proof.
  unfold GetMatchAbilityInfos. case_match; [by rewrite app_nil_r|].
  rewrite !(foldl_append (λ p : string * AbilityInfo,
    match ib_skillInfos i !! p.1 with None => [] | Some skills => match_ability regex callingUid want flags userId i m p.2 skills end)).
  all: try done.
  all: intros acc p; destruct (ib_skillInfos i !! p.1); [done|by rewrite app_nil_r].
Qed.

Lemma GetMatchAbilityInfos_spec want flags i userId m a :
  a ∈ GetMatchAbilityInfos regex callingUid want flags i userId m []
  ↔ (has_flag (u32 flags) GET_ABILITY_INFO_SYSTEMAPP_ONLY = true → IsSystemApp i = true)
    ∧ ∃ key ability, (key, ability) ∈ elems (ib_baseAbilityInfos i)
        ∧ answers want flags userId i m key ability ∧ a = handed_out flags userId i ability.
Proof.
  unfold GetMatchAbilityInfos.
  destruct (has_flag (u32 flags) GET_ABILITY_INFO_SYSTEMAPP_ONLY && negb (IsSystemApp i)) eqn:Es.
  { split; [by intros ?%not_elem_of_nil|].
    apply andb_true_iff in Es as [-> Hs]. intros [Hn _]. by rewrite Hn in Hs. }
  rewrite (foldl_append (λ p : string * AbilityInfo,
    match ib_skillInfos i !! p.1 with None => [] | Some skills => match_ability regex callingUid want flags userId i m p.2 skills end)).
  2: { intros acc p. destruct (ib_skillInfos i !! p.1); [done|by rewrite app_nil_r]. }
  simpl. rewrite elem_of_concat_map. unfold answers. split.
  - intros ([key ability] & Hin & Ha). simpl in Ha. split.
    { intros Hf. rewrite Hf in Es. by destruct (IsSystemApp i). }
    destruct (ib_skillInfos i !! key) as [skills|] eqn:E; [|by apply not_elem_of_nil in Ha].
    apply match_ability_spec in Ha as ((skill & ? & ?) & ? & ?). exists key, ability. split_and!; try done.
    exists skills, skill. by rewrite E.
  - intros (_ & key & ability & Hin & ((skills & skill & Hs & ? & ?) & ?) & ->). exists (key, ability). split; [done|].
    simpl. rewrite Hs. apply match_ability_spec. eauto.
Qed.

(** Everything a Want may be answered with, over the bundles in scope. *)
Definition answer (want : Want) (flags requestUserId : Z) (m : mgr) (a : AbilityInfo) : Prop :=
  ∃ b i key ability,
    (want_bundleName want = "" ∨ want_bundleName want = b) ∧ visible flags requestUserId m b i
    ∧ (has_flag (u32 flags) GET_ABILITY_INFO_SYSTEMAPP_ONLY = true → IsSystemApp i = true)
    ∧ (key, ability) ∈ elems (ib_baseAbilityInfos i)
    ∧ answers want flags (GetResponseUserId requestUserId i) i m key ability
    ∧ a = handed_out flags (GetResponseUserId requestUserId i) i ability
    ∧ (want_bundleName want = "" ∨ want_moduleName want = "" ∨ ai_moduleName a = want_moduleName want).

Lemma Filter_spec moduleName l a :
  a ∈ FilterAbilityInfosByModuleName moduleName l ↔ a ∈ l ∧ (moduleName = "" ∨ ai_moduleName a = moduleName).
Proof.
  unfold FilterAbilityInfosByModuleName. destruct (str_empty moduleName) eqn:E.
  - apply str_empty_spec in E. naive_solver.
  - rewrite list_elem_of_filter. assert (moduleName ≠ "") by (intros ->; done). naive_solver.
Qed.

(** C13: the implicit query.  It succeeds exactly when the user exists, the
    Want asks for something, there are bundles, and the bundle it names, if
    any, is visible to the user: not disabled, and its application enabled
    for the user or GET_APPLICATION_INFO_WITH_DISABLE asked for.  The result
    is then in descending order of priority and holds exactly the abilities,
    of that bundle and module or of all visible bundles, which have a skill
    that matches and are enabled for the user, each with the fields the flags
    ask for; GET_ABILITY_INFO_WITH_DISABLE lets the disabled abilities in
    too, and GET_ABILITY_INFO_SYSTEMAPP_ONLY leaves out those of bundles that
    are no system application. *)
Theorem ImplicitQueryAbilityInfos_correct want flags userId m :
  let requestUserId := GetUserId userId m in
  let '(l, ok) := ImplicitQueryAbilityInfos regex callingUid want flags userId m [] in
  (ok = true ↔ requestUserId ≠ INVALID_USERID ∧ nothing_asked want = false ∧ sm_is_empty (dm_bundleInfos m) = false
               ∧ (want_bundleName want = "" ∨ ∃ i, visible flags requestUserId m (want_bundleName want) i))
  ∧ StronglySorted (λ a b, ai_priority b <= ai_priority a) l
  ∧ ∀ a, a ∈ l ↔ ok = true ∧ answer want flags requestUserId m a.
Proof.
  intros requestUserId. unfold ImplicitQueryAbilityInfos. fold requestUserId.
  assert (∀ P : Prop, (¬ P) → (false = true ↔ P) ∧ StronglySorted (λ a b, ai_priority b <= ai_priority a) []
    ∧ ∀ a, a ∈ [] ↔ false = true ∧ answer want flags requestUserId m a) as Hfail.
  { intros P HP. split_and!; [naive_solver|constructor|]. intros a. rewrite elem_of_nil. naive_solver. }
  destruct (requestUserId =? INVALID_USERID) eqn:Ei; [apply Hfail; intros (? & _); lia|].
  destruct (nothing_asked want); [apply Hfail; naive_solver|].
  destruct (sm_is_empty (dm_bundleInfos m)); [apply Hfail; naive_solver|].
  assert (requestUserId ≠ INVALID_USERID) as Hv by lia.
  assert (∀ b i, GetInnerBundleInfoWithFlags callingUid b flags requestUserId m = Some i
                 ↔ visible flags requestUserId m b i) as Hvis.
  { intros b i. apply with_flags_visible; [done|]. by apply GetUserId_idem. }
  destruct (str_empty (want_bundleName want)) eqn:Eb; simpl.
  - apply str_empty_spec in Eb. split_and!; [naive_solver|apply sort_by_priority_sorted|]. intros a.
    rewrite sort_by_priority_permutation.
    rewrite (foldl_append (λ item : string * InnerBundleInfo,
      match GetInnerBundleInfoWithFlags callingUid item.1 flags requestUserId m with
      | None => []
      | Some i => GetMatchAbilityInfos regex callingUid want flags i (GetResponseUserId requestUserId i) m []
      end)).
    2: { intros acc item. destruct (GetInnerBundleInfoWithFlags _ item.1 _ _ _); simpl; [|by rewrite app_nil_r].
         apply GetMatchAbilityInfos_app. }
    simpl. rewrite elem_of_concat_map. unfold answer. split.
    + intros ([b j] & Hin & Ha). simpl in Ha. split; [done|].
      destruct (GetInnerBundleInfoWithFlags callingUid b flags requestUserId m) as [i|] eqn:Eq; [|by apply not_elem_of_nil in Ha].
      apply GetMatchAbilityInfos_spec in Ha as (Hs & key & ability & H1 & H2 & H3). apply Hvis in Eq.
      exists b, i, key, ability. naive_solver.
    + intros (_ & b & i & key & ability & _ & Hi & H1 & H2 & H3 & H4 & _). exists (b, i). split.
      { apply sm_lookup_elem, Hi. }
      simpl. apply Hvis in Hi as ->. apply GetMatchAbilityInfos_spec. split; [done|]. by exists key, ability.
  - assert (want_bundleName want ≠ "") as Hb by (intros E; by rewrite E in Eb).
    destruct (GetInnerBundleInfoWithFlags callingUid (want_bundleName want) flags requestUserId m) as [i|] eqn:Eq.
    + apply Hvis in Eq as Hi. split_and!; [naive_solver|apply sort_by_priority_sorted|]. intros a.
      rewrite sort_by_priority_permutation, Filter_spec.
      rewrite GetMatchAbilityInfos_spec. unfold answer. split.
      * intros ((Hs & key & ability & H1 & H2 & H3) & Hmod). split; [done|].
        exists (want_bundleName want), i, key, ability. naive_solver.
      * intros (_ & b & j & key & ability & [?|<-] & Hj & H1 & H2 & H3 & H4 & H5); [done|].
        assert (j = i) as -> by (destruct Hi, Hj; congruence). naive_solver.
    + apply Hfail. intros (_ & _ & _ & [?|[i Hi]]); [done|]. apply Hvis in Hi. congruence.
Qed.
End Answers.

(** The best answer.  ImplicitQueryInfoByPriority picks, among the
    abilities and the extensions the implicit queries find, one of the
    greatest priority, an ability when both have it, and fails exactly when
    neither query finds anything. *)
Lemma ImplicitQueryInfoByPriority_best `{StdSort} {K} regex callingUid want flags userId (m : BundleDataMgr K) :
  let requestUserId := GetUserId callingUid userId m in
  let abilities := (ImplicitQueryAbilityInfos regex callingUid want flags requestUserId m []).1 in
  let extensions := (ImplicitQueryExtensionInfos regex callingUid want flags requestUserId m []).1 in
  match ImplicitQueryInfoByPriority regex callingUid want flags userId m with
  | Some (inl a) =>
      a ∈ abilities ∧ (∀ b, b ∈ abilities → ai_priority b <= ai_priority a)
      ∧ ∀ e, e ∈ extensions → ext_priority e <= ai_priority a
  | Some (inr e) =>
      e ∈ extensions ∧ (∀ f, f ∈ extensions → ext_priority f <= ext_priority e)
      ∧ ∀ b, b ∈ abilities → ai_priority b < ext_priority e
  | None => abilities = [] ∧ extensions = []
  end.
Proof.
  intros requestUserId abilities extensions.
  assert ((ImplicitQueryAbilityInfos regex callingUid want flags requestUserId m []).2 = false → abilities = []) as Ha0.
  { unfold abilities, ImplicitQueryAbilityInfos. by repeat case_match. }
  assert ((ImplicitQueryExtensionInfos regex callingUid want flags requestUserId m []).2 = false → extensions = []) as He0.
  { unfold extensions, ImplicitQueryExtensionInfos. by repeat case_match. }
  assert (StronglySorted (λ a b, ai_priority b <= ai_priority a) abilities) as Has.
  { unfold abilities, ImplicitQueryAbilityInfos. repeat case_match; simpl; auto using sort_by_priority_sorted, SSorted_nil. }
  assert (StronglySorted (λ a b, ext_priority b <= ext_priority a) extensions) as Hes.
  { unfold extensions, ImplicitQueryExtensionInfos. repeat case_match; simpl; auto using sort_by_priority_sorted, SSorted_nil. }
  unfold ImplicitQueryInfoByPriority. fold requestUserId.
  destruct (requestUserId =? INVALID_USERID) eqn:Ei.
  { unfold abilities, extensions, ImplicitQueryAbilityInfos, ImplicitQueryExtensionInfos.
    assert (GetUserId callingUid requestUserId m = INVALID_USERID) as ->.
    { apply Z.eqb_eq in Ei. rewrite Ei. unfold GetUserId. simpl. by destruct (negb _). }
    simpl. by destruct (nothing_asked want). }
  clearbody requestUserId. subst abilities extensions.
  destruct (ImplicitQueryAbilityInfos _ _ _ _ _ _ _) as [abilities aok], (ImplicitQueryExtensionInfos _ _ _ _ _ _ _) as [extensions eok].
  simpl in *.
  assert ((if aok then head abilities else None) = head abilities) as -> by (destruct aok; [done|by rewrite (Ha0 eq_refl)]).
  assert ((if eok then head extensions else None) = head extensions) as -> by (destruct eok; [done|by rewrite (He0 eq_refl)]).
  pose proof (λ a, sorted_head ai_priority a abilities Has) as Hba. pose proof (λ e, sorted_head ext_priority e extensions Hes) as Hbe.
  destruct abilities as [|a abilities], extensions as [|e extensions]; simpl in *; try done.
  - specialize (Hbe e eq_refl). split_and!; [by left|done|]. intros b Hb. by apply not_elem_of_nil in Hb.
  - specialize (Hba a eq_refl). split_and!; [by left|done|]. intros f Hf. by apply not_elem_of_nil in Hf.
  - specialize (Hba a eq_refl). specialize (Hbe e eq_refl).
    destruct (ext_priority e <=? ai_priority a) eqn:E.
    + split_and!; [by left|done|]. intros f Hf. specialize (Hbe f Hf). lia.
    + split_and!; [by left|done|]. intros b Hb. specialize (Hba b Hb). lia.
Qed.

(** ** Whose uid it is *)

Section Uids.
Context `{HK : KvStore K} `{HJ : Json}.
#[local] Abbreviation mgr := (BundleDataMgr K).
Implicit Types (m : mgr) (i : InnerBundleInfo) (u : InnerBundleUserInfo).

Lemma first_bundle_Some {B} (f : InnerBundleInfo → option B) l r :
  first_bundle f l = Some r → ∃ b i, (b, i) ∈ l ∧ f i = Some r.
Proof.
  induction l as [|[b i] l IH]; simpl; [done|]. destruct (f i) eqn:E.
  - intros [= <-]. exists b, i. split; [by left|done].
  - intros (c & j & Hin & Hj)%IH. exists c, j. split; [by right|done].
Qed.

Lemma first_bundle_None {B} (f : InnerBundleInfo → option B) l :
  first_bundle f l = None ↔ ∀ b i, (b, i) ∈ l → f i = None.
Proof.
  induction l as [|[b i] l IH]; simpl.
  - split; [|done]. intros _ b i Hin. by apply not_elem_of_nil in Hin.
  - destruct (f i) eqn:E.
    + split; [done|]. intros Hall. specialize (Hall b i ltac:(by left)). congruence.
    + rewrite IH. split; [|intros Hall c j Hin; apply (Hall c j); by right].
      intros Hall c j [[= -> ->]|Hin]%elem_of_cons; [done|by eapply Hall].
Qed.

Lemma GetUserIdByUid_cases uid : GetUserIdByUid uid = INVALID_USERID ∧ uid <= INVALID_UID ∨ 0 <= GetUserIdByUid uid ∧ 0 <= uid.
Proof.
  unfold GetUserIdByUid, BASE_USER_RANGE, INVALID_UID, INVALID_USERID. destruct (uid <=? -1) eqn:E; [left; lia|right].
  split; [apply Z.quot_pos|]; lia.
Qed.

(** In a state the manager can reach, the user's copy is the one with the uid. *)
Lemma GetUid_owner m b i uid :
  mgr_inv m → dm_bundleInfos m !! b = Some i → 0 <= GetUserIdByUid uid → 0 <= uid →
  GetUid (GetUserIdByUid uid) i = uid ↔ ∃ k u, ib_innerBundleUserInfos i !! k = Some u ∧ ibu_uid u = uid.
Proof.
  intros [Hids Hinfos] Hi Hpos Huid. destruct (Hinfos _ _ Hi) as [Hname Hown].
  unfold GetUid, GetInnerBundleUserInfo, user_key, NOT_EXIST_USERID, ALL_USERID, INVALID_UID in *. rewrite Hname.
  assert ((GetUserIdByUid uid =? -5) = false) as -> by lia. assert ((GetUserIdByUid uid =? -3) = false) as -> by lia. split.
  - destruct (ib_innerBundleUserInfos i !! NameAndUserIdToKey b (GetUserIdByUid uid)) as [u|] eqn:E; simpl; [eauto|lia].
  - intros (k & u & Hu & <-). destruct (Hown k u Hu) as (-> & j & Hj & Hr & Euid).
    destruct (uid_owner (user_of u) (user_of u) j j b b m Hids Hj Hj Hr Hr) as (_ & Hback & _).
    rewrite <- Euid in Hback. by rewrite Hback, Hu.
Qed.

(** At most one bundle has a copy with the uid. *)
Lemma uid_bundle m b c i j k l u v :
  mgr_inv m → dm_bundleInfos m !! b = Some i → dm_bundleInfos m !! c = Some j →
  ib_innerBundleUserInfos i !! k = Some u → ib_innerBundleUserInfos j !! l = Some v → ibu_uid u = ibu_uid v → b = c.
Proof.
  intros [Hids Hinfos] Hi Hj Hu Hv Heq.
  destruct (proj2 (Hinfos _ _ Hi) _ _ Hu) as (_ & id1 & Hid1 & Hr1 & E1).
  destruct (proj2 (Hinfos _ _ Hj) _ _ Hv) as (_ & id2 & Hid2 & Hr2 & E2).
  destruct (uid_owner (user_of u) (user_of v) id1 id2 b c m Hids Hid1 Hid2 Hr1 Hr2) as (_ & _ & _ & Hc).
  apply Hc. congruence.
Qed.

(** Uids answer for their bundle.  In every state the installer and the
    clients can bring about, GetBundleNameForUid names a bundle exactly when
    it is not disabled and has a user's copy with the uid. *)
Lemma GetBundleNameForUid_correct k file m uid b :
  rtc mgr_step (new_BundleDataMgr k file) m →
  GetBundleNameForUid uid m = Some b
  ↔ ∃ i key u, dm_bundleInfos m !! b = Some i ∧ IsDisabled i = false
      ∧ ib_innerBundleUserInfos i !! key = Some u ∧ ibu_uid u = uid.
Proof.
  intros Hsteps. pose proof (reachable_inv k file m Hsteps) as Hm. pose proof (reachable_infos_wf k file m Hsteps) as Hwf.
  unfold GetBundleNameForUid, GetInnerBundleInfoByUid. unfold UNSPECIFIED_USERID.
  destruct (GetUserIdByUid_cases uid) as [[E Huid]|[Hpos Huid]].
  { rewrite E. simpl. split; [done|]. intros (i & key & u & Hi & _ & Hu & <-).
    destruct (proj2 (proj2 Hm _ _ Hi) _ _ Hu) as (_ & j & Hj & Hr & Eu).
    rewrite Eu in Huid. rewrite bundle_uid_exact in Huid; [|done|by apply (proj1 Hm) in Hj].
    apply (proj1 Hm) in Hj. unfold INVALID_UID, BASE_USER_RANGE, BASE_APP_UID in *. lia. }
  assert ((GetUserIdByUid uid =? -2) || (GetUserIdByUid uid =? INVALID_USERID) = false) as -> by (unfold INVALID_USERID; lia).
  assert (∀ c i, dm_bundleInfos m !! c = Some i → GetUid (GetUserIdByUid uid) i = uid
    ↔ ∃ k u, ib_innerBundleUserInfos i !! k = Some u ∧ ibu_uid u = uid) as Hown by (intros; by eapply GetUid_owner).
  set (f := λ i, if IsDisabled i then None else _).
  assert (∀ c i, dm_bundleInfos m !! c = Some i → f i = Some i ↔ IsDisabled i = false
    ∧ ∃ k u, ib_innerBundleUserInfos i !! k = Some u ∧ ibu_uid u = uid) as Hf.
  { intros c i Hi. rewrite <- (Hown c i Hi). unfold f. destruct (IsDisabled i); [naive_solver|].
    destruct (Z.eqb_spec (GetUid (GetUserIdByUid uid) i) uid); naive_solver. }
  assert ((if sm_is_empty (dm_bundleInfos m) then None else first_bundle f (elems (dm_bundleInfos m)))
    = first_bundle f (elems (dm_bundleInfos m))) as -> by (unfold sm_is_empty; by destruct (elems _)).
  rewrite fmap_Some. split.
  - intros (i & (c & j & Hin & Hfj)%first_bundle_Some & ->). apply sm_elem_lookup in Hin as Hj; [|done].
    assert (j = i) as -> by (unfold f in Hfj; repeat case_match; congruence).
    apply (Hf c i Hj) in Hfj as (Hd & key & u & Hu & Huid'). rewrite (proj1 (proj2 Hm _ _ Hj)). eauto 7.
  - intros (i & key & u & Hi & Hd & Hu & Eu). destruct (first_bundle f _) as [j|] eqn:E.
    + exists j. split; [done|]. apply first_bundle_Some in E as (c & j' & Hin & Hfj).
      apply sm_elem_lookup in Hin as Hj; [|done].
      assert (j' = j) as -> by (unfold f in Hfj; repeat case_match; congruence).
      apply (Hf c j Hj) in Hfj as (_ & key' & v & Hv & Ev). rewrite (proj1 (proj2 Hm _ _ Hj)).
      by apply (uid_bundle m b c i j key key' u v); try done; congruence.
    + rewrite first_bundle_None in E. apply sm_lookup_elem in Hi as Hin. specialize (E b i Hin).
      assert (f i = Some i) as Hfi by (apply (Hf b i Hi); eauto). congruence.
Qed.
End Uids.

(** ** Concrete runs *)

Lemma GetBundleNameForUid_correct_witness : GetBundleNameForUid (ibu_uid (demo_uid_user 100)) demo_run4 = Some "com.demo".
Proof.
  assert (is_Some (dm_bundleInfos demo_run4 !! "com.demo")) as [i Hi] by (vm_compute; by eexists).
  apply (@GetBundleNameForUid_correct _ map_store bits_json ∅ None demo_run4 (ibu_uid (demo_uid_user 100)) "com.demo" demo_run).
  exists i, "com.demo_100", (demo_uid_user 100). split; [exact Hi|].
  vm_compute in Hi. injection Hi as <-. split_and!; reflexivity.
Defined.
