(* ===== verification/Service.v ===== *)
(** * Service: the state the installers work on

    The parts of the service that an installation reaches (BundleMgrService in
    services/bundlemgr/src/bundle_mgr_service.cpp holds them): the data
    manager, the managers of the sandboxes and of the clones, the pre-installed
    bundles, the access token service, and the rest of the device, which is the
    class [Environment]: installd, the file system, the verifier of signatures,
    the parser of HAP files, and the services that are only told something.

    The pointers to these parts are set while the service runs. *)

From stdpp Require Import strings gmap.
From S2P Require Import Prelude Strings StdMap BundleTypes Errors InnerBundleInfo InnerBundleQuery InstallInfo Parcel Flow BundlePermissionMgr BundleDataMgr PreInstall.

Open Scope string_scope.
Open Scope list_scope.
Open Scope Z_scope.

(** ** What other services are told *)

Inductive NotifyType := Notify_INSTALL | Notify_UPDATE | Notify_UNINSTALL_BUNDLE | Notify_UNINSTALL_MODULE
  | Notify_ABILITY_ENABLE | Notify_APPLICATION_ENABLE.
#[export] Instance NotifyType_eq_dec : EqDecision NotifyType.
Proof. solve_decision. Defined.

Inductive InstallType := INSTALL_CALLBACK | UNINSTALL_CALLBACK.
Inductive BundleEventType := BundleEvent_INSTALL | BundleEvent_UNINSTALL | BundleEvent_UPDATE | BundleEvent_RECOVER.
Inductive InstallScene := Scene_NORMAL | Scene_BOOT | Scene_REBOOT | Scene_CREATE_USER | Scene_REMOVE_USER.

(** The members of EventInfo that SendBundleSystemEvent sets. *)
Record EventInfo := mkEventInfo {
  ev_userId : Z;
  ev_bundleName : string;
  ev_versionCode : Z;
  ev_isPreInstallApp : bool;
  ev_preBundleScene : InstallScene;
  ev_isFreeInstallMode : bool;
  ev_errCode : Z;
}.

Record CommonEvent := mkCommonEvent {
  ce_action : string;
  ce_bundleName : string;
  ce_abilityName : string;
  ce_uid : Z;
  ce_userId : Z;
  ce_appIndex : option Z;
}.

Inductive Notice :=
| OnBundleStateChanged (callback : Z) (installType : InstallType) (resultCode : Z) (bundleName : string)
| PublishCommonEvent (event : CommonEvent)
| SendBundleSystemEvent (type : BundleEventType) (info : EventInfo)
| SaveStorageDistributeInfo (bundleName : string) (userId : Z)
| DeleteStorageDistributeInfo (bundleName : string) (userId : Z)
| StartAging
| OnStatusNotify (progress : Z)
| SendCleanCacheSysEvent (bundleName : string) (userId : Z) (isCleanCache exception : bool)
| SendComponentStateSysEvent (bundleName abilityName : string) (userId : Z) (isEnable exception : bool)
| OnCleanCacheFinished (callback : Z) (error : bool).

Definition COMMON_EVENT_PACKAGE_ADDED : string := "usual.event.PACKAGE_ADDED".
Definition COMMON_EVENT_PACKAGE_REMOVED : string := "usual.event.PACKAGE_REMOVED".
Definition COMMON_EVENT_PACKAGE_CHANGED : string := "usual.event.PACKAGE_CHANGED".
Definition COMMON_EVENT_SANDBOX_PACKAGE_ADDED : string := "usual.event.SANDBOX_PACKAGE_ADDED".
Definition COMMON_EVENT_SANDBOX_PACKAGE_REMOVED : string := "usual.event.SANDBOX_PACKAGE_REMOVED".

(** ** The environment *)

(** What the verifier of a HAP file answers, as far as it is used. *)
Record ProvisionInfo := mkProvisionInfo {
  pv_appId : string;
  pv_apl : string;
  pv_appFeature : string;
  pv_allowedAcls : list string;
  pv_fingerprint : string;
}.

Class Environment (E : Type) := {
  (* installd *)
  CreateBundleDir : string → On E ();
  CreateBundleDataDir : string → Z → Z → Z → string → On E ();
  RemoveDir : string → On E ();
  RemoveBundleDataDir : string → Z → On E ();
  RemoveModuleDataDir : string → Z → On E ();
  ExtractModuleFiles : string → string → string → string → On E ();
  RenameModuleDir : string → string → On E ();
  SetDirApl : string → string → string → On E ();
  (* BundleUtil *)
  CheckFilePath : list string → On E (list string);
  CheckSystemSize : string → string → E → bool;
  GetCurrentTime : E → Z;
  RenameFile : string → string → E → E * bool;
  CopyFile : string → string → E → E * bool;
  (* the files *)
  HapVerify : string → On E ProvisionInfo;
  Parse : string → InnerBundleInfo → On E InnerBundleInfo;
  ParsePackInfo : string → BundlePackInfo → On E BundlePackInfo;
  ParseSysCap : string → On E (list string);
  ParseDefaultPermission : E → E * option (list (string * list (string * bool)));
  HasSystemCapability : string → E → bool;
  BundleNameAllowList : E → option (list string);
  (* other services *)
  UninstallApplicationProcesses : string → Z → E → E * bool;
  tell : Notice → E → E;
  (* libraries *)
  StrToInt : string → option Z;
  iteration_order : ∀ {V}, list (string * V) → list (string * V);
  ERR_NO_INIT : Z;
  iteration_order_permutation : ∀ {V} (l : list (string * V)), iteration_order l ≡ₚ l;
}.

(** ** The state *)

(** BundleSandboxDataMgr; the second map holds ordered sets. *)
Record BundleSandboxDataMgr := mkBundleSandboxDataMgr {
  sd_sandboxAppInfos : stdmap string InnerBundleInfo;
  sd_sandboxAppIndexMap : stdmap string (stdmap Z ());
}.
#[export] Instance eta_BundleSandboxDataMgr : Eta BundleSandboxDataMgr := λ r,
  mkBundleSandboxDataMgr (sd_sandboxAppInfos r) (sd_sandboxAppIndexMap r).

(** BundleCloneMgr.  The last member is the file CloneAppName.json: [None] when
    there is none, otherwise the keys of its object; an empty file has none. *)
Record BundleCloneMgr := mkBundleCloneMgr {
  cl_cloneInfo : InnerBundleInfo;
  cl_bundleName : string;
  cl_modulePackage : string;
  cl_mainAbility : string;
  cl_baseCodePath : string;
  cl_baseDataPath : string;
  cl_names : option (stdmap string ());
}.
#[export] Instance eta_BundleCloneMgr : Eta BundleCloneMgr := λ r,
  mkBundleCloneMgr (cl_cloneInfo r) (cl_bundleName r) (cl_modulePackage r) (cl_mainAbility r) (cl_baseCodePath r)
    (cl_baseDataPath r) (cl_names r).
Definition new_BundleCloneMgr (names : option (stdmap string ())) : BundleCloneMgr :=
  mkBundleCloneMgr new_InnerBundleInfo "" "" "" "" "" names.

(** Who calls: a token and a uid. *)
Record Caller := mkCaller { ca_token : Z; ca_uid : Z }.

(** A callback that a client registered, with the bundle it asks for. *)
Record StatusCallback := mkStatusCallback { cb_bundleName : string; cb_object : Z }.

Record Service {K P T E : Type} := mkService {
  sv_mgr : BundleDataMgr K;
  sv_sandbox : BundleSandboxDataMgr;
  sv_clone : BundleCloneMgr;
  sv_preInstalled : PreInstalled P;
  sv_tokens : T;
  sv_defaultPermissions : DefaultPermissions;
  sv_callbacks : list StatusCallback;
  sv_env : E;
}.
Arguments Service K P T E : clear implicits.
#[export] Instance eta_Service K P T E : Eta (Service K P T E) := λ r,
  mkService K P T E (sv_mgr r) (sv_sandbox r) (sv_clone r) (sv_preInstalled r) (sv_tokens r) (sv_defaultPermissions r)
    (sv_callbacks r) (sv_env r).

Section Service.
Context {K P T E : Type} `{HK : KvStore K} `{HT : AccessTokenKit T} `{HE : Environment E}.
#[local] Abbreviation service := (Service K P T E).
#[local] Abbreviation SM := (On service).

(** ** Calls of the parts *)

Definition set_mgr (m : BundleDataMgr K) (s : service) : service := s <| sv_mgr := m |>.
Definition set_sandbox (d : BundleSandboxDataMgr) (s : service) : service := s <| sv_sandbox := d |>.
Definition set_clone (c : BundleCloneMgr) (s : service) : service := s <| sv_clone := c |>.
Definition set_tokens (t : T) (s : service) : service := s <| sv_tokens := t |>.
Definition set_env (e : E) (s : service) : service := s <| sv_env := e |>.

Definition on_mgr {A} (f : BundleDataMgr K → BundleDataMgr K * A) : SM A := within sv_mgr set_mgr (run f).
Definition on_mgr_opt {A} (f : BundleDataMgr K → option (BundleDataMgr K * A)) : SM A := within sv_mgr set_mgr (run_opt f).
Definition ask_mgr {A} (f : BundleDataMgr K → A) : SM A := gets (λ s, f (sv_mgr s)).
Definition on_sandbox {A} (f : BundleSandboxDataMgr → BundleSandboxDataMgr * A) : SM A := within sv_sandbox set_sandbox (run f).
Definition on_tokens {A} (f : T → T * A) : SM A := within sv_tokens set_tokens (run f).
Definition on_env {A} (m : On E A) : SM A := within sv_env set_env m.
Definition ask_env {A} (f : E → A) : SM A := gets (λ s, f (sv_env s)).
Definition tells (n : Notice) : SM () := modify (λ s, s <| sv_env ::= tell n |>).

(** ** BundleDataMgr::NotifyBundleStatus *)

Definition event_action (type : NotifyType) : string :=
  match type with
  | Notify_INSTALL => COMMON_EVENT_PACKAGE_ADDED
  | Notify_UNINSTALL_BUNDLE | Notify_UNINSTALL_MODULE => COMMON_EVENT_PACKAGE_REMOVED
  | Notify_UPDATE | Notify_ABILITY_ENABLE | Notify_APPLICATION_ENABLE => COMMON_EVENT_PACKAGE_CHANGED
  end.

Definition install_type (type : NotifyType) : InstallType :=
  match type with Notify_UNINSTALL_BUNDLE | Notify_UNINSTALL_MODULE => UNINSTALL_CALLBACK | _ => INSTALL_CALLBACK end.

Definition NotifyBundleStatus (bundleName modulePackage abilityName : string) (resultCode : Z) (type : NotifyType) (uid : Z) : SM () :=
  callbackList ← gets sv_callbacks;
  for_each (λ callback, when (bool_decide (cb_bundleName callback = bundleName))
                          (tells (OnBundleStateChanged (cb_object callback) (install_type type) resultCode bundleName))) callbackList ;;
  when (resultCode =? ERR_OK)
    (tells (PublishCommonEvent (mkCommonEvent (event_action type) bundleName abilityName uid (GetUserIdByUid uid) None))).

(** ** BundlePermissionMgr on the service *)

Definition InitPermissions : SM bool :=
  parsed ← on_env (run ParseDefaultPermission);
  run (λ s, let '(table, ok) := BundlePermissionMgr.Init parsed (sv_defaultPermissions s) in (s <| sv_defaultPermissions := table |>, ok)).
Definition UnInitPermissions : SM () := modify (λ s, s <| sv_defaultPermissions := UnInit |>).

Definition GrantAllPermissions `{StdSort} (info : InnerBundleInfo) (tokenId : Z) : SM bool :=
  defaults ← gets sv_defaultPermissions;
  on_tokens (BundlePermissionMgr.GrantRequestPermissions defaults info tokenId).
Definition GrantSomePermissions `{StdSort} (info : InnerBundleInfo) (names : list string) (tokenId : Z) : SM bool :=
  defaults ← gets sv_defaultPermissions;
  on_tokens (GrantNewRequestPermissions defaults info names tokenId).
End Service.

(** ** Weakest preconditions of the calls

    What the access token service, installd and the other services answer is
    left open. *)

Section Calls.
Context {K P T E : Type} `{HK : KvStore K} `{HT : AccessTokenKit T} `{HE : Environment E}.
#[local] Abbreviation service := (Service K P T E).
Implicit Types (s : service).

Lemma wp_on_mgr {A} (f : BundleDataMgr K → BundleDataMgr K * A) (Q : result A → service → Prop) s :
  Q (Ok (f (sv_mgr s)).2) (set_mgr (f (sv_mgr s)).1 s) → wp (on_mgr f) Q s.
Proof. intros HQ. apply wp_within. unfold run. by destruct (f (sv_mgr s)). Qed.

Lemma wp_on_sandbox {A} (f : BundleSandboxDataMgr → BundleSandboxDataMgr * A) (Q : result A → service → Prop) s :
  Q (Ok (f (sv_sandbox s)).2) (set_sandbox (f (sv_sandbox s)).1 s) → wp (on_sandbox f) Q s.
Proof. intros HQ. apply wp_within. unfold run. by destruct (f (sv_sandbox s)). Qed.

Lemma wp_ask_mgr {A} (f : BundleDataMgr K → A) (Q : result A → service → Prop) s :
  Q (Ok (f (sv_mgr s))) s → wp (ask_mgr f) Q s.
Proof. done. Qed.
Lemma wp_ask_env {A} (f : E → A) (Q : result A → service → Prop) s : (∀ x, Q (Ok x) s) → wp (ask_env f) Q s.
Proof. intros HQ. apply HQ. Qed.

Lemma wp_on_tokens {A} (f : T → T * A) (Q : result A → service → Prop) s :
  (∀ t x, Q (Ok x) (set_tokens t s)) → wp (on_tokens f) Q s.
Proof. intros HQ. apply wp_within. unfold run. by destruct (f (sv_tokens s)). Qed.
Lemma wp_on_env {A} (m : On E A) (Q : result A → service → Prop) s : (∀ r e, Q r (set_env e s)) → wp (on_env m) Q s.
Proof. intros HQ. apply wp_within. by destruct (m (sv_env s)). Qed.
Lemma wp_on_env_eq {A} (m : On E A) (Q : result A → service → Prop) s :
  (∀ r e, m (sv_env s) = (r, e) → Q r (set_env e s)) → wp (on_env m) Q s.
Proof. intros HQ. apply wp_within. destruct (m (sv_env s)) eqn:Em. by apply HQ. Qed.
Lemma wp_tells n (Q : result () → service → Prop) s : (∀ e, Q (Ok ()) (set_env e s)) → wp (tells n) Q s.
Proof. intros HQ. apply HQ. Qed.

Lemma wp_GrantAllPermissions `{StdSort} info tokenId (Q : result bool → service → Prop) s :
  (∀ t x, Q (Ok x) (set_tokens t s)) → wp (GrantAllPermissions info tokenId) Q s.
Proof. intros HQ. apply wp_bind. by apply wp_on_tokens. Qed.
Lemma wp_GrantSomePermissions `{StdSort} info names tokenId (Q : result bool → service → Prop) s :
  (∀ t x, Q (Ok x) (set_tokens t s)) → wp (GrantSomePermissions info names tokenId) Q s.
Proof. intros HQ. apply wp_bind. by apply wp_on_tokens. Qed.
End Calls.

(** One form of control flow, or one call. *)
Ltac wp_step :=
  match goal with
  | |- wp (_ ≫= _) _ _ => apply wp_bind
  | |- wp (mret _) _ _ => apply wp_ret
  | |- wp (fail _) _ _ => apply wp_fail
  | |- wp (check _ _) _ _ => apply wp_check; [intros ?|intros ?]
  | |- wp (when _ _) _ _ => apply wp_when; [intros ?|intros ?]
  | |- wp (gets _) _ _ => apply wp_gets
  | |- wp (modify _) _ _ => apply wp_modify
  | |- wp (answer _) _ _ => apply wp_answer
  | |- wp (attempt _) _ _ => apply wp_attempt
  | |- wp (ignore _) _ _ => apply wp_ignore
  | |- wp (on_error _ _) _ _ => apply wp_on_error
  | |- wp (finally _ _) _ _ => apply wp_finally
  | |- wp (dismissible _ _) _ _ => apply wp_dismissible
  | |- wp (on_mgr _) _ _ => apply wp_on_mgr
  | |- wp (on_sandbox _) _ _ => apply wp_on_sandbox
  | |- wp (ask_mgr _) _ _ => apply wp_ask_mgr
  | |- wp (ask_env _) _ _ => apply wp_ask_env; intros ?
  | |- wp (on_tokens _) _ _ => apply wp_on_tokens; intros ? ?
  | |- wp (on_env _) _ _ => apply wp_on_env; intros ? ?
  | |- wp (tells _) _ _ => apply wp_tells; intros ?
  | |- wp (GrantAllPermissions _ _) _ _ => apply wp_GrantAllPermissions; intros ? ?
  | |- wp (GrantSomePermissions _ _ _) _ _ => apply wp_GrantSomePermissions; intros ? ?
  | |- next _ _ (Ok _) _ => apply next_ok
  | |- next _ _ (Fail _) _ => apply next_fail
  | |- next _ _ Throws _ => apply next_throws
  | |- next _ _ ?r _ => is_var r; destruct r
  | |- cleaned _ _ _ _ => unfold cleaned at 1
  end.

(** ** What a part's call leaves alone *)

Section Frame.
Context {K P T E : Type} `{HK : KvStore K} `{HT : AccessTokenKit T} `{HE : Environment E}.
#[local] Abbreviation service := (Service K P T E).
Context (R : relation service) `{!PreOrder R}.

(** [R] is about the data manager and the sandboxes only. *)
Definition managers_only : Prop :=
  ∀ s s' : service, sv_mgr s = sv_mgr s' → sv_sandbox s = sv_sandbox s' → R s s'.

Lemma keeps_on_mgr {A} (f : BundleDataMgr K → BundleDataMgr K * A) :
  (∀ s, R s (set_mgr (f (sv_mgr s)).1 s)) → keeps R (on_mgr f).
Proof.
  intros Hf. apply keeps_within. intros s. unfold run. specialize (Hf s). by destruct (f (sv_mgr s)).
Qed.

Lemma keeps_on_mgr_opt {A} (f : BundleDataMgr K → option (BundleDataMgr K * A)) :
  (∀ s m x, f (sv_mgr s) = Some (m, x) → R s (set_mgr m s)) → keeps R (on_mgr_opt f).
Proof.
  intros Hf. apply keeps_within. intros s. unfold run_opt. specialize (Hf s).
  destruct (f (sv_mgr s)) as [[m x]|]; simpl; [by eapply Hf|]. by destruct s.
Qed.

Lemma keeps_ask_mgr {A} (f : BundleDataMgr K → A) : keeps R (ask_mgr f).
Proof. apply keeps_gets, _. Qed.
Lemma keeps_ask_env {A} (f : E → A) : keeps R (ask_env f).
Proof. apply keeps_gets, _. Qed.

Lemma keeps_on_sandbox {A} (f : BundleSandboxDataMgr → BundleSandboxDataMgr * A) :
  (∀ s, R s (set_sandbox (f (sv_sandbox s)).1 s)) → keeps R (on_sandbox f).
Proof.
  intros Hf. apply keeps_within. intros s. unfold run. specialize (Hf s). by destruct (f (sv_sandbox s)).
Qed.

Lemma keeps_on_tokens {A} (f : T → T * A) : managers_only → keeps R (on_tokens f).
Proof. intros Hm. apply keeps_within. intros s. by apply Hm. Qed.
Lemma keeps_on_env {A} (m : On E A) : managers_only → keeps R (on_env m).
Proof. intros Hm. apply keeps_within. intros s. by apply Hm. Qed.
Lemma keeps_tells n : managers_only → keeps R (tells n).
Proof. intros Hm. apply keeps_modify. intros s. by apply Hm. Qed.

Lemma keeps_NotifyBundleStatus b p a code type uid : managers_only → keeps R (NotifyBundleStatus b p a code type uid).
Proof. intros Hm. unfold NotifyBundleStatus. keeps_auto; by apply keeps_tells. Qed.

Lemma keeps_GrantAllPermissions `{StdSort} info tokenId : managers_only → keeps R (GrantAllPermissions info tokenId).
Proof. intros Hm. unfold GrantAllPermissions. keeps_auto. by apply keeps_on_tokens. Qed.
Lemma keeps_GrantSomePermissions `{StdSort} info names tokenId :
  managers_only → keeps R (GrantSomePermissions info names tokenId).
Proof. intros Hm. unfold GrantSomePermissions. keeps_auto. by apply keeps_on_tokens. Qed.
End Frame.

#[export] Hint Resolve keeps_ask_mgr keeps_ask_env keeps_on_tokens keeps_on_env keeps_tells keeps_NotifyBundleStatus
  keeps_GrantAllPermissions keeps_GrantSomePermissions : keeps.

(** ** A device

    installd and the tools always succeed; what the others are told is kept.
    The directories that cannot be removed are given. *)

Record device := mkDevice { dv_told : list Notice; dv_stuck : list string }.
#[export] Instance eta_device : Eta device := λ r, mkDevice (dv_told r) (dv_stuck r).

#[export, refine] Instance device_environment : Environment device := {|
  CreateBundleDir _ := mret ();
  CreateBundleDataDir _ _ _ _ _ := mret ();
  RemoveDir _ := mret ();
  RemoveBundleDataDir dir _ e := if decide (dir ∈ dv_stuck e) then (Fail 1, e) else (Ok (), e);
  RemoveModuleDataDir _ _ := mret ();
  ExtractModuleFiles _ _ _ _ := mret ();
  RenameModuleDir _ _ := mret ();
  SetDirApl _ _ _ := mret ();
  CheckFilePath l := mret l;
  CheckSystemSize _ _ _ := true;
  GetCurrentTime _ := 7;
  RenameFile _ _ e := (e, true);
  CopyFile _ _ e := (e, true);
  HapVerify _ := mret (mkProvisionInfo "com.demo_id" "normal" "" [] "");
  Parse path _ := mret (demo_hap path true []);
  ParsePackInfo _ p := mret p;
  ParseSysCap _ := mret [];
  ParseDefaultPermission e := (e, None);
  HasSystemCapability _ _ := true;
  BundleNameAllowList _ := Some ["com.demo"];
  UninstallApplicationProcesses _ _ e := (e, true);
  tell n e := e <| dv_told ::= λ l, l ++ [n] |>;
  StrToInt s := if decide (s = "1") then Some 1 else None;
  iteration_order V l := l;
  ERR_NO_INIT := 5;
|}.
Proof. done. Defined.

Abbreviation demo_service := (Service (stdmap string InnerBundleInfo) () (list (Z * string) * option HapPolicyParams) device).
#[export] Existing Instance demo_kit.
#[export] Existing Instance merge_std_sort.

(** Users 0 and 100, and the bundles of [infos], which run as the ids of [ids]. *)
Definition demo_with (infos : list InnerBundleInfo) (ids : list (Z * string)) : demo_service :=
  mkService _ _ _ _
    ((new_BundleDataMgr ∅ None) <| dm_bundleInfos := foldr (λ i m, <[GetBundleName i := i]> m) ∅ infos |>
       <| dm_bundleIdMap := foldr (λ p m, <[p.1 := p.2]> m) ∅ ids |> <| dm_multiUserIdsSet := {[0; 100]} |>)
    (mkBundleSandboxDataMgr ∅ ∅) (new_BundleCloneMgr (Some ∅)) (mkPreInstalled [] ()) ([], None) ∅ [] (mkDevice [] []).
