(* ===== verification/Resources.v ===== *)
(** * Resources: what the bundle manager reads from the files of a bundle

    The checks of file names of services/bundlemgr/src/bundle_util.cpp; the
    configuration files of abilities, extensions and modules of
    interfaces/inner_api/appexecfwk_core/src/bundlemgr/bundle_mgr_client_impl.cpp;
    the shortcuts that a bundle of the new version keeps in such a file
    (shortcut_info.cpp, InnerBundleInfo::GetShortcutInfos); the labels, icons and
    sizes of bundle_data_mgr.cpp.  The files, the resource manager and the image
    library are the class [Files]. *)

From Stdlib Require Import Ascii.
From stdpp Require Import strings list.
From S2P Require Import Prelude Strings StdMap BundleTypes Errors Json InfoJson PackJson Parcel Flow InnerBundleInfo InnerBundleQuery BundleDataMgr BundleDataQuery.

Open Scope string_scope.
Open Scope list_scope.
Open Scope Z_scope.

(** ** Files *)

(** System calls on files, and the resource manager for directories of
    resources; [LowerStr] is of string_ex.h, [dump_indent] is
    [nlohmann::json::dump] with four spaces. *)
Class Files (E : Type) := {
  PathToRealPath : string → E → option string;
  FileAccess : string → E → bool;
  CheckFileSize : string → Z → E → bool;
  ReadFile : string → E → option string;
  AddResource : string → E → bool;
  GetProfileByName : string → string → E → option string;
  GetStringById : list string → Z → E → option string;
  GetMediaById : list string → Z → E → option string;
  GetDiskUsage : string → E → Z;
  LowerStr : string → string;
  dump_indent : json → option string;
}.

Definition PATH_MAX_SIZE : Z := 256.
Definition MAX_HAP_SIZE : Z := 4 * 1024 * 1024 * 1024.
Definition PROFILE_FILE_SUFFIX : string := ".json".
Definition META_DATA_SHORTCUTS_NAME : string := "ohos.ability.shortcuts".

(** [s.substr(s.rfind(c))] *)
Fixpoint from_last (c : ascii) (s : string) : option string :=
  match s with
  | EmptyString => None
  | String a rest =>
      match from_last c rest with
      | Some e => Some e
      | None => if Ascii.eqb a c then Some s else None
      end
  end.

Section Files.
Context {E : Type} `{HF : Files E}.
Implicit Types (e : E).

(** *** BundleUtil *)

Definition CheckFileName (fileName : string) : bool :=
  negb (str_empty fileName) && negb (PATH_MAX_SIZE <? Z.of_nat (String.length fileName)).

Definition CheckFileType (fileName extensionName : string) : bool :=
  CheckFileName fileName
  && match from_last "." fileName with None => false | Some suffixStr => bool_decide (LowerStr suffixStr = extensionName) end.

(** The overload of CheckFilePath for one file. *)
Definition CheckHapPath (bundlePath : string) e : Z + string :=
  if negb (CheckFileName bundlePath) then inl ERR_APPEXECFWK_INSTALL_FILE_PATH_INVALID
  else if negb (CheckFileType bundlePath INSTALL_FILE_SUFFIX) then inl ERR_APPEXECFWK_INSTALL_INVALID_HAP_NAME
  else match PathToRealPath bundlePath e with
       | None => inl ERR_APPEXECFWK_INSTALL_FILE_PATH_INVALID
       | Some realPath =>
           if negb (FileAccess realPath e) then inl ERR_APPEXECFWK_INSTALL_INVALID_BUNDLE_FILE
           else if negb (CheckFileSize realPath MAX_HAP_SIZE e) then inl ERR_APPEXECFWK_INSTALL_INVALID_HAP_SIZE
           else inr realPath
       end.

(** *** BundleMgrClientImpl *)

Definition IsFileExisted (filePath suffix : string) e : bool :=
  negb (str_empty filePath)
  && match from_last "." filePath with None => false | Some suffixStr => bool_decide (LowerStr suffixStr = suffix) end
  && FileAccess filePath e.

Context `{HT : JsonText}.

(** The outer [None]: the library throws. *)
Definition TransformFileToJsonString (resPath : string) e : option (option string) :=
  if negb (IsFileExisted resPath PROFILE_FILE_SUFFIX e) then Some None
  else match ReadFile resPath e with
       | None => Some None
       | Some text =>
           if str_empty text then Some None
           else match parse text with
                | None => Some None
                | Some profileJson => Some <$> dump_indent profileJson
                end
       end.

Definition GetResFromResMgr (resName resourcePath : string) e : option (option string) :=
  match from_last ":" resName with
  | None => Some None
  | Some rest =>
      let profileName := str_drop 1 rest in
      if str_empty profileName then Some None
      else match GetProfileByName resourcePath profileName e with
           | None => Some None
           | Some resPath => TransformFileToJsonString resPath e
           end
  end.

Fixpoint res_profiles (metadata : list Metadata) (metadataName resourcePath : string) e (profileInfos : list string) :
  option (list string) :=
  match metadata with
  | [] => Some profileInfos
  | data :: metadata =>
      if str_empty metadataName || bool_decide (metadataName = md_name data)
      then match GetResFromResMgr (md_resource data) resourcePath e with
           | None => None
           | Some profile => res_profiles metadata metadataName resourcePath e (profileInfos ++ option_list profile)
           end
      else res_profiles metadata metadataName resourcePath e profileInfos
  end.

Definition GetResProfileByMetadata (metadata : list Metadata) (metadataName resourcePath : string) e
  (profileInfos : list string) : option (list string * bool) :=
  match metadata with
  | [] => Some (profileInfos, false)
  | _ =>
      if str_empty resourcePath then Some (profileInfos, false)
      else if negb (AddResource resourcePath e) then Some (profileInfos, false)
      else (λ l, (l, true)) <$> res_profiles metadata metadataName resourcePath e profileInfos
  end.

(** The three overloads of GetResConfigFile differ in the object that holds the
    metadata and the path. *)
Definition GetResConfigFile (metadata : list Metadata) (resourcePath metadataName : string) e (profileInfos : list string) :
  option (list string * bool) :=
  match GetResProfileByMetadata metadata metadataName resourcePath e profileInfos with
  | None => None
  | Some (profileInfos, ok) => Some (profileInfos, ok && negb (length profileInfos =? 0)%nat)
  end.

(** ** Shortcuts *)

Record ShortcutWant := mkShortcutWant { sw_bundleName : string; sw_abilityName : string }.
#[export] Instance eta_ShortcutWant : Eta ShortcutWant := λ r, mkShortcutWant (sw_bundleName r) (sw_abilityName r).

Record Shortcut := mkShortcut {
  st_shortcutId : string;
  st_icon : string;
  st_iconId : Z;
  st_label : string;
  st_labelId : Z;
  st_wants : list ShortcutWant;
}.
#[export] Instance eta_Shortcut : Eta Shortcut := λ r,
  mkShortcut (st_shortcutId r) (st_icon r) (st_iconId r) (st_label r) (st_labelId r) (st_wants r).

Definition ShortcutWant_from_json (j : json) (x : ShortcutWant) : M ShortcutWant :=
  x ← GetValueIfFindKey LOCAL j "bundleName" get_string STRING false NOT_ARRAY (λ v x, x <| sw_bundleName := v |>) x;
  GetValueIfFindKey LOCAL j "abilityName" get_string STRING false NOT_ARRAY (λ v x, x <| sw_abilityName := v |>) x.
Definition get_ShortcutWant : json → M ShortcutWant := get_struct (mkShortcutWant "" "") ShortcutWant_from_json.

Definition Shortcut_from_json (j : json) (x : Shortcut) : M Shortcut :=
  x ← GetValueIfFindKey LOCAL j "shortcutId" get_string STRING false NOT_ARRAY (λ v x, x <| st_shortcutId := v |>) x;
  x ← GetValueIfFindKey LOCAL j "icon" get_string STRING false NOT_ARRAY (λ v x, x <| st_icon := v |>) x;
  x ← GetValueIfFindKey LOCAL j "iconId" get_int32 NUMBER false NOT_ARRAY (λ v x, x <| st_iconId := v |>) x;
  x ← GetValueIfFindKey LOCAL j "label" get_string STRING false NOT_ARRAY (λ v x, x <| st_label := v |>) x;
  x ← GetValueIfFindKey LOCAL j "labelId" get_int32 NUMBER false NOT_ARRAY (λ v x, x <| st_labelId := v |>) x;
  GetValueIfFindKey LOCAL j "wants" (get_vector get_ShortcutWant) ARRAY false OBJECTS (λ v x, x <| st_wants := v |>) x.
Definition get_Shortcut : json → M Shortcut := get_struct (mkShortcut "" "" 0 "" 0 []) Shortcut_from_json.

Definition ShortcutJson_from_json (j : json) (x : list Shortcut) : M (list Shortcut) :=
  GetValueIfFindKey LOCAL j "shortcuts" (get_vector get_Shortcut) ARRAY false OBJECTS (λ v _, v) x.
Definition get_ShortcutJson : json → M (list Shortcut) := get_struct [] ShortcutJson_from_json.

Context `{HU : Uninit}.

Definition shortcut_info (bundleName : string) (item : Shortcut) : ShortcutInfo :=
  (new_ShortcutInfo uninit)
    <| sc_id := st_shortcutId item |> <| sc_bundleName := bundleName |>
    <| sc_icon := st_icon item |> <| sc_label := st_label item |>
    <| sc_iconId := st_iconId item |> <| sc_labelId := st_labelId item |>
    <| sc_intents := map (λ w, mkShortcutIntent (sw_bundleName w) (sw_abilityName w)) (st_wants item) |>.

(** InnerBundleInfo::GetShortcutInfos; [None] when the JSON library throws. *)
Definition InnerBundleInfo_GetShortcutInfos (i : InnerBundleInfo) e : option (list ShortcutInfo) :=
  if ib_isNewVersion i then
    let abilityInfo := GetMainAbilityInfo i (new_AbilityInfo uninit) in
    if negb (str_empty (ai_resourcePath abilityInfo)) && negb (length (ai_metadata abilityInfo) =? 0)%nat then
      match GetResConfigFile (ai_metadata abilityInfo) (ai_resourcePath abilityInfo) META_DATA_SHORTCUTS_NAME e [] with
      | None => None
      | Some (_, false) | Some ([], true) => Some []
      | Some (text :: _, true) =>
          match parse text with
          | None => Some []
          | Some jsonObject =>
              (λ r, map (shortcut_info (ai_bundleName abilityInfo)) r.1) <$> get_ShortcutJson jsonObject (mkParseState ERR_OK ERR_OK)
          end
      end
    else Some []
  else Some (sm_vals (ib_shortcutInfos i)).

(** ** BundleDataMgr *)

Context {K : Type} `{HS : StdSort}.
Context (GetReqPermissions : Z → bool → option (list PermissionStateFull)).
Context (callingUid : Z).
#[local] Abbreviation mgr := (BundleDataMgr K).
#[local] Abbreviation GetUserId := (BundleDataMgr.GetUserId callingUid).
Implicit Types (m : mgr).

Definition GetShortcutInfos (bundleName : string) (userId : Z) (m : mgr) e : option (option (list ShortcutInfo)) :=
  let requestUserId := GetUserId userId m in
  if requestUserId =? INVALID_USERID then Some None
  else match GetInnerBundleInfoWithFlags callingUid bundleName GET_BUNDLE_DEFAULT requestUserId m with
       | None => Some None
       | Some i => Some <$> InnerBundleInfo_GetShortcutInfos i e
       end.

(** The directories that GetResourceManager adds. *)
Definition GetResourceManager (bundleInfo : BundleInfo) : list string :=
  List.filter (λ path, negb (str_empty path)) (bi_moduleResPaths bundleInfo).

Definition GetAbilityLabel (bundleName moduleName abilityName : string) (m : mgr) e : string :=
  if sm_is_empty (dm_bundleInfos m) then ""
  else match dm_bundleInfos m !! bundleName with
       | None => ""
       | Some i =>
           if IsDisabled i then ""
           else match FindAbilityInfo bundleName moduleName abilityName (GetUserId UNSPECIFIED_USERID m) i with
                | None => ""
                | Some ability =>
                    if ai_labelId ability =? 0 then ai_label ability
                    else
                      let bundleInfo := InnerBundleQuery.GetBundleInfo GetReqPermissions 0 (GetUserIdByUid callingUid) i new_BundleInfo in
                      default "" (GetStringById (GetResourceManager bundleInfo) (u32 (ai_labelId ability)) e)
                end
       end.

(** The path of the icon that is loaded. *)
Definition GetAbilityPixelMapIcon (bundleName moduleName abilityName : string) (m : mgr) e : option string :=
  if sm_is_empty (dm_bundleInfos m) then None
  else match dm_bundleInfos m !! bundleName with
       | None => None
       | Some i =>
           match FindAbilityInfo bundleName moduleName abilityName (GetUserId UNSPECIFIED_USERID m) i with
           | None => None
           | Some ability =>
               let bundleInfo := InnerBundleQuery.GetBundleInfo GetReqPermissions 0 (GetUserId UNSPECIFIED_USERID m) i new_BundleInfo in
               GetMediaById (GetResourceManager bundleInfo) (u32 (ai_iconId ability)) e
           end
       end.

(** The size of the code and of the data of an application, added to [size];
    [userId] below is the active user of the account service. *)
Definition add_usage (app : ApplicationInfo) e (size : Z) : Z :=
  let size := if str_empty (app_codePath app) then size else i64 (size + GetDiskUsage (app_codePath app) e) in
  if str_empty (app_dataDir app) then size else i64 (size + GetDiskUsage (app_dataDir app) e).

Definition GET_ALL_APPLICATION_INFO : Z := 4294901760.

Definition GetBundleSpaceSize (userId : Z) (bundleName : string) (m : mgr) e : Z :=
  if userId =? INVALID_USERID then 0
  else match BundleDataQuery.GetBundleInfo GetReqPermissions callingUid bundleName (i32 GET_ALL_APPLICATION_INFO) userId m new_BundleInfo with
       | None => 0
       | Some bundleInfo => add_usage (bi_applicationInfo bundleInfo) e 0
       end.

Definition GetAllFreeInstallBundleSpaceSize (userId : Z) (m : mgr) e : Z :=
  if userId =? INVALID_USERID then 0
  else
    let '(bundleInfos, ok) := BundleDataQuery.GetBundleInfos GetReqPermissions callingUid (i32 GET_ALL_APPLICATION_INFO) userId m in
    if negb ok then 0
    else foldl (λ allSize item, if app_isFreeInstallApp (bi_applicationInfo item) then add_usage (bi_applicationInfo item) e allSize
                                else allSize) 0 bundleInfos.
End Files.
