(* ===== verification/Sandbox.v ===== *)
(** * Sandbox: copies of a bundle for one document

    Models services/bundlemgr/src/sandbox_app/bundle_sandbox_data_mgr.cpp and
    bundle_sandbox_installer.cpp: the indexes of the sandboxes of a bundle, and
    installing and removing a sandbox, on the state of Service.v.

    The members of an installer hold the arguments of one call. *)

From stdpp Require Import strings list.
From S2P Require Import Prelude Strings StdMap BundleTypes Errors InnerBundleInfo InnerBundleQuery InstallInfo Parcel Flow BundlePermissionMgr BundleDataMgr Service.

Open Scope string_scope.
Open Scope list_scope.
Open Scope Z_scope.

(** ** BundleSandboxDataMgr *)

Definition sandbox_key (bundleName : string) (appIndex : Z) : string := bundleName +:+ FILE_UNDERLINE +:+ pretty appIndex.

Definition SaveSandboxAppInfo (info : InnerBundleInfo) (appIndex : Z) (d : BundleSandboxDataMgr) : BundleSandboxDataMgr :=
  let bundleName := GetBundleName info in
  if str_empty bundleName then d else d <| sd_sandboxAppInfos ::= insert (sandbox_key bundleName appIndex) info |>.

Definition DeleteSandboxAppInfo (bundleName : string) (appIndex : Z) (d : BundleSandboxDataMgr) : BundleSandboxDataMgr :=
  if str_empty bundleName then d else d <| sd_sandboxAppInfos ::= delete (sandbox_key bundleName appIndex) |>.

Definition GetSandboxAppInfo (bundleName : string) (appIndex userId : Z) (d : BundleSandboxDataMgr) : Z + InnerBundleInfo :=
  if str_empty bundleName then inl ERR_APPEXECFWK_SANDBOX_INSTALL_PARAM_ERROR
  else if appIndex <=? INITIAL_APP_INDEX then inl ERR_APPEXECFWK_SANDBOX_INSTALL_PARAM_ERROR
  else if userId <? DEFAULT_USERID then inl ERR_APPEXECFWK_SANDBOX_INSTALL_PARAM_ERROR
  else match sd_sandboxAppInfos d !! sandbox_key bundleName appIndex with
       | None => inl ERR_APPEXECFWK_SANDBOX_INSTALL_NO_SANDBOX_APP_INFO
       | Some info =>
           if (GetInnerBundleUserInfo userId info new_InnerBundleUserInfo).1 then inr info
           else inl ERR_APPEXECFWK_SANDBOX_INSTALL_NOT_INSTALLED_AT_SPECIFIED_USERID
       end.

Definition sandbox_flags : Z :=
  Z.lor GET_BUNDLE_DEFAULT (Z.lor GET_BUNDLE_WITH_ABILITIES (Z.lor GET_BUNDLE_WITH_REQUESTED_PERMISSION
    (Z.lor GET_BUNDLE_WITH_EXTENSION_INFO GET_BUNDLE_WITH_HASH_VALUE))).

Definition GetSandboxAppBundleInfo `{StdSort} (getReqPermissions : Z → bool → option (list PermissionStateFull))
    (bundleName : string) (appIndex userId : Z) (bundleInfo : BundleInfo) (d : BundleSandboxDataMgr) : Z + BundleInfo :=
  match GetSandboxAppInfo bundleName appIndex userId d with
  | inl code => inl code
  | inr info =>
      if (GetInnerBundleUserInfo userId info new_InnerBundleUserInfo).1
      then inr (InnerBundleQuery.GetBundleInfo getReqPermissions sandbox_flags userId info bundleInfo)
      else inl ERR_APPEXECFWK_SANDBOX_INSTALL_NOT_INSTALLED_AT_SPECIFIED_USERID
  end.

(** The last of the numbers that follow [pre] without a gap. *)
Fixpoint last_in_row (pre : Z) (indexes : list Z) : Z :=
  match indexes with
  | [] => pre
  | i :: indexes => if i =? pre + 1 then last_in_row (pre + 1) indexes else pre
  end.

Definition GenerateSandboxAppIndex (bundleName : string) (d : BundleSandboxDataMgr) : BundleSandboxDataMgr * Z :=
  if str_empty bundleName then (d, INITIAL_APP_INDEX)
  else
    let first := INITIAL_APP_INDEX + 1 in
    match sd_sandboxAppIndexMap d !! bundleName with
    | None => (d <| sd_sandboxAppIndexMap ::= emplace bundleName (<[first := ()]> ∅) |>, first)
    | Some indexes =>
        if sm_is_empty indexes then (d <| sd_sandboxAppIndexMap ::= insert bundleName (<[first := ()]> indexes) |>, first)
        else
          let newAppIndex := last_in_row INITIAL_APP_INDEX (sm_keys indexes) + 1 in
          if newAppIndex >? MAX_APP_INDEX then (d, INITIAL_APP_INDEX)
          else (d <| sd_sandboxAppIndexMap ::= insert bundleName (<[newAppIndex := ()]> indexes) |>, newAppIndex)
    end.

Definition DeleteSandboxAppIndex (bundleName : string) (appIndex : Z) (d : BundleSandboxDataMgr) : BundleSandboxDataMgr * bool :=
  if str_empty bundleName then (d, false)
  else match sd_sandboxAppIndexMap d !! bundleName with
       | None => (d, false)
       | Some indexes =>
           if sm_is_empty indexes then (d, false)
           else match indexes !! appIndex with
                | None => (d, false)
                | Some _ =>
                    let indexes := delete appIndex indexes in
                    (d <| sd_sandboxAppIndexMap ::= if sm_is_empty indexes then delete bundleName else insert bundleName indexes |>,
                     true)
                end
       end.

(** ** BundleSandboxInstaller *)

Section Installer.
Context {K P T E : Type} `{HK : KvStore K} `{HT : AccessTokenKit T} `{HE : Environment E} `{HS : StdSort}.
#[local] Abbreviation service := (Service K P T E).
#[local] Abbreviation SM := (On service).

Definition StoreSandboxPersitentInfo (bundleName : string) (accessTokenId appIndex userId : Z) : SM () :=
  on_mgr (λ m, (StoreSandboxPersistentInfo bundleName (mkSandboxAppPersistentInfo accessTokenId appIndex userId) m, ())).
Definition DeleteSandboxPersitentInfo (bundleName : string) (accessTokenId appIndex userId : Z) : SM () :=
  on_mgr (λ m, (DeleteSandboxPersistentInfo bundleName (mkSandboxAppPersistentInfo accessTokenId appIndex userId) m, ())).

Inductive SandboxInstallType := Sandbox_INSTALL | Sandbox_UNINSTALL.

Definition NotifySandboxAppStatus (info : InnerBundleInfo) (uid : Z) (type : SandboxInstallType) : SM () :=
  let action := match type with
                | Sandbox_INSTALL => COMMON_EVENT_SANDBOX_PACKAGE_ADDED
                | Sandbox_UNINSTALL => COMMON_EVENT_SANDBOX_PACKAGE_REMOVED
                end in
  tells (PublishCommonEvent (mkCommonEvent action (GetBundleName info) (GetMainAbility info) uid (GetUserIdByUid uid)
                               (Some (ib_appIndex info)))).

Definition CreateSandboxDataDir (info : InnerBundleInfo) (uid appIndex userId : Z) : SM InnerBundleInfo :=
  let innerDataDir := sandbox_key (GetBundleName info) appIndex in
  on_env (CreateBundleDataDir innerDataDir userId uid uid (GetAppPrivilegeLevel info)) ;;
  mret (SetAppDataBaseDir (BUNDLE_APP_DATA_BASE_DIR +:+ "el2" +:+ DATABASE +:+ innerDataDir) info).

(** Gives the id of the sandbox's user back, under the sandbox's name. *)
Definition recycle_sandbox (key : string) (userInfo : InnerBundleUserInfo) (info : InnerBundleInfo) : SM () :=
  let info := InnerBundleInfo.AddInnerBundleUserInfo (userInfo <| ibu_bundleName := key |>) info in
  on_mgr (λ m, (RecycleUidAndGid info m, ())).

Definition SandboxAppRollBack (info : InnerBundleInfo) (userId : Z) : SM () :=
  on_tokens (DeleteAccessTokenId (GetAccessTokenId userId info)) ;;
  let bundleName := GetBundleName info in
  let appIndex := ib_appIndex info in
  on_sandbox (DeleteSandboxAppIndex bundleName appIndex) ;;
  let key := sandbox_key bundleName appIndex in
  let '(found, userInfo) := GetInnerBundleUserInfo userId info new_InnerBundleUserInfo in
  when found (recycle_sandbox key userInfo info) ;;
  ignore (on_env (RemoveBundleDataDir key userId)).

(** The answer is the index.  The result of GenerateUidAndGid is not looked at. *)
Definition InstallSandboxApp (bundleName : string) (dlpType userId : Z) : SM Z :=
  check (negb (str_empty bundleName)) ERR_APPEXECFWK_SANDBOX_INSTALL_PARAM_ERROR ;;
  found ← on_mgr (GetInnerBundleInfo bundleName);
  match found with
  | None => fail ERR_APPEXECFWK_SANDBOX_INSTALL_APP_NOT_EXISTED
  | Some info =>
      check (negb (userId <? DEFAULT_USERID)) ERR_APPEXECFWK_SANDBOX_INSTALL_PARAM_ERROR ;;
      hasUser ← ask_mgr (HasUserId userId);
      check hasUser ERR_APPEXECFWK_SANDBOX_INSTALL_USER_NOT_EXIST ;;
      let '(installed, userInfo) := GetInnerBundleUserInfo userId info new_InnerBundleUserInfo in
      check installed ERR_APPEXECFWK_SANDBOX_INSTALL_NOT_INSTALLED_AT_SPECIFIED_USERID ;;
      let info := CleanInnerBundleUserInfos info in
      newAppIndex ← on_error (SandboxAppRollBack info userId)
        (newAppIndex ← on_sandbox (GenerateSandboxAppIndex bundleName);
         check (negb (newAppIndex =? INITIAL_APP_INDEX)) ERR_APPEXECFWK_SANDBOX_INSTALL_INVALID_APP_INDEX ;;
         mret newAppIndex);
      let info := SetIsSandbox true (SetAppIndex newAppIndex info) in
      newTokenId ← on_tokens (CreateAccessTokenId info (GetBundleName info) userId dlpType);
      on_error (SandboxAppRollBack info userId)
        (granted ← GrantAllPermissions info newTokenId;
         check granted ERR_APPEXECFWK_INSTALL_GRANT_REQUEST_PERMISSIONS_FAILED) ;;
      generated ← on_mgr (λ m, let u := userInfo <| ibu_bundleName := sandbox_key bundleName newAppIndex |> <| ibu_gids := [] |> in
                               let '(m, u, ok) := GenerateUidAndGid u m in (m, u));
      let userInfo := generated <| ibu_bundleName := bundleName |> in
      time ← ask_env GetCurrentTime;
      let info := SetAccessTokenId newTokenId userId
                    (SetBundleUpdateTime 0 userId (SetBundleInstallTime time userId
                       (InnerBundleInfo.AddInnerBundleUserInfo userInfo info))) in
      info ← on_error (SandboxAppRollBack info userId) (CreateSandboxDataDir info (ibu_uid userInfo) newAppIndex userId);
      on_sandbox (λ d, (SaveSandboxAppInfo info newAppIndex d, ())) ;;
      on_mgr (EnableBundle bundleName) ;;
      StoreSandboxPersitentInfo bundleName newTokenId newAppIndex userId ;;
      NotifySandboxAppStatus info (ibu_uid userInfo) Sandbox_INSTALL ;;
      mret newAppIndex
  end.

Definition UninstallSandboxApp (bundleName : string) (appIndex userId : Z) : SM () :=
  check (negb (userId <? DEFAULT_USERID)) ERR_APPEXECFWK_SANDBOX_INSTALL_PARAM_ERROR ;;
  hasUser ← ask_mgr (HasUserId userId);
  check hasUser ERR_APPEXECFWK_SANDBOX_INSTALL_USER_NOT_EXIST ;;
  found ← gets (λ s, GetSandboxAppInfo bundleName appIndex userId (sv_sandbox s));
  match found with
  | inl code => fail code
  | inr info =>
      let '(installed, userInfo) := GetInnerBundleUserInfo userId info new_InnerBundleUserInfo in
      check installed ERR_APPEXECFWK_SANDBOX_INSTALL_NOT_INSTALLED_AT_SPECIFIED_USERID ;;
      let accessTokenId := GetAccessTokenId userId info in
      on_tokens (DeleteAccessTokenId accessTokenId) ;;
      deleted ← on_sandbox (DeleteSandboxAppIndex bundleName appIndex);
      check deleted ERR_APPEXECFWK_SANDBOX_INSTALL_DELETE_APP_INDEX_FAILED ;;
      let innerBundleName := sandbox_key bundleName appIndex in
      on_env (RemoveBundleDataDir innerBundleName userId) ;;
      recycle_sandbox innerBundleName userInfo info ;;
      on_sandbox (λ d, (DeleteSandboxAppInfo bundleName appIndex d, ())) ;;
      DeleteSandboxPersitentInfo bundleName accessTokenId appIndex userId ;;
      NotifySandboxAppStatus (InnerBundleInfo.AddInnerBundleUserInfo (userInfo <| ibu_bundleName := innerBundleName |>) info)
        (ibu_uid userInfo) Sandbox_UNINSTALL
  end.

(** One entry of the copied map: [substr] throws when the key is not longer
    than the name, and there is nothing at [begin()] of no users. *)
Definition uninstall_matching (bundleName : string) (userId : Z) (entry : string * InnerBundleInfo) : SM () :=
  if negb (str_contains bundleName entry.1) then mret ()
  else if (String.length entry.1 <? String.length bundleName + 1)%nat then throws
  else match StrToInt (str_drop (String.length bundleName + 1) entry.1) with
       | None => mret ()
       | Some appIndex =>
           match sm_begin (ib_innerBundleUserInfos entry.2) with
           | None => throws
           | Some (_, u) =>
               let specifiedUserId := user_of u in
               when ((specifiedUserId =? userId) || (userId =? INVALID_USERID))
                 (ignore (UninstallSandboxApp bundleName appIndex specifiedUserId))
           end
       end.

Definition UninstallAllSandboxApps (bundleName : string) (userId : Z) : SM () :=
  check (negb (str_empty bundleName)) ERR_APPEXECFWK_SANDBOX_INSTALL_PARAM_ERROR ;;
  sandboxAppInfoMap ← gets (λ s, sd_sandboxAppInfos (sv_sandbox s));
  for_each (uninstall_matching bundleName userId) (iteration_order (elems sandboxAppInfoMap)).
End Installer.


(** * Properties *)

(** ** Indexes *)

(** [appIndex] is taken by a sandbox of the bundle. *)
Definition index_used (bundleName : string) (appIndex : Z) (d : BundleSandboxDataMgr) : Prop :=
  ∃ indexes, sd_sandboxAppIndexMap d !! bundleName = Some indexes ∧ is_Some (indexes !! appIndex).

Definition indexes_wf (d : BundleSandboxDataMgr) : Prop :=
  ∀ bundleName indexes, sd_sandboxAppIndexMap d !! bundleName = Some indexes →
    sm_wf indexes ∧ ∀ i, is_Some (indexes !! i) → INITIAL_APP_INDEX < i <= MAX_APP_INDEX.

Lemma last_in_row_spec pre (l : list Z) :
  StronglySorted Z.lt l → Forall (Z.lt pre) l →
  let r := last_in_row pre l in pre <= r ∧ (∀ j, pre < j <= r → j ∈ l) ∧ r + 1 ∉ l.
Proof.
  revert pre. induction l as [|i l IH]; intros pre Hs Hf; cbn [last_in_row].
  - split_and!; [lia|intros; lia|apply not_elem_of_nil].
  - apply StronglySorted_inv in Hs as [Hs Hi]. apply Forall_cons in Hf as [Hpre Hf].
    destruct (Z.eqb_spec i (pre + 1)) as [->|Hne].
    + destruct (IH (pre + 1) Hs Hi) as (H1 & H2 & H3). split_and!; [lia| |].
      * intros j Hj. destruct (decide (j = pre + 1)) as [->|]; [left|right; apply H2; lia].
      * rewrite not_elem_of_cons. split; [lia|done].
    + split_and!; [lia|intros; lia|]. rewrite not_elem_of_cons. split; [done|]. intros Hin.
      rewrite Forall_forall in Hi. specialize (Hi _ Hin). lia.
Qed.

Lemma elem_of_sm_keys {V} (m : stdmap Z V) i : i ∈ sm_keys m ↔ is_Some (m !! i).
Proof.
  destruct (m !! i) as [v|] eqn:E.
  - split; [by eexists|]. intros _. destruct (decide (i ∈ sm_keys m)) as [|Hn]; [done|].
    apply sm_lookup_none in Hn. congruence.
  - apply sm_lookup_none in E. split; [done|by intros [? ?]].
Qed.

Lemma sm_keys_sorted {V} (m : stdmap Z V) : sm_wf m → StronglySorted Z.lt (sm_keys m).
Proof.
  unfold sm_wf, sm_keys. induction (elems m) as [|p l IH]; simpl; [constructor|].
  intros [Hl Hp]%StronglySorted_inv. constructor; [by apply IH|]. rewrite Forall_forall in Hp. rewrite Forall_forall.
  intros i (q & -> & Hq)%list_elem_of_fmap. specialize (Hp _ Hq). by apply Z.ltb_lt.
Qed.

(** [d'] is [d] with the index, or without it. *)
Definition index_added (bundleName : string) (appIndex : Z) (d d' : BundleSandboxDataMgr) : Prop :=
  sd_sandboxAppInfos d' = sd_sandboxAppInfos d
  ∧ ∀ b j, index_used b j d' ↔ index_used b j d ∨ (b = bundleName ∧ j = appIndex).
Definition index_removed (bundleName : string) (appIndex : Z) (d d' : BundleSandboxDataMgr) : Prop :=
  sd_sandboxAppInfos d' = sd_sandboxAppInfos d
  ∧ ∀ b j, index_used b j d' ↔ index_used b j d ∧ (b = bundleName → j ≠ appIndex).

Lemma insert_index bundleName appIndex indexes d :
  (sd_sandboxAppIndexMap d !! bundleName = None ∧ indexes = ∅ ∨ sd_sandboxAppIndexMap d !! bundleName = Some indexes) →
  index_added bundleName appIndex d (d <| sd_sandboxAppIndexMap ::= insert bundleName (<[appIndex := ()]> indexes) |>).
Proof.
  intros Hi. split; [done|]. intros b j. unfold index_used. simpl. rewrite sm_lookup_insert.
  destruct (decide (bundleName = b)) as [<-|Hne]; [|naive_solver]. split.
  - intros (l & [= <-] & Hj). rewrite sm_lookup_insert in Hj. destruct (decide (appIndex = j)) as [<-|]; [naive_solver|].
    destruct Hi as [[_ ->]|Hi]; [by destruct Hj|]. left. by exists indexes.
  - intros Hj. exists (<[appIndex := ()]> indexes). split; [done|]. rewrite sm_lookup_insert.
    destruct (decide (appIndex = j)); [by eexists|]. destruct Hj as [(l & Hl & Hj)|[_ ?]]; [|congruence].
    destruct Hi as [[Hi _]|Hi]; congruence.
Qed.

Lemma insert_index_wf bundleName appIndex indexes d :
  indexes_wf d → (indexes = ∅ ∨ sd_sandboxAppIndexMap d !! bundleName = Some indexes) →
  INITIAL_APP_INDEX < appIndex <= MAX_APP_INDEX →
  indexes_wf (d <| sd_sandboxAppIndexMap ::= insert bundleName (<[appIndex := ()]> indexes) |>).
Proof.
  intros Hwf Hi Hr b l. simpl. rewrite sm_lookup_insert. destruct (decide (bundleName = b)); [|by apply Hwf].
  intros [= <-]. assert (sm_wf indexes ∧ ∀ i, is_Some (indexes !! i) → INITIAL_APP_INDEX < i <= MAX_APP_INDEX) as [H1 H2].
  { destruct Hi as [->|Hi]; [split; [apply sm_wf_empty|by intros i [? ?]]|by eapply Hwf]. }
  split; [by apply sm_wf_insert|]. intros i. rewrite sm_lookup_insert. destruct (decide (appIndex = i)); [by subst|apply H2].
Qed.

(** The index handed out is the smallest one that is free, up to 100; without
    one nothing changes. *)
Lemma GenerateSandboxAppIndex_correct bundleName d :
  bundleName ≠ "" → indexes_wf d →
  let '(d', n) := GenerateSandboxAppIndex bundleName d in
  (INITIAL_APP_INDEX < n <= MAX_APP_INDEX ∧ ¬ index_used bundleName n d
   ∧ (∀ j, INITIAL_APP_INDEX < j < n → index_used bundleName j d) ∧ index_added bundleName n d d' ∧ indexes_wf d')
  ∨ (n = INITIAL_APP_INDEX ∧ d' = d ∧ ∀ j, INITIAL_APP_INDEX < j <= MAX_APP_INDEX → index_used bundleName j d).
Proof.
  intros Hb Hwf. unfold GenerateSandboxAppIndex.
  destruct (str_empty bundleName) eqn:Ee; [by apply str_empty_spec in Ee|].
  assert (∀ indexes, (sd_sandboxAppIndexMap d !! bundleName = None ∧ indexes = ∅
                      ∨ sd_sandboxAppIndexMap d !! bundleName = Some indexes) → elems indexes = [] →
    INITIAL_APP_INDEX < 1 <= MAX_APP_INDEX ∧ ¬ index_used bundleName 1 d
    ∧ (∀ j, INITIAL_APP_INDEX < j < 1 → index_used bundleName j d)
    ∧ index_added bundleName 1 d (d <| sd_sandboxAppIndexMap ::= insert bundleName (<[1 := ()]> indexes) |>)
    ∧ indexes_wf (d <| sd_sandboxAppIndexMap ::= insert bundleName (<[1 := ()]> indexes) |>)) as Hfirst.
  { intros indexes Hi He. unfold INITIAL_APP_INDEX, MAX_APP_INDEX. split_and!; [lia|lia| |intros; lia|by apply insert_index|].
    - intros (l & Hl & x & Hx). destruct Hi as [[Hi _]|Hi]; [congruence|]. rewrite Hi in Hl. injection Hl as <-.
      apply sm_lookup_elem in Hx. rewrite He in Hx. by apply elem_of_nil in Hx.
    - apply insert_index_wf; [done| |unfold INITIAL_APP_INDEX, MAX_APP_INDEX; lia]. naive_solver. }
  destruct (sd_sandboxAppIndexMap d !! bundleName) as [indexes|] eqn:El.
  2: { left. change (INITIAL_APP_INDEX + 1) with 1.
       assert (d <| sd_sandboxAppIndexMap ::= emplace bundleName (<[1 := ()]> ∅) |>
               = d <| sd_sandboxAppIndexMap ::= insert bundleName (<[1 := ()]> ∅) |>) as ->
         by (unfold set_field; f_equal; unfold emplace; by rewrite El).
       apply Hfirst; [by left|done]. }
  destruct (sm_is_empty indexes) eqn:Em.
  { left. apply Hfirst; [by right|]. unfold sm_is_empty in Em. by destruct (elems indexes). }
  destruct (Hwf _ _ El) as [Hs Hr].
  destruct (last_in_row_spec INITIAL_APP_INDEX (sm_keys indexes)) as (H1 & H2 & H3).
  { by apply sm_keys_sorted. }
  { apply Forall_forall. intros i Hi%elem_of_sm_keys. by apply Hr. }
  set (r := last_in_row INITIAL_APP_INDEX (sm_keys indexes)) in *. rewrite Z.gtb_ltb. destruct (Z.ltb_spec MAX_APP_INDEX (r + 1)).
  - right. split_and!; [done..|]. intros j Hj. exists indexes. split; [done|]. apply elem_of_sm_keys, H2. lia.
  - left. split_and!; [unfold INITIAL_APP_INDEX in *; lia|lia| | |apply insert_index; by right|].
    + intros (l & Hl & Hx). rewrite El in Hl. injection Hl as <-. by apply elem_of_sm_keys in Hx.
    + intros j Hj. exists indexes. split; [done|]. apply elem_of_sm_keys, H2. lia.
    + apply insert_index_wf; [done|by right|]. unfold INITIAL_APP_INDEX in *. lia.
Qed.

Lemma DeleteSandboxAppIndex_correct bundleName appIndex d :
  bundleName ≠ "" →
  index_removed bundleName appIndex d (DeleteSandboxAppIndex bundleName appIndex d).1
  ∧ ((DeleteSandboxAppIndex bundleName appIndex d).2 = true ↔ index_used bundleName appIndex d).
Proof.
  intros Hb. unfold DeleteSandboxAppIndex. destruct (str_empty bundleName) eqn:Ee; [by apply str_empty_spec in Ee|].
  assert (¬ index_used bundleName appIndex d → index_removed bundleName appIndex d d ∧ (false = true ↔ index_used bundleName appIndex d))
    as Hno by (intros Hn; split; [split; [done|]; intros b j; naive_solver|naive_solver]).
  destruct (sd_sandboxAppIndexMap d !! bundleName) as [indexes|] eqn:El.
  2: { apply Hno. intros (l & Hl & _). congruence. }
  destruct (sm_is_empty indexes) eqn:Em.
  { apply Hno. intros (l & Hl & x & Hx%sm_lookup_elem). rewrite El in Hl. injection Hl as <-. unfold sm_is_empty in Em.
    destruct (elems indexes); [by apply elem_of_nil in Hx|done]. }
  destruct (indexes !! appIndex) as [x|] eqn:Ei.
  2: { apply Hno. intros (l & Hl & y & Hy). rewrite El in Hl. injection Hl as <-. congruence. }
  split; [|split; [|done]; intros _; exists indexes; by rewrite Ei]. split; [by destruct (sm_is_empty _)|].
  intros b j. unfold index_used. simpl. destruct (decide (b = bundleName)) as [->|Hne].
  - rewrite El. split.
    + destruct (sm_is_empty (delete appIndex indexes)) eqn:Ed; rewrite ?sm_lookup_delete_eq, ?sm_lookup_insert_eq; [naive_solver|].
      intros (l & [= <-] & Hj). rewrite sm_lookup_delete in Hj. destruct (decide (appIndex = j)); [by destruct Hj|]. naive_solver.
    + intros [(l & [= <-] & Hj) Hnj]. assert (is_Some (delete appIndex indexes !! j)) as Hdj
        by (rewrite sm_lookup_delete_ne; [done|naive_solver]).
      destruct (sm_is_empty (delete appIndex indexes)) eqn:Ed.
      * destruct Hdj as [y Hy%sm_lookup_elem]. unfold sm_is_empty in Ed. destruct (elems (delete _ _)); [by apply elem_of_nil in Hy|done].
      * rewrite sm_lookup_insert_eq. by eexists.
  - destruct (sm_is_empty (delete appIndex indexes)); rewrite ?sm_lookup_delete_ne, ?sm_lookup_insert_ne by done; naive_solver.
Qed.

(** ** Installing a sandbox *)

Section Installing.
Context {K P T E : Type} `{HK : KvStore K} `{HT : AccessTokenKit T} `{HE : Environment E} `{HS : StdSort}.
#[local] Abbreviation service := (Service K P T E).
Implicit Types (s : service) (o info : InnerBundleInfo).

(** The sandboxes are as before. *)
Definition same_sandboxes (d d' : BundleSandboxDataMgr) : Prop :=
  sd_sandboxAppInfos d' = sd_sandboxAppInfos d ∧ ∀ b j, index_used b j d' ↔ index_used b j d.

Lemma same_sandboxes_refl d : same_sandboxes d d.
Proof. done. Qed.

Lemma added_removed b n d d1 : ¬ index_used b n d → b ≠ "" → index_added b n d d1 →
  same_sandboxes d (DeleteSandboxAppIndex b n d1).1.
Proof.
  intros Hn Hb [Hi Ha]. destruct (DeleteSandboxAppIndex_correct b n d1 Hb) as [[Hi' Hr] _]. split; [by rewrite Hi', Hi|].
  intros c j. rewrite Hr, Ha. naive_solver.
Qed.

Lemma removed_initial b d : indexes_wf d → b ≠ "" → same_sandboxes d (DeleteSandboxAppIndex b INITIAL_APP_INDEX d).1.
Proof.
  intros Hwf Hb. destruct (DeleteSandboxAppIndex_correct b INITIAL_APP_INDEX d Hb) as [[Hi Hr] _]. split; [done|].
  intros c j. rewrite Hr. split; [naive_solver|]. intros (l & Hl & Hj). split; [by exists l|]. intros -> ->.
  apply (Hwf _ _ Hl) in Hj. lia.
Qed.

Lemma set_status_found st b o (m : BundleDataMgr K) :
  b ≠ "" → dm_bundleInfos m !! b = Some o →
  set_status st b m = (m <| dm_bundleInfos ::= insert b (SetBundleStatus st o) |>, Some (SetBundleStatus st o)).
Proof.
  intros Hb Ho. unfold set_status. destruct (str_empty b) eqn:Ee; [by apply str_empty_spec in Ee|]. by rewrite Ho.
Qed.

Lemma wp_SandboxAppRollBack info userId (Q : result () → service → Prop) s :
  (∀ r s', sv_sandbox s' = (DeleteSandboxAppIndex (GetBundleName info) (ib_appIndex info) (sv_sandbox s)).1 →
           dm_bundleInfos (sv_mgr s') = dm_bundleInfos (sv_mgr s) → Q r s') →
  wp (SandboxAppRollBack info userId) Q s.
Proof.
  intros HQ. unfold SandboxAppRollBack, recycle_sandbox.
  destruct (GetInnerBundleUserInfo userId info new_InnerBundleUserInfo) as [found u] eqn:Eu.
  repeat (wp_step; simpl). all: try destruct r; apply HQ; try done.
  all: simpl; by rewrite (proj1 (proj2 (RecycleUidAndGid_frame _ _))).
Qed.

(** Who a sandbox runs as: the id of its own name, or - when no id is left -
    the uid of the original.  The other ids stay. *)
Definition sandbox_uid (key : string) (u : InnerBundleUserInfo) (m m' : BundleDataMgr K) (uid : Z) : Prop :=
  (∃ id, uid = bundle_uid (user_of u) id ∧ dm_bundleIdMap m' !! id = Some key
         ∧ (∀ j, j ≠ id → dm_bundleIdMap m' !! j = dm_bundleIdMap m !! j)
         ∧ (dm_bundleIdMap m !! id = Some key
            ∨ smallest_free (dm_bundleIdMap m) id ∧ ∀ j, dm_bundleIdMap m !! j ≠ Some key))
  ∨ uid = ibu_uid u ∧ dm_bundleIdMap m' = dm_bundleIdMap m ∧ (∀ j, dm_bundleIdMap m !! j ≠ Some key)
    ∧ ∀ j, BASE_APP_UID <= j <= MAX_APP_UID → is_Some (dm_bundleIdMap m !! j).

Lemma GenerateUidAndGid_frame (u : InnerBundleUserInfo) (m : BundleDataMgr K) :
  let '(m', u', ok) := GenerateUidAndGid u m in
  dm_bundleInfos m' = dm_bundleInfos m ∧ user_of u' = user_of u ∧ ibu_bundleName u' = ibu_bundleName u.
Proof.
  unfold GenerateUidAndGid. destruct (str_empty _); [done|]. pose proof (GenerateBundleId_infos (ibu_bundleName u) m) as H.
  by destruct (GenerateBundleId _ _) as [m' [i|]].
Qed.

Lemma GenerateUidAndGid_sandbox key (u : InnerBundleUserInfo) (m : BundleDataMgr K) :
  key ≠ "" → ids_wf (dm_bundleIdMap m) →
  let '(m', u', _) := GenerateUidAndGid (u <| ibu_bundleName := key |> <| ibu_gids := [] |>) m in
  sandbox_uid key u m m' (ibu_uid u').
Proof.
  intros Hk Hids. unfold GenerateUidAndGid. simpl. destruct (str_empty key) eqn:Ee; [by apply str_empty_spec in Ee|].
  pose proof (GenerateBundleId_cases key m Hids) as Hc. destruct (GenerateBundleId key m) as [m' [id|]]; simpl in *.
  - left. exists id. split; [done|]. destruct Hc as [[Hi ->]|(Hf & Hno & ->)]; [by auto|]. split_and!; [| |by right].
    + rewrite sm_lookup_emplace. destruct Hf as (_ & -> & _). by rewrite decide_True.
    + intros j Hj. rewrite sm_lookup_emplace, decide_False by done. by destruct (_ !! j).
  - right. split; [done|]. by destruct Hc as (-> & ? & ?).
Qed.
End Installing.

Section Installed.
Context {K P T E : Type} `{HK : KvStore K} `{HT : AccessTokenKit T} `{HE : Environment E} `{HS : StdSort}.
#[local] Abbreviation service := (Service K P T E).

(** The original [o] of the sandboxes of [b]. *)
Definition original (b : string) (o : InnerBundleInfo) (s : service) : Prop :=
  dm_bundleInfos (sv_mgr s) !! b = Some o ∧ GetBundleName o = b ∧ ib_appIndex o = INITIAL_APP_INDEX
  ∧ users_wf o ∧ indexes_wf (sv_sandbox s) ∧ ids_wf (dm_bundleIdMap (sv_mgr s)).

(** The sandbox [n] of [b] for a user, as it is entered next to [o]. *)
Definition sandbox_entered (b : string) (o : InnerBundleInfo) (n userId : Z) (info : InnerBundleInfo) (s s' : service) : Prop :=
  let key := sandbox_key b n in
  sd_sandboxAppInfos (sv_sandbox s') = <[key := info]> (sd_sandboxAppInfos (sv_sandbox s))
  ∧ GetBundleName info = b ∧ ib_appIndex info = n ∧ ib_isSandboxApp info = true
  ∧ app_dataBaseDir (ib_baseApplicationInfo info) = BUNDLE_APP_DATA_BASE_DIR +:+ "el2" +:+ DATABASE +:+ key
  ∧ users_wf info
  ∧ ∃ u v, user_view o userId = Some u ∧ (∀ w, user_view info w = if decide (w = userId) then Some v else None)
           ∧ sandbox_uid key u (sv_mgr s) (sv_mgr s') (ibu_uid v).

Lemma GetInnerBundleUserInfo_view userId o u :
  users_wf o → DEFAULT_USERID <= userId → GetInnerBundleUserInfo userId o new_InnerBundleUserInfo = (true, u) →
  user_view o userId = Some u ∧ user_of u = userId.
Proof.
  intros [Hwf Hk] Hle. unfold GetInnerBundleUserInfo. rewrite !(proj2 (Z.eqb_neq _ _)) by (unfold DEFAULT_USERID, NOT_EXIST_USERID, ALL_USERID in *; lia).
  unfold user_view. destruct (_ !! _) as [w|] eqn:Ew; [|done]. intros [= <-]. split; [done|].
  apply Hk in Ew. by apply user_key_inj in Ew.
Qed.

Definition enabled_again (b : string) (o : InnerBundleInfo) (s s' : service) : Prop :=
  (∃ sandboxes, dm_bundleInfos (sv_mgr s') !! b
                = Some (SetBundleStatus BundleStatus_ENABLED o <| ib_sandboxPersistentInfo := sandboxes |>))
  ∧ ∀ c, c ≠ b → dm_bundleInfos (sv_mgr s') !! c = dm_bundleInfos (sv_mgr s) !! c.

Lemma wp_rolled_back b n d info userId (Q : result () → service → Prop) (s : service) :
  ¬ index_used b n d → b ≠ "" → index_added b n d (sv_sandbox s) → GetBundleName info = b → ib_appIndex info = n →
  (∀ r s', same_sandboxes d (sv_sandbox s') → dm_bundleInfos (sv_mgr s') = dm_bundleInfos (sv_mgr s) → Q r s') →
  wp (SandboxAppRollBack info userId) Q s.
Proof.
  intros Hf Hb Ha Hn Hi HQ. apply wp_SandboxAppRollBack. intros r s' Hs Hm. apply HQ; [|done].
  rewrite Hs, Hn, Hi. by apply added_removed.
Qed.

Lemma on_user_rest f v i : ∃ l, on_user v f i = i <| ib_innerBundleUserInfos := l |>.
Proof. unfold on_user. destruct (_ !! _); [by eexists|]. exists (ib_innerBundleUserInfos i). by destruct i. Qed.

Lemma add_to_none_wf u i : ib_innerBundleUserInfos i = ∅ → users_wf (InnerBundleInfo.AddInnerBundleUserInfo u i).
Proof.
  intros Hi. unfold users_wf, InnerBundleInfo.AddInnerBundleUserInfo. simpl. rewrite Hi. split; [apply sm_wf_insert, sm_wf_empty|].
  intros k w. rewrite sm_lookup_insert. case_decide; [by intros [= <-]|done].
Qed.

(** The information with the one user of a sandbox. *)
Lemma only_user (token time userId : Z) u i :
  ib_innerBundleUserInfos i = ∅ → user_of u = userId →
  ∃ v l, SetAccessTokenId token userId (SetBundleUpdateTime 0 userId (SetBundleInstallTime time userId
           (InnerBundleInfo.AddInnerBundleUserInfo u i))) = i <| ib_innerBundleUserInfos := l |>
         ∧ users_wf (i <| ib_innerBundleUserInfos := l |>) ∧ ibu_uid v = ibu_uid u
         ∧ ∀ w, user_view (i <| ib_innerBundleUserInfos := l |>) w = if decide (w = userId) then Some v else None.
Proof.
  intros Hi Hu. set (j := SetAccessTokenId _ _ _).
  assert (∃ l, j = i <| ib_innerBundleUserInfos := l |>) as [l Hl].
  { subst j. unfold SetAccessTokenId, SetBundleUpdateTime, SetBundleInstallTime.
    do 3 match goal with |- context [on_user ?v ?f ?i] => destruct (on_user_rest f v i) as [? ->] end. by eexists. }
  eexists _, l. split; [done|]. rewrite <- Hl. subst j. split; [by repeat apply on_user_wf; try done; apply add_to_none_wf|].
  split; [|intros w; unfold SetAccessTokenId, SetBundleUpdateTime, SetBundleInstallTime].
  2: { rewrite !on_user_view. unfold user_view, InnerBundleInfo.AddInnerBundleUserInfo, user_key, GetBundleName. simpl.
       rewrite Hi, Hu, sm_lookup_insert, user_key_decide. case_decide; [|done]. simpl. reflexivity. }
  done.
Qed.

Lemma stored_status b o p (m : BundleDataMgr K) :
  b ≠ "" → dm_bundleInfos m !! b = Some (SetBundleStatus BundleStatus_DISABLED o) →
  let m' := StoreSandboxPersistentInfo b p (EnableBundle b m).1 in
  (∃ l, dm_bundleInfos m' !! b = Some (SetBundleStatus BundleStatus_ENABLED o <| ib_sandboxPersistentInfo := l |>))
  ∧ (∀ c, c ≠ b → dm_bundleInfos m' !! c = dm_bundleInfos m !! c) ∧ dm_bundleIdMap m' = dm_bundleIdMap m.
Proof.
  intros Hb Ho. unfold EnableBundle. rewrite (set_status_found _ _ _ _ Hb Ho). simpl. unfold StoreSandboxPersistentInfo.
  destruct (str_empty b) eqn:Ee; [by apply str_empty_spec in Ee|]. simpl. rewrite sm_lookup_insert_eq. simpl.
  match goal with |- context [save ?i ?m] => destruct (save_same i m) as (Hid & Hinf & _) end. rewrite Hid, Hinf. simpl.
  split_and!; [|intros c Hc; by rewrite !sm_lookup_insert_ne by done|done].
  eexists. rewrite sm_lookup_insert_eq. reflexivity.
Qed.

Lemma SaveSandboxAppInfo_indexes info n d : sd_sandboxAppIndexMap (SaveSandboxAppInfo info n d) = sd_sandboxAppIndexMap d.
Proof. unfold SaveSandboxAppInfo. by destruct (str_empty _). Qed.
Lemma SaveSandboxAppInfo_infos b info n d :
  b ≠ "" → GetBundleName info = b →
  sd_sandboxAppInfos (SaveSandboxAppInfo info n d) = <[sandbox_key b n := info]> (sd_sandboxAppInfos d).
Proof. intros Hb Hn. unfold SaveSandboxAppInfo. rewrite Hn. by destruct b. Qed.

(** With an index, the sandbox is entered; otherwise everything is as
    before, except that the original stays disabled. *)
Definition install_post (b : string) (o : InnerBundleInfo) (userId : Z) (s : service) (r : result Z) (s' : service) : Prop :=
  let d := sv_sandbox s in
  match r with
  | Ok n =>
      INITIAL_APP_INDEX < n <= MAX_APP_INDEX ∧ ¬ index_used b n d
      ∧ (∀ j, INITIAL_APP_INDEX < j < n → index_used b j d)
      ∧ (∀ c j, index_used c j (sv_sandbox s') ↔ index_used c j d ∨ (c = b ∧ j = n))
      ∧ (∃ info, sandbox_entered b o n userId info s s') ∧ enabled_again b o s s'
  | _ =>
      same_sandboxes d (sv_sandbox s')
      ∧ dm_bundleInfos (sv_mgr s') = <[b := SetBundleStatus BundleStatus_DISABLED o]> (dm_bundleInfos (sv_mgr s))
  end.

Lemma wp_InstallSandboxApp b dlpType userId o (s : service) :
  original b o s → b ≠ "" → wp (InstallSandboxApp b dlpType userId) (install_post b o userId s) s.
Proof.
  intros (Ho & Hn & Hi & Hu & Hwf & Hids) Hb. unfold install_post. set (d := sv_sandbox s).
  unfold InstallSandboxApp. do 2 wp_step; [|destruct (str_empty b) eqn:Ee; [by apply str_empty_spec in Ee|done]].
  simpl. do 2 wp_step. unfold GetInnerBundleInfo. rewrite (set_status_found _ b o) by done. simpl.
  do 2 wp_step; simpl; [|done]. apply negb_true_iff, Z.ltb_ge in H0 as Huser. do 2 wp_step; simpl.
  do 2 wp_step; simpl; [|done].
  destruct (GetInnerBundleUserInfo userId _ _) as [found u] eqn:Eu. do 2 wp_step; simpl; [|done].
  do 4 wp_step. simpl.
  pose proof (GenerateSandboxAppIndex_correct b d Hb Hwf) as Hgen. fold d.
  destruct (GenerateSandboxAppIndex b d) as [d1 n] eqn:Eg. simpl. do 2 wp_step; simpl.
  2: { wp_step. apply wp_SandboxAppRollBack. intros r s' Hs Hm.
       assert (n = INITIAL_APP_INDEX ∧ d1 = d) as [-> ->].
       { destruct (Z.eqb_spec n INITIAL_APP_INDEX); [|done]. destruct Hgen as [Hgen|Hgen]; [lia|naive_solver]. }
       change (GetBundleName _) with (GetBundleName o) in Hs. simpl in Hs. rewrite Hn, Hi in Hs.
       destruct r; unfold next; simpl; rewrite Hs, Hm; (split; [by apply removed_initial|done]). }
  wp_step. simpl.
  destruct Hgen as [(Hr & Hfree & Hleast & Hadd & Hwf')|(-> & _)]; [|done].
  apply wp_bind, wp_on_tokens. intros t token. do 2 wp_step. simpl. apply wp_on_error, wp_bind, wp_GrantAllPermissions. intros t' granted.
  do 2 wp_step; simpl; [|by eapply (wp_rolled_back b n d); [..|intros r s' Hs Hm; destruct r; unfold next; rewrite Hm]].
  apply wp_bind, wp_on_mgr. simpl.
  pose proof (GenerateUidAndGid_frame (u <| ibu_bundleName := sandbox_key b n |> <| ibu_gids := [] |>)
    ((sv_mgr s) <| dm_bundleInfos ::= <[b := SetBundleStatus BundleStatus_DISABLED o]> |>)) as Hf.
  pose proof (GenerateUidAndGid_sandbox (sandbox_key b n) u 
    ((sv_mgr s) <| dm_bundleInfos ::= <[b := SetBundleStatus BundleStatus_DISABLED o]> |>) ltac:(by destruct b) Hids) as Huid.
  destruct (GenerateUidAndGid _ _) as [[m' u'] ok]. simpl in Hf. destruct Hf as (Hm' & Hu' & _). simpl.
  apply wp_bind, wp_ask_env. intros time. apply wp_bind, wp_on_error, wp_bind, wp_on_env. intros r e.
  destruct (GetInnerBundleUserInfo_view userId o u) as [Hou Huu]; [done..|by rewrite <- H2|].
  destruct (only_user token time userId (u' <| ibu_bundleName := b |>)
    (SetIsSandbox true (SetAppIndex n (CleanInnerBundleUserInfos (SetBundleStatus BundleStatus_DISABLED o)))))
    as (v & l & -> & Hvwf & Hvu & Hv); [done|by rewrite <- Huu|].
  match type of Hv with ∀ w, user_view ?i w = _ => set (info := i) in * end.
  destruct r.
  2,3: repeat wp_step; eapply (wp_rolled_back b n d); [done..|intros r s' Hs Hm; destruct r; apply next_fail || apply next_throws; rewrite Hm; by split].
  do 3 wp_step. apply wp_bind, wp_on_sandbox. wp_step. apply wp_bind, wp_on_mgr. wp_step. apply wp_bind, wp_on_mgr. wp_step.
  apply wp_bind, wp_tells. intros e'. wp_step. apply wp_ret. simpl.
  destruct (stored_status b o (mkSandboxAppPersistentInfo token n userId) m' Hb) as (H5 & H6 & H7);
    [by rewrite Hm', sm_lookup_insert_eq|].
  do 3 (split; [done|]). split; [|split; [|split; [by destruct H5 as [sandboxes ?]; exists sandboxes|]]].
  - intros c j. etrans; [|apply Hadd]. unfold index_used. simpl.
    by rewrite SaveSandboxAppInfo_indexes.
  - exists (SetAppDataBaseDir (BUNDLE_APP_DATA_BASE_DIR +:+ "el2" +:+ DATABASE +:+ sandbox_key (GetBundleName info) n) info).
    change (GetBundleName info) with (GetBundleName o). rewrite Hn. unfold sandbox_entered. split_and!; [|done..|].
    + simpl. rewrite (SaveSandboxAppInfo_infos b) by done. by rewrite (proj1 Hadd).
    + exists u, v. split; [done|]. split; [done|]. rewrite Hvu. unfold sandbox_uid in *. simpl in *.
      by rewrite H7.
  - intros c Hc. rewrite H6, Hm' by done. by rewrite sm_lookup_insert_ne.
Qed.
End Installed.

Section Uninstalled.
Context {K P T E : Type} `{HK : KvStore K} `{HT : AccessTokenKit T} `{HE : Environment E} `{HS : StdSort}.
#[local] Abbreviation service := (Service K P T E).

(** The index is freed in any case; with the data, the sandbox and the id its
    user ran as are removed. *)
Definition uninstall_post (b : string) (n : Z) (u : InnerBundleUserInfo) (s : service) (r : result ()) (s' : service) : Prop :=
  let d := sv_sandbox s in
  (∀ c j, index_used c j (sv_sandbox s') ↔ index_used c j d ∧ (c = b → j ≠ n))
  ∧ match r with
    | Ok _ => sd_sandboxAppInfos (sv_sandbox s') = delete (sandbox_key b n) (sd_sandboxAppInfos d)
              ∧ ∀ j, dm_bundleIdMap (sv_mgr s') !! j = if decide (j = id_of u) then None else dm_bundleIdMap (sv_mgr s) !! j
    | _ => sd_sandboxAppInfos (sv_sandbox s') = sd_sandboxAppInfos d
           ∧ dm_bundleIdMap (sv_mgr s') = dm_bundleIdMap (sv_mgr s)
    end.

(** The information of a sandbox, with its one user. *)
Definition sandbox_of (b : string) (n userId : Z) (info : InnerBundleInfo) (u : InnerBundleUserInfo) (s : service) : Prop :=
  sd_sandboxAppInfos (sv_sandbox s) !! sandbox_key b n = Some info ∧ INITIAL_APP_INDEX < n
  ∧ users_wf info ∧ ∀ w, user_view info w = if decide (w = userId) then Some u else None.

Lemma sandbox_of_user b n userId info u (s : service) :
  DEFAULT_USERID <= userId → sandbox_of b n userId info u s →
  GetInnerBundleUserInfo userId info new_InnerBundleUserInfo = (true, u) ∧ user_of u = userId
  ∧ (b ≠ "" → GetSandboxAppInfo b n userId (sv_sandbox s) = inr info).
Proof.
  intros Hle (Hi & Hn & [Hwf Hk] & Hv).
  assert (GetInnerBundleUserInfo userId info new_InnerBundleUserInfo = (true, u)) as Hg.
  { unfold GetInnerBundleUserInfo. rewrite !(proj2 (Z.eqb_neq _ _)) by (unfold DEFAULT_USERID, NOT_EXIST_USERID, ALL_USERID in *; lia).
    specialize (Hv userId). rewrite decide_True in Hv by done. unfold user_view in Hv. by rewrite Hv. }
  split; [done|]. split.
  - specialize (Hv userId). rewrite decide_True in Hv by done. apply Hk in Hv. by apply user_key_inj in Hv.
  - intros Hb. unfold GetSandboxAppInfo. destruct (str_empty b) eqn:Ee; [by apply str_empty_spec in Ee|].
    rewrite (proj2 (Z.leb_gt _ _)), (proj2 (Z.ltb_ge _ _)) by done. by rewrite Hi, Hg.
Qed.

Lemma DeleteSandboxPersistentInfo_ids b p (m : BundleDataMgr K) :
  dm_bundleIdMap (DeleteSandboxPersistentInfo b p m) = dm_bundleIdMap m.
Proof.
  unfold DeleteSandboxPersistentInfo. repeat case_match; try done.
  match goal with |- context [save ?i ?m] => by rewrite (proj1 (save_same i m)) end.
Qed.

Lemma recycle_frees b n userId info u x (s : service) (m : BundleDataMgr K) j :
  sandbox_of b n userId info u s → user_of u = userId →
  dm_bundleIdMap (RecycleUidAndGid (InnerBundleInfo.AddInnerBundleUserInfo (u <| ibu_bundleName := x |>) info) m) !! j
  = if decide (j = id_of u) then None else dm_bundleIdMap m !! j.
Proof.
  intros (_ & _ & [Hwf Hk] & Hv) Hu. set (i := InnerBundleInfo.AddInnerBundleUserInfo _ _).
  assert (∀ k w, ib_innerBundleUserInfos i !! k = Some w → w = u <| ibu_bundleName := x |>) as Hone.
  { intros k w. subst i. unfold InnerBundleInfo.AddInnerBundleUserInfo. simpl. rewrite sm_lookup_insert.
    case_decide as Hc; [congruence|]. intros Hw. apply Hk in Hw as Hkw. subst k. specialize (Hv (user_of w)).
    unfold user_view in Hv. rewrite Hw in Hv. case_decide as Hd; [|done]. destruct Hc. change (user_of (u <| ibu_bundleName := x |>)) with (user_of u).
    by rewrite Hu, Hd. }
  unfold RecycleUidAndGid. destruct (sm_begin (ib_innerBundleUserInfos i)) as [[k w]|] eqn:Eb.
  - apply begin_lookup, Hone in Eb. subst w. change (id_of (u <| ibu_bundleName := x |>)) with (id_of u).
    destruct (dm_bundleIdMap m !! id_of u) eqn:Ei; simpl; [|by case_decide; subst].
    rewrite sm_lookup_delete. repeat case_decide; congruence.
  - unfold sm_begin in Eb. assert (ib_innerBundleUserInfos i !! user_key userId info = Some (u <| ibu_bundleName := x |>)) as Hl.
    { subst i. unfold InnerBundleInfo.AddInnerBundleUserInfo. simpl. change (user_of (u <| ibu_bundleName := x |>)) with (user_of u).
      by rewrite Hu, sm_lookup_insert_eq. }
    apply sm_lookup_elem in Hl. destruct (elems _); [by apply elem_of_nil in Hl|done].
Qed.

Lemma wp_UninstallSandboxApp b n userId info u (s : service) :
  sandbox_of b n userId info u s → index_used b n (sv_sandbox s) → b ≠ "" →
  DEFAULT_USERID <= userId → HasUserId userId (sv_mgr s) = true →
  wp (UninstallSandboxApp b n userId)
    (λ r s', uninstall_post b n u s r s' ∧ r = (RemoveBundleDataDir (sandbox_key b n) userId (sv_env s)).1) s.
Proof.
  intros Hs Hused Hb Hle Hhas. destruct (sandbox_of_user b n userId info u s Hle Hs) as (Hg & Hu & Hget). specialize (Hget Hb).
  destruct (DeleteSandboxAppIndex_correct b n (sv_sandbox s) Hb) as [[Hinf Hrem] Hdel].
  apply (proj2 Hdel) in Hused as Hd. unfold UninstallSandboxApp, recycle_sandbox, DeleteSandboxPersitentInfo, NotifySandboxAppStatus.
  do 2 wp_step; [|apply negb_false_iff, Z.ltb_lt in H; lia]. do 6 wp_step; [|congruence].
  do 4 wp_step. simpl. rewrite Hget, Hg. do 2 wp_step; [|done]. do 4 wp_step.
  apply wp_bind, wp_on_sandbox. simpl. rewrite Hd. do 3 wp_step; [|done].
  wp_step. apply wp_on_env_eq. intros r e Hr. simpl in Hr. rewrite Hr. destruct r as [[]|code|].
  2,3: wp_step; split; [split; [exact Hrem|]; simpl; by rewrite Hinf|done].
  repeat wp_step. split; [|done]. unfold uninstall_post. simpl. unfold DeleteSandboxAppInfo.
  destruct (str_empty b) eqn:Ee; [by apply str_empty_spec in Ee|]. simpl. rewrite Hinf, DeleteSandboxPersistentInfo_ids.
  split; [exact Hrem|]. split; [done|]. intros j. eapply recycle_frees; eauto.
Qed.

Lemma installed_sandbox b dlpType userId o n (s s1 : service) :
  original b o s → b ≠ "" → InstallSandboxApp b dlpType userId s = (Ok n, s1) →
  (∀ c j, index_used c j (sv_sandbox s1) ↔ index_used c j (sv_sandbox s) ∨ c = b ∧ j = n)
  ∧ ¬ index_used b n (sv_sandbox s)
  ∧ ∃ info u v, sandbox_of b n userId info v s1
      ∧ sd_sandboxAppInfos (sv_sandbox s1) = <[sandbox_key b n := info]> (sd_sandboxAppInfos (sv_sandbox s))
      ∧ sandbox_uid (sandbox_key b n) u (sv_mgr s) (sv_mgr s1) (ibu_uid v) ∧ user_view o userId = Some u.
Proof.
  intros Ho Hb Hi. pose proof (wp_InstallSandboxApp b dlpType userId o s Ho Hb) as Hpost. unfold wp in Hpost.
  rewrite Hi in Hpost. destruct Hpost as (Hr & Hfree & _ & Hused & (info & Hinfo & Hname & _ & _ & _ & Hwf & u & v & Hu & Hv & Huid) & _).
  simpl in *. split; [done|]. split; [done|]. exists info, u, v. split; [|done].
  by split_and!; [rewrite Hinfo, sm_lookup_insert_eq|lia| |].
Qed.

(** C31: Installing a sandbox: with an index - the smallest one that is free - the
    information of the sandbox is entered with its one user and the original
    is enabled; without one the sandboxes and their indexes are as before, but
    the original stays disabled. *)
Theorem InstallSandboxApp_correct b dlpType userId o (s : service) :
  original b o s → b ≠ "" →
  let '(r, s') := InstallSandboxApp b dlpType userId s in install_post b o userId s r s'.
Proof.
  intros Ho Hb. pose proof (wp_InstallSandboxApp b dlpType userId o s Ho Hb) as H. unfold wp in H.
  by destruct (InstallSandboxApp b dlpType userId s).
Qed.

(** The ids after the sandbox is gone, when it had an id of its own. *)
Lemma sandbox_ids key u v userId (m m1 m2 : BundleDataMgr K) :
  ids_wf (dm_bundleIdMap m) → sandbox_uid key u m m1 (ibu_uid v) → user_of u = userId → user_of v = userId →
  0 <= userId <= MAX_SAFE_USERID →
  (∀ j, dm_bundleIdMap m !! j ≠ Some key) → (∃ j, BASE_APP_UID <= j <= MAX_APP_UID ∧ dm_bundleIdMap m !! j = None) →
  (∀ j, dm_bundleIdMap m2 !! j = if decide (j = id_of v) then None else dm_bundleIdMap m1 !! j) →
  ∀ j, dm_bundleIdMap m2 !! j = dm_bundleIdMap m !! j.
Proof.
  intros Hids [(id & Huid & _ & Hrest & Hid)|(_ & _ & _ & Hfull)] Hu Hv Hr Hno (k & Hk & Hkn) Hm2 j.
  2: { destruct (Hfull k Hk) as [? ?]. congruence. }
  destruct Hid as [Hid|[Hfree _]]; [by destruct (Hno id)|]. destruct Hfree as (Hrange & Hnone & _).
  destruct (id_of_uid v id) as (_ & _ & Hof); [by rewrite Hv|done|rewrite Huid, Hu, Hv, bundle_uid_exact; done|].
  rewrite Hm2, Hof. case_decide as Hj; [by subst|]. by apply Hrest.
Qed.

(** C32: Installing a sandbox and uninstalling it again: the outcome is the one of
    removing its data, and the index is free again in any case.  When it
    succeeds, the sandboxes are as before, an older entry of the same key
    aside; the id the user of the sandbox ran as is held by nobody, and every
    other id as before the uninstallation.  For users up to 10737, when no
    bundle had the sandbox's name and an id was left, the ids are thus those
    before the installation.  When it fails, the information stays and so do
    the ids. *)
Theorem sandbox_round_trip b dlpType userId o n (s s1 : service) :
  original b o s → b ≠ "" → DEFAULT_USERID <= userId →
  InstallSandboxApp b dlpType userId s = (Ok n, s1) → HasUserId userId (sv_mgr s1) = true →
  let '(r, s2) := UninstallSandboxApp b n userId s1 in
  r = (RemoveBundleDataDir (sandbox_key b n) userId (sv_env s1)).1
  ∧ (∀ c j, index_used c j (sv_sandbox s2) ↔ index_used c j (sv_sandbox s))
  ∧ match r with
    | Ok _ =>
        (∀ key, sd_sandboxAppInfos (sv_sandbox s2) !! key
                = if decide (key = sandbox_key b n) then None else sd_sandboxAppInfos (sv_sandbox s) !! key)
        ∧ (∃ info v, sd_sandboxAppInfos (sv_sandbox s1) !! sandbox_key b n = Some info ∧ user_view info userId = Some v
           ∧ ∀ j, dm_bundleIdMap (sv_mgr s2) !! j = if decide (j = id_of v) then None else dm_bundleIdMap (sv_mgr s1) !! j)
        ∧ (userId <= MAX_SAFE_USERID → (∀ j, dm_bundleIdMap (sv_mgr s) !! j ≠ Some (sandbox_key b n)) →
           (∃ j, BASE_APP_UID <= j <= MAX_APP_UID ∧ dm_bundleIdMap (sv_mgr s) !! j = None) →
           ∀ j, dm_bundleIdMap (sv_mgr s2) !! j = dm_bundleIdMap (sv_mgr s) !! j)
    | _ => is_Some (sd_sandboxAppInfos (sv_sandbox s2) !! sandbox_key b n)
           ∧ dm_bundleIdMap (sv_mgr s2) = dm_bundleIdMap (sv_mgr s1)
    end.
Proof.
  intros Ho Hb Hle Hi Hhas. destruct (installed_sandbox b dlpType userId o n s s1 Ho Hb Hi) as (Hused & Hfree & info & u & v & Hs1 & Hinfo & Huid & Hu).
  destruct (sandbox_of_user b n userId info v s1) as (_ & Huv & _); [done..|].
  pose proof (wp_UninstallSandboxApp b n userId info v s1 Hs1 ltac:(apply Hused; by right) Hb Hle Hhas) as Hpost.
  unfold wp in Hpost. destruct (UninstallSandboxApp b n userId s1) as [r s2]. simpl in Hpost. destruct Hpost as [[Huse Hres] ->].
  split; [done|]. simpl in *. split.
  - intros c j. rewrite Huse, Hused. split; [naive_solver|]. intros Hj. split; [by left|]. by intros -> ->.
  - destruct (RemoveBundleDataDir _ _ _).1; destruct Hres as [Hdel Hres];
      [|by rewrite Hdel, Hinfo, sm_lookup_insert_eq..]. split_and!.
    + intros key. rewrite Hdel, Hinfo. destruct (decide (key = sandbox_key b n)) as [->|Hne]; [apply sm_lookup_delete_eq|].
      by rewrite sm_lookup_delete_ne, sm_lookup_insert_ne by done.
    + exists info, v. split; [apply Hs1|]. split; [|done]. rewrite (proj2 (proj2 (proj2 Hs1))). by rewrite decide_True.
    + intros Hmax Hno Hleft. destruct Ho as (_ & _ & _ & [_ Hk] & _ & Hids).
      assert (user_of u = userId) as Huu by (apply Hk in Hu; by apply user_key_inj in Hu).
      apply (sandbox_ids (sandbox_key b n) u v userId _ (sv_mgr s1)); try done.
Qed.

(** The sandbox [n] of "a" shares the id - and so the uid - of an application
    that is called "a_n"; uninstalling the sandbox gives the id of that
    application back, although the application is still there. *)
Lemma sandbox_frees_foreign_id b dlpType userId o n id (s s1 s2 : service) :
  original b o s → b ≠ "" → 0 <= userId <= MAX_SAFE_USERID → HasUserId userId (sv_mgr s1) = true →
  dm_bundleIdMap (sv_mgr s) !! id = Some (sandbox_key b n) →
  InstallSandboxApp b dlpType userId s = (Ok n, s1) → UninstallSandboxApp b n userId s1 = (Ok (), s2) →
  (∃ info u, sd_sandboxAppInfos (sv_sandbox s1) !! sandbox_key b n = Some info ∧ user_view info userId = Some u
             ∧ ibu_uid u = bundle_uid userId id)
  ∧ dm_bundleIdMap (sv_mgr s2) !! id = None.
Proof.
  intros Ho Hb Hle Hhas Hid Hi Hun.
  destruct (installed_sandbox b dlpType userId o n s s1 Ho Hb Hi) as (Hused & _ & info & u & v & Hs1 & _ & Huid & Hu).
  destruct (sandbox_of_user b n userId info v s1) as (_ & Huv & _); [unfold DEFAULT_USERID; lia|done|].
  pose proof Ho as (_ & _ & _ & Huwf & _ & Hids).
  assert (user_of u = userId) as Huu by (destruct Huwf as [_ Hk]; apply Hk in Hu; by apply user_key_inj in Hu).
  assert (ibu_uid v = bundle_uid userId id) as Hv.
  { destruct Huid as [(j & -> & _ & _ & [Hj|[_ Hno]])|(_ & _ & Hno & _)]; [|by destruct (Hno id)..]. rewrite Huu. f_equal.
    by eapply Hids. }
  split; [exists info, v; split; [apply Hs1|]; split; [|done]; rewrite (proj2 (proj2 (proj2 Hs1))); by rewrite decide_True|].
  pose proof (wp_UninstallSandboxApp b n userId info v s1 Hs1 ltac:(apply Hused; by right) Hb ltac:(unfold DEFAULT_USERID; lia) Hhas) as Hpost.
  unfold wp in Hpost. rewrite Hun in Hpost. destruct Hpost as [[_ [_ Hfreed]] _]. simpl in Hfreed.
  specialize (Hfreed id). rewrite decide_True in Hfreed; [done|]. unfold id_of. rewrite Huv, Hv.
  destruct (uid_owner userId userId id id _ _ _ Hids Hid Hid Hle Hle) as (_ & _ & Hof & _). unfold id_of in Hof. simpl in Hof.
  unfold user_of in Hof. simpl in Hof. by rewrite Hof.
Qed.

Lemma for_each_throws {S A} (m : A → On S ()) l x (s : S) :
  x ∈ l → (∀ s, (m x s).1 = Throws) → (∀ y s code, (m y s).1 ≠ Fail code) → (for_each m l s).1 = Throws.
Proof.
  intros Hx Ht Hf. revert s. induction l as [|y l IH]; intros s; [by apply elem_of_nil in Hx|].
  simpl. unfold mbind, On_bind. specialize (Hf y s). destruct (m y s) as [[|code|] s'] eqn:Em; [|by destruct (Hf code)|done].
  apply elem_of_cons in Hx as [<-|Hx]; [|by apply IH]. specialize (Ht s). by rewrite Em in Ht.
Qed.

Lemma str_contains_refl s : str_contains s s = true.
Proof.
  assert (String.prefix s s = true) as H by (apply prefix_app; exists ""; by rewrite string_app_nil_r).
  destruct s; simpl in *; by rewrite ?H.
Qed.

Lemma ignore_not_fail {S A} (m : On S A) s code : (ignore m s).1 ≠ Fail code.
Proof. unfold ignore, attempt, mbind, On_bind. by destruct (m s) as [[] s']. Qed.

Lemma uninstall_matching_not_fail b userId entry (s : service) code : (uninstall_matching b userId entry s).1 ≠ Fail code.
Proof.
  unfold uninstall_matching. destruct (negb _); [done|]. destruct (_ <? _)%nat; [done|]. destruct (StrToInt _); [|done].
  destruct (sm_begin _) as [[k u]|]; [|done]. destruct (_ || _); [apply ignore_not_fail|done].
Qed.

(** Uninstalling every sandbox of a bundle whose name is the key of a sandbox
    of another one ends with an exception. *)
Lemma UninstallAllSandboxApps_throws bundleName userId info (s : service) :
  bundleName ≠ "" → sd_sandboxAppInfos (sv_sandbox s) !! bundleName = Some info →
  (UninstallAllSandboxApps bundleName userId s).1 = Throws.
Proof.
  intros Hb Hi. unfold UninstallAllSandboxApps. destruct (str_empty bundleName) eqn:Ee; [by apply str_empty_spec in Ee|].
  apply (for_each_throws _ _ (bundleName, info)); [|intros s'|intros; apply uninstall_matching_not_fail].
  - rewrite iteration_order_permutation. by apply sm_lookup_elem.
  - unfold uninstall_matching. simpl. rewrite str_contains_refl. simpl. rewrite (proj2 (Nat.ltb_lt _ _)) by lia. done.
Qed.
End Uninstalled.

(** ** Examples *)

(** "com.demo" is installed, and so is an application called "com.demo_1". *)
Definition demo_shared_name : demo_service := demo_with [demo_installed] [(10000, "com.demo"); (10001, "com.demo_1")].

Lemma demo_original : original "com.demo" demo_installed demo_shared_name.
Proof.
  split_and!; [vm_compute; reflexivity..|by apply add_to_none_wf|by intros b l|].
  assert (∀ i n, dm_bundleIdMap (sv_mgr demo_shared_name) !! i = Some n → (i, n) = (10000, "com.demo") ∨ (i, n) = (10001, "com.demo_1")) as Hd.
  { intros i n Hi%sm_lookup_elem. apply elem_of_cons in Hi as [->|Hi]; [by left|].
    apply list_elem_of_singleton in Hi as ->. by right. }
  split_and!.
  - repeat constructor.
  - intros i n Hi. destruct (Hd _ _ Hi) as [[= -> ->]|[= -> ->]]; unfold BASE_APP_UID, MAX_APP_UID; lia.
  - intros i j n Hi Hj. destruct (Hd _ _ Hi) as [[= -> ->]|[= -> ->]], (Hd _ _ Hj) as [[= ?]|[= ?]]; done.
Qed.

Definition demo_sandboxed : demo_service := (InstallSandboxApp "com.demo" 1 0 demo_shared_name).2.

Lemma demo_install_ok : (InstallSandboxApp "com.demo" 1 0 demo_shared_name).1 = Ok 1.
Proof. vm_compute. reflexivity. Qed.

Lemma demo_install : InstallSandboxApp "com.demo" 1 0 demo_shared_name = (Ok 1, demo_sandboxed).
Proof. unfold demo_sandboxed. rewrite <- demo_install_ok at 1. apply surjective_pairing. Qed.

Lemma InstallSandboxApp_correct_witness :
  (InstallSandboxApp "com.demo" 1 0 demo_shared_name).1 = Ok 1
  ∧ ¬ index_used "com.demo" 1 (sv_sandbox demo_shared_name)
  ∧ ∃ info, sandbox_entered "com.demo" demo_installed 1 0 info demo_shared_name demo_sandboxed.
Proof.
  pose proof (InstallSandboxApp_correct "com.demo" 1 0 demo_installed demo_shared_name demo_original ltac:(done)) as H.
  rewrite demo_install in H. rewrite demo_install. destruct H as (_ & Hf & _ & _ & He & _).
  split; [reflexivity|]. split; [exact Hf|exact He].
Defined.

Lemma demo_uninstall_ok : (UninstallSandboxApp "com.demo" 1 0 demo_sandboxed).1 = Ok ().
Proof. vm_compute. reflexivity. Qed.

Definition demo_unsandboxed : demo_service := (UninstallSandboxApp "com.demo" 1 0 demo_sandboxed).2.

Lemma demo_uninstall : UninstallSandboxApp "com.demo" 1 0 demo_sandboxed = (Ok (), demo_unsandboxed).
Proof. unfold demo_unsandboxed. rewrite <- demo_uninstall_ok at 1. apply surjective_pairing. Qed.

Lemma demo_has_user : HasUserId 0 (sv_mgr demo_sandboxed) = true.
Proof. vm_compute. reflexivity. Qed.

(** "com.demo" alone. *)
Definition demo_alone : demo_service := demo_with [demo_installed] [(10000, "com.demo")].

Lemma demo_alone_ids j n : dm_bundleIdMap (sv_mgr demo_alone) !! j = Some n → (j, n) = (10000, "com.demo").
Proof. intros Hi%sm_lookup_elem. by apply list_elem_of_singleton in Hi. Qed.

Lemma demo_alone_original : original "com.demo" demo_installed demo_alone.
Proof.
  split_and!; [vm_compute; reflexivity..|by apply add_to_none_wf|by intros b l|]. split_and!.
  - repeat constructor.
  - intros i n [= -> ->]%demo_alone_ids. unfold BASE_APP_UID, MAX_APP_UID. lia.
  - intros i j n [= -> _]%demo_alone_ids [= -> _]%demo_alone_ids. reflexivity.
Qed.

Definition demo_alone_sandboxed : demo_service := (InstallSandboxApp "com.demo" 1 0 demo_alone).2.
Definition demo_alone_again : demo_service := (UninstallSandboxApp "com.demo" 1 0 demo_alone_sandboxed).2.

Lemma demo_alone_install_ok : (InstallSandboxApp "com.demo" 1 0 demo_alone).1 = Ok 1.
Proof. vm_compute. reflexivity. Qed.
Lemma demo_alone_install : InstallSandboxApp "com.demo" 1 0 demo_alone = (Ok 1, demo_alone_sandboxed).
Proof. unfold demo_alone_sandboxed. rewrite <- demo_alone_install_ok at 1. apply surjective_pairing. Qed.
Lemma demo_alone_uninstall_ok : (UninstallSandboxApp "com.demo" 1 0 demo_alone_sandboxed).1 = Ok ().
Proof. vm_compute. reflexivity. Qed.
Lemma demo_alone_uninstall : UninstallSandboxApp "com.demo" 1 0 demo_alone_sandboxed = (Ok (), demo_alone_again).
Proof. unfold demo_alone_again. rewrite <- demo_alone_uninstall_ok at 1. apply surjective_pairing. Qed.

Lemma demo_alone_user : HasUserId 0 (sv_mgr demo_alone_sandboxed) = true.
Proof. vm_compute. reflexivity. Qed.

(** The sandbox gets the id 10001, and gives it back. *)
Lemma sandbox_round_trip_witness :
  (UninstallSandboxApp "com.demo" 1 0 demo_alone_sandboxed).1 = Ok ()
  ∧ (∀ c j, index_used c j (sv_sandbox demo_alone_again) ↔ index_used c j (sv_sandbox demo_alone))
  ∧ dm_bundleIdMap (sv_mgr demo_alone_sandboxed) !! 10001 = Some "com.demo_1"
  ∧ ∀ j, dm_bundleIdMap (sv_mgr demo_alone_again) !! j = dm_bundleIdMap (sv_mgr demo_alone) !! j.
Proof.
  pose proof (sandbox_round_trip "com.demo" 1 0 demo_installed 1 demo_alone demo_alone_sandboxed demo_alone_original ltac:(done)
    ltac:(unfold DEFAULT_USERID; lia) demo_alone_install demo_alone_user) as H.
  rewrite demo_alone_uninstall in H. rewrite demo_alone_uninstall. destruct H as (_ & Hused & _ & _ & Hids).
  split; [reflexivity|]. split; [exact Hused|]. split; [vm_compute; reflexivity|]. apply Hids.
  - unfold MAX_SAFE_USERID. lia.
  - intros j Hj%demo_alone_ids. discriminate Hj.
  - exists 10001. split; [unfold BASE_APP_UID, MAX_APP_UID; lia|vm_compute; reflexivity].
Defined.

Lemma sandbox_frees_foreign_id_witness : dm_bundleIdMap (sv_mgr demo_unsandboxed) !! 10001 = None.
Proof.
  refine (proj2 (sandbox_frees_foreign_id "com.demo" 1 0 demo_installed 1 10001 demo_shared_name demo_sandboxed _
    demo_original _ _ demo_has_user _ demo_install demo_uninstall)).
  - done.
  - unfold MAX_SAFE_USERID. lia.
  - vm_compute. reflexivity.
Defined.

Lemma demo_entry : ∃ i, sd_sandboxAppInfos (sv_sandbox demo_sandboxed) !! "com.demo_1" = Some i.
Proof. eexists. vm_compute. reflexivity. Qed.

Lemma UninstallAllSandboxApps_throws_witness : (UninstallAllSandboxApps "com.demo_1" INVALID_USERID demo_sandboxed).1 = Throws.
Proof.
  destruct demo_entry as [i Ei]. refine (UninstallAllSandboxApps_throws "com.demo_1" INVALID_USERID i demo_sandboxed _ Ei). discriminate.
Defined.
