(* ===== verification/Clones.v ===== *)
(** * Clones: second copies of a bundle

    Models services/bundlemgr/src/bundle_clone_mgr.cpp on the state of
    Service.v.  The manager of the clones is one object: its members keep what
    the last clone left in them.  The names of the cloned bundles are in the
    file CloneAppName.json, which only this code writes. *)

From stdpp Require Import strings list.
From S2P Require Import Prelude Strings StdMap BundleTypes Errors InnerBundleInfo InnerBundleQuery InstallInfo Parcel Flow BundlePermissionMgr BundleDataMgr Service.

Open Scope string_scope.
Open Scope list_scope.
Open Scope Z_scope.

Definition SetApplicationInfoUid (i : InnerBundleInfo) : InnerBundleInfo :=
  i <| ib_baseApplicationInfo ::= λ a, a <| app_uid := ib_uid i |> |>.
Definition SetIsCloned (isClone : bool) (i : InnerBundleInfo) : InnerBundleInfo :=
  i <| ib_baseApplicationInfo ::= λ a, a <| app_isCloned := isClone |> |>.
Definition SetNewBundleName (bundlename : string) (i : InnerBundleInfo) : InnerBundleInfo :=
  i <| ib_newBundleName := bundlename +:+ "#" +:+ pretty (ib_uid i) |>.
Definition SetBaseDataDir (baseDataDir : string) (i : InnerBundleInfo) : InnerBundleInfo := i <| ib_baseDataDir := baseDataDir |>.
Definition SetAppDataDir (dataDir : string) (i : InnerBundleInfo) : InnerBundleInfo :=
  i <| ib_baseApplicationInfo ::= λ a, a <| app_dataDir := dataDir |> |>.
Definition SetAppCacheDir (cacheDir : string) (i : InnerBundleInfo) : InnerBundleInfo :=
  i <| ib_baseApplicationInfo ::= λ a, a <| app_cacheDir := cacheDir |> |>.

Section Clones.
Context {K P T E : Type} `{HK : KvStore K} `{HT : AccessTokenKit T} `{HE : Environment E}.
#[local] Abbreviation service := (Service K P T E).
#[local] Abbreviation SM := (On service).

Definition on_clone {A} (f : BundleCloneMgr → BundleCloneMgr * A) : SM A := within sv_clone set_clone (run f).

(** ** The file of the names *)

Definition CheckBundleNameInAllowList (bundleName : string) (e : E) : bool :=
  match BundleNameAllowList e with None => false | Some names => bool_decide (bundleName ∈ names) end.

Definition SetCloneAppName (bundleName : string) (c : BundleCloneMgr) : BundleCloneMgr * bool :=
  match cl_names c with
  | None => (c, false)
  | Some names =>
      match names !! bundleName with
      | Some _ => (c, false)
      | None => (c <| cl_names := Some (<[bundleName := ()]> names) |>, true)
      end
  end.

Definition DeleteCloneAppName (bundleName : string) (c : BundleCloneMgr) : BundleCloneMgr * bool :=
  match cl_names c with
  | None => (c, false)
  | Some names => (c <| cl_names := Some (delete bundleName names) |>, true)
  end.

(** ** Making a clone *)

Definition CreateCloneBundleInfo (bundleName : string) : SM bool :=
  found ← on_mgr (GetInnerBundleInfo bundleName);
  match found with
  | None => mret false
  | Some info => on_clone (λ c, (c <| cl_cloneInfo := SetIsCloned true info |>, true))
  end.

Definition base_path (appType : AppType) (userId : Z) : string :=
  match appType with
  | AppType_SYSTEM_APP => SYSTEM_APP_INSTALL_PATH
  | AppType_THIRD_SYSTEM_APP => THIRD_SYSTEM_APP_INSTALL_PATH
  | AppType_THIRD_PARTY_APP => THIRD_PARTY_APP_INSTALL_PATH
  end +:+ PATH_SEPARATOR +:+ "account" +:+ FILE_UNDERLINE +:+ pretty userId +:+ PATH_SEPARATOR.

(** Every type of application has its directory. *)
Definition ModifyInstallDirByHapType (info : InnerBundleInfo) (c : BundleCloneMgr) : BundleCloneMgr :=
  let base := base_path (ib_appType info) (ib_userId info) in
  c <| cl_baseCodePath := base +:+ "applications" |> <| cl_baseDataPath := base +:+ "appdata" |>.

Definition UpdateBundlePaths (baseDataPath : string) (info : InnerBundleInfo) : InnerBundleInfo :=
  SetAppCacheDir (baseDataPath +:+ PATH_SEPARATOR +:+ "cache")
    (SetAppDataBaseDir (baseDataPath +:+ PATH_SEPARATOR +:+ "database")
       (SetAppDataDir baseDataPath (SetBaseDataDir baseDataPath info))).

(** The parameter is the member [cloneInfo_]. *)
Definition CreateBundleAndDataDir : SM () :=
  c ← gets sv_clone;
  let newInnerBundleUserInfo :=
    new_InnerBundleUserInfo <| ibu_bundleUserInfo ::= λ u, u <| bu_userId := DEFAULT_USERID |> |>
      <| ibu_bundleName := cl_bundleName c |> in
  generated ← on_mgr (λ m, let '(m, u, ok) := GenerateUidAndGid newInnerBundleUserInfo m in (m, (u, ok)));
  let '(userInfo, ok) := generated in
  check ok ERR_APPEXECFWK_INSTALL_GENERATE_UID_ERROR ;;
  on_clone (λ c, (c <| cl_cloneInfo ::= λ i, SetNewBundleName (cl_bundleName c) (SetApplicationInfoUid i) |>, ())) ;;
  info ← gets (λ s, cl_cloneInfo (sv_clone s));
  let cloneDataPath := cl_baseDataPath c +:+ PATH_SEPARATOR +:+ GetDBKeyBundleName info in
  on_env (CreateBundleDataDir cloneDataPath DEFAULT_USERID (ibu_uid userInfo) (ibu_uid userInfo) (GetAppPrivilegeLevel info)) ;;
  on_clone (λ c, (c <| cl_cloneInfo ::= UpdateBundlePaths cloneDataPath |>, ())).

Definition ProcessCloneInstall (bundleName : string) : SM () :=
  on_clone (λ c, let info := cl_cloneInfo c in
                 (ModifyInstallDirByHapType info c <| cl_bundleName := GetBundleName info |>
                    <| cl_modulePackage := ib_currentPackage info |> <| cl_mainAbility := GetMainAbility info |>, ())) ;;
  CreateBundleAndDataDir ;;
  on_clone (λ c, (c <| cl_cloneInfo ::= SetBundleStatus BundleStatus_ENABLED |>, ())) ;;
  c ← gets sv_clone;
  time ← ask_env GetCurrentTime;
  saved ← on_mgr (λ m, let '(m, info, ok) := SaveNewInfoToDB time (cl_bundleName c) (cl_cloneInfo c) m in (m, (info, ok)));
  let '(info, ok) := saved in
  on_clone (λ c, (c <| cl_cloneInfo := info |>, ())) ;;
  check ok ERR_APPEXECFWK_INSTALL_BUNDLE_MGR_SERVICE_ERROR ;;
  on_mgr (EnableBundle (GetDBKeyBundleName info)) ;;
  on_mgr (EnableBundle (cl_bundleName c)) ;;
  mret ().

Definition BundleClone (bundleName : string) : SM bool :=
  allowed ← ask_env (CheckBundleNameInAllowList bundleName);
  if negb allowed then mret false
  else
    set ← on_clone (SetCloneAppName bundleName);
    if negb set then mret false
    else
      created ← CreateCloneBundleInfo bundleName;
      if negb created then on_clone (DeleteCloneAppName bundleName) ;; mret false
      else
        result ← attempt (ProcessCloneInstall bundleName);
        match result with
        | Ok _ => mret true
        | _ => on_clone (DeleteCloneAppName bundleName) ;; mret false
        end.

(** ** Removing a clone *)

(** The guards enable the clone and the bundle that were made last. *)
Definition RemoveClonedBundle (oldName bundleName : string) : SM bool :=
  if str_empty bundleName then mret false
  else
    found ← on_mgr (GetInnerBundleInfo bundleName);
    match found with
    | None => mret false
    | Some newcloneInfo =>
        let uid := GetUid UNSPECIFIED_USERID newcloneInfo in
        c ← gets sv_clone;
        finally (on_mgr (EnableBundle (GetDBKeyBundleName (cl_cloneInfo c))) ;; mret ())
          (finally (b ← gets (λ s, cl_bundleName (sv_clone s)); on_mgr (EnableBundle b) ;; mret ())
            (killed ← on_env (run (UninstallApplicationProcesses (GetApplicationName newcloneInfo) uid));
             if negb killed then mret false
             else
               result ← attempt (on_env (RemoveDir (ib_baseDataDir newcloneInfo)));
               match result with
               | Ok _ =>
                   removed ← on_mgr (RemoveClonedBundleInfo bundleName);
                   if negb removed then mret false else on_clone (DeleteCloneAppName oldName)
               | _ => mret false
               end))
    end.
End Clones.
