(* ===== verification/Installer.v ===== *)
(** * Installer: installing, updating and uninstalling a bundle

    Models services/bundlemgr/src/base_bundle_installer.cpp on the state of
    Service.v.  A run of an installer is a program on its members, on the local
    variables that its functions hand to each other by reference, and on the
    service.  The parsed HAP files are a list in the order in which the
    unordered map of the code is walked. *)

From stdpp Require Import strings list.
From S2P Require Import Prelude Strings StdMap BundleTypes Errors Json InfoJson BundleJson BundleDataQuery BundleDataMgr InnerBundleInfo InnerBundleQuery InstallInfo Parcel Flow ParcelInfos BundlePermissionMgr BundleStateStorage PreInstall Service Sandbox Clones.

Open Scope string_scope.
Open Scope list_scope.
Open Scope Z_scope.

#[local] Instance AppType_eq_dec : EqDecision AppType.
Proof. solve_decision. Defined.

(** ** The state of a run *)

Inductive SingletonState := Singleton_DEFAULT | SINGLETON_TO_NON | NON_TO_SINGLETON.

(** InstallerState, with its values. *)
Definition INSTALL_START_STATE : Z := 0.
Definition INSTALL_BUNDLE_CHECKED : Z := 5.
Definition INSTALL_SYSCAP_CHECKED : Z := 10.
Definition INSTALL_SIGNATURE_CHECKED : Z := 15.
Definition INSTALL_PARSED : Z := 20.
Definition INSTALL_HAP_HASH_PARAM_CHECKED : Z := 25.
Definition INSTALL_VERSION_AND_BUNDLENAME_CHECKED : Z := 30.
Definition INSTALL_REMOVE_SANDBOX_APP : Z := 50.
Definition INSTALL_INFO_SAVED : Z := 80.
Definition INSTALL_RENAMED : Z := 90.
Definition INSTALL_SUCCESS_STATE : Z := 100.

(** The members of BaseBundleInstaller, and whether it is a BundleInstaller
    whose status receiver is told of every state; the data manager is there in every
    public function, the manager of the clones is fetched by one of them. *)
Record Installer := mkInstaller {
  in_statusReceiver : bool;
  in_state : Z;
  in_cloneMgr : bool;
  in_bundleName : string;
  in_moduleTmpDir : string;
  in_modulePath : string;
  in_modulePackage : string;
  in_mainAbility : string;
  in_installedModules : stdmap string bool;
  in_isAppExist : bool;
  in_isContainEntry : bool;
  in_versionCode : Z;
  in_isFeatureNeedUninstall : bool;
  in_uninstallModuleVec : list string;
  in_userId : Z;
  in_hasInstalledInUser : bool;
  in_singletonState : SingletonState;
  in_hapPathRecords : stdmap string string;
  in_preBundleScene : InstallScene;
}.
#[export] Instance eta_Installer : Eta Installer := λ r,
  mkInstaller (in_statusReceiver r) (in_state r) (in_cloneMgr r) (in_bundleName r) (in_moduleTmpDir r) (in_modulePath r) (in_modulePackage r)
    (in_mainAbility r) (in_installedModules r) (in_isAppExist r) (in_isContainEntry r) (in_versionCode r)
    (in_isFeatureNeedUninstall r) (in_uninstallModuleVec r) (in_userId r) (in_hasInstalledInUser r)
    (in_singletonState r) (in_hapPathRecords r) (in_preBundleScene r).

Definition new_Installer (statusReceiver : bool) : Installer :=
  mkInstaller statusReceiver INSTALL_START_STATE false "" "" "" "" "" ∅ false false 0 false [] INVALID_USERID false Singleton_DEFAULT ∅ Scene_NORMAL.

Definition ResetInstallProperties (i : Installer) : Installer :=
  i <| in_isContainEntry := false |> <| in_isAppExist := false |> <| in_hasInstalledInUser := false |>
    <| in_isFeatureNeedUninstall := false |> <| in_versionCode := 0 |> <| in_uninstallModuleVec := [] |>
    <| in_installedModules := ∅ |> <| in_state := INSTALL_START_STATE |> <| in_singletonState := Singleton_DEFAULT |>
    <| in_preBundleScene := Scene_NORMAL |>.

Record Run {K P T E : Type} := mkRun {
  rn_self : Installer;
  rn_new : list (string * InnerBundleInfo);
  rn_old : InnerBundleInfo;
  rn_bundle : InnerBundleInfo;
  rn_uid : Z;
  rn_service : Service K P T E;
}.
Arguments Run K P T E : clear implicits.
#[export] Instance eta_Run K P T E : Eta (Run K P T E) := λ r,
  mkRun K P T E (rn_self r) (rn_new r) (rn_old r) (rn_bundle r) (rn_uid r) (rn_service r).

(** The variables that are passed by reference: the local [oldInfo] of the
    function that was called, the local [bundleInfo] of
    InnerProcessBundleInstall, and an entry of [newInfos]. *)
Inductive Var := OldInfo | CurInfo | NewInfo (bundlePath : string).

Definition lookup_new (bundlePath : string) (l : list (string * InnerBundleInfo)) : InnerBundleInfo :=
  match List.find (λ p, bool_decide (p.1 = bundlePath)) l with Some p => p.2 | None => new_InnerBundleInfo end.
Definition alter_new (bundlePath : string) (f : InnerBundleInfo → InnerBundleInfo) (l : list (string * InnerBundleInfo)) :=
  map (λ p, if bool_decide (p.1 = bundlePath) then (p.1, f p.2) else p) l.

Section Run.
Context {K P T E : Type}.
#[local] Abbreviation run_state := (Run K P T E).
#[local] Abbreviation RM := (On run_state).

Definition read (v : Var) (r : run_state) : InnerBundleInfo :=
  match v with OldInfo => rn_old r | CurInfo => rn_bundle r | NewInfo p => lookup_new p (rn_new r) end.
Definition write (v : Var) (f : InnerBundleInfo → InnerBundleInfo) (r : run_state) : run_state :=
  match v with
  | OldInfo => r <| rn_old ::= f |>
  | CurInfo => r <| rn_bundle ::= f |>
  | NewInfo p => r <| rn_new ::= alter_new p f |>
  end.

Definition get (v : Var) : RM InnerBundleInfo := gets (read v).
Definition upd (v : Var) (f : InnerBundleInfo → InnerBundleInfo) : RM () := modify (write v f).
Definition set (v : Var) (i : InnerBundleInfo) : RM () := upd v (λ _, i).

Definition self {A} (f : Installer → A) : RM A := gets (λ r, f (rn_self r)).
Definition put (f : Installer → Installer) : RM () := modify (λ r, r <| rn_self ::= f |>).
Definition set_uid (uid : Z) : RM () := modify (λ r, r <| rn_uid := uid |>).

Definition set_service (s : Service K P T E) (r : run_state) : run_state := r <| rn_service := s |>.
(** A program of the service. *)
Definition on {A} (m : On (Service K P T E) A) : RM A := within rn_service set_service m.
End Run.

Section Installer.
Context {K P T E : Type} `{HK : KvStore K} `{HP : TextStore P} `{HX : JsonText} `{HU : Uninit} `{HT : AccessTokenKit T}
  `{HE : Environment E} `{HS : StdSort} `{HJ : Json}.
#[local] Abbreviation RM := (On (Run K P T E)).

Definition UpdateInstallerState (state : Z) : RM () :=
  put (λ i, i <| in_state := state |>) ;;
  statusReceiver ← self in_statusReceiver;
  when statusReceiver (on (tells (OnStatusNotify state))).

(** ** Looking a bundle up *)

(** GetInnerBundleInfo(info, isAppExist) of the installer: the bundle is
    disabled, and [v] is assigned when there is one.  It cannot fail. *)
Definition GetInnerBundleInfo (v : Var) : RM bool :=
  bundleName ← self in_bundleName;
  found ← on (on_mgr (BundleDataMgr.GetInnerBundleInfo bundleName));
  match found with
  | None => mret false
  | Some info => set v info ;; mret true
  end.

(** dataMgr_->GetInnerBundleInfo(bundleName, oldInfo). *)
Definition fetch (bundleName : string) : RM bool :=
  found ← on (on_mgr (BundleDataMgr.GetInnerBundleInfo bundleName));
  match found with
  | None => mret false
  | Some info => set OldInfo info ;; mret true
  end.

Definition install_state (state : InstallState) : RM bool :=
  bundleName ← self in_bundleName;
  on (on_mgr (UpdateBundleInstallState bundleName state)).
Definition enable (bundleName : string) : RM () := on (on_mgr (EnableBundle bundleName)) ;; mret ().
Definition SaveInnerBundleInfo (v : Var) : RM bool := info ← get v; on (on_mgr (save info)).
(** [info.SetInstallMark(bundleName, package, status)] *)
Definition mark (v : Var) (bundleName package : string) (status : Z) : RM () := upd v (SetInstallMark bundleName package status).

Definition GetUserId (userId : Z) : Z := if userId <? DEFAULT_USERID then INVALID_USERID else userId.

(** The first steps of every public function. *)
Definition enter_user (userId : Z) : RM () :=
  put (λ i, i <| in_userId := GetUserId userId |>) ;;
  userId ← self in_userId;
  check (negb (userId =? INVALID_USERID)) ERR_APPEXECFWK_INSTALL_PARAM_ERROR ;;
  hasUser ← on (ask_mgr (HasUserId userId));
  check hasUser ERR_APPEXECFWK_USER_NOT_EXIST.

(** ** Directories *)

Definition GetHapPath (moduleName : string) (info : InnerBundleInfo) : string :=
  GetAppCodePath info +:+ PATH_SEPARATOR +:+ moduleName +:+ INSTALL_FILE_SUFFIX.
Definition CurrentHapPath (info : InnerBundleInfo) : string := GetHapPath (GetModuleName (ib_currentPackage info) info) info.

Definition CreateBundleCodeDir (v : Var) : RM () :=
  bundleName ← self in_bundleName;
  let appCodePath := BUNDLE_CODE_DIR +:+ PATH_SEPARATOR +:+ bundleName in
  on (on_env (CreateBundleDir appCodePath)) ;;
  upd v (SetAppCodePath appCodePath).

Definition CreateBundleDataDir (v : Var) : RM () :=
  info ← get v;
  userId ← self in_userId;
  let '(found, newInnerBundleUserInfo) := GetInnerBundleUserInfo userId info new_InnerBundleUserInfo in
  check found ERR_APPEXECFWK_USER_NOT_EXIST ;;
  generated ← on (on_mgr (λ m, let '(m, u, ok) := GenerateUidAndGid newInnerBundleUserInfo m in (m, (u, ok))));
  let '(newInnerBundleUserInfo, ok) := generated in
  check ok ERR_APPEXECFWK_INSTALL_GENERATE_UID_ERROR ;;
  on (on_env (Service.CreateBundleDataDir (GetBundleName info) userId (ibu_uid newInnerBundleUserInfo)
                (ibu_uid newInnerBundleUserInfo) (GetAppPrivilegeLevel info))) ;;
  upd v (SetAppDataBaseDir (BUNDLE_APP_DATA_BASE_DIR +:+ "el2" +:+ DATABASE +:+ GetBundleName info)) ;;
  upd v (InnerBundleInfo.AddInnerBundleUserInfo newInnerBundleUserInfo).

Definition CreateBundleAndDataDir (v : Var) : RM () :=
  CreateBundleCodeDir v ;;
  on_error (info ← get v; ignore (on (on_env (RemoveDir (GetAppCodePath info))))) (CreateBundleDataDir v).

Definition RemoveBundleDataDir (v : Var) : RM () :=
  info ← get v;
  userId ← self in_userId;
  on (on_env (Service.RemoveBundleDataDir (GetBundleName info) userId)).

Definition RemoveBundleAndDataDir (v : Var) (isKeepData : bool) : RM () :=
  info ← get v;
  on (on_env (RemoveDir (GetAppCodePath info))) ;;
  when (negb isKeepData) (RemoveBundleDataDir v).

Definition RemoveModuleDir (modulePath : string) : RM () := on (on_env (RemoveDir modulePath)).

Definition RemoveModuleDataDir (v : Var) (modulePackage : string) (userId : Z) : RM () :=
  info ← get v;
  match FindHapModuleInfo modulePackage UNSPECIFIED_USERID info with
  | None => fail ERR_NO_INIT
  | Some hapModuleInfo =>
      on (on_env (Service.RemoveModuleDataDir (GetBundleName info +:+ HAPS +:+ hm_moduleName hapModuleInfo) userId))
  end.

Definition RemoveModuleAndDataDir (v : Var) (modulePackage : string) (userId : Z) (isKeepData : bool) : RM () :=
  info ← get v;
  RemoveModuleDir (GetModuleDir modulePackage info) ;;
  RemoveModuleDir (GetHapPath (GetModuleName modulePackage info) info) ;;
  when (negb isKeepData)
    (if negb (userId =? UNSPECIFIED_USERID) then ignore (RemoveModuleDataDir v modulePackage userId)
     else for_each (λ u, ignore (RemoveModuleDataDir v modulePackage (user_of u))) (sm_vals (ib_innerBundleUserInfos info))).

Definition ExtractModule (v : Var) (modulePath : string) : RM () :=
  info ← get v;
  path ← self in_modulePath;
  let nativeLibraryPath := app_nativeLibraryPath (ib_baseApplicationInfo info) in
  let targetSoPath :=
    if str_empty nativeLibraryPath then ""
    else BUNDLE_CODE_DIR +:+ PATH_SEPARATOR +:+ GetBundleName info +:+ PATH_SEPARATOR +:+ nativeLibraryPath +:+ PATH_SEPARATOR in
  on (on_env (ExtractModuleFiles path modulePath targetSoPath (app_cpuAbi (ib_baseApplicationInfo info)))) ;;
  upd v (λ i, SetModuleHapPath (if IsPreInstallApp i then path else CurrentHapPath i) i) ;;
  upd v (λ i, let moduleDir := GetAppCodePath i +:+ PATH_SEPARATOR +:+ ib_currentPackage i in
              AddModuleResPath moduleDir (AddModuleSrcDir moduleDir i)).

Definition RenameModuleDir (info : InnerBundleInfo) : RM () :=
  let moduleDir := GetAppCodePath info +:+ PATH_SEPARATOR +:+ ib_currentPackage info in
  on (on_env (Service.RenameModuleDir (moduleDir +:+ TMP_SUFFIX) moduleDir)).

Definition SetDirApl (info : InnerBundleInfo) : RM () :=
  userId ← self in_userId;
  for_each (λ el,
    let baseBundleDataDir := BUNDLE_APP_DATA_BASE_DIR +:+ el +:+ PATH_SEPARATOR +:+ pretty userId in
    on (on_env (Service.SetDirApl (baseBundleDataDir +:+ BASE +:+ GetBundleName info) (GetBundleName info) (GetAppPrivilegeLevel info))) ;;
    on (on_env (Service.SetDirApl (baseBundleDataDir +:+ DATABASE +:+ GetBundleName info) (GetBundleName info) (GetAppPrivilegeLevel info))))
    BUNDLE_EL.

(** ** Tokens and permissions *)

Definition CreateAccessTokenId (info : InnerBundleInfo) : RM Z :=
  userId ← self in_userId;
  on (on_tokens (BundlePermissionMgr.CreateAccessTokenId info (GetBundleName info) userId 0)).

Definition GrantRequestPermissions (info : InnerBundleInfo) (tokenId : Z) : RM () :=
  granted ← on (GrantAllPermissions info tokenId);
  check granted ERR_APPEXECFWK_INSTALL_GRANT_REQUEST_PERMISSIONS_FAILED.

(** Makes the token of the user and grants what the bundle asks for. *)
Definition make_token (v : Var) : RM () :=
  info ← get v;
  tokenId ← CreateAccessTokenId info;
  userId ← self in_userId;
  upd v (SetAccessTokenId tokenId userId) ;;
  info ← get v;
  GrantRequestPermissions info tokenId.

Definition delete_token (info : InnerBundleInfo) : RM () :=
  userId ← self in_userId;
  on (on_tokens (DeleteAccessTokenId (GetAccessTokenId userId info))) ;; mret ().

(** Changes the definitions and requests of the token of every user of
    [users], and grants the new requests of [info]. *)
Definition update_permissions (change : Z → T → T * option (list string)) (info : InnerBundleInfo)
    (users : stdmap string InnerBundleUserInfo) : RM () :=
  for_each (λ u,
    when (negb (ibu_accessTokenId u =? 0))
      (names ← on (on_tokens (change (ibu_accessTokenId u)));
       match names with
       | None => fail ERR_APPEXECFWK_INSTALL_UPDATE_HAP_TOKEN_FAILED
       | Some newRequestPermName =>
           granted ← on (GrantSomePermissions info newRequestPermName (ibu_accessTokenId u));
           check granted ERR_APPEXECFWK_INSTALL_GRANT_REQUEST_PERMISSIONS_FAILED
       end)) (sm_vals users).

Definition UpdateDefineAndRequestPermissions (oldInfo newInfo : InnerBundleInfo) : RM () :=
  update_permissions (λ token, BundlePermissionMgr.UpdateDefineAndRequestPermissions token oldInfo newInfo) newInfo
    (ib_innerBundleUserInfos newInfo).

(** ** Users *)

Definition CreateBundleUserData (v : Var) : RM () :=
  info ← get v;
  userId ← self in_userId;
  check (HasInnerBundleUserInfo userId info) ERR_APPEXECFWK_USER_NOT_EXIST ;;
  result ← attempt (CreateBundleDataDir v);
  match result with Fail code => ignore (RemoveBundleDataDir v) ;; fail code | _ => mret () end ;;
  time ← on (ask_env GetCurrentTime);
  upd v (SetBundleInstallTime time userId) ;;
  info ← get v;
  let '(found, innerBundleUserInfo) := GetInnerBundleUserInfo userId info new_InnerBundleUserInfo in
  check found ERR_APPEXECFWK_USER_NOT_EXIST ;;
  added ← on (on_mgr (BundleDataMgr.AddInnerBundleUserInfo (GetBundleName info) innerBundleUserInfo));
  check added ERR_APPEXECFWK_INSTALL_BUNDLE_MGR_SERVICE_ERROR.

(** The data is removed when [needRemoveData] is false; the callers hand their
    [isKeepData] to it. *)
Definition RemoveBundleUserData (v : Var) (needRemoveData : bool) : RM () :=
  info ← get v;
  userId ← self in_userId;
  let bundleName := GetBundleName info in
  check (HasInnerBundleUserInfo userId info) ERR_APPEXECFWK_USER_NOT_EXIST ;;
  when (negb needRemoveData) (RemoveBundleDataDir v) ;;
  delete_token info ;;
  upd v (InnerBundleInfo.RemoveInnerBundleUserInfo userId) ;;
  removed ← on (on_mgr_opt (BundleDataMgr.RemoveInnerBundleUserInfo bundleName userId));
  check removed ERR_APPEXECFWK_INSTALL_BUNDLE_MGR_SERVICE_ERROR.

(** The bundle is there, the user is new to it. *)
Definition add_user (v : Var) (bundleName : string) : RM () :=
  userId ← self in_userId;
  upd v (InnerBundleInfo.AddInnerBundleUserInfo
           (new_InnerBundleUserInfo <| ibu_bundleUserInfo ::= λ u, u <| bu_userId := userId |> |> <| ibu_bundleName := bundleName |>)) ;;
  on_error (ignore (RemoveBundleUserData v false)) (make_token v ;; CreateBundleUserData v).
End Installer.

(** ** Checks of the HAP files *)

Section Checks.
Context {K P T E : Type} `{HK : KvStore K} `{HP : TextStore P} `{HX : JsonText} `{HU : Uninit} `{HT : AccessTokenKit T}
  `{HE : Environment E} `{HS : StdSort} `{HJ : Json}.
#[local] Abbreviation RM := (On (Run K P T E)).

Definition CheckSysCap (bundlePaths : list string) : RM () :=
  check (negb (bool_decide (bundlePaths = []))) ERR_APPEXECFWK_INSTALL_PARAM_ERROR ;;
  for_each (λ bundlePath,
    bundleSysCaps ← on (on_env (ParseSysCap bundlePath));
    for_each (λ item, has ← on (ask_env (HasSystemCapability item)); check has ERR_APPEXECFWK_INSTALL_CHECK_SYSCAP_FAILED)
      bundleSysCaps) bundlePaths.

Fixpoint verify_all (bundlePaths : list string) : RM (list ProvisionInfo) :=
  match bundlePaths with
  | [] => mret []
  | bundlePath :: bundlePaths =>
      provision ← on (on_env (HapVerify bundlePath));
      rest ← verify_all bundlePaths;
      mret (provision :: rest)
  end.

(** All files have the application and the privilege level of the first. *)
Definition same_signature (provisions : list ProvisionInfo) : bool :=
  match provisions with
  | [] => false
  | p :: _ => forallb (λ q, bool_decide (pv_appId p = pv_appId q)) provisions
              && forallb (λ q, bool_decide (pv_apl p = pv_apl q)) provisions
  end.

Definition CheckMultipleHapsSignInfo (bundlePaths : list string) : RM (list ProvisionInfo) :=
  check (negb (bool_decide (bundlePaths = []))) ERR_APPEXECFWK_INSTALL_PARAM_ERROR ;;
  provisions ← verify_all bundlePaths;
  check (negb (bool_decide (provisions = []))) ERR_APPEXECFWK_INSTALL_FAILED_INCOMPATIBLE_SIGNATURE ;;
  check (same_signature provisions) ERR_APPEXECFWK_INSTALL_FAILED_INCONSISTENT_SIGNATURE ;;
  mret provisions.

Definition entry_installation_free (packInfo : BundlePackInfo) : bool :=
  existsb (λ m, bool_decide (pmd_moduleType (pm_distro m) = "entry") && pmd_installationFree (pm_distro m))
    (ps_modules (bpi_summary packInfo)).

(** The [info] that ParseBundleInfo hands on has the pack information before
    it is called valid. *)
Definition ParseBundleInfo (bundleFilePath : string) (info : InnerBundleInfo) (packInfo : BundlePackInfo) :
  RM (InnerBundleInfo * BundlePackInfo) :=
  info ← on (on_env (Parse bundleFilePath info));
  if negb (bpi_isValid packInfo) then
    packInfo ← on (on_env (ParsePackInfo bundleFilePath packInfo));
    mret (SetBundlePackInfo packInfo info, packInfo <| bpi_isValid := true |>)
  else mret (info, packInfo).

Definition install_path (appType : AppType) : string :=
  match appType with
  | AppType_SYSTEM_APP => SYSTEM_APP_INSTALL_PATH
  | AppType_THIRD_SYSTEM_APP => THIRD_SYSTEM_APP_INSTALL_PATH
  | AppType_THIRD_PARTY_APP => THIRD_PARTY_APP_INSTALL_PATH
  end.

Definition CheckSystemSize (bundlePath : string) (appType : AppType) : RM () :=
  enough ← on (ask_env (Service.CheckSystemSize bundlePath (install_path appType)));
  check enough ERR_APPEXECFWK_INSTALL_DISK_MEM_INSUFFICIENT.

(** [infos.emplace(path, info)] *)
Definition emplace_new (path : string) (info : InnerBundleInfo) (l : list (string * InnerBundleInfo)) :=
  if existsb (λ p, bool_decide (p.1 = path)) l then l else l ++ [(path, info)].

Fixpoint parse_files (files : list (string * ProvisionInfo)) (installParam : InstallParam) (appType : AppType)
    (packInfo : BundlePackInfo) (infos : list (string * InnerBundleInfo)) : RM (list (string * InnerBundleInfo)) :=
  match files with
  | [] => mret infos
  | (bundlePath, provision) :: files =>
      let isSystemApp := bool_decide (pv_appFeature provision = HOS_SYSTEM_APP)
                         || bool_decide (pv_appFeature provision = OHOS_SYSTEM_APP) in
      let newInfo := SetAppType appType new_InnerBundleInfo in
      let newInfo := if isSystemApp then SetAppType AppType_SYSTEM_APP newInfo else newInfo in
      let newInfo := SetIsPreInstallApp (ip_isPreInstallApp installParam) (SetUserId (ip_userId installParam) newInfo) in
      parsed ← ParseBundleInfo bundlePath newInfo packInfo;
      let '(newInfo, packInfo) := parsed in
      isContainEntry ← self in_isContainEntry;
      check (negb (HasEntry newInfo && isContainEntry)) ERR_APPEXECFWK_INSTALL_INVALID_NUMBER_OF_ENTRY_HAP ;;
      when (HasEntry newInfo) (put (λ i, i <| in_isContainEntry := true |>)) ;;
      let newInfo := if bpi_isValid packInfo then SetEntryInstallationFree (entry_installation_free packInfo) newInfo else newInfo in
      let newInfo := SetCertificateFingerprint (pv_fingerprint provision)
                       (SetAllowedAcls (pv_allowedAcls provision)
                          (SetAppPrivilegeLevel (pv_apl provision)
                             (SetAppFeature (pv_appFeature provision) (SetProvisionId (pv_appId provision) newInfo)))) in
      CheckSystemSize bundlePath appType ;;
      parse_files files installParam appType packInfo (emplace_new bundlePath newInfo infos)
  end.

Definition ParseHapFiles (bundlePaths : list string) (installParam : InstallParam) (appType : AppType)
    (provisions : list ProvisionInfo) : RM () :=
  infos ← parse_files (zip bundlePaths provisions) installParam appType new_BundlePackInfo [];
  modify (λ r, r <| rn_new := iteration_order infos |>).

(** What is left of the parameters after the files of [infos]. *)
Fixpoint check_hashes (infos : list (string * InnerBundleInfo)) (hapModuleNames : list string) (hashParams : stdmap string string) :
  RM (stdmap string string) :=
  match infos with
  | [] => mret hashParams
  | (path, info) :: infos =>
      match GetModuleNames info with
      | [] => fail ERR_APPEXECFWK_INSTALL_FAILED_MODULE_NAME_EMPTY
      | name :: _ =>
          check (negb (bool_decide (name ∈ hapModuleNames))) ERR_APPEXECFWK_INSTALL_FAILED_MODULE_NAME_DUPLICATE ;;
          match hashParams !! name with
          | Some hashValue =>
              upd (NewInfo path) (SetModuleHashValue hashValue) ;;
              check_hashes infos (hapModuleNames ++ [name]) (delete name hashParams)
          | None => check_hashes infos (hapModuleNames ++ [name]) hashParams
          end
      end
  end.

Definition CheckHapHashParams (hashParams : stdmap string string) : RM () :=
  if sm_is_empty hashParams then mret ()
  else
    infos ← gets rn_new;
    rest ← check_hashes infos [] hashParams;
    check (sm_is_empty rest) ERR_APPEXECFWK_INSTALL_FAILED_CHECK_HAP_HASH_PARAM.

(** The members in which all files of a bundle agree, in the order of the checks. *)
Definition label_checks (first info : InnerBundleInfo) : list (bool * Z) :=
  [ (bool_decide (GetBundleName first = GetBundleName info), ERR_APPEXECFWK_INSTALL_BUNDLENAME_NOT_SAME);
    (GetVersionCode first =? GetVersionCode info, ERR_APPEXECFWK_INSTALL_VERSIONCODE_NOT_SAME);
    (bool_decide (GetVersionName first = GetVersionName info), ERR_APPEXECFWK_INSTALL_VERSIONNAME_NOT_SAME);
    (GetMinCompatibleVersionCode first =? GetMinCompatibleVersionCode info, ERR_APPEXECFWK_INSTALL_MINCOMPATIBLE_VERSIONCODE_NOT_SAME);
    (bool_decide (GetVendor first = GetVendor info), ERR_APPEXECFWK_INSTALL_VENDOR_NOT_SAME);
    (GetTargetVersion first =? GetTargetVersion info, ERR_APPEXECFWK_INSTALL_RELEASETYPE_TARGET_NOT_SAME);
    (GetCompatibleVersion first =? GetCompatibleVersion info, ERR_APPEXECFWK_INSTALL_RELEASETYPE_COMPATIBLE_NOT_SAME);
    (bool_decide (GetReleaseType first = GetReleaseType info), ERR_APPEXECFWK_INSTALL_RELEASETYPE_NOT_SAME);
    (eqb (IsSingleton first) (IsSingleton info), ERR_APPEXECFWK_INSTALL_SINGLETON_NOT_SAME);
    (bool_decide (ib_appType first = ib_appType info), ERR_APPEXECFWK_INSTALL_APPTYPE_NOT_SAME) ].

(** [infos.begin()] of no files is not looked at: CheckSysCap has refused them. *)
Definition CheckAppLabelInfo : RM () :=
  infos ← gets rn_new;
  match infos with
  | [] => throws
  | (_, first) :: _ =>
      put (λ i, i <| in_versionCode := GetVersionCode first |>) ;;
      for_each (λ p, for_each (λ c, check c.1 c.2) (label_checks first p.2)) infos ;;
      put (λ i, i <| in_bundleName := GetBundleName first |>)
  end.

(** ** Checks against the installed bundle *)

Definition CheckVersionCompatibilityForHmService (oldInfo : InnerBundleInfo) : RM () :=
  versionCode ← self in_versionCode;
  check (negb (versionCode <? GetVersionCode oldInfo)) ERR_APPEXECFWK_INSTALL_VERSION_DOWNGRADE ;;
  when (versionCode >? GetVersionCode oldInfo) (put (λ i, i <| in_isFeatureNeedUninstall := true |>)).

Definition CheckVersionCompatibilityForApplication (oldInfo : InnerBundleInfo) : RM () :=
  versionCode ← self in_versionCode;
  isContainEntry ← self in_isContainEntry;
  (if HasEntry oldInfo then
     check (negb (isContainEntry && (versionCode <? GetVersionCode oldInfo))) ERR_APPEXECFWK_INSTALL_VERSION_DOWNGRADE ;;
     check (negb (negb isContainEntry && (versionCode >? GetVersionCode oldInfo))) ERR_APPEXECFWK_INSTALL_VERSION_NOT_COMPATIBLE ;;
     check (negb (negb isContainEntry && (versionCode <? GetVersionCode oldInfo))) ERR_APPEXECFWK_INSTALL_VERSION_DOWNGRADE
   else check (negb (versionCode <? GetVersionCode oldInfo)) ERR_APPEXECFWK_INSTALL_VERSION_DOWNGRADE) ;;
  when (versionCode >? GetVersionCode oldInfo) (put (λ i, i <| in_isFeatureNeedUninstall := true |>)).

Definition CheckVersionCompatibility (oldInfo : InnerBundleInfo) : RM () :=
  if GetEntryInstallationFree oldInfo then CheckVersionCompatibilityForHmService oldInfo
  else CheckVersionCompatibilityForApplication oldInfo.

Definition CheckHapModleOrType (info : InnerBundleInfo) : RM () :=
  infos ← gets rn_new;
  for_each (λ p,
    check (eqb (ib_isNewVersion info) (ib_isNewVersion p.2)) ERR_APPEXECFWK_INSTALL_STATE_ERROR ;;
    check (eqb (GetEntryInstallationFree info) (GetEntryInstallationFree p.2)) ERR_APPEXECFWK_INSTALL_TYPE_ERROR) infos.

Definition CheckAppLabel (oldInfo newInfo : InnerBundleInfo) : RM () :=
  for_each (λ c, check c.1 c.2)
    [ (bool_decide (GetVersionName oldInfo = GetVersionName newInfo), ERR_APPEXECFWK_INSTALL_VERSIONNAME_NOT_SAME);
      (GetMinCompatibleVersionCode oldInfo =? GetMinCompatibleVersionCode newInfo, ERR_APPEXECFWK_INSTALL_MINCOMPATIBLE_VERSIONCODE_NOT_SAME);
      (bool_decide (GetVendor oldInfo = GetVendor newInfo), ERR_APPEXECFWK_INSTALL_VENDOR_NOT_SAME);
      (GetTargetVersion oldInfo =? GetTargetVersion newInfo, ERR_APPEXECFWK_INSTALL_RELEASETYPE_TARGET_NOT_SAME);
      (GetCompatibleVersion oldInfo =? GetCompatibleVersion newInfo, ERR_APPEXECFWK_INSTALL_RELEASETYPE_COMPATIBLE_NOT_SAME);
      (bool_decide (GetReleaseType oldInfo = GetReleaseType newInfo), ERR_APPEXECFWK_INSTALL_RELEASETYPE_NOT_SAME) ].

(** The prefixes of the URIs are unique, in the bundle and among the bundles
    of the user; an update does not count the module it replaces. *)
Definition verifyUriPrefix (info : InnerBundleInfo) (isUpdate : bool) : RM bool :=
  let currentUriPrefixList := GetUriPrefixList "" info in
  if bool_decide (currentUriPrefixList = []) then mret true
  else if negb (bool_decide (NoDup currentUriPrefixList)) then mret false
  else
    userId ← self in_userId;
    let excludeModule := if isUpdate then GetBundleName info +:+ "." +:+ ib_currentPackage info +:+ "." else "" in
    uriPrefixList ← on (ask_mgr (GetAllUriPrefix userId excludeModule));
    mret (negb (existsb (λ u, bool_decide (u ∈ uriPrefixList)) currentUriPrefixList)).

(** ** Removable modules *)

Definition SaveOldRemovableInfo (oldInfo : InnerBundleInfo) (existModule : bool) (newModuleInfo : InnerModuleInfo) : InnerModuleInfo :=
  if existModule then
    match ib_innerModuleInfos oldInfo !! im_modulePackage newModuleInfo with
    | None => newModuleInfo
    | Some oldModule => newModuleInfo <| im_isRemovable ::= λ r, foldl (λ r p, emplace p.1 p.2 r) r (elems (im_isRemovable oldModule)) |>
    end
  else newModuleInfo.

(** One module of one file. *)
Definition enable_removable (oldInfo : InnerBundleInfo) (userId : Z) (isFreeInstallFlag isAppExist : bool)
    (item : InnerBundleInfo) (key : string) : InnerBundleInfo :=
  match ib_innerModuleInfos item !! key with
  | None => item
  | Some iter =>
      let hasInstalledInUser := HasInnerBundleUserInfo userId oldInfo in
      let existModule := FindModule (im_modulePackage iter) oldInfo in
      let hasModuleInUser := IsUserExistModule (im_moduleName iter) userId item in
      if isFreeInstallFlag && (negb isAppExist || negb hasInstalledInUser || negb existModule || negb hasModuleInUser) then
        let item := (InnerBundleInfo.SetModuleRemovable (im_moduleName iter) true userId item).1 in
        match ib_innerModuleInfos item !! key with
        | None => item
        | Some iter => item <| ib_innerModuleInfos ::= insert key (SaveOldRemovableInfo oldInfo existModule iter) |>
        end
      else item
  end.

Definition CheckEnableRemovable (isFreeInstallFlag : bool) : RM () :=
  oldInfo ← get OldInfo;
  userId ← self in_userId;
  isAppExist ← self in_isAppExist;
  modify (λ r, r <| rn_new ::= map (λ p, (p.1,
    foldl (enable_removable oldInfo userId isFreeInstallFlag isAppExist) p.2 (sm_keys (ib_innerModuleInfos p.2)))) |>).
End Checks.

(** ** Uninstalling *)

Section Uninstalling.
Context {K P T E : Type} `{HK : KvStore K} `{HP : TextStore P} `{HX : JsonText} `{HU : Uninit} `{HT : AccessTokenKit T}
  `{HE : Environment E} `{HS : StdSort} `{HJ : Json}.
#[local] Abbreviation RM := (On (Run K P T E)).

Definition UninstallAllSandboxApps (bundleName : string) (userId : Z) : RM () :=
  check (negb (str_empty bundleName)) ERR_APPEXECFWK_INSTALL_PARAM_ERROR ;;
  result ← attempt (on (Sandbox.UninstallAllSandboxApps bundleName userId));
  match result with Ok _ => mret () | _ => fail ERR_APPEXECFWK_INSTALL_INTERNAL_ERROR end.

Definition kill (v : Var) (uid : Z) : RM bool :=
  info ← get v;
  on (on_env (run (UninstallApplicationProcesses (GetApplicationName info) uid))).

Definition RemoveBundle (v : Var) (isKeepData : bool) : RM () :=
  info ← get v;
  let bundleName := GetBundleName info in
  result ← attempt (RemoveBundleAndDataDir v isKeepData);
  match result with
  | Ok _ =>
      ok ← on (on_mgr (UpdateBundleInstallState bundleName UNINSTALL_SUCCESS));
      check ok ERR_APPEXECFWK_INSTALL_BUNDLE_MGR_SERVICE_ERROR ;;
      delete_token info
  | r => on (on_mgr (UpdateBundleInstallState bundleName UNINSTALL_FAIL)) ;; answer r
  end.

(** The clone of the bundle goes with it; [cloneMgr_] may not be there. *)
Definition remove_clone (bundleName : string) : RM () :=
  clone ← on (ask_mgr (GetClonedBundleName bundleName));
  match clone with
  | None => mret ()
  | Some cloneName =>
      hasCloneMgr ← self in_cloneMgr;
      if hasCloneMgr : bool then on (RemoveClonedBundle bundleName cloneName) ;; mret () else throws
  end.

(** What both kinds of uninstallation begin with, up to the checks: the bundle
    is looked up and the user has it. *)
Definition may_uninstall (installParam : InstallParam) (info : InnerBundleInfo) : bool :=
  negb (negb (ip_forceExecuted installParam) && IsSystemApp info && negb (IsRemovable info) && ip_noSkipsKill installParam).

Definition find_installed (bundleName : string) (installParam : InstallParam) : RM () :=
  enter_user (ip_userId installParam) ;;
  set OldInfo new_InnerBundleInfo ;;
  found ← fetch bundleName;
  check found ERR_APPEXECFWK_UNINSTALL_MISSING_INSTALLED_BUNDLE ;;
  oldInfo ← get OldInfo;
  put (λ i, i <| in_versionCode := GetVersionCode oldInfo |>).

Definition find_user (installParam : InstallParam) : RM () :=
  oldInfo ← get OldInfo;
  userId ← self in_userId;
  let '(found, curInnerBundleUserInfo) := GetInnerBundleUserInfo userId oldInfo new_InnerBundleUserInfo in
  check found ERR_APPEXECFWK_USER_NOT_INSTALL_HAP ;;
  set_uid (ibu_uid curInnerBundleUserInfo) ;;
  check (may_uninstall installParam oldInfo) ERR_APPEXECFWK_UNINSTALL_SYSTEM_APP_ERROR.

(** Of a bundle: the guard enables it again unless it was removed. *)
Definition ProcessBundleUninstall (bundleName : string) (installParam : InstallParam) : RM () :=
  check (negb (str_empty bundleName)) ERR_APPEXECFWK_UNINSTALL_INVALID_NAME ;;
  find_installed bundleName installParam ;;
  dismissible (enable bundleName)
    (find_user installParam ;;
     remove_clone bundleName ;;
     oldInfo ← get OldInfo;
     if (1 <? sm_size (ib_innerBundleUserInfos oldInfo))%nat then
       RemoveBundleUserData OldInfo (ip_isKeepData installParam) ;; mret false
     else
       started ← on (on_mgr (UpdateBundleInstallState bundleName UNINSTALL_START));
       check started ERR_APPEXECFWK_INSTALL_BUNDLE_MGR_SERVICE_ERROR ;;
       uid ← gets rn_uid;
       when (ip_noSkipsKill installParam)
         (killed ← kill OldInfo uid;
          when (negb killed)
            (on (on_mgr (UpdateBundleInstallState bundleName INSTALL_SUCCESS)) ;; fail ERR_APPEXECFWK_UNINSTALL_KILLING_APP_ERROR)) ;;
       mark OldInfo bundleName "" UNINSTALL_BUNDLE_START ;;
       saved ← SaveInnerBundleInfo OldInfo;
       check saved ERR_APPEXECFWK_INSTALL_INTERNAL_ERROR ;;
       RemoveBundle OldInfo (ip_isKeepData installParam) ;; mret true) ;;
  mret ().

(** Of a module: with the only one the bundle goes, after the guards were
    dismissed. *)
Definition ProcessModuleUninstall (bundleName modulePackage : string) (installParam : InstallParam) : RM () :=
  check (negb (str_empty bundleName || str_empty modulePackage)) ERR_APPEXECFWK_UNINSTALL_INVALID_NAME ;;
  put (λ i, i <| in_cloneMgr := true |>) ;;
  find_installed bundleName installParam ;;
  onlyModule ← dismissible (enable bundleName)
    (find_user installParam ;;
     oldInfo ← get OldInfo;
     check (FindModule modulePackage oldInfo) ERR_APPEXECFWK_UNINSTALL_MISSING_INSTALLED_MODULE ;;
     started ← on (on_mgr (UpdateBundleInstallState bundleName UNINSTALL_START));
     check started ERR_APPEXECFWK_INSTALL_BUNDLE_MGR_SERVICE_ERROR ;;
     dismissible (on (on_mgr (UpdateBundleInstallState bundleName INSTALL_SUCCESS)) ;; mret ())
       (uid ← gets rn_uid;
        when (ip_noSkipsKill installParam)
          (killed ← kill OldInfo uid; check killed ERR_APPEXECFWK_UNINSTALL_KILLING_APP_ERROR) ;;
        mark OldInfo bundleName modulePackage UNINSTALL_PACKAGE_START ;;
        saved ← SaveInnerBundleInfo OldInfo;
        check saved ERR_APPEXECFWK_INSTALL_INTERNAL_ERROR ;;
        oldInfo ← get OldInfo;
        if IsOnlyModule modulePackage oldInfo then remove_clone bundleName ;; mret true
        else
          userId ← self in_userId;
          (if (sm_size (ib_innerBundleUserInfos oldInfo) =? 1)%nat
           then RemoveModuleAndDataDir OldInfo modulePackage userId (ip_isKeepData installParam)
           else when (negb (ip_isKeepData installParam)) (RemoveModuleDataDir OldInfo modulePackage userId)) ;;
          mark OldInfo bundleName modulePackage INSTALL_FINISH ;;
          oldInfo ← get OldInfo;
          removed ← on (on_mgr (λ m, let '(m, i, ok) := BundleDataMgr.RemoveModuleInfo bundleName modulePackage oldInfo m in (m, (i, ok))));
          set OldInfo removed.1 ;;
          check removed.2 ERR_APPEXECFWK_INSTALL_BUNDLE_MGR_SERVICE_ERROR ;;
          mret false));
  when onlyModule
    (oldInfo ← get OldInfo;
     if (sm_size (ib_innerBundleUserInfos oldInfo) =? 1)%nat then RemoveBundle OldInfo (ip_isKeepData installParam)
     else RemoveBundleUserData OldInfo (ip_isKeepData installParam)).

Definition SendBundleSystemEvent (bundleName : string) (type : BundleEventType) (installParam : InstallParam)
    (preBundleScene : InstallScene) (errCode : Z) : RM () :=
  put (λ i, i <| in_preBundleScene := preBundleScene |>) ;;
  i ← self id;
  on (tells (Service.SendBundleSystemEvent type (mkEventInfo (in_userId i) bundleName (in_versionCode i)
    (ip_isPreInstallApp installParam) preBundleScene
    (bool_decide (InstallFlag_value (ip_installFlag installParam) = InstallFlag_value InstallFlag_FREE_INSTALL)) errCode))).

Definition code_of (r : result ()) : Z := match r with Fail code => code | _ => ERR_OK end.

(** What the public functions do after their work. *)
Definition notify (b : bool) (bundleName modulePackage abilityName : string) (result : result ()) (type : NotifyType) : RM () :=
  uid ← gets rn_uid;
  when b (on (NotifyBundleStatus bundleName modulePackage abilityName (code_of result) type uid)).
Definition save_distribute_info (bundleName : string) : RM () :=
  userId ← self in_userId; on (tells (SaveStorageDistributeInfo bundleName userId)).
Definition delete_distribute_info (bundleName : string) : RM () :=
  userId ← self in_userId; on (tells (DeleteStorageDistributeInfo bundleName userId)).

Definition UninstallBundle (bundleName : string) (installParam : InstallParam) : RM () :=
  ignore (UninstallAllSandboxApps bundleName (ip_userId installParam)) ;;
  set_uid INVALID_UID ;;
  result ← attempt (ProcessBundleUninstall bundleName installParam);
  notify (ip_needSendEvent installParam) bundleName "" "" result Notify_UNINSTALL_BUNDLE ;;
  when (code_of result =? ERR_OK) (delete_distribute_info bundleName) ;;
  scene ← self in_preBundleScene;
  SendBundleSystemEvent bundleName BundleEvent_UNINSTALL installParam scene (code_of result) ;;
  answer result.

Definition UninstallModule (bundleName modulePackage : string) (installParam : InstallParam) : RM () :=
  ignore (UninstallAllSandboxApps bundleName (ip_userId installParam)) ;;
  set_uid INVALID_UID ;;
  result ← attempt (ProcessModuleUninstall bundleName modulePackage installParam);
  notify (ip_needSendEvent installParam) bundleName modulePackage "" result Notify_UNINSTALL_MODULE ;;
  when (code_of result =? ERR_OK)
    (found ← on (on_mgr (BundleDataMgr.GetInnerBundleInfo bundleName));
     match found with
     | None => delete_distribute_info bundleName
     | Some _ => save_distribute_info bundleName ;; enable bundleName
     end) ;;
  scene ← self in_preBundleScene;
  SendBundleSystemEvent bundleName BundleEvent_UNINSTALL installParam scene (code_of result) ;;
  answer result.
End Uninstalling.

(** ** Installing *)

Section Installing.
Context {K P T E : Type} `{HK : KvStore K} `{HP : TextStore P} `{HX : JsonText} `{HU : Uninit} `{HT : AccessTokenKit T}
  `{HE : Environment E} `{HS : StdSort} `{HJ : Json}.
#[local] Abbreviation RM := (On (Run K P T E)).

(** The first HAP of a bundle that is not there. *)
Definition ProcessBundleInstallStatus (v : Var) : RM () :=
  info ← get v;
  unique ← verifyUriPrefix info false;
  check unique ERR_APPEXECFWK_INSTALL_URI_DUPLICATE ;;
  put (λ i, i <| in_modulePackage := ib_currentPackage info |>) ;;
  bundleName ← self in_bundleName;
  modulePackage ← self in_modulePackage;
  started ← install_state INSTALL_START;
  check started ERR_APPEXECFWK_INSTALL_STATE_ERROR ;;
  mark v bundleName modulePackage INSTALL_START_MARK ;;
  saved ← SaveInnerBundleInfo v;
  check saved ERR_APPEXECFWK_INSTALL_INTERNAL_ERROR ;;
  on_error (install_state INSTALL_FAIL ;; mret ())
    (CreateBundleAndDataDir v ;;
     on_error (ignore (RemoveBundleAndDataDir v false))
       (info ← get v;
        ExtractModule v (GetAppCodePath info +:+ PATH_SEPARATOR +:+ modulePackage) ;;
        mark v bundleName modulePackage INSTALL_FINISH ;;
        info ← get v;
        userId ← self in_userId;
        set_uid (GetUid userId info) ;;
        time ← on (ask_env GetCurrentTime);
        upd v (SetBundleInstallTime time userId) ;;
        make_token v ;;
        info ← get v;
        added ← on (on_mgr (AddInnerBundleInfo bundleName info));
        when (negb added)
          (install_state UNINSTALL_START ;; install_state UNINSTALL_SUCCESS ;;
           fail ERR_APPEXECFWK_INSTALL_BUNDLE_MGR_SERVICE_ERROR))).

Definition ProcessNewModuleInstall (newInfo oldInfo : Var) : RM () :=
  new ← get newInfo;
  unique ← verifyUriPrefix new false;
  check unique ERR_APPEXECFWK_INSTALL_URI_DUPLICATE ;;
  old ← get oldInfo;
  check (negb (HasEntry new && HasEntry old)) ERR_APPEXECFWK_INSTALL_ENTRY_ALREADY_EXIST ;;
  when (GetVersionCode old =? GetVersionCode new) (CheckAppLabel old new) ;;
  bundleName ← self in_bundleName;
  modulePackage ← self in_modulePackage;
  mark oldInfo bundleName modulePackage UPDATING_NEW_START ;;
  saved ← SaveInnerBundleInfo oldInfo;
  check saved ERR_APPEXECFWK_INSTALL_INTERNAL_ERROR ;;
  let modulePath := GetAppCodePath new +:+ PATH_SEPARATOR +:+ modulePackage in
  ExtractModule newInfo modulePath ;;
  on_error (ignore (RemoveModuleDir modulePath))
    (updated ← install_state UPDATING_SUCCESS;
     check updated ERR_APPEXECFWK_INSTALL_BUNDLE_MGR_SERVICE_ERROR ;;
     mark oldInfo bundleName modulePackage INSTALL_FINISH ;;
     old ← get oldInfo;
     new ← get newInfo;
     update_permissions (λ token, AddDefineAndRequestPermissions token new) new (ib_innerBundleUserInfos old) ;;
     time ← on (ask_env GetCurrentTime);
     userId ← self in_userId;
     upd oldInfo (SetBundleUpdateTime time userId) ;;
     old ← get oldInfo;
     added ← on (on_mgr (λ m, let '(m, i, ok) := AddNewModuleInfo bundleName new old m in (m, (i, ok))));
     set oldInfo added.1 ;;
     check added.2 ERR_APPEXECFWK_INSTALL_BUNDLE_MGR_SERVICE_ERROR).

(** [newInfo.RestoreModuleInfo(oldInfo)]; [at] may throw. *)
Definition restore_module (newInfo oldInfo : Var) : RM () :=
  new ← get newInfo;
  old ← get oldInfo;
  match RestoreModuleInfo old new with Some i => set newInfo i | None => throws end.

Definition ProcessModuleUpdate (newInfo oldInfo : Var) (isReplace noSkipsKill : bool) : RM () :=
  new ← get newInfo;
  unique ← verifyUriPrefix new true;
  check unique ERR_APPEXECFWK_INSTALL_URI_DUPLICATE ;;
  old ← get oldInfo;
  versionCode ← self in_versionCode;
  hasInstalledInUser ← self in_hasInstalledInUser;
  let same := (versionCode =? GetVersionCode old) in
  when same (CheckAppLabel old new) ;;
  check (negb (same && negb isReplace && hasInstalledInUser)) ERR_APPEXECFWK_INSTALL_ALREADY_EXIST ;;
  if same && negb isReplace then
    upd newInfo (SetOnlyCreateBundleUser true) ;;
    updated ← install_state UPDATING_SUCCESS;
    check updated ERR_APPEXECFWK_INSTALL_STATE_ERROR
  else
    userId ← self in_userId;
    when noSkipsKill
      (killed ← kill oldInfo (GetUid userId old); check killed ERR_APPEXECFWK_INSTALL_INTERNAL_ERROR) ;;
    bundleName ← self in_bundleName;
    modulePackage ← self in_modulePackage;
    mark oldInfo bundleName modulePackage UPDATING_EXISTED_START ;;
    saved ← SaveInnerBundleInfo oldInfo;
    check saved ERR_APPEXECFWK_INSTALL_INTERNAL_ERROR ;;
    put (λ i, i <| in_moduleTmpDir := GetAppCodePath new +:+ PATH_SEPARATOR +:+ modulePackage +:+ TMP_SUFFIX |>) ;;
    moduleTmpDir ← self in_moduleTmpDir;
    ExtractModule newInfo moduleTmpDir ;;
    updated ← install_state UPDATING_SUCCESS;
    check updated ERR_APPEXECFWK_INSTALL_BUNDLE_MGR_SERVICE_ERROR ;;
    restore_module newInfo oldInfo ;;
    mark oldInfo bundleName modulePackage UPDATING_FINISH ;;
    time ← on (ask_env GetCurrentTime);
    upd oldInfo (SetBundleUpdateTime time userId) ;;
    noUpdateInfo ← get oldInfo;
    new ← get newInfo;
    updated ← on (on_mgr (λ m, let '(m, i, ok) := UpdateInnerBundleInfo bundleName new noUpdateInfo m in (m, (i, ok))));
    set oldInfo updated.1 ;;
    check updated.2 ERR_APPEXECFWK_INSTALL_BUNDLE_MGR_SERVICE_ERROR ;;
    old ← get oldInfo;
    update_permissions (λ token, BundlePermissionMgr.UpdateDefineAndRequestPermissions token noUpdateInfo old) old
      (ib_innerBundleUserInfos old) ;;
    SetDirApl new.

Definition provision_id (info : InnerBundleInfo) : RM string :=
  match ProvisionId info with Some id => mret id | None => throws end.

Definition singleton_change (oldSingleton newSingleton : bool) (s : SingletonState) : SingletonState :=
  if oldSingleton && negb newSingleton then SINGLETON_TO_NON
  else if negb oldSingleton && newSingleton then NON_TO_SINGLETON else s.

Definition ProcessBundleUpdateStatus (oldInfo newInfo : Var) (isReplace noSkipsKill : bool) : RM () :=
  new ← get newInfo;
  put (λ i, i <| in_modulePackage := ib_currentPackage new |>) ;;
  modulePackage ← self in_modulePackage;
  check (negb (str_empty modulePackage)) ERR_APPEXECFWK_INSTALL_PARAM_ERROR ;;
  put (λ i, if in_isFeatureNeedUninstall i then i <| in_uninstallModuleVec ::= λ l, l ++ [modulePackage] |> else i) ;;
  old ← get oldInfo;
  put (λ i, i <| in_singletonState ::= singleton_change (IsSingleton old) (IsSingleton new) |>) ;;
  updating ← install_state UPDATING_START;
  check updating ERR_APPEXECFWK_INSTALL_STATE_ERROR ;;
  oldId ← provision_id old;
  newId ← provision_id new;
  check (bool_decide (oldId = newId)) ERR_APPEXECFWK_INSTALL_FAILED_INCONSISTENT_SIGNATURE ;;
  upd newInfo (RestoreFromOldInfo old) ;;
  if FindModule modulePackage old then ProcessModuleUpdate newInfo oldInfo isReplace noSkipsKill
  else ProcessNewModuleInstall newInfo oldInfo.
End Installing.

(** ** Undoing an installation *)

Section Whole.
Context {K P T E : Type} `{HK : KvStore K} `{HP : TextStore P} `{HX : JsonText} `{HU : Uninit} `{HT : AccessTokenKit T}
  `{HE : Environment E} `{HS : StdSort} `{HJ : Json}.
#[local] Abbreviation RM := (On (Run K P T E)).

(** With no package the bundle, whose state may not allow it. *)
Definition RemoveInfo (bundleName packageName : string) : RM () :=
  if str_empty packageName then on (on_mgr (UpdateBundleInstallState bundleName UPDATING_FAIL)) ;; mret ()
  else
    name ← self in_bundleName;
    found ← on (on_mgr (BundleDataMgr.GetInnerBundleInfo name));
    match found with
    | None => mret ()
    | Some info =>
        on (on_mgr (UpdateBundleInstallState bundleName ROLL_BACK)) ;;
        on (on_mgr (λ m, (BundleDataMgr.RemoveModuleInfo bundleName packageName info m).1)) ;;
        mret ()
    end.

Definition RollBackMoudleInfo (bundleName : string) (oldInfo : InnerBundleInfo) : RM () :=
  name ← self in_bundleName;
  found ← on (on_mgr (BundleDataMgr.GetInnerBundleInfo name));
  match found with
  | None => mret ()
  | Some info =>
      on (on_mgr (UpdateBundleInstallState bundleName ROLL_BACK)) ;;
      on (on_mgr (λ m, (UpdateInnerBundleInfo bundleName oldInfo info m).1)) ;;
      mret ()
  end.

(** One HAP. *)
Definition RollBackHap (info : InnerBundleInfo) : RM () :=
  installedModules ← self in_installedModules;
  bundleName ← self in_bundleName;
  let modulePackage := ib_currentPackage info in
  if default false (installedModules !! modulePackage) then
    ignore (RemoveModuleDir (GetAppCodePath info +:+ PATH_SEPARATOR +:+ modulePackage +:+ TMP_SUFFIX)) ;;
    upd OldInfo (SetCurrentModulePackage modulePackage) ;;
    oldInfo ← get OldInfo;
    RollBackMoudleInfo bundleName oldInfo
  else
    ignore (RemoveModuleDir (GetModuleDir modulePackage info)) ;;
    RemoveInfo bundleName modulePackage.

Definition RollBack : RM () :=
  infos ← gets rn_new;
  isAppExist ← self in_isAppExist;
  if negb isAppExist then
    match infos with
    | [] => throws
    | (path, info) :: _ =>
        ignore (RemoveBundleAndDataDir (NewInfo path) false) ;;
        delete_token info ;;
        bundleName ← self in_bundleName;
        RemoveInfo bundleName ""
    end
  else
    bundleName ← self in_bundleName;
    found ← on (on_mgr (BundleDataMgr.GetInnerBundleInfo bundleName));
    match found with
    | None => mret ()
    | Some preInfo =>
        for_each (λ p, RollBackHap p.2) infos ;;
        oldInfo ← get OldInfo;
        ignore (UpdateDefineAndRequestPermissions preInfo oldInfo)
    end.

(** CHECK_RESULT_WITH_ROLLBACK *)
Definition check_result_with_rollback (result : result ()) : RM () :=
  match result with
  | Fail code =>
      when (negb ((code =? ERR_APPEXECFWK_INSTALL_SINGLETON_NOT_SAME)
                  || (code =? ERR_APPEXECFWK_INSTALL_ZERO_USER_WITH_NO_SINGLETON))) RollBack ;;
      fail code
  | _ => mret ()
  end.

(** ** Installing HAP files *)

Definition singleton_fits (isSingleton : bool) (userId : Z) : bool :=
  negb ((isSingleton && negb (userId =? DEFAULT_USERID)) || (negb isSingleton && (userId =? DEFAULT_USERID))).

Definition save_pre_install_info (infos : list (string * InnerBundleInfo)) (first : InnerBundleInfo) : RM () :=
  bundleName ← self in_bundleName;
  preInstalled ← on (gets sv_preInstalled);
  let info := (GetPreInstallBundleInfo bundleName new_PreInstallBundleInfo preInstalled).1
                <| pib_appType := ib_appType first |> <| pib_versionCode := GetVersionCode first |> in
  let info := foldl (λ i p, AddBundlePath p.1 i) info infos in
  on (within sv_preInstalled (λ p s, s <| sv_preInstalled := p |>) (run_opt (SavePreInstallBundleInfo info))) ;;
  mret ().

(** The bundle is there: its files must fit, and the user is added to it. *)
Definition update_existing : RM () :=
  oldInfo ← get OldInfo;
  CheckHapModleOrType oldInfo ;;
  CheckVersionCompatibility oldInfo ;;
  userId ← self in_userId;
  put (λ i, i <| in_hasInstalledInUser := HasInnerBundleUserInfo userId oldInfo |>) ;;
  bundleName ← self in_bundleName;
  when (negb (HasInnerBundleUserInfo userId oldInfo)) (add_user OldInfo bundleName) ;;
  oldInfo ← get OldInfo;
  infos ← gets rn_new;
  put (λ i, i <| in_installedModules ::= λ l,
    foldl (λ l p, if FindModule (ib_currentPackage p.2) oldInfo then <[ib_currentPackage p.2 := true]> l else l) l infos |>).

(** The bundle is not there: the first file makes it. *)
Definition install_first (path : string) (installParam : InstallParam) : RM () :=
  put (λ i, i <| in_modulePath := path |>) ;;
  userId ← self in_userId;
  bundleName ← self in_bundleName;
  upd (NewInfo path) (λ i,
    SetIsFreeInstallApp (bool_decide (InstallFlag_value (ip_installFlag installParam) = InstallFlag_value InstallFlag_FREE_INSTALL))
      (InnerBundleInfo.AddInnerBundleUserInfo
         (new_InnerBundleUserInfo <| ibu_bundleUserInfo ::= λ u, u <| bu_userId := userId |> |> <| ibu_bundleName := bundleName |>) i)) ;;
  ProcessBundleInstallStatus (NewInfo path) ;;
  put (λ i, i <| in_hasInstalledInUser := true |>).

Definition is_replace (installParam : InstallParam) : bool :=
  match ip_installFlag installParam with InstallFlag_NORMAL => false | _ => true end.

Definition update_haps (paths : list string) (innerBundleUserInfo : InnerBundleUserInfo) (installParam : InstallParam) : RM () :=
  for_each (λ path,
    put (λ i, i <| in_modulePath := path |>) ;;
    upd (NewInfo path) (InnerBundleInfo.AddInnerBundleUserInfo innerBundleUserInfo) ;;
    ProcessBundleUpdateStatus CurInfo (NewInfo path) (is_replace installParam) (ip_noSkipsKill installParam)) paths.

Definition InnerProcessBundleInstall (installParam : InstallParam) : RM () :=
  infos ← gets rn_new;
  match infos with
  | [] => throws
  | (firstPath, first) :: rest =>
      when (ip_needSavePreInstallInfo installParam) (save_pre_install_info infos first) ;;
      userId ← self in_userId;
      check (singleton_fits (IsSingleton first) userId) ERR_APPEXECFWK_INSTALL_ZERO_USER_WITH_NO_SINGLETON ;;
      found ← GetInnerBundleInfo OldInfo;
      put (λ i, i <| in_isAppExist := found |>) ;;
      CheckEnableRemovable (bool_decide (InstallFlag_value (ip_installFlag installParam) = InstallFlag_value InstallFlag_FREE_INSTALL)) ;;
      (if found : bool then update_existing else install_first firstPath installParam) ;;
      set CurInfo new_InnerBundleInfo ;;
      exists_ ← GetInnerBundleInfo CurInfo;
      check exists_ ERR_APPEXECFWK_INSTALL_BUNDLE_MGR_SERVICE_ERROR ;;
      bundleInfo ← get CurInfo;
      let '(hasUser, innerBundleUserInfo) := GetInnerBundleUserInfo userId bundleInfo new_InnerBundleUserInfo in
      check hasUser ERR_APPEXECFWK_USER_NOT_EXIST ;;
      on_error
        (hasInstalledInUser ← self in_hasInstalledInUser;
         isAppExist ← self in_isAppExist;
         when (negb hasInstalledInUser || negb isAppExist) (ignore (RemoveBundleUserData OldInfo false)))
        (result ← attempt (update_haps (map fst (if found : bool then infos else rest)) innerBundleUserInfo installParam);
         bundleInfo ← get CurInfo;
         set_uid (GetUid userId bundleInfo) ;;
         put (λ i, i <| in_mainAbility := GetMainAbility bundleInfo |>) ;;
         answer result)
  end.

(** The modules of the old version that were not updated go. *)
Definition UninstallLowerVersionFeature (packageVec : list string) : RM () :=
  set CurInfo new_InnerBundleInfo ;;
  exists_ ← GetInnerBundleInfo CurInfo;
  check exists_ ERR_APPEXECFWK_UNINSTALL_BUNDLE_MGR_SERVICE_ERROR ;;
  started ← install_state UNINSTALL_START;
  check started ERR_APPEXECFWK_INSTALL_BUNDLE_MGR_SERVICE_ERROR ;;
  oldInfo ← get CurInfo;
  userId ← self in_userId;
  kill CurInfo (GetUid userId oldInfo) ;;
  bundleName ← self in_bundleName;
  for_each (λ package,
    when (negb (bool_decide (package ∈ packageVec)))
      (RemoveModuleAndDataDir CurInfo package UNSPECIFIED_USERID true ;;
       info ← get CurInfo;
       removed ← on (on_mgr (λ m, let '(m, i, ok) := BundleDataMgr.RemoveModuleInfo bundleName package info m in (m, (i, ok))));
       set CurInfo removed.1 ;;
       check removed.2 ERR_APPEXECFWK_INSTALL_BUNDLE_MGR_SERVICE_ERROR)) (GetModuleNameVec oldInfo) ;;
  info ← get CurInfo;
  UpdateDefineAndRequestPermissions oldInfo info.

Definition SaveHapPathToRecords (isPreInstallApp : bool) : RM () :=
  infos ← gets rn_new;
  when (negb isPreInstallApp)
    (put (λ i, i <| in_hapPathRecords ::= λ l, foldl (λ l p, emplace p.1 (CurrentHapPath p.2) l) l infos |>)).

(** A bundle that has become a singleton, or is one no more, leaves the users
    it may not have. *)
Definition singleton_param (userId : Z) : InstallParam :=
  new_InstallParam <| ip_needSendEvent := false |> <| ip_forceExecuted := true |> <| ip_noSkipsKill := false |>
    <| ip_userId := userId |>.

(** The local [uid] of the caller is another one. *)
Definition uninstall_for (bundleName : string) (userId : Z) : RM () :=
  uid ← gets rn_uid;
  ignore (UninstallBundle bundleName (singleton_param userId)) ;;
  set_uid uid.

Definition OnSingletonChange : RM () :=
  singletonState ← self in_singletonState;
  match singletonState with
  | Singleton_DEFAULT => mret ()
  | change =>
      bundleName ← self in_bundleName;
      found ← on (on_mgr (BundleDataMgr.GetInnerBundleInfo bundleName));
      match found, change with
      | None, _ => mret ()
      | Some _, SINGLETON_TO_NON => uninstall_for bundleName DEFAULT_USERID
      | Some info, _ =>
          for_each (λ u, when (negb (user_of u =? DEFAULT_USERID)) (uninstall_for bundleName (user_of u)))
            (sm_vals (ib_innerBundleUserInfos info))
      end
  end.

(** ProcessBundleInstall up to the comparison of the files. *)
Definition check_files (inBundlePaths : list string) (installParam : InstallParam) (appType : AppType) : RM () :=
  enter_user (ip_userId installParam) ;;
  bundlePaths ← on (on_env (CheckFilePath inBundlePaths));
  UpdateInstallerState INSTALL_BUNDLE_CHECKED ;;
  CheckSysCap bundlePaths ;;
  UpdateInstallerState INSTALL_SYSCAP_CHECKED ;;
  provisions ← CheckMultipleHapsSignInfo bundlePaths;
  UpdateInstallerState INSTALL_SIGNATURE_CHECKED ;;
  ParseHapFiles bundlePaths installParam appType provisions ;;
  UpdateInstallerState INSTALL_PARSED ;;
  CheckHapHashParams (ip_hashParams installParam) ;;
  UpdateInstallerState INSTALL_HAP_HASH_PARAM_CHECKED ;;
  CheckAppLabelInfo ;;
  UpdateInstallerState INSTALL_VERSION_AND_BUNDLENAME_CHECKED.

(** What it does under its two guards. *)
Definition install_files (installParam : InstallParam) : RM () :=
  set OldInfo new_InnerBundleInfo ;;
  result ← attempt (InnerProcessBundleInstall installParam);
  check_result_with_rollback result ;;
  UpdateInstallerState INSTALL_INFO_SAVED ;;
  infos ← gets rn_new;
  result ← attempt (for_each (λ p, when (negb (ib_onlyCreateBundleUser p.2)) (RenameModuleDir p.2)) infos);
  UpdateInstallerState INSTALL_RENAMED ;;
  check_result_with_rollback result ;;
  uninstallModuleVec ← self in_uninstallModuleVec;
  when (negb (bool_decide (uninstallModuleVec = []))) (ignore (UninstallLowerVersionFeature uninstallModuleVec)) ;;
  SaveHapPathToRecords (ip_isPreInstallApp installParam) ;;
  UpdateInstallerState INSTALL_SUCCESS_STATE ;;
  when (bool_decide (InstallFlag_value (ip_installFlag installParam) = InstallFlag_value InstallFlag_FREE_INSTALL))
    (on (tells StartAging)) ;;
  OnSingletonChange.

Definition ProcessBundleInstall (inBundlePaths : list string) (installParam : InstallParam) (appType : AppType) : RM () :=
  check_files inBundlePaths installParam appType ;;
  bundleName ← self in_bundleName;
  ignore (UninstallAllSandboxApps bundleName INVALID_USERID) ;;
  UpdateInstallerState INSTALL_REMOVE_SANDBOX_APP ;;
  finally (install_state INSTALL_SUCCESS ;; mret ())
    (finally (name ← self in_bundleName; enable name) (install_files installParam)).

(** A bundle that is there gets the user; otherwise its pre-installed files
    are installed. *)
Definition InnerProcessInstallByPreInstallInfo (bundleName : string) (installParam : InstallParam) (recoverMode : bool) : RM () :=
  enter_user (ip_userId installParam) ;;
  set OldInfo new_InnerBundleInfo ;;
  isAppExist ← fetch bundleName;
  userId ← self in_userId;
  if isAppExist : bool then
    enable bundleName ;;
    oldInfo ← get OldInfo;
    put (λ i, i <| in_versionCode := GetVersionCode oldInfo |>) ;;
    check (negb (HasInnerBundleUserInfo userId oldInfo)) ERR_APPEXECFWK_INSTALL_ALREADY_EXIST ;;
    check (singleton_fits (IsSingleton oldInfo) userId) ERR_APPEXECFWK_INSTALL_ZERO_USER_WITH_NO_SINGLETON ;;
    add_user OldInfo bundleName ;;
    oldInfo ← get OldInfo;
    set_uid (GetUid userId oldInfo)
  else
    preInstalled ← on (gets sv_preInstalled);
    let '(info, found) := GetPreInstallBundleInfo bundleName (new_PreInstallBundleInfo <| pib_bundleName := bundleName |>) preInstalled in
    check (found && negb (bool_decide (pib_bundlePaths info = []))) ERR_APPEXECFWK_INSTALL_INVALID_BUNDLE_FILE ;;
    check (negb (recoverMode && negb (bool_decide (pib_appType info = AppType_SYSTEM_APP)))) ERR_APPEXECFWK_RECOVER_GET_BUNDLEPATH_ERROR ;;
    ProcessBundleInstall (pib_bundlePaths info) (installParam <| ip_isPreInstallApp := true |>) (pib_appType info).

(** ** The public functions *)

Definition InstallBundle (bundlePaths : list string) (installParam : InstallParam) (appType : AppType) : RM () :=
  set_uid INVALID_UID ;;
  result ← attempt (ProcessBundleInstall bundlePaths installParam appType);
  i ← self id;
  notify (ip_needSendEvent installParam && negb (str_empty (in_bundleName i))) (in_bundleName i) "" (in_mainAbility i) result
    (if in_isAppExist i then Notify_UPDATE else Notify_INSTALL) ;;
  when (code_of result =? ERR_OK) (save_distribute_info (in_bundleName i)) ;;
  SendBundleSystemEvent (in_bundleName i) (if in_isAppExist i then BundleEvent_UPDATE else BundleEvent_INSTALL) installParam
    (in_preBundleScene i) (code_of result) ;;
  answer result.

Definition InstallBundleByBundleName (bundleName : string) (installParam : InstallParam) : RM () :=
  set_uid INVALID_UID ;;
  result ← attempt (InnerProcessInstallByPreInstallInfo bundleName installParam false);
  notify (ip_needSendEvent installParam && negb (str_empty bundleName)) bundleName "" "" result Notify_INSTALL ;;
  when (code_of result =? ERR_OK) (save_distribute_info bundleName) ;;
  SendBundleSystemEvent bundleName BundleEvent_INSTALL installParam Scene_CREATE_USER (code_of result) ;;
  answer result.

Definition Recover (bundleName : string) (installParam : InstallParam) : RM () :=
  on InitPermissions ;;
  set_uid INVALID_UID ;;
  result ← attempt (InnerProcessInstallByPreInstallInfo bundleName installParam true);
  i ← self id;
  notify (ip_needSendEvent installParam && negb (str_empty (in_bundleName i)) && negb (str_empty (in_modulePackage i)))
    bundleName "" "" result Notify_INSTALL ;;
  when (code_of result =? ERR_OK) (save_distribute_info bundleName) ;;
  SendBundleSystemEvent bundleName BundleEvent_RECOVER (installParam <| ip_isPreInstallApp := true |>) (in_preBundleScene i)
    (code_of result) ;;
  on UnInitPermissions ;;
  answer result.

(** Puts the installed files where the records say; the first failure ends it. *)
Definition SaveHapToInstallPath (moveFileMode : bool) : RM () :=
  i ← self id;
  ignore (for_each (λ p, ok ← on (on_env (run ((if moveFileMode : bool then RenameFile else CopyFile) p.1 p.2))); check ok 1)
            (elems (in_hapPathRecords i))).
End Whole.
