(* ===== verification/InstallerProps.v ===== *)
(** * InstallerProps: what an installer leaves behind

    Theorems on the runs of Installer.v: a bundle that was not there is there
    after a success and gone after a failure, an uninstallation removes what it
    says, and a bundle is never left disabled. *)

From stdpp Require Import strings list.
From S2P Require Import Prelude Strings StdMap BundleTypes Errors Json InfoJson BundleJson BundleDataQuery BundleDataMgr InnerBundleInfo InnerBundleQuery InstallInfo Parcel Flow ParcelInfos BundlePermissionMgr BundleStateStorage PreInstall BundleMgrCalls Service Sandbox Clones Installer.

Open Scope string_scope.
Open Scope list_scope.
Open Scope Z_scope.

(** ** Rules for runs *)

Section Rules.
Context {K P T E : Type} `{HK : KvStore K} `{HP : TextStore P} `{HX : JsonText} `{HU : Uninit} `{HT : AccessTokenKit T}
  `{HE : Environment E} `{HS : StdSort} `{HJ : BundleStateStorage.Json}.
#[local] Abbreviation run_state := (Run K P T E).
Implicit Types (r : run_state).

Lemma wp_on {A} (m : On (Service K P T E) A) (Q : result A → run_state → Prop) r :
  wp m (λ x s, Q x (set_service s r)) (rn_service r) → wp (on m) Q r.
Proof. intros HQ. apply wp_within. unfold wp in HQ. by destruct (m (rn_service r)). Qed.

Lemma wp_keeps {A} (R : relation run_state) (m : On run_state A) Q r :
  keeps R m → (∀ x r', R r r' → Q x r') → wp m Q r.
Proof. intros Hm HQ. apply HQ, Hm. Qed.

Lemma cleaned_throws {A} (cleanup : On run_state ()) (Q : result A → run_state → Prop) r :
  (∀ r2, Q Throws r2) → cleaned cleanup Q Throws r.
Proof. intros HQ. unfold cleaned, wp. destruct (cleanup r) as [[] r2]; apply HQ. Qed.

Lemma wp_UpdateInstallerState state (Q : result () → run_state → Prop) r :
  (∀ e, Q (Ok ()) (set_service (set_env e (rn_service r)) (r <| rn_self ::= λ i, i <| in_state := state |> |>))) →
  wp (UpdateInstallerState state) Q r.
Proof.
  intros HQ. unfold UpdateInstallerState. apply wp_bind, wp_modify, next_ok, wp_bind, wp_gets, next_ok, wp_when; intros _.
  - apply wp_on, wp_tells, HQ.
  - specialize (HQ (sv_env (rn_service r))). by destruct r as [? ? ? ? ? []].
Qed.
End Rules.

(** One step of a run. *)
Ltac run_step :=
  match goal with
  | |- wp (on _) _ _ => apply wp_on
  | |- wp (UpdateInstallerState _) _ _ => apply wp_UpdateInstallerState; intros ?
  | |- wp (self _) _ _ => apply wp_gets
  | |- wp (get _) _ _ => apply wp_gets
  | |- wp (put _) _ _ => apply wp_modify
  | |- wp (upd _ _) _ _ => apply wp_modify
  | |- wp (set _ _) _ _ => apply wp_modify
  | |- wp (set_uid _) _ _ => apply wp_modify
  | _ => wp_step
  end.

(** ** Steps between *)

Section Quiet.
Context {K P T E : Type} `{HK : KvStore K} `{HP : TextStore P} `{HX : JsonText} `{HU : Uninit} `{HT : AccessTokenKit T}
  `{HE : Environment E} `{HS : StdSort} `{HJ : BundleStateStorage.Json}.
#[local] Abbreviation run_state := (Run K P T E).
Implicit Types (r : run_state).

Definition infos r : stdmap string InnerBundleInfo := dm_bundleInfos (sv_mgr (rn_service r)).
Definition states r : stdmap string InstallState := dm_installStates (sv_mgr (rn_service r)).

(** The files that were parsed, and whether they are singletons. *)
Definition shape r : list (string * bool) := map (λ p, (p.1, IsSingleton p.2)) (rn_new r).

(** The members that the outcome depends on. *)
Definition core (i : Installer) :=
  (in_bundleName i, in_userId i, in_isAppExist i, in_singletonState i, in_uninstallModuleVec i).

(** What the installer decides by; directories, tokens, ids and the other
    variables may differ. *)
Definition view r := (core (rn_self r), infos r, states r, shape r).
Definition quiet r r' : Prop := view r' = view r.

#[export] Instance quiet_preorder : PreOrder quiet.
Proof. split; [done|]. unfold quiet. intros r1 r2 r3 H1 H2. by rewrite H2. Qed.

Lemma quiet_parts r r' :
  quiet r r' → core (rn_self r') = core (rn_self r) ∧ infos r' = infos r ∧ states r' = states r ∧ shape r' = shape r.
Proof.
  intros Hq. split_and!; [exact (f_equal (λ v, v.1.1.1) Hq)|exact (f_equal (λ v, v.1.1.2) Hq)
    |exact (f_equal (λ v, v.1.2) Hq)|exact (f_equal (λ v, v.2) Hq)].
Qed.

Lemma quiet_on {A} (m : On (Service K P T E) A) :
  (∀ s, dm_bundleInfos (sv_mgr (m s).2) = dm_bundleInfos (sv_mgr s) ∧ dm_installStates (sv_mgr (m s).2) = dm_installStates (sv_mgr s)) →
  keeps quiet (on m).
Proof.
  intros Hm. apply keeps_within. intros r. destruct (Hm (rn_service r)) as [H1 H2].
  unfold quiet, view, infos, states. simpl. by rewrite H1, H2.
Qed.

Lemma quiet_on_env {A} (m : On E A) : keeps quiet (on (on_env m)).
Proof. apply quiet_on. intros s. unfold on_env, within. by destruct (m (sv_env s)). Qed.
Lemma quiet_on_tokens {A} (f : T → T * A) : keeps quiet (on (on_tokens f)).
Proof. apply quiet_on. intros s. unfold on_tokens, within, run. by destruct (f (sv_tokens s)). Qed.
Lemma quiet_ask_mgr {A} (f : BundleDataMgr K → A) : keeps quiet (on (ask_mgr f)).
Proof. by apply quiet_on. Qed.
Lemma quiet_ask_env {A} (f : E → A) : keeps quiet (on (ask_env f)).
Proof. by apply quiet_on. Qed.
Lemma quiet_tells n : keeps quiet (on (tells n)).
Proof. by apply quiet_on. Qed.
Lemma quiet_on_mgr {A} (f : BundleDataMgr K → BundleDataMgr K * A) :
  (∀ m, dm_bundleInfos (f m).1 = dm_bundleInfos m ∧ dm_installStates (f m).1 = dm_installStates m) → keeps quiet (on (on_mgr f)).
Proof.
  intros Hf. apply quiet_on. intros s. unfold on_mgr, within, run. specialize (Hf (sv_mgr s)). by destruct (f (sv_mgr s)).
Qed.
Lemma quiet_GrantAll info token : keeps quiet (on (GrantAllPermissions info token)).
Proof. apply quiet_on. intros s. unfold GrantAllPermissions, on_tokens, within, run, gets, mbind, On_bind. by destruct (BundlePermissionMgr.GrantRequestPermissions _ _ _ _). Qed.
Lemma quiet_GrantSome info names token : keeps quiet (on (GrantSomePermissions info names token)).
Proof. apply quiet_on. intros s. unfold GrantSomePermissions, on_tokens, within, run, gets, mbind, On_bind. by destruct (GrantNewRequestPermissions _ _ _ _ _). Qed.

Lemma quiet_gets {A} (f : run_state → A) : keeps quiet (gets f).
Proof. by intros r. Qed.
Lemma quiet_self {A} (f : Installer → A) : keeps quiet (self (K := K) (P := P) (T := T) (E := E) f).
Proof. apply quiet_gets. Qed.
Lemma quiet_get v : keeps quiet (get v).
Proof. apply quiet_gets. Qed.
Lemma quiet_set_uid u : keeps quiet (set_uid u).
Proof. by intros r. Qed.

Lemma quiet_put f : (∀ i, core (f i) = core i) → keeps quiet (put (K := K) (P := P) (T := T) (E := E) f).
Proof. intros Hf r. unfold quiet, view. simpl. by rewrite Hf. Qed.

Lemma quiet_UpdateInstallerState state : keeps quiet (UpdateInstallerState (K := K) (P := P) (T := T) (E := E) state).
Proof.
  unfold UpdateInstallerState. apply (keeps_bind quiet); [by apply quiet_put|]. intros _.
  apply (keeps_bind quiet); [apply quiet_self|]. intros b. apply (keeps_when quiet), quiet_tells.
Qed.

Lemma alter_new_shape path f (l : list (string * InnerBundleInfo)) :
  (∀ i, IsSingleton (f i) = IsSingleton i) →
  map (λ p, (p.1, IsSingleton p.2)) (alter_new path f l) = map (λ p, (p.1, IsSingleton p.2)) l.
Proof.
  intros Hf. unfold alter_new. rewrite map_map. apply map_ext. intros p. case_bool_decide; [|done]. simpl. by rewrite Hf.
Qed.

Lemma quiet_upd v f : (∀ i, IsSingleton (f i) = IsSingleton i) → keeps quiet (upd v f).
Proof.
  intros Hf r. unfold quiet, view, shape. destruct v; [done..|]. simpl. by rewrite alter_new_shape.
Qed.

Lemma quiet_save v : keeps quiet (SaveInnerBundleInfo v).
Proof.
  unfold SaveInnerBundleInfo. apply (keeps_bind quiet); [apply quiet_get|]. intros i. apply quiet_on_mgr.
  intros m. destruct (save_same i m) as (_ & H1 & H2 & _). by split.
Qed.
End Quiet.

#[export] Hint Resolve quiet_on_env quiet_on_tokens quiet_ask_mgr quiet_ask_env quiet_tells quiet_GrantAll quiet_GrantSome
  quiet_gets quiet_self quiet_get quiet_set_uid quiet_save quiet_UpdateInstallerState : keeps.

Ltac quiet_auto := unfold mark; repeat first [ keeps_step | apply quiet_upd; intros ?; done | apply quiet_put; intros ?; done ].

(** ** Parts that only make directories, tokens and ids *)

Section Parts.
Context {K P T E : Type} `{HK : KvStore K} `{HP : TextStore P} `{HX : JsonText} `{HU : Uninit} `{HT : AccessTokenKit T}
  `{HE : Environment E} `{HS : StdSort} `{HJ : BundleStateStorage.Json}.
#[local] Abbreviation run_state := (Run K P T E).

Lemma IsSingleton_on_user f u i : IsSingleton (on_user u f i) = IsSingleton i.
Proof. unfold on_user. by destruct (_ !! _). Qed.
Lemma IsSingleton_on_current f i : IsSingleton (on_current f i) = IsSingleton i.
Proof. unfold on_current. by destruct (_ !! _). Qed.
Lemma IsSingleton_AddModuleResPath d i : IsSingleton (AddModuleResPath d i) = IsSingleton i.
Proof. unfold AddModuleResPath. by destruct (_ !! _). Qed.

Lemma GenerateUidAndGid_states (u : InnerBundleUserInfo) (m : BundleDataMgr K) :
  dm_installStates (GenerateUidAndGid u m).1.1 = dm_installStates m.
Proof. unfold GenerateUidAndGid, GenerateBundleId. repeat (case_match; simplify_eq; try done). Qed.

Lemma quiet_generate (u : InnerBundleUserInfo) :
  keeps quiet (on (K := K) (P := P) (T := T) (E := E)
    (on_mgr (λ m, let '(m, u, ok) := GenerateUidAndGid u m in (m, (u, ok))))).
Proof.
  apply quiet_on_mgr. intros m. pose proof (GenerateUidAndGid_frame u m) as H1. pose proof (GenerateUidAndGid_states u m) as H2.
  destruct (GenerateUidAndGid u m) as [[m' u'] ok]. by destruct H1.
Qed.

Lemma quiet_CreateBundleDataDir v : keeps quiet (CreateBundleDataDir (K := K) (P := P) (T := T) (E := E) v).
Proof. unfold CreateBundleDataDir. quiet_auto. apply quiet_generate. Qed.

Lemma quiet_RemoveBundleDataDir v : keeps quiet (RemoveBundleDataDir (K := K) (P := P) (T := T) (E := E) v).
Proof. unfold RemoveBundleDataDir. quiet_auto. Qed.

Lemma quiet_CreateBundleAndDataDir v : keeps quiet (CreateBundleAndDataDir (K := K) (P := P) (T := T) (E := E) v).
Proof. unfold CreateBundleAndDataDir, CreateBundleCodeDir. quiet_auto. apply quiet_CreateBundleDataDir. Qed.

Lemma quiet_RemoveBundleAndDataDir v b : keeps quiet (RemoveBundleAndDataDir (K := K) (P := P) (T := T) (E := E) v b).
Proof. unfold RemoveBundleAndDataDir. quiet_auto. apply quiet_RemoveBundleDataDir. Qed.

Lemma quiet_ExtractModule v p : keeps quiet (ExtractModule (K := K) (P := P) (T := T) (E := E) v p).
Proof.
  unfold ExtractModule. quiet_auto.
  - apply quiet_upd. intros i. apply IsSingleton_on_current.
  - apply quiet_upd. intros i. rewrite IsSingleton_AddModuleResPath. apply IsSingleton_on_current.
Qed.

Lemma quiet_make_token v : keeps quiet (make_token (K := K) (P := P) (T := T) (E := E) v).
Proof.
  unfold make_token, CreateAccessTokenId, GrantRequestPermissions. quiet_auto. apply quiet_upd. intros i. apply IsSingleton_on_user.
Qed.

Lemma IsSingleton_enable_removable o u f a j k : IsSingleton (enable_removable o u f a j k) = IsSingleton j.
Proof.
  unfold enable_removable, InnerBundleInfo.SetModuleRemovable. destruct (_ !! k); [|done]. destruct (f && _); [|done]. simpl.
  unfold on_first_module. by repeat case_match.
Qed.

Lemma quiet_CheckEnableRemovable f : keeps quiet (CheckEnableRemovable (K := K) (P := P) (T := T) (E := E) f).
Proof.
  unfold CheckEnableRemovable. quiet_auto. apply keeps_modify. intros r. unfold quiet, view. f_equal.
  unfold shape. simpl. rewrite map_map. apply map_ext. intros [p j]. simpl. f_equal.
  induction (sm_keys (ib_innerModuleInfos j)) as [|k l IH] in j |- *; [done|]. simpl. by rewrite IH, IsSingleton_enable_removable.
Qed.

Lemma quiet_save_pre_install_info l j : keeps quiet (save_pre_install_info (K := K) (P := P) (T := T) (E := E) l j).
Proof.
  unfold save_pre_install_info. quiet_auto; apply quiet_on; intros s; [done|]. unfold within, run_opt.
  by destruct (SavePreInstallBundleInfo _ _) as [[]|].
Qed.

Lemma quiet_delete_token i : keeps quiet (delete_token (K := K) (P := P) (T := T) (E := E) i).
Proof. unfold delete_token. quiet_auto. Qed.

Lemma quiet_RenameModuleDir i : keeps quiet (RenameModuleDir (K := K) (P := P) (T := T) (E := E) i).
Proof. unfold RenameModuleDir. quiet_auto. Qed.

Lemma quiet_verifyUriPrefix i b : keeps quiet (verifyUriPrefix (K := K) (P := P) (T := T) (E := E) i b).
Proof. unfold verifyUriPrefix. quiet_auto. Qed.
End Parts.

#[export] Hint Resolve quiet_generate quiet_CreateBundleDataDir quiet_RemoveBundleDataDir quiet_CreateBundleAndDataDir
  quiet_RemoveBundleAndDataDir quiet_ExtractModule quiet_make_token quiet_delete_token quiet_RenameModuleDir
  quiet_verifyUriPrefix quiet_CheckEnableRemovable quiet_save_pre_install_info : keeps.

(** ** The entry of one bundle *)

Section Entry.
Context {K P T E : Type} `{HK : KvStore K} `{HP : TextStore P} `{HX : JsonText} `{HU : Uninit} `{HT : AccessTokenKit T}
  `{HE : Environment E} `{HS : StdSort} `{HJ : BundleStateStorage.Json}.
#[local] Abbreviation run_state := (Run K P T E).
Implicit Types (r : run_state) (m : BundleDataMgr K).

(** The information of a bundle and its install state. *)
Definition entry : Type := option InnerBundleInfo * option InstallState.
Definition mgr_entry b m : entry := (dm_bundleInfos m !! b, dm_installStates m !! b).
Definition entry_of b r : entry := mgr_entry b (sv_mgr (rn_service r)).

Definition others_mgr b m m' : Prop := ∀ c, c ≠ b → mgr_entry c m' = mgr_entry c m.

Lemma others_refl b m : others_mgr b m m.
Proof. done. Qed.
Lemma others_trans b m1 m2 m3 : others_mgr b m1 m2 → others_mgr b m2 m3 → others_mgr b m1 m3.
Proof. intros H1 H2 c Hc. by rewrite H2, H1. Qed.

(** UpdateBundleInstallState on one entry, and its answer. *)
Definition after_state (s : InstallState) (e : entry) : entry * bool :=
  match e.2 with
  | None => if decide (s = INSTALL_START) then ((e.1, Some s), true) else (e, false)
  | Some current =>
      if can_transfer s current then
        if IsDeleteDataState s then ((if decide (s = INSTALL_FAIL) then e.1 else None, None), true) else ((e.1, Some s), true)
      else (e, false)
  end.

Lemma UpdateBundleInstallState_entry b s m :
  b ≠ "" →
  mgr_entry b (UpdateBundleInstallState b s m).1 = (after_state s (mgr_entry b m)).1
  ∧ (UpdateBundleInstallState b s m).2 = (after_state s (mgr_entry b m)).2
  ∧ others_mgr b m (UpdateBundleInstallState b s m).1.
Proof.
  intros Hb. unfold UpdateBundleInstallState, after_state, others_mgr, mgr_entry. simpl.
  destruct (str_empty b) eqn:Ee; [by apply str_empty_spec in Ee|].
  destruct (dm_installStates m !! b) as [current|] eqn:Es.
  - destruct (can_transfer s current); simpl; rewrite ?Es; [|done].
    destruct (IsDeleteDataState s); simpl.
    + rewrite DeleteBundleInfo_states, DeleteBundleInfo_infos. simpl. split_and!; [|done|intros c Hc; f_equal].
      * rewrite sm_lookup_delete_eq. f_equal. case_decide; [done|]. by rewrite sm_lookup_delete_eq.
      * case_decide; [done|]. by rewrite sm_lookup_delete_ne.
      * by rewrite sm_lookup_delete_ne.
    + rewrite sm_lookup_insert_eq. split_and!; [done..|]. intros c Hc. by rewrite sm_lookup_insert_ne.
  - case_decide; simpl; rewrite ?Es; [|done]. rewrite sm_lookup_emplace, Es, decide_True by done. split_and!; [done..|].
    intros c Hc. rewrite sm_lookup_emplace, decide_False by done. by destruct (dm_installStates m !! c).
Qed.

(** Setting the status of an entry. *)
Definition with_status (s : BundleStatus) (e : entry) : entry := (SetBundleStatus s <$> e.1, e.2).

Lemma set_status_entry st b m :
  b ≠ "" →
  mgr_entry b (set_status st b m).1 = with_status st (mgr_entry b m)
  ∧ (set_status st b m).2 = SetBundleStatus st <$> dm_bundleInfos m !! b ∧ others_mgr b m (set_status st b m).1.
Proof.
  intros Hb. unfold set_status, mgr_entry, with_status. destruct (str_empty b) eqn:Ee; [by apply str_empty_spec in Ee|].
  destruct (dm_bundleInfos m !! b) as [i|] eqn:Ei; simpl; [|by rewrite Ei].
  rewrite sm_lookup_insert_eq. split_and!; [done..|]. intros c Hc. unfold mgr_entry. simpl. by rewrite sm_lookup_insert_ne.
Qed.

(** ** Following a run *)

(** From [r0] to [r]: the installer and the entry of [b] are as given, the
    other entries as at the start. *)
Definition at_entry b r0 (i : Installer) (e : entry) r : Prop :=
  core (rn_self r) = core i ∧ shape r = shape r0 ∧ entry_of b r = e ∧ others_mgr b (sv_mgr (rn_service r0)) (sv_mgr (rn_service r)).

Lemma at_entry_start b r : at_entry b r (rn_self r) (entry_of b r) r.
Proof. by split_and!. Qed.

Lemma at_entry_quiet b r0 i e r r' : at_entry b r0 i e r → quiet r r' → at_entry b r0 i e r'.
Proof.
  intros (H1 & H2 & H3 & H4) Hq. destruct (quiet_parts _ _ Hq) as (Hs & Hi & Ht & Hsh).
  unfold at_entry. rewrite Hs, Hsh. split_and!; [done..| |].
  - unfold entry_of, mgr_entry in *. unfold infos, states in *. by rewrite Hi, Ht.
  - intros c Hc. rewrite <- (H4 c Hc). unfold mgr_entry. unfold infos, states in *. by rewrite Hi, Ht.
Qed.

Lemma wp_quiet {A} b r0 i e (m : On run_state A) (Q : result A → run_state → Prop) r :
  at_entry b r0 i e r → keeps quiet m → (∀ x r', at_entry b r0 i e r' → Q x r') → wp m Q r.
Proof. intros Hr Hm HQ. eapply wp_keeps; [exact Hm|]. intros x r' Hq. eapply HQ, at_entry_quiet; eauto. Qed.

Lemma wp_put b r0 i e f (Q : result () → run_state → Prop) r :
  at_entry b r0 i e r → (∀ j, core j = core i → core (f j) = core (f i)) →
  (∀ r', at_entry b r0 (f i) e r' → Q (Ok ()) r') → wp (put f) Q r.
Proof. intros (H1 & H2 & H3 & H4) Hf HQ. apply wp_modify, HQ. split_and!; [simpl; by apply Hf|done..]. Qed.

Lemma wp_self {A} b r0 i e (f : Installer → A) (Q : result A → run_state → Prop) r :
  at_entry b r0 i e r → (∀ j, core j = core i → f j = f i) → Q (Ok (f i)) r → wp (self f) Q r.
Proof. intros (H1 & _) Hf HQ. apply wp_gets. by rewrite (Hf _ H1). Qed.

Lemma at_entry_mgr b r0 i e r m e' :
  at_entry b r0 i e r → mgr_entry b m = e' → others_mgr b (sv_mgr (rn_service r)) m →
  at_entry b r0 i e' (set_service (set_mgr m (rn_service r)) r).
Proof. intros (H1 & H2 & H3 & H4) He Ho. split_and!; [done..|]. eapply others_trans; eauto. Qed.

Lemma wp_update_state b r0 i e s (Q : result bool → run_state → Prop) r :
  b ≠ "" → at_entry b r0 i e r →
  (∀ r', at_entry b r0 i (after_state s e).1 r' → Q (Ok (after_state s e).2) r') →
  wp (on (on_mgr (UpdateBundleInstallState b s))) Q r.
Proof.
  intros Hb Hr HQ. apply wp_on, wp_on_mgr.
  destruct (UpdateBundleInstallState_entry b s (sv_mgr (rn_service r)) Hb) as (H1 & H2 & H3).
  pose proof Hr as (_ & _ & <- & _). unfold entry_of in *. rewrite H2. apply HQ. by eapply at_entry_mgr.
Qed.

Lemma wp_install_state b r0 i e s (Q : result bool → run_state → Prop) r :
  b ≠ "" → at_entry b r0 i e r → in_bundleName i = b →
  (∀ r', at_entry b r0 i (after_state s e).1 r' → Q (Ok (after_state s e).2) r') → wp (install_state s) Q r.
Proof.
  intros Hb Hr Hn HQ. unfold install_state. apply wp_bind. eapply wp_self; [exact Hr|intros j Hj; by injection Hj|]. apply next_ok. rewrite Hn.
  by eapply wp_update_state.
Qed.

Lemma wp_enable b r0 i e (Q : result () → run_state → Prop) r :
  b ≠ "" → at_entry b r0 i e r → (∀ r', at_entry b r0 i (with_status BundleStatus_ENABLED e) r' → Q (Ok ()) r') → wp (enable b) Q r.
Proof.
  intros Hb Hr HQ. unfold enable. apply wp_bind, wp_on, wp_on_mgr. unfold EnableBundle.
  destruct (set_status_entry BundleStatus_ENABLED b (sv_mgr (rn_service r)) Hb) as (H1 & _ & H3).
  destruct (set_status _ _ _) as [m o]. simpl in *. apply next_ok, wp_ret, HQ. pose proof Hr as (_ & _ & <- & _). by eapply at_entry_mgr.
Qed.

(** GetInnerBundleInfo: the bundle is disabled. *)
Lemma wp_get_inner b r0 i e (Q : result (option InnerBundleInfo) → run_state → Prop) r :
  b ≠ "" → at_entry b r0 i e r →
  (∀ r', at_entry b r0 i (with_status BundleStatus_DISABLED e) r' → Q (Ok (SetBundleStatus BundleStatus_DISABLED <$> e.1)) r') →
  wp (on (on_mgr (BundleDataMgr.GetInnerBundleInfo b))) Q r.
Proof.
  intros Hb Hr HQ. apply wp_on, wp_on_mgr. unfold BundleDataMgr.GetInnerBundleInfo.
  destruct (set_status_entry BundleStatus_DISABLED b (sv_mgr (rn_service r)) Hb) as (H1 & H2 & H3).
  pose proof Hr as (_ & _ & <- & _). unfold entry_of, mgr_entry in *. simpl in *. rewrite H2. apply HQ. by eapply at_entry_mgr.
Qed.

Lemma wp_AddInnerBundleInfo b r0 i info (Q : result bool → run_state → Prop) r :
  b ≠ "" → at_entry b r0 i (None, Some INSTALL_START) r →
  (∀ r', at_entry b r0 i (None, Some INSTALL_START) r' → Q (Ok false) r') →
  (∀ r', at_entry b r0 i (Some info, Some INSTALL_START) r' → Q (Ok true) r') →
  wp (on (on_mgr (AddInnerBundleInfo b info))) Q r.
Proof.
  intros Hb Hr Hno Hyes. apply wp_on, wp_on_mgr. pose proof Hr as (_ & _ & He & _). unfold entry_of, mgr_entry in He.
  injection He as Hi Hs. unfold AddInnerBundleInfo. destruct (str_empty b) eqn:Ee; [by apply str_empty_spec in Ee|].
  rewrite Hi, Hs. rewrite decide_True by done. pose proof (save_same info (sv_mgr (rn_service r))) as (_ & H1 & H2 & _).
  destruct (save info (sv_mgr (rn_service r))) as [m []]; simpl in *; [apply Hyes|apply Hno]; eapply at_entry_mgr; try exact Hr.
  - unfold mgr_entry. simpl. rewrite sm_lookup_emplace, H1, H2, Hi, Hs. by rewrite decide_True.
  - intros c Hc. unfold mgr_entry. simpl. rewrite sm_lookup_emplace, H1, H2. rewrite decide_False by done. by destruct (_ !! c).
  - unfold mgr_entry. by rewrite H1, H2, Hi, Hs.
  - intros c Hc. unfold mgr_entry. by rewrite H1, H2.
Qed.
End Entry.

(** ** Installing a bundle that is not there *)

Section Fresh.
Context {K P T E : Type} `{HK : KvStore K} `{HP : TextStore P} `{HX : JsonText} `{HU : Uninit} `{HT : AccessTokenKit T}
  `{HE : Environment E} `{HS : StdSort} `{HJ : BundleStateStorage.Json}.
#[local] Abbreviation run_state := (Run K P T E).
Implicit Types (r : run_state).

Lemma shape_single path sg r : shape r = [(path, sg)] → IsSingleton (read (NewInfo path) r) = sg.
Proof.
  unfold shape. simpl. unfold lookup_new. destruct (rn_new r) as [|[p i] []]; [done| |done]. simpl. intros [= -> <-].
  by rewrite bool_decide_true.
Qed.

Context (b : string) (r0 : run_state) (i : Installer).
Hypothesis (Hb : b ≠ "").
Hypothesis (Hname : in_bundleName i = b).

(** A program that succeeds with [good], or fails with [F]. *)
Definition ends {A} (good : A → run_state → Prop) (F : Z → entry → Prop) (res : result A) r : Prop :=
  match res with
  | Ok x => good x r
  | Fail code => ∃ e, F code e ∧ at_entry b r0 i e r
  | Throws => True
  end.

Lemma wp_then {A B} e (m : On run_state A) (k : A → On run_state B) good (F : Z → entry → Prop) r :
  (∀ code, F code e) → at_entry b r0 i e r → keeps quiet m →
  (∀ x r', at_entry b r0 i e r' → wp (k x) (ends good F) r') → wp (m ≫= k) (ends good F) r.
Proof.
  intros He Hr Hm Hk. apply wp_bind. eapply wp_quiet; [exact Hr|exact Hm|]. intros [x|code|] r' Hr'; [by apply Hk| |done].
  by exists e.
Qed.

(** A program that cannot fail. *)
Lemma wp_then_total {A B} e (m : On run_state A) (k : A → On run_state B) (Q : result B → run_state → Prop) r :
  at_entry b r0 i e r → keeps quiet m → (∀ r, ∃ x, (m r).1 = Ok x) →
  (∀ x r', at_entry b r0 i e r' → wp (k x) Q r') → wp (m ≫= k) Q r.
Proof.
  intros Hr Hm Ht Hk. apply wp_bind. pose proof (Hm r) as Hq. destruct (Ht r) as [x Hx]. unfold wp, next. rewrite Hx.
  apply Hk. by eapply at_entry_quiet.
Qed.

Lemma total_save v r : ∃ x, (SaveInnerBundleInfo (K := K) (P := P) (T := T) (E := E) v r).1 = Ok x.
Proof.
  unfold SaveInnerBundleInfo, on, on_mgr, within, run, mbind, On_bind. simpl.
  destruct (save (read v r) (sv_mgr (rn_service r))). by eexists.
Qed.

Tactic Notation "then_quiet" hyp(H) ident(x) ident(r) ident(H') :=
  eapply wp_then; [|exact H|solve [quiet_auto]|]; [solve [auto]|]; intros x r H'.

Tactic Notation "then_quiet_total" hyp(H) ident(x) ident(r) ident(H') "by" uconstr(t) :=
  eapply wp_then_total; [exact H|solve [quiet_auto]|intros; first [apply t | eexists; apply t]|]; intros x r H'.

Lemma wp_then_state {B} e s (k : bool → On run_state B) (Q : result B → run_state → Prop) r :
  at_entry b r0 i e r →
  (∀ r', at_entry b r0 i (after_state s e).1 r' → wp (k (after_state s e).2) Q r') →
  wp (install_state s ≫= k) Q r.
Proof. intros Hr Hk. apply wp_bind. by eapply wp_install_state. Qed.

Lemma wp_then_name {B} e (k : string → On run_state B) (Q : result B → run_state → Prop) r :
  at_entry b r0 i e r → wp (k b) Q r → wp (self in_bundleName ≫= k) Q r.
Proof.
  intros Hr Hk. apply wp_bind. eapply wp_self; [exact Hr|intros j Hj; by injection Hj|]. by rewrite Hname.
Qed.

Lemma wp_guarded {A} (cleanup : On run_state ()) (m : On run_state A) good (F F' : Z → entry → Prop) r :
  (∀ code e r, F code e → at_entry b r0 i e r → wp cleanup (λ _ r', ∃ e', F' code e' ∧ at_entry b r0 i e' r') r) →
  wp m (ends good F) r → wp (on_error cleanup m) (ends good F') r.
Proof.
  intros Hc Hm. apply wp_on_error. eapply wp_mono; [|exact Hm]. intros [x|code|] r' H; [done| |].
  - destruct H as (e & He & Hr'). unfold cleaned. eapply wp_mono; [|by eapply Hc]. intros [] r2 H2; done.
  - unfold cleaned, wp. destruct (cleanup r') as [[] r2]; done.
Qed.

Lemma wp_quiet_guarded {A} (cleanup : On run_state ()) (m : On run_state A) good F r :
  keeps quiet cleanup → wp m (ends good F) r → wp (on_error cleanup m) (ends good F) r.
Proof.
  intros Hc. apply wp_guarded. intros code e r' He Hr. eapply wp_quiet; [exact Hr|exact Hc|]. intros x r2 Hr2. by exists e.
Qed.

(** The codes without a roll back. *)
Definition no_rollback (code : Z) : bool :=
  (code =? ERR_APPEXECFWK_INSTALL_SINGLETON_NOT_SAME) || (code =? ERR_APPEXECFWK_INSTALL_ZERO_USER_WITH_NO_SINGLETON).

(** How the entry of a bundle that could not be installed is before the roll back. *)
Definition gone (code : Z) (e : entry) : Prop :=
  e = (None, None) ∨ e = (None, Some INSTALL_START) ∧ no_rollback code = false.

Lemma wp_ProcessBundleInstallStatus path sg r :
  at_entry b r0 i (None, None) r → shape r0 = [(path, sg)] →
  wp (ProcessBundleInstallStatus (NewInfo path))
    (ends (λ _ r', ∃ info, IsSingleton info = sg ∧ at_entry b r0 i (Some info, Some INSTALL_START) r') gone) r.
Proof.
  intros Hr Hsh. assert (∀ code, gone code (None, None)) as Hno by (by left).
  unfold ProcessBundleInstallStatus.
  then_quiet Hr info r1 Hr1. then_quiet Hr1 unique r2 Hr2. then_quiet Hr2 x r3 Hr3. then_quiet Hr3 y r4 Hr4.
  eapply wp_then_name; [exact Hr4|]. then_quiet Hr4 modulePackage r5 Hr5.
  eapply wp_then_state; [exact Hr5|]. simpl. intros r6 Hr6. then_quiet_total Hr6 y6 r7 Hr7 by reflexivity.
  then_quiet_total Hr7 y7 r8 Hr8 by reflexivity. then_quiet_total Hr8 saved r9 Hr9 by total_save.
  apply wp_bind, wp_check; intros Hsaved; [apply next_ok|exists (None, Some INSTALL_START); split; [by right|done]].
  clear -Hb Hname Hr9 Hsh Hno.
  apply (wp_guarded _ _ _ (λ _ e, e = (None, Some INSTALL_START) ∨ e = (None, None))).
  { intros code e r He Hr. apply wp_bind. eapply wp_install_state; [done..|]. intros r' Hr'. apply next_ok, wp_ret.
    exists (None, None). split; [done|]. by destruct He as [-> | ->]. }
  assert (∀ code : Z, (λ (_ : Z) e, e = (None, Some INSTALL_START) ∨ e = (None, None : option InstallState)) code (None : option InnerBundleInfo, Some INSTALL_START)) as Hst by (by left).
  then_quiet Hr9 y1 r1 Hr1. apply wp_quiet_guarded; [solve [quiet_auto]|].
  then_quiet Hr1 info r2 Hr2. then_quiet Hr2 x2 r3 Hr3. then_quiet Hr3 x3 r4 Hr4. then_quiet Hr4 info4 r5 Hr5.
  then_quiet Hr5 userId r6 Hr6. then_quiet Hr6 x6 r7 Hr7. then_quiet Hr7 time r8 Hr8.
  eapply wp_then; [exact Hst|exact Hr8|apply quiet_upd; intros; apply IsSingleton_on_user|]. intros x8 r10 Hr10.
  then_quiet Hr10 x9 r11 Hr11. clear -Hb Hname Hr11 Hsh.
  apply wp_bind, wp_gets, next_ok.
  assert (IsSingleton (read (NewInfo path) r11) = sg) as Hsg by (apply shape_single; destruct Hr11 as (_ & -> & _); done).
  apply wp_bind. eapply wp_AddInnerBundleInfo; [done|exact Hr11| |]; intros r1 Hr1; apply next_ok.
  - apply (wp_then_state (None, Some INSTALL_START)); [done|]. intros r2 Hr2. apply (wp_then_state (None, Some UNINSTALL_START)); [done|].
    intros r3 Hr3. exists (None, None). split; [by right|done].
  - apply wp_ret. by eexists.
Qed.

(** How it is when a part after the first HAP has failed. *)
Definition undone (code : Z) (e : entry) : Prop :=
  e = (None, None) ∨ e.2 = Some INSTALL_START ∧ no_rollback code = false.

Lemma ends_mono {A} (good good' : A → run_state → Prop) (F F' : Z → entry → Prop) res r :
  (∀ x r, good x r → good' x r) → (∀ code e, F code e → F' code e) → ends good F res r → ends good' F' res r.
Proof. intros Hg HF. destruct res as [x|code|]; simpl; [apply Hg| |done]. intros (e & He & Hr). exists e. auto. Qed.

Lemma at_entry_core j e r : core j = core i → at_entry b r0 j e r → at_entry b r0 i e r.
Proof. unfold at_entry. by intros ->. Qed.

Lemma wp_then_no_fail {A B} e (m : On run_state A) (k : A → On run_state B) (Q : result B → run_state → Prop) r :
  at_entry b r0 i e r → keeps quiet m → (∀ r code, (m r).1 ≠ Fail code) → (∀ r, Q Throws r) →
  (∀ x r', at_entry b r0 i e r' → wp (k x) Q r') → wp (m ≫= k) Q r.
Proof.
  intros Hr Hm Hf HQ Hk. apply wp_bind. pose proof (Hm r) as Hq. specialize (Hf r). unfold wp, next.
  destruct (m r) as [[x|code|] r']; simpl in *; [|by destruct (Hf code)|apply HQ]. apply Hk. by eapply at_entry_quiet.
Qed.

Lemma delete_token_no_fail j r code : (delete_token (K := K) (P := P) (T := T) (E := E) j r).1 ≠ Fail code.
Proof.
  unfold delete_token, self, gets, on, on_tokens, within, run, mbind, On_bind. simpl. by destruct (DeleteAccessTokenId _ _).
Qed.

Lemma wp_RollBack path sg e r :
  shape r0 = [(path, sg)] → in_isAppExist i = false → at_entry b r0 i e r → e = (None, None) ∨ e.2 = Some INSTALL_START →
  wp RollBack (λ res r', match res with Throws => True | _ => at_entry b r0 i (None, None) r' end) r.
Proof.
  intros Hsh Hex Hr He. unfold RollBack. apply wp_bind, wp_gets, next_ok. apply wp_bind.
  eapply wp_self; [exact Hr|intros j Hj; by injection Hj|]. apply next_ok. rewrite Hex. simpl.
  destruct (rn_new r) as [|[p info] l] eqn:En; [done|].
  eapply wp_then_no_fail; [exact Hr|solve [quiet_auto]|apply ignore_not_fail|done|]. intros x1 r1 Hr1.
  eapply wp_then_no_fail; [exact Hr1|solve [quiet_auto]|apply delete_token_no_fail|done|]. intros x2 r2 Hr2.
  eapply wp_then_name; [exact Hr2|]. unfold RemoveInfo. simpl. apply wp_bind. eapply wp_update_state; [done|exact Hr2|].
  intros r3 Hr3. apply next_ok, wp_ret. replace (after_state UPDATING_FAIL e).1 with ((None, None) : entry) in Hr3; [done|].
  destruct e as [o os]. by destruct He as [[= -> ->]|[= ->]].
Qed.

Lemma wp_install_first path sg param r :
  at_entry b r0 i (None, None) r → shape r0 = [(path, sg)] →
  wp (install_first path param)
    (ends (λ _ r', ∃ info, IsSingleton info = sg ∧ at_entry b r0 i (Some info, Some INSTALL_START) r') gone) r.
Proof.
  intros Hr Hsh. assert (∀ code, gone code (None, None)) as Hno by (by left). unfold install_first.
  then_quiet Hr x1 r1 Hr1. then_quiet Hr1 userId r2 Hr2. eapply wp_then_name; [exact Hr2|]. then_quiet Hr2 x3 r3 Hr3.
  apply wp_bind. eapply wp_mono; [|by eapply wp_ProcessBundleInstallStatus]. intros [x|code|] r4; [|done..].
  intros (info & Hs & Hr4). apply next_ok. eapply wp_put; [exact Hr4|done|]. intros r5 Hr5. exists info. split; [done|].
  by eapply (at_entry_core (i <| in_hasInstalledInUser := true |>)).
Qed.

(** The bundle is there, for the user. *)
Definition installed (sg : bool) (info : InnerBundleInfo) : Prop :=
  IsSingleton info = sg ∧ singleton_fits sg (in_userId i) = true
  ∧ (GetInnerBundleUserInfo (in_userId i) info new_InnerBundleUserInfo).1 = true.

Lemma wp_current_found {B} info s (k : InnerBundleInfo → On run_state B) (Q : result B → run_state → Prop) code r :
  at_entry b r0 i (Some info, s) r →
  (∀ r', let info' := SetBundleStatus BundleStatus_DISABLED info in
    at_entry b r0 i (Some info', s) r' → read CurInfo r' = info' → wp (k info') Q r') →
  wp (set CurInfo new_InnerBundleInfo ;; exists_ ← GetInnerBundleInfo CurInfo; check exists_ code ;; info ← get CurInfo; k info) Q r.
Proof.
  intros Hr HQ. apply wp_bind, wp_modify, next_ok. apply wp_bind. unfold GetInnerBundleInfo. eapply (wp_then_name (Some info, s)).
  { by eapply at_entry_quiet; [exact Hr|]. }
  apply wp_bind. eapply wp_get_inner; [done| |].
  { by eapply at_entry_quiet; [exact Hr|]. }
  simpl. intros r1 Hr1. apply wp_bind, wp_modify, next_ok, wp_ret, next_ok, wp_bind, wp_ret, next_ok, wp_bind, wp_gets, next_ok.
  apply HQ; [|done]. eapply at_entry_quiet; [exact Hr1|done].
Qed.

Lemma wp_InnerProcessBundleInstall path sg param r :
  at_entry b r0 i (None, None) r → shape r0 = [(path, sg)] → in_isAppExist i = false →
  wp (InnerProcessBundleInstall param)
    (ends (λ _ r', ∃ info, installed sg info ∧ at_entry b r0 i (Some info, Some INSTALL_START) r') undone) r.
Proof.
  intros Hr Hsh Hex. assert (∀ code, undone code (None, None)) as Hno by (by left). unfold InnerProcessBundleInstall.
  apply wp_bind, wp_gets, next_ok. pose proof Hr as (_ & Hrs & _). rewrite Hsh in Hrs. unfold shape in Hrs.
  destruct (rn_new r) as [|[p first] l] eqn:En; [done|]. simpl in Hrs. injection Hrs as -> Hsg Hl. destruct l; [|done].
  eapply wp_then; [exact Hno|exact Hr|apply (keeps_when quiet); apply quiet_save_pre_install_info|]. intros x1 r1 Hr1.
  apply wp_bind. eapply wp_self; [exact Hr1|intros j Hj; by injection Hj|]. apply next_ok.
  apply wp_bind, wp_check; intros Hfits; [apply next_ok|by exists (None, None)].
  apply wp_bind. unfold GetInnerBundleInfo at 1. eapply wp_then_name; [exact Hr1|].
  apply wp_bind. eapply wp_get_inner; [done|exact Hr1|]. simpl. intros r2 Hr2. apply wp_ret, next_ok.
  apply wp_bind. eapply wp_put; [exact Hr2|intros j Hj; injection Hj; unfold core; simpl; congruence|]. intros r3 Hr3. apply next_ok.
  apply at_entry_core in Hr3; [|unfold core; simpl; by rewrite Hex].
  then_quiet Hr3 x4 r4 Hr4. apply wp_bind. eapply wp_mono; [|by apply (wp_install_first path sg)].
  intros [x|code|] r5; [|intros (e & [->|[-> Hc]] & He); [by exists (None, None)|exists (None, Some INSTALL_START); split; [by right|done]]|done].
  intros (info & Hs & Hr5). apply next_ok. clear Hr4 Hr3 Hr2 Hr1 Hno.
  assert (∀ code : Z, no_rollback code = false → undone code (Some (SetBundleStatus BundleStatus_DISABLED info), Some INSTALL_START)) as Hst by (by right).
  eapply wp_current_found; [exact Hr5|]. intros r6. simpl. intros Hr6 Hcur. set (info' := SetBundleStatus _ info) in *.
  destruct (GetInnerBundleUserInfo (in_userId i) info' new_InnerBundleUserInfo) as [hasUser user] eqn:Hu.
  apply wp_bind, wp_check; intros Hh; [apply next_ok|by eexists; split; [apply Hst|]].
  apply wp_on_error, wp_bind, wp_attempt. unfold update_haps. simpl. apply wp_ret, next_ok, wp_bind, wp_gets, next_ok.
  apply wp_bind, wp_modify, next_ok, wp_bind, wp_modify, next_ok. simpl. apply wp_ret.
  exists info'. split; [|by eapply at_entry_quiet; [exact Hr6|]]. split; [done|]. rewrite <- Hsg, Hu. by rewrite Hh.
Qed.

(** After the roll back nothing is left. *)
Definition nothing (_ : Z) (e : entry) : Prop := e = (None, None).

Lemma wp_check_result {B} path sg (res : result ()) (good : () → run_state → Prop) (good' : B → run_state → Prop) (k : () → On run_state B) r :
  shape r0 = [(path, sg)] → in_isAppExist i = false →
  res ≠ Throws → ends (A := ()) good undone res r → (∀ r, good () r → wp (k ()) (ends good' nothing) r) →
  wp (check_result_with_rollback res ≫= k) (ends good' nothing) r.
Proof.
  intros Hsh Hex Hres Hr Hk. apply wp_bind. destruct res as [[]|code|]; [by apply wp_ret, next_ok, Hk| |done].
  destruct Hr as (e & He & Hr). simpl. apply wp_bind, wp_when; fold (no_rollback code).
  - intros _. eapply wp_mono; [|eapply (wp_RollBack path sg e); try done].
    + intros [x|c|] r2 Hr2; [|by exists (None, None)|done]. by exists (None, None).
    + destruct He as [-> | [He _]]; [by left|by right].
  - intros Hc%negb_false_iff. destruct He as [-> | [_ He]]; [|congruence]. by exists (None, None).
Qed.

Lemma wp_attempt_then {A B} (m : On run_state A) good F (k : result A → On run_state B) good' F' r :
  wp m (ends good F) r →
  (∀ res r', res ≠ Throws → ends good F res r' → wp (k res) (ends good' F') r') → wp (result ← attempt m; k result) (ends good' F') r.
Proof.
  intros Hm Hk. apply wp_bind, wp_attempt. eapply wp_mono; [|exact Hm]. intros [x|code|] r' Hr'; [by apply next_ok, Hk..|done].
Qed.

Lemma wp_for_each_quiet {A} e (m : A → On run_state ()) l F good r :
  (∀ x, keeps quiet (m x)) → (∀ x r code, (m x r).1 = Fail code → F code e) → at_entry b r0 i e r →
  (∀ r', at_entry b r0 i e r' → good () r') → wp (for_each m l) (ends good F) r.
Proof.
  intros Hq Hf Hr Hg. revert r Hr. induction l as [|x l IH]; intros r Hr; [by apply wp_ret, Hg|]. simpl.
  apply wp_bind. pose proof (at_entry_quiet b r0 i e r _ Hr (Hq x r)) as Hr'. specialize (Hf x r).
  unfold wp. destruct (m x r) as [[[]|code|] r1]; simpl in *; [by apply IH| |done]. exists e. split; [by apply Hf|done].
Qed.

Lemma wp_then_status {B} e state (k : () → On run_state B) (Q : result B → run_state → Prop) r :
  at_entry b r0 i e r → (∀ r', at_entry b r0 i e r' → wp (k ()) Q r') → wp (UpdateInstallerState state ≫= k) Q r.
Proof.
  intros Hr Hk. apply wp_bind, wp_UpdateInstallerState. intros n. apply next_ok, Hk. eapply at_entry_quiet; [exact Hr|done].
Qed.

(** installd answers none of the codes without a roll back. *)
Definition rename_codes : Prop := ∀ from to (e : E) code, (Service.RenameModuleDir from to e).1 = Fail code → no_rollback code = false.

Lemma wp_install_files path sg param r :
  rename_codes →
  shape r0 = [(path, sg)] → in_isAppExist i = false → in_singletonState i = Singleton_DEFAULT → in_uninstallModuleVec i = [] →
  at_entry b r0 i (None, None) r →
  wp (install_files param) (ends (λ _ r', ∃ info, installed sg info ∧ at_entry b r0 i (Some info, Some INSTALL_START) r') nothing) r.
Proof.
  intros Hren Hsh Hex Hss Hum Hr. unfold install_files.
  assert (∀ code, nothing code (None, None)) as Hno by done.
  eapply wp_then; [exact Hno|exact Hr|by intros ?|]. intros x1 r1 Hr1.
  eapply wp_attempt_then; [by apply (wp_InnerProcessBundleInstall path sg)|]. intros res r2 Hres Hr2.
  eapply (wp_check_result path sg); [done..|]. clear -Hb Hname Hss Hum Hren Hsh Hex. intros r (info & Hin & Hr).
  eapply wp_then_status; [exact Hr|]. intros r1 Hr1. apply wp_bind, wp_gets, next_ok.
  eapply (wp_attempt_then _ (λ _ r', ∃ info, installed sg info ∧ at_entry b r0 i (Some info, Some INSTALL_START) r') undone).
  { eapply wp_for_each_quiet; [| |exact Hr1|by intros; exists info].
    - intros p. quiet_auto.
    - intros p r2 code Hf. right. split; [done|]. destruct (negb _); [|done]. simpl in Hf. unfold RenameModuleDir, on, on_env, within in Hf.
      destruct (Service.RenameModuleDir _ _ _) as [res e] eqn:Er. simpl in Hf. eapply Hren. by rewrite Er. }
  intros res r2 Hres Hr2.
  assert (∃ e, at_entry b r0 i e r2 ∧ (∀ r3, at_entry b r0 i e r3 → ends (A := ()) (λ _ r', ∃ info, installed sg info ∧ at_entry b r0 i (Some info, Some INSTALL_START) r') undone res r3)) as (e & He & Hnew).
  { destruct res as [[]|code|]; [| |done].
    - destruct Hr2 as (info2 & H1 & H2). eexists. split; [exact H2|]. intros r3 Hr3. by exists info2.
    - destruct Hr2 as (e & H1 & H2). exists e. split; [done|]. intros r3 Hr3. by exists e. }
  eapply wp_then_status; [exact He|]. intros r3 Hr3%Hnew.
  eapply (wp_check_result path sg); [done..|]. clear -Hb Hname Hss Hum. intros r (info & Hin & Hr).
  apply wp_bind. eapply wp_self; [exact Hr|intros j Hj; by injection Hj|]. apply next_ok. rewrite Hum. simpl. apply wp_bind, wp_ret, next_ok.
  eapply wp_then_total; [exact Hr|solve [unfold SaveHapPathToRecords; quiet_auto]| |]. 
  { intros. unfold SaveHapPathToRecords. destruct (ip_isPreInstallApp param); by eexists. }
  intros [] r1 Hr1. eapply wp_then_status; [exact Hr1|]. intros r2 Hr2.
  eapply wp_then_total; [exact Hr2|solve [quiet_auto]| |].
  { intros. destruct (bool_decide _); by eexists. }
  intros [] r3 Hr3. unfold OnSingletonChange. apply wp_bind. eapply wp_self; [exact Hr3|intros j Hj; by injection Hj|].
  apply next_ok. rewrite Hss. apply wp_ret. by exists info.
Qed.
End Fresh.

(** ** The checks before *)

Section Prepared.
Context {K P T E : Type} `{HK : KvStore K} `{HP : TextStore P} `{HX : JsonText} `{HU : Uninit} `{HT : AccessTokenKit T}
  `{HE : Environment E} `{HS : StdSort} `{HJ : BundleStateStorage.Json}.
#[local] Abbreviation run_state := (Run K P T E).
Implicit Types (r : run_state).

(** The members a new bundle is decided by. *)
Definition flags (i : Installer) := (in_isAppExist i, in_singletonState i, in_uninstallModuleVec i).

(** Only the local variables and other members have changed. *)
Definition prepared r r' : Prop := flags (rn_self r') = flags (rn_self r) ∧ infos r' = infos r ∧ states r' = states r.

#[export] Instance prepared_preorder : PreOrder prepared.
Proof. split; [done|]. intros r1 r2 r3 (H1 & H2 & H3) (H4 & H5 & H6). split_and!; by etrans. Qed.

Lemma prepared_of_quiet {A} (m : On run_state A) : keeps quiet m → keeps prepared m.
Proof.
  intros Hm r. destruct (quiet_parts _ _ (Hm r)) as (Hc & Hi & Hs & _). split_and!; [|done..]. unfold flags. unfold core in Hc.
  injection Hc as _ _ -> -> ->. done.
Qed.

Lemma prepared_put f : (∀ i, flags (f i) = flags i) → keeps prepared (put (K := K) (P := P) (T := T) (E := E) f).
Proof. intros Hf r. split_and!; [apply Hf|done..]. Qed.

Lemma prepared_parse_files files param appType packInfo l :
  keeps prepared (parse_files (K := K) (P := P) (T := T) (E := E) files param appType packInfo l).
Proof.
  revert packInfo l. induction files as [|[path provision] files IH]; intros packInfo l; [apply (keeps_ret prepared)|].
  cbn [parse_files]. unfold ParseBundleInfo, CheckSystemSize.
  apply (keeps_bind prepared); [apply prepared_of_quiet; quiet_auto|]. intros [info packInfo'].
  apply (keeps_bind prepared); [apply prepared_of_quiet; quiet_auto|]. intros x.
  apply (keeps_bind prepared); [apply prepared_of_quiet; quiet_auto|]. intros y.
  apply (keeps_bind prepared); [apply prepared_of_quiet; quiet_auto|]. intros z.
  apply (keeps_bind prepared); [apply prepared_of_quiet; quiet_auto|]. intros t. apply IH.
Qed.

Lemma prepared_ParseHapFiles paths param appType provisions :
  keeps prepared (ParseHapFiles (K := K) (P := P) (T := T) (E := E) paths param appType provisions).
Proof. unfold ParseHapFiles. apply (keeps_bind prepared); [apply prepared_parse_files|]. by intros x r. Qed.

Lemma quiet_check_hashes l names params : keeps quiet (check_hashes (K := K) (P := P) (T := T) (E := E) l names params).
Proof.
  revert names params. induction l as [|[path info] l IH]; intros names params; [apply (keeps_ret quiet)|].
  cbn [check_hashes]. quiet_auto; [|apply IH..]. apply quiet_upd. intros i. apply IsSingleton_on_current.
Qed.

Lemma quiet_verify_all paths : keeps quiet (verify_all (K := K) (P := P) (T := T) (E := E) paths).
Proof. induction paths as [|path paths IH]; cbn [verify_all]; quiet_auto. Qed.

Lemma quiet_CheckMultipleHapsSignInfo paths : keeps quiet (CheckMultipleHapsSignInfo (K := K) (P := P) (T := T) (E := E) paths).
Proof. unfold CheckMultipleHapsSignInfo. quiet_auto. apply quiet_verify_all. Qed.

Lemma quiet_CheckHapHashParams params : keeps quiet (CheckHapHashParams (K := K) (P := P) (T := T) (E := E) params).
Proof. unfold CheckHapHashParams. quiet_auto. apply quiet_check_hashes. Qed.

Lemma quiet_CheckSysCap paths : keeps quiet (CheckSysCap (K := K) (P := P) (T := T) (E := E) paths).
Proof. unfold CheckSysCap. quiet_auto. Qed.

Lemma prepared_CheckAppLabelInfo : keeps prepared (CheckAppLabelInfo (K := K) (P := P) (T := T) (E := E)).
Proof.
  unfold CheckAppLabelInfo. apply (keeps_bind prepared); [apply (keeps_gets prepared)|]. intros [|[p first] l]; [apply (keeps_throws prepared)|].
  apply (keeps_bind prepared); [by apply prepared_put|]. intros _.
  apply (keeps_bind prepared); [apply prepared_of_quiet; quiet_auto|]. intros _. by apply prepared_put.
Qed.

Lemma prepared_enter_user userId : keeps prepared (enter_user (K := K) (P := P) (T := T) (E := E) userId).
Proof.
  unfold enter_user. apply (keeps_bind prepared); [by apply prepared_put|]. intros _. apply prepared_of_quiet. quiet_auto.
Qed.
End Prepared.

(** ** A new bundle *)

Section NewBundle.
Context {K P T E : Type} `{HK : KvStore K} `{HP : TextStore P} `{HX : JsonText} `{HU : Uninit} `{HT : AccessTokenKit T}
  `{HE : Environment E} `{HS : StdSort} `{HJ : BundleStateStorage.Json}.
#[local] Abbreviation run_state := (Run K P T E).
#[local] Abbreviation service := (Service K P T E).
Implicit Types (r : run_state).

(** But for its status and the sandbox applications that are noted in it. *)
Definition plain (info : InnerBundleInfo) : InnerBundleInfo :=
  info <| ib_sandboxPersistentInfo := [] |> <| ib_bundleStatus := BundleStatus_ENABLED |>.
Definition plain_entry b (m : BundleDataMgr K) : entry := (plain <$> dm_bundleInfos m !! b, dm_installStates m !! b).

(** No other entry changes, and that of the bundle not in what counts. *)
Definition apart b (m m' : BundleDataMgr K) : Prop := plain_entry b m' = plain_entry b m ∧ others_mgr b m m'.

#[export] Instance apart_preorder b : PreOrder (apart b).
Proof. split; [done|]. intros m1 m2 m3 [H1 H2] [H3 H4]. split; [by rewrite H3|by eapply others_trans]. Qed.

Lemma apart_same b m m' :
  dm_bundleInfos m' = dm_bundleInfos m → dm_installStates m' = dm_installStates m → apart b m m'.
Proof. intros H1 H2. unfold apart, others_mgr, mgr_entry, plain_entry. by rewrite H1, H2. Qed.

Lemma apart_absent b m m' : apart b m m' → mgr_entry b m = (None, None) → mgr_entry b m' = (None, None).
Proof.
  unfold apart, plain_entry, mgr_entry. intros [Ha _] [= H1 H2]. rewrite H1, H2 in Ha. injection Ha as Ha ->. by destruct (_ !! b).
Qed.

Lemma apart_present b m m' old s :
  apart b m m' → mgr_entry b m = (Some old, s) → ∃ old', mgr_entry b m' = (Some old', s) ∧ plain old' = plain old.
Proof.
  unfold apart, plain_entry, mgr_entry. intros [Ha _] [= H1 H2]. rewrite H1, H2 in Ha.
  pose proof (f_equal fst Ha) as H3. pose proof (f_equal snd Ha) as H4. simpl in H3, H4. rewrite H4.
  destruct (dm_bundleInfos m' !! b) as [old'|]; [|done]. exists old'. split; [done|]. by apply (inj Some) in H3.
Qed.

Definition apart_service b (s s' : service) : Prop := apart b (sv_mgr s) (sv_mgr s').
#[export] Instance apart_service_preorder b : PreOrder (apart_service b).
Proof. split; [intros s; by unfold apart_service|]. intros s1 s2 s3 H1 H2. unfold apart_service in *. by etrans. Qed.

Lemma apart_RecycleUidAndGid b i (m : BundleDataMgr K) : apart b m (RecycleUidAndGid i m).
Proof.
  assert (dm_bundleInfos (RecycleUidAndGid i m) = dm_bundleInfos m ∧ dm_installStates (RecycleUidAndGid i m) = dm_installStates m) as [H1 H2].
  { unfold RecycleUidAndGid. by repeat case_match. }
  by apply apart_same.
Qed.

Lemma apart_DeleteSandbox b p (m : BundleDataMgr K) : apart b m (DeleteSandboxPersistentInfo b p m).
Proof.
  unfold DeleteSandboxPersistentInfo. destruct (str_empty b); [done|]. destruct (dm_bundleInfos m !! b) as [i|] eqn:Ei; [|done].
  set (i' := RemoveSandboxPersistentInfo p i).
  destruct (save_same i' (m <| dm_bundleInfos ::= insert b i' |>)) as (_ & H1 & H2 & _). simpl in H1, H2.
  unfold apart, others_mgr, mgr_entry, plain_entry. rewrite H1, H2. split.
  - by rewrite sm_lookup_insert_eq, Ei.
  - intros c Hc. by rewrite sm_lookup_insert_ne.
Qed.

Lemma apart_on_mgr {A} b (f : BundleDataMgr K → BundleDataMgr K * A) :
  (∀ m, apart b m (f m).1) → keeps (apart_service b) (on_mgr (P := P) (T := T) (E := E) f).
Proof. intros Hf. apply keeps_within. intros s. unfold run. specialize (Hf (sv_mgr s)). destruct (f (sv_mgr s)). apply Hf. Qed.

Lemma apart_on_tokens {A} b (f : T → T * A) : keeps (apart_service b) (on_tokens (K := K) (P := P) (E := E) f).
Proof. apply keeps_within. intros s. unfold apart_service. by destruct (run f _). Qed.
Lemma apart_on_env {A} b (m : On E A) : keeps (apart_service b) (on_env (K := K) (P := P) (T := T) m).
Proof. apply keeps_within. intros s. unfold apart_service. by destruct (m _). Qed.
Lemma apart_on_sandbox {A} b (f : BundleSandboxDataMgr → BundleSandboxDataMgr * A) : keeps (apart_service b) (on_sandbox (K := K) (P := P) (T := T) (E := E) f).
Proof. apply keeps_within. intros s. unfold apart_service. by destruct (run f _). Qed.
Lemma apart_tells b n : keeps (apart_service b) (tells n).
Proof. apply keeps_modify. intros s. unfold apart_service. by destruct s. Qed.
Lemma apart_ask_mgr {A} b (f : BundleDataMgr K → A) : keeps (apart_service b) (ask_mgr (P := P) (T := T) (E := E) f).
Proof. apply (keeps_gets (apart_service b)). Qed.
#[local] Hint Resolve apart_on_tokens apart_on_env apart_on_sandbox apart_tells apart_ask_mgr : keeps.

Lemma apart_UninstallSandboxApp b n u : keeps (apart_service b) (UninstallSandboxApp (K := K) (P := P) (T := T) (E := E) b n u).
Proof.
  unfold UninstallSandboxApp, recycle_sandbox, DeleteSandboxPersitentInfo, NotifySandboxAppStatus. keeps_auto.
  - apply apart_on_mgr. intros m. apply apart_RecycleUidAndGid.
  - apply apart_on_mgr. intros m. apply apart_DeleteSandbox.
Qed.

Lemma apart_UninstallAllSandboxApps b u : keeps (apart_service b) (Sandbox.UninstallAllSandboxApps (K := K) (P := P) (T := T) (E := E) b u).
Proof. unfold Sandbox.UninstallAllSandboxApps, uninstall_matching. keeps_auto. apply apart_UninstallSandboxApp. Qed.


Lemma prepared_check_files paths param appType : keeps prepared (check_files (K := K) (P := P) (T := T) (E := E) paths param appType).
Proof.
  unfold check_files.
  apply (keeps_bind prepared); [apply prepared_enter_user|intros _].
  do 2 (apply (keeps_bind prepared); [apply prepared_of_quiet; quiet_auto|intros ?]).
  apply (keeps_bind prepared); [apply prepared_of_quiet, quiet_CheckSysCap|intros _].
  apply (keeps_bind prepared); [apply prepared_of_quiet; quiet_auto|intros ?].
  apply (keeps_bind prepared); [apply prepared_of_quiet, quiet_CheckMultipleHapsSignInfo|intros ?].
  apply (keeps_bind prepared); [apply prepared_of_quiet; quiet_auto|intros ?].
  apply (keeps_bind prepared); [apply prepared_ParseHapFiles|intros ?].
  apply (keeps_bind prepared); [apply prepared_of_quiet; quiet_auto|intros ?].
  apply (keeps_bind prepared); [apply prepared_of_quiet, quiet_CheckHapHashParams|intros ?].
  apply (keeps_bind prepared); [apply prepared_of_quiet; quiet_auto|intros ?].
  apply (keeps_bind prepared); [apply prepared_CheckAppLabelInfo|intros ?].
  apply prepared_of_quiet; quiet_auto.
Qed.

(** A bundle that is in the store, can be used and is there for the user. *)
Definition usable (userId : Z) (sg : bool) (info : InnerBundleInfo) : Prop :=
  ib_bundleStatus info = BundleStatus_ENABLED ∧ IsSingleton info = sg ∧ singleton_fits sg userId = true
  ∧ (GetInnerBundleUserInfo userId info new_InnerBundleUserInfo).1 = true.

(** What the installation of one HAP of the new bundle [b] leaves. *)
Definition fresh_outcome b r0 (userId : Z) (sg : bool) (res : result ()) r : Prop :=
  match res with
  | Ok _ => ∃ info, usable userId sg info ∧ entry_of b r = (Some info, Some INSTALL_SUCCESS)
  | Fail _ => entry_of b r = (None, None)
  | Throws => True
  end ∧ (res ≠ Throws → others_mgr b (sv_mgr (rn_service r0)) (sv_mgr (rn_service r))).

Lemma wp_guarded_install path sg param r :
  rename_codes (E := E) → shape r = [(path, sg)] → flags (rn_self r) = (false, Singleton_DEFAULT, []) →
  let b := in_bundleName (rn_self r) in b ≠ "" → entry_of b r = (None, None) →
  wp (finally (install_state INSTALL_SUCCESS ;; mret ()) (finally (name ← self in_bundleName; enable name) (install_files param)))
    (fresh_outcome b r (in_userId (rn_self r)) sg) r.
Proof.
  intros Hren Hsh Hfl b Hb He. injection Hfl as Hex Hss Hum.
  pose proof (at_entry_start b r) as Hr. rewrite He in Hr.
  apply wp_finally, wp_finally. eapply wp_mono; [|by apply (wp_install_files b r (rn_self r) Hb eq_refl path sg)].
  assert (∀ (res : result ()) e r1, res ≠ Throws → at_entry b r (rn_self r) e r1 →
    (∀ r2, at_entry b r (rn_self r) (after_state INSTALL_SUCCESS (with_status BundleStatus_ENABLED e)).1 r2 →
      fresh_outcome b r (in_userId (rn_self r)) sg res r2) →
    cleaned (name ← self in_bundleName; enable name)
      (cleaned (install_state INSTALL_SUCCESS ;; mret ()) (fresh_outcome b r (in_userId (rn_self r)) sg)) res r1) as Hend.
  { intros res e r1 Hres Hr1 HQ. unfold cleaned. apply wp_bind. eapply wp_self; [exact Hr1|intros j Hj; by injection Hj|].
    apply next_ok. eapply wp_enable; [done|exact Hr1|]. intros r2 Hr2. apply wp_bind.
    eapply wp_install_state; [done|exact Hr2|done|]. intros r3 Hr3. apply next_ok, wp_ret, HQ, Hr3. }
  intros [[]|code|] r1 H.
  - destruct H as (info & (H1 & H2 & H3) & Hr1). eapply Hend; [done|exact Hr1|]. intros r2 (_ & _ & Hr2 & Ho).
    split; [|done]. eexists. split; [|exact Hr2]. done.
  - destruct H as (e & -> & Hr1). eapply Hend; [done|exact Hr1|]. intros r2 (_ & _ & Hr2 & Ho). by split.
  - unfold cleaned, wp. repeat (match goal with |- match ?x with _ => _ end => destruct x end); split; done.
Qed.

Lemma wp_UninstallAllSandboxApps b u (Q : result () → run_state → Prop) r :
  (∀ r', rn_self r' = rn_self r → rn_new r' = rn_new r → apart b (sv_mgr (rn_service r)) (sv_mgr (rn_service r')) → Q (Ok ()) r') →
  (∀ r', Q Throws r') → wp (ignore (UninstallAllSandboxApps b u)) Q r.
Proof.
  intros HQ Ht. apply wp_ignore. unfold UninstallAllSandboxApps. apply wp_bind, wp_check; intros _; [apply next_ok|by apply HQ].
  apply wp_bind, wp_attempt, wp_on. pose proof (apart_UninstallAllSandboxApps b u (rn_service r)) as Ha. unfold wp.
  destruct (Sandbox.UninstallAllSandboxApps b u (rn_service r)) as [[]]; simpl in *; [by apply HQ..|apply Ht].
Qed.

Lemma fresh_outcome_mono b r0 r1 u sg res r :
  others_mgr b (sv_mgr (rn_service r0)) (sv_mgr (rn_service r1)) → fresh_outcome b r1 u sg res r → fresh_outcome b r0 u sg res r.
Proof. intros Ho [H1 H2]. split; [done|]. intros Hres. eapply others_trans; [exact Ho|by apply H2]. Qed.

(** What comes before the guards. *)
Lemma wp_before_guards (m : On run_state ()) (Q : result () → run_state → Prop) r r1 :
  prepared r r1 → (∀ r', Q Throws r') →
  (∀ r2, let b := in_bundleName (rn_self r1) in
    rn_new r2 = rn_new r1 → rn_self r2 = (rn_self r1) <| in_state := INSTALL_REMOVE_SANDBOX_APP |> →
    apart b (sv_mgr (rn_service r)) (sv_mgr (rn_service r2)) → wp m Q r2) →
  wp (bundleName ← self in_bundleName; ignore (UninstallAllSandboxApps bundleName INVALID_USERID) ;;
      UpdateInstallerState INSTALL_REMOVE_SANDBOX_APP ;; m) Q r1.
Proof.
  intros (_ & Hi & Hs) Ht Hm. apply wp_bind, wp_gets, next_ok, wp_bind, wp_UninstallAllSandboxApps; [|done].
  intros r2 Hself Hnew Ha. apply next_ok, wp_bind, wp_UpdateInstallerState. intros n. apply next_ok, Hm; [done|simpl; by rewrite Hself|].
  etrans; [|exact Ha]. by apply apart_same.
Qed.

(** C33: installing one HAP of a bundle that is not there: a HAP that a check
    refuses changes no bundle; otherwise, when installd answers no code that is
    spared the roll back, the bundle is afterwards in the store, enabled, in
    state INSTALL_SUCCESS, with the user it was installed for, and a singleton
    exactly for the default user - or the code is an error and neither its
    information nor an install state is left.  No other bundle's entry changes. *)
Theorem ProcessBundleInstall_fresh paths param appType r :
  rename_codes (E := E) → flags (rn_self r) = (false, Singleton_DEFAULT, []) →
  let '(res, r') := ProcessBundleInstall paths param appType r in
  match check_files paths param appType r with
  | (Throws, _) => res = Throws
  | (Fail code, _) => res = Fail code ∧ infos r' = infos r ∧ states r' = states r
  | (Ok _, r1) => ∀ path first, let b := in_bundleName (rn_self r1) in
      rn_new r1 = [(path, first)] → b ≠ "" → entry_of b r = (None, None) →
      fresh_outcome b r (in_userId (rn_self r1)) (IsSingleton first) res r'
  end.
Proof.
  intros Hren Hfl. pose proof (prepared_check_files paths param appType r) as Hp.
  unfold ProcessBundleInstall, mbind at 1, On_bind. destruct (check_files paths param appType r) as [[[]|code|] r1]; simpl in Hp; [|by destruct Hp as (_ & H1 & H2)|done].
  match goal with |- let '(_, _) := ?m r1 in _ => enough (∀ path first, let b := in_bundleName (rn_self r1) in
      rn_new r1 = [(path, first)] → b ≠ "" → entry_of b r = (None, None) →
      wp m (fresh_outcome b r (in_userId (rn_self r1)) (IsSingleton first)) r1) as Hwp by (unfold wp in Hwp; by destruct (m r1)) end.
  intros path first b Hn Hb He. apply (wp_before_guards _ _ r); [done|by intros; split|].
  intros r2 b2 Hnew Hself Ha. subst b2. fold b in Ha. eapply wp_mono; [intros x r4; by eapply fresh_outcome_mono, Ha|].
  replace b with (in_bundleName (rn_self r2)) by (by rewrite Hself).
  replace (in_userId (rn_self r1)) with (in_userId (rn_self r2)) by (by rewrite Hself).
  eapply (wp_guarded_install path).
  - done.
  - unfold shape. by rewrite Hnew, Hn.
  - rewrite Hself, <- Hfl. apply Hp.
  - by rewrite Hself.
  - rewrite Hself. by eapply apart_absent.
Qed.
End NewBundle.

(** ** Uninstalling a bundle *)

Section Uninstall.
Context {K P T E : Type} `{HK : KvStore K} `{HP : TextStore P} `{HX : JsonText} `{HU : Uninit} `{HT : AccessTokenKit T}
  `{HE : Environment E} `{HS : StdSort} `{HJ : BundleStateStorage.Json}.
#[local] Abbreviation run_state := (Run K P T E).
Implicit Types (r : run_state).

Context (b : string) (r0 : run_state).
Hypothesis (Hb : b ≠ "").

Definition apart_from_others r : Prop := others_mgr b (sv_mgr (rn_service r0)) (sv_mgr (rn_service r)).
(** The entry, and the local [oldInfo]. *)
Definition holds (e : entry) (old : InnerBundleInfo) r : Prop := entry_of b r = e ∧ rn_old r = old ∧ apart_from_others r.

Lemma holds_at e old r : holds e old r → at_entry b r (rn_self r) e r.
Proof. intros (<- & _). apply at_entry_start. Qed.

Lemma holds_of e e' old old' r r' : holds e old r → at_entry b r (rn_self r) e' r' → rn_old r' = old' → holds e' old' r'.
Proof. intros (_ & _ & H1) (_ & _ & H2 & H3) H4. split_and!; [done..|]. eapply others_trans; eauto. Qed.

(** Programs on the service leave the local variables alone. *)
Lemma wp_on_old {A} (m : On (Service K P T E) A) (Q : result A → run_state → Prop) r :
  wp (on m) (λ x r', rn_old r' = rn_old r → rn_self r' = rn_self r → Q x r') r → wp (on m) Q r.
Proof. unfold wp, on, within. destruct (m (rn_service r)) as [x s]. simpl. auto. Qed.

Lemma wp_holds_state e old s (Q : result bool → run_state → Prop) r :
  holds e old r → (∀ r', holds (after_state s e).1 old r' → rn_self r' = rn_self r → Q (Ok (after_state s e).2) r') →
  wp (on (on_mgr (UpdateBundleInstallState b s))) Q r.
Proof.
  intros Hr HQ. apply wp_on_old. eapply wp_update_state; [done|by eapply holds_at|]. intros r' Hr' Hold Hself.
  apply HQ; [|done]. eapply holds_of; [done..|]. rewrite Hold. by destruct Hr as (_ & -> & _).
Qed.

Lemma wp_holds_enable e old (Q : result () → run_state → Prop) r :
  holds e old r → (∀ r', holds (with_status BundleStatus_ENABLED e) old r' → Q (Ok ()) r') → wp (enable b) Q r.
Proof.
  intros Hr HQ. unfold enable. apply wp_bind, wp_on_old, wp_on, wp_on_mgr. unfold EnableBundle.
  destruct (set_status_entry BundleStatus_ENABLED b (sv_mgr (rn_service r)) Hb) as (H1 & _ & H3).
  destruct (set_status _ _ _) as [m o]. simpl in *. intros _ _. apply next_ok, wp_ret, HQ. destruct Hr as (<- & <- & Ho).
  split_and!; [done..|]. by eapply others_trans.
Qed.

Lemma wp_holds_quiet {A} e old (m : On run_state A) (Q : result A → run_state → Prop) r :
  holds e old r → keeps quiet m → (∀ x r' old', holds e old' r' → Q x r') → wp m Q r.
Proof.
  intros Hr Hm HQ. eapply wp_keeps; [exact Hm|]. intros x r' Hq. eapply HQ, holds_of; [exact Hr| |done].
  eapply at_entry_quiet; [by eapply holds_at|done].
Qed.

(** A program that asks the service, with an answer that does not matter. *)
Lemma wp_holds_ask {A} e old (m : On (Service K P T E) A) (Q : result A → run_state → Prop) r :
  holds e old r → keeps quiet (on m) → (∀ x r', holds e old r' → rn_self r' = rn_self r → Q x r') → wp (on m) Q r.
Proof.
  intros Hr Hm HQ. apply wp_on_old. eapply wp_keeps; [exact Hm|]. intros x r' Hq Hold Hself. apply HQ; [|done].
  eapply holds_of; [exact Hr| |rewrite Hold; by destruct Hr as (_ & -> & _)]. eapply at_entry_quiet; [by eapply holds_at|done].
Qed.

(** The bundle is enabled, when it is there. *)
Definition enabled (e : entry) : Prop := match e.1 with Some info => ib_bundleStatus info = BundleStatus_ENABLED | None => True end.

Lemma enabled_with_status e : enabled (with_status BundleStatus_ENABLED e).
Proof. by destruct e as [[i|] s]. Qed.

Lemma wp_RemoveBundle_single info old keep r :
  GetBundleName old = b → holds (Some info, Some UNINSTALL_START) old r →
  wp (RemoveBundle OldInfo keep) (λ res r', res = Throws ∨ ∃ old', holds (None, None) old' r') r.
Proof.
  intros Hn Hr. unfold RemoveBundle. apply wp_bind, wp_gets, next_ok. pose proof Hr as (_ & Ho & _). simpl. rewrite Ho, Hn.
  apply wp_bind, wp_attempt. eapply wp_holds_quiet; [exact Hr|solve [quiet_auto]|]. intros [[]|code|] r1 old1 Hr1; [| |by left].
  - apply next_ok, wp_bind. eapply wp_holds_state; [exact Hr1|]. simpl. intros r2 Hr2 _. apply wp_bind, wp_ret, next_ok.
    eapply wp_holds_quiet; [exact Hr2|solve [quiet_auto]|]. intros x r3 old3 Hr3. right. by exists old3.
  - apply next_ok, wp_bind. eapply wp_holds_state; [exact Hr1|]. simpl. intros r2 Hr2 _. apply wp_answer. right. by exists old1.
Qed.

(** The information of a bundle without one of its users. *)
Definition without_user (userId : Z) (info : InnerBundleInfo) : InnerBundleInfo :=
  SetBundleStatus BundleStatus_ENABLED (InnerBundleInfo.RemoveInnerBundleUserInfo userId info).

Lemma wp_RemoveInnerBundleUserInfo info s u old (Q : result bool → run_state → Prop) r :
  holds (Some info, s) old r → (∀ ok r', holds (Some (without_user u info), s) old r' → Q (Ok ok) r') → (∀ r', Q Throws r') →
  wp (on (on_mgr_opt (BundleDataMgr.RemoveInnerBundleUserInfo b u))) Q r.
Proof.
  intros (He & Ho & Hot) HQ Ht. apply wp_on. unfold on_mgr_opt. apply wp_within. unfold run_opt, BundleDataMgr.RemoveInnerBundleUserInfo.
  injection He as Hi Hs. rewrite Hi. fold (without_user u info). pose proof (save_same (without_user u info)
    ((sv_mgr (rn_service r)) <| dm_bundleInfos ::= insert b (without_user u info) |>)) as (_ & H1 & H2 & _).
  destruct (save _ _) as [m ok]. simpl in H1, H2.
  assert (∀ m', dm_bundleInfos m' = dm_bundleInfos m → dm_installStates m' = dm_installStates m →
    holds (Some (without_user u info), s) old (set_service (set_mgr m' (rn_service r)) r)) as Hm.
  { intros m' Hi' Hs'. split_and!; [|exact Ho|].
    - unfold entry_of, mgr_entry. simpl. by rewrite Hi', H1, Hs', H2, sm_lookup_insert_eq, Hs.
    - intros c Hc. rewrite <- (Hot c Hc). unfold mgr_entry. simpl. by rewrite Hi', H1, Hs', H2, sm_lookup_insert_ne. }
  destruct ok; simpl; [|by apply HQ, Hm]. destruct (DeleteBundleState _ _ _) as [[file []]|]; [by apply HQ, Hm..|apply Ht].
Qed.

Lemma wp_RemoveBundleUserData info s old keep r :
  GetBundleName old = b → holds (Some info, s) old r →
  wp (RemoveBundleUserData OldInfo keep) (λ res r', match res with
    | Ok _ => HasInnerBundleUserInfo (in_userId (rn_self r)) old = true
              ∧ ∃ old', holds (Some (without_user (in_userId (rn_self r)) info), s) old' r'
    | Fail _ => ∃ e old', holds e old' r'
    | Throws => True
    end) r.
Proof.
  intros Hn Hr. unfold RemoveBundleUserData. pose proof Hr as (_ & Ho & _). apply wp_bind, wp_gets, next_ok, wp_bind, wp_gets, next_ok. simpl.
  rewrite Ho, Hn. apply wp_bind, wp_check; intros Hu; [|by do 2 eexists]. apply next_ok, wp_bind.
  eapply wp_holds_quiet; [exact Hr|solve [quiet_auto]|]. intros [x|code|] r1 old1 Hr1; [|by do 2 eexists|done]. apply next_ok, wp_bind.
  eapply wp_holds_quiet; [exact Hr1|solve [quiet_auto]|]. intros [x'|code|] r2 old2 Hr2; [|by do 2 eexists|done]. apply next_ok, wp_bind, wp_modify, next_ok, wp_bind.
  eapply wp_RemoveInnerBundleUserInfo; [by destruct Hr2 as (H1 & _ & H2); split_and!; [exact H1|reflexivity|exact H2]| |by intros].
  intros ok r3 Hr3. apply next_ok, wp_check; intros Hok; [|by do 2 eexists]. split; [done|]. by eexists.
Qed.

Definition asked (param : InstallParam) : Z := GetUserId (ip_userId param).

(** What ProcessBundleUninstall leaves of a bundle. *)
Definition uninstall_outcome (param : InstallParam) (res : result ()) r : Prop :=
  match res with
  | Throws => True
  | _ => apart_from_others r ∧ (enabled (entry_of b r) ∨ entry_of b r = entry_of b r0)
  end ∧
  match res with
  | Ok _ => ∃ info s, entry_of b r0 = (Some info, s) ∧ (GetInnerBundleUserInfo (asked param) info new_InnerBundleUserInfo).1 = true
      ∧ may_uninstall param info = true
      ∧ if (1 <? sm_size (ib_innerBundleUserInfos info))%nat
        then entry_of b r = (Some (without_user (asked param) (SetBundleStatus BundleStatus_DISABLED info)), s)
        else entry_of b r = (None, None)
  | _ => True
  end.

Lemma wp_enter_user u e old (Q : result () → run_state → Prop) r :
  holds e old r → (∀ code r' old', holds e old' r' → Q (Fail code) r') →
  (∀ r', holds e old r' → in_userId (rn_self r') = GetUserId u → in_cloneMgr (rn_self r') = in_cloneMgr (rn_self r) → Q (Ok ()) r') →
  wp (enter_user u) Q r.
Proof.
  intros Hr Hf HQ. unfold enter_user. apply wp_bind, wp_modify, next_ok, wp_bind, wp_gets, next_ok. simpl.
  apply wp_bind, wp_check; intros _; [apply next_ok|by eapply Hf]. apply wp_bind, wp_on, wp_gets, next_ok, wp_check; intros _; [|by eapply Hf].
  apply HQ; [|done..]. done.
Qed.

Lemma wp_find_installed param e (Q : result () → run_state → Prop) r old :
  holds e old r →
  (∀ code r' old', holds e old' r' → Q (Fail code) r') →
  (∀ info s r', let info' := SetBundleStatus BundleStatus_DISABLED info in
    e = (Some info, s) → holds (Some info', s) info' r' → in_userId (rn_self r') = asked param →
    in_cloneMgr (rn_self r') = in_cloneMgr (rn_self r) → Q (Ok ()) r') →
  wp (find_installed b param) Q r.
Proof.
  intros Hr Hf HQ. unfold find_installed. apply wp_bind. eapply wp_enter_user; [exact Hr|done|]. intros r1 Hr1 Hu Hc. apply next_ok.
  apply wp_bind, wp_modify, next_ok, wp_bind. unfold fetch. apply wp_bind, wp_on_old. eapply (wp_get_inner b _ _ e); [done|by destruct Hr1 as (<- & _)|].
  simpl. intros r2 Hr2 Hold Hself.
  assert (∀ old', rn_old r2 = old' → holds (with_status BundleStatus_DISABLED e) old' r2) as Hh.
  { intros old' Ho. destruct Hr1 as (_ & _ & Hot). destruct Hr2 as (_ & _ & H1 & H2). split_and!; [done..|]. eapply others_trans; eauto. }
  destruct e as [[info|] s]; simpl in *.
  - apply wp_bind, wp_modify, next_ok, wp_ret, next_ok, wp_bind, wp_ret, next_ok, wp_bind, wp_gets, next_ok, wp_modify. apply (HQ info s); [done| |..].
    + specialize (Hh _ eq_refl). destruct Hh as (H1 & _ & H2). by split_and!.
    + simpl. by rewrite Hself.
    + simpl. by rewrite Hself.
  - apply wp_ret. by eapply Hf, Hh.
Qed.

Lemma GetBundleName_mark n p st i : GetBundleName (SetInstallMark n p st i) = GetBundleName i.
Proof. done. Qed.

(** The last user's bundle. *)
Definition last_user (param : InstallParam) : On run_state bool :=
  started ← on (on_mgr (UpdateBundleInstallState b UNINSTALL_START));
  check started ERR_APPEXECFWK_INSTALL_BUNDLE_MGR_SERVICE_ERROR ;;
  uid ← gets rn_uid;
  when (ip_noSkipsKill param)
    (killed ← kill OldInfo uid;
     when (negb killed)
       (on (on_mgr (UpdateBundleInstallState b INSTALL_SUCCESS)) ;; fail ERR_APPEXECFWK_UNINSTALL_KILLING_APP_ERROR)) ;;
  mark OldInfo b "" UNINSTALL_BUNDLE_START ;;
  saved ← SaveInnerBundleInfo OldInfo;
  check saved ERR_APPEXECFWK_INSTALL_INTERNAL_ERROR ;;
  RemoveBundle OldInfo (ip_isKeepData param) ;; mret true.

Definition holds_some r : Prop := ∃ e old, holds e old r.

Lemma wp_last_user param info s old r :
  GetBundleName old = b → holds (Some info, s) old r →
  wp (last_user param) (λ res r', match res with
    | Ok removed => removed = true ∧ ∃ old', holds (None, None) old' r'
    | Fail _ => holds_some r'
    | Throws => True
    end) r.
Proof.
  intros Hn Hr. unfold last_user. apply wp_bind. eapply wp_holds_state; [exact Hr|]. intros r1 Hr1 _. apply next_ok.
  apply wp_bind, wp_check; intros Hs; [|by do 2 eexists]. assert ((after_state UNINSTALL_START (Some info, s)).1 = (Some info, Some UNINSTALL_START)) as He.
  { unfold after_state in *. simpl in *. destruct s as [s|]; simpl in *; [|done]. by destruct (can_transfer _ _). }
  rewrite He in Hr1. clear Hr Hs He. apply next_ok, wp_bind, wp_gets, next_ok, wp_bind.
  assert (∀ r2, holds (Some info, Some UNINSTALL_START) old r2 → wp (mark OldInfo b "" UNINSTALL_BUNDLE_START ;;
    saved ← SaveInnerBundleInfo OldInfo; check saved ERR_APPEXECFWK_INSTALL_INTERNAL_ERROR ;;
    RemoveBundle OldInfo (ip_isKeepData param) ;; mret true) (λ res r', match res with
    | Ok removed => removed = true ∧ ∃ old', holds (None, None) old' r'
    | Fail _ => holds_some r'
    | Throws => True
    end) r2) as Hrest.
  { intros r2 (H1 & H2 & H3). apply wp_bind, wp_modify, next_ok. apply wp_bind. unfold SaveInnerBundleInfo. apply wp_bind, wp_gets, next_ok.
    eapply (wp_holds_ask _ (SetInstallMark b "" UNINSTALL_BUNDLE_START old)); [split_and!; [exact H1|simpl; by rewrite H2|exact H3]| |].
    { apply quiet_on_mgr. intros m. destruct (save_same (read OldInfo (write OldInfo (SetInstallMark b "" UNINSTALL_BUNDLE_START) r2)) m) as (_ & H4 & H5 & _). by split. }
    intros [saved|code|] r3 Hr3 _; [|by do 2 eexists|done]. simpl. apply wp_bind, wp_check; intros _; [|by do 2 eexists]. apply next_ok, wp_bind.
    eapply wp_mono; [|eapply wp_RemoveBundle_single; [|exact Hr3]]; [|exact Hn]. intros res r4 [->|[old' Hr4]]; [done|].
    destruct res as [[]|code|]; simpl; [|by do 2 eexists|done]. split; [done|by exists old']. }
  apply wp_when; intros _; [|by apply Hrest].
  apply wp_bind. unfold kill. apply wp_bind, wp_gets, next_ok.
  eapply (wp_holds_ask _ old); [exact Hr1|apply quiet_on_env|]. intros killed r2 Hr2 _. destruct killed as [killed|code|]; simpl; [|by do 2 eexists|done].
  apply wp_when; intros _; [|by apply Hrest]. apply wp_bind. eapply wp_holds_state; [exact Hr2|]. intros r3 Hr3 _. by do 2 eexists.
Qed.

End Uninstall.

(** C36: an uninstallation of a bundle that is there does what it says: when
    ProcessBundleUninstall answers ERR_OK, the bundle was installed for the user
    and could be removed; with other users left, the user is removed from it and
    it is enabled, in the install state it had; without, neither its information
    nor its state is left.  Whatever the code is, the bundle is not left disabled
    if it was not before, and no other bundle's entry changes. *)
Theorem ProcessBundleUninstall_correct {K P T E : Type} `{HK : KvStore K} `{HP : TextStore P} `{HX : JsonText} `{HU : Uninit} `{HT : AccessTokenKit T}
  `{HE : Environment E} `{HS : StdSort} `{HJ : BundleStateStorage.Json} b param (r : Run K P T E) :
  b ≠ "" → in_cloneMgr (rn_self r) = false → (∀ info, infos r !! b = Some info → GetBundleName info = b) →
  let '(res, r') := ProcessBundleUninstall b param r in uninstall_outcome b r param res r'.
Proof.
  intros Hb Hc Hn. enough (wp (ProcessBundleUninstall b param) (uninstall_outcome b r param) r) as Hwp.
  { unfold wp in Hwp. by destruct (ProcessBundleUninstall b param r). }
  assert (holds b r (entry_of b r) (rn_old r) r) as Hr by done.
  unfold ProcessBundleUninstall. apply wp_bind, wp_check; intros He; [|apply negb_false_iff, str_empty_spec in He; done].
  apply next_ok, wp_bind. eapply wp_find_installed; [done|exact Hr| |].
  { intros code r1 old (H1 & _ & H2). split; [|done]. split; [done|by right]. }
  intros info s r1. cbv zeta. set (info' := SetBundleStatus _ info). intros Hent Hr1 Hu Hcl. apply next_ok, wp_bind.
  assert (GetBundleName info' = b) as Hname by (change (GetBundleName info = b); apply Hn; injection Hent; done).
  (* the guard *)
  apply wp_dismissible.
  assert (∀ (res : result bool) r2, (∀ x, res ≠ Ok x) → holds_some b r r2 →
    cleaned (enable b) (next (λ _, mret ()) (uninstall_outcome b r param)) res r2) as Hfail.
  { intros res r2 Hres (e & old & H2). unfold cleaned. eapply wp_holds_enable; [done|exact H2|]. intros r3 (H3 & _ & H4).
    assert (apart_from_others b r r3 ∧ (enabled (entry_of b r3) ∨ entry_of b r3 = entry_of b r)) as H5.
    { split; [done|left]. rewrite H3. apply enabled_with_status. }
    destruct res as [x|code|]; simpl; [by destruct (Hres x)|by split|done]. }
  apply wp_bind. unfold find_user. apply wp_bind, wp_gets, next_ok, wp_bind, wp_gets, next_ok.
  pose proof Hr1 as (_ & Hold & _). simpl. rewrite Hold, Hu.
  destruct (GetInnerBundleUserInfo (asked param) info' new_InnerBundleUserInfo) as [found user] eqn:Hget.
  apply wp_bind, wp_check; intros Hf; [|by apply Hfail; [done|do 2 eexists]]. apply next_ok, wp_bind, wp_modify, next_ok, wp_check; intros Hmay; [|by apply Hfail; [done|do 2 eexists]].
  apply next_ok, wp_bind. unfold remove_clone. apply wp_bind, wp_on, wp_gets, next_ok. simpl.
  destruct (GetClonedBundleName _ _) as [cloneName|].
  { apply wp_bind, wp_gets, next_ok. simpl. rewrite Hcl, Hc. apply cleaned_throws. by split. }
  apply wp_ret, next_ok, wp_bind, wp_gets, next_ok. simpl. rewrite Hold.
  change (sm_size (ib_innerBundleUserInfos info')) with (sm_size (ib_innerBundleUserInfos info)).
  assert (∀ e r2, apart_from_others b r r2 → entry_of b r2 = e → enabled e →
    (if (1 <? sm_size (ib_innerBundleUserInfos info))%nat then e = (Some (without_user (asked param) info'), s) else e = (None, None)) →
    uninstall_outcome b r param (Ok ()) r2) as Hok.
  { intros e r2 H2 <- Hen H4. split; [split; [done|by left]|]. exists info, s. split_and!; [done| |done|done].
    change (GetInnerBundleUserInfo (asked param) info _) with (GetInnerBundleUserInfo (asked param) info' new_InnerBundleUserInfo). by rewrite Hget, Hf. }
  destruct (1 <? sm_size (ib_innerBundleUserInfos info))%nat eqn:Hsize.
  - apply wp_bind. eapply wp_mono; [|by apply (wp_RemoveBundleUserData b r info' s info')].
    intros [x|code|] r2; [|intros H2; by apply (Hfail (Fail code))|intros _; apply cleaned_throws; by split].
    intros (_ & old & H2). change (in_userId (rn_self _)) with (in_userId (rn_self r1)) in H2. rewrite Hu in H2. apply next_ok, wp_ret. unfold cleaned. eapply wp_holds_enable; [done|exact H2|]. intros r3 (H3 & _ & H4).
    apply next_ok, wp_ret. eapply Hok; [exact H4|exact H3| |].
    + apply enabled_with_status.
    + done.
  - eapply wp_mono; [|by apply (wp_last_user b r Hb param info' s info')]. intros [x|code|] r2 H2.
    + destruct H2 as (-> & old & H2 & _ & H4). apply wp_ret. by eapply Hok.
    + by apply (Hfail (Fail code)).
    + apply cleaned_throws. by split.
Qed.

(** ** A bundle that is there *)

Section Existing.
Context {K P T E : Type} `{HK : KvStore K} `{HP : TextStore P} `{HX : JsonText} `{HU : Uninit} `{HT : AccessTokenKit T}
  `{HE : Environment E} `{HS : StdSort} `{HJ : BundleStateStorage.Json}.
#[local] Abbreviation run_state := (Run K P T E).
Implicit Types (r : run_state).

Definition same_self r r' : Prop := rn_self r' = rn_self r.
#[export] Instance same_self_preorder : PreOrder same_self.
Proof. split; [done|]. unfold same_self. by intros r1 r2 r3 -> ->. Qed.

Lemma same_self_on {A} (m : On (Service K P T E) A) : keeps same_self (on m).
Proof. apply keeps_within. by intros r. Qed.
Lemma same_self_upd v f : keeps same_self (upd v f).
Proof. apply keeps_modify. intros r. by destruct v. Qed.
Lemma same_self_self {A} (f : Installer → A) : keeps same_self (self (K := K) (P := P) (T := T) (E := E) f).
Proof. by intros r. Qed.
Lemma same_self_get v : keeps same_self (get v).
Proof. by intros r. Qed.
Lemma same_self_check_enable f : keeps same_self (CheckEnableRemovable (K := K) (P := P) (T := T) (E := E) f).
Proof. by intros r. Qed.

(** Neither what is decided by nor the installer changes. *)
Definition still r r' : Prop := quiet r r' ∧ same_self r r'.
#[export] Instance still_preorder : PreOrder still.
Proof. split; [done|]. intros r1 r2 r3 [H1 H2] [H3 H4]. split; by etrans. Qed.
Lemma still_of {A} (m : On run_state A) : keeps quiet m → keeps same_self m → keeps still m.
Proof. intros H1 H2 r. split; [apply H1|apply H2]. Qed.

(** The steps of [b]'s entry, with the installer itself. *)
Definition at_self b r0 (i : Installer) (e : entry) r : Prop := at_entry b r0 i e r ∧ rn_self r = i.

Lemma wp_still {A} b r0 i e (m : On run_state A) (Q : result A → run_state → Prop) r :
  at_self b r0 i e r → keeps still m → (∀ x r', at_self b r0 i e r' → Q x r') → wp m Q r.
Proof.
  intros [Hr Hi] Hm HQ. eapply wp_keeps; [exact Hm|]. intros x r' [Hq Hs]. apply HQ. split; [by eapply at_entry_quiet|by rewrite Hs].
Qed.

Lemma wp_at_self_state b r0 i e s (Q : result bool → run_state → Prop) r :
  b ≠ "" → at_self b r0 i e r → (∀ r', at_self b r0 i (after_state s e).1 r' → Q (Ok (after_state s e).2) r') →
  wp (on (on_mgr (UpdateBundleInstallState b s))) Q r.
Proof.
  intros Hb [Hr Hi] HQ. apply wp_on_old. eapply wp_update_state; [done|exact Hr|]. intros r' Hr' _ Hself. apply HQ. split; [done|by rewrite Hself].
Qed.

Lemma wp_at_self_get b r0 i e (Q : result (option InnerBundleInfo) → run_state → Prop) r :
  b ≠ "" → at_self b r0 i e r →
  (∀ r', at_self b r0 i (with_status BundleStatus_DISABLED e) r' → Q (Ok (SetBundleStatus BundleStatus_DISABLED <$> e.1)) r') →
  wp (on (on_mgr (BundleDataMgr.GetInnerBundleInfo b))) Q r.
Proof.
  intros Hb [Hr Hi] HQ. apply wp_on_old. eapply wp_get_inner; [done|exact Hr|]. intros r' Hr' _ Hself. apply HQ. split; [done|by rewrite Hself].
Qed.

(** An installed bundle that was left alone, but for its status. *)
Definition untouched b r0 (i : Installer) (old : InnerBundleInfo) r : Prop :=
  ∃ st, at_self b r0 i (Some (SetBundleStatus st old), Some INSTALL_SUCCESS) r.

Context (b : string) (r0 : run_state) (i : Installer) (old : InnerBundleInfo).
Hypothesis (Hb : b ≠ "").
Hypothesis (Hname : in_bundleName i = b).
#[local] Abbreviation kept := (untouched b r0 i old).

Lemma wp_kept_still {A} (m : On run_state A) (Q : result A → run_state → Prop) r :
  kept r → keeps still m → (∀ x r', kept r' → Q x r') → wp m Q r.
Proof. intros [st Hr] Hm HQ. eapply wp_still; [exact Hr|exact Hm|]. intros x r' Hr'. apply HQ. by exists st. Qed.

Lemma wp_kept_state s (Q : result bool → run_state → Prop) r :
  kept r → can_transfer s INSTALL_SUCCESS = false → (∀ r', kept r' → Q (Ok false) r') →
  wp (on (on_mgr (UpdateBundleInstallState b s))) Q r.
Proof.
  intros [st Hr] Hs HQ. eapply wp_at_self_state; [done|exact Hr|]. unfold after_state. simpl. rewrite Hs. intros r' Hr'. apply HQ. by exists st.
Qed.

Lemma wp_kept_get (Q : result (option InnerBundleInfo) → run_state → Prop) r :
  kept r → (∀ r', kept r' → Q (Ok (Some (SetBundleStatus BundleStatus_DISABLED old))) r') →
  wp (on (on_mgr (BundleDataMgr.GetInnerBundleInfo b))) Q r.
Proof. intros [st Hr] HQ. eapply wp_at_self_get; [done|exact Hr|]. intros r' Hr'. apply HQ. by exists BundleStatus_DISABLED. Qed.

(** Only an update can be rolled back, and a module be removed in one. *)
Lemma wp_kept_RemoveModuleInfo package info (Q : result InnerBundleInfo → run_state → Prop) r :
  kept r → (∀ x r', kept r' → Q (Ok x) r') →
  wp (on (on_mgr (λ m, (BundleDataMgr.RemoveModuleInfo b package info m).1))) Q r.
Proof.
  intros (st & Hr & Hi) HQ. apply wp_on, wp_on_mgr. pose proof Hr as (_ & _ & He & _). unfold entry_of, mgr_entry in He. injection He as H1 H2.
  unfold BundleDataMgr.RemoveModuleInfo. rewrite H1, H2. rewrite decide_False by (intros [|]; done). apply HQ. exists st.
  destruct r as [? ? ? ? ? []]. done.
Qed.

(** Nothing of an installed bundle is undone when no module was updated. *)
Lemma wp_RollBackHap info r :
  in_installedModules i = ∅ → kept r →
  wp (RollBackHap info) (λ res r', res = Throws ∨ kept r') r.
Proof.
  intros Hm Hr. unfold RollBackHap. apply wp_bind, wp_gets, next_ok, wp_bind, wp_gets, next_ok. pose proof Hr as (st & _ & Hi).
  rewrite Hi, Hm, Hname. simpl. apply wp_bind, wp_ignore. eapply wp_kept_still; [exact Hr|apply still_of; [solve [quiet_auto]|apply same_self_on]|].
  intros x r1 Hr1. enough (wp (RemoveInfo b (ib_currentPackage info)) (λ res r', res = Throws ∨ kept r') r1) by (destruct x; [by apply next_ok..|by left]).
  unfold RemoveInfo. destruct (str_empty _).
  - apply wp_bind. eapply wp_kept_state; [exact Hr1|done|]. intros r2 Hr2. apply next_ok, wp_ret. by right.
  - apply wp_bind, wp_gets, next_ok. pose proof Hr1 as (st1 & _ & ->). rewrite Hname. apply wp_bind. eapply wp_kept_get; [exact Hr1|].
    intros r2 Hr2. apply next_ok, wp_bind. eapply wp_kept_state; [exact Hr2|done|]. intros r3 Hr3. apply next_ok, wp_bind.
    eapply wp_kept_RemoveModuleInfo; [exact Hr3|]. intros y r4 Hr4. apply next_ok, wp_ret. by right.
Qed.

Lemma still_update_permissions change info users :
  keeps still (update_permissions (K := K) (P := P) (T := T) (E := E) change info users).
Proof. apply still_of; unfold update_permissions; [quiet_auto|]. repeat (keeps_step || apply same_self_on). Qed.

Lemma wp_RollBack_kept r :
  in_isAppExist i = true → in_installedModules i = ∅ → kept r → wp RollBack (λ res r', res = Throws ∨ kept r') r.
Proof.
  intros Hex Hm Hr. unfold RollBack. apply wp_bind, wp_gets, next_ok, wp_bind, wp_gets, next_ok. pose proof Hr as (st & _ & Hi).
  rewrite Hi, Hex. simpl. apply wp_bind, wp_gets, next_ok. rewrite Hi, Hname. apply wp_bind. eapply wp_kept_get; [exact Hr|].
  intros r1 Hr1. apply next_ok, wp_bind.
  assert (∀ l r, kept r → wp (for_each (λ p : string * InnerBundleInfo, RollBackHap p.2) l) (λ res r', res = Throws ∨ kept r') r) as Hall.
  { induction l as [|p l IH]; intros r2 Hr2; [by apply wp_ret; right|]. simpl. apply wp_bind. eapply wp_mono; [|by apply wp_RollBackHap].
    intros [[]|code|] r3 [|Hr3]; try done; [by apply next_ok, IH|by right|by left..]. }
  eapply wp_mono; [|by apply Hall]. intros [[]|code|] r2 [|Hr2]; try done; [|by right|by left..]. apply next_ok, wp_bind, wp_gets, next_ok, wp_ignore.
  eapply wp_kept_still; [exact Hr2|apply still_update_permissions|]. intros [] r3 Hr3; [by right..|by left].
Qed.

Lemma still_CheckHapModleOrType info : keeps still (CheckHapModleOrType (K := K) (P := P) (T := T) (E := E) info).
Proof. apply still_of; unfold CheckHapModleOrType; [quiet_auto|]. repeat (keeps_step || apply same_self_self). Qed.

Lemma still_save_pre_install_info l j : keeps still (save_pre_install_info (K := K) (P := P) (T := T) (E := E) l j).
Proof. apply still_of; [apply quiet_save_pre_install_info|]. unfold save_pre_install_info. repeat (keeps_step || apply same_self_on || apply same_self_self). Qed.

Lemma save_pre_install_info_no_fail l j code r : (save_pre_install_info (K := K) (P := P) (T := T) (E := E) l j r).1 ≠ Fail code.
Proof.
  unfold save_pre_install_info, self, gets, on, within, run_opt, mbind, On_bind. simpl. by destruct (SavePreInstallBundleInfo _ _) as [[]|].
Qed.

Lemma CheckVersionCompatibility_downgrade info r :
  in_versionCode (rn_self r) < GetVersionCode info →
  wp (CheckVersionCompatibility info) (λ res r', res = Fail ERR_APPEXECFWK_INSTALL_VERSION_DOWNGRADE ∧ r' = r) r.
Proof.
  intros Hv. apply Z.ltb_lt in Hv as Hlt. assert ((in_versionCode (rn_self r) >? GetVersionCode info) = false) as Hgt by lia.
  unfold CheckVersionCompatibility, CheckVersionCompatibilityForHmService, CheckVersionCompatibilityForApplication.
  unfold wp, mbind, On_bind, self, gets, check, when. simpl. destruct (GetEntryInstallationFree info); [by rewrite Hlt|].
  destruct (HasEntry info); [|by rewrite Hlt]. rewrite Hlt, Hgt. by destruct (in_isContainEntry (rn_self r)).
Qed.

Lemma wp_kept_no_fail {A} (m : On run_state A) (Q : result A → run_state → Prop) r :
  untouched b r0 i old r → keeps still m → (∀ r code, (m r).1 ≠ Fail code) →
  (∀ x r', untouched b r0 i old r' → (∀ code, x ≠ Fail code) → Q x r') → wp m Q r.
Proof.
  intros Hr Hm Hf HQ. unfold wp. apply HQ; [|apply Hf]. eapply (wp_kept_still m (λ _ r', untouched b r0 i old r') r Hr Hm). by intros.
Qed.
End Existing.

Section Downgrade.
Context {K P T E : Type} `{HK : KvStore K} `{HP : TextStore P} `{HX : JsonText} `{HU : Uninit} `{HT : AccessTokenKit T}
  `{HE : Environment E} `{HS : StdSort} `{HJ : BundleStateStorage.Json}.
#[local] Abbreviation run_state := (Run K P T E).
Implicit Types (r : run_state).

Context (b : string) (r0 : run_state) (i : Installer) (old : InnerBundleInfo).
Hypothesis (Hb : b ≠ "").
Hypothesis (Hname : in_bundleName i = b).
Hypothesis (Hold : in_versionCode i < GetVersionCode old).
Hypothesis (Hmods : in_installedModules i = ∅).
#[local] Abbreviation before := (untouched b r0 i old).
Definition exists_now : Installer := i <| in_isAppExist := true |>.
#[local] Abbreviation after := (untouched b r0 exists_now old).

Lemma wp_update_existing_downgrade r :
  after r → rn_old r = SetBundleStatus BundleStatus_DISABLED old →
  wp update_existing (λ res r', match res with Ok _ => False | Fail _ => after r' | Throws => True end) r.
Proof.
  intros Hr Ho. unfold update_existing. apply wp_bind, wp_gets, next_ok, wp_bind. simpl. rewrite Ho.
  eapply (wp_kept_still _ _ exists_now old); [exact Hr|apply still_CheckHapModleOrType|]. intros [x|code|] r1 Hr1; [apply next_ok|done..].
  apply wp_bind. eapply wp_mono; [|apply CheckVersionCompatibility_downgrade].
  - intros res r2 [-> ->]. done.
  - destruct Hr1 as (st & _ & ->). done.
Qed.

Lemma wp_InnerProcessBundleInstall_downgrade param r :
  before r → wp (InnerProcessBundleInstall param) (λ res r', match res with
    | Ok _ => False
    | Fail code => before r' ∧ no_rollback code = true ∨ after r'
    | Throws => True
    end) r.
Proof.
  intros Hr. unfold InnerProcessBundleInstall. apply wp_bind, wp_gets, next_ok. destruct (rn_new r) as [|[firstPath first] rest]; [done|].
  apply wp_bind. eapply (wp_kept_no_fail _ _ _ _ (when _ _)); [exact Hr| | |].
  { apply (keeps_when still), still_save_pre_install_info. }
  { intros r1 code. destruct (ip_needSavePreInstallInfo param); [apply save_pre_install_info_no_fail|done]. }
  intros [x|code|] r1 Hr1 Hnf; [|by destruct (Hnf code)|done]. apply next_ok. clear Hnf Hr.
  apply wp_bind, wp_gets, next_ok. pose proof Hr1 as (st & _ & Hi). rewrite Hi.
  apply wp_bind, wp_check; intros _; [|by left]. apply next_ok, wp_bind. unfold GetInnerBundleInfo at 1. apply wp_bind, wp_gets, next_ok. rewrite Hi, Hname.
  apply wp_bind. eapply wp_kept_get; [done|exact Hr1|]. intros r2 Hr2. apply next_ok, wp_bind, wp_modify, next_ok, wp_ret, next_ok.
  apply wp_bind, wp_modify, next_ok.
  match goal with |- wp _ _ ?r => assert (after r) as Hr3 end.
  { destruct Hr2 as (st2 & (H1 & H2 & H3 & H4) & H5). exists st2. split; [split_and!|]; [|done..|]; unfold exists_now; simpl; by rewrite H5. }
  unfold CheckEnableRemovable. apply wp_bind, wp_bind, wp_gets, next_ok, wp_bind, wp_gets, next_ok, wp_bind, wp_gets, next_ok, wp_modify, next_ok.
  apply wp_bind. eapply wp_mono; [|apply wp_update_existing_downgrade].
  - intros [x4|code|] r4 H4; [done|by right|done].
  - destruct Hr3 as (st3 & (H1 & H2 & H3 & H4) & H5). exists st3. split; [split_and!|]; [done| |done..].
    rewrite <- H2. match type of H2 with shape ?s = _ => exact (f_equal (λ v, v.2) (quiet_CheckEnableRemovable _ s)) end.
  - done.
Qed.

Lemma wp_check_result_downgrade {B} code (k : () → On run_state B) r :
  before r ∧ no_rollback code = true ∨ after r →
  wp (check_result_with_rollback (Fail code) ≫= k) (λ res r', match res with
    | Ok _ => False
    | Fail _ => before r' ∨ after r'
    | Throws => True
    end) r.
Proof.
  intros Hr. apply wp_bind. simpl. apply wp_bind, wp_when; fold (no_rollback code).
  - intros Hc. destruct Hr as [[_ Hr]|Hr]; [by rewrite Hr in Hc|]. eapply wp_mono; [|by apply (wp_RollBack_kept b r0 exists_now old)].
    intros [x|c|] r1 H; [|by right; destruct H|done]. apply next_ok, wp_fail. right. by destruct H.
  - intros _. apply wp_fail. destruct Hr as [[Hr _]|Hr]; [by left|by right].
Qed.

(** An older version is refused, and what was installed stays. *)
Lemma wp_install_files_downgrade param r :
  before r → wp (install_files param) (λ res r', match res with
    | Ok _ => False
    | Fail _ => before r' ∨ after r'
    | Throws => True
    end) r.
Proof.
  intros Hr. unfold install_files. apply wp_bind. eapply (wp_kept_still b r0 i old); [exact Hr| |].
  { apply still_of; [by intros ?|apply same_self_upd]. }
  intros [x|code|] r1 Hr1; [apply next_ok|by left|done].
  apply wp_bind, wp_attempt. eapply wp_mono; [|by apply wp_InnerProcessBundleInstall_downgrade].
  intros [y|code|] r2 Hr2; [done| |done]. by apply next_ok, wp_check_result_downgrade.
Qed.
End Downgrade.

Section Older.
Context {K P T E : Type} `{HK : KvStore K} `{HP : TextStore P} `{HX : JsonText} `{HU : Uninit} `{HT : AccessTokenKit T}
  `{HE : Environment E} `{HS : StdSort} `{HJ : BundleStateStorage.Json}.
#[local] Abbreviation run_state := (Run K P T E).
Implicit Types (r : run_state).

(** What is left of an installed bundle when an update was refused. *)
Definition refused_outcome b r0 (old : InnerBundleInfo) (res : result ()) r : Prop :=
  match res with
  | Ok _ => False
  | Fail _ => ∃ info, entry_of b r = (Some info, Some INSTALL_SUCCESS) ∧ plain info = plain old
                ∧ ib_bundleStatus info = BundleStatus_ENABLED ∧ others_mgr b (sv_mgr (rn_service r0)) (sv_mgr (rn_service r))
  | Throws => True
  end.

Lemma wp_guarded_downgrade param r old :
  let b := in_bundleName (rn_self r) in b ≠ "" → in_installedModules (rn_self r) = ∅ →
  entry_of b r = (Some old, Some INSTALL_SUCCESS) → in_versionCode (rn_self r) < GetVersionCode old →
  wp (finally (install_state INSTALL_SUCCESS ;; mret ()) (finally (name ← self in_bundleName; enable name) (install_files param)))
    (refused_outcome b r old) r.
Proof.
  intros b Hb Hm He Hv.
  assert (untouched b r (rn_self r) old r) as Hr.
  { exists (ib_bundleStatus old). split; [|done]. replace (SetBundleStatus (ib_bundleStatus old) old) with old by (by destruct old). rewrite <- He. apply at_entry_start. }
  apply wp_finally, wp_finally. eapply wp_mono; [|by eapply (wp_install_files_downgrade b r (rn_self r) old)].
  assert (∀ i code r1, in_bundleName i = b → untouched b r i old r1 →
    cleaned (name ← self in_bundleName; enable name) (cleaned (install_state INSTALL_SUCCESS ;; mret ()) (refused_outcome b r old)) (Fail code) r1) as Hend.
  { intros i code r1 Hn (st & Hr1 & Hi). unfold cleaned. apply wp_bind, wp_gets, next_ok. rewrite Hi, Hn.
    eapply wp_enable; [done|exact Hr1|]. intros r2 Hr2. apply wp_bind. unfold install_state. apply wp_bind.
    eapply wp_self; [exact Hr2|intros j Hj; by injection Hj|]. apply next_ok. rewrite Hn. eapply wp_update_state; [done|exact Hr2|].
    intros r3 (_ & _ & Hr3 & Ho). apply next_ok, wp_ret. exists (SetBundleStatus BundleStatus_ENABLED old). by split_and!. }
  intros [[]|code|] r1 H; [done| |].
  - destruct H as [H|H]; (eapply Hend; [|exact H]; done).
  - apply cleaned_throws. intros r2. by apply cleaned_throws.
Qed.

(** C34: an update to an older version is refused: when the files that passed
    the checks have a smaller version code than the bundle that is installed,
    ProcessBundleInstall does not succeed, and a bundle in state
    INSTALL_SUCCESS stays as it is - but for its sandbox applications, which
    were removed before - enabled and in that state, with every other entry. *)
Theorem ProcessBundleInstall_downgrade paths param appType r r1 old :
  let b := in_bundleName (rn_self r1) in
  check_files paths param appType r = (Ok (), r1) → b ≠ "" → in_installedModules (rn_self r1) = ∅ →
  entry_of b r = (Some old, Some INSTALL_SUCCESS) → in_versionCode (rn_self r1) < GetVersionCode old →
  let '(res, r') := ProcessBundleInstall paths param appType r in refused_outcome b r old res r'.
Proof.
  intros b Hc Hb Hm He Hv. pose proof (prepared_check_files paths param appType r) as Hp. rewrite Hc in Hp. simpl in Hp.
  unfold ProcessBundleInstall, mbind at 1, On_bind. rewrite Hc.
  match goal with |- let '(_, _) := ?m r1 in _ => enough (wp m (refused_outcome b r old) r1) as Hwp by (unfold wp in Hwp; by destruct (m r1)) end.
  apply (wp_before_guards _ _ r); [done..|]. intros r2 b2 Hnew Hself Ha. subst b2. fold b in Ha.
  destruct (apart_present _ _ _ _ _ Ha He) as (old2 & He2 & Hplain).
  assert (b = in_bundleName (rn_self r2)) as Hb2 by (by rewrite Hself).
  eapply wp_mono; [|apply (wp_guarded_downgrade param r2 old2)].
  - rewrite <- Hb2. intros [x|code|] r3; [done| |done]. intros (info & H1 & H2 & H3 & H4). exists info. split_and!; [done|by rewrite H2|done|].
    eapply others_trans; [apply Ha|done].
  - by rewrite <- Hb2.
  - by rewrite Hself.
  - by rewrite <- Hb2.
  - rewrite Hself. change (GetVersionCode old2) with (GetVersionCode (plain old2)). by rewrite Hplain.
Qed.

Definition enabled_outcome (res : result ()) r : Prop :=
  res ≠ Throws → in_bundleName (rn_self r) ≠ "" → enabled (entry_of (in_bundleName (rn_self r)) r).

Lemma cleaned_enabled res r :
  cleaned (name ← self in_bundleName; enable name) (cleaned (install_state INSTALL_SUCCESS ;; mret ()) enabled_outcome) res r.
Proof.
  unfold cleaned. apply wp_bind, wp_gets, next_ok. set (b := in_bundleName (rn_self r)). destruct (decide (b = "")) as [Hb|Hb].
  - unfold wp, enable, install_state, enabled_outcome, self, gets, on, on_mgr, within, run, mbind, On_bind. simpl.
    destruct (EnableBundle b (sv_mgr (rn_service r))) as [m o]. simpl. destruct (UpdateBundleInstallState _ _ _) as [m2 o2]. intros _ Hne. by destruct Hne.
  - pose proof (at_entry_start b r) as Hr. eapply wp_enable; [done|exact Hr|]. intros r1 Hr1. apply wp_bind. unfold install_state. apply wp_bind.
    eapply wp_self; [exact Hr1|intros j Hj; by injection Hj|]. apply next_ok. fold b. eapply wp_update_state; [done|exact Hr1|].
    intros r2 (Hcore & _ & Hr2 & _). apply next_ok, wp_ret. intros _ _. injection Hcore as -> _ _ _ _. fold b. rewrite Hr2.
    unfold after_state. destruct (entry_of b r) as [[info|] [s|]]; simpl; repeat case_match; done.
Qed.

(** C35: no installation leaves its bundle disabled: whatever the files, the
    state of the bundle and the outcome are, the bundle is enabled, or not there,
    once ProcessBundleInstall has got past the checks of the files. *)
Theorem ProcessBundleInstall_enabled paths param appType r r1 :
  check_files paths param appType r = (Ok (), r1) →
  let '(res, r') := ProcessBundleInstall paths param appType r in enabled_outcome res r'.
Proof.
  intros Hc. pose proof (prepared_check_files paths param appType r) as Hp. rewrite Hc in Hp. simpl in Hp.
  unfold ProcessBundleInstall, mbind at 1, On_bind. rewrite Hc.
  match goal with |- let '(_, _) := ?m r1 in _ => enough (wp m enabled_outcome r1) as Hwp by (unfold wp in Hwp; by destruct (m r1)) end.
  apply (wp_before_guards _ _ r); [done|intros ? Hn; by destruct Hn|]. intros r2 _ _ _ _. apply wp_finally, wp_finally. unfold wp. apply cleaned_enabled.
Qed.
End Older.

(** ** Examples *)

(** No pre-installed bundles are kept. *)
#[local, refine] Instance closed_store : TextStore () := {|
  ts_Check p := (p, false);
  ts_Put _ _ p := (p, OTHER_ERROR);
  ts_Delete _ p := (p, OTHER_ERROR);
  ts_GetEntries p := (p, OTHER_ERROR, []);
  ts_entries _ := ∅;
|}.
Proof. all: by intros. Defined.
#[local] Existing Instances bits_json null_text no_values.

Abbreviation demo_run := (Run (stdmap string InnerBundleInfo) () (list (Z * string) * option HapPolicyParams) device).

(** A new installer on a device. *)
Definition run_on (s : demo_service) : demo_run := mkRun _ _ _ _ (new_Installer false) [] new_InnerBundleInfo new_InnerBundleInfo INVALID_UID s.
Definition for_user (userId : Z) : InstallParam := new_InstallParam <| ip_userId := userId |>.

Definition demo_empty : demo_run := run_on (demo_with [] []).
Definition demo_checked : demo_run := (check_files ["/data/a.hap"] (for_user 100) AppType_THIRD_PARTY_APP demo_empty).2.

Lemma known_fst {A B} (p : A * B) x : p.1 = x → p = (x, p.2).
Proof. destruct p. by intros <-. Qed.

Lemma demo_checks : check_files ["/data/a.hap"] (for_user 100) AppType_THIRD_PARTY_APP demo_empty = (Ok (), demo_checked).
Proof. unfold demo_checked. apply known_fst. vm_compute. reflexivity. Qed.

Lemma demo_new : rn_new demo_checked = [("/data/a.hap", read (NewInfo "/data/a.hap") demo_checked)].
Proof. vm_compute. reflexivity. Qed.

Lemma demo_name : in_bundleName (rn_self demo_checked) = "com.demo".
Proof. vm_compute. reflexivity. Qed.
Lemma demo_user : in_userId (rn_self demo_checked) = 100.
Proof. vm_compute. reflexivity. Qed.
Lemma demo_singleton : IsSingleton (read (NewInfo "/data/a.hap") demo_checked) = false.
Proof. vm_compute. reflexivity. Qed.

Lemma demo_rename : rename_codes (E := device).
Proof. by intros from to e code. Qed.

Definition demo_installed : demo_run := (ProcessBundleInstall ["/data/a.hap"] (for_user 100) AppType_THIRD_PARTY_APP demo_empty).2.

Lemma demo_fresh_install : ProcessBundleInstall ["/data/a.hap"] (for_user 100) AppType_THIRD_PARTY_APP demo_empty = (Ok (), demo_installed).
Proof. unfold demo_installed. apply known_fst. vm_compute. reflexivity. Qed.

Lemma ProcessBundleInstall_fresh_witness :
  ∃ info, usable 100 false info ∧ entry_of "com.demo" demo_installed = (Some info, Some INSTALL_SUCCESS).
Proof.
  pose proof (ProcessBundleInstall_fresh ["/data/a.hap"] (for_user 100) AppType_THIRD_PARTY_APP demo_empty demo_rename ltac:(reflexivity)) as H.
  rewrite demo_fresh_install in H.
  rewrite demo_checks in H. specialize (H "/data/a.hap" _ demo_new ltac:(vm_compute; discriminate) ltac:(vm_compute; reflexivity)).
  rewrite demo_name, demo_user, demo_singleton in H. apply H.
Defined.

(** The bundle in version 2 that is installed for user 100. *)
Definition demo_version2 : InnerBundleInfo :=
  InnerBundleInfo.AddInnerBundleUserInfo
    (new_InnerBundleUserInfo <| ibu_bundleUserInfo ::= λ u, u <| bu_userId := 100 |> |> <| ibu_bundleName := "com.demo" |>)
    ((demo_hap "/data/b.hap" true []) <| ib_baseBundleInfo ::= λ b, b <| bi_versionCode := 2 |> |>).
Definition demo_newer : demo_run :=
  run_on ((demo_with [demo_version2] []) <| sv_mgr ::= λ m, m <| dm_installStates := <["com.demo" := INSTALL_SUCCESS]> ∅ |> |>).
Definition demo_newer_checked : demo_run := (check_files ["/data/a.hap"] (for_user 100) AppType_THIRD_PARTY_APP demo_newer).2.

Lemma demo_newer_checks : check_files ["/data/a.hap"] (for_user 100) AppType_THIRD_PARTY_APP demo_newer = (Ok (), demo_newer_checked).
Proof. unfold demo_newer_checked. apply known_fst. vm_compute. reflexivity. Qed.

Definition demo_refused : demo_run := (ProcessBundleInstall ["/data/a.hap"] (for_user 100) AppType_THIRD_PARTY_APP demo_newer).2.
Lemma demo_refuses : ProcessBundleInstall ["/data/a.hap"] (for_user 100) AppType_THIRD_PARTY_APP demo_newer
  = (Fail ERR_APPEXECFWK_INSTALL_VERSION_DOWNGRADE, demo_refused).
Proof. unfold demo_refused. apply known_fst. vm_compute. reflexivity. Qed.

Lemma demo_newer_name : in_bundleName (rn_self demo_newer_checked) = "com.demo".
Proof. vm_compute. reflexivity. Qed.

Lemma ProcessBundleInstall_downgrade_witness :
  ∃ info, entry_of "com.demo" demo_refused = (Some info, Some INSTALL_SUCCESS) ∧ plain info = plain demo_version2
          ∧ ib_bundleStatus info = BundleStatus_ENABLED.
Proof.
  pose proof (ProcessBundleInstall_downgrade ["/data/a.hap"] (for_user 100) AppType_THIRD_PARTY_APP demo_newer demo_newer_checked demo_version2) as H.
  cbv zeta in H. rewrite demo_newer_name in H.
  specialize (H demo_newer_checks ltac:(discriminate) ltac:(vm_compute; reflexivity) ltac:(vm_compute; reflexivity) ltac:(vm_compute; reflexivity)).
  rewrite demo_refuses in H. destruct H as (info & H1 & H2 & H3 & _). exists info. exact (conj H1 (conj H2 H3)).
Defined.

Lemma ProcessBundleInstall_enabled_witness : enabled (entry_of "com.demo" demo_refused).
Proof.
  pose proof (ProcessBundleInstall_enabled ["/data/a.hap"] (for_user 100) AppType_THIRD_PARTY_APP demo_newer demo_newer_checked demo_newer_checks) as H.
  rewrite demo_refuses in H. assert (in_bundleName (rn_self demo_refused) = "com.demo") as Hn by (vm_compute; reflexivity).
  unfold enabled_outcome in H. rewrite Hn in H. apply H; discriminate.
Defined.

Definition demo_uninstalled : demo_run := (ProcessBundleUninstall "com.demo" (for_user 100) demo_newer).2.
Lemma demo_uninstalls : ProcessBundleUninstall "com.demo" (for_user 100) demo_newer = (Ok (), demo_uninstalled).
Proof. unfold demo_uninstalled. apply known_fst. vm_compute. reflexivity. Qed.

Lemma demo_newer_keys info : infos demo_newer !! "com.demo" = Some info → GetBundleName info = "com.demo".
Proof. assert (infos demo_newer !! "com.demo" = Some demo_version2) as -> by (vm_compute; reflexivity). by intros [= <-]. Qed.

Lemma ProcessBundleUninstall_correct_witness : entry_of "com.demo" demo_uninstalled = (None, None).
Proof.
  pose proof (ProcessBundleUninstall_correct "com.demo" (for_user 100) demo_newer ltac:(discriminate) ltac:(reflexivity) demo_newer_keys) as H.
  rewrite demo_uninstalls in H. destruct H as (_ & info & s & He & _ & _ & H).
  assert (entry_of "com.demo" demo_newer = (Some demo_version2, Some INSTALL_SUCCESS)) as He2 by (vm_compute; reflexivity).
  rewrite He2 in He. assert (info = demo_version2) as -> by congruence. exact H.
Defined.
