(* ===== verification/Installers.v ===== *)
(** * Installers: the installers of one request, and their host

    Models services/bundlemgr/src/bundle_installer.cpp and
    system_bundle_installer.cpp, which run the installer of Installer.v for the
    users of the device; bundle_installer_manager.cpp, which runs one installer
    for every request in a pool of threads; bundle_installer_host.cpp and
    bundle_stream_installer_host_impl.cpp, which take the requests of clients.
    The tasks of the pool are run in any order, each as a whole: installers of
    one bundle exclude one another by its mutex, and those of different bundles
    are not interleaved here. *)

From stdpp Require Import strings list sorting.
From S2P Require Import Prelude Strings StdMap BundleTypes Errors Json BundleDataMgr InnerBundleInfo InnerBundleQuery InstallInfo Parcel Flow ParcelInfos BundlePermissionMgr BundleStateStorage BundleDataQuery PreInstall BundleMgrCalls Service Resources Sandbox Clones Installer InstallerProps.

Open Scope string_scope.
Open Scope list_scope.
Open Scope Z_scope.

(** ** Users *)

(** The ordered set of the users. *)
Definition GetAllUser {K} (m : BundleDataMgr K) : list Z := merge_sort Z.le (elements (dm_multiUserIdsSet m)).
Definition GetExistsCommonUserIs {K} (m : BundleDataMgr K) : list Z := List.filter (λ u, START_USERID <=? u) (GetAllUser m).

(** The result of an uninstallation for all users, from that of each: that a
    user does not have the bundle is no error when another had it. *)
Definition tolerated (code : Z) : bool :=
  (code =? ERR_APPEXECFWK_UNINSTALL_MISSING_INSTALLED_BUNDLE) || (code =? ERR_APPEXECFWK_USER_NOT_INSTALL_HAP) || (code =? ERR_OK).

Definition uninstall_result (codes : list Z) : Z :=
  if existsb (Z.eqb ERR_OK) codes then default ERR_OK (List.find (λ c, negb (tolerated c)) codes)
  else match codes with [] => ERR_OK | code :: _ => code end.

(** ** BundleInstaller *)

Section BundleInstaller.
Context {K P T E : Type} `{HK : KvStore K} `{HP : TextStore P} `{HX : JsonText} `{HU : Uninit} `{HT : AccessTokenKit T}
  `{HE : Environment E} `{HS : StdSort} `{HJ : BundleStateStorage.Json}.
#[local] Abbreviation RM := (On (Run K P T E)).

(** [m] for every user; the installer is reset after each. *)
Fixpoint each_user (m : Z → RM ()) (users : list Z) : RM (list Z) :=
  match users with
  | [] => mret []
  | userId :: users =>
      result ← attempt (m userId);
      put ResetInstallProperties ;;
      codes ← each_user m users;
      mret (code_of result :: codes)
  end.

Definition common_users : RM (list Z) := on (ask_mgr GetExistsCommonUserIs).

(** [m] for the users that are asked for; the code is that of the last of them. *)
Definition last_result (m : InstallParam → RM ()) (installParam : InstallParam) : RM Z :=
  if ip_userId installParam =? ALL_USERID then
    users ← common_users;
    codes ← each_user (λ u, m (installParam <| ip_userId := u |> <| ip_installFlag := InstallFlag_REPLACE_EXISTING |>)) users;
    mret (List.last codes ERR_OK)
  else result ← attempt (m installParam); mret (code_of result).

Definition whole_result (m : InstallParam → RM ()) (installParam : InstallParam) : RM Z :=
  if ip_userId installParam =? ALL_USERID then
    users ← common_users;
    codes ← each_user (λ u, m (installParam <| ip_userId := u |>)) users;
    mret (uninstall_result codes)
  else result ← attempt (m installParam); mret (code_of result).

(** The functions of BundleInstaller; the answer is the code that the status
    receiver is told. *)
Definition Install (bundleFilePaths : list string) (installParam : InstallParam) : RM Z :=
  resultCode ← last_result (λ param, InstallBundle bundleFilePaths param AppType_THIRD_PARTY_APP) installParam;
  SaveHapToInstallPath (ip_streamInstallMode installParam) ;;
  mret resultCode.

Definition RecoverBundle (bundleName : string) (installParam : InstallParam) : RM Z :=
  last_result (Recover bundleName) installParam.

Definition InstallByBundleName (bundleName : string) (installParam : InstallParam) : RM Z :=
  result ← attempt (InstallBundleByBundleName bundleName installParam); mret (code_of result).

Definition Uninstall (bundleName : string) (installParam : InstallParam) : RM Z :=
  whole_result (UninstallBundle bundleName) installParam.

Definition UninstallOneModule (bundleName modulePackage : string) (installParam : InstallParam) : RM Z :=
  whole_result (UninstallModule bundleName modulePackage) installParam.

(** ** SystemBundleInstaller *)

Definition MarkPreBundleSyeEventBootTag (isBootScene : bool) : RM () :=
  put (λ i, i <| in_preBundleScene := if isBootScene : bool then Scene_BOOT else Scene_REBOOT |>).

Definition pre_install_param (appType : AppType) : InstallParam :=
  new_InstallParam <| ip_isPreInstallApp := true |> <| ip_noSkipsKill := false |> <| ip_needSendEvent := false |>
    <| ip_needSavePreInstallInfo := match appType with AppType_SYSTEM_APP | AppType_THIRD_SYSTEM_APP => true | _ => false end |>.

Definition InstallSystemBundle (filePath : string) (appType : AppType) (userId : Z) : RM bool :=
  MarkPreBundleSyeEventBootTag true ;;
  result ← attempt (InstallBundle [filePath] ((pre_install_param appType) <| ip_userId := userId |>) appType);
  mret (code_of result =? ERR_OK).

Definition all_users : RM (list Z) := on (ask_mgr GetAllUser).

Definition OTAInstallSystemBundle (filePaths : list string) (appType : AppType) : RM bool :=
  users ← all_users;
  each_user (λ u,
    MarkPreBundleSyeEventBootTag false ;;
    InstallBundle filePaths ((pre_install_param appType) <| ip_installFlag := InstallFlag_REPLACE_EXISTING |> <| ip_userId := u |>) appType) users ;;
  mret true.

Definition pre_uninstall_param (userId : Z) : InstallParam :=
  new_InstallParam <| ip_userId := userId |> <| ip_needSavePreInstallInfo := true |> <| ip_isPreInstallApp := true |>
    <| ip_noSkipsKill := false |> <| ip_needSendEvent := false |>.

Definition UninstallSystemBundle (bundleName : string) : RM bool :=
  users ← all_users;
  each_user (λ u, MarkPreBundleSyeEventBootTag false ;; UninstallBundle bundleName (pre_uninstall_param u)) users ;;
  mret true.

Definition UninstallSystemModule (bundleName modulePackage : string) : RM bool :=
  users ← all_users;
  each_user (λ u, MarkPreBundleSyeEventBootTag false ;; UninstallModule bundleName modulePackage (pre_uninstall_param u)) users ;;
  mret true.
End BundleInstaller.

(** ** BundleInstallerManager *)

Inductive Task :=
| InstallTask (bundleFilePaths : list string)
| RecoverTask (bundleName : string)
| InstallByBundleNameTask (bundleName : string)
| UninstallTask (bundleName : string)
| UninstallModuleTask (bundleName modulePackage : string).

(** A task of the pool: the installer, its status receiver and what it does. *)
Record PoolTask := mkPoolTask {
  pt_installerId : Z;
  pt_statusReceiver : Z;
  pt_task : Task;
  pt_installParam : InstallParam;
}.

(** A BundleStreamInstallerHostImpl; [isInstallStarted_] is never set. *)
Record StreamInstaller := mkStreamInstaller {
  si_installerId : Z;
  si_installedUid : Z;
  si_isInstallStarted : bool;
  si_installParam : InstallParam;
  si_tempDir : string;
  si_streamFdVec : list Z;
}.
#[export] Instance eta_StreamInstaller : Eta StreamInstaller := λ r,
  mkStreamInstaller (si_installerId r) (si_installedUid r) (si_isInstallStarted r) (si_installParam r) (si_tempDir r) (si_streamFdVec r).

(** The host with its manager: the installers by their ids, the tasks that wait
    in the pool, the REMOVE_BUNDLE_INSTALLER events that wait, and what the
    receivers have been told by OnFinished. *)
Record Host {K P T E : Type} := mkHost {
  ho_service : Service K P T E;
  ho_hasManager : bool;
  ho_installers : stdmap Z ();
  ho_tasks : list PoolTask;
  ho_events : list Z;
  ho_finished : list (Z * Z);
  ho_streamInstallerIds : Z;
  ho_streamInstallers : list StreamInstaller;
}.
Arguments Host K P T E : clear implicits.
#[export] Instance eta_Host K P T E : Eta (Host K P T E) := λ r,
  mkHost K P T E (ho_service r) (ho_hasManager r) (ho_installers r) (ho_tasks r) (ho_events r) (ho_finished r)
    (ho_streamInstallerIds r) (ho_streamInstallers r).

(** Functions of BundleUtil that are system calls. *)
Class StreamFiles (E : Type) := {
  CreateInstallTempDir : Z → E → E * string;
  CreateFileDescriptor : string → Z → E → E * Z;
  CloseFileDescriptor : list Z → E → E;
  DeleteDir : string → E → E;
}.

Section Manager.
Context {K P T E : Type} `{HK : KvStore K} `{HP : TextStore P} `{HX : JsonText} `{HU : Uninit} `{HT : AccessTokenKit T}
  `{HE : Environment E} `{HS : StdSort} `{HJ : BundleStateStorage.Json}.
#[local] Abbreviation host := (Host K P T E).
Implicit Types (h : host).

Definition OnFinished (statusReceiver code : Z) h : host := h <| ho_finished ::= λ l, l ++ [(statusReceiver, code)] |>.

(** The id is the time of the call in microseconds. *)
Definition CreateInstaller (installerId statusReceiver : Z) h : host * bool :=
  match ho_installers h !! installerId with
  | None => (h <| ho_installers ::= emplace installerId () |>, true)
  | Some _ => (OnFinished statusReceiver ERR_APPEXECFWK_INSTALL_INTERNAL_ERROR h, false)
  end.

(** The six functions that create a task differ in it only. *)
Definition CreateTask (installerId : Z) (task : Task) (installParam : InstallParam) (statusReceiver : Z) h : host :=
  let '(h, created) := CreateInstaller installerId statusReceiver h in
  if negb created then h
  else h <| ho_tasks ::= λ l, l ++ [mkPoolTask installerId statusReceiver task installParam] |>.

Definition task_program (task : Task) (installParam : InstallParam) : On (Run K P T E) Z :=
  match task with
  | InstallTask paths => Install paths installParam
  | RecoverTask bundleName => RecoverBundle bundleName installParam
  | InstallByBundleNameTask bundleName => InstallByBundleName bundleName installParam
  | UninstallTask bundleName => Uninstall bundleName installParam
  | UninstallModuleTask bundleName modulePackage => UninstallOneModule bundleName modulePackage installParam
  end.

(** A thread of the pool runs a task; the installer tells the receiver and asks
    to be removed.  [None] when it throws. *)
Definition run_task (t : PoolTask) h : option host :=
  match task_program (pt_task t) (pt_installParam t)
          (mkRun K P T E (new_Installer true) [] new_InnerBundleInfo new_InnerBundleInfo INVALID_UID (ho_service h)) with
  | (Ok code, r) =>
      Some ((OnFinished (pt_statusReceiver t) code h) <| ho_service := rn_service r |> <| ho_events ::= λ l, l ++ [pt_installerId t] |>)
  | _ => None
  end.

Definition RemoveInstaller (installerId : Z) h : host := h <| ho_installers ::= delete installerId |>.

(** ** BundleInstallerHost *)

Context `{HF : StreamFiles E} `{HL : Files E}.

Definition PERMISSION_INSTALL_BUNDLE : string := "ohos.permission.INSTALL_BUNDLE".
Definition may_install (c : Caller) h : bool :=
  VerifyCallingPermission (ca_token c) PERMISSION_INSTALL_BUNDLE (sv_tokens (ho_service h)).

(** The receiver is [None] when it is null. *)
Definition CheckBundleInstallerManager (statusReceiver : option Z) h : host * bool :=
  match statusReceiver with
  | None => (h, false)
  | Some r => if ho_hasManager h then (h, true) else (OnFinished r ERR_APPEXECFWK_INSTALL_INTERNAL_ERROR h, false)
  end.

Definition CheckInstallParam (c : Caller) (installParam : InstallParam) : InstallParam :=
  if ip_userId installParam =? UNSPECIFIED_USERID then installParam <| ip_userId := GetUserIdByUid (ca_uid c) |> else installParam.

(** Install, Recover, Uninstall and InstallByBundleName of the host: [denied] is
    the code for a caller without the permission. *)
Definition request (c : Caller) (installerId : Z) (task : Task) (denied : Z) (installParam : InstallParam) (statusReceiver : option Z) h :
  host * bool :=
  let '(h, valid) := CheckBundleInstallerManager statusReceiver h in
  match statusReceiver with
  | Some r =>
      if negb valid then (h, false)
      else if negb (may_install c h) then (OnFinished r denied h, false)
      else (CreateTask installerId task (CheckInstallParam c installParam) r h, true)
  | None => (h, false)
  end.

Definition denied_code (task : Task) : Z :=
  match task with
  | UninstallTask _ | UninstallModuleTask _ _ => ERR_APPEXECFWK_UNINSTALL_PERMISSION_DENIED
  | _ => ERR_APPEXECFWK_INSTALL_PERMISSION_DENIED
  end.

Definition LOWER_DLP_TYPE_BOUND : Z := 0.
Definition UPPER_DLP_TYPE_BOUND : Z := 3.

Definition Host_InstallSandboxApp (bundleName : string) (dplType userId : Z) : On host Z :=
  check (negb (str_empty bundleName || (dplType <=? LOWER_DLP_TYPE_BOUND) || (UPPER_DLP_TYPE_BOUND <=? dplType)))
    ERR_APPEXECFWK_SANDBOX_INSTALL_PARAM_ERROR ;;
  within ho_service (λ s h, h <| ho_service := s |>) (InstallSandboxApp bundleName dplType userId).

Definition Host_UninstallSandboxApp (bundleName : string) (appIndex userId : Z) : On host () :=
  check (negb (str_empty bundleName)) ERR_APPEXECFWK_SANDBOX_INSTALL_PARAM_ERROR ;;
  check (negb ((appIndex <=? INITIAL_APP_INDEX) || (MAX_APP_INDEX <? appIndex))) ERR_APPEXECFWK_SANDBOX_INSTALL_PARAM_ERROR ;;
  within ho_service (λ s h, h <| ho_service := s |>) (UninstallSandboxApp bundleName appIndex userId).

(** ** Stream installers *)

Definition env_op {A} (f : E → E * A) h : host * A :=
  let '(e, x) := f (sv_env (ho_service h)) in (h <| ho_service ::= λ s, s <| sv_env := e |> |>, x).

Definition StreamInstaller_Init (installParam : InstallParam) (i : StreamInstaller) h : host * StreamInstaller * bool :=
  let i := i <| si_installParam := installParam <| ip_streamInstallMode := true |> |> in
  let '(h, tempDir) := env_op (CreateInstallTempDir (si_installerId i)) h in
  if str_empty tempDir then (h, i, false) else (h, i <| si_tempDir := tempDir |>, true).

Definition StreamInstaller_UnInit (i : StreamInstaller) h : host * StreamInstaller :=
  let '(h, _) := env_op (λ e, (DeleteDir (si_tempDir i) (CloseFileDescriptor (si_streamFdVec i) e), ())) h in
  (h, i <| si_streamFdVec := [] |>).

(** The object of a failed [Init] is destroyed, which calls [UnInit]. *)
Definition CreateStreamInstaller (c : Caller) (installParam : InstallParam) h : host * option StreamInstaller :=
  if negb (may_install c h) then (h, None)
  else
    let h := h <| ho_streamInstallerIds ::= λ n, u32 (n + 1) |> in
    let '(h, i, ok) := StreamInstaller_Init installParam
                         (mkStreamInstaller (ho_streamInstallerIds h) (ca_uid c) false new_InstallParam "" []) h in
    if ok then (h, Some i) else ((StreamInstaller_UnInit i h).1, None).

(** The handler of the request keeps the installer. *)
Definition HandleCreateStreamInstaller (c : Caller) (installParam : InstallParam) h : host * option StreamInstaller :=
  let '(h, i) := CreateStreamInstaller c installParam h in
  match i with
  | None => (h, None)
  | Some i => (h <| ho_streamInstallers ::= λ l, l ++ [i] |>, Some i)
  end.

Definition DestoryBundleStreamInstaller (c : Caller) (streamInstallerId : Z) h : host * bool :=
  if negb (may_install c h) then (h, false)
  else
    let gone := List.filter (λ i, si_installerId i =? streamInstallerId) (ho_streamInstallers h) in
    let h := foldl (λ h i, (StreamInstaller_UnInit i h).1) h gone in
    (h <| ho_streamInstallers ::= List.filter (λ i, negb (si_installerId i =? streamInstallerId)) |>, true).

(** BundleStreamInstallerHostImpl::CreateStream *)
Definition CreateStream (c : Caller) (hapName : string) (offset : Z) (i : StreamInstaller) h : host * StreamInstaller * Z :=
  if negb (may_install c h) then (h, i, -1)
  else if negb (ca_uid c =? si_installedUid i) || si_isInstallStarted i then (h, i, -1)
  else if negb (CheckFileType hapName INSTALL_FILE_SUFFIX) then (h, i, -1)
  else
    let '(h, fd) := env_op (CreateFileDescriptor (si_tempDir i +:+ hapName) offset) h in
    if 0 <? fd then (h, i <| si_streamFdVec ::= λ l, l ++ [fd] |>, fd) else (h, i, fd).

(** BundleStreamInstallerHostImpl::Install *)
Definition StreamInstaller_Install (c : Caller) (installerId : Z) (i : StreamInstaller) (receiver : option Z) h : host * bool :=
  match receiver with
  | None => (h, false)
  | Some _ =>
      request c installerId (InstallTask [si_tempDir i]) ERR_APPEXECFWK_INSTALL_PERMISSION_DENIED (si_installParam i) receiver h
  end.

(** ** Steps *)

(** One step of the host: a request of a client with a receiver, a task of the
    pool, or a remove event; the receivers that make a request in it. *)
Inductive host_step : list Z → host → host → Prop :=
| step_request c id task param r h :
    host_step [r] h (request c id task (denied_code task) param (Some r) h).1
| step_task l1 t l2 h h' :
    ho_tasks h = l1 ++ t :: l2 → run_task t (h <| ho_tasks := l1 ++ l2 |>) = Some h' → host_step [] h h'
| step_event id events h :
    ho_events h = id :: events → host_step [] h (RemoveInstaller id (h <| ho_events := events |>)).

(** Several, with all the receivers. *)
Inductive host_steps : list Z → host → host → Prop :=
| steps_nil h : host_steps [] h h
| steps_cons rs rs' h1 h2 h3 : host_step rs h1 h2 → host_steps rs' h2 h3 → host_steps (rs ++ rs') h1 h3.
End Manager.

(** * Properties *)

(** ** The code of an uninstallation for all users *)

Lemma find_none_forall {A} (p : A → bool) l : List.find p l = None ↔ ∀ x, x ∈ l → p x = false.
Proof.
  induction l as [|x l IH]; simpl.
  - split; [by intros _ x ?%not_elem_of_nil|done].
  - destruct (p x) eqn:Hp; split.
    + done.
    + intros H. specialize (H x). rewrite H in Hp; [done|by left].
    + intros Hf y [->|Hy]%elem_of_cons; [done|]. by apply IH.
    + intros H. apply IH. intros y Hy. apply H. by right.
Qed.

(** Uninstalling for all users reports success exactly when there is no
    common user, or the uninstallation succeeded for one and every other either
    succeeded or did not have the bundle; otherwise the reported code is one that
    the uninstallation for some user ended with. *)
Lemma uninstall_result_correct codes :
  (uninstall_result codes = ERR_OK ↔ codes = [] ∨ (ERR_OK ∈ codes ∧ ∀ c, c ∈ codes → tolerated c = true))
  ∧ (uninstall_result codes ≠ ERR_OK → uninstall_result codes ∈ codes).
Proof.
  unfold uninstall_result. destruct (existsb (Z.eqb ERR_OK) codes) eqn:Hok.
  - assert (ERR_OK ∈ codes) as Hin.
    { apply existsb_exists in Hok as (c & Hc & Heq%Z.eqb_eq). rewrite Heq. by apply list_elem_of_In. }
    destruct (List.find _ codes) as [c|] eqn:Hf; simpl.
    + apply find_some in Hf as [Hc%list_elem_of_In Ht%negb_true_iff]. assert (c ≠ ERR_OK) as Hne by (intros ->; done).
      split; [|done]. split; [by intros|]. intros [->|[_ Hall]]; [by apply not_elem_of_nil in Hc|]. by rewrite Hall in Ht.
    + split; [|done]. split; [|done]. intros _. right. split; [done|]. intros c Hc. rewrite find_none_forall in Hf.
      by apply negb_false_iff, Hf.
  - destruct codes as [|code codes]; [split; [|done]; split; [by left|done]|].
    assert (ERR_OK ∉ code :: codes) as Hnot.
    { intros Hin. assert (existsb (Z.eqb ERR_OK) (code :: codes) = true); [|congruence]. apply existsb_exists. exists ERR_OK.
      split; [by apply list_elem_of_In|done]. }
    split; [|by left]. split; [|intros [?|[? _]]; done]. intros ->. destruct Hnot. by left.
Qed.

(** ** Requests *)

Section Requests.
Context {K P T E : Type} `{HK : KvStore K} `{HP : TextStore P} `{HX : JsonText} `{HU : Uninit} `{HT : AccessTokenKit T}
  `{HE : Environment E} `{HS : StdSort} `{HJ : BundleStateStorage.Json}.
#[local] Abbreviation host := (Host K P T E).
Implicit Types (h : host).

(** The receivers that wait for an answer or had one. *)
Definition served h : list Z := map pt_statusReceiver (ho_tasks h) ++ map fst (ho_finished h).
(** The installers that are at work or are to be removed. *)
Definition alive h : list Z := map pt_installerId (ho_tasks h) ++ ho_events h.

(** The manager knows exactly the installers that are at work or to be removed. *)
Definition registered h : Prop :=
  sm_wf (ho_installers h) ∧ NoDup (alive h) ∧ ∀ id, is_Some (ho_installers h !! id) ↔ id ∈ alive h.

Lemma CreateTask_served id task param r h : served (CreateTask id task param r h) ≡ₚ r :: served h.
Proof.
  unfold CreateTask, CreateInstaller, OnFinished, served. destruct (_ !! _); simpl.
  - rewrite map_app, app_assoc. simpl. by rewrite <- Permutation_cons_append.
  - rewrite map_app. simpl. by rewrite <- Permutation_cons_append.
Qed.

Lemma CreateTask_registered id task param r h : registered h → registered (CreateTask id task param r h).
Proof.
  intros (Hwf & Hnd & Hdom). unfold CreateTask, CreateInstaller. destruct (ho_installers h !! id) as [u|] eqn:Hid; simpl; [done|].
  assert (id ∉ alive h) as Hnew by (rewrite <- Hdom, Hid; by intros []).
  unfold registered, alive in *. simpl. rewrite map_app. simpl.
  split_and!; [by apply sm_wf_emplace|by rewrite <- Permutation_cons_append; simpl; apply NoDup_cons|].
  intros j. rewrite sm_lookup_emplace. rewrite !elem_of_app, list_elem_of_singleton.
  destruct (decide (j = id)) as [->|Hj].
  - rewrite Hid, decide_True by done. split; intros _; [left; right; reflexivity|by exists ()].
  - rewrite decide_False by done. specialize (Hdom j). rewrite elem_of_app in Hdom. destruct (ho_installers h !! j) as [[]|]; simpl; tauto.
Qed.

Lemma request_served c id task d param r h : served (request c id task d param (Some r) h).1 ≡ₚ r :: served h.
Proof.
  assert (∀ code h, served (OnFinished r code h) ≡ₚ r :: served h) as Hfin.
  { intros code h1. unfold OnFinished, served. simpl. rewrite map_app, app_assoc. simpl. by rewrite <- Permutation_cons_append. }
  unfold request, CheckBundleInstallerManager. destruct (ho_hasManager h); simpl; [|apply Hfin].
  destruct (may_install c h); simpl; [apply CreateTask_served|apply Hfin].
Qed.

Lemma request_registered c id task d param r h : registered h → registered (request c id task d param (Some r) h).1.
Proof.
  intros Hr. unfold request, CheckBundleInstallerManager. destruct (ho_hasManager h); simpl; [|done].
  destruct (may_install c h); simpl; [by apply CreateTask_registered|done].
Qed.

Lemma run_task_frame t h h' :
  run_task t h = Some h' →
  ∃ code, ho_installers h' = ho_installers h ∧ ho_tasks h' = ho_tasks h ∧ ho_events h' = ho_events h ++ [pt_installerId t]
          ∧ ho_finished h' = ho_finished h ++ [(pt_statusReceiver t, code)].
Proof. unfold run_task. destruct (task_program _ _ _) as [[code|code|] r]; [|done..]. intros [= <-]. by exists code. Qed.

Lemma host_step_served rs h h' : host_step rs h h' → served h' ≡ₚ rs ++ served h.
Proof.
  intros [c id task param r h1|l1 t l2 h1 h2 Ht Hrun|id events h1 He]; [apply request_served| |done].
  apply run_task_frame in Hrun as (code & _ & Hts & _ & Hf). unfold served. rewrite Hts, Hf, Ht. simpl.
  rewrite !map_app. simpl. rewrite <- (Permutation_middle (map pt_statusReceiver l1)). simpl.
  rewrite <- Permutation_cons_append. by rewrite <- Permutation_middle.
Qed.

Lemma host_step_registered rs h h' : host_step rs h h' → registered h → registered h'.
Proof.
  intros [c id task param r h1|l1 t l2 h1 h2 Ht Hrun|id events h1 He] Hr; [by apply request_registered|..].
  - apply run_task_frame in Hrun as (code & Hi & Hts & Hev & _). destruct Hr as (Hwf & Hnd & Hdom).
    assert (alive h2 ≡ₚ alive h1) as Halive.
    { unfold alive. rewrite Hts, Hev, Ht. simpl. rewrite !map_app. simpl. rewrite <- (Permutation_middle (map pt_installerId l1)). simpl.
      rewrite <- Permutation_cons_append. by rewrite <- Permutation_middle. }
    unfold registered. rewrite Halive, Hi. split_and!; [done..|]. intros j. by rewrite Halive.
  - destruct Hr as (Hwf & Hnd & Hdom). unfold registered, alive, RemoveInstaller in *. simpl. rewrite He in Hnd, Hdom.
    rewrite <- Permutation_middle in Hnd. apply NoDup_cons in Hnd as [Hnot Hnd]. split_and!; [by apply sm_wf_delete|done|].
    intros j. rewrite sm_lookup_delete. specialize (Hdom j). rewrite <- Permutation_middle, elem_of_cons in Hdom.
    case_decide as Hj; [subst|].
    + split; [by intros []|done].
    + rewrite Hdom. naive_solver.
Qed.

Context (s : Service K P T E) (hasManager : bool).
Definition new_Host : host := mkHost K P T E s hasManager ∅ [] [] [] 0 [].

Lemma host_steps_inv rs h : host_steps rs new_Host h → served h ≡ₚ rs ∧ registered h.
Proof.
  assert (∀ rs h1 h2, host_steps rs h1 h2 → registered h1 → served h2 ≡ₚ rs ++ served h1 ∧ registered h2) as Hall.
  { intros rs1 h1 h2 Hs. induction Hs as [h1|rs1 rs2 h1 h2 h3 H1 Hs IH]; [done|]. intros Hr.
    destruct (IH (host_step_registered _ _ _ H1 Hr)) as [Hp Hr3]. split; [|done].
    rewrite Hp, (host_step_served _ _ _ H1). rewrite !app_assoc. f_equiv. apply Permutation_app_comm. }
  intros Hs. destruct (Hall _ _ _ Hs) as [Hp Hr]; [|by rewrite app_nil_r in Hp].
  split_and!; [apply sm_wf_empty|constructor|]. intros id. unfold alive. simpl. rewrite sm_lookup_empty. split; [by intros []|by intros ?%not_elem_of_nil].
Qed.

(** C37: every request to install, recover or uninstall is answered once: in any
    order of requests, tasks and remove events, the receivers that were told a
    code and those whose task waits in the pool are those that made a request,
    each as often as it did; the manager keeps an installer for each task and
    each remove event that waits, with different ids, and no other. *)
Theorem requests_answered_once rs h :
  host_steps rs new_Host h →
  map pt_statusReceiver (ho_tasks h) ++ map fst (ho_finished h) ≡ₚ rs
  ∧ NoDup (map pt_installerId (ho_tasks h) ++ ho_events h)
  ∧ ∀ id, is_Some (ho_installers h !! id) ↔ id ∈ map pt_installerId (ho_tasks h) ++ ho_events h.
Proof. intros Hs. apply host_steps_inv in Hs as [Hp (_ & Hnd & Hdom)]. done. Qed.
End Requests.

(** ** Examples *)

Section Demo.
#[local] Existing Instances closed_store bits_json null_text no_values.

Abbreviation demo_host := (Host (stdmap string InnerBundleInfo) () (list (Z * string) * option HapPolicyParams) device).

Definition demo_caller : Caller := mkCaller 1 10000.
Definition demo_host0 : demo_host := new_Host (rn_service demo_newer) true.
(** Receivers 1 and 2 ask for an uninstallation at the same time. *)
Definition ask (receiver : Z) (h : demo_host) : demo_host :=
  (request demo_caller 5 (UninstallTask "com.demo") (denied_code (UninstallTask "com.demo")) (for_user 100) (Some receiver) h).1.
Definition demo_host2 : demo_host := ask 2 (ask 1 demo_host0).
Definition demo_task : PoolTask := mkPoolTask 5 1 (UninstallTask "com.demo") (for_user 100).
Definition demo_host3 : demo_host := default demo_host2 (run_task demo_task (demo_host2 <| ho_tasks := [] |>)).

Lemma demo_ran : run_task demo_task (demo_host2 <| ho_tasks := [] |>) = Some demo_host3.
Proof.
  unfold demo_host3. assert (is_Some (run_task demo_task (demo_host2 <| ho_tasks := [] |>))) as [h ->]; [|done].
  apply not_eq_None_Some. vm_compute. discriminate.
Qed.

Lemma demo_steps : host_steps [1; 2] demo_host0 demo_host3.
Proof.
  apply (steps_cons [1] [2] _ (ask 1 demo_host0)); [apply step_request|].
  apply (steps_cons [2] [] _ demo_host2); [apply step_request|].
  apply (steps_cons [] [] _ demo_host3); [|apply steps_nil].
  apply (step_task [] demo_task []); [vm_compute; reflexivity|apply demo_ran].
Qed.

Lemma requests_answered_once_witness :
  map pt_statusReceiver (ho_tasks demo_host3) ++ map fst (ho_finished demo_host3) ≡ₚ [1; 2]
  ∧ map fst (ho_finished demo_host3) = [2; 1].
Proof.
  split; [|vm_compute; reflexivity].
  exact (proj1 (requests_answered_once (rn_service demo_newer) true [1; 2] demo_host3 demo_steps)).
Defined.
End Demo.
