(* ===== verification/BootScan.v ===== *)
(** * BootScan: what happens to the delivered bundles when the device starts

    services/bundlemgr/src/bundle_mgr_service_event_handler.cpp with
    bundle_scanner.cpp, and of bundle_mgr_service.cpp and bundle_data_mgr.cpp
    the functions it ends with: the handler of the two events that start the
    scan, on the state of Service.v.  The first start installs what the scanned
    directories hold; a later one compares them with the store of the
    pre-installed bundles, installs what is new (over the air) and uninstalls
    what is gone.

    The switches of the build (USE_PRE_BUNDLE_PROFILE, CONFIG_POLOCY_ENABLE),
    the directories and the files are the class [BootEnvironment]; so is where
    std::set puts a PreScanInfo, whose comparison is no strict order. *)

From stdpp Require Import strings list.
From Stdlib Require Import Ascii.
From S2P Require Import Prelude Strings StdMap BundleTypes Errors Json InnerBundleInfo InnerBundleQuery InstallInfo Parcel Flow ParcelInfos BundlePermissionMgr BundleStateStorage BundleDataMgr BundleDataQuery PreInstall BundleMgrCalls Service Installer InstallerProps Installers Profile ZipFile BundleParser.

Open Scope string_scope.
Open Scope list_scope.
Open Scope Z_scope.

#[local] Instance AppType_eq_dec : EqDecision AppType.
Proof. solve_decision. Defined.

(** ** Paths *)

Definition SYSTEM_APP_SCAN_PATH : string := "/system/app".
Definition THIRD_SYSTEM_APP_SCAN_PATH : string := "/system/vendor".
Definition SYSTEM_RESOURCES_APP_PATH : string := "/system/app/SystemResources.hap".
Definition SYSTEM_RESOURCES_APP_PATH_NEW : string := "/system/app/ohos.global.systemres".
Definition DEFAULT_PRE_BUNDLE_PROFILE : string := "/system/etc/bundle".
Definition PREINSTALL_UNINSTALL_CONFIG : string := "/pre_uninstall_config.json".
Definition PREINSTALL_ABILITY_CONFIG : string := "/preinstall_ability_config.json".
Definition PREINSTALL_CONFIG : string := "/preinstall_config.json".
Definition APP_SUFFIX : string := "/app".
Definition PRODUCT_SUFFIX : string := "/etc/bundle".

(** What is behind the last [c]. *)
Fixpoint behind_last (c : Ascii.ascii) (s : string) : option string :=
  match s with
  | EmptyString => None
  | String a s' => match behind_last c s' with
                   | Some r => Some r
                   | None => if decide (a = c) then Some s' else None
                   end
  end.
Definition GetScanBundleName (str : string) : string := default "" (behind_last "/"%char str).

Record PreScanInfo := mkPreScanInfo { psi_bundleDir : string; psi_removable : bool; psi_priority : Z }.
#[export] Instance eta_PreScanInfo : Eta PreScanInfo := λ r, mkPreScanInfo (psi_bundleDir r) (psi_removable r) (psi_priority r).

(** The rest of the device. *)
Class BootEnvironment (E : Type) := {
  USE_PRE_BUNDLE_PROFILE : bool;
  CONFIG_POLOCY_ENABLE : bool;
  own_uid : Z;
  GetCfgDirList : E → option (list (option string));
  readdir_all : string → E → option (list string);
  file_content : E → string → option bytes;
  set_insert : PreScanInfo → list PreScanInfo → list PreScanInfo;
  AddSystemAbility : E → E * bool;
  PublishScanFinished : E → E * bool;
  SubscribeUserSwitched : E → E;
}.

(** In the data manager: whether the initial user is there, and the promise that
    CheckInitialUser has left for it, with whether it was kept. *)
Record InitialUser := mkInitialUser { iu_initialUserFlag : bool; iu_bundlePromise : option bool }.
#[export] Instance eta_InitialUser : Eta InitialUser := λ r, mkInitialUser (iu_initialUserFlag r) (iu_bundlePromise r).

Definition SetInitialUserFlag (flag : bool) (u : InitialUser) : InitialUser :=
  let u := if negb (iu_initialUserFlag u) && flag then u <| iu_bundlePromise ::= fmap (λ _, true) |> else u in
  u <| iu_initialUserFlag := flag |>.

(** The handler with what it works on: the service, the flags of the data
    manager and of BundleMgrService, and the two maps. *)
Record Boot {K P T E : Type} := mkBoot {
  bt_service : Service K P T E;
  bt_initialUser : InitialUser;
  bt_registerToService : bool;
  bt_distributedSub : bool;
  bt_notifyBundleScanStatus : bool;
  bt_hapParseInfoMap : stdmap string (list (string * InnerBundleInfo));
  bt_loadExistData : stdmap string PreInstallBundleInfo;
}.
Arguments Boot K P T E : clear implicits.
#[export] Instance eta_Boot K P T E : Eta (Boot K P T E) := λ r,
  mkBoot K P T E (bt_service r) (bt_initialUser r) (bt_registerToService r) (bt_distributedSub r)
    (bt_notifyBundleScanStatus r) (bt_hapParseInfoMap r) (bt_loadExistData r).

Section BootScan.
Context {K P T E : Type} `{HK : KvStore K} `{HP : TextStore P} `{HX : JsonText} `{HU : Uninit} `{HT : AccessTokenKit T}
  `{HE : Environment E} `{HS : StdSort} `{HJ : BundleStateStorage.Json} `{HB : BootEnvironment E}.
#[local] Abbreviation service := (Service K P T E).
#[local] Abbreviation boot := (Boot K P T E).
#[local] Abbreviation BM := (On boot).

Definition on_service {A} (m : On service A) : BM A := within bt_service (λ s b, b <| bt_service := s |>) m.

(** A SystemBundleInstaller of its own for each call; nobody hears of it. *)
Definition system_installer {A} (m : On (Run K P T E) A) : BM A :=
  on_service (within (mkRun K P T E (new_Installer false) [] new_InnerBundleInfo new_InnerBundleInfo INVALID_UID)
                     (λ r _, rn_service r) m).
Definition on_preInstalled {A} (m : On (PreInstalled P) A) : BM A :=
  on_service (within sv_preInstalled (λ p s, s <| sv_preInstalled := p |>) m).
Definition ask_device {A} (f : E → A) : BM A := on_service (ask_env f).

(** ** BundleScanner *)

(** The entries of the directory, none when it cannot be opened. *)
Definition Scan (dirPath : string) : BM (list string) :=
  if str_empty dirPath then mret []
  else
    entries ← ask_device (readdir_all dirPath);
    mret (map (λ name, dirPath +:+ PATH_SEPARATOR +:+ name)
            (filter (λ name, name ≠ "." ∧ name ≠ "..") (default [] entries))).

(** ** The directories *)

Definition ProcessScanDir (dir : string) (bundleDirs : list string) : BM (list string) :=
  bundleList ← Scan dir;
  mret (foldl (λ l item, if decide (item ∈ l) then l else l ++ [item]) bundleDirs bundleList).

(** The system resources come first. *)
Definition resources_first (bundleDirs : list string) : list string :=
  if decide (SYSTEM_RESOURCES_APP_PATH_NEW ∈ bundleDirs)
  then SYSTEM_RESOURCES_APP_PATH_NEW :: erase_path SYSTEM_RESOURCES_APP_PATH_NEW bundleDirs
  else if decide (SYSTEM_RESOURCES_APP_PATH ∈ bundleDirs)
  then SYSTEM_RESOURCES_APP_PATH :: erase_path SYSTEM_RESOURCES_APP_PATH bundleDirs
  else bundleDirs.

Fixpoint scan_dirs (dirs : list string) (bundleDirs : list string) : BM (list string) :=
  match dirs with
  | [] => mret bundleDirs
  | dir :: dirs' => bundleDirs ← ProcessScanDir dir bundleDirs; scan_dirs dirs' bundleDirs
  end.

(** Without the list of the policy the function ends in front of the
    reordering. *)
Definition GetBundleDirFromScan : BM (list string) :=
  bundleDirs ← scan_dirs [SYSTEM_APP_SCAN_PATH; THIRD_SYSTEM_APP_SCAN_PATH] [];
  if CONFIG_POLOCY_ENABLE then
    cfgDirList ← ask_device GetCfgDirList;
    match cfgDirList with
    | None => mret bundleDirs
    | Some paths =>
        bundleDirs ← scan_dirs (map (λ cfgDir, cfgDir +:+ APP_SUFFIX) (omap id paths)) bundleDirs;
        mret (resources_first bundleDirs)
    end
  else mret (resources_first bundleDirs).

(** ** The profiles of the pre-installed bundles *)

Record PreBundles := mkPreBundles {
  pre_scanInfos : list PreScanInfo;
  pre_uninstallBundleNames : stdmap string ();
  pre_configInfos : ConfigSet;
}.
Definition no_PreBundles : PreBundles := mkPreBundles [] ∅ ∅.

(** A parser that reports in a variable of its own. *)
Definition on_parser {A} (m : M A) : BM A :=
  match m (mkParseState ERR_OK ERR_OK) with Some (x, _) => mret x | None => throws end.

(** PreBundleProfile::TransformTo for the install list; what was read before an
    error stays in the set.  The set is a list in its order. *)
Fixpoint scan_info_loop (arrays : list json) (scanInfos : list PreScanInfo) : M (Z * list PreScanInfo) :=
  match arrays with
  | [] => mret (ERR_OK, scanInfos)
  | array :: arrays' =>
      if negb (is_object array) then mret (ERR_APPEXECFWK_PARSE_PROFILE_PROP_TYPE_ERROR, scanInfos)
      else
        read ← with_local (
          x ← GetValueIfFindKey LOCAL array "bundle_dir" get_string STRING true NOT_ARRAY (λ t x, x <| psi_bundleDir := t |>)
                (mkPreScanInfo "" false 0);
          x ← GetValueIfFindKey LOCAL array "removable" get_bool BOOLEAN false NOT_ARRAY (λ t x, x <| psi_removable := t |>) x;
          GetValueIfFindKey LOCAL array "priority" get_int32 NUMBER false NOT_ARRAY (λ t x, x <| psi_priority := t |>) x);
        let '(preScanInfo, parseResult) := read in
        if parseResult =? ERR_APPEXECFWK_PARSE_PROFILE_MISSING_PROP then scan_info_loop arrays' scanInfos
        else if negb (parseResult =? ERR_OK) then mret (parseResult, scanInfos)
        else if bool_decide (psi_bundleDir preScanInfo ∈ map psi_bundleDir scanInfos) then scan_info_loop arrays' scanInfos
        else scan_info_loop arrays' (set_insert preScanInfo scanInfos)
  end.

Definition TransformTo_scans (jsonBuf : json) (scanInfos : list PreScanInfo) : M (Z * list PreScanInfo) :=
  match find_key jsonBuf "install_list" with
  | Some (JArray (_ :: _ as arrays)) => scan_info_loop arrays scanInfos
  | _ => mret (ERR_APPEXECFWK_PARSE_PROFILE_PROP_TYPE_ERROR, scanInfos)
  end.

Definition ParsePreInstallConfig (content : string → option bytes) (configFile : string) (scanInfos : list PreScanInfo)
  : M (Z * list PreScanInfo) :=
  match ReadFileIntoJson content configFile with
  | None => mret (ERR_APPEXECFWK_PARSE_FILE_FAILED, scanInfos)
  | Some jsonBuf => TransformTo_scans jsonBuf scanInfos
  end.

Definition ParsePreBundleProFile (dir : string) (b : PreBundles) : BM PreBundles :=
  content ← ask_device file_content;
  scans ← on_parser (ParsePreInstallConfig content (dir +:+ PREINSTALL_CONFIG) (pre_scanInfos b));
  names ← on_parser (ParsePreUnInstallConfig content (dir +:+ PREINSTALL_UNINSTALL_CONFIG) (pre_uninstallBundleNames b));
  configs ← on_parser (ParsePreInstallAbilityConfig content (dir +:+ PREINSTALL_ABILITY_CONFIG) (pre_configInfos b));
  mret (mkPreBundles scans.2 names.2 configs.2).

(** Each directory once. *)
Fixpoint parse_profiles (dirs seen : list string) (b : PreBundles) : BM (list string * PreBundles) :=
  match dirs with
  | [] => mret (seen, b)
  | dir :: dirs' =>
      if decide (dir ∈ seen) then parse_profiles dirs' seen b
      else b ← ParsePreBundleProFile dir b; parse_profiles dirs' (dir :: seen) b
  end.

Definition GetBundleDirFromPreBundleProFile : BM PreBundles :=
  cfgDirList ← (if CONFIG_POLOCY_ENABLE then ask_device GetCfgDirList else mret (Some []));
  match cfgDirList with
  | None => mret no_PreBundles
  | Some paths =>
      parsed ← parse_profiles (map (λ cfgDir, cfgDir +:+ PRODUCT_SUFFIX) (omap id paths)) [] no_PreBundles;
      parsed ← parse_profiles [DEFAULT_PRE_BUNDLE_PROFILE] parsed.1 parsed.2;
      mret parsed.2
  end.

(** Those that the product does not leave out. *)
Definition wanted_scans (b : PreBundles) : list PreScanInfo :=
  List.filter (λ scanInfo, match pre_uninstallBundleNames b !! GetScanBundleName (psi_bundleDir scanInfo) with
                           | Some _ => false | None => true end) (pre_scanInfos b).

(** ** The first start *)

(** The configuration is looked up and not used. *)
Definition ProcessSystemBundleInstall (bundleDir : string) (appType : AppType) (userId : Z) : BM () :=
  ignore (system_installer (InstallSystemBundle bundleDir appType userId)).

Definition ProcessBootBundleInstallFromPreBundleProFile (userId : Z) : BM () :=
  b ← GetBundleDirFromPreBundleProFile;
  for_each (λ scanInfo, ProcessSystemBundleInstall (psi_bundleDir scanInfo) AppType_SYSTEM_APP userId) (wanted_scans b).

Definition ProcessBootBundleInstallFromScan (userId : Z) : BM () :=
  bundleDirs ← GetBundleDirFromScan;
  for_each (λ item, ProcessSystemBundleInstall item AppType_SYSTEM_APP userId) bundleDirs.

Definition OnBootStartScanning (userId : Z) : BM () :=
  ignore (on_service InitPermissions) ;;
  (if USE_PRE_BUNDLE_PROFILE then ProcessBootBundleInstallFromPreBundleProFile userId
   else ProcessBootBundleInstallFromScan userId) ;;
  on_service UnInitPermissions.

(** ** The HAP files of a directory *)

Definition scan_label_checks (first info : InnerBundleInfo) : list (bool * Z) :=
  [ (bool_decide (GetBundleName first = GetBundleName info), ERR_APPEXECFWK_INSTALL_BUNDLENAME_NOT_SAME);
    (GetVersionCode first =? GetVersionCode info, ERR_APPEXECFWK_INSTALL_VERSIONCODE_NOT_SAME);
    (bool_decide (GetVersionName first = GetVersionName info), ERR_APPEXECFWK_INSTALL_VERSIONNAME_NOT_SAME);
    (bool_decide (GetVendor first = GetVendor info), ERR_APPEXECFWK_INSTALL_VENDOR_NOT_SAME);
    (GetTargetVersion first =? GetTargetVersion info, ERR_APPEXECFWK_INSTALL_RELEASETYPE_TARGET_NOT_SAME);
    (GetCompatibleVersion first =? GetCompatibleVersion info, ERR_APPEXECFWK_INSTALL_RELEASETYPE_COMPATIBLE_NOT_SAME);
    (Bool.eqb (IsSingleton first) (IsSingleton info), ERR_APPEXECFWK_INSTALL_SINGLETON_NOT_SAME);
    (bool_decide (ib_appType first = ib_appType info), ERR_APPEXECFWK_INSTALL_APPTYPE_NOT_SAME) ].

(** [infos] is in the order in which the unordered map is walked. *)
Definition CheckAppLabelInfo (infos : list (string * InnerBundleInfo)) : BM () :=
  match infos with
  | [] => mret ()
  | (_, first) :: _ => for_each (λ p, for_each (λ c, check c.1 c.2) (scan_label_checks first p.2)) infos
  end.

(** Files that do not parse are left out. *)
Fixpoint parse_files (realPaths : list string) (infos : list (string * InnerBundleInfo)) : BM (list (string * InnerBundleInfo)) :=
  match realPaths with
  | [] => mret infos
  | realPath :: realPaths' =>
      parsed ← attempt (on_service (on_env (Service.Parse realPath new_InnerBundleInfo)));
      parse_files realPaths'
        (match parsed with
         | Ok info => if decide (realPath ∈ infos.*1) then infos else infos ++ [(realPath, info)]
         | _ => infos
         end)
  end.

Definition ParseHapFiles (hapFilePath : string) : BM (bool * list (string * InnerBundleInfo)) :=
  checked ← attempt (on_service (on_env (CheckFilePath [hapFilePath])));
  match checked with
  | Ok realPaths =>
      infos ← parse_files realPaths [];
      labels ← attempt (CheckAppLabelInfo (iteration_order infos));
      mret (code_of labels =? ERR_OK, iteration_order infos)
  | _ => mret (false, [])
  end.

(** The files that are not there yet join those of the bundle. *)
Definition add_infos (bundleName : string) (infos : list (string * InnerBundleInfo)) (m : stdmap string (list (string * InnerBundleInfo))) :=
  match m !! bundleName with
  | None => emplace bundleName infos m
  | Some old => <[bundleName := old ++ List.filter (λ p, negb (bool_decide (p.1 ∈ old.*1))) infos]> m
  end.
Definition AddParseInfosToMap (bundleName : string) (infos : list (string * InnerBundleInfo)) : BM () :=
  modify (λ b, b <| bt_hapParseInfoMap ::= λ m,
    add_infos bundleName infos m |>).

(** ** A later start: what is new *)

Definition HasModuleSavedInPreInstalledDb (bundleName bundlePath : string) (loadExistData : stdmap string PreInstallBundleInfo) : bool :=
  match loadExistData !! bundleName with None => false | Some i => HasBundlePath bundlePath i end.

Definition OTAInstall (filePaths : list string) (appType : AppType) : BM () :=
  match filePaths with
  | [] => mret ()
  | _ => ignore (system_installer (OTAInstallSystemBundle filePaths appType))
  end.

(** The file if it is to be installed: a module that the store knows and the
    device does not have was uninstalled by a user. *)
Definition ota_file (bundleName : string) (has : BundleInfo) (hapVersionCode : Z) (loadExistData : stdmap string PreInstallBundleInfo)
  (item : string * InnerBundleInfo) : list string :=
  match GetModuleNameVec item.2 with
  | [] => []
  | moduleName :: _ =>
      let hasModuleInstalled := bool_decide (moduleName ∈ bi_hapModuleNames has) in
      if HasModuleSavedInPreInstalledDb bundleName item.1 loadExistData && negb hasModuleInstalled then []
      else (if bi_versionCode has <? hapVersionCode then [item.1] else [])
           ++ (if (bi_versionCode has =? hapVersionCode) && negb hasModuleInstalled then [item.1] else [])
  end.

Definition installed_info (bundleName : string) : BM (option BundleInfo) :=
  on_service (gets (λ s, BundleDataQuery.GetBundleInfo (BundlePermissionMgr.GetReqPermissions (sv_tokens s)) own_uid
                           bundleName GET_BUNDLE_DEFAULT ANY_USERID (sv_mgr s) new_BundleInfo)).

Definition reboot_install_path (appType : AppType) (scanPath : string) : BM () :=
  parsed ← ParseHapFiles scanPath;
  match parsed with
  | (true, (_, first) :: _) =>
      let infos := parsed.2 in
      let bundleName := GetBundleName first in
      let hapVersionCode := GetVersionCode first in
      AddParseInfosToMap bundleName infos ;;
      loadExistData ← gets bt_loadExistData;
      match loadExistData !! bundleName with
      | None => OTAInstall [scanPath] appType
      | Some _ =>
          hasInstalledInfo ← installed_info bundleName;
          match hasInstalledInfo with
          | None => mret ()
          | Some has => OTAInstall (concat (map (ota_file bundleName has hapVersionCode loadExistData) infos)) appType
          end
      end
  | _ => mret ()
  end.

Definition InnerProcessRebootBundleInstall (scanPathList : list string) (appType : AppType) : BM () :=
  for_each (reboot_install_path appType) scanPathList.

(** The directories to look into, from either source. *)
Definition scan_paths : BM (list string) :=
  if USE_PRE_BUNDLE_PROFILE then
    b ← GetBundleDirFromPreBundleProFile; mret (map psi_bundleDir (wanted_scans b))
  else GetBundleDirFromScan.

Definition ProcessRebootBundleInstall : BM () :=
  paths ← scan_paths;
  InnerProcessRebootBundleInstall paths AppType_SYSTEM_APP.

(** ** A later start: what is gone *)

Definition DeletePreInfoInDb (bundleName bundlePath : string) (bundleLevel : bool) : BM () :=
  let preInstallBundleInfo := new_PreInstallBundleInfo <| pib_bundleName := bundleName |> in
  if bundleLevel then ignore (on_preInstalled (run (DeletePreInstallBundleInfo preInstallBundleInfo)))
  else
    preInstalled ← on_preInstalled (gets id);
    let i := DeleteBundlePath bundlePath (GetPreInstallBundleInfo bundleName preInstallBundleInfo preInstalled).1 in
    if bool_decide (pib_bundlePaths i = []) then ignore (on_preInstalled (run (DeletePreInstallBundleInfo i)))
    else ignore (on_preInstalled (run_opt (SavePreInstallBundleInfo i))).

(** Whether one of the parsed files holds the module. *)
Definition module_hap_exists (infos : list (string * InnerBundleInfo)) (moduleName : string) : bool :=
  existsb (λ p, match GetModuleNameVec p.2 with [] => false | name :: _ => bool_decide (moduleName = name) end) infos.

Definition reboot_uninstall_bundle (load : string * PreInstallBundleInfo) : BM () :=
  let bundleName := load.1 in
  parsed ← gets bt_hapParseInfoMap;
  match parsed !! bundleName with
  | None =>
      uninstalled ← system_installer (UninstallSystemBundle bundleName);
      when uninstalled (DeletePreInfoInDb bundleName "" true)
  | Some infos =>
      hasInstalledInfo ← installed_info bundleName;
      match hasInstalledInfo with
      | None => mret ()
      | Some has =>
          for_each (λ moduleName, when (negb (module_hap_exists infos moduleName))
                      (ignore (system_installer (UninstallSystemModule bundleName moduleName)))) (bi_hapModuleNames has) ;;
          for_each (λ preBundlePath, when (negb (bool_decide (preBundlePath ∈ infos.*1)))
                      (DeletePreInfoInDb bundleName preBundlePath false)) (pib_bundlePaths load.2)
      end
  end.

Definition ProcessRebootBundleUninstall : BM () :=
  loadExistData ← gets bt_loadExistData;
  for_each reboot_uninstall_bundle (elems loadExistData).

(** ** The events *)

Definition LoadAllPreInstallBundleInfos : BM () :=
  preInstalled ← on_preInstalled (gets pi_infos);
  modify (λ b, b <| bt_loadExistData ::= λ m, foldl (λ m i, emplace (pib_bundleName i) i m) m preInstalled |>).

Definition ProcessRebootBundle : BM () :=
  LoadAllPreInstallBundleInfos ;; ProcessRebootBundleInstall ;; ProcessRebootBundleUninstall.

Definition OnRebootStartScanning : BM () :=
  ignore (on_service InitPermissions) ;; ProcessRebootBundle ;; on_service UnInitPermissions.

Definition SetAllInstallFlag : BM () := modify (λ b, b <| bt_initialUser ::= SetInitialUserFlag true |>).

Definition AfterRegisterToService : BM () :=
  subscribed ← gets bt_distributedSub;
  when (negb subscribed)
    (on_service (modify (λ s, s <| sv_env ::= SubscribeUserSwitched |>)) ;; modify (λ b, b <| bt_distributedSub := true |>)).

Definition RegisterService : BM () :=
  registerToService ← gets bt_registerToService;
  added ← (if registerToService : bool then mret true else on_service (on_env (run AddSystemAbility)));
  if negb added then mret ()
  else modify (λ b, b <| bt_registerToService := true |>) ;; AfterRegisterToService.

(** Of the service only its environment and the flag; the user manager calls it
    as well. *)
Definition NotifyBundleScanStatus (s : service) (notifyBundleScanStatus : bool) : service * bool :=
  let '(e, published) := PublishScanFinished (sv_env s) in
  (s <| sv_env := e |>, if published : bool then notifyBundleScanStatus else true).
Definition NotifyScan : BM () :=
  modify (λ b, let '(s, notify) := NotifyBundleScanStatus (bt_service b) (bt_notifyBundleScanStatus b) in
               b <| bt_service := s |> <| bt_notifyBundleScanStatus := notify |>).

Inductive BootEvent := BUNDLE_SCAN_START | BUNDLE_SCAN_FINISHED | BMS_START_FINISHED | BUNDLE_REBOOT_SCAN_START.

Definition ProcessEvent (event : BootEvent) : BM () :=
  match event with
  | BUNDLE_SCAN_START => OnBootStartScanning DEFAULT_USERID ;; SetAllInstallFlag ;; RegisterService
  | BUNDLE_REBOOT_SCAN_START => OnRebootStartScanning ;; SetAllInstallFlag ;; RegisterService ;; NotifyScan
  | _ => mret ()
  end.
End BootScan.

(** * A start without changes *)

Section Unchanged.
Context {K P T E : Type} `{HK : KvStore K} `{HP : TextStore P} `{HX : JsonText} `{HU : Uninit} `{HT : AccessTokenKit T}
  `{HE : Environment E} `{HS : StdSort} `{HJ : BundleStateStorage.Json} `{HB : BootEnvironment E}.
#[local] Abbreviation service := (Service K P T E).
#[local] Abbreviation boot := (Boot K P T E).
Implicit Types (b : boot) (s : service).

(** The files do not change during the scan: what CheckFilePath and Parse
    answer is given by these functions. *)
Context (check_of : string → result (list string)) (parse_of : string → result InnerBundleInfo).
Context (check_given : ∀ path e, (CheckFilePath [path] e).1 = check_of path)
        (parse_given : ∀ path e, (Service.Parse path new_InnerBundleInfo e).1 = parse_of path)
        (check_returns : ∀ path, check_of path ≠ Throws) (parse_returns : ∀ path, parse_of path ≠ Throws).

(** What the scan finds under a path: a bundle name, a version and the files. *)
Definition parsed_files (realPaths : list string) : list (string * InnerBundleInfo) :=
  foldl (λ infos realPath, match parse_of realPath with
                           | Ok info => if decide (realPath ∈ infos.*1) then infos else infos ++ [(realPath, info)]
                           | _ => infos
                           end) [] realPaths.

Definition same_labels (infos : list (string * InnerBundleInfo)) : bool :=
  match infos with
  | [] => true
  | (_, first) :: _ => forallb (λ p, forallb fst (scan_label_checks first p.2)) infos
  end.

Definition found (path : string) : option (string * Z * list (string * InnerBundleInfo)) :=
  match check_of path with
  | Ok realPaths =>
      let infos := iteration_order (parsed_files realPaths) in
      match infos with
      | (_, first) :: _ => if same_labels infos then Some (GetBundleName first, GetVersionCode first, infos) else None
      | [] => None
      end
  | _ => None
  end.

Definition with_env (e : E) (b : boot) : boot := b <| bt_service ::= set_env e |>.

Lemma with_env_twice e e' b : with_env e' (with_env e b) = with_env e' b.
Proof. by destruct b as [[] ? ? ? ? ? ?]. Qed.

Lemma on_env_run {A} (m : On E A) b : ∃ e, on_service (on_env m) b = ((m (sv_env (bt_service b))).1, with_env e b).
Proof.
  unfold on_service, on_env, within. destruct (m (sv_env (bt_service b))) as [r e]. by exists e.
Qed.

Lemma each_check (l : list (bool * Z)) b :
  ∃ r : result (), for_each (λ c, check c.1 c.2) l b = (r, b) ∧ r ≠ Throws ∧ (r = Ok () ↔ forallb fst l = true)
                   ∧ (∀ code, r = Fail code → code ∈ l.*2).
Proof.
  induction l as [|[[] code] l IH]; simpl.
  - exists (Ok ()). split_and!; done.
  - destruct IH as (r & Hr & Ht & Hiff & Hf). exists r.
    split_and!; [exact Hr|done|exact Hiff|]. intros c Hc. right. by apply Hf.
  - exists (Fail code). split_and!; [done|done|done|]. intros c [= <-]. by left.
Qed.

Lemma scan_label_codes first info code : code ∈ (scan_label_checks first info).*2 → code ≠ ERR_OK.
Proof. intros Hc ->. unfold scan_label_checks in Hc. simpl in Hc. set_solver. Qed.

Lemma each_labels first infos b :
  ∃ r : result (), for_each (λ p : string * InnerBundleInfo, for_each (λ c, check c.1 c.2) (scan_label_checks first p.2)) infos b = (r, b)
    ∧ r ≠ Throws ∧ (code_of r =? ERR_OK) = forallb (λ p, forallb fst (scan_label_checks first p.2)) infos.
Proof.
  induction infos as [|p infos IH]; cbn [for_each forallb]; [by exists (Ok ())|].
  destruct (each_check (scan_label_checks first p.2) b) as (r & Hr & Ht & Hiff & Hf). unfold mbind, On_bind.
  rewrite Hr. destruct r as [[]|code|]; [|exists (Fail code)|done].
  - assert (forallb fst (scan_label_checks first p.2) = true) as -> by by apply Hiff. exact IH.
  - split; [done|]. split; [done|]. assert (forallb fst (scan_label_checks first p.2) ≠ true) as Hne by (rewrite <- Hiff; done).
    apply not_true_iff_false in Hne. rewrite Hne. simpl. apply Z.eqb_neq. by apply (scan_label_codes first p.2), Hf.
Qed.

Lemma CheckAppLabelInfo_run infos b :
  ∃ r, CheckAppLabelInfo infos b = (r, b) ∧ r ≠ Throws ∧ (code_of r =? ERR_OK) = same_labels infos.
Proof. destruct infos as [|[k first] infos]; [by exists (Ok ())|]. apply each_labels. Qed.

Lemma parse_files_run realPaths : ∀ infos b,
  ∃ e, parse_files realPaths infos b
    = (Ok (foldl (λ infos realPath, match parse_of realPath with
                           | Ok info => if decide (realPath ∈ infos.*1) then infos else infos ++ [(realPath, info)]
                           | _ => infos
                           end) infos realPaths), with_env e b).
Proof.
  induction realPaths as [|path realPaths IH]; intros infos b; cbn [parse_files foldl].
  { exists (sv_env (bt_service b)). unfold mret, On_ret. by destruct b as [[] ? ? ? ? ? ?]. }
  unfold mbind, On_bind, attempt. destruct (on_env_run (Service.Parse path new_InnerBundleInfo) b) as [e He].
  rewrite He, parse_given. destruct (parse_of path) as [info|code|] eqn:Hp; [| |by apply parse_returns in Hp];
    (match goal with |- context [parse_files realPaths ?x] => destruct (IH x (with_env e b)) as [e' He'] end;
     exists e'; rewrite He', with_env_twice; done).
Qed.

Lemma ParseHapFiles_run path b :
  ∃ e ok infos, ParseHapFiles path b = (Ok (ok, infos), with_env e b)
    ∧ found path = (match ok, infos with
                    | true, (_, first) :: _ => Some (GetBundleName first, GetVersionCode first, infos)
                    | _, _ => None
                    end).
Proof.
  unfold ParseHapFiles, found, mbind, On_bind, attempt. destruct (on_env_run (CheckFilePath [path]) b) as [e He].
  rewrite He, check_given. destruct (check_of path) as [realPaths|code|] eqn:Hc.
  - destruct (parse_files_run realPaths [] (with_env e b)) as [e' He']. rewrite He', with_env_twice. clear He He'.
    change (foldl _ [] realPaths) with (parsed_files realPaths). set (infos := iteration_order (parsed_files realPaths)).
    destruct (CheckAppLabelInfo_run infos (with_env e' b)) as (r & Hr & Ht & Hl). rewrite Hr.
    destruct r as [[]|c|]; [| |done]; simpl in Hl;
      (eexists e', _, infos; split; [reflexivity|]; destruct infos as [|[k first] infos']; [done|]; by rewrite <- Hl).
  - exists e, false, []. done.
  - by apply check_returns in Hc.
Qed.

(** ** What the parse adds up to *)

Definition add_found (f : option (string * Z * list (string * InnerBundleInfo))) (m : stdmap string (list (string * InnerBundleInfo))) :=
  match f with Some (n, _, infos) => add_infos n infos m | None => m end.
Definition scanned (paths : list string) (m : stdmap string (list (string * InnerBundleInfo))) := foldl (λ m p, add_found (found p) m) m paths.

Definition honest (infos : list (string * InnerBundleInfo)) : Prop := ∀ item, item ∈ infos → parse_of item.1 = Ok item.2.
Definition honest_map (m : stdmap string (list (string * InnerBundleInfo))) : Prop := ∀ n infos, m !! n = Some infos → honest infos.
Definition holds (m : stdmap string (list (string * InnerBundleInfo))) (n : string) (item : string * InnerBundleInfo) : Prop :=
  ∃ infos, m !! n = Some infos ∧ item ∈ infos.

Lemma parsed_files_honest realPaths : honest (parsed_files realPaths).
Proof.
  unfold parsed_files. cut (∀ infos, honest infos → honest (foldl (λ infos realPath, match parse_of realPath with
    | Ok info => if decide (realPath ∈ infos.*1) then infos else infos ++ [(realPath, info)] | _ => infos end) infos realPaths)).
  { intros H. apply H. intros item Hi. by apply not_elem_of_nil in Hi. }
  induction realPaths as [|path realPaths IH]; intros infos Hh; [done|]. simpl. apply IH.
  destruct (parse_of path) eqn:Hp; [|done..]. case_decide; [done|]. intros item [Hi|Hi%list_elem_of_singleton]%elem_of_app; [by apply Hh|].
  by subst item.
Qed.

Lemma found_honest path n v infos : found path = Some (n, v, infos) → honest infos.
Proof.
  unfold found. destruct (check_of path) as [realPaths| |]; [|done..].
  destruct (iteration_order (parsed_files realPaths)) as [|[k first] l] eqn:Ho; [done|]. destruct (same_labels _); [|done].
  intros [= _ _ <-] item Hi. apply (parsed_files_honest realPaths). rewrite <- Ho in Hi.
  by rewrite iteration_order_permutation in Hi.
Qed.

Lemma add_infos_keeps n infos m k item : holds m k item → holds (add_infos n infos m) k item.
Proof.
  intros (l & Hl & Hi). unfold add_infos, holds. destruct (m !! n) as [old|] eqn:Hn.
  - rewrite sm_lookup_insert. case_decide; [|by exists l]. subst k. simplify_eq. eexists. split; [done|]. apply elem_of_app. by left.
  - rewrite sm_lookup_emplace, Hl. by exists l.
Qed.

Lemma add_infos_adds n infos m item : honest infos → honest_map m → item ∈ infos → holds (add_infos n infos m) n item.
Proof.
  intros Hh Hm Hi. unfold add_infos, holds. destruct (m !! n) as [old|] eqn:Hn.
  - rewrite sm_lookup_insert, decide_True by done. eexists. split; [done|]. apply elem_of_app.
    destruct (decide (item.1 ∈ old.*1)) as [Hin|Hin].
    + left. apply list_elem_of_fmap in Hin as (item' & Heq & Hin). pose proof (Hm n old Hn item' Hin) as H1.
      rewrite <- Heq, (Hh item Hi) in H1. by destruct item, item'; simplify_eq/=.
    + right. apply list_elem_of_In, filter_In. split; [by apply list_elem_of_In|]. by rewrite bool_decide_false.
  - rewrite sm_lookup_emplace, Hn, decide_True by done. by exists infos.
Qed.

Lemma add_infos_honest n infos m : honest infos → honest_map m → honest_map (add_infos n infos m).
Proof.
  intros Hh Hm k l. unfold add_infos. destruct (m !! n) as [old|] eqn:Hn.
  - rewrite sm_lookup_insert. case_decide; [|by apply Hm]. intros [= <-] item [Hi|Hi]%elem_of_app; [by apply (Hm n old Hn)|].
    apply Hh. apply list_elem_of_In, filter_In in Hi as [Hi _]. by apply list_elem_of_In.
  - rewrite sm_lookup_emplace. destruct (m !! k) eqn:Hk; [intros [= <-]; by eapply Hm|]. case_decide; [|done]. by intros [= <-].
Qed.

Lemma scanned_holds paths : ∀ m, honest_map m →
  (∀ k item, holds m k item → holds (scanned paths m) k item)
  ∧ (∀ path n v infos item, path ∈ paths → found path = Some (n, v, infos) → item ∈ infos → holds (scanned paths m) n item).
Proof.
  induction paths as [|path paths IH]; intros m Hm; unfold scanned; cbn [foldl].
  { split; [done|]. by intros path n v infos item ?%not_elem_of_nil. }
  assert (Hm' : honest_map (add_found (found path) m)).
  { unfold add_found. destruct (found path) as [[[n v] infos]|] eqn:Hf; [|done]. apply add_infos_honest; [by eapply found_honest|done]. }
  destruct (IH _ Hm') as [Hkeep Hadd]. split.
  - intros k item Hh. apply Hkeep. unfold add_found. destruct (found path) as [[[n v] infos]|]; [by apply add_infos_keeps|done].
  - intros path' n v infos item [->|Hin]%elem_of_cons Hf Hi; [|by eapply Hadd].
    apply Hkeep. rewrite Hf. simpl. apply add_infos_adds; [by eapply found_honest|done..].
Qed.

(** ** The directories are only read *)

Definition reader {A} (m : On boot A) : Prop :=
  ∀ b, (m b).2 = b ∧ ∀ b', sv_env (bt_service b') = sv_env (bt_service b) → (m b').1 = (m b).1.

Lemma reader_ret {A} (x : A) : reader (mret x).
Proof. done. Qed.
Lemma reader_bind {A B} (m : On boot A) (k : A → On boot B) : reader m → (∀ x, reader (k x)) → reader (m ≫= k).
Proof.
  intros Hm Hk b. destruct (Hm b) as [H2 H1]. unfold mbind, On_bind. destruct (m b) as [r b1]. simpl in H2, H1. subst b1. split.
  - destruct r as [x|c|]; [apply Hk|done..].
  - intros b' Hb. specialize (H1 b' Hb). destruct (Hm b') as [H2' _]. destruct (m b') as [r' b1']. simpl in H2', H1. subst r' b1'.
    destruct r as [x|c|]; [|done..]. by apply Hk.
Qed.
Lemma reader_ask {A} (f : E → A) : reader (ask_device f).
Proof. intros b. split; [by destruct b|]. intros b' Hb. unfold ask_device, on_service, within, ask_env, gets. simpl. by rewrite Hb. Qed.
Lemma reader_parser {A} (m : M A) : reader (on_parser m).
Proof. unfold on_parser. by destruct (m _) as [[x s]|]. Qed.

Lemma reader_Scan dir : reader (Scan dir).
Proof. unfold Scan. destruct (str_empty dir); [apply reader_ret|]. apply reader_bind; [apply reader_ask|]. intros x. apply reader_ret. Qed.

Lemma reader_scan_dirs dirs : ∀ l, reader (scan_dirs dirs l).
Proof.
  induction dirs as [|dir dirs IH]; intros l; [apply reader_ret|]. cbn [scan_dirs]. apply reader_bind; [|intros x; apply IH].
  unfold ProcessScanDir. apply reader_bind; [apply reader_Scan|]. intros x. apply reader_ret.
Qed.

Lemma reader_parse_profiles dirs : ∀ seen l, reader (parse_profiles dirs seen l).
Proof.
  induction dirs as [|dir dirs IH]; intros seen l; [apply reader_ret|]. cbn [parse_profiles]. case_decide; [apply IH|].
  apply reader_bind; [|intros x; apply IH]. unfold ParsePreBundleProFile.
  apply reader_bind; [apply reader_ask|intros ?].
  do 3 (apply reader_bind; [apply reader_parser|intros ?]). apply reader_ret.
Qed.

Lemma reader_scan_paths : reader scan_paths.
Proof.
  unfold scan_paths. destruct USE_PRE_BUNDLE_PROFILE.
  - apply reader_bind; [|intros ?; apply reader_ret]. unfold GetBundleDirFromPreBundleProFile.
    apply reader_bind; [destruct CONFIG_POLOCY_ENABLE; [apply reader_ask|apply reader_ret]|]. intros [paths|]; [|apply reader_ret].
    apply reader_bind; [apply reader_parse_profiles|intros ?]. apply reader_bind; [apply reader_parse_profiles|intros ?]. apply reader_ret.
  - unfold GetBundleDirFromScan. apply reader_bind; [apply reader_scan_dirs|intros l].
    destruct CONFIG_POLOCY_ENABLE; [|apply reader_ret]. apply reader_bind; [apply reader_ask|]. intros [paths|]; [|apply reader_ret].
    apply reader_bind; [apply reader_scan_dirs|intros ?]. apply reader_ret.
Qed.

(** ** Nothing new and nothing gone *)

Definition installed (n : string) (s : service) : option BundleInfo :=
  BundleDataQuery.GetBundleInfo (BundlePermissionMgr.GetReqPermissions (sv_tokens s)) own_uid n GET_BUNDLE_DEFAULT ANY_USERID (sv_mgr s)
    new_BundleInfo.

(** A file under one of the paths, with the bundle and the version there. *)
Definition delivered (paths : list string) (n : string) (v : Z) (item : string * InnerBundleInfo) : Prop :=
  ∃ path files, path ∈ paths ∧ found path = Some (n, v, files) ∧ item ∈ files.
(** The module of a file. *)
Definition holds_module (item : string * InnerBundleInfo) (moduleName : string) : Prop := head (GetModuleNameVec item.2) = Some moduleName.

(** Each bundle that is found is pre-installed; and when the device has it, it
    has no lower version of a module that it has, and a module that it does
    not have was uninstalled from this file or has a lower version there. *)
Definition nothing_new (paths : list string) (s : service) : Prop :=
  ∀ n v item, delivered paths n v item →
    n ∈ map pib_bundleName (pi_infos (sv_preInstalled s))
    ∧ ∀ has moduleName, installed n s = Some has → holds_module item moduleName →
        (moduleName ∈ bi_hapModuleNames has → v <= bi_versionCode has)
        ∧ (moduleName ∉ bi_hapModuleNames has → v < bi_versionCode has
           ∨ ∀ i, i ∈ pi_infos (sv_preInstalled s) → pib_bundleName i = n → HasBundlePath item.1 i = true).

(** Each pre-installed bundle is found; and when the device has it, so are its
    modules, and the files that the store names. *)
Definition nothing_gone (paths : list string) (s : service) : Prop :=
  ∀ i, i ∈ pi_infos (sv_preInstalled s) →
    (∃ v item, delivered paths (pib_bundleName i) v item)
    ∧ ∀ has, installed (pib_bundleName i) s = Some has →
        (∀ moduleName, moduleName ∈ bi_hapModuleNames has →
           ∃ v item, delivered paths (pib_bundleName i) v item ∧ holds_module item moduleName)
        ∧ ∀ path, path ∈ pib_bundlePaths i → ∃ v item, delivered paths (pib_bundleName i) v item ∧ item.1 = path.

Lemma installed_info_run n b : installed_info n b = (Ok (installed n (bt_service b)), b).
Proof. by destruct b. Qed.

(** The state of the scan: only what the environment was asked and the map of
    the parsed files differ. *)
Definition after (e : E) (m : stdmap string (list (string * InnerBundleInfo))) b : boot := with_env e b <| bt_hapParseInfoMap := m |>.

Definition nothing_at (path : string) b : Prop :=
  ∀ n v files, found path = Some (n, v, files) →
    is_Some (bt_loadExistData b !! n)
    ∧ ∀ has, installed n (bt_service b) = Some has → Forall (λ item, ota_file n has v (bt_loadExistData b) item = []) files.

Lemma concat_nil {A B} (f : A → list B) l : Forall (λ x, f x = []) l → concat (map f l) = [].
Proof. induction 1 as [|x l Hx _ IH]; [done|]. simpl. by rewrite Hx. Qed.

Lemma reboot_install_path_run type path b :
  nothing_at path b →
  ∃ e, reboot_install_path type path b = (Ok (), after e (add_found (found path) (bt_hapParseInfoMap b)) b).
Proof.
  intros Hn. unfold reboot_install_path. destruct (ParseHapFiles_run path b) as (e & ok & infos & Hp & Hf).
  unfold mbind, On_bind at 1. rewrite Hp. exists e.
  assert (Hsame : with_env e b = after e (bt_hapParseInfoMap b) b) by by destruct b as [[] ? ? ? ? ? ?].
  destruct ok; [|by rewrite Hf; simpl; rewrite <- Hsame]. destruct infos as [|[k first] infos]; [by rewrite Hf; simpl; rewrite <- Hsame|].
  destruct (Hn _ _ _ Hf) as [[pre Hpre] Hhas]. rewrite Hf. cbn [snd].
  unfold AddParseInfosToMap, modify, gets, On_bind. cbn beta iota.
  change (bt_loadExistData _ !! GetBundleName first) with (bt_loadExistData b !! GetBundleName first). rewrite Hpre.
  rewrite installed_info_run. cbn beta iota.
  set (b1 := _ <| bt_hapParseInfoMap ::= _ |>).
  change (installed (GetBundleName first) (bt_service b1)) with (installed (GetBundleName first) (bt_service b)).
  change (bt_loadExistData b1) with (bt_loadExistData b).
  destruct (installed (GetBundleName first) (bt_service b)) as [has|]; [|done].
  rewrite (concat_nil _ _ (Hhas has eq_refl)). done.
Qed.

Lemma after_twice e m e' m' b : after e' m' (after e m b) = after e' m' b.
Proof. by destruct b as [[] ? ? ? ? ? ?]. Qed.

Lemma reboot_install_run type paths : ∀ b, Forall (λ path, nothing_at path b) paths →
  ∃ e, InnerProcessRebootBundleInstall paths type b = (Ok (), after e (scanned paths (bt_hapParseInfoMap b)) b).
Proof.
  induction paths as [|path paths IH]; intros b Hn; unfold InnerProcessRebootBundleInstall; cbn [for_each].
  { exists (sv_env (bt_service b)). by destruct b as [[] ? ? ? ? ? ?]. }
  apply Forall_cons in Hn as [Hpath Hn]. destruct (reboot_install_path_run type path b Hpath) as [e He].
  unfold mbind, On_bind. rewrite He. set (m1 := add_found _ _) in *.
  destruct (IH (after e m1 b)) as [e' He']; [exact Hn|]. exists e'.
  unfold InnerProcessRebootBundleInstall in He'. rewrite He'. by rewrite after_twice.
Qed.

Lemma for_each_idle {S A} (m : A → On S ()) l (s : S) : (∀ x, x ∈ l → m x s = (Ok (), s)) → for_each m l s = (Ok (), s).
Proof.
  induction l as [|x l IH]; intros Hm; [done|]. cbn [for_each]. unfold mbind, On_bind. rewrite Hm by by left.
  apply IH. intros y Hy. apply Hm. by right.
Qed.

Lemma reboot_uninstall_idle n pre files b :
  bt_hapParseInfoMap b !! n = Some files →
  (∀ has, installed n (bt_service b) = Some has →
     (∀ moduleName, moduleName ∈ bi_hapModuleNames has → module_hap_exists files moduleName = true)
     ∧ ∀ path, path ∈ pib_bundlePaths pre → path ∈ files.*1) →
  reboot_uninstall_bundle (n, pre) b = (Ok (), b).
Proof.
  intros Hm Hhas. unfold reboot_uninstall_bundle, mbind, On_bind, gets. cbn beta iota. cbn [fst snd]. rewrite Hm, installed_info_run.
  destruct (installed n (bt_service b)) as [has|]; [|done]. destruct (Hhas has eq_refl) as [Hmods Hpaths].
  rewrite for_each_idle; [|intros moduleName Hin; by rewrite (Hmods moduleName Hin)].
  apply for_each_idle. intros path Hin. by rewrite bool_decide_true by by apply Hpaths.
Qed.

(** What LoadAllPreInstallBundleInfos makes of the vector. *)
Definition loaded (infos : list PreInstallBundleInfo) : stdmap string PreInstallBundleInfo := foldl (λ m i, emplace (pib_bundleName i) i m) ∅ infos.

Lemma loaded_spec infos :
  (∀ n pre, (n, pre) ∈ elems (loaded infos) → pre ∈ infos ∧ pib_bundleName pre = n)
  ∧ ∀ n, n ∈ map pib_bundleName infos → ∃ pre, loaded infos !! n = Some pre ∧ pre ∈ infos ∧ pib_bundleName pre = n.
Proof.
  assert (Hlook : ∀ n, loaded infos !! n = assoc_find n (map (λ i, (pib_bundleName i, i)) infos)).
  { intros n. unfold loaded. assert (∀ l m, foldl (λ m i, emplace (pib_bundleName i) i m) m l
      = foldl (λ r p, emplace p.1 p.2 r) m (map (λ i, (pib_bundleName i, i)) l)) as ->
      by (intros l; induction l as [|i l IH]; intros m; [done|apply IH]).
    by rewrite sm_lookup_emplaces, sm_lookup_empty. }
  assert (Hsome : ∀ n pre, loaded infos !! n = Some pre → pre ∈ infos ∧ pib_bundleName pre = n).
  { intros n pre. rewrite Hlook. clear. induction infos as [|i l IH]; [done|]. simpl. case_decide as Hk.
    - intros [= <-]. split; [by left|done].
    - intros H. destruct (IH H). split; [by right|done]. }
  assert (Hwf : sm_wf (loaded infos)).
  { unfold loaded. generalize (sm_wf_empty (K:=string) (V:=PreInstallBundleInfo)). generalize (∅ : stdmap string PreInstallBundleInfo).
    clear. induction infos as [|i l IH]; intros m Hm; [done|]. simpl. apply IH. by apply sm_wf_emplace. }
  split.
  - intros n pre Hin. apply Hsome. by apply sm_elem_lookup.
  - intros n Hn. destruct (loaded infos !! n) as [pre|] eqn:Hl; [exists pre; split; [done|by apply Hsome]|].
    rewrite Hlook in Hl. apply assoc_find_none in Hl. destruct Hl.
    rewrite <- list_fmap_compose. exact Hn.
Qed.

Lemma module_hap_exists_iff files moduleName :
  module_hap_exists files moduleName = true ↔ ∃ item, item ∈ files ∧ holds_module item moduleName.
Proof.
  unfold module_hap_exists, holds_module. rewrite existsb_exists. split.
  - intros (item & Hin%list_elem_of_In & Hm). exists item. split; [done|].
    destruct (GetModuleNameVec item.2) as [|name l]; [done|]. apply bool_decide_eq_true in Hm. by subst.
  - intros (item & Hin & Hm). exists item. split; [by apply list_elem_of_In|].
    destruct (GetModuleNameVec item.2) as [|name l]; [done|]. apply bool_decide_eq_true. by injection Hm.
Qed.

Lemma found_nonempty path n v files : found path = Some (n, v, files) → ∃ item, item ∈ files.
Proof.
  unfold found. destruct (check_of path); [|done..]. destruct (iteration_order _) as [|item l]; [done|]. destruct item as [k first].
  destruct (same_labels _); [|done]. intros [= _ _ <-]. exists (k, first). by left.
Qed.

(** C7: A start of the device at which nothing is new and nothing is gone
    changes nothing: when every bundle that the scan finds is pre-installed
    and not newer than on the device (or was uninstalled by a user), and every
    pre-installed bundle, module and file is found, the handler goes through
    all of them and leaves the service - the bundles, the users, the store of
    the pre-installed bundles, the permissions - as it is. *)
Theorem unchanged_start_changes_nothing b paths :
  bt_hapParseInfoMap b = ∅ → bt_loadExistData b = ∅ → (scan_paths b).1 = Ok paths →
  nothing_new paths (bt_service b) → nothing_gone paths (bt_service b) →
  ∃ e b', ProcessRebootBundle b = (Ok (), b') ∧ bt_service b' = set_env e (bt_service b).
Proof.
  intros Hmap Hload Hpaths Hnew Hgone. set (s := bt_service b) in *. set (infos := pi_infos (sv_preInstalled s)).
  destruct (loaded_spec infos) as [Hfrom Hto].
  set (b1 := b <| bt_loadExistData := loaded infos |>).
  assert (HL : LoadAllPreInstallBundleInfos b = (Ok (), b1)).
  { subst b1. unfold loaded. rewrite <- Hload. by destruct b as [[] ? ? ? ? ? ?]. }
  assert (Hscan : scan_paths b1 = (Ok paths, b1)).
  { destruct (reader_scan_paths b) as [_ H1]. destruct (reader_scan_paths b1) as [H2 _]. specialize (H1 b1 eq_refl). rewrite Hpaths in H1.
    destruct (scan_paths b1) as [r b1']. simpl in *. congruence. }
  assert (Hidle : Forall (λ path, nothing_at path b1) paths).
  { apply Forall_forall. intros path Hin n v files Hf. change (bt_loadExistData b1) with (loaded infos). change (bt_service b1) with s.
    assert (Hd : ∀ item, item ∈ files → delivered paths n v item) by (intros item Hi; by exists path, files).
    destruct (found_nonempty path n v files Hf) as [item0 H0].
    destruct (Hto n) as (pre & Hl & Hpre & Hname); [by apply (Hnew n v item0), Hd|].
    split; [by exists pre|]. intros has Hhas. apply Forall_forall. intros item Hi.
    destruct (Hnew n v item (Hd item Hi)) as [_ Hdec]. unfold ota_file.
    destruct (GetModuleNameVec item.2) as [|moduleName ms] eqn:Hm; [done|].
    destruct (Hdec has moduleName Hhas) as [Hyes Hno]; [unfold holds_module; by rewrite Hm|].
    unfold HasModuleSavedInPreInstalledDb. rewrite Hl.
    case_bool_decide as Hin'; simpl.
    - specialize (Hyes Hin'). rewrite andb_false_r. simpl. rewrite andb_false_r, app_nil_r. by destruct (Z.ltb_spec (bi_versionCode has) v); [lia|].
    - destruct (Hno Hin') as [Hlt|Hdb].
      + destruct (HasBundlePath item.1 pre); [done|]. simpl. destruct (Z.ltb_spec (bi_versionCode has) v); [lia|].
        destruct (Z.eqb_spec (bi_versionCode has) v); [lia|done].
      + by rewrite (Hdb pre Hpre Hname). }
  destruct (reboot_install_run AppType_SYSTEM_APP paths b1 Hidle) as [e He].
  assert (Hm0 : bt_hapParseInfoMap b1 = ∅) by exact Hmap. rewrite Hm0 in He. set (b2 := after e (scanned paths ∅) b1) in *.
  exists e, b2. split; [|done].
  unfold ProcessRebootBundle, ProcessRebootBundleInstall, mbind, On_bind. rewrite HL, Hscan, He.
  unfold ProcessRebootBundleUninstall, gets. unfold mbind, On_bind. cbn beta iota. apply for_each_idle. intros [n pre] Hin.
  change (bt_loadExistData b2) with (loaded infos) in Hin. apply Hfrom in Hin as [Hpre Hname].
  assert (Hempty : honest_map ∅) by (intros k l; by rewrite sm_lookup_empty).
  destruct (scanned_holds paths ∅ Hempty) as [_ Hholds].
  assert (Hd : ∀ v item, delivered paths n v item → holds (scanned paths ∅) n item).
  { intros v item (path & files & Hp & Hf & Hi). by eapply Hholds. }
  destruct (Hgone pre Hpre) as [(v0 & item0 & H0) Hrest]. rewrite Hname in H0, Hrest.
  destruct (Hd _ _ H0) as (files & Hfiles & _).
  assert (Hfiles' : ∀ v item, delivered paths n v item → item ∈ files).
  { intros v item H. destruct (Hd _ _ H) as (files' & Hf' & Hi). congruence. }
  apply (reboot_uninstall_idle n pre files b2); [done|]. intros has Hhas. destruct (Hrest has Hhas) as [Hmods Hps]. split.
  - intros moduleName Hin. destruct (Hmods moduleName Hin) as (v & item & H & Hm). apply module_hap_exists_iff.
    exists item. split; [by eapply Hfiles'|done].
  - intros path Hin. destruct (Hps path Hin) as (v & item & H & <-). apply list_elem_of_fmap. exists item. split; [done|by eapply Hfiles'].
Qed.
End Unchanged.

(** ** Examples *)

Section Demo.
#[local] Existing Instances closed_store bits_json null_text no_values.

(** /system/app holds one file. *)
#[local] Instance demo_boot_environment : BootEnvironment device := {|
  USE_PRE_BUNDLE_PROFILE := false;
  CONFIG_POLOCY_ENABLE := false;
  own_uid := 1000;
  GetCfgDirList _ := None;
  readdir_all path _ := if decide (path = SYSTEM_APP_SCAN_PATH) then Some ["."; "demo.hap"; ".."] else None;
  file_content _ _ := None;
  set_insert := cons;
  AddSystemAbility e := (e, true);
  PublishScanFinished e := (e, true);
  SubscribeUserSwitched e := e;
|}.

Abbreviation demo_boot := (Boot (stdmap string InnerBundleInfo) () (list (Z * string) * option HapPolicyParams) device).

Definition demo_path : string := "/system/app/demo.hap".

(** The bundle of the file, installed for user 100. *)
Definition demo_delivered : InnerBundleInfo :=
  InnerBundleInfo.AddInnerBundleUserInfo
    (new_InnerBundleUserInfo <| ibu_bundleUserInfo ::= λ u, u <| bu_userId := 100 |> |> <| ibu_bundleName := "com.demo" |>)
    (demo_hap demo_path true []).
Definition demo_rebooted : demo_boot :=
  mkBoot _ _ _ _
    ((demo_with [demo_delivered] []) <| sv_preInstalled := mkPreInstalled [mkPreInstallBundleInfo "com.demo" 1 [demo_path] AppType_SYSTEM_APP] () |>)
    (mkInitialUser false None) false false false ∅ ∅.

Definition demo_found : string * InnerBundleInfo := (demo_path, demo_hap demo_path true []).
Definition demo_has : option BundleInfo := installed "com.demo" (bt_service demo_rebooted).
Lemma demo_has_all has : demo_has = Some has → bi_hapModuleNames has = [demo_path] ∧ bi_versionCode has = 0.
Proof.
  assert ((λ h, (bi_hapModuleNames h, bi_versionCode h)) <$> demo_has = Some ([demo_path], 0)) as H by (vm_compute; reflexivity).
  intros He. rewrite He in H. by injection H.
Qed.

Lemma demo_delivery n v item :
  delivered (λ p, Ok [p]) (λ p, Ok (demo_hap p true [])) [demo_path] n v item → n = "com.demo" ∧ v = 0 ∧ item = demo_found.
Proof.
  intros (path & files & ->%list_elem_of_singleton & Hf & Hi).
  assert (found (λ p, Ok [p]) (λ p, Ok (demo_hap p true [])) demo_path = Some ("com.demo", 0, [demo_found])) as H by (vm_compute; reflexivity).
  rewrite H in Hf. injection Hf as <- <- <-. by apply list_elem_of_singleton in Hi.
Qed.

Lemma demo_delivers : delivered (λ p, Ok [p]) (λ p, Ok (demo_hap p true [])) [demo_path] "com.demo" 0 demo_found.
Proof. exists demo_path, [demo_found]. split; [by left|]. split; [vm_compute; reflexivity|by left]. Qed.

Lemma unchanged_start_changes_nothing_witness :
  ∃ e b', ProcessRebootBundle demo_rebooted = (Ok (), b') ∧ bt_service b' = set_env e (bt_service demo_rebooted).
Proof.
  apply (unchanged_start_changes_nothing (HE := device_environment) (HB := demo_boot_environment)
           (λ p, Ok [p]) (λ p, Ok (demo_hap p true []))
           ltac:(reflexivity) ltac:(reflexivity) ltac:(discriminate) ltac:(discriminate) demo_rebooted [demo_path]
           ltac:(reflexivity) ltac:(reflexivity) ltac:(vm_compute; reflexivity)).
  - intros n v item (-> & -> & ->)%demo_delivery. split; [by left|]. intros has moduleName (Hm & Hv)%demo_has_all Hh.
    injection Hh as <-. rewrite Hm, Hv. split; [lia|]. intros []. by left.
  - intros i ->%list_elem_of_singleton. split; [exists 0, demo_found; exact demo_delivers|].
    intros has (Hm & _)%demo_has_all. rewrite Hm. split.
    + intros moduleName ->%list_elem_of_singleton. exists 0, demo_found. split; [exact demo_delivers|]. vm_compute. reflexivity.
    + intros path ->%list_elem_of_singleton. exists 0, demo_found. split; [exact demo_delivers|done].
Defined.
End Demo.
