(* ===== verification/UserMgr.v ===== *)
(** * UserMgr: creating and removing users

    services/bundlemgr/src/bundle_user_mgr_host_impl.cpp with bundle_promise.h,
    on the host of the installers (Installers.v).  A user is created by asking
    the host to install every pre-installed bundle for him, and removed by
    asking it to uninstall every bundle; the threads of the pool answer, and the
    calling thread waits for a promise that the last answer keeps.  A step
    relation interleaves the calling thread, which holds the mutex of the
    object, with the host and with the thread that reports the first scan. *)

From stdpp Require Import strings list relations.
From S2P Require Import Prelude Strings StdMap BundleTypes Errors Json BundleDataMgr InnerBundleInfo InnerBundleQuery InstallInfo Parcel Flow ParcelInfos BundlePermissionMgr BundleStateStorage BundleDataQuery PreInstall BundleMgrCalls Service Installer InstallerProps Installers BootScan.

Open Scope string_scope.
Open Scope list_scope.
Open Scope Z_scope.

(** ** The state *)

Inductive UserOperation := CreateNewUser | RemoveUser.

(** Where the calling thread is: nowhere; behind the question of
    CheckInitialUser, when the initial user is not there; in its wait; behind
    CheckInitialUser; in the loop, with the bundles that are left; in the wait
    for the answers. *)
Inductive UserThread :=
| UT_Idle
| UT_NoInitialUser (userId : Z)
| UT_WaitInitialUser (userId : Z)
| UT_Checked (userId : Z)
| UT_Asking (op : UserOperation) (userId : Z) (names : list string)
| UT_Waiting (op : UserOperation) (userId : Z).

(** The receivers of one operation share their promise and the number they wait
    for; a receiver is known by its object. *)
Record UserMgr {K P T E : Type} := mkUserMgr {
  um_host : Host K P T E;
  um_initialUser : InitialUser;
  um_notifyBundleScanStatus : bool;
  um_thread : UserThread;
  um_installedHapNum : Z;
  um_totalHapNum : Z;
  um_receivers : list Z;
  um_bundlePromise : bool;
}.
Arguments UserMgr K P T E : clear implicits.
#[export] Instance eta_UserMgr K P T E : Eta (UserMgr K P T E) := λ r,
  mkUserMgr K P T E (um_host r) (um_initialUser r) (um_notifyBundleScanStatus r) (um_thread r) (um_installedHapNum r)
    (um_totalHapNum r) (um_receivers r) (um_bundlePromise r).

Section UserMgr.
Context {K P T E : Type} `{HK : KvStore K} `{HP : TextStore P} `{HX : JsonText} `{HU : Uninit} `{HT : AccessTokenKit T}
  `{HE : Environment E} `{HS : StdSort} `{HJ : BundleStateStorage.Json} `{HB : BootEnvironment E} `{HF : StreamFiles E} `{HL : Files E}.
#[local] Abbreviation host := (Host K P T E).
#[local] Abbreviation usermgr := (UserMgr K P T E).
Implicit Types (m : usermgr) (h : host).

Definition um_service m : Service K P T E := ho_service (um_host m).
Definition set_um_service (s : Service K P T E) m : usermgr := m <| um_host ::= λ h, h <| ho_service := s |> |>.

(** ** The answers *)

(** UserReceiverImpl::OnFinished; a promise that is kept twice stays kept. *)
Definition UserReceiver_OnFinished m : usermgr :=
  let m := m <| um_installedHapNum ::= λ n, u32 (n + 1) |> in
  if um_totalHapNum m <=? i32 (um_installedHapNum m) then m <| um_bundlePromise := true |> else m.

(** The host goes on to [h]: what its receivers have been told meanwhile
    reaches those of this operation. *)
Definition host_moves h m : usermgr :=
  foldl (λ m answer, if bool_decide (answer.1 ∈ um_receivers m) then UserReceiver_OnFinished m else m)
    (m <| um_host := h |>) (drop (length (ho_finished (um_host m))) (ho_finished h)).

(** ** The operations, as far as their next wait *)

Definition begin_operation (op : UserOperation) (userId : Z) (names : list string) m : usermgr :=
  m <| um_thread := UT_Asking op userId names |> <| um_installedHapNum := 0 |> <| um_totalHapNum := i32 (Z.of_nat (length names)) |>
    <| um_receivers := [] |> <| um_bundlePromise := false |>.

Definition has_user (userId : Z) m : bool := HasUserId userId (sv_mgr (um_service m)).
Definition on_users (f : BundleDataMgr K → BundleDataMgr K) m : usermgr :=
  set_um_service ((um_service m) <| sv_mgr ::= f |>) m.

(** CreateNewUser behind CheckInitialUser *)
Definition begin_create (userId : Z) m : usermgr :=
  if has_user userId m then m <| um_thread := UT_Idle |>
  else
    let m := on_users (AddUserId userId) m in
    let m := begin_operation CreateNewUser userId (map pib_bundleName (pi_infos (sv_preInstalled (um_service m)))) m in
    set_um_service (InitPermissions (um_service m)).2 m.

Definition begin_remove (c : Caller) (userId : Z) m : usermgr :=
  if negb (has_user userId m) then m
  else
    let s := um_service m in
    let '(bundleInfos, ok) := BundleDataQuery.GetBundleInfos (BundlePermissionMgr.GetReqPermissions (sv_tokens s)) (ca_uid c)
                                GET_BUNDLE_DEFAULT userId (sv_mgr s) in
    if negb ok then on_users (RemoveUserId userId) m
    else begin_operation RemoveUser userId (map bi_name bundleInfos) m.

Definition user_param (op : UserOperation) (userId : Z) : InstallParam :=
  let installParam := new_InstallParam <| ip_userId := userId |> <| ip_isPreInstallApp := true |> <| ip_installFlag := InstallFlag_NORMAL |> in
  match op with CreateNewUser => installParam | RemoveUser => installParam <| ip_forceExecuted := true |> end.
Definition user_task (op : UserOperation) (bundleName : string) : Task :=
  match op with CreateNewUser => InstallByBundleNameTask bundleName | RemoveUser => UninstallTask bundleName end.

(** One turn of the loop: the installer gets its id, the receiver is new. *)
Definition ask_host (c : Caller) (installerId receiver : Z) (op : UserOperation) (userId : Z) (bundleName : string) m : usermgr :=
  let m := m <| um_receivers ::= cons receiver |> in
  host_moves (request c installerId (user_task op bundleName) (denied_code (user_task op bundleName)) (user_param op userId)
                (Some receiver) (um_host m)).1 m.

(** Behind the wait. *)
Definition finish_operation (op : UserOperation) (userId : Z) m : usermgr :=
  let m := m <| um_thread := UT_Idle |> in
  match op with
  | RemoveUser => on_users (RemoveUserId userId) m
  | CreateNewUser =>
      let m := if userId =? START_USERID then
                 let '(s, notify) := NotifyBundleScanStatus (um_service m) (um_notifyBundleScanStatus m) in
                 set_um_service s m <| um_notifyBundleScanStatus := notify |>
               else m in
      set_um_service (UnInitPermissions (um_service m)).2 m
  end.

(** Behind the loop. *)
Definition all_asked (op : UserOperation) (userId : Z) m : usermgr :=
  if i32 (um_installedHapNum m) <? um_totalHapNum m then m <| um_thread := UT_Waiting op userId |>
  else finish_operation op userId m.

(** ** Steps *)

(** A new receiver is an object that nothing knows yet; the clients' receivers
    are none of this operation.  There are at most INT32_MAX bundles. *)
Inductive user_step : usermgr → usermgr → Prop :=
| us_host rs h m :
    host_step rs (um_host m) h → (∀ r, r ∈ rs → r ∉ um_receivers m) → user_step m (host_moves h m)
| us_scanned m : user_step m (m <| um_initialUser ::= SetInitialUserFlag true |>)
| us_create userId m :
    um_thread m = UT_Idle →
    user_step m (m <| um_thread := if iu_initialUserFlag (um_initialUser m) then UT_Checked userId else UT_NoInitialUser userId |>)
| us_set_promise userId m :
    um_thread m = UT_NoInitialUser userId →
    user_step m (m <| um_initialUser ::= λ u, u <| iu_bundlePromise := Some false |> |> <| um_thread := UT_WaitInitialUser userId |>)
| us_initial_user userId m :
    um_thread m = UT_WaitInitialUser userId → iu_bundlePromise (um_initialUser m) = Some true →
    user_step m (m <| um_thread := UT_Checked userId |>)
| us_begin_create userId m :
    um_thread m = UT_Checked userId → Z.of_nat (length (pi_infos (sv_preInstalled (um_service m)))) <= INT32_MAX →
    user_step m (begin_create userId m)
| us_begin_remove c userId m :
    um_thread m = UT_Idle → Z.of_nat (length (elems (dm_bundleInfos (sv_mgr (um_service m))))) <= INT32_MAX →
    user_step m (begin_remove c userId m)
| us_ask c installerId receiver op userId bundleName names m :
    um_thread m = UT_Asking op userId (bundleName :: names) → receiver ∉ served (um_host m) →
    user_step m (ask_host c installerId receiver op userId bundleName (m <| um_thread := UT_Asking op userId names |>))
| us_asked op userId m : um_thread m = UT_Asking op userId [] → user_step m (all_asked op userId m)
| us_answered op userId m :
    um_thread m = UT_Waiting op userId → um_bundlePromise m = true → user_step m (finish_operation op userId m).
End UserMgr.

(** * What the waits are for *)

Section Waits.
Context {K P T E : Type} `{HK : KvStore K} `{HP : TextStore P} `{HX : JsonText} `{HU : Uninit} `{HT : AccessTokenKit T}
  `{HE : Environment E} `{HS : StdSort} `{HJ : BundleStateStorage.Json} `{HB : BootEnvironment E} `{HF : StreamFiles E} `{HL : Files E}.
#[local] Abbreviation host := (Host K P T E).
#[local] Abbreviation usermgr := (UserMgr K P T E).
Implicit Types (m : usermgr) (h : host).

(** The receivers of the operation among some, and the answers they had. *)
Definition ours (rs l : list Z) : list Z := List.filter (λ r, bool_decide (r ∈ rs)) l.
Definition answered m : list Z := ours (um_receivers m) (map fst (ho_finished (um_host m))).
Definition waiting_for m : list Z := ours (um_receivers m) (map pt_statusReceiver (ho_tasks (um_host m))).

Lemma ours_app rs l l' : ours rs (l ++ l') = ours rs l ++ ours rs l'.
Proof. apply List.filter_app. Qed.
Lemma ours_permutation rs l l' : l ≡ₚ l' → ours rs l ≡ₚ ours rs l'.
Proof.
  induction 1 as [|x l l' _ IH|x y l|l1 l2 l3 _ IH1 _ IH2]; simpl; [done| | |by etrans].
  - case_bool_decide; [by f_equiv|done].
  - repeat case_bool_decide; [apply Permutation_swap|done..].
Qed.
Lemma ours_none rs l : (∀ r, r ∈ l → r ∉ rs) → ours rs l = [].
Proof.
  induction l as [|r l IH]; intros H; [done|]. simpl. rewrite bool_decide_false by (apply H; by left). apply IH. intros x Hx. apply H. by right.
Qed.
Lemma ours_all rs l : (∀ r, r ∈ l → r ∈ rs) → ours rs l = l.
Proof.
  induction l as [|r l IH]; intros H; [done|]. simpl. rewrite bool_decide_true by (apply H; by left). f_equal. apply IH. intros x Hx. apply H. by right.
Qed.

(** Each receiver of [rs] is served once. *)
Definition once (rs l : list Z) : Prop := ∃ others, l ≡ₚ rs ++ others ∧ NoDup rs ∧ ∀ r, r ∈ others → r ∉ rs.

Lemma once_ours rs l : once rs l → ours rs l ≡ₚ rs.
Proof.
  intros (others & Hp & _ & Ho). rewrite (ours_permutation _ _ _ Hp), ours_app, (ours_none rs others), app_nil_r by done.
  by rewrite ours_all.
Qed.
Lemma once_more rs rs' l l' : once rs l → l' ≡ₚ rs' ++ l → (∀ r, r ∈ rs' → r ∉ rs) → once rs l'.
Proof.
  intros (others & Hp & Hnd & Ho) Hp' Hd. exists (rs' ++ others). split_and!; [|done|].
  - rewrite Hp', Hp, !app_assoc. f_equiv. apply Permutation_app_comm.
  - intros r [Hr|Hr]%elem_of_app; [by apply Hd|by apply Ho].
Qed.
Lemma once_new rs r l l' : once rs l → l' ≡ₚ r :: l → r ∉ l → once (r :: rs) l'.
Proof.
  intros (others & Hp & Hnd & Ho) Hp' Hr. rewrite Hp in Hr. apply not_elem_of_app in Hr as [Hr1 Hr2]. exists others. split_and!.
  - by rewrite Hp', Hp.
  - by apply NoDup_cons.
  - intros x Hx [->|?]%elem_of_cons; [done|by eapply Ho].
Qed.

(** ** The host only adds answers *)

Lemma request_finished c id task d param r h : ∃ l, ho_finished (request c id task d param (Some r) h).1 = ho_finished h ++ l.
Proof.
  unfold request, CheckBundleInstallerManager, OnFinished. destruct (ho_hasManager h); simpl; [|by eexists].
  destruct (may_install c h); simpl; [|by eexists]. unfold CreateTask, CreateInstaller, OnFinished.
  destruct (_ !! _); simpl; [by eexists|]. exists []. by rewrite app_nil_r.
Qed.
Lemma host_step_finished rs h h' : host_step rs h h' → ∃ l, ho_finished h' = ho_finished h ++ l.
Proof.
  intros [c id task param r h1|l1 t l2 h1 h2 Ht Hrun|id events h1 He]; [apply request_finished| |].
  - apply run_task_frame in Hrun as (code & _ & _ & _ & Hf). by exists [(pt_statusReceiver t, code)].
  - exists []. simpl. by rewrite app_nil_r.
Qed.

(** ** Counting the answers *)

Lemma i32_small n : 0 <= n <= INT32_MAX → i32 n = n.
Proof. unfold i32, INT32_MAX. intros H. rewrite Z.mod_small by lia. lia. Qed.
Lemma u32_small n : 0 <= n <= INT32_MAX → u32 n = n.
Proof. unfold u32, INT32_MAX. intros H. rewrite Z.mod_small by lia. done. Qed.

(** The operation has its receivers and [k] more to ask, and the counter and the
    promise say how many were answered; each receiver is served once. *)
Record counted (k : nat) m : Prop := {
  wk_total : um_totalHapNum m = Z.of_nat (length (um_receivers m) + k);
  wk_bound : um_totalHapNum m <= INT32_MAX;
  wk_count : um_installedHapNum m = Z.of_nat (length (answered m));
  wk_promise : um_bundlePromise m = true ↔ um_totalHapNum m <= um_installedHapNum m ∧ 0 < um_installedHapNum m;
}.
Definition working (k : nat) m : Prop := once (um_receivers m) (served (um_host m)) ∧ counted k m.

Definition count_answers (l : list (Z * Z)) m : usermgr :=
  foldl (λ m answer, if bool_decide (answer.1 ∈ um_receivers m) then UserReceiver_OnFinished m else m) m l.

Lemma count_answers_spec l : ∀ m, let n := Z.of_nat (length (ours (um_receivers m) (map fst l))) in
  0 <= um_installedHapNum m → um_installedHapNum m + n <= INT32_MAX →
  ∃ count promise, count_answers l m = m <| um_installedHapNum := count |> <| um_bundlePromise := promise |>
    ∧ count = um_installedHapNum m + n ∧ (promise = true ↔ um_bundlePromise m = true ∨ (0 < n ∧ um_totalHapNum m <= um_installedHapNum m + n)).
Proof.
  induction l as [|[r code] l IH]; intros m n H0 Hn; unfold count_answers; cbn [foldl].
  { exists (um_installedHapNum m), (um_bundlePromise m). split; [by destruct m|]. subst n. simpl. split; [lia|].
    split; [by left|intros [?|[? _]]; [done|lia]]. }
  subst n. simpl in *. case_bool_decide as Hr; [|apply IH; [exact H0|exact Hn]].
  simpl in Hn. set (n := Z.of_nat (length (ours (um_receivers m) (map fst l)))) in *.
  set (m1 := UserReceiver_OnFinished m).
  assert (Hm1 : m1 = m <| um_installedHapNum := um_installedHapNum m + 1 |>
                       <| um_bundlePromise := um_bundlePromise m || (um_totalHapNum m <=? um_installedHapNum m + 1) |>).
  { assert (m <| um_installedHapNum ::= λ x, u32 (x + 1) |> = m <| um_installedHapNum := um_installedHapNum m + 1 |>) as Hadd.
    { transitivity (m <| um_installedHapNum := u32 (um_installedHapNum m + 1) |>); [done|]. by rewrite u32_small by lia. }
    subst m1. unfold UserReceiver_OnFinished. rewrite Hadd. simpl. rewrite i32_small by lia.
    destruct (um_totalHapNum m <=? _); [by rewrite orb_true_r; destruct m|]. rewrite orb_false_r. by destruct m. }
  destruct (IH m1) as (count & promise & Hc & Hcount & Hp); [rewrite Hm1; simpl; lia|rewrite Hm1; simpl; fold n; lia|].
  unfold count_answers in Hc. rewrite Hc. exists count, promise. rewrite Hm1 in *. simpl in *. fold n in Hcount, Hp. split_and!.
  - by destruct m.
  - lia.
  - rewrite Hp. rewrite orb_true_iff, Z.leb_le. subst n. destruct (um_bundlePromise m); lia.
Qed.

Lemma once_counts m : once (um_receivers m) (served (um_host m)) → waiting_for m ++ answered m ≡ₚ um_receivers m.
Proof. intros Ho%once_ours. unfold waiting_for, answered. by rewrite <- ours_app. Qed.

Lemma host_moves_working k h m :
  counted k m → once (um_receivers m) (served h) → (∃ l, ho_finished h = ho_finished (um_host m) ++ l) →
  working k (host_moves h m) ∧ um_thread (host_moves h m) = um_thread m.
Proof.
  intros [Htotal Hbound Hcount Hpromise] Honce [l Hl].
  unfold host_moves. rewrite Hl, drop_app_length. set (m0 := m <| um_host := h |>).
  assert (Honce' : once (um_receivers m0) (served (um_host m0))) by done.
  pose proof (Permutation_length (once_counts m0 Honce')) as Hlen. rewrite length_app in Hlen.
  assert (Hans : answered m0 = answered m ++ ours (um_receivers m) (map fst l)).
  { unfold answered. subst m0. simpl. by rewrite Hl, map_app, ours_app. }
  rewrite Hans, length_app in Hlen. simpl in Hlen.
  destruct (count_answers_spec l m0) as (count & promise & Hc & Hcount' & Hp); simpl in *; [lia..|].
  unfold count_answers in Hc. rewrite Hc. split; [|done].
  assert (answered (m0 <| um_installedHapNum := count |> <| um_bundlePromise := promise |>) = answered m0) as Hsame by done.
  split; [exact Honce'|]. split; simpl; [done|done| |].
  - rewrite Hsame, Hans, length_app. lia.
  - rewrite Hp. rewrite Hpromise. lia.
Qed.

(** What holds of the calling thread. *)
Definition busy m : Prop :=
  match um_thread m with
  | UT_Asking _ _ names => working (length names) m
  | UT_Waiting _ _ => working 0 m ∧ 0 < um_totalHapNum m
  | _ => True
  end.

Lemma working_frame k m m' :
  um_host m' = um_host m → um_installedHapNum m' = um_installedHapNum m → um_totalHapNum m' = um_totalHapNum m →
  um_receivers m' = um_receivers m → um_bundlePromise m' = um_bundlePromise m → working k m → working k m'.
Proof.
  intros Hh Hn Ht Hr Hp [H1 [H2 H3 H4 H5]]. assert (answered m' = answered m) as Ha by (unfold answered; by rewrite Hh, Hr).
  split; [by rewrite Hr, Hh|]. split; rewrite ?Ha, ?Hh, ?Hn, ?Ht, ?Hr, ?Hp; done.
Qed.

Lemma length_omap_le {A B} (f : A → option B) l : (length (omap f l) <= length l)%nat.
Proof. induction l as [|x l IH]; [done|]. cbn. destruct (f x); simpl; unfold omap, list_omap in *; lia. Qed.

Lemma working_set_service k s m : working k m → working k (set_um_service s m).
Proof. intros [Ho [H1 H2 H3 H4]]. split; [exact Ho|]. split; [exact H1|exact H2|exact H3|exact H4]. Qed.

Lemma GetBundleInfos_length req uid flags userId (d : BundleDataMgr K) l ok :
  BundleDataQuery.GetBundleInfos req uid flags userId d = (l, ok) → (length l <= length (elems (dm_bundleInfos d)))%nat.
Proof.
  unfold BundleDataQuery.GetBundleInfos, GetAllBundleInfos. repeat case_match; intros [= <- _]; simpl; try lia; apply length_omap_le.
Qed.

Lemma begin_working op userId names m :
  Z.of_nat (length names) <= INT32_MAX → working (length names) (begin_operation op userId names m).
Proof.
  intros Hn. split; [|split; simpl; rewrite ?i32_small by lia; [done|done| |]].
  - exists (served (um_host m)). split_and!; [done|apply NoDup_nil_2|]. by intros r _ ?%not_elem_of_nil.
  - unfold answered. simpl. rewrite ours_none; [done|]. by intros r _ ?%not_elem_of_nil.
  - split; [done|lia].
Qed.

Lemma finish_idle op userId m : um_thread (finish_operation op userId m) = UT_Idle.
Proof. unfold finish_operation. destruct op; [|done]. destruct (_ =? _); [|done]. by destruct (NotifyBundleScanStatus _ _). Qed.

Lemma all_asked_busy op userId m : busy m → um_thread m = UT_Asking op userId [] → busy (all_asked op userId m).
Proof.
  unfold busy at 1. intros Hw Ht. rewrite Ht in Hw. simpl in Hw. unfold all_asked. destruct (Z.ltb_spec (i32 (um_installedHapNum m)) (um_totalHapNum m)).
  - split; [by apply (working_frame _ m)|]. simpl. destruct Hw as [H1 [H2 H3 H4 H5]].
    pose proof (Permutation_length (once_counts m H1)) as Hlen. rewrite length_app in Hlen.
    rewrite i32_small in H by lia. lia.
  - unfold busy. by rewrite finish_idle.
Qed.

Lemma ask_host_working k c id r op userId name m :
  working (S k) m → r ∉ served (um_host m) →
  working k (ask_host c id r op userId name m) ∧ um_thread (ask_host c id r op userId name m) = um_thread m.
Proof.
  intros [Honce [Htotal Hbound Hcount Hpromise]] Hr. unfold ask_host. set (m1 := m <| um_receivers ::= cons r |>).
  assert (Hans : answered m1 = answered m).
  { unfold answered. subst m1. simpl. apply filter_ext_in. intros x Hx%list_elem_of_In. apply bool_decide_ext.
    rewrite elem_of_cons. split; [|by right]. intros [->|?]; [|done]. destruct Hr. unfold served. apply elem_of_app. by right. }
  apply (host_moves_working k _ m1).
  - split; [simpl; rewrite Htotal; simpl; lia|done|by rewrite Hans|done].
  - eapply once_new; [exact Honce| |done]. apply request_served.
  - apply request_finished.
Qed.

Lemma host_moves_keeps h m :
  um_thread (host_moves h m) = um_thread m ∧ um_initialUser (host_moves h m) = um_initialUser m
  ∧ um_totalHapNum (host_moves h m) = um_totalHapNum m.
Proof.
  unfold host_moves. generalize (drop (length (ho_finished (um_host m))) (ho_finished h)). intros l.
  change (um_thread m) with (um_thread (m <| um_host := h |>)). change (um_initialUser m) with (um_initialUser (m <| um_host := h |>)).
  change (um_totalHapNum m) with (um_totalHapNum (m <| um_host := h |>)).
  generalize (m <| um_host := h |>). clear m. induction l as [|a l IH]; intros m; [done|]. cbn [foldl].
  destruct (IH (if bool_decide (a.1 ∈ um_receivers m) then UserReceiver_OnFinished m else m)) as (-> & -> & ->).
  destruct (bool_decide _); [|done]. unfold UserReceiver_OnFinished. by destruct (_ <=? _).
Qed.

Lemma host_step_busy rs h m :
  host_step rs (um_host m) h → (∀ r, r ∈ rs → r ∉ um_receivers m) → busy m → busy (host_moves h m).
Proof.
  intros Hs Hd Hb.
  assert (∀ k, working k m → working k (host_moves h m) ∧ um_thread (host_moves h m) = um_thread m) as Hmove.
  { intros k [Ho Hc]. apply host_moves_working; [done| |by eapply host_step_finished]. eapply once_more; [done|by eapply host_step_served|done]. }
  destruct (host_moves_keeps h m) as (Ht & _ & Htot).
  unfold busy in *. rewrite Ht. destruct (um_thread m); try done.
  - by apply Hmove.
  - destruct Hb as [Hw Hp]. split; [by apply Hmove|by rewrite Htot].
Qed.


Lemma begin_create_busy userId m :
  Z.of_nat (length (pi_infos (sv_preInstalled (um_service m)))) <= INT32_MAX → busy (begin_create userId m).
Proof.
  intros Hn. unfold begin_create. destruct (has_user userId m); [done|].
  set (m1 := on_users (AddUserId userId) m). change (pi_infos _) with (pi_infos (sv_preInstalled (um_service m))).
  set (names := map pib_bundleName _).
  assert (Hw : working (length names) (begin_operation CreateNewUser userId names m1)).
  { apply begin_working. subst names. by rewrite length_map. }
  unfold busy. simpl. by apply (working_set_service _ _ _ Hw).
Qed.

Lemma begin_remove_busy c userId m :
  um_thread m = UT_Idle → Z.of_nat (length (elems (dm_bundleInfos (sv_mgr (um_service m))))) <= INT32_MAX → busy (begin_remove c userId m).
Proof.
  intros Ht Hn. unfold begin_remove, busy. destruct (negb (has_user userId m)); [by rewrite Ht|].
  destruct (BundleDataQuery.GetBundleInfos _ _ _ _ _) as [bundleInfos ok] eqn:Hg. destruct ok; simpl; [|by rewrite Ht].
  rewrite length_map. rewrite <- (length_map bi_name bundleInfos). apply begin_working. rewrite length_map. etrans; [|exact Hn].
  apply inj_le. by eapply GetBundleInfos_length.
Qed.


Lemma user_step_busy m m' : user_step m m' → busy m → busy m'.
Proof.
  intros [rs h m1 Hs Hd|m1|u m1 Ht|u m1 Ht|u m1 Ht Hp|u m1 Ht Hn|c u m1 Ht Hn|c id r op u name names m1 Ht Hr|op u m1 Ht|op u m1 Ht Hp] Hb.
  - by eapply host_step_busy.
  - unfold busy in *. simpl. destruct (um_thread m1); try done; [by apply (working_frame _ m1)|].
    destruct Hb as [Hw H0]. split; [by apply (working_frame _ m1)|done].
  - unfold busy. simpl. by destruct (iu_initialUserFlag _).
  - done.
  - done.
  - by apply begin_create_busy.
  - by apply begin_remove_busy.
  - unfold busy in Hb. rewrite Ht in Hb. simpl in Hb. set (m2 := m1 <| um_thread := UT_Asking op u names |>).
    destruct (ask_host_working (length names) c id r op u name m2) as [Hw Ht2]; [by apply (working_frame _ m1)|done|].
    unfold busy. by rewrite Ht2.
  - by apply all_asked_busy.
  - unfold busy. by rewrite finish_idle.
Qed.

Lemma all_answered k m : working k m → um_totalHapNum m <= um_installedHapNum m → answered m ≡ₚ um_receivers m ∧ waiting_for m = [].
Proof.
  intros [Ho [Htotal _ Hcount _]] Hall. pose proof (once_counts m Ho) as Hp. pose proof (Permutation_length Hp) as Hlen.
  rewrite length_app in Hlen. assert (waiting_for m = []) as Hw by (apply nil_length_inv; lia). by rewrite Hw in Hp.
Qed.

Lemma finish_remove u m : has_user u (finish_operation RemoveUser u m) = false.
Proof. unfold finish_operation, has_user, HasUserId. simpl. apply bool_decide_eq_false. set_solver. Qed.

Context (s : Service K P T E) (hasManager : bool).
Definition new_UserMgr : usermgr :=
  mkUserMgr K P T E (new_Host s hasManager) (mkInitialUser false None) false UT_Idle 0 0 [] false.

Lemma reachable_busy m : rtc user_step new_UserMgr m → busy m.
Proof.
  assert (∀ m1 m2, rtc user_step m1 m2 → busy m1 → busy m2) as H.
  { induction 1 as [|m1 m2 m3 Hs _ IH]; [done|]. intros Hb. by apply IH, (user_step_busy m1). }
  intros Hs. by apply (H _ _ Hs).
Qed.

(** C38: Creating or removing a user waits for every bundle and no longer: in
    any interleaving with the threads of the pool and the other clients, the
    promise that the caller waits for is kept exactly when no task of its
    receivers is left in the pool; and when the operation is over, each of its
    bundles was asked for, each of its receivers was told one result, and a
    user that was removed is gone. *)
Theorem users_wait_for_all m :
  rtc user_step new_UserMgr m →
  (∀ op u, um_thread m = UT_Waiting op u → um_bundlePromise m = true ↔ waiting_for m = [])
  ∧ ∀ op u m', um_thread m = UT_Asking op u [] ∨ um_thread m = UT_Waiting op u → user_step m m' → um_thread m' = UT_Idle →
      answered m ≡ₚ um_receivers m ∧ Z.of_nat (length (um_receivers m)) = um_totalHapNum m
      ∧ (op = RemoveUser → has_user u m' = false).
Proof.
  intros Hb%reachable_busy. split.
  - intros op u Ht. unfold busy in Hb. rewrite Ht in Hb. destruct Hb as [Hw H0]. destruct (Hw) as [Ho [Htotal _ Hcount Hpromise]]. rewrite Hpromise.
    pose proof (Permutation_length (once_counts m Ho)) as Hlen. rewrite length_app in Hlen. split.
    + intros [Hall _]. by eapply all_answered.
    + intros Hnone. rewrite Hnone in Hlen. simpl in Hlen. lia.
  - intros op u m' Ht Hs Hidle.
    assert (working 0 m) as Hw by (unfold busy in Hb; destruct Ht as [Ht|Ht]; rewrite Ht in Hb; [done|by destruct Hb]).
    destruct (Hw) as [Ho [Htotal Hbound Hcount Hpromise]]. cut (um_totalHapNum m <= um_installedHapNum m ∧ (op = RemoveUser → has_user u m' = false)).
    { intros [Hall Hgone]. split; [by eapply all_answered|]. split; [lia|done]. }
    pose proof (Permutation_length (once_counts m Ho)) as Hlen. rewrite length_app in Hlen.
    destruct Hs as [rs h m1 Hs Hd|m1|? m1 Ht'|? m1 Ht'|? m1 Ht'|? m1 Ht'|? ? m1 Ht'|? ? ? ? ? ? ? m1 Ht'|op' u' m1 Ht'|op' u' m1 Ht' Hp].
    1: { destruct (host_moves_keeps h m1) as (Hk & _). rewrite Hk in Hidle. rewrite Hidle in Ht. by destruct Ht. }
    1: { simpl in Hidle. rewrite Hidle in Ht. by destruct Ht. }
    1-6: rewrite Ht' in Ht; by destruct Ht.
    + assert (op' = op ∧ u' = u) as [-> ->] by (rewrite Ht' in Ht; by destruct Ht as [[= -> ->]|?]).
      unfold all_asked in *. destruct (Z.ltb_spec (i32 (um_installedHapNum m1)) (um_totalHapNum m1)) as [Hlt|Hge]; [done|].
      rewrite i32_small in Hge by lia. split; [done|]. intros ->. apply finish_remove.
    + assert (op' = op ∧ u' = u) as [-> ->] by (rewrite Ht' in Ht; by destruct Ht as [?|[= -> ->]]).
      split; [by apply Hpromise|]. intros ->. apply finish_remove.
Qed.

(** When the scan ends between the question whether the initial user is there
    and the promise, nothing keeps the promise: the caller waits for ever, and
    every other caller for its mutex. *)
Lemma initial_user_wake_up_lost u m :
  um_thread m = UT_Idle → iu_initialUserFlag (um_initialUser m) = false →
  ∃ m1, rtc user_step m m1 ∧ iu_initialUserFlag (um_initialUser m1) = true
    ∧ ∀ m2, rtc user_step m1 m2 → um_thread m2 = UT_WaitInitialUser u.
Proof.
  intros Ht Hf. eexists. split_and!.
  - eapply rtc_l; [by apply (us_create u)|]. rewrite Hf. eapply rtc_l; [apply us_scanned|].
    eapply rtc_l; [by apply (us_set_promise u)|]. apply rtc_refl.
  - done.
  - set (lost := λ m, um_thread m = UT_WaitInitialUser u ∧ um_initialUser m = mkInitialUser true (Some false)).
    assert (∀ m1 m2, rtc user_step m1 m2 → lost m1 → lost m2) as Hall.
    { induction 1 as [|m1 m2 m3 Hs _ IH]; [done|]. intros [Hth Hi]. apply IH.
      destruct Hs as [rs h m1 Hs Hd|m1|? m1 Ht'|? m1 Ht'|? m1 Ht' Hp|? m1 Ht'|? ? m1 Ht'|? ? ? ? ? ? ? m1 Ht'|? ? m1 Ht'|? ? m1 Ht'];
        try congruence.
      - destruct (host_moves_keeps h m1) as (H1 & H2 & _). by split; [rewrite H1|rewrite H2].
      - split; [done|]. simpl. by rewrite Hi.
      - rewrite Hi in Hp. done. }
    intros m2 Hm2. apply (Hall _ _ Hm2). split; [done|]. simpl. by destruct (um_initialUser m) as [[] ?].
Qed.
End Waits.

(** ** Examples *)

Section Demo.
#[local] Existing Instances closed_store bits_json null_text no_values demo_boot_environment.

Abbreviation demo_users := (UserMgr (stdmap string InnerBundleInfo) () (list (Z * string) * option HapPolicyParams) device).

(** User 100 has one bundle and is removed. *)
Definition demo_named : InnerBundleInfo := demo_version2 <| ib_baseBundleInfo ::= λ b, b <| bi_name := "com.demo" |> |>.
Definition demo_users0 : demo_users :=
  new_UserMgr ((demo_with [demo_named] []) <| sv_mgr ::= λ m, m <| dm_installStates := <["com.demo" := INSTALL_SUCCESS]> ∅ |> |>) true.
Definition demo_users1 : demo_users := begin_remove demo_caller 100 demo_users0.
Definition demo_users2 : demo_users :=
  ask_host demo_caller 5 1 RemoveUser 100 "com.demo" (demo_users1 <| um_thread := UT_Asking RemoveUser 100 [] |>).
Definition demo_users3 : demo_users := all_asked RemoveUser 100 demo_users2.
Definition demo_remove_task : PoolTask := mkPoolTask 5 1 (UninstallTask "com.demo") (user_param RemoveUser 100).
Definition demo_removed_host := default (um_host demo_users3) (run_task demo_remove_task ((um_host demo_users3) <| ho_tasks := [] |>)).
Definition demo_users4 : demo_users := host_moves demo_removed_host demo_users3.

Lemma demo_task_ran : run_task demo_remove_task ((um_host demo_users3) <| ho_tasks := [] |>) = Some demo_removed_host.
Proof.
  unfold demo_removed_host. assert (is_Some (run_task demo_remove_task ((um_host demo_users3) <| ho_tasks := [] |>))) as [h ->]; [|done].
  apply not_eq_None_Some. vm_compute. discriminate.
Qed.

Lemma demo_users_steps : rtc user_step demo_users0 demo_users4.
Proof.
  apply (rtc_l _ _ demo_users1); [apply us_begin_remove; [reflexivity|vm_compute; discriminate]|].
  apply (rtc_l _ _ demo_users2).
  { apply (us_ask demo_caller 5 1 RemoveUser 100 "com.demo" [] demo_users1); [vm_compute; reflexivity|].
    assert (served (um_host demo_users1) = []) as -> by (vm_compute; reflexivity). apply not_elem_of_nil. }
  apply (rtc_l _ _ demo_users3); [apply us_asked; vm_compute; reflexivity|].
  apply (rtc_l _ _ demo_users4); [|apply rtc_refl].
  apply (us_host []); [|by intros r ?%not_elem_of_nil].
  apply (step_task [] demo_remove_task []); [vm_compute; reflexivity|apply demo_task_ran].
Qed.

Lemma users_wait_for_all_witness :
  waiting_for demo_users4 = [] ∧ answered demo_users4 ≡ₚ um_receivers demo_users4
  ∧ has_user 100 (finish_operation RemoveUser 100 demo_users4) = false.
Proof.
  destruct (users_wait_for_all _ _ demo_users4 demo_users_steps) as [Hwait Hdone].
  assert (um_thread demo_users4 = UT_Waiting RemoveUser 100) as Ht by (vm_compute; reflexivity).
  assert (um_bundlePromise demo_users4 = true) as Hp by (vm_compute; reflexivity).
  split; [by apply (Hwait RemoveUser 100)|].
  destruct (Hdone RemoveUser 100 (finish_operation RemoveUser 100 demo_users4)) as (Ha & _ & Hgone);
    [by right|by apply us_answered|apply finish_idle|].
  split; [exact Ha|by apply Hgone].
Defined.
End Demo.
