(* ===== verification/Aging.v ===== *)
(** * Aging: uninstalling bundles that are not used

    services/bundlemgr/src/aging/: when the free install bundles take more than
    a threshold, those that can be removed are uninstalled, the longest unused
    first, until eight tenths of the threshold are reached; bundles unused for
    more than twenty or thirty days go in any case once their handler is
    reached.  The clock stands still during one run.  The manager's runner is
    the list of its pending events; what it asks of the installer goes to the
    host of Installers.v. *)

From stdpp Require Import strings list relations sorting.
From S2P Require Import Prelude Strings StdMap BundleTypes Errors Json BundleDataMgr InnerBundleInfo InnerBundleQuery InstallInfo Parcel Flow ParcelInfos BundlePermissionMgr BundleStateStorage BundleDataQuery PreInstall BundleMgrCalls Service Resources Installer InstallerProps Installers.

Open Scope string_scope.
Open Scope list_scope.
Open Scope Z_scope.

(** ** aging_constants.h *)

Definition SYSTEM_PARAM_DATA_SIZE_THRESHOLD : string := "persist.sys.bms.aging.policy.data.size.threshold".
Definition SYSTEM_PARAM_RECENILY_USED_THRESHOLD : string := "persist.sys.bms.aging.policy.recently.used.threshold".
Definition SYSTEM_PARAM_AGING_TIMER_INTERVAL : string := "persist.sys.bms.aging.policy.timer.interval".
Definition SYSTEM_PARAM_AGING_BATTER_THRESHOLD : string := "persist.sys.bms.aging.policy.battery.threshold".
Definition ONE_HOUR_MS : Z := 60 * 60 * 1000.
Definition DEFAULT_AGING_TIMER_INTERVAL : Z := 8 * ONE_HOUR_MS.
Definition ONE_DAYS_MS : Z := 24 * ONE_HOUR_MS.
Definition DEFAULT_AGING_DATA_SIZE_THRESHOLD : Z := 500 * (1024 * 1024).
Definition DEFAULT_AGING_BATTERY_THRESHOLD : Z := 10.
Definition TIME_30_DAYS : Z := 30.
Definition TIME_20_DAYS : Z := 20.
Definition TIME_10_DAYS : Z := 10.
Definition COUNT_MODULE_RECODES_GET : Z := 1000.

(** ** [(int64_t)(threshold * 0.8F)] *)

(** A number above zero with 24 bits of a binary32: the nearest, of two the
    even one, as a factor and a power of two. *)
Definition round24 (x : Z) : Z * Z :=
  let k := Z.max 0 (Z.log2 x - 23) in
  let q := x / 2 ^ k in
  let r := x mod 2 ^ k in
  ((if (2 ^ k <? 2 * r) || ((2 ^ k =? 2 * r) && Z.odd q) then q + 1 else q), k).

(** 0.8F is 13421773 / 2^24. *)
Definition times_08F (x : Z) : Z :=
  let '(m1, k1) := round24 (Z.abs x) in
  let '(m2, k2) := round24 (m1 * 13421773) in
  Z.sgn x * (m2 * 2 ^ (k1 + k2) / 2 ^ 24).

(** ** The data *)

Record AgingBundleInfo := mkAgingBundleInfo {
  abi_bundleName : string;
  abi_recentlyUsedTime : Z;
  abi_dataBytes : Z;
  abi_bundleUid : Z;
}.

(** AgingRequest with its static members. *)
Record AgingRequest := mkAgingRequest {
  ar_agingBundles : list AgingBundleInfo;
  ar_tatalDataBytes : Z;
  ar_totalDataBytesThreshold : Z;
  ar_oneDayTimeMs : Z;
}.
#[export] Instance eta_AgingRequest : Eta AgingRequest := λ r,
  mkAgingRequest (ar_agingBundles r) (ar_tatalDataBytes r) (ar_totalDataBytesThreshold r) (ar_oneDayTimeMs r).

Definition IsReachStartAgingThreshold (r : AgingRequest) : bool := ar_totalDataBytesThreshold r <? ar_tatalDataBytes r.
Definition IsReachEndAgingThreshold (r : AgingRequest) : bool := ar_tatalDataBytes r <? times_08F (ar_totalDataBytesThreshold r).

(** The order of [std::sort]. *)
Definition SortTwoAgingBundleInfos (currentTimeMs oneDayTimeMs : Z) (bundle1 bundle2 : AgingBundleInfo) : bool :=
  let time10DaysAgo := currentTimeMs - TIME_10_DAYS * oneDayTimeMs in
  let time20DaysAgo := currentTimeMs - TIME_20_DAYS * oneDayTimeMs in
  let between b := (abi_recentlyUsedTime b <=? time10DaysAgo) && (time20DaysAgo <? abi_recentlyUsedTime b) in
  if between bundle1 && between bundle2 then abi_dataBytes bundle2 <? abi_dataBytes bundle1
  else abi_recentlyUsedTime bundle1 <? abi_recentlyUsedTime bundle2.

(** [std::sort] with a comparison. *)
Class SortBy := {
  sort_by : ∀ {A}, (A → A → bool) → list A → list A;
  sort_by_permutation : ∀ A (cmp : A → A → bool) l, sort_by cmp l ≡ₚ l;
  sort_by_sorted : ∀ A (cmp : A → A → bool) l,
    (∀ a b, cmp a b = true → cmp b a = false) → (∀ a b c, cmp b a = false → cmp c b = false → cmp c a = false) →
    StronglySorted (λ a b, cmp b a = false) (sort_by cmp l);
}.

(** The services that the aging asks. *)
Class AgingEnvironment (E : Type) := {
  GetParameter : string → E → Z * string;
  GetCurrentActiveUserId : E → Z;
  QueryFormStatistics : Z → Z → E → Z * list (string * Z);
  GetNowSysTimeMs : E → Z;
  GetAllRunningProcesses : E → list Z;
  DISPLAY_ON : E → bool;
  GetCapacity : E → Z;
}.

(** ** The handlers *)

Inductive AgingHandler :=
| Over30DaysUnusedBundleAgingHandler
| Over20DaysUnusedBundleAgingHandler
| Over10DaysUnusedBundleAgingHandler
| BundleDataSizeAgingHandler.

(** Two of them look after each bundle whether they can stop. *)
Definition stops_early (h : AgingHandler) : bool :=
  match h with Over10DaysUnusedBundleAgingHandler | BundleDataSizeAgingHandler => true | _ => false end.

Section Handlers.
Context {E : Type} `{HA : AgingEnvironment E} (e : E).

Definition unused_for (days : Z) (r : AgingRequest) (bundle : AgingBundleInfo) : bool :=
  days * ar_oneDayTimeMs r <? GetNowSysTimeMs e - abi_recentlyUsedTime bundle.
Definition CheckBundle (h : AgingHandler) (r : AgingRequest) (bundle : AgingBundleInfo) : bool :=
  match h with
  | Over30DaysUnusedBundleAgingHandler => unused_for TIME_30_DAYS r bundle
  | Over20DaysUnusedBundleAgingHandler => unused_for TIME_20_DAYS r bundle
  | Over10DaysUnusedBundleAgingHandler => unused_for TIME_10_DAYS r bundle
  | BundleDataSizeAgingHandler => true
  end.

Definition IsRunning (bundle : AgingBundleInfo) : bool :=
  if abi_bundleUid bundle <? 0 then false else existsb (Z.eqb (abi_bundleUid bundle)) (GetAllRunningProcesses e).

Definition NeedContinue (r : AgingRequest) : bool := negb (IsReachEndAgingThreshold r).

(** The body of the loop for a bundle that matches; the second component is
    what the installer is asked to uninstall, which counts as done. *)
Definition age_bundle (bundle : AgingBundleInfo) (r : AgingRequest) : AgingRequest * list string :=
  if IsRunning bundle then (r, [])
  else (r <| ar_tatalDataBytes ::= λ n, i64 (n - abi_dataBytes bundle) |>, [abi_bundleName bundle]).

(** RecentlyUnuseBundleAgingHandler::Process, for the bundles of the request. *)
Fixpoint handler_loop (h : AgingHandler) (bundles : list AgingBundleInfo) (r : AgingRequest) (asked : list string) :
  AgingRequest * list string * bool :=
  match bundles with
  | [] => (r <| ar_agingBundles := [] |>, asked, NeedContinue r)
  | bundle :: rest =>
      if negb (CheckBundle h r bundle) then (r <| ar_agingBundles := bundles |>, asked, NeedContinue r)
      else
        let '(r, uninstalled) := age_bundle bundle r in
        let asked := asked ++ uninstalled in
        if stops_early h && negb (NeedContinue r) then (r <| ar_agingBundles := rest |>, asked, false)
        else handler_loop h rest r asked
  end.
Definition Handler_Process (h : AgingHandler) (r : AgingRequest) (asked : list string) : AgingRequest * list string * bool :=
  handler_loop h (ar_agingBundles r) r asked.

(** AgingHandlerChain::Process *)
Fixpoint Chain_Process (handlers : list AgingHandler) (r : AgingRequest) (asked : list string) : AgingRequest * list string * bool :=
  match handlers with
  | [] => (r, asked, IsReachEndAgingThreshold r)
  | h :: handlers =>
      let '(r, asked, passed) := Handler_Process h r asked in
      if negb passed then (r, asked, IsReachEndAgingThreshold r) else Chain_Process handlers r asked
  end.

Definition InitAgingHandlerChain : list AgingHandler :=
  [Over30DaysUnusedBundleAgingHandler; Over20DaysUnusedBundleAgingHandler; Over10DaysUnusedBundleAgingHandler; BundleDataSizeAgingHandler].

(** AgingRequest::InitAgingPolicySystemParameters *)
Definition InitAgingPolicySystemParameters (r : AgingRequest) : AgingRequest :=
  let '(ret, szDatasizeThreshold) := GetParameter SYSTEM_PARAM_DATA_SIZE_THRESHOLD e in
  if ret <=? 0 then r
  else
    let r := if str_empty szDatasizeThreshold then r else r <| ar_totalDataBytesThreshold := i32 (atoi szDatasizeThreshold) |> in
    let '(ret, szOneDayTimeMs) := GetParameter SYSTEM_PARAM_RECENILY_USED_THRESHOLD e in
    if ret <=? 0 then r
    else if str_empty szOneDayTimeMs then r else r <| ar_oneDayTimeMs := i32 (atoi szOneDayTimeMs) |>.
Definition RequestReset (r : AgingRequest) : AgingRequest :=
  InitAgingPolicySystemParameters (r <| ar_agingBundles := [] |> <| ar_tatalDataBytes := 0 |>).
End Handlers.

(** ** BundleAgingMgr *)

Inductive AgingTriggertype := PREIOD | FREE_INSTALL | UPDATE_REMOVABLE_FLAG.

(** What waits in the runner of the manager. *)
Inductive AgingEvent := EVENT_AGING_NOW | ProcessTask.

(** The manager with the host of the installers. *)
Record BundleAgingMgr {K P T E : Type} := mkBundleAgingMgr {
  ag_host : Host K P T E;
  ag_running : bool;
  ag_request : AgingRequest;
  ag_agingTimerInterval : Z;
  ag_agingBatteryThresold : Z;
  ag_events : list AgingEvent;
}.
Arguments BundleAgingMgr K P T E : clear implicits.
#[export] Instance eta_BundleAgingMgr K P T E : Eta (BundleAgingMgr K P T E) := λ r,
  mkBundleAgingMgr K P T E (ag_host r) (ag_running r) (ag_request r) (ag_agingTimerInterval r) (ag_agingBatteryThresold r) (ag_events r).

Section Aging.
Context {K P T E : Type} `{HK : KvStore K} `{HP : TextStore P} `{HX : JsonText} `{HU : Uninit} `{HT : AccessTokenKit T}
  `{HE : Environment E} `{HS : StdSort} `{HJ : BundleStateStorage.Json} `{HL : Files E} `{HA : AgingEnvironment E} `{HSB : SortBy}.
#[local] Abbreviation agingmgr := (BundleAgingMgr K P T E).
Implicit Types (m : agingmgr) (s : Service K P T E).

Definition ag_env m : E := sv_env (ho_service (ag_host m)).
Definition new_AgingRequest (e : E) : AgingRequest :=
  InitAgingPolicySystemParameters e (mkAgingRequest [] 0 DEFAULT_AGING_DATA_SIZE_THRESHOLD ONE_DAYS_MS).

(** A failure leaves what was set; [sent] is whether the event could be sent. *)
Definition InitAgingtTimer (sent : bool) m : agingmgr :=
  let '(ret, szTimerThresold) := GetParameter SYSTEM_PARAM_AGING_TIMER_INTERVAL (ag_env m) in
  if ret <=? 0 then m
  else
    let m := m <| ag_agingTimerInterval := if str_empty szTimerThresold then DEFAULT_AGING_TIMER_INTERVAL else i32 (atoi szTimerThresold) |> in
    let '(ret, szBatteryThresold) := GetParameter SYSTEM_PARAM_AGING_BATTER_THRESHOLD (ag_env m) in
    if ret <=? 0 then m
    else
      let m := m <| ag_agingBatteryThresold :=
                     if str_empty szBatteryThresold then DEFAULT_AGING_BATTERY_THRESHOLD else i32 (atoi szBatteryThresold) |> in
      if sent then m <| ag_events ::= λ l, l ++ [EVENT_AGING_NOW] |> else m <| ag_running := false |>.

(** The last use of a bundle in the records of its modules, none as zero. *)
Definition last_used (records : list (string * Z)) (bundleName : string) : Z :=
  foldl (λ t (moduleRecord : string * Z), if bool_decide (moduleRecord.1 = bundleName) && (t <? moduleRecord.2) then moduleRecord.2 else t) 0 records.

(** The bundles that may be removed, in the order of their names; [callingUid]
    is the id of the service itself. *)
Definition gather_bundles (callingUid userId : Z) (records : list (string * Z)) s : list AgingBundleInfo :=
  map (λ iter : string * Z,
    let lastBundleUsedTime := last_used records iter.1 in
    mkAgingBundleInfo iter.1 (if negb (lastBundleUsedTime =? 0) then lastBundleUsedTime else GetNowSysTimeMs (sv_env s))
      (GetBundleSpaceSize (BundlePermissionMgr.GetReqPermissions (sv_tokens s)) callingUid userId iter.1 (sv_mgr s) (sv_env s)) iter.2)
    (elems (GetRemovableBundleNameVec userId (sv_mgr s) ∅)).

Definition ReInitAgingRequest (callingUid : Z) s (r : AgingRequest) : AgingRequest * bool :=
  let e := sv_env s in
  let r := RequestReset e r in
  let userId := GetCurrentActiveUserId e in
  if sm_is_empty (GetRemovableBundleNameVec userId (sv_mgr s) ∅) then (r, false)
  else
    let '(ret, records) := QueryFormStatistics COUNT_MODULE_RECODES_GET userId e in
    if negb (ret =? 0) then (r, false)
    else
      let bundles := gather_bundles callingUid userId records s in
      let total := GetAllFreeInstallBundleSpaceSize (BundlePermissionMgr.GetReqPermissions (sv_tokens s)) callingUid userId (sv_mgr s) e in
      let r := r <| ar_agingBundles := sort_by (SortTwoAgingBundleInfos (GetNowSysTimeMs e) (ar_oneDayTimeMs r)) bundles |>
                 <| ar_tatalDataBytes := total |> in
      (r, negb (length bundles =? 0)%nat).

(** BundleAgingMgr::Process without its last act: the request afterwards, and
    the bundles that the installer was asked to uninstall. *)
Definition age (callingUid : Z) s (r : AgingRequest) : AgingRequest * list string :=
  let '(r, ok) := ReInitAgingRequest callingUid s r in
  if ok && IsReachStartAgingThreshold r then (Chain_Process (sv_env s) InitAgingHandlerChain r []).1 else (r, []).

(** RecentlyUnuseBundleAgingHandler::UnInstallBundle *)
Definition aging_param (e : E) : InstallParam :=
  new_InstallParam <| ip_userId := GetCurrentActiveUserId e |> <| ip_installFlag := InstallFlag_FREE_INSTALL |>.
Definition UnInstallBundle (c : Caller) (h : Host K P T E) (request_of : string * (Z * Z)) : Host K P T E :=
  let '(bundleName, (installerId, receiver)) := request_of in
  (request c installerId (UninstallTask bundleName) ERR_APPEXECFWK_UNINSTALL_PERMISSION_DENIED
     (aging_param (sv_env (ho_service h))) (Some receiver) h).1.

(** BundleAgingMgr::Process; the requests get their installers and their
    receivers. *)
Definition Aging_Process (c : Caller) (objects : list (Z * Z)) m : agingmgr :=
  let '(r, asked) := age (ca_uid c) (ho_service (ag_host m)) (ag_request m) in
  m <| ag_request := r |> <| ag_host := foldl (UnInstallBundle c) (ag_host m) (zip asked objects) |> <| ag_running := false |>.

Definition CheckPrerequisite (type : AgingTriggertype) m : bool :=
  match type with
  | PREIOD => if DISPLAY_ON (ag_env m) then false else ag_agingBatteryThresold m <? GetCapacity (ag_env m)
  | _ => true
  end.

Definition Start (type : AgingTriggertype) (sent : bool) m : agingmgr :=
  if negb (CheckPrerequisite type m) then m
  else if ag_running m then m
  else if sent then m <| ag_running := true |> <| ag_events ::= λ l, l ++ [ProcessTask] |>
  else m <| ag_running := false |>.

(** The timer; the second event is sent in any case. *)
Definition Aging_ProcessEvent (sent again : bool) m : agingmgr :=
  let m := Start PREIOD sent m in
  if again then m <| ag_events ::= λ l, l ++ [EVENT_AGING_NOW] |> else m.

(** The runner runs its events in the order of their times; the installer and
    the free install calls [Start] from other threads. *)
Inductive aging_step : agingmgr → agingmgr → Prop :=
| as_start type sent m : aging_step m (Start type sent m)
| as_timer sent again l1 l2 m :
    ag_events m = l1 ++ EVENT_AGING_NOW :: l2 → aging_step m (Aging_ProcessEvent sent again (m <| ag_events := l1 ++ l2 |>))
| as_process c objects l1 l2 m :
    ag_events m = l1 ++ ProcessTask :: l2 →
    length objects = length (age (ca_uid c) (ho_service (ag_host m)) (ag_request m)).2 →
    aging_step m (Aging_Process c objects (m <| ag_events := l1 ++ l2 |>))
| as_host rs h m : host_step rs (ag_host m) h → aging_step m (m <| ag_host := h |>).
End Aging.

(** * What a run uninstalls *)

Section Chain.
Context {E : Type} `{HA : AgingEnvironment E} (e : E).

(** The size that is left, and what the installer is asked for, when these
    bundles are gone through. *)
Definition freed (bundles : list AgingBundleInfo) (total : Z) : Z :=
  foldl (λ n b, if IsRunning e b then n else i64 (n - abi_dataBytes b)) total bundles.
Definition uninstalled (bundles : list AgingBundleInfo) : list string :=
  map abi_bundleName (List.filter (λ b, negb (IsRunning e b)) bundles).
Definition enough (r : AgingRequest) (total : Z) : bool := total <? times_08F (ar_totalDataBytesThreshold r).
Definition gone_through (done left : list AgingBundleInfo) (r : AgingRequest) : AgingRequest :=
  r <| ar_agingBundles := left |> <| ar_tatalDataBytes := freed done (ar_tatalDataBytes r) |>.

(** Each of [bundles] fulfills [P] when enough was freed in front of it. *)
Definition taken (P : AgingBundleInfo → Prop) (r : AgingRequest) (bundles : list AgingBundleInfo) : Prop :=
  ∀ d1 b d2, bundles = d1 ++ b :: d2 → enough r (freed d1 (ar_tatalDataBytes r)) = true → P b.

Lemma gone_through_nil r : gone_through [] (ar_agingBundles r) r = r.
Proof. by destruct r. Qed.
Lemma gone_through_app d1 d2 l1 l2 r : gone_through d2 l2 (gone_through d1 l1 r) = gone_through (d1 ++ d2) l2 r.
Proof. unfold gone_through, freed. simpl. by rewrite foldl_app. Qed.
Lemma uninstalled_app d1 d2 : uninstalled (d1 ++ d2) = uninstalled d1 ++ uninstalled d2.
Proof. unfold uninstalled. by rewrite List.filter_app, map_app. Qed.

Lemma age_bundle_run b r l :
  age_bundle e b r = (gone_through [b] (ar_agingBundles r) r, uninstalled [b])
  ∧ (gone_through [b] (ar_agingBundles r) r) <| ar_agingBundles := l |> = gone_through [b] l r.
Proof. split; [|done]. unfold age_bundle, gone_through, uninstalled, freed. simpl. by destruct (IsRunning e b), r. Qed.

Lemma taken_nil P r : taken P r [].
Proof. intros d1 b d2 H. by destruct d1. Qed.
Lemma taken_app P r d1 d2 l : taken P r d1 → taken P (gone_through d1 l r) d2 → taken P r (d1 ++ d2).
Proof.
  intros H1 H2 p b s Heq He. apply app_eq_inv in Heq as [(k & Hp & Hs)|(k & Hp & Hs)].
  - destruct k as [|x k]; simpl in Hs.
    + rewrite app_nil_r in Hp. subst p. by apply (H2 [] b s).
    + injection Hs as <- ->. by apply (H1 p b k).
  - subst. apply (H2 k b s); [done|]. unfold gone_through, enough. simpl. unfold freed in *. by rewrite foldl_app in He.
Qed.

(** One handler. *)
Lemma handler_loop_spec h bundles : ∀ r asked,
  (stops_early h = true → NeedContinue r = true) →
  ∃ done left, bundles = done ++ left
    ∧ handler_loop e h bundles r asked
      = (gone_through done left r, asked ++ uninstalled done, NeedContinue (gone_through done left r))
    ∧ taken (λ b, stops_early h = false ∧ CheckBundle e h r b = true) r done
    ∧ (NeedContinue (gone_through done left r) = true → match left with [] => True | b :: _ => CheckBundle e h r b = false end).
Proof.
  induction bundles as [|b bundles IH]; intros r asked Hearly.
  { exists [], []. cbn [handler_loop]. change (uninstalled []) with ([] : list string). rewrite (app_nil_r asked). split_and!; [done|by destruct r|apply taken_nil|done]. }
  cbn [handler_loop]. destruct (CheckBundle e h r b) eqn:Hcheck; simpl negb; cbv iota.
  2: { exists [], (b :: bundles). change (uninstalled []) with ([] : list string). rewrite app_nil_r. split_and!; [done|by destruct r|apply taken_nil|done]. }
  destruct (age_bundle_run b r bundles) as [-> Hr1]. cbv beta iota. set (r1 := gone_through [b] (ar_agingBundles r) r) in *.
  assert (Hfirst : taken (λ b, stops_early h = false ∧ CheckBundle e h r b = true) r [b]).
  { intros d1 x d2 Heq He. destruct d1 as [|y d1]; [|by destruct d1]. injection Heq as <- _. split; [|done].
    destruct (stops_early h) eqn:Hse; [|done]. specialize (Hearly eq_refl). unfold NeedContinue, IsReachEndAgingThreshold in Hearly.
    unfold enough in He. simpl in He. by rewrite He in Hearly. }
  assert (HN : NeedContinue r1 = NeedContinue (gone_through [b] bundles r)) by done.
  destruct (stops_early h && negb (NeedContinue r1)) eqn:Hstop.
  - apply andb_true_iff in Hstop as [_ Hn%negb_true_iff]. exists [b], bundles. rewrite Hr1, <- HN, Hn. done.
  - destruct (IH r1 (asked ++ uninstalled [b])) as (done & left & -> & Hrun & Ht & Hl).
    { intros Hse. rewrite Hse in Hstop. by apply negb_false_iff in Hstop. }
    rewrite Hrun. exists (b :: done), left.
    assert (gone_through done left r1 = gone_through (b :: done) left r) as Hg by apply (gone_through_app [b]).
    rewrite <- app_assoc, <- uninstalled_app. simpl app. rewrite Hg in *. split_and!; [done..| |exact Hl].
    apply (taken_app _ r [b] done (ar_agingBundles r)); [done|exact Ht].
Qed.

Definition long_unused (r : AgingRequest) (b : AgingBundleInfo) : Prop := unused_for e TIME_20_DAYS r b = true.

(** Several handlers, of which those that do not stop early take only bundles
    that were unused for long. *)
Lemma Chain_Process_spec handlers : ∀ r asked,
  0 <= ar_oneDayTimeMs r →
  (match handlers with h :: _ => stops_early h = true → NeedContinue r = true | [] => True end) →
  ∃ done left, ar_agingBundles r = done ++ left
    ∧ (Chain_Process e handlers r asked).1 = (gone_through done left r, asked ++ uninstalled done)
    ∧ taken (long_unused r) r done
    ∧ (last handlers = Some BundleDataSizeAgingHandler → left = [] ∨ enough r (freed done (ar_tatalDataBytes r)) = true).
Proof.
  induction handlers as [|h handlers IH]; intros r asked Hday Hearly.
  { exists [], (ar_agingBundles r). change (uninstalled []) with ([] : list string). rewrite app_nil_r, gone_through_nil. split_and!; [done..|apply taken_nil|done]. }
  cbn [Chain_Process]. unfold Handler_Process.
  destruct (handler_loop_spec h (ar_agingBundles r) r asked Hearly) as (done & left & Hsplit & -> & Ht & Hl).
  assert (Ht' : taken (long_unused r) r done).
  { intros d1 b d2 Heq He. destruct (Ht d1 b d2 Heq He) as [Hse Hc]. unfold long_unused. destruct h; try done.
    simpl in Hc. unfold unused_for, TIME_30_DAYS, TIME_20_DAYS in *. apply Z.ltb_lt in Hc. apply Z.ltb_lt. lia. }
  cbv beta iota. set (r1 := gone_through done left r) in *. destruct (NeedContinue r1) eqn:Hpassed; simpl negb; cbv iota.
  2: { exists done, left. split_and!; [done..|]. intros _. right. unfold NeedContinue in Hpassed. by apply negb_false_iff in Hpassed. }
  destruct (IH r1 (asked ++ uninstalled done)) as (done' & left' & Hsplit' & Hrun & Ht2 & Hend); [done|by destruct handlers|].
  exists (done ++ done'), left'. simpl in Hsplit'. rewrite Hsplit, Hsplit'. split_and!.
  - by rewrite app_assoc.
  - rewrite Hrun. subst r1. by rewrite gone_through_app, uninstalled_app, app_assoc.
  - apply (taken_app _ r done done' left); [done|exact Ht2].
  - intros Hlast. destruct handlers as [|h' handlers].
    + injection Hlast as ->. left. specialize (Hl eq_refl). destruct left as [|b left]; [|done]. by destruct done'.
    + destruct Hend as [->|He]; [done|by left|right]. unfold freed in *. rewrite foldl_app. exact He.
Qed.
End Chain.

(** ** The order of the bundles *)

Section Order.
Context (now day : Z).
#[local] Abbreviation cmp := (SortTwoAgingBundleInfos now day).

Lemma SortTwoAgingBundleInfos_asym a b : cmp a b = true → cmp b a = false.
Proof.
  unfold SortTwoAgingBundleInfos. cbv zeta. rewrite (andb_comm (_ && _) (_ && _)).
  destruct (_ && _); intros H%Z.ltb_lt; apply Z.ltb_ge; lia.
Qed.

Lemma SortTwoAgingBundleInfos_trans a b c : cmp b a = false → cmp c b = false → cmp c a = false.
Proof.
  unfold SortTwoAgingBundleInfos. cbv zeta. set (hi := now - TIME_10_DAYS * day). set (lo := now - TIME_20_DAYS * day).
  destruct (Z.leb_spec (abi_recentlyUsedTime a) hi), (Z.ltb_spec lo (abi_recentlyUsedTime a)),
    (Z.leb_spec (abi_recentlyUsedTime b) hi), (Z.ltb_spec lo (abi_recentlyUsedTime b)),
    (Z.leb_spec (abi_recentlyUsedTime c) hi), (Z.ltb_spec lo (abi_recentlyUsedTime c)); simpl; rewrite !Z.ltb_ge; lia.
Qed.
End Order.

Lemma StronglySorted_split {A} (R : A → A → Prop) l1 l2 : StronglySorted R (l1 ++ l2) → ∀ a b, a ∈ l1 → b ∈ l2 → R a b.
Proof.
  induction l1 as [|x l1 IH]; intros Hs a b Ha Hb; [by apply not_elem_of_nil in Ha|]. simpl in Hs. apply StronglySorted_inv in Hs as [Hs Hall].
  apply elem_of_cons in Ha as [->|Ha]; [|by apply IH]. rewrite Forall_forall in Hall. apply Hall. apply elem_of_app. by right.
Qed.

Lemma NoDup_map_filter {A B} (f : A → B) (p : A → bool) l : NoDup (map f l) → NoDup (map f (List.filter p l)).
Proof.
  induction l as [|x l IH]; [done|]. simpl. intros [Hx Hl]%NoDup_cons. destruct (p x); [|by apply IH]. simpl. apply NoDup_cons. split; [|by apply IH].
  intros (y & Hy & [Hin _]%list_elem_of_In%filter_In)%list_elem_of_fmap. destruct Hx. apply list_elem_of_fmap. exists y. split; [done|by apply list_elem_of_In].
Qed.

Section Age.
Context {K P T E : Type} `{HK : KvStore K} `{HP : TextStore P} `{HX : JsonText} `{HU : Uninit} `{HT : AccessTokenKit T}
  `{HE : Environment E} `{HS : StdSort} `{HJ : BundleStateStorage.Json} `{HL : Files E} `{HA : AgingEnvironment E} `{HSB : SortBy}.
#[local] Abbreviation agingmgr := (BundleAgingMgr K P T E).
Implicit Types (m : agingmgr) (s : Service K P T E).

(** The bundles that may be removed. *)
Definition removable (callingUid : Z) s : list AgingBundleInfo :=
  let userId := GetCurrentActiveUserId (sv_env s) in
  gather_bundles callingUid userId (QueryFormStatistics COUNT_MODULE_RECODES_GET userId (sv_env s)).2 s.

Lemma removable_names callingUid s : NoDup (map abi_bundleName (removable callingUid s)).
Proof.
  unfold removable, gather_bundles. rewrite map_map. simpl.
  apply (sm_wf_NoDup (GetRemovableBundleNameVec (GetCurrentActiveUserId (sv_env s)) (sv_mgr s) ∅)).
  unfold GetRemovableBundleNameVec. generalize (sm_wf_empty (K:=string) (V:=Z)). generalize (∅ : stdmap string Z).
  induction (elems _) as [|it l IH]; intros r Hr; [done|]. simpl. apply IH.
  destruct (negb _); [done|]. destruct (IsBundleRemovable _ _); [by apply sm_wf_emplace|done].
Qed.

Lemma ReInitAgingRequest_true callingUid s r r0 :
  ReInitAgingRequest callingUid s r = (r0, true) →
  ar_agingBundles r0 = sort_by (SortTwoAgingBundleInfos (GetNowSysTimeMs (sv_env s)) (ar_oneDayTimeMs r0)) (removable callingUid s).
Proof.
  unfold ReInitAgingRequest, removable. destruct (sm_is_empty _); [done|].
  destruct (QueryFormStatistics _ _ _) as [ret records]. destruct (negb (ret =? 0)); [done|]. by intros [= <- _].
Qed.

(** C39: A run of the aging uninstalls what was longest unused and no more than
    it has to: below the threshold nothing; above it a first part of the
    removable bundles in the order of their last use (for those unused between
    ten and twenty days the largest first), without those that are running,
    each once; it ends when all were gone through or the size has come below
    eight tenths of the threshold, and after that only bundles unused for more
    than twenty days are taken. *)
Theorem age_correct callingUid s r r0 ok r' asked :
  ReInitAgingRequest callingUid s r = (r0, ok) → age callingUid s r = (r', asked) → 0 <= ar_oneDayTimeMs r0 →
  if ok && IsReachStartAgingThreshold r0 then
    ∃ done left,
      removable callingUid s ≡ₚ done ++ left
      ∧ (∀ b c, b ∈ done → c ∈ left → SortTwoAgingBundleInfos (GetNowSysTimeMs (sv_env s)) (ar_oneDayTimeMs r0) c b = false)
      ∧ asked = uninstalled (sv_env s) done ∧ NoDup asked
      ∧ r' = gone_through (sv_env s) done left r0
      ∧ (left = [] ∨ IsReachEndAgingThreshold r' = true)
      ∧ taken (sv_env s) (long_unused (sv_env s) r0) r0 done
  else asked = [] ∧ r' = r0.
Proof.
  intros Hre Hage Hday. unfold age in Hage. rewrite Hre in Hage. destruct (ok && _) eqn:Hgo; [|by injection Hage as <- <-].
  apply andb_true_iff in Hgo as [-> _]. set (e := sv_env s) in *.
  destruct (Chain_Process_spec e InitAgingHandlerChain r0 []) as (gone & rest & Hsplit & Hrun & Ht & Hend); [done|done|].
  rewrite Hrun in Hage. injection Hage as <- <-. exists gone, rest.
  apply ReInitAgingRequest_true in Hre. fold e in Hre. rewrite Hsplit in Hre.
  assert (Hp : removable callingUid s ≡ₚ gone ++ rest) by (rewrite Hre; symmetry; apply sort_by_permutation).
  split_and!; [done| |done| |done|by apply Hend|done].
  - apply (StronglySorted_split (λ b c, SortTwoAgingBundleInfos (GetNowSysTimeMs e) (ar_oneDayTimeMs r0) c b = false)). rewrite Hre.
    apply sort_by_sorted; [apply SortTwoAgingBundleInfos_asym|apply SortTwoAgingBundleInfos_trans].
  - pose proof (removable_names callingUid s) as Hnd. rewrite Hp, map_app in Hnd. apply NoDup_app in Hnd as (Hnd & _ & _).
    by apply NoDup_map_filter.
Qed.
End Age.

(** ** Eight tenths of the threshold *)

Lemma round24_above x : 0 < x → let '(m, k) := round24 x in 0 <= m ∧ 0 <= k ∧ 2 ^ 24 * (m * 2 ^ k) <= (2 ^ 24 + 1) * x.
Proof.
  intros Hx. unfold round24. set (k := Z.max 0 (Z.log2 x - 23)). assert (0 <= k) as Hk by lia.
  pose proof (Z.div_mod x (2 ^ k)) as Hdm. pose proof (Z.mod_pos_bound x (2 ^ k)) as Hr. assert (0 < 2 ^ k) as Hpow by (apply Z.pow_pos_nonneg; lia).
  specialize (Hdm ltac:(lia)). specialize (Hr Hpow). assert (0 <= x / 2 ^ k) as Hq by (apply Z.div_pos; lia).
  set (q := x / 2 ^ k) in *. set (r := x mod 2 ^ k) in *.
  assert (Hbig : 2 * r >= 2 ^ k → 2 ^ 23 * 2 ^ k <= x).
  { intros Hge. destruct (Z.eq_dec k 0) as [H0|H0]; [rewrite H0 in *; simpl in *; lia|].
    assert (k = Z.log2 x - 23) as -> by lia. rewrite <- Z.pow_add_r by lia. replace (23 + (Z.log2 x - 23)) with (Z.log2 x) by lia.
    by apply Z.log2_spec. }
  destruct ((2 ^ k <? 2 * r) || _) eqn:Hup.
  - assert (2 * r >= 2 ^ k) as Hge.
    { apply orb_true_iff in Hup as [H%Z.ltb_lt|[H%Z.eqb_eq _]%andb_true_iff]; lia. }
    specialize (Hbig Hge). split_and!; [lia|done|]. nia.
  - split_and!; [done..|]. nia.
Qed.

(** Not more than the threshold: a run that starts has something to do. *)
Lemma times_08F_le x : 0 < x → times_08F x <= x.
Proof.
  intros Hx. unfold times_08F. rewrite Z.abs_eq, Z.sgn_pos by lia.
  pose proof (round24_above x Hx) as H1. destruct (round24 x) as [m1 k1]. destruct H1 as (Hm1 & Hk1 & H1).
  assert (0 < 2 ^ k1) as Hp1 by (apply Z.pow_pos_nonneg; lia).
  destruct (Z.eq_dec m1 0) as [->|Hne].
  { vm_compute (round24 (0 * 13421773)). cbv beta iota. rewrite Z.mul_0_l, Z.div_0_l by lia. lia. }
  pose proof (round24_above (m1 * 13421773) ltac:(lia)) as H2. destruct (round24 (m1 * 13421773)) as [m2 k2]. destruct H2 as (Hm2 & Hk2 & H2).
  rewrite Z.mul_1_l. apply Z.div_le_upper_bound; [lia|]. rewrite Z.pow_add_r by lia.
  set (p1 := 2 ^ k1) in *. set (p2 := 2 ^ k2) in *.
  assert (2 ^ 24 * (m2 * (p1 * p2)) <= (2 ^ 24 + 1) * (m1 * 13421773) * p1) as H3 by nia.
  assert (2 ^ 24 * (m1 * p1) <= (2 ^ 24 + 1) * x) as H4 by lia.
  nia.
Qed.

Lemma started_not_ended r :
  0 < ar_totalDataBytesThreshold r → IsReachStartAgingThreshold r = true → IsReachEndAgingThreshold r = false.
Proof.
  intros Ht H%Z.ltb_lt. apply Z.ltb_ge. pose proof (times_08F_le _ Ht). lia.
Qed.

(** ** One run at a time *)

Section Runs.
Context {K P T E : Type} `{HK : KvStore K} `{HP : TextStore P} `{HX : JsonText} `{HU : Uninit} `{HT : AccessTokenKit T}
  `{HE : Environment E} `{HS : StdSort} `{HJ : BundleStateStorage.Json} `{HL : Files E} `{HA : AgingEnvironment E} `{HSB : SortBy}.
#[local] Abbreviation agingmgr := (BundleAgingMgr K P T E).
Implicit Types (m : agingmgr).

Definition is_process (event : AgingEvent) : bool := match event with ProcessTask => true | _ => false end.
Definition waiting_runs m : nat := length (List.filter is_process (ag_events m)).
Definition one_run m : Prop := waiting_runs m = if ag_running m then 1%nat else 0%nat.

Lemma Start_one_run type sent m : one_run m → one_run (Start type sent m).
Proof.
  unfold one_run, waiting_runs, Start. intros H. destruct (negb _); [done|]. destruct (ag_running m) eqn:Hr; [by rewrite Hr|].
  destruct sent; simpl; [|done]. rewrite List.filter_app, length_app, H. done.
Qed.

Lemma aging_step_one_run m m' : aging_step m m' → one_run m → one_run m'.
Proof.
  intros [type sent m1|sent again l1 l2 m1 Hev|c objects l1 l2 m1 Hev _|rs h m1 _] H.
  - by apply Start_one_run.
  - assert (Hs : one_run (Start PREIOD sent (m1 <| ag_events := l1 ++ l2 |>))).
    { apply Start_one_run. unfold one_run, waiting_runs in *. simpl. rewrite Hev in H. rewrite List.filter_app in *. exact H. }
    unfold Aging_ProcessEvent. destruct again; [|done]. unfold one_run, waiting_runs in *. simpl.
    rewrite List.filter_app, length_app. simpl. by rewrite Nat.add_0_r.
  - unfold one_run, waiting_runs in *. rewrite Hev, List.filter_app, length_app in H. simpl in H.
    unfold Aging_Process. destruct (age _ _ _). simpl. rewrite List.filter_app, length_app. destruct (ag_running m1); lia.
  - done.
Qed.

(** Whatever starts the aging, at most one run waits, and the flag says whether
    one does; when it has run, the next may start. *)
Lemma aging_runs_once m m' :
  ag_running m = false → waiting_runs m = 0%nat → rtc aging_step m m' →
  (waiting_runs m' <= 1)%nat ∧ (ag_running m' = true ↔ waiting_runs m' = 1%nat).
Proof.
  intros Hr Hw Hs. assert (one_run m') as H.
  { assert (one_run m) as H by (unfold one_run; by rewrite Hr). clear Hr Hw.
    induction Hs as [|m1 m2 m3 H12 _ IH]; [done|]. by apply IH, (aging_step_one_run m1). }
  unfold one_run in H. rewrite H. by destruct (ag_running m'); split; [lia..|lia|].
Qed.
End Runs.

(** ** Examples *)

Section Demo.
#[local] Existing Instances closed_store bits_json null_text no_values.

#[local] Instance sized_files : Files device := {|
  PathToRealPath _ _ := None;
  FileAccess _ _ := false;
  CheckFileSize _ _ _ := true;
  ReadFile _ _ := None;
  AddResource _ _ := false;
  GetProfileByName _ _ _ := None;
  GetStringById _ _ _ := None;
  GetMediaById _ _ _ := None;
  GetDiskUsage path _ := if decide (path = "") then 0 else 300 * 1024 * 1024;
  LowerStr s := s;
  dump_indent _ := None;
|}.
#[local] Instance demo_aging : AgingEnvironment device := {|
  GetParameter _ _ := (0, "");
  GetCurrentActiveUserId _ := 100;
  QueryFormStatistics _ _ _ := (0, [("com.old", 60 * ONE_DAYS_MS); ("com.new", 95 * ONE_DAYS_MS)]);
  GetNowSysTimeMs _ := 100 * ONE_DAYS_MS;
  GetAllRunningProcesses _ := [];
  DISPLAY_ON _ := false;
  GetCapacity _ := 50;
|}.

#[local] Instance not_after_dec {A} (cmp : A → A → bool) : RelDecision (λ a b, cmp b a = false).
Proof. intros a b. apply _. Defined.
#[local, program] Instance merge_sort_by : SortBy := {|
  sort_by A cmp l := merge_sort (λ a b, cmp b a = false) l;
|}.
Next Obligation. intros A cmp l. apply merge_sort_Permutation. Qed.
Next Obligation.
  intros A cmp l Hasym Htrans. apply StronglySorted_merge_sort.
  - intros a b c. apply Htrans.
  - intros a b. destruct (cmp b a) eqn:H; [right; by apply Hasym|by left].
Qed.

(** Two bundles that user 100 may lose; one is not used for forty days. *)
Definition demo_removable (name : string) : InnerBundleInfo :=
  (SetModuleRemovable name true 100
    (InnerBundleInfo.AddInnerBundleUserInfo
       (new_InnerBundleUserInfo <| ibu_bundleUserInfo ::= λ u, u <| bu_userId := 100 |> |> <| ibu_bundleName := name |>)
       ((demo_hap name true []) <| ib_baseApplicationInfo ::= λ a, a <| app_bundleName := name |>
          <| app_codePath := "/data/app/" +:+ name |> <| app_isFreeInstallApp := true |> |>))).1.
Definition demo_aged : demo_service :=
  (demo_with [demo_removable "com.old"; demo_removable "com.new"] []) <| sv_mgr ::= λ m, m <| dm_installStates :=
    <["com.old" := INSTALL_SUCCESS]> (<["com.new" := INSTALL_SUCCESS]> ∅) |> |>.

Definition demo_request : AgingRequest := new_AgingRequest (mkDevice [] []).
Definition demo_reinited : AgingRequest := (ReInitAgingRequest 1000 demo_aged demo_request).1.

Example demo_threshold : times_08F DEFAULT_AGING_DATA_SIZE_THRESHOLD = 419430400.
Proof. vm_compute. reflexivity. Qed.

Lemma age_correct_witness :
  ∃ gone rest, removable 1000 demo_aged ≡ₚ gone ++ rest ∧ ["com.old"] = uninstalled (mkDevice [] []) gone
    ∧ (rest = [] ∨ IsReachEndAgingThreshold (age 1000 demo_aged demo_request).1 = true).
Proof.
  assert (ReInitAgingRequest 1000 demo_aged demo_request = (demo_reinited, true)) as Hre by (vm_compute; reflexivity).
  assert (age 1000 demo_aged demo_request = ((age 1000 demo_aged demo_request).1, ["com.old"])) as Hage by (vm_compute; reflexivity).
  pose proof (age_correct 1000 demo_aged demo_request _ _ _ _ Hre Hage ltac:(vm_compute; discriminate)) as H.
  assert (true && IsReachStartAgingThreshold demo_reinited = true) as Hgo by (vm_compute; reflexivity).
  rewrite Hgo in H. destruct H as (gone & rest & Hp & _ & Hasked & _ & _ & Hend & _). exists gone, rest.
  exact (conj Hp (conj Hasked Hend)).
Defined.
End Demo.
