(* ===== verification/BundleMgrHostImpl.v ===== *)
(** * BundleMgrHostImpl: the bundle manager that answers the remote calls

    Models services/bundlemgr/src/bundle_mgr_host_impl.cpp: the implementation
    of the interface of BundleMgrIpc.v on the state of Service.v, with the
    permissions that its functions ask of the caller, and the callbacks of
    bundle_data_mgr.cpp.  [call] is the implementation of a call; the free
    install connection and the distributed data service that some functions
    hand a call to are arguments.  Dump, which prints for the hidumper, is not
    modelled. *)

From Stdlib Require Import Ascii.
From stdpp Require Import strings list pretty.
From S2P Require Import Installer InstallerProps.
From S2P Require Import Prelude Strings StdMap BundleTypes Errors Json InfoJson PackJson Skill InnerBundleInfo InnerBundleQuery InstallInfo Parcel Flow ParcelInfos BundleMgrIpc BundleMgrCalls BundleJson BundlePermissionMgr BundleStateStorage BundleDataMgr BundleDataQuery PreInstall Service Resources Sandbox Clones Installers.

Open Scope string_scope.
Open Scope list_scope.
Open Scope Z_scope.

Definition PERMISSION_GET_BUNDLE_INFO : string := "ohos.permission.GET_BUNDLE_INFO".
Definition PERMISSION_GET_BUNDLE_INFO_PRIVILEGED : string := "ohos.permission.GET_BUNDLE_INFO_PRIVILEGED".
Definition PERMISSION_CHANGE_ABILITY_ENABLED_STATE : string := "ohos.permission.CHANGE_ABILITY_ENABLED_STATE".
Definition PERNISSION_REMOVECACHEFILE : string := "ohos.permission.REMOVE_CACHE_FILES".
Definition LISTEN_BUNDLE_CHANGE : string := "ohos.permission.LISTEN_BUNDLE_CHANGE".
Definition BUNDLE_EL : list string := ["el1"; "el2"].
Definition BASE : string := "/base/".
Definition SYSTEM_APP : string := "system".
Definition THIRD_PARTY_APP : string := "third-party".
Definition C_UESRID : Z := 200.
Definition INTENT_ACTION_HOME : string := "action.system.home".
Definition INTENT_ENTITY_HOME : string := "entity.system.home".

(** installd, the image library, the free install connection, the distributed
    data service, the account service, and the remote objects of the service. *)
Class HostLibraries (E PixelMap : Type) := {
  GetBundleCachePath : string → On E (list string);
  CleanBundleDataDir : string → On E ();
  LoadImageFile : string → E → option PixelMap;
  ConnectQueryAbilityInfo : Want → Z → Z → option Z → E → E * option AbilityInfo;
  ConnectUpgradeAtomicService : Want → Z → E → E;
  QueryStroageDistributeInfo : string → string → E → option DistributedBundleInfo;
  GetCurrentActiveUserId : E → Z;
  installer_object : E → option Z;
  user_mgr_object : E → option Z;
  regex : string → option (string → bool);
}.

(** A task that cleans the caches of a bundle, posted to the handler. *)
Record CacheTask := mkCacheTask { ct_bundleName : string; ct_userId : Z; ct_rootDir : list string; ct_callback : Z }.

Record BundleMgr {K P T E : Type} := mkBundleMgr {
  bm_service : Service.Service K P T E;
  bm_tasks : list CacheTask;
}.
Arguments BundleMgr K P T E : clear implicits.
#[export] Instance eta_BundleMgr K P T E : Eta (BundleMgr K P T E) := λ r, mkBundleMgr K P T E (bm_service r) (bm_tasks r).

Section Impl.
Context {K P T E PixelMap : Type} `{HK : KvStore K} `{HP : TextStore P} `{HX : JsonText} `{HU : Uninit} `{HT : AccessTokenKit T}
  `{HE : Environment E} `{HS : StdSort} `{HJ : BundleStateStorage.Json} `{HF : Files E} `{HA : UninitAbilityType}
  `{HL : HostLibraries E PixelMap}.
Context (c : Caller).
#[local] Abbreviation service := (Service.Service K P T E).
#[local] Abbreviation SM := (On service).
#[local] Abbreviation HM := (On (BundleMgr K P T E)).
#[local] Abbreviation mgr := (BundleDataMgr K).
Implicit Types (s : service).

Definition set_service s (b : BundleMgr K P T E) : BundleMgr K P T E := b <| bm_service := s |>.
Definition on_service {A} (m : SM A) : HM A := within bm_service set_service m.
(** A query of the data manager, with the permission states of the token service. *)
Definition query {A} (f : (Z → bool → option (list PermissionStateFull)) → mgr → A) : HM A :=
  gets (λ b, f (GetReqPermissions (sv_tokens (bm_service b))) (sv_mgr (bm_service b))).
Definition read_env {A} (f : mgr → E → A) : HM A :=
  gets (λ b, f (sv_mgr (bm_service b)) (sv_env (bm_service b))).
(** [None]: an exception leaves. *)
Definition or_throw {A} (m : HM (option A)) : HM A := r ← m; match r with None => throws | Some x => mret x end.

Definition if_true {A} (r : A * bool) : option A := if r.2 then Some r.1 else None.

(** ** Permissions *)

Definition may (permission : string) s : bool := BundlePermissionMgr.VerifyCallingPermission (ca_token c) permission (sv_tokens s).

Definition VerifyQueryPermission (queryBundleName : string) s : bool :=
  match BundleDataQuery.GetBundleNameForUid (ca_uid c) (sv_mgr s) with
  | Some callingBundleName => bool_decide (queryBundleName = callingBundleName)
  | None => false
  end || may PERMISSION_GET_BUNDLE_INFO s || may PERMISSION_GET_BUNDLE_INFO_PRIVILEGED s.

(** [if (!allowed) return refused;] *)
Definition guarded {R} (refused : R) (allowed : service → bool) (m : HM R) : HM R := λ b,
  if allowed (bm_service b) then m b else (Ok refused, b).

Definition uid_user : Z := GetUserIdByUid (ca_uid c).

(** ** Applications and bundles *)

Definition GetApplicationInfo (appName : string) (flags userId : Z) : HM (option ApplicationInfo) :=
  guarded None (VerifyQueryPermission appName)
    (query (λ _ m, BundleDataQuery.GetApplicationInfo (ca_uid c) appName flags userId m new_ApplicationInfo)).

Definition GetApplicationInfos (flags userId : Z) : HM (option (list ApplicationInfo)) :=
  guarded None (may PERMISSION_GET_BUNDLE_INFO_PRIVILEGED)
    (query (λ _ m, if_true (BundleDataQuery.GetApplicationInfos (ca_uid c) flags userId m))).

Definition GetBundleInfo (bundleName : string) (flags userId : Z) : HM (option BundleInfo) :=
  guarded None (VerifyQueryPermission bundleName)
    (query (λ req m, BundleDataQuery.GetBundleInfo req (ca_uid c) bundleName flags userId m new_BundleInfo)).

Definition GetBundlePackInfo (bundleName : string) (flags : Z) : HM (option BundlePackInfo) :=
  query (λ _ m, BundleDataQuery.GetBundlePackInfo (ca_uid c) bundleName flags m new_BundlePackInfo).

(** What the parameter holds after a failure is looked at. *)
Definition GetBundleUserInfo (bundleName : string) (userId : Z) : HM (bool * InnerBundleUserInfo) :=
  query (λ _ m, GetInnerBundleUserInfoByUserId (ca_uid c) bundleName userId m new_InnerBundleUserInfo).

Definition GetBundleUserInfos (bundleName : string) : HM (option (list InnerBundleUserInfo)) :=
  query (λ _ m, GetInnerBundleUserInfos bundleName m).

Definition GetBundleInfos (flags userId : Z) : HM (option (list BundleInfo)) :=
  guarded None (may PERMISSION_GET_BUNDLE_INFO_PRIVILEGED)
    (query (λ req m, if_true (BundleDataQuery.GetBundleInfos req (ca_uid c) flags userId m))).

Definition GetBundleNameForUid (uid : Z) : HM (option string) := query (λ _ m, BundleDataQuery.GetBundleNameForUid uid m).
Definition GetBundlesForUid (uid : Z) : HM (option (list string)) :=
  query (λ _ m, if_true (BundleDataQuery.GetBundlesForUid uid m [])).
Definition GetNameForUid (uid : Z) : HM (option string) := query (λ _ m, BundleDataQuery.GetNameForUid uid m).
Definition GetBundleGids (bundleName : string) : HM (option (list Z)) :=
  query (λ _ m, BundleDataQuery.GetBundleGids (ca_uid c) bundleName m).
(** The data manager answers true and leaves the vector. *)
Definition GetBundleGidsByUid (bundleName : string) (uid : Z) : HM (option (list Z)) := mret (Some []).
Definition CheckIsSystemAppByUid (uid : Z) : HM bool := query (λ _ m, BundleDataQuery.CheckIsSystemAppByUid uid m).
Definition GetBundleInfosByMetaData (metaData : string) : HM (option (list BundleInfo)) :=
  query (λ req m, if_true (BundleDataQuery.GetBundleInfosByMetaData req (ca_uid c) metaData m)).
Definition QueryKeepAliveBundleInfos : HM (option (list BundleInfo)) :=
  query (λ req m, if_true (BundleDataQuery.QueryKeepAliveBundleInfos req (ca_uid c) m)).

(** ** Abilities *)

Definition QueryAbilityInfo (want : Want) (flags userId : Z) : HM (option AbilityInfo) :=
  guarded None (VerifyQueryPermission (want_bundleName want))
    (query (λ _ m, BundleDataQuery.QueryAbilityInfo regex (ca_uid c) want flags userId m)).

Definition QueryAbilityInfoWithCallback (want : Want) (flags userId : Z) (callBack : option Z) : HM (option AbilityInfo) :=
  on_service (on_env (run (ConnectQueryAbilityInfo want flags userId callBack))).
Definition UpgradeAtomicService (want : Want) (userId : Z) : HM () :=
  on_service (on_env (modify (ConnectUpgradeAtomicService want userId))).

Definition QueryAbilityInfos (want : Want) (flags userId : Z) : HM (option (list AbilityInfo)) :=
  guarded None (VerifyQueryPermission (want_bundleName want))
    (query (λ _ m, if_true (BundleDataQuery.QueryAbilityInfos regex (ca_uid c) want flags userId m []))).

Definition QueryAbilityInfosForClone (want : Want) : HM (option (list AbilityInfo)) :=
  query (λ _ m, if_true (BundleDataQuery.QueryAbilityInfosForClone (ca_uid c) want m [])).

Definition QueryAllAbilityInfos (want : Want) (userId : Z) : HM (option (list AbilityInfo)) :=
  guarded None (may PERMISSION_GET_BUNDLE_INFO_PRIVILEGED)
    (query (λ _ m, if_true (QueryLauncherAbilityInfos (ca_uid c) want userId m []))).

Definition QueryAbilityInfoByUri (abilityUri : string) (userId : Z) : HM (option AbilityInfo) :=
  query (λ _ m, BundleDataQuery.QueryAbilityInfoByUri (ca_uid c) abilityUri userId m).
Definition QueryAbilityInfosByUri (abilityUri : string) : HM (option (list AbilityInfo)) :=
  query (λ _ m, if_true (BundleDataQuery.QueryAbilityInfosByUri (ca_uid c) abilityUri m [])).

(** The Want with the ElementName of the three names. *)
Definition element_want (bundleName moduleName abilityName : string) : Want := mkWant "" [] "" "" bundleName moduleName abilityName.
Definition GetAbilityInfo (bundleName moduleName abilityName : string) : HM (option AbilityInfo) :=
  QueryAbilityInfo (element_want bundleName moduleName abilityName) GET_ABILITY_INFO_WITH_APPLICATION UNSPECIFIED_USERID.

Definition GetAbilityLabel (bundleName moduleName abilityName : string) : HM string :=
  guarded "" (VerifyQueryPermission bundleName)
    (gets (λ b, let s := bm_service b in
                Resources.GetAbilityLabel (GetReqPermissions (sv_tokens s)) (ca_uid c) bundleName moduleName abilityName (sv_mgr s) (sv_env s))).

Definition GetAbilityPixelMapIcon (bundleName moduleName abilityName : string) : HM (option PixelMap) :=
  guarded None (VerifyQueryPermission bundleName)
    (gets (λ b, let s := bm_service b in
                match Resources.GetAbilityPixelMapIcon (GetReqPermissions (sv_tokens s)) (ca_uid c) bundleName moduleName abilityName
                        (sv_mgr s) (sv_env s) with
                | None => None
                | Some iconPath => LoadImageFile iconPath (sv_env s)
                end)).

(** No permission is asked, though the log says so. *)
Definition GetBundleArchiveInfo (hapFilePath : string) (flags : Z) : HM (option BundleInfo) :=
  checked ← read_env (λ _, CheckHapPath hapFilePath);
  match checked with
  | inl _ => mret None
  | inr realPath =>
      parsed ← on_service (on_env (attempt (Parse realPath new_InnerBundleInfo)));
      match parsed with
      | Ok info => query (λ req _, Some (InnerBundleQuery.GetBundleInfo req flags NOT_EXIST_USERID info new_BundleInfo))
      | _ => mret None
      end
  end.

Definition GetHapModuleInfo (abilityInfo : AbilityInfo) (userId : Z) : HM (option HapModuleInfo) :=
  if str_empty (ai_bundleName abilityInfo) || str_empty (ai_package abilityInfo) then mret None
  else query (λ _ m, BundleDataQuery.GetHapModuleInfo (ca_uid c) abilityInfo userId m).

Definition GetLaunchWantForBundle (bundleName : string) : HM (option Want) :=
  guarded None (may PERMISSION_GET_BUNDLE_INFO_PRIVILEGED)
    (query (λ _ m, (λ p, mkWant INTENT_ACTION_HOME [INTENT_ENTITY_HOME] "" "" p.1 "" p.2)
                     <$> BundleDataQuery.GetLaunchWantForBundle (ca_uid c) uninit bundleName m)).

Definition CheckPublicKeys (firstBundleName secondBundleName : string) : HM Z :=
  or_throw (query (λ _ m, BundleDataQuery.CheckPublicKeys firstBundleName secondBundleName m)).

Definition GetPermissionDef (permissionName : string) : HM (option PermissionDef) :=
  guarded None (may PERMISSION_GET_BUNDLE_INFO_PRIVILEGED)
    (if str_empty permissionName then mret None
     else gets (λ b, BundlePermissionMgr.GetPermissionDef permissionName (sv_tokens (bm_service b)))).

(** ** Cleaning *)

Definition data_dir_of (bundleName : string) (userId : Z) (el : string) : string :=
  BUNDLE_APP_DATA_BASE_DIR +:+ el +:+ PATH_SEPARATOR +:+ pretty userId +:+ BASE +:+ bundleName.

Definition CleanBundleCacheTask (bundleName : string) (cleanCacheCallback : Z) (userId : Z) : HM () :=
  modify (λ b, b <| bm_tasks ::= λ l,
    l ++ [mkCacheTask bundleName userId (map (data_dir_of bundleName userId) BUNDLE_EL) cleanCacheCallback] |>).

Definition unspecified_is_caller (userId : Z) : Z := if userId =? UNSPECIFIED_USERID then uid_user else userId.

Definition not_clearable (a : ApplicationInfo) : bool := app_isSystemApp a && negb (app_userDataClearable a).

Definition CleanBundleCacheFiles (bundleName : string) (cleanCacheCallback : option Z) (userId : Z) : HM bool :=
  let userId := unspecified_is_caller userId in
  let denied := on_service (tells (SendCleanCacheSysEvent bundleName userId true true)) ;; mret false in
  if userId <? 0 then denied
  else match cleanCacheCallback with
       | None => denied
       | Some callback =>
           if str_empty bundleName then denied
           else
             s ← gets bm_service;
             if negb (may PERNISSION_REMOVECACHEFILE s) then denied
             else match BundleDataQuery.GetApplicationInfo (ca_uid c) bundleName GET_BASIC_APPLICATION_INFO userId (sv_mgr s) new_ApplicationInfo with
                  | None => denied
                  | Some applicationInfo =>
                      if not_clearable applicationInfo then denied
                      else CleanBundleCacheTask bundleName callback userId ;; mret true
                  end
       end.

(** The directories of the task, with those that cannot be listed left out. *)
Fixpoint cache_paths (rootDir : list string) : SM (list string) :=
  match rootDir with
  | [] => mret []
  | st :: rootDir =>
      result ← attempt (on_env (GetBundleCachePath st));
      caches ← cache_paths rootDir;
      mret (match result with Ok cache => cache | _ => [] end ++ caches)
  end.
(** Whether one could not be cleaned; the first such one ends the loop. *)
Fixpoint clean_paths (caches : list string) : SM bool :=
  match caches with
  | [] => mret false
  | cache :: caches =>
      result ← attempt (on_env (CleanBundleDataDir cache));
      match result with Ok _ => clean_paths caches | _ => mret true end
  end.
Definition cleanCache (t : CacheTask) : SM () :=
  caches ← cache_paths (ct_rootDir t);
  error ← clean_paths caches;
  tells (SendCleanCacheSysEvent (ct_bundleName t) (ct_userId t) true error) ;;
  tells (OnCleanCacheFinished (ct_callback t) error).

Definition CleanBundleDataFiles (bundleName : string) (userId : Z) : HM bool :=
  let report exception := on_service (tells (SendCleanCacheSysEvent bundleName userId false exception)) in
  let failed := report true ;; mret false in
  if str_empty bundleName || (userId <? 0) then failed
  else
    found ← GetApplicationInfo bundleName GET_BASIC_APPLICATION_INFO userId;
    match found with
    | None => failed
    | Some applicationInfo =>
        if not_clearable applicationInfo then failed
        else
          user ← GetBundleUserInfo bundleName userId;
          if negb user.1 then failed
          else
            cleared ← on_service (on_tokens (ClearUserGrantedPermissionState (app_accessTokenId applicationInfo)));
            if negb cleared then failed
            else
              removed ← on_service (on_env (attempt (RemoveBundleDataDir bundleName userId)));
              match removed with
              | Ok _ =>
                  apl ← query (λ _ m, GetAppPrivilegeLevel (ca_uid c) bundleName UNSPECIFIED_USERID m);
                  created ← on_service (on_env (attempt (CreateBundleDataDir bundleName userId (ibu_uid user.2) (ibu_uid user.2) apl)));
                  match created with Ok _ => report false ;; mret true | _ => failed end
              | _ => failed
              end
    end.

(** ** Callbacks *)

Definition register_callback (cb : StatusCallback) : SM () := modify (λ s, s <| sv_callbacks ::= λ l, l ++ [cb] |>).
Definition clear_callback (object : Z) : SM () :=
  modify (λ s, s <| sv_callbacks ::= List.filter (λ cb, negb (cb_object cb =? object)) |>).
Definition unregister_callbacks : SM () := modify (λ s, s <| sv_callbacks := [] |>).

Definition RegisterBundleStatusCallback (bundleStatusCallback : option (Z * string)) : HM bool :=
  match bundleStatusCallback with
  | None => mret false
  | Some (object, bundleName) =>
      if str_empty bundleName then mret false
      else guarded false (may LISTEN_BUNDLE_CHANGE) (on_service (register_callback (mkStatusCallback bundleName object)) ;; mret true)
  end.
Definition ClearBundleStatusCallback (bundleStatusCallback : option Z) : HM bool :=
  match bundleStatusCallback with
  | None => mret false
  | Some object => guarded false (may LISTEN_BUNDLE_CHANGE) (on_service (clear_callback object) ;; mret true)
  end.
Definition UnregisterBundleStatusCallback : HM bool :=
  guarded false (may LISTEN_BUNDLE_CHANGE) (on_service unregister_callbacks ;; mret true).

(** ** Enabled, removable, upgraded *)

(** The end of SetApplicationEnabled and SetAbilityEnabled. *)
Definition set_enabled (bundleName abilityName : string) (isEnable : bool) (userId : Z)
  (change : mgr → option (mgr * bool)) : HM bool :=
  let report exception := on_service (tells (SendComponentStateSysEvent bundleName abilityName userId isEnable exception)) in
  s ← gets bm_service;
  if negb (may PERMISSION_CHANGE_ABILITY_ENABLED_STATE s) then report true ;; mret false
  else
    ok ← on_service (on_mgr_opt change);
    if negb ok then report true ;; mret false
    else
      report false ;;
      user ← GetBundleUserInfo bundleName userId;
      if negb user.1 then mret false
      else on_service (NotifyBundleStatus bundleName "" abilityName ERR_OK Notify_APPLICATION_ENABLE (ibu_uid user.2)) ;; mret true.

Definition SetApplicationEnabled (bundleName : string) (isEnable : bool) (userId : Z) : HM bool :=
  let userId := unspecified_is_caller userId in
  set_enabled bundleName "" isEnable userId (BundleDataMgr.SetApplicationEnabled (ca_uid c) bundleName isEnable userId).
Definition SetAbilityEnabled (abilityInfo : AbilityInfo) (isEnabled : bool) (userId : Z) : HM bool :=
  let userId := unspecified_is_caller userId in
  set_enabled (ai_bundleName abilityInfo) (ai_name abilityInfo) isEnabled userId
    (BundleDataMgr.SetAbilityEnabled (ca_uid c) abilityInfo isEnabled userId).

Definition IsApplicationEnabled (bundleName : string) : HM bool :=
  query (λ _ m, BundleDataMgr.IsApplicationEnabled (ca_uid c) bundleName m).
Definition IsAbilityEnabled (abilityInfo : AbilityInfo) : HM bool :=
  query (λ _ m, BundleDataQuery.IsAbilityEnabled (ca_uid c) abilityInfo m).

(** No permission is asked for the next two setters. *)
Definition SetModuleRemovable (bundleName moduleName : string) (isEnable : bool) : HM bool :=
  userId ← read_env (λ _, GetCurrentActiveUserId);
  on_service (on_mgr (BundleDataMgr.SetModuleRemovable userId bundleName moduleName isEnable)).
Definition IsModuleRemovable (bundleName moduleName : string) : HM bool :=
  read_env (λ m e, BundleDataMgr.IsModuleRemovable (GetCurrentActiveUserId e) bundleName moduleName m).
Definition SetModuleUpgradeFlag (bundleName moduleName : string) (upgradeFlag : Z) : HM bool :=
  on_service (on_mgr (BundleDataMgr.SetModuleUpgradeFlag bundleName moduleName upgradeFlag)).
Definition GetModuleUpgradeFlag (bundleName moduleName : string) : HM bool :=
  query (λ _ m, negb (BundleDataMgr.GetModuleUpgradeFlag bundleName moduleName m =? 0)).

(** ** Forms, shortcuts and events *)

Definition GetAllFormsInfo : HM (option (list FormInfo)) := query (λ _ m, if_true (BundleDataQuery.GetAllFormsInfo m [])).
Definition GetFormsInfoByApp (bundleName : string) : HM (option (list FormInfo)) :=
  query (λ _ m, if_true (BundleDataQuery.GetFormsInfoByApp bundleName m [])).
Definition GetFormsInfoByModule (bundleName moduleName : string) : HM (option (list FormInfo)) :=
  query (λ _ m, if_true (BundleDataQuery.GetFormsInfoByModule bundleName moduleName m [])).
Definition GetShortcutInfos (bundleName : string) (userId : Z) : HM (option (list ShortcutInfo)) :=
  guarded None (may PERMISSION_GET_BUNDLE_INFO_PRIVILEGED)
    (or_throw (read_env (λ m e, Resources.GetShortcutInfos (ca_uid c) bundleName userId m e))).
Definition GetAllCommonEventInfo (eventKey : string) : HM (option (list CommonEventInfo)) :=
  query (λ _ m, if_true (BundleDataQuery.GetAllCommonEventInfo eventKey m [])).

(** ** Clones *)

Definition RemoveClonedBundle (bundleName : string) (uid : Z) : HM bool :=
  if str_empty bundleName then mret false
  else on_service (Clones.RemoveClonedBundle bundleName (bundleName +:+ "#" +:+ pretty uid)).
Definition BundleClone (bundleName : string) : HM bool :=
  if str_empty bundleName then mret false else on_service (Clones.BundleClone bundleName).
Definition CheckBundleNameInAllowList (bundleName : string) : HM bool :=
  if str_empty bundleName then mret false else read_env (λ _, Clones.CheckBundleNameInAllowList bundleName).

(** ** Extensions *)

Definition not_empty {A} (l : list A) : option (list A) := match l with [] => None | _ => Some l end.

Definition extension_infos (want : Want) (flag userId : Z) : HM (option (list ExtensionAbilityInfo)) :=
  query (λ _ m, if_true (BundleDataQuery.QueryExtensionAbilityInfos regex (ca_uid c) want flag userId m [])).

Definition QueryExtAbilityInfosWithoutType (want : Want) (flag userId : Z) : HM (option (list ExtensionAbilityInfo)) :=
  guarded None (VerifyQueryPermission (want_bundleName want))
    (infos ← extension_infos want flag userId; mret (infos ≫= not_empty)).
Definition QueryExtAbilityInfos (want : Want) (extensionType : ExtensionAbilityType) (flag userId : Z) :
  HM (option (list ExtensionAbilityInfo)) :=
  guarded None (VerifyQueryPermission (want_bundleName want))
    (infos ← extension_infos want flag userId;
     mret (infos ≫= λ l, not_empty (filter (λ info, extensionType = ext_type info) l))).
Definition QueryExtAbilityInfosByType (extensionType : ExtensionAbilityType) (userId : Z) : HM (option (list ExtensionAbilityInfo)) :=
  infos ← query (λ _ m, if_true (QueryExtensionAbilityInfosByType (ca_uid c) extensionType userId m []));
  mret (infos ≫= not_empty).
Definition QueryExtensionAbilityInfoByUri (uri : string) (userId : Z) : HM (option ExtensionAbilityInfo) :=
  query (λ _ m, BundleDataQuery.QueryExtensionAbilityInfoByUri (ca_uid c) uri userId m).

(** The parameter that is not assigned stays as it was made. *)
Definition ImplicitQueryInfoByPriority (want : Want) (flags userId : Z) : HM (option (AbilityInfo * ExtensionAbilityInfo)) :=
  query (λ _ m, (λ r, match r with
                      | inl abilityInfo => (abilityInfo, new_ExtensionAbilityInfo uninit_type)
                      | inr extensionInfo => (new_AbilityInfo uninit, extensionInfo)
                      end) <$> BundleDataQuery.ImplicitQueryInfoByPriority regex (ca_uid c) want flags userId m).

(** ** Other properties of a bundle *)

Definition GetAppPrivilegeLevel (bundleName : string) (userId : Z) : HM string :=
  query (λ _ m, BundleDataQuery.GetAppPrivilegeLevel (ca_uid c) bundleName userId m).
Definition VerifyCallingPermission (permission : string) : HM bool := gets (λ b, may permission (bm_service b)).
Definition GetAccessibleAppCodePaths (userId : Z) : HM (list string) :=
  query (λ _ m, BundleDataQuery.GetAccessibleAppCodePaths userId m).

Definition default_info (bundleName : string) (userId : Z) : HM (option BundleInfo) :=
  query (λ req m, BundleDataQuery.GetBundleInfo req (ca_uid c) bundleName GET_BUNDLE_DEFAULT userId m new_BundleInfo).
Definition GetAppIdByBundleName (bundleName : string) (userId : Z) : HM string :=
  found ← default_info bundleName userId;
  mret (match found with None => "" | Some bundleInfo => bi_appId bundleInfo end).
Definition GetAppType (bundleName : string) : HM string :=
  found ← default_info bundleName UNSPECIFIED_USERID;
  mret (match found with
        | None => ""
        | Some bundleInfo => if app_isSystemApp (bi_applicationInfo bundleInfo) then SYSTEM_APP else THIRD_PARTY_APP
        end).

Definition GetUidByBundleName (bundleName : string) (userId : Z) : HM Z :=
  query (λ req m,
    let '(bundleInfos, ret) := BundleDataQuery.GetBundleInfos req (ca_uid c) GET_BUNDLE_DEFAULT userId m in
    if ret then
      match List.find (λ bundleInfo, bool_decide (bi_name bundleInfo = bundleName)
                                     && Bool.eqb (app_isCloned (bi_applicationInfo bundleInfo)) (userId =? C_UESRID)) bundleInfos with
      | Some bundleInfo => bi_uid bundleInfo
      | None => INVALID_UID
      end
    else INVALID_UID).

Definition GetAllDependentModuleNames (bundleName moduleName : string) : HM (option (list string)) :=
  query (λ _ m, BundleDataQuery.GetAllDependentModuleNames bundleName moduleName m).

Definition GetSandboxBundleInfo (bundleName : string) (appIndex userId : Z) : HM (Z + BundleInfo) :=
  if str_empty bundleName then mret (inl ERR_APPEXECFWK_SANDBOX_INSTALL_PARAM_ERROR)
  else if (appIndex <=? INITIAL_APP_INDEX) || (MAX_APP_INDEX <? appIndex) then mret (inl ERR_APPEXECFWK_SANDBOX_INSTALL_PARAM_ERROR)
  else gets (λ b, let s := bm_service b in
                  GetSandboxAppBundleInfo (GetReqPermissions (sv_tokens s)) bundleName appIndex userId new_BundleInfo (sv_sandbox s)).

Definition GetDistributedBundleInfo (networkId bundleName : string) : HM (option DistributedBundleInfo) :=
  read_env (λ _, QueryStroageDistributeInfo networkId bundleName).

(** ** Dumps *)

Definition DUMP_BUNDLE_LIST : Z := 1.
Definition DUMP_ALL_BUNDLE_INFO : Z := 2.
Definition DUMP_BUNDLE_INFO : Z := 3.
Definition DUMP_SHORTCUT_INFO : Z := 4.

Definition TAB : string := String "009"%char "".
Definition LF : string := String "010"%char "".

(** Every dump gives the text it appends, [None] when it returns false. *)
Definition DumpAllBundleInfoNamesByUserId (userId : Z) : HM (option string) :=
  query (λ _ m,
    let '(bundleNames, ok) := GetBundleList (ca_uid c) userId m in
    if negb ok then None
    else Some ("ID: " +:+ pretty userId +:+ ":" +:+ LF +:+ String.concat "" (map (λ name, TAB +:+ name +:+ LF) bundleNames))).

Fixpoint dump_names (userIds : list Z) : HM string :=
  match userIds with
  | [] => mret ""
  | userId :: userIds =>
      names ← DumpAllBundleInfoNamesByUserId userId;
      rest ← dump_names userIds;
      mret (default "" names +:+ rest)
  end.
Definition DumpAllBundleInfoNames (userId : Z) : HM (option string) :=
  if negb (userId =? ALL_USERID) then DumpAllBundleInfoNamesByUserId userId
  else
    userIds ← query (λ _, GetExistsCommonUserIs);
    result ← dump_names userIds;
    mret (Some result).

Definition bundle_json (info : BundleInfo) (users : list InnerBundleUserInfo) : json :=
  set_key "userInfo" (to_json users) (set_key "hapModuleInfos" (to_json (bi_hapModuleInfos info)) (to_json info)).
Definition dump_bundle (name : string) (info : BundleInfo) (users : list InnerBundleUserInfo) : HM string :=
  match dump_indent (bundle_json info users) with
  | None => throws
  | Some text => mret (name +:+ ":" +:+ LF +:+ text +:+ LF)
  end.

(** The users of a bundle to dump: all of them, or what is known of one. *)
Definition dumped_users (bundleName : string) (userId : Z) : HM (option (list InnerBundleUserInfo)) :=
  if userId =? ALL_USERID then GetBundleUserInfos bundleName
  else user ← GetBundleUserInfo bundleName userId; mret (Some [user.2]).

Fixpoint dump_bundles (userId : Z) (infos : list BundleInfo) : HM (option string) :=
  match infos with
  | [] => mret (Some "")
  | info :: infos =>
      users ← dumped_users (bi_name info) userId;
      match users with
      | None => mret None
      | Some innerBundleUserInfos =>
          text ← dump_bundle (bi_name info) info innerBundleUserInfos;
          rest ← dump_bundles userId infos;
          mret (String.append text <$> rest)
      end
  end.
Definition DumpAllBundleInfos (userId : Z) : HM (option string) :=
  found ← GetBundleInfos (Z.lor GET_BUNDLE_WITH_ABILITIES (Z.lor GET_BUNDLE_WITH_EXTENSION_INFO GET_BUNDLE_WITH_HASH_VALUE)) userId;
  match found with None => mret None | Some bundleInfos => dump_bundles userId bundleInfos end.

(** The user that a dump of one bundle asks for: the first for all users. *)
Definition first_user (userId : Z) (users : list InnerBundleUserInfo) : Z :=
  if userId =? ALL_USERID then match users with u :: _ => user_of u | [] => userId end else userId.

Definition DumpBundleInfo (bundleName : string) (userId : Z) : HM (option string) :=
  users ← dumped_users bundleName userId;
  match users with
  | None => mret None
  | Some innerBundleUserInfos =>
      found ← GetBundleInfo bundleName
                (Z.lor GET_BUNDLE_WITH_ABILITIES (Z.lor GET_BUNDLE_WITH_REQUESTED_PERMISSION
                   (Z.lor GET_BUNDLE_WITH_EXTENSION_INFO GET_BUNDLE_WITH_HASH_VALUE))) (first_user userId innerBundleUserInfos);
      match found with
      | None => mret None
      | Some bundleInfo => text ← dump_bundle bundleName bundleInfo innerBundleUserInfos; mret (Some text)
      end
  end.

Fixpoint dump_shortcuts (infos : list ShortcutInfo) : HM string :=
  match infos with
  | [] => mret ""
  | info :: infos =>
      match dump_indent (to_json info) with
      | None => throws
      | Some text =>
          rest ← dump_shortcuts infos;
          mret (String "034"%char "shortcut" +:+ String "034"%char (":" +:+ LF +:+ text +:+ LF +:+ rest))
      end
  end.
Definition DumpShortcutInfo (bundleName : string) (userId : Z) : HM (option string) :=
  users ← (if userId =? ALL_USERID then GetBundleUserInfos bundleName else mret (Some []));
  match users with
  | None => mret None
  | Some innerBundleUserInfos =>
      found ← GetShortcutInfos bundleName (first_user userId innerBundleUserInfos);
      match found with
      | None => mret None
      | Some shortcutInfos => text ← dump_shortcuts shortcutInfos; mret (Some ("shortcuts:" +:+ LF +:+ text))
      end
  end.

Definition DumpInfos (flag : Z) (bundleName : string) (userId : Z) : HM (option string) :=
  if flag =? DUMP_BUNDLE_LIST then DumpAllBundleInfoNames userId
  else if flag =? DUMP_ALL_BUNDLE_INFO then DumpAllBundleInfos userId
  else if flag =? DUMP_BUNDLE_INFO then DumpBundleInfo bundleName userId
  else if flag =? DUMP_SHORTCUT_INFO then DumpShortcutInfo bundleName userId
  else mret None.

(** ** The interface *)

Definition call {R} (x : Call Z Want PixelMap R) : HM R :=
  match x with
  | BundleMgrIpc.GetApplicationInfo appName flag userId => GetApplicationInfo appName flag userId
  | GetApplicationInfoWithIntFlags appName flags userId => GetApplicationInfo appName flags userId
  | BundleMgrIpc.GetApplicationInfos flag userId => GetApplicationInfos flag userId
  | GetApplicationInfosWithIntFlags flags userId => GetApplicationInfos flags userId
  | BundleMgrIpc.GetBundleInfo bundleName flag userId => GetBundleInfo bundleName flag userId
  | GetBundleInfoWithIntFlags bundleName flags userId => GetBundleInfo bundleName flags userId
  | BundleMgrIpc.GetBundlePackInfo bundleName flag => GetBundlePackInfo bundleName flag
  | GetBundlePackInfoWithIntFlags bundleName flags => GetBundlePackInfo bundleName flags
  | BundleMgrIpc.GetBundleInfos flag userId => GetBundleInfos flag userId
  | GetBundleInfosWithIntFlags flags userId => GetBundleInfos flags userId
  | BundleMgrIpc.GetUidByBundleName bundleName userId => GetUidByBundleName bundleName userId
  | BundleMgrIpc.GetAppIdByBundleName bundleName userId => GetAppIdByBundleName bundleName userId
  | BundleMgrIpc.GetBundleNameForUid uid => GetBundleNameForUid uid
  | BundleMgrIpc.GetBundlesForUid uid => GetBundlesForUid uid
  | BundleMgrIpc.GetNameForUid uid => GetNameForUid uid
  | BundleMgrIpc.GetBundleGids bundleName => GetBundleGids bundleName
  | BundleMgrIpc.GetBundleGidsByUid bundleName uid => GetBundleGidsByUid bundleName uid
  | BundleMgrIpc.GetAppType bundleName => GetAppType bundleName
  | BundleMgrIpc.CheckIsSystemAppByUid uid => CheckIsSystemAppByUid uid
  | BundleMgrIpc.GetBundleInfosByMetaData metaData => GetBundleInfosByMetaData metaData
  | BundleMgrIpc.QueryAbilityInfo want => QueryAbilityInfo want GET_ABILITY_INFO_WITH_APPLICATION UNSPECIFIED_USERID
  | BundleMgrIpc.QueryAbilityInfoWithCallback want flags userId callBack => QueryAbilityInfoWithCallback want flags userId callBack
  | BundleMgrIpc.UpgradeAtomicService want userId => UpgradeAtomicService want userId
  | QueryAbilityInfoMutiparam want flags userId => QueryAbilityInfo want flags userId
  | BundleMgrIpc.QueryAbilityInfos want => QueryAbilityInfos want GET_ABILITY_INFO_WITH_APPLICATION UNSPECIFIED_USERID
  | QueryAbilityInfosMutiparam want flags userId => QueryAbilityInfos want flags userId
  | BundleMgrIpc.QueryAllAbilityInfos want userId => QueryAllAbilityInfos want userId
  | BundleMgrIpc.QueryAbilityInfosForClone want => QueryAbilityInfosForClone want
  | BundleMgrIpc.QueryAbilityInfoByUri abilityUri => QueryAbilityInfoByUri abilityUri UNSPECIFIED_USERID
  | BundleMgrIpc.QueryAbilityInfosByUri abilityUri => QueryAbilityInfosByUri abilityUri
  | QueryAbilityInfoByUriForUserId abilityUri userId => QueryAbilityInfoByUri abilityUri userId
  | BundleMgrIpc.QueryKeepAliveBundleInfos => QueryKeepAliveBundleInfos
  | BundleMgrIpc.GetAbilityLabel bundleName abilityName => GetAbilityLabel bundleName "" abilityName
  | GetAbilityLabelWithModuleName bundleName moduleName abilityName => GetAbilityLabel bundleName moduleName abilityName
  | BundleMgrIpc.GetBundleArchiveInfo hapFilePath flag => GetBundleArchiveInfo hapFilePath flag
  | GetBundleArchiveInfoWithIntFlags hapFilePath flags => GetBundleArchiveInfo hapFilePath flags
  | BundleMgrIpc.GetHapModuleInfo abilityInfo => GetHapModuleInfo abilityInfo UNSPECIFIED_USERID
  | GetHapModuleInfoWithUserId abilityInfo userId => GetHapModuleInfo abilityInfo userId
  | BundleMgrIpc.GetLaunchWantForBundle bundleName => GetLaunchWantForBundle bundleName
  | BundleMgrIpc.CheckPublicKeys firstBundleName secondBundleName => CheckPublicKeys firstBundleName secondBundleName
  | BundleMgrIpc.GetPermissionDef permissionName => GetPermissionDef permissionName
  | BundleMgrIpc.HasSystemCapability _ => mret true
  | GetSystemAvailableCapabilities => mret (Some [])
  | IsSafeMode => mret true
  | BundleMgrIpc.CleanBundleCacheFiles bundleName callback userId => CleanBundleCacheFiles bundleName callback userId
  | BundleMgrIpc.CleanBundleDataFiles bundleName userId => CleanBundleDataFiles bundleName userId
  | BundleMgrIpc.RegisterBundleStatusCallback callback => RegisterBundleStatusCallback callback
  | BundleMgrIpc.ClearBundleStatusCallback callback => ClearBundleStatusCallback callback
  | BundleMgrIpc.UnregisterBundleStatusCallback => UnregisterBundleStatusCallback
  | BundleMgrIpc.DumpInfos flag bundleName userId => DumpInfos flag bundleName userId
  | BundleMgrIpc.IsApplicationEnabled bundleName => IsApplicationEnabled bundleName
  | BundleMgrIpc.IsModuleRemovable bundleName moduleName => IsModuleRemovable bundleName moduleName
  | BundleMgrIpc.SetModuleRemovable bundleName moduleName isEnable => SetModuleRemovable bundleName moduleName isEnable
  | BundleMgrIpc.GetModuleUpgradeFlag bundleName moduleName => GetModuleUpgradeFlag bundleName moduleName
  | BundleMgrIpc.SetModuleUpgradeFlag bundleName moduleName upgradeFlag => SetModuleUpgradeFlag bundleName moduleName upgradeFlag
  | BundleMgrIpc.SetApplicationEnabled bundleName isEnable userId => SetApplicationEnabled bundleName isEnable userId
  | BundleMgrIpc.IsAbilityEnabled abilityInfo => IsAbilityEnabled abilityInfo
  | BundleMgrIpc.SetAbilityEnabled abilityInfo isEnabled userId => SetAbilityEnabled abilityInfo isEnabled userId
  | BundleMgrIpc.GetAbilityInfo bundleName abilityName => GetAbilityInfo bundleName "" abilityName
  | GetAbilityInfoWithModuleName bundleName moduleName abilityName => GetAbilityInfo bundleName moduleName abilityName
  | BundleMgrIpc.GetAbilityPixelMapIcon bundleName abilityName => GetAbilityPixelMapIcon bundleName "" abilityName
  | GetAbilityPixelMapIconWithModuleName bundleName moduleName abilityName => GetAbilityPixelMapIcon bundleName moduleName abilityName
  | GetBundleInstaller => read_env (λ _, installer_object)
  | GetBundleUserMgr => read_env (λ _, user_mgr_object)
  | BundleMgrIpc.GetAllFormsInfo => GetAllFormsInfo
  | BundleMgrIpc.GetFormsInfoByApp bundleName => GetFormsInfoByApp bundleName
  | BundleMgrIpc.GetFormsInfoByModule bundleName moduleName => GetFormsInfoByModule bundleName moduleName
  | BundleMgrIpc.GetShortcutInfos bundleName => GetShortcutInfos bundleName UNSPECIFIED_USERID
  | BundleMgrIpc.GetAllCommonEventInfo eventKey => GetAllCommonEventInfo eventKey
  | BundleMgrIpc.CheckBundleNameInAllowList bundleName => CheckBundleNameInAllowList bundleName
  | BundleMgrIpc.BundleClone bundleName => BundleClone bundleName
  | BundleMgrIpc.RemoveClonedBundle bundleName uid => RemoveClonedBundle bundleName uid
  | BundleMgrIpc.GetDistributedBundleInfo networkId bundleName => GetDistributedBundleInfo networkId bundleName
  | BundleMgrIpc.GetAppPrivilegeLevel bundleName userId => GetAppPrivilegeLevel bundleName userId
  | BundleMgrIpc.QueryExtAbilityInfosWithoutType want flag userId => QueryExtAbilityInfosWithoutType want flag userId
  | BundleMgrIpc.QueryExtAbilityInfos want extensionType flag userId => QueryExtAbilityInfos want extensionType flag userId
  | BundleMgrIpc.QueryExtAbilityInfosByType extensionType userId => QueryExtAbilityInfosByType extensionType userId
  | BundleMgrIpc.VerifyCallingPermission permission => VerifyCallingPermission permission
  | BundleMgrIpc.GetAccessibleAppCodePaths userId => GetAccessibleAppCodePaths userId
  | BundleMgrIpc.QueryExtensionAbilityInfoByUri uri userId => QueryExtensionAbilityInfoByUri uri userId
  | BundleMgrIpc.ImplicitQueryInfoByPriority want flags userId => ImplicitQueryInfoByPriority want flags userId
  | BundleMgrIpc.GetSandboxBundleInfo bundleName appIndex userId => GetSandboxBundleInfo bundleName appIndex userId
  | BundleMgrIpc.GetAllDependentModuleNames bundleName moduleName => GetAllDependentModuleNames bundleName moduleName
  end.
End Impl.

(** * Properties *)

(** ** What a call asks of its caller *)

Inductive Requirement :=
| Anyone
| Holder (permission : string)
| OwnerOrHolder (bundleName : string).

Definition requirement {O PixelMap R} (x : Call O Want PixelMap R) : Requirement :=
  match x with
  | BundleMgrIpc.GetApplicationInfo b _ _ | GetApplicationInfoWithIntFlags b _ _ | BundleMgrIpc.GetBundleInfo b _ _
  | GetBundleInfoWithIntFlags b _ _ | BundleMgrIpc.GetAbilityLabel b _ | GetAbilityLabelWithModuleName b _ _
  | BundleMgrIpc.GetAbilityInfo b _ | GetAbilityInfoWithModuleName b _ _ | BundleMgrIpc.GetAbilityPixelMapIcon b _
  | GetAbilityPixelMapIconWithModuleName b _ _ | BundleMgrIpc.CleanBundleDataFiles b _ => OwnerOrHolder b
  | BundleMgrIpc.QueryAbilityInfo want | QueryAbilityInfoMutiparam want _ _ | BundleMgrIpc.QueryAbilityInfos want
  | QueryAbilityInfosMutiparam want _ _ | BundleMgrIpc.QueryExtAbilityInfosWithoutType want _ _
  | BundleMgrIpc.QueryExtAbilityInfos want _ _ _ => OwnerOrHolder (want_bundleName want)
  | BundleMgrIpc.GetApplicationInfos _ _ | GetApplicationInfosWithIntFlags _ _ | BundleMgrIpc.GetBundleInfos _ _
  | GetBundleInfosWithIntFlags _ _ | BundleMgrIpc.QueryAllAbilityInfos _ _ | BundleMgrIpc.GetLaunchWantForBundle _
  | BundleMgrIpc.GetPermissionDef _ | BundleMgrIpc.GetShortcutInfos _ => Holder PERMISSION_GET_BUNDLE_INFO_PRIVILEGED
  | BundleMgrIpc.SetApplicationEnabled _ _ _ | BundleMgrIpc.SetAbilityEnabled _ _ _ => Holder PERMISSION_CHANGE_ABILITY_ENABLED_STATE
  | BundleMgrIpc.CleanBundleCacheFiles _ _ _ => Holder PERNISSION_REMOVECACHEFILE
  | BundleMgrIpc.RegisterBundleStatusCallback _ | BundleMgrIpc.ClearBundleStatusCallback _
  | BundleMgrIpc.UnregisterBundleStatusCallback => Holder LISTEN_BUNDLE_CHANGE
  | BundleMgrIpc.DumpInfos flag b _ =>
      if (flag =? DUMP_ALL_BUNDLE_INFO) || (flag =? DUMP_SHORTCUT_INFO) then Holder PERMISSION_GET_BUNDLE_INFO_PRIVILEGED
      else if flag =? DUMP_BUNDLE_INFO then OwnerOrHolder b else Anyone
  | _ => Anyone
  end.

(** The calls that change the state of the service, or hand it to other code. *)
Definition is_query {O PixelMap R} (x : Call O Want PixelMap R) : bool :=
  match x with
  | BundleMgrIpc.QueryAbilityInfoWithCallback _ _ _ _ | BundleMgrIpc.UpgradeAtomicService _ _ | BundleMgrIpc.GetBundleArchiveInfo _ _
  | GetBundleArchiveInfoWithIntFlags _ _ | BundleMgrIpc.CleanBundleCacheFiles _ _ _ | BundleMgrIpc.CleanBundleDataFiles _ _
  | BundleMgrIpc.RegisterBundleStatusCallback _ | BundleMgrIpc.ClearBundleStatusCallback _ | BundleMgrIpc.UnregisterBundleStatusCallback
  | BundleMgrIpc.SetModuleRemovable _ _ _ | BundleMgrIpc.SetModuleUpgradeFlag _ _ _ | BundleMgrIpc.SetApplicationEnabled _ _ _
  | BundleMgrIpc.SetAbilityEnabled _ _ _ | BundleMgrIpc.BundleClone _ | BundleMgrIpc.RemoveClonedBundle _ _ => false
  | _ => true
  end.

Section Permissions.
Context {K P T E PixelMap : Type} `{HK : KvStore K} `{HP : TextStore P} `{HX : JsonText} `{HU : Uninit} `{HT : AccessTokenKit T}
  `{HE : Environment E} `{HS : StdSort} `{HJ : BundleStateStorage.Json} `{HF : Files E} `{HA : UninitAbilityType}
  `{HL : HostLibraries E PixelMap}.
Context (c : Caller).
#[local] Abbreviation bundle_mgr := (BundleMgr K P T E).
Implicit Types (b : bundle_mgr).

Definition allowed (req : Requirement) (s : Service.Service K P T E) : bool :=
  match req with
  | Anyone => true
  | Holder permission => may c permission s
  | OwnerOrHolder bundleName => VerifyQueryPermission c bundleName s
  end.

(** Other services were told something, nothing else has changed. *)
Definition told (ns : list Notice) b : bundle_mgr := b <| bm_service ::= λ s, s <| sv_env ::= λ e, foldl (λ e n, tell n e) e ns |> |>.

(** [m] refuses: it answers [r] and tells at most one report. *)
Definition refuses {A} (m : On bundle_mgr A) (r : A) b : Prop := ∃ ns, m b = (Ok r, told ns b) ∧ (length ns <= 1)%nat.

Lemma told_nothing b : told [] b = b.
Proof. by destruct b as [[] ?]. Qed.
Lemma refuses_ret {A} (r : A) b : refuses (mret r) r b.
Proof. exists []. rewrite told_nothing. split; [done|simpl; lia]. Qed.
Lemma refuses_guarded {A} (r : A) guard m b : guard (bm_service b) = false → refuses (guarded r guard m) r b.
Proof. intros Hg. exists []. rewrite told_nothing. unfold guarded. rewrite Hg. split; [done|simpl; lia]. Qed.
Lemma refuses_report (r : bool) n b : refuses (on_service (tells n) ;; mret r) r b.
Proof. exists [n]. split; [|simpl; lia]. by destruct b as [[] ?]. Qed.

(** [m] only looks at the state. *)
Definition pure {A} (m : On bundle_mgr A) : Prop := ∀ b, (m b).2 = b.

Lemma pure_ret {A} (x : A) : pure (mret x).
Proof. done. Qed.
Lemma pure_throws {A} : pure (throws : On bundle_mgr A).
Proof. done. Qed.
Lemma pure_gets {A} (f : bundle_mgr → A) : pure (gets f).
Proof. done. Qed.
Lemma pure_bind {A B} (m : On bundle_mgr A) (k : A → On bundle_mgr B) : pure m → (∀ x, pure (k x)) → pure (m ≫= k).
Proof.
  intros Hm Hk b. unfold mbind, On_bind. specialize (Hm b). destruct (m b) as [[x| |] b'] eqn:Hmb; simpl in Hm; subst; [apply Hk|done..].
Qed.
Lemma pure_guarded {A} (r : A) guard m : pure m → pure (guarded r guard m).
Proof. intros Hm b. unfold guarded. destruct (guard _); [apply Hm|done]. Qed.
Lemma pure_or_throw {A} (m : On bundle_mgr (option A)) : pure m → pure (or_throw m).
Proof. intros Hm. apply pure_bind; [done|]. intros [x|]; done. Qed.
End Permissions.

Create HintDb pure discriminated.
#[export] Hint Resolve pure_ret pure_throws pure_gets pure_bind pure_guarded pure_or_throw : pure.
#[export] Hint Extern 1 (pure (query _)) => exact (pure_gets _) : pure.
#[export] Hint Extern 1 (pure (read_env _)) => exact (pure_gets _) : pure.
#[export] Hint Extern 2 (pure (match ?x with _ => _ end)) => destruct x : pure.

Section Calls.
Context {K P T E PixelMap : Type} `{HK : KvStore K} `{HP : TextStore P} `{HX : JsonText} `{HU : Uninit} `{HT : AccessTokenKit T}
  `{HE : Environment E} `{HS : StdSort} `{HJ : BundleStateStorage.Json} `{HF : Files E} `{HA : UninitAbilityType}
  `{HL : HostLibraries E PixelMap}.
Context (c : Caller).
#[local] Abbreviation bundle_mgr := (BundleMgr K P T E).
Implicit Types (b : bundle_mgr).

(** *** Queries *)

Lemma pure_dump_names userIds : pure (K := K) (P := P) (T := T) (E := E) (dump_names c userIds).
Proof. induction userIds; simpl; unfold DumpAllBundleInfoNamesByUserId; eauto 6 with pure. Qed.
Lemma pure_dumped_users name userId : pure (K := K) (P := P) (T := T) (E := E) (dumped_users c name userId).
Proof. unfold dumped_users, GetBundleUserInfos, GetBundleUserInfo. eauto 6 with pure. Qed.
Lemma pure_dump_bundle n i u : pure (K := K) (P := P) (T := T) (E := E) (dump_bundle n i u).
Proof. unfold dump_bundle. eauto with pure. Qed.
#[local] Hint Resolve pure_dump_names pure_dumped_users pure_dump_bundle : pure.
Lemma pure_dump_bundles userId infos : pure (K := K) (P := P) (T := T) (E := E) (dump_bundles c userId infos).
Proof.
  induction infos as [|info infos IH]; simpl; [done|]. apply pure_bind; [auto with pure|]. intros [users|]; eauto 8 with pure.
Qed.
Lemma pure_dump_shortcuts infos : pure (K := K) (P := P) (T := T) (E := E) (dump_shortcuts infos).
Proof. induction infos; simpl; [done|]. destruct (dump_indent _); eauto with pure. Qed.
#[local] Hint Resolve pure_dump_bundles pure_dump_shortcuts : pure.

#[local] Ltac look_only := repeat first [solve [eauto 4 with pure] | apply pure_guarded | apply pure_or_throw | apply pure_bind; [|intros ?] | case_match].

Lemma pure_dump flag name userId : pure (K := K) (P := P) (T := T) (E := E) (DumpInfos c flag name userId).
Proof.
  unfold DumpInfos, DumpAllBundleInfoNames, DumpAllBundleInfoNamesByUserId, DumpAllBundleInfos, DumpBundleInfo, DumpShortcutInfo,
    GetBundleInfos, GetBundleInfo, GetShortcutInfos, GetBundleUserInfos.
  look_only.
Qed.

#[local] Ltac head t := lazymatch t with ?f _ => head f | _ => t end.
#[local] Ltac unfold_call := cbn [call];
  lazymatch goal with
  | |- pure ?t => let f := head t in unfold f
  | |- refuses ?t _ _ => let f := head t in unfold f
  end.

(** A query - every call but those that set something, clean, register,
    clone, read a file or go to the free install connection - leaves the whole
    service, with its environment and its posted tasks, exactly as it was. *)
Lemma queries_change_nothing {R} (x : Call Z Want PixelMap R) b : is_query x = true → (call c x b).2 = b.
Proof.
  intros Hq. assert (pure (K := K) (P := P) (T := T) (E := E) (call c x)) as Hp; [|apply Hp]. clear b.
  destruct x; cbn [is_query] in Hq; try discriminate Hq.
  all: try (cbn [call]; first [apply pure_dump | apply pure_ret]).
  all: unfold_call; unfold extension_infos, default_info, QueryAbilityInfo; look_only.
Qed.

(** *** Refusals *)


Lemma refuses_bind {A B} (m : On bundle_mgr A) (k : A → On bundle_mgr B) (r : B) b :
  pure m → (∀ x, (m b).1 = Ok x → refuses (k x) r b) → (∃ x, (m b).1 = Ok x) → refuses (m ≫= k) r b.
Proof.
  intros Hp Hk [x Hx]. specialize (Hk x Hx). specialize (Hp b). unfold refuses in *. unfold mbind, On_bind.
  destruct (m b) as [res b']. simpl in *. by subst.
Qed.
(** Reading the state first. *)
Lemma refuses_gets {A B} (f : bundle_mgr → A) (k : A → On bundle_mgr B) (r : B) b : refuses (k (f b)) r b → refuses (gets f ≫= k) r b.
Proof. done. Qed.
(** After a call that refuses without a report. *)
Lemma refuses_guarded_bind {A B} (q : A) guard m (k : A → On bundle_mgr B) (r : B) b :
  guard (bm_service b) = false → refuses (k q) r b → refuses (guarded q guard m ≫= k) r b.
Proof. intros Hg Hk. unfold refuses, mbind, On_bind, guarded in *. by rewrite Hg. Qed.

Lemma dumped_users_ok name userId b : ∃ r, (dumped_users (K := K) (P := P) (T := T) (E := E) c name userId b).1 = Ok r.
Proof. unfold dumped_users. destruct (userId =? ALL_USERID); by eexists. Qed.

Lemma refuses_dump_bundle name userId b :
  VerifyQueryPermission c name (bm_service b) = false → refuses (DumpBundleInfo c name userId) None b.
Proof.
  intros Hv. apply refuses_bind; [apply pure_dumped_users| |apply dumped_users_ok]. intros [users|] _; [|apply refuses_ret].
  apply refuses_guarded_bind; [done|apply refuses_ret].
Qed.

Lemma refuses_dump_shortcuts name userId b :
  may c PERMISSION_GET_BUNDLE_INFO_PRIVILEGED (bm_service b) = false → refuses (DumpShortcutInfo c name userId) None b.
Proof.
  intros Hv. unfold DumpShortcutInfo. apply refuses_bind; [destruct (userId =? ALL_USERID); done| |destruct (userId =? ALL_USERID); by eexists].
  intros [users|] _; [|apply refuses_ret]. apply refuses_guarded_bind; [done|apply refuses_ret].
Qed.

Lemma refuses_dump flag name userId b :
  allowed c (requirement (O := Z) (PixelMap := PixelMap) (BundleMgrIpc.DumpInfos flag name userId)) (bm_service b) = false →
  refuses (DumpInfos c flag name userId) None b.
Proof.
  cbn [requirement]. unfold DumpInfos. destruct (Z.eqb_spec flag DUMP_BUNDLE_LIST) as [->|]; [done|].
  destruct (Z.eqb_spec flag DUMP_ALL_BUNDLE_INFO) as [->|]; simpl.
  { intros Hm. apply refuses_guarded_bind; [done|apply refuses_ret]. }
  destruct (Z.eqb_spec flag DUMP_SHORTCUT_INFO) as [->|]; simpl; [apply refuses_dump_shortcuts|].
  destruct (flag =? DUMP_BUNDLE_INFO); [apply refuses_dump_bundle|done].
Qed.

Lemma refuses_cache name callback userId b :
  may c PERNISSION_REMOVECACHEFILE (bm_service b) = false → refuses (CleanBundleCacheFiles c name callback userId) false b.
Proof.
  intros Hm. unfold CleanBundleCacheFiles. destruct (_ <? 0); [apply refuses_report|]. destruct callback as [callback|]; [|apply refuses_report].
  destruct (str_empty name); [apply refuses_report|]. apply refuses_gets. rewrite Hm. apply refuses_report.
Qed.

Lemma refuses_data name userId b :
  VerifyQueryPermission c name (bm_service b) = false → refuses (CleanBundleDataFiles c name userId) false b.
Proof.
  intros Hv. unfold CleanBundleDataFiles. destruct (_ || _); [apply refuses_report|].
  apply refuses_guarded_bind; [done|apply refuses_report].
Qed.

Lemma refuses_set_enabled name abilityName isEnable userId change b :
  may c PERMISSION_CHANGE_ABILITY_ENABLED_STATE (bm_service b) = false → refuses (set_enabled c name abilityName isEnable userId change) false b.
Proof. intros Hm. apply refuses_gets. rewrite Hm. apply refuses_report. Qed.

(** C40: a call whose caller has not what the call asks for - the permission, or
    for some the permission or being the bundle itself - is refused: it answers
    false, nothing or an empty text whatever its other parameters are, and
    changes nothing, but that one report may be sent. *)
Theorem call_refused {R} (x : Call Z Want PixelMap R) b :
  allowed c (requirement x) (bm_service b) = false →
  ∃ ns, call c x b = (Ok (refusal x), told ns b) ∧ (length ns <= 1)%nat.
Proof.
  intros Ha. enough (refuses (call c x) (refusal x) b) as H by exact H.
  destruct x; cbn [requirement allowed] in Ha; try discriminate Ha; cbn [call refusal].
  all: try (apply refuses_guarded; exact Ha).
  - by apply refuses_cache.
  - by apply refuses_data.
  - destruct bundleStatusCallback as [[object name]|]; [|apply refuses_ret]. simpl. destruct (str_empty name); [apply refuses_ret|by apply refuses_guarded].
  - destruct bundleStatusCallback as [object|]; [by apply refuses_guarded|apply refuses_ret].
  - by apply refuses_dump.
  - by apply refuses_set_enabled.
  - by apply refuses_set_enabled.
Qed.
End Calls.

(** ** Examples *)

Section Demo.
#[local] Existing Instances closed_store bits_json null_text no_values.
#[local] Instance demo_ability_type : UninitAbilityType := AbilityType_PAGE.

(** No file can be read; a native process may do anything. *)
#[local] Instance no_files : Files device := {|
  PathToRealPath _ _ := None;
  FileAccess _ _ := false;
  CheckFileSize _ _ _ := true;
  ReadFile _ _ := None;
  AddResource _ _ := false;
  GetProfileByName _ _ _ := None;
  GetStringById _ _ _ := None;
  GetMediaById _ _ _ := None;
  GetDiskUsage _ _ := 0;
  LowerStr s := s;
  dump_indent _ := None;
|}.
#[local] Instance no_libraries : HostLibraries device string := {|
  GetBundleCachePath _ := mret [];
  CleanBundleDataDir _ := mret ();
  LoadImageFile _ _ := None;
  ConnectQueryAbilityInfo _ _ _ _ e := (e, None);
  ConnectUpgradeAtomicService _ _ e := e;
  QueryStroageDistributeInfo _ _ _ := None;
  GetCurrentActiveUserId _ := 100;
  installer_object _ := Some 1;
  user_mgr_object _ := Some 2;
  regex _ := None;
|}.
(** The token service of this section denies everything. *)
#[local] Instance denying_kit : AccessTokenKit (list (Z * string) * option HapPolicyParams) := {|
  AllocHapToken := AllocHapToken; UpdateHapToken := UpdateHapToken; DeleteToken := DeleteToken;
  KitGrantPermission := KitGrantPermission; KitClearUserGrantedPermissionState := KitClearUserGrantedPermissionState;
  GetDefPermission := GetDefPermission; GetDefPermissions := GetDefPermissions; GetReqPermissions := GetReqPermissions;
  IsNativeToken _ _ := false; GetHapTokenID := GetHapTokenID; VerifyAccessToken _ _ _ := PERMISSION_DENIED;
  apl_value := apl_value; grantMode_value := grantMode_value;
|}.

Abbreviation demo_bundle_mgr := (BundleMgr (stdmap string InnerBundleInfo) () (list (Z * string) * option HapPolicyParams) device).
Definition demo_mgr : demo_bundle_mgr := mkBundleMgr _ _ _ _ (rn_service demo_newer) [].
Definition stranger : Caller := mkCaller 7 (100 * 200000 + 10077).
Definition disable_demo : Call Z Want string bool := BundleMgrIpc.SetApplicationEnabled "com.demo" false 100.

Lemma call_refused_witness :
  ∃ ns, call stranger disable_demo demo_mgr = (Ok false, told ns demo_mgr) ∧ (length ns <= 1)%nat.
Proof. apply (call_refused stranger disable_demo demo_mgr). vm_compute. reflexivity. Defined.

Definition ask_enabled : Call Z Want string bool := BundleMgrIpc.IsApplicationEnabled "com.demo".
Lemma queries_change_nothing_witness : (call stranger ask_enabled demo_mgr).2 = demo_mgr.
Proof. apply (queries_change_nothing stranger ask_enabled demo_mgr). reflexivity. Defined.
End Demo.
