(* ===== verification/BundleRecovery.v ===== *)
(** * BundleRecovery: what a restart makes of the stored bundles

    Models the loading of the bundles when the service starts:
    services/bundlemgr/src/bundle_data_storage_database.cpp (LoadAllData and
    what it calls), bundle_exception_handler.cpp,
    sandbox_app/bundle_sandbox_exception_handler.cpp,
    BundleStateStorage::HasBundleUserInfoJsonDb and
    BundleDataMgr::LoadDataFromPersistentStorage.

    The text of a stored value, installd and the start of a thread are
    arguments.  Loading works on the store, on installd's file system and on
    the thread's [ProfileReader::parseResult]. *)

From stdpp Require Import strings gmap.
From S2P Require Import Prelude Strings StdMap BundleTypes Errors Json InfoJson PackJson Skill InnerBundleInfo InstallInfo BundleJson BundleStateStorage BundleDataMgr.

Open Scope string_scope.
Open Scope list_scope.
Open Scope Z_scope.

(** ** The services it calls *)

(** The values of the store: [to_text] is [dump], which needs strings in
    UTF-8, and [parse_text] is [nlohmann::json::parse] without exceptions,
    [None] being a discarded value. *)
Class KvTexts (K V : Type) `{KvStore K} := {
  to_text : json → V;
  parse_text : V → option json;
  printable : json → Prop;
  parse_to_text j : printable j → parse_text (to_text j) = Some j;
  kv_GetEntries : K → K * Status * list (string * V);
}.

(** installd, with the file system [D]; [true] is ERR_OK. *)
Class Installd (D : Type) := {
  RemoveDir : string → D → D * bool;
  RemoveModuleDataDir : string → Z → D → D * bool;
  RemoveBundleDataDir : string → Z → D → D * bool;
  RenameModuleDir : string → string → D → D * bool;
}.

(** A detached thread that removes sandboxes. *)
Definition SandboxThread : Type := string * list SandboxAppPersistentInfo.

Record Loading {K D : Type} := mkLoading {
  ld_store : K;
  ld_disk : D;
  ld_threads : list SandboxThread;
  ld_parseResult : Z;
}.
Arguments Loading K D : clear implicits.

#[export] Instance eta_Loading K D : Eta (Loading K D) := λ r,
  mkLoading K D (ld_store r) (ld_disk r) (ld_threads r) (ld_parseResult r).

Section Recovery.
Context {K V D : Type} `{HK : KvStore K} `{HT : !KvTexts K V} `{HD : Installd D} `{HU : Uninit}.
#[local] Abbreviation loading := (Loading K D).
Implicit Types (l : loading) (info : InnerBundleInfo).

Definition ToString (info : InnerBundleInfo) : V := to_text (InnerBundleInfo_ToJson info JNull).

(** ** BundleExceptionHandler *)

Definition RemoveBundleAndDataDir (bundleDir bundleOrMoudleDir : string) (userId : Z) (d : D) : D * bool :=
  let '(d, ok) := RemoveDir bundleDir d in
  if negb ok then (d, false)
  else
    let '(d, ok) :=
      if str_contains HAPS bundleOrMoudleDir then RemoveModuleDataDir bundleOrMoudleDir userId d
      else RemoveBundleDataDir bundleOrMoudleDir userId d in
    (d, ok).

Definition DeleteBundleInfoFromStorage info l : loading :=
  l <| ld_store ::= λ k, (DeleteStorageBundleInfo info k).1 |>.

(** Runs a call of installd. *)
Definition on_disk (f : D → D * bool) l : loading * bool :=
  let '(d, ok) := f (ld_disk l) in (l <| ld_disk := d |>, ok).

(** The bundle afterwards, and whether it is still valid. *)
Definition HandleInvalidBundle info l : loading * InnerBundleInfo * bool :=
  let mark := ib_mark info in
  let finish info := SetInstallMark (mark_bundleName mark) (mark_packageName mark) INSTALL_FINISH info in
  if mark_status mark =? INSTALL_FINISH then (l, info, true)
  else
    let appCodePath := BUNDLE_CODE_DIR +:+ GetBundleName info in
    let moduleDir := appCodePath +:+ "/" +:+ mark_packageName mark in
    let moduleDataDir := GetBundleName info +:+ HAPS +:+ mark_packageName mark in
    let remove_bundle := on_disk (RemoveBundleAndDataDir appCodePath (GetBundleName info) (ib_userId info)) in
    let remove_module := on_disk (RemoveBundleAndDataDir moduleDir moduleDataDir (ib_userId info)) in
    if mark_status mark =? INSTALL_START_MARK then
      let '(l, ok) := remove_bundle l in
      if ok then (DeleteBundleInfoFromStorage info l, info, false) else (l, info, true)
    else if mark_status mark =? UPDATING_EXISTED_START then
      let '(l, ok) := on_disk (RemoveDir (moduleDir +:+ TMP_SUFFIX)) l in
      if ok then (l, SetBundleStatus BundleStatus_ENABLED (finish info), true) else (l, info, true)
    else if mark_status mark =? UPDATING_NEW_START then
      let '(l, ok) := remove_module l in
      if ok then (l, SetBundleStatus BundleStatus_ENABLED (finish info), true) else (l, info, true)
    else if mark_status mark =? UNINSTALL_BUNDLE_START then
      let '(l, ok) := remove_bundle l in
      if ok then (DeleteBundleInfoFromStorage info l, info, false) else (l, info, true)
    else if mark_status mark =? UNINSTALL_PACKAGE_START then
      let '(l, removed) := if IsOnlyModule (mark_packageName mark) info then remove_bundle l else (l, false) in
      if removed then (DeleteBundleInfoFromStorage info l, info, false)
      else
        let '(l, ok) := remove_module l in
        if ok then (l, SetBundleStatus BundleStatus_ENABLED (finish (InnerBundleInfo.RemoveModuleInfo (mark_packageName mark) info)), true)
        else (l, info, true)
    else if mark_status mark =? UPDATING_FINISH then
      let '(l, ok) := on_disk (RenameModuleDir (moduleDir +:+ TMP_SUFFIX) moduleDir) l in
      if ok then (l, finish info, true) else (l, info, true)
    else (l, info, true).

(** ** BundleSandboxExceptionHandler *)

Definition RemoveSandboxApp info l : loading * InnerBundleInfo :=
  match ib_sandboxPersistentInfo info with
  | [] => (l, info)
  | sandboxPersistentInfo =>
      let bundleName := GetBundleName info in
      let info := ClearSandboxPersistentInfo info in
      (l <| ld_store ::= λ k, (SaveStorageBundleInfo info k).1 |>
         <| ld_threads ::= λ t, t ++ [(bundleName, sandboxPersistentInfo)] |>, info)
  end.

(** The body of the thread: the tokens it deletes and the directories it
    asks installd to remove, whatever these answer. *)
Definition RemoveSandboxDataDirAndTokenId (t : SandboxThread) (d : D) : D * list Z :=
  foldl (λ '(d, tokens) sandboxInfo,
    if sap_appIndex sandboxInfo <=? 0 then (d, tokens)
    else
      let innerBundleName := t.1 +:+ "_" +:+ pretty (sap_appIndex sandboxInfo) in
      ((RemoveBundleDataDir innerBundleName (sap_userId sandboxInfo) d).1, tokens ++ [sap_accessTokenId sandboxInfo]))
    (d, []) t.2.

(** ** BundleDataStorageDatabase *)

Definition kv_erase (key : string) l : loading := l <| ld_store ::= λ k, (kv_Delete key k).1 |>.

(** FromJson into a new bundle, on the thread's parseResult. *)
Definition parse_bundle (j : json) l : option (loading * InnerBundleInfo * Z) :=
  match InnerBundleInfo_FromJson j new_InnerBundleInfo (mkParseState (ld_parseResult l) ERR_OK) with
  | None => None
  | Some ((info, ret), s) => Some (l <| ld_parseResult := profile s |>, info, ret)
  end.

(** One entry; [infos] and [updateInfos] are the maps it fills. *)
Definition load_entry (infos updateInfos : stdmap string InnerBundleInfo) (item : string * V) l :
  option (loading * stdmap string InnerBundleInfo * stdmap string InnerBundleInfo) :=
  match parse_text item.2 with
  | None => Some (kv_erase item.1 l, infos, updateInfos)
  | Some jsonObject =>
      match parse_bundle jsonObject l with
      | None => None
      | Some (l, info, ret) =>
          if negb (ret =? ERR_OK) then Some (kv_erase item.1 l, infos, updateInfos)
          else
            let '(l, info, isBundleValid) := HandleInvalidBundle info l in
            let '(l, info) := RemoveSandboxApp info l in
            if negb isBundleValid then Some (l, infos, updateInfos)
            else
              Some (l, emplace (GetBundleName info) info infos,
                    if decide (item.1 = GetBundleName info) then updateInfos else emplace item.1 info updateInfos)
      end
  end.

Fixpoint load_entries (infos updateInfos : stdmap string InnerBundleInfo) (allEntries : list (string * V)) l :
  option (loading * stdmap string InnerBundleInfo * stdmap string InnerBundleInfo) :=
  match allEntries with
  | [] => Some (l, infos, updateInfos)
  | item :: allEntries =>
      match load_entry infos updateInfos item l with
      | None => None
      | Some (l, infos, updateInfos) => load_entries infos updateInfos allEntries l
      end
  end.

Definition DeleteOldBundleInfo (oldKey : string) (k : K) : K :=
  let '(k, ready) := kv_Check k in
  if negb ready then k
  else
    let '(k, status) := kv_Delete oldKey k in
    if decide (status = IPC_ERROR) then (kv_Delete oldKey k).1 else k.

Definition UpdateDataBase (infos : stdmap string InnerBundleInfo) (k : K) : K :=
  foldl (λ k item,
    let '(k, ok) := SaveStorageBundleInfo item.2 k in
    if ok then DeleteOldBundleInfo item.1 k else k) k (elems infos).

Definition SaveEntries (allEntries : list (string * V)) (infos : stdmap string InnerBundleInfo) l :
  option (loading * stdmap string InnerBundleInfo) :=
  match load_entries infos ∅ allEntries l with
  | None => None
  | Some (l, infos, updateInfos) =>
      Some (if sm_is_empty updateInfos then l else l <| ld_store ::= UpdateDataBase updateInfos |>, infos)
  end.

Definition LoadAllData (infos : stdmap string InnerBundleInfo) l :
  option (loading * stdmap string InnerBundleInfo * bool) :=
  let '(k, ready) := kv_Check (ld_store l) in
  if negb ready then Some (l <| ld_store := k |>, infos, false)
  else
    let '(k, status, allEntries) := kv_GetEntries k in
    let '(k, status, allEntries) :=
      if decide (status = IPC_ERROR) then kv_GetEntries k else (k, status, allEntries) in
    let l := l <| ld_store := k |> in
    if decide (status = SUCCESS) then
      match SaveEntries allEntries infos l with
      | None => None
      | Some (l, infos) => Some (l, infos, true)
      end
    else Some (l, infos, false).

(** ** BundleStateStorage and BundleDataMgr *)

(** Whether the state file is there; if not, it is made, when installd and
    the file system let it ([created]). *)
Definition HasBundleUserInfoJsonDb (created : bool) (file : option string) : option string * bool :=
  match file with
  | Some _ => (file, true)
  | None => (if created then Some "" else None, false)
  end.

Context `{HJ : BundleStateStorage.Json} (SplitStr : string → string → list string).
#[local] Abbreviation mgr := (BundleDataMgr K).
Implicit Types (m : mgr).

(** [None] when parsing the state file throws. *)
Definition CompatibleOldBundleStateInKvDb (m : mgr) : option mgr :=
  foldl (λ file p,
    match file with
    | None => None
    | Some m =>
        if IsInitialState (ibu_bundleUserInfo p.2) then Some m
        else match SaveBundleStateStorage p.1 (user_of p.2) (ibu_bundleUserInfo p.2) (dm_stateFile m) with
             | None => None
             | Some (file, _) => Some (m <| dm_stateFile := file |>)
             end
    end)
    (Some m)
    (concat (map (λ item : string * InnerBundleInfo,
       map (λ u, (item.1, u)) (sm_vals (ib_innerBundleUserInfos item.2))) (elems (dm_bundleInfos m)))).

(** The state of one user of a bundle put into the bundle. *)
Definition put_user_state (bundleName : string) (userId : Z) (state : BundleUserInfo) info : InnerBundleInfo :=
  foldl (λ info disabledAbility, (InnerBundleInfo.SetAbilityEnabled bundleName "" disabledAbility false userId info).1)
    (InnerBundleInfo.SetApplicationEnabled (bu_enabled state) userId info) (bu_disabledAbilities state).

Definition LoadAllBundleStateDataFromJsonDb m : mgr :=
  let '(bundleStateInfos, ok) := LoadAllBundleStateData SplitStr (dm_stateFile m) ∅ in
  if negb ok || sm_is_empty bundleStateInfos then m
  else foldl (λ m bundleState,
         match dm_bundleInfos m !! bundleState.1 with
         | None => m
         | Some info =>
             m <| dm_bundleInfos ::= insert bundleState.1
                    (foldl (λ info s, put_user_state bundleState.1 s.1 s.2 info) info (elems bundleState.2)) |>
         end) m (elems bundleStateInfos).

Definition ResetBundleStateData m : mgr :=
  m <| dm_bundleInfos ::= map_values (λ _ info, ResetBundleState ALL_USERID info) |>.

(** The manager's maps are empty when the service starts it. *)
Definition LoadDataFromPersistentStorage (created : bool) m l : option (loading * mgr * bool) :=
  let '(file, bundleStateDbExist) := HasBundleUserInfoJsonDb created (dm_stateFile m) in
  let m := m <| dm_stateFile := file |> in
  match LoadAllData (dm_bundleInfos m) (l <| ld_store := dm_dataStorage m |>) with
  | None => None
  | Some (l, infos, ok) =>
      let m := m <| dm_bundleInfos := infos |> <| dm_dataStorage := ld_store l |> in
      if negb ok then Some (l, m, false)
      else if sm_is_empty infos then Some (l, m, false)
      else
        let m := m <| dm_installStates ::= λ s,
                   foldl (λ s item, emplace item.1 INSTALL_SUCCESS s) s (elems (dm_bundleInfos m)) |> in
        let m := RestoreUidAndGid m in
        if bundleStateDbExist then Some (l, LoadAllBundleStateDataFromJsonDb (ResetBundleStateData m), true)
        else match CompatibleOldBundleStateInKvDb m with
             | None => None
             | Some m => Some (l, m, true)
             end
  end.
End Recovery.

(** * A restart keeps the bundles *)

Section Restart.
Context {K V D : Type} `{HK : KvStore K} `{HT : !KvTexts K V} `{HD : Installd D} `{HU : Uninit}.
Context `{HJ : BundleStateStorage.Json} (SplitStr : string → string → list string).
#[local] Abbreviation loading := (Loading K D).
#[local] Abbreviation mgr := (BundleDataMgr K).
Implicit Types (l : loading) (m : mgr) (i : InnerBundleInfo) (u : InnerBundleUserInfo).

(** A bundle that no operation is under way for, as the store keeps it. *)
Definition settled (b : string) i : Prop :=
  GetBundleName i = b ∧ InnerBundleInfo_ok i ∧ printable (InnerBundleInfo_ToJson i JNull)
  ∧ mark_status (ib_mark i) = INSTALL_FINISH ∧ ib_sandboxPersistentInfo i = [].

(** The store is there and gives the text of every bundle it was given. *)
Definition answers (k k' : K) : Prop :=
  ∃ k1, kv_Check k = (k1, true)
    ∧ kv_GetEntries k1 = (k', SUCCESS, map (λ p, (p.1, ToString p.2)) (elems (kv_entries k)))
    ∧ kv_entries k' = kv_entries k.

Lemma load_valid infos upd b t j i l l' :
  parse_text t = Some j → parse_bundle j l = Some (l', i, ERR_OK) →
  GetBundleName i = b → mark_status (ib_mark i) = INSTALL_FINISH → ib_sandboxPersistentInfo i = [] →
  load_entry infos upd (b, t) l = Some (l', emplace b i infos, upd).
Proof.
  intros Ht Hj Hname Hmark Hsandbox. unfold load_entry. cbn [fst snd]. rewrite Ht, Hj. cbn [Z.eqb negb ERR_OK].
  unfold HandleInvalidBundle. rewrite Hmark. cbn [Z.eqb INSTALL_FINISH].
  unfold RemoveSandboxApp. simpl. rewrite Hsandbox, Hname. by rewrite decide_True.
Qed.

Lemma load_settled infos upd b i l :
  settled b i → ld_parseResult l = ERR_OK →
  load_entry infos upd (b, ToString i) l = Some (l, emplace b (stored i) infos, upd).
Proof.
  intros (Hname & Hok & Hprint & Hmark & Hsandbox) Hl.
  apply (load_valid _ _ _ _ (InnerBundleInfo_ToJson i JNull)); try done; [by apply parse_to_text|].
  unfold parse_bundle. rewrite Hl, InnerBundleInfo_reads by done. destruct l. simpl in *. by subst.
Qed.

Lemma load_all_settled (es : list (string * InnerBundleInfo)) infos l :
  (∀ b i, (b, i) ∈ es → settled b i) → ld_parseResult l = ERR_OK →
  load_entries infos ∅ (map (λ p, (p.1, ToString p.2)) es) l
  = Some (l, foldl (λ r p, emplace p.1 p.2 r) infos (map (λ p, (p.1, stored p.2)) es), ∅).
Proof.
  intros Hes Hl. revert infos. induction es as [|[b i] es IH]; intros infos; [done|].
  cbn [map load_entries fst snd]. rewrite load_settled by (try apply Hes; try left; done).
  apply IH. intros c j Hin. apply Hes. by right.
Qed.

Lemma LoadAllData_settled l k' :
  answers (ld_store l) k' → sm_wf (kv_entries (ld_store l)) → ld_parseResult l = ERR_OK →
  (∀ b i, kv_entries (ld_store l) !! b = Some i → settled b i) →
  LoadAllData ∅ l = Some (l <| ld_store := k' |>, map_values (λ _, stored) (kv_entries (ld_store l)), true).
Proof.
  intros (k1 & Hcheck & Hget & Hsame) Hwf Hl Hset. unfold LoadAllData. rewrite Hcheck. simpl. rewrite Hget. simpl.
  unfold SaveEntries. rewrite load_all_settled; [|intros b i Hin; apply Hset, sm_elem_lookup; done|done].
  simpl. do 3 f_equal. apply (sm_emplaces_id (map_values (λ _, stored) (kv_entries (ld_store l)))). auto with cpp.
Qed.

(** What a restart must keep of a user's copy. *)
Definition id_card u := (user_of u, ibu_uid u, ibu_gids u, ibu_accessTokenId u, ibu_bundleName u).

(** Two states of a bundle with the same name and users. *)
Definition same_users i j : Prop :=
  GetBundleName i = GetBundleName j
  ∧ ∀ key, id_card <$> (ib_innerBundleUserInfos i !! key) = id_card <$> (ib_innerBundleUserInfos j !! key).

Lemma same_users_trans i j k : same_users i j → same_users j k → same_users i k.
Proof. intros [H1 H2] [H3 H4]. split; [congruence|]. intros key. by rewrite H2. Qed.

Lemma same_users_on_user v f i : (∀ u, id_card (f u) = id_card u) → same_users i (on_user v f i).
Proof.
  intros Hf. unfold on_user. destruct (_ !! user_key v i) as [u|] eqn:E; [|done]. split; [done|]. intros key. simpl.
  rewrite sm_lookup_insert. case_decide as Hk; [|done]. rewrite <- Hk, E. simpl. by rewrite Hf.
Qed.

Lemma same_users_reset v i : same_users i (ResetBundleState v i).
Proof.
  unfold ResetBundleState. case_match; [|by apply same_users_on_user]. split; [done|]. intros key. simpl.
  rewrite sm_lookup_map_values. by destruct (ib_innerBundleUserInfos i !! key).
Qed.

Lemma same_users_SetAbilityEnabled b n a e v i : same_users i (InnerBundleInfo.SetAbilityEnabled b n a e v i).1.
Proof.
  unfold InnerBundleInfo.SetAbilityEnabled. case_match; [|done].
  destruct (ib_innerBundleUserInfos i !! NameAndUserIdToKey b v) as [u|] eqn:E; [|done]. split; [done|]. intros key.
  simpl. rewrite sm_lookup_insert. case_decide as Hk; [|done]. by rewrite <- Hk, E.
Qed.

Lemma same_users_put b v s i : same_users i (put_user_state b v s i).
Proof.
  unfold put_user_state. assert (same_users i (InnerBundleInfo.SetApplicationEnabled (bu_enabled s) v i)) as H0
    by by apply same_users_on_user.
  revert H0. generalize (InnerBundleInfo.SetApplicationEnabled (bu_enabled s) v i).
  induction (bu_disabledAbilities s) as [|a l IH]; intros j Hj; [done|]. simpl. apply IH.
  eapply same_users_trans; [exact Hj|]. apply same_users_SetAbilityEnabled.
Qed.

(** Two tables with the same bundles. *)
Definition same_bundles (infos infos' : stdmap string InnerBundleInfo) : Prop :=
  ∀ b, match infos !! b, infos' !! b with Some i, Some j => same_users i j | None, None => True | _, _ => False end.

Lemma same_bundles_refl infos : same_bundles infos infos.
Proof. intros b. by destruct (infos !! b). Qed.

Lemma same_bundles_trans x y z : same_bundles x y → same_bundles y z → same_bundles x z.
Proof.
  intros H1 H2 b. specialize (H1 b). specialize (H2 b). destruct (x !! b), (y !! b), (z !! b); try done.
  by eapply same_users_trans.
Qed.

Lemma same_bundles_map f infos : (∀ i, same_users i (f i)) → same_bundles infos (map_values (λ _, f) infos).
Proof. intros Hf b. rewrite sm_lookup_map_values. by destruct (infos !! b) as [i|]; simpl. Qed.

Lemma same_bundles_insert b i j infos :
  infos !! b = Some i → same_users i j → same_bundles infos (<[b := j]> infos).
Proof.
  intros Hi Hs c. rewrite sm_lookup_insert. case_decide as Hc; [subst; by rewrite Hi|by destruct (infos !! c)].
Qed.

(** The state file changes what is enabled, and nothing else. *)
Lemma LoadAllBundleStateDataFromJsonDb_same m :
  let m' := LoadAllBundleStateDataFromJsonDb SplitStr m in
  same_bundles (dm_bundleInfos m) (dm_bundleInfos m') ∧ dm_bundleIdMap m' = dm_bundleIdMap m
  ∧ dm_multiUserIdsSet m' = dm_multiUserIdsSet m ∧ dm_installStates m' = dm_installStates m.
Proof.
  unfold LoadAllBundleStateDataFromJsonDb. destruct (LoadAllBundleStateData _ _ _) as [states ok].
  destruct (negb ok || sm_is_empty states); [by split_and!; try apply same_bundles_refl|].
  generalize (elems states). clear states. intros states. revert m.
  induction states as [|s states IH]; intros m; [by split_and!; try apply same_bundles_refl|]. simpl.
  destruct (dm_bundleInfos m !! s.1) as [i|] eqn:E; [|apply IH].
  set (m1 := m <| dm_bundleInfos ::= _ |>). destruct (IH m1) as (H1 & H2 & H3 & H4). split_and!; try done.
  eapply same_bundles_trans; [|exact H1]. eapply same_bundles_insert; [exact E|].
  assert (∀ (l : list (Z * BundleUserInfo)) j, same_users i j → same_users i (foldl (λ info v, put_user_state s.1 v.1 v.2 info) j l)) as Hput.
  { clear IH. induction l as [|v l IH]; intros j Hj; [done|]. simpl. apply IH. eapply same_users_trans; [exact Hj|].
    apply same_users_put. }
  by apply Hput.
Qed.

Lemma CompatibleOldBundleStateInKvDb_same m m' :
  CompatibleOldBundleStateInKvDb m = Some m' → m' = m <| dm_stateFile := dm_stateFile m' |>.
Proof.
  unfold CompatibleOldBundleStateInKvDb. match goal with |- foldl ?f _ _ = _ → _ => set (step := f) end.
  assert (∀ (l : list (string * InnerBundleUserInfo)) o, (o = None ∨ ∃ f, o = Some (m <| dm_stateFile := f |>)) →
    foldl step o l = Some m' → m' = m <| dm_stateFile := dm_stateFile m' |>) as Hfold.
  { induction l as [|p l IH]; intros o Ho; simpl.
    - intros ->. destruct Ho as [?|[f [= ->]]]; [done|]. by destruct m.
    - apply IH. destruct Ho as [->|[f ->]]; [by left|]. unfold step. destruct (IsInitialState _); [right; by exists f|].
      destruct (SaveBundleStateStorage _ _ _ _) as [[g ok]|]; [right; exists g; by destruct m|by left]. }
  apply Hfold. right. exists (dm_stateFile m). by destruct m.
Qed.

(** The ids that the restored bundles bring: one entry per bundle with a user. *)
Definition first_id i : option (Z * string) :=
  match sm_vals (ib_innerBundleUserInfos i) with [] => None | u :: _ => Some (id_of u, ibu_bundleName u) end.

Lemma restore_bundle_frame m i :
  dm_bundleInfos (restore_bundle m i) = dm_bundleInfos m ∧ dm_installStates (restore_bundle m i) = dm_installStates m
  ∧ dm_dataStorage (restore_bundle m i) = dm_dataStorage m ∧ dm_stateFile (restore_bundle m i) = dm_stateFile m
  ∧ dm_bundleIdMap (restore_bundle m i)
    = match first_id i with None => dm_bundleIdMap m | Some (j, b) => <[j := b]> (dm_bundleIdMap m) end
  ∧ dm_multiUserIdsSet (restore_bundle m i)
    = foldl (λ s u, {[user_of u]} ∪ s) (dm_multiUserIdsSet m) (sm_vals (ib_innerBundleUserInfos i)).
Proof.
  unfold restore_bundle, first_id. set (us := sm_vals _).
  assert (∀ m, let m' := foldl (λ m u, AddUserId (user_of u) m) m us in
    dm_bundleInfos m' = dm_bundleInfos m ∧ dm_installStates m' = dm_installStates m
    ∧ dm_dataStorage m' = dm_dataStorage m ∧ dm_stateFile m' = dm_stateFile m ∧ dm_bundleIdMap m' = dm_bundleIdMap m
    ∧ dm_multiUserIdsSet m' = foldl (λ s u, {[user_of u]} ∪ s) (dm_multiUserIdsSet m) us) as Hadd.
  { generalize us. intros ws. induction ws as [|u ws IH]; intros m0; [done|]. simpl. apply (IH (AddUserId (user_of u) m0)). }
  destruct (Hadd m) as (H1 & H2 & H3 & H4 & H5 & H6). destruct us as [|u us]; [done|]. simpl in *. by rewrite H5.
Qed.

Lemma restore_ids (bs : list InnerBundleInfo) m (ids : stdmap Z string) :
  (∀ i j b, i ∈ bs → first_id i = Some (j, b) → ids !! j = Some b) →
  (∀ j b, dm_bundleIdMap m !! j = Some b → ids !! j = Some b) → sm_wf (dm_bundleIdMap m) →
  let m' := foldl restore_bundle m bs in
  sm_wf (dm_bundleIdMap m')
  ∧ (∀ j b, dm_bundleIdMap m' !! j = Some b → ids !! j = Some b)
  ∧ (∀ j b, dm_bundleIdMap m !! j = Some b → dm_bundleIdMap m' !! j = Some b)
  ∧ (∀ i j b, i ∈ bs → first_id i = Some (j, b) → dm_bundleIdMap m' !! j = Some b).
Proof.
  revert m. induction bs as [|i bs IH]; intros m His Hm Hwf.
  { split_and!; try done. intros i j b Hin. by apply not_elem_of_nil in Hin. }
  simpl. destruct (restore_bundle_frame m i) as (_ & _ & _ & _ & Eids & _).
  set (m1 := restore_bundle m i) in *.
  assert (∀ j b, dm_bundleIdMap m1 !! j = Some b → ids !! j = Some b) as Hm1.
  { intros j b. rewrite Eids. destruct (first_id i) as [[k c]|] eqn:E; [|apply Hm].
    rewrite sm_lookup_insert. case_decide; [intros [= <-]; subst; apply (His i); [by left|done]|apply Hm]. }
  assert (∀ j b, dm_bundleIdMap m !! j = Some b → dm_bundleIdMap m1 !! j = Some b) as Hkeep.
  { intros j b Hj. rewrite Eids. destruct (first_id i) as [[k c]|] eqn:E; [|done]. rewrite sm_lookup_insert.
    case_decide; [|done]. subst. specialize (His i j c ltac:(by left) E). apply Hm in Hj. congruence. }
  destruct (IH m1) as (H1 & H2 & H3 & H4).
  { intros x j b Hx. apply His. by right. }
  { done. }
  { rewrite Eids. destruct (first_id i) as [[k c]|]; auto with cpp. }
  split_and!; [done|done|by eauto|]. intros x j b [->|Hx]%elem_of_cons Hf; [|by eapply H4].
  apply H3. rewrite Eids, Hf. apply sm_lookup_insert_eq.
Qed.

Lemma restore_rest (bs : list InnerBundleInfo) m :
  let m' := foldl restore_bundle m bs in
  dm_bundleInfos m' = dm_bundleInfos m ∧ dm_dataStorage m' = dm_dataStorage m ∧ dm_stateFile m' = dm_stateFile m
  ∧ dm_installStates m' = dm_installStates m
  ∧ ∀ v, v ∈ dm_multiUserIdsSet m'
         ↔ v ∈ dm_multiUserIdsSet m ∨ ∃ i u, i ∈ bs ∧ u ∈ sm_vals (ib_innerBundleUserInfos i) ∧ v = user_of u.
Proof.
  revert m. induction bs as [|i bs IH]; intros m.
  { split_and!; try done. intros v. split; [by left|]. intros [?|(? & ? & Hin & _)]; [done|]. by apply not_elem_of_nil in Hin. }
  simpl. destruct (restore_bundle_frame m i) as (E1 & E2 & E3 & E4 & _ & E6).
  destruct (IH (restore_bundle m i)) as (H1 & H2 & H3 & H4 & H5). split_and!; try congruence.
  assert (∀ (us : list InnerBundleUserInfo) (s : gset Z) v,
    v ∈ foldl (λ s u, {[user_of u]} ∪ s) s us ↔ v ∈ s ∨ ∃ u, u ∈ us ∧ v = user_of u) as Hfold.
  { induction us as [|u us IHus]; intros s v; simpl; [set_solver|]. rewrite IHus. set_solver. }
  intros v. rewrite H5, E6, Hfold. set_solver.
Qed.

(** The manager and its store before the service stops. *)
Record at_rest m : Prop := {
  rest_inv : mgr_inv m;
  rest_wf : sm_wf (dm_bundleInfos m);
  rest_stored : kv_entries (dm_dataStorage m) = dm_bundleInfos m;
  rest_settled b i : dm_bundleInfos m !! b = Some i → settled b i;
  rest_users b i : dm_bundleInfos m !! b = Some i → sm_wf (ib_innerBundleUserInfos i);
  rest_named b i key u :
    dm_bundleInfos m !! b = Some i → ib_innerBundleUserInfos i !! key = Some u → ibu_bundleName u = b;
}.

Lemma first_id_owned m b i j c :
  at_rest m → dm_bundleInfos m !! b = Some i → first_id i = Some (j, c) → dm_bundleIdMap m !! j = Some c ∧ c = b.
Proof.
  intros Hm Hi Hf. destruct (rest_inv m Hm) as [Hids Hinfos]. unfold first_id in Hf.
  destruct (sm_vals (ib_innerBundleUserInfos i)) as [|u us] eqn:E; [done|]. injection Hf as <- <-.
  assert (∃ key, ib_innerBundleUserInfos i !! key = Some u) as [key Hu].
  { unfold sm_vals in E. destruct (elems (ib_innerBundleUserInfos i)) as [|[k v] l] eqn:El; [done|].
    injection E as <- _. exists k. apply sm_elem_lookup; [by eapply rest_users|]. rewrite El. by left. }
  rewrite (rest_named m Hm _ _ _ _ Hi Hu). split; [|done].
  by eapply (owned_id (dm_bundleIdMap m)); [done|done|apply (Hinfos _ _ Hi) in Hu as [_ ?]].
Qed.

Lemma owned_info_same ids b i j : same_users i j → owned_info ids b i → owned_info ids b j.
Proof.
  intros [Hn Hu] [Hname Hown]. split; [congruence|]. intros key u Hj. specialize (Hu key). rewrite Hj in Hu.
  destruct (ib_innerBundleUserInfos i !! key) as [w|] eqn:E; [|done]. simpl in Hu. unfold id_card in Hu.
  injection Hu as E1 E2 _ _ _. destruct (Hown _ _ E) as (Hk & k & H1 & H2 & H3).
  rewrite <- E1. split; [done|]. exists k. by rewrite <- E1, <- E2.
Qed.

(** The bundles that are read back, and the users of one. *)
Lemma stored_vals m x :
  sm_wf (dm_bundleInfos m) →
  x ∈ sm_vals (map_values (λ _, stored) (dm_bundleInfos m)) ↔ ∃ b i, dm_bundleInfos m !! b = Some i ∧ x = stored i.
Proof.
  intros Hwf. unfold sm_vals, map_values. simpl. rewrite <- list_fmap_compose, list_elem_of_fmap. split.
  - intros ([b i] & -> & Hb). exists b, i. split; [|done]. by apply sm_elem_lookup.
  - intros (b & i & Hi & ->). exists (b, i). split; [done|]. by apply sm_lookup_elem.
Qed.

Lemma user_vals i u :
  sm_wf (ib_innerBundleUserInfos i) →
  u ∈ sm_vals (ib_innerBundleUserInfos i) ↔ ∃ key, ib_innerBundleUserInfos i !! key = Some u.
Proof.
  intros Hwf. unfold sm_vals. rewrite list_elem_of_fmap. split.
  - intros ([key v] & -> & Hu). exists key. by apply sm_elem_lookup.
  - intros (key & Hu). exists (key, u). split; [done|]. by apply sm_lookup_elem.
Qed.

(** Restoring the ids of the bundles a manager at rest had. *)
Lemma RestoreUidAndGid_same m m0 :
  at_rest m → dm_bundleIdMap m0 = ∅ →
  dm_bundleInfos m0 = map_values (λ _, stored) (dm_bundleInfos m) →
  let m' := RestoreUidAndGid m0 in
  sm_wf (dm_bundleIdMap m') ∧ (∀ j b, dm_bundleIdMap m' !! j = Some b → dm_bundleIdMap m !! j = Some b)
  ∧ ∀ b i key u, dm_bundleInfos m !! b = Some i → ib_innerBundleUserInfos i !! key = Some u →
      dm_bundleIdMap m' !! id_of u = Some b.
Proof.
  intros Hm Hids0 Hinfos0. unfold RestoreUidAndGid. rewrite Hinfos0.
  pose proof (λ x, stored_vals m x (rest_wf m Hm)) as Hin.
  destruct (restore_ids (sm_vals (map_values (λ _, stored) (dm_bundleInfos m))) m0 (dm_bundleIdMap m)) as (H1 & H2 & _ & H4).
  - intros x j b (c & i & Hi & ->)%Hin Hf. by eapply first_id_owned.
  - intros j b. by rewrite Hids0.
  - rewrite Hids0. apply sm_wf_empty.
  - split_and!; [done|done|]. intros b i key u Hi Hu.
    destruct (rest_inv m Hm) as [Hids Hinfos].
    assert (dm_bundleIdMap m !! id_of u = Some b) as Hid.
    { eapply (owned_id (dm_bundleIdMap m)); [done|done|]. by apply (Hinfos _ _ Hi) in Hu as [_ ?]. }
    destruct (first_id i) as [[j c]|] eqn:Ef.
    + destruct (first_id_owned m b i j c Hm Hi Ef) as [Hj ->].
      assert (id_of u = j) as -> by (apply (proj2 (proj2 Hids)) with b; done).
      apply (H4 (stored i)); [|done]. apply Hin. by exists b, i.
    + unfold first_id in Ef. apply sm_lookup_elem in Hu. unfold sm_vals in Ef.
      destruct (elems (ib_innerBundleUserInfos i)) eqn:El; [by apply not_elem_of_nil in Hu|done].
Qed.

Lemma installed_all (l : list (string * InnerBundleInfo)) (s : stdmap string InstallState) b :
  foldl (λ s item, emplace item.1 INSTALL_SUCCESS s) s l !! b
  = match s !! b with Some x => Some x | None => if decide (b ∈ l.*1) then Some INSTALL_SUCCESS else None end.
Proof.
  revert s. induction l as [|[c i] l IH]; intros s; simpl; [by destruct (s !! b)|].
  rewrite IH, sm_lookup_emplace. destruct (s !! b); [done|]. destruct (decide (c = b)) as [->|Hne].
  - by rewrite decide_True by (by left).
  - destruct (decide (b ∈ l.*1)) as [Hb|Hb]; [by rewrite decide_True by (by right)|].
    rewrite decide_False; [done|]. intros [?|?]%elem_of_cons; [congruence|done].
Qed.

(** The manager keeps its invariant when it knows some of its ids, those of
    its bundles among them. *)
Lemma mgr_inv_same m m' :
  mgr_inv m → sm_wf (dm_bundleIdMap m') →
  (∀ j b, dm_bundleIdMap m' !! j = Some b → dm_bundleIdMap m !! j = Some b) →
  same_bundles (dm_bundleInfos m) (dm_bundleInfos m') →
  (∀ b i key u, dm_bundleInfos m !! b = Some i → ib_innerBundleUserInfos i !! key = Some u →
     dm_bundleIdMap m' !! id_of u = Some b) →
  mgr_inv m'.
Proof.
  intros [(_ & Hrange & Hinj) Hinfos] Hwf Hsub Hsame Hids. split.
  { split_and!; [done|intros j b Hj; by eapply Hrange, Hsub|]. intros j k b Hj Hk. eapply Hinj; by apply Hsub. }
  intros b j Hj. specialize (Hsame b). rewrite Hj in Hsame.
  destruct (dm_bundleInfos m !! b) as [i|] eqn:Hi; [|done].
  pose proof (owned_info_same _ _ _ _ Hsame (Hinfos _ _ Hi)) as [Hn Hown]. split; [done|].
  intros key u Hu. destruct (Hown _ _ Hu) as (Hk & id & Hid & Hr & Huid). split; [done|].
  exists id. split; [|done]. destruct Hsame as [_ Husers]. specialize (Husers key). rewrite Hu in Husers.
  destruct (ib_innerBundleUserInfos i !! key) as [w|] eqn:Hw; [|done].
  specialize (Hids b i key w Hi Hw). simpl in Husers. unfold id_card in Husers. injection Husers as E1 E2 _ _ _.
  apply Hsub in Hids as Hid2. assert (id_of w = id) as <-; [|done].
  assert (id_of u = id_of w) as Huw by (unfold id_of; by rewrite E1, E2).
  pose proof (owned_id (dm_bundleIdMap m) b u m eq_refl) as Ho. rewrite <- Huw. symmetry.
  eapply Hinj; [exact Hid|]. by rewrite Huw.
Qed.

End Restart.

(** * An error that outlives its entry *)

Section Faults.
Context {K V D : Type} `{HK : KvStore K} `{HT : !KvTexts K V} `{HD : Installd D} `{HU : Uninit}.
#[local] Abbreviation loading := (Loading K D).
Implicit Types (l : loading) (i : InnerBundleInfo).

Lemma FromJson_bundle_skipped j x s : profile s ≠ ERR_OK → FromJson_bundle j x s = Some (x, s).
Proof. intros Hp. unfold FromJson_bundle. by repeat (rewrite skipped; [|exact Hp]). Qed.

Lemma keeps_users j x : keeps_profile (FromJson_users j x).
Proof.
  unfold FromJson_users, get_InnerBundleUserInfo, InnerBundleUserInfo_from_json, get_BundleUserInfo,
    BundleUserInfo_from_json, get_int32, get_uint32. keep_profile.
Qed.

(** A thread that still has an error reads no entry. *)
Lemma FromJson_poisoned j x s r s' :
  profile s ≠ ERR_OK → InnerBundleInfo_FromJson j x s = Some (r, s') → r.2 ≠ ERR_OK.
Proof.
  intros Hp. unfold InnerBundleInfo_FromJson. unfold mbind, M_bind at 1. rewrite FromJson_bundle_skipped by done.
  unfold M_bind at 1. destruct (with_local _ s) as [[[x1 old] s1]|] eqn:E1; [|done].
  assert (profile s1 = profile s) as Hs1 by (eapply (keeps_with_local _ (keeps_users j x)), E1).
  unfold M_bind, read_var, write_var. simpl. match goal with |- context [with_local ?m ?s] => destruct (with_local m s) as [[[x2 res] s2]|] end; [|done].
  intros [= <- _]. simpl. rewrite Hs1. by destruct (Z.eqb_spec res ERR_OK).
Qed.

Lemma load_poisoned infos upd item l l' infos' upd' :
  ld_parseResult l ≠ ERR_OK → load_entry infos upd item l = Some (l', infos', upd') →
  infos' = infos ∧ upd' = upd ∧ ld_store l' = (kv_Delete item.1 (ld_store l)).1.
Proof.
  intros Hl. unfold load_entry, parse_bundle. destruct (parse_text item.2) as [j|]; [|by intros [= <- <- <-]].
  destruct (InnerBundleInfo_FromJson _ _ _) as [[[i r] s]|] eqn:E; [|done].
  apply FromJson_poisoned in E; [|done]. simpl in E. destruct (Z.eqb_spec r ERR_OK); [done|].
  by intros [= <- <- <-].
Qed.

(** The text of a bundle with another value for the sandbox index. *)
Definition with_appIndex (v : json) i : json := set_key "appIndex" v (InnerBundleInfo_ToJson i JNull).

Lemma with_appIndex_finds v i key :
  key ≠ "appIndex" → find_key (with_appIndex v i) key = find_key (InnerBundleInfo_ToJson i JNull) key.
Proof.
  intros Hk. unfold with_appIndex. set (j := InnerBundleInfo_ToJson i JNull).
  assert (is_Some (match j with JObject m => Some m | _ => None end)) as [m Hm] by (unfold j; simpl; eauto).
  destruct j; try done. simpl. by apply sm_lookup_insert_ne.
Qed.

Lemma before_sandbox_ext j j' :
  (∀ key, key ≠ "appIndex" → find_key j key = find_key j' key) →
  FromJson_bundle j = FromJson_bundle j' ∧ FromJson_users j = FromJson_users j'
  ∧ FromJson_new_version j = FromJson_new_version j'.
Proof.
  intros Hf. split_and!.
  - unfold FromJson_bundle. read_from j j' Hf. done.
  - unfold FromJson_users. read_from j j' Hf. done.
  - unfold FromJson_new_version. read_from j j' Hf. done.
Qed.

Lemma bad_sandbox v j x s :
  find_key j "appIndex" = Some v → is_number v = false → profile s = ERR_OK →
  FromJson_sandbox j x s = Some (x, mkParseState ERR_APPEXECFWK_PARSE_PROFILE_PROP_TYPE_ERROR (local s)).
Proof.
  intros Hf Hv Hs. unfold FromJson_sandbox.
  erewrite run_bind.
  2:{ unfold GetValueIfFindKey. simpl. rewrite Hs, Hf. simpl. rewrite Hv. reflexivity. }
  by repeat (rewrite skipped by done).
Qed.

Lemma FromJson_bad_appIndex v i :
  InnerBundleInfo_ok i → is_number v = false →
  InnerBundleInfo_FromJson (with_appIndex v i) new_InnerBundleInfo (mkParseState ERR_OK ERR_OK)
  = Some ((stored i <| ib_appIndex := 0 |> <| ib_isSandboxApp := false |> <| ib_sandboxPersistentInfo := [] |>, ERR_OK),
          mkParseState ERR_APPEXECFWK_PARSE_PROFILE_PROP_TYPE_ERROR ERR_OK).
Proof.
  unfold InnerBundleInfo_ok. intros Hi Hv. destruct_and?. unfold InnerBundleInfo_FromJson.
  destruct (before_sandbox_ext _ _ (with_appIndex_finds v i)) as (-> & -> & ->).
  erewrite run_reads; [|unfold FromJson_bundle; read_part].
  erewrite (run_local _ _ _ ERR_OK); [|match goal with |- ?m _ = Some (?x, _) => change (reads m x) end; unfold FromJson_users; read_part].
  cbv beta iota. erewrite run_bind by done. erewrite run_bind by done. simpl.
  erewrite run_local; [|erewrite run_reads; [by apply (bad_sandbox v)|unfold FromJson_new_version; read_part]].
  done.
Qed.

(** What FromJson makes of such a text. *)
Definition defaulted i : InnerBundleInfo :=
  stored i <| ib_appIndex := 0 |> <| ib_isSandboxApp := false |> <| ib_sandboxPersistentInfo := [] |>.

(** C9: an error outlives its entry.  A stored bundle whose sandbox index is
    not a number is loaded, with the sandbox members at their defaults, but
    the error stays in the thread's parseResult: the entry loaded next is not
    read and is deleted from the store, whatever it holds. *)
Theorem error_outlives_entry infos upd b i v item l l' infos' upd' :
  settled b i → printable (with_appIndex v i) → is_number v = false → ld_parseResult l = ERR_OK →
  load_entries infos upd [(b, to_text (with_appIndex v i)); item] l = Some (l', infos', upd') →
  infos' = emplace b (defaulted i) infos ∧ upd' = upd ∧ ld_store l' = (kv_Delete item.1 (ld_store l)).1.
Proof.
  intros (Hname & Hok & _ & Hmark & _) Hprint Hv Hl. cbn [load_entries].
  rewrite (load_valid _ _ _ _ (with_appIndex v i) (defaulted i) l
    (l <| ld_parseResult := ERR_APPEXECFWK_PARSE_PROFILE_PROP_TYPE_ERROR |>)); try done.
  - destruct (load_entry _ _ item _) as [[[l2 infos2] upd2]|] eqn:E; [|done].
    intros [= -> -> ->]. by apply load_poisoned in E.
  - by rewrite parse_to_text.
  - unfold parse_bundle. by rewrite Hl, FromJson_bad_appIndex.
Qed.
End Faults.

(** * Concrete runs *)

Section Demo.
#[local] Instance map_texts : KvTexts (stdmap string InnerBundleInfo) json.
Proof.
  refine {| to_text j := j; parse_text := Some; printable _ := True;
            kv_GetEntries k := (k, SUCCESS, map (λ p, (p.1, InnerBundleInfo_ToJson p.2 JNull)) (elems k)) |}; done.
Defined.

(** The calls installd was given. *)
#[local] Instance list_installd : Installd (list (string * string)) := {|
  RemoveDir d l := (l ++ [("RemoveDir", d)], true);
  RemoveModuleDataDir d u l := (l ++ [("RemoveModuleDataDir", d)], true);
  RemoveBundleDataDir d u l := (l ++ [("RemoveBundleDataDir", d)], true);
  RenameModuleDir d e l := (l ++ [("RenameModuleDir", d)], true);
|}.

#[local] Instance zeros : Uninit := {| uninit := 0; uninit_type := ExtensionAbilityType_FORM |}.


(** A store with one installed bundle, at rest. *)
Definition demo_bundle : InnerBundleInfo :=
  demo_installed <| ib_mark := mkInstallMark "com.demo" "entry" INSTALL_FINISH |>.
Definition demo_rest : demo_mgr :=
  demo_ids <| dm_bundleInfos := <["com.demo" := demo_bundle]> ∅ |> <| dm_dataStorage := <["com.demo" := demo_bundle]> ∅ |>
    <| dm_stateFile := Some "" |>.

(** Bounds and well-formedness of the members of a closed value. *)
Ltac closed_ok :=
  repeat lazymatch goal with
  | |- _ ∧ _ => split
  | |- _ = _ => reflexivity
  | |- in_i32 ?x => let y := eval vm_compute in x in change (in_i32 y); split; discriminate
  | |- in_u32 ?x => let y := eval vm_compute in x in change (in_u32 y); split; discriminate
  | |- in_i64 ?x => let y := eval vm_compute in x in change (in_i64 y); split; discriminate
  | |- sm_wf ?m => let es := eval vm_compute in (elems m) in change (StronglySorted key_below es); repeat constructor
  | |- Forall ?P ?l => let l' := eval vm_compute in l in change (Forall P l');
                       lazymatch l' with [] => constructor | _ => constructor; cbv beta end
  | |- _ => red
  end.

Lemma demo_ok : InnerBundleInfo_ok demo_bundle.
Proof. closed_ok. Qed.

#[local] Existing Instance bits_json.

Lemma InnerBundleInfo_round_trip_witness :
  InnerBundleInfo_FromJson (InnerBundleInfo_ToJson demo_bundle JNull) new_InnerBundleInfo (mkParseState ERR_OK ERR_OK)
  = Some ((stored demo_bundle, ERR_OK), mkParseState ERR_OK ERR_OK).
Proof. exact (InnerBundleInfo_round_trip demo_bundle demo_ok). Defined.

Lemma demo_settled : settled "com.demo" demo_bundle.
Proof. by split_and!; [|apply demo_ok| | |]. Qed.

Lemma demo_only b i : dm_bundleInfos demo_rest !! b = Some i → b = "com.demo" ∧ i = demo_bundle.
Proof.
  intros Hi%sm_lookup_elem. change (elems _) with [("com.demo", demo_bundle)] in Hi.
  apply list_elem_of_singleton in Hi as [= -> ->]. split; reflexivity.
Qed.

Lemma demo_user_only key u :
  ib_innerBundleUserInfos demo_bundle !! key = Some u → key = "com.demo_0" ∧ u = demo_uid_user 0.
Proof.
  intros Hu%sm_lookup_elem. change (elems _) with [("com.demo_0", demo_uid_user 0)] in Hu.
  apply list_elem_of_singleton in Hu as [= -> ->]. split; reflexivity.
Qed.

Lemma demo_at_rest : at_rest demo_rest.
Proof.
  split.
  - split; [apply demo_ids_wf|]. intros b i [-> ->]%demo_only. split; [done|]. intros key u [-> ->]%demo_user_only.
    split; [done|]. exists 10000. by split_and!.
  - apply (sm_wf_insert "com.demo" demo_bundle), sm_wf_empty.
  - done.
  - intros b i [-> ->]%demo_only. apply demo_settled.
  - intros b i [-> ->]%demo_only. closed_ok.
  - by intros b i key u [-> ->]%demo_only [-> ->]%demo_user_only.
Qed.


(** The second entry is the same valid bundle under another key. *)
Lemma error_outlives_entry_witness :
  let l := mkLoading (stdmap string InnerBundleInfo) (list (string * string))
             (<["com.demo" := demo_bundle]> (<["com.other" := demo_bundle]> ∅)) [] [] ERR_OK in
  ∃ l' infos' upd',
    load_entries ∅ ∅ [("com.demo", to_text (with_appIndex (JString "1") demo_bundle)); ("com.other", ToString demo_bundle)] l
    = Some (l', infos', upd')
    ∧ infos' = emplace "com.demo" (defaulted demo_bundle) ∅ ∧ kv_entries (ld_store l') = <["com.demo" := demo_bundle]> ∅.
Proof.
  intros l.
  destruct (load_entries ∅ ∅ _ l) as [[[l' infos'] upd']|] eqn:E; [|vm_compute in E; discriminate].
  exists l', infos', upd'.
  destruct (error_outlives_entry ∅ ∅ "com.demo" demo_bundle (JString "1") ("com.other", ToString demo_bundle) l l' infos' upd'
    demo_settled I eq_refl eq_refl E) as (H1 & H2 & H3).
  split; [reflexivity|]. split; [exact H1|]. rewrite H3. reflexivity.
Defined.
End Demo.
